(* ===== verification/_CoqProject ===== *)
-Q . S2P
Prelude.v
JsText.v
Json.v
SshKey.v
JsonParse.v
Domain.v
PageCursor.v
Ipv4.v
WorkflowStage.v
Saga.v
Events.v
PlanGate.v
EventValidation.v
Platform.v
JsonOrder.v
MessageCodec.v
KafkaConsumer.v
ProviderPort.v
Lifecycle.v
Capabilities.v
Executors.v
ExecutorSafety.v
ExecutorProgress.v
ExecutorFindings.v
WorkflowRegistry.v
WorkflowStore.v
Fencing.v
Inbox.v
CommandConsumer.v
ControlDb.v
AcceptStore.v
AcceptCreate.v
Reconciliation.v
Control.v
Projection.v
ControlHistory.v
Acceptance.v
ReadModel.v
ControlSafety.v
Addresses.v
Quota.v
DocumentHistory.v
ProjectionLimits.v
Published.v
Reads.v
ControlPlane.v
ApplicationSafety.v
ControlApi.v
ControlGrpc.v
ApiSafety.v
ConsoleClient.v
ConsoleRetry.v
EventCodec.v
Wire.v
Delivery.v
ProjectionConsumer.v
EventDelivery.v
SagaLogic.v
Ownership.v
Redaction.v
TerraformRunner.v
DirectClient.v
TerraformProvider.v
ProviderLogic.v
TerraformSafety.v
TerraformLimits.v
PurgeOverTerraform.v
TerraformStore.v
InventorySafety.v
TerraformOverStore.v
ProxmoxProvider.v
ProxmoxSafety.v
ProxmoxLimits.v
ProviderWire.v
ProviderOverProxmox.v
ConsoleBff.v
ConsoleSafety.v
FakeProvider.v
FakeSafety.v
ProviderFactory.v
