(* ===== verification/Prelude.v ===== *)
(** * A verification development of the private-cloud control plane

    The program is a set of TypeScript services around one PostgreSQL database.
    The control API takes requests against virtual machines over REST and gRPC
    and commits each as durable intent with an outbox command.  The orchestrator
    admits commands from Kafka, and its workers claim workflows under a lease
    with a fencing token and advance them one stage at a time through a
    provider service, which runs one of three adapters: Terraform, the Proxmox
    API itself, or a deterministic fake.  The control API consumes the workflow
    events and projects them into the authoritative rows and the read
    documents; a reconciler compares the rows with what the provider observes.
    A console (a browser client and its own server) is one of the callers.

    ** Which file models which part

    Foundations:
    - [Prelude]: the result type, transactions ([tx]: state and error, an error
      rolls back), 32-bit arithmetic, and the lemmas and tactics shared by all.
    - [JsText], [Json], [JsonParse], [JsonOrder]: strings, numbers and JSON of
      the language: writing, reading, the canonical form, and what does not
      depend on the order of members.
    - [Domain], [SshKey], [Ipv4]: [domain/src/index.ts].
    - [Platform]: collation, SHA-256, dates and identifiers as a type class;
      [audit-event.ts] and [trace-carrier.ts].
    - [Saga]: a step as a program over effects whose replies are arbitrary;
      [SagaLogic], [ProviderLogic]: a logic for such programs and the tactic
      that follows them.

    The control API:
    - [ControlApi], [ControlGrpc]: [apps/control-api]: token verification, the
      REST controllers and the exception filter; the gRPC controllers, status
      mapping and message mappers.  [ApiSafety]: a call over either transport
      as one transaction, and its theorems.
    - [ControlPlane]: the application service ([control-plane.ts]) and
      [request-context.ts]; theorems in [ApplicationSafety].
    - [ControlDb]: the tables of the control and projection schemas, and
      [instance-guard.ts]; [AcceptStore] and [AcceptCreate]: the writing
      transactions of [control-plane-store.ts]; [Reads]: its reads,
      with the theorems on reading a listing to its end; [PageCursor]:
      [page-cursor.ts] and the seek queries; [Projection]: [projection-store.ts];
      [Reconciliation]: [reconciliation-store.ts] and
      [reconciliation-worker.ts].
    - [Control]: the seven accepting transactions as one operation [accept] and
      the inversion of a success ([accept_inv]); [ControlHistory]: histories of
      all transactions of these stores.
    - [Acceptance], [ReadModel], [ControlSafety], [Addresses], [Quota],
      [DocumentHistory], [ProjectionLimits]: their theorems.

    The orchestrator:
    - [WorkflowStage], [Events], [EventValidation]: [workflow-stage.ts], the
      event contract, and the guards of [event-validation.ts].
    - [ProviderPort], [Lifecycle], [Capabilities]: the ports of a step,
      [lifecycle-workflow.ts] and the five capability files; one Module per
      class, the abstract members as the class [LifecycleCapability].
      [Executors], [ExecutorSafety], [ExecutorProgress] and
      [ExecutorFindings] prove their theorems.
    - [WorkflowRegistry]: [workflow-registry.ts].
    - [WorkflowStore]: every transaction of [workflow-store.ts] over
      [WorkflowDb]; theorems in [Fencing] (leases, tokens, claims,
      checkpoints) and [Inbox] (admission and governed replay).
    - [MessageCodec], [KafkaConsumer]: the messaging package; what a service
      plugs into the consumer is the class [Ingress].  [CommandConsumer] is the
      orchestrator's, [ProjectionConsumer] the control API's.

    Between the services:
    - [Published], [Wire], [Delivery]: from an accepted mutation to the command
      in the outbox, across Kafka, to the workflow.
    - [EventCodec], [EventDelivery]: from a committed event to the projection.

    The provider service:
    - [Ownership], [Redaction], [PlanGate]: markers and bounds,
      [diagnostics.ts], [plan-gate.ts].
    - [TerraformRunner], [DirectClient], [TerraformProvider]: [tfvars.ts] and
      [runner.ts], [direct-client.ts], [terraform-proxmox-provider.ts];
      theorems in [TerraformSafety], [TerraformLimits] and
      [PurgeOverTerraform].
    - [TerraformStore]: [terraform-inventory-store.ts]; theorems in
      [InventorySafety], and in [TerraformOverStore] for the provider running
      over it.
    - [ProxmoxProvider]: [proxmox-provider.ts]; theorems in [ProxmoxSafety] and
      [ProxmoxLimits].
    - [FakeProvider], [FakeSafety]: [fake-provider.ts].
    - [ProviderFactory]: [provider.factory.ts].
    - [ProviderWire], [ProviderOverProxmox]: the gRPC boundary to the
      orchestrator, and the workflows over the direct adapter across it.

    The console:
    - [ConsoleBff], [ConsoleSafety]: its server ([apps/console-bff]).
    - [ConsoleClient], [ConsoleRetry]: the mutations of the browser client
      ([idempotency.ts], [api.ts], [problem.ts]), and what its idempotency keys
      come to at the server.

    ** What the theorems show

    - Access: nothing changes without a verified token whose claims allow it
      ([changes_need_a_verified_caller], [access_is_controlled]); REST and gRPC
      perform the same request where REST takes it ([transports_agree]); what
      the console's server shows a browser does not depend on a token, but for
      the text of a failed call, and the API gets only issued ones
      ([browser_view_is_independent_of_the_token],
      [api_calls_carry_issued_tokens]).
    - Exactly once, at each hop: a request is performed at most once
      ([request_is_performed_once], [request_identity], [retry_is_replayed]), a
      command starts one workflow ([admission_is_exactly_once],
      [replay_is_authorized_once]), an event is projected once
      ([projection_is_exactly_once]), an answered mutation of the fake provider
      is settled ([answered_mutation_is_settled]).
    - Delivery: an accepted mutation becomes its workflow if it fits the
      command's contract, and is refused on the other side if it does not
      ([accepted_mutation_becomes_its_workflow], [published_commands_are_valid]),
      a committed event its projection ([committed_event_is_projected],
      [events_survive_the_wire]); no record is lost ([no_command_is_lost],
      [no_projection_record_is_lost]); every begun Terraform run ends
      ([every_begun_run_ends]).
    - Exclusion and atomicity: stale holders of a lease write nothing and apply
      nothing ([stale_holder_is_fenced], [stale_request_applies_nothing]), an
      instance has one operation at a time, an address one instance;
      [acceptance_is_atomic], [checkpoint_atomic].
    - Safety of what is done to machines: an apply is gated and a purge proven
      ([apply_is_gated], [gate_is_exact], [purge_proves_ownership],
      [purge_is_verified]), only proven machines change
      ([only_proven_machines_change], [machines_answer_to_their_owners]),
      unknown outcomes go to review, success rests on a read of the resource
      ([success_rests_on_one_read]), a run's outcome is final, reconciliation only reports, a live adapter is run only on
      purpose.
    - Function, bounds and round trips: the read model follows the write model
      ([read_model_follows]), quota under concurrent acceptances
      ([acceptance_respects_quota]), listings read to their end
      ([listing_is_exact]), the IPv4 allocator and its parser, SSH keys, validation, drift, canonical hashes, markers,
      redaction, the guards.
    - Limits of the program as written, each a theorem: among them
      [repeated_action_is_never_performed],
      [oversized_resize_strands_the_instance], [trace_state_without_a_trace],
      [continued_page_skips_the_network], [changed_row_is_missed],
      [concurrent_creates_exceed_quota], [failure_text_is_shown],
      [address_is_not_redacted], [later_operations_fail_unperformed],
      [quarantined_address_stays], [documents_keep_first_intent],
      [failed_snapshot_is_stuck], [terminal_event_releases_any_holder],
      [address_quota_counts_other_projects], [replay_forgets_resource],
      [purge_completes_without_observation], [purge_reason_is_lost],
      [unobservable_instances_starve_the_sweep],
      [purge_may_destroy_another_machine], [replayed_create_clones_again].

    ** Conventions

    - A table is a finite map under its primary key; a unique index is a guard
      of the insertion it constrains.  A transaction runs alone: the row locks
      and advisory locks of the source make the conflicting ones serial, and a
      history is a list of transactions.  The one measurement of the accepting
      transactions that no lock protects is the usage of a project; it is a
      computation of its own ([measureCreate], [measureResize],
      [measureSnapshot]), and [Quota] lets any other transactions commit between
      it and the writes ([accept_amid]), as READ COMMITTED does.  Foreign keys are not modelled where
      the source has just read the row they point to.  A column that no
      modelled operation reads is left out of its row.  The rows another
      transaction holds locked, and the order of an unordered scan, are
      parameters.  What [jsonb] and [uuid] columns refuse is left out.
    - [Call] carries the database clock, the process clock, and the fresh
      identifiers a transaction draws in order; one reading of each clock per
      call.  Instants are milliseconds.  Nothing relates the clocks of
      different calls, except where a theorem says that the database clock does
      not run backwards.
    - Strings are sequences of 8-bit code units, JSON text included.  Numbers
      are exact integers; where the source uses 32-bit operators they are
      written out ([int32], [uint32]).  [Number(text)] is modelled for integers;
      other values, NaN among them, are [None] and fail as the source fails.
    - What the language's runtime and the libraries do is a class: [Platform],
      [Runtime], [Casts], [Base64url], [BigintText], [IpAddresses],
      [TokenVerifier], [Pipes].  What a theorem needs of one is a hypothesis
      (that a digest is hexadecimal, that a date reads back), and its witness
      gives a concrete one.  The outbox connector is the hypothesis [carries].
    - Outside calls are effects with arbitrary replies.  Terraform's documents
      and Proxmox's answers are read at the type the code reads them at; a
      member of another type is what the code makes of it.  Work an adapter
      leaves running after it answered is the second component of its result.
      Evidence identifiers, durations and the wording of internal errors are
      left out.  The fake provider reads its clock once a call.
    - A decoded record drops the members its guard allows and no code names.
    - The random jitter of a retry is a fraction given to the step; the bounds
      of the retry theorems hold for every fraction in the unit interval.
    - Whether Kysely's [executeTakeFirstOrThrow] throws on an UPDATE that
      matched no row depends on its version and is the parameter
      [zeroRowUpdateThrows]; every theorem holds for both values.
    - [commit_mutation] is the tail shared by the six mutations of an existing
      instance.  The writes of a capability commute with the document writes
      between which the source places them, as they touch other tables.
    - Loops that are not structural carry fuel with a proof that it is enough:
      the allocator scans the host offsets of its pool, the registry offers one
      turn to each executor, a parser is given the length of its text, polling
      and retries their attempts.

    ** Not modelled

    - The pages of the console, its query cache and its polling; what Fastify
      does with an exception that leaves a handler; static files.
    - The start and the timers of the processes, connection and security
      settings, telemetry and logging.
    - The libraries: the token verifier, the validation of request bodies, the
      gRPC and Kafka clients, the query builder.
    - The SQL migrations (their unique indexes are the guards of the model) and
      the test and verification tools of the repository. *)
From Stdlib Require Import ZArith Lia Bool ZifyNat.
From stdpp Require Import base decidable countable list gmap strings.

Declare Scope prog_scope.
Delimit Scope prog_scope with prog.

(** ** Fallible computations

    A TypeScript function that may throw is a function into [result]: [Ok]
    carries the returned value, [Err] the thrown value. *)
Inductive result (E A : Type) : Type :=
| Ok (a : A)
| Err (e : E).
Arguments Ok {E A} a.
Arguments Err {E A} e.

Definition rbind {E A B : Type} (m : result E A) (k : A → result E B) : result E B :=
  match m with
  | Ok a => k a
  | Err e => Err e
  end.

Definition is_ok {E A : Type} (m : result E A) : bool :=
  match m with Ok _ => true | Err _ => false end.

(** ** Database transactions

    [withTransaction] runs its body on the state the transaction sees and
    commits what the body wrote; a throw rolls everything back.  A body is a
    function from the state to a value and the written state, or an error. *)
Definition tx (S E A : Type) : Type := S → result E (A * S).

Definition tret {S E A : Type} (a : A) : tx S E A := λ s, Ok (a, s).
Definition tthrow {S E A : Type} (e : E) : tx S E A := λ _, Err e.
Definition tbind {S E A B : Type} (m : tx S E A) (k : A → tx S E B) : tx S E B :=
  λ s, match m s with
       | Ok (a, s') => k a s'
       | Err e => Err e
       end.
Definition tget {S E A : Type} (f : S → A) : tx S E A := λ s, Ok (f s, s).
Definition tmodify {S E : Type} (f : S → S) : tx S E unit := λ s, Ok (tt, f s).
(** [if (!cond) throw e]: the guard of an early exit. *)
Definition tguard {S E : Type} (b : bool) (e : E) : tx S E unit :=
  if b then tret tt else tthrow e.
(** A row that must exist, or the error thrown when the query returned none. *)
Definition tsome {S E A : Type} (o : option A) (e : E) : tx S E A :=
  match o with Some a => tret a | None => tthrow e end.
(** A pure fallible function called inside a transaction. *)
Definition tlift {S E A : Type} (m : result E A) : tx S E A :=
  match m with Ok a => tret a | Err e => tthrow e end.

(** The committed state and the outcome of a transaction: an error leaves the
    state as it was. *)
Definition withTransaction {S E A : Type} (m : tx S E A) (s : S) : result E A * S :=
  match m s with
  | Ok (a, s') => (Ok a, s')
  | Err e => (Err e, s)
  end.

Notation "'let?' p := e 'in' k" := (rbind e (λ p, k))
  (at level 10, p pattern, e at level 200, k at level 200) : prog_scope.
Notation "'let!' p := e 'in' k" := (tbind e (λ p, k))
  (at level 10, p pattern, e at level 200, k at level 200) : prog_scope.
Notation "'ensure?' b 'else' e ';' k" := (if b then k else Err e)
  (at level 10, b at level 200, e at level 200, k at level 200) : prog_scope.
Notation "m ;; k" := (tbind m (λ _, k)) (at level 100, right associativity) : prog_scope.

(** ** Automation *)

Create HintDb program discriminated.

Lemma rbind_Ok {E A B : Type} (m : result E A) (k : A → result E B) (b : B) :
  rbind m k = Ok b ↔ ∃ a, m = Ok a ∧ k a = Ok b.
Proof. destruct m; simpl; naive_solver. Qed.

Lemma tbind_Ok {S E A B : Type} (m : tx S E A) (k : A → tx S E B) (s : S) (r : B * S) :
  tbind m k s = Ok r ↔ ∃ a s', m s = Ok (a, s') ∧ k a s' = Ok r.
Proof. unfold tbind. destruct (m s) as [[]|]; naive_solver. Qed.

Lemma tguard_Ok {S E : Type} (b : bool) (e : E) (s : S) (r : unit * S) :
  tguard b e s = Ok r ↔ b = true ∧ r = (tt, s).
Proof. unfold tguard, tret, tthrow. destruct b; naive_solver. Qed.

Lemma tsome_Ok {S E A : Type} (o : option A) (e : E) (s : S) (r : A * S) :
  tsome o e s = Ok r ↔ ∃ a, o = Some a ∧ r = (a, s).
Proof. unfold tsome, tret, tthrow. destruct o; naive_solver. Qed.

Lemma tlift_Ok {S E A : Type} (m : result E A) (s : S) (r : A * S) :
  tlift m s = Ok r ↔ ∃ a, m = Ok a ∧ r = (a, s).
Proof. unfold tlift, tret, tthrow. destruct m; naive_solver. Qed.

(** Peels one monadic layer, guard or conditional off a hypothesis that says
    a computation succeeded. *)
Ltac peel_step :=
  match goal with
  | H : Ok _ = Ok _ |- _ => injection H as H
  | H : Err _ = Ok _ |- _ => discriminate H
  | H : Ok _ = Err _ |- _ => discriminate H
  | H : (_, _) = (_, _) |- _ => injection H as H
  | H : rbind _ _ = Ok _ |- _ => apply rbind_Ok in H as (? & ? & H)
  | H : tbind _ _ _ = Ok _ |- _ => apply tbind_Ok in H as (? & ? & ? & H)
  | H : tguard _ _ _ = Ok _ |- _ => apply tguard_Ok in H as (? & H)
  | H : tsome _ _ _ = Ok _ |- _ => apply tsome_Ok in H as (? & ? & H)
  | H : tlift _ _ = Ok _ |- _ => apply tlift_Ok in H as (? & ? & H)
  | H : tret _ _ = Ok _ |- _ => unfold tret in H
  | H : tget _ _ = Ok _ |- _ => unfold tget in H
  | H : tmodify _ _ = Ok _ |- _ => unfold tmodify in H
  | H : tthrow _ _ = Ok _ |- _ => discriminate H
  end.
Ltac peel := repeat (peel_step; subst); simpl in *.

(** Splits the first conditional or match a hypothesis or the goal is stuck on. *)
Ltac split_match :=
  match goal with
  | H : context [match ?x with _ => _ end] |- _ => destruct x eqn:?
  | |- context [match ?x with _ => _ end] => destruct x eqn:?
  end.

(** Turns boolean connectives and comparisons in the context into
    propositions. *)
Ltac unbool :=
  repeat match goal with
  | H : _ && _ = true |- _ => apply andb_prop in H as [? ?]
  | H : _ && _ = false |- _ => apply andb_false_iff in H
  | H : _ || _ = false |- _ => apply orb_false_elim in H as [? ?]
  | H : _ || _ = true |- _ => apply orb_prop in H
  | H : negb _ = true |- _ => apply negb_true_iff in H
  | H : negb _ = false |- _ => apply negb_false_iff in H
  | H : (_ =? _)%Z = true |- _ => apply Z.eqb_eq in H
  | H : (_ =? _)%Z = false |- _ => apply Z.eqb_neq in H
  | H : (_ <? _)%Z = true |- _ => apply Z.ltb_lt in H
  | H : (_ <? _)%Z = false |- _ => apply Z.ltb_ge in H
  | H : (_ <=? _)%Z = true |- _ => apply Z.leb_le in H
  | H : (_ <=? _)%Z = false |- _ => apply Z.leb_gt in H
  | H : bool_decide _ = true |- _ => apply bool_decide_eq_true in H
  | H : bool_decide _ = false |- _ => apply bool_decide_eq_false in H
  | H : String.eqb _ _ = true |- _ => apply String.eqb_eq in H
  | H : String.eqb _ _ = false |- _ => apply String.eqb_neq in H
  end.

(** Linear arithmetic with division and modulo by constants. *)
Ltac zdiv := zify; Z.to_euclidean_division_equations; lia.

(** ** Relations a transaction keeps

    [keeps R m]: whatever state the body starts from, the state it writes is
    related to it.  For a preorder, keeping a relation is compositional. *)
Definition keeps {S E A : Type} (R : relation S) (m : tx S E A) : Prop :=
  ∀ s a s', m s = Ok (a, s') → R s s'.

Section keeps.
Context {S E : Type} (R : relation S) `{!PreOrder R}.

Lemma keeps_ret {A : Type} (a : A) : keeps R (E := E) (tret a).
Proof. intros s b s' [= _ <-]. reflexivity. Qed.

Lemma keeps_throw {A : Type} (e : E) : keeps R (A := A) (tthrow e).
Proof. intros s b s' [=]. Qed.

Lemma keeps_bind {A B : Type} (m : tx S E A) (k : A → tx S E B) :
  keeps R m → (∀ a, keeps R (k a)) → keeps R (tbind m k).
Proof.
  intros Hm Hk s b s' (a & s1 & H1 & H2)%tbind_Ok.
  transitivity s1; [by eapply Hm|by eapply Hk].
Qed.

(** The continuation may rely on what a read-only body found. *)
Lemma keeps_bind_read {A B : Type} (m : tx S E A) (k : A → tx S E B) :
  (∀ s a s', m s = Ok (a, s') → s' = s ∧ ∀ b s'', k a s = Ok (b, s'') → R s s'') →
  keeps R (tbind m k).
Proof. intros H s b s' (a & s1 & H1 & H2)%tbind_Ok. destruct (H _ _ _ H1) as [-> Hk]. by eapply Hk. Qed.

Lemma keeps_get {A : Type} (f : S → A) : keeps R (E := E) (tget f).
Proof. intros s b s' [= _ <-]. reflexivity. Qed.

Lemma keeps_modify (f : S → S) : (∀ s, R s (f s)) → keeps R (E := E) (tmodify f).
Proof. intros H s b s' [= _ <-]. apply H. Qed.

Lemma keeps_guard (b : bool) (e : E) : keeps R (tguard b e).
Proof. destruct b; [apply keeps_ret|apply keeps_throw]. Qed.

Lemma keeps_some {A : Type} (o : option A) (e : E) : keeps R (tsome o e).
Proof. destruct o; [apply keeps_ret|apply keeps_throw]. Qed.

Lemma keeps_lift {A : Type} (m : result E A) : keeps R (tlift m).
Proof. destruct m; [apply keeps_ret|apply keeps_throw]. Qed.

Lemma keeps_transaction {A : Type} (m : tx S E A) (s : S) :
  keeps R m → R s (snd (withTransaction m s)).
Proof.
  intros H. unfold withTransaction. destruct (m s) as [[a s']|e] eqn:Em; simpl; [by eapply H|reflexivity].
Qed.
End keeps.

#[export] Hint Resolve keeps_ret keeps_throw keeps_get keeps_guard keeps_some keeps_lift : program.
#[export] Hint Extern 1 (PreOrder _) => typeclasses eauto : program.

(** Follows the structure of a transaction body down to its writes. *)
Ltac keeps_steps :=
  repeat match goal with
  | |- ?g => progress cbv zeta
  | |- keeps _ (tbind _ _) => apply keeps_bind; [typeclasses eauto| |intros ?]
  | |- keeps _ (match ?x with _ => _ end) => destruct x eqn:?
  | |- keeps _ (if ?x then _ else _) => destruct x eqn:?
  end; eauto with program.

(** A finite enumeration is countable through its position in a list of all
    its values. *)
Definition enum_position {A : Type} `{EqDecision A} (l : list A) (a : A) : option nat :=
  fst <$> list_find (a =.) l.

Lemma enum_position_lookup {A : Type} `{EqDecision A} (l : list A) (a : A) :
  a ∈ l → ∃ i, enum_position l a = Some i ∧ l !! i = Some a.
Proof.
  intros Hin. unfold enum_position.
  destruct (list_find (a =.) l) as [[i b]|] eqn:Hf; simpl.
  - apply list_find_Some in Hf as (Hl & -> & _). eauto.
  - apply list_find_None in Hf. rewrite Forall_forall in Hf. by destruct (Hf a Hin).
Qed.

Program Definition enum_countable {A : Type} `{EqDecision A} (l : list A)
    (Hall : ∀ a, a ∈ l) : Countable A :=
  {| encode a := encode (A:=nat) (default 0%nat (enum_position l a));
     decode p := decode (A:=nat) p ≫= λ i, l !! i |}.
Next Obligation.
  intros A ? l Hall a. cbv beta. rewrite (decode_encode (A:=nat)). simpl.
  destruct (enum_position_lookup l a (Hall a)) as (i & -> & Hi). done.
Qed.

(** ** Tables that mirror each other

    Two tables mirror each other through [R] when they have the same keys and
    [R] relates the rows under each key. *)
Definition mirrors {A B : Type} (R : string → A → B → Prop) (m1 : gmap string A) (m2 : gmap string B) : Prop :=
  ∀ i, option_Forall2 (R i) (m1 !! i) (m2 !! i).

Section mirrors.
Context {A B : Type} (R : string → A → B → Prop).

Lemma mirrors_empty : mirrors R ∅ ∅.
Proof. intros i. rewrite !lookup_empty. constructor. Qed.

Lemma mirrors_insert (m1 : gmap string A) (m2 : gmap string B) i x y : mirrors R m1 m2 → R i x y → mirrors R (<[i := x]> m1) (<[i := y]> m2).
Proof.
  intros Hm Hxy j. destruct (decide (i = j)) as [->|]; [|by rewrite !lookup_insert_ne].
  rewrite !lookup_insert_eq. by constructor.
Qed.

Lemma mirrors_alter (m1 : gmap string A) (m2 : gmap string B) f g i :
  mirrors R m1 m2 → (∀ x y, m1 !! i = Some x → m2 !! i = Some y → R i x y → R i (f x) (g y)) →
  mirrors R (alter f i m1) (alter g i m2).
Proof.
  intros Hm Hf j. destruct (decide (i = j)) as [->|]; [|by rewrite !lookup_alter_ne].
  rewrite !lookup_alter_eq. specialize (Hm j). destruct (m1 !! j), (m2 !! j); inversion Hm; subst; constructor; auto.
Qed.

Lemma mirrors_alter_l (m1 : gmap string A) (m2 : gmap string B) f i :
  mirrors R m1 m2 → (∀ x y, m1 !! i = Some x → R i x y → R i (f x) y) → mirrors R (alter f i m1) m2.
Proof.
  intros Hm Hf j. destruct (decide (i = j)) as [->|]; [|by rewrite !lookup_alter_ne].
  rewrite !lookup_alter_eq. specialize (Hm j). destruct (m1 !! j), (m2 !! j); inversion Hm; subst; constructor; auto.
Qed.

Lemma mirrors_alter_r (m1 : gmap string A) (m2 : gmap string B) g i :
  mirrors R m1 m2 → (∀ x y, m2 !! i = Some y → R i x y → R i x (g y)) → mirrors R m1 (alter g i m2).
Proof.
  intros Hm Hf j. destruct (decide (i = j)) as [->|]; [|by rewrite !lookup_alter_ne].
  rewrite !lookup_alter_eq. specialize (Hm j). destruct (m1 !! j), (m2 !! j); inversion Hm; subst; constructor; auto.
Qed.

Lemma mirrors_delete (m1 : gmap string A) (m2 : gmap string B) i : mirrors R m1 m2 → mirrors R (delete i m1) (delete i m2).
Proof.
  intros Hm j. destruct (decide (i = j)) as [->|]; [|by rewrite !lookup_delete_ne].
  rewrite !lookup_delete_eq. constructor.
Qed.

Lemma mirrors_row (m1 : gmap string A) (m2 : gmap string B) i y : mirrors R m1 m2 → m2 !! i = Some y → ∃ x, m1 !! i = Some x ∧ R i x y.
Proof. intros Hm Hy. specialize (Hm i). rewrite Hy in Hm. inversion Hm; subst. by eexists. Qed.
End mirrors.

Lemma alter_insert_row {A : Type} (f : A → A) (m : gmap string A) (i : string) (x : A) :
  m !! i = Some x → alter f i m = insert i (f x) m.
Proof.
  intros Hx. apply map_eq. intros j. destruct (decide (i = j)) as [->|].
  - by rewrite lookup_alter_eq, Hx, lookup_insert_eq.
  - by rewrite lookup_alter_ne, lookup_insert_ne.
Qed.

(** ** Machine integers of the language

    Bitwise operators of the source convert to signed 32-bit integers;
    [>>>] converts to unsigned ones. *)
Open Scope Z_scope.

Definition uint32 (z : Z) : Z := z mod 2 ^ 32.
Definition int32 (z : Z) : Z :=
  let u := uint32 z in if u <? 2 ^ 31 then u else u - 2 ^ 32.
Definition shl32 (a n : Z) : Z := int32 (Z.shiftl (int32 a) n).
Definition or32 (a b : Z) : Z := int32 (Z.lor (int32 a) (int32 b)).
Definition and32 (a b : Z) : Z := int32 (Z.land (int32 a) (int32 b)).
Definition shru32 (a n : Z) : Z := Z.shiftr (uint32 a) n.

Lemma uint32_small (z : Z) : 0 ≤ z < 2 ^ 32 → uint32 z = z.
Proof. intros. by apply Z.mod_small. Qed.

Lemma uint32_range (z : Z) : 0 ≤ uint32 z < 2 ^ 32.
Proof. apply Z.mod_pos_bound. lia. Qed.

Lemma uint32_int32 (z : Z) : uint32 (int32 z) = uint32 z.
Proof.
  unfold int32. pose proof (uint32_range z). case_match eqn:E.
  - by apply uint32_small.
  - unfold uint32 in *. rewrite Zminus_mod, Z_mod_same_full, Z.sub_0_r, !Z.mod_mod; lia.
Qed.

Lemma int32_small (z : Z) : 0 ≤ z < 2 ^ 31 → int32 z = z.
Proof. intros. unfold int32. rewrite uint32_small by lia. case_match eqn:E; [done|]. unbool. lia. Qed.

Lemma int32_uint32 (z : Z) : int32 (uint32 z) = int32 z.
Proof. unfold int32, uint32. by rewrite Z.mod_mod by lia. Qed.

Lemma uint32_land (z : Z) : uint32 z = Z.land z (Z.ones 32).
Proof. unfold uint32. by rewrite Z.land_ones by lia. Qed.

Lemma uint32_or32 (a b : Z) : uint32 (or32 a b) = Z.lor (uint32 a) (uint32 b).
Proof.
  unfold or32. rewrite uint32_int32, !uint32_land, Z.land_lor_distr_l, <- !uint32_land.
  by rewrite !uint32_int32.
Qed.

Lemma uint32_shl32 (a n : Z) : 0 ≤ n → uint32 (shl32 a n) = uint32 (a * 2 ^ n).
Proof.
  intros Hn. unfold shl32. rewrite uint32_int32, Z.shiftl_mul_pow2 by done.
  unfold uint32. rewrite <- Z.mul_mod_idemp_l by lia.
  change (int32 a mod 2 ^ 32) with (uint32 (int32 a)). rewrite uint32_int32.
  unfold uint32. by rewrite Z.mul_mod_idemp_l by lia.
Qed.

(** A bitwise or of a multiple of [2^n] and a number below [2^n] adds them. *)
Lemma lor_add (x y n : Z) : 0 ≤ n → 0 ≤ y < 2 ^ n → Z.lor (x * 2 ^ n) y = x * 2 ^ n + y.
Proof.
  intros Hn Hy. rewrite <- Z.lxor_lor, <- Z.add_nocarry_lxor; try done.
  all: apply Z.bits_inj'; intros i Hi; rewrite Z.land_spec, Z.bits_0.
  all: destruct (Z.lt_ge_cases i n);
    [rewrite Z.mul_pow2_bits_low by lia; done|].
  all: rewrite <- (Z.mod_small y (2 ^ n)) by lia; rewrite Z.mod_pow2_bits_high by lia.
  all: by rewrite andb_false_r.
Qed.

#[export] Hint Resolve uint32_range : program.
#[export] Hint Rewrite uint32_int32 : program.
