(* ===== verification/JsText.v ===== *)
(** * Strings and numbers of the language

    The string operations of TypeScript the source uses: [split_on], [join_with],
    [trim], the regular-expression classes it tests against, [Number(text)],
    [String(n)] and [atob].  A string is a sequence of code units below 256
    ([String.string]); the source compares, splits and measures strings but
    never indexes into characters outside that range. *)
From S2P Require Import Prelude.
From Stdlib Require Import ZArith Lia Bool Ascii String DecimalString Decimal DecimalZ.
From stdpp Require Import base list strings.
Open Scope string_scope.
Open Scope Z_scope.

(** [charCodeAt]. *)
Definition unit_of (c : ascii) : Z := Z.of_N (N_of_ascii c).
Definition of_unit (z : Z) : ascii := ascii_of_N (Z.to_N z).

Definition chars (s : string) : list ascii := list_ascii_of_string s.
Definition of_chars (l : list ascii) : string := string_of_list_ascii l.
(** [s.length]. *)
Definition js_length (s : string) : Z := Z.of_nat (String.length s).

(** The [string] is truthy in a condition: it is not empty. *)
Definition truthy (s : string) : bool := negb (String.eqb s "").

Definition in_range (lo hi : Z) (c : ascii) : bool := (lo <=? unit_of c) && (unit_of c <=? hi).
Definition is_digit : ascii → bool := in_range 48 57.
Definition is_upper : ascii → bool := in_range 65 90.
Definition is_lower : ascii → bool := in_range 97 122.
Definition is_alnum (c : ascii) : bool := is_digit c || is_upper c || is_lower c.
Definition is_hex_digit (c : ascii) : bool := is_digit c || in_range 65 70 c || in_range 97 102 c.
Definition is_char (d c : ascii) : bool := Ascii.eqb d c.

(** [\s] and the white space [trim] and [Number] remove. *)
Definition is_space (c : ascii) : bool :=
  in_range 9 13 c || (unit_of c =? 32) || (unit_of c =? 160).

Definition all_chars (p : ascii → bool) (s : string) : bool := forallb p (chars s).

(** [s.toLowerCase()] on the letters of ASCII. *)
Definition lower_char (c : ascii) : ascii := if is_upper c then of_unit (unit_of c + 32) else c.
Definition toLowerCase (s : string) : string := of_chars (map lower_char (chars s)).

(** [s.split(sep)] for a separator of one code unit. *)
Fixpoint split_on (sep : ascii) (s : string) : list string :=
  match s with
  | EmptyString => [""]
  | String c r =>
      if Ascii.eqb c sep then "" :: split_on sep r
      else match split_on sep r with
           | [] => [String c ""]
           | h :: t => String c h :: t
           end
  end.

(** [parts.join_with(sep)]. *)
Fixpoint join_with (sep : ascii) (l : list string) : string :=
  match l with
  | [] => ""
  | [x] => x
  | x :: r => x ++ String sep (join_with sep r)
  end.

Fixpoint trimStart (l : list ascii) : list ascii :=
  match l with
  | [] => []
  | c :: r => if is_space c then trimStart r else l
  end.
(** [s.trim()]. *)
Definition trim (s : string) : string := of_chars (rev (trimStart (rev (trimStart (chars s))))).

(** [s.split(/\s+/)]: a maximal run of white space is one separator. *)
Fixpoint split_spaces (in_run : bool) (l : list ascii) : list string :=
  match l with
  | [] => [""]
  | c :: r =>
      if is_space c then
        if in_run then split_spaces true r else "" :: split_spaces true r
      else match split_spaces false r with
           | [] => [String c ""]
           | h :: t => String c h :: t
           end
  end.

(** ** Numbers *)

(** The value of a run of digits in base [b]. *)
Definition digit_value (c : ascii) : Z :=
  let u := unit_of c in
  if u <=? 57 then u - 48 else if u <=? 90 then u - 55 else u - 87.
Definition digits_value (b : Z) (l : list ascii) : Z :=
  fold_left (λ acc c, b * acc + digit_value c) l 0.

(** [String(n)] for an integer. *)
Definition string_of_Z (n : Z) : string := NilEmpty.string_of_int (Z.to_int n).

(** The double nearest to the positive rational [p / q] (ties to even), when
    it is an integer below 2^1024; subnormals are never integers. *)
Definition round_half_even (p q : Z) : Z :=
  let d := p / q in
  let r := p mod q in
  if 2 * r <? q then d
  else if q <? 2 * r then d + 1
  else if Z.even d then d else d + 1.

Definition double_integer (p q : Z) : option Z :=
  if p =? 0 then Some 0
  else
    (* the exponent k with 2^k <= p/q < 2^(k+1) *)
    let k0 := Z.log2 p - Z.log2 q in
    let k := if (if 0 <=? k0 then p <? q * 2 ^ k0 else p * 2 ^ (- k0) <? q) then k0 - 1 else k0 in
    let e := k - 52 in
    let m := if 0 <=? e then round_half_even p (q * 2 ^ e) else round_half_even (p * 2 ^ (- e)) q in
    if 0 <=? e then
      (if m * 2 ^ e <? 2 ^ 1024 then Some (m * 2 ^ e) else None)
    else if m mod 2 ^ (- e) =? 0 then Some (m / 2 ^ (- e)) else None.

Fixpoint span (p : ascii → bool) (l : list ascii) : list ascii * list ascii :=
  match l with
  | [] => ([], [])
  | c :: r => if p c then let '(a, b) := span p r in (c :: a, b) else ([], l)
  end.

(** The exponent part of a decimal literal: [e], a sign and digits. *)
Definition exponent_part (l : list ascii) : option Z :=
  match l with
  | [] => Some 0
  | c :: r =>
      if is_char "e" c || is_char "E" c then
        let '(neg, r) :=
          match r with
          | d :: r' => if is_char "-" d then (true, r') else if is_char "+" d then (false, r') else (false, r)
          | [] => (false, r)
          end in
        match r with
        | [] => None
        | _ => if forallb is_digit r
               then Some (if neg : bool then - digits_value 10 r else digits_value 10 r)
               else None
        end
      else None
  end.

(** An unsigned decimal literal, as numerator and denominator. *)
Definition decimal_literal (l : list ascii) : option (Z * Z) :=
  let '(int, rest) := span is_digit l in
  let '(frac, rest) :=
    match rest with
    | d :: r => if is_char "." d then span is_digit r else ([], rest)
    | [] => ([], rest)
    end in
  match (int ++ frac)%list with
  | [] => None
  | ds =>
      e ← exponent_part rest;
      let e' := e - Z.of_nat (List.length frac) in
      let n := digits_value 10 ds in
      Some (if 0 <=? e' then (n * 10 ^ e', 1) else (n, 10 ^ (- e')))
  end.

Definition radix_literal (b : Z) (p : ascii → bool) (l : list ascii) : option (Z * Z) :=
  match l with
  | [] => None
  | _ => if forallb p l then Some (digits_value b l, 1) else None
  end.

(** [Number(text)] when the result is an integer ([Number.isInteger]). *)
Definition Number_integer (s : string) : option Z :=
  let l := chars (trim s) in
  match l with
  | [] => Some 0
  | c :: r =>
      let unsigned l := '(p, q) ← decimal_literal l; double_integer p q in
      if is_char "-" c then Z.opp <$> unsigned r
      else if is_char "+" c then unsigned r
      else
        match is_char "0" c, r with
        | true, x :: digits =>
            let radix b p := '(p, q) ← radix_literal b p digits; double_integer p q in
            if is_char "x" x || is_char "X" x then radix 16 is_hex_digit
            else if is_char "o" x || is_char "O" x then radix 8 (in_range 48 55)
            else if is_char "b" x || is_char "B" x then radix 2 (in_range 48 49)
            else unsigned l
        | _, _ => unsigned l
        end
  end.

(** ** Base 64

    [atob] on input without white space: the forgiving decoder removes up to
    two padding characters when the length is a multiple of four, refuses a
    length of one modulo four and any character outside the alphabet, and
    discards the bits left over. *)
Definition sextet (c : ascii) : option Z :=
  if is_upper c then Some (unit_of c - 65)
  else if is_lower c then Some (unit_of c - 71)
  else if is_digit c then Some (unit_of c + 4)
  else if is_char "+" c then Some 62
  else if is_char "/" c then Some 63
  else None.

Definition strip_padding (l : list ascii) : list ascii :=
  if Nat.eqb (List.length l mod 4) 0 then
    match rev l with
    | a :: b :: r => if is_char "=" a then if is_char "=" b then rev r else rev (b :: r) else l
    | [a] => if is_char "=" a then [] else l
    | [] => l
    end
  else l.

Fixpoint decode_sextets (l : list Z) : list Z :=
  match l with
  | a :: b :: c :: d :: r =>
      [a * 4 + b / 16; (b mod 16) * 16 + c / 4; (c mod 4) * 64 + d] ++ decode_sextets r
  | [a; b; c] => [a * 4 + b / 16; (b mod 16) * 16 + c / 4]
  | [a; b] => [a * 4 + b / 16]
  | _ => []
  end%list.

Definition atob (s : string) : option (list Z) :=
  let l := strip_padding (chars s) in
  if Nat.eqb (List.length l mod 4) 1 then None
  else decode_sextets <$> mapM sextet l.

(** [String.fromCharCode(...units)]. *)
Definition fromCharCodes (l : list Z) : string := of_chars (map of_unit l).

(** ** Lemmas *)

#[global] Arguments is_char : simpl never.
#[global] Arguments is_space : simpl never.
#[global] Arguments is_digit : simpl never.
#[global] Arguments is_alnum : simpl never.
#[global] Arguments unit_of : simpl never.
#[global] Arguments of_unit : simpl never.

Lemma unit_of_range (c : ascii) : 0 ≤ unit_of c < 256.
Proof. unfold unit_of. pose proof (N_ascii_bounded c). lia. Qed.

Lemma of_unit_unit_of (c : ascii) : of_unit (unit_of c) = c.
Proof. unfold of_unit, unit_of. by rewrite N2Z.id, ascii_N_embedding. Qed.

Lemma chars_of_chars (l : list ascii) : chars (of_chars l) = l.
Proof. apply list_ascii_of_string_of_list_ascii. Qed.

Lemma split_nonempty (sep : ascii) (s : string) : split_on sep s ≠ [].
Proof. destruct s; simpl; [done|]. case_match; [done|]. by case_match. Qed.

Lemma split_no_sep (sep : ascii) (s : string) :
  Forall (λ c, c ≠ sep) (chars s) → split_on sep s = [s].
Proof.
  induction s as [|c s IH]; simpl; [done|]. intros [Hc Hs]%Forall_cons.
  destruct (Ascii.eqb_spec c sep); [done|]. by rewrite IH.
Qed.

Lemma split_app (sep : ascii) (x s : string) :
  Forall (λ c, c ≠ sep) (chars x) → split_on sep (x ++ String sep s) = x :: split_on sep s.
Proof.
  induction x as [|c x IH]; simpl; intros Hx.
  - by rewrite Ascii.eqb_refl.
  - apply Forall_cons in Hx as [Hc Hx]. destruct (Ascii.eqb_spec c sep); [done|]. by rewrite IH.
Qed.

(** Splitting what was joined gives back the parts. *)
Lemma split_join (sep : ascii) (l : list string) :
  l ≠ [] → Forall (λ s, Forall (λ c, c ≠ sep) (chars s)) l → split_on sep (join_with sep l) = l.
Proof.
  induction l as [|x [|y l] IH]; intros Hne Hall; [done| |].
  - apply Forall_cons in Hall as [Hx _]. by apply split_no_sep.
  - apply Forall_cons in Hall as [Hx Hr]. change (join_with sep (x :: y :: l)) with
      (x ++ String sep (join_with sep (y :: l))).
    rewrite split_app by done. f_equal. by apply IH.
Qed.

Lemma split_spaces_no_space (b : bool) (l : list ascii) :
  Forall (λ c, is_space c = false) l → split_spaces b l = [of_chars l].
Proof.
  revert b. induction l as [|c l IH]; intros b; simpl; [done|].
  intros [-> Hl]%Forall_cons. by rewrite IH.
Qed.

Lemma forallb_Forall {A : Type} (p : A → bool) (l : list A) :
  forallb p l = true ↔ Forall (λ x, p x = true) l.
Proof. rewrite forallb_forall, Forall_forall. by setoid_rewrite <- list_elem_of_In. Qed.

(** The decimal numeral of an octet is one of 256 strings: facts about all of
    them are decided by evaluation. *)
Definition octets : list Z := seqZ 0 256.
Lemma octet_in (z : Z) : 0 ≤ z < 256 → z ∈ octets.
Proof. intros. apply elem_of_seqZ. lia. Qed.

Lemma octet_forall (P : Z → bool) :
  forallb P octets = true → ∀ z, 0 ≤ z < 256 → P z = true.
Proof. intros H z Hz. rewrite forallb_forall in H. by apply H, list_elem_of_In, octet_in. Qed.

Lemma join_split (sep : ascii) (s : string) : join_with sep (split_on sep s) = s.
Proof.
  induction s as [|c s IH]; simpl; [done|]. pose proof (split_nonempty sep s) as Hne.
  destruct (Ascii.eqb_spec c sep) as [->|_].
  - destruct (split_on sep s) as [|x r] eqn:E; [done|].
    change (join_with sep ("" :: x :: r)) with ("" ++ String sep (join_with sep (x :: r))). by rewrite IH.
  - destruct (split_on sep s) as [|x r] eqn:E; [done|].
    transitivity (String c (join_with sep (x :: r))); [by destruct r|by rewrite IH].
Qed.

Lemma of_chars_chars (s : string) : of_chars (chars s) = s.
Proof. apply string_of_list_ascii_of_string. Qed.

Definition digit_chars : list ascii := map (λ z, of_unit (z + 48)) (seqZ 0 10).

Lemma is_digit_in (c : ascii) : is_digit c = true → c ∈ digit_chars.
Proof.
  intros H. apply list_elem_of_fmap. exists (unit_of c - 48).
  replace (unit_of c - 48 + 48) with (unit_of c) by lia. rewrite of_unit_unit_of.
  split; [done|]. apply elem_of_seqZ. unfold is_digit, in_range in H. unbool. lia.
Qed.

Lemma digit_forall (P : ascii → bool) :
  forallb P digit_chars = true → ∀ c, is_digit c = true → P c = true.
Proof. intros H c Hc. rewrite forallb_forall in H. by apply H, list_elem_of_In, is_digit_in. Qed.
