(* ===== verification/Json.v ===== *)
(** * JSON values and their canonical form

    The values the services exchange, [String(value)], [JSON.stringify], and
    [canonicalValue], [canonicalJson] and [canonicalSha256] of
    [packages/domain/src/index.ts].  Collation ([localeCompare]) and the SHA-256
    of Node's [crypto] are parameters. *)
From S2P Require Import Prelude JsText.
From Stdlib Require Import ZArith Lia Bool Ascii String Permutation.
From stdpp Require Import base decidable countable list strings.
Open Scope string_scope.
Open Scope Z_scope.

(** [JFraction n d] is a number that is not an integer. *)
Inductive json : Type :=
| JUndefined
| JNull
| JBool (b : bool)
| JNum (n : Z)
| JFraction (n : Z) (d : positive)
| JStr (s : string)
| JArr (l : list json)
| JObj (fields : list (string * json)).

(** ** Access *)

(** [value.field] on an object; a missing field reads [undefined]. *)
Definition field (k : string) (fields : list (string * json)) : json :=
  default JUndefined (snd <$> List.find (λ p, String.eqb (fst p) k) fields).

(** [Boolean(value)]. *)
Definition js_truthy (v : json) : bool :=
  match v with
  | JUndefined | JNull => false
  | JBool b => b
  | JNum n => negb (n =? 0)
  | JFraction _ _ => true
  | JStr s => truthy s
  | JArr _ | JObj _ => true
  end.

(** [String(value)]: an array is its elements joined by commas, where [null]
    and [undefined] are empty. *)
Fixpoint js_String (v : json) : string :=
  match v with
  | JUndefined => "undefined"
  | JNull => "null"
  | JBool b => if b then "true" else "false"
  | JNum n => string_of_Z n
  | JFraction n d => string_of_Z n ++ "/" ++ string_of_Z (Zpos d)
  | JStr s => s
  | JArr l =>
      join_with "," (map (λ x, match x with JNull | JUndefined => "" | _ => js_String x end) l)
  | JObj _ => "[object Object]"
  end.

(** ** Serialisation *)

Definition quote_char (c : ascii) : string :=
  let u := unit_of c in
  if u =? 34 then String "\" (String c "")
  else if u =? 92 then "\\"
  else if u =? 8 then "\b" else if u =? 9 then "\t" else if u =? 10 then "\n"
  else if u =? 12 then "\f" else if u =? 13 then "\r"
  else if u <? 32 then
    let hex n := of_unit (if n <? 10 then n + 48 else n + 87) in
    "\u00" ++ String (hex (u / 16)) (String (hex (u mod 16)) "")
  else String c "".
Definition double_quote : ascii := "034"%char.
Definition quote (s : string) : string :=
  String double_quote (List.fold_right (λ c acc, quote_char c ++ acc) (String double_quote "") (chars s)).

(** [JSON.stringify]; [None] is the [undefined] it returns for [undefined]. *)
Fixpoint stringify (v : json) : option string :=
  match v with
  | JUndefined => None
  | JNull => Some "null"
  | JBool b => Some (if b then "true" else "false")
  | JNum _ | JFraction _ _ => Some (js_String v)
  | JStr s => Some (quote s)
  | JArr l => Some ("[" ++ join_with "," (map (λ x, default "null" (stringify x)) l) ++ "]")
  | JObj fields =>
      Some ("{" ++ join_with "," (omap (λ p, (λ t, quote (fst p) ++ ":" ++ t) <$> stringify (snd p)) fields)
            ++ "}")
  end.

Section canonical.
(** [left.localeCompare(right) <= 0]. *)
Variable before : string → string → bool.
(** [createHash('sha256').update(text).digest('hex')]. *)
Variable sha256 : string → string.

(** [entries.sort(([left], [right]) => left.localeCompare(right))]: stable. *)
Fixpoint insert_entry (e : string * json) (l : list (string * json)) : list (string * json) :=
  match l with
  | [] => [e]
  | x :: r => if before (fst e) (fst x) then e :: l else x :: insert_entry e r
  end.
Definition sort_entries (l : list (string * json)) : list (string * json) :=
  List.fold_right insert_entry [] l.

Definition is_undefined (v : json) : bool := match v with JUndefined => true | _ => false end.

(** Keys sorted and [undefined] dropped, recursively; the members are mapped
    before the sort, which only looks at the keys. *)
Fixpoint canonicalValue (v : json) : json :=
  match v with
  | JArr l => JArr (map canonicalValue l)
  | JObj fields =>
      JObj (sort_entries
        (omap (λ p, if is_undefined (snd p) then None else Some (fst p, canonicalValue (snd p))) fields))
  | _ => v
  end.

Definition canonicalJson (v : json) : option string := stringify (canonicalValue v).
Definition canonicalSha256 (v : json) : string := sha256 (default "undefined" (canonicalJson v)).

(** ** The same content, written in another order *)

Inductive same_content : json → json → Prop :=
| same_refl v : same_content v v
| same_array l l' : Forall2 same_content l l' → same_content (JArr l) (JArr l')
| same_object l l' m :
    NoDup (map fst l) → Permutation l m →
    Forall2 (λ p q, fst p = fst q ∧ same_content (snd p) (snd q)) m l' →
    same_content (JObj l) (JObj l').

Hypothesis before_total : ∀ a b, before a b = true ∨ before b a = true.
Hypothesis before_trans : ∀ a b c, before a b = true → before b c = true → before a c = true.
Hypothesis before_antisym : ∀ a b, before a b = true → before b a = true → a = b.

Lemma insert_entry_comm (x y : string * json) (l : list (string * json)) :
  fst x ≠ fst y → insert_entry x (insert_entry y l) = insert_entry y (insert_entry x l).
Proof.
  intros Hne. induction l as [|z l IH]; simpl.
  - destruct (before (fst x) (fst y)) eqn:E1, (before (fst y) (fst x)) eqn:E2; try done.
    + by destruct Hne; apply before_antisym.
    + destruct (before_total (fst x) (fst y)); congruence.
  - destruct (before (fst y) (fst z)) eqn:Eyz, (before (fst x) (fst z)) eqn:Exz; simpl;
      rewrite ?Eyz, ?Exz; simpl.
    + destruct (before (fst x) (fst y)) eqn:E1, (before (fst y) (fst x)) eqn:E2; try done;
        rewrite ?Exz, ?Eyz; try done.
      * by destruct Hne; apply before_antisym.
      * destruct (before_total (fst x) (fst y)); congruence.
    + destruct (before (fst x) (fst y)) eqn:E1; [|done].
      assert (before (fst x) (fst z) = true) by eauto. congruence.
    + destruct (before (fst y) (fst x)) eqn:E1; [|done].
      assert (before (fst y) (fst z) = true) by eauto. congruence.
    + by rewrite IH.
Qed.

Lemma sort_entries_perm (l l' : list (string * json)) :
  NoDup (map fst l) → Permutation l l' → sort_entries l = sort_entries l'.
Proof.
  intros Hnd Hp. revert Hnd. induction Hp as [|x l l' Hp IH|x y l|l l' l'' H1 IH1 H2 IH2]; intros Hnd.
  - done.
  - simpl. apply NoDup_cons in Hnd as [_ Hnd]. by rewrite IH.
  - simpl. simpl in Hnd. apply insert_entry_comm. intros Heq. apply NoDup_cons in Hnd as [Hn _].
    apply Hn. rewrite <- Heq. by left.
  - rewrite IH1 by done. apply IH2. rewrite <- (Permutation_map fst H1) in *. done.
Qed.

Definition canonical_entry (p : string * json) : option (string * json) :=
  if is_undefined (snd p) then None else Some (fst p, canonicalValue (snd p)).

Lemma omap_perm {A B : Type} (f : A → option B) (l l' : list A) :
  Permutation l l' → Permutation (omap f l) (omap f l').
Proof. intros H. by rewrite H. Qed.

Lemma NoDup_omap_keys (l : list (string * json)) :
  NoDup (map fst l) → NoDup (map fst (omap canonical_entry l)).
Proof.
  induction l as [|[k v] l IH]; intros Hnd; [constructor|].
  apply NoDup_cons in Hnd as [Hk Hnd]. simpl. unfold canonical_entry at 1. simpl.
  destruct (is_undefined v); simpl; [by apply IH|]. constructor; [|by apply IH].
  intros Hin. apply Hk. apply list_elem_of_fmap in Hin as ([k' v'] & -> & Hin).
  apply list_elem_of_omap in Hin as ([k'' v''] & Hin & Hc).
  unfold canonical_entry in Hc. simpl in *. destruct (is_undefined v''); [done|].
  injection Hc as Hk' _. apply list_elem_of_fmap. subst k''. by exists (k', v'').
Qed.

Lemma omap_entry_cons (p : string * json) (l : list (string * json)) :
  omap canonical_entry (p :: l) =
    match canonical_entry p with Some q => q :: omap canonical_entry l | None => omap canonical_entry l end.
Proof. reflexivity. Qed.

Lemma same_content_undefined (v v' : json) : same_content v v' → is_undefined v = is_undefined v'.
Proof. by destruct 1. Qed.

(** The canonical form of equal contents is the same. *)
Lemma canonicalValue_same : ∀ v v', same_content v v' → canonicalValue v = canonicalValue v'.
Proof.
  fix IH 3. intros v v' H. destruct H as [v|l l' H|l l' m Hnd Hp H].
  - reflexivity.
  - simpl. f_equal. induction H as [|x y l l' Hxy _ IHl]; simpl; [reflexivity|].
    rewrite (IH _ _ Hxy). by rewrite IHl.
  - simpl. f_equal. fold canonical_entry.
    transitivity (sort_entries (omap canonical_entry m)).
    + apply sort_entries_perm; [by apply NoDup_omap_keys|by apply omap_perm].
    + f_equal. clear Hnd Hp. induction H as [|[k x] [k' y] m l' [Hk Hxy] _ IHl]; [reflexivity|].
      simpl in Hk, Hxy. subst k'.
      assert (Hc : canonical_entry (k, x) = canonical_entry (k, y)).
      { unfold canonical_entry. cbn [fst snd].
        by rewrite (same_content_undefined _ _ Hxy), (IH _ _ Hxy). }
      rewrite !omap_entry_cons, Hc, IHl. reflexivity.
Qed.

(** The content hash ignores the order of keys: two values that differ only
    in the order their objects list their members, at any depth, have the same
    canonical text and the same hash, so a retried request whose client orders
    the fields differently is recognised as the same request. *)
Theorem canonicalSha256_key_order (v v' : json) (H : same_content v v') :
  canonicalJson v = canonicalJson v' ∧ canonicalSha256 v = canonicalSha256 v'.
Proof. unfold canonicalSha256, canonicalJson. by rewrite (canonicalValue_same v v' H). Qed.
End canonical.

(** A concrete total order on keys. *)
Definition key_order (a b : string) : bool := Pos.leb (encode a) (encode b).

Lemma canonicalSha256_key_order_witness :
  let v := JObj [("b", JNum 1); ("a", JObj [("d", JBool true); ("c", JUndefined)])] in
  let v' := JObj [("a", JObj [("c", JUndefined); ("d", JBool true)]); ("b", JNum 1)] in
  canonicalJson key_order v = canonicalJson key_order v'.
Proof.
  intros v v'. apply (canonicalSha256_key_order key_order id).
  - intros a b. unfold key_order. rewrite !Pos.leb_le. lia.
  - intros a b c. unfold key_order. rewrite !Pos.leb_le. lia.
  - intros a b. unfold key_order. rewrite !Pos.leb_le. intros H1 H2.
    apply (encode_inj (A := string)). lia.
  - eapply same_object; [|apply Permutation_swap|].
    + simpl. apply (bool_decide_unpack _). vm_compute. exact I.
    + repeat constructor; simpl; try apply same_refl.
      eapply same_object; [|apply Permutation_swap|].
      * simpl. apply (bool_decide_unpack _). vm_compute. exact I.
      * repeat constructor; simpl; apply same_refl.
Defined.
