(* ===== verification/SshKey.v ===== *)
(** * The structural check of SSH public keys

    [isStructurallyValidSshPublicKey] of [packages/domain/src/index.ts]: type,
    base 64 body and the algorithm name embedded in the decoded blob. *)
From S2P Require Import Prelude JsText.
From Stdlib Require Import ZArith Lia Bool Ascii String.
From stdpp Require Import base list strings.
Open Scope string_scope.
Open Scope Z_scope.

Definition SSH_KEY_TYPES : list string :=
  [ "ecdsa-sha2-nistp256"; "ecdsa-sha2-nistp384"; "ecdsa-sha2-nistp521";
    "sk-ecdsa-sha2-nistp256@openssh.com"; "sk-ssh-ed25519@openssh.com";
    "ssh-ed25519"; "ssh-rsa" ].

Definition is_base64_char (c : ascii) : bool := is_alnum c || is_char "+" c || is_char "/" c.

(** [^[A-Za-z0-9+/]+={0,2}$]. *)
Definition base64Pattern (s : string) : bool :=
  let '(body, padding) := span is_base64_char (chars s) in
  negb (bool_decide (body = [])) && forallb (is_char "=") padding
  && (Z.of_nat (List.length padding) <=? 2).

(** [(b0 << 24) | (b1 << 16) | (b2 << 8) | b3]. *)
Definition blobNameLength (b0 b1 b2 b3 : Z) : Z :=
  or32 (or32 (or32 (shl32 b0 24) (shl32 b1 16)) (shl32 b2 8)) b3.

Definition isStructurallyValidSshPublicKey (key : string) : bool :=
  match split_spaces false (chars (trim key)) with
  | type :: body :: _ =>
      if negb (truthy type) || negb (truthy body) || negb (bool_decide (type ∈ SSH_KEY_TYPES))
      then false
      else if negb (base64Pattern body) then false
      else
        match atob body with
        | None => false
        | Some decoded =>
            match decoded with
            | b0 :: b1 :: b2 :: b3 :: rest =>
                let nameLength := blobNameLength b0 b1 b2 b3 in
                if (nameLength <=? 0) || (64 <? nameLength)
                   || (Z.of_nat (List.length decoded) <? 4 + nameLength)
                then false
                else String.eqb (fromCharCodes (take (Z.to_nat nameLength) rest)) type
            | _ => false
            end
        end
  | _ => false
  end.

(** ** The wire format of a key blob *)

Definition is_byte (b : Z) : Prop := 0 ≤ b < 256.

(** Four bytes, most significant first. *)
Definition be32 (n : Z) : list Z := [n / 2 ^ 24 mod 256; n / 2 ^ 16 mod 256; n / 2 ^ 8 mod 256; n mod 256].

Definition codes (s : string) : list Z := map unit_of (chars s).

(** A length-prefixed field followed by the rest of the blob. *)
Definition blob_of (type : string) (payload : list Z) : list Z :=
  (be32 (js_length type) ++ codes type ++ payload)%list.

Lemma fromCharCodes_codes (s : string) : fromCharCodes (codes s) = s.
Proof.
  unfold fromCharCodes, codes, chars, of_chars. rewrite map_map.
  rewrite (map_ext _ id) by apply of_unit_unit_of. rewrite map_id.
  apply string_of_list_ascii_of_string.
Qed.

Lemma codes_fromCharCodes (l : list Z) : Forall is_byte l → codes (fromCharCodes l) = l.
Proof.
  unfold fromCharCodes, codes. rewrite chars_of_chars, map_map.
  induction 1 as [|b l Hb _ IH]; simpl; [done|]. f_equal; [|done].
  unfold unit_of, of_unit. unfold is_byte in Hb. rewrite N_ascii_embedding by lia. lia.
Qed.

Lemma length_codes (s : string) : Z.of_nat (List.length (codes s)) = js_length s.
Proof.
  unfold codes, js_length, chars. rewrite length_map. f_equal.
  induction s; simpl; congruence.
Qed.

Lemma blobNameLength_bytes (b0 b1 b2 b3 : Z) :
  is_byte b0 → is_byte b1 → is_byte b2 → is_byte b3 →
  uint32 (blobNameLength b0 b1 b2 b3) = b0 * 2 ^ 24 + b1 * 2 ^ 16 + b2 * 2 ^ 8 + b3.
Proof.
  unfold is_byte, blobNameLength. intros.
  rewrite !uint32_or32, !uint32_shl32 by lia. rewrite !uint32_small by lia.
  rewrite (lor_add b0 (b1 * 2 ^ 16) 24) by lia.
  replace (b0 * 2 ^ 24 + b1 * 2 ^ 16) with ((b0 * 256 + b1) * 2 ^ 16) by lia.
  rewrite (lor_add _ (b2 * 2 ^ 8) 16) by lia.
  replace ((b0 * 256 + b1) * 2 ^ 16 + b2 * 2 ^ 8) with (((b0 * 256 + b1) * 256 + b2) * 2 ^ 8) by lia.
  rewrite (lor_add _ b3 8) by lia. lia.
Qed.

Lemma blobNameLength_be32 (b0 b1 b2 b3 n : Z) :
  is_byte b0 → is_byte b1 → is_byte b2 → is_byte b3 → 0 ≤ n < 2 ^ 31 →
  blobNameLength b0 b1 b2 b3 = n ↔ [b0; b1; b2; b3] = be32 n.
Proof.
  intros H0 H1 H2 H3 Hn. pose proof (blobNameLength_bytes b0 b1 b2 b3 H0 H1 H2 H3) as Hu.
  unfold is_byte in *. split.
  - intros Hb. rewrite Hb, uint32_small in Hu by lia. unfold be32.
    repeat (f_equal; [zdiv|]). f_equal. zdiv.
  - intros [= -> -> -> ->].
    replace (blobNameLength _ _ _ _) with (int32 (uint32 (blobNameLength
      (n / 2 ^ 24 mod 256) (n / 2 ^ 16 mod 256) (n / 2 ^ 8 mod 256) (n mod 256)))).
    + rewrite Hu. rewrite int32_small; zdiv.
    + rewrite int32_uint32. unfold blobNameLength, or32.
      rewrite <- (int32_uint32 (int32 _)), uint32_int32. apply int32_uint32.
Qed.

Lemma blobNameLength_of (n : Z) :
  0 ≤ n < 2 ^ 31 →
  blobNameLength (n / 2 ^ 24 mod 256) (n / 2 ^ 16 mod 256) (n / 2 ^ 8 mod 256) (n mod 256) = n.
Proof. intros. apply blobNameLength_be32; unfold is_byte; try zdiv. reflexivity. Qed.

Lemma sextet_range (c : ascii) (z : Z) : sextet c = Some z → 0 ≤ z < 64.
Proof.
  unfold sextet, is_upper, is_lower, is_digit, in_range.
  repeat case_match; intros [= <-]; unbool; lia.
Qed.

Lemma decode_sextets_bytes (l : list Z) :
  Forall (λ z, 0 ≤ z < 64) l → Forall is_byte (decode_sextets l).
Proof.
  revert l. fix IH 1. intros [|a [|b [|c [|d l]]]] Hl; simpl; try constructor;
    repeat match goal with H : Forall _ (_ :: _) |- _ => apply Forall_cons in H as [? H] end;
    repeat constructor; unfold is_byte; try zdiv.
  by apply IH.
Qed.

Lemma atob_bytes (s : string) (l : list Z) : atob s = Some l → Forall is_byte l.
Proof.
  unfold atob. case_match; [done|]. intros (zs & Hm & ->)%fmap_Some.
  apply decode_sextets_bytes. apply mapM_Some_1 in Hm.
  clear -Hm. induction Hm; [constructor|]. constructor; [by eapply sextet_range|done].
Qed.

(** Soundness: an accepted key names an accepted type, and its body decodes to
    a blob whose first length-prefixed field is that type. *)
Lemma valid_key_blob (key : string) :
  isStructurallyValidSshPublicKey key = true →
  ∃ type body rest payload,
    split_spaces false (chars (trim key)) = type :: body :: rest
    ∧ type ∈ SSH_KEY_TYPES ∧ base64Pattern body = true
    ∧ atob body = Some (blob_of type payload).
Proof.
  unfold isStructurallyValidSshPublicKey.
  destruct (split_spaces _ _) as [|type [|body rest]] eqn:Hs; try done.
  case_match eqn:E1; [done|]. case_match eqn:E2; [done|]. unbool.
  destruct (atob body) as [decoded|] eqn:Hd; [|done].
  destruct decoded as [|b0 [|b1 [|b2 [|b3 blob]]]]; try done.
  case_match eqn:E3; [done|]. intros Heq%String.eqb_eq.
  apply orb_false_elim in E3 as [[E3 E4]%orb_false_elim E5].
  apply Z.leb_gt in E3. apply Z.ltb_ge in E4, E5.
  set (n := blobNameLength b0 b1 b2 b3) in *.
  pose proof (atob_bytes _ _ Hd) as Hb.
  repeat match goal with H : Forall _ (_ :: _) |- _ => apply Forall_cons in H as [? H] end.
  assert (Hlen : (Z.to_nat n <= List.length blob)%nat) by (cbn [List.length] in E5; clearbody n; clear -E3 E5; lia).
  assert (Hcodes : codes type = take (Z.to_nat n) blob).
  { rewrite <- Heq. apply codes_fromCharCodes. by apply Forall_take. }
  exists type, body, rest, (drop (Z.to_nat n) blob). do 3 (split; [done|]).
  rewrite Hd. unfold blob_of. rewrite Hcodes, take_drop, <- length_codes, Hcodes, length_take.
  f_equal. replace (Z.of_nat (Z.to_nat n `min` List.length blob)) with n by lia.
  change (b0 :: b1 :: b2 :: b3 :: blob) with ([b0; b1; b2; b3] ++ blob)%list. f_equal.
  apply blobNameLength_be32; unfold n; try done. fold n. lia.
Qed.

(** ** Keys as OpenSSH writes them *)

Definition alphabet (z : Z) : ascii :=
  if z <? 26 then of_unit (z + 65)
  else if z <? 52 then of_unit (z + 71)
  else if z <? 62 then of_unit (z - 4)
  else if z =? 62 then "+"%char else "/"%char.

#[global] Arguments alphabet : simpl never.

(** The base 64 encoding with padding. *)
Fixpoint btoa (l : list Z) : list ascii :=
  match l with
  | a :: b :: c :: r =>
      [alphabet (a / 4); alphabet ((a mod 4) * 16 + b / 16);
       alphabet ((b mod 16) * 4 + c / 64); alphabet (c mod 64)] ++ btoa r
  | [a; b] =>
      [alphabet (a / 4); alphabet ((a mod 4) * 16 + b / 16); alphabet ((b mod 16) * 4); "="%char]
  | [a] => [alphabet (a / 4); alphabet ((a mod 4) * 16); "="%char; "="%char]
  | [] => []
  end%list.

(** A key line: type, blob and, unless it is empty, a comment. *)
Definition key_line (type : string) (blob : list Z) (comment : string) : string :=
  type ++ " " ++ of_chars (btoa blob) ++
  (if truthy comment then " " ++ comment else "").

Lemma sextet_forall (P : Z → bool) :
  forallb P (seqZ 0 64) = true → ∀ z, 0 ≤ z < 64 → P z = true.
Proof. intros H z Hz. rewrite forallb_forall in H. apply H, list_elem_of_In, elem_of_seqZ. lia. Qed.

Lemma sextet_alphabet (z : Z) : 0 ≤ z < 64 → sextet (alphabet z) = Some z.
Proof.
  intros Hz. eapply (sextet_forall (λ z, bool_decide (sextet (alphabet z) = Some z))) in Hz;
    [by apply bool_decide_eq_true in Hz|]. by vm_compute.
Qed.

Lemma alphabet_plain (z : Z) :
  0 ≤ z < 64 → is_char "=" (alphabet z) = false ∧ is_base64_char (alphabet z) = true
  ∧ is_space (alphabet z) = false.
Proof.
  intros Hz. eapply (sextet_forall (λ z, negb (is_char "=" (alphabet z))
    && is_base64_char (alphabet z) && negb (is_space (alphabet z)))) in Hz; [by unbool|].
  by vm_compute.
Qed.

Lemma bytes_ind (P : list Z → Prop) :
  P [] → (∀ a, P [a]) → (∀ a b, P [a; b]) →
  (∀ a b c l, P l → P (a :: b :: c :: l)) → ∀ l, P l.
Proof.
  intros H0 H1 H2 H3. fix IH 1. intros [|a [|b [|c l]]];
    [exact H0|apply H1|apply H2|exact (H3 a b c l (IH l))].
Qed.

Definition is_sextet (z : Z) : Prop := 0 ≤ z < 64.

(** An encoding is a run of sextets and at most two padding characters. *)
Lemma btoa_shape (l : list Z) :
  Forall is_byte l →
  ∃ zs k, btoa l = (map alphabet zs ++ replicate k "="%char)%list
    ∧ Forall is_sextet zs ∧ decode_sextets zs = l
    ∧ (k <= 2)%nat ∧ ((List.length zs + k) mod 4 = 0)%nat.
Proof.
  induction l as [|a|a b|a b c l IH] using bytes_ind; intros Hl;
    repeat match goal with H : Forall _ (_ :: _) |- _ => apply Forall_cons in H as [? H] end;
    unfold is_byte in *.
  - exists [], 0%nat. split_and!; [done|constructor|done|lia|done].
  - exists [a / 4; (a mod 4) * 16], 2%nat. unfold is_sextet.
    split_and!; [done|repeat constructor; zdiv| |lia|done]. simpl. f_equal. zdiv.
  - exists [a / 4; (a mod 4) * 16 + b / 16; (b mod 16) * 4], 1%nat. unfold is_sextet.
    split_and!; [done|repeat constructor; zdiv| |lia|done].
    simpl. f_equal; [zdiv|]. f_equal. zdiv.
  - destruct (IH Hl) as (zs & k & Hb & Hs & Hd & Hk & Hm).
    exists (a / 4 :: (a mod 4) * 16 + b / 16 :: (b mod 16) * 4 + c / 64 :: c mod 64 :: zs), k.
    unfold is_sextet in *. cbn [btoa decode_sextets map app List.length]. rewrite Hb, Hd.
    split_and!; [done|repeat (constructor; [zdiv|]); exact Hs| |done|].
    + do 2 (f_equal; [zdiv|]). f_equal. zdiv.
    + zdiv.
Qed.

Lemma strip_padding_encoded (zs : list Z) (k : nat) :
  Forall is_sextet zs → (k <= 2)%nat → ((List.length zs + k) mod 4 = 0)%nat →
  strip_padding (map alphabet zs ++ replicate k "="%char) = map alphabet zs.
Proof.
  intros Hz Hk Hm. unfold strip_padding.
  rewrite length_app, length_map, length_replicate, Hm. simpl.
  destruct zs as [|z zs _] using rev_ind.
  { destruct k as [|[|[|k]]]; simpl in *; try done; lia. }
  apply Forall_app in Hz as [_ Hz]. apply Forall_cons in Hz as [Hz _].
  destruct (alphabet_plain z Hz) as [Hp _].
  rewrite !map_app. simpl. rewrite !rev_app_distr.
  destruct k as [|[|[|k]]]; [| | |lia]; simpl; rewrite ?Hp; simpl.
  - rewrite app_nil_r. by destruct (rev _).
  - by rewrite rev_involutive.
  - by rewrite rev_involutive.
Qed.

(** Decoding inverts encoding. *)
Lemma atob_btoa (l : list Z) : Forall is_byte l → atob (of_chars (btoa l)) = Some l.
Proof.
  intros Hl. destruct (btoa_shape l Hl) as (zs & k & -> & Hz & Hd & Hk & Hm).
  unfold atob. rewrite chars_of_chars, strip_padding_encoded by done.
  rewrite length_map. case_match eqn:E.
  - apply Nat.eqb_eq in E. destruct k as [|[|[|k]]]; [| | |lia]; revert Hm;
      clear -E; intros; zdiv.
  - rewrite (mapM_fmap_Forall_Some _ alphabet zs); [simpl; by rewrite Hd|].
    by eapply Forall_impl; [|apply sextet_alphabet].
Qed.

Lemma split_spaces_word (b : bool) (l : list ascii) :
  split_spaces b l = split_spaces false l ∨ ∃ c r, l = c :: r ∧ is_space c = true.
Proof. destruct l as [|c r]; [by left|]. simpl. destruct (is_space c) eqn:E; eauto. Qed.

(** ** Completeness: a key line OpenSSH would write is accepted *)

Lemma split_spaces_space (l : list ascii) (r : list ascii) :
  Forall (λ c, is_space c = false) l →
  split_spaces false (l ++ " "%char :: r) = of_chars l :: split_spaces true r.
Proof.
  induction l as [|c l IH]; intros Hl; simpl; [done|].
  apply Forall_cons in Hl as [-> Hl]. by rewrite IH.
Qed.

Lemma chars_app (a b : string) : chars (a ++ b) = (chars a ++ chars b)%list.
Proof. unfold chars. induction a; simpl; [done|]. by f_equal. Qed.

Definition no_space (s : string) : bool := all_chars (λ c, negb (is_space c)) s.

Lemma no_space_Forall (s : string) : no_space s = true → Forall (λ c, is_space c = false) (chars s).
Proof.
  unfold no_space, all_chars. rewrite forallb_Forall. intros H.
  eapply Forall_impl; [exact H|]. simpl. intros c. apply negb_true_iff.
Qed.

Lemma btoa_chars (l : list Z) :
  Forall is_byte l →
  Forall (λ c, is_space c = false) (btoa l) ∧ (l ≠ [] → base64Pattern (of_chars (btoa l)) = true).
Proof.
  intros Hl. destruct (btoa_shape l Hl) as (zs & k & Hb & Hz & Hd & Hk & Hm). rewrite Hb.
  assert (Hspan : span is_base64_char (map alphabet zs ++ replicate k "="%char)
                  = (map alphabet zs, replicate k "="%char)).
  { clear -Hz. induction Hz as [|z zs Hz _ IH]; simpl.
    - by destruct k.
    - destruct (alphabet_plain z Hz) as (_ & -> & _). by rewrite IH. }
  split.
  - apply Forall_app. split.
    + apply Forall_map. eapply Forall_impl; [exact Hz|]. intros z Hs. apply alphabet_plain, Hs.
    + by apply Forall_replicate.
  - intros Hne. unfold base64Pattern. rewrite chars_of_chars, Hspan, length_replicate.
    rewrite bool_decide_false by (intros E%map_eq_nil; subst; by apply Hne).
    rewrite andb_true_intro; [done|split; [|apply Z.leb_le; lia]].
    simpl. apply forallb_Forall. by apply Forall_replicate.
Qed.

Lemma trim_id (c d : ascii) (l l' : list ascii) :
  l' = c :: l → last l' = Some d → is_space c = false → is_space d = false →
  trim (of_chars l') = of_chars l'.
Proof.
  intros Hl Hlast Hc Hd. unfold trim. rewrite chars_of_chars. f_equal.
  assert (Ht : trimStart l' = l') by (rewrite Hl; simpl; by rewrite Hc). rewrite Ht.
  apply last_Some in Hlast as [r ->]. rewrite rev_app_distr. simpl. rewrite Hd. simpl.
  by rewrite rev_involutive.
Qed.

Definition ssh_name_ok (type : string) : bool :=
  no_space type && truthy type && (0 <? js_length type) && (js_length type <=? 64)
  && match chars type with [] => false | _ => true end.

Lemma ssh_names_ok (type : string) : type ∈ SSH_KEY_TYPES → ssh_name_ok type = true.
Proof.
  intros H. apply (proj1 (forallb_forall ssh_name_ok SSH_KEY_TYPES)); [by vm_compute|].
  by apply list_elem_of_In.
Qed.

Lemma blob_of_bytes (type : string) (payload : list Z) :
  Forall is_byte payload → Forall is_byte (blob_of type payload).
Proof.
  intros Hp. unfold blob_of. repeat apply Forall_app_2; [| |done].
  - unfold be32, is_byte. repeat (constructor; [zdiv|]). constructor.
  - unfold codes. apply Forall_map, Forall_true. intros c. apply unit_of_range.
Qed.

(** The blob check accepts a length-prefixed accepted name. *)
Lemma blob_check (type : string) (payload : list Z) (body : string) (rest : list string) (key : string) :
  type ∈ SSH_KEY_TYPES → Forall is_byte payload →
  split_spaces false (chars (trim key)) = type :: body :: rest →
  truthy body = true → base64Pattern body = true → atob body = Some (blob_of type payload) →
  isStructurallyValidSshPublicKey key = true.
Proof.
  intros Ht Hp Hs Hb Hpat Ha. pose proof (ssh_names_ok type Ht) as Hok.
  unfold ssh_name_ok in Hok. unbool.
  unfold isStructurallyValidSshPublicKey. rewrite Hs, Hb, bool_decide_true, Hpat, Ha by done.
  replace (truthy type) with true by done. cbn [negb orb].
  unfold blob_of, be32. cbn [app].
  rewrite !blobNameLength_of by lia.
  rewrite take_app_length' by (rewrite <- length_codes; lia).
  rewrite fromCharCodes_codes, String.eqb_refl.
  pose proof (length_codes type). cbn [List.length]. rewrite length_app.
  replace (js_length type <=? 0) with false by (symmetry; apply Z.leb_gt; lia).
  replace (64 <? js_length type) with false by (symmetry; apply Z.ltb_ge; lia).
  match goal with |- context [?x <? 4 + ?y] =>
    replace (x <? 4 + y) with false by (symmetry; apply Z.ltb_ge; lia) end.
  done.
Qed.

Lemma last_plain (s : string) :
  no_space s = true → s ≠ "" → ∃ d, last (chars s) = Some d ∧ is_space d = false.
Proof.
  intros Hs%no_space_Forall Hne. destruct (last (chars s)) as [d|] eqn:E.
  - exists d. split; [done|]. rewrite Forall_forall in Hs. apply Hs.
    by apply last_Some_elem_of.
  - apply last_None in E. destruct s; [done|]. done.
Qed.

Lemma key_line_fields (type body comment : string) :
  no_space type = true → type ≠ "" → no_space body = true → body ≠ "" → no_space comment = true →
  let key := type ++ " " ++ body ++ (if truthy comment then " " ++ comment else "") in
  ∃ rest, split_spaces false (chars (trim key)) = type :: body :: rest.
Proof.
  intros Ht Hte Hb Hbe Hc key.
  destruct (last_plain body Hb Hbe) as (d & Hd & Hds).
  assert (Htrim : trim key = key).
  { destruct type as [|c t]; [done|]. apply no_space_Forall in Ht as Hf.
    apply Forall_cons in Hf as [Hc0 _].
    rewrite <- (string_of_list_ascii_of_string key).
    destruct (last (chars key)) as [e|] eqn:He; [|by apply last_None in He].
    eapply (trim_id c e); [reflexivity|exact He|done|].
    assert (Hkey : chars key = (chars (String c t ++ " ") ++ chars body ++
      chars (if truthy comment then " " ++ comment else ""))%list).
    { unfold key. by rewrite !chars_app, <- app_assoc. }
    rewrite Hkey in He. destruct (truthy comment) eqn:Et; rewrite ?chars_app, ?app_nil_r in He.
    - destruct (last_plain comment Hc) as (f & Hf & Hfs); [by destruct comment|].
      rewrite !last_app, Hf in He. simpl in He. congruence.
    - rewrite !last_app, Hd in He. simpl in He. congruence. }
  rewrite Htrim. unfold key. rewrite !chars_app.
  change (chars " ") with [" "%char]. cbn [app].
  rewrite split_spaces_space by (by apply no_space_Forall).
  assert (Hrun : ∀ r, split_spaces true (chars body ++ r) = split_spaces false (chars body ++ r)).
  { intros r. destruct (split_spaces_word true (chars body ++ r)) as [->|(c & l & E & Hcs)]; [done|].
    destruct body as [|c' b]; [done|]. apply no_space_Forall, Forall_cons in Hb as [? _].
    simpl in E. injection E as -> _. congruence. }
  rewrite Hrun.
  destruct (truthy comment).
  - rewrite chars_app. change (chars " ") with [" "%char]. cbn [app].
    rewrite split_spaces_space by (by apply no_space_Forall). eexists.
    unfold of_chars, chars. by rewrite !string_of_list_ascii_of_string.
  - change (chars "") with (@nil ascii). rewrite app_nil_r.
    rewrite split_spaces_no_space by (by apply no_space_Forall). exists [].
    unfold of_chars, chars. by rewrite !string_of_list_ascii_of_string.
Qed.

(** A key line with an accepted type and a blob that starts with that type. *)
Lemma key_line_accepted (type : string) (payload : list Z) (comment : string) :
  type ∈ SSH_KEY_TYPES → Forall is_byte payload → no_space comment = true →
  isStructurallyValidSshPublicKey (key_line type (blob_of type payload) comment) = true.
Proof.
  intros Ht Hp Hc. pose proof (ssh_names_ok type Ht) as Hok. unfold ssh_name_ok in Hok. unbool.
  pose proof (blob_of_bytes type payload Hp) as Hbytes.
  destruct (btoa_chars _ Hbytes) as [Hns Hpat].
  assert (Hb : truthy (of_chars (btoa (blob_of type payload))) = true) by done.
  destruct (key_line_fields type (of_chars (btoa (blob_of type payload))) comment) as [rest Hs].
  - done.
  - by intros ->.
  - unfold no_space, all_chars. rewrite chars_of_chars, forallb_Forall.
    eapply Forall_impl; [exact Hns|]. simpl. by intros c ->.
  - done.
  - done.
  - eapply blob_check; [exact Ht|exact Hp|exact Hs|exact Hb|by apply Hpat|by apply atob_btoa].
Qed.

(** ** Properties *)

(** Every key [isStructurallyValidSshPublicKey] accepts carries an accepted
    type, and its base 64 body decodes to a blob whose first length-prefixed
    field is that same type; conversely the key line OpenSSH writes for an
    accepted type (type, base 64 of a blob that starts with the type, optional
    comment) is accepted whatever the rest of the blob is. *)
Theorem ssh_key_check_correct (key type comment : string) (payload : list Z)
    (Ht : type ∈ SSH_KEY_TYPES) (Hp : Forall is_byte payload) (Hc : no_space comment = true) :
  isStructurallyValidSshPublicKey (key_line type (blob_of type payload) comment) = true
  ∧ (isStructurallyValidSshPublicKey key = true →
     ∃ type' body rest payload',
       split_spaces false (chars (trim key)) = type' :: body :: rest
       ∧ type' ∈ SSH_KEY_TYPES ∧ base64Pattern body = true
       ∧ atob body = Some (blob_of type' payload')).
Proof. split; [by apply key_line_accepted|apply valid_key_blob]. Qed.

Lemma ssh_key_check_correct_witness :
  isStructurallyValidSshPublicKey
    (key_line "ssh-ed25519" (blob_of "ssh-ed25519" [0; 0; 0; 1; 7]) "ops@lab") = true
  ∧ isStructurallyValidSshPublicKey "ssh-ed25519 AAAAAAAAAAAAAAAAAAAAAAAA" = false.
Proof.
  split; [|vm_compute; reflexivity].
  apply (ssh_key_check_correct "" "ssh-ed25519" "ops@lab" [0; 0; 0; 1; 7]).
  - unfold SSH_KEY_TYPES. repeat constructor.
  - unfold is_byte. repeat constructor; lia.
  - vm_compute. reflexivity.
Defined.
