(* ===== verification/JsonParse.v ===== *)
(** * Reading JSON text

    [JSON.parse], as the services use it on cursors and Kafka records, and the
    round trip with [JSON.stringify].  Text is a sequence of code units below
    256, so an escape above [\u00ff] is outside the model and refused; a number
    that is not an integer keeps its decimal value; a repeated member keeps its
    first place and its last value. *)
From S2P Require Import Prelude JsText Json SshKey.
From Stdlib Require Import ZArith Lia Bool Ascii String Decimal DecimalString DecimalPos DecimalN DecimalZ.
From stdpp Require Import base decidable list strings.
Open Scope string_scope.
Open Scope Z_scope.

(** ** The scanner *)

Definition json_space (c : ascii) : bool :=
  let u := unit_of c in (u =? 32) || (u =? 9) || (u =? 10) || (u =? 13).
Fixpoint skip_ws (l : list ascii) : list ascii :=
  match l with
  | [] => []
  | c :: r => if json_space c then skip_ws r else l
  end.

(** The character of a two-character escape. *)
Definition simple_escape (c : ascii) : option ascii :=
  let u := unit_of c in
  if (u =? 34) || (u =? 92) || (u =? 47) then Some c
  else if u =? 98 then Some (of_unit 8) else if u =? 102 then Some (of_unit 12)
  else if u =? 110 then Some (of_unit 10) else if u =? 114 then Some (of_unit 13)
  else if u =? 116 then Some (of_unit 9) else None.
Definition hex_escape (l : list ascii) : option ascii :=
  if forallb is_hex_digit l && (digits_value 16 l <? 256) then Some (of_unit (digits_value 16 l)) else None.

(** The characters of a string literal after its opening quote. *)
Fixpoint parse_chars (l : list ascii) : option (string * list ascii) :=
  match l with
  | [] => None
  | c :: r =>
      if Ascii.eqb c double_quote then Some ("", r)
      else if unit_of c =? 92 then
        match r with
        | [] => None
        | e :: r1 =>
            match simple_escape e with
            | Some x => '(s, k) ← parse_chars r1; Some (String x s, k)
            | None =>
                match r1 with
                | h1 :: h2 :: h3 :: h4 :: r2 =>
                    if unit_of e =? 117 then
                      x ← hex_escape [h1; h2; h3; h4]; '(s, k) ← parse_chars r2; Some (String x s, k)
                    else None
                | _ => None
                end
            end
        end
      else if unit_of c <? 32 then None
      else '(s, k) ← parse_chars r; Some (String c s, k)
  end.

(** The longest number at the head of the text: sign, integer part without
    leading zero, fraction and exponent. *)
Definition take_sign (l : list ascii) (signs : list ascii) : list ascii * list ascii :=
  match l with c :: r => if bool_decide (c ∈ signs) then ([c], r) else ([], l) | [] => ([], l) end.
Definition take_fraction (l : list ascii) : option (list ascii * list ascii) :=
  match l with
  | c :: r =>
      if is_char "." c then
        match span is_digit r with ([], _) => None | (ds, k) => Some (c :: ds, k) end
      else Some ([], l)
  | [] => Some ([], l)
  end.
Definition take_exponent (l : list ascii) : option (list ascii * list ascii) :=
  match l with
  | c :: r =>
      if is_char "e" c || is_char "E" c then
        let '(sign, r) := take_sign r ["-"; "+"]%char in
        match span is_digit r with ([], _) => None | (ds, k) => Some (c :: sign ++ ds, k)%list end
      else Some ([], l)
  | [] => Some ([], l)
  end.
Definition take_number (l : list ascii) : option (list ascii * list ascii) :=
  let '(sign, l) := take_sign l ["-"]%char in
  let '(int, l) := span is_digit l in
  match int with
  | [] => None
  | z :: more =>
      if is_char "0" z && negb (Nat.eqb (List.length more) 0) then None
      else
        '(frac, l) ← take_fraction l;
        '(exp, l) ← take_exponent l;
        Some ((sign ++ int ++ frac ++ exp)%list, l)
  end.
Definition number_value (token : list ascii) : json :=
  match Number_integer (of_chars token) with
  | Some n => JNum n
  | None =>
      let '(sign, digits) := take_sign token ["-"]%char in
      match decimal_literal digits with
      | Some (p, q) => JFraction (match sign with [] => p | _ => - p end) (Z.to_pos q)
      | None => JNull
      end
  end.

(** ** The parser *)

(** A member that is repeated replaces the earlier value. *)
Fixpoint set_member (k : string) (v : json) (l : list (string * json)) : list (string * json) :=
  match l with
  | [] => [(k, v)]
  | (k', v') :: r => if String.eqb k k' then (k, v) :: r else (k', v') :: set_member k v r
  end.

Definition strip_prefix (p l : list ascii) : option (list ascii) :=
  if bool_decide (take (List.length p) l = p) then Some (drop (List.length p) l) else None.
Definition parse_word (l : list ascii) : option (json * list ascii) :=
  match strip_prefix (chars "true") l, strip_prefix (chars "false") l, strip_prefix (chars "null") l with
  | Some k, _, _ => Some (JBool true, k)
  | _, Some k, _ => Some (JBool false, k)
  | _, _, Some k => Some (JNull, k)
  | _, _, _ => '(token, k) ← take_number l; Some (number_value token, k)
  end.

Fixpoint parse_value (n : nat) (l : list ascii) : option (json * list ascii) :=
  match n with
  | O => None
  | S n =>
      match skip_ws l with
      | [] => None
      | c :: r =>
          if Ascii.eqb c double_quote then '(s, k) ← parse_chars r; Some (JStr s, k)
          else if is_char "{" c then
            match skip_ws r with
            | [] => None
            | d :: k => if is_char "}" d then Some (JObj [], k) else parse_members n [] (d :: k)
            end
          else if is_char "[" c then
            match skip_ws r with
            | [] => None
            | d :: k =>
                if is_char "]" d then Some (JArr [], k)
                else '(vs, k) ← parse_elements n (d :: k); Some (JArr vs, k)
            end
          else parse_word (c :: r)
      end
  end
with parse_members (n : nat) (before : list (string * json)) (l : list ascii) : option (json * list ascii) :=
  match n with
  | O => None
  | S n =>
      match skip_ws l with
      | q :: r =>
          if Ascii.eqb q double_quote then
            '(key, r) ← parse_chars r;
            match skip_ws r with
            | colon :: r =>
                if is_char ":" colon then
                  '(v, r) ← parse_value n r;
                  let members := set_member key v before in
                  match skip_ws r with
                  | d :: k =>
                      if is_char "}" d then Some (JObj members, k)
                      else if is_char "," d then parse_members n members k
                      else None
                  | [] => None
                  end
                else None
            | [] => None
            end
          else None
      | [] => None
      end
  end
with parse_elements (n : nat) (l : list ascii) : option (list json * list ascii) :=
  match n with
  | O => None
  | S n =>
      '(v, r) ← parse_value n l;
      match skip_ws r with
      | d :: k =>
          if is_char "]" d then Some ([v], k)
          else if is_char "," d then '(vs, k) ← parse_elements n k; Some (v :: vs, k)
          else None
      | [] => None
      end
  end.

(** [JSON.parse]; [None] is the SyntaxError.  Every second call consumes a
    character, so twice the length is enough. *)
Definition JSON_parse (s : string) : option json :=
  '(v, k) ← parse_value (2 * String.length s + 2) (chars s);
  match skip_ws k with [] => Some v | _ => None end.


(** ** Integers *)

Lemma digits_fold (u : Decimal.uint) (p : positive) :
  fold_left (λ acc c, 10 * acc + digit_value c) (chars (NilEmpty.string_of_uint u)) (Zpos p)
  = Zpos (Pos.of_uint_acc u p).
Proof.
  revert p. induction u as [|u IH|u IH|u IH|u IH|u IH|u IH|u IH|u IH|u IH|u IH]; intros p; [done|..];
    cbn [NilEmpty.string_of_uint chars list_ascii_of_string fold_left Pos.of_uint_acc];
    rewrite <- IH; f_equal; unfold digit_value; vm_compute (unit_of _); cbn; lia.
Qed.

Lemma digits_of_uint (u : Decimal.uint) :
  digits_value 10 (chars (NilEmpty.string_of_uint u)) = Z.of_N (Pos.of_uint u).
Proof.
  unfold digits_value. induction u as [|u IH|u _|u _|u _|u _|u _|u _|u _|u _|u _]; [done|exact IH|..];
    cbn [NilEmpty.string_of_uint chars list_ascii_of_string fold_left Pos.of_uint Z.of_N];
    rewrite <- digits_fold; reflexivity.
Qed.

Lemma uint_digits (u : Decimal.uint) : forallb is_digit (chars (NilEmpty.string_of_uint u)) = true.
Proof. by induction u. Qed.

(** The numeral of an integer: a sign and canonical digits. *)
Lemma numeral (n : Z) :
  ∃ ds, chars (string_of_Z n) = ((if n <? 0 then ["-"%char] else []) ++ ds)%list
    ∧ forallb is_digit ds = true ∧ digits_value 10 ds = Z.abs n ∧ ds ≠ []
    ∧ match ds with z :: _ :: _ => is_char "0" z = false | _ => True end.
Proof.
  assert (Hpos : ∀ p : positive, ∃ ds, chars (NilEmpty.string_of_uint (Pos.to_uint p)) = ds
    ∧ forallb is_digit ds = true ∧ digits_value 10 ds = Zpos p ∧ ds ≠ []
    ∧ match ds with z :: _ :: _ => is_char "0" z = false | _ => True end).
  { intros p. eexists. split; [reflexivity|]. split; [apply uint_digits|].
    split; [by rewrite digits_of_uint, DecimalPos.Unsigned.of_to|].
    pose proof (DecimalN.Unsigned.to_of (Pos.to_uint p)) as Hn. unfold N.of_uint in Hn.
    rewrite DecimalPos.Unsigned.of_to in Hn. cbn in Hn.
    pose proof (DecimalPos.Unsigned.to_uint_nonnil p) as Hnil.
    destruct (Pos.to_uint p) as [|u|u|u|u|u|u|u|u|u|u] eqn:E; try done.
    all: split; [done|].
    all: cbn [NilEmpty.string_of_uint chars list_ascii_of_string].
    all: destruct (list_ascii_of_string _) eqn:E2; [done|]; try reflexivity.
    exfalso. clear - Hn E2. unfold unorm in Hn. cbn in Hn.
    assert (nb_digits (D0 u) ≤ nb_digits (nzhead u))%nat as Hd.
    { destruct (nzhead u) eqn:Hz; try (rewrite Hn; done). injection Hn as ->. done. }
    pose proof (DecimalFacts.nb_digits_nzhead u). cbn in Hd. lia. }
  destruct n as [|p|p].
  - exists ["0"%char]. split_and!; try reflexivity; done.
  - destruct (Hpos p) as (ds & Hds & Hrest). by exists ds.
  - destruct (Hpos p) as (ds & Hds & Hrest). exists ds. split; [|done]. cbn. by rewrite <- Hds.
Qed.

Lemma round_exact (n : Z) : 0 ≤ n → round_half_even n 1 = n.
Proof. intros Hn. unfold round_half_even. rewrite Z.div_1_r, Z.mod_1_r. by replace (2 * 0 <? 1) with true by reflexivity. Qed.

(** A safe integer is a double. *)
Lemma double_integer_safe (n : Z) : 0 ≤ n < 2 ^ 53 → double_integer n 1 = Some n.
Proof.
  intros Hn. unfold double_integer. destruct (Z.eqb_spec n 0) as [->|Hne]; [done|].
  assert (Hlog : 2 ^ Z.log2 n ≤ n < 2 ^ (Z.log2 n + 1)) by (apply Z.log2_spec; lia).
  assert (0 ≤ Z.log2 n) by apply Z.log2_nonneg.
  assert (Z.log2 n ≤ 52) by (enough (Z.log2 n < 53) by lia; apply Z.log2_lt_pow2; lia).
  replace (Z.log2 1) with 0 by reflexivity. rewrite Z.sub_0_r.
  replace (0 <=? Z.log2 n) with true by (symmetry; apply Z.leb_le; lia).
  replace (n <? 1 * 2 ^ Z.log2 n) with false by (symmetry; apply Z.ltb_ge; lia). cbv zeta.
  destruct (Z.leb_spec 0 (Z.log2 n - 52)).
  - replace (Z.log2 n - 52) with 0 by lia. change (1 * 2 ^ 0) with 1. rewrite round_exact, Z.mul_1_r by lia.
    by replace (n <? 2 ^ 1024) with true by (symmetry; apply Z.ltb_lt; nia).
  - set (e := - (Z.log2 n - 52)). assert (0 < 2 ^ e) by (apply Z.pow_pos_nonneg; lia).
    rewrite round_exact, Z.mod_mul, Z.div_mul by nia. done.
Qed.

Lemma span_stop (p : ascii → bool) (l rest : list ascii) :
  forallb p l = true → match rest with c :: _ => p c = false | [] => True end → span p (l ++ rest)%list = (l, rest).
Proof.
  intros Hl Hr. induction l as [|c l IH]; cbn.
  - destruct rest as [|c r]; [done|]. cbn. by rewrite Hr.
  - cbn in Hl. unbool. rewrite H, IH by done. done.
Qed.

(** What may follow a value: the end of the text or a delimiter. *)
Definition delimited (rest : list ascii) : Prop :=
  match rest with [] => True | c :: _ => c ∈ [","; "]"; "}"]%char end.

Lemma delimited_stop (rest : list ascii) (p : ascii → bool) :
  p ","%char = false → p "]"%char = false → p "}"%char = false → delimited rest →
  match rest with c :: _ => p c = false | [] => True end.
Proof. intros H1 H2 H3. destruct rest as [|c rest]; [done|]. cbn. rewrite !elem_of_cons. intros [->|[->|[->|[]%elem_of_nil]]]; done. Qed.

Lemma take_numeral (n : Z) (rest : list ascii) :
  delimited rest → take_number (chars (string_of_Z n) ++ rest)%list = Some (chars (string_of_Z n), rest).
Proof.
  intros Hrest. destruct (numeral n) as (ds & Hds & Hdigits & _ & Hne & Hlead). rewrite Hds.
  assert (Hs : take_sign (((if n <? 0 then ["-"%char] else []) ++ ds) ++ rest)%list ["-"]%char
    = ((if n <? 0 then ["-"%char] else []), ds ++ rest)%list).
  { destruct (n <? 0); [done|]. destruct ds as [|d ds]; [done|]. cbn in Hdigits. unbool. cbn.
    unfold take_sign. rewrite bool_decide_eq_false_2; [done|].
    intros Hd%list_elem_of_singleton. subst d. done. }
  unfold take_number. rewrite Hs. rewrite span_stop by (done || by apply delimited_stop).
  destruct ds as [|d ds]; [done|].
  assert (is_char "0" d && negb (Nat.eqb (List.length ds) 0) = false) as ->.
  { destruct ds; [by rewrite andb_false_r|by rewrite Hlead]. }
  assert (Hf : take_fraction rest = Some ([], rest)).
  { assert (Hstop := delimited_stop rest (is_char ".") eq_refl eq_refl eq_refl Hrest).
    destruct rest as [|c r]; [done|]. cbn. by rewrite Hstop. }
  assert (He : take_exponent rest = Some ([], rest)).
  { assert (Hstop := delimited_stop rest (λ c, is_char "e" c || is_char "E" c) eq_refl eq_refl eq_refl Hrest).
    destruct rest as [|c r]; [done|]. cbn. by rewrite Hstop. }
  rewrite Hf. cbn. rewrite He. cbn. by rewrite app_nil_r.
Qed.

Lemma trimStart_digits (l : list ascii) : Forall (λ c, is_space c = false) l → trimStart l = l.
Proof. intros [|c r Hc _]; [done|]. cbn. by rewrite Hc. Qed.

Lemma trim_plain (s : string) : Forall (λ c, is_space c = false) (chars s) → trim s = s.
Proof.
  intros Hs. unfold trim. rewrite (trimStart_digits _ Hs), trimStart_digits, rev_involutive by by apply List.Forall_rev.
  apply of_chars_chars.
Qed.

Lemma decimal_digits (ds : list ascii) :
  forallb is_digit ds = true → ds ≠ [] → decimal_literal ds = Some (digits_value 10 ds, 1).
Proof.
  intros Hd Hne. unfold decimal_literal.
  rewrite <- (app_nil_r ds) at 1. rewrite span_stop by done. rewrite app_nil_r.
  destruct ds as [|d ds]; [done|]. cbn -[digits_value Z.mul Z.pow]. by rewrite Z.mul_1_r.
Qed.

Lemma Number_numeral (n : Z) : - 2 ^ 53 < n < 2 ^ 53 → Number_integer (string_of_Z n) = Some n.
Proof.
  intros Hn. destruct (numeral n) as (ds & Hds & Hdigits & Hv & Hne & Hlead).
  assert (Hdigit : ∀ c, is_digit c = true → is_space c = false).
  { intros c Hc. apply negb_true_iff. revert c Hc. by apply digit_forall. }
  assert (Hspaces : Forall (λ c, is_space c = false) (chars (string_of_Z n))).
  { rewrite Hds. apply Forall_app. split; [by destruct (n <? 0); repeat constructor|].
    apply forallb_Forall in Hdigits. by apply (Forall_impl _ _ _ Hdigits). }
  assert (Hu : ('(p, q) ← decimal_literal ds; double_integer p q) = Some (Z.abs n)).
  { rewrite decimal_digits by done. cbn. rewrite Hv. apply double_integer_safe. lia. }
  unfold Number_integer. rewrite trim_plain, Hds by done. destruct (Z.ltb_spec n 0) as [Hneg|Hpos]; cbn [app].
  - change (is_char "-" "-") with true. cbv iota. rewrite Hu. cbn. f_equal. lia.
  - destruct ds as [|d ds]; [done|].
    assert (Hd : is_digit d = true) by (cbn in Hdigits; by unbool).
    assert (Hsign : is_char "-" d = false ∧ is_char "+" d = false).
    { split; apply negb_true_iff; clear - Hd; revert d Hd; by apply digit_forall. }
    destruct Hsign as [-> ->]. rewrite Z.abs_eq in Hu by lia.
    destruct ds as [|x ds]; [by destruct (is_char "0" d)|]. by rewrite Hlead.
Qed.

Lemma number_value_numeral (n : Z) : - 2 ^ 53 < n < 2 ^ 53 → number_value (chars (string_of_Z n)) = JNum n.
Proof. intros Hn. unfold number_value. by rewrite of_chars_chars, Number_numeral. Qed.

(** ** Round trip *)

Lemma parse_quoted_char (c : ascii) (l : list ascii) :
  parse_chars (chars (quote_char c) ++ l)%list = ('(s, k) ← parse_chars l; Some (String c s, k)).
Proof. destruct c as [[] [] [] [] [] [] [] []]; reflexivity. Qed.

Definition quoted_body (s : string) : string :=
  List.fold_right (λ c acc, quote_char c ++ acc) (String double_quote "") (chars s).
Lemma quoted_body_cons (c : ascii) (s : string) : quoted_body (String c s) = quote_char c ++ quoted_body s.
Proof. reflexivity. Qed.

Lemma parse_quoted (s : string) (rest : list ascii) :
  chars (quote s) = double_quote :: chars (quoted_body s)
  ∧ parse_chars (chars (quoted_body s) ++ rest)%list = Some (s, rest).
Proof.
  split; [reflexivity|]. induction s as [|c s IH]; [done|].
  by rewrite quoted_body_cons, chars_app, <- app_assoc, parse_quoted_char, IH.
Qed.

(** Values that JSON text represents: no [undefined], safe integers, and
    objects without repeated members. *)
Inductive plain : json → Prop :=
| plain_null : plain JNull
| plain_bool b : plain (JBool b)
| plain_num n : - 2 ^ 53 < n < 2 ^ 53 → plain (JNum n)
| plain_str s : plain (JStr s)
| plain_arr l : Forall plain l → plain (JArr l)
| plain_obj l : NoDup (map fst l) → Forall (λ p, plain (snd p)) l → plain (JObj l).

(** The text of a plain value, without the cases [stringify] drops. *)
Fixpoint json_text_of (v : json) : string :=
  match v with
  | JArr l => "[" ++ join_with "," (map json_text_of l) ++ "]"
  | JObj l => "{" ++ join_with "," (map (λ p, quote (fst p) ++ ":" ++ json_text_of (snd p)) l) ++ "}"
  | _ => default "null" (stringify v)
  end.

(** Induction on plain values. *)
Lemma plain_ind' (P : json → Prop) :
  P JNull → (∀ b, P (JBool b)) → (∀ n, - 2 ^ 53 < n < 2 ^ 53 → P (JNum n)) → (∀ s, P (JStr s)) →
  (∀ l, Forall P l → P (JArr l)) →
  (∀ l, NoDup (map fst l) → Forall (λ p, P (snd p)) l → P (JObj l)) →
  ∀ v, plain v → P v.
Proof.
  intros H1 H2 H3 H4 H5 H6. fix IH 2. intros v [ | | | |l Hl|l Hnd Hl].
  - exact H1.
  - apply H2.
  - by apply H3.
  - apply H4.
  - apply H5. induction Hl as [|x l Hx _ IHl]; constructor; [by apply IH|exact IHl].
  - apply H6; [exact Hnd|]. clear Hnd. induction Hl as [|x l Hx _ IHl]; constructor; [by apply IH|exact IHl].
Qed.

Lemma stringify_plain (v : json) : plain v → stringify v = Some (json_text_of v).
Proof.
  revert v. apply plain_ind'; try done.
  - intros l Hl. cbn. replace (map (λ x, default "null" (stringify x)) l) with (map json_text_of l); [done|].
    induction Hl as [|x l Hx _ IHl]; [done|]. cbn. by rewrite Hx, IHl.
  - intros l _ Hl. cbn.
    replace (omap (λ p, (λ t, quote (fst p) ++ ":" ++ t) <$> stringify (snd p)) l)
      with (map (λ p, quote (fst p) ++ ":" ++ json_text_of (snd p)) l); [done|].
    induction Hl as [|x l Hx _ IHl]; [done|]. cbn. by rewrite Hx, IHl.
Qed.

(** The calls a value needs. *)
Fixpoint calls (v : json) : nat :=
  match v with
  | JArr l => S (list_sum (map (λ x, S (calls x)) l))
  | JObj l => S (list_sum (map (λ p, S (calls (snd p))) l))
  | _ => 1
  end.

(** A delimiter follows. *)
Ltac delim := cbn; rewrite !elem_of_cons; auto.

Definition parses (v : json) : Prop :=
  ∀ n rest, (calls v ≤ n)%nat → delimited rest →
    parse_value n (chars (json_text_of v) ++ rest)%list = Some (v, rest).

(** A value's text starts with a character that is neither white space nor the
    end of an array. *)
Lemma text_head (v : json) :
  plain v → ∃ c r, chars (json_text_of v) = c :: r ∧ json_space c = false ∧ is_char "]" c = false.
Proof.
  destruct 1 as [|b|n Hn|s|l Hl|l Hnd Hl]; try (by eexists _, _).
  - destruct b; by eexists _, _.
  - destruct (numeral n) as (ds & Hds & Hdigits & _ & Hne & _). cbn [json_text_of stringify js_String default]. unfold id.
    rewrite Hds. destruct (n <? 0); [by eexists _, _|]. destruct ds as [|d ds]; [done|].
    exists d, ds. split; [done|]. assert (Hd : is_digit d = true) by (cbn in Hdigits; by unbool).
    clear - Hd. split; apply negb_true_iff; revert d Hd; by apply digit_forall.
Qed.

Lemma skip_head (c : ascii) (l : list ascii) : json_space c = false → skip_ws (c :: l) = c :: l.
Proof. intros Hc. cbn. by rewrite Hc. Qed.

Lemma chars_comma (s : string) (l : list ascii) :
  (chars (String "," s) ++ l)%list = ","%char :: (chars s ++ l)%list.
Proof. reflexivity. Qed.

Lemma parse_elements_text (l : list json) (rest : list ascii) :
  Forall parses l → l ≠ [] → ∀ n, (list_sum (map (λ x, S (calls x)) l) ≤ n)%nat →
  parse_elements n (chars (join_with "," (map json_text_of l)) ++ "]"%char :: rest)%list = Some (l, rest).
Proof.
  induction 1 as [|x l Hx Hl IH]; [done|]. intros _ n Hn. cbn in Hn. destruct n as [|n]; [lia|]. cbn [parse_elements].
  destruct l as [|y l].
  - cbn [map join_with]. rewrite Hx by (lia || delim). done.
  - change (join_with "," (map json_text_of (x :: y :: l)))
      with (json_text_of x ++ String "," (join_with "," (map json_text_of (y :: l)))).
    rewrite chars_app, <- app_assoc, Hx by (lia || delim).
    cbn [mbind option_bind]. rewrite chars_comma, skip_head by done.
    change (is_char "]" ",") with false. change (is_char "," ",") with true. cbv iota.
    rewrite IH; [done|done|cbn in *; lia].
Qed.

Lemma set_member_new (k : string) (v : json) (l : list (string * json)) :
  k ∉ map fst l → set_member k v l = (l ++ [(k, v)])%list.
Proof.
  induction l as [|[k' v'] l IH]; intros Hk; [done|]. cbn in *. apply not_elem_of_cons in Hk as [Hne Hk].
  destruct (String.eqb_spec k k'); [done|]. by rewrite IH.
Qed.

Definition member_text (p : string * json) : string := quote (fst p) ++ ":" ++ json_text_of (snd p).

Lemma parse_members_text (l : list (string * json)) (rest : list ascii) :
  Forall (λ p, parses (snd p)) l → l ≠ [] → ∀ n before, (list_sum (map (λ p, S (calls (snd p))) l) ≤ n)%nat →
  NoDup (map fst (before ++ l)%list) →
  parse_members n before (chars (join_with "," (map member_text l)) ++ "}"%char :: rest)%list
  = Some (JObj (before ++ l)%list, rest).
Proof.
  induction 1 as [|[k v] l Hv Hl IH]; [done|]. intros _ n before Hn Hnd. cbn in Hn, Hv. destruct n as [|n]; [lia|].
  assert (Hk : k ∉ map fst before).
  { rewrite map_app in Hnd. apply NoDup_app in Hnd as (_ & Hd & _). intros Hin. apply (Hd k Hin). by left. }
  assert (Htail : ∀ tail, (chars (member_text (k, v)) ++ tail)%list
    = double_quote :: (chars (quoted_body k) ++ ":"%char :: (chars (json_text_of v) ++ tail))%list).
  { intros tail. unfold member_text. cbn [fst snd]. rewrite chars_app. rewrite (proj1 (parse_quoted k [])).
    cbn [app]. by rewrite <- app_assoc. }
  assert (Hone : ∀ tail, delimited tail →
    parse_members (S n) before (chars (member_text (k, v)) ++ tail)%list
    = match skip_ws tail with
      | d :: r => if is_char "}" d then Some (JObj (before ++ [(k, v)])%list, r)
                  else if is_char "," d then parse_members n (before ++ [(k, v)])%list r else None
      | [] => None
      end).
  { intros tail Ht. rewrite Htail. cbn [parse_members]. rewrite skip_head by done. rewrite Ascii.eqb_refl.
    rewrite (proj2 (parse_quoted k _)). cbn [mbind option_bind]. rewrite skip_head by done.
    change (is_char ":" ":") with true. cbv iota. rewrite Hv by (lia || done). cbn [mbind option_bind].
    by rewrite set_member_new. }
  destruct l as [|[k2 v2] l].
  - cbn [map join_with]. rewrite Hone by delim. done.
  - change (join_with "," (map member_text ((k, v) :: (k2, v2) :: l)))
      with (member_text (k, v) ++ String "," (join_with "," (map member_text ((k2, v2) :: l)))).
    rewrite chars_app, <- app_assoc, Hone by delim.
    rewrite chars_comma, skip_head by done.
    change (is_char "}" ",") with false. change (is_char "," ",") with true. cbv iota. rewrite IH.
    + by rewrite <- app_assoc.
    + done.
    + cbn in *. lia.
    + by rewrite <- app_assoc.
Qed.

(** The first character of a value selects the branch of [parse_value]. *)
Lemma parse_number (z : Z) (n : nat) (rest : list ascii) :
  - 2 ^ 53 < z < 2 ^ 53 → delimited rest →
  parse_value (S n) (chars (string_of_Z z) ++ rest)%list = Some (JNum z, rest).
Proof.
  intros Hz Hrest. destruct (text_head (JNum z) ltac:(by constructor)) as (c & r & Hc & Hspace & _).
  cbn [json_text_of stringify js_String default] in Hc. unfold id in Hc.
  assert (Hfirst : is_char "-" c = true ∨ is_digit c = true).
  { destruct (numeral z) as (ds & Hds & Hdigits & _ & Hne & _). rewrite Hds in Hc.
    destruct (z <? 0); [injection Hc as <- _; by left|]. destruct ds as [|d ds]; [done|].
    injection Hc as -> _. cbn in Hdigits. unbool. by right. }
  assert (Hother : (Ascii.eqb c double_quote = false ∧ is_char "{" c = false ∧ is_char "[" c = false)
    ∧ c ≠ "t"%char ∧ c ≠ "f"%char ∧ c ≠ "n"%char).
  { destruct Hfirst as [Hf|Hf].
    - unfold is_char in Hf. apply Ascii.eqb_eq in Hf as <-. split_and!; done.
    - clear - Hf. split_and!; try (by intros ->); apply negb_true_iff; revert c Hf; by apply digit_forall. }
  destruct Hother as ((Hq & Hb & Ha) & Ht & Hf & Hn).
  pose proof (take_numeral z rest Hrest) as Htake. rewrite Hc in Htake |- *. cbn [app] in *.
  cbn [parse_value]. rewrite skip_head, Hq, Hb, Ha by done. unfold parse_word.
  assert (Hword : ∀ w p, w ≠ c → strip_prefix (w :: p) (c :: r ++ rest)%list = None).
  { intros w p Hne. unfold strip_prefix. rewrite bool_decide_eq_false_2; [done|]. cbn. congruence. }
  change (chars "true") with ("t" :: chars "rue")%char. change (chars "false") with ("f" :: chars "alse")%char.
  change (chars "null") with ("n" :: chars "ull")%char. rewrite !Hword by done. rewrite Htake. cbn.
  by rewrite <- Hc, number_value_numeral.
Qed.

Lemma parses_plain (v : json) : plain v → parses v.
Proof.
  intros Hv. cut (plain v ∧ parses v); [by intros []|]. revert v Hv. apply plain_ind'; unfold parses.
  - split; [constructor|]. intros [|n] rest Hn Hrest; [cbn in Hn; lia|]. reflexivity.
  - intros b. split; [constructor|]. intros [|n] rest Hn Hrest; [cbn in Hn; lia|]. destruct b; reflexivity.
  - intros z Hz. split; [by constructor|]. intros [|n] rest Hn Hrest; [cbn in Hn; lia|]. by apply parse_number.
  - intros s. split; [constructor|]. intros [|n] rest Hn Hrest; [cbn in Hn; lia|].
    change (json_text_of (JStr s)) with (quote s). rewrite (proj1 (parse_quoted s [])).
    cbn [app parse_value]. rewrite skip_head by done. rewrite Ascii.eqb_refl.
    by rewrite (proj2 (parse_quoted s rest)).
  - intros l Hl. apply Forall_and in Hl as [Hp Hl]. split; [by constructor|].
    intros [|n] rest Hn Hrest; [cbn in Hn; lia|].
    cbn [json_text_of]. rewrite !chars_app, <- !app_assoc. cbn [chars list_ascii_of_string app parse_value].
    rewrite skip_head by done. change (Ascii.eqb "[" double_quote) with false. change (is_char "{" "[") with false.
    change (is_char "[" "[") with true. cbv iota. destruct l as [|x l]; [done|].
    pose proof (parse_elements_text (x :: l) rest Hl ltac:(done) n ltac:(cbn in *; lia)) as Hparse.
    assert (Hhead : ∃ c r, (chars (join_with "," (map json_text_of (x :: l))) ++ "]"%char :: rest)%list = c :: r
      ∧ json_space c = false ∧ is_char "]" c = false).
    { destruct (text_head x) as (c & r & Hc & Hs & Hb); [by inversion Hp|]. destruct l as [|y l].
      - cbn [map join_with]. rewrite Hc. by eexists _, _.
      - change (join_with "," (map json_text_of (x :: y :: l)))
          with (json_text_of x ++ String "," (join_with "," (map json_text_of (y :: l)))).
        rewrite chars_app, Hc. by eexists _, _. }
    destruct Hhead as (c & r & Hc & Hs & Hb). change list_ascii_of_string with chars. rewrite Hc in Hparse |- *.
    rewrite skip_head, Hb by done. by rewrite Hparse.
  - intros l Hnd Hl. apply Forall_and in Hl as [Hp Hl]. split; [by constructor|].
    intros [|n] rest Hn Hrest; [cbn in Hn; lia|].
    cbn [json_text_of]. rewrite !chars_app, <- !app_assoc. cbn [chars list_ascii_of_string app parse_value].
    rewrite skip_head by done. change (Ascii.eqb "{" double_quote) with false. change (is_char "{" "{") with true.
    cbv iota. destruct l as [|[k v] l]; [done|]. fold member_text.
    pose proof (parse_members_text ((k, v) :: l) rest Hl ltac:(done) n [] ltac:(cbn in *; lia) Hnd) as Hparse.
    assert (Hhead : ∃ r, (chars (join_with "," (map member_text ((k, v) :: l))) ++ "}"%char :: rest)%list = double_quote :: r).
    { assert (Hm : chars (member_text (k, v)) = double_quote :: (chars (quoted_body k) ++ chars (":" ++ json_text_of v))%list)
        by (unfold member_text; cbn [fst snd]; rewrite chars_app, (proj1 (parse_quoted k [])); done).
      destruct l as [|p l]; [cbn [map join_with]; rewrite Hm; by eexists|].
      change (join_with "," (map member_text ((k, v) :: p :: l)))
        with (member_text (k, v) ++ String "," (join_with "," (map member_text (p :: l)))).
      rewrite chars_app, Hm. by eexists. }
    destruct Hhead as [r Hr]. change list_ascii_of_string with chars. rewrite Hr in Hparse |- *.
    rewrite skip_head by done. change (is_char "}" double_quote) with false. cbv iota. exact Hparse.
Qed.

Lemma chars_length (s : string) : List.length (chars s) = String.length s.
Proof. induction s as [|c s IH]; [done|]. exact (f_equal S IH). Qed.
Lemma length_append (a b : string) : String.length (a ++ b) = (String.length a + String.length b)%nat.
Proof. by rewrite <- !chars_length, chars_app, length_app. Qed.
Lemma join_length (l : list string) :
  (list_sum (map (λ s, S (String.length s)) l) ≤ S (String.length (join_with "," l)))%nat.
Proof.
  induction l as [|x [|y l] IH]; [cbn; lia|cbn; lia|].
  change (join_with "," (x :: y :: l)) with (x ++ String "," (join_with "," (y :: l))).
  rewrite <- chars_length, chars_app, length_app, !chars_length. cbn [String.length map list_sum] in *. cbn in *. lia.
Qed.

Lemma list_sum_le {A : Type} (f g : A → nat) (l : list A) :
  Forall (λ x, f x ≤ g x)%nat l → (list_sum (map f l) ≤ list_sum (map g l))%nat.
Proof.
  induction 1 as [|x l Hx _ IH]; [done|]. change (f x + list_sum (map f l) ≤ g x + list_sum (map g l))%nat. lia.
Qed.

Lemma calls_text (v : json) : plain v → (calls v ≤ String.length (json_text_of v))%nat.
Proof.
  revert v. apply plain_ind'.
  - cbn. lia.
  - intros []; cbn; lia.
  - intros n Hn. destruct (text_head (JNum n) ltac:(by constructor)) as (c & r & Hc & _).
    rewrite <- chars_length, Hc. cbn. lia.
  - intros s. cbn. lia.
  - intros l Hl. cbn [json_text_of calls].
    pose proof (join_length (map json_text_of l)) as Hj. rewrite !length_append.
    rewrite map_map in Hj.
    assert (list_sum (map (λ x, S (calls x)) l) ≤ list_sum (map (λ x, S (String.length (json_text_of x))) l))%nat
      by (apply list_sum_le, (Forall_impl _ _ _ Hl); lia).
    cbn [String.length]. lia.
  - intros l _ Hl. cbn [json_text_of calls]. fold member_text.
    pose proof (join_length (map member_text l)) as Hj. rewrite !length_append.
    rewrite map_map in Hj.
    assert (list_sum (map (λ p, S (calls (snd p))) l) ≤ list_sum (map (λ p, S (String.length (member_text p))) l))%nat.
    { apply list_sum_le, (Forall_impl _ _ _ Hl). intros p Hp. unfold member_text. rewrite !length_append. lia. }
    cbn [String.length]. lia.
Qed.

(** Text made from a plain value reads back as that value. *)
Lemma JSON_roundtrip (v : json) : plain v → stringify v = Some (json_text_of v) ∧ JSON_parse (json_text_of v) = Some v.
Proof.
  intros Hv. split; [by apply stringify_plain|]. unfold JSON_parse.
  pose proof (parses_plain v Hv (2 * String.length (json_text_of v) + 2)%nat []) as Hp.
  rewrite app_nil_r in Hp. rewrite Hp; [done| |done]. pose proof (calls_text v Hv). lia.
Qed.

(** So equal text is equal content. *)
Lemma stringify_inj (v w : json) : plain v → plain w → stringify v = stringify w → v = w.
Proof.
  intros Hv Hw Heq. destruct (JSON_roundtrip v Hv) as [Hsv Hpv]. destruct (JSON_roundtrip w Hw) as [Hsw Hpw].
  rewrite Hsv, Hsw in Heq. injection Heq as Heq. rewrite Heq in Hpv. congruence.
Qed.
