(* ===== verification/Domain.v ===== *)
(** * The domain rules: errors, validation and drift

    [packages/domain/src/index.ts] without the address allocator ([Ipv4.v]),
    the SSH key check ([SshKey.v]) and canonical JSON ([Json.v]). *)
From S2P Require Import Prelude JsText SshKey.
From Stdlib Require Import ZArith Lia Bool Ascii String.
From stdpp Require Import base decidable countable list strings gmap.
Open Scope string_scope.
Open Scope Z_scope.
Open Scope prog_scope.

(** ** Errors *)

Inductive DomainErrorCode : Set :=
| ADMIN_REQUIRED | DEAD_LETTER_NOT_FOUND | DISK_SHRINK_FORBIDDEN
| IDEMPOTENCY_CONFLICT | INSTANCE_BUSY | INSTANCE_NOT_FOUND
| OPERATION_NOT_FOUND | PROFILE_DISABLED | PROJECT_ACCESS_DENIED
| PROJECT_NOT_FOUND | QUOTA_EXCEEDED | REPLAY_NOT_ALLOWED
| SNAPSHOT_NOT_FOUND | SNAPSHOT_OWNERSHIP_MISMATCH | VALIDATION_FAILED.

#[export] Instance DomainErrorCode_eq_dec : EqDecision DomainErrorCode.
Proof. solve_decision. Defined.

(** A thrown [DomainError]: its code and its tenant-safe message.  [Fault] is
    any other thrown [Error] (an internal inconsistency). *)
Inductive error : Set :=
| DomainError (code : DomainErrorCode) (message : string)
| Fault (message : string).

#[export] Instance error_eq_dec : EqDecision error.
Proof. solve_decision. Defined.

Definition invalid (message : string) : error := DomainError VALIDATION_FAILED message.

Definition error_code (e : error) : option DomainErrorCode :=
  match e with DomainError c _ => Some c | Fault _ => None end.

(** ** Create requests *)

Record CreateInstanceValues : Set := {
  imageId : string;
  flavorId : string;
  networkId : string;
  hostname : string;
  sshPublicKeys : option (list string);
}.

(** [^[a-z0-9][a-z0-9-]{1,62}$]. *)
Definition slugPattern (s : string) : bool :=
  match chars s with
  | c :: r =>
      (is_digit c || is_lower c)
      && forallb (λ d, is_digit d || is_lower d || is_char "-" d) r
      && (1 <=? Z.of_nat (List.length r)) && (Z.of_nat (List.length r) <=? 62)
  | [] => false
  end.

(** [^[a-zA-Z0-9](?:[a-zA-Z0-9-]{0,61}[a-zA-Z0-9])?$]. *)
Definition hostnamePattern (s : string) : bool :=
  match chars s with
  | [] => false
  | c :: r =>
      is_alnum c
      && match rev r with
         | [] => true
         | last :: middle =>
             is_alnum last && forallb (λ d, is_alnum d || is_char "-" d) middle
             && (Z.of_nat (List.length middle) <=? 61)
         end
  end.

(** [new Set(l).size === l.length]. *)
Definition unique (l : list string) : bool :=
  bool_decide (size (list_to_set l : gset string) = List.length l).

(** [/[\r\n\0]/]. *)
Definition is_control (c : ascii) : bool :=
  (unit_of c =? 13) || (unit_of c =? 10) || (unit_of c =? 0).
Definition has_control (s : string) : bool := existsb is_control (chars s).

Fixpoint validateKeys (keys : list string) : result error unit :=
  match keys with
  | [] => Ok tt
  | key :: rest =>
      if (js_length key <? 32) || (8192 <? js_length key) || has_control key then
        Err (invalid "An SSH public key is invalid.")
      else if negb (isStructurallyValidSshPublicKey key) then
        Err (invalid "An SSH public key is not a well-formed key.")
      else validateKeys rest
  end.

Definition validateCreateInstance (values : CreateInstanceValues) : result error unit :=
  let keys := default [] values.(sshPublicKeys) in
  if negb (forallb slugPattern [values.(imageId); values.(flavorId); values.(networkId)]) then
    Err (invalid "Catalog identifiers are invalid.")
  else if negb (hostnamePattern values.(hostname)) then
    Err (invalid "Hostname is invalid.")
  else if 5 <? Z.of_nat (List.length keys) then
    Err (invalid "At most five SSH public keys are accepted.")
  else if negb (unique keys) then
    Err (invalid "SSH public keys must be unique.")
  else validateKeys keys.

(** ** Power actions *)

Inductive PowerAction : Set := start | shutdown | stop | reboot.
#[export] Instance PowerAction_eq_dec : EqDecision PowerAction.
Proof. solve_decision. Defined.

Definition POWER_ACTIONS : list (string * PowerAction) :=
  [("start", start); ("shutdown", shutdown); ("stop", stop); ("reboot", reboot)].

Definition power_action_text (a : PowerAction) : string :=
  match a with start => "start" | shutdown => "shutdown" | stop => "stop" | reboot => "reboot" end.

Definition lookup_text {A : Type} (k : string) (l : list (string * A)) : option A :=
  snd <$> List.find (λ p, String.eqb k (fst p)) l.

Definition validatePowerAction (action : string) : result error PowerAction :=
  match lookup_text action POWER_ACTIONS with
  | Some a => Ok a
  | None => Err (invalid "The requested power action is not supported.")
  end.

(** ** Resize *)

Record Sizing : Set := { cpuCount : Z; memoryMiB : Z; diskGiB : Z }.
#[export] Instance Sizing_eq_dec : EqDecision Sizing.
Proof. solve_decision. Defined.

Record ResizeRequest : Set := { current : Sizing; target : Sizing }.

Definition validateResize (request : ResizeRequest) : result error unit :=
  let c := request.(current) in
  let t := request.(target) in
  if t.(diskGiB) <? c.(diskGiB) then
    Err (DomainError DISK_SHRINK_FORBIDDEN "Disk size can grow but never shrink.")
  else if (t.(cpuCount) =? c.(cpuCount)) && (t.(memoryMiB) =? c.(memoryMiB))
          && (t.(diskGiB) =? c.(diskGiB)) then
    Err (invalid "The requested sizing matches the current sizing.")
  else Ok tt.

(** ** Snapshot names *)

(** A word between double quotes. *)
Definition quoted (s : string) : string :=
  let q := String "034"%char EmptyString in q ++ s ++ q.

(** [^[A-Za-z0-9][A-Za-z0-9_.-]{0,62}$]. *)
Definition snapshotNamePattern (s : string) : bool :=
  match chars s with
  | [] => false
  | c :: r =>
      is_alnum c
      && forallb (λ d, is_alnum d || is_char "_" d || is_char "." d || is_char "-" d) r
      && (Z.of_nat (List.length r) <=? 62)
  end.

Definition validateSnapshotName (name : string) : result error unit :=
  if negb (snapshotNamePattern name) then
    Err (invalid "Snapshot name must be 1 to 63 characters of letters, digits, dot, dash, or underscore.")
  else if String.eqb (toLowerCase name) "current" then
    Err (invalid ("The snapshot name " ++ quoted "current" ++ " is reserved."))
  else Ok tt.

(** ** Drift *)

Inductive DesiredPower : Set := desired_running | desired_stopped | desired_unchanged.
Inductive ObservedPower : Set :=
  observed_running | observed_stopped | observed_suspended | observed_unknown.
#[export] Instance DesiredPower_eq_dec : EqDecision DesiredPower.
Proof. solve_decision. Defined.
#[export] Instance ObservedPower_eq_dec : EqDecision ObservedPower.
Proof. solve_decision. Defined.

Record DesiredSnapshot : Set := {
  desired_lifecycleState : string;
  desired_powerState : DesiredPower;
  desired_sizing : Sizing;
}.
Record ObservedSnapshot : Set := {
  observed_exists : bool;
  observed_powerState : ObservedPower;
  observed_markerMatch : bool;
  observed_cpuCount : option Z;
  observed_memoryMiB : option Z;
  observed_diskGiB : option Z;
}.

Inductive DriftClassification : Set :=
| drift_none | missing_resource | identity_mismatch | stale_task
| late_success | power_drift | network_drift | ambiguous.
#[export] Instance DriftClassification_eq_dec : EqDecision DriftClassification.
Proof. solve_decision. Defined.

Record DriftFinding : Set := { classification : DriftClassification; dangerous : bool }.

(** [observed.powerState !== desired.powerState], comparing the text of the two unions. *)
Definition power_agrees (o : ObservedPower) (d : DesiredPower) : bool :=
  match o, d with
  | observed_running, desired_running => true
  | observed_stopped, desired_stopped => true
  | _, _ => false
  end.

(** [observed !== undefined && observed !== desired]. *)
Definition differs (o : option Z) (d : Z) : bool :=
  match o with Some z => negb (z =? d) | None => false end.
Definition below (o : option Z) (d : Z) : bool :=
  match o with Some z => z <? d | None => false end.

Definition classifyDrift (desired : DesiredSnapshot) (observed : ObservedSnapshot) : DriftFinding :=
  if observed.(observed_exists) && negb observed.(observed_markerMatch) then
    {| classification := identity_mismatch; dangerous := true |}
  else if negb observed.(observed_exists) then
    if String.eqb desired.(desired_lifecycleState) "purged" then
      {| classification := drift_none; dangerous := false |}
    else {| classification := missing_resource; dangerous := true |}
  else if bool_decide (observed.(observed_powerState) = observed_unknown) then
    {| classification := ambiguous; dangerous := true |}
  else if bool_decide (desired.(desired_powerState) ≠ desired_unchanged)
          && negb (power_agrees observed.(observed_powerState) desired.(desired_powerState)) then
    {| classification := power_drift; dangerous := false |}
  else if differs observed.(observed_cpuCount) desired.(desired_sizing).(cpuCount)
          || differs observed.(observed_memoryMiB) desired.(desired_sizing).(memoryMiB) then
    {| classification := network_drift; dangerous := false |}
  else if below observed.(observed_diskGiB) desired.(desired_sizing).(diskGiB) then
    {| classification := network_drift; dangerous := false |}
  else {| classification := drift_none; dangerous := false |}.

(** ** Lemmas *)

Lemma size_keys_le (l : list string) : (size (list_to_set l : gset string) <= List.length l)%nat.
Proof.
  induction l as [|x l IH]; [by rewrite list_to_set_nil, size_empty|].
  rewrite list_to_set_cons. simpl. destruct (decide (x ∈ (list_to_set l : gset string))).
  - replace ({[x]} ∪ list_to_set l : gset string) with (list_to_set l : gset string) by set_solver. lia.
  - rewrite size_union, size_singleton by set_solver. lia.
Qed.

(** [new Set(keys).size === keys.length] says the keys are distinct. *)
Lemma unique_NoDup (l : list string) : unique l = true ↔ NoDup l.
Proof.
  unfold unique. rewrite bool_decide_eq_true. split; [|by apply size_list_to_set].
  induction l as [|x l IH]; [constructor|].
  rewrite list_to_set_cons. simpl. intros H. pose proof (size_keys_le l).
  destruct (decide (x ∈ (list_to_set l : gset string))) as [Hin|Hin].
  - replace ({[x]} ∪ list_to_set l : gset string) with (list_to_set l : gset string) in H
      by set_solver. lia.
  - rewrite size_union, size_singleton in H by set_solver. constructor; [set_solver|]. apply IH. lia.
Qed.

(** What one accepted key satisfies. *)
Record key_ok (key : string) : Prop := {
  key_length : 32 ≤ js_length key ≤ 8192;
  key_one_line : Forall (λ c, unit_of c ≠ 10 ∧ unit_of c ≠ 13 ∧ unit_of c ≠ 0) (chars key);
  key_blob : isStructurallyValidSshPublicKey key = true;
}.

Lemma has_control_false (s : string) :
  has_control s = false ↔ Forall (λ c, unit_of c ≠ 10 ∧ unit_of c ≠ 13 ∧ unit_of c ≠ 0) (chars s).
Proof.
  unfold has_control. induction (chars s) as [|c l IH]; simpl; [done|].
  rewrite Forall_cons, orb_false_iff, IH. unfold is_control.
  rewrite !orb_false_iff, !Z.eqb_neq. naive_solver.
Qed.

Lemma validateKeys_Ok (keys : list string) : validateKeys keys = Ok tt ↔ Forall key_ok keys.
Proof.
  induction keys as [|key keys IH]; simpl; [done|]. rewrite Forall_cons, <- IH. split.
  - case_match eqn:E1; [done|]. case_match eqn:E2; [done|]. unbool. intros Hk. split; [|done].
    split; [lia|by apply has_control_false|done].
  - intros [[Hl Hc Hv] Hk]. apply has_control_false in Hc.
    replace (js_length key <? 32) with false by (symmetry; apply Z.ltb_ge; lia).
    replace (8192 <? js_length key) with false by (symmetry; apply Z.ltb_ge; lia).
    by rewrite Hc, Hv.
Qed.

(** ** Properties *)

(** [validateCreateInstance] accepts a request exactly when the three
    catalog identifiers are slugs, the hostname is an RFC 1123 label, and
    there are at most five distinct SSH keys, each of 32 to 8192 characters on
    a single line (no carriage return, line feed or NUL that could add a
    cloud-init directive) and structurally valid; it has no other result than
    acceptance or [VALIDATION_FAILED]. *)
Theorem validateCreateInstance_characterised (v : CreateInstanceValues) :
  (validateCreateInstance v = Ok tt ↔
     (slugPattern v.(imageId) = true ∧ slugPattern v.(flavorId) = true
      ∧ slugPattern v.(networkId) = true)
     ∧ hostnamePattern v.(hostname) = true
     ∧ Z.of_nat (List.length (default [] v.(sshPublicKeys))) ≤ 5
     ∧ NoDup (default [] v.(sshPublicKeys))
     ∧ Forall key_ok (default [] v.(sshPublicKeys)))
  ∧ (∀ e, validateCreateInstance v = Err e → error_code e = Some VALIDATION_FAILED).
Proof.
  unfold validateCreateInstance. rewrite <- validateKeys_Ok, <- unique_NoDup.
  set (keys := default [] (sshPublicKeys v)). simpl forallb. split.
  - destruct (slugPattern (imageId v)), (slugPattern (flavorId v)), (slugPattern (networkId v)),
      (hostnamePattern (hostname v)), (unique keys); simpl;
      destruct (5 <? Z.of_nat (List.length keys)) eqn:E; unbool; try naive_solver lia.
  - intros e. repeat (case_match; [by intros [= <-]|]).
    generalize keys. clear. intros keys. induction keys as [|k keys IH]; simpl; [done|].
    repeat (case_match; [by intros [= <-]|]). done.
Qed.

(** [classifyDrift] reports no drift only for a purged instance that is
    gone or a machine that exists under the instance's own markers, in a known
    power state that agrees with the desired one, with the desired processors
    and memory and no less disk than desired (where those are observed).  A
    finding is dangerous exactly when the resource is absent without having
    been purged, carries foreign markers, or has an unknown power state, so a
    foreign resource is always an identity mismatch whatever else it reports. *)
Theorem classifyDrift_sound (d : DesiredSnapshot) (o : ObservedSnapshot) :
  let f := classifyDrift d o in
  (f.(classification) = drift_none →
     (o.(observed_exists) = false ∧ d.(desired_lifecycleState) = "purged")
     ∨ (o.(observed_exists) = true ∧ o.(observed_markerMatch) = true
        ∧ o.(observed_powerState) ≠ observed_unknown
        ∧ (d.(desired_powerState) = desired_unchanged
           ∨ power_agrees o.(observed_powerState) d.(desired_powerState) = true)
        ∧ (∀ n, o.(observed_cpuCount) = Some n → n = d.(desired_sizing).(cpuCount))
        ∧ (∀ n, o.(observed_memoryMiB) = Some n → n = d.(desired_sizing).(memoryMiB))
        ∧ (∀ n, o.(observed_diskGiB) = Some n → d.(desired_sizing).(diskGiB) ≤ n)))
  ∧ (f.(dangerous) = true ↔
       (o.(observed_exists) = false ∧ d.(desired_lifecycleState) ≠ "purged")
       ∨ (o.(observed_exists) = true
          ∧ (o.(observed_markerMatch) = false ∨ o.(observed_powerState) = observed_unknown)))
  ∧ (o.(observed_exists) = true → o.(observed_markerMatch) = false →
       f.(classification) = identity_mismatch).
Proof.
  unfold classifyDrift. destruct d as [life dp ds], o as [ex op mm oc om od]; simpl.
  destruct ex, mm; simpl; try (split_and!; [naive_solver..|done]).
  - destruct (decide (op = observed_unknown)) as [->|Hop]; [split_and!; naive_solver|].
    rewrite bool_decide_false by done.
    destruct (bool_decide (dp ≠ desired_unchanged) && negb (power_agrees op dp)) eqn:E1;
      [split_and!; naive_solver|].
    destruct (differs oc (cpuCount ds) || differs om (memoryMiB ds)) eqn:E2;
      [split_and!; naive_solver|].
    destruct (below od (diskGiB ds)) eqn:E3; [split_and!; naive_solver|].
    split_and!; [|naive_solver..]. intros _. right. unbool. split_and!; try done.
    + destruct E1; unbool; [left; by apply dec_stable|by right].
    + intros n ->. simpl in *. by unbool.
    + intros n ->. simpl in *. by unbool.
    + intros n ->. simpl in *. by unbool.
  - destruct (String.eqb_spec life "purged"); split_and!; naive_solver.
  - destruct (String.eqb_spec life "purged"); split_and!; naive_solver.
Qed.
