(* ===== verification/PageCursor.v ===== *)
(** * Keyset pagination

    [page-cursor.ts]: the opaque cursor and its round trip, [paginate], and
    the seek queries of [control-plane-store.ts] that use them.  What an order
    of rows must offer a paginated query is the class [Seek]; the theorems on
    walking the pages hold for every order that keeps its laws.  Node's
    [Buffer] conversions are parameters. *)
From S2P Require Import Prelude JsText Json SshKey Domain JsonParse.
From Stdlib Require Import ZArith Lia Bool Ascii String Sorting.Sorted.
From stdpp Require Import base decidable list strings sorting.
Open Scope string_scope.
Open Scope Z_scope.
Open Scope prog_scope.

(** [Buffer.from(text, 'utf8').toString('base64url')] and its inverse. *)
Class Base64url : Type := {
  toBase64url : string → string;
  fromBase64url : string → string;
}.

Definition CURSOR_VERSION : Z := 1.
Definition MAXIMUM_CURSOR_LENGTH : Z := 512.
Definition MAXIMUM_COMPONENT_LENGTH : Z := 128.

Record PageCursor : Set := { cu_sortKey : string; cu_id : string }.

(** [null] where the source returns [null]; [undefined] is [None] as well. *)
Record PageRequest : Set := { pg_limit : Z; pg_cursor : option string }.

Definition invalidCursor : error := invalid "The pagination cursor is not valid.".

Definition isComponent (v : json) : option string :=
  match v with
  | JStr s => if (0 <? js_length s) && (js_length s <=? MAXIMUM_COMPONENT_LENGTH) then Some s else None
  | _ => None
  end.

Definition cursor_json (p : PageCursor) : json :=
  JObj [("v", JNum CURSOR_VERSION); ("s", JStr p.(cu_sortKey)); ("i", JStr p.(cu_id))].

Section cursor.
Context `{Base64url}.

Definition encodePageCursor (p : PageCursor) : string := toBase64url (default "" (stringify (cursor_json p))).

Definition decodePageCursor (cursor : string) : result error PageCursor :=
  if (js_length cursor =? 0) || (MAXIMUM_CURSOR_LENGTH <? js_length cursor) then Err invalidCursor
  else
    match JSON_parse (fromBase64url cursor) with
    | Some (JObj candidate) =>
        match field "v" candidate with
        | JNum v =>
            if v =? CURSOR_VERSION then
              match isComponent (field "s" candidate), isComponent (field "i" candidate) with
              | Some s, Some i => Ok {| cu_sortKey := s; cu_id := i |}
              | _, _ => Err invalidCursor
              end
            else Err invalidCursor
        | _ => Err invalidCursor
        end
    | _ => Err invalidCursor
    end.

Definition paginate {T : Type} (rows : list T) (limit : Z) (position : T → PageCursor) : list T * option string :=
  if Z.of_nat (List.length rows) <=? limit then (rows, None)
  else
    let items := take (Z.to_nat limit) rows in
    (items, (λ r, encodePageCursor (position r)) <$> last items).

(** ** Seek queries *)

(** How a paginated query orders rows: the position a cursor carries for a
    row, the key the database casts a position to, and the listing order. *)
Class Seek (R K : Type) : Type := {
  position : R → PageCursor;
  seek_key : PageCursor → result error K;
  row_key : R → K;
  precedes : K → K → bool;
}.

Section seek.
Context {R K : Type} `{Seek R K}.

(** ORDER BY on the listing order. *)
Definition in_order (a b : R) : Prop := precedes (row_key b) (row_key a) = false.
#[export] Instance in_order_dec : RelDecision in_order.
Proof. intros a b. unfold in_order. apply _. Defined.
Definition sorted_rows (rows : list R) : list R := merge_sort in_order rows.

Definition after_key (k : K) (rows : list R) : list R := List.filter (λ r, precedes k (row_key r)) rows.

(** SELECT ... WHERE (seek) ORDER BY ... LIMIT limit + 1, trimmed. *)
Definition list_page (page : PageRequest) (rows : list R) : result error (list R * option string) :=
  let? wanted :=
    match page.(pg_cursor) with
    | Some c =>
        if truthy c then
          let? p := decodePageCursor c in
          let? k := seek_key p in
          Ok (after_key k rows)
        else Ok rows
    | None => Ok rows
    end in
  Ok (paginate (take (Z.to_nat (page.(pg_limit) + 1)) (sorted_rows wanted)) page.(pg_limit) position).
End seek.

(** ** Cursors *)

Definition component (s : string) : Prop := 1 ≤ js_length s ≤ MAXIMUM_COMPONENT_LENGTH.

Lemma isComponent_str (s : string) : component s → isComponent (JStr s) = Some s.
Proof.
  intros Hs. unfold component, isComponent in *.
  replace (0 <? js_length s) with true by (symmetry; apply Z.ltb_lt; lia).
  by replace (js_length s <=? MAXIMUM_COMPONENT_LENGTH) with true by (symmetry; apply Z.leb_le; lia).
Qed.

Lemma cursor_plain (p : PageCursor) : plain (cursor_json p).
Proof.
  constructor; [|repeat constructor; cbn; unfold CURSOR_VERSION; lia].
  apply (bool_decide_unpack _). by vm_compute.
Qed.

Section roundtrip.
(** The documented round trip of the encoding. *)
Hypothesis base64url_roundtrip : ∀ s, fromBase64url (toBase64url s) = s.

Lemma decode_encode (p : PageCursor) :
  component p.(cu_sortKey) → component p.(cu_id) →
  1 ≤ js_length (encodePageCursor p) ≤ MAXIMUM_CURSOR_LENGTH → decodePageCursor (encodePageCursor p) = Ok p.
Proof.
  intros Hs Hi Hl. unfold decodePageCursor. pose proof (JSON_roundtrip _ (cursor_plain p)) as [Htext Hparse].
  replace (js_length (encodePageCursor p) =? 0) with false by (symmetry; apply Z.eqb_neq; lia).
  replace (MAXIMUM_CURSOR_LENGTH <? js_length (encodePageCursor p)) with false by (symmetry; apply Z.ltb_ge; lia).
  unfold encodePageCursor. rewrite base64url_roundtrip, Htext. cbn [default]. unfold id.
  rewrite Hparse. cbn -[isComponent]. rewrite !isComponent_str by done. by destruct p.
Qed.

(** A cursor carries its position: what [encodePageCursor] issues,
    [decodePageCursor] reads back as the same position, for every position
    whose components are within bounds and whose token fits the contract; two
    positions never share a token; and whatever text a caller sends, the
    result is a position within bounds or VALIDATION_FAILED. *)
Theorem cursor_roundtrip (p : PageCursor) (Hs : component p.(cu_sortKey)) (Hi : component p.(cu_id))
    (Hl : 1 ≤ js_length (encodePageCursor p) ≤ MAXIMUM_CURSOR_LENGTH) :
  decodePageCursor (encodePageCursor p) = Ok p
  ∧ (∀ q, encodePageCursor q = encodePageCursor p → q = p)
  ∧ (∀ text, match decodePageCursor text with
             | Ok q => component q.(cu_sortKey) ∧ component q.(cu_id)
             | Err e => error_code e = Some VALIDATION_FAILED
             end).
Proof.
  split_and!; [by apply decode_encode| |].
  - intros q Hq. unfold encodePageCursor in Hq. apply (f_equal fromBase64url) in Hq.
    rewrite !base64url_roundtrip in Hq.
    assert (Htext : stringify (cursor_json q) = stringify (cursor_json p)).
    { rewrite !stringify_plain by apply cursor_plain. rewrite !stringify_plain in Hq by apply cursor_plain.
      exact (f_equal Some Hq). }
    apply stringify_inj in Htext; [|apply cursor_plain..]. destruct p, q. by simplify_eq/=.
  - intros text. unfold decodePageCursor, isComponent, component. repeat case_match; simplify_eq; try done; cbn; unbool; lia.
Qed.
End roundtrip.

(** ** Walking the pages *)

Lemma StronglySorted_impl {A : Type} (P Q : A → A → Prop) (l : list A) :
  StronglySorted P l → (∀ a b, P a b → Q a b) → StronglySorted Q l.
Proof.
  intros Hl Hpq. induction Hl as [|a l _ IH Ha]; constructor; [done|]. eapply Forall_impl; [exact Ha|]. intros b. apply Hpq.
Qed.

Class SeekLaws (R K : Type) `{Seek R K} : Prop := {
  precedes_irrefl k : precedes k k = false;
  precedes_trans a b c : precedes a b = true → precedes b c = true → precedes a c = true;
  precedes_total a b : precedes a b = false → precedes b a = false → a = b;
}.

(** A row a cursor can point to. *)
Definition addressable {R K : Type} `{Seek R K} (r : R) : Prop :=
  encodePageCursor (position r) ≠ "" ∧ decodePageCursor (encodePageCursor (position r)) = Ok (position r)
  ∧ seek_key (position r) = Ok (row_key r).

Section walk.
Context {R K : Type} `{SeekLaws R K}.

(** A client follows the cursors, each request against the version of the
    table of its moment: the rows collected, and the cursor left over. *)
Fixpoint walk (limit : Z) (versions : list (list R)) (cursor : option string) : result error (list R * option string) :=
  match versions with
  | [] => Ok ([], cursor)
  | rows :: versions =>
      let? page := list_page {| pg_limit := limit; pg_cursor := cursor |} rows in
      match page with
      | (items, None) => Ok (items, None)
      | (items, Some next) => let? rest := walk limit versions (Some next) in Ok ((items ++ fst rest)%list, snd rest)
      end
  end.

Definition strictly (a b : R) : Prop := precedes (row_key a) (row_key b) = true.

#[local] Instance in_order_trans : Transitive in_order.
Proof.
  intros a b c. unfold in_order. intros Hba Hcb. destruct (precedes (row_key c) (row_key a)) eqn:Hca; [|done].
  destruct (precedes (row_key a) (row_key b)) eqn:Hab.
  - by rewrite (precedes_trans _ _ _ Hca Hab) in Hcb.
  - rewrite (precedes_total _ _ Hab Hba) in Hca. congruence.
Qed.
#[local] Instance in_order_total : Total in_order.
Proof.
  intros a b. unfold in_order. destruct (precedes (row_key b) (row_key a)) eqn:Hba; [|by left].
  right. destruct (precedes (row_key a) (row_key b)) eqn:Hab; [|done].
  pose proof (precedes_trans _ _ _ Hba Hab) as Hbb. by rewrite precedes_irrefl in Hbb.
Qed.

Lemma sorted_perm (rows : list R) : sorted_rows rows ≡ₚ rows.
Proof. apply merge_sort_Permutation. Qed.

(** With distinct keys the listing is strictly ordered. *)
Lemma sorted_strictly (rows : list R) : NoDup (map row_key rows) → StronglySorted strictly (sorted_rows rows).
Proof.
  intros Hnd. rewrite <- (sorted_perm rows) in Hnd.
  pose proof (StronglySorted_merge_sort in_order rows) as Hs. fold (sorted_rows rows) in Hs.
  induction Hs as [|a l Hs IH Ha]; [constructor|]. cbn in Hnd. apply NoDup_cons in Hnd as [Hin Hnd].
  constructor; [by apply IH|]. apply Forall_forall. intros b Hb. rewrite Forall_forall in Ha.
  specialize (Ha b Hb). unfold in_order in Ha. unfold strictly.
  destruct (precedes (row_key a) (row_key b)) eqn:Hab; [done|]. exfalso. apply Hin.
  rewrite (precedes_total _ _ Hab Ha). by apply list_elem_of_fmap_2.
Qed.

(** ** One page *)

Definition remaining (k : option K) (rows : list R) : list R :=
  match k with Some k => after_key k rows | None => rows end.
(** A cursor that stands at a key: none yet, or the one issued for a row. *)
Definition stands_at (cursor : option string) (k : option K) : Prop :=
  match cursor, k with
  | None, None => True
  | Some c, Some k => ∃ r, addressable r ∧ c = encodePageCursor (position r) ∧ k = row_key r
  | _, _ => False
  end.
(** A version of the table: distinct keys, and every row can be pointed to. *)
Definition proper (rows : list R) : Prop := NoDup (map row_key rows) ∧ Forall addressable rows.

Lemma list_page_at (limit : Z) (cursor : option string) (k : option K) (rows : list R) :
  stands_at cursor k →
  list_page {| pg_limit := limit; pg_cursor := cursor |} rows
  = Ok (paginate (take (Z.to_nat (limit + 1)) (sorted_rows (remaining k rows))) limit position).
Proof.
  unfold list_page. destruct cursor as [c|], k as [k|]; cbn; try done.
  intros (r & (Hne & Hdecode & Hkey) & -> & ->). unfold truthy.
  destruct (String.eqb_spec (encodePageCursor (position r)) ""); [done|]. cbn. rewrite Hdecode. cbn. by rewrite Hkey.
Qed.

Lemma filtered_nodup {I : Type} (f : R → I) (p : R → bool) (rows : list R) :
  NoDup (map f rows) → NoDup (map f (List.filter p rows)).
Proof.
  induction rows as [|r rows IH]; cbn; [done|]. intros [Hin Hnd]%NoDup_cons.
  destruct (p r); [|by apply IH]. cbn. constructor; [|by apply IH].
  intros (r' & Hr & Hr')%list_elem_of_fmap. apply Hin. rewrite Hr. apply list_elem_of_fmap_2.
  apply list_elem_of_In, filter_In in Hr' as [Hr' _]. by apply list_elem_of_In.
Qed.
Lemma proper_remaining (k : option K) (rows : list R) : proper rows → proper (remaining k rows).
Proof.
  intros [Hnd Ha]. destruct k as [k|]; [|done]. unfold remaining, after_key. split.
  - by apply filtered_nodup.
  - apply Forall_forall. intros r Hr. rewrite Forall_forall in Ha. apply Ha.
    apply list_elem_of_In, filter_In in Hr as [Hr _]. by apply list_elem_of_In.
Qed.

Lemma elem_of_after (k : K) (rows : list R) (r : R) :
  r ∈ after_key k rows ↔ r ∈ rows ∧ precedes k (row_key r) = true.
Proof. unfold after_key. by rewrite !list_elem_of_In, filter_In. Qed.

(** The rows of a page, the row its cursor points to, and what lies beyond. *)
Lemma page_cases (limit : Z) (k : option K) (rows : list R) :
  1 ≤ limit → proper rows →
  let all := sorted_rows (remaining k rows) in
  let page := paginate (take (Z.to_nat (limit + 1)) all) limit position in
  (Z.of_nat (List.length all) ≤ limit ∧ page = (all, None))
  ∨ (limit < Z.of_nat (List.length all) ∧ ∃ r init rest,
       all = (init ++ r :: rest)%list ∧ Z.of_nat (List.length init) = limit - 1 ∧ addressable r
       ∧ page = ((init ++ [r])%list, Some (encodePageCursor (position r)))).
Proof.
  intros Hlimit Hrows all page. destruct (Z.leb_spec (Z.of_nat (List.length all)) limit) as [Hle|Hgt].
  - left. split; [done|]. unfold page, paginate. rewrite take_ge by lia.
    by replace (Z.of_nat (List.length all) <=? limit) with true by (symmetry; apply Z.leb_le; lia).
  - right. split; [done|]. destruct (lookup_lt_is_Some_2 all (Z.to_nat (limit - 1))) as [r Hr]; [lia|].
    exists r, (take (Z.to_nat (limit - 1)) all), (drop (S (Z.to_nat (limit - 1))) all).
    assert (Hsplit := take_drop_middle all _ r Hr).
    assert (Hlen : List.length (take (Z.to_nat (limit - 1)) all) = Z.to_nat (limit - 1)) by (rewrite length_take; lia).
    split_and!; [done|lia| |].
    + pose proof (proper_remaining k rows Hrows) as [_ Ha]. rewrite Forall_forall in Ha. apply Ha.
      unfold all in Hr. rewrite <- (sorted_perm (remaining k rows)). by eapply list_elem_of_lookup_2.
    + unfold page, paginate. rewrite length_take.
      replace (Z.of_nat (Z.to_nat (limit + 1) `min` List.length all) <=? limit) with false by (symmetry; apply Z.leb_gt; lia).
      rewrite take_take. replace (Z.to_nat limit `min` Z.to_nat (limit + 1))%nat with (S (Z.to_nat (limit - 1))) by lia.
      rewrite (take_S_r _ _ _ Hr). by rewrite last_snoc.
Qed.

Lemma sorted_around (l init rest : list R) (r : R) :
  StronglySorted strictly l → l = (init ++ r :: rest)%list →
  Forall (λ a, strictly a r) init ∧ Forall (strictly r) rest ∧ StronglySorted strictly (init ++ [r]) ∧ StronglySorted strictly rest.
Proof.
  intros Hs ->. induction init as [|a init IH]; cbn in *.
  - apply StronglySorted_inv in Hs as [Hs Hr]. split_and!; [constructor|done|repeat constructor|done].
  - apply StronglySorted_inv in Hs as [Hs Ha]. destruct (IH Hs) as (Hi & Hr2 & Hir & Hsr). apply Forall_app in Ha as [Ha Hr].
    apply Forall_cons in Hr as [Har Hrest]. split_and!; [by constructor|done| |done].
    constructor; [done|]. apply Forall_app. split; [done|by constructor].
Qed.

Lemma strictly_not (a b : R) : strictly a b → precedes (row_key b) (row_key a) = false.
Proof.
  intros Hab. destruct (precedes (row_key b) (row_key a)) eqn:Hba; [|done].
  pose proof (precedes_trans _ _ _ Hab Hba) as Haa. by rewrite precedes_irrefl in Haa.
Qed.

Lemma strictly_nodup (l : list R) : StronglySorted strictly l → NoDup l.
Proof.
  induction 1 as [|a l _ IH Ha]; [constructor|]. constructor; [|done]. intros Hin.
  rewrite Forall_forall in Ha. specialize (Ha a Hin). apply strictly_not in Ha as Haa. unfold strictly in Ha. congruence.
Qed.

Lemma elem_of_remaining (k : option K) (rows : list R) (r : R) :
  r ∈ remaining k rows ↔ r ∈ rows ∧ (∀ k', k = Some k' → precedes k' (row_key r) = true).
Proof. destruct k as [k|]; cbn; [rewrite elem_of_after|]; naive_solver. Qed.

(** What follows a row of the listing is the listing of what comes after it. *)
Lemma after_row (k : option K) (rows init rest : list R) (r : R) :
  proper rows → sorted_rows (remaining k rows) = (init ++ r :: rest)%list →
  sorted_rows (after_key (row_key r) rows) = rest.
Proof.
  intros Hrows Hall. pose proof (proper_remaining k rows Hrows) as [Hnd _].
  pose proof (sorted_strictly _ Hnd) as Hs. destruct (sorted_around _ _ _ _ Hs Hall) as (Hinit & Hrest & _ & Hsrest).
  assert (Hafter : StronglySorted strictly (sorted_rows (after_key (row_key r) rows))).
  { apply sorted_strictly, (proper_remaining (Some (row_key r)) rows Hrows). }
  refine (StronglySorted_unique_strong strictly _ _ _ Hafter Hsrest _).
  - intros a b _ _ Hab Hba. apply strictly_not in Hab. unfold strictly in Hba. congruence.
  - assert (Hin : ∀ x, x ∈ remaining k rows ↔ x ∈ (init ++ r :: rest)%list) by (intros x; by rewrite <- Hall, sorted_perm).
    apply NoDup_Permutation; [by apply strictly_nodup..|]. intros x. rewrite sorted_perm, elem_of_after.
    rewrite Forall_forall in Hinit, Hrest. split.
    + intros [Hx Hrx]. assert (Hall_x : x ∈ remaining k rows).
      { apply elem_of_remaining. split; [done|]. intros k' ->.
        assert (Hr : r ∈ remaining (Some k') rows) by (apply Hin, elem_of_app; right; left).
        apply elem_of_after in Hr as [_ Hr]. by eapply precedes_trans. }
      apply Hin, elem_of_app in Hall_x as [Hx'|[->|Hx']%elem_of_cons]; [|by rewrite precedes_irrefl in Hrx|done].
      specialize (Hinit x Hx'). apply strictly_not in Hinit. congruence.
    + intros Hx. split; [|by apply Hrest]. enough (x ∈ remaining k rows) as [? _]%elem_of_remaining by done.
      apply Hin, elem_of_app. right. by right.
Qed.

Lemma stands_at_row (r : R) : addressable r → stands_at (Some (encodePageCursor (position r))) (Some (row_key r)).
Proof. intros Hr. by exists r. Qed.

Lemma walk_static (limit : Z) (rows : list R) :
  1 ≤ limit → proper rows → ∀ n cursor k, stands_at cursor k →
  Z.of_nat (List.length (remaining k rows)) ≤ Z.of_nat (S n) * limit →
  walk limit (replicate (S n) rows) cursor = Ok (sorted_rows (remaining k rows), None).
Proof.
  intros Hlimit Hrows. induction n as [|n IH]; intros cursor k Hc Hn; cbn [replicate walk]; rewrite (list_page_at _ _ k) by done; cbn [rbind];
    destruct (page_cases limit k rows Hlimit Hrows) as [[Hle ->]|(Hgt & r & init & rest & Hall & Hinit & Hr & ->)]; try done;
    rewrite sorted_perm in Hgt.
  - lia.
  - pose proof (after_row k rows init rest r Hrows Hall) as Hrest.
    pose proof (IH _ _ (stands_at_row r Hr)) as Hwalk. cbn [remaining] in Hwalk. cbn [replicate walk] in Hwalk.
    cbn [rbind]. rewrite Hwalk.
    + cbn. rewrite Hrest, Hall. by rewrite <- app_assoc.
    + rewrite <- (sorted_perm (after_key (row_key r) rows)), Hrest. apply (f_equal List.length) in Hall.
      rewrite sorted_perm, length_app in Hall. cbn in Hall. lia.
Qed.

(** A key at or before which a page starts. *)
Definition beyond (k : option K) (key : K) : Prop := ∀ k', k = Some k' → precedes k' key = true.

Lemma beyond_trans (k : option K) (a b : K) : beyond k a → precedes a b = true → beyond k b.
Proof. intros Ha Hab k' ->. eapply precedes_trans; [by apply Ha|done]. Qed.

Lemma walk_versions (limit : Z) (versions : list (list R)) :
  1 ≤ limit → Forall proper versions → ∀ cursor k, stands_at cursor k →
  ∃ items next, walk limit versions cursor = Ok (items, next)
    ∧ StronglySorted strictly items ∧ Forall (λ r, beyond k (row_key r)) items
    ∧ (∀ r, r ∈ items → ∃ rows, rows ∈ versions ∧ r ∈ rows)
    ∧ (next = None → versions ≠ [] → ∀ key, beyond k key → Forall (λ rows, key ∈ map row_key rows) versions →
         key ∈ map row_key items).
Proof.
  intros Hlimit Hversions. induction Hversions as [|rows versions Hrows Hversions IH]; intros cursor k Hc.
  { exists [], cursor. split_and!; [done|constructor|constructor|by intros r ?%elem_of_nil|done]. }
  cbn [walk]. rewrite (list_page_at _ _ k) by done. cbn [rbind].
  pose proof (sorted_strictly _ (proj1 (proper_remaining k rows Hrows))) as Hs.
  assert (Hkey : ∀ r, r ∈ sorted_rows (remaining k rows) ↔ r ∈ rows ∧ beyond k (row_key r))
    by (intros r; by rewrite sorted_perm, elem_of_remaining).
  destruct (page_cases limit k rows Hlimit Hrows) as [[_ ->]|(_ & r & init & rest & Hall & _ & Hr & ->)].
  - exists (sorted_rows (remaining k rows)), None. split_and!; [done|done| | |].
    + apply Forall_forall. intros r Hr. by apply Hkey in Hr as [_ Hr].
    + intros r Hr. exists rows. apply Hkey in Hr as [Hr _]. by split; [left|].
    + intros _ _ key Hbeyond Hin. apply Forall_cons in Hin as [Hin _]. apply list_elem_of_fmap in Hin as (r & -> & Hr).
      apply list_elem_of_fmap_2, Hkey. done.
  - destruct (IH _ _ (stands_at_row r Hr)) as (items & next & Hwalk & Hsorted & Hafter & Hsound & Hcomplete).
    cbn [rbind]. rewrite Hwalk. cbn. destruct (sorted_around _ _ _ _ Hs Hall) as (Hinit & Hrest & Hir & _).
    rewrite Forall_forall in Hinit, Hrest, Hafter.
    assert (Hpage : ∀ x, x ∈ (init ++ [r])%list → x ∈ rows ∧ beyond k (row_key x)).
    { intros x Hx. apply Hkey. rewrite Hall. apply elem_of_app. apply elem_of_app in Hx as [Hx|Hx]; [by left|].
      apply list_elem_of_singleton in Hx as ->. right. by left. }
    assert (Hrk : beyond k (row_key r)) by (apply Hpage, elem_of_app; right; by left).
    assert (Hitems : ∀ x, x ∈ items → strictly r x) by (intros x Hx; by apply (Hafter x Hx)).
    exists ((init ++ [r]) ++ items)%list, next. split_and!; [done| | | |].
    + clear - H1 Hir Hsorted Hitems Hinit. induction init as [|a init IH]; cbn in *.
      * constructor; [done|]. apply Forall_forall. by intros x ?%Hitems.
      * apply StronglySorted_inv in Hir as [Hir Ha]. constructor.
        { apply IH; [|done]. intros x Hx. apply Hinit. by right. }
        apply Forall_app. split; [done|]. apply Forall_forall. intros x Hx.
        eapply precedes_trans; [by apply Hinit; left|by apply Hitems].
    + apply Forall_app. split; apply Forall_forall; intros x Hx; [by apply Hpage|].
      eapply beyond_trans; [done|by apply Hitems].
    + intros x [Hx|Hx]%elem_of_app; [exists rows; split; [by left|by apply Hpage]|].
      destruct (Hsound x Hx) as (rows' & Hin & Hx'). exists rows'. by split; [right|].
    + intros -> _ key Hbeyond Hkeys. apply Forall_cons in Hkeys as [Hx Hothers].
      apply list_elem_of_fmap in Hx as (x & -> & Hx). rewrite map_app. apply elem_of_app.
      assert (Hx' : x ∈ sorted_rows (remaining k rows)) by (by apply Hkey). rewrite Hall in Hx'.
      apply elem_of_app in Hx' as [Hx'|[->|Hx']%elem_of_cons].
      * left. apply list_elem_of_fmap_2, elem_of_app. by left.
      * left. apply list_elem_of_fmap_2, elem_of_app. right. by left.
      * right. apply Hcomplete; [done| | |done].
        { intros ->. cbn in Hwalk. congruence. }
        intros k' [= <-]. by apply Hrest.
Qed.

(** A client that starts without a cursor and follows the cursors it is given
    reads a table that does not change in as few pages as its size needs, every
    row once and in order. *)
Lemma walk_unchanged (limit : Z) (rows : list R) (n : nat) :
  1 ≤ limit → proper rows → Z.of_nat (List.length rows) ≤ Z.of_nat (S n) * limit →
  walk limit (replicate (S n) rows) None = Ok (sorted_rows rows, None).
Proof. intros Hlimit Hrows Hn. exact (walk_static limit rows Hlimit Hrows n None None I Hn). Qed.
(** When the table changes between the pages the walk never fails and never
    returns a key twice or out of order, returns only rows some version held,
    and, once it ends, has returned every key that was there throughout. *)
Lemma walk_changing (limit : Z) (versions : list (list R)) :
  1 ≤ limit → Forall proper versions →
  ∃ items next, walk limit versions None = Ok (items, next) ∧ StronglySorted strictly items
    ∧ (∀ r, r ∈ items → ∃ rows, rows ∈ versions ∧ r ∈ rows)
    ∧ (next = None → versions ≠ [] → ∀ key, Forall (λ rows, key ∈ map row_key rows) versions → key ∈ map row_key items).
Proof.
  intros Hlimit Hversions.
  destruct (walk_versions limit versions Hlimit Hversions None None I) as (items & next & Hw & Hs & _ & Hsound & Hall).
  exists items, next. split_and!; [done..|]. intros Hnext Hne key. by apply Hall.
Qed.

(** What names a row is returned once at most if it never moves towards the end
    of the listing. *)
Lemma walk_names {I : Type} (name : R → I) (limit : Z) (versions : list (list R)) :
  1 ≤ limit → Forall proper versions → Forall (λ rows, NoDup (map name rows)) versions →
  StronglySorted (λ v w, ∀ x y, x ∈ v → y ∈ w → name x = name y → ¬ strictly x y) versions →
  ∀ cursor k items next, stands_at cursor k → walk limit versions cursor = Ok (items, next) → NoDup (map name items).
Proof.
  intros Hlimit Hversions. induction Hversions as [|rows versions Hrows Hversions IH]; intros Hnames Hforward cursor k items next Hc Hw.
  { injection Hw as <- _. constructor. }
  apply Forall_cons in Hnames as [Hname Hnames]. apply StronglySorted_inv in Hforward as [Hforward Hhead].
  cbn [walk] in Hw. rewrite (list_page_at _ _ k) in Hw by done. cbn [rbind] in Hw.
  assert (Hpage : NoDup (map name (sorted_rows (remaining k rows)))).
  { pose proof (sorted_perm (remaining k rows)) as Hp. apply (fmap_Permutation name) in Hp. unfold fmap in Hp. cbn in Hp.
    unfold list_fmap in Hp. rewrite Hp. destruct k as [k|]; [by apply filtered_nodup|done]. }
  pose proof (sorted_strictly _ (proj1 (proper_remaining k rows Hrows))) as Hs.
  destruct (page_cases limit k rows Hlimit Hrows) as [[_ Hcase]|(_ & r & init & rest & Hall & _ & Hr & Hcase)];
    rewrite Hcase in Hw; [by injection Hw as <- _|].
  destruct (walk_versions limit versions Hlimit Hversions _ _ (stands_at_row r Hr))
    as (items' & next' & Hwalk & _ & Hafter & Hsound & _).
  rewrite Hwalk in Hw. cbn in Hw. injection Hw as <- <-.
  destruct (sorted_around _ _ _ _ Hs Hall) as (Hinit & _ & _ & _). rewrite map_app. apply NoDup_app. split_and!.
  - rewrite Hall in Hpage. replace (init ++ r :: rest)%list with ((init ++ [r]) ++ rest)%list in Hpage by (by rewrite <- app_assoc).
    rewrite map_app in Hpage. by apply NoDup_app in Hpage as [? _].
  - intros n (x & -> & Hx)%list_elem_of_fmap (y & Hn & Hy)%list_elem_of_fmap.
    destruct (Hsound y Hy) as (w & Hw & Hyw). rewrite Forall_forall in Hhead. rewrite Forall_forall in Hafter, Hinit.
    assert (Hry : strictly r y) by (by apply (Hafter y Hy)).
    assert (Hxr : x = r ∨ strictly x r).
    { apply elem_of_app in Hx as [Hx|Hx]; [right; by apply Hinit|left; by apply list_elem_of_singleton in Hx]. }
    apply (Hhead w Hw x y); [|done|done|].
    + apply (elem_of_remaining k). rewrite <- sorted_perm, Hall. apply elem_of_app.
      apply elem_of_app in Hx as [Hx|Hx]; [by left|right]. apply list_elem_of_singleton in Hx as ->. by left.
    + destruct Hxr as [->|Hxr]; [done|]. by eapply precedes_trans.
  - by eapply IH; [done..|apply stands_at_row|].
Qed.
End walk.
End cursor.

(** ** The orders of the listings *)

Lemma string_compare_trans (a b c : string) :
  String.compare a b = Lt → String.compare b c = Lt → String.compare a c = Lt.
Proof.
  revert b c. induction a as [|x a IH]; intros [|y b] [|z c]; cbn; try done.
  unfold Ascii.compare. destruct (N.compare_spec (N_of_ascii x) (N_of_ascii y)) as [Hxy|Hxy|Hxy],
    (N.compare_spec (N_of_ascii y) (N_of_ascii z)) as [Hyz|Hyz|Hyz]; try done; intros Hab Hbc.
  - rewrite Hxy, Hyz, N.compare_refl. by eapply IH.
  - rewrite Hxy. by replace (N_of_ascii y ?= N_of_ascii z)%N with Lt by (symmetry; by apply N.compare_lt_iff).
  - rewrite <- Hyz. by replace (N_of_ascii x ?= N_of_ascii y)%N with Lt by (symmetry; by apply N.compare_lt_iff).
  - replace (N_of_ascii x ?= N_of_ascii z)%N with Lt; [done|]. symmetry. apply N.compare_lt_iff. lia.
Qed.
Lemma string_compare_refl (a : string) : String.compare a a = Eq.
Proof. induction a as [|x a IH]; [done|]. cbn. unfold Ascii.compare. by rewrite N.compare_refl. Qed.

Lemma string_ltb_irrefl (a : string) : String.ltb a a = false.
Proof. unfold String.ltb. by rewrite string_compare_refl. Qed.
Lemma string_ltb_trans (a b c : string) : String.ltb a b = true → String.ltb b c = true → String.ltb a c = true.
Proof.
  unfold String.ltb. destruct (String.compare a b) eqn:Hab; try done. destruct (String.compare b c) eqn:Hbc; try done.
  by rewrite (string_compare_trans _ _ _ Hab Hbc).
Qed.
Lemma string_ltb_total (a b : string) : String.ltb a b = false → String.ltb b a = false → a = b.
Proof.
  unfold String.ltb. rewrite (String.compare_antisym a b). destruct (String.compare b a) eqn:Hba; try done.
  intros _ _. symmetry. by apply String.compare_eq_iff.
Qed.

(** The catalog order: identifiers ascending under the database's collation. *)
Definition by_identifier {R : Type} (before : string → string → bool) (id : R → string) : Seek R string :=
  {| position r := {| cu_sortKey := id r; cu_id := id r |};
     seek_key p := Ok p.(cu_id); row_key := id; precedes := before |}.

(** ** Concrete pages *)

(** Base 64 with the standard alphabet. *)
#[local] Instance sample_base64url : Base64url :=
  {| toBase64url s := of_chars (btoa (codes s)); fromBase64url s := default "" (fromCharCodes <$> atob s) |}.
Lemma sample_base64url_roundtrip (s : string) : fromBase64url (toBase64url s) = s.
Proof.
  cbn. rewrite atob_btoa.
  - cbn. apply fromCharCodes_codes.
  - unfold codes. apply Forall_fmap, Forall_forall. intros c _. apply unit_of_range.
Qed.

Lemma cursor_roundtrip_witness :
  let p := {| cu_sortKey := "2026-01-01T00:00:00.000Z"; cu_id := "img" |} in
  component p.(cu_sortKey) ∧ decodePageCursor (encodePageCursor p) = Ok p.
Proof.
  intros p. assert (Hs : component p.(cu_sortKey)) by (split; vm_compute; discriminate).
  assert (Hi : component p.(cu_id)) by (split; vm_compute; discriminate).
  split; [exact Hs|]. apply (cursor_roundtrip sample_base64url_roundtrip p Hs Hi). split; vm_compute; discriminate.
Defined.
