(* ===== verification/Ipv4.v ===== *)
(** * IPv4 allocation

    [strictIpv4] and [allocateIpv4] of [packages/domain/src/index.ts], with the
    32-bit arithmetic of the source, and the specification of the allocator:
    the lowest free host address of the pool. *)
From S2P Require Import Prelude JsText SshKey Domain.
From Stdlib Require Import ZArith Lia Bool Ascii String.
From stdpp Require Import base list strings gmap sets.
Open Scope string_scope.
Open Scope Z_scope.

Record Ipv4Pool : Set := { cidr : string; gateway : string; exclusions : list string }.

(** [^(0|[1-9][0-9]{0,2})$]. *)
Definition octetPattern (s : string) : bool :=
  match chars s with
  | [c] => is_digit c
  | [a; b] => in_range 49 57 a && is_digit b
  | [a; b; c] => in_range 49 57 a && is_digit b && is_digit c
  | _ => false
  end.

(** The loop of [strictIpv4]; [Number(octet)] of a run of digits. *)
Fixpoint accumulate (octets : list string) (result : Z) : option Z :=
  match octets with
  | [] => Some result
  | octet :: rest =>
      if negb (octetPattern octet) then None
      else
        let parsed := digits_value 10 (chars octet) in
        if 255 <? parsed then None
        else accumulate rest (or32 (shl32 result 8) parsed)
  end.

Definition strictIpv4 (value : string) : option Z :=
  let octets := split_on "." value in
  if negb (Z.of_nat (List.length octets) =? 4) then None
  else accumulate octets 0.

(** [[24, 16, 8, 0].map((shift) => (n >>> shift) & 255).join_with('.')]. *)
Definition dotted (n : Z) : string :=
  join_with "." (map (λ shift, string_of_Z (and32 (shru32 n shift) 255)) [24; 16; 8; 0]).

(** The candidate address at an offset. *)
Definition candidate (network offset : Z) : string := dotted (uint32 (network + offset)).

(** The allocation loop, [steps] iterations from [offset]. *)
Fixpoint scan (network : Z) (taken : gset string) (steps : nat) (offset : Z) : option string :=
  match steps with
  | O => None
  | S steps =>
      if bool_decide (candidate network offset ∉ taken) then Some (candidate network offset)
      else scan network taken steps (offset + 1)
  end.

Definition allocateIpv4 (pool : Ipv4Pool) (leased : gset string) : result error string :=
  let parts := split_on "/" pool.(cidr) in
  let networkAddress := default "" (parts !! 0%nat) in
  match parts !! 1%nat ≫= Number_integer with
  | None => Err (invalid "The configured IPv4 pool is invalid.")
  | Some prefixLength =>
      if negb (truthy networkAddress) || (prefixLength <? 1) || (30 <? prefixLength) then
        Err (invalid "The configured IPv4 pool is invalid.")
      else
        match strictIpv4 networkAddress, strictIpv4 pool.(gateway) with
        | Some network, Some _ =>
            let unsignedNetwork := uint32 network in
            let hostCount := 2 ^ (32 - prefixLength) in
            if negb (and32 unsignedNetwork (hostCount - 1) =? 0) then
              Err (invalid "The configured IPv4 pool must name a network address.")
            else
              let excluded : gset string := list_to_set (pool.(exclusions) ++ [pool.(gateway)]) in
              match scan unsignedNetwork (excluded ∪ leased) (Z.to_nat (hostCount - 2)) 1 with
              | Some address => Ok address
              | None =>
                  Err (DomainError QUOTA_EXCEEDED
                         "No IPv4 address is available in the selected network.")
              end
        | _, _ => Err (invalid "The configured network must use IPv4.")
        end
  end.

(** ** The dotted quad format *)

Definition octet_of (n shift : Z) : Z := n / 2 ^ shift mod 256.

Lemma dotted_octets (n : Z) :
  0 ≤ n < 2 ^ 32 →
  dotted n = join_with "." (map (λ shift, string_of_Z (octet_of n shift)) [24; 16; 8; 0]).
Proof.
  intros Hn. unfold dotted. f_equal. apply map_ext_in. intros sh Hsh. f_equal.
  assert (0 ≤ sh ≤ 24) by (simpl in Hsh; lia).
  unfold and32, shru32, octet_of. rewrite (uint32_small n), Z.shiftr_div_pow2 by lia.
  rewrite (int32_small 255) by lia. change 255 with (Z.ones 8).
  rewrite Z.land_ones by lia.
  assert (Hm : ∀ z, int32 z mod 2 ^ 8 = z mod 2 ^ 8).
  { intros z. unfold int32, uint32. case_match; zdiv. }
  rewrite Hm. apply int32_small. zdiv.
Qed.

Lemma octet_text (z : Z) :
  0 ≤ z < 256 →
  octetPattern (string_of_Z z) = true ∧ digits_value 10 (chars (string_of_Z z)) = z
  ∧ Forall (λ c, c ≠ "."%char) (chars (string_of_Z z)).
Proof.
  intros Hz. eapply (octet_forall (λ z, octetPattern (string_of_Z z)
    && (digits_value 10 (chars (string_of_Z z)) =? z)
    && forallb (λ c, negb (Ascii.eqb c ".")) (chars (string_of_Z z)))) in Hz.
  - apply andb_prop in Hz as [Hz Hf]. unbool. split_and!; [done..|].
    apply forallb_Forall in Hf. eapply Forall_impl; [exact Hf|]. simpl.
    intros c Hc ->. done.
  - by vm_compute.
Qed.

Lemma accumulate_step (z acc : Z) (rest : list string) :
  0 ≤ z < 256 →
  accumulate (string_of_Z z :: rest) acc = accumulate rest (or32 (shl32 acc 8) z).
Proof.
  intros Hz. destruct (octet_text z Hz) as (Hp & Hv & _). simpl. rewrite Hp, Hv. simpl.
  by replace (255 <? z) with false by (symmetry; apply Z.ltb_ge; lia).
Qed.

Lemma uint32_step (acc z : Z) :
  0 ≤ z < 256 → 0 ≤ acc < 2 ^ 24 → uint32 (or32 (shl32 acc 8) z) = acc * 256 + z.
Proof.
  intros Hz Ha. rewrite uint32_or32, uint32_shl32 by lia.
  rewrite !uint32_small by lia. apply (lor_add acc z 8); lia.
Qed.

Lemma or32_int32 (a b : Z) : int32 (or32 a b) = or32 a b.
Proof. unfold or32. by rewrite <- (int32_uint32 (int32 _)), uint32_int32, int32_uint32. Qed.

Lemma shl32_uint32 (a b n : Z) : uint32 a = uint32 b → shl32 a n = shl32 b n.
Proof. intros H. unfold shl32. by rewrite <- (int32_uint32 a), H, int32_uint32. Qed.

(** The accumulated value of four octets, as an unsigned number. *)
Lemma accumulate_four (a b c d : Z) :
  is_byte a → is_byte b → is_byte c → is_byte d →
  uint32 (or32 (shl32 (or32 (shl32 (or32 (shl32 (or32 (shl32 0 8) a) 8) b) 8) c) 8) d)
  = ((a * 256 + b) * 256 + c) * 256 + d.
Proof.
  unfold is_byte. intros.
  assert (Hs : ∀ x y z, 0 ≤ y < 2 ^ 24 → 0 ≤ z < 256 → uint32 x = y →
    uint32 (or32 (shl32 x 8) z) = y * 256 + z).
  { intros x y z Hy Hz Hx. rewrite <- (uint32_step y z) by lia. f_equal. f_equal.
    apply shl32_uint32. by rewrite Hx, uint32_small by lia. }
  repeat (apply Hs; [lia|lia|]). rewrite uint32_step; lia.
Qed.

(** Parsing what was printed. *)
Lemma strictIpv4_dotted (n : Z) : 0 ≤ n < 2 ^ 32 → strictIpv4 (dotted n) = Some (int32 n).
Proof.
  intros Hn. rewrite dotted_octets by done. unfold strictIpv4.
  assert (Hb : ∀ sh, is_byte (octet_of n sh)) by (intros; unfold octet_of, is_byte; zdiv).
  rewrite split_join; [|done|].
  - cbn [map List.length]. cbn [negb Z.of_nat]. simpl (negb _).
    rewrite !accumulate_step by apply Hb. cbn [accumulate]. f_equal.
    rewrite <- or32_int32, <- int32_uint32. rewrite accumulate_four by apply Hb.
    unfold octet_of. f_equal. zdiv.
  - repeat constructor; apply octet_text, Hb.
Qed.

(** An accepted octet is the canonical numeral of its value. *)
Lemma octet_canonical (s : string) :
  octetPattern s = true → s = string_of_Z (digits_value 10 (chars s)) ∧ 0 ≤ digits_value 10 (chars s).
Proof.
  intros H. rewrite <- (of_chars_chars s) at 1. unfold octetPattern in H.
  assert (Hsub : ∀ c, in_range 49 57 c = true → is_digit c = true).
  { intros c Hc. unfold is_digit, in_range in *. unbool. apply andb_true_intro.
    split; apply Z.leb_le; lia. }
  set (ok := λ l, implb (octetPattern (of_chars l))
    (String.eqb (of_chars l) (string_of_Z (digits_value 10 l)) && (0 <=? digits_value 10 l))).
  assert (Hok : ok (chars s) = true → octetPattern (of_chars (chars s)) = true →
    of_chars (chars s) = string_of_Z (digits_value 10 (chars s)) ∧ 0 ≤ digits_value 10 (chars s)).
  { unfold ok. intros Hi Hp. rewrite Hp in Hi. simpl in Hi. by unbool. }
  apply Hok; [|by rewrite of_chars_chars].
  destruct (chars s) as [|a [|b [|c [|]]]]; try done; unbool.
  - eapply (digit_forall (λ a, ok [a])) in H; [done|by vm_compute].
  - apply (digit_forall (λ b, ok [a; b])); [|done].
    match goal with H : in_range 49 57 a = true |- _ => apply Hsub in H; revert H end.
    apply (digit_forall (λ a, forallb (λ b, ok [a; b]) digit_chars)).
    by vm_compute.
  - apply (digit_forall (λ c, ok [a; b; c])); [|done].
    match goal with H : is_digit b = true |- _ =>
      revert H; apply (digit_forall (λ b, forallb (λ c, ok [a; b; c]) digit_chars)) end.
    match goal with H : in_range 49 57 a = true |- _ => apply Hsub in H; revert H end.
    apply (digit_forall (λ a, forallb (λ b, forallb (λ c, ok [a; b; c]) digit_chars) digit_chars)).
    by vm_compute.
Qed.

Lemma accumulate_cons (s : string) (rest : list string) (acc v : Z) :
  accumulate (s :: rest) acc = Some v →
  ∃ z, is_byte z ∧ s = string_of_Z z ∧ accumulate rest (or32 (shl32 acc 8) z) = Some v.
Proof.
  simpl. destruct (octetPattern s) eqn:Hp; [|done]. simpl. case_match eqn:E; [done|].
  intros H. unbool. destruct (octet_canonical s Hp) as [Hs H0].
  exists (digits_value 10 (chars s)). unfold is_byte. split_and!; [lia|lia|done|done].
Qed.

(** Printing what was parsed: exactly the canonical dotted quads are accepted. *)
Lemma strictIpv4_inv (s : string) (v : Z) : strictIpv4 s = Some v → s = dotted (uint32 v).
Proof.
  unfold strictIpv4. case_match eqn:Hlen; [done|]. unbool.
  rewrite <- (join_split "." s) at 2.
  destruct (split_on "." s) as [|o1 [|o2 [|o3 [|o4 [|]]]]]; simpl in Hlen; try lia.
  intros (a & Ha & -> & (b & Hb & -> & (c & Hc & -> & (d & Hd & -> & Hv)
    %accumulate_cons)%accumulate_cons)%accumulate_cons)%accumulate_cons.
  cbn [accumulate] in Hv. injection Hv as <-.
  rewrite accumulate_four by done. unfold is_byte in *.
  rewrite dotted_octets by lia. unfold octet_of. cbn [map].
  set (n := ((a * 256 + b) * 256 + c) * 256 + d).
  replace (n / 2 ^ 24 mod 256) with a by (unfold n; zdiv).
  replace (n / 2 ^ 16 mod 256) with b by (unfold n; zdiv).
  replace (n / 2 ^ 8 mod 256) with c by (unfold n; zdiv).
  by replace (n / 2 ^ 0 mod 256) with d by (unfold n; zdiv).
Qed.

(** ** The specification of the allocator *)

(** A pool the allocator accepts: its network number and prefix length. *)
Record wf_pool (pool : Ipv4Pool) (network prefixLength : Z) : Prop := {
  wf_parts : ∃ a t rest v, split_on "/" pool.(cidr) = a :: t :: rest
    ∧ Number_integer t = Some prefixLength ∧ strictIpv4 a = Some v ∧ uint32 v = network;
  wf_prefix : 1 ≤ prefixLength ≤ 30;
  wf_gateway : is_Some (strictIpv4 pool.(gateway));
  wf_host_bits : network mod 2 ^ (32 - prefixLength) = 0;
}.

(** The offsets of assignable hosts: neither the network address nor the
    broadcast address. *)
Definition host_offset (prefixLength k : Z) : Prop := 1 ≤ k < 2 ^ (32 - prefixLength) - 1.

(** An address the pool may not hand out. *)
Definition unavailable (pool : Ipv4Pool) (leased : gset string) (a : string) : Prop :=
  a ∈ leased ∨ a ∈ pool.(exclusions) ∨ a = pool.(gateway).

Definition taken (pool : Ipv4Pool) (leased : gset string) : gset string :=
  list_to_set (pool.(exclusions) ++ [pool.(gateway)]) ∪ leased.

Lemma elem_of_taken (pool : Ipv4Pool) (leased : gset string) (a : string) :
  a ∈ taken pool leased ↔ unavailable pool leased a.
Proof. unfold taken, unavailable. set_solver. Qed.

Lemma scan_Some (n : Z) (X : gset string) (steps : nat) (off : Z) (a : string) :
  scan n X steps off = Some a →
  ∃ k, off ≤ k < off + Z.of_nat steps ∧ a = candidate n k ∧ a ∉ X
    ∧ ∀ j, off ≤ j < k → candidate n j ∈ X.
Proof.
  revert off. induction steps as [|steps IH]; intros off; simpl; [done|].
  case_bool_decide as Hin.
  - intros [= <-]. exists off. split_and!; [lia|lia|done..|]. intros; lia.
  - intros (k & Hk & Ha & Hn & Hj)%IH. exists k. split_and!; [lia|lia|done..|].
    intros j Hjk. destruct (decide (j = off)) as [->|]; [done|apply Hj; lia].
Qed.

Lemma scan_None (n : Z) (X : gset string) (steps : nat) (off : Z) :
  scan n X steps off = None → ∀ k, off ≤ k < off + Z.of_nat steps → candidate n k ∈ X.
Proof.
  revert off. induction steps as [|steps IH]; intros off; simpl; [intros; lia|].
  case_bool_decide as Hin; [done|]. intros H k Hk.
  destruct (decide (k = off)) as [->|]; [done|apply (IH (off + 1)); [done|lia]].
Qed.

(** The test of the host bits on signed 32-bit integers is the remainder. *)
Lemma host_bits (u p : Z) :
  0 ≤ u < 2 ^ 32 → 1 ≤ p ≤ 30 → and32 u (2 ^ (32 - p) - 1) = u mod 2 ^ (32 - p).
Proof.
  intros Hu Hp. set (m := 32 - p). assert (Hm : 2 ≤ m ≤ 31) by lia.
  pose proof (Z.pow_le_mono_r 2 m 31 ltac:(lia) ltac:(lia)).
  pose proof (Z.pow_pos_nonneg 2 m ltac:(lia) ltac:(lia)).
  unfold and32. rewrite (int32_small (2 ^ m - 1)) by lia.
  replace (2 ^ m - 1) with (Z.ones m) by (rewrite Z.ones_equiv; lia).
  rewrite Z.land_ones by lia.
  replace (int32 u mod 2 ^ m) with (u mod 2 ^ m).
  - apply int32_small. pose proof (Z.mod_pos_bound u (2 ^ m)). lia.
  - unfold int32. rewrite uint32_small by done. case_match; [done|].
    replace (u - 2 ^ 32) with (u + (- 2 ^ p) * 2 ^ m); [by rewrite Z.mod_add by lia|].
    replace (2 ^ 32) with (2 ^ p * 2 ^ m); [lia|]. rewrite <- Z.pow_add_r by lia. f_equal. lia.
Qed.

Lemma candidate_in_range (n p k : Z) :
  0 ≤ n < 2 ^ 32 → 1 ≤ p ≤ 30 → n mod 2 ^ (32 - p) = 0 → host_offset p k →
  n + k < 2 ^ 32 ∧ candidate n k = dotted (n + k).
Proof.
  intros Hn Hp Hm Hk. unfold host_offset in Hk.
  assert (n + k < 2 ^ 32); [|split; [done|]; unfold candidate; by rewrite uint32_small by lia].
  assert (Hq : 2 ^ 32 = 2 ^ p * 2 ^ (32 - p)) by (rewrite <- Z.pow_add_r by lia; f_equal; lia).
  pose proof (Z.pow_pos_nonneg 2 (32 - p) ltac:(lia) ltac:(lia)).
  pose proof (Z.div_mod n (2 ^ (32 - p)) ltac:(lia)). nia.
Qed.

(** The allocator's result on a well-formed pool is the result of the scan. *)
Lemma allocate_wf (pool : Ipv4Pool) (leased : gset string) (n p : Z) :
  wf_pool pool n p →
  allocateIpv4 pool leased =
    match scan n (taken pool leased) (Z.to_nat (2 ^ (32 - p) - 2)) 1 with
    | Some a => Ok a
    | None => Err (DomainError QUOTA_EXCEEDED "No IPv4 address is available in the selected network.")
    end.
Proof.
  intros [(a & t & rest & v & Hs & Ht & Ha & <-) Hp [g Hg] Hm]. unfold allocateIpv4.
  rewrite Hs.
  change (default "" ((a :: t :: rest) !! 0%nat)) with a.
  change ((a :: t :: rest) !! 1%nat ≫= Number_integer) with (Number_integer t).
  rewrite Ht, Ha, Hg. destruct (truthy a) eqn:Hta.
  - replace (p <? 1) with false by (symmetry; apply Z.ltb_ge; lia).
    replace (30 <? p) with false by (symmetry; apply Z.ltb_ge; lia).
    rewrite host_bits by (first [apply uint32_range|done]). by rewrite Hm.
  - unfold truthy in Hta. unbool. subst. discriminate Ha.
Qed.

Lemma allocate_not_wf (pool : Ipv4Pool) (leased : gset string) :
  (∃ n p, wf_pool pool n p) ∨ ∃ m, allocateIpv4 pool leased = Err (invalid m).
Proof.
  unfold allocateIpv4. destruct (split_on "/" (cidr pool)) as [|a [|t rest]] eqn:Hs;
    simpl; eauto.
  destruct (Number_integer t) as [p|] eqn:Ht; [|eauto].
  case_match eqn:E; [eauto|]. unbool.
  destruct (strictIpv4 a) as [v|] eqn:Ha; [|eauto].
  destruct (strictIpv4 (gateway pool)) as [g|] eqn:Hg; [|eauto].
  rewrite host_bits by (first [apply uint32_range|lia]).
  case_match eqn:E1; [eauto|]. unbool. left. exists (uint32 v), p. split; eauto.
  exists a, t, rest, v. by rewrite Hs.
Qed.

(** An allocated address is a quad, and its pool was well formed. *)
Lemma allocated_wf (pool : Ipv4Pool) (leased : gset string) (a : string) :
  allocateIpv4 pool leased = Ok a → (∃ n p, wf_pool pool n p) ∧ is_Some (strictIpv4 a).
Proof.
  intros H. destruct (allocate_not_wf pool leased) as [(n & p & Hwf)|[m Hm]]; [|congruence].
  rewrite (allocate_wf _ _ n p Hwf) in H. split; [by exists n, p|].
  destruct (scan _ _ _ _) as [b|] eqn:Hs; [|done]. injection H as <-.
  apply scan_Some in Hs as (k & _ & -> & _). unfold candidate. rewrite strictIpv4_dotted by apply uint32_range.
  by eexists.
Qed.

(** ** Properties *)

(** [allocateIpv4] hands out an address that belongs to the configured
    network, is neither its network nor its broadcast address, is not the
    gateway, not excluded and not leased, and every lower host address of the
    pool is unavailable: the lowest free address is chosen. *)
Theorem allocateIpv4_lowest_free (pool : Ipv4Pool) (leased : gset string) (a : string)
    (H : allocateIpv4 pool leased = Ok a) :
  ∃ n p k, wf_pool pool n p ∧ host_offset p k ∧ n + k < 2 ^ 32
    ∧ a = dotted (n + k) ∧ strictIpv4 a = Some (int32 (n + k))
    ∧ ¬ unavailable pool leased a
    ∧ ∀ j, 1 ≤ j < k → unavailable pool leased (dotted (n + j)).
Proof.
  destruct (allocate_not_wf pool leased) as [(n & p & Hwf)|[m Hm]]; [|congruence].
  rewrite (allocate_wf _ _ n p Hwf) in H.
  assert (Hn : 0 ≤ n < 2 ^ 32).
  { destruct (wf_parts _ _ _ Hwf) as (? & ? & ? & v & _ & _ & _ & <-). apply uint32_range. }
  destruct (scan _ _ _ _) as [b|] eqn:Hs; [|done]. injection H as <-.
  apply scan_Some in Hs as (k & Hk & -> & Hfree & Hlow).
  destruct Hwf as [Hparts Hp Hg Hm].
  assert (Hoff : ∀ j, 1 ≤ j ≤ k → host_offset p j) by (unfold host_offset; intros; lia).
  destruct (candidate_in_range n p k Hn Hp Hm (Hoff k ltac:(lia))) as [Hlt Hc].
  exists n, p, k. rewrite Hc in *. split_and!; [done|apply Hoff; lia|done|done| | |].
  - apply strictIpv4_dotted. lia.
  - by rewrite <- elem_of_taken.
  - intros j Hj. rewrite <- elem_of_taken.
    destruct (candidate_in_range n p j Hn Hp Hm (Hoff j ltac:(lia))) as [_ <-]. by apply Hlow.
Qed.

Definition lab_pool : Ipv4Pool :=
  {| cidr := "192.0.2.0/29"; gateway := "192.0.2.1"; exclusions := ["192.0.2.2"] |}.

Lemma allocateIpv4_lowest_free_witness :
  allocateIpv4 lab_pool {[ "192.0.2.3" ]} = Ok "192.0.2.4"
  ∧ ¬ unavailable lab_pool {[ "192.0.2.3" ]} "192.0.2.4".
Proof.
  assert (H : allocateIpv4 lab_pool {[ "192.0.2.3" ]} = Ok "192.0.2.4") by (vm_compute; reflexivity).
  split; [exact H|].
  destruct (allocateIpv4_lowest_free _ _ _ H) as (n & p & k & _ & _ & _ & _ & _ & Hfree & _).
  exact Hfree.
Defined.

(** The three outcomes of [allocateIpv4]: an address; [QUOTA_EXCEEDED]
    exactly when the pool is well formed and every host address of it is
    unavailable; [VALIDATION_FAILED] exactly when the pool is not well formed
    (text that is not a CIDR, a prefix outside 1..30, a name that is not a
    dotted quad, host bits set). *)
Theorem allocateIpv4_outcomes (pool : Ipv4Pool) (leased : gset string) :
  match allocateIpv4 pool leased with
  | Ok _ => ∃ n p, wf_pool pool n p
  | Err (DomainError QUOTA_EXCEEDED _) =>
      ∃ n p, wf_pool pool n p
        ∧ ∀ k, host_offset p k → unavailable pool leased (dotted (n + k))
  | Err (DomainError VALIDATION_FAILED _) => ∀ n p, ¬ wf_pool pool n p
  | Err _ => False
  end.
Proof.
  destruct (allocate_not_wf pool leased) as [(n & p & Hwf)|[m Hm]].
  - rewrite (allocate_wf _ _ n p Hwf). destruct (scan _ _ _ _) eqn:Hs; [by exists n, p|].
    exists n, p. split; [done|]. intros k Hk.
    destruct (candidate_in_range n p k) as [_ <-]; [|apply Hwf..|done|].
    + destruct (wf_parts _ _ _ Hwf) as (? & ? & ? & v & _ & _ & _ & <-). apply uint32_range.
    + rewrite <- elem_of_taken. eapply scan_None; [exact Hs|]. unfold host_offset in Hk. lia.
  - rewrite Hm. simpl. intros n p Hwf. rewrite (allocate_wf _ _ n p Hwf) in Hm.
    by destruct (scan _ _ _ _).
Qed.

(** [strictIpv4] and dotted-quad printing are inverse: every 32-bit
    number's dotted quad parses to that number, as the signed integer the
    bitwise operators produce, and any text that parses is the canonical
    dotted quad of its value, so short forms, leading zeros and octets above
    255 are refused. *)
Theorem strictIpv4_roundtrip (n : Z) (s : string) (Hn : 0 ≤ n < 2 ^ 32) :
  strictIpv4 (dotted n) = Some (int32 n)
  ∧ ∀ v, strictIpv4 s = Some v → s = dotted (uint32 v).
Proof. split; [by apply strictIpv4_dotted|]. intros v. apply strictIpv4_inv. Qed.

Lemma strictIpv4_roundtrip_witness :
  strictIpv4 "192.0.2.7" = Some (-1073741305) ∧ "192.0.2.7" = dotted (uint32 (-1073741305)).
Proof.
  destruct (strictIpv4_roundtrip 3221225991 "192.0.2.7" ltac:(lia)) as [H1 H2].
  split; [exact H1|apply H2; vm_compute; reflexivity].
Defined.
