(* ===== verification/WorkflowStage.v ===== *)
(** * Stages and actions of the persisted saga

    [packages/application/src/workflow-stage.ts]: the stage and action unions,
    their progress percentages, and the narrowing of stored text. *)
From S2P Require Import Prelude JsText SshKey Domain.
From Stdlib Require Import ZArith Lia Bool String.
From stdpp Require Import base decidable countable list strings.
Open Scope string_scope.
Open Scope Z_scope.

(** A stage a workflow can be claimed at. *)
Inductive WorkflowStage : Set :=
| accepted
| submitting_create | polling_create | configuring | polling_configuration
| starting | polling_start | observing
| submitting_power | polling_power | observing_power
| submitting_resize | polling_resize | observing_resize
| submitting_snapshot | polling_snapshot | observing_snapshot
| submitting_retention | polling_retention | observing_retention
| verifying_purge | submitting_purge | polling_purge | observing_purge.

#[export] Instance WorkflowStage_eq_dec : EqDecision WorkflowStage.
Proof. solve_decision. Defined.

Definition WORKFLOW_STAGES : list (string * WorkflowStage) :=
  [ ("accepted", accepted); ("submitting_create", submitting_create);
    ("polling_create", polling_create); ("configuring", configuring);
    ("polling_configuration", polling_configuration); ("starting", starting);
    ("polling_start", polling_start); ("observing", observing);
    ("submitting_power", submitting_power); ("polling_power", polling_power);
    ("observing_power", observing_power); ("submitting_resize", submitting_resize);
    ("polling_resize", polling_resize); ("observing_resize", observing_resize);
    ("submitting_snapshot", submitting_snapshot); ("polling_snapshot", polling_snapshot);
    ("observing_snapshot", observing_snapshot); ("submitting_retention", submitting_retention);
    ("polling_retention", polling_retention); ("observing_retention", observing_retention);
    ("verifying_purge", verifying_purge); ("submitting_purge", submitting_purge);
    ("polling_purge", polling_purge); ("observing_purge", observing_purge) ].

Inductive TerminalStage : Set := completed | failed | manual_review.
#[export] Instance TerminalStage_eq_dec : EqDecision TerminalStage.
Proof. solve_decision. Defined.

(** Any value of the [workflow.workflows.stage] column. *)
Inductive PersistedStage : Set :=
| Active (s : WorkflowStage)
| Terminal (t : TerminalStage).
#[export] Instance PersistedStage_eq_dec : EqDecision PersistedStage.
Proof. solve_decision. Defined.

Definition STAGE_PROGRESS_PERCENT (s : PersistedStage) : Z :=
  match s with
  | Active accepted => 0
  | Active submitting_create => 10
  | Active polling_create => 25
  | Active configuring => 40
  | Active polling_configuration => 55
  | Active starting => 70
  | Active polling_start => 82
  | Active observing => 92
  | Active submitting_power => 20
  | Active polling_power => 55
  | Active observing_power => 85
  | Active submitting_resize => 20
  | Active polling_resize => 55
  | Active observing_resize => 85
  | Active submitting_snapshot => 20
  | Active polling_snapshot => 55
  | Active observing_snapshot => 85
  | Active submitting_retention => 20
  | Active polling_retention => 55
  | Active observing_retention => 85
  | Active verifying_purge => 15
  | Active submitting_purge => 40
  | Active polling_purge => 65
  | Active observing_purge => 88
  | Terminal completed => 100
  | Terminal failed => 100
  | Terminal manual_review => 100
  end.

(** The text of a stage. *)
Definition stage_text (s : WorkflowStage) : string :=
  default "" (fst <$> List.find (λ p, bool_decide (snd p = s)) WORKFLOW_STAGES).

Definition toWorkflowStage (value : string) : result error WorkflowStage :=
  match lookup_text value WORKFLOW_STAGES with
  | Some s => Ok s
  | None => Err (Fault ("Unsupported workflow stage: " ++ value))
  end.

Inductive WorkflowAction : Set :=
| create_instance | power_instance | resize_instance | create_snapshot
| rollback_snapshot | delete_snapshot | retain_instance | purge_instance
| reconcile_instance.
#[export] Instance WorkflowAction_eq_dec : EqDecision WorkflowAction.
Proof. solve_decision. Defined.

Definition WORKFLOW_ACTIONS : list (string * WorkflowAction) :=
  [ ("create_instance", create_instance); ("power_instance", power_instance);
    ("resize_instance", resize_instance); ("create_snapshot", create_snapshot);
    ("rollback_snapshot", rollback_snapshot); ("delete_snapshot", delete_snapshot);
    ("retain_instance", retain_instance); ("purge_instance", purge_instance);
    ("reconcile_instance", reconcile_instance) ].

#[export] Instance WorkflowAction_countable : Countable WorkflowAction.
Proof. refine (enum_countable (map snd WORKFLOW_ACTIONS) _). intros []; apply list_elem_of_In; simpl; tauto. Defined.

Definition action_text (a : WorkflowAction) : string :=
  default "" (fst <$> List.find (λ p, bool_decide (snd p = a)) WORKFLOW_ACTIONS).

Definition toWorkflowAction (value : string) : result error WorkflowAction :=
  match lookup_text value WORKFLOW_ACTIONS with
  | Some a => Ok a
  | None => Err (Fault ("Unsupported workflow action: " ++ value))
  end.

(** ** Lemmas *)

Lemma toWorkflowStage_text (s : WorkflowStage) : toWorkflowStage (stage_text s) = Ok s.
Proof. by destruct s. Qed.

Lemma toWorkflowAction_text (a : WorkflowAction) : toWorkflowAction (action_text a) = Ok a.
Proof. by destruct a. Qed.

Lemma lookup_text_Some {A : Type} (k : string) (l : list (string * A)) (a : A) :
  lookup_text k l = Some a → (k, a) ∈ l.
Proof.
  unfold lookup_text. intros ([k' a'] & Hf & ->)%fmap_Some. apply find_some in Hf as [Hin Hk].
  apply String.eqb_eq in Hk. simpl in Hk. subst. by apply list_elem_of_In.
Qed.

Lemma toWorkflowStage_inv (v : string) (s : WorkflowStage) : toWorkflowStage v = Ok s → v = stage_text s.
Proof.
  unfold toWorkflowStage. case_match eqn:E; [|done]. intros [= ->]. apply lookup_text_Some in E.
  apply list_elem_of_In in E. simpl in E. repeat destruct E as [[= <- <-]|E]; done.
Qed.

Lemma toWorkflowAction_inv (v : string) (a : WorkflowAction) :
  toWorkflowAction v = Ok a → v = action_text a.
Proof.
  unfold toWorkflowAction. case_match eqn:E; [|done]. intros [= ->]. apply lookup_text_Some in E.
  apply list_elem_of_In in E. simpl in E. repeat destruct E as [[= <- <-]|E]; done.
Qed.
