(* ===== verification/Saga.v ===== *)
(** * Effectful steps

    One call of a workflow executor performs a few remote calls and writes.  A
    step is a program over effects: each effect has a reply type, and the rest
    of the step is a function of the reply.  [traces m t o] says that the step
    [m] can perform the exchanges [t] and end with [o] for some behaviour of
    the outside; [run] executes a step against a given outside. *)
From S2P Require Import Prelude.
From stdpp Require Import base list.

Section saga.
Context {E : Type} (reply : E → Type) {X : Type}.

Inductive saga (A : Type) : Type :=
| Ret (a : A)
| Throw (x : X)
| Vis (e : E) (k : reply e → saga A).

Fixpoint sbind {A B : Type} (m : saga A) (f : A → saga B) : saga B :=
  match m with
  | Ret _ a => f a
  | Throw _ x => Throw _ x
  | Vis _ e k => Vis _ e (λ r, sbind (k r) f)
  end.

(** [try { m } catch (x) { h(x) }]. *)
Fixpoint try_catch {A : Type} (m : saga A) (h : X → saga A) : saga A :=
  match m with
  | Ret _ a => Ret _ a
  | Throw _ x => h x
  | Vis _ e k => Vis _ e (λ r, try_catch (k r) h)
  end.

(** One exchange with the outside. *)
Inductive exchange : Type := Exchange (e : E) (r : reply e).
Definition effect_of (x : exchange) : E := match x with Exchange e _ => e end.

Fixpoint traces {A : Type} (m : saga A) (t : list exchange) (o : result X A) : Prop :=
  match m with
  | Ret _ a => t = [] ∧ o = Ok a
  | Throw _ x => t = [] ∧ o = Err x
  | Vis _ e k => ∃ r t', t = Exchange e r :: t' ∧ traces (k r) t' o
  end.

Fixpoint run {A : Type} (outside : ∀ e, reply e) (m : saga A) : list exchange * result X A :=
  match m with
  | Ret _ a => ([], Ok a)
  | Throw _ x => ([], Err x)
  | Vis _ e k =>
      let '(t, o) := run outside (k (outside e)) in (Exchange e (outside e) :: t, o)
  end.

(** Every step ends, whatever the outside answers. *)
Lemma run_traces {A : Type} (outside : ∀ e, reply e) (m : saga A) :
  let '(t, o) := run outside m in traces m t o.
Proof.
  induction m as [a|x|e k IH]; simpl; [done..|]. specialize (IH (outside e)).
  destruct (run outside (k (outside e))) as [t o]. by exists (outside e), t.
Qed.

Lemma traces_bind {A B : Type} (m : saga A) (f : A → saga B) (t : list exchange) (o : result X B) :
  traces (sbind m f) t o ↔
    (∃ t1 t2 a, t = t1 ++ t2 ∧ traces m t1 (Ok a) ∧ traces (f a) t2 o)
    ∨ (∃ x, o = Err x ∧ traces m t (Err x)).
Proof.
  revert t. induction m as [a|x|e k IH]; intros t; simpl.
  - split.
    + intros H. left. exists [], t, a. done.
    + intros [(t1 & t2 & a' & -> & [-> [= ->]] & Hc)|(x & _ & _ & [=])]; done.
  - split.
    + intros [-> ->]. right. by exists x.
    + intros [(t1 & t2 & a' & _ & [_ [=]] & _)|(x' & -> & -> & [= ->])]; done.
  - split.
    + intros (r & t' & -> & [(t1 & t2 & a & -> & H1 & H2)|(x & -> & H)]%IH).
      * left. exists (Exchange e r :: t1), t2, a. split_and!; [done| |done]. by exists r, t1.
      * right. exists x. split; [done|]. by exists r, t'.
    + intros [(t1 & t2 & a & -> & (r & t' & -> & H1) & H2)|(x & -> & r & t' & -> & H)].
      * exists r, (t' ++ t2). split; [done|]. apply IH. left. by exists t', t2, a.
      * exists r, t'. split; [done|]. apply IH. right. by exists x.
Qed.

Lemma traces_catch {A : Type} (m : saga A) (h : X → saga A) (t : list exchange) (o : result X A) :
  traces (try_catch m h) t o ↔
    (∃ a, o = Ok a ∧ traces m t (Ok a))
    ∨ (∃ t1 t2 x, t = t1 ++ t2 ∧ traces m t1 (Err x) ∧ traces (h x) t2 o).
Proof.
  revert t. induction m as [a|x|e k IH]; intros t; simpl.
  - split.
    + intros [-> ->]. left. by exists a.
    + intros [(a' & -> & -> & [= ->])|(t1 & t2 & x & _ & [_ [=]] & _)]; done.
  - split.
    + intros H. right. exists [], t, x. done.
    + intros [(a' & _ & _ & [=])|(t1 & t2 & x' & -> & [-> [= ->]] & Hc)]; done.
  - split.
    + intros (r & t' & -> & [(a & -> & H)|(t1 & t2 & x & -> & H1 & H2)]%IH).
      * left. exists a. split; [done|]. by exists r, t'.
      * right. exists (Exchange e r :: t1), t2, x. split_and!; [done| |done]. by exists r, t1.
    + intros [(a & -> & r & t' & -> & H)|(t1 & t2 & x & -> & (r & t' & -> & H1) & H2)].
      * exists r, t'. split; [done|]. apply IH. left. by exists a.
      * exists r, (t' ++ t2). split; [done|]. apply IH. right. by exists t', t2, x.
Qed.
End saga.

Arguments Ret {E reply X A} a.
Arguments Throw {E reply X A} x.
Arguments Vis {E reply X A} e k.
Arguments sbind {E reply X A B} m f.
Arguments try_catch {E reply X A} m h.
Arguments Exchange {E reply} e r.
Arguments effect_of {E reply} x.
Arguments traces {E reply X A} m t o.
Arguments run {E reply X A} outside m.

Notation "'let^' p := e 'in' k" := (sbind e (λ p, k))
  (at level 10, p pattern, e at level 200, k at level 200) : prog_scope.
