(* ===== verification/Events.v ===== *)
(** * Commands and events

    The event contract the services exchange: the envelope, the payloads of
    the lifecycle commands and of the events a workflow publishes, and the
    claimed workflow handed to an executor ([packages/application/src/ports.ts]).
    A timestamp is its millisecond value. *)
From S2P Require Import Prelude JsText SshKey Domain WorkflowStage.
From Stdlib Require Import ZArith Bool String.
From stdpp Require Import base decidable list strings.
Open Scope string_scope.
Open Scope Z_scope.

Record TraceContext : Set := { traceparent : string; tracestate : option string }.
#[export] Instance TraceContext_eq_dec : EqDecision TraceContext.
Proof. solve_decision. Defined.

Record EventEnvelope : Set := {
  eventId : string;
  schemaName : string;
  schemaVersion : Z;
  aggregateType : string;
  aggregateId : string;
  projectId : string;
  operationId : string;
  correlationId : string;
  causationId : string;
  occurredAt : Z;
  traceContext : TraceContext;
  partitionKey : string;
}.
#[export] Instance EventEnvelope_eq_dec : EqDecision EventEnvelope.
Proof. solve_decision. Defined.

(** ** Command payloads *)

Record Ipv4Configuration : Set := {
  address : string; prefixLength : Z; ipv4_gateway : string; dnsServers : list string }.
#[export] Instance Ipv4Configuration_eq_dec : EqDecision Ipv4Configuration.
Proof. solve_decision. Defined.

Record CreateData : Set := {
  create_imageId : string;
  create_flavorId : string;
  create_networkId : string;
  create_providerProfileId : string;
  create_hostname : string;
  create_resources : Sizing;
  create_ipv4 : Ipv4Configuration;
  create_sshPublicKeys : option (list string);
}.
#[export] Instance CreateData_eq_dec : EqDecision CreateData.
Proof. solve_decision. Defined.
Record PowerData : Set := {
  power_action : PowerAction;
  power_providerProfileId : string;
  power_createOperationId : string;
}.
#[export] Instance PowerData_eq_dec : EqDecision PowerData.
Proof. solve_decision. Defined.
Record ResizeData : Set := {
  resize_flavorId : string;
  resize_targetResources : Sizing;
  resize_providerProfileId : string;
  resize_createOperationId : string;
}.
#[export] Instance ResizeData_eq_dec : EqDecision ResizeData.
Proof. solve_decision. Defined.
Record SnapshotCreateData : Set := {
  snapshot_id : string;
  snapshot_name : string;
  snapshot_description : option string;
  snapshot_providerProfileId : string;
  snapshot_createOperationId : string;
}.
#[export] Instance SnapshotCreateData_eq_dec : EqDecision SnapshotCreateData.
Proof. solve_decision. Defined.
(** The payload shared by rollback and delete. *)
Record SnapshotTargetData : Set := {
  target_snapshotId : string;
  target_providerProfileId : string;
  target_createOperationId : string;
  target_providerSnapshotReference : string;
}.
#[export] Instance SnapshotTargetData_eq_dec : EqDecision SnapshotTargetData.
Proof. solve_decision. Defined.
Inductive LeaseReleaseMode : Set := quarantine_until_purge | release_on_retain.
#[export] Instance LeaseReleaseMode_eq_dec : EqDecision LeaseReleaseMode.
Proof. solve_decision. Defined.
Record RetentionData : Set := {
  retention_deadline : Z;
  retention_leaseReleaseMode : LeaseReleaseMode;
  retention_providerProfileId : string;
  retention_createOperationId : string;
}.
#[export] Instance RetentionData_eq_dec : EqDecision RetentionData.
Proof. solve_decision. Defined.
Record PurgeData : Set := {
  purge_authorizationId : string;
  purge_retentionDeadline : Z;
  purge_reasonReference : string;
  purge_providerProfileId : string;
  purge_createOperationId : string;
}.
#[export] Instance PurgeData_eq_dec : EqDecision PurgeData.
Proof. solve_decision. Defined.

Inductive CommandData : Set :=
| InstanceCreateRequested (d : CreateData)
| InstancePowerRequested (d : PowerData)
| InstanceResizeRequested (d : ResizeData)
| SnapshotCreateRequested (d : SnapshotCreateData)
| SnapshotRollbackRequested (d : SnapshotTargetData)
| SnapshotDeleteRequested (d : SnapshotTargetData)
| InstanceRetentionRequested (d : RetentionData)
| InstancePurgeRequested (d : PurgeData).

#[export] Instance CommandData_eq_dec : EqDecision CommandData.
Proof. solve_decision. Defined.

(** An envelope with a payload. *)
Record Command (D : Type) : Type := { envelope : EventEnvelope; data : D }.
Arguments Build_Command {D}.
Arguments envelope {D}.
Arguments data {D}.

Abbreviation LifecycleCommand := (Command CommandData).

(** The schema name each payload is published under. *)
Definition data_schema (d : CommandData) : string :=
  match d with
  | InstanceCreateRequested _ => "instance.create.requested"
  | InstancePowerRequested _ => "instance.power.requested"
  | InstanceResizeRequested _ => "instance.resize.requested"
  | SnapshotCreateRequested _ => "snapshot.create.requested"
  | SnapshotRollbackRequested _ => "snapshot.rollback.requested"
  | SnapshotDeleteRequested _ => "snapshot.delete.requested"
  | InstanceRetentionRequested _ => "instance.retention.requested"
  | InstancePurgeRequested _ => "instance.purge.requested"
  end.

(** ** Event payloads *)

Inductive EventFailureCategory : Set :=
| cat_validation | cat_authorization | cat_conflict | cat_transient
| cat_permanent | cat_unknown_outcome | cat_compensation_failure | cat_manual_review.
#[export] Instance EventFailureCategory_eq_dec : EqDecision EventFailureCategory.
Proof. solve_decision. Defined.

Record Failure : Set := {
  category : EventFailureCategory;
  code : string;
  safeMessage : string;
  retryAfterMilliseconds : option Z;
}.
#[export] Instance Failure_eq_dec : EqDecision Failure.
Proof. solve_decision. Defined.

Inductive OperationState : Set := running | retry_wait | compensating | unknown_outcome.
#[export] Instance OperationState_eq_dec : EqDecision OperationState.
Proof. solve_decision. Defined.

Inductive CompensationState : Set := not_required | pending | comp_succeeded | comp_failed | unsafe.
#[export] Instance CompensationState_eq_dec : EqDecision CompensationState.
Proof. solve_decision. Defined.

(** Measured sizing; [None] is the [NaN] of an absent measurement. *)
Record ObservedResources : Set := {
  observed_cpu : Z; observed_memory : option Z; observed_disk : option Z }.
#[export] Instance ObservedResources_eq_dec : EqDecision ObservedResources.
Proof. solve_decision. Defined.

Record ObservedState : Set := {
  state_exists : bool;
  state_powerState : ObservedPower;
  state_resources : option ObservedResources;
  state_markerMatch : bool;
  state_observedAt : Z;
}.
#[export] Instance ObservedState_eq_dec : EqDecision ObservedState.
Proof. solve_decision. Defined.

Record ProgressedData : Set := {
  progressed_stage : string;
  progressed_attempt : Z;
  progressed_operationState : OperationState;
  progressed_providerTaskReference : option string;
  progressed_nextActionAt : option Z;
}.
#[export] Instance ProgressedData_eq_dec : EqDecision ProgressedData.
Proof. solve_decision. Defined.
Record CompletedData : Set := {
  completed_action : WorkflowAction;
  completed_lifecycleState : string;
  completed_providerResourceId : option string;
  completed_evidenceId : string;
  completed_observed : option ObservedState;
}.
#[export] Instance CompletedData_eq_dec : EqDecision CompletedData.
Proof. solve_decision. Defined.
Record FailedData : Set := {
  failed_action : WorkflowAction;
  failed_failure : Failure;
  failed_compensationState : CompensationState;
}.
#[export] Instance FailedData_eq_dec : EqDecision FailedData.
Proof. solve_decision. Defined.
Inductive ReplayOutcome : Set := replay_completed | replay_rejected.
#[export] Instance ReplayOutcome_eq_dec : EqDecision ReplayOutcome.
Proof. solve_decision. Defined.
Record ReplayResolvedData : Set := {
  resolved_replayRequestId : string;
  resolved_originalEventId : string;
  resolved_outcome : ReplayOutcome;
  resolved_replayGeneration : Z;
  resolved_resolvedAt : Z;
}.
#[export] Instance ReplayResolvedData_eq_dec : EqDecision ReplayResolvedData.
Proof. solve_decision. Defined.
Record DeadLetteredData : Set := {
  dead_originalEventId : string;
  dead_originalSchemaName : string;
  dead_originalSchemaVersion : Z;
  dead_failure : Failure;
  dead_attempts : Z;
  dead_replayAllowed : bool;
  dead_deadLetteredAt : Z;
}.
#[export] Instance DeadLetteredData_eq_dec : EqDecision DeadLetteredData.
Proof. solve_decision. Defined.

Inductive EventData : Set :=
| WorkflowProgressed (d : ProgressedData)
| MutationCompleted (d : CompletedData)
| MutationFailed (d : FailedData)
| ReplayResolved (d : ReplayResolvedData)
| DeadLettered (d : DeadLetteredData).
#[export] Instance EventData_eq_dec : EqDecision EventData.
Proof. solve_decision. Defined.

Abbreviation WorkflowEvent := (Command EventData).

(** ** The claimed workflow *)

Record ClaimedWorkflow (D : Type) : Type := {
  claimed_action : WorkflowAction;
  claimed_command : Command D;
  claimed_traceContext : TraceContext;
  claimed_stage : WorkflowStage;
  claimed_attempt : Z;
  claimed_stageAttempt : Z;
  claimed_retryStartedAt : option Z;
  claimed_fencingToken : Z;
  claimed_providerResourceId : option string;
  claimed_providerTaskReference : option string;
}.
Arguments claimed_action {D}.
Arguments claimed_command {D}.
Arguments claimed_traceContext {D}.
Arguments claimed_stage {D}.
Arguments claimed_attempt {D}.
Arguments claimed_stageAttempt {D}.
Arguments claimed_retryStartedAt {D}.
Arguments claimed_fencingToken {D}.
Arguments claimed_providerResourceId {D}.
Arguments claimed_providerTaskReference {D}.

(** An optional string the source tests with [!value]: absent or empty counts
    as missing. *)
Definition present (o : option string) : option string := s ← o; if truthy s then Some s else None.
(** [a ?? b]. *)
Definition coalesce {A : Type} (a b : option A) : option A :=
  match a with Some x => Some x | None => b end.
