(* ===== verification/PlanGate.v ===== *)
(** * The plan gate

    [terraform/plan-gate.ts]: whether a Terraform plan may be applied.  A plan
    is the parsed [terraform show -json] document at the type the gate reads it
    at.  Action names are texts; a tally is the list of its entries in the order
    JavaScript keeps them, for names that are neither array indices nor members
    of [Object.prototype]. *)
From S2P Require Import Prelude JsText Json SshKey Domain WorkflowStage Events.
From Stdlib Require Import ZArith Lia Bool Ascii String.
From stdpp Require Import base decidable list strings.
Open Scope string_scope.
Open Scope Z_scope.
Open Scope prog_scope.

(** ** Plans *)

Inductive PathSegment : Set := PathName (s : string) | PathIndex (n : Z).
Record PlanChange : Set := {
  pg_actions : option (list string);
  pg_replace_paths : option (list (list PathSegment));
}.
Record PlanResourceChange : Set := {
  pg_address : option string;
  pg_action_reason : option string;
  pg_change : option PlanChange;
}.
Record TerraformPlan : Set := {
  pg_errored : option bool;
  pg_resource_changes : option (list PlanResourceChange);
}.

Inductive GateDecision : Set := gate_allowed | refused_destructive.
#[export] Instance GateDecision_eq_dec : EqDecision GateDecision.
Proof. solve_decision. Defined.
Record GateObjection : Set := {
  go_address : string;
  go_actions : list string;
  go_actionReason : option string;
  go_replacePaths : option (list string);
}.
Record GateResult : Set := {
  gate_decision : GateDecision;
  gate_rule : option string;
  gate_actionCounts : list (string * Z);
  gate_objections : list GateObjection;
  gate_summary : string;
}.

Definition PERMITTED_ACTIONS : list string := ["no-op"; "create"; "read"; "update"].
Definition DESTRUCTIVE_ACTION : string := "delete".
Definition COUNTED_ACTIONS : list string := ["no-op"; "create"; "read"; "update"; "delete"; "replace"].

(** ** The tally *)

(** [counts[key] = (counts[key] ?? 0) + 1]. *)
Fixpoint bump (key : string) (counts : list (string * Z)) : list (string * Z) :=
  match counts with
  | [] => [(key, 1)]
  | (k, n) :: counts => if String.eqb k key then (k, n + 1) :: counts else (k, n) :: bump key counts
  end.
Definition includes (l : list string) (s : string) : bool := existsb (String.eqb s) l.
Definition actions_of (change : PlanResourceChange) : list string := default [] (change.(pg_change) ≫= pg_actions).
Definition count_change (counts : list (string * Z)) (change : PlanResourceChange) : list (string * Z) :=
  let actions := actions_of change in
  let counts := if includes actions "delete" && includes actions "create" then bump "replace" counts else counts in
  List.fold_left (λ counts action, bump action counts) actions counts.
Definition countActions (changes : list PlanResourceChange) : list (string * Z) :=
  List.fold_left count_change changes (map (λ action, (action, 0)) COUNTED_ACTIONS).

(** ** The verdict *)

Definition segment_text (s : PathSegment) : string := match s with PathName s => s | PathIndex n => string_of_Z n end.
Definition renderPath (path : list PathSegment) : string := String.concat "." (map segment_text path).

Definition address_of (change : PlanResourceChange) : string := default "unknown" change.(pg_address).
Definition unrecognised (change : PlanResourceChange) : list string :=
  List.filter (λ action, negb (includes PERMITTED_ACTIONS action) && negb (String.eqb action DESTRUCTIVE_ACTION))
    (actions_of change).
(** The rule a change refuses under and the objection to it, if any. *)
Definition judge (allowDestroyOf : option string) (change : PlanResourceChange) : option (string * GateObjection) :=
  let actions := actions_of change in
  let address := address_of change in
  match unrecognised change with
  | _ :: _ =>
      Some ("unrecognised_action", {| go_address := address; go_actions := actions; go_actionReason := None;
                                      go_replacePaths := None |})
  | [] =>
      if negb (includes actions DESTRUCTIVE_ACTION) then None
      else if bool_decide (allowDestroyOf = Some address) then None
      else Some (default "delete_not_permitted" change.(pg_action_reason),
                 {| go_address := address; go_actions := actions; go_actionReason := present change.(pg_action_reason);
                    go_replacePaths := map renderPath <$> (change.(pg_change) ≫= pg_replace_paths) |})
  end.

(** [ENTRIES.filter(count > 0)], rendered. *)
Definition described (counts : list (string * Z)) : string :=
  String.concat " " (map (λ p, fst p ++ "=" ++ string_of_Z (snd p)) (List.filter (λ p, 0 <? snd p) counts)).
Definition objection_text (o : GateObjection) : string :=
  let reason := match present o.(go_actionReason) with Some r => " (" ++ r ++ ")" | None => "" end in
  let paths := match o.(go_replacePaths) with
               | Some (p :: ps) => " forced by " ++ String.concat ", " (p :: ps)
               | _ => ""
               end in
  o.(go_address) ++ ": " ++ String.concat "+" o.(go_actions) ++ reason ++ paths.

Definition refusal (rule summary : string) : GateResult :=
  {| gate_decision := refused_destructive; gate_rule := Some rule; gate_actionCounts := []; gate_objections := [];
     gate_summary := summary |}.
Definition evaluatePlan (plan : option TerraformPlan) (allowDestroyOf : option string) : GateResult :=
  match plan with
  | None =>
      refusal "unparseable_plan" "The plan could not be read. Refusing, because a gate that guesses is not a gate."
  | Some plan =>
      if bool_decide (plan.(pg_errored) = Some true) then
        refusal "errored_plan" "Terraform marked this plan as errored. Nothing is applied from an errored plan."
      else
        let changes := default [] plan.(pg_resource_changes) in
        let actionCounts := countActions changes in
        match omap (judge allowDestroyOf) changes with
        | [] =>
            {| gate_decision := gate_allowed; gate_rule := None; gate_actionCounts := actionCounts; gate_objections := [];
               gate_summary :=
                 match changes with
                 | [] => "No changes."
                 | _ => "Allowed: " ++ (if truthy (described actionCounts) then described actionCounts else "no-op") ++ "."
                 end |}
        | (rule, objection) :: rest =>
            {| gate_decision := refused_destructive; gate_rule := present (Some rule); gate_actionCounts := actionCounts;
               gate_objections := objection :: map snd rest;
               gate_summary := "Refused, this plan would destroy a provider resource. "
                 ++ String.concat "; " (map objection_text (objection :: map snd rest)) |}
        end
  end.

Definition isRecoverableByUntaint (result : GateResult) : bool :=
  bool_decide (result.(gate_decision) = refused_destructive)
  && (0 <? Z.of_nat (List.length result.(gate_objections)))
  && forallb (λ o, bool_decide (o.(go_actionReason) = Some "replace_because_tainted")) result.(gate_objections).

(** ** What the gate lets through *)

Lemma includes_elem (l : list string) (s : string) : includes l s = true ↔ s ∈ l.
Proof.
  unfold includes. rewrite existsb_exists. split.
  - intros (x & Hx & Heq). apply String.eqb_eq in Heq as ->. by apply list_elem_of_In.
  - intros Hs. exists s. split; [by apply list_elem_of_In|apply String.eqb_refl].
Qed.

(** A change the gate lets through: it only reads, creates or updates, or it is
    the one address that may be destroyed. *)
Definition harmless (allowDestroyOf : option string) (change : PlanResourceChange) : Prop :=
  ∀ action, action ∈ actions_of change →
    action ∈ PERMITTED_ACTIONS ∨ (action = DESTRUCTIVE_ACTION ∧ allowDestroyOf = Some (address_of change)).

Lemma unrecognised_nil (change : PlanResourceChange) :
  unrecognised change = [] ↔ ∀ action, action ∈ actions_of change → action ∈ PERMITTED_ACTIONS ∨ action = DESTRUCTIVE_ACTION.
Proof.
  unfold unrecognised. split.
  - intros Hnil action Hin. destruct (includes PERMITTED_ACTIONS action) eqn:E; [left; by apply includes_elem|].
    destruct (String.eqb_spec action DESTRUCTIVE_ACTION) as [|Hne]; [by right|].
    assert (Hf : action ∈ List.filter (λ a, negb (includes PERMITTED_ACTIONS a) && negb (String.eqb a DESTRUCTIVE_ACTION)) (actions_of change)).
    { apply list_elem_of_In, filter_In. split; [by apply list_elem_of_In|]. rewrite E.
      by destruct (String.eqb_spec action DESTRUCTIVE_ACTION). }
    rewrite Hnil in Hf. by apply elem_of_nil in Hf.
  - intros Hall. destruct (List.filter _ _) as [|x l] eqn:E; [done|]. exfalso.
    assert (Hx : In x (x :: l)) by by left. rewrite <- E in Hx. apply filter_In in Hx as [Hx Hb]. apply list_elem_of_In in Hx.
    apply andb_true_iff in Hb as [H1 H2]. destruct (Hall x Hx) as [Hp| ->]; [|done].
    apply includes_elem in Hp. by rewrite Hp in H1.
Qed.
Lemma delete_not_permitted : DESTRUCTIVE_ACTION ∉ PERMITTED_ACTIONS.
Proof. apply (bool_decide_eq_false_1 _). reflexivity. Qed.
Lemma judge_None (allow : option string) (change : PlanResourceChange) :
  judge allow change = None ↔ harmless allow change.
Proof.
  unfold judge, harmless. pose proof (unrecognised_nil change) as Hu. destruct (unrecognised change) as [|x l].
  - apply proj1 in Hu. specialize (Hu eq_refl). destruct (includes (actions_of change) DESTRUCTIVE_ACTION) eqn:E; cbn.
    + apply includes_elem in E. case_bool_decide as Ha; split; try done.
      * intros _ action Hin. destruct (Hu action Hin) as [| ->]; [by left|by right].
      * intros Hall. destruct (Hall _ E) as [Hp|[_ ?]]; [by destruct delete_not_permitted|done].
    + split; [|done]. intros _ action Hin. destruct (Hu action Hin) as [| ->]; [by left|].
      apply includes_elem in Hin. congruence.
  - split; [done|]. intros Hall. assert (Hbad : x :: l = []); [|done]. apply Hu. intros action Hin.
    destruct (Hall action Hin) as [|[ -> _]]; [by left|by right].
Qed.

Lemma omap_nil {A B : Type} (f : A → option B) (l : list A) : omap f l = [] ↔ Forall (λ x, f x = None) l.
Proof.
  induction l as [|x l IH]; cbn; [done|]. rewrite Forall_cons, <- IH. destruct (f x); split; try done; by intros [].
Qed.

Lemma gate_allows (plan : option TerraformPlan) (allowDestroyOf : option string) :
  (evaluatePlan plan allowDestroyOf).(gate_decision) = gate_allowed
  ↔ ∃ p, plan = Some p ∧ p.(pg_errored) ≠ Some true
      ∧ Forall (harmless allowDestroyOf) (default [] p.(pg_resource_changes)).
Proof.
  unfold evaluatePlan. destruct plan as [p|]; [|split; [done|by intros (? & ? & _)]].
  case_bool_decide as He; [split; [done|by intros (? & [= <-] & ? & _)]|].
  assert (Hf : Forall (harmless allowDestroyOf) (default [] p.(pg_resource_changes))
               ↔ omap (judge allowDestroyOf) (default [] p.(pg_resource_changes)) = []).
  { rewrite omap_nil. apply Forall_iff. intros change. symmetry. apply judge_None. }
  destruct (omap _ _) as [|[rule o] rest]; cbn; split; try done.
  - intros _. exists p. split_and!; [done|done|by apply Hf].
  - by intros (? & [= <-] & _ & [=]%Hf).
Qed.

(** C26: The gate decides exactly.  A plan may be applied exactly when it was
    read, is not marked as errored, and every action it proposes for every
    resource is a no-op, a create, a read or an update, or a delete at the one
    address the caller named; so no plan that deletes or replaces anything
    passes when no address was named, and an action the gate does not know
    never passes. *)
Theorem gate_is_exact (plan : option TerraformPlan) (allowDestroyOf : option string) :
  (evaluatePlan plan allowDestroyOf).(gate_decision) = gate_allowed
  ↔ ∃ p, plan = Some p ∧ p.(pg_errored) ≠ Some true
      ∧ Forall (harmless allowDestroyOf) (default [] p.(pg_resource_changes)).
Proof. apply gate_allows. Qed.

(** ** What is recorded *)

Definition tally (k : string) (counts : list (string * Z)) : Z := default 0 (lookup_text k counts).
Definition occurrences (k : string) (l : list string) : Z := Z.of_nat (List.length (List.filter (String.eqb k) l)).
(** A replacement: both halves in one change. *)
Definition replaces (change : PlanResourceChange) : bool :=
  includes (actions_of change) "delete" && includes (actions_of change) "create".

Lemma tally_bump (k key : string) (counts : list (string * Z)) :
  tally k (bump key counts) = tally k counts + (if String.eqb k key then 1 else 0).
Proof.
  unfold tally, lookup_text. induction counts as [|[k' n] counts IH]; cbn.
  - by destruct (String.eqb k key).
  - destruct (String.eqb_spec k' key) as [->|Hne]; cbn.
    + destruct (String.eqb k key); cbn; lia.
    + destruct (String.eqb_spec k k') as [->|]; cbn; [|exact IH]. destruct (String.eqb_spec k' key); [done|lia].
Qed.
Lemma tally_actions (k : string) (l : list string) (counts : list (string * Z)) :
  tally k (List.fold_left (λ counts action, bump action counts) l counts) = tally k counts + occurrences k l.
Proof.
  revert counts. induction l as [|x l IH]; intros counts; cbn [List.fold_left].
  { unfold occurrences. cbn [List.filter List.length]. lia. }
  rewrite IH, tally_bump. unfold occurrences. cbn [List.filter]. destruct (String.eqb k x); cbn [List.length]; lia.
Qed.
Lemma tally_change (k : string) (change : PlanResourceChange) (counts : list (string * Z)) :
  tally k (count_change counts change)
  = tally k counts + occurrences k (actions_of change) + (if String.eqb k "replace" && replaces change then 1 else 0).
Proof.
  unfold count_change. rewrite tally_actions. change (includes _ "delete" && includes _ "create") with (replaces change).
  destruct (replaces change); [rewrite tally_bump|]; destruct (String.eqb k "replace"); cbn [andb]; lia.
Qed.

Lemma tally_start (k : string) (names : list string) : tally k (map (λ action, (action, 0)) names) = 0.
Proof.
  unfold tally, lookup_text. induction names as [|name names IH]; cbn; [done|]. by destruct (String.eqb k name).
Qed.

Lemma tally_changes (k : string) (changes : list PlanResourceChange) (counts : list (string * Z)) :
  tally k (List.fold_left count_change changes counts)
  = tally k counts + occurrences k (concat (map actions_of changes))
    + (if String.eqb k "replace" then Z.of_nat (List.length (List.filter replaces changes)) else 0).
Proof.
  revert counts. induction changes as [|x l IH]; intros counts; cbn [List.fold_left map concat List.filter].
  - unfold occurrences. cbn [List.filter List.length]. destruct (String.eqb k "replace"); lia.
  - rewrite IH, tally_change. unfold occurrences. rewrite List.filter_app, List.length_app.
    destruct (String.eqb k "replace"), (replaces x); cbn [List.length andb]; lia.
Qed.

(** No step of the tally drops a name. *)
Lemma bump_names (name key : string) (counts : list (string * Z)) :
  name ∈ map fst counts → name ∈ map fst (bump key counts).
Proof.
  induction counts as [|[k n] counts IH]; cbn; [by intros ?%elem_of_nil|]. destruct (String.eqb k key); cbn; [done|].
  rewrite !elem_of_cons. intros [?|?]; [by left|right; by apply IH].
Qed.
Lemma actions_names (name : string) (actions : list string) (counts : list (string * Z)) :
  name ∈ map fst counts → name ∈ map fst (List.fold_left (λ counts action, bump action counts) actions counts).
Proof. revert counts. induction actions as [|a l IH]; intros counts Hc; [done|]. by apply IH, bump_names. Qed.
Lemma changes_names (name : string) (changes : list PlanResourceChange) (counts : list (string * Z)) :
  name ∈ map fst counts → name ∈ map fst (List.fold_left count_change changes counts).
Proof.
  revert counts. induction changes as [|x l IH]; intros counts Hc; [done|].
  apply IH, actions_names. case_match; [by apply bump_names|done].
Qed.

(** The tally counts.  For every action name, the recorded count is the
    number of its occurrences over all changes, plus for [replace] the number
    of changes that both delete and create; the six known names are always
    present. *)
Theorem tally_counts (k : string) (changes : list PlanResourceChange) :
  tally k (countActions changes)
  = occurrences k (concat (map actions_of changes))
    + (if String.eqb k "replace" then Z.of_nat (List.length (List.filter replaces changes)) else 0)
  ∧ ∀ name, name ∈ COUNTED_ACTIONS → name ∈ map fst (countActions changes).
Proof.
  unfold countActions. split.
  - by rewrite tally_changes, tally_start, Z.add_0_l.
  - intros name Hname. apply changes_names. by rewrite map_map, map_id.
Qed.

(** ** Recovery *)

Lemma refused_objections (p : TerraformPlan) (allow : option string) :
  p.(pg_errored) ≠ Some true →
  (evaluatePlan (Some p) allow).(gate_objections) = map snd (omap (judge allow) (default [] p.(pg_resource_changes))).
Proof. intros He. unfold evaluatePlan. rewrite bool_decide_eq_false_2 by done. by destruct (omap _ _) as [|[r o] l]. Qed.

(** A refused change that untainting clears: a known replacement, explained as
    tainted. *)
Definition tainted (change : PlanResourceChange) : Prop :=
  unrecognised change = [] ∧ change.(pg_action_reason) = Some "replace_because_tainted".

Definition blames_taint (o : GateObjection) : bool := bool_decide (o.(go_actionReason) = Some "replace_because_tainted").

(** What an objection says about its change. *)
Lemma judge_cases (allow : option string) (x : PlanResourceChange) :
  match judge allow x with
  | None => harmless allow x
  | Some (_, o) => ¬ harmless allow x ∧ (blames_taint o = true ↔ tainted x)
  end.
Proof.
  pose proof (judge_None allow x) as Hn. destruct (judge allow x) as [[r o]|] eqn:E; [|by apply Hn].
  split; [intros Hx; by apply Hn in Hx|]. unfold judge in E. unfold tainted, blames_taint. rewrite bool_decide_eq_true.
  destruct (unrecognised x); [|injection E as <- <-; split; [done|by intros []]].
  destruct (negb _); [done|]. case_bool_decide; [done|]. injection E as <- <-. cbn [go_actionReason].
  destruct (pg_action_reason x) as [a|]; cbn; [|split; [done|by intros []]].
  destruct (truthy a) eqn:Et; split; try done; [by intros []|by intros [_ [= ->]]].
Qed.
Lemma objections_exist (allow : option string) (l : list PlanResourceChange) :
  0 < Z.of_nat (List.length (omap (judge allow) l)) ↔ Exists (λ x, ¬ harmless allow x) l.
Proof.
  induction l as [|x l IH]; [by rewrite Exists_nil|]. rewrite Exists_cons, <- IH. cbn.
  pose proof (judge_cases allow x) as Hx. destruct (judge allow x) as [[r o]|]; cbn [List.length].
  - split; [left; by destruct Hx|lia].
  - split; [by right|by intros [[]|]].
Qed.
Lemma objections_blame_taints (allow : option string) (l : list PlanResourceChange) :
  forallb blames_taint (map snd (omap (judge allow) l)) = true ↔ Forall (λ x, harmless allow x ∨ tainted x) l.
Proof.
  induction l as [|x l IH]; [done|]. rewrite Forall_cons, <- IH. cbn.
  pose proof (judge_cases allow x) as Hx. destruct (judge allow x) as [[r o]|]; cbn.
  - rewrite andb_true_iff. split; [intros [Ho ?]; split; [right; by apply Hx|done]|].
    intros [[?|Ht] ?]; [by destruct Hx|]. split; [by apply Hx|done].
  - split; [split; [by left|done]|by intros []].
Qed.

(** Untainting is offered exactly for taints.  A refusal counts as
    recoverable exactly when something was refused and everything refused is a
    deletion Terraform itself explains by a taint; a plan that could not be
    read or was errored, or that holds one unknown action or one genuine
    conflict besides, never does. *)
Theorem untaint_is_for_taints (plan : option TerraformPlan) (allow : option string) :
  isRecoverableByUntaint (evaluatePlan plan allow) = true
  ↔ ∃ p, plan = Some p ∧ p.(pg_errored) ≠ Some true
      ∧ Exists (λ x, ¬ harmless allow x) (default [] p.(pg_resource_changes))
      ∧ Forall (λ x, harmless allow x ∨ tainted x) (default [] p.(pg_resource_changes)).
Proof.
  destruct plan as [p|]; [|split; [done|by intros (? & [=] & _)]].
  destruct (decide (p.(pg_errored) = Some true)) as [He|He].
  { unfold evaluatePlan. rewrite bool_decide_eq_true_2 by done. split; [done|by intros (? & [= <-] & ? & _)]. }
  unfold isRecoverableByUntaint. rewrite (refused_objections p allow He), length_map. fold blames_taint.
  rewrite !andb_true_iff, bool_decide_eq_true, Z.ltb_lt, objections_exist, objections_blame_taints. split.
  - intros [[_ ?] ?]. by exists p.
  - intros (? & [= <-] & _ & Hex & Hall). split_and!; try done.
    pose proof (gate_allows (Some p) allow) as Hg. destruct (gate_decision (evaluatePlan (Some p) allow)); [|done].
    destruct (proj1 Hg eq_refl) as (? & [= <-] & _ & Hh). apply list.Exists_exists in Hex as (x & Hx & Hn).
    rewrite list.Forall_forall in Hh. by destruct Hn; apply Hh.
Qed.
