(* ===== verification/EventValidation.v ===== *)
(** * The trust boundary of commands and events

    [packages/application/src/event-validation.ts]: the guards that narrow a
    decoded JSON record to a command or an event, and the decoders that say
    what the narrowed payload holds.  [Date.parse] is implementation-defined
    outside ISO 8601 and is a parameter. *)
From S2P Require Import Prelude JsText Json SshKey Domain Ipv4 WorkflowStage Events.
From Stdlib Require Import ZArith Lia Bool Ascii String.
From stdpp Require Import base decidable list strings.
Open Scope string_scope.
Open Scope Z_scope.

(** ** Patterns and value predicates *)

Fixpoint hex_groups (sizes : list nat) (groups : list string) : bool :=
  match sizes, groups with
  | [], [] => true
  | n :: sizes, g :: groups =>
      Nat.eqb (String.length g) n && all_chars is_hex_digit g && hex_groups sizes groups
  | _, _ => false
  end.
(** Five groups of 8, 4, 4, 4 and 12 hexadecimal digits, in either case. *)
Definition uuidPattern (s : string) : bool := hex_groups [8; 4; 4; 4; 12]%nat (split_on "-" s).

Abbreviation object := (list (string * json)).

(** An event record: its envelope and its undecoded payload. *)
Abbreviation record := (Command json).

Definition objectValue (v : json) : option object :=
  match v with JObj o => Some o | _ => None end.
Definition stringInRange (v : json) (minimum maximum : Z) : bool :=
  match v with JStr s => (minimum <=? js_length s) && (js_length s <=? maximum) | _ => false end.
Definition optional (v : json) (predicate : json → bool) : bool := is_undefined v || predicate v.
Definition onlyKeys (o : object) (allowed : list string) : bool :=
  forallb (λ p, bool_decide (fst p ∈ allowed)) o.
Definition isSafeInteger (n : Z) : bool := (- (2 ^ 53 - 1) <=? n) && (n <=? 2 ^ 53 - 1).
Definition positiveInteger (v : json) : bool :=
  match v with JNum n => isSafeInteger n && (0 <? n) | _ => false end.
Definition integerInRange (v : json) (minimum maximum : Z) : bool :=
  match v with JNum n => isSafeInteger n && (minimum <=? n) && (n <=? maximum) | _ => false end.
Definition isUuid (v : json) : bool := match v with JStr s => uuidPattern s | _ => false end.
Definition isBoolean (v : json) : bool := match v with JBool _ => true | _ => false end.
(** [[...].includes(String(value))]. *)
Definition includes_text (v : json) (l : list string) : bool := bool_decide (js_String v ∈ l).
(** The members of an array. *)
Definition isArray (v : json) : option (list json) := match v with JArr l => Some l | _ => None end.

Definition ipv4Address (v : json) : bool :=
  match v with
  | JStr s =>
      let octets := split_on "." s in
      Nat.eqb (List.length octets) 4
      && forallb (λ o, octetPattern o && (0 <=? digits_value 10 (chars o))
                       && (digits_value 10 (chars o) <=? 255)) octets
  | _ => false
  end.

(** [new Set(values).size === values.length] for an array of strings. *)
Definition json_text (v : json) : string := match v with JStr s => s | _ => "" end.
Definition unique_strings (l : list json) : bool := unique (map json_text l).

Definition sizing_object (o : object) : bool :=
  onlyKeys o ["cpuCount"; "memoryMiB"; "diskGiB"]
  && integerInRange (field "cpuCount" o) 1 64
  && integerInRange (field "memoryMiB" o) 512 262144
  && integerInRange (field "diskGiB" o) 8 2048.

Definition INSTANCE_LIFECYCLE_STATES : list string :=
  ["pending"; "provisioning"; "active"; "updating"; "failed"; "unknown_outcome"; "retained";
   "purge_pending"; "purged"; "manual_review"].
Definition isWorkflowAction (v : json) : bool :=
  match v with JStr s => is_ok (toWorkflowAction s) | _ => false end.
Definition isInstanceLifecycleState (v : json) : bool :=
  match v with JStr s => bool_decide (s ∈ INSTANCE_LIFECYCLE_STATES) | _ => false end.

Definition failureObject (v : json) : bool :=
  match objectValue v with
  | None => false
  | Some o =>
      onlyKeys o ["category"; "code"; "safeMessage"; "retryAfterMilliseconds"]
      && includes_text (field "category" o)
           ["validation"; "authorization"; "conflict"; "transient"; "permanent"; "unknown_outcome";
            "compensation_failure"; "manual_review"]
      && stringInRange (field "code" o) 1 80
      && stringInRange (field "safeMessage" o) 0 512
      && optional (field "retryAfterMilliseconds" o) (λ c, integerInRange c 1 86400000)
  end.

(** The header every guard compares. *)
Definition headed (v : record) (schema : string) : bool :=
  String.eqb v.(envelope).(schemaName) schema && (v.(envelope).(schemaVersion) =? 1)
  && String.eqb v.(envelope).(aggregateType) "instance".

Definition snapshotRouting (o : object) : bool :=
  stringInRange (field "providerProfileId" o) 1 64 && isUuid (field "createOperationId" o).

(** ** Commands *)

Definition isInstanceCreateRequestedV1 (v : record) : bool :=
  headed v "instance.create.requested" &&
  match objectValue v.(data) with
  | None => false
  | Some d =>
      onlyKeys d ["imageId"; "flavorId"; "networkId"; "providerProfileId"; "hostname"; "resources";
                  "ipv4"; "sshPublicKeys"]
      && stringInRange (field "imageId" d) 1 63
      && stringInRange (field "flavorId" d) 1 63
      && stringInRange (field "networkId" d) 1 63
      && stringInRange (field "providerProfileId" d) 1 63
      && stringInRange (field "hostname" d) 1 63
      && match objectValue (field "resources" d), objectValue (field "ipv4" d) with
         | Some resources, Some ipv4 =>
             sizing_object resources
             && onlyKeys ipv4 ["address"; "prefixLength"; "gateway"; "dnsServers"]
             && ipv4Address (field "address" ipv4)
             && integerInRange (field "prefixLength" ipv4) 1 32
             && ipv4Address (field "gateway" ipv4)
             && match isArray (field "dnsServers" ipv4) with
                | Some servers =>
                    (1 <=? Z.of_nat (List.length servers)) && (Z.of_nat (List.length servers) <=? 4)
                    && forallb ipv4Address servers && unique_strings servers
                | None => false
                end
             && (is_undefined (field "sshPublicKeys" d)
                 || match isArray (field "sshPublicKeys" d) with
                    | Some keys =>
                        (Z.of_nat (List.length keys) <=? 5)
                        && forallb (λ k, stringInRange k 32 8192) keys && unique_strings keys
                    | None => false
                    end)
         | _, _ => false
         end
  end.

Definition isInstancePowerRequestedV1 (v : record) : bool :=
  headed v "instance.power.requested" &&
  match objectValue v.(data) with
  | None => false
  | Some d =>
      onlyKeys d ["action"; "providerProfileId"; "createOperationId"]
      && includes_text (field "action" d) ["start"; "shutdown"; "stop"; "reboot"]
      && snapshotRouting d
  end.

Definition isInstanceResizeRequestedV1 (v : record) : bool :=
  match objectValue v.(data) with
  | None => false
  | Some d =>
      headed v "instance.resize.requested"
      && onlyKeys d ["flavorId"; "targetResources"; "providerProfileId"; "createOperationId"]
      && stringInRange (field "flavorId" d) 1 63
      && stringInRange (field "providerProfileId" d) 1 64
      && isUuid (field "createOperationId" d)
      && match objectValue (field "targetResources" d) with
         | Some resources => sizing_object resources
         | None => false
         end
  end.

(** The snapshot guards do not look at the aggregate type. *)
Definition headed_snapshot (v : record) (schema : string) : bool :=
  String.eqb v.(envelope).(schemaName) schema && (v.(envelope).(schemaVersion) =? 1).

Definition isSnapshotCreateRequestedV1 (v : record) : bool :=
  headed_snapshot v "snapshot.create.requested" &&
  match objectValue v.(data) with
  | None => false
  | Some d =>
      onlyKeys d ["snapshotId"; "name"; "description"; "providerProfileId"; "createOperationId"]
      && isUuid (field "snapshotId" d)
      && stringInRange (field "name" d) 1 63
      && optional (field "description" d) (λ c, stringInRange c 0 256)
      && snapshotRouting d
  end.

Definition isSnapshotActionRequestedV1 (v : record) (schema : string) : bool :=
  headed_snapshot v schema &&
  match objectValue v.(data) with
  | None => false
  | Some d =>
      onlyKeys d ["snapshotId"; "providerSnapshotReference"; "providerProfileId"; "createOperationId"]
      && isUuid (field "snapshotId" d)
      && stringInRange (field "providerSnapshotReference" d) 1 128
      && snapshotRouting d
  end.

Section dates.
(** [Number.isFinite(Date.parse(text))]. *)
Variable dateParses : string → bool.

Definition dateTime (v : json) : bool := match v with JStr s => dateParses s | _ => false end.

Definition isInstanceRetentionRequestedV1 (v : record) : bool :=
  headed v "instance.retention.requested" &&
  match objectValue v.(data) with
  | None => false
  | Some d =>
      onlyKeys d ["retentionDeadline"; "leaseReleaseMode"; "providerProfileId"; "createOperationId"]
      && dateTime (field "retentionDeadline" d)
      && includes_text (field "leaseReleaseMode" d) ["quarantine_until_purge"; "release_on_retain"]
      && snapshotRouting d
  end.

Definition isInstancePurgeRequestedV1 (v : record) : bool :=
  headed v "instance.purge.requested" &&
  match objectValue v.(data) with
  | None => false
  | Some d =>
      onlyKeys d ["purgeAuthorizationId"; "retentionDeadline"; "reasonReference"; "providerProfileId";
                  "createOperationId"]
      && isUuid (field "purgeAuthorizationId" d)
      && dateTime (field "retentionDeadline" d)
      && isUuid (field "reasonReference" d)
      && snapshotRouting d
  end.

(** ** Events *)

Definition isProvisioningReplayResolvedV1 (v : record) : bool :=
  headed v "provisioning.replay.resolved" &&
  match objectValue v.(data) with
  | None => false
  | Some d =>
      onlyKeys d ["replayRequestId"; "originalEventId"; "outcome"; "replayGeneration"; "resolvedAt"]
      && isUuid (field "replayRequestId" d)
      && isUuid (field "originalEventId" d)
      && match field "outcome" d with
         | JStr s => String.eqb s "completed" || String.eqb s "rejected"
         | _ => false
         end
      && match field "replayGeneration" d with JNum n => isSafeInteger n && (0 <=? n) | _ => false end
      && dateTime (field "resolvedAt" d)
  end.

Definition isProvisioningReplayRequestedV1 (v : record) : bool :=
  headed v "provisioning.replay.requested" &&
  match objectValue v.(data) with
  | None => false
  | Some d =>
      onlyKeys d ["replayRequestId"; "originalEventId"; "requestedAt"]
      && isUuid (field "replayRequestId" d)
      && isUuid (field "originalEventId" d)
      && dateTime (field "requestedAt" d)
  end.

Definition isWorkflowProgressedV1 (v : record) : bool :=
  headed v "workflow.progressed" &&
  match objectValue v.(data) with
  | None => false
  | Some d =>
      onlyKeys d ["stage"; "attempt"; "operationState"; "providerTaskReference"; "nextActionAt"]
      && stringInRange (field "stage" d) 1 80
      && positiveInteger (field "attempt" d)
      && includes_text (field "operationState" d) ["running"; "retry_wait"; "compensating"; "unknown_outcome"]
      && optional (field "providerTaskReference" d) (λ c, stringInRange c 0 256)
      && optional (field "nextActionAt" d) dateTime
  end.

Definition isObservedState (v : json) : bool :=
  match objectValue v with
  | None => false
  | Some o =>
      onlyKeys o ["exists"; "powerState"; "resources"; "markerMatch"; "observedAt"]
      && isBoolean (field "exists" o)
      && includes_text (field "powerState" o) ["running"; "stopped"; "suspended"; "unknown"]
      && isBoolean (field "markerMatch" o)
      && dateTime (field "observedAt" o)
      && optional (field "resources" o) (λ c,
           match objectValue c with Some r => sizing_object r | None => false end)
  end.

Definition isInstanceMutationCompletedV1 (v : record) : bool :=
  headed v "instance.mutation.completed" &&
  match objectValue v.(data) with
  | None => false
  | Some d =>
      onlyKeys d ["action"; "lifecycleState"; "providerResourceId"; "evidenceId"; "observed"]
      && isWorkflowAction (field "action" d)
      && isInstanceLifecycleState (field "lifecycleState" d)
      && optional (field "providerResourceId" d) (λ c, stringInRange c 1 128)
      && isUuid (field "evidenceId" d)
      && optional (field "observed" d) isObservedState
  end.

Definition isInstanceMutationFailedV1 (v : record) : bool :=
  headed v "instance.mutation.failed" &&
  match objectValue v.(data) with
  | None => false
  | Some d =>
      onlyKeys d ["action"; "failure"; "compensationState"]
      && isWorkflowAction (field "action" d)
      && failureObject (field "failure" d)
      && includes_text (field "compensationState" d)
           ["not_required"; "pending"; "succeeded"; "failed"; "unsafe"]
  end.

Definition isProvisioningDeadLetteredV1 (v : record) : bool :=
  headed v "provisioning.dead_lettered" &&
  match objectValue v.(data) with
  | None => false
  | Some d =>
      onlyKeys d ["originalEventId"; "originalSchemaName"; "originalSchemaVersion"; "failure";
                  "attempts"; "replayAllowed"; "deadLetteredAt"]
      && isUuid (field "originalEventId" d)
      && stringInRange (field "originalSchemaName" d) 1 120
      && positiveInteger (field "originalSchemaVersion" d)
      && failureObject (field "failure" d)
      && positiveInteger (field "attempts" d)
      && isBoolean (field "replayAllowed" d)
      && dateTime (field "deadLetteredAt" d)
  end.

(** ** The validator of each action ([workflow-store.ts]) *)

Definition COMMAND_VALIDATORS (a : WorkflowAction) (v : record) : bool :=
  match a with
  | create_instance => isInstanceCreateRequestedV1 v
  | power_instance => isInstancePowerRequestedV1 v
  | resize_instance => isInstanceResizeRequestedV1 v
  | create_snapshot => isSnapshotCreateRequestedV1 v
  | rollback_snapshot => isSnapshotActionRequestedV1 v "snapshot.rollback.requested"
  | delete_snapshot => isSnapshotActionRequestedV1 v "snapshot.delete.requested"
  | retain_instance => isInstanceRetentionRequestedV1 v
  | purge_instance => isInstancePurgeRequestedV1 v
  | reconcile_instance => false
  end.
End dates.

Definition workflowActionForSchema (schema : string) : option WorkflowAction :=
  lookup_text schema
    [ ("instance.create.requested", create_instance); ("instance.power.requested", power_instance);
      ("instance.resize.requested", resize_instance); ("snapshot.create.requested", create_snapshot);
      ("snapshot.rollback.requested", rollback_snapshot); ("snapshot.delete.requested", delete_snapshot);
      ("instance.retention.requested", retain_instance); ("instance.purge.requested", purge_instance) ].

(** ** Decoding a narrowed payload *)

Definition as_string (v : json) : option string := match v with JStr s => Some s | _ => None end.
Definition as_number (v : json) : option Z := match v with JNum n => Some n | _ => None end.

Definition decode_sizing (v : json) : option Sizing :=
  o ← objectValue v;
  cpu ← as_number (field "cpuCount" o);
  memory ← as_number (field "memoryMiB" o);
  disk ← as_number (field "diskGiB" o);
  Some {| cpuCount := cpu; memoryMiB := memory; diskGiB := disk |}.

Definition decode_ipv4 (v : json) : option Ipv4Configuration :=
  o ← objectValue v;
  a ← as_string (field "address" o);
  p ← as_number (field "prefixLength" o);
  g ← as_string (field "gateway" o);
  l ← isArray (field "dnsServers" o);
  servers ← mapM as_string l;
  Some {| address := a; prefixLength := p; ipv4_gateway := g; dnsServers := servers |}.

(** An optional array of strings: absent or present. *)
Definition decode_keys (v : json) : option (option (list string)) :=
  if is_undefined v then Some None
  else l ← isArray v; Some <$> mapM as_string l.

(** The typed create payload of a JSON value, read without coercion. *)
Definition decode_create (v : json) : option CreateData :=
  o ← objectValue v;
  image ← as_string (field "imageId" o);
  flavor ← as_string (field "flavorId" o);
  network ← as_string (field "networkId" o);
  profile ← as_string (field "providerProfileId" o);
  host ← as_string (field "hostname" o);
  resources ← decode_sizing (field "resources" o);
  ipv4 ← decode_ipv4 (field "ipv4" o);
  keys ← decode_keys (field "sshPublicKeys" o);
  Some {| create_imageId := image; create_flavorId := flavor; create_networkId := network;
          create_providerProfileId := profile; create_hostname := host; create_resources := resources;
          create_ipv4 := ipv4; create_sshPublicKeys := keys |}.

(** The typed power payload, read without coercion. *)
Definition decode_power (v : json) : option PowerData :=
  o ← objectValue v;
  text ← as_string (field "action" o);
  a ← lookup_text text POWER_ACTIONS;
  profile ← as_string (field "providerProfileId" o);
  created ← as_string (field "createOperationId" o);
  Some {| power_action := a; power_providerProfileId := profile; power_createOperationId := created |}.

(** The bounds an admitted sizing satisfies. *)
Definition sizing_bounds (s : Sizing) : Prop :=
  1 ≤ s.(cpuCount) ≤ 64 ∧ 512 ≤ s.(memoryMiB) ≤ 262144 ∧ 8 ≤ s.(diskGiB) ≤ 2048.

Record create_bounds (d : CreateData) : Prop := {
  cb_resources : sizing_bounds d.(create_resources);
  cb_address : is_Some (strictIpv4 d.(create_ipv4).(address));
  cb_gateway : is_Some (strictIpv4 d.(create_ipv4).(ipv4_gateway));
  cb_prefix : 1 ≤ d.(create_ipv4).(prefixLength) ≤ 32;
  cb_servers : Forall (λ s, is_Some (strictIpv4 s)) d.(create_ipv4).(dnsServers)
    ∧ NoDup d.(create_ipv4).(dnsServers) ∧ 1 ≤ Z.of_nat (List.length d.(create_ipv4).(dnsServers)) ≤ 4;
  cb_keys : ∀ l, d.(create_sshPublicKeys) = Some l →
    NoDup l ∧ Z.of_nat (List.length l) ≤ 5 ∧ Forall (λ k, 32 ≤ js_length k ≤ 8192) l;
}.

(** ** Lemmas *)

Lemma as_string_Some (v : json) (s : string) : as_string v = Some s ↔ v = JStr s.
Proof. destruct v; simpl; naive_solver. Qed.

Lemma stringInRange_Some (v : json) (a b : Z) :
  stringInRange v a b = true → ∃ s, v = JStr s ∧ a ≤ js_length s ≤ b.
Proof. destruct v; simpl; try done. intros. unbool. eauto. Qed.

Lemma integerInRange_Some (v : json) (a b : Z) :
  integerInRange v a b = true → ∃ n, v = JNum n ∧ a ≤ n ≤ b.
Proof. destruct v; simpl; try done. intros. unbool. eauto. Qed.

Lemma sizing_object_decodes (o : object) :
  sizing_object o = true → ∃ s, decode_sizing (JObj o) = Some s ∧ sizing_bounds s.
Proof.
  unfold sizing_object. intros H. unbool.
  destruct (integerInRange_Some _ _ _ H1) as (m & Hm & ?), (integerInRange_Some _ _ _ H2) as (c & Hc & ?),
    (integerInRange_Some _ _ _ H0) as (d & Hd & ?).
  unfold decode_sizing. simpl. rewrite Hc, Hm, Hd. simpl. eexists. split; [done|]. done.
Qed.

(** The guard's octet test and the allocator's parser agree. *)
Lemma accumulate_octets (l : list string) (acc : Z) :
  is_Some (accumulate l acc) ↔
    forallb (λ o, octetPattern o && (0 <=? digits_value 10 (chars o)) && (digits_value 10 (chars o) <=? 255)) l
    = true.
Proof.
  revert acc. induction l as [|o l IH]; intros acc; simpl; [split; [done|by eexists]|].
  destruct (octetPattern o) eqn:Ho; simpl; [|split; [by intros [? ?]|done]].
  destruct (octet_canonical o Ho) as [_ Hnn].
  replace (0 <=? digits_value 10 (chars o)) with true by (symmetry; by apply Z.leb_le).
  rewrite andb_true_l. destruct (255 <? digits_value 10 (chars o)) eqn:E; unbool.
  - replace (digits_value 10 (chars o) <=? 255) with false by (symmetry; apply Z.leb_gt; lia).
    split; [by intros [? ?]|done].
  - replace (digits_value 10 (chars o) <=? 255) with true by (symmetry; apply Z.leb_le; lia). apply IH.
Qed.

Lemma ipv4Address_strict (s : string) : ipv4Address (JStr s) = true ↔ is_Some (strictIpv4 s).
Proof.
  unfold ipv4Address, strictIpv4. destruct (Nat.eqb_spec (List.length (split_on "." s)) 4) as [E|E].
  - rewrite E. simpl. by rewrite accumulate_octets.
  - replace (Z.of_nat (List.length (split_on "." s)) =? 4) with false by (symmetry; apply Z.eqb_neq; lia).
    simpl. split; [done|by intros [? ?]].
Qed.

Lemma ipv4Address_Some (v : json) : ipv4Address v = true → ∃ s, v = JStr s ∧ is_Some (strictIpv4 s).
Proof. intros H. destruct v; try done. eexists. split; [done|]. by apply ipv4Address_strict. Qed.

(** An array all of whose members are strings with a property. *)
Lemma string_array (l : list json) (p : json → bool) (P : string → Prop) :
  (∀ v, p v = true → ∃ s, v = JStr s ∧ P s) → forallb p l = true →
  ∃ ss, mapM as_string l = Some ss ∧ map json_text l = ss ∧ Forall P ss.
Proof.
  intros Hp. induction l as [|v l IH]; simpl; intros H.
  - exists []. done.
  - unbool. destruct (Hp v) as (s & -> & Hs); [done|]. destruct IH as (ss & Hm & Ht & HP); [done|].
    exists (s :: ss). simpl. rewrite Hm, Ht. simpl. split_and!; [done|done|by constructor].
Qed.

(** Every action's validator admits only records of that action's schema. *)
Lemma validator_schema (dateParses : string → bool) (a : WorkflowAction) (v : record) :
  COMMAND_VALIDATORS dateParses a v = true →
  workflowActionForSchema v.(envelope).(schemaName) = Some a.
Proof.
  assert (Hh : ∀ s, headed v s = true → v.(envelope).(schemaName) = s) by
    (unfold headed; intros s H; by unbool).
  assert (Hs : ∀ s, headed_snapshot v s = true → v.(envelope).(schemaName) = s) by
    (unfold headed_snapshot; intros s H; by unbool).
  destruct a; simpl; try done; intros H;
    unfold isInstanceCreateRequestedV1, isInstancePowerRequestedV1, isSnapshotCreateRequestedV1,
      isSnapshotActionRequestedV1, isInstanceRetentionRequestedV1, isInstancePurgeRequestedV1,
      isInstanceResizeRequestedV1 in H;
    try (destruct (objectValue (data v)); [|done]).
  all: repeat match goal with H : _ && _ = true |- _ => apply andb_prop in H as [H _] end.
  all: first [apply Hh in H|apply Hs in H]; by rewrite H.
Qed.

Lemma servers_decode (l : list json) :
  (1 <=? Z.of_nat (List.length l)) && (Z.of_nat (List.length l) <=? 4)
    && forallb ipv4Address l && unique_strings l = true →
  ∃ ss, mapM as_string l = Some ss ∧ Forall (λ s, is_Some (strictIpv4 s)) ss ∧ NoDup ss
    ∧ 1 ≤ Z.of_nat (List.length ss) ≤ 4.
Proof.
  intros H. unbool.
  destruct (string_array l ipv4Address (λ s, is_Some (strictIpv4 s)) ipv4Address_Some) as (ss & Hm & Ht & HP);
    [done|].
  exists ss. split_and!; [done|done| | |].
  - unfold unique_strings in *. rewrite Ht in *. by apply unique_NoDup.
  - apply length_mapM in Hm. lia.
  - apply length_mapM in Hm. lia.
Qed.

Lemma keys_decode (v : json) :
  is_undefined v
    || match isArray v with
       | Some keys =>
           (Z.of_nat (List.length keys) <=? 5) && forallb (λ k, stringInRange k 32 8192) keys
           && unique_strings keys
       | None => false
       end = true →
  ∃ ks, decode_keys v = Some ks ∧ ∀ l, ks = Some l →
    NoDup l ∧ Z.of_nat (List.length l) ≤ 5 ∧ Forall (λ k, 32 ≤ js_length k ≤ 8192) l.
Proof.
  unfold decode_keys. destruct (is_undefined v); simpl; [intros _; exists None; split; done|].
  destruct (isArray v) as [l|]; [|done]. simpl. intros H. unbool.
  destruct (string_array l (λ k, stringInRange k 32 8192) (λ k, 32 ≤ js_length k ≤ 8192)) as (ss & Hm & Ht & HP).
  - intros x Hx. by apply stringInRange_Some.
  - done.
  - exists (Some ss). rewrite Hm. split; [done|]. intros ? [= <-]. split_and!; [|apply length_mapM in Hm; lia|done].
    unfold unique_strings in *. rewrite Ht in *. by apply unique_NoDup.
Qed.

Lemma ipv4_decodes (o : object) :
  onlyKeys o ["address"; "prefixLength"; "gateway"; "dnsServers"]
    && ipv4Address (field "address" o) && integerInRange (field "prefixLength" o) 1 32
    && ipv4Address (field "gateway" o)
    && match isArray (field "dnsServers" o) with
       | Some servers =>
           (1 <=? Z.of_nat (List.length servers)) && (Z.of_nat (List.length servers) <=? 4)
           && forallb ipv4Address servers && unique_strings servers
       | None => false
       end = true →
  ∃ c, decode_ipv4 (JObj o) = Some c
    ∧ is_Some (strictIpv4 c.(address)) ∧ is_Some (strictIpv4 c.(ipv4_gateway)) ∧ 1 ≤ c.(prefixLength) ≤ 32
    ∧ Forall (λ s, is_Some (strictIpv4 s)) c.(dnsServers) ∧ NoDup c.(dnsServers)
    ∧ 1 ≤ Z.of_nat (List.length c.(dnsServers)) ≤ 4.
Proof.
  intros H. apply andb_prop in H as [H Hs]. apply andb_prop in H as [H Hg].
  apply andb_prop in H as [H Hp]. apply andb_prop in H as [_ Ha].
  destruct (ipv4Address_Some _ Ha) as (a & Ea & ?), (ipv4Address_Some _ Hg) as (g & Eg & ?),
    (integerInRange_Some _ _ _ Hp) as (p & Ep & ?).
  destruct (isArray (field "dnsServers" o)) as [l|] eqn:El; [|done].
  destruct (servers_decode l Hs) as (ss & Hm & HF & Hnd & Hlen).
  unfold decode_ipv4. simpl. rewrite Ea, Ep, Eg, El. simpl. rewrite Hm. simpl.
  eexists. split; [done|]. simpl. done.
Qed.

(** ** Properties *)

(** C40: The create guard narrows soundly.  Every record it accepts carries a
    payload that decodes, without coercion, to a typed create command within
    the contract's bounds: sizing in range, an address, gateway and one to
    four distinct DNS servers that are canonical IPv4 quads, a prefix of 1 to
    32, and at most five distinct SSH keys of 32 to 8192 characters. *)
Theorem create_guard_sound (v : record) (H : isInstanceCreateRequestedV1 v = true) :
  ∃ d, decode_create v.(data) = Some d ∧ create_bounds d.
Proof.
  unfold isInstanceCreateRequestedV1 in H. apply andb_prop in H as [_ H].
  destruct v as [e v]. simpl in *. destruct v as [| | | | | | |o]; try done. simpl in H.
  apply andb_prop in H as [H Hrest]. 
  apply andb_prop in H as [H Hhost]. apply andb_prop in H as [H Hprofile].
  apply andb_prop in H as [H Hnetwork]. apply andb_prop in H as [H Hflavor].
  apply andb_prop in H as [_ Himage].
  destruct (objectValue (field "resources" o)) as [r|] eqn:Er; [|done].
  destruct (objectValue (field "ipv4" o)) as [i|] eqn:Ei; [|done].
  apply andb_prop in Hrest as [Hrest Hkeys]. rewrite <- !andb_assoc in Hrest.
  apply andb_prop in Hrest as [Hsizing Hipv4]. rewrite !andb_assoc in Hipv4.
  destruct (sizing_object_decodes r Hsizing) as (s & Es & Hb).
  destruct (ipv4_decodes i Hipv4) as (c & Ec & Hc).
  destruct (keys_decode _ Hkeys) as (ks & Ek & Hk).
  destruct (stringInRange_Some _ _ _ Himage) as (x1 & E1 & _), (stringInRange_Some _ _ _ Hflavor) as (x2 & E2 & _),
    (stringInRange_Some _ _ _ Hnetwork) as (x3 & E3 & _), (stringInRange_Some _ _ _ Hprofile) as (x4 & E4 & _),
    (stringInRange_Some _ _ _ Hhost) as (x5 & E5 & _).
  assert (Er' : field "resources" o = JObj r) by (destruct (field "resources" o); simpl in Er; congruence).
  assert (Ei' : field "ipv4" o = JObj i) by (destruct (field "ipv4" o); simpl in Ei; congruence).
  unfold decode_create. simpl. rewrite E1, E2, E3, E4, E5, Er', Es, Ei', Ec, Ek. simpl.
  eexists. split; [done|]. destruct Hc as (? & ? & ? & ? & ? & ?). split; simpl; done.
Qed.

Definition sample_uuid : string := "00000000-0000-4000-8000-000000000001".
Definition sample_record (schema : string) (d : json) : record :=
  {| envelope :=
       {| eventId := sample_uuid; schemaName := schema; schemaVersion := 1; aggregateType := "instance";
          aggregateId := sample_uuid; projectId := sample_uuid; operationId := sample_uuid;
          correlationId := sample_uuid; causationId := sample_uuid; occurredAt := 0;
          traceContext := {| traceparent := "00"; tracestate := None |}; partitionKey := sample_uuid |};
     data := d |}.
Definition sample_create_record : record :=
  sample_record "instance.create.requested"
    (JObj [("imageId", JStr "debian-12"); ("flavorId", JStr "small"); ("networkId", JStr "lab");
           ("providerProfileId", JStr "fake"); ("hostname", JStr "web1");
           ("resources", JObj [("cpuCount", JNum 2); ("memoryMiB", JNum 2048); ("diskGiB", JNum 20)]);
           ("ipv4", JObj [("address", JStr "192.0.2.10"); ("prefixLength", JNum 24);
                          ("gateway", JStr "192.0.2.1"); ("dnsServers", JArr [JStr "192.0.2.53"])])]).

Lemma create_guard_sound_witness :
  isInstanceCreateRequestedV1 sample_create_record = true
  ∧ ∃ d, decode_create sample_create_record.(data) = Some d ∧ create_bounds d.
Proof.
  assert (H : isInstanceCreateRequestedV1 sample_create_record = true) by (vm_compute; reflexivity).
  split; [exact H|exact (create_guard_sound sample_create_record H)].
Defined.

(** The power guard does not narrow soundly: its [String(...)] coercion
    accepts an array that holds one action name, such as [["stop"]], a payload
    that is not a power command, and that the executor's comparisons with
    'start', 'shutdown' and 'stop' all miss, leaving [rebootInstance]. *)
Theorem power_guard_accepts_array :
  let v := sample_record "instance.power.requested"
             (JObj [("action", JArr [JStr "stop"]); ("providerProfileId", JStr "fake");
                    ("createOperationId", JStr sample_uuid)]) in
  isInstancePowerRequestedV1 v = true ∧ decode_power v.(data) = None
  ∧ workflowActionForSchema v.(envelope).(schemaName) = Some power_instance.
Proof. vm_compute. repeat split. Qed.

(** A command is validated by the contract of its own action: whatever the
    payload claims, the validator of an action accepts only records whose
    schema name the admission maps to that same action, so no two actions'
    validators accept one record and a stored payload cannot nominate another
    contract. *)
Theorem validators_follow_action (dateParses : string → bool) (a b : WorkflowAction) (v : record)
    (Ha : COMMAND_VALIDATORS dateParses a v = true) :
  workflowActionForSchema v.(envelope).(schemaName) = Some a
  ∧ (COMMAND_VALIDATORS dateParses b v = true → a = b).
Proof.
  split; [by eapply validator_schema|]. intros Hb.
  apply validator_schema in Ha, Hb. congruence.
Qed.

Lemma validators_follow_action_witness :
  COMMAND_VALIDATORS (λ _, true) create_instance sample_create_record = true
  ∧ workflowActionForSchema sample_create_record.(envelope).(schemaName) = Some create_instance.
Proof.
  assert (H : COMMAND_VALIDATORS (λ _, true) create_instance sample_create_record = true)
    by (vm_compute; reflexivity).
  split; [exact H|].
  exact (proj1 (validators_follow_action (λ _, true) create_instance create_instance sample_create_record H)).
Defined.
