(* ===== verification/Platform.v ===== *)
(** * The platform the stores run on

    What the stores use of the runtime and of Node's [crypto]: collation,
    SHA-256, date text, and fresh identifiers; the hash of a record; and the
    audit envelope and trace carrier shared by the stores
    ([audit-event.ts], [trace-carrier.ts]). *)
From S2P Require Import Prelude JsText Json SshKey Domain Ipv4 WorkflowStage Events EventValidation.
From Stdlib Require Import ZArith Lia Bool Ascii String.
From stdpp Require Import base decidable list strings.
Open Scope string_scope.
Open Scope Z_scope.

Class Platform : Type := {
  localeBefore : string → string → bool;
  sha256 : string → string;
  toISOString : Z → string;
  dateParses : string → bool;
  (** Whether the query builder's [executeTakeFirstOrThrow] throws when an
      UPDATE without RETURNING matched no row. *)
  zeroRowUpdateThrows : bool;
}.

(** A concrete platform: code-unit collation, and encodings that are enough to
    evaluate the stores. *)
Definition sample_platform : Platform :=
  {| localeBefore := String.ltb; sha256 s := s; toISOString := string_of_Z; dateParses s := truthy s;
     zeroRowUpdateThrows := false |}.

(** The outcome of such an UPDATE that did or did not match a row. *)
Definition matched `{Platform} (row_found : bool) : bool := row_found || negb zeroRowUpdateThrows.

(** The two clocks of a store call ([now()] in the database, [new Date()] in
    the process) and its supply of random UUIDs. *)
Record Call : Type := {
  dbNow : Z;
  appNow : Z;
  uuid : nat → string;
}.

(** A call at one instant, with distinct identifiers. *)
Definition sample_call (t : Z) : Call :=
  {| dbNow := t; appNow := t; uuid n := string_of_Z t ++ "-" ++ string_of_Z (Z.of_nat n) |}.

Section records.
Context `{Platform}.

Definition trace_json (t : TraceContext) : json :=
  JObj (("traceparent", JStr t.(traceparent)) ::
        match t.(tracestate) with Some s => [("tracestate", JStr s)] | None => [] end).

(** The JSON form of a record. *)
Definition record_json (r : record) : json :=
  let e := r.(envelope) in
  JObj [("eventId", JStr e.(eventId)); ("schemaName", JStr e.(schemaName));
        ("schemaVersion", JNum e.(schemaVersion)); ("aggregateType", JStr e.(aggregateType));
        ("aggregateId", JStr e.(aggregateId)); ("projectId", JStr e.(projectId));
        ("operationId", JStr e.(operationId)); ("correlationId", JStr e.(correlationId));
        ("causationId", JStr e.(causationId)); ("occurredAt", JStr (toISOString e.(occurredAt)));
        ("traceContext", trace_json e.(traceContext)); ("partitionKey", JStr e.(partitionKey));
        ("data", r.(data))].

(** [canonicalSha256(event)]. *)
Definition payloadHash (r : record) : string :=
  canonicalSha256 localeBefore sha256 (record_json r).
End records.

(** ** Audit facts *)

Inductive AuditRole : Set := role_tenant_developer | role_platform_operator | role_platform_administrator | role_service.
Inductive AuditOutcome : Set := audit_accepted | audit_succeeded | audit_rejected | audit_failed.
#[export] Instance AuditRole_eq_dec : EqDecision AuditRole.
Proof. solve_decision. Defined.
#[export] Instance AuditOutcome_eq_dec : EqDecision AuditOutcome.
Proof. solve_decision. Defined.

Record AuditData : Set := {
  audit_actorId : string;
  audit_actorRole : AuditRole;
  audit_action : string;
  audit_targetType : string;
  audit_targetId : string;
  audit_outcome : AuditOutcome;
  audit_reasonReference : option string;
}.

(** [auditRecordedEvent]: the audit fact names itself as its aggregate. *)
Definition auditRecordedEvent (id project operation correlation causation : string) (at_ : Z)
    (trace : TraceContext) (d : AuditData) : Command AuditData :=
  {| envelope :=
       {| eventId := id; schemaName := "audit.recorded"; schemaVersion := 1; aggregateType := "audit";
          aggregateId := id; projectId := project; operationId := operation;
          correlationId := correlation; causationId := causation; occurredAt := at_;
          traceContext := trace; partitionKey := project |};
     data := {| audit_actorId := d.(audit_actorId); audit_actorRole := d.(audit_actorRole);
                audit_action := d.(audit_action); audit_targetType := d.(audit_targetType);
                audit_targetId := d.(audit_targetId); audit_outcome := d.(audit_outcome);
                audit_reasonReference := present d.(audit_reasonReference) |} |}.

(** ** The trace carrier of an outbox row *)

Definition escape_char (c : ascii) : string :=
  let u := unit_of c in
  if u =? 92 then "\\" else if u =? 13 then "\r" else if u =? 10 then "\n" else String c "".
Definition escape (s : string) : string :=
  List.fold_right (λ c acc, escape_char c ++ acc) "" (chars s).

Definition serializeDebeziumTraceContext (t : TraceContext) : string :=
  let fields := ("traceparent=" ++ escape t.(traceparent)) ::
                match present t.(tracestate) with Some s => ["tracestate=" ++ escape s] | None => [] end in
  join_with "010" fields ++ String "010" "".

(** ** Outbox rows *)

Inductive OutboxPayload : Type :=
| P_command (r : record)
| P_event (e : WorkflowEvent)
| P_audit (a : Command AuditData).

Definition payload_envelope (p : OutboxPayload) : EventEnvelope :=
  match p with P_command r => r.(envelope) | P_event e => e.(envelope) | P_audit a => a.(envelope) end.

Record OutboxRow : Type := {
  ob_outbox_id : string;
  ob_topic : string;
  ob_payload : OutboxPayload;
  ob_tracingspancontext : string;
  ob_replay_generation : Z;
  ob_occurred_at : Z;
}.

(** UNIQUE (event_id, replay_generation). *)
Definition outbox_key (r : OutboxRow) : string * Z :=
  ((payload_envelope r.(ob_payload)).(eventId), r.(ob_replay_generation)).


(** The coordinates of a Kafka delivery. *)
Record MessageDeliveryIdentity : Set := {
  topic : string;
  partition : Z;
  offset : string;
  replayGeneration : Z;
  outboxId : option string;
}.
Definition coordinates (d : MessageDeliveryIdentity) : string * Z * string :=
  (d.(topic), d.(partition), d.(offset)).
