(* ===== verification/JsonOrder.v ===== *)
(** * Member order does not matter

    PostgreSQL's [jsonb] does not keep the order of an object's members.  The
    accessors and guards of [event-validation.ts] give the same answer on
    values of the same content ([same_content]), and so does the payload hash. *)
From S2P Require Import Prelude JsText Json SshKey Domain Ipv4 WorkflowStage Events EventValidation Platform.
From Stdlib Require Import ZArith Lia Bool Ascii String Permutation.
From stdpp Require Import base decidable list strings.
Open Scope string_scope.
Open Scope Z_scope.

#[export] Instance same_content_refl : Reflexive same_content.
Proof. exact same_refl. Qed.

(** ** What shares content with an object, an array or a scalar *)

Lemma field_absent (k : string) (l : list (string * json)) : k ∉ map fst l → field k l = JUndefined.
Proof.
  intros Hk. unfold field. destruct (List.find _ l) as [[k' v]|] eqn:E; [|done].
  apply List.find_some in E as [Hin Hb]. cbn in Hb. unbool. subst. destruct Hk.
  apply list_elem_of_In, (list_elem_of_fmap_2 fst) in Hin. exact Hin.
Qed.

Lemma field_present (k : string) (v : json) (l : list (string * json)) :
  NoDup (map fst l) → (k, v) ∈ l → field k l = v.
Proof.
  unfold field. induction l as [|[k' v'] l IH]; cbn; [by intros _ ?%elem_of_nil|].
  intros [Hn Hnd]%NoDup_cons [[= <- <-]|Hin]%elem_of_cons; [by rewrite String.eqb_refl|].
  destruct (String.eqb_spec k' k) as [->|_]; [|by apply IH].
  destruct Hn. by apply (list_elem_of_fmap_2 fst) in Hin.
Qed.

Lemma field_permutation (k : string) (l l' : list (string * json)) :
  NoDup (map fst l) → l ≡ₚ l' → field k l = field k l'.
Proof.
  intros Hnd Hp. assert (Hnd' : NoDup (map fst l')) by (by rewrite <- Hp).
  destruct (decide (k ∈ map fst l)) as [Hin|Hn].
  - apply list_elem_of_fmap in Hin as ([k' v] & -> & Hin). cbn [fst].
    rewrite (field_present k' v l) by done. symmetry. apply field_present; [done|]. by rewrite <- Hp.
  - rewrite !field_absent; [done| |done]. by rewrite <- Hp.
Qed.

Lemma field_pointwise (k : string) (l l' : list (string * json)) :
  Forall2 (λ p q, fst p = fst q ∧ same_content (snd p) (snd q)) l l' → same_content (field k l) (field k l').
Proof.
  unfold field. induction 1 as [|[k1 v1] [k2 v2] l l' [Hk Hv] _ IH]; cbn in *; [reflexivity|]. subst.
  by destruct (String.eqb k2 k).
Qed.

(** Objects of the same content have the same members. *)
Record same_members (o o' : object) : Prop := {
  same_field k : same_content (field k o) (field k o');
  same_keys : map fst o ≡ₚ map fst o';
}.

Lemma same_object_inv (o : object) (v : json) : same_content (JObj o) v → ∃ o', v = JObj o' ∧ same_members o o'.
Proof.
  inversion 1 as [|?|l l' m Hnd Hp Hf]; subst.
  - exists o. split; [done|]. split; reflexivity.
  - exists l'. split; [done|]. split.
    + intros k. rewrite (field_permutation k o m) by done. by apply field_pointwise.
    + rewrite Hp. clear -Hf. induction Hf as [|p q l l' [Hk _] _ IH]; [done|]. cbn. by rewrite Hk, IH.
Qed.

Lemma same_array_inv (l : list json) (v : json) : same_content (JArr l) v → ∃ l', v = JArr l' ∧ Forall2 same_content l l'.
Proof.
  inversion 1; subst; [|by eexists]. exists l. split; [done|]. clear. induction l; constructor; [reflexivity|done].
Qed.

Lemma same_objectValue (v v' : json) : same_content v v' →
  (objectValue v = None ∧ objectValue v' = None)
  ∨ ∃ o o', v = JObj o ∧ v' = JObj o' ∧ same_members o o'.
Proof.
  intros H. destruct v as [| | | | | |l|o]; try (by inversion H; subst; left).
  apply same_object_inv in H as (o' & -> & Hm). right. by eexists _, _.
Qed.

(** ** Accessors and predicates *)

#[export] Instance stringInRange_same : Proper (same_content ==> eq ==> eq ==> eq) stringInRange.
Proof. intros v v' [] a ? <- b ? <-; reflexivity. Qed.
#[export] Instance integerInRange_same : Proper (same_content ==> eq ==> eq ==> eq) integerInRange.
Proof. intros v v' [] a ? <- b ? <-; reflexivity. Qed.
#[export] Instance isUuid_same : Proper (same_content ==> eq) isUuid.
Proof. intros v v' []; reflexivity. Qed.
#[export] Instance ipv4Address_same : Proper (same_content ==> eq) ipv4Address.
Proof. intros v v' []; reflexivity. Qed.
#[export] Instance is_undefined_same : Proper (same_content ==> eq) is_undefined.
Proof. intros v v' []; reflexivity. Qed.
#[export] Instance json_text_same : Proper (same_content ==> eq) json_text.
Proof. intros v v' []; reflexivity. Qed.
#[export] Instance dateTime_same (dateParses : string → bool) : Proper (same_content ==> eq) (dateTime dateParses).
Proof. intros v v' []; reflexivity. Qed.

(** [String(value)] is the same text. *)
Lemma js_String_same : ∀ v v', same_content v v' → js_String v = js_String v'.
Proof.
  fix IH 3. intros v v' [w|l l' Hl|l l' m _ _ _]; [reflexivity| |reflexivity]. cbn. f_equal.
  induction Hl as [|x y l l' Hxy _ IHl]; [reflexivity|]. cbn. f_equal; [|exact IHl].
  pose proof (IH _ _ Hxy) as Hs. destruct Hxy; cbn in *; [reflexivity|exact Hs|reflexivity].
Qed.
#[export] Instance includes_text_same : Proper (same_content ==> eq ==> eq) includes_text.
Proof. intros v v' Hv l ? <-. unfold includes_text. by rewrite (js_String_same v v' Hv). Qed.

Lemma forallb_permutation {A : Type} (p : A → bool) (l l' : list A) : l ≡ₚ l' → forallb p l = forallb p l'.
Proof.
  induction 1 as [|x l l' _ IH|x y l|l l' l'' _ IH1 _ IH2]; cbn; [done|by rewrite IH| |congruence].
  by rewrite !andb_assoc, (andb_comm (p y)).
Qed.

Lemma onlyKeys_same (o o' : object) (allowed : list string) : same_members o o' → onlyKeys o allowed = onlyKeys o' allowed.
Proof.
  intros Hm. unfold onlyKeys.
  assert (Hkeys : ∀ l : object, forallb (λ p, bool_decide (fst p ∈ allowed)) l = forallb (λ k, bool_decide (k ∈ allowed)) (map fst l))
    by (induction l as [|p l IH]; cbn; [done|by rewrite IH]).
  rewrite !Hkeys. apply forallb_permutation, same_keys, Hm.
Qed.

Lemma forallb_same (p : json → bool) (l l' : list json) :
  Proper (same_content ==> eq) p → Forall2 same_content l l' → forallb p l = forallb p l'.
Proof. intros Hp. induction 1 as [|x y l l' Hxy _ IH]; cbn; [done|]. by rewrite IH, (Hp x y Hxy). Qed.
Lemma unique_strings_same (l l' : list json) : Forall2 same_content l l' → unique_strings l = unique_strings l'.
Proof.
  intros Hl. unfold unique_strings. f_equal. induction Hl as [|x y l l' Hxy _ IH]; cbn; [done|].
  by rewrite IH, (json_text_same x y Hxy).
Qed.

(** ** Guards *)

(** Rewrites every member access of an object into one of its reordering. *)
Ltac reorder Hm :=
  rewrite ?(onlyKeys_same _ _ _ Hm);
  repeat match goal with
  | |- context [stringInRange (field ?k ?o) ?a ?b] => 
      match type of Hm with same_members o _ => rewrite (stringInRange_same _ _ (same_field _ _ Hm k) a a eq_refl b b eq_refl) end
  | |- context [integerInRange (field ?k ?o) ?a ?b] => 
      match type of Hm with same_members o _ => rewrite (integerInRange_same _ _ (same_field _ _ Hm k) a a eq_refl b b eq_refl) end
  | |- context [includes_text (field ?k ?o) ?l] => 
      match type of Hm with same_members o _ => rewrite (includes_text_same _ _ (same_field _ _ Hm k) l l eq_refl) end
  | |- context [isUuid (field ?k ?o)] =>
      match type of Hm with same_members o _ => rewrite (isUuid_same _ _ (same_field _ _ Hm k)) end
  | |- context [ipv4Address (field ?k ?o)] =>
      match type of Hm with same_members o _ => rewrite (ipv4Address_same _ _ (same_field _ _ Hm k)) end
  | |- context [is_undefined (field ?k ?o)] =>
      match type of Hm with same_members o _ => rewrite (is_undefined_same _ _ (same_field _ _ Hm k)) end
  | |- context [dateTime ?d (field ?k ?o)] =>
      match type of Hm with same_members o _ => rewrite (dateTime_same d _ _ (same_field _ _ Hm k)) end
  end.

Lemma sizing_object_same (o o' : object) : same_members o o' → sizing_object o = sizing_object o'.
Proof. intros Hm. unfold sizing_object. by reorder Hm. Qed.
Lemma snapshotRouting_same (o o' : object) : same_members o o' → snapshotRouting o = snapshotRouting o'.
Proof. intros Hm. unfold snapshotRouting. by reorder Hm. Qed.

(** Records that differ in the order of their payload's members. *)
Definition same_record (r r' : record) : Prop := r.(envelope) = r'.(envelope) ∧ same_content r.(data) r'.(data).

(** The guard of a payload that is an object. *)
Ltac same_guard :=
  let He := fresh in let Hd := fresh in let o := fresh "o" in let o' := fresh "o'" in let Hm := fresh "Hm" in
  intros [He Hd]; unfold headed, headed_snapshot; rewrite He;
  destruct (same_objectValue _ _ Hd) as [[-> ->]|(o & o' & -> & -> & Hm)]; [done|]; cbn [objectValue];
  unfold optional; cbv beta; reorder Hm; rewrite ?(snapshotRouting_same _ _ Hm).

Lemma power_same (r r' : record) : same_record r r' → isInstancePowerRequestedV1 r = isInstancePowerRequestedV1 r'.
Proof. unfold isInstancePowerRequestedV1. by same_guard. Qed.
Lemma snapshot_create_same (r r' : record) : same_record r r' → isSnapshotCreateRequestedV1 r = isSnapshotCreateRequestedV1 r'.
Proof. unfold isSnapshotCreateRequestedV1. by same_guard. Qed.
Lemma snapshot_action_same (r r' : record) (schema : string) :
  same_record r r' → isSnapshotActionRequestedV1 r schema = isSnapshotActionRequestedV1 r' schema.
Proof. unfold isSnapshotActionRequestedV1. by same_guard. Qed.
Lemma retention_same (dateParses : string → bool) (r r' : record) :
  same_record r r' → isInstanceRetentionRequestedV1 dateParses r = isInstanceRetentionRequestedV1 dateParses r'.
Proof. unfold isInstanceRetentionRequestedV1. by same_guard. Qed.
Lemma purge_same (dateParses : string → bool) (r r' : record) :
  same_record r r' → isInstancePurgeRequestedV1 dateParses r = isInstancePurgeRequestedV1 dateParses r'.
Proof. unfold isInstancePurgeRequestedV1. by same_guard. Qed.

(** A member that is itself an object. *)
Lemma same_field_object (o o' : object) (k : string) : same_members o o' →
  (objectValue (field k o) = None ∧ objectValue (field k o') = None)
  ∨ ∃ x x', objectValue (field k o) = Some x ∧ objectValue (field k o') = Some x' ∧ same_members x x'.
Proof.
  intros Hm. destruct (same_objectValue _ _ (same_field _ _ Hm k)) as [|(x & x' & -> & -> & Hx)]; [by left|right; by exists x, x'].
Qed.
Lemma same_field_array (o o' : object) (k : string) : same_members o o' →
  (isArray (field k o) = None ∧ isArray (field k o') = None)
  ∨ ∃ l l', isArray (field k o) = Some l ∧ isArray (field k o') = Some l' ∧ Forall2 same_content l l'.
Proof.
  intros Hm. pose proof (same_field _ _ Hm k) as Hf. destruct (isArray (field k o)) as [l|] eqn:E.
  - right. destruct (field k o); try done. injection E as ->. apply same_array_inv in Hf as (l' & -> & Hl). by exists l, l'.
  - left. split; [done|]. destruct Hf; [done|discriminate|done].
Qed.

Lemma resize_same (r r' : record) : same_record r r' → isInstanceResizeRequestedV1 r = isInstanceResizeRequestedV1 r'.
Proof.
  unfold isInstanceResizeRequestedV1. same_guard.
  destruct (same_field_object _ _ "targetResources" Hm) as [[-> ->]|(x & x' & -> & -> & Hx)]; [done|].
  by rewrite (sizing_object_same _ _ Hx).
Qed.

Lemma create_same (r r' : record) : same_record r r' → isInstanceCreateRequestedV1 r = isInstanceCreateRequestedV1 r'.
Proof.
  unfold isInstanceCreateRequestedV1. same_guard.
  destruct (same_field_object _ _ "resources" Hm) as [[-> ->]|(x & x' & -> & -> & Hx)]; [done|].
  destruct (same_field_object _ _ "ipv4" Hm) as [[-> ->]|(y & y' & -> & -> & Hy)]; [done|].
  rewrite (sizing_object_same _ _ Hx). reorder Hy.
  assert (Hservers : ∀ l l', Forall2 same_content l l' →
    (1 <=? Z.of_nat (List.length l)) && (Z.of_nat (List.length l) <=? 4) && forallb ipv4Address l && unique_strings l
    = (1 <=? Z.of_nat (List.length l')) && (Z.of_nat (List.length l') <=? 4) && forallb ipv4Address l' && unique_strings l').
  { intros l l' Hl. by rewrite (Forall2_length _ _ _ Hl), (forallb_same ipv4Address l l' _ Hl), (unique_strings_same _ _ Hl). }
  assert (Hkeys : ∀ l l', Forall2 same_content l l' →
    (Z.of_nat (List.length l) <=? 5) && forallb (λ k, stringInRange k 32 8192) l && unique_strings l
    = (Z.of_nat (List.length l') <=? 5) && forallb (λ k, stringInRange k 32 8192) l' && unique_strings l').
  { intros l l' Hl. assert (Proper (same_content ==> eq) (λ k, stringInRange k 32 8192)) by (intros v v' Hv; by rewrite Hv).
    by rewrite (Forall2_length _ _ _ Hl), (forallb_same _ l l' _ Hl), (unique_strings_same _ _ Hl). }
  destruct (same_field_array _ _ "dnsServers" Hy) as [[-> ->]|(l & l' & -> & -> & Hl)]; [|rewrite (Hservers _ _ Hl)];
    (destruct (same_field_array _ _ "sshPublicKeys" Hm) as [[-> ->]|(k & k' & -> & -> & Hk)]; [done|by rewrite (Hkeys _ _ Hk)]).
Qed.

(** So the orchestrator admits a command whatever order its members are in. *)
Lemma COMMAND_VALIDATORS_same (dateParses : string → bool) (a : WorkflowAction) (r r' : record) :
  same_record r r' → COMMAND_VALIDATORS dateParses a r = COMMAND_VALIDATORS dateParses a r'.
Proof.
  intros Hr. destruct a; cbn [COMMAND_VALIDATORS];
    auto using create_same, power_same, resize_same, snapshot_create_same, snapshot_action_same, retention_same, purge_same.
Qed.
