(* ===== verification/MessageCodec.v ===== *)
(** * Decoding Kafka records

    [packages/messaging/src/message-codec.ts]: the trust boundary every record
    crosses before a handler sees it.  A [Buffer] is a list of bytes; its text
    ([toString('utf8')]) and [Date.parse] are parameters. *)
From S2P Require Import Prelude JsText Json SshKey Domain WorkflowStage Events EventValidation Platform JsonParse.
From Stdlib Require Import ZArith Lia Bool Ascii String Init.Byte.
From stdpp Require Import base decidable list strings gmap.
Open Scope string_scope.
Open Scope Z_scope.
Open Scope prog_scope.

Abbreviation Buffer := (list Byte.byte).

Class Runtime : Type := {
  (** [buffer.toString('utf8')]. *)
  utf8_text : Buffer → string;
  (** [Date.parse(text)]; [None] is [NaN]. *)
  Date_parse : string → option Z;
  (** [createHash('sha256').update(buffer).digest('hex')]. *)
  sha256_bytes : Buffer → string;
}.

(** ** Errors *)

Inductive DecodeCode : Set :=
| EMPTY_VALUE | INVALID_JSON | INVALID_ENVELOPE | INVALID_TRANSPORT_METADATA | INVALID_REPLAY_GENERATION.
#[export] Instance DecodeCode_eq_dec : EqDecision DecodeCode.
Proof. solve_decision. Defined.
Definition decode_code_text (c : DecodeCode) : string :=
  match c with
  | EMPTY_VALUE => "EMPTY_VALUE" | INVALID_JSON => "INVALID_JSON" | INVALID_ENVELOPE => "INVALID_ENVELOPE"
  | INVALID_TRANSPORT_METADATA => "INVALID_TRANSPORT_METADATA"
  | INVALID_REPLAY_GENERATION => "INVALID_REPLAY_GENERATION"
  end.

(** What a handler throws: the two governed classes, or anything else. *)
Inductive thrown : Type :=
| MessageDecodeError (c : DecodeCode)
| PermanentMessageError (code : string)
| Other (e : error).

(** ** Transport metadata *)



(** [^(0|[1-9][0-9]* )$]. *)
Definition generation_digits (s : string) : bool :=
  match chars s with
  | [] => false
  | c :: r => is_digit c && forallb is_digit r && (negb (is_char "0" c) || Nat.eqb (List.length r) 0)
  end.
Definition decodeReplayGeneration (value : option string) : result thrown Z :=
  match value with
  | None => Ok 0
  | Some text =>
      ensure? generation_digits text && (js_length text <=? 16) else MessageDecodeError INVALID_REPLAY_GENERATION;
      match Number_integer text with
      | Some n => if isSafeInteger n then Ok n else Err (MessageDecodeError INVALID_REPLAY_GENERATION)
      | None => Err (MessageDecodeError INVALID_REPLAY_GENERATION)
      end
  end.

Definition decodeOutboxId (value : option string) : result thrown string :=
  match present value with
  | Some text => if uuidPattern text then Ok text else Err (MessageDecodeError INVALID_TRANSPORT_METADATA)
  | None => Err (MessageDecodeError INVALID_TRANSPORT_METADATA)
  end.

(** ** The envelope *)

Definition boundedString (v : json) (maximumLength : Z) : bool :=
  match v with JStr s => (1 <=? js_length s) && (js_length s <=? maximumLength) | _ => false end.

Definition is_lower_hex (c : ascii) : bool := is_digit c || in_range 97 102 c.
Definition lower_hex_digits (n : nat) (s : string) : bool := Nat.eqb (String.length s) n && all_chars is_lower_hex s.
(** [^0+$] on a text that is not empty. *)
Definition all_zero (s : string) : bool := all_chars (is_char "0") s.
(** The pattern of a traceparent, with its trace and span identities. *)
Definition traceparentPattern (s : string) : option (string * string) :=
  match split_on "-" s with
  | [version; trace; span_; flags] =>
      if lower_hex_digits 2 version && lower_hex_digits 32 trace && lower_hex_digits 16 span_ && lower_hex_digits 2 flags
      then Some (trace, span_) else None
  | _ => None
  end.
Definition control_character (c : ascii) : bool := (unit_of c <=? 31) || (unit_of c =? 127).
Definition validTraceContext (v : json) : bool :=
  match v with
  | JObj carrier =>
      match field "traceparent" carrier with
      | JStr text =>
          match traceparentPattern text with
          | Some (trace, span_) =>
              negb (all_zero trace) && negb (all_zero span_) &&
              match field "tracestate" carrier with
              | JUndefined => true
              | JStr state =>
                  boundedString (JStr state) 512 && negb (existsb control_character (chars state))
              | _ => false
              end
          | None => false
          end
      | _ => false
      end
  | _ => false
  end.

Section codec.
Context `{Runtime}.

Definition isEventEnvelope (v : json) : bool :=
  match v with
  | JObj candidate =>
      isUuid (field "eventId" candidate)
      && boundedString (field "schemaName" candidate) 120
      && positiveInteger (field "schemaVersion" candidate)
      && boundedString (field "aggregateType" candidate) 64
      && isUuid (field "aggregateId" candidate)
      && isUuid (field "projectId" candidate)
      && isUuid (field "operationId" candidate)
      && isUuid (field "correlationId" candidate)
      && isUuid (field "causationId" candidate)
      && match field "occurredAt" candidate with JStr s => bool_decide (is_Some (Date_parse s)) | _ => false end
      && boundedString (field "partitionKey" candidate) 128
      && validTraceContext (field "traceContext" candidate)
      && match field "data" candidate with JObj _ => true | _ => false end
  | _ => false
  end.

(** A decoded envelope is the parsed object; this is the record the handlers
    read it as.  Members the contract does not name are not carried. *)
Definition text_field (k : string) (o : object) : string := json_text (field k o).
Definition decoded_trace (v : json) : TraceContext :=
  match v with
  | JObj o => {| traceparent := text_field "traceparent" o; tracestate := as_string (field "tracestate" o) |}
  | _ => {| traceparent := ""; tracestate := None |}
  end.
Definition decoded_record (o : object) : record :=
  {| envelope :=
       {| eventId := text_field "eventId" o; schemaName := text_field "schemaName" o;
          schemaVersion := default 0 (as_number (field "schemaVersion" o));
          aggregateType := text_field "aggregateType" o; aggregateId := text_field "aggregateId" o;
          projectId := text_field "projectId" o; operationId := text_field "operationId" o;
          correlationId := text_field "correlationId" o; causationId := text_field "causationId" o;
          occurredAt := default 0 (Date_parse (text_field "occurredAt" o));
          traceContext := decoded_trace (field "traceContext" o); partitionKey := text_field "partitionKey" o |};
     data := field "data" o |}.

Definition decodeEventEnvelope (value : option Buffer) : result thrown record :=
  match value with
  | None | Some [] => Err (MessageDecodeError EMPTY_VALUE)
  | Some bytes =>
      match JSON_parse (utf8_text bytes) with
      | None => Err (MessageDecodeError INVALID_JSON)
      | Some v =>
          match isEventEnvelope v, v with
          | true, JObj o => Ok (decoded_record o)
          | _, _ => Err (MessageDecodeError INVALID_ENVELOPE)
          end
      end
  end.

Definition validateEventTransport (e : EventEnvelope) (key : option Buffer) (headers : gmap string string) :
    result thrown unit :=
  if bool_decide (utf8_text <$> key = Some e.(partitionKey))
     && bool_decide (headers !! "event-id" = Some e.(eventId))
     && bool_decide (headers !! "schema-name" = Some e.(schemaName))
     && bool_decide (headers !! "schema-version" = Some (string_of_Z e.(schemaVersion)))
     && match present (headers !! "outbox-id") with Some text => uuidPattern text | None => false end
  then Ok tt else Err (MessageDecodeError INVALID_TRANSPORT_METADATA).
End codec.

(** A concrete runtime: bytes are code units, dates are written as integers. *)
Definition sample_runtime : Runtime :=
  {| utf8_text := string_of_list_byte; Date_parse := Number_integer; sha256_bytes := string_of_list_byte |}.

(** ** Lemmas *)

Lemma generation_safe (value : option string) (n : Z) :
  decodeReplayGeneration value = Ok n → isSafeInteger n = true.
Proof.
  unfold decodeReplayGeneration. destruct value as [text|]; [|by intros [= <-]].
  destruct (_ && _); [|done]. destruct (Number_integer text) as [m|]; [|done].
  destruct (isSafeInteger m) eqn:E; [|done]. by intros [= <-].
Qed.
