(* ===== verification/KafkaConsumer.v ===== *)
(** * The Kafka consumer

    [packages/messaging/src/kafka-consumer.ts]: a record is decoded, handled
    with bounded retries, and its offset committed only after the handler or
    the exhaustion callback returned.  What a service plugs in is the class
    [Ingress]; the delivery guarantee is proved for every ingress that keeps
    its laws.  Connection, security and telemetry are left out. *)
From S2P Require Import Prelude JsText Json SshKey Domain WorkflowStage Events EventValidation Platform JsonParse MessageCodec.
From Stdlib Require Import ZArith Lia Bool Ascii String.
From stdpp Require Import base decidable list strings gmap.
Open Scope string_scope.
Open Scope Z_scope.
Open Scope prog_scope.

(** ** Records *)

Inductive HeaderPart : Set := HBuffer (b : Buffer) | HText (s : string).
Inductive HeaderValue : Set := HUndefined | HOne (p : HeaderPart) | HMany (l : list HeaderPart).

(** A fetched message; its offset is the integer its text denotes. *)
Record KafkaMessage : Set := {
  km_key : option Buffer;
  km_value : option Buffer;
  km_headers : list (string * HeaderValue);
  km_offset : Z;
  km_timestamp : string;
}.

Record IncomingKafkaRecord : Type := {
  ir_delivery : MessageDeliveryIdentity;
  ir_brokerTimestampMs : Z;
  ir_key : option Buffer;
  ir_value : option Buffer;
  ir_headers : gmap string string;
  ir_envelope : option record;
  ir_decodeError : option DecodeCode;
}.

Inductive HandlingOutcome : Set := handled | duplicate_ | dead_lettered | quarantined.
#[export] Instance HandlingOutcome_eq_dec : EqDecision HandlingOutcome.
Proof. solve_decision. Defined.
Record MessageHandlingResult : Set := {
  mh_outcome : HandlingOutcome; mh_schemaName : string; mh_occurredAtMs : Z }.

Section decode.
Context `{Runtime}.

(** The text of a header: the first of several, absent when it is [undefined]
    or an empty text. *)
Definition header_text (v : HeaderValue) : option string :=
  match v with
  | HOne (HBuffer b) | HMany (HBuffer b :: _) => Some (utf8_text b)
  | HOne (HText s) | HMany (HText s :: _) => if truthy s then Some s else None
  | HUndefined | HMany [] => None
  end.
(** [Object.fromEntries]: the last of equal names wins. *)
Definition record_headers (l : list (string * HeaderValue)) : gmap string string :=
  list_to_map (rev (omap (λ p, (λ t, (toLowerCase (fst p), t)) <$> header_text (snd p)) l)).

(** The code a catch block keeps. *)
Definition kept_error {A : Type} (r : result thrown A) : option DecodeCode :=
  match r with Err (MessageDecodeError c) => Some c | _ => None end.
Definition value_of {A : Type} (r : result thrown A) : option A := match r with Ok a => Some a | Err _ => None end.

Definition incoming (topic_name : string) (part now_ : Z) (m : KafkaMessage) : IncomingKafkaRecord :=
  let headers := record_headers m.(km_headers) in
  let decoded := decodeEventEnvelope m.(km_value) in
  let generation := decodeReplayGeneration (headers !! "replay-generation") in
  let outbox := decodeOutboxId (headers !! "outbox-id") in
  let failed := coalesce (coalesce (kept_error decoded) (kept_error generation)) (kept_error outbox) in
  {| ir_delivery :=
       {| topic := topic_name; Platform.partition := part; offset := string_of_Z m.(km_offset);
          replayGeneration := default 0 (value_of generation); outboxId := present (value_of outbox) |};
     ir_brokerTimestampMs := default now_ (Number_integer m.(km_timestamp));
     ir_key := m.(km_key); ir_value := m.(km_value); ir_headers := headers;
     ir_envelope := value_of decoded;
     ir_decodeError :=
       match value_of decoded, failed with
       | Some e, None => kept_error (validateEventTransport e.(envelope) m.(km_key) headers)
       | _, _ => failed
       end |}.
End decode.

(** ** One attempt of a handler *)

Section attempt.
Context {S : Type} (outage : Z → option error).

(** A transaction of attempt [n], against a database that may throw for
    reasons of its own. *)
Definition transact {A : Type} (n : Z) (m : tx S error A) (s : S) : result thrown A * S :=
  match outage n with
  | Some e => (Err (Other e), s)
  | None =>
      match withTransaction m s with
      | (Ok a, s') => (Ok a, s')
      | (Err e, s') => (Err (Other e), s')
      end
  end.
(** The result a committed value becomes. *)
Definition answering {A : Type} (e : EventEnvelope) (outcome : A → HandlingOutcome) (x : result thrown A * S) :
    result thrown MessageHandlingResult * S :=
  (match fst x with
   | Ok a => Ok {| mh_outcome := outcome a; mh_schemaName := e.(schemaName); mh_occurredAtMs := e.(occurredAt) |}
   | Err t => Err t
   end, snd x).

Lemma transact_cases {A : Type} (n : Z) (m : tx S error A) (s : S) (x : result thrown A) (s' : S) :
  transact n m s = (x, s') → (∃ a, x = Ok a ∧ m s = Ok (a, s')) ∨ (∃ e, x = Err (Other e) ∧ s' = s).
Proof.
  unfold transact, withTransaction. destruct (outage n) as [e|]; [intros [= <- <-]; right; by exists e|].
  destruct (m s) as [[a s1]|e]; intros [= <- <-]; [left; by exists a|right; by exists e].
Qed.
Lemma transact_keeps (R : relation S) `{!Reflexive R} {A : Type} (n : Z) (m : tx S error A) (s : S) :
  keeps R m → R s (snd (transact n m s)).
Proof.
  intros Hm. destruct (transact _ _ _) as [x s'] eqn:E. cbn.
  apply transact_cases in E as [(a & _ & Hs)|(e & _ & ->)]; [by eapply Hm|reflexivity].
Qed.
Lemma answering_Ok {A : Type} (e : EventEnvelope) (o : A → HandlingOutcome) (x : result thrown A * S)
    (v : MessageHandlingResult) (s : S) :
  answering e o x = (Ok v, s) → ∃ a, x = (Ok a, s).
Proof. destruct x as [[a|t] s']; cbn; intros [= _ <-]. by exists a. Qed.
End attempt.

(** ** Bounded handling *)

(** What a service gives the runner, over the state [S] its transactions
    write.  The attempt is an argument because an attempt may fail where the
    next one does not. *)
Class Ingress (S : Type) : Type := {
  handle : Z → IncomingKafkaRecord → S → result thrown MessageHandlingResult * S;
  exhausted : IncomingKafkaRecord → thrown → Z → S → result thrown MessageHandlingResult * S;
}.

(** The constructor's check; [None] is the default. *)
Definition newMaximumAttempts (option_ : option Z) : result thrown Z :=
  let maximumAttempts := default 3 option_ in
  if (1 <=? maximumAttempts) && (maximumAttempts <=? 10) then Ok maximumAttempts
  else Err (Other (Fault "Kafka handler maximum attempts must be between 1 and 10.")).

Section runner.
Context {S : Type} `{Ingress S} (maximumAttempts : Z).

(** The loop with [more] attempts after this one; [beat] is what the
    heartbeat between two attempts throws, if anything. *)
Fixpoint attempts (more : nat) (attempt : Z) (beat : Z → option thrown) (r : IncomingKafkaRecord) (s : S) :
    result thrown MessageHandlingResult * S :=
  match match r.(ir_decodeError) with
        | Some c => (Err (MessageDecodeError c), s)
        | None => handle attempt r s
        end with
  | (Ok v, s') => (Ok v, s')
  | (Err e, s') =>
      match more with
      | O => exhausted r e maximumAttempts s'
      | Datatypes.S more =>
          match beat attempt with
          | Some e' => (Err e', s')
          | None => attempts more (attempt + 1) beat r s'
          end
      end
  end.
Definition handleWithRetry (beat : Z → option thrown) (r : IncomingKafkaRecord) (s : S) :
    result thrown MessageHandlingResult * S :=
  attempts (Z.to_nat (maximumAttempts - 1)) 1 beat r s.

(** The offset [eachMessage] commits, and what was written. *)
Definition eachMessage `{Runtime} (topic_name : string) (part now_ : Z) (beat : Z → option thrown) (m : KafkaMessage)
    (s : S) : option Z * S :=
  match handleWithRetry beat (incoming topic_name part now_ m) s with
  | (Ok _, s') => (Some (m.(km_offset) + 1), s')
  | (Err _, s') => (None, s')
  end.
End runner.

(** ** What an ingress promises *)

(** A record as the runner makes it: its envelope is that of its value. *)
Definition genuine `{Runtime} (r : IncomingKafkaRecord) : Prop :=
  r.(ir_envelope) = value_of (decodeEventEnvelope r.(ir_value)).

(** [sound] is the invariant of the service's state, [world] what its
    transactions do to a sound state, and [durable r s] says the state holds the
    evidence that [r] was dealt with.  Evidence outlives every transaction, and
    a handler or an exhaustion callback returns only once it is written. *)
Class IngressLaws (S : Type) `{Runtime, Ingress S} (sound : S → Prop) (world : relation S)
    (durable : IncomingKafkaRecord → S → Prop) : Prop := {
  world_preorder :: PreOrder world;
  world_sound s s' : sound s → world s s' → sound s';
  durable_kept r s s' : sound s → world s s' → durable r s → durable r s';
  handle_world n r s : world s (snd (handle n r s));
  exhausted_world r e n s : world s (snd (exhausted r e n s));
  handle_durable n r s v s' : sound s → genuine r → handle n r s = (Ok v, s') → durable r s';
  exhausted_durable r e n s v s' : sound s → genuine r → exhausted r e n s = (Ok v, s') → durable r s';
}.

Section delivery.
Context {S : Type} `{IngressLaws S sound world durable}.

Lemma attempts_world max more n beat r s : world s (snd (attempts max more n beat r s)).
Proof.
  revert n s. induction more as [|more IH]; intros n s; cbn; destruct (ir_decodeError r) as [c|]; cbn.
  - apply exhausted_world.
  - pose proof (handle_world n r s) as Hw. destruct (handle n r s) as [[v|e] s']; cbn in *; [done|].
    etransitivity; [done|apply exhausted_world].
  - destruct (beat n); cbn; [reflexivity|apply IH].
  - pose proof (handle_world n r s) as Hw. destruct (handle n r s) as [[v|e] s']; cbn in *; [done|].
    destruct (beat n); cbn; [done|]. etransitivity; [done|apply IH].
Qed.

Lemma attempts_durable max more n beat r s v s' :
  sound s → genuine r → attempts max more n beat r s = (Ok v, s') → durable r s'.
Proof.
  intros Hs Hr. revert n s Hs. induction more as [|more IH]; intros n s Hs; cbn; destruct (ir_decodeError r) as [c|]; cbn.
  - by apply exhausted_durable.
  - pose proof (handle_world n r s) as Hw. destruct (handle n r s) as [[v'|e] s1] eqn:Eh; cbn in Hw.
    + intros [= -> ->]. by eapply handle_durable.
    + apply exhausted_durable; [by eapply world_sound|done].
  - destruct (beat n); [done|by apply IH].
  - pose proof (handle_world n r s) as Hw. destruct (handle n r s) as [[v'|e] s1] eqn:Eh; cbn in Hw.
    + intros [= -> ->]. by eapply handle_durable.
    + destruct (beat n); [done|]. apply IH. by eapply world_sound.
Qed.

Lemma eachMessage_Some max topic_name part now_ beat m s next s' :
  sound s → eachMessage max topic_name part now_ beat m s = (Some next, s') →
  next = m.(km_offset) + 1 ∧ durable (incoming topic_name part now_ m) s'.
Proof.
  intros Hs. unfold eachMessage, handleWithRetry. destruct (attempts _ _ _ _ _ _) as [[v|e] s1] eqn:Ea; [|done].
  intros [= <- <-]. split; [done|]. by eapply attempts_durable.
Qed.

Lemma eachMessage_world max topic_name part now_ beat m s next s' :
  eachMessage max topic_name part now_ beat m s = (next, s') → world s s'.
Proof.
  unfold eachMessage, handleWithRetry. pose proof (attempts_world max (Z.to_nat (max - 1)) 1 beat (incoming topic_name part now_ m) s) as Hw.
  destruct (attempts _ _ _ _ _ _) as [[v|e] s1]; cbn in Hw; by intros [= _ <-].
Qed.

(** A handler that returns within the permitted attempts is not exhausted. *)
Lemma attempts_until max more n k beat r s v s' :
  r.(ir_decodeError) = None → (∀ i, beat i = None) → n ≤ k ≤ n + Z.of_nat more →
  (∀ i s0, n ≤ i < k → ∃ e, handle i r s0 = (Err e, s0)) → handle k r s = (Ok v, s') →
  attempts max more n beat r s = (Ok v, s').
Proof.
  intros Hr Hbeat. revert n. induction more as [|more IH]; intros n Hk Hfail Hok; cbn; rewrite Hr.
  - replace n with k by lia. by rewrite Hok.
  - destruct (decide (n = k)) as [->|Hne]; [by rewrite Hok|].
    destruct (Hfail n s ltac:(lia)) as [e ->]. rewrite Hbeat. apply IH; [lia| |done]. intros i s0 Hi. apply Hfail. lia.
Qed.

(** ** Consuming a partition

    The records of a partition by offset, the state of the service and the
    committed offset.  After a failure or a crash the group resumes at the
    committed offset; a crash may come between the transaction and the commit,
    and other transactions run in between. *)
Context (log : Z → option KafkaMessage) (topic_name : string) (part max : Z).

Definition next_record (from : Z) (m : KafkaMessage) : Prop :=
  from ≤ m.(km_offset) ∧ log m.(km_offset) = Some m ∧ ∀ o, from ≤ o < m.(km_offset) → log o = None.

Inductive consumes : relation (S * Z) :=
| consume_commit s committed m now_ beat next s' :
    next_record committed m → eachMessage max topic_name part now_ beat m s = (Some next, s') →
    consumes (s, committed) (s', next)
| consume_lost s committed m now_ beat r s' :
    next_record committed m → eachMessage max topic_name part now_ beat m s = (r, s') →
    consumes (s, committed) (s', committed)
| consume_world s s' committed : world s s' → consumes (s, committed) (s', committed).

(** The state is sound, and every record below the committed offset left its
    evidence. *)
Definition dealt_with (x : S * Z) : Prop :=
  sound (fst x) ∧ ∀ o m, 0 ≤ o < snd x → log o = Some m → ∃ now_, durable (incoming topic_name part now_ m) (fst x).

Lemma dealt_with_world s s' committed : world s s' → dealt_with (s, committed) → dealt_with (s', committed).
Proof.
  intros Hw [Hs Hd]. split; [by eapply world_sound|]. intros o m Ho Hm. destruct (Hd o m Ho Hm) as [now_ Hn].
  exists now_. by eapply durable_kept.
Qed.

Lemma consumes_dealt x y : consumes x y → dealt_with x → dealt_with y.
Proof.
  intros [s committed m now_ beat next s' (Hge & Hlog & Hgap) He|s committed m now_ beat r s' _ He|s s' committed Hw] Hd.
  - apply eachMessage_world in He as Hw. apply (eachMessage_Some _ _ _ _ _ _ _ _ _ (proj1 Hd)) in He as [-> Hdur].
    destruct (dealt_with_world _ _ _ Hw Hd) as [Hs Hbefore]. split; [done|].
    intros o m' Ho Hm'. cbn [fst snd] in *.
    destruct (Z.lt_ge_cases o committed) as [Hlt|Hle]; [apply (Hbefore o m'); [cbn; lia|done]|].
    destruct (Z.lt_ge_cases o m.(km_offset)) as [Hlt|Hle']; [by rewrite Hgap in Hm'|].
    replace o with m.(km_offset) in Hm' by lia. rewrite Hlog in Hm'. injection Hm' as <-. by exists now_.
  - eapply dealt_with_world; [|done]. by eapply eachMessage_world.
  - by eapply dealt_with_world.
Qed.

Lemma no_record_is_lost s x : sound s → rtc consumes (s, 0) x → dealt_with x.
Proof.
  intros Hs Hx. enough (∀ y, rtc consumes y x → dealt_with y → dealt_with x) as Hgo.
  { apply (Hgo (s, 0)); [done|]. split; [done|]. intros o m Ho. cbn in Ho. lia. }
  clear Hx. intros y Hy. induction Hy as [y|y z w Hyz _ IH]; [done|]. intros Hd. by eapply IH, consumes_dealt.
Qed.

(** A step never takes the offset back. *)
Lemma consumes_forward x y : sound (fst x) → consumes x y → snd x ≤ snd y.
Proof.
  intros Hs Hc. revert Hs. destruct Hc as [s committed m now_ beat next s' (Hge & _) He| |]; cbn; intros Hs; [|lia..].
  apply eachMessage_Some in He as [-> _]; [lia|done].
Qed.
End delivery.
