(* ===== verification/ProviderPort.v ===== *)
(** * The ports of a workflow step

    The provider boundary ([packages/provider-sdk]) and the workflow store as
    the saga sees them: one effect per remote procedure and per store write,
    with the type of its reply.  The provider itself is outside the
    repository's control, so a reply is any value of that type, or a transport
    failure. *)
From S2P Require Import Prelude JsText SshKey Domain WorkflowStage Events Saga.
From Stdlib Require Import ZArith Bool String.
From stdpp Require Import base decidable list strings.
Open Scope string_scope.
Open Scope Z_scope.

(** ** Transport failures ([provider-errors.ts]) *)

Inductive ProviderTransportErrorCode : Set := aborted | deadline_exceeded | protocol_error | unavailable.
#[export] Instance ProviderTransportErrorCode_eq_dec : EqDecision ProviderTransportErrorCode.
Proof. solve_decision. Defined.

Record ProviderTransportError : Set := { error_transport_code : ProviderTransportErrorCode; retryable : bool }.
#[export] Instance ProviderTransportError_eq_dec : EqDecision ProviderTransportError.
Proof. solve_decision. Defined.

(** The constructor: [retryable] defaults to everything but [protocol_error]. *)
Definition transportError (code : ProviderTransportErrorCode) (option_retryable : option bool) :
    ProviderTransportError :=
  {| error_transport_code := code;
     retryable := default (negb (bool_decide (code = protocol_error))) option_retryable |}.

(** [error.code] and [error.code.toUpperCase()]. *)
Definition transport_code_text (c : ProviderTransportErrorCode) : string :=
  match c with
  | aborted => "aborted" | deadline_exceeded => "deadline_exceeded"
  | protocol_error => "protocol_error" | unavailable => "unavailable"
  end.
Definition transport_code_upper (c : ProviderTransportErrorCode) : string :=
  match c with
  | aborted => "ABORTED" | deadline_exceeded => "DEADLINE_EXCEEDED"
  | protocol_error => "PROTOCOL_ERROR" | unavailable => "UNAVAILABLE"
  end.

(** ** Provider messages *)

Inductive FailureCategory : Set :=
| FAILURE_CATEGORY_UNSPECIFIED | FAILURE_CATEGORY_VALIDATION | FAILURE_CATEGORY_AUTHENTICATION
| FAILURE_CATEGORY_AUTHORIZATION | FAILURE_CATEGORY_NOT_FOUND | FAILURE_CATEGORY_CONFLICT
| FAILURE_CATEGORY_QUOTA | FAILURE_CATEGORY_TRANSIENT | FAILURE_CATEGORY_PERMANENT
| FAILURE_CATEGORY_UNKNOWN_OUTCOME | FAILURE_CATEGORY_COMPENSATION_FAILURE
| FAILURE_CATEGORY_MANUAL_REVIEW | FAILURE_CATEGORY_INTERNAL | FAILURE_CATEGORY_UNRECOGNIZED.

Inductive ProviderResultState : Set :=
| RESULT_UNSPECIFIED | RESULT_ACCEPTED | RESULT_SUCCEEDED | RESULT_REJECTED | RESULT_UNKNOWN
| RESULT_UNRECOGNIZED.
Inductive ProviderTaskState : Set :=
| TASK_UNSPECIFIED | TASK_QUEUED | TASK_RUNNING | TASK_SUCCEEDED | TASK_FAILED | TASK_UNKNOWN
| TASK_UNRECOGNIZED.
Inductive ObservedPowerState : Set :=
| OBSERVED_UNSPECIFIED | OBSERVED_RUNNING | OBSERVED_STOPPED | OBSERVED_SUSPENDED
| OBSERVED_UNKNOWN | OBSERVED_UNRECOGNIZED.
#[export] Instance ProviderResultState_eq_dec : EqDecision ProviderResultState.
Proof. solve_decision. Defined.
#[export] Instance ProviderTaskState_eq_dec : EqDecision ProviderTaskState.
Proof. solve_decision. Defined.
#[export] Instance ObservedPowerState_eq_dec : EqDecision ObservedPowerState.
Proof. solve_decision. Defined.

Record ProviderFailure : Set := {
  pf_category : option FailureCategory;
  pf_code : option string;
  pf_safeMessage : option string;
  pf_retryAfterMilliseconds : option Z;
}.
Record ProviderMutationResult : Set := {
  pm_state : option ProviderResultState;
  pm_providerTaskReference : option string;
  pm_providerResourceId : option string;
  pm_failure : option ProviderFailure;
}.
Record GetTaskResponse : Set := {
  task_state : option ProviderTaskState;
  task_failure : option ProviderFailure;
}.
Record ProviderResources : Set := {
  pr_cpuCount : option Z; pr_memoryMib : option Z; pr_diskGib : option Z }.
Record OwnershipObservation : Set := { ownership_complete : option bool; ownership_match : option bool }.
Record InstanceObservation : Set := {
  io_exists : option bool;
  io_powerState : option ObservedPowerState;
  io_resources : option ProviderResources;
  io_ownership : option OwnershipObservation;
  io_observedAt : option Z;
}.

(** An optional boolean in a condition. *)
Definition truth (o : option bool) : bool := default false o.

(** ** Requests *)

Record ProviderCallContext : Set := {
  requestId : string;
  ctx_operationId : string;
  ctx_correlationId : string;
  ctx_projectId : string;
  ctx_instanceId : string;
  ctx_providerProfileId : string;
  ctx_attempt : Z;
  ctx_fencingToken : string;
}.
Record OwnershipMarkers : Set := {
  managedBy : string;
  environment : string;
  marker_projectId : string;
  marker_instanceId : string;
  marker_createOperationId : string;
}.
(** [{ context, providerResourceId, expectedOwnershipMarkers }]. *)
Record InstanceRequest : Set := {
  context : ProviderCallContext;
  request_providerResourceId : string;
  expectedOwnershipMarkers : OwnershipMarkers;
}.
Record WireResources : Set := { wire_cpuCount : Z; wire_memoryMib : string; wire_diskGib : string }.
Record WireNetwork : Set := {
  wire_networkId : string; wire_ipv4Address : string; wire_ipv4PrefixLength : Z;
  wire_ipv4Gateway : string; wire_dnsServers : list string }.
(** The guest description of create and configure. *)
Record GuestConfiguration : Set := {
  guest_hostname : string;
  guest_resources : WireResources;
  guest_network : WireNetwork;
  guest_sshPublicKeys : list string;
}.

Inductive rpc : Set :=
| getTask (c : ProviderCallContext) (providerTaskReference : string)
| submitCreateInstance (c : ProviderCallContext) (image flavor : string) (g : GuestConfiguration)
    (ownershipMarkers : OwnershipMarkers)
| applyInstanceConfiguration (q : InstanceRequest) (g : GuestConfiguration)
| startInstance (q : InstanceRequest)
| shutdownInstance (q : InstanceRequest)
| stopInstance (q : InstanceRequest)
| rebootInstance (q : InstanceRequest)
| resizeInstance (q : InstanceRequest) (targetResources : WireResources)
| createSnapshot (q : InstanceRequest) (snapshotId name : string) (description : option string)
| rollbackSnapshot (q : InstanceRequest) (snapshotId providerSnapshotReference : string)
| deleteSnapshot (q : InstanceRequest) (snapshotId providerSnapshotReference : string)
| markInstanceRetained (q : InstanceRequest) (retentionDeadline : Z)
| purgeInstance (q : InstanceRequest) (purgeAuthorizationId : string) (retentionDeadline : Z)
| observeInstance (q : InstanceRequest)
| listSnapshots (q : InstanceRequest).

(** The calls that change something on the provider. *)
Definition mutates (c : rpc) : bool :=
  match c with getTask _ _ | observeInstance _ | listSnapshots _ => false | _ => true end.

Definition rpc_context (c : rpc) : ProviderCallContext :=
  match c with
  | getTask c _ | submitCreateInstance c _ _ _ _ => c
  | applyInstanceConfiguration q _ | startInstance q | shutdownInstance q | stopInstance q
  | rebootInstance q | resizeInstance q _ | createSnapshot q _ _ _ | rollbackSnapshot q _ _
  | deleteSnapshot q _ _ | markInstanceRetained q _ | purgeInstance q _ _
  | observeInstance q | listSnapshots q => q.(context)
  end.

(** ** Store writes *)

Record RetryState : Set := {
  retry_attempt : Z; retry_startedAt : Z; retry_errorCategory : string; retry_errorCode : string }.
#[export] Instance RetryState_eq_dec : EqDecision RetryState.
Proof. solve_decision. Defined.

Record CheckpointInput : Set := {
  cp_operationId : string;
  cp_workerId : string;
  cp_fencingToken : Z;
  cp_stage : WorkflowStage;
  cp_providerResourceId : option string;
  cp_providerTaskReference : option (option string);  (* absent, cleared or set *)
  cp_nextAttemptAt : option Z;
  cp_retry : option RetryState;
  cp_event : WorkflowEvent;
}.
Inductive CompletionStatus : Set := status_succeeded | status_failed | status_manual_review.
#[export] Instance CompletionStatus_eq_dec : EqDecision CompletionStatus.
Proof. solve_decision. Defined.
Record CompleteInput : Set := {
  co_operationId : string;
  co_workerId : string;
  co_fencingToken : Z;
  co_status : CompletionStatus;
  co_event : WorkflowEvent;
}.
Record DeadLetterInput : Set := {
  dl_operationId : string;
  dl_workerId : string;
  dl_fencingToken : Z;
  dl_attempts : Z;
  dl_failureCode : string;
  dl_safeMessage : string;
  dl_lastErrorCategory : string;
  dl_lastErrorCode : string;
  dl_event : WorkflowEvent;
}.

Inductive effect : Set :=
| Rpc (c : rpc)
| Checkpoint (i : CheckpointInput)
| Complete (i : CompleteInput)
| DeadLetterWorkflow (i : DeadLetterInput).

(** ** Replies *)

Inductive rpc_result (A : Set) : Set :=
| Reply (a : A)
| TransportFailure (e : ProviderTransportError).
Arguments Reply {A}.
Arguments TransportFailure {A}.

Inductive store_reply : Set := Stored | StoreThrew.

Definition rpc_reply (c : rpc) : Set :=
  match c with
  | getTask _ _ => GetTaskResponse
  | observeInstance _ => option InstanceObservation
  | listSnapshots _ => option (list (option string))
  | _ => option ProviderMutationResult
  end.

Definition reply (e : effect) : Type :=
  match e with
  | Rpc c => rpc_result (rpc_reply c)
  | _ => store_reply
  end.

(** What a step may throw. *)
Inductive step_error : Set :=
| Transport (e : ProviderTransportError)
| Bug (message : string).

Definition step (A : Type) : Type := saga reply (X := step_error) A.

(** A remote call; a transport failure is thrown. *)
Definition call (c : rpc) : step (rpc_reply c) :=
  Vis (Rpc c) (λ r : rpc_result (rpc_reply c),
    match r with Reply a => Ret a | TransportFailure e => Throw (Transport e) end).

(** The store writes; a rejected write throws an ordinary error. *)
Definition stored (r : store_reply) : step unit :=
  match r with Stored => Ret tt | StoreThrew => Throw (Bug "The store rejected the write.") end.
Definition store_checkpoint (i : CheckpointInput) : step unit := Vis (Checkpoint i) stored.
Definition store_complete (i : CompleteInput) : step unit := Vis (Complete i) stored.
Definition store_deadLetterWorkflow (i : DeadLetterInput) : step unit := Vis (DeadLetterWorkflow i) stored.

Definition is_write (e : effect) : bool := match e with Rpc _ => false | _ => true end.
Definition is_mutation (e : effect) : bool := match e with Rpc c => mutates c | _ => false end.
