(* ===== verification/Lifecycle.v ===== *)
(** * The reusable half of the persisted saga

    [packages/application/src/lifecycle-workflow.ts], the abstract class
    [LifecycleWorkflow]: outcome classification, bounded retry, governed
    dead-lettering, checkpointing, and the construction of contexts, ownership
    markers and envelopes.  Its abstract members are the type class
    [LifecycleCapability]; the capabilities are in [Capabilities.v]. *)
From S2P Require Import Prelude JsText SshKey Domain WorkflowStage Events Saga ProviderPort.
From Stdlib Require Import ZArith Lia Bool String.
From stdpp Require Import base decidable list strings.
Open Scope string_scope.
Open Scope Z_scope.
Open Scope prog_scope.

Definition TASK_POLL_DELAY_MS : Z := 500.
Definition MAXIMUM_RETRY_ATTEMPTS : Z := 8.
Definition RETRY_BUDGET_MS : Z := 15 * 60 * 1000.
Definition RETRY_BACKOFF_BASE_MS : Z := 500.
Definition RETRY_BACKOFF_CEILING_MS : Z := 30000.

(** What a step reads from its surroundings: the clock, the random source (a
    fraction), fresh identifiers, the tracer, and the worker's identity. *)
Record Environment : Type := {
  now : Z;
  random : Z * Z;
  freshEventId : string;
  freshEvidenceId : string;
  currentTraceContext : TraceContext → TraceContext;
  workerId : string;
}.

(** The abstract members every capability states for itself. *)
Class LifecycleCapability (D : Type) : Type := {
  action : WorkflowAction;
  mutationStages : list WorkflowStage;
  providerProfileId : ClaimedWorkflow D → string;
  createOperationId : ClaimedWorkflow D → string;
}.

Definition providerFailureCategory (c : option FailureCategory) : EventFailureCategory :=
  match c with
  | Some FAILURE_CATEGORY_VALIDATION | Some FAILURE_CATEGORY_QUOTA => cat_validation
  | Some FAILURE_CATEGORY_AUTHENTICATION | Some FAILURE_CATEGORY_AUTHORIZATION => cat_authorization
  | Some FAILURE_CATEGORY_CONFLICT => cat_conflict
  | Some FAILURE_CATEGORY_TRANSIENT => cat_transient
  | Some FAILURE_CATEGORY_UNKNOWN_OUTCOME => cat_unknown_outcome
  | Some FAILURE_CATEGORY_COMPENSATION_FAILURE => cat_compensation_failure
  | Some FAILURE_CATEGORY_MANUAL_REVIEW => cat_manual_review
  | _ => cat_permanent
  end.

Definition failureValue (providerFailure : option ProviderFailure) (defaultCode : string) : Failure :=
  {| category := providerFailureCategory (providerFailure ≫= pf_category);
     code := default defaultCode (providerFailure ≫= pf_code);
     safeMessage := default "The provider operation failed." (providerFailure ≫= pf_safeMessage);
     retryAfterMilliseconds := providerFailure ≫= pf_retryAfterMilliseconds |}.

(** A failure the workflow states itself. *)
Definition failure (category : EventFailureCategory) (code safeMessage : string) : Failure :=
  {| category := category; code := code; safeMessage := safeMessage; retryAfterMilliseconds := None |}.

(** The options of [progress]. *)
Record ProgressOptions : Set := {
  opt_providerResourceId : option string;
  opt_providerTaskReference : option (option string);
  opt_nextAttemptAt : option Z;
  opt_operationState : option OperationState;
  opt_retry : option RetryState;
}.
Definition no_options : ProgressOptions :=
  {| opt_providerResourceId := None; opt_providerTaskReference := None; opt_nextAttemptAt := None;
     opt_operationState := None; opt_retry := None |}.

Section lifecycle.
Context {D : Type} `{LifecycleCapability D} (env : Environment).
Implicit Types (w : ClaimedWorkflow D).

Definition op_id w : string := w.(claimed_command).(envelope).(operationId).

(** [this.context(workflow, step)]: the request identity is a function of the
    operation and the step only. *)
Definition call_context w (stepName : string) : ProviderCallContext :=
  let e := w.(claimed_command).(envelope) in
  {| requestId := e.(operationId) ++ ":" ++ stepName;
     ctx_operationId := e.(operationId);
     ctx_correlationId := e.(correlationId);
     ctx_projectId := e.(projectId);
     ctx_instanceId := e.(aggregateId);
     ctx_providerProfileId := providerProfileId w;
     ctx_attempt := 1;
     ctx_fencingToken := string_of_Z w.(claimed_fencingToken) |}.

Definition ownership w : OwnershipMarkers :=
  let e := w.(claimed_command).(envelope) in
  {| managedBy := "private-cloud-control-plane";
     environment := "lab";
     marker_projectId := e.(projectId);
     marker_instanceId := e.(aggregateId);
     marker_createOperationId := createOperationId w |}.

(** [this.envelope(workflow, schemaName)]. *)
Definition event_envelope w (schema : string) : EventEnvelope :=
  let e := w.(claimed_command).(envelope) in
  {| eventId := freshEventId env;
     schemaName := schema;
     schemaVersion := 1;
     aggregateType := "instance";
     aggregateId := e.(aggregateId);
     projectId := e.(projectId);
     operationId := e.(operationId);
     correlationId := e.(correlationId);
     causationId := e.(eventId);
     occurredAt := now env;
     traceContext := currentTraceContext env w.(claimed_traceContext);
     partitionKey := e.(partitionKey) |}.

Definition requiredResource w : step string :=
  match present w.(claimed_providerResourceId) with
  | None => Throw (Transport (transportError protocol_error (Some false)))
  | Some r => Ret r
  end.

(** [{ context, providerResourceId, expectedOwnershipMarkers }]. *)
Definition instance_request w (stepName : string) : step InstanceRequest :=
  let^ resource := requiredResource w in
  Ret {| context := call_context w stepName; request_providerResourceId := resource;
         expectedOwnershipMarkers := ownership w |}.

Definition progress w (stage : WorkflowStage) (options : ProgressOptions) : step unit :=
  store_checkpoint
    {| cp_operationId := op_id w;
       cp_workerId := workerId env;
       cp_fencingToken := w.(claimed_fencingToken);
       cp_stage := stage;
       cp_providerResourceId :=
         coalesce (present options.(opt_providerResourceId)) (present w.(claimed_providerResourceId));
       cp_providerTaskReference := options.(opt_providerTaskReference);
       cp_nextAttemptAt := options.(opt_nextAttemptAt);
       cp_retry := options.(opt_retry);
       cp_event :=
         {| envelope := event_envelope w "workflow.progressed";
            data := WorkflowProgressed
              {| progressed_stage := stage_text stage;
                 progressed_attempt := w.(claimed_attempt);
                 progressed_operationState := default running options.(opt_operationState);
                 progressed_providerTaskReference := default None options.(opt_providerTaskReference);
                 progressed_nextActionAt := options.(opt_nextAttemptAt) |} |} |}.

Definition failed_event w (f : Failure) (c : CompensationState) : WorkflowEvent :=
  {| envelope := event_envelope w "instance.mutation.failed";
     data := MutationFailed
       {| failed_action := action; failed_failure := f; failed_compensationState := c |} |}.

Definition finishFailure w (f : Failure) (manual : bool) : step unit :=
  store_complete
    {| co_operationId := op_id w;
       co_workerId := workerId env;
       co_fencingToken := w.(claimed_fencingToken);
       co_status := if manual then status_manual_review else status_failed;
       co_event := failed_event w f (if manual then unsafe else not_required) |}.

Definition fail w (f : Failure) : step unit := finishFailure w f false.
Definition manualReview w (f : Failure) : step unit := finishFailure w f true.

(** The write that reports success, with the completed event. *)
Definition complete_success w (lifecycleState resource : string) (o : option ObservedState) : step unit :=
  store_complete
    {| co_operationId := op_id w;
       co_workerId := workerId env;
       co_fencingToken := w.(claimed_fencingToken);
       co_status := status_succeeded;
       co_event :=
         {| envelope := event_envelope w "instance.mutation.completed";
            data := MutationCompleted
              {| completed_action := action;
                 completed_lifecycleState := lifecycleState;
                 completed_providerResourceId := Some resource;
                 completed_evidenceId := freshEvidenceId env;
                 completed_observed := o |} |} |}.

Definition handleMutationResult w (result : option ProviderMutationResult)
    (acceptedStage synchronousStage : WorkflowStage) : step unit :=
  match result with
  | None => fail w (failure cat_permanent "PROVIDER_RESULT_MISSING" "The provider response omitted its result.")
  | Some r =>
      if bool_decide (r.(pm_state) = Some RESULT_UNKNOWN) then
        manualReview w (failureValue r.(pm_failure) "PROVIDER_UNKNOWN")
      else if bool_decide (r.(pm_state) = Some RESULT_REJECTED) then
        fail w (failureValue r.(pm_failure) "PROVIDER_REJECTED")
      else
        match present (coalesce r.(pm_providerResourceId) w.(claimed_providerResourceId)) with
        | None =>
            fail w (failure cat_permanent "PROVIDER_RESOURCE_ID_MISSING"
                      "The provider response omitted the resource identifier.")
        | Some resourceId =>
            if bool_decide (r.(pm_state) = Some RESULT_ACCEPTED) then
              match present r.(pm_providerTaskReference) with
              | None =>
                  fail w (failure cat_permanent "PROVIDER_TASK_REFERENCE_MISSING"
                            "The asynchronous provider response omitted its task reference.")
              | Some task =>
                  progress w acceptedStage
                    {| opt_providerResourceId := Some resourceId;
                       opt_providerTaskReference := Some (Some task);
                       opt_nextAttemptAt := None; opt_operationState := None; opt_retry := None |}
              end
            else if bool_decide (r.(pm_state) = Some RESULT_SUCCEEDED) then
              progress w synchronousStage
                {| opt_providerResourceId := Some resourceId; opt_providerTaskReference := None;
                   opt_nextAttemptAt := None; opt_operationState := None; opt_retry := None |}
            else
              fail w (failure cat_permanent "PROVIDER_RESULT_STATE_INVALID"
                        "The provider returned an unsupported result state.")
        end
  end.

Definition handleTaskResult w (response : GetTaskResponse) (successStage : WorkflowStage)
    (taskReference : string) : step unit :=
  if bool_decide (response.(task_state) = Some TASK_QUEUED)
     || bool_decide (response.(task_state) = Some TASK_RUNNING) then
    progress w w.(claimed_stage)
      {| opt_providerResourceId := None; opt_providerTaskReference := Some (Some taskReference);
         opt_nextAttemptAt := Some (now env + TASK_POLL_DELAY_MS);
         opt_operationState := None; opt_retry := None |}
  else if bool_decide (response.(task_state) = Some TASK_SUCCEEDED) then
    progress w successStage
      {| opt_providerResourceId := None; opt_providerTaskReference := Some None;
         opt_nextAttemptAt := None; opt_operationState := None; opt_retry := None |}
  else if bool_decide (response.(task_state) = Some TASK_UNKNOWN) then
    manualReview w (failure cat_unknown_outcome "PROVIDER_TASK_UNKNOWN"
                      "The provider no longer has an authoritative task result.")
  else fail w (failureValue response.(task_failure) "PROVIDER_TASK_FAILED").

Definition pollTask w (successStage : WorkflowStage) : step unit :=
  match present w.(claimed_providerTaskReference) with
  | None =>
      fail w (failure cat_permanent "PROVIDER_TASK_REFERENCE_MISSING"
                "The provider task reference was not persisted.")
  | Some taskReference =>
      let^ response := call (getTask (call_context w ("poll-" ++ stage_text w.(claimed_stage))) taskReference) in
      handleTaskResult w response successStage taskReference
  end.

(** The upper bound of the next delay before jitter. *)
Definition exponentialCeiling (stageAttempt : Z) : Z :=
  Z.min RETRY_BACKOFF_CEILING_MS (RETRY_BACKOFF_BASE_MS * 2 ^ (stageAttempt - 1)).

Definition retryOrDeadLetter w (e : ProviderTransportError) : step unit :=
  let retryStartedAt := default (now env) w.(claimed_retryStartedAt) in
  let stageAttempt := w.(claimed_stageAttempt) + 1 in
  let remainingBudgetMs := retryStartedAt + RETRY_BUDGET_MS - now env in
  if (MAXIMUM_RETRY_ATTEMPTS <=? stageAttempt) || (remainingBudgetMs <=? 0) then
    let f := failure cat_transient "WORKFLOW_RETRY_EXHAUSTED"
               "The provider remained unavailable until the workflow retry policy expired." in
    store_deadLetterWorkflow
      {| dl_operationId := op_id w;
         dl_workerId := workerId env;
         dl_fencingToken := w.(claimed_fencingToken);
         dl_attempts := stageAttempt;
         dl_failureCode := f.(code);
         dl_safeMessage := f.(safeMessage);
         dl_lastErrorCategory := "provider_transport";
         dl_lastErrorCode := transport_code_text e.(error_transport_code);
         dl_event := failed_event w f not_required |}
  else
    let '(numerator, denominator) := random env in
    if (denominator <=? 0) || (numerator <? 0) || (denominator <=? numerator) then
      Throw (Bug "Workflow retry random source must return a value in [0, 1).")
    else
      let delayMs := Z.min (numerator * exponentialCeiling stageAttempt / denominator) remainingBudgetMs in
      progress w w.(claimed_stage)
        {| opt_providerResourceId := None; opt_providerTaskReference := None;
           opt_nextAttemptAt := Some (now env + delayMs);
           opt_operationState := Some retry_wait;
           opt_retry := Some {| retry_attempt := stageAttempt; retry_startedAt := retryStartedAt;
                                retry_errorCategory := "provider_transport";
                                retry_errorCode := transport_code_text e.(error_transport_code) |} |}.

Definition handleProviderError w (e : ProviderTransportError) : step unit :=
  let isMutationStage := bool_decide (w.(claimed_stage) ∈ mutationStages) in
  if isMutationStage && negb (bool_decide (e.(error_transport_code) = protocol_error)) then
    manualReview w
      (failure cat_unknown_outcome ("PROVIDER_" ++ transport_code_upper e.(error_transport_code))
         "The mutation transport failed and its provider outcome is unknown.")
  else if e.(retryable) then retryOrDeadLetter w e
  else fail w (failure cat_permanent "PROVIDER_PROTOCOL_ERROR"
                 "The create workflow could not continue safely.").

(** The body of [runOne] after a successful claim: the capability's [execute],
    with transport failures classified and anything else rethrown. *)
Definition runClaimed (execute : ClaimedWorkflow D → step unit) w : step unit :=
  if bool_decide (w.(claimed_action) ≠ action) then
    Throw (Bug ("Workflow " ++ op_id w ++ " has action " ++ action_text w.(claimed_action)
                ++ ", not " ++ action_text action ++ "."))
  else
    try_catch (execute w)
      (λ error, match error with
                | Transport e => handleProviderError w e
                | Bug m => Throw (Bug m)
                end).
End lifecycle.
