(* ===== verification/Capabilities.v ===== *)
(** * The lifecycle capabilities

    The concrete workflows of [packages/application/src]: create, power,
    resize, the three snapshot actions, retention and purge.  One Module per
    class, each with its mutation stages, its transition table [execute], and
    the provider interaction of every stage. *)
From S2P Require Import Prelude JsText SshKey Domain WorkflowStage Events Saga ProviderPort Lifecycle.
From Stdlib Require Import ZArith Lia Bool String.
From stdpp Require Import base decidable list strings.
Open Scope string_scope.
Open Scope Z_scope.
Open Scope prog_scope.

(** [{ exists, ownership.complete, ownership.match }] all hold. *)
Definition proves_owned (o : option InstanceObservation) : bool :=
  match o with
  | None => false
  | Some o =>
      truth o.(io_exists) && truth (o.(io_ownership) ≫= ownership_complete)
      && truth (o.(io_ownership) ≫= ownership_match)
  end.

Definition observedPowerState (v : option ObservedPowerState) : ObservedPower :=
  match v with
  | Some OBSERVED_RUNNING => observed_running
  | Some OBSERVED_STOPPED => observed_stopped
  | Some OBSERVED_SUSPENDED => observed_suspended
  | _ => observed_unknown
  end.

(** [resources && resources.cpuCount !== undefined ? {...} : {}]. *)
Definition observedResources (r : option ProviderResources) : option ObservedResources :=
  r ← r;
  cpu ← r.(pr_cpuCount);
  Some {| observed_cpu := cpu; observed_memory := r.(pr_memoryMib); observed_disk := r.(pr_diskGib) |}.

Definition wire_resources (s : Sizing) : WireResources :=
  {| wire_cpuCount := s.(cpuCount); wire_memoryMib := string_of_Z s.(memoryMiB);
     wire_diskGib := string_of_Z s.(diskGiB) |}.

Definition stage_invalid : Failure :=
  failure cat_permanent "WORKFLOW_STAGE_INVALID"
    "The persisted workflow stage is not supported by this capability.".

(** A stage that only moves on. *)
Definition advance {D} `{LifecycleCapability D} (env : Environment) (w : ClaimedWorkflow D)
    (s : WorkflowStage) : step unit := progress env w s no_options.

(** ** Create *)
Module CreateInstance.
Definition CREATE_MUTATION_STAGES : list WorkflowStage := [submitting_create; configuring; starting].

#[global] Instance capability : LifecycleCapability CreateData := {
  action := create_instance;
  mutationStages := CREATE_MUTATION_STAGES;
  providerProfileId w := w.(claimed_command).(data).(create_providerProfileId);
  createOperationId w := w.(claimed_command).(envelope).(operationId);
}.

Section create.
Context (env : Environment) (w : ClaimedWorkflow CreateData).
Let d := w.(claimed_command).(data).

Definition resources : WireResources := wire_resources d.(create_resources).
Definition network : WireNetwork :=
  {| wire_networkId := d.(create_networkId);
     wire_ipv4Address := d.(create_ipv4).(address);
     wire_ipv4PrefixLength := d.(create_ipv4).(prefixLength);
     wire_ipv4Gateway := d.(create_ipv4).(ipv4_gateway);
     wire_dnsServers := d.(create_ipv4).(dnsServers) |}.
Definition guest : GuestConfiguration :=
  {| guest_hostname := d.(create_hostname); guest_resources := resources; guest_network := network;
     guest_sshPublicKeys := default [] d.(create_sshPublicKeys) |}.

Definition submitCreate : step unit :=
  let^ result := call (submitCreateInstance (call_context w "create") d.(create_imageId)
                         d.(create_flavorId) guest (ownership w)) in
  handleMutationResult env w result polling_create configuring.

Definition configure : step unit :=
  let^ q := instance_request w "configure" in
  let^ result := call (applyInstanceConfiguration q guest) in
  handleMutationResult env w result polling_configuration starting.

Definition start_guest : step unit :=
  let^ q := instance_request w "start" in
  let^ result := call (startInstance q) in
  handleMutationResult env w result polling_start observing.

Definition observedState (o : InstanceObservation) : ObservedState :=
  {| state_exists := truth o.(io_exists);
     state_powerState := observedPowerState o.(io_powerState);
     state_resources := observedResources o.(io_resources);
     state_markerMatch := truth (o.(io_ownership) ≫= ownership_match);
     state_observedAt := default (now env) o.(io_observedAt) |}.

Definition observe : step unit :=
  let^ q := instance_request w "observe" in
  let^ observation := call (observeInstance q) in
  match observation with
  | Some o =>
      if proves_owned observation && bool_decide (o.(io_powerState) = Some OBSERVED_RUNNING) then
        let^ resource := requiredResource w in
        complete_success env w "active" resource (Some (observedState o))
      else
        manualReview env w (failure cat_manual_review "CREATE_OBSERVATION_AMBIGUOUS"
          "Provider observation did not prove an owned running instance.")
  | None =>
      manualReview env w (failure cat_manual_review "CREATE_OBSERVATION_AMBIGUOUS"
        "Provider observation did not prove an owned running instance.")
  end.

Definition execute : step unit :=
  match w.(claimed_stage) with
  | accepted => advance env w submitting_create
  | submitting_create => submitCreate
  | polling_create => pollTask env w configuring
  | configuring => configure
  | polling_configuration => pollTask env w starting
  | starting => start_guest
  | polling_start => pollTask env w observing
  | observing => observe
  | _ => fail env w (failure cat_permanent "WORKFLOW_STAGE_INVALID"
                       "The persisted workflow stage is not supported.")
  end.
End create.
End CreateInstance.

(** ** Power *)
Module PowerInstance.
Definition POWER_MUTATION_STAGES : list WorkflowStage := [submitting_power].

Definition EXPECTED_POWER_STATE (a : PowerAction) : ObservedPowerState :=
  match a with
  | start | reboot => OBSERVED_RUNNING
  | shutdown | stop => OBSERVED_STOPPED
  end.

#[global] Instance capability : LifecycleCapability PowerData := {
  action := power_instance;
  mutationStages := POWER_MUTATION_STAGES;
  providerProfileId w := w.(claimed_command).(data).(power_providerProfileId);
  createOperationId w := w.(claimed_command).(data).(power_createOperationId);
}.

Section power.
Context (env : Environment) (w : ClaimedWorkflow PowerData).

Definition requestedAction : PowerAction := w.(claimed_command).(data).(power_action).

Definition submitPower : step unit :=
  let^ q := instance_request w ("power-" ++ power_action_text requestedAction) in
  let^ result :=
    match requestedAction return step (option ProviderMutationResult) with
    | start => call (startInstance q)
    | shutdown => call (shutdownInstance q)
    | stop => call (stopInstance q)
    | reboot => call (rebootInstance q)
    end in
  handleMutationResult env w result polling_power observing_power.

Definition observePower : step unit :=
  let^ q := instance_request w "observe-power" in
  let^ observation := call (observeInstance q) in
  let expected := EXPECTED_POWER_STATE requestedAction in
  match observation with
  | Some o =>
      if negb (proves_owned observation) then
        manualReview env w (failure cat_manual_review "POWER_OBSERVATION_AMBIGUOUS"
          "Provider observation did not prove an owned instance after the transition.")
      else if bool_decide (o.(io_powerState) ≠ Some expected) then
        manualReview env w (failure cat_manual_review "POWER_STATE_NOT_REACHED"
          "The instance did not reach the requested power state.")
      else
        let^ resource := requiredResource w in
        complete_success env w "active" resource
          (Some {| state_exists := true;
                   state_powerState :=
                     if bool_decide (expected = OBSERVED_RUNNING) then observed_running else observed_stopped;
                   state_resources := None;
                   state_markerMatch := true;
                   state_observedAt := default (now env) o.(io_observedAt) |})
  | None =>
      manualReview env w (failure cat_manual_review "POWER_OBSERVATION_AMBIGUOUS"
        "Provider observation did not prove an owned instance after the transition.")
  end.

Definition execute : step unit :=
  match w.(claimed_stage) with
  | accepted => advance env w submitting_power
  | submitting_power => submitPower
  | polling_power => pollTask env w observing_power
  | observing_power => observePower
  | _ => fail env w stage_invalid
  end.
End power.
End PowerInstance.

(** ** Resize *)
Module ResizeInstance.
Definition RESIZE_MUTATION_STAGES : list WorkflowStage := [submitting_resize].

#[global] Instance capability : LifecycleCapability ResizeData := {
  action := resize_instance;
  mutationStages := RESIZE_MUTATION_STAGES;
  providerProfileId w := w.(claimed_command).(data).(resize_providerProfileId);
  createOperationId w := w.(claimed_command).(data).(resize_createOperationId);
}.

Section resize.
Context (env : Environment) (w : ClaimedWorkflow ResizeData).
Let target_sizing := w.(claimed_command).(data).(resize_targetResources).

Definition submitResize : step unit :=
  let^ q := instance_request w "resize" in
  let^ result := call (resizeInstance q (wire_resources target_sizing)) in
  handleMutationResult env w result polling_resize observing_resize.

(** The measured sizing disagrees with the target; a provider that reports no
    processors reports no sizing. *)
Definition disagrees (measured : option ProviderResources) : bool :=
  match measured ≫= pr_cpuCount with
  | None => false
  | Some cpu =>
      negb (cpu =? target_sizing.(cpuCount))
      || negb (bool_decide (measured ≫= pr_memoryMib = Some target_sizing.(memoryMiB)))
      || negb (bool_decide (measured ≫= pr_diskGib = Some target_sizing.(diskGiB)))
  end.

Definition observeResize : step unit :=
  let^ q := instance_request w "observe-resize" in
  let^ observation := call (observeInstance q) in
  match observation with
  | Some o =>
      if negb (proves_owned observation) then
        manualReview env w (failure cat_manual_review "RESIZE_OBSERVATION_AMBIGUOUS"
          "Provider observation did not prove an owned instance after the resize.")
      else if disagrees o.(io_resources) then
        manualReview env w (failure cat_manual_review "RESIZE_NOT_APPLIED"
          "The instance did not reach the requested sizing.")
      else
        let^ resource := requiredResource w in
        complete_success env w "active" resource
          (Some {| state_exists := true; state_powerState := observed_unknown;
                   state_resources := observedResources o.(io_resources);
                   state_markerMatch := true;
                   state_observedAt := default (now env) o.(io_observedAt) |})
  | None =>
      manualReview env w (failure cat_manual_review "RESIZE_OBSERVATION_AMBIGUOUS"
        "Provider observation did not prove an owned instance after the resize.")
  end.

Definition execute : step unit :=
  match w.(claimed_stage) with
  | accepted => advance env w submitting_resize
  | submitting_resize => submitResize
  | polling_resize => pollTask env w observing_resize
  | observing_resize => observeResize
  | _ => fail env w stage_invalid
  end.
End resize.
End ResizeInstance.

(** ** Snapshots *)
Module Snapshot.
Definition SNAPSHOT_MUTATION_STAGES : list WorkflowStage := [submitting_snapshot].

(** The three actions the class is instantiated for. *)
Inductive SnapshotAction : Set := Create | Rollback | Delete.
Definition workflow_action (a : SnapshotAction) : WorkflowAction :=
  match a with Create => create_snapshot | Rollback => rollback_snapshot | Delete => delete_snapshot end.

(** The payload a command of each action carries. *)
Definition payload (a : SnapshotAction) : Type :=
  match a with Create => SnapshotCreateData | _ => SnapshotTargetData end.

Definition payload_profile (a : SnapshotAction) : payload a → string :=
  match a with
  | Create => snapshot_providerProfileId
  | Rollback | Delete => target_providerProfileId
  end.
Definition payload_create_operation (a : SnapshotAction) : payload a → string :=
  match a with
  | Create => snapshot_createOperationId
  | Rollback | Delete => target_createOperationId
  end.

#[global] Instance capability (a : SnapshotAction) : LifecycleCapability (payload a) := {
  action := workflow_action a;
  mutationStages := SNAPSHOT_MUTATION_STAGES;
  providerProfileId w := payload_profile a w.(claimed_command).(data);
  createOperationId w := payload_create_operation a w.(claimed_command).(data);
}.

(** The mutation of each action. *)
Definition mutation (a : SnapshotAction) (q : InstanceRequest) :
    payload a → step (option ProviderMutationResult) :=
  match a with
  | Create => λ d, call (createSnapshot q d.(snapshot_id) d.(snapshot_name) (present d.(snapshot_description)))
  | Rollback => λ d, call (rollbackSnapshot q d.(target_snapshotId) d.(target_providerSnapshotReference))
  | Delete => λ d, call (deleteSnapshot q d.(target_snapshotId) d.(target_providerSnapshotReference))
  end.

Definition expectedName (a : SnapshotAction) : payload a → string :=
  match a with
  | Create => snapshot_name
  | Rollback | Delete => target_providerSnapshotReference
  end.

Section snapshot.
Context (a : SnapshotAction) (env : Environment) (w : ClaimedWorkflow (payload a)).

Definition submitSnapshot : step unit :=
  let^ q := instance_request w (action_text (workflow_action a)) in
  let^ result := mutation a q w.(claimed_command).(data) in
  handleMutationResult env w result polling_snapshot observing_snapshot.

(** Whether the provider's listing shows what the action was to achieve. *)
Definition satisfied (names : list (option string)) : bool :=
  let present_in := bool_decide (Some (expectedName a w.(claimed_command).(data)) ∈ names) in
  match a with Create => present_in | Rollback => true | Delete => negb present_in end.

Definition observeSnapshot : step unit :=
  let^ q := instance_request w (action_text (workflow_action a) ++ "-observe") in
  let^ listing := call (listSnapshots q) in
  if negb (satisfied (default [] listing)) then
    manualReview env w (failure cat_manual_review "SNAPSHOT_STATE_NOT_REACHED"
      "The provider snapshot listing does not reflect the requested change.")
  else
    let^ resource := requiredResource w in
    complete_success env w "active" resource None.

Definition execute : step unit :=
  match w.(claimed_stage) with
  | accepted => advance env w submitting_snapshot
  | submitting_snapshot => submitSnapshot
  | polling_snapshot => pollTask env w observing_snapshot
  | observing_snapshot => observeSnapshot
  | _ => fail env w stage_invalid
  end.
End snapshot.
End Snapshot.

(** ** Retention *)
Module RetainInstance.
Definition RETENTION_MUTATION_STAGES : list WorkflowStage := [submitting_retention].

#[global] Instance capability : LifecycleCapability RetentionData := {
  action := retain_instance;
  mutationStages := RETENTION_MUTATION_STAGES;
  providerProfileId w := w.(claimed_command).(data).(retention_providerProfileId);
  createOperationId w := w.(claimed_command).(data).(retention_createOperationId);
}.

Section retain.
Context (env : Environment) (w : ClaimedWorkflow RetentionData).

Definition submitRetention : step unit :=
  let^ q := instance_request w "retain" in
  let^ result := call (markInstanceRetained q w.(claimed_command).(data).(retention_deadline)) in
  handleMutationResult env w result polling_retention observing_retention.

Definition observeRetention : step unit :=
  let^ q := instance_request w "observe-retention" in
  let^ observation := call (observeInstance q) in
  match observation with
  | Some o =>
      if negb (proves_owned observation) then
        manualReview env w (failure cat_manual_review "RETENTION_OBSERVATION_AMBIGUOUS"
          "The retained instance could not be observed as present and owned.")
      else
        let^ resource := requiredResource w in
        complete_success env w "retained" resource
          (Some {| state_exists := true;
                   state_powerState :=
                     if bool_decide (o.(io_powerState) = Some OBSERVED_STOPPED) then observed_stopped
                     else if bool_decide (o.(io_powerState) = Some OBSERVED_RUNNING) then observed_running
                     else observed_unknown;
                   state_resources := None;
                   state_markerMatch := true;
                   state_observedAt := default (now env) o.(io_observedAt) |})
  | None =>
      manualReview env w (failure cat_manual_review "RETENTION_OBSERVATION_AMBIGUOUS"
        "The retained instance could not be observed as present and owned.")
  end.

Definition execute : step unit :=
  match w.(claimed_stage) with
  | accepted => advance env w submitting_retention
  | submitting_retention => submitRetention
  | polling_retention => pollTask env w observing_retention
  | observing_retention => observeRetention
  | _ => fail env w stage_invalid
  end.
End retain.
End RetainInstance.

(** ** Purge *)
Module PurgeInstance.
Definition PURGE_MUTATION_STAGES : list WorkflowStage := [submitting_purge].

#[global] Instance capability : LifecycleCapability PurgeData := {
  action := purge_instance;
  mutationStages := PURGE_MUTATION_STAGES;
  providerProfileId w := w.(claimed_command).(data).(purge_providerProfileId);
  createOperationId w := w.(claimed_command).(data).(purge_createOperationId);
}.

Section purge.
Context (env : Environment) (w : ClaimedWorkflow PurgeData).

Definition completePurge : step unit :=
  let^ resource := requiredResource w in
  complete_success env w "purged" resource
    (Some {| state_exists := false; state_powerState := observed_unknown; state_resources := None;
             state_markerMatch := false; state_observedAt := now env |}).

Definition verifyOwnership : step unit :=
  let^ q := instance_request w "verify-purge" in
  let^ observation := call (observeInstance q) in
  if negb (truth (observation ≫= io_exists)) then completePurge
  else if negb (proves_owned observation) then
    manualReview env w (failure cat_manual_review "PURGE_OWNERSHIP_NOT_PROVEN"
      "Live provider ownership could not be proven; the purge was not attempted.")
  else advance env w submitting_purge.

Definition submitPurge : step unit :=
  let^ q := instance_request w "purge" in
  let^ result := call (purgeInstance q w.(claimed_command).(data).(purge_authorizationId)
                         w.(claimed_command).(data).(purge_retentionDeadline)) in
  handleMutationResult env w result polling_purge observing_purge.

Definition observeAbsence : step unit :=
  let^ q := instance_request w "observe-purge" in
  let^ observation := call (observeInstance q) in
  if truth (observation ≫= io_exists) then
    manualReview env w (failure cat_manual_review "PURGE_NOT_CONFIRMED"
      "The instance is still present after the purge was submitted.")
  else completePurge.

Definition execute : step unit :=
  match w.(claimed_stage) with
  | accepted => advance env w verifying_purge
  | verifying_purge => verifyOwnership
  | submitting_purge => submitPurge
  | polling_purge => pollTask env w observing_purge
  | observing_purge => observeAbsence
  | _ => fail env w stage_invalid
  end.
End purge.
End PurgeInstance.
