(* ===== verification/Executors.v ===== *)
(** * The executors together, and what every step of them guarantees

    The registry holds one executor per capability.  [AnyWorkflow] is a
    claimed workflow of some capability and [runAny] its executor's step; the
    theorems hold for every capability, every behaviour of the provider and
    every outcome of the store write. *)
From S2P Require Import Prelude JsText SshKey Domain WorkflowStage Events Saga ProviderPort Lifecycle Capabilities.
From Stdlib Require Import ZArith Lia Bool String.
From stdpp Require Import base decidable list strings.
Open Scope string_scope.
Open Scope Z_scope.
Open Scope prog_scope.

Inductive AnyWorkflow : Type :=
| W_create (w : ClaimedWorkflow CreateData)
| W_power (w : ClaimedWorkflow PowerData)
| W_resize (w : ClaimedWorkflow ResizeData)
| W_snapshot (a : Snapshot.SnapshotAction) (w : ClaimedWorkflow (Snapshot.payload a))
| W_retain (w : ClaimedWorkflow RetentionData)
| W_purge (w : ClaimedWorkflow PurgeData).

(** The step the executor of the workflow's capability performs. *)
Definition runAny (env : Environment) (aw : AnyWorkflow) : step unit :=
  match aw with
  | W_create w => runClaimed env (CreateInstance.execute env) w
  | W_power w => runClaimed env (PowerInstance.execute env) w
  | W_resize w => runClaimed env (ResizeInstance.execute env) w
  | W_snapshot a w => runClaimed env (Snapshot.execute a env) w
  | W_retain w => runClaimed env (RetainInstance.execute env) w
  | W_purge w => runClaimed env (PurgeInstance.execute env) w
  end.

(** Reads a field of the claimed workflow whatever its payload is. *)
Definition on_claimed {R : Type} (f : ∀ D (cap : LifecycleCapability D), ClaimedWorkflow D → R)
    (aw : AnyWorkflow) : R :=
  match aw with
  | W_create w => f _ _ w
  | W_power w => f _ _ w
  | W_resize w => f _ _ w
  | W_snapshot a w => f _ _ w
  | W_retain w => f _ _ w
  | W_purge w => f _ _ w
  end.

Definition any_stage : AnyWorkflow → WorkflowStage := on_claimed (λ _ _ w, w.(claimed_stage)).
Definition any_stageAttempt : AnyWorkflow → Z := on_claimed (λ _ _ w, w.(claimed_stageAttempt)).
Definition any_retryStartedAt : AnyWorkflow → option Z := on_claimed (λ _ _ w, w.(claimed_retryStartedAt)).
Definition any_envelope : AnyWorkflow → EventEnvelope := on_claimed (λ _ _ w, w.(claimed_command).(envelope)).
Definition any_fencing : AnyWorkflow → Z := on_claimed (λ _ _ w, w.(claimed_fencingToken)).
Definition any_mutationStages : AnyWorkflow → list WorkflowStage := on_claimed (λ _ _ _, mutationStages).
(** The claim's action is the executor's own. *)
Definition routed (aw : AnyWorkflow) : bool :=
  on_claimed (λ _ _ w, bool_decide (w.(claimed_action) = action)) aw.

(** ** Shapes of a step *)

Abbreviation trace := (list (exchange reply)).
Abbreviation outcome := (result step_error unit).

(** A final write: it succeeds or the store's error is thrown. *)
Definition written (i : effect) (t : trace) (o : outcome) : Prop :=
  is_write i = true ∧ map effect_of t = [i] ∧ (o = Ok tt ∨ ∃ m, o = Err (Bug m)).

Lemma store_checkpoint_traces (i : CheckpointInput) (t : trace) (o : outcome) :
  traces (store_checkpoint i) t o → written (Checkpoint i) t o.
Proof. intros ([] & t' & -> & [-> ->]); (split_and!; [done|done|naive_solver]). Qed.
Lemma store_complete_traces (i : CompleteInput) (t : trace) (o : outcome) :
  traces (store_complete i) t o → written (Complete i) t o.
Proof. intros ([] & t' & -> & [-> ->]); (split_and!; [done|done|naive_solver]). Qed.
Lemma store_deadLetter_traces (i : DeadLetterInput) (t : trace) (o : outcome) :
  traces (store_deadLetterWorkflow i) t o → written (DeadLetterWorkflow i) t o.
Proof. intros ([] & t' & -> & [-> ->]); (split_and!; [done|done|naive_solver]). Qed.

(** A remote call followed by the rest of the step. *)
Lemma call_traces {B : Type} (c : rpc) (k : rpc_reply c → step B) (t : trace) (o : result step_error B) :
  traces (sbind (call c) k) t o →
  (∃ r t', t = Exchange (Rpc c) (Reply r) :: t' ∧ traces (k r) t' o)
  ∨ (∃ e, t = [Exchange (Rpc c) (TransportFailure e)] ∧ o = Err (Transport e)).
Proof.
  intros (r & t' & -> & H). destruct r as [a|e]; simpl in H; [left; eauto|].
  destruct H as [-> ->]. right. by exists e.
Qed.

Lemma bind_throw_traces {A B : Type} (x : step_error) (k : A → step B) (t : trace) (o : result step_error B) :
  traces (sbind (Throw x) k) t o → t = [] ∧ o = Err x.
Proof. done. Qed.

Lemma instance_request_traces {D} `{LifecycleCapability D} (w : ClaimedWorkflow D) (s : string)
    {B : Type} (k : InstanceRequest → step B) (t : trace) (o : result step_error B) :
  traces (sbind (instance_request w s) k) t o →
  (present w.(claimed_providerResourceId) = None ∧ t = []
     ∧ o = Err (Transport (transportError protocol_error (Some false))))
  ∨ ∃ r, present w.(claimed_providerResourceId) = Some r
      ∧ traces (k {| context := call_context w s; request_providerResourceId := r;
                     expectedOwnershipMarkers := ownership w |}) t o.
Proof.
  unfold instance_request, requiredResource. destruct (present _) as [r|]; simpl; [|naive_solver].
  intros Ht. right. by exists r.
Qed.

Lemma requiredResource_traces {D} (w : ClaimedWorkflow D)
    {B : Type} (k : string → step B) (t : trace) (o : result step_error B) :
  traces (sbind (requiredResource w) k) t o →
  (present w.(claimed_providerResourceId) = None ∧ t = []
     ∧ o = Err (Transport (transportError protocol_error (Some false))))
  ∨ ∃ r, present w.(claimed_providerResourceId) = Some r ∧ traces (k r) t o.
Proof. unfold requiredResource. destruct (present _) as [r|]; simpl; naive_solver. Qed.

(** Symbolic execution of a step: every way the trace in [H] can arise. *)
Ltac exec_step H :=
  lazymatch type of H with
  | traces (sbind (instance_request _ _) _) _ _ =>
      apply instance_request_traces in H as [(? & -> & ->)|(? & ? & H)]
  | traces (sbind (requiredResource _) _) _ _ =>
      apply requiredResource_traces in H as [(? & -> & ->)|(? & ? & H)]
  | traces (sbind (call _) _) _ _ =>
      apply call_traces in H as [(? & ? & -> & H)|(? & -> & ->)]
  | traces (store_checkpoint _) _ _ => apply store_checkpoint_traces in H
  | traces (store_complete _) _ _ => apply store_complete_traces in H
  | traces (store_deadLetterWorkflow _) _ _ => apply store_deadLetter_traces in H
  | traces (Throw _) _ _ => destruct H as [-> ->]
  | traces (match ?x with _ => _ end) _ _ => destruct x eqn:?
  | traces (sbind (match ?x with _ => _ end) _) _ _ => destruct x eqn:?
  | traces (let x := ?a in _) _ _ => cbv zeta in H
  | traces (?f _ _) _ _ => progress unfold f in H
  end.
Ltac exec_unfold H :=
  unfold CreateInstance.execute, CreateInstance.submitCreate, CreateInstance.configure,
    CreateInstance.start_guest, CreateInstance.observe,
    PowerInstance.execute, PowerInstance.submitPower, PowerInstance.observePower,
    ResizeInstance.execute, ResizeInstance.submitResize, ResizeInstance.observeResize,
    Snapshot.execute, Snapshot.submitSnapshot, Snapshot.observeSnapshot, Snapshot.mutation,
    RetainInstance.execute, RetainInstance.submitRetention, RetainInstance.observeRetention,
    PurgeInstance.execute, PurgeInstance.submitPurge, PurgeInstance.observeAbsence,
    PurgeInstance.verifyOwnership, PurgeInstance.completePurge,
    advance, pollTask, handleTaskResult, handleMutationResult, handleProviderError, retryOrDeadLetter,
    fail, manualReview, finishFailure, complete_success, progress in H.
Ltac exec H := exec_unfold H; repeat exec_step H.

(** ** One call, one write *)

(** At most one remote call, then exactly one store write. *)
Definition one_call_one_write (t : trace) : Prop :=
  ∃ calls i, map effect_of t = (calls ++ [i])%list ∧ is_write i = true
    ∧ (calls = [] ∨ ∃ c, calls = [Rpc c]).

Definition valid_random (env : Environment) : Prop :=
  0 < snd (random env) ∧ 0 ≤ fst (random env) < snd (random env).

Lemma provider_error_writes {D} `{LifecycleCapability D} env (w : ClaimedWorkflow D) e t o :
  valid_random env → traces (handleProviderError env w e) t o →
  ∃ i, written i t o.
Proof.
  intros [Hd Hn] Ht. exec Ht; eauto. exfalso. simpl in *.
  repeat match goal with E : random env = _ |- _ => rewrite E in * end; simpl in *. unbool. 
  repeat match goal with E : _ ∨ _ |- _ => destruct E end; unbool; lia.
Qed.

(** The capability's transition table and the shared error handling. *)
Definition execute_any (env : Environment) (aw : AnyWorkflow) : step unit :=
  match aw with
  | W_create w => CreateInstance.execute env w
  | W_power w => PowerInstance.execute env w
  | W_resize w => ResizeInstance.execute env w
  | W_snapshot a w => Snapshot.execute a env w
  | W_retain w => RetainInstance.execute env w
  | W_purge w => PurgeInstance.execute env w
  end.
Definition handle_any (env : Environment) (aw : AnyWorkflow) (e : ProviderTransportError) : step unit :=
  on_claimed (λ D cap w, handleProviderError env w e) aw.

(** A step is the transition table, or the error handling after it. *)
Lemma runAny_traces (env : Environment) (aw : AnyWorkflow) (t : trace) (o : outcome) :
  traces (runAny env aw) t o →
  (routed aw = false ∧ t = [])
  ∨ (routed aw = true ∧
     ((traces (execute_any env aw) t o ∧ ∀ e, o ≠ Err (Transport e))
      ∨ ∃ t1 t2 e, t = (t1 ++ t2)%list ∧ traces (execute_any env aw) t1 (Err (Transport e))
          ∧ traces (handle_any env aw e) t2 o)).
Proof.
  assert (Hgen : ∀ D (cap : LifecycleCapability D) (x : ClaimedWorkflow D → step unit) (w : ClaimedWorkflow D),
    traces (runClaimed env x w) t o →
    (bool_decide (w.(claimed_action) = action) = false ∧ t = [])
    ∨ (bool_decide (w.(claimed_action) = action) = true ∧
       ((traces (x w) t o ∧ ∀ e, o ≠ Err (Transport e))
        ∨ ∃ t1 t2 e, t = (t1 ++ t2)%list ∧ traces (x w) t1 (Err (Transport e))
          ∧ traces (handleProviderError env w e) t2 o))).
  { intros D cap x w. unfold runClaimed. repeat case_bool_decide; try done.
    - intros [-> ->]. by left.
    - intros Ht. right. split; [done|].
      apply traces_catch in Ht as [([] & -> & Ht)|(t1 & t2 & [e|m] & -> & H1 & H2)].
      + left. done.
      + right. by exists t1, t2, e.
      + left. destruct H2 as [-> ->]. by rewrite app_nil_r. }
  destruct aw; apply Hgen.
Qed.

(** What the transition table of a routed workflow can do. *)
Lemma execute_cases (env : Environment) (aw : AnyWorkflow) (t : trace) (o : outcome) :
  traces (execute_any env aw) t o →
  (∃ i, written i t o)
  ∨ (∃ c r t', t = Exchange (Rpc c) (Reply r) :: t' ∧ ∃ i, written i t' o)
  ∨ (∃ e, o = Err (Transport e) ∧ (t = [] ∨ ∃ c, t = [Exchange (Rpc c) (TransportFailure e)])).
Proof.
  destruct aw as [w|w|w|[] w|w|w]; simpl; intros H; exec H; try congruence.
  all: try (left; by eauto).
  all: try (right; left;
    match goal with |- context [Exchange (Rpc ?c) (Reply ?r) :: ?t] => exists c, r, t end;
    split; [reflexivity|by eauto]).
  all: right; right; by eauto 10.
Qed.

(** One claim performs one transition.  Whatever the provider answers and
    whether or not the store accepts the write, a routed step makes at most one
    remote call and then exactly one store write (checkpoint, completion or
    dead letter), and no transport failure escapes it: every path of every
    capability completes, fails or checkpoints the workflow. *)
Theorem step_one_call_one_write (env : Environment) (aw : AnyWorkflow) (t : trace) (o : outcome)
    (Hrand : valid_random env) (Hroute : routed aw = true) (Ht : traces (runAny env aw) t o) :
  one_call_one_write t ∧ ∀ e, o ≠ Err (Transport e).
Proof.
  assert (Hw : ∀ i t' o', written i t' o' →
    map effect_of t' = [i] ∧ is_write i = true ∧ ∀ e, o' ≠ Err (Transport e)).
  { intros i t' o' (Hi & Hm & Ho). split_and!; [done..|]. destruct Ho as [->|[m ->]]; naive_solver. }
  apply runAny_traces in Ht as [[? _]|[_ [[Ht Hno]|(t1 & t2 & e & -> & H1 & H2)]]]; [congruence|..].
  - apply execute_cases in Ht as [(i & H)|[(c & r & t' & -> & i & H)|(e & -> & _)]];
      [| |by destruct (Hno e)]; apply Hw in H as (Hm & Hi & Ho); (split; [|done]).
    + exists [], i. rewrite Hm. eauto.
    + exists [Rpc c], i. simpl. rewrite Hm. eauto.
  - assert (H2' : ∃ i, written i t2 o) by
      (destruct aw as [w|w|w|a w|w|w]; exact (provider_error_writes env w e t2 o Hrand H2)).
    destruct H2' as [i H]. apply Hw in H as (Hm & Hi & Ho). split; [|done].
    unfold one_call_one_write. rewrite map_app, Hm.
    apply execute_cases in H1 as [(j & Hj)|[(c & r & t' & -> & j & Hj)|(e' & _ & [->|[c ->]])]].
    + apply Hw in Hj as (_ & _ & Hj). by destruct (Hj e).
    + apply Hw in Hj as (_ & _ & Hj). by destruct (Hj e).
    + exists [], i. eauto.
    + exists [Rpc c], i. simpl. eauto 10.
Qed.

(** ** What a trace shows *)

(** The failed remote calls. *)
Definition failure_of (x : exchange reply) : option (rpc * ProviderTransportError) :=
  match x with
  | Exchange e r =>
      match e return reply e → _ with
      | Rpc c => λ r : rpc_result (rpc_reply c),
          match r with TransportFailure err => Some (c, err) | Reply _ => None end
      | _ => λ _, None
      end r
  end.

(** The observations the provider returned, with the request they answer. *)
Definition observation_of (x : exchange reply) : option (InstanceRequest * option InstanceObservation) :=
  match x with
  | Exchange e r =>
      match e return reply e → _ with
      | Rpc (observeInstance q) => λ r : rpc_result (option InstanceObservation),
          match r with Reply o => Some (q, o) | TransportFailure _ => None end
      | _ => λ _, None
      end r
  end.

(** The snapshot listings the provider returned. *)
Definition listing_of (x : exchange reply) : option (InstanceRequest * option (list (option string))) :=
  match x with
  | Exchange e r =>
      match e return reply e → _ with
      | Rpc (listSnapshots q) => λ r : rpc_result (option (list (option string))),
          match r with Reply o => Some (q, o) | TransportFailure _ => None end
      | _ => λ _, None
      end r
  end.

Definition effects (t : trace) : list effect := map effect_of t.

(** A request about the workflow's own resource under its own markers. *)
Definition own_request {D} `{LifecycleCapability D} (w : ClaimedWorkflow D) (q : InstanceRequest) : Prop :=
  w.(claimed_providerResourceId) = Some q.(request_providerResourceId)
  ∧ q.(request_providerResourceId) ≠ "" ∧ q.(expectedOwnershipMarkers) = ownership w.

Lemma present_Some (o : option string) (s : string) : present o = Some s ↔ o = Some s ∧ s ≠ "".
Proof.
  unfold present, truthy. destruct o as [x|]; simpl; [|naive_solver].
  destruct (String.eqb_spec x ""); simpl; naive_solver.
Qed.

(** ** Sample values for the witnesses *)

Definition sample_env : Environment :=
  {| now := 1000; random := (1, 2); freshEventId := "e2"; freshEvidenceId := "v1";
     currentTraceContext := id; workerId := "worker-1" |}.
Definition sample_envelope : EventEnvelope :=
  {| eventId := "e1"; schemaName := "instance.purge.requested"; schemaVersion := 1;
     aggregateType := "instance"; aggregateId := "i1"; projectId := "p1"; operationId := "o1";
     correlationId := "c1"; causationId := "r1"; occurredAt := 10;
     traceContext := {| traceparent := "00"; tracestate := None |}; partitionKey := "i1" |}.
Definition sample_claim {D} (d : D) (a : WorkflowAction) (s : WorkflowStage) : ClaimedWorkflow D :=
  {| claimed_action := a; claimed_command := {| envelope := sample_envelope; data := d |};
     claimed_traceContext := {| traceparent := "00"; tracestate := None |};
     claimed_stage := s; claimed_attempt := 1; claimed_stageAttempt := 0;
     claimed_retryStartedAt := None; claimed_fencingToken := 4;
     claimed_providerResourceId := Some "vm-100"; claimed_providerTaskReference := None |}.
Definition sample_purge_data : PurgeData :=
  {| purge_authorizationId := "auth"; purge_retentionDeadline := 5; purge_reasonReference := "r";
     purge_providerProfileId := "pp"; purge_createOperationId := "o0" |}.
Definition sample_purge (s : WorkflowStage) : AnyWorkflow :=
  W_purge (sample_claim sample_purge_data purge_instance s).

(** A provider that owns a running machine and accepts every mutation. *)
Definition sample_observation : InstanceObservation :=
  {| io_exists := Some true; io_powerState := Some OBSERVED_RUNNING; io_resources := None;
     io_ownership := Some {| ownership_complete := Some true; ownership_match := Some true |};
     io_observedAt := None |}.
Definition sample_mutation_result : ProviderMutationResult :=
  {| pm_state := Some RESULT_ACCEPTED; pm_providerTaskReference := Some "task-1";
     pm_providerResourceId := None; pm_failure := None |}.
Definition sample_rpc (c : rpc) : rpc_reply c :=
  match c return rpc_reply c with
  | getTask _ _ => {| task_state := Some TASK_SUCCEEDED; task_failure := None |}
  | observeInstance _ => Some sample_observation
  | listSnapshots _ => Some []
  | _ => Some sample_mutation_result
  end.
Definition healthy (e : effect) : reply e :=
  match e return reply e with
  | Rpc c => Reply (sample_rpc c)
  | Checkpoint _ | Complete _ | DeadLetterWorkflow _ => Stored
  end.
(** A provider whose every call fails in transport. *)
Definition unreachable (code : ProviderTransportErrorCode) (e : effect) : reply e :=
  match e return reply e with
  | Rpc c => TransportFailure (transportError code None)
  | Checkpoint _ | Complete _ | DeadLetterWorkflow _ => Stored
  end.

Lemma run_is_trace (outside : ∀ e, reply e) (m : step unit) :
  traces m (run outside m).1 (run outside m).2.
Proof. pose proof (run_traces reply outside m) as Hr. by destruct (run outside m). Qed.

Lemma step_one_call_one_write_witness :
  let r := run healthy (runAny sample_env (sample_purge submitting_purge)) in
  routed (sample_purge submitting_purge) = true ∧ one_call_one_write r.1.
Proof.
  split; [reflexivity|].
  apply (step_one_call_one_write sample_env (sample_purge submitting_purge) _
           (run healthy (runAny sample_env (sample_purge submitting_purge))).2).
  - unfold valid_random; simpl; lia.
  - reflexivity.
  - apply run_is_trace.
Defined.
