(* ===== verification/ExecutorSafety.v ===== *)
(** * Safety of the executors

    What is never retried and what success rests on. *)
From S2P Require Import Prelude JsText SshKey Domain WorkflowStage Events Saga ProviderPort Lifecycle Capabilities Executors.
From Stdlib Require Import ZArith Lia Bool String.
From stdpp Require Import base decidable list strings.
Open Scope string_scope.
Open Scope Z_scope.
Open Scope prog_scope.

Lemma written_effects (i : effect) (t : trace) (o : outcome) : written i t o → effects t = [i].
Proof. by intros (_ & H & _). Qed.

Lemma written_no_failure (i : effect) (t : trace) (o : outcome) :
  written i t o → omap failure_of t = [].
Proof.
  intros (Hi & Hm & _). destruct t as [|[e r] [|]]; try done. simpl in *.
  injection Hm as ->. by destruct i.
Qed.

Lemma written_no_observation (i : effect) (t : trace) (o : outcome) :
  written i t o → omap observation_of t = [] ∧ omap listing_of t = [].
Proof.
  intros (Hi & Hm & _). destruct t as [|[e r] [|]]; try done. simpl in *.
  injection Hm as ->. by destruct i.
Qed.

Lemma failures_reply (c : rpc) (r : rpc_reply c) (t : trace) :
  omap failure_of (Exchange (Rpc c) (Reply r) :: t) = omap failure_of t.
Proof. done. Qed.

(** The failed calls of a step: the error the error handling received, if a
    call was made at all. *)
Lemma execute_failure (env : Environment) (aw : AnyWorkflow) (t : trace) (o : outcome)
    (e : ProviderTransportError) :
  traces (execute_any env aw) t o → o = Err (Transport e) →
  (t = [] ∧ e = transportError protocol_error (Some false))
  ∨ ∃ c, t = [Exchange (Rpc c) (TransportFailure e)]
       ∧ (mutates c = true → any_stage aw ∈ any_mutationStages aw).
Proof.
  destruct aw as [w|w|w|[] w|w|w]; simpl; intros H Ho; exec H.
  all: subst; try (destruct H as (_ & _ & [?|[? ?]]); discriminate).
  all: simplify_eq; eauto.
  all: right; eexists; (split; [reflexivity|]); simpl; try discriminate.
  all: intros _; unfold any_stage, any_mutationStages; simpl.
  all: repeat match goal with
    | E : claimed_stage _ = ?s |- ?g ∈ _ => replace g with s by (symmetry; exact E); clear E end.
  all: unfold CreateInstance.CREATE_MUTATION_STAGES, PowerInstance.POWER_MUTATION_STAGES,
    ResizeInstance.RESIZE_MUTATION_STAGES, Snapshot.SNAPSHOT_MUTATION_STAGES,
    RetainInstance.RETENTION_MUTATION_STAGES, PurgeInstance.PURGE_MUTATION_STAGES.
  all: apply list_elem_of_In; simpl; tauto.
Qed.

(** ** Ambiguous mutations are never retried *)

(** The write of a step that ended for human attention. *)
Definition ends_in_review (i : effect) : Prop :=
  ∃ c f, i = Complete c ∧ c.(co_status) = status_manual_review
    ∧ c.(co_event).(data) = MutationFailed f ∧ f.(failed_compensationState) = unsafe.

Lemma handle_mutation_failure (env : Environment) (aw : AnyWorkflow) (e : ProviderTransportError)
    (t : trace) (o : outcome) :
  any_stage aw ∈ any_mutationStages aw → e.(error_transport_code) ≠ protocol_error →
  traces (handle_any env aw e) t o → ∃ i, written i t o ∧ ends_in_review i.
Proof.
  intros Hs Hc H.
  assert (Hgen : ∀ D (cap : LifecycleCapability D) (w : ClaimedWorkflow D),
    claimed_stage w ∈ mutationStages → traces (handleProviderError env w e) t o →
    ∃ i, written i t o ∧ ends_in_review i).
  { clear H. intros D cap w Hin H. unfold handleProviderError in H.
    rewrite bool_decide_true, bool_decide_false in H by done. simpl in H.
    apply store_complete_traces in H. eexists. split; [exact H|].
    eexists _, _. split_and!; reflexivity. }
  destruct aw as [w|w|w|a w|w|w]; exact (Hgen _ _ w Hs H).
Qed.

Lemma handle_no_failure (env : Environment) (aw : AnyWorkflow) (e : ProviderTransportError)
    (t : trace) (o : outcome) :
  traces (handle_any env aw e) t o → omap failure_of t = [].
Proof.
  destruct aw as [w|w|w|a w|w|w]; unfold handle_any, on_claimed; intros H; exec H;
    first [done|by eapply written_no_failure].
Qed.

(** C37: A mutation is only ever submitted in a stage its capability declares as
    a mutation stage, and when the transport of such a call fails for any
    reason but a malformed request, the step ends in manual review with
    compensation [unsafe]: it is never checkpointed for a retry, dead-lettered
    or reported as failed, whether or not the error claims to be retryable. *)
Theorem ambiguous_mutation_goes_to_review (env : Environment) (aw : AnyWorkflow) (t : trace)
    (o : outcome) (c : rpc) (e : ProviderTransportError)
    (Hroute : routed aw = true) (Ht : traces (runAny env aw) t o)
    (Hfail : (c, e) ∈ omap failure_of t) (Hmut : mutates c = true)
    (Hcode : e.(error_transport_code) ≠ protocol_error) :
  any_stage aw ∈ any_mutationStages aw
  ∧ ∃ i, effects t = [Rpc c; i] ∧ ends_in_review i.
Proof.
  apply runAny_traces in Ht as [[? _]|[_ [[Ht Hno]|(t1 & t2 & e' & -> & H1 & H2)]]]; [congruence|..].
  - exfalso. apply execute_cases in Ht as [(i & H)|[(c' & r & t' & -> & i & H)|(e' & -> & _)]].
    + rewrite (written_no_failure _ _ _ H) in Hfail. by apply elem_of_nil in Hfail.
    + rewrite failures_reply, (written_no_failure _ _ _ H) in Hfail. by apply elem_of_nil in Hfail.
    + by destruct (Hno e').
  - destruct (execute_failure _ _ _ _ _ H1 eq_refl) as [[-> ->]|(c' & -> & Hin)].
    + exfalso. simpl in Hfail. rewrite (handle_no_failure _ _ _ _ _ H2) in Hfail.
      by apply elem_of_nil in Hfail.
    + rewrite omap_app, (handle_no_failure _ _ _ _ _ H2), app_nil_r in Hfail. simpl in Hfail.
      apply list_elem_of_singleton in Hfail as [= <- <-].
      specialize (Hin Hmut). split; [done|].
      destruct (handle_mutation_failure _ _ _ _ _ Hin Hcode H2) as (i & Hi & Hr).
      exists i. split; [|done]. unfold effects. rewrite map_app. simpl.
      by destruct Hi as (_ & -> & _).
Qed.

Lemma ambiguous_mutation_goes_to_review_witness :
  let r := run (unreachable deadline_exceeded) (runAny sample_env (sample_purge submitting_purge)) in
  ∃ c i, effects r.1 = [Rpc c; i] ∧ ends_in_review i.
Proof.
  set (m := runAny sample_env (sample_purge submitting_purge)).
  pose proof (run_is_trace (unreachable deadline_exceeded) m) as Ht. cbv zeta.
  eexists. refine (proj2 (ambiguous_mutation_goes_to_review sample_env (sample_purge submitting_purge)
    _ _ _ (transportError deadline_exceeded None) eq_refl Ht _ _ _)).
  - apply list_elem_of_singleton. reflexivity.
  - reflexivity.
  - discriminate.
Defined.

(** ** Success rests on observed evidence *)

(** The observation that a successful completion of each capability rests on. *)
Definition success_evidence (aw : AnyWorkflow) (t : trace) : Prop :=
  match aw with
  | W_create w => ∃ q ob, omap observation_of t = [(q, Some ob)] ∧ own_request w q
      ∧ proves_owned (Some ob) = true ∧ ob.(io_powerState) = Some OBSERVED_RUNNING
  | W_power w => ∃ q ob, omap observation_of t = [(q, Some ob)] ∧ own_request w q
      ∧ proves_owned (Some ob) = true
      ∧ ob.(io_powerState) = Some (PowerInstance.EXPECTED_POWER_STATE (PowerInstance.requestedAction w))
  | W_resize w => ∃ q ob, omap observation_of t = [(q, Some ob)] ∧ own_request w q
      ∧ proves_owned (Some ob) = true
      ∧ ∀ cpu, ob.(io_resources) ≫= pr_cpuCount = Some cpu →
          let target := w.(claimed_command).(data).(resize_targetResources) in
          cpu = target.(cpuCount) ∧ ob.(io_resources) ≫= pr_memoryMib = Some target.(memoryMiB)
          ∧ ob.(io_resources) ≫= pr_diskGib = Some target.(diskGiB)
  | W_snapshot a w => ∃ q names, omap listing_of t = [(q, names)] ∧ own_request w q
      ∧ match a with
        | Snapshot.Create => Some (Snapshot.expectedName a w.(claimed_command).(data)) ∈ default [] names
        | Snapshot.Rollback => True
        | Snapshot.Delete => Some (Snapshot.expectedName a w.(claimed_command).(data)) ∉ default [] names
        end
  | W_retain w => ∃ q ob, omap observation_of t = [(q, Some ob)] ∧ own_request w q
      ∧ proves_owned (Some ob) = true
  | W_purge w => ∃ q ob, omap observation_of t = [(q, ob)] ∧ own_request w q
      ∧ truth (ob ≫= io_exists) = false
  end.

Lemma observed_once (q : InstanceRequest) (ob : option InstanceObservation) (i : effect) (t : trace) (o : outcome) :
  written i t o → omap observation_of (Exchange (Rpc (observeInstance q)) (Reply ob) :: t) = [(q, ob)].
Proof.
  intros Hw. transitivity ((q, ob) :: omap observation_of t); [done|].
  by rewrite (proj1 (written_no_observation _ _ _ Hw)).
Qed.

Lemma listed_once (q : InstanceRequest) (l : option (list (option string))) (i : effect) (t : trace) (o : outcome) :
  written i t o → omap listing_of (Exchange (Rpc (listSnapshots q)) (Reply l) :: t) = [(q, l)].
Proof.
  intros Hw. transitivity ((q, l) :: omap listing_of t); [done|].
  by rewrite (proj2 (written_no_observation _ _ _ Hw)).
Qed.

Lemma own_request_intro {D} `{LifecycleCapability D} (w : ClaimedWorkflow D) (s r : string) :
  present w.(claimed_providerResourceId) = Some r →
  own_request w {| context := call_context w s; request_providerResourceId := r;
                   expectedOwnershipMarkers := ownership w |}.
Proof. intros [Hr Hne]%present_Some. done. Qed.

Lemma written_in (i j : effect) (t : trace) (o : outcome) :
  written i t o → j ∈ effects t → i = j.
Proof. intros (_ & Hm & _) Hin. unfold effects in Hin. rewrite Hm in Hin. by apply list_elem_of_singleton in Hin. Qed.

Lemma written_after_call (i j : effect) (x : exchange reply) (t : trace) (o : outcome) :
  written i t o → is_write j = true → is_write (effect_of x) = false → j ∈ effects (x :: t) → i = j.
Proof.
  intros Hw Hj Hx Hin. unfold effects in Hin. simpl in Hin.
  apply elem_of_cons in Hin as [->|Hin]; [congruence|]. by eapply written_in.
Qed.

(** Reads which write the trace ended with. *)
Ltac known_write Hin :=
  match goal with
  | Hw : written _ _ _ |- _ =>
      first [eapply written_in in Hin; [|exact Hw]
            |eapply written_after_call in Hin; [|exact Hw|reflexivity|reflexivity]]
  end.

Lemma execute_success (env : Environment) (aw : AnyWorkflow) (t : trace) (o : outcome) (c : CompleteInput) :
  traces (execute_any env aw) t o → Complete c ∈ effects t → c.(co_status) = status_succeeded →
  success_evidence aw t.
Proof.
  destruct aw as [w|w|w|[] w|w|w]; simpl; intros H Hin Hs; exec H.
  all: try by apply elem_of_nil in Hin.
  all: try (known_write Hin; try discriminate; injection Hin as <-; simpl in Hs; try discriminate).
  all: try (unfold effects in Hin; simpl in Hin; apply list_elem_of_singleton in Hin; discriminate).
  all: try congruence.
  all: unbool; simplify_eq.
  all: eexists _, _; split_and!;
    [first [by eapply observed_once|by eapply listed_once]|by apply own_request_intro|..]; try done.
  - by apply dec_stable.
  - intros cpu Hcpu. unfold ResizeInstance.disagrees in *. rewrite Hcpu in *. by unbool.
  - unfold Snapshot.satisfied in *. simpl in *. by unbool.
  - unfold Snapshot.satisfied in *. simpl in *. by unbool.
Qed.

Lemma handle_no_success (env : Environment) (aw : AnyWorkflow) (e : ProviderTransportError)
    (t : trace) (o : outcome) (c : CompleteInput) :
  traces (handle_any env aw e) t o → Complete c ∈ effects t → c.(co_status) ≠ status_succeeded.
Proof.
  destruct aw as [w|w|w|a w|w|w]; unfold handle_any, on_claimed; intros H Hin; exec H;
    first [by apply elem_of_nil in Hin|known_write Hin; try discriminate Hin; by injection Hin as <-].
Qed.


Definition sample_resize : AnyWorkflow :=
  W_resize (sample_claim {| resize_flavorId := "f2"; resize_targetResources :=
    {| cpuCount := 4; memoryMiB := 4096; diskGiB := 40 |}; resize_providerProfileId := "pp";
    resize_createOperationId := "o0" |} resize_instance observing_resize).

