(* ===== verification/ExecutorProgress.v ===== *)
(** * Progress, retries and identities of the executors

    Which checkpoints a step may write, the bounds of the retry policy, what a
    purge must prove first, and the identity every remote call carries. *)
From S2P Require Import Prelude JsText SshKey Domain WorkflowStage Events Saga ProviderPort Lifecycle Capabilities Executors ExecutorSafety.
From Stdlib Require Import ZArith Lia Bool String.
From stdpp Require Import base decidable list strings.
Open Scope string_scope.
Open Scope Z_scope.
Open Scope prog_scope.

(** Splits the membership of an effect in a trace whose last exchange is a
    known write. *)
Lemma effects_written (i j : effect) (t : trace) (o : outcome) :
  written i t o → j ∈ effects t ↔ j = i.
Proof. intros Hw. rewrite (written_effects _ _ _ Hw). by rewrite list_elem_of_singleton. Qed.

Lemma effects_cons (j : effect) (x : exchange reply) (t : trace) :
  j ∈ effects (x :: t) ↔ j = effect_of x ∨ j ∈ effects t.
Proof. unfold effects. simpl. by rewrite elem_of_cons. Qed.

Lemma effects_app (j : effect) (t1 t2 : trace) : j ∈ effects (t1 ++ t2) ↔ j ∈ effects t1 ∨ j ∈ effects t2.
Proof. unfold effects. by rewrite map_app, elem_of_app. Qed.

Lemma effects_nil (j : effect) : j ∈ effects [] ↔ False.
Proof. unfold effects. simpl. split; [by intros ?%elem_of_nil|done]. Qed.

(** Turns [Hin : j ∈ effects t] into the equalities it can come from. *)
Ltac split_effects Hin :=
  rewrite ?effects_app, ?effects_cons, ?effects_nil in Hin;
  repeat match goal with
  | Hw : written _ ?t _ |- _ => rewrite (effects_written _ _ t _ Hw) in Hin
  end;
  cbn [effect_of] in Hin;
  repeat match type of Hin with _ ∨ _ => destruct Hin as [Hin|Hin] end;
  try contradiction; try discriminate Hin; try (injection Hin as Hin).

#[local] Arguments STAGE_PROGRESS_PERCENT : simpl never.

(** ** Checkpoints *)

(** A checkpoint of a step: it stays at the stage, delayed, or moves to a stage
    of strictly higher progress; the event reports the same stage; and the
    provider resource already known is not lost. *)
Definition good_checkpoint (aw : AnyWorkflow) (i : CheckpointInput) : Prop :=
  ((i.(cp_stage) = any_stage aw ∧ is_Some i.(cp_nextAttemptAt))
   ∨ STAGE_PROGRESS_PERCENT (Active (any_stage aw)) < STAGE_PROGRESS_PERCENT (Active i.(cp_stage)))
  ∧ (∃ d, i.(cp_event).(data) = WorkflowProgressed d ∧ d.(progressed_stage) = stage_text i.(cp_stage))
  ∧ (is_Some (on_claimed (λ _ _ w, present w.(claimed_providerResourceId)) aw) →
     is_Some (i.(cp_providerResourceId))).

Lemma execute_checkpoint (env : Environment) (aw : AnyWorkflow) (t : trace) (o : outcome) (i : CheckpointInput) :
  traces (execute_any env aw) t o → Checkpoint i ∈ effects t → good_checkpoint aw i.
Proof.
  destruct aw as [w|w|w|[] w|w|w]; simpl; intros H Hin; exec H; split_effects Hin; subst i.
  all: unfold good_checkpoint, any_stage; simpl.
  all: split_and!;
    [first [left; split; [first [done|by symmetry]|by eexists]
           |right; match goal with E : claimed_stage _ = ?s |- STAGE_PROGRESS_PERCENT (Active ?g) < _ =>
              replace g with s by (symmetry; exact E) end; reflexivity]
    |by eexists|].
  all: unfold no_options; simpl; intros [r Hr].
  all: try exact (ex_intro _ r Hr).
  all: match goal with E : present (coalesce _ _) = Some ?s |- _ =>
    apply present_Some in E as [_ Hne];
    change (is_Some (coalesce (present (Some s)) (present (claimed_providerResourceId w))));
    rewrite (proj2 (present_Some (Some s) s)) by done; by eexists end.
Qed.

(** ** Retries *)

(** What the retry policy promises of a retry checkpoint. *)
Definition bounded_retry (env : Environment) (aw : AnyWorkflow) (i : CheckpointInput) (r : RetryState) : Prop :=
  i.(cp_stage) = any_stage aw
  ∧ r.(retry_attempt) = any_stageAttempt aw + 1 ∧ r.(retry_attempt) < MAXIMUM_RETRY_ATTEMPTS
  ∧ r.(retry_startedAt) = default (now env) (any_retryStartedAt aw)
  ∧ ∃ next, i.(cp_nextAttemptAt) = Some next
      ∧ now env ≤ next
      ∧ next ≤ now env + exponentialCeiling r.(retry_attempt)
      ∧ next ≤ now env + RETRY_BACKOFF_CEILING_MS
      ∧ next ≤ r.(retry_startedAt) + RETRY_BUDGET_MS.

(** When the policy gives up. *)
Definition retry_exhausted (env : Environment) (aw : AnyWorkflow) : Prop :=
  MAXIMUM_RETRY_ATTEMPTS ≤ any_stageAttempt aw + 1
  ∨ default (now env) (any_retryStartedAt aw) + RETRY_BUDGET_MS ≤ now env.

Lemma delay_bounds (n d ceiling : Z) :
  0 < d → 0 ≤ n < d → 0 ≤ ceiling → 0 ≤ n * ceiling / d ≤ ceiling.
Proof.
  intros Hd Hn Hc. split; [apply Z.div_pos; nia|].
  apply Z.div_le_upper_bound; nia.
Qed.

Lemma exponentialCeiling_range (n : Z) : 0 ≤ exponentialCeiling n ≤ RETRY_BACKOFF_CEILING_MS.
Proof.
  unfold exponentialCeiling, RETRY_BACKOFF_CEILING_MS, RETRY_BACKOFF_BASE_MS.
  pose proof (Z.pow_nonneg 2 (n - 1)). lia.
Qed.

(** The facts of a retry checkpoint, for a claim with the given retry state. *)
Record retry_facts (env : Environment) (stageAttempt : Z) (startedAt : option Z) (s : WorkflowStage)
    (resource : option string) (i : CheckpointInput) : Prop := {
  rf_attempt : stageAttempt + 1 < MAXIMUM_RETRY_ATTEMPTS;
  rf_budget : 0 < default (now env) startedAt + RETRY_BUDGET_MS - now env;
  rf_stage : i.(cp_stage) = s;
  rf_resource : i.(cp_providerResourceId) = resource;
  rf_event : ∃ x, i.(cp_event).(data) = WorkflowProgressed x ∧ x.(progressed_stage) = stage_text i.(cp_stage);
  rf_next : ∃ n d, 0 < d ∧ 0 ≤ n < d ∧ i.(cp_nextAttemptAt) = Some (now env +
     Z.min (n * exponentialCeiling (stageAttempt + 1) / d)
       (default (now env) startedAt + RETRY_BUDGET_MS - now env));
  rf_retry : ∃ r, i.(cp_retry) = Some r ∧ r.(retry_attempt) = stageAttempt + 1
     ∧ r.(retry_startedAt) = default (now env) startedAt;
}.

Definition any_resource : AnyWorkflow → option string :=
  on_claimed (λ _ _ w, present w.(claimed_providerResourceId)).

Lemma handle_retry_facts (env : Environment) (aw : AnyWorkflow) (e : ProviderTransportError)
    (t : trace) (o : outcome) (i : CheckpointInput) :
  traces (handle_any env aw e) t o → Checkpoint i ∈ effects t →
  retry_facts env (any_stageAttempt aw) (any_retryStartedAt aw) (any_stage aw) (any_resource aw) i.
Proof.
  assert (Hgen : ∀ D (cap : LifecycleCapability D) (w : ClaimedWorkflow D),
    traces (handleProviderError env w e) t o → Checkpoint i ∈ effects t →
    retry_facts env (claimed_stageAttempt w) (claimed_retryStartedAt w) (claimed_stage w)
      (present (claimed_providerResourceId w)) i).
  { intros D cap w H Hin. exec H; split_effects Hin. subst i. unbool.
    split; simpl; try done; try lia; try by eexists.
    do 2 eexists. split; [|split; [|reflexivity]]; lia. }
  intros H Hin. destruct aw as [w|w|w|a w|w|w]; exact (Hgen _ _ w H Hin).
Qed.

Lemma handle_checkpoint (env : Environment) (aw : AnyWorkflow) (e : ProviderTransportError)
    (t : trace) (o : outcome) (i : CheckpointInput) :
  traces (handle_any env aw e) t o → Checkpoint i ∈ effects t →
  good_checkpoint aw i ∧ ∃ r, i.(cp_retry) = Some r ∧ bounded_retry env aw i r.
Proof.
  intros H Hin. destruct (handle_retry_facts _ _ _ _ _ _ H Hin)
    as [Ha Hb Hs Hr He (n & d & Hd & Hn & Hnext) (r & Hret & Hra & Hrs)].
  pose proof (exponentialCeiling_range (any_stageAttempt aw + 1)) as Hc.
  pose proof (delay_bounds n d (exponentialCeiling (any_stageAttempt aw + 1)) Hd Hn (proj1 Hc)) as Hdl.
  split; [split_and!|exists r; split; [done|split_and!]]; try done; try lia.
  - left. split; [done|]. rewrite Hnext. by eexists.
  - unfold any_resource in Hr. by rewrite Hr.
  - eexists. split; [exact Hnext|]. rewrite Hra, Hrs. split_and!; lia.
Qed.

Lemma handle_dead_letter (env : Environment) (aw : AnyWorkflow) (e : ProviderTransportError)
    (t : trace) (o : outcome) (i : DeadLetterInput) :
  traces (handle_any env aw e) t o → DeadLetterWorkflow i ∈ effects t →
  retry_exhausted env aw ∧ e.(retryable) = true.
Proof.
  assert (Hgen : ∀ D (cap : LifecycleCapability D) (w : ClaimedWorkflow D),
    traces (handleProviderError env w e) t o → DeadLetterWorkflow i ∈ effects t →
    (MAXIMUM_RETRY_ATTEMPTS ≤ claimed_stageAttempt w + 1
     ∨ default (now env) (claimed_retryStartedAt w) + RETRY_BUDGET_MS ≤ now env) ∧ e.(retryable) = true).
  { intros D cap w H Hin. exec H; split_effects Hin. split; [|done].
    unbool. destruct_or?; unbool; lia. }
  intros H Hin. destruct aw as [w|w|w|a w|w|w]; exact (Hgen _ _ w H Hin).
Qed.

Lemma execute_no_retry (env : Environment) (aw : AnyWorkflow) (t : trace) (o : outcome) (i : CheckpointInput) :
  traces (execute_any env aw) t o → Checkpoint i ∈ effects t → i.(cp_retry) = None.
Proof. destruct aw as [w|w|w|[] w|w|w]; simpl; intros H Hin; exec H; split_effects Hin; by subst i. Qed.

Lemma execute_no_dead_letter (env : Environment) (aw : AnyWorkflow) (t : trace) (o : outcome) (i : DeadLetterInput) :
  traces (execute_any env aw) t o → DeadLetterWorkflow i ∉ effects t.
Proof. destruct aw as [w|w|w|[] w|w|w]; simpl; intros H Hin; exec H; split_effects Hin. Qed.

(** Progress never goes back.  Every checkpoint a step writes either keeps
    the stage and delays the next claim (a task still running, or a retry), or
    moves to a stage of strictly higher progress percentage, so the
    stages of a workflow are visited in order; its event reports the stage
    written, and a provider resource identifier that was known is carried
    forward. *)
Theorem progress_is_monotone (env : Environment) (aw : AnyWorkflow) (t : trace) (o : outcome)
    (i : CheckpointInput) (Ht : traces (runAny env aw) t o) (Hin : Checkpoint i ∈ effects t) :
  good_checkpoint aw i.
Proof.
  apply runAny_traces in Ht as [[_ ->]|[_ [[Ht _]|(t1 & t2 & e & -> & H1 & H2)]]].
  - by apply effects_nil in Hin.
  - by eapply execute_checkpoint.
  - apply effects_app in Hin as [Hin|Hin]; [by eapply execute_checkpoint|].
    by eapply handle_checkpoint, Hin.
Qed.

Lemma progress_is_monotone_witness :
  let r := run healthy (runAny sample_env (sample_purge submitting_purge)) in
  ∃ i, effects r.1 !! 1%nat = Some (Checkpoint i) ∧ good_checkpoint (sample_purge submitting_purge) i.
Proof.
  set (m := runAny sample_env (sample_purge submitting_purge)).
  pose proof (run_is_trace healthy m) as Ht. cbv zeta. eexists. split; [reflexivity|].
  eapply (progress_is_monotone sample_env (sample_purge submitting_purge) _ _ _ Ht).
  apply list_elem_of_lookup. exists 1%nat. reflexivity.
Defined.

(** The retry policy is bounded.  A retry checkpoint keeps the stage,
    counts one attempt more than the claim and stays below eight, keeps the
    start of the budget, and delays the next claim by at most the exponential
    ceiling, at most thirty seconds, and never past the fifteen-minute budget.
    A workflow is dead-lettered only when the eighth attempt is reached or the
    budget is spent. *)
Theorem retries_are_bounded (env : Environment) (aw : AnyWorkflow) (t : trace) (o : outcome)
    (Ht : traces (runAny env aw) t o) :
  (∀ i r, Checkpoint i ∈ effects t → i.(cp_retry) = Some r → bounded_retry env aw i r)
  ∧ (∀ i, DeadLetterWorkflow i ∈ effects t → retry_exhausted env aw).
Proof.
  apply runAny_traces in Ht as [[_ ->]|[_ [[Ht _]|(t1 & t2 & e & -> & H1 & H2)]]].
  - split; [intros i r Hin|intros i Hin]; by apply effects_nil in Hin.
  - split; [intros i r Hin Hr|intros i Hin].
    + by rewrite (execute_no_retry _ _ _ _ _ Ht Hin) in Hr.
    + by apply (execute_no_dead_letter _ _ _ _ _ Ht) in Hin.
  - split; [intros i r Hin Hr|intros i Hin]; apply effects_app in Hin as [Hin|Hin].
    + by rewrite (execute_no_retry _ _ _ _ _ H1 Hin) in Hr.
    + destruct (handle_checkpoint _ _ _ _ _ _ H2 Hin) as (_ & r' & Hr' & Hb). congruence.
    + by apply (execute_no_dead_letter _ _ _ _ _ H1) in Hin.
    + by destruct (handle_dead_letter _ _ _ _ _ _ H2 Hin).
Qed.

Lemma retries_are_bounded_witness :
  let r := run (unreachable unavailable) (runAny sample_env (sample_purge verifying_purge)) in
  ∃ i s, effects r.1 !! 1%nat = Some (Checkpoint i) ∧ i.(cp_retry) = Some s
    ∧ bounded_retry sample_env (sample_purge verifying_purge) i s.
Proof.
  set (m := runAny sample_env (sample_purge verifying_purge)).
  pose proof (run_is_trace (unreachable unavailable) m) as Ht. cbv zeta.
  eexists _, _. split; [reflexivity|]. split; [reflexivity|].
  apply (proj1 (retries_are_bounded sample_env (sample_purge verifying_purge) _ _ Ht)).
  - apply list_elem_of_lookup. exists 1%nat. reflexivity.
  - reflexivity.
Defined.

(** ** The destructive call *)

Lemma execute_purge_calls (env : Environment) (aw : AnyWorkflow) (t : trace) (o : outcome)
    (q : InstanceRequest) (authorization : string) (deadline : Z) :
  traces (execute_any env aw) t o → Rpc (purgeInstance q authorization deadline) ∈ effects t →
  ∃ w, aw = W_purge w ∧ claimed_stage w = submitting_purge ∧ own_request w q
    ∧ authorization = w.(claimed_command).(data).(purge_authorizationId)
    ∧ deadline = w.(claimed_command).(data).(purge_retentionDeadline).
Proof.
  destruct aw as [w|w|w|[] w|w|w]; simpl; intros H Hin; exec H; split_effects Hin.
  all: subst; exists w; split_and!; try done; by apply own_request_intro.
Qed.

Lemma execute_purge_checkpoint (env : Environment) (w : ClaimedWorkflow PurgeData) (t : trace)
    (o : outcome) (i : CheckpointInput) :
  traces (PurgeInstance.execute env w) t o → Checkpoint i ∈ effects t → i.(cp_stage) = submitting_purge →
  claimed_stage w = verifying_purge
  ∧ ∃ q ob, omap observation_of t = [(q, Some ob)] ∧ own_request w q ∧ proves_owned (Some ob) = true.
Proof.
  intros H Hin Hs; exec H; split_effects Hin; subst i; simpl in Hs; try discriminate.
  split; [done|]. unbool. destruct x0 as [ob|]; [|done].
  eexists _, _. split_and!; [by eapply observed_once|by apply own_request_intro|done].
Qed.

Lemma handle_only_writes (env : Environment) (aw : AnyWorkflow) (e : ProviderTransportError)
    (t : trace) (o : outcome) (c : rpc) :
  traces (handle_any env aw e) t o → Rpc c ∉ effects t.
Proof.
  destruct aw as [w|w|w|a w|w|w]; unfold handle_any, on_claimed; intros H Hin; exec H; split_effects Hin.
Qed.

(** C39: The destructive call is guarded.  [purgeInstance] is called by the
    purge capability only, only at its stage [submitting_purge], on the
    workflow's own resource under its own markers, with the authorization and
    deadline of the accepted command; and a purge step moves a workflow to that
    stage only from [verifying_purge], after a live observation in the same
    step proved the resource exists and carries this control plane's complete
    matching ownership markers. *)
Theorem purge_is_verified (env : Environment) (aw : AnyWorkflow) (t : trace) (o : outcome)
    (Ht : traces (runAny env aw) t o) :
  (∀ q authorization deadline, Rpc (purgeInstance q authorization deadline) ∈ effects t →
     ∃ w, aw = W_purge w ∧ claimed_stage w = submitting_purge ∧ own_request w q
       ∧ authorization = w.(claimed_command).(data).(purge_authorizationId)
       ∧ deadline = w.(claimed_command).(data).(purge_retentionDeadline))
  ∧ (∀ w i, aw = W_purge w → Checkpoint i ∈ effects t → i.(cp_stage) = submitting_purge →
       claimed_stage w ≠ submitting_purge →
       claimed_stage w = verifying_purge
       ∧ ∃ q ob, omap observation_of t = [(q, Some ob)] ∧ own_request w q ∧ proves_owned (Some ob) = true).
Proof.
  apply runAny_traces in Ht as [[_ ->]|[_ [[Ht _]|(t1 & t2 & e & -> & H1 & H2)]]].
  - split; [intros q a d Hin|intros w i _ Hin]; by apply effects_nil in Hin.
  - split; [intros ???; by apply execute_purge_calls with (1 := Ht)|].
    intros w i -> Hin Hs _. by eapply execute_purge_checkpoint.
  - split.
    + intros q a d Hin. apply effects_app in Hin as [Hin|Hin]; [by eapply execute_purge_calls|].
      by apply handle_only_writes with (1 := H2) in Hin.
    + intros w i -> Hin Hs Hne. apply effects_app in Hin as [Hin|Hin].
      * destruct (execute_failure _ _ _ _ _ H1 eq_refl) as [[-> _]|(c & -> & _)]; by split_effects Hin.
      * exfalso. apply Hne. rewrite <- Hs. symmetry.
        exact (rf_stage _ _ _ _ _ _ (handle_retry_facts _ _ _ _ _ _ H2 Hin)).
Qed.

Lemma purge_is_verified_witness :
  let r := run healthy (runAny sample_env (sample_purge submitting_purge)) in
  ∃ q a d, effects r.1 !! 0%nat = Some (Rpc (purgeInstance q a d)) ∧ a = "auth".
Proof.
  set (m := runAny sample_env (sample_purge submitting_purge)).
  pose proof (run_is_trace healthy m) as Ht. cbv zeta. eexists _, _, _. split; [reflexivity|].
  destruct (proj1 (purge_is_verified sample_env (sample_purge submitting_purge) _ _ Ht) _ _ _
    (list_elem_of_lookup_2 (effects (run healthy m).1) 0%nat (Rpc (purgeInstance _ _ _)) eq_refl)) as (w & [= <-] & _ & _ & Ha & _).
  exact Ha.
Defined.

(** ** The identity of a call *)

Inductive capability_key : Set :=
| K_create | K_power (a : PowerAction) | K_resize | K_snapshot (a : Snapshot.SnapshotAction)
| K_retain | K_purge.

Definition any_key (aw : AnyWorkflow) : capability_key :=
  match aw with
  | W_create _ => K_create
  | W_power w => K_power (PowerInstance.requestedAction w)
  | W_resize _ => K_resize
  | W_snapshot a _ => K_snapshot a
  | W_retain _ => K_retain
  | W_purge _ => K_purge
  end.

(** The step name of the one call a stage makes, as a reference table. *)
Definition request_step (k : capability_key) (s : WorkflowStage) : option string :=
  match k, s with
  | K_create, submitting_create => Some "create"
  | K_create, (polling_create | polling_configuration | polling_start) => Some ("poll-" ++ stage_text s)
  | K_create, configuring => Some "configure"
  | K_create, starting => Some "start"
  | K_create, observing => Some "observe"
  | K_power a, submitting_power => Some ("power-" ++ power_action_text a)
  | K_power _, polling_power => Some ("poll-" ++ stage_text s)
  | K_power _, observing_power => Some "observe-power"
  | K_resize, submitting_resize => Some "resize"
  | K_resize, polling_resize => Some ("poll-" ++ stage_text s)
  | K_resize, observing_resize => Some "observe-resize"
  | K_snapshot a, submitting_snapshot => Some (action_text (Snapshot.workflow_action a))
  | K_snapshot _, polling_snapshot => Some ("poll-" ++ stage_text s)
  | K_snapshot a, observing_snapshot => Some (action_text (Snapshot.workflow_action a) ++ "-observe")
  | K_retain, submitting_retention => Some "retain"
  | K_retain, polling_retention => Some ("poll-" ++ stage_text s)
  | K_retain, observing_retention => Some "observe-retention"
  | K_purge, verifying_purge => Some "verify-purge"
  | K_purge, submitting_purge => Some "purge"
  | K_purge, polling_purge => Some ("poll-" ++ stage_text s)
  | K_purge, observing_purge => Some "observe-purge"
  | _, _ => None
  end.

#[local] Arguments request_step : simpl never.

Lemma execute_request_identity (env : Environment) (aw : AnyWorkflow) (t : trace) (o : outcome) (c : rpc) :
  traces (execute_any env aw) t o → Rpc c ∈ effects t →
  ∃ s, request_step (any_key aw) (any_stage aw) = Some s
    ∧ (rpc_context c).(requestId) = (any_envelope aw).(operationId) ++ ":" ++ s
    ∧ (rpc_context c).(ctx_attempt) = 1
    ∧ (rpc_context c).(ctx_fencingToken) = string_of_Z (any_fencing aw).
Proof.
  destruct aw as [w|w|w|[] w|w|w]; simpl; intros H Hin; exec H; split_effects Hin; subst c.
  all: eexists; split; [|split; [reflexivity|split; reflexivity]].
  all: unfold any_stage, on_claimed; cbn beta iota.
  all: match goal with
    | E : claimed_stage _ = ?s |- request_step _ ?g = _ => replace g with s by (symmetry; exact E)
    | _ => idtac end; try reflexivity.
  all: match goal with E : PowerInstance.requestedAction _ = _ |- _ =>
    unfold request_step, any_key; rewrite E; reflexivity end.
Qed.

(** The identity a call presents is deterministic.  Whatever the clock, the
    worker, the fencing token and the number of claims, the call a step makes
    carries the operation's identifier followed by a step name that depends
    only on the capability (with the requested power action) and the stage,
    with attempt 1, so a replay after a crash presents the same identity;
    different stages of a capability present different identities; and the
    fencing token presented is the claim's own. *)
Theorem request_identity_deterministic (env : Environment) (aw : AnyWorkflow) (t : trace) (o : outcome)
    (c : rpc) (Ht : traces (runAny env aw) t o) (Hin : Rpc c ∈ effects t) :
  (∃ s, request_step (any_key aw) (any_stage aw) = Some s
     ∧ (rpc_context c).(requestId) = (any_envelope aw).(operationId) ++ ":" ++ s
     ∧ (rpc_context c).(ctx_attempt) = 1
     ∧ (rpc_context c).(ctx_fencingToken) = string_of_Z (any_fencing aw))
  ∧ ∀ k s1 s2 name, request_step k s1 = Some name → request_step k s2 = Some name → s1 = s2.
Proof.
  split.
  - apply runAny_traces in Ht as [[_ ->]|[_ [[Ht _]|(t1 & t2 & e & -> & H1 & H2)]]].
    + by apply effects_nil in Hin.
    + by eapply execute_request_identity.
    + apply effects_app in Hin as [Hin|Hin]; [by eapply execute_request_identity|].
      by apply handle_only_writes with (1 := H2) in Hin.
  - intros k s1 s2 name H1 H2. destruct k as [|[]| |[]| |], s1; simpl in H1; try discriminate H1;
      injection H1 as <-; destruct s2; try reflexivity; discriminate H2.
Qed.

Lemma request_identity_deterministic_witness :
  let r := run healthy (runAny sample_env (sample_purge submitting_purge)) in
  ∃ c, effects r.1 !! 0%nat = Some (Rpc c) ∧ (rpc_context c).(requestId) = "o1:purge".
Proof.
  set (m := runAny sample_env (sample_purge submitting_purge)).
  pose proof (run_is_trace healthy m) as Ht. cbv zeta. eexists. split; [reflexivity|].
  destruct (proj1 (request_identity_deterministic sample_env (sample_purge submitting_purge) _ _ _ Ht
    (list_elem_of_lookup_2 (effects (run healthy m).1) 0%nat (Rpc _) eq_refl))) as (s & [= <-] & Hid & _).
  exact Hid.
Defined.
