(* ===== verification/ExecutorFindings.v ===== *)
(** * Two consequences of the executors as written

    What a mutation does without a provider resource, and what a purge takes as
    evidence of absence. *)
From S2P Require Import Prelude JsText SshKey Domain WorkflowStage Events Saga ProviderPort Lifecycle Capabilities Executors.
From Stdlib Require Import ZArith Lia Bool String.
From stdpp Require Import base decidable list strings.
Open Scope string_scope.
Open Scope Z_scope.
Open Scope prog_scope.

Definition any_resource : AnyWorkflow → option string :=
  on_claimed (λ _ _ w, present w.(claimed_providerResourceId)).

(** The first stage at which a capability other than create addresses the
    provider. *)
Definition first_provider_stage (aw : AnyWorkflow) : option WorkflowStage :=
  match aw with
  | W_create _ => None
  | W_power _ => Some submitting_power
  | W_resize _ => Some submitting_resize
  | W_snapshot _ _ => Some submitting_snapshot
  | W_retain _ => Some submitting_retention
  | W_purge _ => Some verifying_purge
  end.

(** A write that ends the operation as failed with a code. *)
Definition ends_failed (code_text : string) (i : effect) : Prop :=
  ∃ c f, i = Complete c ∧ c.(co_status) = status_failed ∧ c.(co_event).(data) = MutationFailed f
    ∧ f.(failed_failure).(code) = code_text.

(** A call that was rejected ends the operation as failed, at every stage. *)
Lemma rejected_fails (env : Environment) (aw : AnyWorkflow) (t : trace) (o : outcome) :
  traces (handle_any env aw (transportError protocol_error (Some false))) t o →
  ∃ i, effects t = [i] ∧ ends_failed "PROVIDER_PROTOCOL_ERROR" i.
Proof.
  intros Ht. destruct aw as [w|w|w|a w|w|w]; unfold handle_any, on_claimed in Ht; exec Ht.
  all: try (unbool; simpl in *; congruence).
  all: unfold effects; destruct Ht as (_ & -> & _); eexists; split; [reflexivity|].
  all: eexists _, _; split_and!; reflexivity.
Qed.

(** Without the provider's resource identifier no capability but create can
    proceed: its first stage that addresses the provider makes no remote call
    at all and ends the operation as failed with PROVIDER_PROTOCOL_ERROR,
    whatever the provider would have answered. *)
Theorem mutation_without_resource_fails (env : Environment) (aw : AnyWorkflow) (t : trace) (o : outcome)
    (Hrouted : routed aw = true) (Hstage : first_provider_stage aw = Some (any_stage aw))
    (Hnone : any_resource aw = None) (Ht : traces (runAny env aw) t o) :
  ∃ i, effects t = [i] ∧ ends_failed "PROVIDER_PROTOCOL_ERROR" i.
Proof.
  apply runAny_traces in Ht as [[? _]|[_ Ht]]; [congruence|].
  assert (Hthrow : ∀ t o, traces (execute_any env aw) t o →
    t = [] ∧ o = Err (Transport (transportError protocol_error (Some false)))).
  { clear Ht. intros t' o' Ht.
    destruct aw as [w|w|w|a w|w|w]; simpl in Hstage; try discriminate Hstage; injection Hstage as Hstage;
      unfold any_stage, any_resource in *; simpl in *.
    all: exec_unfold Ht; rewrite <- Hstage in Ht; repeat exec_step Ht; try done; congruence. }
  destruct Ht as [[Ht Hno]|(t1 & t2 & e & -> & H1 & H2)].
  - apply Hthrow in Ht as [_ ->]. by destruct (Hno _ eq_refl).
  - apply Hthrow in H1 as [-> [= ->]]. by eapply rejected_fails.
Qed.

(** A purge takes a reply without an observation as proof of absence.  At
    its verifying stage and at its final stage alike, an answer that carries no
    observation at all completes the purge as succeeded, with the machine
    reported 'purged' and no destructive call made in that step. *)
Theorem purge_completes_without_observation (env : Environment) (w : ClaimedWorkflow PurgeData) (r : string)
    (outside : ∀ e, reply e)
    (Hrouted : w.(claimed_action) = purge_instance)
    (Hstage : w.(claimed_stage) = verifying_purge ∨ w.(claimed_stage) = observing_purge)
    (Hres : present w.(claimed_providerResourceId) = Some r)
    (Hsilent : ∀ q, outside (Rpc (observeInstance q)) = Reply None) :
  ∃ q c d, effects (run outside (runAny env (W_purge w))).1 = [Rpc (observeInstance q); Complete c]
    ∧ c.(co_status) = status_succeeded ∧ c.(co_event).(data) = MutationCompleted d
    ∧ d.(completed_lifecycleState) = "purged".
Proof.
  unfold runAny, runClaimed. rewrite bool_decide_eq_false_2 by (simpl; intros Hn; by apply Hn).
  unfold PurgeInstance.execute.
  destruct Hstage as [-> | ->]; unfold PurgeInstance.verifyOwnership, PurgeInstance.observeAbsence,
    PurgeInstance.completePurge, instance_request, requiredResource; rewrite Hres; simpl; rewrite Hsilent; simpl;
    destruct (outside _); simpl; eexists _, _, _; split_and!; reflexivity.
Qed.

Definition without_resource {D : Type} (w : ClaimedWorkflow D) : ClaimedWorkflow D :=
  {| claimed_action := w.(claimed_action); claimed_command := w.(claimed_command);
     claimed_traceContext := w.(claimed_traceContext); claimed_stage := w.(claimed_stage);
     claimed_attempt := w.(claimed_attempt); claimed_stageAttempt := w.(claimed_stageAttempt);
     claimed_retryStartedAt := w.(claimed_retryStartedAt); claimed_fencingToken := w.(claimed_fencingToken);
     claimed_providerResourceId := None; claimed_providerTaskReference := None |}.
Definition orphan_resize : AnyWorkflow :=
  W_resize (without_resource (sample_claim {| resize_flavorId := "f2"; resize_targetResources :=
    {| cpuCount := 4; memoryMiB := 4096; diskGiB := 40 |}; resize_providerProfileId := "pp";
    resize_createOperationId := "o0" |} resize_instance submitting_resize)).

Lemma mutation_without_resource_fails_witness :
  ∃ i, effects (run healthy (runAny sample_env orphan_resize)).1 = [i] ∧ ends_failed "PROVIDER_PROTOCOL_ERROR" i.
Proof.
  exact (mutation_without_resource_fails sample_env orphan_resize _ _ eq_refl eq_refl eq_refl
    (run_is_trace healthy (runAny sample_env orphan_resize))).
Defined.

(** A provider that answers observations with an empty message. *)
Definition silent (e : effect) : reply e :=
  match e return reply e with
  | Rpc (observeInstance q) => Reply None
  | e => healthy e
  end.

Lemma purge_completes_without_observation_witness :
  let w := sample_claim sample_purge_data purge_instance observing_purge in
  ∃ q c d, effects (run silent (runAny sample_env (W_purge w))).1 = [Rpc (observeInstance q); Complete c]
    ∧ c.(co_status) = status_succeeded ∧ c.(co_event).(data) = MutationCompleted d
    ∧ d.(completed_lifecycleState) = "purged".
Proof.
  exact (purge_completes_without_observation sample_env (sample_claim sample_purge_data purge_instance observing_purge)
    "vm-100" silent eq_refl (or_intror eq_refl) eq_refl (λ q, eq_refl)).
Defined.
