(* ===== verification/WorkflowRegistry.v ===== *)
(** * Routing claims to executors

    [packages/application/src/workflow-registry.ts]: one executor per action,
    offered a turn in rotation.  An executor is a function of the state it
    shares with the others; it may throw. *)
From S2P Require Import Prelude JsText SshKey Domain WorkflowStage.
From Stdlib Require Import ZArith Lia Bool String ZifyNat.
From stdpp Require Import base decidable list strings gmap.
Open Scope string_scope.
Open Scope nat_scope.

Section registry.
Context {S : Type}.

Record WorkflowExecutor : Type := {
  executor_action : WorkflowAction;
  executor_runOne : S → result error bool * S;
}.

Record WorkflowRegistry : Type := { executors : list WorkflowExecutor; cursor : nat }.

(** The check of the constructor: an action seen before is a duplicate. *)
Fixpoint check_duplicates (seen : gset WorkflowAction) (l : list WorkflowExecutor) : result error unit :=
  match l with
  | [] => Ok tt
  | x :: r =>
      if bool_decide (executor_action x ∈ seen) then
        Err (Fault ("Duplicate workflow executor for action " ++ action_text (executor_action x) ++ "."))
      else check_duplicates ({[ executor_action x ]} ∪ seen) r
  end.

Definition newRegistry (l : list WorkflowExecutor) : result error WorkflowRegistry :=
  rbind (check_duplicates ∅ l) (λ _, Ok {| executors := l; cursor := 0 |}).

Definition actions (r : WorkflowRegistry) : list WorkflowAction := map executor_action (executors r).

(** The loop of [runOne], [steps] attempts from [attempt].  [Ok (Some i)]: the
    executor at index [i] advanced a workflow on that attempt. *)
Fixpoint offer (r : WorkflowRegistry) (steps attempt : nat) (s : S) : result error (option nat) * S :=
  match steps with
  | O => (Ok None, s)
  | Datatypes.S steps =>
      let i := (cursor r + attempt) mod List.length (executors r) in
      match executors r !! i with
      | None => offer r steps (attempt + 1) s
      | Some x =>
          match executor_runOne x s with
          | (Ok true, s') => (Ok (Some attempt), s')
          | (Ok false, s') => offer r steps (attempt + 1) s'
          | (Err e, s') => (Err e, s')
          end
      end
  end.

(** The result, the registry with its moved cursor, and the state. *)
Definition registry_runOne (r : WorkflowRegistry) (s : S) : result error bool * WorkflowRegistry * S :=
  let n := List.length (executors r) in
  match offer r n 0 s with
  | (Ok (Some attempt), s') =>
      (Ok true, {| executors := executors r; cursor := (cursor r + attempt + 1) mod n |}, s')
  | (Ok None, s') => (Ok false, r, s')
  | (Err e, s') => (Err e, r, s')
  end.

(** The index of the executor that advanced on a tick. *)
Definition winner (r : WorkflowRegistry) (s : S) : option nat :=
  match (offer r (List.length (executors r)) 0 s).1 with
  | Ok (Some attempt) => Some ((cursor r + attempt) mod List.length (executors r))
  | _ => None
  end.

(** The winners of successive ticks. *)
Fixpoint winners (ticks : nat) (r : WorkflowRegistry) (s : S) : list (option nat) :=
  match ticks with
  | O => []
  | Datatypes.S ticks =>
      let '(_, r', s') := registry_runOne r s in winner r s :: winners ticks r' s'
  end.

(** ** Lemmas *)

Lemma check_duplicates_Ok (l : list WorkflowExecutor) (seen : gset WorkflowAction) :
  check_duplicates seen l = Ok tt ↔
    NoDup (map executor_action l) ∧ ∀ a, a ∈ map executor_action l → a ∉ seen.
Proof.
  revert seen. induction l as [|x l IH]; intros seen; simpl.
  - split; [split; [constructor|by intros a ?%elem_of_nil]|done].
  - case_bool_decide as Hin.
    + split; [done|]. intros [_ H]. destruct (H (executor_action x)); [by left|done].
    + rewrite IH, NoDup_cons. setoid_rewrite elem_of_cons. split.
      * intros [Hnd H]. split_and!; [|done|].
        -- intros Hx. destruct (H _ Hx). set_solver.
        -- intros a [->|Ha]; [done|]. specialize (H a Ha). set_solver.
      * intros [[Hx Hnd] H]. split; [done|]. intros a Ha [Heq|Hs]%elem_of_union.
        -- apply elem_of_singleton in Heq. by subst.
        -- destruct (H a); [by right|done].
Qed.

(** An executor that always has work, and never throws. *)
Definition always_ready (x : WorkflowExecutor) : Prop := ∀ s, (executor_runOne x s).1 = Ok true.
Definition never_throws (x : WorkflowExecutor) : Prop := ∀ s, is_ok (executor_runOne x s).1 = true.

Lemma offer_ready (r : WorkflowRegistry) (j d : nat) (x : WorkflowExecutor) :
  executors r !! j = Some x → always_ready x →
  (∀ y, y ∈ executors r → never_throws y) →
  (cursor r + d) mod List.length (executors r) = j →
  ∀ steps attempt s, attempt <= d → d < attempt + steps →
  ∃ a s', offer r steps attempt s = (Ok (Some a), s') ∧ attempt <= a <= d.
Proof.
  intros Hj Hready Hsafe Hd. induction steps as [|steps IH]; intros attempt s Ha Hs; [lia|].
  simpl. destruct (decide (attempt = d)) as [->|Hne].
  - rewrite Hd, Hj. specialize (Hready s). destruct (executor_runOne x s) as [[b|e] s'] eqn:E; [|done].
    simpl in Hready. injection Hready as ->. eexists _, _. split; [done|lia].
  - destruct (executors r !! ((cursor r + attempt) mod List.length (executors r))) as [y|] eqn:Hy.
    + assert (Hy' : y ∈ executors r) by (by eapply list_elem_of_lookup_2).
      specialize (Hsafe y Hy' s).
      destruct (executor_runOne y s) as [[[]|e] s'] eqn:E;
        [eexists _, _; split; [reflexivity|lia]| |discriminate Hsafe].
      destruct (IH (attempt + 1) s') as (a & s'' & -> & ?); [lia..|].
      eexists _, _. split; [done|lia].
    + destruct (IH (attempt + 1) s) as (a & s'' & -> & ?); [lia..|].
      eexists _, _. split; [done|lia].
Qed.

(** How far the cursor is before an executor. *)
Definition distance (n c j : nat) : nat := (j + n - c) mod n.

Lemma mod_wrap (n m : nat) : n <= m < 2 * n → m mod n = m - n.
Proof.
  intros Hm. replace m with (m - n + 1 * n) at 1 by lia.
  rewrite Nat.Div0.mod_add. apply Nat.mod_small. lia.
Qed.

Lemma distance_eq (n c j : nat) :
  c < n → j < n → distance n c j = if decide (c <= j) then j - c else j + n - c.
Proof.
  intros Hc Hj. unfold distance. case_decide.
  - rewrite mod_wrap by lia. lia.
  - apply Nat.mod_small. lia.
Qed.

Lemma distance_spec (n c j : nat) : c < n → j < n → (c + distance n c j) mod n = j ∧ distance n c j < n.
Proof.
  intros Hc Hj. rewrite distance_eq by done. case_decide; (split; [|lia]).
  - replace (c + (j - c)) with j by lia. by apply Nat.mod_small.
  - rewrite mod_wrap; lia.
Qed.

Lemma distance_decreases (n c j a : nat) :
  c < n → j < n → a < distance n c j → distance n ((c + a + 1) mod n) j < distance n c j.
Proof.
  intros Hc Hj Ha. rewrite distance_eq in Ha by done. rewrite (distance_eq n c) by done.
  assert (Hm : (c + a + 1) mod n = if decide (c + a + 1 < n) then c + a + 1 else c + a + 1 - n).
  { destruct (decide (c + a + 1 < n)); [by apply Nat.mod_small|]. apply mod_wrap.
    destruct (decide (c <= j)); lia. }
  rewrite distance_eq; [|rewrite Hm; repeat case_decide; lia|done].
  rewrite Hm. repeat case_decide; lia.
Qed.

Lemma ready_is_served (j : nat) (x : WorkflowExecutor) (ticks : nat) :
  ∀ (r : WorkflowRegistry) (s : S),
  executors r !! j = Some x → always_ready x → (∀ y, y ∈ executors r → never_throws y) →
  cursor r < List.length (executors r) → distance (List.length (executors r)) (cursor r) j < ticks →
  Some j ∈ winners ticks r s.
Proof.
  induction ticks as [|ticks IH]; intros r s Hj Hready Hsafe Hc Hd; [lia|].
  set (n := List.length (executors r)) in *.
  assert (Hjn : j < n) by (by apply lookup_lt_Some in Hj).
  destruct (distance_spec n (cursor r) j Hc Hjn) as [Hmod Hlt].
  destruct (offer_ready r j (distance n (cursor r) j) x Hj Hready Hsafe Hmod n 0 s) as (a & s' & Ho & Ha);
    [lia..|].
  simpl. unfold registry_runOne, winner. fold n. rewrite Ho. simpl.
  destruct (decide (a = distance n (cursor r) j)) as [->|Hne].
  - rewrite Hmod. by left.
  - right. apply IH; simpl; try done.
    + fold n. apply Nat.mod_upper_bound. lia.
    + fold n. pose proof (distance_decreases n (cursor r) j a Hc Hjn ltac:(lia)). lia.
Qed.

(** ** Properties *)

(** Routing is unambiguous: a registry is constructed exactly when no two
    executors claim the same action. *)
Theorem registry_actions_distinct (l : list WorkflowExecutor) :
  is_ok (newRegistry l) = true ↔ NoDup (map executor_action l).
Proof.
  unfold newRegistry. destruct (check_duplicates ∅ l) as [[]|e] eqn:E; simpl.
  - split; [intros _|done]. by apply check_duplicates_Ok in E as [? _].
  - split; [done|]. intros Hnd. exfalso.
    assert (Ho : check_duplicates ∅ l = Ok tt) by (apply check_duplicates_Ok; set_solver).
    congruence.
Qed.

(** No capability starves.  Whatever the other executors do, and however
    often they have work, an executor that always has work is served at least
    once in any run of as many consecutive ticks as there are executors. *)
Theorem rotation_is_fair (r : WorkflowRegistry) (s : S) (j : nat) (x : WorkflowExecutor)
    (Hj : executors r !! j = Some x) (Hready : always_ready x)
    (Hsafe : ∀ y, y ∈ executors r → never_throws y)
    (Hc : cursor r < List.length (executors r)) :
  Some j ∈ winners (List.length (executors r)) r s.
Proof.
  eapply ready_is_served; try done.
  assert (Hjn : j < List.length (executors r)) by (by apply lookup_lt_Some in Hj).
  by apply distance_spec.
Qed.
End registry.

(** Three executors: two greedy ones and a counting one. *)
Definition greedy (a : WorkflowAction) : WorkflowExecutor (S := nat) :=
  {| executor_action := a; executor_runOne := λ s, (Ok true, Datatypes.S s) |}.
Definition sample_registry : WorkflowRegistry (S := nat) :=
  {| executors := [greedy create_instance; greedy purge_instance; greedy power_instance]; cursor := 0 |}.

Lemma rotation_is_fair_witness :
  winners 3 sample_registry 0 = [Some 0; Some 1; Some 2] ∧ Some 2 ∈ winners 3 sample_registry 0.
Proof.
  split; [reflexivity|].
  apply (rotation_is_fair sample_registry 0 2 (greedy power_instance)).
  - reflexivity.
  - intros s. reflexivity.
  - intros y Hy s. apply list_elem_of_In in Hy. simpl in Hy. destruct Hy as [<-|[<-|[<-|[]]]]; reflexivity.
  - simpl. lia.
Defined.
