(* ===== verification/WorkflowStore.v ===== *)
(** * Leased, fenced workflow persistence

    [packages/postgres-adapter/src/workflow-store.ts]: the tables of the
    workflow schema as finite maps with their unique keys, and the methods of
    [PostgresWorkflowStore] as transactions over them.  A constraint violation
    or [executeTakeFirstOrThrow] without a row is an error, which rolls the
    transaction back. *)
From S2P Require Import Prelude JsText Json SshKey Domain Ipv4 WorkflowStage Events EventValidation Platform ProviderPort.
From Stdlib Require Import ZArith Lia Bool Ascii String.
From stdpp Require Import base decidable list strings gmap.
Open Scope string_scope.
Open Scope Z_scope.
Open Scope prog_scope.

(** ** Tables *)

(** A row of [workflow.workflows]. *)
Record WorkflowRow : Type := {
  w_operation_id : string;
  w_event_id : string;
  w_project_id : string;
  w_instance_id : string;
  w_action : string;
  w_command : record;
  w_status : string;
  w_stage : string;
  w_attempt : Z;
  w_stage_attempt : Z;
  w_retry_started_at : option Z;
  w_replay_generation : Z;
  w_trace_context : TraceContext;
  w_fencing_token : Z;
  w_provider_resource_id : option string;
  w_provider_task_reference : option string;
  w_next_attempt_at : Z;
  w_failure : option (string * string * string);
  w_last_error : option (string * string);
  w_created_at : Z;
  w_updated_at : Z;
  w_completed_at : option Z;
}.

Record LeaseRow : Type := { l_owner_id : string; l_fencing_token : Z; l_leased_until : Z }.

(** A row of [workflow.command_receipts], keyed by event and generation (the
    consumer name is fixed). *)
Record ReceiptRow : Type := {
  r_coordinates : string * Z * string;
  r_payload_hash : string;
  r_received_at : Z;
  r_completed_at : option Z;
}.

Inductive DeadLetterStatus : Set := dead_open | dead_replay_requested | dead_replayed | dead_closed.
#[export] Instance DeadLetterStatus_eq_dec : EqDecision DeadLetterStatus.
Proof. solve_decision. Defined.

Record DeadLetterRow : Type := {
  d_dead_letter_event_id : string;
  d_original_schema_name : string;
  d_original_payload : record;
  d_failure : string * string * string;
  d_attempts : Z;
  d_replay_allowed : bool;
  d_replay_generation : Z;
  d_status : DeadLetterStatus;
  d_dead_lettered_at : Z;
  d_last_replay_at : option Z;
}.

Inductive ReplayStatus : Set := replay_authorized | replay_done | replay_refused.
#[export] Instance ReplayStatus_eq_dec : EqDecision ReplayStatus.
Proof. solve_decision. Defined.

(** A row of [workflow.replay_requests], keyed by the replay request. *)
Record ReplayRow : Type := {
  p_request_event_id : string;
  p_original_event_id : string;
  p_replay_generation : option Z;
  p_status : ReplayStatus;
  p_request_payload : record;
  p_authorized_command_hash : option string;
  p_authorized_outbox_id : option string;
  p_decided_at : Z;
  p_completed_at : option Z;
}.

Record PoisonRow : Type := { x_payload_hash : string; x_failure_code : string; x_safe_message : string }.

Record WorkflowDb : Type := {
  workflows : gmap string WorkflowRow;
  instance_leases : gmap string LeaseRow;
  command_receipts : gmap (string * Z) ReceiptRow;
  outbox : list OutboxRow;
  audit_entries : list (Command AuditData);
  dead_letters : gmap string DeadLetterRow;
  replay_requests : gmap string ReplayRow;
  poison_records : gmap (string * Z * string) PoisonRow;
}.

Definition set_workflows (f : gmap string WorkflowRow → gmap string WorkflowRow) (s : WorkflowDb) : WorkflowDb :=
  {| workflows := f s.(workflows); instance_leases := s.(instance_leases);
     command_receipts := s.(command_receipts); outbox := s.(outbox); audit_entries := s.(audit_entries);
     dead_letters := s.(dead_letters); replay_requests := s.(replay_requests);
     poison_records := s.(poison_records) |}.
Definition set_leases (f : gmap string LeaseRow → gmap string LeaseRow) (s : WorkflowDb) : WorkflowDb :=
  {| workflows := s.(workflows); instance_leases := f s.(instance_leases);
     command_receipts := s.(command_receipts); outbox := s.(outbox); audit_entries := s.(audit_entries);
     dead_letters := s.(dead_letters); replay_requests := s.(replay_requests);
     poison_records := s.(poison_records) |}.
Definition set_receipts (f : gmap (string * Z) ReceiptRow → gmap (string * Z) ReceiptRow) (s : WorkflowDb) : WorkflowDb :=
  {| workflows := s.(workflows); instance_leases := s.(instance_leases);
     command_receipts := f s.(command_receipts); outbox := s.(outbox); audit_entries := s.(audit_entries);
     dead_letters := s.(dead_letters); replay_requests := s.(replay_requests);
     poison_records := s.(poison_records) |}.
Definition set_outbox (f : list OutboxRow → list OutboxRow) (s : WorkflowDb) : WorkflowDb :=
  {| workflows := s.(workflows); instance_leases := s.(instance_leases);
     command_receipts := s.(command_receipts); outbox := f s.(outbox); audit_entries := s.(audit_entries);
     dead_letters := s.(dead_letters); replay_requests := s.(replay_requests);
     poison_records := s.(poison_records) |}.
Definition set_audit (f : list (Command AuditData) → list (Command AuditData)) (s : WorkflowDb) : WorkflowDb :=
  {| workflows := s.(workflows); instance_leases := s.(instance_leases);
     command_receipts := s.(command_receipts); outbox := s.(outbox); audit_entries := f s.(audit_entries);
     dead_letters := s.(dead_letters); replay_requests := s.(replay_requests);
     poison_records := s.(poison_records) |}.
Definition set_dead_letters (f : gmap string DeadLetterRow → gmap string DeadLetterRow) (s : WorkflowDb) : WorkflowDb :=
  {| workflows := s.(workflows); instance_leases := s.(instance_leases);
     command_receipts := s.(command_receipts); outbox := s.(outbox); audit_entries := s.(audit_entries);
     dead_letters := f s.(dead_letters); replay_requests := s.(replay_requests);
     poison_records := s.(poison_records) |}.
Definition set_replay_requests (f : gmap string ReplayRow → gmap string ReplayRow) (s : WorkflowDb) : WorkflowDb :=
  {| workflows := s.(workflows); instance_leases := s.(instance_leases);
     command_receipts := s.(command_receipts); outbox := s.(outbox); audit_entries := s.(audit_entries);
     dead_letters := s.(dead_letters); replay_requests := f s.(replay_requests);
     poison_records := s.(poison_records) |}.
Definition set_poison (f : gmap (string * Z * string) PoisonRow → gmap (string * Z * string) PoisonRow)
    (s : WorkflowDb) : WorkflowDb :=
  {| workflows := s.(workflows); instance_leases := s.(instance_leases);
     command_receipts := s.(command_receipts); outbox := s.(outbox); audit_entries := s.(audit_entries);
     dead_letters := s.(dead_letters); replay_requests := s.(replay_requests);
     poison_records := f s.(poison_records) |}.

Abbreviation wtx := (tx WorkflowDb error).

Definition MINIMUM_LEASE_SECONDS : Z := 5.
Definition MAXIMUM_LEASE_SECONDS : Z := 300.

Inductive CommandRejectionCode : Set :=
  REPLAY_COMMAND_IDENTITY_CONFLICT | REPLAY_COMMAND_UNAUTHORIZED | REPLAY_COMMAND_STATE_CONFLICT.
#[export] Instance CommandRejectionCode_eq_dec : EqDecision CommandRejectionCode.
Proof. solve_decision. Defined.
Inductive CommandAdmission : Set :=
| Admission_accepted | Admission_duplicate | Admission_rejected (failureCode : CommandRejectionCode).
#[export] Instance CommandAdmission_eq_dec : EqDecision CommandAdmission.
Proof. solve_decision. Defined.

Definition rejection_text (c : CommandRejectionCode) : string :=
  match c with
  | REPLAY_COMMAND_IDENTITY_CONFLICT => "REPLAY_COMMAND_IDENTITY_CONFLICT"
  | REPLAY_COMMAND_UNAUTHORIZED => "REPLAY_COMMAND_UNAUTHORIZED"
  | REPLAY_COMMAND_STATE_CONFLICT => "REPLAY_COMMAND_STATE_CONFLICT"
  end.
Definition REPLAY_REJECTION_MESSAGES (c : CommandRejectionCode) : string :=
  match c with
  | REPLAY_COMMAND_IDENTITY_CONFLICT =>
      "A receipt for this replay generation already exists with a different canonical payload."
  | REPLAY_COMMAND_UNAUTHORIZED => "The replay command did not match a durable replay authorization."
  | REPLAY_COMMAND_STATE_CONFLICT =>
      "The replay was authorized, but its target workflow is no longer in a reopenable state."
  end.

Definition category_text (c : EventFailureCategory) : string :=
  match c with
  | cat_validation => "validation" | cat_authorization => "authorization" | cat_conflict => "conflict"
  | cat_transient => "transient" | cat_permanent => "permanent"
  | cat_unknown_outcome => "unknown_outcome" | cat_compensation_failure => "compensation_failure"
  | cat_manual_review => "manual_review"
  end.

Definition status_text (s : CompletionStatus) : string :=
  match s with status_succeeded => "succeeded" | status_failed => "failed"
          | status_manual_review => "manual_review" end.

Section store.
Context `{Platform} (c : Call).

(** [lifecycleCommand(value, action)]. *)
Definition lifecycleCommand (v : record) (a : WorkflowAction) : option record :=
  if COMMAND_VALIDATORS dateParses a v then Some v else None.
Definition storedReplayRequest (v : record) : option record :=
  if isProvisioningReplayRequestedV1 dateParses v then Some v else None.

Definition workflowActionOf (command : record) : wtx WorkflowAction :=
  tsome (workflowActionForSchema command.(envelope).(schemaName))
    (Fault "No workflow action is registered for this command schema.").

(** ** Appending to the outbox *)

Definition writeWorkflowOutbox (payload : OutboxPayload) (topic_name : string) (occurred : Z)
    (outbox_id : string) (generation : Z) : wtx unit :=
  let row := {| ob_outbox_id := outbox_id; ob_topic := topic_name; ob_payload := payload;
                ob_tracingspancontext := serializeDebeziumTraceContext (payload_envelope payload).(traceContext);
                ob_replay_generation := generation; ob_occurred_at := occurred |} in
  let! rows := tget outbox in
  tguard (bool_decide (outbox_key row ∉ map outbox_key rows)
          && bool_decide (outbox_id ∉ map ob_outbox_id rows))
    (Fault "outbox_event_id_replay_generation_key, outbox_pkey") ;;
  tmodify (set_outbox (λ l, l ++ [row])%list).

Definition writeEvent (event : WorkflowEvent) (outbox_id : string) : wtx unit :=
  writeWorkflowOutbox (P_event event) "provisioning.events.v1" event.(envelope).(occurredAt) outbox_id 0.

Definition writeServiceAudit (cause : EventEnvelope) (action_name : string) (outcome : AuditOutcome)
    (occurred : Z) (reason : option string) (id outbox_id : string) : wtx unit :=
  let event := auditRecordedEvent id cause.(projectId) cause.(operationId) cause.(correlationId)
    cause.(eventId) occurred cause.(traceContext)
    {| audit_actorId := "provisioning-orchestrator"; audit_actorRole := role_service;
       audit_action := action_name; audit_targetType := cause.(aggregateType);
       audit_targetId := cause.(aggregateId); audit_outcome := outcome; audit_reasonReference := reason |} in
  tmodify (set_audit (λ l, l ++ [event])%list) ;;
  writeWorkflowOutbox (P_audit event) "audit.events.v1" occurred outbox_id 0.

(** ** Receipts *)

(** [ON CONFLICT (consumer, event, generation) DO NOTHING]; a conflict on the
    source coordinates is an error. *)
Definition insertCommandReceipt (event : record) (delivery : MessageDeliveryIdentity)
    (completedAt : option Z) : wtx bool :=
  let key := (event.(envelope).(eventId), delivery.(replayGeneration)) in
  let! receipts := tget command_receipts in
  match receipts !! key with
  | Some _ => tret false
  | None =>
      tguard (forallb (λ p, negb (bool_decide ((snd p).(r_coordinates) = coordinates delivery)))
                (map_to_list receipts))
        (Fault "command_receipts_source_record_unique") ;;
      tmodify (set_receipts (insert key
        {| r_coordinates := coordinates delivery; r_payload_hash := payloadHash event;
           r_received_at := appNow c; r_completed_at := completedAt |})) ;;
      tret true
  end.

(** ** Leases *)

(** The fence: the workflow's token, the lease, its owner, its token and its
    expiry. *)
Definition assertLease (operation worker : string) (token : Z) : wtx WorkflowRow :=
  let! ws := tget workflows in
  let! row := tsome (ws !! operation) (Fault "Workflow fencing token is stale.") in
  tguard (row.(w_fencing_token) =? token) (Fault "Workflow fencing token is stale.") ;;
  let! leases := tget instance_leases in
  let! lease := tsome (leases !! row.(w_instance_id)) (Fault "Workflow lease is missing, expired, or fenced.") in
  tguard (String.eqb lease.(l_owner_id) worker && (lease.(l_fencing_token) =? token)
          && (appNow c <? lease.(l_leased_until)))
    (Fault "Workflow lease is missing, expired, or fenced.") ;;
  tret row.

Definition releaseLease (instance worker : string) (token : Z) : wtx unit :=
  tmodify (set_leases (λ m,
    match m !! instance with
    | Some lease =>
        if String.eqb lease.(l_owner_id) worker && (lease.(l_fencing_token) =? token) then
          <[instance := {| l_owner_id := worker; l_fencing_token := token; l_leased_until := appNow c |}]> m
        else m
    | None => m
    end)).

(** ** Claiming *)

(** The rows [readyWorkflow] selects from, given the rows other transactions
    have locked. *)
Definition ready (worker : string) (a : WorkflowAction) (locked : list string) (s : WorkflowDb)
    (row : WorkflowRow) : bool :=
  String.eqb row.(w_action) (action_text a)
  && (String.eqb row.(w_status) "running" || String.eqb row.(w_status) "retry_wait")
  && (row.(w_next_attempt_at) <=? dbNow c)
  && match s.(instance_leases) !! row.(w_instance_id) with
     | None => true
     | Some lease => (lease.(l_leased_until) <=? dbNow c) || String.eqb lease.(l_owner_id) worker
     end
  && negb (bool_decide (row.(w_operation_id) ∈ locked)).

(** [ORDER BY next_attempt_at, created_at]. *)
Definition before_row (a b : WorkflowRow) : bool :=
  (a.(w_next_attempt_at) <? b.(w_next_attempt_at))
  || ((a.(w_next_attempt_at) =? b.(w_next_attempt_at)) && (a.(w_created_at) <=? b.(w_created_at))).
Definition first_row (l : list WorkflowRow) : option WorkflowRow :=
  List.fold_right (λ x acc, match acc with
                            | None => Some x
                            | Some y => if before_row x y then Some x else Some y
                            end) None l.

Definition readyWorkflow (worker : string) (a : WorkflowAction) (locked : list string) : wtx (option WorkflowRow) :=
  λ s, Ok (first_row (List.filter (ready worker a locked s) (map snd (map_to_list s.(workflows)))), s).

(** The lease upsert: [None] when the conflicting lease is live and foreign. *)
Definition takeLease (instance worker : string) (leaseSeconds : Z) : wtx (option Z) :=
  let! leases := tget instance_leases in
  let grant token :=
    tmodify (set_leases (insert instance
      {| l_owner_id := worker; l_fencing_token := token; l_leased_until := dbNow c + leaseSeconds * 1000 |})) ;;
    tret (Some token) in
  match leases !! instance with
  | None => grant 1
  | Some lease =>
      if (lease.(l_leased_until) <=? dbNow c) || String.eqb lease.(l_owner_id) worker
      then grant (lease.(l_fencing_token) + 1)
      else tret None
  end.

Definition claim_row (row : WorkflowRow) (token : Z) : WorkflowRow :=
  {| w_operation_id := row.(w_operation_id); w_event_id := row.(w_event_id);
     w_project_id := row.(w_project_id); w_instance_id := row.(w_instance_id);
     w_action := row.(w_action); w_command := row.(w_command);
     w_status := "running"; w_stage := row.(w_stage);
     w_attempt := row.(w_attempt) + 1; w_stage_attempt := row.(w_stage_attempt);
     w_retry_started_at := row.(w_retry_started_at);
     w_replay_generation := row.(w_replay_generation); w_trace_context := row.(w_trace_context);
     w_fencing_token := token;
     w_provider_resource_id := row.(w_provider_resource_id);
     w_provider_task_reference := row.(w_provider_task_reference);
     w_next_attempt_at := row.(w_next_attempt_at); w_failure := row.(w_failure);
     w_last_error := row.(w_last_error); w_created_at := row.(w_created_at);
     w_updated_at := appNow c; w_completed_at := row.(w_completed_at) |}.

Definition claimNext (worker : string) (leaseSeconds : Z) (a : WorkflowAction) (locked : list string) :
    wtx (option (ClaimedWorkflow json)) :=
  tguard (truthy worker && (MINIMUM_LEASE_SECONDS <=? leaseSeconds) && (leaseSeconds <=? MAXIMUM_LEASE_SECONDS))
    (Fault "A worker ID and a lease between 5 and 300 seconds are required.") ;;
  let! workflow := readyWorkflow worker a locked in
  match workflow with
  | None => tret None
  | Some row =>
      let! token := takeLease row.(w_instance_id) worker leaseSeconds in
      match token with
      | None => tret None
      | Some token =>
          let claimed := claim_row row token in
          tmodify (set_workflows (insert row.(w_operation_id) claimed)) ;;
          let! claimedAction := tlift (toWorkflowAction claimed.(w_action)) in
          let! command := tsome (lifecycleCommand claimed.(w_command) claimedAction)
            (Fault ("The persisted " ++ action_text claimedAction
                    ++ " workflow command is not supported by this deployment.")) in
          let! stage := tlift (toWorkflowStage claimed.(w_stage)) in
          tret (Some
            {| claimed_action := claimedAction; claimed_command := command;
               claimed_traceContext := claimed.(w_trace_context); claimed_stage := stage;
               claimed_attempt := claimed.(w_attempt); claimed_stageAttempt := claimed.(w_stage_attempt);
               claimed_retryStartedAt := claimed.(w_retry_started_at);
               claimed_fencingToken := claimed.(w_fencing_token);
               claimed_providerResourceId := present claimed.(w_provider_resource_id);
               claimed_providerTaskReference := present claimed.(w_provider_task_reference) |})
      end
  end.

(** ** Fenced writes *)

(** The UPDATE of a checkpoint. *)
Definition checkpoint_row (i : CheckpointInput) (row : WorkflowRow) : WorkflowRow :=
  {| w_operation_id := row.(w_operation_id); w_event_id := row.(w_event_id);
     w_project_id := row.(w_project_id); w_instance_id := row.(w_instance_id);
     w_action := row.(w_action); w_command := row.(w_command);
     w_status := match i.(cp_nextAttemptAt) with Some _ => "retry_wait" | None => "running" end;
     w_stage := stage_text i.(cp_stage);
     w_attempt := row.(w_attempt);
     w_stage_attempt := match i.(cp_retry) with Some r => r.(retry_attempt) | None => 0 end;
     w_retry_started_at := retry_startedAt <$> i.(cp_retry);
     w_replay_generation := row.(w_replay_generation);
     w_trace_context := i.(cp_event).(envelope).(traceContext);
     w_fencing_token := row.(w_fencing_token);
     w_provider_resource_id := coalesce (present i.(cp_providerResourceId)) row.(w_provider_resource_id);
     w_provider_task_reference :=
       match i.(cp_providerTaskReference) with Some t => t | None => row.(w_provider_task_reference) end;
     w_next_attempt_at := default (appNow c) i.(cp_nextAttemptAt);
     w_failure := row.(w_failure);
     w_last_error := (λ r, (r.(retry_errorCategory), r.(retry_errorCode))) <$> i.(cp_retry);
     w_created_at := row.(w_created_at); w_updated_at := appNow c; w_completed_at := row.(w_completed_at) |}.

Definition checkpoint (i : CheckpointInput) : wtx unit :=
  let! row := assertLease i.(cp_operationId) i.(cp_workerId) i.(cp_fencingToken) in
  tmodify (set_workflows (insert i.(cp_operationId) (checkpoint_row i row))) ;;
  writeEvent i.(cp_event) (c.(uuid) 0%nat) ;;
  releaseLease row.(w_instance_id) i.(cp_workerId) i.(cp_fencingToken).

Definition failure_triple (f : Failure) : string * string * string :=
  (category_text f.(category), f.(code), f.(safeMessage)).
(** [event.schemaName === 'instance.mutation.failed' ? event.data.failure : null]. *)
Definition event_failure (e : WorkflowEvent) : option Failure :=
  match e.(data) with MutationFailed d => Some d.(failed_failure) | _ => None end.

(** The UPDATE of a terminal write. *)
Definition terminal_row (status stage : string) (stageAttempt : Z) (failure : option Failure)
    (lastError : option (string * string)) (trace : TraceContext) (row : WorkflowRow) : WorkflowRow :=
  {| w_operation_id := row.(w_operation_id); w_event_id := row.(w_event_id);
     w_project_id := row.(w_project_id); w_instance_id := row.(w_instance_id);
     w_action := row.(w_action); w_command := row.(w_command);
     w_status := status; w_stage := stage;
     w_attempt := row.(w_attempt); w_stage_attempt := stageAttempt;
     w_retry_started_at := row.(w_retry_started_at);
     w_replay_generation := row.(w_replay_generation);
     w_trace_context := trace; w_fencing_token := row.(w_fencing_token);
     w_provider_resource_id := row.(w_provider_resource_id);
     w_provider_task_reference := row.(w_provider_task_reference);
     w_next_attempt_at := appNow c;
     w_failure := failure_triple <$> failure; w_last_error := lastError;
     w_created_at := row.(w_created_at); w_updated_at := appNow c; w_completed_at := Some (appNow c) |}.

Definition complete_receipt (r : ReceiptRow) : ReceiptRow :=
  {| r_coordinates := r.(r_coordinates); r_payload_hash := r.(r_payload_hash);
     r_received_at := r.(r_received_at); r_completed_at := Some (appNow c) |}.
(** The UPDATE that marks the workflow's command receipt consumed. *)
Definition consumeReceipt (row : WorkflowRow) : wtx unit :=
  let key := (row.(w_event_id), row.(w_replay_generation)) in
  let! receipts := tget command_receipts in
  tguard (matched (bool_decide (is_Some (receipts !! key)))) (Fault "no result") ;;
  tmodify (set_receipts (alter complete_receipt key)).

Definition complete_row (i : CompleteInput) (row : WorkflowRow) : WorkflowRow :=
  let stage := match i.(co_status) with status_succeeded => "completed" | s => status_text s end in
  terminal_row (status_text i.(co_status)) stage row.(w_stage_attempt) (event_failure i.(co_event))
    row.(w_last_error) i.(co_event).(envelope).(traceContext) row.

Definition complete (i : CompleteInput) : wtx unit :=
  let! row := assertLease i.(co_operationId) i.(co_workerId) i.(co_fencingToken) in
  tmodify (set_workflows (insert i.(co_operationId) (complete_row i row))) ;;
  consumeReceipt row ;;
  writeEvent i.(co_event) (c.(uuid) 0%nat) ;;
  writeServiceAudit i.(co_event).(envelope) row.(w_action)
    (match i.(co_status) with status_succeeded => audit_succeeded | _ => audit_failed end)
    (appNow c) None (c.(uuid) 1%nat) (c.(uuid) 2%nat) ;;
  releaseLease row.(w_instance_id) i.(co_workerId) i.(co_fencingToken).

(** ** Dead letters *)

(** The INSERT ... ON CONFLICT DO UPDATE of the evidence: a reopened row keeps
    the payload and schema of the first one. *)
Definition dead_letter_row (original : record) (failure : string * string * string) (attempts : Z)
    (replayAllowed : bool) (generation : Z) (id : string) (existing : option DeadLetterRow) : DeadLetterRow :=
  {| d_dead_letter_event_id := id;
     d_original_schema_name :=
       match existing with Some d => d.(d_original_schema_name) | None => original.(envelope).(schemaName) end;
     d_original_payload := match existing with Some d => d.(d_original_payload) | None => original end;
     d_failure := failure; d_attempts := attempts; d_replay_allowed := replayAllowed;
     d_replay_generation := generation; d_status := dead_open; d_dead_lettered_at := appNow c;
     d_last_replay_at := d ← existing; d.(d_last_replay_at) |}.

Definition dead_letter_event (original : EventEnvelope) (trace : TraceContext) (failure : Failure)
    (attempts : Z) (replayAllowed : bool) (id : string) : WorkflowEvent :=
  {| envelope :=
       {| eventId := id; schemaName := "provisioning.dead_lettered"; schemaVersion := 1;
          aggregateType := "instance"; aggregateId := original.(aggregateId);
          projectId := original.(projectId); operationId := original.(operationId);
          correlationId := original.(correlationId); causationId := original.(eventId);
          occurredAt := appNow c; traceContext := trace; partitionKey := original.(partitionKey) |};
     data := DeadLettered
       {| dead_originalEventId := original.(eventId); dead_originalSchemaName := original.(schemaName);
          dead_originalSchemaVersion := original.(schemaVersion); dead_failure := failure;
          dead_attempts := attempts; dead_replayAllowed := replayAllowed; dead_deadLetteredAt := appNow c |} |}.

Definition writeDeadLetter (original : record) (trace : TraceContext) (category : EventFailureCategory)
    (failureCode safe_message : string) (attempts : Z) (replayAllowed : bool) (generation : Z)
    (id outbox_id : string) : wtx unit :=
  let failure := {| Events.category := category; code := failureCode; safeMessage := safe_message;
                    retryAfterMilliseconds := None |} in
  let key := original.(envelope).(eventId) in
  tguard (0 <? attempts) (Fault "dead_letters_attempts_check") ;;
  tmodify (set_dead_letters (λ m,
    <[key := dead_letter_row original (failure_triple failure) attempts replayAllowed generation id (m !! key)]> m)) ;;
  writeWorkflowOutbox
    (P_event (dead_letter_event original.(envelope) trace failure attempts replayAllowed id))
    "provisioning.dlq.v1" (appNow c) outbox_id 0.

(** The input of [deadLetterCommand]. *)
Record DeadLetterCommandInput : Type := {
  dc_event : record;
  dc_delivery : MessageDeliveryIdentity;
  dc_attempts : Z;
  dc_failureCode : string;
  dc_safeMessage : string;
  dc_replayAllowed : bool;
}.

(** [true] is 'dead_lettered', [false] is 'duplicate'. *)
Definition deadLetterCommand (i : DeadLetterCommandInput) : wtx bool :=
  let! receipt := insertCommandReceipt i.(dc_event) i.(dc_delivery) (Some (appNow c)) in
  if negb receipt then tret false
  else
    writeDeadLetter i.(dc_event) i.(dc_event).(envelope).(traceContext) cat_permanent i.(dc_failureCode)
      i.(dc_safeMessage) i.(dc_attempts) i.(dc_replayAllowed) i.(dc_delivery).(replayGeneration)
      (c.(uuid) 0%nat) (c.(uuid) 1%nat) ;;
    writeServiceAudit i.(dc_event).(envelope) "dead_letter_command" audit_failed (appNow c) None
      (c.(uuid) 2%nat) (c.(uuid) 3%nat) ;;
    tret true.

Definition dead_letter_workflow_row (i : DeadLetterInput) (f : Failure) (row : WorkflowRow) : WorkflowRow :=
  terminal_row "failed" "failed" i.(dl_attempts) (Some f) (Some (i.(dl_lastErrorCategory), i.(dl_lastErrorCode)))
    i.(dl_event).(envelope).(traceContext) row.

Definition deadLetterWorkflow (i : DeadLetterInput) : wtx unit :=
  let! row := assertLease i.(dl_operationId) i.(dl_workerId) i.(dl_fencingToken) in
  let! action := tlift (toWorkflowAction row.(w_action)) in
  let! command := tsome (lifecycleCommand row.(w_command) action)
    (Fault "Cannot dead-letter an invalid persisted workflow command.") in
  let! f := tsome (event_failure i.(dl_event)) (Fault "The event is not an instance.mutation.failed event.") in
  tmodify (set_workflows (insert i.(dl_operationId) (dead_letter_workflow_row i f row))) ;;
  consumeReceipt row ;;
  writeEvent i.(dl_event) (c.(uuid) 0%nat) ;;
  writeDeadLetter command i.(dl_event).(envelope).(traceContext) f.(category) i.(dl_failureCode)
    i.(dl_safeMessage) i.(dl_attempts) true row.(w_replay_generation) (c.(uuid) 1%nat) (c.(uuid) 2%nat) ;;
  writeServiceAudit i.(dl_event).(envelope) "provisioning_retry_exhausted" audit_failed (appNow c) None
    (c.(uuid) 3%nat) (c.(uuid) 4%nat) ;;
  releaseLease row.(w_instance_id) i.(dl_workerId) i.(dl_fencingToken).

(** ** Poison records *)

Definition insert_poison (key : string * Z * string) (row : PoisonRow) : wtx bool :=
  let! records := tget poison_records in
  match records !! key with
  | Some _ => tret false
  | None => tmodify (set_poison (insert key row)) ;; tret true
  end.

(** [true] is 'quarantined', [false] is 'duplicate'. *)
Definition quarantineRecord (delivery : MessageDeliveryIdentity) (hash failureCode safe_message : string) : wtx bool :=
  insert_poison (coordinates delivery)
    {| x_payload_hash := hash; x_failure_code := failureCode; x_safe_message := safe_message |}.

Definition rejectReplayCommand (delivery : MessageDeliveryIdentity) (hash : string)
    (failureCode : CommandRejectionCode) : wtx unit :=
  insert_poison (coordinates delivery)
    {| x_payload_hash := hash; x_failure_code := rejection_text failureCode;
       x_safe_message := REPLAY_REJECTION_MESSAGES failureCode |} ;;
  tret tt.

(** ** Admission *)

(** The row a first delivery inserts. *)
Definition new_workflow (command : record) (action : WorkflowAction) (generation : Z)
    (resource : option string) : WorkflowRow :=
  {| w_operation_id := command.(envelope).(operationId); w_event_id := command.(envelope).(eventId);
     w_project_id := command.(envelope).(projectId); w_instance_id := command.(envelope).(aggregateId);
     w_action := action_text action; w_command := command; w_status := "running"; w_stage := "accepted";
     w_attempt := 0; w_stage_attempt := 0; w_retry_started_at := None;
     w_replay_generation := generation; w_trace_context := command.(envelope).(traceContext);
     w_fencing_token := 0; w_provider_resource_id := resource; w_provider_task_reference := None;
     w_next_attempt_at := appNow c; w_failure := None; w_last_error := None;
     w_created_at := appNow c; w_updated_at := appNow c; w_completed_at := None |}.

(** INSERT INTO workflow.workflows, with its two unique keys. *)
Definition insertWorkflow (row : WorkflowRow) : wtx unit :=
  let! ws := tget workflows in
  tguard (bool_decide (ws !! row.(w_operation_id) = None)) (Fault "workflows_pkey") ;;
  tguard (forallb (λ p, negb (String.eqb (snd p).(w_event_id) row.(w_event_id))) (map_to_list ws))
    (Fault "workflows_event_id_key") ;;
  tmodify (set_workflows (insert row.(w_operation_id) row)).

(** [ORDER BY created_at LIMIT 1]. *)
Definition earliest (l : list WorkflowRow) : option WorkflowRow :=
  List.fold_right (λ x acc, match acc with
                            | None => Some x
                            | Some y => if x.(w_created_at) <=? y.(w_created_at) then Some x else Some y
                            end) None l.
(** The resource identifier of the earliest workflow of the instance that has one. *)
Definition inheritedResource (instance : string) (s : WorkflowDb) : option string :=
  row ← earliest (List.filter (λ r, String.eqb r.(w_instance_id) instance
                                    && bool_decide (is_Some r.(w_provider_resource_id)))
                    (map snd (map_to_list s.(workflows))));
  row.(w_provider_resource_id).

Definition admitOriginalDelivery (command : record) (delivery : MessageDeliveryIdentity) : wtx CommandAdmission :=
  let! ws := tget workflows in
  match ws !! command.(envelope).(operationId) with
  | Some _ =>
      insertCommandReceipt command delivery (Some (appNow c)) ;; tret Admission_duplicate
  | None =>
      let! receipt := insertCommandReceipt command delivery None in
      if negb receipt then tret Admission_duplicate
      else
        let! action := workflowActionOf command in
        let! inherited := tget (inheritedResource command.(envelope).(aggregateId)) in
        insertWorkflow (new_workflow command action delivery.(replayGeneration)
          (if bool_decide (action = create_instance) then None else inherited)) ;;
        tret Admission_accepted
  end.

(** ** Governed replay *)

(** A field of a replay request's payload. *)
Definition request_field (k : string) (request : record) : string :=
  match request.(data) with JObj o => json_text (field k o) | _ => "" end.

Definition replay_resolved_event (request : record) (outcome : ReplayOutcome) (generation : Z) (id : string) :
    WorkflowEvent :=
  let e := request.(envelope) in
  {| envelope :=
       {| eventId := id; schemaName := "provisioning.replay.resolved"; schemaVersion := 1;
          aggregateType := "instance"; aggregateId := e.(aggregateId); projectId := e.(projectId);
          operationId := e.(operationId); correlationId := e.(correlationId); causationId := e.(eventId);
          occurredAt := appNow c; traceContext := e.(traceContext); partitionKey := e.(partitionKey) |};
     data := ReplayResolved
       {| resolved_replayRequestId := request_field "replayRequestId" request;
          resolved_originalEventId := request_field "originalEventId" request;
          resolved_outcome := outcome; resolved_replayGeneration := generation;
          resolved_resolvedAt := appNow c |} |}.

Definition writeReplayResolution (request : record) (outcome : ReplayOutcome) (generation : Z)
    (id outbox_id : string) : wtx unit :=
  writeEvent (replay_resolved_event request outcome generation id) outbox_id.

(** The authorization: generation, command hash and outbox identifier; [None]
    persists a rejected request. *)
Definition persistReplayRequest (request : record) (authorization : option (Z * string * string)) : wtx unit :=
  let key := request_field "replayRequestId" request in
  let row :=
    {| p_request_event_id := request.(envelope).(eventId);
       p_original_event_id := request_field "originalEventId" request;
       p_replay_generation := (λ a, a.1.1) <$> authorization;
       p_status := match authorization with Some _ => replay_authorized | None => replay_refused end;
       p_request_payload := request;
       p_authorized_command_hash := (λ a, a.1.2) <$> authorization;
       p_authorized_outbox_id := snd <$> authorization;
       p_decided_at := appNow c;
       p_completed_at := match authorization with Some _ => None | None => Some (appNow c) end |} in
  let! rows := tget replay_requests in
  tguard (bool_decide (rows !! key = None)) (Fault "replay_requests_pkey") ;;
  tguard (forallb (λ q, negb (String.eqb (snd q).(p_request_event_id) row.(p_request_event_id))) (map_to_list rows))
    (Fault "replay_requests_request_event_id_key") ;;
  tguard (forallb (λ q, negb (bool_decide (is_Some row.(p_replay_generation))
                              && String.eqb (snd q).(p_original_event_id) row.(p_original_event_id)
                              && bool_decide ((snd q).(p_replay_generation) = row.(p_replay_generation))))
            (map_to_list rows))
    (Fault "workflow_replay_generation_authority") ;;
  tmodify (set_replay_requests (insert key row)).

(** [{ ...original, correlationId, causationId, occurredAt, traceContext }]. *)
Definition replayed_command (original request : record) : record :=
  let e := original.(envelope) in
  {| envelope :=
       {| eventId := e.(eventId); schemaName := e.(schemaName); schemaVersion := e.(schemaVersion);
          aggregateType := e.(aggregateType); aggregateId := e.(aggregateId); projectId := e.(projectId);
          operationId := e.(operationId); correlationId := request.(envelope).(correlationId);
          causationId := request.(envelope).(eventId); occurredAt := appNow c;
          traceContext := request.(envelope).(traceContext); partitionKey := e.(partitionKey) |};
     data := original.(data) |}.

Definition request_dead_letter (generation : Z) (d : DeadLetterRow) : DeadLetterRow :=
  {| d_dead_letter_event_id := d.(d_dead_letter_event_id); d_original_schema_name := d.(d_original_schema_name);
     d_original_payload := d.(d_original_payload); d_failure := d.(d_failure); d_attempts := d.(d_attempts);
     d_replay_allowed := d.(d_replay_allowed); d_replay_generation := generation;
     d_status := dead_replay_requested; d_dead_lettered_at := d.(d_dead_lettered_at);
     d_last_replay_at := Some (appNow c) |}.

(** The command a dead letter restores, checked against the contract of the
    action its schema column names. *)
Definition replayable (d : DeadLetterRow) : option record :=
  if d.(d_replay_allowed) && bool_decide (d.(d_status) = dead_open) then
    a ← workflowActionForSchema d.(d_original_schema_name);
    lifecycleCommand d.(d_original_payload) a
  else None.

Inductive ReplayAdmission : Set := replay_accepted | replay_duplicate | replay_denied.

Definition admitReplayRequest (request : record) (delivery : MessageDeliveryIdentity) : wtx ReplayAdmission :=
  let! receipt := insertCommandReceipt request delivery (Some (appNow c)) in
  if negb receipt then tret replay_duplicate
  else
    let reason := Some (request_field "replayRequestId" request) in
    let! letters := tget dead_letters in
    let letter := letters !! request_field "originalEventId" request in
    match letter ≫= replayable with
    | None =>
        persistReplayRequest request None ;;
        writeReplayResolution request replay_rejected (from_option d_replay_generation 0 letter)
          (c.(uuid) 0%nat) (c.(uuid) 1%nat) ;;
        writeServiceAudit request.(envelope) "replay_dead_letter" audit_rejected (appNow c) reason
          (c.(uuid) 2%nat) (c.(uuid) 3%nat) ;;
        tret replay_denied
    | Some original =>
        let generation := from_option d_replay_generation 0 letter + 1 in
        let replayed := replayed_command original request in
        let outbox_id := c.(uuid) 0%nat in
        persistReplayRequest request (Some (generation, payloadHash replayed, outbox_id)) ;;
        writeWorkflowOutbox (P_command replayed) "provisioning.commands.v1" (appNow c) outbox_id generation ;;
        let key := original.(envelope).(eventId) in
        let open_row := bool_decide (d_status <$> letters !! key = Some dead_open) in
        tguard (matched open_row) (Fault "no result") ;;
        tmodify (set_dead_letters (if open_row then alter (request_dead_letter generation) key else id)) ;;
        writeServiceAudit request.(envelope) "replay_dead_letter" audit_accepted (appNow c) reason
          (c.(uuid) 1%nat) (c.(uuid) 2%nat) ;;
        tret replay_accepted
    end.

(** The UPDATE that reopens a failed workflow: every handle is cleared. *)
Definition reopen_row (command : record) (generation : Z) (row : WorkflowRow) : WorkflowRow :=
  {| w_operation_id := row.(w_operation_id); w_event_id := row.(w_event_id);
     w_project_id := row.(w_project_id); w_instance_id := row.(w_instance_id);
     w_action := row.(w_action); w_command := command; w_status := "running"; w_stage := "accepted";
     w_attempt := 0; w_stage_attempt := 0; w_retry_started_at := None;
     w_replay_generation := generation; w_trace_context := command.(envelope).(traceContext);
     w_fencing_token := row.(w_fencing_token);
     w_provider_resource_id := None; w_provider_task_reference := None;
     w_next_attempt_at := appNow c; w_failure := None; w_last_error := None;
     w_created_at := row.(w_created_at); w_updated_at := appNow c; w_completed_at := None |}.

Definition replayed_dead_letter (d : DeadLetterRow) : DeadLetterRow :=
  {| d_dead_letter_event_id := d.(d_dead_letter_event_id); d_original_schema_name := d.(d_original_schema_name);
     d_original_payload := d.(d_original_payload); d_failure := d.(d_failure); d_attempts := d.(d_attempts);
     d_replay_allowed := d.(d_replay_allowed); d_replay_generation := d.(d_replay_generation);
     d_status := dead_replayed; d_dead_lettered_at := d.(d_dead_lettered_at);
     d_last_replay_at := Some (appNow c) |}.

Definition completed_request (p : ReplayRow) : ReplayRow :=
  {| p_request_event_id := p.(p_request_event_id); p_original_event_id := p.(p_original_event_id);
     p_replay_generation := p.(p_replay_generation); p_status := replay_done;
     p_request_payload := p.(p_request_payload); p_authorized_command_hash := p.(p_authorized_command_hash);
     p_authorized_outbox_id := p.(p_authorized_outbox_id); p_decided_at := p.(p_decided_at);
     p_completed_at := Some (appNow c) |}.

(** The authorization of an event's generation, with its key. *)
Definition find_authorization (event : string) (generation : Z) (s : WorkflowDb) : option (string * ReplayRow) :=
  List.find (λ q, String.eqb (snd q).(p_original_event_id) event
                  && bool_decide ((snd q).(p_replay_generation) = Some generation))
    (map_to_list s.(replay_requests)).

Definition authorized (authorization : ReplayRow) (hash : string) (delivery : MessageDeliveryIdentity) : bool :=
  bool_decide (authorization.(p_status) = replay_authorized)
  && bool_decide (authorization.(p_authorized_command_hash) = Some hash)
  && bool_decide (is_Some authorization.(p_authorized_outbox_id))
  && bool_decide (authorization.(p_authorized_outbox_id) = delivery.(outboxId)).

Definition reject (delivery : MessageDeliveryIdentity) (hash : string) (code : CommandRejectionCode) :
    wtx CommandAdmission :=
  rejectReplayCommand delivery hash code ;; tret (Admission_rejected code).

(** The workflow an authorized replay may reopen: the command's own, failed, and
    one generation behind. *)
Definition reopenable (command : record) (delivery : MessageDeliveryIdentity) (row : WorkflowRow) : bool :=
  String.eqb row.(w_event_id) command.(envelope).(eventId) && String.eqb row.(w_status) "failed"
  && (delivery.(replayGeneration) =? row.(w_replay_generation) + 1).

(** What follows the workflow write of an accepted replay. *)
Definition settle_replay (event : string) (key : string) (request : record) (generation : Z) : wtx unit :=
  let! letters := tget dead_letters in
  let requested := match letters !! event with
                   | Some d => bool_decide (d.(d_status) = dead_replay_requested)
                               && (d.(d_replay_generation) =? generation)
                   | None => false
                   end in
  tguard (matched requested) (Fault "no result") ;;
  tmodify (set_dead_letters (if requested then alter replayed_dead_letter event else id)) ;;
  tmodify (set_replay_requests (alter completed_request key)) ;;
  writeReplayResolution request replay_completed generation (c.(uuid) 0%nat) (c.(uuid) 1%nat).

(** What an authorized replay does to the workflow its command names. *)
Definition restart_workflow (command : record) (delivery : MessageDeliveryIdentity) (hash key : string)
    (request : record) : wtx CommandAdmission :=
  let e := command.(envelope) in
  let generation := delivery.(replayGeneration) in
  let! ws := tget workflows in
  let workflow := ws !! e.(operationId) in
  if negb (from_option (reopenable command delivery) true workflow) then
    reject delivery hash REPLAY_COMMAND_STATE_CONFLICT
  else
    let! receipt := insertCommandReceipt command delivery None in
    if negb receipt then tret Admission_duplicate
    else
      match workflow with
      | Some row =>
          tmodify (set_workflows (insert e.(operationId) (reopen_row command generation row)))
      | None =>
          let! action := workflowActionOf command in
          insertWorkflow (new_workflow command action generation None)
      end ;;
      settle_replay e.(eventId) key request generation ;;
      tret Admission_accepted.

Definition admitAuthorizedReplayCommand (command : record) (delivery : MessageDeliveryIdentity) :
    wtx CommandAdmission :=
  let e := command.(envelope) in
  let generation := delivery.(replayGeneration) in
  let hash := payloadHash command in
  let! receipts := tget command_receipts in
  match receipts !! (e.(eventId), generation) with
  | Some existing =>
      if String.eqb existing.(r_payload_hash) hash then tret Admission_duplicate
      else reject delivery hash REPLAY_COMMAND_IDENTITY_CONFLICT
  | None =>
      let! found := tget (find_authorization e.(eventId) generation) in
      match found with
      | Some (key, authorization) =>
          if negb (authorized authorization hash delivery) then
            reject delivery hash REPLAY_COMMAND_UNAUTHORIZED
          else
            let! request := tsome (storedReplayRequest authorization.(p_request_payload))
              (Fault "Stored replay authorization payload is invalid.") in
            restart_workflow command delivery hash key request
      | None => reject delivery hash REPLAY_COMMAND_UNAUTHORIZED
      end
  end.

Definition admitCommand (command : record) (delivery : MessageDeliveryIdentity) : wtx CommandAdmission :=
  if delivery.(replayGeneration) =? 0 then admitOriginalDelivery command delivery
  else admitAuthorizedReplayCommand command delivery.
End store.
