(* ===== verification/Fencing.v ===== *)
(** * Leases, fencing tokens and atomic writes of the workflow store

    The store's operations as one step function, what every step keeps
    (tokens never go down, receipts and outbox rows are never lost, a workflow
    keeps its identity), and the properties of claiming and of the fenced
    writes. *)
From S2P Require Import Prelude JsText Json SshKey Domain Ipv4 WorkflowStage Events EventValidation Platform ProviderPort WorkflowStore.
From Stdlib Require Import ZArith Lia Bool Ascii String.
From stdpp Require Import base decidable list strings gmap.
Open Scope string_scope.
Open Scope Z_scope.
Open Scope prog_scope.

(** ** One committed call of the store *)

Inductive operation : Type :=
| Op_claimNext (worker : string) (leaseSeconds : Z) (a : WorkflowAction) (locked : list string)
| Op_checkpoint (i : CheckpointInput)
| Op_complete (i : CompleteInput)
| Op_deadLetterWorkflow (i : DeadLetterInput)
| Op_admitCommand (command : record) (delivery : MessageDeliveryIdentity)
| Op_admitReplayRequest (request : record) (delivery : MessageDeliveryIdentity)
| Op_quarantineRecord (delivery : MessageDeliveryIdentity) (hash failureCode safe_message : string)
| Op_deadLetterCommand (i : DeadLetterCommandInput).

Definition perform `{Platform} (x : Call * operation) (s : WorkflowDb) : WorkflowDb :=
  let c := fst x in
  match snd x with
  | Op_claimNext w l a locked => snd (withTransaction (claimNext c w l a locked) s)
  | Op_checkpoint i => snd (withTransaction (checkpoint c i) s)
  | Op_complete i => snd (withTransaction (complete c i) s)
  | Op_deadLetterWorkflow i => snd (withTransaction (deadLetterWorkflow c i) s)
  | Op_admitCommand r d => snd (withTransaction (admitCommand c r d) s)
  | Op_admitReplayRequest r d => snd (withTransaction (admitReplayRequest c r d) s)
  | Op_quarantineRecord d h f m => snd (withTransaction (quarantineRecord d h f m) s)
  | Op_deadLetterCommand i => snd (withTransaction (deadLetterCommand c i) s)
  end.

(** A sequence of committed calls, in the order the database serialises them. *)
Definition history : Type := list (Call * operation).
Definition after `{Platform} (h : history) (s : WorkflowDb) : WorkflowDb :=
  List.fold_left (λ s x, perform x s) h s.

Definition lease_token (s : WorkflowDb) (instance : string) : Z :=
  from_option l_fencing_token 0 (s.(instance_leases) !! instance).
Definition instance_of (s : WorkflowDb) (operation : string) : option string :=
  w_instance_id <$> s.(workflows) !! operation.
(** What never changes about a workflow, and what only grows. *)
Definition same_workflow (a b : WorkflowRow) : Prop :=
  b.(w_operation_id) = a.(w_operation_id) ∧ b.(w_event_id) = a.(w_event_id)
  ∧ b.(w_project_id) = a.(w_project_id) ∧ b.(w_instance_id) = a.(w_instance_id)
  ∧ b.(w_action) = a.(w_action) ∧ a.(w_replay_generation) ≤ b.(w_replay_generation).
Definition same_receipt (a b : ReceiptRow) : Prop :=
  b.(r_coordinates) = a.(r_coordinates) ∧ b.(r_payload_hash) = a.(r_payload_hash).

Record advances (s s' : WorkflowDb) : Prop := {
  adv_tokens : ∀ i, lease_token s i ≤ lease_token s' i;
  adv_workflows : ∀ op row, s.(workflows) !! op = Some row →
    ∃ row', s'.(workflows) !! op = Some row' ∧ same_workflow row row';
  adv_receipts : ∀ k r, s.(command_receipts) !! k = Some r →
    ∃ r', s'.(command_receipts) !! k = Some r' ∧ same_receipt r r';
  adv_outbox : s.(outbox) `prefix_of` s'.(outbox);
  adv_audit : s.(audit_entries) `prefix_of` s'.(audit_entries);
  adv_poison : s.(poison_records) ⊆ s'.(poison_records);
}.

(** Every row sits under its own key and holds the command of that operation. *)
Definition coherent (s : WorkflowDb) : Prop :=
  ∀ op row, s.(workflows) !! op = Some row →
    row.(w_operation_id) = op ∧ row.(w_command).(envelope).(operationId) = op.

#[export] Instance same_workflow_preorder : PreOrder same_workflow.
Proof.
  split; [intros a; unfold same_workflow; split_and!; done|].
  intros a b d (?&?&?&?&?&?) (?&?&?&?&?&?). unfold same_workflow. split_and!; try congruence. lia.
Qed.
#[export] Instance same_receipt_preorder : PreOrder same_receipt.
Proof. split; [done|]. intros a b d [] []. split; congruence. Qed.

#[export] Instance advances_preorder : PreOrder advances.
Proof.
  split.
  - intros s. split; [done| | |done..].
    + intros op row H. exists row. split; [done|reflexivity].
    + intros k r H. exists r. split; [done|reflexivity].
  - intros a b d [] []. split.
    + intros i. etrans; eauto.
    + intros op row H. destruct (adv_workflows0 op row H) as (row1 & H1 & ?).
      destruct (adv_workflows1 op row1 H1) as (row2 & H2 & ?). exists row2. split; [done|by etrans].
    + intros k r H. destruct (adv_receipts0 k r H) as (r1 & H1 & ?).
      destruct (adv_receipts1 k r1 H1) as (r2 & H2 & ?). exists r2. split; [done|by etrans].
    + by etrans.
    + by etrans.
    + by etrans.
Qed.

(** The relation every committed call keeps. *)
Definition evolves (s s' : WorkflowDb) : Prop := coherent s → advances s s' ∧ coherent s'.

#[export] Instance evolves_preorder : PreOrder evolves.
Proof.
  split; [intros s Hc; split; [reflexivity|done]|].
  intros a b d H1 H2 Hc. destruct (H1 Hc) as [? Hb]. destruct (H2 Hb). split; [by etrans|done].
Qed.

Lemma evolves_beside (s s' : WorkflowDb) :
  advances s s' → s'.(workflows) = s.(workflows) → evolves s s'.
Proof. intros Ha Hw Hc. split; [done|]. unfold coherent. by rewrite Hw. Qed.

(** ** The effect of each table's writes *)

Ltac advance :=
  split; simpl;
  [try done
  |try (intros ?op ?row ?Hrow; eexists; split; [eassumption|reflexivity])
  |try (intros ?key ?receipt ?Hreceipt; eexists; split; [eassumption|reflexivity])
  |try done; try (by apply prefix_app_r)
  |try done; try (by apply prefix_app_r)
  |try done].

Lemma evolves_outbox (l : list OutboxRow) (s : WorkflowDb) : evolves s (set_outbox (λ o, o ++ l)%list s).
Proof. apply evolves_beside; [|done]. advance. Qed.
Lemma evolves_audit (l : list (Command AuditData)) (s : WorkflowDb) :
  evolves s (set_audit (λ o, o ++ l)%list s).
Proof. apply evolves_beside; [|done]. advance. Qed.
Lemma evolves_dead_letters (f : gmap string DeadLetterRow → gmap string DeadLetterRow) (s : WorkflowDb) :
  evolves s (set_dead_letters f s).
Proof. apply evolves_beside; [|done]. advance. Qed.
Lemma evolves_replays (f : gmap string ReplayRow → gmap string ReplayRow) (s : WorkflowDb) :
  evolves s (set_replay_requests f s).
Proof. apply evolves_beside; [|done]. advance. Qed.

Lemma evolves_receipt (k : string * Z) (r : ReceiptRow) (s : WorkflowDb) :
  s.(command_receipts) !! k = None → evolves s (set_receipts (insert k r) s).
Proof.
  intros Hk. apply evolves_beside; [|done]. advance. intros k' r' H. exists r'. split; [|reflexivity].
  rewrite lookup_insert_ne; [done|congruence].
Qed.

Lemma evolves_complete_receipt (c : Call) (k : string * Z) (s : WorkflowDb) :
  evolves s (set_receipts (alter (complete_receipt c) k) s).
Proof.
  apply evolves_beside; [|done]. advance. intros k' r' H. destruct (decide (k = k')) as [<-|Hne].
  - rewrite lookup_alter, H. eexists. split; [simpl; by rewrite decide_True by done|done].
  - exists r'. rewrite lookup_alter_ne by done. split; [done|reflexivity].
Qed.

Lemma evolves_poison (k : string * Z * string) (r : PoisonRow) (s : WorkflowDb) :
  s.(poison_records) !! k = None → evolves s (set_poison (insert k r) s).
Proof. intros Hk. apply evolves_beside; [|done]. advance. by apply insert_subseteq. Qed.

(** A row that belongs under a key. *)
Definition row_of (op : string) (row : WorkflowRow) : Prop :=
  row.(w_operation_id) = op ∧ row.(w_command).(envelope).(operationId) = op.

Lemma coherent_insert (op : string) (row : WorkflowRow) (s : WorkflowDb) :
  coherent s → row_of op row → coherent (set_workflows (insert op row) s).
Proof.
  intros Hc Hr op' r. simpl. destruct (decide (op = op')) as [<-|Hne].
  - rewrite lookup_insert_eq. by intros [= <-].
  - rewrite lookup_insert_ne by done. apply Hc.
Qed.

Lemma evolves_new_workflow (op : string) (row : WorkflowRow) (s : WorkflowDb) :
  s.(workflows) !! op = None → row_of op row → evolves s (set_workflows (insert op row) s).
Proof.
  intros Hk Hr Hc. split; [|by apply coherent_insert]. advance. intros op' row' Hrow.
  exists row'. split; [|reflexivity]. rewrite lookup_insert_ne; [done|congruence].
Qed.

Lemma evolves_update_workflow (op : string) (row row' : WorkflowRow) (s : WorkflowDb) :
  s.(workflows) !! op = Some row → same_workflow row row' →
  (row_of op row → row_of op row') → evolves s (set_workflows (insert op row') s).
Proof.
  intros Hk Hs Hr Hc. split; [|apply coherent_insert; [done|]; by apply Hr, Hc]. advance.
  intros op' r Hrow. destruct (decide (op = op')) as [<-|Hne].
  - exists row'. rewrite lookup_insert_eq. split; [done|congruence].
  - exists r. rewrite lookup_insert_ne by done. split; [done|reflexivity].
Qed.

Lemma evolves_lease (i : string) (l : LeaseRow) (s : WorkflowDb) :
  lease_token s i ≤ l.(l_fencing_token) → evolves s (set_leases (insert i l) s).
Proof.
  intros Hl. apply evolves_beside; [|done]. advance. intros j. unfold lease_token in *. simpl. destruct (decide (i = j)) as [<-|Hne].
  - by rewrite lookup_insert_eq.
  - by rewrite lookup_insert_ne by done.
Qed.

#[export] Hint Resolve evolves_outbox evolves_audit evolves_dead_letters evolves_replays
  evolves_complete_receipt : program.

(** ** Every method advances the state *)

Section keeps_advances.
Context `{Platform} (c : Call).
Abbreviation kept := (keeps evolves).

Lemma kept_modify (f : WorkflowDb → WorkflowDb) : (∀ s, evolves s (f s)) → kept (tmodify (E := error) f).
Proof. apply keeps_modify. Qed.

Lemma kept_outbox (p : OutboxPayload) (t : string) (at_ : Z) (id : string) (g : Z) :
  kept (writeWorkflowOutbox p t at_ id g).
Proof. unfold writeWorkflowOutbox. keeps_steps. apply kept_modify. intros s. apply evolves_outbox. Qed.
Hint Resolve kept_outbox : program.

Lemma kept_event (e : WorkflowEvent) (id : string) : kept (writeEvent e id).
Proof. apply kept_outbox. Qed.
Hint Resolve kept_event : program.

Lemma kept_audit (e : EventEnvelope) (a : string) (o : AuditOutcome) (at_ : Z) (r : option string) (i j : string) :
  kept (writeServiceAudit e a o at_ r i j).
Proof. unfold writeServiceAudit. keeps_steps. apply kept_modify. intros s. apply evolves_audit. Qed.
Hint Resolve kept_audit : program.

Lemma kept_receipt (r : record) (d : MessageDeliveryIdentity) (t : option Z) : kept (insertCommandReceipt c r d t).
Proof.
  intros s a s'. unfold insertCommandReceipt. rewrite tbind_Ok. intros (m & s1 & Hm & Hrest).
  injection Hm as <- <-. destruct (command_receipts s !! _) eqn:E; peel; [reflexivity|].
  by apply evolves_receipt.
Qed.
Hint Resolve kept_receipt : program.

Lemma kept_insertWorkflow (row : WorkflowRow) :
  row_of row.(w_operation_id) row → kept (insertWorkflow row).
Proof. intros Hr s a s' Hs. apply tbind_Ok in Hs as (m & s1 & [= <- <-] & Hs). peel. unbool. by apply evolves_new_workflow. Qed.
Hint Resolve kept_insertWorkflow : program.

Lemma kept_poison (k : string * Z * string) (r : PoisonRow) : kept (insert_poison k r).
Proof.
  intros s a s' Hs. apply tbind_Ok in Hs as (m & s1 & [= <- <-] & Hs). destruct (poison_records s !! k) eqn:E; peel; [reflexivity|].
  by apply evolves_poison.
Qed.
Hint Resolve kept_poison : program.

Lemma kept_consumeReceipt (row : WorkflowRow) : kept (consumeReceipt c row).
Proof. unfold consumeReceipt. keeps_steps. apply kept_modify. intros s. apply evolves_complete_receipt. Qed.
Hint Resolve kept_consumeReceipt : program.

Lemma kept_releaseLease (i w : string) (t : Z) : kept (releaseLease c i w t).
Proof.
  unfold releaseLease. apply kept_modify. intros s. unfold set_leases.
  destruct (instance_leases s !! i) as [l|] eqn:E; [|apply evolves_beside; [advance|done]].
  destruct (String.eqb _ _ && _) eqn:Eb; [|apply evolves_beside; [advance|done]]. unbool. subst.
  apply (evolves_lease i _ s). unfold lease_token. by rewrite E.
Qed.
Hint Resolve kept_releaseLease : program.

Lemma kept_deadLetter (o : record) (t : TraceContext) (k : EventFailureCategory) (f m : string) (n : Z)
    (b : bool) (g : Z) (i j : string) : kept (writeDeadLetter c o t k f m n b g i j).
Proof. unfold writeDeadLetter. keeps_steps. apply kept_modify. intros s. apply evolves_dead_letters. Qed.
Hint Resolve kept_deadLetter : program.

(** What the fence lets through. *)
Lemma assertLease_Ok (op w : string) (t : Z) (s : WorkflowDb) (row : WorkflowRow) (s' : WorkflowDb) :
  assertLease c op w t s = Ok (row, s') ↔
  s' = s ∧ s.(workflows) !! op = Some row ∧ row.(w_fencing_token) = t
  ∧ ∃ lease, s.(instance_leases) !! row.(w_instance_id) = Some lease ∧ lease.(l_owner_id) = w
             ∧ lease.(l_fencing_token) = t ∧ appNow c < lease.(l_leased_until).
Proof.
  unfold assertLease. split.
  - intros Hs. peel. unbool. naive_solver.
  - intros (-> & Hrow & Ht & lease & Hl & Ho & Hk & Hu). unfold tbind, tget. rewrite Hrow. simpl.
    rewrite (proj2 (Z.eqb_eq _ _) Ht). simpl. rewrite Hl. simpl.
    rewrite (proj2 (String.eqb_eq _ _) Ho), (proj2 (Z.eqb_eq _ _) Hk), (proj2 (Z.ltb_lt _ _) Hu). done.
Qed.

Lemma same_checkpoint (i : CheckpointInput) (row : WorkflowRow) : same_workflow row (checkpoint_row c i row).
Proof. unfold same_workflow. simpl. split_and!; done. Qed.
Lemma same_terminal (a b : string) (n : Z) (f : option Failure) (l : option (string * string)) (t : TraceContext)
    (row : WorkflowRow) : same_workflow row (terminal_row c a b n f l t row).
Proof. unfold same_workflow. simpl. split_and!; done. Qed.

(** A fenced write updates the row the fence returned, then appends. *)
Lemma kept_fenced {A : Type} (op w : string) (t : Z) (update : WorkflowRow → WorkflowRow)
    (rest : WorkflowRow → wtx A) :
  (∀ row, same_workflow row (update row)) → (∀ row, row_of op row → row_of op (update row)) →
  (∀ row, kept (rest row)) →
  kept (let! row := assertLease c op w t in
        tmodify (set_workflows (insert op (update row))) ;; rest row).
Proof.
  intros Hu Ho Hr. apply keeps_bind_read. intros s row s' (-> & Hrow & _)%assertLease_Ok.
  split; [done|]. intros b s2 ([] & s1 & [= <-] & Hrest)%tbind_Ok.
  etrans; [exact (evolves_update_workflow op row (update row) s Hrow (Hu row) (Ho row))|]. exact (Hr row _ _ _ Hrest).
Qed.

Lemma kept_checkpoint (i : CheckpointInput) : kept (checkpoint c i).
Proof. apply kept_fenced; [apply same_checkpoint|done|]. intros row. keeps_steps. Qed.

Lemma kept_complete (i : CompleteInput) : kept (complete c i).
Proof. apply (kept_fenced _ _ _ (complete_row c i)); [intros row; apply same_terminal|done|]. intros row. keeps_steps. Qed.

Lemma kept_deadLetterWorkflow (i : DeadLetterInput) : kept (deadLetterWorkflow c i).
Proof.
  unfold deadLetterWorkflow. apply keeps_bind_read. intros s row s' (-> & Hrow & _)%assertLease_Ok.
  split; [done|]. intros b s2 Hrest.
  apply tbind_Ok in Hrest as (a & ? & (? & _ & [= -> ->])%tlift_Ok & Hrest).
  apply tbind_Ok in Hrest as (r & ? & (? & _ & [= -> ->])%tsome_Ok & Hrest).
  apply tbind_Ok in Hrest as (f & ? & (? & _ & [= -> ->])%tsome_Ok & Hrest).
  apply tbind_Ok in Hrest as ([] & s1 & [= <-] & Hrest).
  match type of Hrest with _ ?s1 = _ => transitivity s1 end;
    [eapply evolves_update_workflow; [exact Hrow|apply same_terminal|done]|].
  refine ((_ : kept _) _ _ _ Hrest). keeps_steps.
Qed.

Lemma kept_takeLease (i w : string) (l : Z) : kept (takeLease c i w l).
Proof.
  intros s a s' Hs. unfold takeLease in Hs. apply tbind_Ok in Hs as (m & s1 & [= <- <-] & Hs).
  destruct (instance_leases s !! i) as [lease|] eqn:E.
  - destruct (_ || _); [|by injection Hs as <- <-].
    apply tbind_Ok in Hs as ([] & s1 & [= <-] & [= <- <-]). apply evolves_lease. unfold lease_token.
    rewrite E. simpl. lia.
  - apply tbind_Ok in Hs as ([] & s1 & [= <-] & [= <- <-]). apply evolves_lease. unfold lease_token.
    rewrite E. simpl. lia.
Qed.

(** A granted token is the next one of the instance. *)
Lemma takeLease_Some (i w : string) (l t : Z) (s s' : WorkflowDb) :
  takeLease c i w l s = Ok (Some t, s') →
  t = lease_token s i + 1 ∧
  s' = set_leases (insert i {| l_owner_id := w; l_fencing_token := t; l_leased_until := dbNow c + l * 1000 |}) s
  ∧ (∀ lease, s.(instance_leases) !! i = Some lease →
       lease.(l_leased_until) ≤ dbNow c ∨ lease.(l_owner_id) = w).
Proof.
  intros Hs. unfold takeLease in Hs. apply tbind_Ok in Hs as (m & s1 & [= <- <-] & Hs).
  unfold lease_token. destruct (instance_leases s !! i) as [lease|] eqn:E; simpl.
  - destruct (_ || _) eqn:Eb; [|discriminate Hs].
    apply tbind_Ok in Hs as ([] & s1 & [= <-] & [= <- <-]). split_and!; [done|done|].
    intros ? [= <-]. unbool. destruct Eb; unbool; eauto.
  - apply tbind_Ok in Hs as ([] & s1 & [= <-] & [= <- <-]). split_and!; done.
Qed.

Lemma first_row_in (l : list WorkflowRow) (row : WorkflowRow) : first_row l = Some row → In row l.
Proof.
  revert row. induction l as [|x l IH]; intros row; simpl; [done|].
  destruct (first_row l) as [y|]; [|by intros [= ->]; left].
  destruct (before_row x y); intros [= ->]; [by left|right; by apply IH].
Qed.

(** The order [readyWorkflow] picks by, as a relation. *)
Definition due_before (a b : WorkflowRow) : Prop :=
  a.(w_next_attempt_at) < b.(w_next_attempt_at)
  ∨ a.(w_next_attempt_at) = b.(w_next_attempt_at) ∧ a.(w_created_at) ≤ b.(w_created_at).

Lemma before_row_spec (a b : WorkflowRow) :
  if before_row a b then due_before a b else due_before b a.
Proof. unfold before_row, due_before. destruct (_ || _) eqn:E; unbool; [destruct E|]; unbool; intuition lia. Qed.

Lemma first_row_least (l : list WorkflowRow) (row : WorkflowRow) :
  first_row l = Some row → ∀ r, In r l → due_before row r.
Proof.
  revert row. induction l as [|x l IH]; intros row; simpl; [done|]. intros Hf r [->|Hr].
  - destruct (first_row l) as [y|]; [|injection Hf as <-; unfold due_before; lia].
    pose proof (before_row_spec r y). destruct (before_row r y); injection Hf as <-; [unfold due_before; lia|done].
  - destruct (first_row l) as [y|] eqn:E; [|by destruct l as [|z l]; [|simpl in E; repeat case_match]].
    specialize (IH y eq_refl r Hr). pose proof (before_row_spec x y).
    destruct (before_row x y); injection Hf as <-; [|done]. unfold due_before in *. lia.
Qed.

Lemma readyWorkflow_Some (w : string) (a : WorkflowAction) (locked : list string) (s s' : WorkflowDb)
    (row : WorkflowRow) :
  readyWorkflow c w a locked s = Ok (Some row, s') →
  s' = s ∧ ready c w a locked s row = true ∧ ∃ op, s.(workflows) !! op = Some row.
Proof.
  unfold readyWorkflow. intros [= Hf <-]. apply first_row_in, filter_In in Hf as [Hin Hr].
  split_and!; [done|done|]. apply in_map_iff in Hin as ([op r] & <- & Hin).
  exists op. by apply elem_of_map_to_list, list_elem_of_In.
Qed.

(** What a successful claim found, took and returned. *)
Lemma claimNext_Some (w : string) (l : Z) (a : WorkflowAction) (locked : list string) (s s' : WorkflowDb)
    (cw : ClaimedWorkflow json) :
  claimNext c w l a locked s = Ok (Some cw, s') →
  ∃ op row, s.(workflows) !! op = Some row ∧ ready c w a locked s row = true
    ∧ (∀ op' r, s.(workflows) !! op' = Some r → ready c w a locked s r = true → due_before row r)
    ∧ s' = set_workflows (insert row.(w_operation_id) (claim_row c row (claimed_fencingToken cw)))
             (set_leases (insert row.(w_instance_id)
                {| l_owner_id := w; l_fencing_token := claimed_fencingToken cw;
                   l_leased_until := dbNow c + l * 1000 |}) s)
    ∧ claimed_fencingToken cw = lease_token s row.(w_instance_id) + 1
    ∧ (∀ lease, s.(instance_leases) !! row.(w_instance_id) = Some lease →
         lease.(l_leased_until) ≤ dbNow c ∨ lease.(l_owner_id) = w)
    ∧ row.(w_action) = action_text (claimed_action cw) ∧ claimed_action cw = a
    ∧ claimed_command cw = row.(w_command) ∧ COMMAND_VALIDATORS dateParses a row.(w_command) = true
    ∧ row.(w_stage) = stage_text (claimed_stage cw) ∧ claimed_attempt cw = row.(w_attempt) + 1
    ∧ claimed_stageAttempt cw = row.(w_stage_attempt)
    ∧ claimed_retryStartedAt cw = row.(w_retry_started_at)
    ∧ claimed_providerResourceId cw = present row.(w_provider_resource_id)
    ∧ claimed_providerTaskReference cw = present row.(w_provider_task_reference)
    ∧ MINIMUM_LEASE_SECONDS ≤ l ≤ MAXIMUM_LEASE_SECONDS.
Proof.
  unfold claimNext. intros Hs. apply tbind_Ok in Hs as ([] & s0 & Hg & Hs). apply tguard_Ok in Hg as [Hg [= ->]].
  apply tbind_Ok in Hs as (found & s1 & Hready & Hs).
  destruct found as [row|]; [|discriminate Hs].
  assert (Hleast : ∀ op' r, workflows s !! op' = Some r → ready c w a locked s r = true → due_before row r).
  { intros op' r Hr Hrr. unfold readyWorkflow in Hready. injection Hready as Hf _.
    eapply first_row_least; [exact Hf|]. apply filter_In. split; [|done]. apply in_map_iff.
    exists (op', r). split; [done|]. by apply list_elem_of_In, elem_of_map_to_list. }
  apply readyWorkflow_Some in Hready as (-> & Hr & op & Hrow).
  apply tbind_Ok in Hs as (token & s2 & Ht & Hs). destruct token as [token|]; [|discriminate Hs].
  apply takeLease_Some in Ht as (Htoken & -> & Hfree).
  apply tbind_Ok in Hs as ([] & s3 & [= <-] & Hs).
  apply tbind_Ok in Hs as (act & s4 & (? & Hact & [= -> ->])%tlift_Ok & Hs).
  apply tbind_Ok in Hs as (cmd & s5 & (? & Hcmd & [= -> ->])%tsome_Ok & Hs).
  apply tbind_Ok in Hs as (st & s6 & (? & Hst & [= -> ->])%tlift_Ok & [= <- <-]). simpl in *.
  unfold lifecycleCommand in Hcmd. destruct (COMMAND_VALIDATORS _ _ _) eqn:Hv; [|done]. injection Hcmd as <-.
  apply toWorkflowAction_inv in Hact. apply toWorkflowStage_inv in Hst.
  assert (String.eqb (w_action row) (action_text a) = true) as Ha
    by (unfold ready in Hr; by repeat apply andb_prop in Hr as [Hr _]).
  unbool.
  assert (x = a) as ->.
  { assert (toWorkflowAction (action_text x) = toWorkflowAction (action_text a)) as E by congruence.
    rewrite !toWorkflowAction_text in E. congruence. }
  exists op, row. split_and!; done.
Qed.

Lemma same_claim (row : WorkflowRow) (t : Z) : same_workflow row (claim_row c row t).
Proof. unfold same_workflow. simpl. split_and!; done. Qed.

(** A claim that returns nothing leaves the state, or throws. *)
Lemma claimNext_None (w : string) (l : Z) (a : WorkflowAction) (locked : list string) (s s' : WorkflowDb) :
  claimNext c w l a locked s = Ok (None, s') → s' = s.
Proof.
  unfold claimNext. intros Hs. apply tbind_Ok in Hs as ([] & s0 & Hg & Hs). apply tguard_Ok in Hg as [_ [= ->]].
  apply tbind_Ok in Hs as (found & s1 & Hready & Hs). unfold readyWorkflow in Hready. injection Hready as _ <-.
  destruct found as [row|]; [|by injection Hs].
  apply tbind_Ok in Hs as (token & s2 & Ht & Hs). destruct token as [token|].
  - exfalso. repeat (apply tbind_Ok in Hs as (? & ? & _ & Hs)). discriminate Hs.
  - injection Hs as <-. unfold takeLease in Ht. apply tbind_Ok in Ht as (m & s3 & [= <- <-] & Ht).
    repeat case_match; try (by injection Ht);
      apply tbind_Ok in Ht as (? & ? & _ & [=]).
Qed.

Lemma kept_claimNext (w : string) (l : Z) (a : WorkflowAction) (locked : list string) :
  kept (claimNext c w l a locked).
Proof.
  intros s [cw|] s' Hs; [|by apply claimNext_None in Hs as ->].
  apply claimNext_Some in Hs as (op & row & Hrow & _ & _ & -> & Ht & _).
  intros Hc. destruct (Hc op row Hrow) as [Hop _]. rewrite Hop. revert Hc.
  change (evolves s (set_workflows (insert op (claim_row c row (claimed_fencingToken cw)))
    (set_leases (insert (w_instance_id row) {| l_owner_id := w; l_fencing_token := claimed_fencingToken cw;
                   l_leased_until := dbNow c + l * 1000 |}) s))).
  etrans; [apply evolves_lease|eapply evolves_update_workflow]; simpl;
    [|exact Hrow|apply same_claim|done]. simpl. lia.
Qed.

Lemma kept_actionOf (r : record) : kept (workflowActionOf r).
Proof. unfold workflowActionOf. auto with program. Qed.
Hint Resolve kept_actionOf : program.

Lemma kept_admitOriginal (r : record) (d : MessageDeliveryIdentity) : kept (admitOriginalDelivery c r d).
Proof. unfold admitOriginalDelivery. keeps_steps; by apply kept_insertWorkflow. Qed.

Lemma kept_persist (r : record) (o : option (Z * string * string)) : kept (persistReplayRequest c r o).
Proof. unfold persistReplayRequest. keeps_steps. apply kept_modify. intros s. apply evolves_replays. Qed.

Lemma kept_resolution (r : record) (o : ReplayOutcome) (g : Z) (i j : string) :
  kept (writeReplayResolution c r o g i j).
Proof. apply kept_event. Qed.
Hint Resolve kept_persist kept_resolution : program.

Lemma kept_admitReplay (r : record) (d : MessageDeliveryIdentity) : kept (admitReplayRequest c r d).
Proof. unfold admitReplayRequest. keeps_steps; apply kept_modify; intros s; apply evolves_dead_letters. Qed.

Lemma kept_reject (d : MessageDeliveryIdentity) (h : string) (k : CommandRejectionCode) : kept (reject d h k).
Proof. unfold reject, rejectReplayCommand. keeps_steps. Qed.

Lemma kept_settle (e k : string) (r : record) (g : Z) : kept (settle_replay c e k r g).
Proof.
  unfold settle_replay. keeps_steps; apply kept_modify; intros s;
    [apply evolves_dead_letters..|apply evolves_replays].
Qed.
Hint Resolve kept_reject kept_settle : program.

Lemma same_reopen (command : record) (d : MessageDeliveryIdentity) (row : WorkflowRow) :
  reopenable command d row = true → same_workflow row (reopen_row c command d.(replayGeneration) row).
Proof. intros Hr. unfold reopenable in Hr. unbool. unfold same_workflow. simpl. split_and!; try done. lia. Qed.

Lemma insertCommandReceipt_workflows (r : record) (d : MessageDeliveryIdentity) (t : option Z) (s s' : WorkflowDb)
    (b : bool) : insertCommandReceipt c r d t s = Ok (b, s') → s'.(workflows) = s.(workflows).
Proof.
  intros Hs. apply tbind_Ok in Hs as (m & ? & [= <- <-] & Hs).
  destruct (command_receipts s !! _); [by injection Hs as _ <-|].
  apply tbind_Ok in Hs as (? & ? & [_ [= -> ->]]%tguard_Ok & Hs).
  by apply tbind_Ok in Hs as (? & ? & [= <- <-] & [= _ <-]).
Qed.

Lemma kept_restart (r : record) (d : MessageDeliveryIdentity) (h k : string) (q : record) :
  kept (restart_workflow c r d h k q).
Proof.
  intros s b s' Hs. apply tbind_Ok in Hs as (ws & s1 & [= <- <-] & Hs). cbv zeta in Hs.
  destruct (negb _) eqn:Hre; [by apply kept_reject in Hs|]. apply negb_false_iff in Hre.
  apply tbind_Ok in Hs as (fresh & s1 & Hreceipt & Hs).
  pose proof (insertCommandReceipt_workflows _ _ _ _ _ _ Hreceipt) as Hw.
  transitivity s1; [by eapply kept_receipt|].
  destruct fresh; simpl in Hs; [|by injection Hs as <- <-].
  destruct (workflows s !! _) as [row|] eqn:Hrow; simpl in Hre.
  - apply tbind_Ok in Hs as ([] & s2 & [= <-] & Hs). rewrite <- Hw in Hrow.
    etrans; [eapply evolves_update_workflow; [exact Hrow|by apply same_reopen|]|].
    + intros [Hop _]. done.
    + refine ((_ : kept _) _ _ _ Hs). keeps_steps.
  - refine ((_ : kept _) _ _ _ Hs). keeps_steps. by apply kept_insertWorkflow.
Qed.
Hint Resolve kept_restart : program.

Lemma kept_admitReplayCommand (r : record) (d : MessageDeliveryIdentity) :
  kept (admitAuthorizedReplayCommand c r d).
Proof. unfold admitAuthorizedReplayCommand. keeps_steps. Qed.

Lemma kept_deadLetterCommand (i : DeadLetterCommandInput) : kept (deadLetterCommand c i).
Proof. unfold deadLetterCommand. keeps_steps. Qed.
End keeps_advances.
#[export] Hint Resolve kept_outbox kept_event kept_audit kept_receipt kept_insertWorkflow kept_poison kept_consumeReceipt
  kept_releaseLease kept_deadLetter kept_actionOf kept_persist kept_resolution kept_reject kept_settle kept_restart : program.

(** Every committed call evolves the state, and so does every history. *)
Lemma perform_evolves `{Platform} (x : Call * operation) (s : WorkflowDb) : evolves s (perform x s).
Proof.
  destruct x as [c op]. destruct op; unfold perform; simpl; apply keeps_transaction; try apply _.
  - apply kept_claimNext.
  - apply kept_checkpoint.
  - apply kept_complete.
  - apply kept_deadLetterWorkflow.
  - simpl. unfold admitCommand. destruct (_ =? _); [apply kept_admitOriginal|apply kept_admitReplayCommand].
  - apply kept_admitReplay.
  - apply kept_poison.
  - apply kept_deadLetterCommand.
Qed.

Lemma after_evolves `{Platform} (h : history) (s : WorkflowDb) : evolves s (after h s).
Proof.
  revert s. induction h as [|x h IH]; intros s; [reflexivity|].
  change (after (x :: h) s) with (after h (perform x s)). etrans; [apply perform_evolves|apply IH].
Qed.

(** ** Claims and fences over time *)

Section fencing.
Context `{Platform}.

(** A claim takes the next token of the instance of the operation it returns. *)
Lemma claim_takes_token (c : Call) (w : string) (l : Z) (a : WorkflowAction) (locked : list string)
    (s s' : WorkflowDb) (cw : ClaimedWorkflow json) :
  coherent s → claimNext c w l a locked s = Ok (Some cw, s') →
  ∃ row, let op := (claimed_command cw).(envelope).(operationId) in
    s.(workflows) !! op = Some row
    ∧ instance_of s' op = Some row.(w_instance_id)
    ∧ claimed_fencingToken cw = lease_token s row.(w_instance_id) + 1
    ∧ lease_token s' row.(w_instance_id) = claimed_fencingToken cw
    ∧ coherent s'.
Proof.
  intros Hc Hs. pose proof (kept_claimNext c w l a locked s _ s' Hs Hc) as [_ Hc'].
  apply claimNext_Some in Hs as (op & row & Hrow & _ & _ & -> & Ht & _ & _ & _ & Hcmd & _).
  destruct (Hc op row Hrow) as [Hop Hcop]. exists row. cbv zeta. rewrite Hcmd, Hcop.
  split_and!; try done; unfold instance_of, lease_token in *; simpl.
  - by rewrite Hop, lookup_insert_eq.
  - by rewrite lookup_insert_eq.
Qed.

Lemma instance_of_after (h : history) (s : WorkflowDb) (op i : string) :
  coherent s → instance_of s op = Some i → instance_of (after h s) op = Some i.
Proof.
  intros Hc Hi. destruct (after_evolves h s Hc) as [Ha _]. unfold instance_of in *.
  destruct (workflows s !! op) as [row|] eqn:E; [|done]. simpl in Hi. injection Hi as <-.
  destruct (adv_workflows _ _ Ha op row E) as (row' & -> & (_ & _ & _ & Hi' & _)). simpl. by rewrite Hi'.
Qed.

Lemma token_after (h : history) (s : WorkflowDb) (i : string) :
  coherent s → lease_token s i ≤ lease_token (after h s) i.
Proof. intros Hc. destruct (after_evolves h s Hc) as [Ha _]. apply (adv_tokens _ _ Ha). Qed.

(** A token below the lease's current one passes no fence. *)
Lemma fence_refuses (c : Call) (op w i : string) (t : Z) (s : WorkflowDb) :
  instance_of s op = Some i → t < lease_token s i → ∃ m, assertLease c op w t s = Err m.
Proof.
  intros Hi Ht. destruct (assertLease c op w t s) as [[row s']|m] eqn:E; [|by exists m].
  apply assertLease_Ok in E as (-> & Hrow & Hfence & lease & Hl & _ & Hk & _).
  unfold instance_of in Hi. rewrite Hrow in Hi. injection Hi as <-.
  unfold lease_token in Ht. rewrite Hl in Ht. simpl in Ht. lia.
Qed.

(** A write whose fence refuses changes nothing. *)
Definition refused {A : Type} (m : wtx A) (s : WorkflowDb) : Prop := ∃ e, withTransaction m s = (Err e, s).

Lemma refused_bind {A B : Type} (m : wtx A) (k : A → wtx B) (s : WorkflowDb) (e : error) :
  m s = Err e → refused (tbind m k) s.
Proof. intros Hm. exists e. unfold withTransaction, tbind. by rewrite Hm. Qed.
End fencing.

(** C15: Fencing.  Worker A claims a workflow; later, after any history of other
    calls, worker B claims a workflow of the same instance.  From then on,
    whatever any clock says and whatever else happens, every checkpoint,
    completion or dead-lettering A attempts with its old token throws and
    leaves the database exactly as it was. *)
Theorem stale_holder_is_fenced `{Platform} (cA cB c : Call) (wA wB : string) (lA lB : Z)
    (aA aB : WorkflowAction) (kA kB : list string) (s0 s1 s3 : WorkflowDb) (h1 h2 : history)
    (A B : ClaimedWorkflow json)
    (Hwf : coherent s0)
    (HA : claimNext cA wA lA aA kA s0 = Ok (Some A, s1))
    (HB : claimNext cB wB lB aB kB (after h1 s1) = Ok (Some B, s3))
    (Hsame : instance_of s3 (claimed_command B).(envelope).(operationId)
             = instance_of s1 (claimed_command A).(envelope).(operationId)) :
  let s := after h2 s3 in
  let op := (claimed_command A).(envelope).(operationId) in
  claimed_fencingToken A < claimed_fencingToken B
  ∧ (∀ i, i.(cp_operationId) = op → i.(cp_fencingToken) = claimed_fencingToken A → refused (checkpoint c i) s)
  ∧ (∀ i, i.(co_operationId) = op → i.(co_fencingToken) = claimed_fencingToken A → refused (complete c i) s)
  ∧ (∀ i, i.(dl_operationId) = op → i.(dl_fencingToken) = claimed_fencingToken A →
       refused (deadLetterWorkflow c i) s).
Proof.
  intros s op. destruct (claim_takes_token _ _ _ _ _ _ _ _ Hwf HA) as (rA & _ & HiA & _ & HtA & Hc1).
  pose proof (after_evolves h1 s1 Hc1) as [_ Hc2].
  destruct (claim_takes_token _ _ _ _ _ _ _ _ Hc2 HB) as (rB & _ & HiB & HtB & HtB' & Hc3).
  rewrite Hsame, HiA in HiB. injection HiB as Hi. rewrite <- Hi in HtB, HtB'.
  pose proof (token_after h1 s1 (w_instance_id rA) Hc1). pose proof (token_after h2 s3 (w_instance_id rA) Hc3) as Hs3.
  change (after h2 s3) with s in Hs3.
  assert (Hop : instance_of s op = Some (w_instance_id rA)).
  { apply instance_of_after; [done|]. destruct (kept_claimNext cB wB lB aB kB _ _ _ HB Hc2) as [Ha _].
    pose proof (instance_of_after h1 s1 op _ Hc1 HiA) as Hi2. unfold instance_of in *.
    destruct (workflows (after h1 s1) !! op) as [row|] eqn:E; [|done]. simpl in Hi2.
    destruct (adv_workflows _ _ Ha op row E) as (row' & -> & (_ & _ & _ & Hi' & _)). simpl. congruence. }
  assert (Hlt : claimed_fencingToken A < lease_token s (w_instance_id rA)) by lia.
  assert (Hf : ∀ w, ∃ m, assertLease c op w (claimed_fencingToken A) s = Err m)
    by (intros w; by eapply fence_refuses).
  split_and!; [lia|..]; intros i Ho Ht.
  - destruct (Hf (cp_workerId i)) as [m Hm]. eapply refused_bind. rewrite Ho, Ht. exact Hm.
  - destruct (Hf (co_workerId i)) as [m Hm]. eapply refused_bind. rewrite Ho, Ht. exact Hm.
  - destruct (Hf (dl_workerId i)) as [m Hm]. eapply refused_bind. rewrite Ho, Ht. exact Hm.
Qed.

(** ** A concrete run *)

Definition empty_db : WorkflowDb :=
  {| workflows := ∅; instance_leases := ∅; command_receipts := ∅; outbox := []; audit_entries := [];
     dead_letters := ∅; replay_requests := ∅; poison_records := ∅ |}.
Definition sample_delivery (n : string) : MessageDeliveryIdentity :=
  {| topic := "provisioning.commands.v1"; Platform.partition := 0; offset := n; replayGeneration := 0; outboxId := None |}.
Definition admitted_db : WorkflowDb :=
  perform (H := sample_platform) (sample_call 1, Op_admitCommand sample_create_record (sample_delivery "0")) empty_db.
Definition sample_claim (w : string) (t : Z) (s : WorkflowDb) : result error (option (ClaimedWorkflow json) * WorkflowDb) :=
  claimNext (H := sample_platform) (sample_call t) w 30 create_instance [] s.
Definition claim_state (r : result error (option (ClaimedWorkflow json) * WorkflowDb)) : WorkflowDb :=
  match r with Ok (_, s) => s | Err _ => empty_db end.
Definition claim_value (r : result error (option (ClaimedWorkflow json) * WorkflowDb)) : ClaimedWorkflow json :=
  match r with
  | Ok (Some w, _) => w
  | _ => {| claimed_action := reconcile_instance; claimed_command := sample_create_record;
            claimed_traceContext := {| traceparent := ""; tracestate := None |}; claimed_stage := accepted;
            claimed_attempt := 0; claimed_stageAttempt := 0; claimed_retryStartedAt := None;
            claimed_fencingToken := 0; claimed_providerResourceId := None; claimed_providerTaskReference := None |}
  end.
Definition sample_write (w : ClaimedWorkflow json) (worker : string) (next : option Z) : CheckpointInput :=
  {| cp_operationId := (claimed_command w).(envelope).(operationId); cp_workerId := worker;
     cp_fencingToken := claimed_fencingToken w; cp_stage := submitting_create; cp_providerResourceId := None;
     cp_providerTaskReference := None; cp_nextAttemptAt := next; cp_retry := None;
     cp_event := {| envelope := sample_create_record.(envelope);
                    data := WorkflowProgressed
                      {| progressed_stage := stage_text submitting_create; progressed_attempt := 1;
                         progressed_operationState := running; progressed_providerTaskReference := None;
                         progressed_nextActionAt := next |} |} |}.

Lemma empty_coherent : coherent empty_db.
Proof. intros op row Hr. change ((∅ : gmap string WorkflowRow) !! op = Some row) in Hr. by rewrite lookup_empty in Hr. Qed.
Lemma admitted_coherent : coherent admitted_db.
Proof. exact (proj2 (perform_evolves (H := sample_platform) _ _ empty_coherent)). Qed.

Lemma stale_holder_is_fenced_witness :
  let rA := sample_claim "a" 2 admitted_db in
  let rB := sample_claim "b" 40000 (claim_state rA) in
  rA = Ok (Some (claim_value rA), claim_state rA) ∧ rB = Ok (Some (claim_value rB), claim_state rB)
  ∧ claimed_fencingToken (claim_value rA) < claimed_fencingToken (claim_value rB)
  ∧ refused (checkpoint (sample_call 40001) (sample_write (claim_value rA) "a" None))
      (claim_state rB).
Proof.
  intros rA rB.
  assert (HA : rA = Ok (Some (claim_value rA), claim_state rA)) by (vm_compute; reflexivity).
  assert (HB : rB = Ok (Some (claim_value rB), claim_state rB)) by (vm_compute; reflexivity).
  assert (Hsame : instance_of (claim_state rB) (claimed_command (claim_value rB)).(envelope).(operationId)
                  = instance_of (claim_state rA) (claimed_command (claim_value rA)).(envelope).(operationId))
    by (vm_compute; reflexivity).
  destruct (stale_holder_is_fenced (H := sample_platform) (sample_call 2) (sample_call 40000) (sample_call 40001)
    "a" "b" 30 30 create_instance create_instance [] [] admitted_db (claim_state rA) (claim_state rB) [] []
    (claim_value rA) (claim_value rB) admitted_coherent HA HB Hsame) as (Hlt & Hcp & _).
  split_and!; [exact HA|exact HB|exact Hlt|]. exact (Hcp (sample_write (claim_value rA) "a" None) eq_refl eq_refl).
Defined.

(** ** What a claim and a fenced write do *)

(** The rows a transaction appended to the outbox. *)
Definition event_row (e : WorkflowEvent) (id : string) : OutboxRow :=
  {| ob_outbox_id := id; ob_topic := "provisioning.events.v1"; ob_payload := P_event e;
     ob_tracingspancontext := serializeDebeziumTraceContext e.(envelope).(traceContext);
     ob_replay_generation := 0; ob_occurred_at := e.(envelope).(occurredAt) |}.
Definition released (c : Call) (worker : string) (token : Z) : LeaseRow :=
  {| l_owner_id := worker; l_fencing_token := token; l_leased_until := appNow c |}.

(** The unique keys an appended row must not repeat. *)
Definition fresh_row (event : string) (generation : Z) (id : string) (s : WorkflowDb) : Prop :=
  (event, generation) ∉ map outbox_key s.(outbox) ∧ id ∉ map ob_outbox_id s.(outbox).

Lemma writeWorkflowOutbox_Ok (p : OutboxPayload) (t : string) (at_ : Z) (id : string) (g : Z)
    (s s' : WorkflowDb) :
  writeWorkflowOutbox p t at_ id g s = Ok ((), s') ↔
  fresh_row (payload_envelope p).(eventId) g id s ∧
  s' = set_outbox (λ l, l ++ [{| ob_outbox_id := id; ob_topic := t; ob_payload := p;
         ob_tracingspancontext := serializeDebeziumTraceContext (payload_envelope p).(traceContext);
         ob_replay_generation := g; ob_occurred_at := at_ |}])%list s.
Proof.
  split.
  - intros Hs. apply tbind_Ok in Hs as (l & s1 & [= <- <-] & Hs).
    apply tbind_Ok in Hs as (? & s1 & [Hg [= -> ->]]%tguard_Ok & [= <-]). unbool. done.
  - intros [[Hk Hid] ->]. unfold writeWorkflowOutbox, tbind, tget.
    rewrite (bool_decide_eq_true_2 _ Hid), bool_decide_eq_true_2 by exact Hk. done.
Qed.

(** Claiming.  A claim returns a workflow only if it is due, of the
    requested action, running or waiting to retry, on an instance whose lease
    is absent, expired or the caller's own, and earliest in (next attempt,
    creation) order among the eligible rows; its command satisfies its own
    action's contract; and the claim leaves the caller holding the instance's
    lease with the instance's next token, the attempt counted, and nothing else
    changed. *)
Theorem claimNext_spec `{Platform} (c : Call) (w : string) (l : Z) (a : WorkflowAction) (locked : list string)
    (s s' : WorkflowDb) (cw : ClaimedWorkflow json)
    (Hwf : coherent s) (Hs : claimNext c w l a locked s = Ok (Some cw, s')) :
  ∃ row, let op := (claimed_command cw).(envelope).(operationId) in
    s.(workflows) !! op = Some row
    ∧ row.(w_action) = action_text a ∧ row.(w_next_attempt_at) ≤ dbNow c
    ∧ (row.(w_status) = "running" ∨ row.(w_status) = "retry_wait")
    ∧ (∀ lease, s.(instance_leases) !! row.(w_instance_id) = Some lease →
         lease.(l_leased_until) ≤ dbNow c ∨ lease.(l_owner_id) = w)
    ∧ (∀ op' r, s.(workflows) !! op' = Some r → ready c w a locked s r = true → due_before row r)
    ∧ COMMAND_VALIDATORS dateParses a (claimed_command cw) = true
    ∧ claimed_fencingToken cw = lease_token s row.(w_instance_id) + 1
    ∧ claimed_attempt cw = row.(w_attempt) + 1
    ∧ s' = set_workflows (insert op (claim_row c row (claimed_fencingToken cw)))
             (set_leases (insert row.(w_instance_id)
                {| l_owner_id := w; l_fencing_token := claimed_fencingToken cw;
                   l_leased_until := dbNow c + l * 1000 |}) s).
Proof.
  apply claimNext_Some in Hs as (op & row & Hrow & Hr & Hleast & -> & Ht & Hfree & Hact & <- & Hcmd & Hv & _ & Hat & _).
  destruct (Hwf op row Hrow) as [Hop Hcop]. exists row. cbv zeta. rewrite Hcmd, Hcop, Hop.
  unfold ready in Hr. unbool. split_and!; try done.
  match goal with Hst : String.eqb (w_status row) _ = true ∨ _ |- _ => destruct Hst; unbool; auto end.
Qed.

Lemma claimNext_spec_witness :
  let r := sample_claim "a" 2 admitted_db in
  r = Ok (Some (claim_value r), claim_state r) ∧ claimed_fencingToken (claim_value r) = 1.
Proof.
  intros r. assert (Hr : r = Ok (Some (claim_value r), claim_state r)) by (vm_compute; reflexivity).
  split; [exact Hr|].
  destruct (claimNext_spec (H := sample_platform) (sample_call 2) "a" 30 create_instance [] admitted_db
    (claim_state r) (claim_value r) admitted_coherent Hr) as (row & _).
  vm_compute. reflexivity.
Defined.

(** A live lease excludes.  While a worker's lease on an instance has not
    expired by the database clock, no claim by another worker returns a
    workflow of that instance. *)
Theorem live_lease_excludes `{Platform} (c : Call) (w : string) (l : Z) (a : WorkflowAction)
    (locked : list string) (s s' : WorkflowDb) (cw : ClaimedWorkflow json) (i : string) (lease : LeaseRow)
    (Hwf : coherent s) (Hlease : s.(instance_leases) !! i = Some lease)
    (Hlive : dbNow c < lease.(l_leased_until)) (Hforeign : lease.(l_owner_id) ≠ w)
    (Hs : claimNext c w l a locked s = Ok (Some cw, s')) :
  instance_of s (claimed_command cw).(envelope).(operationId) ≠ Some i.
Proof.
  apply claimNext_Some in Hs as (op & row & Hrow & _ & _ & _ & _ & Hfree & _ & _ & Hcmd & _).
  destruct (Hwf op row Hrow) as [_ Hcop]. rewrite Hcmd, Hcop. unfold instance_of. rewrite Hrow. simpl.
  intros [= <-]. destruct (Hfree lease Hlease); [lia|done].
Qed.

(** A second workflow, of another instance. *)
Definition other_command : record :=
  {| envelope :=
       {| eventId := "e2"; schemaName := "instance.create.requested"; schemaVersion := 1;
          aggregateType := "instance"; aggregateId := "i2"; projectId := "p"; operationId := "o2";
          correlationId := "c2"; causationId := "e2"; occurredAt := 0;
          traceContext := {| traceparent := "00"; tracestate := None |}; partitionKey := "i2" |};
     data := sample_create_record.(data) |}.
Definition two_db : WorkflowDb :=
  perform (H := sample_platform) (sample_call 1, Op_admitCommand other_command (sample_delivery "1")) admitted_db.
Lemma two_coherent : coherent two_db.
Proof. exact (proj2 (perform_evolves (H := sample_platform) _ _ admitted_coherent)). Qed.

Lemma live_lease_excludes_witness :
  let s1 := claim_state (sample_claim "a" 2 two_db) in
  let r := sample_claim "b" 3 s1 in
  r = Ok (Some (claim_value r), claim_state r)
  ∧ ∃ i lease, s1.(instance_leases) !! i = Some lease ∧ lease.(l_owner_id) = "a"
    ∧ instance_of s1 (claimed_command (claim_value r)).(envelope).(operationId) ≠ Some i.
Proof.
  intros s1 r. assert (Hr : r = Ok (Some (claim_value r), claim_state r)) by (vm_compute; reflexivity).
  assert (Hwf : coherent s1).
  { exact (proj2 (perform_evolves (H := sample_platform)
      (sample_call 2, Op_claimNext "a" 30 create_instance []) _ two_coherent)). }
  pose (i := (claimed_command (claim_value (sample_claim "a" 2 two_db))).(envelope).(aggregateId)).
  pose (lease := {| l_owner_id := "a"; l_fencing_token := 1; l_leased_until := 30002 |}).
  assert (Hl : s1.(instance_leases) !! i = Some lease) by (vm_compute; reflexivity).
  split; [exact Hr|]. exists i, lease. split_and!; [exact Hl|reflexivity|].
  refine (live_lease_excludes (H := sample_platform) (sample_call 3) "b" 30 create_instance [] s1 (claim_state r)
    (claim_value r) i lease Hwf Hl _ _ Hr); [vm_compute; reflexivity|discriminate].
Defined.

(** The holder of an operation's current token, on an unexpired lease. *)
Definition holds (c : Call) (s : WorkflowDb) (op w : string) (t : Z) (row : WorkflowRow) : Prop :=
  s.(workflows) !! op = Some row ∧ row.(w_fencing_token) = t
  ∧ ∃ lease, s.(instance_leases) !! row.(w_instance_id) = Some lease ∧ lease.(l_owner_id) = w
             ∧ lease.(l_fencing_token) = t ∧ appNow c < lease.(l_leased_until).

Lemma releaseLease_holder (c : Call) (i w : string) (t : Z) (s s' : WorkflowDb) (lease : LeaseRow) :
  s.(instance_leases) !! i = Some lease → lease.(l_owner_id) = w → lease.(l_fencing_token) = t →
  releaseLease c i w t s = Ok ((), s') ↔ s' = set_leases (insert i (released c w t)) s.
Proof.
  intros Hl Ho Hk. unfold releaseLease, tmodify, set_leases. rewrite Hl, Ho, Hk, String.eqb_refl, Z.eqb_refl.
  simpl. split; [by intros [= <-]|by intros ->].
Qed.

(** The committed state of a checkpoint. *)
Definition checkpointed (c : Call) (i : CheckpointInput) (row : WorkflowRow) (s : WorkflowDb) : WorkflowDb :=
  set_leases (insert row.(w_instance_id) (released c i.(cp_workerId) i.(cp_fencingToken)))
    (set_outbox (λ l, l ++ [event_row i.(cp_event) (c.(uuid) 0%nat)])%list
       (set_workflows (insert i.(cp_operationId) (checkpoint_row c i row)) s)).

Lemma checkpoint_Ok (c : Call) (i : CheckpointInput) (s s' : WorkflowDb) :
  checkpoint c i s = Ok ((), s') ↔
  ∃ row, holds c s i.(cp_operationId) i.(cp_workerId) i.(cp_fencingToken) row
    ∧ fresh_row i.(cp_event).(envelope).(eventId) 0 (c.(uuid) 0%nat) s ∧ s' = checkpointed c i row s.
Proof.
  unfold checkpoint. rewrite tbind_Ok. setoid_rewrite assertLease_Ok. split.
  - intros (row & ? & (-> & Hrow & Ht & lease & Hl & Ho & Hk & Hu) & Hs).
    apply tbind_Ok in Hs as ([] & s2 & [= <-] & Hs). apply tbind_Ok in Hs as ([] & s3 & He & Hs).
    apply writeWorkflowOutbox_Ok in He as [Hf ->]. eapply (releaseLease_holder _ _ _ _ _ _ lease) in Hs; [|done..].
    exists row. unfold holds. naive_solver.
  - intros (row & (Hrow & Ht & lease & Hl & Ho & Hk & Hu) & Hf & ->). exists row, s. split; [naive_solver|].
    apply tbind_Ok. exists (), (set_workflows (insert i.(cp_operationId) (checkpoint_row c i row)) s).
    split; [done|]. apply tbind_Ok.
    eexists (), _. split; [by apply writeWorkflowOutbox_Ok|]. by eapply (releaseLease_holder _ _ _ _ _ _ lease).
Qed.

(** A checkpoint is atomic and fenced.  It succeeds exactly for the holder
    of the operation's current token on an unexpired lease (the event and row
    identifiers being new), and then it does four things together and nothing
    else: moves the row to the new stage (parked in retry_wait exactly when a
    delay was given), records the retry state, appends exactly the explaining
    event to the outbox, and expires the holder's lease while keeping its token
    so that the next claim continues the sequence.  Otherwise it throws and
    changes nothing. *)
Theorem checkpoint_atomic (c : Call) (i : CheckpointInput) (s : WorkflowDb) :
  let can_write := ∃ row, holds c s i.(cp_operationId) i.(cp_workerId) i.(cp_fencingToken) row
    ∧ fresh_row i.(cp_event).(envelope).(eventId) 0 (c.(uuid) 0%nat) s in
  (can_write → ∃ row, s.(workflows) !! i.(cp_operationId) = Some row
     ∧ withTransaction (checkpoint c i) s = (Ok (), checkpointed c i row s))
  ∧ (¬ can_write → refused (checkpoint c i) s).
Proof.
  intros can_write. split.
  - intros (row & Hh & Hf). exists row. split; [apply Hh|]. unfold withTransaction.
    replace (checkpoint c i s) with (@Ok error _ ((), checkpointed c i row s)); [done|].
    symmetry. apply checkpoint_Ok. by exists row.
  - intros Hn. unfold refused, withTransaction.
    destruct (checkpoint c i s) as [[[] s']|e] eqn:E; [|by exists e].
    apply checkpoint_Ok in E as (row & Hh & Hf & _). destruct Hn. by exists row.
Qed.
