(* ===== verification/Inbox.v ===== *)
(** * The command inbox and governed replay

    Exactly-once admission of commands, and what a replay of a dead letter
    needs, does and loses. *)
From S2P Require Import Prelude JsText Json SshKey Domain Ipv4 WorkflowStage Events EventValidation Platform ProviderPort WorkflowStore Fencing.
From Stdlib Require Import ZArith Lia Bool Ascii String.
From stdpp Require Import base decidable list strings gmap.
Open Scope string_scope.
Open Scope Z_scope.
Open Scope prog_scope.

(** A delivery of a generation of an event that has been received before. *)
Definition received (s : WorkflowDb) (event : string) (generation : Z) : Prop :=
  is_Some (s.(command_receipts) !! (event, generation)).

(** The sample command's operation after its retries were exhausted. *)
Definition failed_event_of (w : ClaimedWorkflow json) (id : string) : WorkflowEvent :=
  let e := sample_create_record.(envelope) in
  {| envelope :=
       {| eventId := id; schemaName := "instance.mutation.failed"; schemaVersion := 1;
          aggregateType := "instance"; aggregateId := e.(aggregateId); projectId := e.(projectId);
          operationId := e.(operationId); correlationId := e.(correlationId); causationId := e.(eventId);
          occurredAt := 10; traceContext := e.(traceContext); partitionKey := e.(partitionKey) |};
     data := MutationFailed
       {| failed_action := create_instance;
          failed_failure := {| category := cat_transient; code := "WORKFLOW_RETRY_EXHAUSTED";
                               safeMessage := "unavailable"; retryAfterMilliseconds := None |};
          failed_compensationState := not_required |} |}.
Definition exhausted_input (w : ClaimedWorkflow json) (worker : string) : DeadLetterInput :=
  {| dl_operationId := (claimed_command w).(envelope).(operationId); dl_workerId := worker;
     dl_fencingToken := claimed_fencingToken w; dl_attempts := 8;
     dl_failureCode := "WORKFLOW_RETRY_EXHAUSTED"; dl_safeMessage := "unavailable";
     dl_lastErrorCategory := "provider_transport"; dl_lastErrorCode := "unavailable";
     dl_event := failed_event_of w "f1" |}.
Definition exhausted_history : history :=
  [(sample_call 2, Op_claimNext "a" 30 create_instance []);
   (sample_call 3, Op_deadLetterWorkflow (exhausted_input (claim_value (sample_claim "a" 2 admitted_db)) "a"))].
Definition exhausted_db : WorkflowDb := after (H := sample_platform) exhausted_history admitted_db.
Definition replay_request : record :=
  {| envelope :=
       {| eventId := "q1"; schemaName := "provisioning.replay.requested"; schemaVersion := 1;
          aggregateType := "instance"; aggregateId := sample_uuid; projectId := sample_uuid;
          operationId := sample_uuid; correlationId := "c9"; causationId := "x"; occurredAt := 20;
          traceContext := {| traceparent := "00"; tracestate := None |}; partitionKey := sample_uuid |};
     data := JObj [("replayRequestId", JStr sample_uuid); ("originalEventId", JStr sample_uuid);
                   ("requestedAt", JStr "2026")] |}.
Definition replay_requested_db : WorkflowDb :=
  perform (H := sample_platform) (sample_call 20, Op_admitReplayRequest replay_request (sample_delivery "5"))
    exhausted_db.
Definition replay_command : record :=
  replayed_command (sample_call 20) sample_create_record replay_request.
Definition replay_delivery : MessageDeliveryIdentity :=
  {| topic := "provisioning.commands.v1"; Platform.partition := 0; offset := "6"; replayGeneration := 1;
     outboxId := Some ((sample_call 20).(uuid) 0%nat) |}.

(** ** Lemmas *)

Section inbox.
Context `{Platform} (c : Call).

Lemma received_after (h : history) (s : WorkflowDb) (e : string) (g : Z) :
  coherent s → received s e g → received (after h s) e g.
Proof.
  intros Hc [r Hr]. destruct (after_evolves h s Hc) as [Ha _].
  destruct (adv_receipts _ _ Ha _ r Hr) as (r' & Hr' & _). by exists r'.
Qed.

Lemma insertCommandReceipt_duplicate (r : record) (d : MessageDeliveryIdentity) (t : option Z) (s : WorkflowDb) :
  received s r.(envelope).(eventId) d.(replayGeneration) → insertCommandReceipt c r d t s = Ok (false, s).
Proof. intros [x Hx]. unfold insertCommandReceipt, tbind, tget. by rewrite Hx. Qed.

(** The row an accepted delivery adds to the inbox. *)
Definition receipt (r : record) (d : MessageDeliveryIdentity) (t : option Z) : ReceiptRow :=
  {| r_coordinates := coordinates d; r_payload_hash := payloadHash r; r_received_at := appNow c;
     r_completed_at := t |}.

Lemma insertCommandReceipt_true (r : record) (d : MessageDeliveryIdentity) (t : option Z) (s s' : WorkflowDb) :
  insertCommandReceipt c r d t s = Ok (true, s') →
  s.(command_receipts) !! (r.(envelope).(eventId), d.(replayGeneration)) = None
  ∧ s' = set_receipts (insert (r.(envelope).(eventId), d.(replayGeneration)) (receipt r d t)) s.
Proof.
  intros Hs. apply tbind_Ok in Hs as (m & ? & [= <- <-] & Hs).
  destruct (command_receipts s !! _) eqn:E; [discriminate Hs|].
  apply tbind_Ok in Hs as (? & ? & [_ [= -> ->]]%tguard_Ok & Hs).
  by apply tbind_Ok in Hs as (? & ? & [= <- <-] & [= <-]).
Qed.

Lemma insertWorkflow_Ok (row : WorkflowRow) (s s' : WorkflowDb) :
  insertWorkflow row s = Ok ((), s') →
  s.(workflows) !! row.(w_operation_id) = None
  ∧ s' = set_workflows (insert row.(w_operation_id) row) s.
Proof.
  intros Hs. apply tbind_Ok in Hs as (m & ? & [= <- <-] & Hs).
  apply tbind_Ok in Hs as (? & ? & [Hg [= -> ->]]%tguard_Ok & Hs).
  apply tbind_Ok in Hs as (? & ? & [_ [= -> ->]]%tguard_Ok & [= <-]). by unbool.
Qed.

(** The resource a first delivery seeds its workflow with. *)
Definition seeded (a : WorkflowAction) (r : record) (s : WorkflowDb) : option string :=
  if bool_decide (a = create_instance) then None else inheritedResource r.(envelope).(aggregateId) s.

(** An accepted first delivery. *)
Lemma admitOriginal_accepted (r : record) (d : MessageDeliveryIdentity) (s s' : WorkflowDb) :
  admitOriginalDelivery c r d s = Ok (Admission_accepted, s') →
  ∃ a, workflowActionForSchema r.(envelope).(schemaName) = Some a
    ∧ s.(workflows) !! r.(envelope).(operationId) = None
    ∧ s' = set_workflows (insert r.(envelope).(operationId)
                            (new_workflow c r a d.(replayGeneration) (seeded a r s)))
             (set_receipts (insert (r.(envelope).(eventId), d.(replayGeneration)) (receipt r d None)) s).
Proof.
  intros Hs. apply tbind_Ok in Hs as (ws & ? & [= <- <-] & Hs).
  destruct (workflows s !! _) eqn:E; [by apply tbind_Ok in Hs as (? & ? & _ & [=])|].
  apply tbind_Ok in Hs as (b & s1 & Hr & Hs). destruct b; [|discriminate Hs]. simpl in Hs.
  apply insertCommandReceipt_true in Hr as [_ ->].
  apply tbind_Ok in Hs as (a0 & ? & (a & Ha & [= -> ->])%tsome_Ok & Hs).
  apply tbind_Ok in Hs as (i & ? & [= <- <-] & Hs).
  apply tbind_Ok in Hs as ([] & s2 & [_ ->]%insertWorkflow_Ok & [= <-]). exists a. done.
Qed.

(** A delivery of a received generation of an admitted operation. *)
Lemma admitOriginal_duplicate (r : record) (d : MessageDeliveryIdentity) (s : WorkflowDb) :
  received s r.(envelope).(eventId) d.(replayGeneration) →
  admitOriginalDelivery c r d s = Ok (Admission_duplicate, s).
Proof.
  intros Hr. unfold admitOriginalDelivery. unfold tbind at 1, tget.
  destruct (workflows s !! _); unfold tbind at 1; rewrite insertCommandReceipt_duplicate by done; done.
Qed.
End inbox.

(** C16: Exactly-once admission.  An accepted first delivery creates exactly one
    workflow, at its first stage and of its schema's action, together with its
    receipt; and after any later history, every redelivery of the same event,
    from whatever offset, with whatever payload, is answered 'duplicate' and
    changes nothing. *)
Theorem admission_is_exactly_once `{Platform} (c : Call) (r : record) (d : MessageDeliveryIdentity)
    (s s' : WorkflowDb)
    (Hwf : coherent s) (Hd : d.(replayGeneration) = 0)
    (Hs : admitCommand c r d s = Ok (Admission_accepted, s')) :
  (∃ a, workflowActionForSchema r.(envelope).(schemaName) = Some a
    ∧ s.(workflows) !! r.(envelope).(operationId) = None
    ∧ s'.(workflows) = <[r.(envelope).(operationId) := new_workflow c r a 0 (seeded a r s)]> s.(workflows)
    ∧ s'.(command_receipts) = <[(r.(envelope).(eventId), 0) := receipt c r d None]> s.(command_receipts))
  ∧ ∀ h c' r' d', r'.(envelope).(eventId) = r.(envelope).(eventId) → d'.(replayGeneration) = 0 →
      admitCommand c' r' d' (after h s') = Ok (Admission_duplicate, after h s').
Proof.
  pose proof Hs as Hk. unfold admitCommand in Hs. rewrite Hd in Hs. simpl in Hs.
  pose proof (kept_admitOriginal c r d s _ s' Hs Hwf) as [_ Hwf'].
  apply admitOriginal_accepted in Hs as (a & Ha & Hn & ->). rewrite Hd in *. split; [by exists a|].
  intros h c' r' d' He Hd'. unfold admitCommand. rewrite Hd'. simpl.
  apply admitOriginal_duplicate. rewrite Hd', He. apply received_after; [done|].
  unfold received. simpl. rewrite lookup_insert_eq. by eexists.
Qed.

Lemma admission_is_exactly_once_witness :
  admitCommand (H := sample_platform) (sample_call 1) sample_create_record (sample_delivery "0") empty_db
    = Ok (Admission_accepted, admitted_db)
  ∧ admitCommand (H := sample_platform) (sample_call 9) sample_create_record (sample_delivery "7") exhausted_db
    = Ok (Admission_duplicate, exhausted_db).
Proof.
  assert (Hs : admitCommand (H := sample_platform) (sample_call 1) sample_create_record (sample_delivery "0") empty_db
    = Ok (Admission_accepted, admitted_db)) by (vm_compute; reflexivity).
  split; [exact Hs|].
  destruct (admission_is_exactly_once (H := sample_platform) (sample_call 1) sample_create_record
    (sample_delivery "0") empty_db admitted_db empty_coherent eq_refl Hs) as [_ Hdup].
  exact (Hdup exhausted_history (sample_call 9) sample_create_record (sample_delivery "7") eq_refl eq_refl).
Defined.

(** ** Governed replay *)

Section replay.
Context `{Platform} (c : Call).

Lemma find_authorization_Some (e : string) (g : Z) (s : WorkflowDb) (k : string) (p : ReplayRow) :
  find_authorization e g s = Some (k, p) →
  s.(replay_requests) !! k = Some p ∧ p.(p_original_event_id) = e ∧ p.(p_replay_generation) = Some g.
Proof.
  unfold find_authorization. intros [Hin Hb]%List.find_some. simpl in Hb. unbool.
  split_and!; [|done|done]. by apply elem_of_map_to_list, list_elem_of_In.
Qed.

Lemma reject_not_accepted (d : MessageDeliveryIdentity) (h : string) (k : CommandRejectionCode)
    (s s' : WorkflowDb) : reject d h k s ≠ Ok (Admission_accepted, s').
Proof.
  unfold reject, rejectReplayCommand. intros Hs.
  apply tbind_Ok in Hs as (? & ? & _ & [=]).
Qed.

Lemma writeEvent_Ok (e : WorkflowEvent) (id : string) (s s' : WorkflowDb) :
  writeEvent e id s = Ok ((), s') → s' = set_outbox (λ l, l ++ [event_row e id])%list s.
Proof. by intros [_ ->]%writeWorkflowOutbox_Ok. Qed.

(** Settling touches the dead letter, the authorization and the outbox. *)
Lemma settle_replay_Ok (e k : string) (q : record) (g : Z) (s s' : WorkflowDb) :
  settle_replay c e k q g s = Ok ((), s') →
  s'.(workflows) = s.(workflows) ∧ s'.(command_receipts) = s.(command_receipts)
  ∧ s'.(replay_requests) = alter (completed_request c) k s.(replay_requests).
Proof.
  intros Hs. apply tbind_Ok in Hs as (l & ? & [= <- <-] & Hs).
  apply tbind_Ok in Hs as (? & ? & [_ [= -> ->]]%tguard_Ok & Hs).
  apply tbind_Ok in Hs as ([] & s1 & [= <-] & Hs). apply tbind_Ok in Hs as ([] & s2 & [= <-] & Hs).
  apply writeEvent_Ok in Hs as ->. done.
Qed.

(** The workflow an accepted replay leaves. *)
Definition restarted (r : record) (g : Z) (s : WorkflowDb) : option WorkflowRow :=
  match s.(workflows) !! r.(envelope).(operationId) with
  | Some row => Some (reopen_row c r g row)
  | None => (λ a, new_workflow c r a g None) <$> workflowActionForSchema r.(envelope).(schemaName)
  end.

Lemma restart_accepted (r : record) (d : MessageDeliveryIdentity) (h k : string) (q : record)
    (s s' : WorkflowDb) :
  restart_workflow c r d h k q s = Ok (Admission_accepted, s') →
  (∀ row, s.(workflows) !! r.(envelope).(operationId) = Some row → reopenable r d row = true)
  ∧ s.(command_receipts) !! (r.(envelope).(eventId), d.(replayGeneration)) = None
  ∧ (∃ row, restarted r d.(replayGeneration) s = Some row
       ∧ s'.(workflows) = <[r.(envelope).(operationId) := row]> s.(workflows))
  ∧ s'.(command_receipts)
    = <[(r.(envelope).(eventId), d.(replayGeneration)) := receipt c r d None]> s.(command_receipts)
  ∧ s'.(replay_requests) = alter (completed_request c) k s.(replay_requests).
Proof.
  intros Hs. apply tbind_Ok in Hs as (ws & ? & [= <- <-] & Hs). cbv zeta in Hs.
  destruct (negb _) eqn:Hre; [by apply reject_not_accepted in Hs|]. apply negb_false_iff in Hre.
  apply tbind_Ok in Hs as (b & s1 & Hr & Hs). destruct b; [|discriminate Hs]. simpl in Hs.
  apply insertCommandReceipt_true in Hr as [Hnone ->]. unfold restarted.
  destruct (workflows s !! _) as [row|] eqn:E; simpl in Hre.
  - apply tbind_Ok in Hs as ([] & s2 & [= <-] & Hs). apply tbind_Ok in Hs as ([] & s3 & Hset & [= <-]).
    apply settle_replay_Ok in Hset as (-> & -> & ->). split_and!; try done; [|by eexists].
    by intros ? [= <-].
  - apply tbind_Ok in Hs as ([] & s2 & Hi & Hs). apply tbind_Ok in Hs as ([] & s3 & Hset & [= <-]).
    apply tbind_Ok in Hi as (? & ? & (a & Ha & [= -> ->])%tsome_Ok & [_ ->]%insertWorkflow_Ok).
    apply settle_replay_Ok in Hset as (-> & -> & ->). rewrite Ha. split_and!; try done. by eexists.
Qed.

Lemma replay_accepted_inv (r : record) (d : MessageDeliveryIdentity) (s s' : WorkflowDb) :
  admitAuthorizedReplayCommand c r d s = Ok (Admission_accepted, s') →
  ∃ k p, find_authorization r.(envelope).(eventId) d.(replayGeneration) s = Some (k, p)
    ∧ authorized p (payloadHash r) d = true
    ∧ ∃ q, storedReplayRequest p.(p_request_payload) = Some q
      ∧ restart_workflow c r d (payloadHash r) k q s = Ok (Admission_accepted, s').
Proof.
  intros Hs. apply tbind_Ok in Hs as (m & ? & [= <- <-] & Hs). cbv zeta in Hs.
  destruct (command_receipts s !! _).
  { destruct (String.eqb _ _); [discriminate Hs|by apply reject_not_accepted in Hs]. }
  apply tbind_Ok in Hs as (f & ? & [= <- <-] & Hs).
  destruct (find_authorization _ _ s) as [[k p]|] eqn:E; [|by apply reject_not_accepted in Hs].
  destruct (negb _) eqn:Ha; [by apply reject_not_accepted in Hs|]. apply negb_false_iff in Ha.
  apply tbind_Ok in Hs as (? & ? & (q & Hq & [= -> ->])%tsome_Ok & Hs). exists k, p. split_and!; try done. by exists q.
Qed.

(** A further delivery of a received generation never restarts anything. *)
Lemma replay_received (r : record) (d : MessageDeliveryIdentity) (s : WorkflowDb) :
  received s r.(envelope).(eventId) d.(replayGeneration) →
  ∃ o s', admitAuthorizedReplayCommand c r d s = Ok (o, s') ∧ o ≠ Admission_accepted
    ∧ s'.(workflows) = s.(workflows) ∧ s'.(outbox) = s.(outbox).
Proof.
  intros [x Hx]. unfold admitAuthorizedReplayCommand. unfold tbind at 1, tget. rewrite Hx.
  destruct (String.eqb _ _); [by eexists _, _|].
  unfold reject, rejectReplayCommand, insert_poison, tbind, tget, tmodify, tret.
  destruct (poison_records s !! _); by eexists _, _.
Qed.
End replay.

(** C24: Replay is authorized, and once.  A replayed command (generation above
    zero) is accepted only if a persisted, still unconsumed authorization of
    exactly that event and generation names the hash of exactly this payload
    and the outbox row this delivery came from, and only to restart the
    operation's own workflow when that is failed and exactly one generation
    behind, or to start it for the first time.  Acceptance consumes the
    authorization, and after any later history no delivery of that generation,
    whatever its payload, restarts the workflow again. *)
Theorem replay_is_authorized_once `{Platform} (c : Call) (r : record) (d : MessageDeliveryIdentity)
    (s s' : WorkflowDb)
    (Hwf : coherent s) (Hd : d.(replayGeneration) ≠ 0)
    (Hs : admitCommand c r d s = Ok (Admission_accepted, s')) :
  let g := d.(replayGeneration) in
  let op := r.(envelope).(operationId) in
  (∃ k p, s.(replay_requests) !! k = Some p ∧ p.(p_original_event_id) = r.(envelope).(eventId)
     ∧ p.(p_replay_generation) = Some g ∧ p.(p_status) = replay_authorized
     ∧ p.(p_authorized_command_hash) = Some (payloadHash r)
     ∧ (∃ id, p.(p_authorized_outbox_id) = Some id ∧ d.(outboxId) = Some id)
     ∧ s'.(replay_requests) !! k = Some (completed_request c p))
  ∧ (∀ row, s.(workflows) !! op = Some row →
       row.(w_event_id) = r.(envelope).(eventId) ∧ row.(w_status) = "failed" ∧ row.(w_replay_generation) + 1 = g)
  ∧ (∃ row, restarted c r g s = Some row ∧ s'.(workflows) = <[op := row]> s.(workflows))
  ∧ ∀ h c' r' d', r'.(envelope).(eventId) = r.(envelope).(eventId) → d'.(replayGeneration) = g →
      ∃ o s2, admitCommand c' r' d' (after h s') = Ok (o, s2) ∧ o ≠ Admission_accepted
        ∧ s2.(workflows) = (after h s').(workflows) ∧ s2.(outbox) = (after h s').(outbox).
Proof.
  cbv zeta. unfold admitCommand in *. rewrite (proj2 (Z.eqb_neq _ _) Hd) in Hs.
  pose proof (kept_admitReplayCommand c r d s _ s' Hs Hwf) as [_ Hwf'].
  apply replay_accepted_inv in Hs as (k & p & Hf & Ha & q & _ & Hs).
  apply find_authorization_Some in Hf as (Hp & He & Hg).
  apply restart_accepted in Hs as (Hre & _ & Hrow & Hrec & Hreq).
  unfold authorized in Ha. unbool. split_and!.
  - exists k, p. rewrite Hreq, lookup_alter, Hp, decide_True by done. split_and!; try done.
    match goal with Hi : is_Some _ |- _ => destruct Hi as [id Hi] end. exists id. split; congruence.
  - intros row Hr. specialize (Hre row Hr). unfold reopenable in Hre. unbool. done.
  - done.
  - intros h c' r' d' He' Hg'. rewrite Hg', (proj2 (Z.eqb_neq _ _) Hd). apply replay_received.
    rewrite He', Hg'. apply received_after; [done|]. unfold received. rewrite Hrec, lookup_insert_eq. by eexists.
Qed.

Lemma replay_is_authorized_once_witness :
  let r := admitCommand (H := sample_platform) (sample_call 30) replay_command replay_delivery replay_requested_db in
  ∃ s', r = Ok (Admission_accepted, s')
    ∧ ∃ row, s'.(workflows) !! sample_uuid = Some row ∧ row.(w_replay_generation) = 1 ∧ row.(w_status) = "running".
Proof.
  intros r. pose (s' := match r with Ok (_, s) => s | Err _ => empty_db end).
  assert (Hs : r = Ok (Admission_accepted, s')) by (vm_compute; reflexivity).
  assert (Hwf : coherent replay_requested_db).
  { refine (proj2 (perform_evolves (H := sample_platform) _ _ _)).
    exact (proj2 (after_evolves (H := sample_platform) exhausted_history _ admitted_coherent)). }
  exists s'. split; [exact Hs|].
  destruct (replay_is_authorized_once (H := sample_platform) (sample_call 30) replay_command replay_delivery
    replay_requested_db s' Hwf ltac:(discriminate) Hs) as (_ & _ & (row & Hrow & Hw) & _).
  exists row. rewrite Hw. split; [vm_compute; reflexivity|]. vm_compute in Hrow. injection Hrow as <-.
  split; reflexivity.
Defined.

(** A governed replay of a mutation loses the machine.  When an accepted
    replay restarts an existing workflow, the provider resource its row had
    inherited is cleared and never looked up again, whatever the action; so the
    next claim of that row hands the executor no resource.  (A first delivery of
    the same command would have inherited it.) *)
Theorem replay_forgets_resource `{Platform} (c : Call) (r : record) (d : MessageDeliveryIdentity)
    (s s' : WorkflowDb) (row : WorkflowRow)
    (Hwf : coherent s) (Hd : d.(replayGeneration) ≠ 0)
    (Hrow : s.(workflows) !! r.(envelope).(operationId) = Some row)
    (Hs : admitCommand c r d s = Ok (Admission_accepted, s')) :
  ∃ row', s'.(workflows) !! r.(envelope).(operationId) = Some row'
    ∧ row'.(w_action) = row.(w_action) ∧ row'.(w_provider_resource_id) = None
    ∧ ∀ c' w l a locked cw s2, claimNext c' w l a locked s' = Ok (Some cw, s2) →
        (claimed_command cw).(envelope).(operationId) = r.(envelope).(operationId) →
        claimed_providerResourceId cw = None ∧ claimed_stage cw = accepted.
Proof.
  unfold admitCommand in Hs. rewrite (proj2 (Z.eqb_neq _ _) Hd) in Hs.
  pose proof (kept_admitReplayCommand c r d s _ s' Hs Hwf) as [_ Hwf'].
  apply replay_accepted_inv in Hs as (k & p & _ & _ & q & _ & Hs).
  apply restart_accepted in Hs as (_ & _ & (row' & Hre & Hw) & _).
  unfold restarted in Hre. rewrite Hrow in Hre. injection Hre as <-.
  eexists. split; [rewrite Hw; apply lookup_insert_eq|]. split_and!; try done.
  intros c' w l a locked cw s2 Hc Hop.
  apply claimNext_Some in Hc as (op & rw & Hrw & _ & _ & _ & _ & _ & _ & _ & Hcmd & _ & Hst & _ & _ & _ & -> & _).
  destruct (Hwf' op rw Hrw) as [_ Hcop]. rewrite Hcmd, Hcop in Hop. subst op. rewrite Hw, lookup_insert_eq in Hrw.
  injection Hrw as <-. split; [done|]. simpl in Hst.
  destruct (claimed_stage cw); try done; discriminate Hst.
Qed.

Lemma replay_forgets_resource_witness :
  let r := admitCommand (H := sample_platform) (sample_call 30) replay_command replay_delivery replay_requested_db in
  ∃ s' row', r = Ok (Admission_accepted, s') ∧ s'.(workflows) !! sample_uuid = Some row'
    ∧ row'.(w_provider_resource_id) = None.
Proof.
  intros r. pose (s' := match r with Ok (_, s) => s | Err _ => empty_db end).
  assert (Hs : r = Ok (Admission_accepted, s')) by (vm_compute; reflexivity).
  assert (Hwf : coherent replay_requested_db).
  { refine (proj2 (perform_evolves (H := sample_platform) _ _ _)).
    exact (proj2 (after_evolves (H := sample_platform) exhausted_history _ admitted_coherent)). }
  assert (Hrow : ∃ row, replay_requested_db.(workflows) !! replay_command.(envelope).(operationId) = Some row)
    by (eexists; vm_compute; reflexivity).
  destruct Hrow as [row Hrow].
  destruct (replay_forgets_resource (H := sample_platform) (sample_call 30) replay_command replay_delivery
    replay_requested_db s' row Hwf ltac:(discriminate) Hrow Hs) as (row' & Hr' & _ & Hnone & _).
  exists s', row'. split_and!; [exact Hs|exact Hr'|exact Hnone].
Defined.
