(* ===== verification/CommandConsumer.v ===== *)
(** * Command ingress

    [command-routing.ts] and [command-consumer.ts] of the orchestrator: a
    record of the command topic is narrowed to a lifecycle command or a replay
    request and admitted; what cannot be narrowed becomes a dead letter or a
    poison record. *)
From S2P Require Import Prelude JsText Json SshKey Domain Ipv4 WorkflowStage Events EventValidation Platform JsonParse MessageCodec KafkaConsumer ProviderPort WorkflowStore Fencing Inbox.
From Stdlib Require Import ZArith Lia Bool Ascii String.
From stdpp Require Import base decidable list strings gmap.
Open Scope string_scope.
Open Scope Z_scope.
Open Scope prog_scope.

(** ** Routing *)

Definition SUPPORTED_COMMAND_SCHEMAS : list string :=
  ["instance.create.requested"; "instance.power.requested"; "instance.resize.requested"; "snapshot.create.requested";
   "snapshot.rollback.requested"; "snapshot.delete.requested"; "instance.retention.requested";
   "instance.purge.requested"].
Definition isSupportedCommandSchema (schema : string) : bool := bool_decide (schema ∈ SUPPORTED_COMMAND_SCHEMAS).

Section routing.
Context `{Platform, Runtime}.

Definition unsupported : thrown := PermanentMessageError "COMMAND_SCHEMA_UNSUPPORTED".
Definition invalid_payload : thrown := PermanentMessageError "COMMAND_PAYLOAD_INVALID".

Definition createCommand (r : IncomingKafkaRecord) : result thrown record :=
  let? event := decodeEventEnvelope r.(ir_value) in
  ensure? String.eqb event.(envelope).(schemaName) "instance.create.requested"
          && (event.(envelope).(schemaVersion) =? 1) else unsupported;
  ensure? isInstanceCreateRequestedV1 event else invalid_payload;
  Ok event.
Definition powerCommand (r : IncomingKafkaRecord) : result thrown record :=
  let? event := decodeEventEnvelope r.(ir_value) in
  ensure? String.eqb event.(envelope).(schemaName) "instance.power.requested"
          && (event.(envelope).(schemaVersion) =? 1) else unsupported;
  ensure? isInstancePowerRequestedV1 event else invalid_payload;
  Ok event.
Definition resizeCommand (r : IncomingKafkaRecord) : result thrown record :=
  let? event := decodeEventEnvelope r.(ir_value) in
  ensure? String.eqb event.(envelope).(schemaName) "instance.resize.requested"
          && (event.(envelope).(schemaVersion) =? 1) else unsupported;
  ensure? isInstanceResizeRequestedV1 event else invalid_payload;
  Ok event.
Definition snapshotCommand (r : IncomingKafkaRecord) : result thrown record :=
  let? event := decodeEventEnvelope r.(ir_value) in
  let valid := if String.eqb event.(envelope).(schemaName) "snapshot.create.requested"
               then isSnapshotCreateRequestedV1 event
               else isSnapshotActionRequestedV1 event event.(envelope).(schemaName) in
  ensure? event.(envelope).(schemaVersion) =? 1 else unsupported;
  ensure? valid else invalid_payload;
  Ok event.
Definition retentionCommand (r : IncomingKafkaRecord) : result thrown record :=
  let? event := decodeEventEnvelope r.(ir_value) in
  ensure? event.(envelope).(schemaVersion) =? 1 else unsupported;
  ensure? isInstanceRetentionRequestedV1 dateParses event else invalid_payload;
  Ok event.
Definition purgeCommand (r : IncomingKafkaRecord) : result thrown record :=
  let? event := decodeEventEnvelope r.(ir_value) in
  ensure? event.(envelope).(schemaVersion) =? 1 else unsupported;
  ensure? isInstancePurgeRequestedV1 dateParses event else invalid_payload;
  Ok event.

Definition narrowCommand (r : IncomingKafkaRecord) : result thrown record :=
  let? e := decodeEventEnvelope r.(ir_value) in
  let schema := e.(envelope).(schemaName) in
  if String.eqb schema "instance.create.requested" then createCommand r
  else if String.eqb schema "instance.power.requested" then powerCommand r
  else if String.eqb schema "instance.resize.requested" then resizeCommand r
  else if String.eqb schema "instance.retention.requested" then retentionCommand r
  else if String.eqb schema "instance.purge.requested" then purgeCommand r
  else if String.eqb schema "snapshot.create.requested" || String.eqb schema "snapshot.rollback.requested"
          || String.eqb schema "snapshot.delete.requested" then snapshotCommand r
  else Err unsupported.

Definition replayRequest (r : IncomingKafkaRecord) : result thrown record :=
  let? event := decodeEventEnvelope r.(ir_value) in
  ensure? isProvisioningReplayRequestedV1 dateParses event else PermanentMessageError "REPLAY_SCHEMA_UNSUPPORTED";
  Ok event.

(** ** The consumer *)

(** The clock and identifiers of each attempt, and what the database throws at
    it for reasons of its own; attempt 0 is the exhaustion callback. *)
Context (call : Z → Call) (outage : Z → option error).

Definition command_handle (n : Z) (r : IncomingKafkaRecord) (s : WorkflowDb) :
    result thrown MessageHandlingResult * WorkflowDb :=
  match decodeEventEnvelope r.(ir_value) with
  | Err t => (Err t, s)
  | Ok e =>
      if isSupportedCommandSchema e.(envelope).(schemaName) then
        match narrowCommand r with
        | Err t => (Err t, s)
        | Ok command =>
            answering command.(envelope)
              (λ a, match a with
                    | Admission_accepted => handled
                    | Admission_duplicate => duplicate_
                    | Admission_rejected _ => quarantined
                    end)
              (transact outage n (admitCommand (call n) command r.(ir_delivery)) s)
        end
      else if String.eqb e.(envelope).(schemaName) "provisioning.replay.requested" then
        match replayRequest r with
        | Err t => (Err t, s)
        | Ok request =>
            answering request.(envelope)
              (λ a, match a with replay_duplicate => duplicate_ | _ => handled end)
              (transact outage n (admitReplayRequest (call n) request r.(ir_delivery)) s)
        end
      else (Err unsupported, s)
  end.

Definition quarantine (r : IncomingKafkaRecord) (code : string) (s : WorkflowDb) :
    result thrown MessageHandlingResult * WorkflowDb :=
  let x := transact outage 0 (quarantineRecord r.(ir_delivery) (sha256_bytes (default [] r.(ir_value))) code
             "The Kafka record could not be decoded as a versioned event envelope.") s in
  (match fst x with
   | Ok b => Ok {| mh_outcome := if (b : bool) then quarantined else duplicate_; mh_schemaName := "unknown";
                   mh_occurredAtMs := r.(ir_brokerTimestampMs) |}
   | Err t => Err t
   end, snd x).

Definition command_exhausted (r : IncomingKafkaRecord) (e : thrown) (tries : Z) (s : WorkflowDb) :
    result thrown MessageHandlingResult * WorkflowDb :=
  match e, r.(ir_envelope) with
  | Other _, _ => (Err e, s)
  | MessageDecodeError c, _ => quarantine r (decode_code_text c) s
  | PermanentMessageError c, None => quarantine r c s
  | PermanentMessageError c, Some event =>
      let replayAllowed := String.eqb c "COMMAND_SCHEMA_UNSUPPORTED"
                           && String.eqb event.(envelope).(schemaName) "instance.create.requested" in
      answering event.(envelope) (λ b : bool, if b then dead_lettered else duplicate_)
        (transact outage 0 (deadLetterCommand (call 0)
           {| dc_event := event; dc_delivery := r.(ir_delivery); dc_attempts := tries; dc_failureCode := c;
              dc_safeMessage := "The command schema is not supported by this consumer deployment.";
              dc_replayAllowed := replayAllowed |}) s)
  end.

Definition command_ingress : Ingress WorkflowDb :=
  {| handle := command_handle; exhausted := command_exhausted |}.
End routing.

(** ** Routing agrees with admission *)

Section narrowing.
Context `{Platform, Runtime}.

Lemma schema_cases (schema : string) :
  schema ∈ SUPPORTED_COMMAND_SCHEMAS ∨ (schema ∉ SUPPORTED_COMMAND_SCHEMAS ∧ workflowActionForSchema schema = None).
Proof.
  destruct (decide (schema ∈ SUPPORTED_COMMAND_SCHEMAS)) as [|Hn]; [by left|right; split; [done|]].
  destruct (workflowActionForSchema schema) as [a|] eqn:E; [|done]. destruct Hn.
  apply lookup_text_Some in E. apply (list_elem_of_fmap_2 fst) in E. exact E.
Qed.

Lemma narrowing (r : IncomingKafkaRecord) (e : record) :
  decodeEventEnvelope r.(ir_value) = Ok e →
  isSupportedCommandSchema e.(envelope).(schemaName)
    = bool_decide (is_Some (workflowActionForSchema e.(envelope).(schemaName)))
  ∧ narrowCommand r =
    match workflowActionForSchema e.(envelope).(schemaName) with
    | None => Err unsupported
    | Some a =>
        if negb (e.(envelope).(schemaVersion) =? 1) then Err unsupported
        else if COMMAND_VALIDATORS dateParses a e then Ok e else Err invalid_payload
    end.
Proof.
  intros He. unfold narrowCommand, createCommand, powerCommand, resizeCommand, retentionCommand, purgeCommand, snapshotCommand.
  rewrite He. cbn [rbind]. destruct e as [[ev schema version ty agg pr op co ca oc tr pk] d].
  cbn [envelope schemaName schemaVersion]. unfold isSupportedCommandSchema.
  destruct (schema_cases schema) as [Hin|[Hn Ha]].
  - unfold SUPPORTED_COMMAND_SCHEMAS in Hin.
    repeat (apply elem_of_cons in Hin as [->|Hin]; [split; [reflexivity|by destruct (version =? 1)]|]).
    by apply elem_of_nil in Hin.
  - rewrite Ha, bool_decide_eq_false_2 by done. split; [done|].
    assert (Hne : Forall (λ x, String.eqb schema x = false) SUPPORTED_COMMAND_SCHEMAS).
    { apply Forall_forall. intros x Hx. apply String.eqb_neq. by intros ->. }
    unfold SUPPORTED_COMMAND_SCHEMAS in Hne.
    repeat (apply Forall_cons in Hne as [Hx Hne]; rewrite Hx; clear Hx). done.
Qed.

(** Routing is admission's contract.  For a record whose value decodes,
    [narrowCommand] returns the decoded command exactly when its schema names a
    workflow action and the store's validator of that action
    ([COMMAND_VALIDATORS]) accepts it; otherwise it throws a permanent error,
    which says whether the schema or version is not supported or the payload
    does not satisfy the contract. *)
Theorem narrowing_is_admission (r : IncomingKafkaRecord) (e : record) (He : decodeEventEnvelope r.(ir_value) = Ok e) :
  isSupportedCommandSchema e.(envelope).(schemaName)
    = bool_decide (is_Some (workflowActionForSchema e.(envelope).(schemaName)))
  ∧ narrowCommand r =
    match workflowActionForSchema e.(envelope).(schemaName) with
    | None => Err unsupported
    | Some a =>
        if negb (e.(envelope).(schemaVersion) =? 1) then Err unsupported
        else if COMMAND_VALIDATORS dateParses a e then Ok e else Err invalid_payload
    end.
Proof. by apply narrowing. Qed.
End narrowing.

(** ** Durable evidence *)

Definition received_record `{Runtime} (r : IncomingKafkaRecord) (s : WorkflowDb) : Prop :=
  ∃ e, r.(ir_envelope) = Some e ∧ received s e.(envelope).(eventId) r.(ir_delivery).(replayGeneration).
Definition poisoned (r : IncomingKafkaRecord) (s : WorkflowDb) : Prop :=
  is_Some (s.(poison_records) !! coordinates r.(ir_delivery)).
(** The inbox holds the record's event and generation, or the poison table its
    coordinates. *)
Definition accounted `{Runtime} (r : IncomingKafkaRecord) (s : WorkflowDb) : Prop := received_record r s ∨ poisoned r s.

Section evidence.
Context `{Platform} (c : Call).

Lemma insertCommandReceipt_received (r : record) (d : MessageDeliveryIdentity) (t : option Z) (s s' : WorkflowDb) (b : bool) :
  insertCommandReceipt c r d t s = Ok (b, s') → received s' r.(envelope).(eventId) d.(replayGeneration).
Proof.
  intros Hs. destruct b.
  - apply insertCommandReceipt_true in Hs as [_ ->]. unfold received. cbn. rewrite lookup_insert_eq. by eexists.
  - apply tbind_Ok in Hs as (m & ? & [= <- <-] & Hs). unfold received. destruct (command_receipts s !! _) as [x|] eqn:E.
    + injection Hs as ->. rewrite E. by eexists.
    + apply tbind_Ok in Hs as (? & ? & [_ [= -> ->]]%tguard_Ok & Hs). by apply tbind_Ok in Hs as (? & ? & [= <- <-] & [=]).
Qed.

Lemma received_evolves (s s' : WorkflowDb) (e : string) (g : Z) : coherent s → evolves s s' → received s e g → received s' e g.
Proof. intros Hc Hw [x Hx]. destruct (Hw Hc) as [Ha _]. destruct (adv_receipts _ _ Ha _ x Hx) as (x' & Hx' & _). by exists x'. Qed.

(** A transaction that starts with the receipt leaves it. *)
Lemma receipt_first {A : Type} (r : record) (d : MessageDeliveryIdentity) (t : option Z) (k : bool → wtx A)
    (s s' : WorkflowDb) (x : A) :
  coherent s → (∀ b, keeps evolves (k b)) → tbind (insertCommandReceipt c r d t) k s = Ok (x, s') →
  received s' r.(envelope).(eventId) d.(replayGeneration).
Proof.
  intros Hc Hk (b & s1 & Hr & Hs)%tbind_Ok. pose proof (kept_receipt c r d t s b s1 Hr Hc) as [_ Hc1].
  apply insertCommandReceipt_received in Hr. eapply received_evolves; [done|by eapply Hk|done].
Qed.

Lemma insert_poison_poisoned (k : string * Z * string) (row : PoisonRow) (s s' : WorkflowDb) (b : bool) :
  insert_poison k row s = Ok (b, s') → is_Some (s'.(poison_records) !! k).
Proof.
  intros (m & ? & [= <- <-] & Hs)%tbind_Ok. destruct (poison_records s !! k) eqn:E.
  - injection Hs as _ <-. by rewrite E.
  - apply tbind_Ok in Hs as ([] & ? & [= <-] & [= _ <-]). cbn. rewrite lookup_insert_eq. by eexists.
Qed.

Lemma reject_poisoned (d : MessageDeliveryIdentity) (h : string) (k : CommandRejectionCode) (s s' : WorkflowDb)
    (a : CommandAdmission) :
  reject d h k s = Ok (a, s') → is_Some (s'.(poison_records) !! coordinates d).
Proof.
  intros (? & s1 & Hs & [= _ <-])%tbind_Ok. apply tbind_Ok in Hs as (b & s2 & Hs & [= _ <-]).
  by eapply insert_poison_poisoned.
Qed.

Lemma restart_evidence (r : record) (d : MessageDeliveryIdentity) (h k : string) (q : record) (s s' : WorkflowDb)
    (a : CommandAdmission) :
  restart_workflow c r d h k q s = Ok (a, s') →
  received s' r.(envelope).(eventId) d.(replayGeneration) ∨ is_Some (s'.(poison_records) !! coordinates d).
Proof.
  intros Hs. pose proof Hs as Hall. apply tbind_Ok in Hs as (ws & ? & [= <- <-] & Hs). cbv zeta in Hs.
  destruct (negb _); [right; by eapply reject_poisoned|]. left.
  apply tbind_Ok in Hs as ([] & s1 & Hr & Hs); cbn [negb] in Hs.
  - apply tbind_Ok in Hs as (? & ? & _ & Hs). apply tbind_Ok in Hs as (? & ? & _ & [= <- ->]).
    apply restart_accepted in Hall as (_ & _ & _ & Hreceipts & _). unfold received.
    rewrite Hreceipts, lookup_insert_eq. by eexists.
  - injection Hs as _ <-. by eapply insertCommandReceipt_received.
Qed.

(** A settled admission leaves the receipt or a poison record. *)
Lemma admitCommand_evidence (r : record) (d : MessageDeliveryIdentity) (s s' : WorkflowDb) (a : CommandAdmission) :
  coherent s → admitCommand c r d s = Ok (a, s') →
  received s' r.(envelope).(eventId) d.(replayGeneration) ∨ is_Some (s'.(poison_records) !! coordinates d).
Proof.
  intros Hc. unfold admitCommand. destruct (_ =? _) eqn:Hg.
  - intros Hs. left. apply tbind_Ok in Hs as (ws & ? & [= <- <-] & Hs).
    destruct (workflows s !! _); (eapply receipt_first; [exact Hc| |exact Hs]); intros b; cbv beta; keeps_steps;
      by apply kept_insertWorkflow.
  - intros (m & ? & [= <- <-] & Hs)%tbind_Ok. cbv zeta in Hs. destruct (command_receipts s !! _) as [x|] eqn:Ex.
    { destruct (String.eqb _ _); [|right; by eapply reject_poisoned].
      injection Hs as _ <-. left. unfold received. rewrite Ex. by eexists. }
    apply tbind_Ok in Hs as (f & ? & [= <- <-] & Hs).
    destruct (find_authorization _ _ s) as [[k p]|]; [|right; by eapply reject_poisoned].
    destruct (negb _); [right; by eapply reject_poisoned|].
    apply tbind_Ok in Hs as (q & ? & (q' & _ & [= -> ->])%tsome_Ok & Hs).
    by apply restart_evidence in Hs.
Qed.

Lemma admitReplayRequest_evidence (r : record) (d : MessageDeliveryIdentity) (s s' : WorkflowDb) (a : ReplayAdmission) :
  coherent s → admitReplayRequest c r d s = Ok (a, s') → received s' r.(envelope).(eventId) d.(replayGeneration).
Proof.
  intros Hc Hs. eapply receipt_first; [exact Hc| |exact Hs]. intros b. cbv beta. keeps_steps.
  apply kept_modify. intros ?. apply evolves_dead_letters.
Qed.

Lemma deadLetterCommand_evidence (i : DeadLetterCommandInput) (s s' : WorkflowDb) (b : bool) :
  coherent s → deadLetterCommand c i s = Ok (b, s') →
  received s' i.(dc_event).(envelope).(eventId) i.(dc_delivery).(replayGeneration).
Proof.
  intros Hc Hs. eapply receipt_first; [exact Hc| |exact Hs]. intros a. cbv beta. keeps_steps.
Qed.
End evidence.

(** ** The consumer keeps the laws of an ingress *)

Section consumer.
Context `{Platform, Runtime} (call : Z → Call) (outage : Z → option error).
#[local] Existing Instance command_ingress.

Lemma kept_admitCommand (c : Call) (r : record) (d : MessageDeliveryIdentity) : keeps evolves (admitCommand c r d).
Proof. unfold admitCommand. destruct (_ =? _); [apply kept_admitOriginal|apply kept_admitReplayCommand]. Qed.

Lemma narrowed (r : IncomingKafkaRecord) (e e' : record) :
  decodeEventEnvelope r.(ir_value) = Ok e → narrowCommand r = Ok e' → e' = e.
Proof.
  intros He Hn. destruct (narrowing r e He) as [_ Hr]. rewrite Hr in Hn. repeat case_match; congruence.
Qed.
Lemma replay_narrowed (r : IncomingKafkaRecord) (e e' : record) :
  decodeEventEnvelope r.(ir_value) = Ok e → replayRequest r = Ok e' → e' = e.
Proof. intros He. unfold replayRequest. rewrite He. cbn [rbind]. case_match; congruence. Qed.

Lemma handle_keeps (n : Z) (r : IncomingKafkaRecord) (s : WorkflowDb) : evolves s (snd (command_handle call outage n r s)).
Proof.
  unfold command_handle. repeat case_match; try reflexivity; cbn [answering snd]; apply (transact_keeps _ evolves).
  - apply kept_admitCommand.
  - apply kept_admitReplay.
Qed.

Lemma exhausted_keeps (r : IncomingKafkaRecord) (e : thrown) (n : Z) (s : WorkflowDb) :
  evolves s (snd (command_exhausted call outage r e n s)).
Proof.
  unfold command_exhausted, quarantine. repeat case_match; try reflexivity; cbn [answering snd]; apply (transact_keeps _ evolves).
  all: first [apply kept_poison|apply kept_deadLetterCommand].
Qed.

Lemma handle_accounted (n : Z) (r : IncomingKafkaRecord) (s : WorkflowDb) (v : MessageHandlingResult) (s' : WorkflowDb) :
  coherent s → genuine r → command_handle call outage n r s = (Ok v, s') → accounted r s'.
Proof.
  intros Hc Hr. unfold command_handle. destruct (decodeEventEnvelope (ir_value r)) as [e|] eqn:He; [|done].
  assert (Henv : ir_envelope r = Some e) by (by rewrite Hr, He).
  destruct (isSupportedCommandSchema _).
  - destruct (narrowCommand r) as [e'|] eqn:Hn; [|done]. apply (narrowed r e e' He) in Hn as ->.
    intros (a & Hs)%answering_Ok. apply transact_cases in Hs as [(a' & _ & Hs)|(? & [=] & _)].
    apply admitCommand_evidence in Hs as [Hs|Hs]; [left; by exists e|by right|done].
  - destruct (String.eqb _ _); [|done]. destruct (replayRequest r) as [e'|] eqn:Hn; [|done].
    apply (replay_narrowed r e e' He) in Hn as ->.
    intros (a & Hs)%answering_Ok. apply transact_cases in Hs as [(a' & _ & Hs)|(? & [=] & _)].
    apply admitReplayRequest_evidence in Hs; [left; by exists e|done].
Qed.

Lemma quarantine_poisoned (r : IncomingKafkaRecord) (code : string) (s s' : WorkflowDb) (v : MessageHandlingResult) :
  quarantine outage r code s = (Ok v, s') → accounted r s'.
Proof.
  unfold quarantine. destruct (transact _ _ _ _) as [x s1] eqn:E. cbn.
  apply transact_cases in E as [(b & -> & Hs)|(e & -> & ->)]; [|done].
  intros [= _ <-]. right. by eapply insert_poison_poisoned.
Qed.

Lemma exhausted_accounted (r : IncomingKafkaRecord) (e : thrown) (n : Z) (s : WorkflowDb) (v : MessageHandlingResult) (s' : WorkflowDb) :
  coherent s → genuine r → command_exhausted call outage r e n s = (Ok v, s') → accounted r s'.
Proof.
  intros Hc Hr. unfold command_exhausted. destruct e as [c|c|e]; [|destruct (ir_envelope r) as [event|] eqn:He|done].
  - apply quarantine_poisoned.
  - intros (b & Hs)%answering_Ok. apply transact_cases in Hs as [(b' & _ & Hs)|(? & [=] & _)].
    apply deadLetterCommand_evidence in Hs; [left; by exists event|done].
  - apply quarantine_poisoned.
Qed.

Lemma accounted_kept (r : IncomingKafkaRecord) (s s' : WorkflowDb) :
  coherent s → evolves s s' → accounted r s → accounted r s'.
Proof.
  intros Hc Hw [(e & He & Hr)|[x Hx]]; [left; exists e; split; [done|by eapply received_evolves]|].
  right. destruct (Hw Hc) as [Ha _]. exists x. by eapply lookup_weaken, adv_poison.
Qed.

#[export] Instance command_ingress_laws :
  IngressLaws (H0 := command_ingress call outage) WorkflowDb coherent evolves accounted.
Proof.
  split.
  - apply _.
  - intros s s' Hs Hw. by apply Hw.
  - intros r s s'. apply accounted_kept.
  - apply handle_keeps.
  - apply exhausted_keeps.
  - apply handle_accounted.
  - apply exhausted_accounted.
Qed.
End consumer.

(** ** Delivery of commands *)

Section guarantee.
Context `{Platform, Runtime} (call : Z → Call) (outage : Z → option error).
#[local] Instance ingress : Ingress WorkflowDb := command_ingress call outage.

Definition COMMAND_TOPIC : string := "provisioning.commands.v1".

(** A received command is a duplicate, and changes nothing. *)
Lemma redelivered (n : Z) (r : IncomingKafkaRecord) (e : record) (s : WorkflowDb) :
  genuine r → narrowCommand r = Ok e → received_record r s → r.(ir_delivery).(replayGeneration) = 0 → outage n = None →
  handle n r s = (Ok {| mh_outcome := duplicate_; mh_schemaName := e.(envelope).(schemaName);
                        mh_occurredAtMs := e.(envelope).(occurredAt) |}, s).
Proof.
  intros Hr Hn (e' & He' & Hrec) Hg Ho. cbn. unfold command_handle.
  unfold genuine in Hr. rewrite Hr in He'. destruct (decodeEventEnvelope (ir_value r)) as [e0|] eqn:He; [|done].
  injection He' as <-. destruct (narrowing r e0 He) as [Hs Hnarrow].
  assert (e = e0) as -> by by eapply narrowed. rewrite Hn in Hnarrow. rewrite Hs.
  destruct (workflowActionForSchema _); [|done]. rewrite bool_decide_eq_true_2, Hn by by eexists.
  unfold answering, transact, withTransaction, admitCommand. rewrite Ho, Hg. cbn [Z.eqb].
  by rewrite (admitOriginal_duplicate (call n) e0 (ir_delivery r)).
Qed.

(** C32: no command is lost and none is performed twice.  However the consumer
    of a command partition fails, crashes between its transaction and its
    offset commit, and is restarted, and whatever the workers and the other
    consumers commit meanwhile, every record below the committed offset is
    accounted for: its event and generation are in the inbox, or its
    coordinates in the poison table.  The offset never goes back; and the
    redelivery of a command the inbox holds is answered 'duplicate' and changes
    nothing. *)
Theorem no_command_is_lost (log : Z → option KafkaMessage) (part max : Z) (s s' : WorkflowDb) (committed : Z)
    (Hs : coherent s)
    (Hrun : rtc (consumes (world := evolves) log COMMAND_TOPIC part max) (s, 0) (s', committed)) :
  (∀ o m, 0 ≤ o < committed → log o = Some m → ∃ now_, accounted (incoming COMMAND_TOPIC part now_ m) s')
  ∧ (∀ s2 committed2, consumes (world := evolves) log COMMAND_TOPIC part max (s', committed) (s2, committed2) →
       committed ≤ committed2)
  ∧ ∀ m now_ n e, let r := incoming COMMAND_TOPIC part now_ m in
      narrowCommand r = Ok e → received_record r s' → r.(ir_delivery).(replayGeneration) = 0 → outage n = None →
      handle n r s' = (Ok {| mh_outcome := duplicate_; mh_schemaName := e.(envelope).(schemaName);
                             mh_occurredAtMs := e.(envelope).(occurredAt) |}, s').
Proof.
  pose proof (no_record_is_lost log COMMAND_TOPIC part max s (s', committed) Hs Hrun) as [Hsound Hall].
  split_and!; [exact Hall| |intros m now_ n e; by apply redelivered].
  intros s2 committed2 Hstep. exact (consumes_forward log COMMAND_TOPIC part max _ _ Hsound Hstep).
Qed.
End guarantee.

(** ** A concrete partition *)

(** The sample command with a well-formed trace, as the broker delivers it. *)
Definition wire_command : record :=
  let e := sample_create_record.(envelope) in
  {| envelope :=
       {| eventId := e.(eventId); schemaName := e.(schemaName); schemaVersion := 1; aggregateType := e.(aggregateType);
          aggregateId := e.(aggregateId); projectId := e.(projectId); operationId := e.(operationId);
          correlationId := e.(correlationId); causationId := e.(causationId); occurredAt := 5;
          traceContext := {| traceparent := "00-0af7651916cd43dd8448eb211c80319c-b7ad6b7169203331-01";
                             tracestate := None |};
          partitionKey := e.(partitionKey) |};
     data := sample_create_record.(data) |}.
Definition text_buffer (s : string) : Buffer := list_byte_of_string s.
(** The headers the outbox routing attaches. *)
Definition routed_headers (e : EventEnvelope) (outbox_id : string) : list (string * HeaderValue) :=
  [("event-id", HOne (HBuffer (text_buffer e.(eventId)))); ("schema-name", HOne (HBuffer (text_buffer e.(schemaName))));
   ("schema-version", HOne (HBuffer (text_buffer (string_of_Z e.(schemaVersion)))));
   ("outbox-id", HOne (HBuffer (text_buffer outbox_id)))].
Definition wire_message (o : Z) : KafkaMessage :=
  {| km_key := Some (text_buffer wire_command.(envelope).(partitionKey));
     km_value := Some (text_buffer (default "" (stringify (record_json (H := sample_platform) wire_command))));
     km_headers := routed_headers wire_command.(envelope) sample_uuid;
     km_offset := o; km_timestamp := "5" |}.
Definition garbage_message (o : Z) : KafkaMessage :=
  {| km_key := None; km_value := Some (text_buffer "{"); km_headers := []; km_offset := o; km_timestamp := "6" |}.
Definition sample_log (o : Z) : option KafkaMessage :=
  if o =? 0 then Some (wire_message 0) else if o =? 1 then Some (garbage_message 1)
  else if o =? 2 then Some (wire_message 2) else None.
Definition consumer_outage (n : Z) : option error := if n =? 1 then Some (Fault "connection refused") else None.

#[local] Existing Instance sample_runtime.
#[local] Instance sample_ingress : Ingress WorkflowDb :=
  command_ingress (H := sample_platform) sample_call consumer_outage.
Definition delivered (o : Z) (m : KafkaMessage) (s : WorkflowDb) : option Z * WorkflowDb :=
  eachMessage 3 COMMAND_TOPIC 0 7 (λ _, None) m s.
Definition first_db : WorkflowDb := snd (delivered 0 (wire_message 0) empty_db).
Definition second_db : WorkflowDb := snd (delivered 1 (garbage_message 1) first_db).

Lemma delivered_step (o : Z) (m : KafkaMessage) (s : WorkflowDb) (next : Z) :
  next_record sample_log o m → fst (delivered o m s) = Some next →
  consumes (world := evolves) sample_log COMMAND_TOPIC 0 3 (s, o) (snd (delivered o m s), next).
Proof.
  intros Hm Hn. apply (consume_commit sample_log COMMAND_TOPIC 0 3 s o m 7 (λ _, None)); [done|].
  unfold delivered in *. destruct (eachMessage _ _ _ _ _ _ _). cbn in *. by rewrite Hn.
Qed.

(** A create command whose first attempt meets an outage, then a record that
    is not JSON, then the command again. *)
Lemma no_command_is_lost_witness :
  rtc (consumes (world := evolves) sample_log COMMAND_TOPIC 0 3) (empty_db, 0) (second_db, 2)
  ∧ (∃ now_, accounted (incoming COMMAND_TOPIC 0 now_ (garbage_message 1)) second_db)
  ∧ (delivered 2 (wire_message 2) second_db).1 = Some 3.
Proof.
  assert (Hrun : rtc (consumes (world := evolves) sample_log COMMAND_TOPIC 0 3) (empty_db, 0) (second_db, 2)).
  { eapply rtc_l; [apply (delivered_step 0 (wire_message 0) empty_db 1)|];
      [split_and!; [done|vm_compute; reflexivity|intros; cbn in *; lia]|vm_compute; reflexivity|].
    eapply rtc_l; [apply (delivered_step 1 (garbage_message 1) first_db 2)|apply rtc_refl];
      [split_and!; [done|vm_compute; reflexivity|intros; cbn in *; lia]|vm_compute; reflexivity]. }
  split; [exact Hrun|]. split; [|vm_compute; reflexivity].
  apply (proj1 (no_command_is_lost (H := sample_platform) sample_call consumer_outage sample_log 0 3
    empty_db second_db 2 empty_coherent Hrun) 1); [lia|reflexivity].
Defined.

(** The sample command routes to the create workflow. *)
Lemma narrowing_is_admission_witness :
  let r := incoming COMMAND_TOPIC 0 7 (wire_message 0) in
  decodeEventEnvelope r.(ir_value) = Ok wire_command ∧ narrowCommand (H := sample_platform) r = Ok wire_command.
Proof.
  intros r. assert (He : decodeEventEnvelope r.(ir_value) = Ok wire_command) by (vm_compute; reflexivity).
  split; [exact He|]. etransitivity; [exact (proj2 (narrowing_is_admission (H := sample_platform) r wire_command He))|].
  vm_compute. reflexivity.
Defined.
