(* ===== verification/ControlDb.v ===== *)
(** * The control plane's database

    The tables of the control and projection schemas that
    [control-plane-store.ts], [projection-store.ts] and
    [reconciliation-store.ts] share, as finite maps under their primary keys;
    a unique index is a guard of the insertion it constrains.  A row's
    document and its columns hold the same times, as milliseconds. *)
From S2P Require Import Prelude JsText Json SshKey Domain Ipv4 WorkflowStage Events EventValidation Platform.
From Stdlib Require Import ZArith Lia Bool Ascii String.
From stdpp Require Import base decidable countable list strings gmap.
Open Scope string_scope.
Open Scope Z_scope.
Open Scope prog_scope.

(** ** Catalog, quota and policy rows (read only) *)

(** What a catalog row shows besides what acceptance reads. *)
Record Label : Set := { lb_name : string; lb_created_at : Z; lb_updated_at : Z }.
Record ProjectRow : Set := { pj_enabled : bool; pj_label : Label }.
Record ImageRow : Set := {
  im_enabled : bool; im_provider_profile_id : string; im_architecture : string; im_label : Label }.
Record ProfileRow : Set := { pp_state : string; pp_network_id : string }.
Record FlavorRow : Set := { fl_cpu_count : Z; fl_memory_mib : Z; fl_minimum_disk_gib : Z; fl_enabled : bool; fl_label : Label }.
Record NetworkRow : Set := {
  nw_ipv4_cidr : string; nw_gateway : string; nw_dns_servers : list string;
  nw_exclusions : list string; nw_enabled : bool; nw_label : Label }.
Record QuotaRow : Set := {
  qt_instances : Z; qt_cpu_count : Z; qt_memory_mib : Z; qt_disk_gib : Z;
  qt_ipv4_addresses : Z; qt_snapshots : Z }.
Record PolicyRow : Set := { rp_retention_hours : Z; rp_lease_release_mode : LeaseReleaseMode }.

Record Catalog : Type := {
  projects : gmap string ProjectRow;
  images : gmap string ImageRow;
  provider_profiles : gmap string ProfileRow;
  flavors : gmap string FlavorRow;
  networks : gmap string NetworkRow;
  quotas : gmap string QuotaRow;
  retention_policy : PolicyRow;
}.

(** ** Authoritative rows *)

(** What the provider was last seen to hold. *)
Record ObservedView : Set := {
  ob_exists : bool;
  ob_powerState : ObservedPower;
  ob_cpuCount : option Z;
  ob_memoryMiB : option Z;
  ob_diskGiB : option Z;
  ob_markerMatch : bool;
  ob_observedAt : Z;
}.
#[export] Instance ObservedView_eq_dec : EqDecision ObservedView.
Proof. solve_decision. Defined.

(** A row of [control.instances]. *)
Record InstanceRow : Set := {
  i_project_id : string;
  i_image_id : string;
  i_flavor_id : string;
  i_network_id : string;
  i_provider_profile_id : string;
  i_hostname : string;
  i_ssh_public_keys : list string;
  i_desired_cpu_count : Z;
  i_desired_memory_mib : Z;
  i_desired_disk_gib : Z;
  i_desired_power_state : string;
  i_lifecycle_state : string;
  i_active_operation_id : option string;
  i_create_operation_id : option string;
  i_retention_deadline : option Z;
  i_purge_eligible : bool;
  i_drift : string;
  i_last_reconciled_at : option Z;
  i_observed : option ObservedView;
  i_updated_at : Z;
}.

(** An operation, as a row of [control.operations] and as its document. *)
Record OperationView : Set := {
  op_id : string;
  op_projectId : string;
  op_action : string;
  op_targetType : string;
  op_targetId : string;
  op_state : string;
  op_stage : string;
  op_progressPercent : Z;
  op_acceptedAt : Z;
  op_startedAt : option Z;
  op_updatedAt : Z;
  op_completedAt : option Z;
  op_error : option (string * string * string);
  op_manualReviewRequired : bool;
}.

Inductive AddressState : Set := lease_active | lease_quarantined | lease_released.
#[export] Instance AddressState_eq_dec : EqDecision AddressState.
Proof. solve_decision. Defined.
(** A row of [control.ipv4_leases], keyed by its instance (a unique column). *)
Record AddressLease : Set := {
  al_id : string;
  al_project_id : string;
  al_network_id : string;
  al_address : string;
  al_prefix_length : Z;
  al_gateway : string;
  al_state : AddressState;
  al_updated_at : Z;
}.
(** The states the partial unique index counts as occupying the address. *)
Definition occupies (l : AddressLease) : bool := negb (bool_decide (l.(al_state) = lease_released)).

Inductive SnapshotState : Set := snap_creating | snap_available | snap_rolling_back | snap_deleting | snap_failed.
#[export] Instance SnapshotState_eq_dec : EqDecision SnapshotState.
Proof. solve_decision. Defined.
Record SnapshotRow : Set := {
  sn_project_id : string;
  sn_instance_id : string;
  sn_name : string;
  sn_description : option string;
  sn_state : SnapshotState;
  sn_provider_snapshot_name : option string;
  sn_created_at : Z;
  sn_updated_at : Z;
}.

(** The response of an accepted mutation. *)
Record AcceptedMutation : Set := {
  am_operationId : string;
  am_targetId : string;
  am_acceptedAt : Z;
  am_statusUrl : string;
  am_replayed : bool;
}.
Record IdempotencyRow : Set := {
  id_target_id : string;
  id_request_hash : string;
  id_operation_id : string;
  id_response : AcceptedMutation;
  id_created_at : Z;
  id_expires_at : Z;
}.

(** A row of [control.replay_requests]. *)
Inductive ReplayRequestStatus : Set := rr_accepted | rr_rejected | rr_completed.
Record ReplayRequestRow : Set := {
  rr_original_event_id : string;
  rr_actor_id : string;
  rr_idempotency_key : string;
  rr_request_hash : string;
  rr_reason : string;
  rr_status : ReplayRequestStatus;
  rr_requested_at : Z;
  rr_updated_at : Z;
}.

(** ** Documents of the read model *)

Record DesiredView : Set := {
  dv_imageId : string; dv_flavorId : string; dv_networkId : string; dv_hostname : string;
  dv_powerState : string; dv_retentionRequested : bool }.
Record LeaseView : Set := { lv_address : string; lv_prefixLength : Z; lv_gateway : string; lv_state : string }.
Record InstanceView : Set := {
  iv_id : string;
  iv_projectId : string;
  iv_lifecycleState : string;
  iv_desired : DesiredView;
  iv_observed : option ObservedView;
  iv_ipv4Lease : LeaseView;
  iv_activeOperationId : option string;
  iv_drift : string;
  iv_lastReconciledAt : option Z;
  iv_retentionDeadline : option Z;
  iv_purgeEligible : bool;
  iv_createdAt : Z;
  iv_updatedAt : Z;
}.
Record SnapshotView : Set := {
  sv_id : string; sv_instanceId : string; sv_name : string; sv_description : option string;
  sv_state : SnapshotState; sv_createdAt : Z; sv_updatedAt : Z }.
Record DeadLetterView : Set := {
  dlv_eventId : string;
  dlv_schemaName : string;
  dlv_schemaVersion : Z;
  dlv_aggregateId : string;
  dlv_projectId : string;
  dlv_operationId : string;
  dlv_category : EventFailureCategory;
  dlv_safeMessage : string;
  dlv_attempts : Z;
  dlv_deadLetteredAt : Z;
  dlv_replayAllowed : bool;
  dlv_lastReplayAt : option Z;
  dlv_traceContext : TraceContext;
  (** the column beside the document *)
  dlv_updated_at : Z;
}.

(** The administrative columns beside a projected operation. *)
Record OperationRecovery : Set := {
  rc_correlation_id : string;
  rc_causation_id : option string;
  rc_trace_id : option string;
  rc_checkpoint : string;
  rc_retry_count : Z;
  rc_dead_letter_event_id : option string;
  rc_provider_task_reference : option string;
}.

Record ControlDb : Type := {
  catalog : Catalog;
  instances : gmap string InstanceRow;
  operations : gmap string OperationView;
  ipv4_leases : gmap string AddressLease;
  snapshots : gmap string SnapshotRow;
  idempotency_records : gmap (string * string * string * string) IdempotencyRow;
  control_outbox : list OutboxRow;
  control_audit : list (Command AuditData);
  control_replays : gmap string ReplayRequestRow;
  p_instances : gmap string InstanceView;
  p_operations : gmap string (OperationView * OperationRecovery);
  p_snapshots : gmap string SnapshotView;
  p_dead_letters : gmap string DeadLetterView;
  event_receipts : gmap (string * string * Z) (string * Z * string);
  p_poison : gmap (string * (string * Z * string)) (string * string * string);
}.

(** ** Writing one table *)

Section setters.
Context (s : ControlDb).
Definition on_instances (f : gmap string InstanceRow → gmap string InstanceRow) : ControlDb :=
  {| catalog := s.(catalog); instances := f s.(instances); operations := s.(operations); ipv4_leases
     := s.(ipv4_leases); snapshots := s.(snapshots); idempotency_records := s.(idempotency_records);
     control_outbox := s.(control_outbox); control_audit := s.(control_audit); control_replays :=
     s.(control_replays); p_instances := s.(p_instances); p_operations := s.(p_operations);
     p_snapshots := s.(p_snapshots); p_dead_letters := s.(p_dead_letters); event_receipts :=
     s.(event_receipts); p_poison := s.(p_poison) |}.
Definition on_operations (f : gmap string OperationView → gmap string OperationView) : ControlDb :=
  {| catalog := s.(catalog); instances := s.(instances); operations := f s.(operations); ipv4_leases
     := s.(ipv4_leases); snapshots := s.(snapshots); idempotency_records := s.(idempotency_records);
     control_outbox := s.(control_outbox); control_audit := s.(control_audit); control_replays :=
     s.(control_replays); p_instances := s.(p_instances); p_operations := s.(p_operations);
     p_snapshots := s.(p_snapshots); p_dead_letters := s.(p_dead_letters); event_receipts :=
     s.(event_receipts); p_poison := s.(p_poison) |}.
Definition on_ipv4_leases (f : gmap string AddressLease → gmap string AddressLease) : ControlDb :=
  {| catalog := s.(catalog); instances := s.(instances); operations := s.(operations); ipv4_leases
     := f s.(ipv4_leases); snapshots := s.(snapshots); idempotency_records :=
     s.(idempotency_records); control_outbox := s.(control_outbox); control_audit :=
     s.(control_audit); control_replays := s.(control_replays); p_instances := s.(p_instances);
     p_operations := s.(p_operations); p_snapshots := s.(p_snapshots); p_dead_letters :=
     s.(p_dead_letters); event_receipts := s.(event_receipts); p_poison := s.(p_poison) |}.
Definition on_snapshots (f : gmap string SnapshotRow → gmap string SnapshotRow) : ControlDb :=
  {| catalog := s.(catalog); instances := s.(instances); operations := s.(operations); ipv4_leases
     := s.(ipv4_leases); snapshots := f s.(snapshots); idempotency_records :=
     s.(idempotency_records); control_outbox := s.(control_outbox); control_audit :=
     s.(control_audit); control_replays := s.(control_replays); p_instances := s.(p_instances);
     p_operations := s.(p_operations); p_snapshots := s.(p_snapshots); p_dead_letters :=
     s.(p_dead_letters); event_receipts := s.(event_receipts); p_poison := s.(p_poison) |}.
Definition on_idempotency_records (f : gmap (string * string * string * string) IdempotencyRow → gmap (string * string * string * string) IdempotencyRow) : ControlDb :=
  {| catalog := s.(catalog); instances := s.(instances); operations := s.(operations); ipv4_leases
     := s.(ipv4_leases); snapshots := s.(snapshots); idempotency_records := f
     s.(idempotency_records); control_outbox := s.(control_outbox); control_audit :=
     s.(control_audit); control_replays := s.(control_replays); p_instances := s.(p_instances);
     p_operations := s.(p_operations); p_snapshots := s.(p_snapshots); p_dead_letters :=
     s.(p_dead_letters); event_receipts := s.(event_receipts); p_poison := s.(p_poison) |}.
Definition on_control_outbox (f : list OutboxRow → list OutboxRow) : ControlDb :=
  {| catalog := s.(catalog); instances := s.(instances); operations := s.(operations); ipv4_leases
     := s.(ipv4_leases); snapshots := s.(snapshots); idempotency_records := s.(idempotency_records);
     control_outbox := f s.(control_outbox); control_audit := s.(control_audit); control_replays :=
     s.(control_replays); p_instances := s.(p_instances); p_operations := s.(p_operations);
     p_snapshots := s.(p_snapshots); p_dead_letters := s.(p_dead_letters); event_receipts :=
     s.(event_receipts); p_poison := s.(p_poison) |}.
Definition on_control_audit (f : list (Command AuditData) → list (Command AuditData)) : ControlDb :=
  {| catalog := s.(catalog); instances := s.(instances); operations := s.(operations); ipv4_leases
     := s.(ipv4_leases); snapshots := s.(snapshots); idempotency_records := s.(idempotency_records);
     control_outbox := s.(control_outbox); control_audit := f s.(control_audit); control_replays :=
     s.(control_replays); p_instances := s.(p_instances); p_operations := s.(p_operations);
     p_snapshots := s.(p_snapshots); p_dead_letters := s.(p_dead_letters); event_receipts :=
     s.(event_receipts); p_poison := s.(p_poison) |}.
Definition on_control_replays (f : gmap string ReplayRequestRow → gmap string ReplayRequestRow) : ControlDb :=
  {| catalog := s.(catalog); instances := s.(instances); operations := s.(operations); ipv4_leases
     := s.(ipv4_leases); snapshots := s.(snapshots); idempotency_records := s.(idempotency_records);
     control_outbox := s.(control_outbox); control_audit := s.(control_audit); control_replays := f
     s.(control_replays); p_instances := s.(p_instances); p_operations := s.(p_operations);
     p_snapshots := s.(p_snapshots); p_dead_letters := s.(p_dead_letters); event_receipts :=
     s.(event_receipts); p_poison := s.(p_poison) |}.
Definition on_p_instances (f : gmap string InstanceView → gmap string InstanceView) : ControlDb :=
  {| catalog := s.(catalog); instances := s.(instances); operations := s.(operations); ipv4_leases
     := s.(ipv4_leases); snapshots := s.(snapshots); idempotency_records := s.(idempotency_records);
     control_outbox := s.(control_outbox); control_audit := s.(control_audit); control_replays :=
     s.(control_replays); p_instances := f s.(p_instances); p_operations := s.(p_operations);
     p_snapshots := s.(p_snapshots); p_dead_letters := s.(p_dead_letters); event_receipts :=
     s.(event_receipts); p_poison := s.(p_poison) |}.
Definition on_p_operations (f : gmap string (OperationView * OperationRecovery) → gmap string (OperationView * OperationRecovery)) : ControlDb :=
  {| catalog := s.(catalog); instances := s.(instances); operations := s.(operations); ipv4_leases
     := s.(ipv4_leases); snapshots := s.(snapshots); idempotency_records := s.(idempotency_records);
     control_outbox := s.(control_outbox); control_audit := s.(control_audit); control_replays :=
     s.(control_replays); p_instances := s.(p_instances); p_operations := f s.(p_operations);
     p_snapshots := s.(p_snapshots); p_dead_letters := s.(p_dead_letters); event_receipts :=
     s.(event_receipts); p_poison := s.(p_poison) |}.
Definition on_p_snapshots (f : gmap string SnapshotView → gmap string SnapshotView) : ControlDb :=
  {| catalog := s.(catalog); instances := s.(instances); operations := s.(operations); ipv4_leases
     := s.(ipv4_leases); snapshots := s.(snapshots); idempotency_records := s.(idempotency_records);
     control_outbox := s.(control_outbox); control_audit := s.(control_audit); control_replays :=
     s.(control_replays); p_instances := s.(p_instances); p_operations := s.(p_operations);
     p_snapshots := f s.(p_snapshots); p_dead_letters := s.(p_dead_letters); event_receipts :=
     s.(event_receipts); p_poison := s.(p_poison) |}.
Definition on_p_dead_letters (f : gmap string DeadLetterView → gmap string DeadLetterView) : ControlDb :=
  {| catalog := s.(catalog); instances := s.(instances); operations := s.(operations); ipv4_leases
     := s.(ipv4_leases); snapshots := s.(snapshots); idempotency_records := s.(idempotency_records);
     control_outbox := s.(control_outbox); control_audit := s.(control_audit); control_replays :=
     s.(control_replays); p_instances := s.(p_instances); p_operations := s.(p_operations);
     p_snapshots := s.(p_snapshots); p_dead_letters := f s.(p_dead_letters); event_receipts :=
     s.(event_receipts); p_poison := s.(p_poison) |}.
Definition on_event_receipts (f : gmap (string * string * Z) (string * Z * string) → gmap (string * string * Z) (string * Z * string)) : ControlDb :=
  {| catalog := s.(catalog); instances := s.(instances); operations := s.(operations); ipv4_leases
     := s.(ipv4_leases); snapshots := s.(snapshots); idempotency_records := s.(idempotency_records);
     control_outbox := s.(control_outbox); control_audit := s.(control_audit); control_replays :=
     s.(control_replays); p_instances := s.(p_instances); p_operations := s.(p_operations);
     p_snapshots := s.(p_snapshots); p_dead_letters := s.(p_dead_letters); event_receipts := f
     s.(event_receipts); p_poison := s.(p_poison) |}.
Definition on_p_poison (f : gmap (string * (string * Z * string)) (string * string * string) → gmap (string * (string * Z * string)) (string * string * string)) : ControlDb :=
  {| catalog := s.(catalog); instances := s.(instances); operations := s.(operations); ipv4_leases
     := s.(ipv4_leases); snapshots := s.(snapshots); idempotency_records := s.(idempotency_records);
     control_outbox := s.(control_outbox); control_audit := s.(control_audit); control_replays :=
     s.(control_replays); p_instances := s.(p_instances); p_operations := s.(p_operations);
     p_snapshots := s.(p_snapshots); p_dead_letters := s.(p_dead_letters); event_receipts :=
     s.(event_receipts); p_poison := f s.(p_poison) |}.
End setters.

Abbreviation ctx := (tx ControlDb error).

(** ** The caller of a mutation *)

(** The identity and trace fields every command carries. *)
Record Request : Set := {
  rq_subject : string;
  rq_projectId : string;
  rq_idempotencyKey : string;
  rq_correlationId : string;
  rq_traceparent : string;
  rq_tracestate : option string;
}.
Definition request_trace (r : Request) : TraceContext :=
  {| traceparent := r.(rq_traceparent); tracestate := present r.(rq_tracestate) |}.

(** [adminScope]: an administrator's key is scoped to no project. *)
Definition zero_uuid : string := "00000000-0000-0000-0000-000000000000".
Definition adminScope (r : Request) : Request :=
  {| rq_subject := r.(rq_subject); rq_projectId := zero_uuid; rq_idempotencyKey := r.(rq_idempotencyKey);
     rq_correlationId := r.(rq_correlationId); rq_traceparent := r.(rq_traceparent);
     rq_tracestate := r.(rq_tracestate) |}.

Definition idempotency_key (r : Request) (action : string) : string * string * string * string :=
  (r.(rq_subject), r.(rq_projectId), action, r.(rq_idempotencyKey)).

(** [traceIdOf]: the trace identifier of a well-formed version-00 carrier. *)
Definition lower_hex (n : nat) (s : string) : bool :=
  Nat.eqb (String.length s) n && all_chars (λ c, is_digit c || in_range 97 102 c) s.
Definition traceIdOf (carrier : string) : option string :=
  match split_on "-" carrier with
  | [v; t; sp; f] =>
      if String.eqb v "00" && lower_hex 32 t && lower_hex 16 sp && lower_hex 2 f then Some t else None
  | _ => None
  end.

Definition IDEMPOTENCY_RECORD_TTL_MS : Z := 86400000.

Section operations.
Context (c : Call).

(** A row of [control.outbox]. *)
Definition control_row (payload : OutboxPayload) (topic_name : string) (outbox_id : string) : OutboxRow :=
  {| ob_outbox_id := outbox_id; ob_topic := topic_name; ob_payload := payload;
     ob_tracingspancontext := serializeDebeziumTraceContext (payload_envelope payload).(traceContext);
     ob_replay_generation := 0; ob_occurred_at := appNow c |}.
Definition writeControlOutbox (payload : OutboxPayload) (topic_name : string) (outbox_id : string) : ctx unit :=
  let row := control_row payload topic_name outbox_id in
  let! rows := tget control_outbox in
  tguard (bool_decide (outbox_key row ∉ map outbox_key rows)
          && bool_decide (outbox_id ∉ map ob_outbox_id rows))
    (Fault "outbox_event_id_replay_generation_key, outbox_pkey") ;;
  tmodify (λ s, on_control_outbox s (λ l, l ++ [row])%list).

Definition writeControlAudit (id project operation correlation causation : string) (trace : TraceContext)
    (d : AuditData) (outbox_id : string) : ctx unit :=
  let event := auditRecordedEvent id project operation correlation causation (appNow c) trace d in
  tmodify (λ s, on_control_audit s (λ l, l ++ [event])%list) ;;
  writeControlOutbox (P_audit event) "audit.events.v1" outbox_id.

(** [findReplayedResponse]: the original response of a key, or a conflict when
    the key is bound to other input. *)
Definition findReplayedResponse (r : Request) (action requestHash : string) : ctx (option AcceptedMutation) :=
  let! records := tget idempotency_records in
  match records !! idempotency_key r action with
  | None => tret None
  | Some previous =>
      tguard (String.eqb previous.(id_request_hash) requestHash)
        (DomainError IDEMPOTENCY_CONFLICT "The idempotency key is already bound to different input.") ;;
      let a := previous.(id_response) in
      tret (Some {| am_operationId := a.(am_operationId); am_targetId := a.(am_targetId);
                    am_acceptedAt := a.(am_acceptedAt); am_statusUrl := a.(am_statusUrl);
                    am_replayed := true |})
  end.

(** INSERT INTO control.idempotency_records. *)
Definition idempotency_row (requestHash target operation : string) (accepted : AcceptedMutation) : IdempotencyRow :=
  {| id_target_id := target; id_request_hash := requestHash; id_operation_id := operation;
     id_response := accepted; id_created_at := appNow c; id_expires_at := appNow c + IDEMPOTENCY_RECORD_TTL_MS |}.
Definition bindIdempotencyKey (r : Request) (action requestHash target operation : string)
    (accepted : AcceptedMutation) : ctx unit :=
  let! records := tget idempotency_records in
  tguard (bool_decide (records !! idempotency_key r action = None)) (Fault "idempotency_records_pkey") ;;
  tmodify (λ s, on_idempotency_records s
    (insert (idempotency_key r action) (idempotency_row requestHash target operation accepted))).

Definition MUTABLE_LIFECYCLE_STATES : list string := ["active"; "failed"].

(** The row lock and its guards: missing and foreign instances look alike, and
    a busy or immutable one refuses. *)
Definition lockInstanceForMutation (project instance : string) : ctx InstanceRow :=
  let! rows := tget instances in
  let! row := tsome (row ← rows !! instance; if String.eqb row.(i_project_id) project then Some row else None)
    (DomainError INSTANCE_NOT_FOUND "The requested instance does not exist.") in
  tguard (bool_decide (row.(i_active_operation_id) = None))
    (DomainError INSTANCE_BUSY "Another operation is already in progress for this instance.") ;;
  tguard (bool_decide (row.(i_lifecycle_state) ∈ MUTABLE_LIFECYCLE_STATES))
    (DomainError INSTANCE_BUSY "The instance is not in a state that accepts this operation.") ;;
  tret row.

(** An operation at acceptance. *)
Definition accepted_operation (id project action target_type target : string) : OperationView :=
  {| op_id := id; op_projectId := project; op_action := action; op_targetType := target_type;
     op_targetId := target; op_state := "accepted"; op_stage := "accepted";
     op_progressPercent := STAGE_PROGRESS_PERCENT (Active accepted);
     op_acceptedAt := appNow c; op_startedAt := None; op_updatedAt := appNow c; op_completedAt := None;
     op_error := None; op_manualReviewRequired := false |}.

Definition insertOperation (o : OperationView) : ctx unit :=
  let! rows := tget operations in
  tguard (bool_decide (rows !! o.(op_id) = None)) (Fault "operations_pkey") ;;
  tmodify (λ s, on_operations s (insert o.(op_id) o)).

(** INSERT INTO projection.operations, with its recovery columns seeded. *)
Definition seeded_recovery (r : Request) : OperationRecovery :=
  {| rc_correlation_id := r.(rq_correlationId); rc_causation_id := None;
     rc_trace_id := traceIdOf r.(rq_traceparent); rc_checkpoint := "accepted"; rc_retry_count := 0;
     rc_dead_letter_event_id := None; rc_provider_task_reference := None |}.
Definition projectOperation (r : Request) (o : OperationView) : ctx unit :=
  let! rows := tget p_operations in
  tguard (bool_decide (rows !! o.(op_id) = None)) (Fault "projection.operations_pkey") ;;
  tmodify (λ s, on_p_operations s (insert o.(op_id) (o, seeded_recovery r))).

Definition busy_document (operation : string) (d : InstanceView) : InstanceView :=
  {| iv_id := d.(iv_id); iv_projectId := d.(iv_projectId); iv_lifecycleState := d.(iv_lifecycleState);
     iv_desired := d.(iv_desired); iv_observed := d.(iv_observed); iv_ipv4Lease := d.(iv_ipv4Lease);
     iv_activeOperationId := Some operation; iv_drift := d.(iv_drift);
     iv_lastReconciledAt := d.(iv_lastReconciledAt); iv_retentionDeadline := d.(iv_retentionDeadline);
     iv_purgeEligible := d.(iv_purgeEligible); iv_createdAt := d.(iv_createdAt); iv_updatedAt := appNow c |}.
Definition markInstanceBusyInProjection (instance operation : string) : ctx unit :=
  tmodify (λ s, on_p_instances s (alter (busy_document operation) instance)).

(** [UPDATE control.instances ... WHERE id = instance]: the row was locked above. *)
Definition updateInstance (instance : string) (f : InstanceRow → InstanceRow) : ctx unit :=
  tmodify (λ s, on_instances s (alter f instance)).

Definition accepted_mutation (operation target status_url : string) : AcceptedMutation :=
  {| am_operationId := operation; am_targetId := target; am_acceptedAt := appNow c;
     am_statusUrl := status_url; am_replayed := false |}.
Definition operation_url (project operation : string) : string :=
  "/v1/projects/" ++ project ++ "/operations/" ++ operation.

(** A command to the orchestrator about an instance: partitioned by the
    instance and caused by the operation. *)
Definition command_event (id schema instance project operation : string) (r : Request) (d : json) : record :=
  {| envelope :=
       {| eventId := id; schemaName := schema; schemaVersion := 1; aggregateType := "instance";
          aggregateId := instance; projectId := project; operationId := operation;
          correlationId := r.(rq_correlationId); causationId := operation; occurredAt := appNow c;
          traceContext := request_trace r; partitionKey := instance |};
     data := d |}.

(** The audit fact of an accepted mutation. *)
Definition accepted_audit (subject : string) (role : AuditRole) (action target_type target : string)
    (reason : option string) : AuditData :=
  {| audit_actorId := subject; audit_actorRole := role; audit_action := action;
     audit_targetType := target_type; audit_targetId := target; audit_outcome := audit_accepted;
     audit_reasonReference := reason |}.
End operations.
