(* ===== verification/AcceptStore.v ===== *)
(** * Accepting mutations

    The transactions of [PostgresControlPlaneStore] that commit a request as
    durable intent ([control-plane-store.ts]): create, power, resize, snapshot
    create, rollback and delete, retention and purge.  Each locks its
    idempotency scope, replays a known request, checks, and writes the instance,
    operation, documents, idempotency record, outbox command and audit fact
    together.  A transaction here runs alone; what one measures without a lock
    (the usage of a project) is a computation of its own, [measureResize] and
    the like, so that [Quota] can let other transactions commit before the
    writes that follow it. *)
From S2P Require Import Prelude JsText Json SshKey Domain Ipv4 WorkflowStage Events EventValidation Platform ControlDb.
From Stdlib Require Import ZArith Lia Bool Ascii String.
From stdpp Require Import base decidable list strings gmap.
Open Scope string_scope.
Open Scope Z_scope.
Open Scope prog_scope.

(** ** Commands *)

Record CreateInstanceCommand : Set := {
  cr_imageId : string; cr_flavorId : string; cr_networkId : string; cr_hostname : string;
  cr_sshPublicKeys : list string }.
Record CreateSnapshotCommand : Set := { cs_name : string; cs_description : option string }.

Definition sizing_json (s : Sizing) : json :=
  JObj [("cpuCount", JNum s.(cpuCount)); ("memoryMiB", JNum s.(memoryMiB)); ("diskGiB", JNum s.(diskGiB))].
(** The provider routing every non-create command carries. *)
Definition routing_json (row : InstanceRow) : list (string * json) :=
  [("providerProfileId", JStr row.(i_provider_profile_id));
   ("createOperationId", JStr (default "" row.(i_create_operation_id)))].

(** [action] as the wire spells it. *)
Definition power_wire (a : PowerAction) : string :=
  match a with start => "start" | shutdown => "shutdown" | stop => "stop" | reboot => "reboot" end.

Section accept.
Context (c : Call).

(** ** Row updates *)

Definition occupy_power (operation : string) (a : PowerAction) (row : InstanceRow) : InstanceRow :=
  {| i_project_id := row.(i_project_id); i_image_id := row.(i_image_id); i_flavor_id :=
     row.(i_flavor_id); i_network_id := row.(i_network_id); i_provider_profile_id :=
     row.(i_provider_profile_id); i_hostname := row.(i_hostname); i_ssh_public_keys :=
     row.(i_ssh_public_keys); i_desired_cpu_count := row.(i_desired_cpu_count); i_desired_memory_mib
     := row.(i_desired_memory_mib); i_desired_disk_gib := row.(i_desired_disk_gib);
     i_desired_power_state := match a with start | reboot => "running" | _ => "stopped" end;
     i_lifecycle_state := row.(i_lifecycle_state); i_active_operation_id := Some operation;
     i_create_operation_id := row.(i_create_operation_id); i_retention_deadline :=
     row.(i_retention_deadline); i_purge_eligible := row.(i_purge_eligible); i_drift :=
     row.(i_drift); i_last_reconciled_at := row.(i_last_reconciled_at); i_observed :=
     row.(i_observed); i_updated_at := appNow c |}.
Definition occupy_resize (operation flavor : string) (target : Sizing) (row : InstanceRow) : InstanceRow :=
  {| i_project_id := row.(i_project_id); i_image_id := row.(i_image_id); i_flavor_id := flavor;
     i_network_id := row.(i_network_id); i_provider_profile_id := row.(i_provider_profile_id);
     i_hostname := row.(i_hostname); i_ssh_public_keys := row.(i_ssh_public_keys);
     i_desired_cpu_count := target.(cpuCount); i_desired_memory_mib := target.(memoryMiB);
     i_desired_disk_gib := target.(diskGiB); i_desired_power_state := row.(i_desired_power_state);
     i_lifecycle_state := row.(i_lifecycle_state); i_active_operation_id := Some operation;
     i_create_operation_id := row.(i_create_operation_id); i_retention_deadline :=
     row.(i_retention_deadline); i_purge_eligible := row.(i_purge_eligible); i_drift :=
     row.(i_drift); i_last_reconciled_at := row.(i_last_reconciled_at); i_observed :=
     row.(i_observed); i_updated_at := appNow c |}.
Definition occupy_snapshot (operation : string) (row : InstanceRow) : InstanceRow :=
  {| i_project_id := row.(i_project_id); i_image_id := row.(i_image_id); i_flavor_id :=
     row.(i_flavor_id); i_network_id := row.(i_network_id); i_provider_profile_id :=
     row.(i_provider_profile_id); i_hostname := row.(i_hostname); i_ssh_public_keys :=
     row.(i_ssh_public_keys); i_desired_cpu_count := row.(i_desired_cpu_count); i_desired_memory_mib
     := row.(i_desired_memory_mib); i_desired_disk_gib := row.(i_desired_disk_gib);
     i_desired_power_state := row.(i_desired_power_state); i_lifecycle_state :=
     row.(i_lifecycle_state); i_active_operation_id := Some operation; i_create_operation_id :=
     row.(i_create_operation_id); i_retention_deadline := row.(i_retention_deadline);
     i_purge_eligible := row.(i_purge_eligible); i_drift := row.(i_drift); i_last_reconciled_at :=
     row.(i_last_reconciled_at); i_observed := row.(i_observed); i_updated_at := appNow c |}.
Definition occupy_retention (operation : string) (deadline : Z) (row : InstanceRow) : InstanceRow :=
  {| i_project_id := row.(i_project_id); i_image_id := row.(i_image_id); i_flavor_id :=
     row.(i_flavor_id); i_network_id := row.(i_network_id); i_provider_profile_id :=
     row.(i_provider_profile_id); i_hostname := row.(i_hostname); i_ssh_public_keys :=
     row.(i_ssh_public_keys); i_desired_cpu_count := row.(i_desired_cpu_count); i_desired_memory_mib
     := row.(i_desired_memory_mib); i_desired_disk_gib := row.(i_desired_disk_gib);
     i_desired_power_state := row.(i_desired_power_state); i_lifecycle_state := "deleting";
     i_active_operation_id := Some operation; i_create_operation_id := row.(i_create_operation_id);
     i_retention_deadline := Some deadline; i_purge_eligible := false; i_drift := row.(i_drift);
     i_last_reconciled_at := row.(i_last_reconciled_at); i_observed := row.(i_observed);
     i_updated_at := appNow c |}.
Definition occupy_purge (operation : string) (row : InstanceRow) : InstanceRow :=
  {| i_project_id := row.(i_project_id); i_image_id := row.(i_image_id); i_flavor_id :=
     row.(i_flavor_id); i_network_id := row.(i_network_id); i_provider_profile_id :=
     row.(i_provider_profile_id); i_hostname := row.(i_hostname); i_ssh_public_keys :=
     row.(i_ssh_public_keys); i_desired_cpu_count := row.(i_desired_cpu_count); i_desired_memory_mib
     := row.(i_desired_memory_mib); i_desired_disk_gib := row.(i_desired_disk_gib);
     i_desired_power_state := row.(i_desired_power_state); i_lifecycle_state := "purge_pending";
     i_active_operation_id := Some operation; i_create_operation_id := row.(i_create_operation_id);
     i_retention_deadline := row.(i_retention_deadline); i_purge_eligible := true; i_drift :=
     row.(i_drift); i_last_reconciled_at := row.(i_last_reconciled_at); i_observed :=
     row.(i_observed); i_updated_at := appNow c |}.
Definition move_lease (to : AddressState) (l : AddressLease) : AddressLease :=
  {| al_id := l.(al_id); al_project_id := l.(al_project_id); al_network_id := l.(al_network_id);
     al_address := l.(al_address); al_prefix_length := l.(al_prefix_length); al_gateway :=
     l.(al_gateway); al_state := to; al_updated_at := appNow c |}.
Definition move_snapshot (to : SnapshotState) (row : SnapshotRow) : SnapshotRow :=
  {| sn_project_id := row.(sn_project_id); sn_instance_id := row.(sn_instance_id); sn_name :=
     row.(sn_name); sn_description := row.(sn_description); sn_state := to;
     sn_provider_snapshot_name := row.(sn_provider_snapshot_name); sn_created_at :=
     row.(sn_created_at); sn_updated_at := appNow c |}.

(** ** The records every accepted mutation of an existing instance writes *)

(** Operation, instance, documents, idempotency key, outbox command and audit
    fact; [extra] is what the capability writes besides (the transaction
    commits all of it together).  [scope] is the idempotency scope, [project]
    the operation's project. *)
Definition commit_mutation (scope : Request) (project instance : string) (role : AuditRole)
    (operation : OperationView) (audit_action requestHash : string) (reason : option string)
    (occupy : InstanceRow → InstanceRow) (extra : ctx unit) (accepted : AcceptedMutation) (event : record)
    (id : nat → string) : ctx AcceptedMutation :=
  insertOperation operation ;;
  updateInstance instance occupy ;;
  extra ;;
  projectOperation scope operation ;;
  markInstanceBusyInProjection c instance operation.(op_id) ;;
  bindIdempotencyKey c scope operation.(op_action) requestHash operation.(op_targetId) operation.(op_id) accepted ;;
  writeControlOutbox c (P_command event) "provisioning.commands.v1" (id 0%nat) ;;
  writeControlAudit c (id 1%nat) project operation.(op_id) scope.(rq_correlationId) event.(envelope).(eventId)
    event.(envelope).(traceContext)
    (accepted_audit scope.(rq_subject) role audit_action operation.(op_targetType) operation.(op_targetId) reason)
    (id 2%nat) ;;
  tret accepted.

(** The identifiers from the [n]-th on. *)
Definition ids_from (n : nat) : nat → string := λ k, c.(uuid) (n + k)%nat.

(** A replayed response ends the transaction. *)
Definition or_replayed (r : Request) (action requestHash : string) (m : ctx AcceptedMutation) : ctx AcceptedMutation :=
  let! replayed := findReplayedResponse r action requestHash in
  match replayed with Some a => tret a | None => m end.

(** ** Power *)

Definition acceptPowerAction (r : Request) (instance : string) (a : PowerAction) (requestHash : string) :
    ctx AcceptedMutation :=
  or_replayed r "power_instance" requestHash (
    let project := r.(rq_projectId) in
    let! row := lockInstanceForMutation project instance in
    let operation := c.(uuid) 0%nat in
    commit_mutation r project instance role_tenant_developer
      (accepted_operation c operation project "power_instance" "instance" instance)
      ("power_" ++ power_wire a) requestHash None (occupy_power operation a) (tret tt)
      (accepted_mutation c operation instance (operation_url project operation))
      (command_event c (c.(uuid) 1%nat) "instance.power.requested" instance project operation r
         (JObj (("action", JStr (power_wire a)) :: routing_json row)))
      (ids_from 2)).

(** ** Resize *)

(** What an instance is charged for. *)
Definition desired_sizing (row : InstanceRow) : Sizing :=
  {| cpuCount := row.(i_desired_cpu_count); memoryMiB := row.(i_desired_memory_mib);
     diskGiB := row.(i_desired_disk_gib) |}.
Definition add_sizing (a b : Sizing) : Sizing :=
  {| cpuCount := a.(cpuCount) + b.(cpuCount); memoryMiB := a.(memoryMiB) + b.(memoryMiB);
     diskGiB := a.(diskGiB) + b.(diskGiB) |}.
Definition no_sizing : Sizing := {| cpuCount := 0; memoryMiB := 0; diskGiB := 0 |}.

(** The instances of a project that are not purged. *)
Definition charged (project : string) (row : InstanceRow) : bool :=
  String.eqb row.(i_project_id) project && negb (String.eqb row.(i_lifecycle_state) "purged").
Definition charged_instances (project : string) (s : ControlDb) : list InstanceRow :=
  List.filter (charged project) (map snd (map_to_list s.(instances))).
(** The sums of the usage query. *)
Definition usage (project : string) (s : ControlDb) : Sizing :=
  List.fold_right add_sizing no_sizing (map desired_sizing (charged_instances project s)).

Definition exceeds (used : Sizing) (q : QuotaRow) : bool :=
  (q.(qt_cpu_count) <? used.(cpuCount)) || (q.(qt_memory_mib) <? used.(memoryMiB))
  || (q.(qt_disk_gib) <? used.(diskGiB)).

Definition assertResizeQuotaHeadroom (project : string) (had wanted : Sizing) : ctx unit :=
  let! k := tget catalog in
  let! quota := tsome (k.(quotas) !! project) (DomainError PROJECT_NOT_FOUND "The project does not exist.") in
  let! u := tget (usage project) in
  tguard (negb (exceeds {| cpuCount := u.(cpuCount) - had.(cpuCount) + wanted.(cpuCount);
                           memoryMiB := u.(memoryMiB) - had.(memoryMiB) + wanted.(memoryMiB);
                           diskGiB := u.(diskGiB) - had.(diskGiB) + wanted.(diskGiB) |} quota))
    (DomainError QUOTA_EXCEEDED "The resize request exceeds project quota.").

Definition resize_target (row : InstanceRow) (f : FlavorRow) (disk : option Z) : Sizing :=
  {| cpuCount := f.(fl_cpu_count); memoryMiB := f.(fl_memory_mib);
     diskGiB := Z.max (Z.max row.(i_desired_disk_gib) f.(fl_minimum_disk_gib)) (default 0 disk) |}.

Definition enabled_flavor (k : Catalog) (flavor : string) : option FlavorRow :=
  f ← k.(flavors) !! flavor; if f.(fl_enabled) then Some f else None.

(** What a resize reads before it writes: the locked row and the size it is to
    have.  The lock holds other transactions off this row, but the usage is
    measured without a lock on the project. *)
Definition measureResize (r : Request) (instance flavor : string) (disk : option Z) : ctx (InstanceRow * Sizing) :=
  let project := r.(rq_projectId) in
  let! row := lockInstanceForMutation project instance in
  let! k := tget catalog in
  let! f := tsome (enabled_flavor k flavor)
    (invalid "The requested flavor is not available.") in
  let had := desired_sizing row in
  let wanted := resize_target row f disk in
  tlift (validateResize {| Domain.current := had;
    Domain.target := {| cpuCount := wanted.(cpuCount); memoryMiB := wanted.(memoryMiB);
                        diskGiB := default wanted.(diskGiB) disk |} |}) ;;
  assertResizeQuotaHeadroom project had wanted ;;
  tret (row, wanted).
Definition commitResize (r : Request) (instance flavor requestHash : string) (measured : InstanceRow * Sizing) :
    ctx AcceptedMutation :=
  let project := r.(rq_projectId) in
  let '(row, wanted) := measured in
  let operation := c.(uuid) 0%nat in
  commit_mutation r project instance role_tenant_developer
    (accepted_operation c operation project "resize_instance" "instance" instance)
    "resize_instance" requestHash None (occupy_resize operation flavor wanted) (tret tt)
    (accepted_mutation c operation instance (operation_url project operation))
    (command_event c (c.(uuid) 1%nat) "instance.resize.requested" instance project operation r
       (JObj (("flavorId", JStr flavor) :: ("targetResources", sizing_json wanted) :: routing_json row)))
    (ids_from 2).
Definition acceptResize (r : Request) (instance flavor : string) (disk : option Z) (requestHash : string) :
    ctx AcceptedMutation :=
  or_replayed r "resize_instance" requestHash (
    let! measured := measureResize r instance flavor disk in
    commitResize r instance flavor requestHash measured).

(** ** Retention *)

Definition acceptRetention `{Platform} (r : Request) (instance requestHash : string) : ctx AcceptedMutation :=
  or_replayed r "retain_instance" requestHash (
    let project := r.(rq_projectId) in
    let! row := lockInstanceForMutation project instance in
    let! k := tget catalog in
    let policy := k.(retention_policy) in
    let deadline := appNow c + policy.(rp_retention_hours) * 60 * 60 * 1000 in
    let operation := c.(uuid) 0%nat in
    let to := match policy.(rp_lease_release_mode) with
              | release_on_retain => lease_released | quarantine_until_purge => lease_quarantined end in
    commit_mutation r project instance role_tenant_developer
      (accepted_operation c operation project "retain_instance" "instance" instance)
      "retain_instance" requestHash None (occupy_retention operation deadline)
      (tmodify (λ s, on_ipv4_leases s (alter (λ l,
         if bool_decide (l.(al_state) = lease_active) then move_lease to l else l) instance)))
      (accepted_mutation c operation instance (operation_url project operation))
      (command_event c (c.(uuid) 1%nat) "instance.retention.requested" instance project operation r
         (JObj (("retentionDeadline", JStr (toISOString deadline))
             :: ("leaseReleaseMode", JStr (match policy.(rp_lease_release_mode) with
                   | release_on_retain => "release_on_retain"
                   | quarantine_until_purge => "quarantine_until_purge" end))
             :: routing_json row)))
      (ids_from 2)).

(** ** Purge *)

Definition acceptPurge `{Platform} (r : Request) (instance confirmation requestHash : string) : ctx AcceptedMutation :=
  tguard (String.eqb confirmation instance)
    (invalid "The confirmation identifier does not match the instance being purged.") ;;
  or_replayed (adminScope r) "purge_instance" requestHash (
    let! rows := tget instances in
    let! row := tsome (rows !! instance)
      (DomainError INSTANCE_NOT_FOUND "The requested instance does not exist.") in
    tguard (bool_decide (row.(i_active_operation_id) = None))
      (DomainError INSTANCE_BUSY "Another operation is already in progress for this instance.") ;;
    tguard (String.eqb row.(i_lifecycle_state) "retained")
      (DomainError INSTANCE_BUSY "Only a retained instance can be purged.") ;;
    let! deadline := tsome (t ← row.(i_retention_deadline); if appNow c <? t then None else Some t)
      (DomainError INSTANCE_BUSY "The retention period has not expired.") in
    let project := row.(i_project_id) in
    let operation := c.(uuid) 0%nat in
    let authorization := c.(uuid) 1%nat in
    commit_mutation (adminScope r) project instance role_platform_administrator
      (accepted_operation c operation project "purge_instance" "instance" instance)
      "purge_instance" requestHash (Some authorization) (occupy_purge operation) (tret tt)
      (accepted_mutation c operation instance ("/v1/admin/operations/" ++ operation))
      (command_event c (c.(uuid) 2%nat) "instance.purge.requested" instance project operation r
         (JObj (("purgeAuthorizationId", JStr authorization)
             :: ("retentionDeadline", JStr (toISOString deadline))
             :: ("reasonReference", JStr authorization) :: routing_json row)))
      (ids_from 3)).

(** ** Snapshots *)

Definition counted (project : string) (row : SnapshotRow) : bool :=
  String.eqb row.(sn_project_id) project && negb (bool_decide (row.(sn_state) = snap_failed)).
Definition assertSnapshotHeadroom (project : string) : ctx unit :=
  let! k := tget catalog in
  let! quota := tsome (k.(quotas) !! project) (DomainError PROJECT_NOT_FOUND "The project does not exist.") in
  let! rows := tget snapshots in
  let used := Z.of_nat (List.length (List.filter (counted project) (map snd (map_to_list rows)))) in
  tguard (used + 1 <=? quota.(qt_snapshots))
    (DomainError QUOTA_EXCEEDED "The snapshot request exceeds project quota.").

Definition snapshot_document (id : string) (row : SnapshotRow) : SnapshotView :=
  {| sv_id := id; sv_instanceId := row.(sn_instance_id); sv_name := row.(sn_name);
     sv_description := row.(sn_description); sv_state := row.(sn_state);
     sv_createdAt := row.(sn_created_at); sv_updatedAt := row.(sn_updated_at) |}.
Definition writeSnapshotProjection (snapshot : string) : ctx unit :=
  let! rows := tget snapshots in
  let! row := tsome (rows !! snapshot) (Fault "no result") in
  tmodify (λ s, on_p_snapshots s (insert snapshot (snapshot_document snapshot row))).

Definition writeSnapshotOperation (r : Request) (action snapshot instance : string) (accepted : AcceptedMutation)
    (event : record) (requestHash : string) (id : nat → string) : ctx AcceptedMutation :=
  let project := r.(rq_projectId) in
  let operation := accepted.(am_operationId) in
  commit_mutation r project instance role_tenant_developer
    (accepted_operation c operation project action "snapshot" snapshot)
    action requestHash None (occupy_snapshot operation) (writeSnapshotProjection snapshot) accepted event id.

Definition named (instance name : string) (row : SnapshotRow) : bool :=
  String.eqb row.(sn_instance_id) instance && String.eqb row.(sn_name) name.

(** The reads of a snapshot: the locked row, and the count, measured without a
    lock on the project. *)
Definition measureSnapshot (r : Request) (instance : string) : ctx InstanceRow :=
  let project := r.(rq_projectId) in
  let! row := lockInstanceForMutation project instance in
  assertSnapshotHeadroom project ;;
  tret row.
Definition commitSnapshot (r : Request) (instance : string) (k : CreateSnapshotCommand) (requestHash : string)
    (row : InstanceRow) : ctx AcceptedMutation :=
  let project := r.(rq_projectId) in
  let! rows := tget snapshots in
  tguard (negb (existsb (named instance k.(cs_name)) (map snd (map_to_list rows))))
    (invalid "A snapshot with this name already exists on the instance.") ;;
  let operation := c.(uuid) 0%nat in
  let snapshot := c.(uuid) 1%nat in
  tguard (bool_decide (rows !! snapshot = None)) (Fault "snapshots_pkey") ;;
  tmodify (λ s, on_snapshots s (insert snapshot
    {| sn_project_id := project; sn_instance_id := instance; sn_name := k.(cs_name);
       sn_description := k.(cs_description); sn_state := snap_creating;
       sn_provider_snapshot_name := Some k.(cs_name); sn_created_at := appNow c; sn_updated_at := appNow c |})) ;;
  writeSnapshotOperation r "create_snapshot" snapshot instance
    (accepted_mutation c operation snapshot (operation_url project operation))
    (command_event c (c.(uuid) 2%nat) "snapshot.create.requested" instance project operation r
       (JObj (("snapshotId", JStr snapshot) :: ("name", JStr k.(cs_name))
           :: (match present k.(cs_description) with Some d => [("description", JStr d)] | None => [] end
               ++ routing_json row)%list)))
    requestHash (ids_from 3).
Definition acceptSnapshotCreate (r : Request) (instance : string) (k : CreateSnapshotCommand) (requestHash : string) :
    ctx AcceptedMutation :=
  or_replayed r "create_snapshot" requestHash (
    let! row := measureSnapshot r instance in
    commitSnapshot r instance k requestHash row).

Inductive SnapshotMutation : Set := mutate_rollback | mutate_delete.
Definition mutation_action (m : SnapshotMutation) : string :=
  match m with mutate_rollback => "rollback_snapshot" | mutate_delete => "delete_snapshot" end.

Definition acceptSnapshotAction (m : SnapshotMutation) (r : Request) (instance snapshot requestHash : string) :
    ctx AcceptedMutation :=
  or_replayed r (mutation_action m) requestHash (
    let project := r.(rq_projectId) in
    let! row := lockInstanceForMutation project instance in
    let! rows := tget snapshots in
    let! sn := tsome (rows !! snapshot)
      (DomainError SNAPSHOT_NOT_FOUND "The requested snapshot does not exist.") in
    tguard (String.eqb sn.(sn_instance_id) instance)
      (DomainError SNAPSHOT_OWNERSHIP_MISMATCH "The snapshot does not belong to the requested instance.") ;;
    tguard (bool_decide (sn.(sn_state) = snap_available))
      (DomainError INSTANCE_BUSY "The snapshot is not in a state that accepts this operation.") ;;
    let operation := c.(uuid) 0%nat in
    tmodify (λ s, on_snapshots s (alter (move_snapshot
      (match m with mutate_rollback => snap_rolling_back | mutate_delete => snap_deleting end)) snapshot)) ;;
    writeSnapshotOperation r (mutation_action m) snapshot instance
      (accepted_mutation c operation snapshot (operation_url project operation))
      (command_event c (c.(uuid) 1%nat)
         (match m with mutate_rollback => "snapshot.rollback.requested" | mutate_delete => "snapshot.delete.requested" end)
         instance project operation r
         (JObj (("snapshotId", JStr snapshot)
             :: ("providerSnapshotReference", JStr (default sn.(sn_name) sn.(sn_provider_snapshot_name)))
             :: routing_json row)))
      requestHash (ids_from 2)).
End accept.
