(* ===== verification/AcceptCreate.v ===== *)
(** * Accepting a create request, and the administrative requests

    [acceptCreate] of [control-plane-store.ts] with its catalog, quota and
    address steps, [releaseIpv4Lease], [requestReconciliation] and
    [requestDeadLetterReplay]. *)
From S2P Require Import Prelude JsText Json SshKey Domain Ipv4 WorkflowStage Events EventValidation Platform ControlDb AcceptStore.
From Stdlib Require Import ZArith Lia Bool Ascii String.
From stdpp Require Import base decidable list strings gmap sets.
Open Scope string_scope.
Open Scope Z_scope.
Open Scope prog_scope.

(** The rows acceptance resolves once. *)
Record AcceptanceContext : Set := {
  ac_providerProfileId : string;
  ac_flavor : FlavorRow;
  ac_network_id : string;
  ac_network : NetworkRow;
  ac_quota : QuotaRow;
}.

Definition unavailable : error := invalid "The selected project catalog entry is unavailable.".

(** The image joined to its provider profile, when it is enabled. *)
Definition enabled_image (k : Catalog) (image : string) : option (string * ProfileRow) :=
  im ← k.(images) !! image;
  profile ← k.(provider_profiles) !! im.(im_provider_profile_id);
  if im.(im_enabled) then Some (im.(im_provider_profile_id), profile) else None.
Definition enabled_network (k : Catalog) (network : string) : option NetworkRow :=
  n ← k.(networks) !! network; if n.(nw_enabled) then Some n else None.

(** [Number(ipv4Cidr.split('/')[1])]. *)
Definition prefixLengthOf (ipv4Cidr : string) : Z :=
  default 0 ((split_on "/" ipv4Cidr) !! 1%nat ≫= Number_integer).

Definition dnsTuple (values : list string) : result error (list string) :=
  let n := Z.of_nat (List.length values) in
  if (n <? 1) || (4 <? n) then Err (invalid "The configured DNS server list is invalid.") else Ok values.
Definition sshTuple (values : list string) : result error (list string) :=
  if 5 <? Z.of_nat (List.length values) then Err (invalid "At most five SSH public keys are accepted.")
  else Ok values.

(** The records an accepted create writes. *)
Record AcceptanceRecords : Type := {
  ar_instanceId : string;
  ar_operationId : string;
  ar_leaseId : string;
  ar_address : string;
  ar_prefixLength : Z;
  ar_accepted : AcceptedMutation;
  ar_instance : InstanceView;
  ar_operation : OperationView;
  ar_event : record;
}.

Section create.
Context (c : Call).

Definition loadAcceptanceContext (r : Request) (k : CreateInstanceCommand) : ctx AcceptanceContext :=
  let! db := tget catalog in
  let! project := tsome (db.(projects) !! r.(rq_projectId))
    (DomainError PROJECT_NOT_FOUND "Project was not found.") in
  tguard project.(pj_enabled) (DomainError PROJECT_ACCESS_DENIED "Project is disabled.") ;;
  let! image := tsome (enabled_image db k.(cr_imageId)) unavailable in
  let! flavor := tsome (enabled_flavor db k.(cr_flavorId)) unavailable in
  let! network := tsome (enabled_network db k.(cr_networkId)) unavailable in
  let! quota := tsome (db.(quotas) !! r.(rq_projectId)) unavailable in
  tguard (String.eqb (snd image).(pp_state) "active")
    (DomainError PROFILE_DISABLED "Provider profile is disabled.") ;;
  tguard (String.eqb (snd image).(pp_network_id) k.(cr_networkId))
    (invalid "The selected image and network do not share a provider profile.") ;;
  tret {| ac_providerProfileId := fst image; ac_flavor := flavor; ac_network_id := k.(cr_networkId);
          ac_network := network; ac_quota := quota |}.

Definition flavor_sizing (f : FlavorRow) : Sizing :=
  {| cpuCount := f.(fl_cpu_count); memoryMiB := f.(fl_memory_mib); diskGiB := f.(fl_minimum_disk_gib) |}.

Definition assertQuotaHeadroom (project : string) (context : AcceptanceContext) : ctx unit :=
  let! used := tget (charged_instances project) in
  let! u := tget (usage project) in
  tguard ((Z.of_nat (List.length used) + 1 <=? context.(ac_quota).(qt_instances))
          && negb (exceeds (add_sizing u (flavor_sizing context.(ac_flavor))) context.(ac_quota)))
    (DomainError QUOTA_EXCEEDED "The create request exceeds project quota.").

(** The addresses that count as taken on a network. *)
Definition occupied_addresses (network : string) (s : ControlDb) : list string :=
  map al_address (List.filter (λ l, String.eqb l.(al_network_id) network && occupies l)
                    (map snd (map_to_list s.(ipv4_leases)))).

Definition reserveIpv4Address (context : AcceptanceContext) : ctx string :=
  let! taken := tget (occupied_addresses context.(ac_network_id)) in
  tguard (Z.of_nat (List.length taken) + 1 <=? context.(ac_quota).(qt_ipv4_addresses))
    (DomainError QUOTA_EXCEEDED "The create request exceeds IPv4 quota.") ;;
  tlift (allocateIpv4 {| cidr := context.(ac_network).(nw_ipv4_cidr);
                         gateway := context.(ac_network).(nw_gateway);
                         exclusions := context.(ac_network).(nw_exclusions) |}
           (list_to_set taken)).

Definition strings_json (l : list string) : json := JArr (map JStr l).

(** The payload of the create command. *)
Definition create_json (k : CreateInstanceCommand) (context : AcceptanceContext) (address : string)
    (prefix : Z) (servers : list string) : json :=
  JObj ([("imageId", JStr k.(cr_imageId)); ("flavorId", JStr k.(cr_flavorId));
         ("networkId", JStr k.(cr_networkId)); ("providerProfileId", JStr context.(ac_providerProfileId));
         ("hostname", JStr k.(cr_hostname));
         ("resources", sizing_json (flavor_sizing context.(ac_flavor)));
         ("ipv4", JObj [("address", JStr address); ("prefixLength", JNum prefix);
                        ("gateway", JStr context.(ac_network).(nw_gateway));
                        ("dnsServers", strings_json servers)])]
        ++ match k.(cr_sshPublicKeys) with
           | [] => []
           | keys => [("sshPublicKeys", strings_json keys)]
           end)%list.

(** [command.traceparent || generatedTraceparent()]. *)
Definition create_trace (generated : string) (r : Request) : Request :=
  {| rq_subject := r.(rq_subject); rq_projectId := r.(rq_projectId);
     rq_idempotencyKey := r.(rq_idempotencyKey); rq_correlationId := r.(rq_correlationId);
     rq_traceparent := if truthy r.(rq_traceparent) then r.(rq_traceparent) else generated;
     rq_tracestate := r.(rq_tracestate) |}.

Definition buildAcceptanceRecords (generated : string) (r : Request) (k : CreateInstanceCommand)
    (context : AcceptanceContext) (address : string) : result error AcceptanceRecords :=
  let project := r.(rq_projectId) in
  let instance := c.(uuid) 0%nat in
  let operation := c.(uuid) 1%nat in
  let prefix := prefixLengthOf context.(ac_network).(nw_ipv4_cidr) in
  let? servers := dnsTuple context.(ac_network).(nw_dns_servers) in
  let? _ := sshTuple k.(cr_sshPublicKeys) in
  Ok {| ar_instanceId := instance; ar_operationId := operation; ar_leaseId := c.(uuid) 3%nat;
        ar_address := address; ar_prefixLength := prefix;
        ar_accepted := accepted_mutation c operation instance (operation_url project operation);
        ar_instance :=
          {| iv_id := instance; iv_projectId := project; iv_lifecycleState := "pending";
             iv_desired :=
               {| dv_imageId := k.(cr_imageId); dv_flavorId := k.(cr_flavorId); dv_networkId := k.(cr_networkId);
                  dv_hostname := k.(cr_hostname); dv_powerState := "running"; dv_retentionRequested := false |};
             iv_observed := None;
             iv_ipv4Lease := {| lv_address := address; lv_prefixLength := prefix;
                                lv_gateway := context.(ac_network).(nw_gateway); lv_state := "active" |};
             iv_activeOperationId := Some operation; iv_drift := "none"; iv_lastReconciledAt := None;
             iv_retentionDeadline := None; iv_purgeEligible := false;
             iv_createdAt := appNow c; iv_updatedAt := appNow c |};
        ar_operation := accepted_operation c operation project "create_instance" "instance" instance;
        ar_event := command_event c (c.(uuid) 2%nat) "instance.create.requested" instance project operation
          (create_trace generated r) (create_json k context address prefix servers) |}.

(** The row an accepted create inserts, once the follow-up UPDATE has set its
    operation. *)
Definition new_instance (r : Request) (k : CreateInstanceCommand) (context : AcceptanceContext)
    (operation : string) : InstanceRow :=
  {| i_project_id := r.(rq_projectId); i_image_id := k.(cr_imageId); i_flavor_id := k.(cr_flavorId);
     i_network_id := k.(cr_networkId); i_provider_profile_id := context.(ac_providerProfileId);
     i_hostname := k.(cr_hostname); i_ssh_public_keys := k.(cr_sshPublicKeys);
     i_desired_cpu_count := context.(ac_flavor).(fl_cpu_count);
     i_desired_memory_mib := context.(ac_flavor).(fl_memory_mib);
     i_desired_disk_gib := context.(ac_flavor).(fl_minimum_disk_gib);
     i_desired_power_state := "running"; i_lifecycle_state := "pending";
     i_active_operation_id := Some operation; i_create_operation_id := Some operation;
     i_retention_deadline := None; i_purge_eligible := false; i_drift := "none";
     i_last_reconciled_at := None; i_observed := None; i_updated_at := appNow c |}.

(** INSERT INTO control.ipv4_leases, under the unique instance and the partial
    unique index. *)
Definition insertLease (instance : string) (l : AddressLease) : ctx unit :=
  let! rows := tget ipv4_leases in
  tguard (bool_decide (rows !! instance = None)) (Fault "ipv4_leases_instance_id_key") ;;
  let! taken := tget (occupied_addresses l.(al_network_id)) in
  tguard (bool_decide (l.(al_address) ∉ taken)) (Fault "ipv4_leases_active_address") ;;
  tmodify (λ s, on_ipv4_leases s (insert instance l)).

Definition writeAcceptanceRecords (r : Request) (k : CreateInstanceCommand) (context : AcceptanceContext)
    (a : AcceptanceRecords) (requestHash : string) : ctx unit :=
  let instance := a.(ar_instanceId) in
  let operation := a.(ar_operationId) in
  let! rows := tget instances in
  tguard (bool_decide (rows !! instance = None)) (Fault "instances_pkey") ;;
  tmodify (λ s, on_instances s (insert instance (new_instance r k context operation))) ;;
  insertOperation a.(ar_operation) ;;
  insertLease instance
    {| al_id := a.(ar_leaseId); al_project_id := r.(rq_projectId); al_network_id := context.(ac_network_id);
       al_address := a.(ar_address); al_prefix_length := a.(ar_prefixLength);
       al_gateway := context.(ac_network).(nw_gateway); al_state := lease_active; al_updated_at := appNow c |} ;;
  bindIdempotencyKey c r "create_instance" requestHash instance operation a.(ar_accepted) ;;
  writeControlOutbox c (P_command a.(ar_event)) "provisioning.commands.v1" (c.(uuid) 4%nat) ;;
  writeControlAudit c (c.(uuid) 5%nat) r.(rq_projectId) operation r.(rq_correlationId) operation
    a.(ar_event).(envelope).(traceContext)
    (accepted_audit r.(rq_subject) role_tenant_developer "create_instance" "instance" instance None)
    (c.(uuid) 6%nat) ;;
  let! documents := tget p_instances in
  tguard (bool_decide (documents !! instance = None)) (Fault "projection.instances_pkey") ;;
  tmodify (λ s, on_p_instances s (insert instance a.(ar_instance))) ;;
  projectOperation r a.(ar_operation).

(** The reads of a create.  Nothing is locked but the idempotency scope: the
    usage is measured before the lock of the network is taken. *)
Definition measureCreate (r : Request) (k : CreateInstanceCommand) : ctx AcceptanceContext :=
  let! context := loadAcceptanceContext r k in
  assertQuotaHeadroom r.(rq_projectId) context ;;
  tret context.
(** From the lock of the network on: the scan for a free address and the
    writes. *)
Definition commitCreate (generated : string) (r : Request) (k : CreateInstanceCommand) (requestHash : string)
    (context : AcceptanceContext) : ctx AcceptedMutation :=
  let! address := reserveIpv4Address context in
  let! records := tlift (buildAcceptanceRecords generated r k context address) in
  writeAcceptanceRecords r k context records requestHash ;;
  tret records.(ar_accepted).
Definition acceptCreate (generated : string) (r : Request) (k : CreateInstanceCommand) (requestHash : string) :
    ctx AcceptedMutation :=
  or_replayed r "create_instance" requestHash (
    let! context := measureCreate r k in
    commitCreate generated r k requestHash context).

(** ** Ending a lease *)

Definition lease_order (s : AddressState) : Z :=
  match s with lease_active => 0 | lease_quarantined => 1 | lease_released => 2 end.
(** The state a release leaves, or [None] when the instance never held a lease. *)
Definition releaseIpv4Lease (instance : string) (mode : LeaseReleaseMode) : ctx (option AddressState) :=
  let to := match mode with quarantine_until_purge => lease_quarantined | release_on_retain => lease_released end in
  let! rows := tget ipv4_leases in
  match rows !! instance with
  | None => tret None
  | Some lease =>
      if lease_order to <=? lease_order lease.(al_state) then
        tret (if bool_decide (lease.(al_state) = lease_active) then None else Some lease.(al_state))
      else
        tmodify (λ s, on_ipv4_leases s (insert instance (move_lease c to lease))) ;;
        tret (Some to)
  end.

(** ** Administrative requests *)

Definition stale_row (row : InstanceRow) : InstanceRow :=
  {| i_project_id := row.(i_project_id); i_image_id := row.(i_image_id); i_flavor_id := row.(i_flavor_id);
     i_network_id := row.(i_network_id); i_provider_profile_id := row.(i_provider_profile_id);
     i_hostname := row.(i_hostname); i_ssh_public_keys := row.(i_ssh_public_keys);
     i_desired_cpu_count := row.(i_desired_cpu_count); i_desired_memory_mib := row.(i_desired_memory_mib);
     i_desired_disk_gib := row.(i_desired_disk_gib); i_desired_power_state := row.(i_desired_power_state);
     i_lifecycle_state := row.(i_lifecycle_state); i_active_operation_id := row.(i_active_operation_id);
     i_create_operation_id := row.(i_create_operation_id); i_retention_deadline := row.(i_retention_deadline);
     i_purge_eligible := row.(i_purge_eligible); i_drift := row.(i_drift); i_last_reconciled_at := None;
     i_observed := row.(i_observed); i_updated_at := row.(i_updated_at) |}.
Definition requestReconciliation (instance : string) : ctx bool :=
  let! rows := tget instances in
  tmodify (λ s, on_instances s (alter stale_row instance)) ;;
  tret (bool_decide (is_Some (rows !! instance))).

Definition getDeadLetterTraceContext (event : string) (s : ControlDb) : option TraceContext :=
  dlv_traceContext <$> s.(p_dead_letters) !! event.

(** The input of [requestDeadLetterReplay]. *)
Record ReplayDeadLetterCommand : Set := { rd_originalEventId : string; rd_reason : string }.

Definition replay_mutation (d : DeadLetterView) (at_ : Z) (replayed : bool) : AcceptedMutation :=
  {| am_operationId := d.(dlv_operationId); am_targetId := d.(dlv_aggregateId); am_acceptedAt := at_;
     am_statusUrl := operation_url d.(dlv_projectId) d.(dlv_operationId); am_replayed := replayed |}.

Definition requestDeadLetterReplay `{Platform} (r : Request) (k : ReplayDeadLetterCommand) (requestHash : string) :
    ctx AcceptedMutation :=
  let! requests := tget control_replays in
  let previous := List.find (λ q, String.eqb (snd q).(rr_actor_id) r.(rq_subject)
                                  && String.eqb (snd q).(rr_idempotency_key) r.(rq_idempotencyKey))
                    (map_to_list requests) in
  let! letters := tget p_dead_letters in
  let! letter := tsome (letters !! k.(rd_originalEventId))
    (DomainError DEAD_LETTER_NOT_FOUND "The dead letter was not found.") in
  match previous with
  | Some (_, q) =>
      tguard (String.eqb q.(rr_request_hash) requestHash)
        (DomainError IDEMPOTENCY_CONFLICT "The idempotency key is already bound to different replay intent.") ;;
      tret (replay_mutation letter q.(rr_requested_at) true)
  | None =>
      tguard letter.(dlv_replayAllowed)
        (DomainError REPLAY_NOT_ALLOWED "This dead letter is not replayable.") ;;
      let id := c.(uuid) 0%nat in
      let event :=
        {| envelope :=
             {| eventId := c.(uuid) 1%nat; schemaName := "provisioning.replay.requested"; schemaVersion := 1;
                aggregateType := "instance"; aggregateId := letter.(dlv_aggregateId);
                projectId := letter.(dlv_projectId); operationId := letter.(dlv_operationId);
                correlationId := r.(rq_correlationId); causationId := k.(rd_originalEventId);
                occurredAt := appNow c; traceContext := request_trace r;
                partitionKey := letter.(dlv_aggregateId) |};
           data := JObj [("replayRequestId", JStr id); ("originalEventId", JStr k.(rd_originalEventId));
                         ("requestedAt", JStr (toISOString (appNow c)))] |} in
      tguard (bool_decide (requests !! id = None)) (Fault "replay_requests_pkey") ;;
      let n := js_length k.(rd_reason) in
      tguard ((10 <=? n) && (n <=? 512)) (Fault "replay_requests_reason_check") ;;
      tmodify (λ s, on_control_replays s (insert id
        {| rr_original_event_id := k.(rd_originalEventId); rr_actor_id := r.(rq_subject);
           rr_idempotency_key := r.(rq_idempotencyKey); rr_request_hash := requestHash;
           rr_reason := k.(rd_reason); rr_status := rr_accepted; rr_requested_at := appNow c;
           rr_updated_at := appNow c |})) ;;
      writeControlOutbox c (P_command event) "provisioning.commands.v1" (c.(uuid) 2%nat) ;;
      writeControlAudit c (c.(uuid) 3%nat) letter.(dlv_projectId) letter.(dlv_operationId) r.(rq_correlationId)
        event.(envelope).(eventId) event.(envelope).(traceContext)
        (accepted_audit r.(rq_subject) role_platform_administrator "replay_dead_letter" "event"
           k.(rd_originalEventId) (Some id)) (c.(uuid) 4%nat) ;;
      tret (replay_mutation letter (appNow c) false)
  end.
End create.
