(* ===== verification/Reconciliation.v ===== *)
(** * Reconciliation

    The periodic sweep of the reconciler: [reconciliation-store.ts], which
    claims the stalest instances and records what was seen of them, and
    [reconciliation-worker.ts], which observes each through the provider's one
    read-only call and classifies the difference.  The store reads the workflow
    schema for the provider's identifier of a machine. *)
From S2P Require Import Prelude JsText Json SshKey Domain Ipv4 WorkflowStage Events EventValidation Platform ProviderPort Lifecycle Capabilities WorkflowStore ControlDb AcceptStore AcceptCreate.
From Stdlib Require Import ZArith Lia Bool Ascii String.
From stdpp Require Import base decidable list strings gmap sets sorting.
Open Scope string_scope.
Open Scope Z_scope.
Open Scope prog_scope.

Definition RECONCILIATION_TOPIC : string := "reconciliation.events.v1".

Record ReconciliationCandidate : Set := {
  rc_instanceId : string;
  rc_projectId : string;
  rc_providerProfileId : string;
  rc_createOperationId : string;
  rc_providerResourceId : string;
  rc_lifecycleState : string;
  rc_desiredPowerState : string;
  rc_desiredSizing : Sizing;
}.
Record ReconciliationOutcome : Set := {
  ro_instanceId : string;
  ro_projectId : string;
  ro_drift : DriftClassification;
  ro_dangerous : bool;
  ro_exists : bool;
  ro_powerState : ObservedPower;
  ro_markerMatch : bool;
  ro_observedAt : Z;
}.

Definition drift_text (d : DriftClassification) : string :=
  match d with
  | drift_none => "none" | missing_resource => "missing_resource" | identity_mismatch => "identity_mismatch"
  | stale_task => "stale_task" | late_success => "late_success" | power_drift => "power_drift"
  | network_drift => "network_drift" | ambiguous => "ambiguous"
  end.

(** ** Claiming *)

Definition reconcilable (staleAfter : Z) (row : InstanceRow) : bool :=
  negb (String.eqb row.(i_lifecycle_state) "purged" || String.eqb row.(i_lifecycle_state) "pending")
  && match row.(i_last_reconciled_at) with None => true | Some t => t <=? staleAfter end.
(** [ORDER BY last_reconciled_at NULLS FIRST]. *)
Definition no_later (a b : option Z) : Prop :=
  match a, b with None, _ => True | Some x, Some y => x ≤ y | Some _, None => False end.
#[export] Instance no_later_dec : RelDecision no_later.
Proof. intros [x|] [y|]; cbn; apply _. Defined.
Definition staler (a b : string * InstanceRow) : Prop :=
  no_later (snd a).(i_last_reconciled_at) (snd b).(i_last_reconciled_at).
#[export] Instance staler_dec : RelDecision staler.
Proof. intros a b. unfold staler. apply _. Defined.

Definition reconciled_row (at_ : Z) (row : InstanceRow) : InstanceRow :=
  {| i_project_id := row.(i_project_id); i_image_id := row.(i_image_id); i_flavor_id := row.(i_flavor_id);
     i_network_id := row.(i_network_id); i_provider_profile_id := row.(i_provider_profile_id);
     i_hostname := row.(i_hostname); i_ssh_public_keys := row.(i_ssh_public_keys);
     i_desired_cpu_count := row.(i_desired_cpu_count); i_desired_memory_mib := row.(i_desired_memory_mib);
     i_desired_disk_gib := row.(i_desired_disk_gib); i_desired_power_state := row.(i_desired_power_state);
     i_lifecycle_state := row.(i_lifecycle_state); i_active_operation_id := row.(i_active_operation_id);
     i_create_operation_id := row.(i_create_operation_id); i_retention_deadline := row.(i_retention_deadline);
     i_purge_eligible := row.(i_purge_eligible); i_drift := row.(i_drift); i_last_reconciled_at := Some at_;
     i_observed := row.(i_observed); i_updated_at := row.(i_updated_at) |}.

Section claim.
(** The database's state of the workflow schema, the rows other transactions
    hold locked, and the order in which the scan meets the rows. *)
Context (c : Call) (w : WorkflowDb) (locked : gset string)
        (scan : gmap string InstanceRow → list (string * InstanceRow)).

(** The rows the query returns: SKIP LOCKED passes over locked rows before
    LIMIT counts. *)
Definition stale_rows (limit : nat) (staleAfter : Z) (s : ControlDb) : list (string * InstanceRow) :=
  take limit (List.filter (λ p, bool_decide (fst p ∉ locked))
    (merge_sort staler (List.filter (λ p, reconcilable staleAfter (snd p)) (scan s.(instances))))).
(** What can be observed: the provider's and the creator's identifiers are
    known. *)
Definition observable (p : string * InstanceRow) : option ReconciliationCandidate :=
  resource ← present (inheritedResource (fst p) w);
  creator ← present (snd p).(i_create_operation_id);
  Some {| rc_instanceId := fst p; rc_projectId := (snd p).(i_project_id);
          rc_providerProfileId := (snd p).(i_provider_profile_id); rc_createOperationId := creator;
          rc_providerResourceId := resource; rc_lifecycleState := (snd p).(i_lifecycle_state);
          rc_desiredPowerState := (snd p).(i_desired_power_state); rc_desiredSizing := desired_sizing (snd p) |}.

Definition claimStaleInstances (limit : nat) (staleAfter : Z) : ctx (list ReconciliationCandidate) :=
  let! rows := tget (stale_rows limit staleAfter) in
  let claimed := omap observable rows in
  tmodify (λ s, on_instances s (λ m, foldr (λ k, alter (reconciled_row (appNow c)) k.(rc_instanceId)) m claimed)) ;;
  tret claimed.
End claim.

(** ** Recording *)

Section record.
Context `{Platform} (c : Call).

Definition observed_view (o : ReconciliationOutcome) (v : option ObservedView) : ObservedView :=
  {| ob_exists := o.(ro_exists); ob_powerState := o.(ro_powerState); ob_cpuCount := v ≫= ob_cpuCount;
     ob_memoryMiB := v ≫= ob_memoryMiB; ob_diskGiB := v ≫= ob_diskGiB; ob_markerMatch := o.(ro_markerMatch);
     ob_observedAt := o.(ro_observedAt) |}.
Definition observed_row (o : ReconciliationOutcome) (row : InstanceRow) : InstanceRow :=
  {| i_project_id := row.(i_project_id); i_image_id := row.(i_image_id); i_flavor_id := row.(i_flavor_id);
     i_network_id := row.(i_network_id); i_provider_profile_id := row.(i_provider_profile_id);
     i_hostname := row.(i_hostname); i_ssh_public_keys := row.(i_ssh_public_keys);
     i_desired_cpu_count := row.(i_desired_cpu_count); i_desired_memory_mib := row.(i_desired_memory_mib);
     i_desired_disk_gib := row.(i_desired_disk_gib); i_desired_power_state := row.(i_desired_power_state);
     i_lifecycle_state := row.(i_lifecycle_state); i_active_operation_id := row.(i_active_operation_id);
     i_create_operation_id := row.(i_create_operation_id); i_retention_deadline := row.(i_retention_deadline);
     i_purge_eligible := row.(i_purge_eligible); i_drift := drift_text o.(ro_drift);
     i_last_reconciled_at := Some o.(ro_observedAt); i_observed := Some (observed_view o row.(i_observed));
     i_updated_at := appNow c |}.

(** The finding, which names itself as its operation and cause. *)
Definition drift_event (trace : string) (o : ReconciliationOutcome) : record :=
  let id := c.(uuid) 0%nat in
  {| envelope :=
       {| eventId := id; schemaName := "drift.detected"; schemaVersion := 1; aggregateType := "instance";
          aggregateId := o.(ro_instanceId); projectId := o.(ro_projectId); operationId := id; correlationId := id;
          causationId := id; occurredAt := o.(ro_observedAt);
          traceContext := {| traceparent := trace; tracestate := None |}; partitionKey := o.(ro_instanceId) |};
     data := JObj [("classification", JStr (drift_text o.(ro_drift))); ("dangerous", JBool o.(ro_dangerous));
                   ("evidenceId", JStr (c.(uuid) 2%nat))] |}.
Definition drift_row (trace : string) (o : ReconciliationOutcome) : OutboxRow :=
  {| ob_outbox_id := c.(uuid) 1%nat; ob_topic := RECONCILIATION_TOPIC; ob_payload := P_command (drift_event trace o);
     ob_tracingspancontext := serializeDebeziumTraceContext {| traceparent := trace; tracestate := None |};
     ob_replay_generation := 0; ob_occurred_at := o.(ro_observedAt) |}.

(** [trace] is the generated traceparent. *)
Definition recordObservation (trace : string) (o : ReconciliationOutcome) : ctx unit :=
  tmodify (λ s, on_instances s (alter (observed_row o) o.(ro_instanceId))) ;;
  if bool_decide (o.(ro_drift) = drift_none) then tret tt
  else
    let row := drift_row trace o in
    let! rows := tget control_outbox in
    tguard (bool_decide (outbox_key row ∉ map outbox_key rows)
            && bool_decide (row.(ob_outbox_id) ∉ map ob_outbox_id rows))
      (Fault "outbox_event_id_replay_generation_key, outbox_pkey") ;;
    tmodify (λ s, on_control_outbox s (λ l, l ++ [row])%list).
End record.

(** ** The sweep *)

Definition powerStateName (v : option ObservedPowerState) : ObservedPower :=
  match v with
  | Some OBSERVED_RUNNING => observed_running
  | Some OBSERVED_STOPPED => observed_stopped
  | Some OBSERVED_SUSPENDED => observed_suspended
  | _ => observed_unknown
  end.

Definition STALE_AFTER_MS : Z := 5 * 60 * 1000.
Definition BATCH_SIZE : nat := 25.

Section worker.
Context `{Platform}.

(** The request carries no fencing token. *)
Definition observation_request (k : ReconciliationCandidate) : InstanceRequest :=
  {| context :=
       {| requestId := k.(rc_instanceId) ++ ":reconcile"; ctx_operationId := k.(rc_createOperationId);
          ctx_correlationId := k.(rc_createOperationId); ctx_projectId := k.(rc_projectId);
          ctx_instanceId := k.(rc_instanceId); ctx_providerProfileId := k.(rc_providerProfileId); ctx_attempt := 1;
          ctx_fencingToken := "" |};
     request_providerResourceId := k.(rc_providerResourceId);
     expectedOwnershipMarkers :=
       {| managedBy := "private-cloud-control-plane"; environment := "lab"; marker_projectId := k.(rc_projectId);
          marker_instanceId := k.(rc_instanceId); marker_createOperationId := k.(rc_createOperationId) |} |}.

(** The observed snapshot.  [Number(undefined)] is NaN, which differs from
    every desired memory and is below no desired disk. *)
Definition observed_snapshot (k : ReconciliationCandidate) (o : option InstanceObservation) : ObservedSnapshot :=
  let resources := o ≫= io_resources in
  let cpu := resources ≫= pr_cpuCount in
  {| observed_exists := truth (o ≫= io_exists); observed_powerState := powerStateName (o ≫= io_powerState);
     observed_markerMatch := truth ((o ≫= io_ownership) ≫= ownership_match);
     observed_cpuCount := cpu;
     observed_memoryMiB := cpu ≫= λ _, Some (default (k.(rc_desiredSizing).(memoryMiB) - 1) (resources ≫= pr_memoryMib));
     observed_diskGiB := cpu ≫= λ _, resources ≫= pr_diskGib |}.

(** The row's text, compared with an observation; a text outside the union
    agrees with none. *)
Definition desired_power (text : string) (o : ObservedPower) : DesiredPower :=
  if String.eqb text "running" then desired_running
  else if String.eqb text "stopped" then desired_stopped
  else if String.eqb text "unchanged" then desired_unchanged
  else if bool_decide (o = observed_running) then desired_stopped else desired_running.
Definition drift_finding (k : ReconciliationCandidate) (o : option InstanceObservation) : DriftFinding :=
  let observed := observed_snapshot k o in
  classifyDrift
    {| desired_lifecycleState := k.(rc_lifecycleState);
       desired_powerState := desired_power k.(rc_desiredPowerState) observed.(observed_powerState);
       Domain.desired_sizing := k.(rc_desiredSizing) |} observed.

Definition outcome_of (k : ReconciliationCandidate) (o : option InstanceObservation) (at_ : Z) : ReconciliationOutcome :=
  let observed := observed_snapshot k o in
  let finding := drift_finding k o in
  {| ro_instanceId := k.(rc_instanceId); ro_projectId := k.(rc_projectId); ro_drift := finding.(classification);
     ro_dangerous := finding.(dangerous); ro_exists := observed.(observed_exists);
     ro_powerState := observed.(observed_powerState); ro_markerMatch := observed.(observed_markerMatch);
     ro_observedAt := at_ |}.

(** The provider, through the one call the reconciler's client has. *)
Context (provider : InstanceRequest → rpc_result (option InstanceObservation)).

(** Every failure is logged and dropped. *)
Definition reconcile (c : Call) (trace : string) (k : ReconciliationCandidate) (s : ControlDb) : ControlDb :=
  match provider (observation_request k) with
  | Reply o => snd (withTransaction (recordObservation c trace (outcome_of k o (appNow c))) s)
  | TransportFailure _ => s
  end.

(** A pass over the claimed instances; [stopping] is read before each. *)
Fixpoint reconcile_all (calls : nat → Call) (traces : nat → string) (stopping : nat → bool) (n : nat)
    (ks : list ReconciliationCandidate) (s : ControlDb) : ControlDb :=
  match ks with
  | [] => s
  | k :: ks =>
      if stopping n then s
      else reconcile_all calls traces stopping (S n) ks (reconcile (calls n) (traces n) k s)
  end.
(** One sweep: the claim commits, then each instance by itself. *)
Definition sweep (c : Call) (w : WorkflowDb) (locked : gset string)
    (scan : gmap string InstanceRow → list (string * InstanceRow))
    (calls : nat → Call) (traces : nat → string) (stopping : nat → bool) (s : ControlDb) : ControlDb :=
  match withTransaction (claimStaleInstances c w locked scan BATCH_SIZE (appNow c - STALE_AFTER_MS)) s with
  | (Ok ks, s') => reconcile_all calls traces stopping 0 ks s'
  | (Err _, s') => s'
  end.
End worker.

(** ** Reconciliation only reports *)

(** A row without what reconciliation may write. *)
Definition intent_row (row : InstanceRow) : InstanceRow :=
  {| i_project_id := row.(i_project_id); i_image_id := row.(i_image_id); i_flavor_id := row.(i_flavor_id);
     i_network_id := row.(i_network_id); i_provider_profile_id := row.(i_provider_profile_id);
     i_hostname := row.(i_hostname); i_ssh_public_keys := row.(i_ssh_public_keys);
     i_desired_cpu_count := row.(i_desired_cpu_count); i_desired_memory_mib := row.(i_desired_memory_mib);
     i_desired_disk_gib := row.(i_desired_disk_gib); i_desired_power_state := row.(i_desired_power_state);
     i_lifecycle_state := row.(i_lifecycle_state); i_active_operation_id := row.(i_active_operation_id);
     i_create_operation_id := row.(i_create_operation_id); i_retention_deadline := row.(i_retention_deadline);
     i_purge_eligible := row.(i_purge_eligible); i_drift := "none"; i_last_reconciled_at := None;
     i_observed := None; i_updated_at := 0 |}.
(** An outbox row that reports a drift. *)
Definition reports_drift (o : OutboxRow) : Prop :=
  ∃ c trace oc, o = drift_row c trace oc ∧ oc.(ro_drift) ≠ drift_none.

Record only_reports (s s' : ControlDb) : Prop := {
  or_catalog : s'.(catalog) = s.(catalog);
  or_instances : intent_row <$> s'.(instances) = intent_row <$> s.(instances);
  or_operations : s'.(operations) = s.(operations);
  or_leases : s'.(ipv4_leases) = s.(ipv4_leases);
  or_snapshots : s'.(snapshots) = s.(snapshots);
  or_keys : s'.(idempotency_records) = s.(idempotency_records);
  or_audit : s'.(control_audit) = s.(control_audit);
  or_replays : s'.(control_replays) = s.(control_replays);
  or_documents : (s'.(p_instances), s'.(p_operations), s'.(p_snapshots), s'.(p_dead_letters))
                 = (s.(p_instances), s.(p_operations), s.(p_snapshots), s.(p_dead_letters));
  or_receipts : (s'.(event_receipts), s'.(p_poison)) = (s.(event_receipts), s.(p_poison));
  or_outbox : ∃ l, s'.(control_outbox) = (s.(control_outbox) ++ l)%list ∧ Forall reports_drift l;
}.
#[export] Instance only_reports_preorder : PreOrder only_reports.
Proof.
  split.
  - intros s. split; try done. exists []. by rewrite app_nil_r.
  - intros s1 s2 s3 [] []. split; try congruence.
    destruct or_outbox0 as (l1 & E1 & H1), or_outbox1 as (l2 & E2 & H2). exists (l1 ++ l2)%list.
    rewrite E2, E1, app_assoc. split; [done|]. by apply Forall_app.
Qed.

Lemma only_reports_instances (f : gmap string InstanceRow → gmap string InstanceRow) s :
  intent_row <$> f s.(instances) = intent_row <$> s.(instances) → only_reports s (on_instances s f).
Proof. intros Hf. split; try done. exists []. by rewrite app_nil_r. Qed.
Lemma intent_row_alter (f : InstanceRow → InstanceRow) (i : string) (m : gmap string InstanceRow) :
  (∀ row, intent_row (f row) = intent_row row) → intent_row <$> alter f i m = intent_row <$> m.
Proof.
  intros Hf. apply map_eq. intros j. rewrite !lookup_fmap. destruct (decide (i = j)) as [<-|Hne].
  - rewrite lookup_alter_eq. destruct (m !! i); [|done]. cbn. by rewrite Hf.
  - by rewrite lookup_alter_ne.
Qed.

(** A row keeps its intent. *)
Lemma reports_row s s' i row :
  only_reports s s' → s.(instances) !! i = Some row →
  ∃ row', s'.(instances) !! i = Some row' ∧ intent_row row' = intent_row row.
Proof.
  intros Hr Hrow. pose proof (or_instances _ _ Hr) as Hi. apply (f_equal (lookup i)) in Hi. rewrite !lookup_fmap, Hrow in Hi.
  destruct (instances s' !! i) as [row'|]; [|done]. exists row'. split; [done|]. cbn in Hi. congruence.
Qed.

Lemma claim_reports c w locked scan limit staleAfter :
  keeps only_reports (claimStaleInstances c w locked scan limit staleAfter).
Proof.
  unfold claimStaleInstances. keeps_steps. apply keeps_modify. intros s. apply only_reports_instances.
  generalize (omap (observable w) a). intros ks. induction ks as [|k ks IH]; [done|]. cbn.
  by rewrite intent_row_alter.
Qed.

Section reports.
Context `{Platform}.
Lemma record_reports c trace o : keeps only_reports (recordObservation c trace o).
Proof.
  unfold recordObservation. apply keeps_bind; [apply _| |intros _].
  - apply keeps_modify. intros s. apply only_reports_instances. by apply intent_row_alter.
  - case_bool_decide as Hd; [apply keeps_ret, _|]. keeps_steps. apply keeps_modify. intros s.
    split; try done. eexists. split; [reflexivity|]. constructor; [|constructor]. by exists c, trace, o.
Qed.

Lemma reconcile_reports provider c trace k s : only_reports s (reconcile provider c trace k s).
Proof.
  unfold reconcile. destruct (provider _); [|reflexivity].
  apply (keeps_transaction only_reports (recordObservation c trace _)), record_reports.
Qed.
Lemma reconcile_all_reports provider calls traces stopping n ks s :
  only_reports s (reconcile_all provider calls traces stopping n ks s).
Proof.
  revert n s. induction ks as [|k ks IH]; intros n s; cbn; [reflexivity|]. destruct (stopping n); [reflexivity|].
  etransitivity; [apply reconcile_reports|apply IH].
Qed.

(** C35: Reconciliation never corrects anything (SAFE-029).  Whatever the
    provider answers or fails to answer, however many instances a sweep claims,
    and wherever it is stopped: a sweep changes nothing of an instance but its
    drift, its observation and the two stamps, creates and removes no
    instance, leaves every operation, lease, snapshot, key, audit fact and
    document as it is, and appends to the outbox only drift findings. *)
Theorem reconciliation_only_reports (provider : InstanceRequest → rpc_result (option InstanceObservation)) (c : Call)
    (w : WorkflowDb) (locked : gset string) (scan : gmap string InstanceRow → list (string * InstanceRow))
    (calls : nat → Call) (traces : nat → string) (stopping : nat → bool) (s : ControlDb) :
  only_reports s (sweep provider c w locked scan calls traces stopping s).
Proof.
  unfold sweep. pose proof (keeps_transaction only_reports (claimStaleInstances c w locked scan BATCH_SIZE
    (appNow c - STALE_AFTER_MS)) s (claim_reports _ _ _ _ _ _)) as Hc.
  destruct (withTransaction _ s) as [[ks|e] s']; cbn in Hc; [|done].
  etransitivity; [exact Hc|apply reconcile_all_reports].
Qed.
End reports.

(** ** Which instances a sweep takes *)

#[export] Instance no_later_total : Total no_later.
Proof. intros [x|] [y|]; cbn; lia || (by left) || (by right) || auto. Qed.
#[export] Instance no_later_trans : Transitive no_later.
Proof. intros [x|] [y|] [z|]; cbn; lia || done. Qed.
#[export] Instance staler_total : Total staler.
Proof. intros a b. apply no_later_total. Qed.
#[export] Instance staler_trans : Transitive staler.
Proof. intros a b d. apply no_later_trans. Qed.

Section claims.
Context (c : Call) (w : WorkflowDb) (locked : gset string)
        (scan : gmap string InstanceRow → list (string * InstanceRow)).
(** A scan meets every row once. *)
Hypothesis scan_ok : ∀ m, scan m ≡ₚ map_to_list m.

(** The candidates of a claim before LIMIT, in order. *)
Definition candidates (staleAfter : Z) (s : ControlDb) : list (string * InstanceRow) :=
  List.filter (λ p, bool_decide (fst p ∉ locked))
    (merge_sort staler (List.filter (λ p, reconcilable staleAfter (snd p)) (scan s.(instances)))).

Lemma list_filter_perm {A : Type} (p : A → bool) (l l' : list A) : l ≡ₚ l' → List.filter p l ≡ₚ List.filter p l'.
Proof.
  induction 1 as [|x l l' _ IH|x y l|l l' l'' _ IH1 _ IH2]; cbn; [done|by destruct (p x); rewrite ?IH| |by etransitivity].
  destruct (p x), (p y); try done. apply perm_swap.
Qed.
Lemma StronglySorted_list_filter {A : Type} (R : relation A) (p : A → bool) (l : list A) :
  StronglySorted R l → StronglySorted R (List.filter p l).
Proof.
  induction 1 as [|x l Hl IH Hx]; cbn; [constructor|]. destruct (p x); [|done]. constructor; [done|].
  rewrite Forall_forall in *. intros y Hy. apply Hx. apply list_elem_of_In in Hy. apply filter_In in Hy as [Hy _].
  by apply list_elem_of_In.
Qed.

Lemma NoDup_filter_keys {A : Type} (p : string * A → bool) (l : list (string * A)) :
  NoDup (map fst l) → NoDup (map fst (List.filter p l)).
Proof.
  induction l as [|x l IH]; cbn; [done|]. intros [Hx Hl]%NoDup_cons. destruct (p x); [|by apply IH]. cbn.
  constructor; [|by apply IH]. intros (y & Hy & Hin)%list_elem_of_fmap. apply Hx. rewrite Hy.
  apply list_elem_of_fmap_2. apply list_elem_of_In, filter_In in Hin as [Hin _]. by apply list_elem_of_In.
Qed.

Lemma candidates_perm (staleAfter : Z) (s : ControlDb) :
  candidates staleAfter s ≡ₚ List.filter (λ p, bool_decide (fst p ∉ locked))
    (List.filter (λ p, reconcilable staleAfter (snd p)) (map_to_list s.(instances))).
Proof.
  unfold candidates. apply list_filter_perm. rewrite merge_sort_Permutation. by apply list_filter_perm, scan_ok.
Qed.
Lemma elem_of_candidates (staleAfter : Z) (s : ControlDb) (i : string) (row : InstanceRow) :
  (i, row) ∈ candidates staleAfter s
  ↔ s.(instances) !! i = Some row ∧ reconcilable staleAfter row = true ∧ i ∉ locked.
Proof.
  rewrite candidates_perm, !list_elem_of_In, !filter_In, <- list_elem_of_In, elem_of_map_to_list, bool_decide_eq_true.
  cbn. tauto.
Qed.
Lemma candidates_sorted (staleAfter : Z) (s : ControlDb) : StronglySorted staler (candidates staleAfter s).
Proof. apply StronglySorted_list_filter, StronglySorted_merge_sort; apply _. Qed.
Lemma candidates_NoDup (staleAfter : Z) (s : ControlDb) : NoDup (map fst (candidates staleAfter s)).
Proof.
  rewrite candidates_perm. apply NoDup_filter_keys, NoDup_filter_keys. apply NoDup_fst_map_to_list.
Qed.

(** A claimed instance comes from its row. *)
Lemma observable_row (i : string) (row : InstanceRow) (k : ReconciliationCandidate) :
  observable w (i, row) = Some k →
  k.(rc_instanceId) = i ∧ present (inheritedResource i w) = Some k.(rc_providerResourceId)
  ∧ present row.(i_create_operation_id) = Some k.(rc_createOperationId) ∧ k.(rc_projectId) = row.(i_project_id)
  ∧ k.(rc_desiredPowerState) = row.(i_desired_power_state) ∧ k.(rc_desiredSizing) = desired_sizing row
  ∧ k.(rc_lifecycleState) = row.(i_lifecycle_state).
Proof.
  unfold observable. cbn. destruct (present (inheritedResource i w)) as [r|]; [|done].
  destruct (present (i_create_operation_id row)) as [o|]; [|done]. cbn. by intros [= <-].
Qed.

Lemma stamp_lookup (at_ : Z) (ks : list ReconciliationCandidate) (m : gmap string InstanceRow) (i : string) :
  NoDup (map rc_instanceId ks) →
  foldr (λ k, alter (reconciled_row at_) k.(rc_instanceId)) m ks !! i
  = if bool_decide (i ∈ map rc_instanceId ks) then reconciled_row at_ <$> m !! i else m !! i.
Proof.
  induction ks as [|k ks IH]; cbn; [done|]. intros [Hk Hks]%NoDup_cons.
  destruct (decide (rc_instanceId k = i)) as [<-|Hne].
  - rewrite lookup_alter_eq, IH by done. rewrite bool_decide_eq_false_2 by done. by rewrite bool_decide_eq_true_2 by set_solver.
  - rewrite lookup_alter_ne, IH by done. do 2 case_bool_decide; set_solver.
Qed.
Lemma length_omap_le {A B : Type} (f : A → option B) (l : list A) : (List.length (omap f l) ≤ List.length l)%nat.
Proof. induction l as [|x l IH]; cbn; [lia|]. destruct (f x); cbn; lia. Qed.
Lemma claimed_NoDup (l : list (string * InstanceRow)) :
  NoDup (map fst l) → NoDup (map rc_instanceId (omap (observable w) l)).
Proof.
  induction l as [|[i row] l IH]; cbn; [constructor|]. intros [Hi Hl]%NoDup_cons.
  destruct (observable w (i, row)) as [k|] eqn:E; [|by apply IH]. apply observable_row in E as [<- _].
  constructor; [|by apply IH]. intros (k' & Hk' & ([j r] & Hin & Hobs)%list_elem_of_omap)%list_elem_of_fmap.
  apply Hi. apply observable_row in Hobs as [<- _]. rewrite Hk'. by apply (list_elem_of_fmap_2 fst _ (_, r)).
Qed.

Lemma claim_Ok (limit : nat) (staleAfter : Z) (s s' : ControlDb) (ks : list ReconciliationCandidate) :
  claimStaleInstances c w locked scan limit staleAfter s = Ok (ks, s') →
  ks = omap (observable w) (take limit (candidates staleAfter s))
  ∧ ∀ i, s'.(instances) !! i = if bool_decide (i ∈ map rc_instanceId ks)
                               then reconciled_row (appNow c) <$> s.(instances) !! i else s.(instances) !! i.
Proof using scan_ok.
  intros (rows & ? & [= <- <-] & Hs)%tbind_Ok. cbv zeta in Hs. apply tbind_Ok in Hs as (? & ? & [= _ <-] & [= <- <-]).
  split; [done|]. intros i. cbn. apply stamp_lookup, claimed_NoDup.
  change (stale_rows locked scan limit staleAfter s) with (take limit (candidates staleAfter s)).
  eapply sublist_NoDup; [apply (candidates_NoDup staleAfter s)|]. apply fmap_sublist, sublist_take.
Qed.

(** What a sweep claims.  Among the instances that are due (not pending or
    purged, and not seen within the window), not locked by another transaction,
    and observable (the provider's identifier and the creating operation are
    known), a claim takes at most the batch, each once and with the data of its
    row; every one it takes is at least as stale as every one it leaves; it
    stamps exactly those and changes no other row; and no claim takes them
    again before the window has passed. *)
Theorem claim_takes_the_stalest (limit : nat) (staleAfter : Z) (s s' : ControlDb) (ks : list ReconciliationCandidate)
    (Hclaim : claimStaleInstances c w locked scan limit staleAfter s = Ok (ks, s')) :
  let due s staleAfter i row := s.(instances) !! i = Some row ∧ reconcilable staleAfter row = true ∧ i ∉ locked in
  (List.length ks ≤ limit)%nat ∧ NoDup (map rc_instanceId ks)
  ∧ (∀ k, k ∈ ks → ∃ row, due s staleAfter k.(rc_instanceId) row ∧ observable w (k.(rc_instanceId), row) = Some k
       ∧ ∀ i row', due s staleAfter i row' → is_Some (observable w (i, row')) → i ∉ map rc_instanceId ks →
           no_later row.(i_last_reconciled_at) row'.(i_last_reconciled_at))
  ∧ (∀ i, s'.(instances) !! i = if bool_decide (i ∈ map rc_instanceId ks)
                                then reconciled_row (appNow c) <$> s.(instances) !! i else s.(instances) !! i)
  ∧ ∀ i row staleAfter', i ∈ map rc_instanceId ks → staleAfter' < appNow c → ¬ due s' staleAfter' i row.
Proof using scan_ok.
  intros due. apply claim_Ok in Hclaim as [Hks Hrows].
  assert (Hnd : NoDup (map rc_instanceId ks)).
  { subst ks. apply claimed_NoDup. eapply sublist_NoDup; [apply (candidates_NoDup staleAfter s)|]. apply fmap_sublist, sublist_take. }
  split_and!; [|exact Hnd| |exact Hrows|].
  - subst ks. etransitivity; [apply length_omap_le|]. rewrite length_take. lia.
  - intros k Hk. rewrite Hks in Hk. apply list_elem_of_omap in Hk as ([i row] & Hin & Hobs).
    pose proof (observable_row _ _ _ Hobs) as [-> _]. exists row.
    split; [apply elem_of_candidates; apply elem_of_take in Hin as (? & Hin & _); by eapply list_elem_of_lookup_2|]. split; [exact Hobs|].
    intros j row' Hdue [k' Hobs'] Hj. apply elem_of_candidates in Hdue.
    rewrite <- (take_drop limit (candidates staleAfter s)) in Hdue.
    apply elem_of_app in Hdue as [Htake|Hdrop].
    + destruct Hj. rewrite Hks. pose proof (observable_row _ _ _ Hobs') as [<- _].
      apply list_elem_of_fmap_2, list_elem_of_omap. by eexists.
    + pose proof (candidates_sorted staleAfter s) as Hsort. rewrite <- (take_drop limit (candidates staleAfter s)) in Hsort.
      change (staler (i, row) (j, row')). eapply StronglySorted_app_1_elem_of; [exact Hsort|exact Hin|exact Hdrop].
  - intros i row staleAfter' Hi Ht (Hrow & Hrec & _). rewrite Hrows, bool_decide_eq_true_2 in Hrow by done.
    destruct (instances s !! i) as [r|]; [|done]. injection Hrow as <-. unfold reconcilable in Hrec. cbn in Hrec.
    unbool. lia.
Qed.

(** ** Starvation *)

Definition never_reconciled (p : string * InstanceRow) : bool := bool_decide ((snd p).(i_last_reconciled_at) = None).
(** A row the query returns first and the filter after it drops. *)
Definition unclaimable (p : string * InstanceRow) : bool :=
  never_reconciled p && bool_decide (fst p ∉ locked) && bool_decide (observable w p = None)
  && negb (String.eqb (snd p).(i_lifecycle_state) "purged" || String.eqb (snd p).(i_lifecycle_state) "pending").

Lemma list_filter_and {A : Type} (p q : A → bool) (l : list A) :
  List.filter p (List.filter q l) = List.filter (λ x, q x && p x) l.
Proof. induction l as [|x l IH]; cbn; [done|]. destruct (q x); cbn; [|done]. by rewrite IH. Qed.
Lemma list_filter_length {A : Type} (p q : A → bool) (l : list A) :
  (∀ x, p x = true → q x = true) → (List.length (List.filter p l) ≤ List.length (List.filter q l))%nat.
Proof.
  intros Hpq. induction l as [|x l IH]; cbn; [lia|]. destruct (p x) eqn:E; [rewrite (Hpq x E); cbn; lia|].
  destruct (q x); cbn; lia.
Qed.

Lemma nulls_first (l : list (string * InstanceRow)) (n : nat) :
  StronglySorted staler l → (n ≤ List.length (List.filter never_reconciled l))%nat →
  Forall (λ p, never_reconciled p = true) (take n l).
Proof.
  intros Hl. revert n. induction Hl as [|x l Hl IH Hx]; intros [|n] Hn; cbn; try constructor.
  - cbn in Hn. destruct (never_reconciled x) eqn:E; [done|]. exfalso.
    assert (List.filter never_reconciled l = []) as Hnil; [|rewrite Hnil in Hn; cbn in Hn; lia].
    apply list.nil_length_inv, Nat.le_0_r. clear IH Hn Hl. induction l as [|y l IH]; [done|]. cbn.
    apply Forall_cons in Hx as [Hxy Hx]. destruct (never_reconciled y) eqn:Ey; [|by apply IH].
    unfold never_reconciled in E, Ey. apply bool_decide_eq_true in Ey. apply bool_decide_eq_false in E.
    unfold staler, no_later in Hxy. rewrite Ey in Hxy. by destruct (i_last_reconciled_at x.2).
  - apply IH. cbn in Hn. destruct (never_reconciled x); cbn in Hn; [lia|].
    etransitivity; [|exact Hn]. lia.
Qed.

(** Starvation.  LIMIT is applied before the rows that cannot be observed
    are dropped, and only the others are stamped.  So as soon as a batch of
    instances that never got a provider resource (each failed create leaves
    one) has no reconciliation stamp, and no observable instance is without
    one, every sweep at every later time claims nothing and changes nothing:
    no instance of any project is reconciled again. *)
Theorem unobservable_instances_starve_the_sweep (limit : nat) (staleAfter : Z) (s : ControlDb)
    (Hunclaimable : (limit ≤ List.length (List.filter unclaimable (map_to_list s.(instances))))%nat)
    (Hrest : ∀ i row, s.(instances) !! i = Some row → row.(i_last_reconciled_at) = None → observable w (i, row) = None) :
  claimStaleInstances c w locked scan limit staleAfter s = Ok ([], s).
Proof using scan_ok.
  assert (Hnone : Forall (λ p, never_reconciled p = true) (take limit (candidates staleAfter s))).
  { apply nulls_first; [apply candidates_sorted|]. etransitivity; [exact Hunclaimable|].
    rewrite (list_filter_perm never_reconciled _ _ (candidates_perm staleAfter s)), !list_filter_and.
    apply list_filter_length. intros [i row]. unfold unclaimable, never_reconciled, reconcilable. cbn. intros Hp. unbool.
    apply String.eqb_neq in H0, H3. by rewrite H, H0, H3, !bool_decide_eq_true_2 by done. }
  assert (Hks : omap (observable w) (take limit (candidates staleAfter s)) = []).
  { assert (Hall : ∀ p, p ∈ take limit (candidates staleAfter s) → observable w p = None).
    { intros [i row] Hin. rewrite list.Forall_forall in Hnone. specialize (Hnone _ Hin). apply bool_decide_eq_true in Hnone.
      apply (Hrest i row); [|exact Hnone]. apply (elem_of_candidates staleAfter).
      apply elem_of_take in Hin as (? & Hin & _). by eapply list_elem_of_lookup_2. }
    induction (take limit (candidates staleAfter s)) as [|p l IH]; [done|]. cbn. rewrite Hall by by left.
    apply IH; [by apply Forall_cons in Hnone as [_ ?]|]. intros q Hq. apply Hall. by right. }
  unfold claimStaleInstances, tbind, tget, tmodify, tret.
  change (stale_rows locked scan limit staleAfter s) with (take limit (candidates staleAfter s)).
  rewrite Hks. by destruct s.
Qed.
End claims.

(** ** A concrete sweep *)

Definition sample_instance (creator : option string) (seen : option Z) : InstanceRow :=
  {| i_project_id := "p1"; i_image_id := "img"; i_flavor_id := "small"; i_network_id := "net";
     i_provider_profile_id := "prof"; i_hostname := "web"; i_ssh_public_keys := []; i_desired_cpu_count := 1;
     i_desired_memory_mib := 1024; i_desired_disk_gib := 10; i_desired_power_state := "running";
     i_lifecycle_state := "active"; i_active_operation_id := None; i_create_operation_id := creator;
     i_retention_deadline := None; i_purge_eligible := false; i_drift := "none"; i_last_reconciled_at := seen;
     i_observed := None; i_updated_at := 0 |}.
Definition sample_control (rows : gmap string InstanceRow) : ControlDb :=
  {| catalog := {| projects := ∅; images := ∅; provider_profiles := ∅; flavors := ∅; networks := ∅; quotas := ∅;
                   retention_policy := {| rp_retention_hours := 24; rp_lease_release_mode := quarantine_until_purge |} |};
     instances := rows; operations := ∅; ipv4_leases := ∅; snapshots := ∅; idempotency_records := ∅;
     control_outbox := []; control_audit := []; control_replays := ∅; p_instances := ∅; p_operations := ∅;
     p_snapshots := ∅; p_dead_letters := ∅; event_receipts := ∅; p_poison := ∅ |}.
(** The workflow that created the machine of [i]. *)
Definition sample_creator (i machine : string) : WorkflowRow :=
  {| w_operation_id := i ++ "-create"; w_event_id := "e"; w_project_id := "p1"; w_instance_id := i;
     w_action := "create_instance"; w_command := {| envelope :=
       {| eventId := "e"; schemaName := ""; schemaVersion := 1; aggregateType := "instance"; aggregateId := i;
          projectId := "p1"; operationId := i ++ "-create"; correlationId := "c"; causationId := "c"; occurredAt := 0;
          traceContext := {| traceparent := ""; tracestate := None |}; partitionKey := i |}; data := JNull |};
     w_status := "succeeded"; w_stage := "completed"; w_attempt := 1; w_stage_attempt := 1; w_retry_started_at := None;
     w_replay_generation := 0; w_trace_context := {| traceparent := ""; tracestate := None |}; w_fencing_token := 1;
     w_provider_resource_id := Some machine; w_provider_task_reference := None; w_next_attempt_at := 0;
     w_failure := None; w_last_error := None; w_created_at := 0; w_updated_at := 0; w_completed_at := Some 0 |}.
Definition sample_workflows (rows : gmap string WorkflowRow) : WorkflowDb :=
  {| workflows := rows; instance_leases := ∅; command_receipts := ∅; outbox := []; audit_entries := [];
     dead_letters := ∅; replay_requests := ∅; poison_records := ∅ |}.
Definition two_machines : WorkflowDb :=
  sample_workflows {[ "a-create" := sample_creator "a" "vm-1"; "b-create" := sample_creator "b" "vm-2" ]}.
Definition swept : ControlDb :=
  sample_control {[ "a" := sample_instance (Some "a-create") (Some 5); "b" := sample_instance (Some "b-create") None ]}.
Definition one_claim : result error (list ReconciliationCandidate * ControlDb) :=
  claimStaleInstances (sample_call 400000) two_machines ∅ map_to_list 1 100000 swept.
Lemma claim_takes_the_stalest_witness :
  ∃ k s', one_claim = Ok ([k], s') ∧ k.(rc_instanceId) = "b" ∧ k.(rc_providerResourceId) = "vm-2"
    ∧ NoDup (map rc_instanceId [k]).
Proof.
  eexists _, _. split; [vm_compute; reflexivity|]. split; [reflexivity|]. split; [reflexivity|].
  refine (proj1 (proj2 (claim_takes_the_stalest (sample_call 400000) two_machines ∅ map_to_list (λ m, reflexivity _)
    1 100000 swept _ _ _))).
  vm_compute. reflexivity.
Defined.

(** One failed create, which left no machine, and a batch of one. *)
Definition starved : ControlDb :=
  sample_control {[ "a" := sample_instance (Some "a-create") (Some 5); "z" := sample_instance (Some "z-create") None ]}.
Lemma unobservable_instances_starve_the_sweep_witness :
  claimStaleInstances (sample_call 400000) two_machines ∅ map_to_list 1 100000 starved = Ok ([], starved).
Proof.
  apply (unobservable_instances_starve_the_sweep (sample_call 400000) two_machines ∅ map_to_list (λ m, reflexivity _)).
  - vm_compute. lia.
  - intros i row Hi Hrec. cbn in Hi.
    apply lookup_insert_Some in Hi as [[<- <-]|[_ [<- <-]%lookup_singleton_Some]]; [discriminate|].
    vm_compute. reflexivity.
Defined.
