(* ===== verification/Control.v ===== *)
(** * What an accepted mutation commits

    The seven accepting transactions as one operation, and what each may
    write: a replay writes nothing, and a fresh acceptance commits the
    instance, operation, documents, key, command and audit fact described
    here. *)
From S2P Require Import Prelude JsText Json SshKey Domain Ipv4 WorkflowStage Events EventValidation Platform ControlDb AcceptStore AcceptCreate.
From Stdlib Require Import ZArith Lia Bool Ascii String.
From stdpp Require Import base decidable list strings gmap.
Open Scope string_scope.
Open Scope Z_scope.
Open Scope prog_scope.

(** ** The mutations a caller may ask for *)

Inductive Mutation : Set :=
| Create (generated : string) (k : CreateInstanceCommand)
| Power (instance : string) (a : PowerAction)
| Resize (instance flavor : string) (disk : option Z)
| Retain (instance : string)
| TakeSnapshot (instance : string) (k : CreateSnapshotCommand)
| UseSnapshot (m : SnapshotMutation) (instance snapshot : string)
| Purge (instance confirmation : string).

Definition action_of (m : Mutation) : string :=
  match m with
  | Create _ _ => "create_instance" | Power _ _ => "power_instance" | Resize _ _ _ => "resize_instance"
  | Retain _ => "retain_instance" | TakeSnapshot _ _ => "create_snapshot"
  | UseSnapshot m _ _ => mutation_action m | Purge _ _ => "purge_instance"
  end.
(** The existing instance a mutation is about. *)
Definition instance_of (m : Mutation) : option string :=
  match m with
  | Create _ _ => None
  | Power i _ | Resize i _ _ | Retain i | TakeSnapshot i _ | UseSnapshot _ i _ | Purge i _ => Some i
  end.
Definition scope_of (m : Mutation) (r : Request) : Request :=
  match m with Purge _ _ => adminScope r | _ => r end.
Definition key_of (m : Mutation) (r : Request) : string * string * string * string :=
  idempotency_key (scope_of m r) (action_of m).

Definition accept `{Platform} (c : Call) (m : Mutation) (r : Request) (h : string) : ctx AcceptedMutation :=
  match m with
  | Create g k => acceptCreate c g r k h
  | Power i a => acceptPowerAction c r i a h
  | Resize i f d => acceptResize c r i f d h
  | Retain i => acceptRetention c r i h
  | TakeSnapshot i k => acceptSnapshotCreate c r i k h
  | UseSnapshot m i sn => acceptSnapshotAction c m r i sn h
  | Purge i confirmation => acceptPurge c r i confirmation h
  end.

(** ** The states a success leaves *)

(** A stored response, marked as replayed. *)
Definition replay_of (a : AcceptedMutation) : AcceptedMutation :=
  {| am_operationId := a.(am_operationId); am_targetId := a.(am_targetId); am_acceptedAt := a.(am_acceptedAt);
     am_statusUrl := a.(am_statusUrl); am_replayed := true |}.

Section commit.
Context (c : Call).

(** The audit fact of a mutation. *)
Definition audit_fact (id : string) (scope : Request) (project : string) (role : AuditRole) (o : OperationView)
    (audit_action causation : string) (trace : TraceContext) (reason : option string) : Command AuditData :=
  auditRecordedEvent id project o.(op_id) scope.(rq_correlationId) causation (appNow c) trace
    (accepted_audit scope.(rq_subject) role audit_action o.(op_targetType) o.(op_targetId) reason).

(** The tables after the shared tail of an acceptance. *)
Definition committed (scope : Request) (project instance : string) (role : AuditRole) (o : OperationView)
    (audit_action h : string) (reason : option string) (accepted : AcceptedMutation) (ev : record)
    (id : nat → string) (s : ControlDb) : ControlDb :=
  let fact := audit_fact (id 1%nat) scope project role o audit_action ev.(envelope).(eventId)
                ev.(envelope).(traceContext) reason in
  on_control_outbox (on_control_audit (on_control_outbox (on_idempotency_records
    (on_p_instances (on_p_operations s (insert o.(op_id) (o, seeded_recovery scope)))
       (alter (busy_document c o.(op_id)) instance))
    (insert (idempotency_key scope o.(op_action)) (idempotency_row c h o.(op_targetId) o.(op_id) accepted)))
    (λ l, l ++ [control_row c (P_command ev) "provisioning.commands.v1" (id 0%nat)])%list)
    (λ l, l ++ [fact])%list)
    (λ l, l ++ [control_row c (P_audit fact) "audit.events.v1" (id 2%nat)])%list.

(** The tables after a create. *)
Definition created (r : Request) (k : CreateInstanceCommand) (x : AcceptanceContext) (a : AcceptanceRecords)
    (h : string) (s : ControlDb) : ControlDb :=
  let o := a.(ar_operation) in
  let fact := auditRecordedEvent (c.(uuid) 5%nat) r.(rq_projectId) a.(ar_operationId) r.(rq_correlationId)
                a.(ar_operationId) (appNow c) a.(ar_event).(envelope).(traceContext)
                (accepted_audit r.(rq_subject) role_tenant_developer "create_instance" "instance" a.(ar_instanceId) None) in
  on_p_operations (on_p_instances (on_control_outbox (on_control_audit (on_control_outbox (on_idempotency_records
    (on_ipv4_leases (on_operations (on_instances s (insert a.(ar_instanceId) (new_instance c r k x a.(ar_operationId))))
       (insert o.(op_id) o))
       (insert a.(ar_instanceId)
          {| al_id := a.(ar_leaseId); al_project_id := r.(rq_projectId); al_network_id := x.(ac_network_id);
             al_address := a.(ar_address); al_prefix_length := a.(ar_prefixLength);
             al_gateway := x.(ac_network).(nw_gateway); al_state := lease_active; al_updated_at := appNow c |}))
    (insert (idempotency_key r "create_instance") (idempotency_row c h a.(ar_instanceId) a.(ar_operationId) a.(ar_accepted))))
    (λ l, l ++ [control_row c (P_command a.(ar_event)) "provisioning.commands.v1" (c.(uuid) 4%nat)])%list)
    (λ l, l ++ [fact])%list)
    (λ l, l ++ [control_row c (P_audit fact) "audit.events.v1" (c.(uuid) 6%nat)])%list)
    (insert a.(ar_instanceId) a.(ar_instance)))
    (insert o.(op_id) (o, seeded_recovery r)).

(** The row a mutation finds, and the condition it must meet. *)
Definition admits (m : Mutation) (r : Request) (row : InstanceRow) : Prop :=
  row.(i_active_operation_id) = None
  ∧ match m with
    | Purge i confirmation =>
        confirmation = i ∧ row.(i_lifecycle_state) = "retained"
        ∧ ∃ t, row.(i_retention_deadline) = Some t ∧ t ≤ appNow c
    | _ => row.(i_project_id) = r.(rq_projectId) ∧ row.(i_lifecycle_state) ∈ MUTABLE_LIFECYCLE_STATES
    end.

(** The quota a resize is checked against. *)
Definition resized (project : string) (s : ControlDb) (had wanted : Sizing) : Sizing :=
  let u := usage project s in
  {| cpuCount := u.(cpuCount) - had.(cpuCount) + wanted.(cpuCount);
     memoryMiB := u.(memoryMiB) - had.(memoryMiB) + wanted.(memoryMiB);
     diskGiB := u.(diskGiB) - had.(diskGiB) + wanted.(diskGiB) |}.

Definition end_lease (mode : LeaseReleaseMode) (l : AddressLease) : AddressLease :=
  if bool_decide (l.(al_state) = lease_active)
  then move_lease c (match mode with release_on_retain => lease_released | quarantine_until_purge => lease_quarantined end) l
  else l.

(** What each mutation writes besides: the instance row, the leases and the
    snapshots, and what its operation targets. *)
Record Writes : Type := {
  wr_occupy : InstanceRow → InstanceRow;
  wr_leases : gmap string AddressLease → gmap string AddressLease;
  wr_snapshots : gmap string SnapshotRow → gmap string SnapshotRow;
  wr_documents : gmap string SnapshotView → gmap string SnapshotView;
  wr_targetType : string;
  wr_target : string;
  wr_schema : string;
  wr_data : json;
}.
Definition only_instance (i : string) (occupy : InstanceRow → InstanceRow) (schema : string) (d : json) : Writes :=
  {| wr_occupy := occupy; wr_leases := id; wr_snapshots := id; wr_documents := id; wr_targetType := "instance";
     wr_target := i; wr_schema := schema; wr_data := d |}.
Definition with_snapshot (id : string) (change : gmap string SnapshotRow → gmap string SnapshotRow)
    (sn : SnapshotRow) (schema : string) (d : json) : Writes :=
  {| wr_occupy := occupy_snapshot c (c.(uuid) 0%nat); wr_leases := λ l, l; wr_snapshots := change;
     wr_documents := insert id (snapshot_document id sn); wr_targetType := "snapshot"; wr_target := id;
     wr_schema := schema; wr_data := d |}.

Definition new_snapshot (project i : string) (k : CreateSnapshotCommand) : SnapshotRow :=
  {| sn_project_id := project; sn_instance_id := i; sn_name := k.(cs_name); sn_description := k.(cs_description);
     sn_state := snap_creating; sn_provider_snapshot_name := Some k.(cs_name); sn_created_at := appNow c;
     sn_updated_at := appNow c |}.

Inductive writes `{Platform} (s : ControlDb) (r : Request) (row : InstanceRow) : Mutation → Writes → Prop :=
| writes_power i a :
    writes s r row (Power i a)
      (only_instance i (occupy_power c (c.(uuid) 0%nat) a) "instance.power.requested"
         (JObj (("action", JStr (power_wire a)) :: routing_json row)))
| writes_resize i f d fl q :
    enabled_flavor s.(catalog) f = Some fl →
    s.(catalog).(quotas) !! r.(rq_projectId) = Some q →
    exceeds (resized r.(rq_projectId) s (desired_sizing row) (resize_target row fl d)) q = false →
    writes s r row (Resize i f d)
      (only_instance i (occupy_resize c (c.(uuid) 0%nat) f (resize_target row fl d)) "instance.resize.requested"
         (JObj (("flavorId", JStr f) :: ("targetResources", sizing_json (resize_target row fl d)) :: routing_json row)))
| writes_retain i :
    let policy := s.(catalog).(retention_policy) in
    let deadline := appNow c + policy.(rp_retention_hours) * 60 * 60 * 1000 in
    writes s r row (Retain i)
      {| wr_occupy := occupy_retention c (c.(uuid) 0%nat) deadline;
         wr_leases := alter (end_lease policy.(rp_lease_release_mode)) i; wr_snapshots := id; wr_documents := id;
         wr_targetType := "instance"; wr_target := i; wr_schema := "instance.retention.requested";
         wr_data := JObj (("retentionDeadline", JStr (toISOString deadline))
             :: ("leaseReleaseMode", JStr (match policy.(rp_lease_release_mode) with
                   | release_on_retain => "release_on_retain"
                   | quarantine_until_purge => "quarantine_until_purge" end))
             :: routing_json row) |}
| writes_take i k q :
    s.(snapshots) !! c.(uuid) 1%nat = None →
    s.(catalog).(quotas) !! r.(rq_projectId) = Some q →
    Z.of_nat (List.length (List.filter (counted r.(rq_projectId)) (map snd (map_to_list s.(snapshots))))) + 1
      ≤ q.(qt_snapshots) →
    existsb (named i k.(cs_name)) (map snd (map_to_list s.(snapshots))) = false →
    let sn := new_snapshot r.(rq_projectId) i k in
    writes s r row (TakeSnapshot i k)
      (with_snapshot (c.(uuid) 1%nat) (insert (c.(uuid) 1%nat) sn) sn "snapshot.create.requested"
         (JObj (("snapshotId", JStr (c.(uuid) 1%nat)) :: ("name", JStr k.(cs_name))
             :: (match present k.(cs_description) with Some d => [("description", JStr d)] | None => [] end
                 ++ routing_json row)%list)))
| writes_use m i id sn :
    s.(snapshots) !! id = Some sn → sn.(sn_instance_id) = i → sn.(sn_state) = snap_available →
    let to := match m with mutate_rollback => snap_rolling_back | mutate_delete => snap_deleting end in
    writes s r row (UseSnapshot m i id)
      (with_snapshot id (alter (move_snapshot c to) id) (move_snapshot c to sn)
         (match m with mutate_rollback => "snapshot.rollback.requested" | mutate_delete => "snapshot.delete.requested" end)
         (JObj (("snapshotId", JStr id)
             :: ("providerSnapshotReference", JStr (default sn.(sn_name) sn.(sn_provider_snapshot_name)))
             :: routing_json row)))
| writes_purge i confirmation t :
    row.(i_retention_deadline) = Some t →
    writes s r row (Purge i confirmation)
      (only_instance i (occupy_purge c (c.(uuid) 0%nat)) "instance.purge.requested"
         (JObj (("purgeAuthorizationId", JStr (c.(uuid) 1%nat)) :: ("retentionDeadline", JStr (toISOString t))
             :: ("reasonReference", JStr (c.(uuid) 1%nat)) :: routing_json row))).

(** The state before the shared tail. *)
Definition occupied (i : string) (o : OperationView) (w : Writes) (s : ControlDb) : ControlDb :=
  on_p_snapshots (on_snapshots (on_ipv4_leases (on_instances (on_operations s (insert o.(op_id) o))
    (alter w.(wr_occupy) i)) w.(wr_leases)) w.(wr_snapshots)) w.(wr_documents).

(** What a successful acceptance did. *)
Inductive accepted_by `{Platform} (r : Request) (h : string) (s : ControlDb) : Mutation → AcceptedMutation → ControlDb → Prop :=
| by_replay m rec :
    s.(idempotency_records) !! key_of m r = Some rec → rec.(id_request_hash) = h →
    match m with Purge i confirmation => confirmation = i | _ => True end →
    accepted_by r h s m (replay_of rec.(id_response)) s
| by_commit m i row w role url audit_action reason event id :
    s.(idempotency_records) !! key_of m r = None →
    instance_of m = Some i → s.(instances) !! i = Some row → admits m r row → writes s r row m w →
    let op := c.(uuid) 0%nat in
    let o := accepted_operation c op row.(i_project_id) (action_of m) w.(wr_targetType) w.(wr_target) in
    let a := accepted_mutation c op w.(wr_target) url in
    let s' := committed (scope_of m r) row.(i_project_id) i role o audit_action h reason a
                (command_event c event w.(wr_schema) i row.(i_project_id) op r w.(wr_data)) id (occupied i o w s) in
    s.(operations) !! op = None → s.(p_operations) !! op = None →
    (∃ n, event = c.(uuid) n) → (∃ n, id 0%nat = c.(uuid) n) →
    accepted_by r h s m a s'
| by_create g k x address a :
    s.(idempotency_records) !! key_of (Create g k) r = None →
    loadAcceptanceContext r k s = Ok (x, s) → assertQuotaHeadroom r.(rq_projectId) x s = Ok (tt, s) →
    reserveIpv4Address x s = Ok (address, s) → buildAcceptanceRecords c g r k x address = Ok a →
    s.(instances) !! a.(ar_instanceId) = None → s.(operations) !! a.(ar_operation).(op_id) = None →
    s.(p_instances) !! a.(ar_instanceId) = None → s.(p_operations) !! a.(ar_operation).(op_id) = None →
    s.(ipv4_leases) !! a.(ar_instanceId) = None → a.(ar_address) ∉ occupied_addresses x.(ac_network_id) s →
    accepted_by r h s (Create g k) a.(ar_accepted) (created r k x a h s).
End commit.

(** ** Inverting a success *)

Section inversion.
Context (c : Call).

Lemma insertOperation_Ok (o : OperationView) (s s' : ControlDb) (u : unit) :
  insertOperation o s = Ok (u, s') → s.(operations) !! o.(op_id) = None ∧ s' = on_operations s (insert o.(op_id) o).
Proof. intros Hs. unfold insertOperation in Hs. peel. unbool. done. Qed.

Lemma projectOperation_Ok (r : Request) (o : OperationView) (s s' : ControlDb) (u : unit) :
  projectOperation r o s = Ok (u, s') →
  s.(p_operations) !! o.(op_id) = None ∧ s' = on_p_operations s (insert o.(op_id) (o, seeded_recovery r)).
Proof. intros Hs. unfold projectOperation in Hs. peel. unbool. done. Qed.

Lemma bindIdempotencyKey_Ok (r : Request) (action h target operation : string) (a : AcceptedMutation)
    (s s' : ControlDb) (u : unit) :
  bindIdempotencyKey c r action h target operation a s = Ok (u, s') →
  s' = on_idempotency_records s (insert (idempotency_key r action) (idempotency_row c h target operation a)).
Proof. intros Hs. unfold bindIdempotencyKey in Hs. peel. done. Qed.

Lemma writeControlOutbox_Ok (p : OutboxPayload) (t id : string) (s s' : ControlDb) (u : unit) :
  writeControlOutbox c p t id s = Ok (u, s') →
  outbox_key (control_row c p t id) ∉ map outbox_key s.(control_outbox)
  ∧ s' = on_control_outbox s (λ l, l ++ [control_row c p t id])%list.
Proof. intros Hs. unfold writeControlOutbox in Hs. peel. unbool. done. Qed.

Lemma writeControlAudit_Ok (i project operation correlation causation : string) (trace : TraceContext)
    (d : AuditData) (ob : string) (s s' : ControlDb) (u : unit) :
  writeControlAudit c i project operation correlation causation trace d ob s = Ok (u, s') →
  let e := auditRecordedEvent i project operation correlation causation (appNow c) trace d in
  s' = on_control_outbox (on_control_audit s (λ l, l ++ [e])%list)
         (λ l, l ++ [control_row c (P_audit e) "audit.events.v1" ob])%list.
Proof.
  intros Hs e. unfold writeControlAudit in Hs. apply tbind_Ok in Hs as (? & s1 & [= _ <-] & Hs).
  by apply writeControlOutbox_Ok in Hs as [_ ->].
Qed.

Lemma commit_mutation_Ok scope project instance role o audit_action h reason occupy extra accepted ev id s x s' :
  commit_mutation c scope project instance role o audit_action h reason occupy extra accepted ev id s = Ok (x, s') →
  x = accepted ∧ s.(operations) !! o.(op_id) = None
  ∧ ∃ s1, extra (on_instances (on_operations s (insert o.(op_id) o)) (alter occupy instance)) = Ok (tt, s1)
    ∧ s1.(p_operations) !! o.(op_id) = None
    ∧ s' = committed c scope project instance role o audit_action h reason accepted ev id s1.
Proof.
  intros Hs. unfold commit_mutation in Hs.
  apply tbind_Ok in Hs as (? & s1 & [Ho ->]%insertOperation_Ok & Hs).
  apply tbind_Ok in Hs as (? & s2 & [= _ <-] & Hs).
  apply tbind_Ok in Hs as ([] & s3 & Hextra & Hs).
  apply tbind_Ok in Hs as (? & s4 & [Hp ->]%projectOperation_Ok & Hs).
  apply tbind_Ok in Hs as (? & s5 & [= _ <-] & Hs).
  apply tbind_Ok in Hs as (? & s6 & ->%bindIdempotencyKey_Ok & Hs).
  apply tbind_Ok in Hs as (? & s7 & [_ ->]%writeControlOutbox_Ok & Hs).
  apply tbind_Ok in Hs as (? & s8 & ->%writeControlAudit_Ok & Hs).
  injection Hs as <- <-. split_and!; [done|done|]. by exists s3.
Qed.

Lemma or_replayed_Ok (r : Request) (action h : string) (m : ctx AcceptedMutation) (s s' : ControlDb) x :
  or_replayed r action h m s = Ok (x, s') →
  (∃ rec, s.(idempotency_records) !! idempotency_key r action = Some rec ∧ rec.(id_request_hash) = h
          ∧ x = replay_of rec.(id_response) ∧ s' = s)
  ∨ s.(idempotency_records) !! idempotency_key r action = None ∧ m s = Ok (x, s').
Proof.
  intros Hs. unfold or_replayed in Hs. apply tbind_Ok in Hs as (o & s1 & Ho & Hs).
  unfold findReplayedResponse in Ho. apply tbind_Ok in Ho as (? & ? & [= <- <-] & Ho).
  destruct (idempotency_records s !! idempotency_key r action) as [rec|] eqn:E.
  - left. exists rec. peel. unbool. done.
  - injection Ho as <- <-. by right.
Qed.

Lemma lockInstance_Ok (project i : string) (s s' : ControlDb) (row : InstanceRow) :
  lockInstanceForMutation project i s = Ok (row, s') →
  s' = s ∧ s.(instances) !! i = Some row ∧ row.(i_project_id) = project ∧ row.(i_active_operation_id) = None
  ∧ row.(i_lifecycle_state) ∈ MUTABLE_LIFECYCLE_STATES.
Proof.
  intros Hs. unfold lockInstanceForMutation in Hs.
  apply tbind_Ok in Hs as (? & ? & [= <- <-] & Hs).
  apply tbind_Ok in Hs as (row' & ? & (? & Hrow & [= -> ->])%tsome_Ok & Hs).
  destruct (instances s !! i) as [r0|]; [|done]. cbn in Hrow.
  destruct (String.eqb (i_project_id r0) project) eqn:E; [|done]. injection Hrow as ->.
  peel. unbool. done.
Qed.
End inversion.

(** Reads what a step of an acceptance found, and moves on. *)
Ltac acceptance Hs :=
  match type of Hs with
  | tbind (tget _) _ _ = _ => apply tbind_Ok in Hs as (? & ? & [= <- <-] & Hs)
  | tbind (tmodify _) _ _ = _ => apply tbind_Ok in Hs as (? & ? & [= <- <-] & Hs)
  | tbind (tguard _ _) _ _ = _ => apply tbind_Ok in Hs as (? & ? & [? [= -> ->]]%tguard_Ok & Hs)
  | tbind (tsome _ _) _ _ = _ => apply tbind_Ok in Hs as (? & ? & (? & ? & [= -> ->])%tsome_Ok & Hs)
  | tbind (tlift _) _ _ = _ => apply tbind_Ok in Hs as (? & ? & (? & ? & [= -> ->])%tlift_Ok & Hs)
  | tbind (lockInstanceForMutation _ _) _ _ = _ =>
      let Hp := fresh "Hproject" in let Hr := fresh "Hrow" in
      apply tbind_Ok in Hs as (? & ? & (-> & Hr & Hp & ? & ?)%lockInstance_Ok & Hs); rewrite <- Hp in Hs
  | commit_mutation _ _ _ _ _ _ _ _ _ _ _ _ _ _ _ = _ =>
      let Ho := fresh "Hop" in let Hp := fresh "Hview" in
      apply commit_mutation_Ok in Hs as (-> & Ho & ? & Hextra & Hp & ->)
  end; cbv beta zeta in Hs.
Ltac accepting Hs := cbv beta zeta in Hs; repeat acceptance Hs.

(** ** What a transaction measures, and what it writes *)

Section measured.
Context (c : Call) (r : Request).

Lemma measureResize_Ok (i f : string) (d : option Z) (s s' : ControlDb) (x : InstanceRow * Sizing) :
  measureResize r i f d s = Ok (x, s') →
  s' = s ∧ s.(instances) !! i = Some (fst x) ∧ (fst x).(i_project_id) = r.(rq_projectId)
  ∧ (fst x).(i_active_operation_id) = None ∧ (fst x).(i_lifecycle_state) ∈ MUTABLE_LIFECYCLE_STATES
  ∧ ∃ fl q, enabled_flavor s.(catalog) f = Some fl ∧ snd x = resize_target (fst x) fl d
      ∧ s.(catalog).(quotas) !! r.(rq_projectId) = Some q
      ∧ exceeds (resized r.(rq_projectId) s (desired_sizing (fst x)) (snd x)) q = false.
Proof.
  intros Hs. unfold measureResize in Hs. cbv beta zeta in Hs.
  apply tbind_Ok in Hs as (row & ? & (-> & Hrow & Hp & Hi & Hl)%lockInstance_Ok & Hs).
  accepting Hs. apply tbind_Ok in Hs as ([] & s1 & Hq & [= <- ->]). unfold assertResizeQuotaHeadroom in Hq.
  accepting Hq. apply tguard_Ok in Hq as [Hq [= ->]]. apply negb_true_iff in Hq. cbn. eauto 15.
Qed.

Lemma measureSnapshot_Ok (i : string) (s s' : ControlDb) (row : InstanceRow) :
  measureSnapshot r i s = Ok (row, s') →
  s' = s ∧ s.(instances) !! i = Some row ∧ row.(i_project_id) = r.(rq_projectId)
  ∧ row.(i_active_operation_id) = None ∧ row.(i_lifecycle_state) ∈ MUTABLE_LIFECYCLE_STATES
  ∧ ∃ q, s.(catalog).(quotas) !! r.(rq_projectId) = Some q
      ∧ Z.of_nat (List.length (List.filter (counted r.(rq_projectId)) (map snd (map_to_list s.(snapshots))))) + 1
        ≤ q.(qt_snapshots).
Proof.
  intros Hs. unfold measureSnapshot in Hs. cbv beta zeta in Hs.
  apply tbind_Ok in Hs as (row' & ? & (-> & Hrow & Hp & Hi & Hl)%lockInstance_Ok & Hs).
  apply tbind_Ok in Hs as ([] & s1 & Hq & [= <- ->]). unfold assertSnapshotHeadroom in Hq.
  accepting Hq. apply tguard_Ok in Hq as [Hq%Z.leb_le [= ->]]. eauto 10.
Qed.

Lemma measureCreate_Ok (k : CreateInstanceCommand) (s s' : ControlDb) (x : AcceptanceContext) :
  measureCreate r k s = Ok (x, s') →
  s' = s ∧ loadAcceptanceContext r k s = Ok (x, s) ∧ assertQuotaHeadroom r.(rq_projectId) x s = Ok (tt, s).
Proof.
  intros Hs. unfold measureCreate in Hs. apply tbind_Ok in Hs as (y & s1 & Hl & Hs).
  assert (s1 = s) as -> by (unfold loadAcceptanceContext in Hl; peel; done).
  apply tbind_Ok in Hs as ([] & s2 & Hq & Hs). injection Hs as <- <-.
  assert (s2 = s) as -> by (unfold assertQuotaHeadroom in Hq; peel; done). done.
Qed.

Lemma commitCreate_Ok (g h : string) (k : CreateInstanceCommand) (x : AcceptanceContext) (s s' : ControlDb) (y : AcceptedMutation) :
  commitCreate c g r k h x s = Ok (y, s') →
  ∃ address a, reserveIpv4Address x s = Ok (address, s) ∧ buildAcceptanceRecords c g r k x address = Ok a
    ∧ s.(instances) !! a.(ar_instanceId) = None ∧ s.(operations) !! a.(ar_operation).(op_id) = None
    ∧ s.(p_instances) !! a.(ar_instanceId) = None ∧ s.(p_operations) !! a.(ar_operation).(op_id) = None
    ∧ s.(ipv4_leases) !! a.(ar_instanceId) = None ∧ a.(ar_address) ∉ occupied_addresses x.(ac_network_id) s
    ∧ y = a.(ar_accepted) ∧ s' = created c r k x a h s.
Proof.
  intros Hs. unfold commitCreate in Hs. apply tbind_Ok in Hs as (address & s3 & Ha & Hs).
  assert (s3 = s) as -> by (unfold reserveIpv4Address in Ha; peel; done).
  apply tbind_Ok in Hs as (a & ? & (? & Hb & [= -> ->])%tlift_Ok & Hs).
  apply tbind_Ok in Hs as (? & s4 & Hw & Hs). injection Hs as <- <-.
  unfold writeAcceptanceRecords in Hw. accepting Hw.
  apply tbind_Ok in Hw as (? & ? & [Ho ->]%insertOperation_Ok & Hw).
  apply tbind_Ok in Hw as (? & ? & Hlease & Hw). unfold insertLease in Hlease. accepting Hlease.
  injection Hlease as _ <-.
  apply tbind_Ok in Hw as (? & ? & ->%bindIdempotencyKey_Ok & Hw).
  apply tbind_Ok in Hw as (? & ? & [_ ->]%writeControlOutbox_Ok & Hw).
  apply tbind_Ok in Hw as (? & ? & ->%writeControlAudit_Ok & Hw).
  accepting Hw. apply projectOperation_Ok in Hw as [Hp ->]. unbool.
  do 2 eexists. split_and!; try eassumption; reflexivity.
Qed.
End measured.

Section accept.
Context `{Platform} (c : Call) (r : Request) (h : string) (s s' : ControlDb) (x : AcceptedMutation).

Abbreviation became m := (accepted_by c r h s m x s').

Lemma commit_of (m : Mutation) i row w role url audit_action reason event id o s1 :
  s.(idempotency_records) !! key_of m r = None →
  instance_of m = Some i → s.(instances) !! i = Some row → admits c m r row → writes c s r row m w →
  o = accepted_operation c (c.(uuid) 0%nat) row.(i_project_id) (action_of m) w.(wr_targetType) w.(wr_target) →
  s.(operations) !! o.(op_id) = None → s1.(p_operations) !! o.(op_id) = None →
  s1 = occupied i o w s → (∃ n, event = c.(uuid) n) → (∃ n, id 0%nat = c.(uuid) n) →
  accepted_by c r h s m (accepted_mutation c (c.(uuid) 0%nat) w.(wr_target) url)
    (committed c (scope_of m r) row.(i_project_id) i role o audit_action h reason
       (accepted_mutation c (c.(uuid) 0%nat) w.(wr_target) url)
       (command_event c event w.(wr_schema) i row.(i_project_id) (c.(uuid) 0%nat) r w.(wr_data)) id s1).
Proof using Type. intros Hk Hi Hrow Ha Hw -> Ho Hp -> He Hid. by eapply by_commit. Qed.

Lemma accept_power i a : acceptPowerAction c r i a h s = Ok (x, s') → became (Power i a).
Proof using Type.
  intros [(rec & Hk & Hh & -> & ->)|[Hk Hs]]%or_replayed_Ok; [by apply by_replay|].
  accepting Hs. injection Hextra as <-.
  eapply (commit_of (Power i a)) with (w := only_instance i _ _ _);
    [exact Hk|reflexivity|exact Hrow|done|constructor|reflexivity|exact Hop|exact Hview|reflexivity|by eexists|by eexists].
Qed.

Lemma accept_purge i confirmation : acceptPurge c r i confirmation h s = Ok (x, s') → became (Purge i confirmation).
Proof using Type.
  intros Hs. unfold acceptPurge in Hs. acceptance Hs. unbool. subst confirmation.
  apply or_replayed_Ok in Hs as [(rec & Hk & Hh & -> & ->)|[Hk Hs]]; [by apply by_replay|].
  accepting Hs. injection Hextra as <-. unbool.
  match goal with Hd : mbind _ (i_retention_deadline ?row) = Some ?t |- _ =>
    destruct (i_retention_deadline row) as [t'|] eqn:Et; [|done]; cbn in Hd;
    destruct (appNow c <? t')%Z eqn:Hlt; [done|]; injection Hd as -> end.
  match goal with Hrow' : instances s !! i = Some _ |- _ => rename Hrow' into Hrow end.
  unbool. eapply (commit_of (Purge i i)) with (w := only_instance i _ _ _);
    [exact Hk|reflexivity|exact Hrow| |by constructor|reflexivity|exact Hop|exact Hview|reflexivity|by eexists|by eexists].
  unfold admits. eauto 10.
Qed.

Lemma accept_retain i : acceptRetention c r i h s = Ok (x, s') → became (Retain i).
Proof using Type.
  intros [(rec & Hk & Hh & -> & ->)|[Hk Hs]]%or_replayed_Ok; [by apply by_replay|].
  accepting Hs. injection Hextra as <-.
  eapply (commit_of (Retain i)) with (w := {| wr_targetType := "instance"; wr_target := i; wr_schema := "instance.retention.requested" |});
    [exact Hk|reflexivity|exact Hrow|done|constructor|reflexivity|exact Hop|exact Hview|reflexivity|by eexists|by eexists].
Qed.

Lemma accept_resize i f d : acceptResize c r i f d h s = Ok (x, s') → became (Resize i f d).
Proof using Type.
  intros [(rec & Hk & Hh & -> & ->)|[Hk Hs]]%or_replayed_Ok; [by apply by_replay|].
  apply tbind_Ok in Hs as ([row wanted] & s1 & Hm & Hs).
  apply measureResize_Ok in Hm as (-> & Hrow & Hproject & Hidle & Hstate & fl & q & Hfl & Hsize & Hq & Hex). cbn [fst snd] in *. subst wanted.
  unfold commitResize in Hs. cbv beta iota zeta in Hs. rewrite <- Hproject in Hs.
  accepting Hs. injection Hextra as <-.
  eapply (commit_of (Resize i f d)) with (w := only_instance i _ _ _); [exact Hk|reflexivity|exact Hrow|done| |reflexivity|exact Hop|exact Hview|reflexivity|by eexists|by eexists].
  by eapply writes_resize.
Qed.

Lemma writeSnapshot_Ok (id : string) (s0 s1 : ControlDb) (u : unit) (sn : SnapshotRow) :
  s0.(snapshots) !! id = Some sn → writeSnapshotProjection id s0 = Ok (u, s1) →
  s1 = on_p_snapshots s0 (insert id (snapshot_document id sn)).
Proof using Type.
  intros Hsn Hs. unfold writeSnapshotProjection in Hs. acceptance Hs. rewrite Hsn in Hs.
  acceptance Hs. by injection Hs as <-; simplify_eq.
Qed.

Lemma accept_take i k : acceptSnapshotCreate c r i k h s = Ok (x, s') → became (TakeSnapshot i k).
Proof using Type.
  intros [(rec & Hk & Hh & -> & ->)|[Hk Hs]]%or_replayed_Ok; [by apply by_replay|].
  apply tbind_Ok in Hs as (row & s1 & Hm & Hs).
  apply measureSnapshot_Ok in Hm as (-> & Hrow & Hproject & Hidle & Hstate & q & Hq & Hroom).
  unfold commitSnapshot, writeSnapshotOperation in Hs. cbv beta zeta in Hs. rewrite <- Hproject in Hs.
  accepting Hs. unbool.
  eapply writeSnapshot_Ok in Hextra; [|apply lookup_insert_eq]. subst.
  eapply (commit_of (TakeSnapshot i k))
    with (w := let sn := new_snapshot c r.(rq_projectId) i k in with_snapshot c (c.(uuid) 1%nat) (insert (c.(uuid) 1%nat) sn) sn _ _);
    [exact Hk|reflexivity|exact Hrow|done| |reflexivity|exact Hop|exact Hview|by rewrite <- Hproject|by eexists|by eexists].
  by eapply writes_take.
Qed.

Lemma accept_use m i id : acceptSnapshotAction c m r i id h s = Ok (x, s') → became (UseSnapshot m i id).
Proof using Type.
  intros [(rec & Hk & Hh & -> & ->)|[Hk Hs]]%or_replayed_Ok; [by apply by_replay|].
  unfold writeSnapshotOperation in Hs. accepting Hs. unbool.
  match goal with Hsn' : snapshots s !! id = Some _ |- _ => rename Hsn' into Hsn end.
  eapply writeSnapshot_Ok in Hextra; [|cbn; rewrite lookup_alter_eq, Hsn; reflexivity]. subst.
  eapply (commit_of (UseSnapshot m _ id)) with (w := with_snapshot c id _ (move_snapshot c _ _) _ _);
    [exact Hk|reflexivity|exact Hrow|done| |reflexivity|exact Hop|exact Hview|reflexivity|by eexists|by eexists].
  by constructor.
Qed.

Lemma accept_create g k : acceptCreate c g r k h s = Ok (x, s') → became (Create g k).
Proof using Type.
  intros [(rec & Hk & Hh & -> & ->)|[Hk Hs]]%or_replayed_Ok; [by apply by_replay|].
  apply tbind_Ok in Hs as (context & s1 & Hm & Hs). apply measureCreate_Ok in Hm as (-> & Hl & Hq).
  apply commitCreate_Ok in Hs as (address & a & Ha & Hb & Hi & Ho & Hpi & Hp & Hlease & Hfree & -> & ->).
  eapply (by_create c r h s g k); eassumption.
Qed.

(** Every successful acceptance is a replay, a commit or a create. *)
Lemma accept_inv m : accept c m r h s = Ok (x, s') → became m.
Proof using Type.
  destruct m; [apply accept_create|apply accept_power|apply accept_resize|apply accept_retain|apply accept_take
    |apply accept_use|apply accept_purge].
Qed.
End accept.
