(* ===== verification/Projection.v ===== *)
(** * Projecting workflow events

    [PostgresProjectionStore] ([projection-store.ts]): each event is applied to
    the authoritative rows and the read documents in one transaction with its
    inbox receipt. *)
From S2P Require Import Prelude JsText Json SshKey Domain Ipv4 WorkflowStage Events EventValidation Platform WorkflowStore ControlDb AcceptStore.
From Stdlib Require Import ZArith Lia Bool Ascii String.
From stdpp Require Import base decidable list strings gmap.
Open Scope string_scope.
Open Scope Z_scope.
Open Scope prog_scope.

Definition EVENT_CONSUMER_NAME : string := "control-api.provisioning-events.v1".
Definition DLQ_CONSUMER_NAME : string := "control-api.provisioning-dlq.v1".
Definition DRIFT_CONSUMER_NAME : string := "control-api.reconciliation-events.v1".

(** The progress a stage shows; an unknown stage shows none. *)
Definition stage_percent (stage : string) : option Z :=
  match lookup_text stage WORKFLOW_STAGES with
  | Some s => Some (STAGE_PROGRESS_PERCENT (Active s))
  | None => lookup_text stage [("completed", 100); ("failed", 100); ("manual_review", 100)]
  end.

Definition operation_state_text (s : OperationState) : string :=
  match s with
  | running => "running" | retry_wait => "retry_wait" | compensating => "compensating"
  | unknown_outcome => "unknown_outcome"
  end.

(** ** The inbox *)

(** [ON CONFLICT (consumer, event, generation) DO NOTHING]; a conflict on the
    source coordinates is an error. *)
Definition insertReceipt (consumer event : string) (d : MessageDeliveryIdentity) : ctx bool :=
  let key := (consumer, event, d.(replayGeneration)) in
  let! rows := tget event_receipts in
  match rows !! key with
  | Some _ => tret false
  | None =>
      tguard (forallb (λ p, negb (String.eqb (fst (fst (fst p))) consumer && bool_decide (snd p = coordinates d)))
                (map_to_list rows))
        (Fault "event_receipts_source_record_unique") ;;
      tmodify (λ s, on_event_receipts s (insert key (coordinates d))) ;;
      tret true
  end.

Definition quarantineProjection (d : MessageDeliveryIdentity) (hash code_ message : string) (event : option string) :
    ctx bool :=
  let consumer := if String.eqb d.(topic) "provisioning.dlq.v1" then DLQ_CONSUMER_NAME else EVENT_CONSUMER_NAME in
  let! rows := tget p_poison in
  let fresh := bool_decide (rows !! (consumer, coordinates d) = None) in
  tmodify (λ s, if fresh then on_p_poison s (insert (consumer, coordinates d) (hash, code_, message)) else s) ;;
  match present event with
  | Some e => insertReceipt consumer e d ;; tret tt
  | None => tret tt
  end ;;
  tret fresh.

(** ** Documents *)

Definition progressed_operation (d : ProgressedData) (at_ : Z) (o : OperationView) : OperationView :=
  {| op_id := o.(op_id); op_projectId := o.(op_projectId); op_action := o.(op_action); op_targetType
     := o.(op_targetType); op_targetId := o.(op_targetId); op_state := operation_state_text
     d.(progressed_operationState); op_stage := d.(progressed_stage); op_progressPercent
     := default o.(op_progressPercent) (stage_percent (d.(progressed_stage)));
     op_acceptedAt := o.(op_acceptedAt); op_startedAt := Some (default at_ o.(op_startedAt));
     op_updatedAt := at_; op_completedAt := o.(op_completedAt); op_error := o.(op_error);
     op_manualReviewRequired := o.(op_manualReviewRequired) |}.
Definition provisioning_row (at_ : Z) (row : InstanceRow) : InstanceRow :=
  {| i_project_id := row.(i_project_id); i_image_id := row.(i_image_id); i_flavor_id :=
     row.(i_flavor_id); i_network_id := row.(i_network_id); i_provider_profile_id :=
     row.(i_provider_profile_id); i_hostname := row.(i_hostname); i_ssh_public_keys :=
     row.(i_ssh_public_keys); i_desired_cpu_count := row.(i_desired_cpu_count); i_desired_memory_mib
     := row.(i_desired_memory_mib); i_desired_disk_gib := row.(i_desired_disk_gib);
     i_desired_power_state := row.(i_desired_power_state); i_lifecycle_state := "provisioning";
     i_active_operation_id := row.(i_active_operation_id); i_create_operation_id :=
     row.(i_create_operation_id); i_retention_deadline := row.(i_retention_deadline);
     i_purge_eligible := row.(i_purge_eligible); i_drift := row.(i_drift); i_last_reconciled_at :=
     row.(i_last_reconciled_at); i_observed := row.(i_observed); i_updated_at := at_ |}.
Definition provisioning_document (at_ : Z) (v : InstanceView) : InstanceView :=
  {| iv_id := v.(iv_id); iv_projectId := v.(iv_projectId); iv_lifecycleState := "provisioning";
     iv_desired := v.(iv_desired); iv_observed := v.(iv_observed); iv_ipv4Lease := v.(iv_ipv4Lease);
     iv_activeOperationId := v.(iv_activeOperationId); iv_drift := v.(iv_drift); iv_lastReconciledAt
     := v.(iv_lastReconciledAt); iv_retentionDeadline := v.(iv_retentionDeadline); iv_purgeEligible
     := v.(iv_purgeEligible); iv_createdAt := v.(iv_createdAt); iv_updatedAt := at_ |}.
Definition succeeded_operation (at_ : Z) (o : OperationView) : OperationView :=
  {| op_id := o.(op_id); op_projectId := o.(op_projectId); op_action := o.(op_action); op_targetType
     := o.(op_targetType); op_targetId := o.(op_targetId); op_state := "succeeded"; op_stage :=
     "completed"; op_progressPercent := STAGE_PROGRESS_PERCENT (Terminal completed); op_acceptedAt
     := o.(op_acceptedAt); op_startedAt := o.(op_startedAt); op_updatedAt := at_; op_completedAt :=
     Some at_; op_error := None; op_manualReviewRequired := false |}.

(** [observedFromEvent]: what the event carries, with the fallbacks of an event
    without an observation. *)
Definition observedFromEvent (o : option ObservedState) (fallback : Z) : ObservedView :=
  match o with
  | None =>
      {| ob_exists := true; ob_powerState := observed_unknown; ob_cpuCount := None; ob_memoryMiB := None;
         ob_diskGiB := None; ob_markerMatch := true; ob_observedAt := fallback |}
  | Some o =>
      {| ob_exists := o.(state_exists); ob_powerState := o.(state_powerState);
         ob_cpuCount := observed_cpu <$> o.(state_resources);
         ob_memoryMiB := o.(state_resources) ≫= observed_memory;
         ob_diskGiB := o.(state_resources) ≫= observed_disk;
         ob_markerMatch := o.(state_markerMatch); ob_observedAt := o.(state_observedAt) |}
  end.

Definition completed_row (lifecycle : string) (o : ObservedView) (at_ : Z) (row : InstanceRow) : InstanceRow :=
  {| i_project_id := row.(i_project_id); i_image_id := row.(i_image_id); i_flavor_id :=
     row.(i_flavor_id); i_network_id := row.(i_network_id); i_provider_profile_id :=
     row.(i_provider_profile_id); i_hostname := row.(i_hostname); i_ssh_public_keys :=
     row.(i_ssh_public_keys); i_desired_cpu_count := row.(i_desired_cpu_count); i_desired_memory_mib
     := row.(i_desired_memory_mib); i_desired_disk_gib := row.(i_desired_disk_gib);
     i_desired_power_state := row.(i_desired_power_state); i_lifecycle_state := lifecycle;
     i_active_operation_id := None; i_create_operation_id := row.(i_create_operation_id);
     i_retention_deadline := row.(i_retention_deadline); i_purge_eligible := row.(i_purge_eligible);
     i_drift := "none"; i_last_reconciled_at := Some at_; i_observed := Some o; i_updated_at := at_
     |}.
(** The document takes its retention fields from the updated row. *)
Definition completed_document (row : InstanceRow) (at_ : Z) (v : InstanceView) : InstanceView :=
  {| iv_id := v.(iv_id); iv_projectId := v.(iv_projectId); iv_lifecycleState :=
     row.(i_lifecycle_state); iv_desired := v.(iv_desired); iv_observed := row.(i_observed);
     iv_ipv4Lease := v.(iv_ipv4Lease); iv_activeOperationId := None; iv_drift := "none";
     iv_lastReconciledAt := Some at_; iv_retentionDeadline := row.(i_retention_deadline);
     iv_purgeEligible := row.(i_purge_eligible); iv_createdAt := v.(iv_createdAt); iv_updatedAt :=
     at_ |}.
Definition failed_operation (state : string) (f : Failure) (manual : bool) (at_ : Z) (o : OperationView) : OperationView :=
  {| op_id := o.(op_id); op_projectId := o.(op_projectId); op_action := o.(op_action); op_targetType
     := o.(op_targetType); op_targetId := o.(op_targetId); op_state := state; op_stage := state;
     op_progressPercent := o.(op_progressPercent); op_acceptedAt := o.(op_acceptedAt); op_startedAt
     := o.(op_startedAt); op_updatedAt := at_; op_completedAt := Some at_; op_error := Some
     (failure_triple f); op_manualReviewRequired := manual |}.
Definition failed_row (state : string) (at_ : Z) (row : InstanceRow) : InstanceRow :=
  {| i_project_id := row.(i_project_id); i_image_id := row.(i_image_id); i_flavor_id :=
     row.(i_flavor_id); i_network_id := row.(i_network_id); i_provider_profile_id :=
     row.(i_provider_profile_id); i_hostname := row.(i_hostname); i_ssh_public_keys :=
     row.(i_ssh_public_keys); i_desired_cpu_count := row.(i_desired_cpu_count); i_desired_memory_mib
     := row.(i_desired_memory_mib); i_desired_disk_gib := row.(i_desired_disk_gib);
     i_desired_power_state := row.(i_desired_power_state); i_lifecycle_state := state;
     i_active_operation_id := None; i_create_operation_id := row.(i_create_operation_id);
     i_retention_deadline := row.(i_retention_deadline); i_purge_eligible := row.(i_purge_eligible);
     i_drift := row.(i_drift); i_last_reconciled_at := row.(i_last_reconciled_at); i_observed :=
     row.(i_observed); i_updated_at := at_ |}.
Definition failed_document (state : string) (at_ : Z) (v : InstanceView) : InstanceView :=
  {| iv_id := v.(iv_id); iv_projectId := v.(iv_projectId); iv_lifecycleState := state; iv_desired :=
     v.(iv_desired); iv_observed := v.(iv_observed); iv_ipv4Lease := v.(iv_ipv4Lease);
     iv_activeOperationId := None; iv_drift := v.(iv_drift); iv_lastReconciledAt :=
     v.(iv_lastReconciledAt); iv_retentionDeadline := v.(iv_retentionDeadline); iv_purgeEligible :=
     v.(iv_purgeEligible); iv_createdAt := v.(iv_createdAt); iv_updatedAt := at_ |}.
Definition drifted_document (classification : string) (at_ : Z) (v : InstanceView) : InstanceView :=
  {| iv_id := v.(iv_id); iv_projectId := v.(iv_projectId); iv_lifecycleState :=
     v.(iv_lifecycleState); iv_desired := v.(iv_desired); iv_observed := v.(iv_observed);
     iv_ipv4Lease := v.(iv_ipv4Lease); iv_activeOperationId := v.(iv_activeOperationId); iv_drift :=
     classification; iv_lastReconciledAt := Some at_; iv_retentionDeadline :=
     v.(iv_retentionDeadline); iv_purgeEligible := v.(iv_purgeEligible); iv_createdAt :=
     v.(iv_createdAt); iv_updatedAt := at_ |}.
(** The row takes its progress and start from the next document. *)
Definition progressed_row (next : OperationView) (row : OperationView) : OperationView :=
  {| op_id := row.(op_id); op_projectId := row.(op_projectId); op_action := row.(op_action);
     op_targetType := row.(op_targetType); op_targetId := row.(op_targetId); op_state :=
     next.(op_state); op_stage := next.(op_stage); op_progressPercent := next.(op_progressPercent);
     op_acceptedAt := row.(op_acceptedAt); op_startedAt := next.(op_startedAt); op_updatedAt :=
     next.(op_updatedAt); op_completedAt := row.(op_completedAt); op_error := row.(op_error);
     op_manualReviewRequired := row.(op_manualReviewRequired) |}.

(** [operationRecovery] with the fields an event sets besides; the columns it
    does not set keep their values. *)
Definition recovered (e : EventEnvelope) (checkpoint : string) (retry : option Z) (task : option string)
    (rc : OperationRecovery) : OperationRecovery :=
  {| rc_correlation_id := e.(correlationId); rc_causation_id := Some e.(causationId);
     rc_trace_id := traceIdOf e.(traceContext).(traceparent); rc_checkpoint := checkpoint;
     rc_retry_count := default rc.(rc_retry_count) retry;
     rc_dead_letter_event_id := rc.(rc_dead_letter_event_id); rc_provider_task_reference := task |}.
Definition note_dead_letter (event : string) (p : OperationView * OperationRecovery) :
    OperationView * OperationRecovery :=
  (fst p, {| rc_correlation_id := (snd p).(rc_correlation_id); rc_causation_id := (snd p).(rc_causation_id);
             rc_trace_id := (snd p).(rc_trace_id); rc_checkpoint := (snd p).(rc_checkpoint);
             rc_retry_count := (snd p).(rc_retry_count); rc_dead_letter_event_id := Some event;
             rc_provider_task_reference := (snd p).(rc_provider_task_reference) |}).

(** ** Applying events *)

Section project.
Context `{Platform}.

Definition lockDocuments (instance operation : string) : ctx (InstanceView * OperationView) :=
  let! vs := tget p_instances in
  let! v := tsome (vs !! instance) (Fault "no result") in
  let! os := tget p_operations in
  let! o := tsome (os !! operation) (Fault "no result") in
  tret (v, fst o).

Definition writeDocuments (v : InstanceView) (o : OperationView) (recover : OperationRecovery → OperationRecovery) :
    ctx unit :=
  let! vs := tget p_instances in
  tguard (matched (bool_decide (is_Some (vs !! v.(iv_id))))) (Fault "no result") ;;
  tmodify (λ s, on_p_instances s (alter (λ _, v) v.(iv_id))) ;;
  let! os := tget p_operations in
  tguard (matched (bool_decide (is_Some (os !! o.(op_id))))) (Fault "no result") ;;
  tmodify (λ s, on_p_operations s (alter (λ p, (o, recover (snd p))) o.(op_id))).

(** [UPDATE ... WHERE id = key], which must match unless the query builder says
    otherwise. *)
Definition updateOperation (operation : string) (f : OperationView → OperationView) : ctx unit :=
  let! rows := tget operations in
  tguard (matched (bool_decide (is_Some (rows !! operation)))) (Fault "no result") ;;
  tmodify (λ s, on_operations s (alter f operation)).
Definition updateInstanceRow (instance : string) (f : InstanceRow → InstanceRow) : ctx unit :=
  let! rows := tget instances in
  tguard (matched (bool_decide (is_Some (rows !! instance)))) (Fault "no result") ;;
  tmodify (λ s, on_instances s (alter f instance)).

Definition applyProgress (e : EventEnvelope) (d : ProgressedData) : ctx unit :=
  let at_ := e.(occurredAt) in
  let! docs := lockDocuments e.(aggregateId) e.(operationId) in
  let next := progressed_operation d at_ (snd docs) in
  updateOperation e.(operationId) (progressed_row next) ;;
  updateInstanceRow e.(aggregateId) (provisioning_row at_) ;;
  writeDocuments (provisioning_document at_ (fst docs)) next
    (recovered e (d.(progressed_stage)) (Some (Z.max 0 (d.(progressed_attempt) - 1)))
       d.(progressed_providerTaskReference)).

Definition settled_snapshot (at_ : Z) (row : SnapshotRow) : SnapshotRow :=
  {| sn_project_id := row.(sn_project_id); sn_instance_id := row.(sn_instance_id); sn_name := row.(sn_name);
     sn_description := row.(sn_description); sn_state := snap_available;
     sn_provider_snapshot_name := row.(sn_provider_snapshot_name); sn_created_at := row.(sn_created_at);
     sn_updated_at := at_ |}.
Definition settleSnapshot (a : WorkflowAction) (o : OperationView) (at_ : Z) : ctx unit :=
  if negb (String.eqb o.(op_targetType) "snapshot") then tret tt
  else
    let snapshot := o.(op_targetId) in
    if bool_decide (a = delete_snapshot) then
      tmodify (λ s, on_p_snapshots s (delete snapshot)) ;;
      tmodify (λ s, on_snapshots s (delete snapshot))
    else
      let! rows := tget snapshots in
      match rows !! snapshot with
      | None => tret tt
      | Some row =>
          let next := settled_snapshot at_ row in
          tmodify (λ s, on_snapshots s (insert snapshot next)) ;;
          tmodify (λ s, on_p_snapshots s (alter (λ _, snapshot_document snapshot next) snapshot))
      end.

Definition applyCompleted (e : EventEnvelope) (d : CompletedData) : ctx unit :=
  let at_ := e.(occurredAt) in
  let! docs := lockDocuments e.(aggregateId) e.(operationId) in
  let next := succeeded_operation at_ (snd docs) in
  let! rows := tget instances in
  let! row := tsome (rows !! e.(aggregateId)) (Fault "no result") in
  let row' := completed_row d.(completed_lifecycleState) (observedFromEvent d.(completed_observed) at_) at_ row in
  tmodify (λ s, on_instances s (insert e.(aggregateId) row')) ;;
  updateOperation e.(operationId) (succeeded_operation at_) ;;
  settleSnapshot d.(completed_action) (snd docs) at_ ;;
  writeDocuments (completed_document row' at_ (fst docs)) next (recovered e next.(op_stage) None None).

(** Any of three signals forces a human decision. *)
Definition needs_review (d : FailedData) : bool :=
  bool_decide (d.(failed_failure).(category) = cat_unknown_outcome)
  || bool_decide (d.(failed_failure).(category) = cat_manual_review)
  || bool_decide (d.(failed_compensationState) = unsafe).

Definition applyFailed (e : EventEnvelope) (d : FailedData) : ctx unit :=
  let at_ := e.(occurredAt) in
  let! docs := lockDocuments e.(aggregateId) e.(operationId) in
  let manual := needs_review d in
  let state := if manual then "manual_review" else "failed" in
  let next := failed_operation state d.(failed_failure) manual at_ (snd docs) in
  updateInstanceRow e.(aggregateId) (failed_row state at_) ;;
  updateOperation e.(operationId) (failed_operation state d.(failed_failure) manual at_) ;;
  writeDocuments (failed_document state at_ (fst docs)) next (recovered e next.(op_stage) None None).

Definition resolved_request (o : ReplayOutcome) (at_ : Z) (q : ReplayRequestRow) : ReplayRequestRow :=
  {| rr_original_event_id := q.(rr_original_event_id); rr_actor_id := q.(rr_actor_id);
     rr_idempotency_key := q.(rr_idempotency_key); rr_request_hash := q.(rr_request_hash);
     rr_reason := q.(rr_reason);
     rr_status := match o with replay_completed => rr_completed | replay_rejected => rr_rejected end;
     rr_requested_at := q.(rr_requested_at); rr_updated_at := at_ |}.
Definition replayed_document (at_ : Z) (v : DeadLetterView) : DeadLetterView :=
  {| dlv_eventId := v.(dlv_eventId); dlv_schemaName := v.(dlv_schemaName); dlv_schemaVersion := v.(dlv_schemaVersion);
     dlv_aggregateId := v.(dlv_aggregateId); dlv_projectId := v.(dlv_projectId);
     dlv_operationId := v.(dlv_operationId); dlv_category := v.(dlv_category);
     dlv_safeMessage := v.(dlv_safeMessage); dlv_attempts := v.(dlv_attempts);
     dlv_deadLetteredAt := v.(dlv_deadLetteredAt); dlv_replayAllowed := false; dlv_lastReplayAt := Some at_;
     dlv_traceContext := v.(dlv_traceContext); dlv_updated_at := at_ |}.

Definition applyReplayResolved (d : ReplayResolvedData) : ctx unit :=
  let! requests := tget control_replays in
  let! owned := tsome
      (q ← requests !! d.(resolved_replayRequestId);
       if String.eqb q.(rr_original_event_id) d.(resolved_originalEventId) then Some q else None)
    (Fault "Replay resolution does not match an owned replay request.") in
  tmodify (λ s, on_control_replays s
    (insert d.(resolved_replayRequestId) (resolved_request d.(resolved_outcome) d.(resolved_resolvedAt) owned))) ;;
  if bool_decide (d.(resolved_outcome) = replay_rejected) then tret tt
  else
    let! letters := tget p_dead_letters in
    let! letter := tsome (letters !! d.(resolved_originalEventId)) (Fault "no result") in
    tmodify (λ s, on_p_dead_letters s
      (insert d.(resolved_originalEventId) (replayed_document d.(resolved_resolvedAt) letter))).

Definition applyEvent (event : WorkflowEvent) : ctx unit :=
  match event.(data) with
  | WorkflowProgressed d => applyProgress event.(envelope) d
  | MutationCompleted d => applyCompleted event.(envelope) d
  | MutationFailed d => applyFailed event.(envelope) d
  | ReplayResolved d => applyReplayResolved d
  | DeadLettered _ => tthrow (Fault "Unsupported workflow event.")
  end.

(** [true] is 'applied', [false] is 'duplicate'. *)
Definition applyWorkflowEvent (event : WorkflowEvent) (d : MessageDeliveryIdentity) : ctx bool :=
  let! receipt := insertReceipt EVENT_CONSUMER_NAME event.(envelope).(eventId) d in
  if negb receipt then tret false else applyEvent event ;; tret true.

Definition dead_letter_document (e : EventEnvelope) (d : DeadLetteredData) : DeadLetterView :=
  {| dlv_eventId := d.(dead_originalEventId); dlv_schemaName := d.(dead_originalSchemaName);
     dlv_schemaVersion := d.(dead_originalSchemaVersion); dlv_aggregateId := e.(aggregateId);
     dlv_projectId := e.(projectId); dlv_operationId := e.(operationId);
     dlv_category := d.(dead_failure).(category); dlv_safeMessage := d.(dead_failure).(safeMessage);
     dlv_attempts := d.(dead_attempts); dlv_deadLetteredAt := d.(dead_deadLetteredAt);
     dlv_replayAllowed := d.(dead_replayAllowed); dlv_lastReplayAt := None;
     dlv_traceContext := e.(traceContext); dlv_updated_at := e.(occurredAt) |}.
Definition applyDeadLetterEvent (e : EventEnvelope) (d : DeadLetteredData) (delivery : MessageDeliveryIdentity) :
    ctx bool :=
  let! receipt := insertReceipt DLQ_CONSUMER_NAME e.(eventId) delivery in
  if negb receipt then tret false
  else
    tmodify (λ s, on_p_dead_letters s (insert d.(dead_originalEventId) (dead_letter_document e d))) ;;
    tmodify (λ s, on_p_operations s (alter (note_dead_letter d.(dead_originalEventId)) e.(operationId))) ;;
    tret true.

(** The drift finding's classification, when it carries one. *)
Definition classification_of (event : record) : option string :=
  match event.(data) with JObj o => present (as_string (field "classification" o)) | _ => None end.
Definition applyDriftEvent (event : record) (delivery : MessageDeliveryIdentity) : ctx bool :=
  let e := event.(envelope) in
  let! receipt := insertReceipt DRIFT_CONSUMER_NAME e.(eventId) delivery in
  if negb receipt then tret false
  else
    tmodify (λ s, match classification_of event with
                  | Some classification =>
                      on_p_instances s (alter (drifted_document classification e.(occurredAt)) e.(aggregateId))
                  | None => s
                  end) ;;
    tret true.
End project.
