(* ===== verification/ControlHistory.v ===== *)
(** * Histories of the control plane's database

    Every transaction of the control API's stores as one step, what each event
    it projects commits, and the relations no step breaks: acceptance keys,
    receipts, the outbox and the audit trail only grow, and the catalog stays. *)
From S2P Require Import Prelude JsText Json SshKey Domain Ipv4 WorkflowStage Events EventValidation Platform WorkflowStore WorkflowStore ControlDb AcceptStore AcceptCreate Reconciliation Control Projection.
From Stdlib Require Import ZArith Lia Bool Ascii String.
From stdpp Require Import base decidable list strings gmap.
Open Scope string_scope.
Open Scope Z_scope.
Open Scope prog_scope.

Section history.
Context `{Platform}.

Inductive Transaction : Type :=
| Accept (m : Mutation) (r : Request) (h : string)
| ReleaseLease (i : string) (mode : LeaseReleaseMode)
| Reconcile (i : string)
| RequestReplay (r : Request) (k : ReplayDeadLetterCommand) (h : string)
| ApplyWorkflow (e : WorkflowEvent) (d : MessageDeliveryIdentity)
| ApplyDeadLetter (e : EventEnvelope) (d : DeadLetteredData) (delivery : MessageDeliveryIdentity)
| ApplyDrift (e : record) (d : MessageDeliveryIdentity)
| Quarantine (d : MessageDeliveryIdentity) (hash code_ message : string) (event : option string)
| ClaimStale (w : WorkflowDb) (locked : gset string) (scan : gmap string InstanceRow → list (string * InstanceRow))
    (limit : nat) (staleAfter : Z)
| Observe (trace : string) (o : ReconciliationOutcome).

Definition body (c : Call) (t : Transaction) : ctx unit :=
  match t with
  | Accept m r h => accept c m r h ;; tret tt
  | ReleaseLease i mode => releaseIpv4Lease c i mode ;; tret tt
  | Reconcile i => requestReconciliation i ;; tret tt
  | RequestReplay r k h => requestDeadLetterReplay c r k h ;; tret tt
  | ApplyWorkflow e d => applyWorkflowEvent e d ;; tret tt
  | ApplyDeadLetter e d delivery => applyDeadLetterEvent e d delivery ;; tret tt
  | ApplyDrift e d => applyDriftEvent e d ;; tret tt
  | Quarantine d hash code_ message event => quarantineProjection d hash code_ message event ;; tret tt
  | ClaimStale w locked scan limit staleAfter => claimStaleInstances c w locked scan limit staleAfter ;; tret tt
  | Observe trace o => recordObservation c trace o
  end.

Definition step (c : Call) (t : Transaction) (s : ControlDb) : ControlDb := snd (withTransaction (body c t) s).
Abbreviation Steps := (list (Call * Transaction)).
Definition run (h : Steps) (s : ControlDb) : ControlDb := List.fold_left (λ s ct, step (fst ct) (snd ct) s) h s.

(** A step that fails leaves the state, and one that succeeds is its body's. *)
Lemma step_cases (c : Call) (t : Transaction) (s : ControlDb) :
  step c t s = s ∨ body c t s = Ok (tt, step c t s).
Proof.
  unfold step, withTransaction. destruct (body c t s) as [[[] s']|] eqn:E; [by right|by left].
Qed.

(** An invariant of the bodies is an invariant of the histories. *)
Lemma run_invariant (I : ControlDb → Prop) :
  (∀ c t s s', I s → body c t s = Ok (tt, s') → I s') → ∀ h s, I s → I (run h s).
Proof.
  intros Hstep h. induction h as [|[c t] h IH]; intros s HI; [done|]. cbn. apply IH.
  destruct (step_cases c t s) as [->|E]; [done|]. by eapply Hstep.
Qed.

Lemma run_keeps (R : relation ControlDb) `{!PreOrder R} :
  (∀ c t, keeps R (body c t)) → ∀ h s, R s (run h s).
Proof.
  intros Hstep h. induction h as [|[c t] h IH]; intros s; [reflexivity|]. cbn.
  transitivity (step c t s); [|apply IH]. destruct (step_cases c t s) as [->|E]; [reflexivity|]. by eapply Hstep.
Qed.

(** ** What only grows *)

Record grows (s s' : ControlDb) : Prop := {
  gr_catalog : s'.(catalog) = s.(catalog);
  gr_keys : s.(idempotency_records) ⊆ s'.(idempotency_records);
  gr_receipts : s.(event_receipts) ⊆ s'.(event_receipts);
  gr_outbox : s.(control_outbox) `prefix_of` s'.(control_outbox);
  gr_audit : s.(control_audit) `prefix_of` s'.(control_audit);
}.
#[local] Instance grows_preorder : PreOrder grows.
Proof.
  split.
  - intros s. by split.
  - intros s1 s2 s3 [] []. split; [congruence|..]; by etrans.
Qed.

Lemma grows_on_instances f s : grows s (on_instances s f). Proof. by split. Qed.
Lemma grows_on_operations f s : grows s (on_operations s f). Proof. by split. Qed.
Lemma grows_on_ipv4_leases f s : grows s (on_ipv4_leases s f). Proof. by split. Qed.
Lemma grows_on_snapshots f s : grows s (on_snapshots s f). Proof. by split. Qed.
Lemma grows_on_control_replays f s : grows s (on_control_replays s f). Proof. by split. Qed.
Lemma grows_on_p_instances f s : grows s (on_p_instances s f). Proof. by split. Qed.
Lemma grows_on_p_operations f s : grows s (on_p_operations s f). Proof. by split. Qed.
Lemma grows_on_p_snapshots f s : grows s (on_p_snapshots s f). Proof. by split. Qed.
Lemma grows_on_p_dead_letters f s : grows s (on_p_dead_letters s f). Proof. by split. Qed.
Lemma grows_on_p_poison f s : grows s (on_p_poison s f). Proof. by split. Qed.
Lemma grows_on_control_audit l s : grows s (on_control_audit s (λ k, k ++ l)%list).
Proof. split; try done. by eexists. Qed.
Lemma grows_on_control_outbox l s : grows s (on_control_outbox s (λ k, k ++ l)%list).
Proof. split; try done. by eexists. Qed.
#[local] Hint Resolve grows_on_instances grows_on_operations grows_on_ipv4_leases grows_on_snapshots
  grows_on_control_replays grows_on_p_instances grows_on_p_operations grows_on_p_snapshots grows_on_p_dead_letters
  grows_on_p_poison grows_on_control_audit grows_on_control_outbox : program.

Lemma grows_modify f : (∀ s, grows s (f s)) → keeps grows (E := error) (tmodify f).
Proof. apply keeps_modify. Qed.
#[local] Hint Extern 1 (keeps grows (tmodify _)) =>
  apply grows_modify; intros ?; cbv beta; repeat case_match; auto with program; reflexivity : program.

Lemma grows_bind c r action h target operation a : keeps grows (bindIdempotencyKey c r action h target operation a).
Proof.
  intros s u s' Hs. unfold bindIdempotencyKey in Hs. peel. unbool. split; try done. by apply insert_subseteq.
Qed.
Lemma grows_receipt consumer event d : keeps grows (insertReceipt consumer event d).
Proof.
  intros s u s' Hs. unfold insertReceipt in Hs. peel. split_match; peel; [reflexivity|].
  split; try done. by apply insert_subseteq.
Qed.
#[local] Hint Resolve grows_bind grows_receipt : program.

Lemma grows_outbox c p t id : keeps grows (writeControlOutbox c p t id).
Proof. unfold writeControlOutbox. keeps_steps. Qed.
#[local] Hint Resolve grows_outbox : program.
Lemma grows_audit c i p o co ca t d ob : keeps grows (writeControlAudit c i p o co ca t d ob).
Proof. unfold writeControlAudit. keeps_steps. Qed.
#[local] Hint Resolve grows_audit : program.

Lemma grows_commit c sc p i ro o aa h re oc ex ac ev id :
  keeps grows ex → keeps grows (commit_mutation c sc p i ro o aa h re oc ex ac ev id).
Proof.
  intros. unfold commit_mutation, insertOperation, updateInstance, projectOperation, markInstanceBusyInProjection.
  keeps_steps.
Qed.

Lemma grows_accept c m r h : keeps grows (accept c m r h).
Proof.
  intros s x s' Hs. apply accept_inv in Hs. destruct Hs; [reflexivity|..].
  - subst s'. split; cbn; try done.
    + by apply insert_subseteq.
    + rewrite <- app_assoc. by eexists.
    + by eexists.
  - split; cbn; try done.
    + by apply insert_subseteq.
    + rewrite <- app_assoc. by eexists.
    + by eexists.
Qed.
#[local] Hint Resolve grows_accept : program.

Lemma grows_reports : ∀ s s', only_reports s s' → grows s s'.
Proof. intros s s' []. split; try done; [by rewrite or_keys|by injection or_receipts as ->| |by rewrite or_audit].
  destruct or_outbox as (l & -> & _). by eexists. Qed.
(** The reconciler's transactions. *)
Definition reconciler (t : Transaction) : Prop := match t with ClaimStale _ _ _ _ _ | Observe _ _ => True | _ => False end.
Lemma reconciler_reports c t : reconciler t → keeps only_reports (body c t).
Proof.
  destruct t; intros []; cbn [body]; [|apply record_reports].
  apply keeps_bind; [apply _|apply claim_reports|intros; apply keeps_ret, _].
Qed.
Lemma grows_reconciler c t : reconciler t → keeps grows (body c t).
Proof. intros Ht s u s' Hs. apply grows_reports. by eapply reconciler_reports. Qed.

Lemma grows_body c t : keeps grows (body c t).
Proof.
  destruct t; try (apply grows_reconciler; exact I);
    simpl; unfold releaseIpv4Lease, requestReconciliation, requestDeadLetterReplay, applyWorkflowEvent,
    applyDeadLetterEvent, applyDriftEvent, quarantineProjection, applyEvent, applyProgress, applyCompleted, applyFailed,
    applyReplayResolved, lockDocuments, writeDocuments, updateOperation, updateInstanceRow, settleSnapshot; keeps_steps.
Qed.

Lemma run_grows h s : grows s (run h s).
Proof. apply run_keeps; [apply _|apply grows_body]. Qed.

(** ** Receipts *)

Definition received (consumer event : string) (generation : Z) (s : ControlDb) : Prop :=
  is_Some (s.(event_receipts) !! (consumer, event, generation)).

Lemma insertReceipt_received consumer event d s b s' :
  insertReceipt consumer event d s = Ok (b, s') → received consumer event d.(replayGeneration) s'.
Proof.
  intros Hs. unfold insertReceipt in Hs. apply tbind_Ok in Hs as (? & ? & [= <- <-] & Hs).
  destruct (event_receipts s !! _) as [c|] eqn:E; [|peel].
  - injection Hs as _ <-. by exists c.
  - eexists. apply lookup_insert_eq.
Qed.

(** A received event is a duplicate, and nothing is written. *)
Lemma received_twice {A : Type} consumer event d (m : ctx A) (dup : A) s :
  received consumer event d.(replayGeneration) s →
  tbind (insertReceipt consumer event d) (λ fresh, if negb fresh then tret dup else m) s = Ok (dup, s).
Proof. intros [c Hc]. unfold insertReceipt, tbind, tget. by rewrite Hc. Qed.

Lemma receipt_kept consumer event d {A : Type} (m : bool → ctx A) s x s' :
  (∀ b, keeps grows (m b)) → tbind (insertReceipt consumer event d) m s = Ok (x, s') →
  received consumer event d.(replayGeneration) s'.
Proof.
  intros Hm (b & s1 & Hr & Hs)%tbind_Ok. apply insertReceipt_received in Hr as [c Hc]. exists c.
  eapply lookup_weaken; [exact Hc|]. apply gr_receipts. by eapply Hm.
Qed.

(** A projected event has its receipt. *)
Lemma workflow_received e d s x s' :
  applyWorkflowEvent e d s = Ok (x, s') →
  received EVENT_CONSUMER_NAME e.(envelope).(eventId) d.(replayGeneration) s'.
Proof.
  apply receipt_kept. intros b. unfold applyEvent, applyProgress, applyCompleted, applyFailed,
    applyReplayResolved, lockDocuments, writeDocuments, updateOperation, updateInstanceRow, settleSnapshot; keeps_steps.
Qed.
Lemma dead_letter_received e d delivery s x s' :
  applyDeadLetterEvent e d delivery s = Ok (x, s') →
  received DLQ_CONSUMER_NAME e.(eventId) delivery.(replayGeneration) s'.
Proof. apply receipt_kept. intros b. keeps_steps. Qed.
Lemma drift_received e d s x s' :
  applyDriftEvent e d s = Ok (x, s') →
  received DRIFT_CONSUMER_NAME e.(envelope).(eventId) d.(replayGeneration) s'.
Proof. apply receipt_kept. intros b. keeps_steps. Qed.

Lemma received_run consumer event g h s : received consumer event g s → received consumer event g (run h s).
Proof. intros [c Hc]. exists c. eapply lookup_weaken; [exact Hc|]. apply gr_receipts, run_grows. Qed.
End history.
