(* ===== verification/Acceptance.v ===== *)
(** * What acceptance promises a caller

    Idempotent retries, one operation per instance, and the records of an
    accepted mutation. *)
From S2P Require Import Prelude JsText Json SshKey Domain Ipv4 WorkflowStage Events EventValidation Platform WorkflowStore ControlDb AcceptStore AcceptCreate Reconciliation Control Projection ControlHistory.
From Stdlib Require Import ZArith Lia Bool Ascii String.
From stdpp Require Import base decidable list strings gmap.
Open Scope string_scope.
Open Scope Z_scope.
Open Scope prog_scope.

(** ** A concrete control plane *)

Definition sample_label : Label := {| lb_name := "name"; lb_created_at := 0; lb_updated_at := 0 |}.
Definition sample_catalog : Catalog :=
  {| projects := {[ "p1" := {| pj_enabled := true; pj_label := sample_label |};
                    "p2" := {| pj_enabled := true; pj_label := sample_label |} ]};
     images := {[ "img" := {| im_enabled := true; im_provider_profile_id := "prof"; im_architecture := "x86_64";
                              im_label := sample_label |} ]};
     provider_profiles := {[ "prof" := {| pp_state := "active"; pp_network_id := "net" |} ]};
     flavors := {[ "small" := {| fl_cpu_count := 1; fl_memory_mib := 1024; fl_minimum_disk_gib := 10; fl_enabled := true;
                               fl_label := sample_label |};
                   "large" := {| fl_cpu_count := 4; fl_memory_mib := 4096; fl_minimum_disk_gib := 40; fl_enabled := true;
                               fl_label := sample_label |} ]};
     networks := {[ "net" := {| nw_ipv4_cidr := "10.0.0.0/29"; nw_gateway := "10.0.0.1"; nw_dns_servers := ["10.0.0.1"];
                                nw_exclusions := []; nw_enabled := true; nw_label := sample_label |} ]};
     quotas := {[ "p1" := {| qt_instances := 2; qt_cpu_count := 8; qt_memory_mib := 8192; qt_disk_gib := 100;
                             qt_ipv4_addresses := 2; qt_snapshots := 1 |};
                  "p2" := {| qt_instances := 1; qt_cpu_count := 8; qt_memory_mib := 8192; qt_disk_gib := 100;
                             qt_ipv4_addresses := 1; qt_snapshots := 1 |} ]};
     retention_policy := {| rp_retention_hours := 24; rp_lease_release_mode := quarantine_until_purge |} |}.
Definition empty_control : ControlDb :=
  {| catalog := sample_catalog; instances := ∅; operations := ∅; ipv4_leases := ∅; snapshots := ∅;
     idempotency_records := ∅; control_outbox := []; control_audit := []; control_replays := ∅; p_instances := ∅;
     p_operations := ∅; p_snapshots := ∅; p_dead_letters := ∅; event_receipts := ∅; p_poison := ∅ |}.
Definition sample_request (project key : string) : Request :=
  {| rq_subject := "alice"; rq_projectId := project; rq_idempotencyKey := key; rq_correlationId := "corr";
     rq_traceparent := "00-0af7651916cd43dd8448eb211c80319c-b7ad6b7169203331-01"; rq_tracestate := None |}.
Definition sample_create : CreateInstanceCommand :=
  {| cr_imageId := "img"; cr_flavorId := "small"; cr_networkId := "net"; cr_hostname := "web"; cr_sshPublicKeys := [] |}.
Definition create_step (t : Z) (project key : string) : Call * Transaction :=
  (sample_call t, Accept (Create "" sample_create) (sample_request project key) "hash").
Definition sample_event_delivery (n : string) : MessageDeliveryIdentity :=
  {| topic := "provisioning.events.v1"; Platform.partition := 0; offset := n; replayGeneration := 0; outboxId := None |}.
(** An event of the operation [op] on the instance [i]. *)
Definition sample_event (id i op project : string) (at_ : Z) (d : EventData) : WorkflowEvent :=
  {| envelope :=
       {| eventId := id; schemaName := ""; schemaVersion := 1; aggregateType := "instance"; aggregateId := i;
          projectId := project; operationId := op; correlationId := "corr"; causationId := op; occurredAt := at_;
          traceContext := {| traceparent := ""; tracestate := None |}; partitionKey := i |};
     data := d |}.
Definition completed_data (a : WorkflowAction) (lifecycle : string) : EventData :=
  MutationCompleted {| completed_action := a; completed_lifecycleState := lifecycle;
    completed_providerResourceId := Some "vm"; completed_evidenceId := "ev"; completed_observed := None |}.
Definition event_step (t : Z) (id i op project : string) (d : EventData) : Call * Transaction :=
  (sample_call t, ApplyWorkflow (sample_event id i op project t d) (sample_event_delivery id)).

(** The identifiers [acceptCreate] draws at instant [n]. *)
Definition drawn (t n : Z) : string := string_of_Z t ++ "-" ++ string_of_Z n.
Definition sample_run (h : list (Call * Transaction)) : ControlDb := run (H := sample_platform) h empty_control.

Section acceptance.
Context `{Platform}.

(** A purge must name its instance twice. *)
Definition confirmed (m : Mutation) : Prop := match m with Purge i confirmation => confirmation = i | _ => True end.
(** The instance an accepted mutation is about. *)
Definition touched (m : Mutation) (a : AcceptedMutation) : string := default a.(am_targetId) (instance_of m).

Definition conflict : error :=
  DomainError IDEMPOTENCY_CONFLICT "The idempotency key is already bound to different input.".

(** A bound key decides the outcome before anything else is looked at. *)
Lemma bound_key (c : Call) (m : Mutation) (r : Request) (h : string) (s : ControlDb) (rec : IdempotencyRow) :
  s.(idempotency_records) !! key_of m r = Some rec → confirmed m →
  accept c m r h s = (if String.eqb rec.(id_request_hash) h then Ok (replay_of rec.(id_response), s) else Err conflict).
Proof.
  intros Hk Hm.
  assert (Hr : ∀ scope action k, s.(idempotency_records) !! idempotency_key scope action = Some rec →
    or_replayed scope action h k s
    = (if String.eqb rec.(id_request_hash) h then Ok (replay_of rec.(id_response), s) else Err conflict)).
  { intros scope action k Hk'. unfold or_replayed, findReplayedResponse, tbind, tget. rewrite Hk'.
    unfold tguard. destruct (String.eqb (id_request_hash rec) h); reflexivity. }
  destruct m; try (apply Hr; exact Hk). cbn in Hm. subst. unfold accept, acceptPurge. rewrite String.eqb_refl.
  unfold tbind at 1, tguard, tret at 1. by apply Hr.
Qed.

(** A success leaves its key bound to its answer. *)
Lemma accepted_binds (c : Call) (m : Mutation) (r : Request) (h : string) (s s' : ControlDb) (a : AcceptedMutation) :
  accept c m r h s = Ok (a, s') →
  ∃ rec, s'.(idempotency_records) !! key_of m r = Some rec ∧ rec.(id_request_hash) = h
    ∧ replay_of rec.(id_response) = replay_of a.
Proof.
  intros Hs%accept_inv. destruct Hs.
  - eexists. split_and!; try done.
  - subst s'. eexists. split_and!; [apply lookup_insert_eq|..]; done.
  - eexists. split_and!; [apply lookup_insert_eq|..]; done.
Qed.

(** Retrying a request.  Once a mutation has been accepted, then after any
    history of other transactions, at any later time and with any other clock,
    the same key with the same content gets the first answer back, marked as
    replayed, and with other content IDEMPOTENCY_CONFLICT; neither changes
    anything.  So a request is performed at most once, and its record never
    expires. *)
Theorem retry_is_replayed (c c2 : Call) (m m2 : Mutation) (r r2 : Request) (h h2 : string) (s s' : ControlDb)
    (a : AcceptedMutation) (later : list (Call * Transaction))
    (Haccepted : accept c m r h s = Ok (a, s')) (Hkey : key_of m2 r2 = key_of m r) (Hm2 : confirmed m2) :
  withTransaction (accept c2 m2 r2 h2) (run later s')
  = (if String.eqb h h2 then Ok (replay_of a) else Err conflict, run later s').
Proof.
  apply accepted_binds in Haccepted as (rec & Hrec & <- & <-).
  rewrite <- Hkey in Hrec. pose proof (lookup_weaken _ _ _ _ Hrec (gr_keys _ _ (run_grows later s'))) as Hlater.
  unfold withTransaction. rewrite (bound_key c2 m2 r2 h2 _ _ Hlater Hm2).
  destruct (String.eqb (id_request_hash rec) h2); reflexivity.
Qed.

(** ** The records of an acceptance *)

(** The rows of an accepted mutation [op] of the instance [i]. *)
Record acceptance (c : Call) (m : Mutation) (r : Request) (h : string) (s : ControlDb) (a : AcceptedMutation)
    (s' : ControlDb) : Prop := {
  ac_answer : a.(am_replayed) = false ∧ a.(am_acceptedAt) = appNow c;
  (** the instance: idle and mutable, or new; then busy with this operation only *)
  ac_instance : let i := touched m a in ∃ row', s'.(instances) = <[i := row']> s.(instances)
    ∧ row'.(i_active_operation_id) = Some a.(am_operationId)
    ∧ match s.(instances) !! i with
      | Some row => instance_of m = Some i ∧ admits c m r row ∧ row'.(i_project_id) = row.(i_project_id)
          ∧ row'.(i_create_operation_id) = row.(i_create_operation_id)
      | None => instance_of m = None ∧ row'.(i_project_id) = r.(rq_projectId)
          ∧ row'.(i_create_operation_id) = Some a.(am_operationId)
      end;
  (** the operation: new, in both models, and not started *)
  ac_operation : ∃ o, o.(op_id) = a.(am_operationId) ∧ o.(op_action) = action_of m ∧ o.(op_targetId) = a.(am_targetId)
    ∧ o.(op_state) = "accepted" ∧ o.(op_startedAt) = None
    ∧ s.(operations) !! o.(op_id) = None ∧ s'.(operations) = <[o.(op_id) := o]> s.(operations)
    ∧ ∃ rc, s'.(p_operations) = <[o.(op_id) := (o, rc)]> s.(p_operations);
  (** the outbox: one command of this operation, then one audit fact *)
  ac_published : ∃ command fact first second,
    s'.(control_outbox) = (s.(control_outbox) ++ [first; second])%list
    ∧ s'.(control_audit) = (s.(control_audit) ++ [fact])%list
    ∧ first.(ob_topic) = "provisioning.commands.v1" ∧ first.(ob_payload) = P_command command
    ∧ second.(ob_topic) = "audit.events.v1" ∧ second.(ob_payload) = P_audit fact
    ∧ command.(envelope).(operationId) = a.(am_operationId) ∧ command.(envelope).(aggregateId) = touched m a
    ∧ command.(envelope).(partitionKey) = touched m a
    ∧ command.(envelope).(causationId) = a.(am_operationId)
    ∧ fact.(envelope).(operationId) = a.(am_operationId) ∧ fact.(data).(audit_actorId) = r.(rq_subject)
    ∧ fact.(data).(audit_outcome) = audit_accepted;
  (** the key *)
  ac_key : ∃ rec, s'.(idempotency_records) = <[key_of m r := rec]> s.(idempotency_records)
    ∧ rec.(id_request_hash) = h ∧ rec.(id_response) = a;
}.

(** What an occupied row keeps. *)
Lemma writes_occupy c s r row m w row0 :
  writes c s r row m w →
  (wr_occupy w row0).(i_active_operation_id) = Some (c.(uuid) 0%nat)
  ∧ (wr_occupy w row0).(i_project_id) = row0.(i_project_id)
  ∧ (wr_occupy w row0).(i_create_operation_id) = row0.(i_create_operation_id).
Proof. by intros []. Qed.

Lemma instance_of_target c s r row m w i url :
  writes c s r row m w → instance_of m = Some i → touched m (accepted_mutation c (c.(uuid) 0%nat) (wr_target w) url) = i.
Proof. intros _ Hi. unfold touched. by rewrite Hi. Qed.

(** What a fresh create's records agree on. *)
Lemma build_Ok c g r k x address a :
  buildAcceptanceRecords c g r k x address = Ok a →
  a.(ar_accepted) = accepted_mutation c a.(ar_operationId) a.(ar_instanceId) (operation_url r.(rq_projectId) a.(ar_operationId))
  ∧ a.(ar_operation) = accepted_operation c a.(ar_operationId) r.(rq_projectId) "create_instance" "instance" a.(ar_instanceId)
  ∧ a.(ar_address) = address
  ∧ (a.(ar_instance).(iv_id) = a.(ar_instanceId) ∧ a.(ar_instance).(iv_activeOperationId) = Some a.(ar_operationId)
     ∧ a.(ar_instance).(iv_projectId) = r.(rq_projectId) ∧ a.(ar_instance).(iv_lifecycleState) = "pending")
  ∧ ∃ id servers, a.(ar_event) = command_event c id "instance.create.requested" a.(ar_instanceId) r.(rq_projectId)
      a.(ar_operationId) (create_trace g r) (create_json k x address a.(ar_prefixLength) servers).
Proof. unfold buildAcceptanceRecords. intros Hb. peel. split_and!; try done. eauto. Qed.

Lemma accepted_acceptance (c : Call) (m : Mutation) (r : Request) (h : string) (s s' : ControlDb) (a : AcceptedMutation) :
  accept c m r h s = Ok (a, s') → s.(idempotency_records) !! key_of m r = None → acceptance c m r h s a s'.
Proof.
  intros Haccepted Hfresh. apply accept_inv in Haccepted. destruct Haccepted as
    [m rec Hrec|m i row w role url audit_action reason event id _ Hi Hrow Ha Hw op o a s' Ho Hp
    |g k x address b _ _ _ _ Hb Hi Ho _ _ _ _].
  - congruence.
  - pose proof (instance_of_target _ _ _ _ _ _ _ url Hw Hi) as Ht. change (touched m a = i) in Ht.
    destruct (writes_occupy _ _ _ _ _ _ row Hw) as (Hbusy & Hproject & Hcreate).
    split; cbv zeta; rewrite ?Ht.
    + done.
    + exists (wr_occupy w row). rewrite Hrow. split_and!; try done. by apply alter_insert_row.
    + exists o. split_and!; try done. by eexists.
    + do 4 eexists. subst s'. cbn. rewrite <- app_assoc. split_and!; try reflexivity. by destruct m.
    + eexists. by split.
  - apply build_Ok in Hb as (Hacc & Hop & _ & _ & id & servers & Hev).
    assert (Ht : touched (Create g k) (ar_accepted b) = ar_instanceId b) by (unfold touched; cbn; by rewrite Hacc).
    split; cbv zeta; rewrite ?Ht; rewrite Hacc in *.
    + done.
    + eexists. rewrite Hi. split_and!; reflexivity.
    + exists (ar_operation b). split_and!; try (rewrite Hop; reflexivity); [exact Ho|reflexivity|by eexists].
    + do 4 eexists. cbn. rewrite <- app_assoc, Hev. split_and!; reflexivity.
    + eexists. cbn. rewrite Hacc. split_and!; reflexivity.
Qed.


(** ** One operation per instance *)

(** The transactions that end an operation of the instance [i]. *)
Definition settles (i : string) (t : Transaction) : Prop :=
  match t with
  | ApplyWorkflow e _ =>
      e.(envelope).(aggregateId) = i
      ∧ match e.(data) with MutationCompleted _ | MutationFailed _ => True | _ => False end
  | _ => False
  end.

(** The instance [i] stays, and busy with the same operation unless [P]. *)
Definition stays_busy (i : string) (P : Prop) (s s' : ControlDb) : Prop :=
  ∀ row op, s.(instances) !! i = Some row → row.(i_active_operation_id) = Some op →
  P ∨ ∃ row', s'.(instances) !! i = Some row' ∧ row'.(i_active_operation_id) = Some op.
#[local] Instance stays_busy_preorder i P : PreOrder (stays_busy i P).
Proof.
  split.
  - intros s row op Hrow Hop. right. by exists row.
  - intros s1 s2 s3 H12 H23 row op Hrow Hop. destruct (H12 row op Hrow Hop) as [|(row' & Hrow' & Hop')]; [by left|].
    by eapply H23.
Qed.

Lemma stays_busy_same i P s s' : s'.(instances) = s.(instances) → stays_busy i P s s'.
Proof. intros Heq row op Hrow Hop. right. exists row. by rewrite Heq. Qed.
Lemma stays_busy_alter i P f j s :
  (i = j → P ∨ ∀ row, (f row).(i_active_operation_id) = row.(i_active_operation_id)) →
  stays_busy i P s (on_instances s (alter f j)).
Proof.
  intros Hf row op Hrow Hop. destruct (decide (i = j)) as [Heq|Hne].
  - destruct (Hf Heq) as [|Hf']; [by left|]. right. exists (f row). subst j. cbn. rewrite lookup_alter_eq, Hrow.
    by rewrite Hf'.
  - right. exists row. cbn. by rewrite lookup_alter_ne.
Qed.
Lemma stays_busy_insert i (P : Prop) j row' s :
  (i = j → P) → stays_busy i P s (on_instances s (insert j row')).
Proof.
  intros Hf row op Hrow Hop. destruct (decide (i = j)) as [Heq|Hne]; [left; auto|]. right. exists row. cbn.
  by rewrite lookup_insert_ne.
Qed.
#[local] Hint Extern 2 (stays_busy _ _ ?s ?s') =>
  first [apply stays_busy_same; reflexivity | apply stays_busy_alter | apply stays_busy_insert]; intuition : program.
#[local] Hint Extern 1 (keeps (stays_busy _ _) (tmodify _)) =>
  apply keeps_modify; intros ?; cbv beta; repeat case_match; auto with program; reflexivity : program.

Lemma accept_stays_busy c m r h i P : keeps (stays_busy i P) (accept c m r h).
Proof.
  intros s a s' Hs row op Hrow Hop. apply accept_inv in Hs. right. destruct Hs as
    [m rec _ _ _|m j w' w role url audit_action reason event id _ Hi Hrow' Ha Hw op' o a s' _ _
    |g k x address b _ _ _ _ _ Hi _ _ _ _ _].
  - by exists row.
  - exists row. subst s'. cbn. destruct (decide (i = j)) as [->|]; [|by rewrite lookup_alter_ne].
    destruct Ha as [Ha _]. congruence.
  - exists row. cbn. rewrite lookup_insert_ne; [done|]. intros Heq. rewrite Heq in Hi. congruence.
Qed.
#[local] Hint Resolve accept_stays_busy : program.

Lemma reports_stays_busy i P s s' : only_reports s s' → stays_busy i P s s'.
Proof.
  intros Hr row op Hrow Hop. right. destruct (reports_row _ _ _ _ Hr Hrow) as (row' & Hrow' & Heq). exists row'.
  split; [done|]. apply (f_equal i_active_operation_id) in Heq. cbn in Heq. congruence.
Qed.

Lemma body_stays_busy c t i : keeps (stays_busy i (settles i t)) (body c t).
Proof.
  destruct t; try (intros s u s' Hs; eapply reports_stays_busy, reconciler_reports; [|exact Hs]; exact I); simpl; unfold releaseIpv4Lease, requestReconciliation, requestDeadLetterReplay, applyWorkflowEvent,
    applyDeadLetterEvent, applyDriftEvent, quarantineProjection, applyEvent, applyProgress, applyCompleted, applyFailed,
    applyReplayResolved, lockDocuments, writeDocuments, updateOperation, updateInstanceRow, settleSnapshot,
    insertReceipt, writeControlAudit, writeControlOutbox; keeps_steps.
Qed.

(** The operation an instance is busy with survives every history that does not
    settle it. *)
Lemma busy_through i (later : list (Call * Transaction)) s row op :
  Forall (λ ct, ¬ settles i (snd ct)) later →
  s.(instances) !! i = Some row → row.(i_active_operation_id) = Some op →
  ∃ row', (run later s).(instances) !! i = Some row' ∧ row'.(i_active_operation_id) = Some op.
Proof.
  intros Hlater. revert s row. induction Hlater as [|[c t] later Ht _ IH]; intros s row Hrow Hop; [by exists row|].
  cbn. destruct (step_cases c t s) as [->|Hs]; [by eapply IH|].
  destruct (body_stays_busy c t i _ _ _ Hs row op Hrow Hop) as [|(row' & Hrow' & Hop')]; [done|]. by eapply IH.
Qed.

(** C18: One operation at a time.  From the moment a mutation of an instance is
    accepted, through any history in which no completion or failure of that
    instance is projected, the instance is busy with that operation and every
    new mutation of it, by any caller and of any kind, is refused and changes
    nothing. *)
Theorem one_operation_at_a_time (c c2 : Call) (m m2 : Mutation) (r r2 : Request) (h h2 : string) (s s' : ControlDb)
    (a : AcceptedMutation) (later : list (Call * Transaction))
    (Haccepted : accept c m r h s = Ok (a, s')) (Hfresh : s.(idempotency_records) !! key_of m r = None)
    (Hlater : Forall (λ ct, ¬ settles (touched m a) (snd ct)) later)
    (Hm2 : instance_of m2 = Some (touched m a))
    (Hnew : (run later s').(idempotency_records) !! key_of m2 r2 = None) :
  (∃ row, (run later s').(instances) !! touched m a = Some row ∧ row.(i_active_operation_id) = Some a.(am_operationId))
  ∧ ∃ e, withTransaction (accept c2 m2 r2 h2) (run later s') = (Err e, run later s').
Proof.
  destruct (ac_instance _ _ _ _ _ _ _ (accepted_acceptance _ _ _ _ _ _ _ Haccepted Hfresh)) as (row & Hs' & Hbusy & _).
  destruct (busy_through (touched m a) later s' row (am_operationId a) Hlater) as (row' & Hrow' & Hbusy'); [|done|].
  { rewrite Hs'. apply lookup_insert_eq. }
  split; [by exists row'|]. unfold withTransaction.
  destruct (accept c2 m2 r2 h2 (run later s')) as [[a2 s2]|e] eqn:E; [exfalso|by exists e].
  destruct (ac_instance _ _ _ _ _ _ _ (accepted_acceptance _ _ _ _ _ _ _ E Hnew)) as (row2 & _ & _ & Hadmit).
  assert (touched m2 a2 = touched m a) as Ht by (unfold touched at 1; by rewrite Hm2).
  rewrite Ht, Hrow' in Hadmit. destruct Hadmit as (_ & [Hidle _] & _). congruence.
Qed.
End acceptance.

(** ** Concrete acceptances *)

Definition sample_accept (t : Z) (m : Mutation) (key : string) (s : ControlDb) : result error (AcceptedMutation * ControlDb) :=
  accept (H := sample_platform) (sample_call t) m (sample_request "p1" key) "hash" s.
Definition accepted_state (x : result error (AcceptedMutation * ControlDb)) : ControlDb :=
  match x with Ok (_, s) => s | Err _ => empty_control end.
Definition accepted_answer (x : result error (AcceptedMutation * ControlDb)) : AcceptedMutation :=
  match x with
  | Ok (a, _) => a
  | Err _ => {| am_operationId := ""; am_targetId := ""; am_acceptedAt := 0; am_statusUrl := ""; am_replayed := false |}
  end.
Lemma accepted_ok x : is_ok x = true → x = Ok (accepted_answer x, accepted_state x).
Proof. by destruct x as [[]|]. Qed.
(** An instance created and completed, idle and active. *)
Definition active_db : ControlDb :=
  sample_run [create_step 1 "p1" "k1";
              event_step 2 "e1" "1-0" "1-1" "p1" (completed_data create_instance "active")].

Lemma retry_is_replayed_witness :
  let first := sample_accept 1 (Create "" sample_create) "k" empty_control in
  let s2 := run (H := sample_platform) [create_step 2 "p2" "k"] (accepted_state first) in
  first = Ok (accepted_answer first, accepted_state first)
  ∧ withTransaction (sample_accept 90000000 (Create "" sample_create) "k") s2
    = (Ok (replay_of (accepted_answer first)), s2).
Proof.
  intros first s2.
  assert (Hfirst : first = Ok (accepted_answer first, accepted_state first)) by (apply accepted_ok; vm_compute; reflexivity).
  split; [exact Hfirst|].
  exact (retry_is_replayed (H := sample_platform) (sample_call 1) (sample_call 90000000) (Create "" sample_create)
    (Create "" sample_create) (sample_request "p1" "k") (sample_request "p1" "k") "hash" "hash" empty_control
    (accepted_state first) (accepted_answer first) [create_step 2 "p2" "k"] Hfirst eq_refl I).
Defined.


Lemma one_operation_at_a_time_witness :
  let x := sample_accept 3 (Power "1-0" stop) "k2" active_db in
  let s2 := run (H := sample_platform) [create_step 4 "p2" "k"] (accepted_state x) in
  x = Ok (accepted_answer x, accepted_state x)
  ∧ ∃ e, withTransaction (sample_accept 5 (Retain "1-0") "k3") s2 = (Err e, s2).
Proof.
  intros x s2. assert (Hx : x = Ok (accepted_answer x, accepted_state x)) by (apply accepted_ok; vm_compute; reflexivity).
  split; [exact Hx|].
  refine (proj2 (one_operation_at_a_time (H := sample_platform) (sample_call 3) (sample_call 5) (Power "1-0" stop)
    (Retain "1-0") (sample_request "p1" "k2") (sample_request "p1" "k3") "hash" "hash" active_db (accepted_state x)
    (accepted_answer x) [create_step 4 "p2" "k"] Hx _ _ eq_refl _)).
  - vm_compute. reflexivity.
  - constructor; [exact (λ f, f)|constructor].
  - vm_compute. reflexivity.
Defined.
