(* ===== verification/ReadModel.v ===== *)
(** * The read model

    What each projected event commits, and the relation the documents keep with
    the authoritative rows: operation documents are the operation rows, snapshot
    documents are computed from the snapshot rows, and instance documents agree
    with their rows on identity, owner, activity and lifecycle. *)
From S2P Require Import Prelude JsText Json SshKey Domain Ipv4 WorkflowStage Events EventValidation Platform WorkflowStore ControlDb AcceptStore AcceptCreate Reconciliation Control Projection ControlHistory Acceptance.
From Stdlib Require Import ZArith Lia Bool Ascii String.
From stdpp Require Import base decidable list strings gmap.
Open Scope string_scope.
Open Scope Z_scope.
Open Scope prog_scope.

Section readmodel.
Context `{Platform}.

(** ** What an applied event commits *)

Lemma lockDocuments_Ok i op (s s' : ControlDb) (d : InstanceView * OperationView) :
  lockDocuments i op s = Ok (d, s') →
  s' = s ∧ s.(p_instances) !! i = Some (fst d) ∧ ∃ rc, s.(p_operations) !! op = Some (snd d, rc).
Proof.
  intros Hs. unfold lockDocuments in Hs.
  apply tbind_Ok in Hs as (? & ? & [= <- <-] & Hs).
  apply tbind_Ok in Hs as (v & ? & (? & Hv & [= -> ->])%tsome_Ok & Hs).
  apply tbind_Ok in Hs as (? & ? & [= <- <-] & Hs).
  apply tbind_Ok in Hs as ([o rc] & ? & (? & Ho & [= <- ->])%tsome_Ok & Hs).
  injection Hs as <- <-. split_and!; [done|done|]. by exists rc.
Qed.

Lemma writeDocuments_Ok v o rec (s s' : ControlDb) (u : unit) :
  writeDocuments v o rec s = Ok (u, s') →
  s' = on_p_operations (on_p_instances s (alter (λ _, v) v.(iv_id))) (alter (λ p, (o, rec (snd p))) o.(op_id)).
Proof. intros Hs. unfold writeDocuments in Hs. peel. done. Qed.

Lemma updateOperation_Ok op f (s s' : ControlDb) (u : unit) :
  updateOperation op f s = Ok (u, s') → s' = on_operations s (alter f op).
Proof. intros Hs. unfold updateOperation in Hs. peel. done. Qed.
Lemma updateInstanceRow_Ok i f (s s' : ControlDb) (u : unit) :
  updateInstanceRow i f s = Ok (u, s') → s' = on_instances s (alter f i).
Proof. intros Hs. unfold updateInstanceRow in Hs. peel. done. Qed.

(** The tables after an event: [f] changes the instance rows, [v] is the
    instance's document, [g] changes the operation's row and [next] is its
    document. *)
Definition applied (e : EventEnvelope) (f : gmap string InstanceRow → gmap string InstanceRow) (v : InstanceView)
    (g : OperationView → OperationView) (next : OperationView) (rec : OperationRecovery → OperationRecovery)
    (s : ControlDb) : ControlDb :=
  on_p_operations (on_p_instances (on_operations (on_instances s f) (alter g e.(operationId)))
    (alter (λ _, v) v.(iv_id))) (alter (λ p, (next, rec (snd p))) next.(op_id)).

Lemma applyProgress_Ok e d (s s' : ControlDb) (u : unit) :
  applyProgress e d s = Ok (u, s') →
  ∃ v o rc rec, s.(p_instances) !! e.(aggregateId) = Some v ∧ s.(p_operations) !! e.(operationId) = Some (o, rc)
    ∧ let next := progressed_operation d e.(occurredAt) o in
      s' = applied e (alter (provisioning_row e.(occurredAt)) e.(aggregateId)) (provisioning_document e.(occurredAt) v) (progressed_row next)
             next rec s.
Proof.
  intros Hs. unfold applyProgress in Hs. cbv zeta in Hs.
  apply tbind_Ok in Hs as ([v o] & ? & (-> & Hv & rc & Ho)%lockDocuments_Ok & Hs).
  apply tbind_Ok in Hs as (? & ? & ->%updateOperation_Ok & Hs).
  apply tbind_Ok in Hs as (? & ? & ->%updateInstanceRow_Ok & Hs).
  apply writeDocuments_Ok in Hs. exists v, o, rc. eexists. split_and!; [done|done|exact Hs].
Qed.

Lemma applyFailed_Ok e d (s s' : ControlDb) (u : unit) :
  applyFailed e d s = Ok (u, s') →
  let manual := needs_review d in
  let state := if manual then "manual_review" else "failed" in
  ∃ v o rc rec, s.(p_instances) !! e.(aggregateId) = Some v ∧ s.(p_operations) !! e.(operationId) = Some (o, rc)
    ∧ let next := failed_operation state d.(failed_failure) manual e.(occurredAt) in
      s' = applied e (alter (failed_row state e.(occurredAt)) e.(aggregateId)) (failed_document state e.(occurredAt) v) next (next o) rec s.
Proof.
  intros Hs manual state. unfold applyFailed in Hs. cbv zeta in Hs.
  apply tbind_Ok in Hs as ([v o] & ? & (-> & Hv & rc & Ho)%lockDocuments_Ok & Hs).
  apply tbind_Ok in Hs as (? & ? & ->%updateInstanceRow_Ok & Hs).
  apply tbind_Ok in Hs as (? & ? & ->%updateOperation_Ok & Hs).
  apply writeDocuments_Ok in Hs. exists v, o, rc. eexists. split_and!; [done|done|exact Hs].
Qed.

(** What a completed snapshot operation settles. *)
Definition settled (a : WorkflowAction) (o : OperationView) (at_ : Z) (s : ControlDb) : ControlDb :=
  if negb (String.eqb o.(op_targetType) "snapshot") then s
  else if bool_decide (a = delete_snapshot)
  then on_snapshots (on_p_snapshots s (delete o.(op_targetId))) (delete o.(op_targetId))
  else match s.(snapshots) !! o.(op_targetId) with
       | None => s
       | Some row => let next := settled_snapshot at_ row in
           on_p_snapshots (on_snapshots s (insert o.(op_targetId) next))
             (alter (λ _, snapshot_document o.(op_targetId) next) o.(op_targetId))
       end.

Lemma settleSnapshot_Ok a o at_ (s s' : ControlDb) (u : unit) :
  settleSnapshot a o at_ s = Ok (u, s') → s' = settled a o at_ s.
Proof.
  intros Hs. unfold settleSnapshot, settled in *.
  destruct (negb _); [by injection Hs as _ <-|]. destruct (bool_decide _); [peel; done|].
  apply tbind_Ok in Hs as (? & ? & [= <- <-] & Hs). destruct (snapshots s !! op_targetId o); peel; done.
Qed.

Lemma applyCompleted_Ok e d (s s' : ControlDb) (u : unit) :
  applyCompleted e d s = Ok (u, s') →
  let at_ := e.(occurredAt) in
  ∃ v o rc rec row, s.(p_instances) !! e.(aggregateId) = Some v ∧ s.(p_operations) !! e.(operationId) = Some (o, rc)
    ∧ s.(instances) !! e.(aggregateId) = Some row
    ∧ let f := completed_row d.(completed_lifecycleState) (observedFromEvent d.(completed_observed) at_) at_ in
      s' = settled d.(completed_action) o at_
             (applied e (insert e.(aggregateId) (f row)) (completed_document (f row) at_ v) (succeeded_operation at_) (succeeded_operation at_ o) rec s).
Proof.
  intros Hs at_. unfold applyCompleted in Hs. cbv zeta in Hs.
  apply tbind_Ok in Hs as ([v o] & ? & (-> & Hv & rc & Ho)%lockDocuments_Ok & Hs).
  apply tbind_Ok in Hs as (? & ? & [= <- <-] & Hs).
  apply tbind_Ok in Hs as (row & ? & (? & Hrow & [= -> ->])%tsome_Ok & Hs).
  apply tbind_Ok in Hs as (? & ? & [= _ <-] & Hs).
  apply tbind_Ok in Hs as (? & ? & ->%updateOperation_Ok & Hs).
  apply tbind_Ok in Hs as (? & ? & ->%settleSnapshot_Ok & Hs).
  apply writeDocuments_Ok in Hs. exists v, o, rc. do 2 eexists. split_and!; [exact Hv|exact Ho|exact Hrow|].
  rewrite Hs. unfold settled, applied. cbn.
  repeat case_match; try reflexivity; cbn in *; congruence.
Qed.

(** ** Documents agree with rows *)

(** An instance and its document.  A row whose retention or purge was accepted
    runs ahead of its document until the next event. *)
Record agrees (i : string) (row : InstanceRow) (v : InstanceView) : Prop := {
  ag_id : v.(iv_id) = i;
  ag_project : v.(iv_projectId) = row.(i_project_id);
  ag_active : v.(iv_activeOperationId) = row.(i_active_operation_id);
  ag_lifecycle : v.(iv_lifecycleState) = row.(i_lifecycle_state)
    ∨ row.(i_lifecycle_state) ∈ ["deleting"; "purge_pending"] ∧ row.(i_active_operation_id) ≠ None;
}.

Record in_step (s : ControlDb) : Prop := {
  is_operations : mirrors (λ op row p, fst p = row ∧ row.(op_id) = op) s.(operations) s.(p_operations);
  is_snapshots : mirrors (λ id row v, v = snapshot_document id row) s.(snapshots) s.(p_snapshots);
  is_instances : mirrors agrees s.(instances) s.(p_instances);
}.

Lemma in_step_applied e fi f v v' g o next rc rec s :
  in_step s → fi s.(instances) = alter f e.(aggregateId) s.(instances) → s.(p_instances) !! e.(aggregateId) = Some v → s.(p_operations) !! e.(operationId) = Some (o, rc) →
  (∀ row, agrees e.(aggregateId) row v → agrees e.(aggregateId) (f row) v') → v'.(iv_id) = v.(iv_id) →
  g o = next → next.(op_id) = o.(op_id) →
  in_step (applied e fi v' g next rec s).
Proof.
  intros [Hops Hsn Hin] Hfi Hv Ho Hf Hid Hg Hop.
  destruct (mirrors_row _ _ _ _ _ Hin Hv) as (row & Hrow & Hagrees).
  destruct (mirrors_row _ _ _ _ _ Hops Ho) as (o' & Ho' & Heq & Hkey). cbn in Heq. subst o'.
  split; cbn; [|done|].
  - rewrite Hop, Hkey. apply mirrors_alter; [done|]. intros x y Hx _ [Hxy Hx'].
    rewrite Ho' in Hx. injection Hx as <-. cbn. by rewrite Hg, Hop.
  - rewrite Hfi, Hid, (ag_id _ _ _ Hagrees). apply mirrors_alter; [done|]. intros x y _ Hy Hxy.
    rewrite Hv in Hy. injection Hy as <-. by apply Hf.
Qed.

Lemma in_step_settled a o at_ s : in_step s → in_step (settled a o at_ s).
Proof.
  intros [Hops Hsn Hin]. unfold settled. repeat case_match; split; cbn; try done.
  - by apply mirrors_delete.
  - match goal with Hrow : snapshots s !! _ = Some _ |- _ => rename Hrow into Hr end.
    intros j. specialize (Hsn j). destruct (decide (op_targetId o = j)) as [Hj|]; [|by rewrite lookup_insert_ne, lookup_alter_ne].
    subst j. rewrite lookup_insert_eq, lookup_alter_eq. rewrite Hr in Hsn. inversion Hsn as [? ? ? Hx|]; subst. by constructor.
Qed.

Lemma in_step_accept c m r h s a s' : in_step s → accept c m r h s = Ok (a, s') → in_step s'.
Proof.
  intros [Hops Hsn Hin] Hs. apply accept_inv in Hs. destruct Hs as
    [m rec _ _ _|m i row w role url audit_action reason event id _ Hi Hrow Ha Hw op o a s' Ho _
    |g k x address b _ _ _ _ Hb Hi Ho Hv Hp _ _].
  - done.
  - subst s'. split; cbn.
    + by apply mirrors_insert.
    + destruct Hw; cbn; try done; [by apply mirrors_insert|].
      match goal with Hr : snapshots s !! _ = Some _ |- _ => rewrite (alter_insert_row _ _ _ _ Hr) end.
      by apply mirrors_insert.
    + apply mirrors_alter; [done|]. intros x y Hx Hy [Hid Hproject Hactive Hlife].
      rewrite Hrow in Hx. injection Hx as <-. destruct Ha as [Hidle _].
      destruct Hlife as [Hlife|[_ Hbusy]]; [|congruence].
      destruct Hw; split; cbn; try done; auto; right; split; try done; set_solver.
  - apply build_Ok in Hb as (Hacc & Hop & _ & (Hid & Hactive & Hproject & Hlife) & _).
    split; cbn; [| |].
    + by apply mirrors_insert.
    + done.
    + apply mirrors_insert; [done|]. split; cbn; [done|done|done|by left].
Qed.

(** Projecting an event keeps the documents in step. *)
Lemma in_step_event e s s' : in_step s → applyEvent e s = Ok (tt, s') → in_step s'.
Proof.
  intros HI Hs. unfold applyEvent in Hs. destruct (data e) as [d|d|d|d|d].
  - apply applyProgress_Ok in Hs as (v & o & rc & rec & Hv & Ho & ->).
    eapply in_step_applied; [done|reflexivity|done..| | | |]; try done. intros row [Hid Hproject Hactive _]. split; cbn; try done. by left.
  - apply applyCompleted_Ok in Hs as (v & o & rc & rec & row & Hv & Ho & Hrow & ->).
    apply in_step_settled. eapply in_step_applied; [done|by rewrite (alter_insert_row _ _ _ _ Hrow)|done..| | | |]; try done. intros row0 [Hid Hproject Hactive _].
    destruct (mirrors_row _ _ _ _ _ (is_instances _ HI) Hv) as (row' & Hrow' & [_ Hp _ _]).
    rewrite Hrow in Hrow'. injection Hrow' as <-. split; cbn; try done. by left.
  - apply applyFailed_Ok in Hs as (v & o & rc & rec & Hv & Ho & ->).
    eapply in_step_applied; [done|reflexivity|done..| | | |]; try done. intros row [Hid Hproject Hactive _]. split; cbn; try done. by left.
  - unfold applyReplayResolved in Hs. destruct HI. peel. case_match; peel; by split.
  - done.
Qed.

(** The tables of the two models. *)
Definition models (s : ControlDb) :=
  (s.(instances), s.(operations), s.(snapshots), (s.(p_instances), s.(p_operations), s.(p_snapshots))).
Definition same_models (s s' : ControlDb) : Prop := models s' = models s.
#[local] Instance same_models_preorder : PreOrder same_models.
Proof. split; [by intros ?|intros ? ? ? H12 H23; unfold same_models in *; congruence]. Qed.
#[local] Hint Extern 1 (keeps same_models (tmodify _)) =>
  apply keeps_modify; intros ?; cbv beta; repeat case_match; reflexivity : program.

Lemma in_step_same s s' : same_models s s' → in_step s → in_step s'.
Proof. intros [= H1 H2 H3 H4 H5 H6] []. by split; rewrite ?H1, ?H2, ?H3, ?H4, ?H5, ?H6. Qed.

Lemma same_models_receipt consumer event d : keeps same_models (insertReceipt consumer event d).
Proof. unfold insertReceipt. keeps_steps. Qed.
#[local] Hint Resolve same_models_receipt : program.

(** The transactions that touch neither model. *)
Lemma same_models_body c t :
  match t with ReleaseLease _ _ | RequestReplay _ _ _ | Quarantine _ _ _ _ _ => True | _ => False end →
  keeps same_models (body c t).
Proof.
  destruct t; intros []; simpl; unfold releaseIpv4Lease, requestDeadLetterReplay, quarantineProjection,
    writeControlAudit, writeControlOutbox; keeps_steps.
Qed.

Lemma same_models_resolved d : keeps same_models (applyReplayResolved d).
Proof. unfold applyReplayResolved. keeps_steps. Qed.

(** A receipt, and then the event unless it was a duplicate. *)
Lemma receipt_then {A : Type} consumer event d (m : ctx A) s b s' (dup : A) :
  tbind (insertReceipt consumer event d) (λ fresh, if negb fresh then tret dup else m) s = Ok (b, s') →
  same_models s s' ∨ ∃ s1, same_models s s1 ∧ m s1 = Ok (b, s').
Proof.
  intros (fresh & s1 & Hr & Hs)%tbind_Ok. pose proof (same_models_receipt _ _ _ _ _ _ Hr) as Hsame.
  destruct fresh; [right; by exists s1|left]. by injection Hs as _ <-.
Qed.

(** The documents agree with the rows on what reconciliation leaves alone. *)
Lemma in_step_reports s s' : only_reports s s' → in_step s → in_step s'.
Proof.
  intros Hr [Ho Hsn Hi]. destruct Hr. injection or_documents as Hpi Hpo Hps _. split.
  - by rewrite or_operations, Hpo.
  - by rewrite or_snapshots, Hps.
  - intros i. specialize (Hi i). apply (f_equal (lookup i)) in or_instances. rewrite !lookup_fmap in or_instances.
    rewrite Hpi. destruct (instances s' !! i) as [row'|], (instances s !! i) as [row|]; try done.
    inversion Hi as [? v Ha Heq1 Heq2|]; subst. constructor. injection or_instances. intros. destruct Ha.
    split; congruence || (repeat match goal with E : _ = _ row |- _ => rewrite E end; done).
Qed.

Lemma in_step_body c t s s' : in_step s → body c t s = Ok (tt, s') → in_step s'.
Proof.
  intros HI Hs. destruct t as [m r h|i mode|i|r k h|e d|e d delivery|e d|d hash code_ message event|w locked scan limit stale|trace o];
    try (eapply in_step_reports; [|exact HI]; eapply reconciler_reports; [|exact Hs]; exact I);
    try (eapply in_step_same; [|exact HI]; by eapply same_models_body in Hs).
  all: cbv beta iota delta [body] in Hs; apply tbind_Ok in Hs as (x & s1 & Hx & Hs); injection Hs as ->.
  - by eapply in_step_accept.
  - unfold requestReconciliation in Hx. peel. destruct HI. split; cbn; [done..|].
    apply mirrors_alter_l; [done|]. intros row v _ []. by split.
  - apply receipt_then in Hx as [Hsame|(s0 & Hsame & Hx)]; [by eapply in_step_same|].
    apply tbind_Ok in Hx as ([] & s2 & Hx & Hs). injection Hs as _ ->.
    eapply in_step_event; [|done]. by eapply in_step_same.
  - apply receipt_then in Hx as [Hsame|(s0 & Hsame & Hx)]; [by eapply in_step_same|].
    apply (in_step_same _ _ Hsame) in HI. peel. destruct HI. split; cbn; [|done..].
    apply mirrors_alter_r; [done|]. by intros row v _ [<- <-].
  - apply receipt_then in Hx as [Hsame|(s0 & Hsame & Hx)]; [by eapply in_step_same|].
    apply (in_step_same _ _ Hsame) in HI. peel. destruct HI. case_match; split; cbn; try done.
    apply mirrors_alter_r; [done|]. intros row v _ []. by split.
Qed.

End readmodel.

Lemma empty_in_step : in_step empty_control.
Proof. split; apply mirrors_empty. Qed.
