(* ===== verification/ControlSafety.v ===== *)
(** * Exactly-once projection

    Once an event has been projected, every redelivery of it, after any
    history, is a duplicate that changes nothing. *)
From S2P Require Import Prelude JsText Json SshKey Domain Ipv4 WorkflowStage Events EventValidation Platform WorkflowStore ControlDb AcceptStore AcceptCreate Control Projection ControlHistory Acceptance.
From Stdlib Require Import ZArith Lia Bool Ascii String.
From stdpp Require Import base decidable list strings gmap.
Open Scope string_scope.
Open Scope Z_scope.
Open Scope prog_scope.

Section safety.
Context `{Platform}.

(** ** Receipts *)

(** A projection of [e] that committed. *)
Inductive projected : string * string * Z → ControlDb → ControlDb → Prop :=
| projected_event e d s x s' :
    applyWorkflowEvent e d s = Ok (x, s') →
    projected (EVENT_CONSUMER_NAME, e.(envelope).(eventId), d.(replayGeneration)) s s'
| projected_dead_letter e d delivery s x s' :
    applyDeadLetterEvent e d delivery s = Ok (x, s') →
    projected (DLQ_CONSUMER_NAME, e.(eventId), delivery.(replayGeneration)) s s'
| projected_drift e d s x s' :
    applyDriftEvent e d s = Ok (x, s') →
    projected (DRIFT_CONSUMER_NAME, e.(envelope).(eventId), d.(replayGeneration)) s s'.

(** C20: Exactly-once projection.  Once a workflow event, dead letter or drift
    finding has been projected, then after any history every redelivery of the
    same event and generation to the same consumer, whatever its source
    coordinates and content, is reported as a duplicate and changes nothing. *)
Theorem projection_is_exactly_once key s s' (later : list (Call * Transaction))
    (Hfirst : projected key s s') :
  (∀ e d, key = (EVENT_CONSUMER_NAME, e.(envelope).(eventId), d.(replayGeneration)) →
     applyWorkflowEvent e d (run later s') = Ok (false, run later s'))
  ∧ (∀ e d delivery, key = (DLQ_CONSUMER_NAME, e.(eventId), delivery.(replayGeneration)) →
     applyDeadLetterEvent e d delivery (run later s') = Ok (false, run later s'))
  ∧ (∀ e d, key = (DRIFT_CONSUMER_NAME, e.(envelope).(eventId), d.(replayGeneration)) →
     applyDriftEvent e d (run later s') = Ok (false, run later s')).
Proof.
  assert (Hr : received (fst (fst key)) (snd (fst key)) (snd key) (run later s')).
  { apply received_run. destruct Hfirst;
      [by eapply workflow_received|by eapply dead_letter_received|by eapply drift_received]. }
  split_and!; intros; subst key; by apply received_twice.
Qed.
End safety.

Lemma projection_is_exactly_once_witness :
  let e := sample_event "e1" "1-0" "1-1" "p1" 2 (completed_data create_instance "active") in
  let x := applyWorkflowEvent (H := sample_platform) e (sample_event_delivery "0") (sample_run [create_step 1 "p1" "k1"]) in
  let s' := match x with Ok (_, s) => s | Err _ => empty_control end in
  is_ok x = true
  ∧ applyWorkflowEvent (H := sample_platform) e (sample_event_delivery "9") (run (H := sample_platform) [] s')
    = Ok (false, run (H := sample_platform) [] s').
Proof.
  intros e x s'. assert (Hx : is_ok x = true) by (vm_compute; reflexivity). split; [exact Hx|].
  assert (Hok : ∃ b, x = Ok (b, s')) by (unfold s'; destruct x as [[b ?]|]; [by exists b|discriminate Hx]).
  destruct Hok as [b Hok].
  exact (proj1 (projection_is_exactly_once (H := sample_platform) _ _ s' []
    (projected_event (H := sample_platform) e (sample_event_delivery "0") _ b s' Hok)) e (sample_event_delivery "9") eq_refl).
Defined.
