(* ===== verification/Addresses.v ===== *)
(** * Addresses

    Leases through every history: an occupied address belongs to one instance,
    a lease keeps its address and only moves towards release, and nothing but
    [releaseIpv4Lease] frees a quarantined address. *)
From S2P Require Import Prelude JsText Json SshKey Domain Ipv4 WorkflowStage Events EventValidation Platform WorkflowStore ControlDb AcceptStore AcceptCreate Reconciliation Control Projection ControlHistory Acceptance.
From Stdlib Require Import ZArith Lia Bool Ascii String.
From stdpp Require Import base decidable list strings gmap.
Open Scope string_scope.
Open Scope Z_scope.
Open Scope prog_scope.

(** ** One lease *)

(** A lease's later versions. *)
Record moves (l l' : AddressLease) : Prop := {
  mv_address : l'.(al_address) = l.(al_address);
  mv_network : l'.(al_network_id) = l.(al_network_id);
  mv_project : l'.(al_project_id) = l.(al_project_id);
  mv_order : lease_order l.(al_state) ≤ lease_order l'.(al_state);
}.
#[local] Instance moves_preorder : PreOrder moves.
Proof. split; [by split|]. intros l1 l2 l3 [] []. split; [congruence..|lia]. Qed.

Lemma moves_occupies l l' : moves l l' → occupies l' = true → occupies l = true.
Proof.
  intros [_ _ _ Ho]. unfold occupies. rewrite !negb_true_iff, !bool_decide_eq_false.
  intros Hne Heq. apply Hne. rewrite Heq in Ho. by destruct (al_state l').
Qed.

Lemma moves_end_lease c mode l : moves l (end_lease c mode l).
Proof.
  unfold end_lease. case_bool_decide as Hs; [|reflexivity]. split; try done. rewrite Hs. by destruct mode.
Qed.
Lemma moves_move_lease c to l : lease_order l.(al_state) ≤ lease_order to → moves l (move_lease c to l).
Proof. by split. Qed.

Lemma occupied_spec n s a :
  a ∈ occupied_addresses n s ↔
  ∃ i l, s.(ipv4_leases) !! i = Some l ∧ occupies l = true ∧ l.(al_network_id) = n ∧ l.(al_address) = a.
Proof.
  unfold occupied_addresses. rewrite list_elem_of_In, in_map_iff. split.
  - intros (l & <- & Hl). apply filter_In in Hl as [Hl [Hn Ho]%andb_prop]. apply in_map_iff in Hl as ([i l'] & Heq & Hl).
    cbn in Heq. subst l'. exists i, l. apply list_elem_of_In, elem_of_map_to_list in Hl. by apply String.eqb_eq in Hn.
  - intros (i & l & Hl & Ho & <- & <-). exists l. split; [done|]. apply filter_In. rewrite String.eqb_refl, Ho.
    split; [|done]. apply in_map_iff. exists (i, l). split; [done|]. by apply list_elem_of_In, elem_of_map_to_list.
Qed.

(** ** All leases *)

Definition exclusive (s : ControlDb) : Prop :=
  ∀ i j l k, s.(ipv4_leases) !! i = Some l → s.(ipv4_leases) !! j = Some k →
  occupies l = true → occupies k = true → l.(al_network_id) = k.(al_network_id) → l.(al_address) = k.(al_address) →
  i = j.
Definition leases_move (s s' : ControlDb) : Prop :=
  ∀ i l, s.(ipv4_leases) !! i = Some l → ∃ l', s'.(ipv4_leases) !! i = Some l' ∧ moves l l'.
#[local] Instance leases_move_preorder : PreOrder leases_move.
Proof.
  split.
  - intros s i l Hl. by exists l.
  - intros s1 s2 s3 H12 H23 i l Hl. destruct (H12 i l Hl) as (l2 & Hl2 & Hm). destruct (H23 i l2 Hl2) as (l3 & Hl3 & Hm').
    exists l3. split; [done|by etrans].
Qed.

(** Leases that only move stay exclusive. *)
Lemma exclusive_moved (s s' : ControlDb) :
  (∀ i l', s'.(ipv4_leases) !! i = Some l' → ∃ l, s.(ipv4_leases) !! i = Some l ∧ moves l l') →
  exclusive s → exclusive s'.
Proof.
  intros Hm He i j l' k' Hl' Hk' Ho Ho' Hn Ha.
  destruct (Hm i l' Hl') as (l & Hl & Hml), (Hm j k' Hk') as (k & Hk & Hmk).
  eapply (He i j l k); eauto using moves_occupies.
  - by rewrite <- (mv_network _ _ Hml), <- (mv_network _ _ Hmk).
  - by rewrite <- (mv_address _ _ Hml), <- (mv_address _ _ Hmk).
Qed.

Section addresses.
Context `{Platform}.

(** What a transaction may do to the leases. *)
Inductive lease_step (t : Transaction) (s s' : ControlDb) : Prop :=
| lease_same : s'.(ipv4_leases) = s.(ipv4_leases) → lease_step t s s'
| lease_new i l : s.(ipv4_leases) !! i = None → l.(al_address) ∉ occupied_addresses l.(al_network_id) s →
    s'.(ipv4_leases) = <[i := l]> s.(ipv4_leases) → lease_step t s s'
| lease_ended c i mode : s'.(ipv4_leases) = alter (end_lease c mode) i s.(ipv4_leases) → lease_step t s s'
| lease_let_go c i mode to l :
    t = ReleaseLease i mode → s.(ipv4_leases) !! i = Some l → lease_order l.(al_state) ≤ lease_order to →
    s'.(ipv4_leases) = <[i := move_lease c to l]> s.(ipv4_leases) → lease_step t s s'.

Definition same_leases (s s' : ControlDb) : Prop := s'.(ipv4_leases) = s.(ipv4_leases).
#[local] Instance same_leases_preorder : PreOrder same_leases.
Proof. split; [by intros ?|intros ? ? ? H12 H23; unfold same_leases in *; congruence]. Qed.
#[local] Hint Extern 1 (keeps same_leases (tmodify _)) =>
  apply keeps_modify; intros ?; cbv beta; repeat case_match; reflexivity : program.

Lemma same_leases_body c t :
  match t with Accept _ _ _ | ReleaseLease _ _ => False | _ => True end → keeps same_leases (body c t).
Proof.
  destruct t; intros []; try (intros s u s' Hs; eapply or_leases, reconciler_reports; [|exact Hs]; exact I);
    simpl; unfold requestReconciliation, requestDeadLetterReplay, applyWorkflowEvent,
    applyDeadLetterEvent, applyDriftEvent, quarantineProjection, applyEvent, applyProgress, applyCompleted, applyFailed,
    applyReplayResolved, lockDocuments, writeDocuments, updateOperation, updateInstanceRow, settleSnapshot,
    insertReceipt, writeControlAudit, writeControlOutbox; keeps_steps.
Qed.

Lemma lease_step_accept c m r h s a s' : accept c m r h s = Ok (a, s') → lease_step (Accept m r h) s s'.
Proof.
  intros Hs. apply accept_inv in Hs. destruct Hs as
    [m rec _ _ _|m i row w role url audit_action reason event id _ Hi Hrow Ha Hw op o a s' Ho _
    |g k x address b _ _ _ _ Hb Hi Ho Hv Hp Hl Hfree].
  - by apply lease_same.
  - destruct Hw; first [by apply lease_same|by eapply lease_ended].
  - eapply lease_new; [exact Hl| |reflexivity]. exact Hfree.
Qed.

Lemma lease_step_body c t s s' : body c t s = Ok (tt, s') → lease_step t s s'.
Proof.
  intros Hs. destruct t as [m r h|i mode|i|r k h|e d|e d delivery|e d|d hash code_ message event|w locked scan limit stale|trace o];
    try (apply lease_same; by eapply same_leases_body in Hs).
  all: cbv beta iota delta [body] in Hs; apply tbind_Ok in Hs as (x & s1 & Hx & Hs); injection Hs as ->.
  - by eapply lease_step_accept.
  - unfold releaseIpv4Lease in Hx. apply tbind_Ok in Hx as (? & ? & [= <- <-] & Hx).
    destruct (ipv4_leases s !! i) as [l|] eqn:Hl; [|injection Hx as _ <-; by apply lease_same].
    destruct (_ <=? _) eqn:Ho; [injection Hx as _ <-; by apply lease_same|]. unbool.
    peel. eapply (lease_let_go _ _ _ c i mode _ l); [done|done| |reflexivity]. by apply Z.lt_le_incl.
Qed.

Lemma lease_step_moves t s s' : lease_step t s s' → leases_move s s'.
Proof.
  intros Hstep i l Hl. destruct Hstep as [Heq|j k Hj _ Heq|c j mode Heq|c j mode to k _ Hk Ho Heq]; rewrite Heq.
  - by exists l.
  - rewrite lookup_insert_ne by congruence. by exists l.
  - destruct (decide (j = i)) as [->|]; [|rewrite lookup_alter_ne by done; by exists l].
    rewrite lookup_alter_eq, Hl. eexists. split; [done|apply moves_end_lease].
  - destruct (decide (j = i)) as [->|]; [|rewrite lookup_insert_ne by done; by exists l].
    rewrite lookup_insert_eq. simplify_eq. eexists. split; [done|by apply moves_move_lease].
Qed.

Lemma lease_step_exclusive t s s' : lease_step t s s' → exclusive s → exclusive s'.
Proof.
  intros Hstep. destruct Hstep as [Heq|i l Hi Hfree Heq|c i mode Heq|c i mode to l _ Hl Ho Heq].
  - apply exclusive_moved. rewrite Heq. intros j l Hl. by exists l.
  - intros He j1 j2 l1 l2 Hl1 Hl2 Ho1 Ho2 Hn Ha. rewrite Heq in Hl1, Hl2.
    apply lookup_insert_Some in Hl1 as [[<- <-]|[Hj1 Hl1]], Hl2 as [[<- <-]|[Hj2 Hl2]]; [done|..|by eapply He].
    + destruct Hfree. apply occupied_spec. rewrite Ha, Hn. by exists j2, l2.
    + destruct Hfree. apply occupied_spec. rewrite <- Ha, <- Hn. by exists j1, l1.
  - apply exclusive_moved. rewrite Heq. intros j l' [(<- & l & Hl & ->)|[Hne Hl]]%lookup_alter_Some.
    + exists l. split; [done|apply moves_end_lease].
    + by exists l'.
  - apply exclusive_moved. rewrite Heq. intros j l' [[<- <-]|[Hne Hl']]%lookup_insert_Some.
    + exists l. split; [done|by apply moves_move_lease].
    + by exists l'.
Qed.

(** C21: Addresses are exclusive.  In every history, two instances never occupy
    the same address of a network, with an active or a quarantined lease; and
    every lease keeps its address, network and project, and its state only
    moves forward, from active through quarantined to released. *)
Theorem addresses_are_exclusive (h : list (Call * Transaction)) (s : ControlDb) (Hs : exclusive s) :
  exclusive (run h s) ∧ leases_move s (run h s).
Proof.
  apply (run_invariant (λ s', exclusive s' ∧ leases_move s s')); [|by split].
  intros c t s1 s2 [He Hm] Hstep%lease_step_body. split.
  - by eapply lease_step_exclusive.
  - etrans; [done|by eapply lease_step_moves].
Qed.

(** ** Quarantine *)

Definition frees (t : Transaction) : Prop := match t with ReleaseLease _ _ => True | _ => False end.

Lemma quarantine_step t s s' i l :
  ¬ frees t → lease_step t s s' → s.(ipv4_leases) !! i = Some l → l.(al_state) = lease_quarantined →
  s'.(ipv4_leases) !! i = Some l.
Proof.
  intros Ht Hstep Hl Hq. destruct Hstep as [Heq|j k Hj _ Heq|c j mode Heq|c j mode to k -> _ _ _]; [rewrite Heq..|by destruct Ht].
  - done.
  - by rewrite lookup_insert_ne by congruence.
  - destruct (decide (j = i)) as [->|]; [|by rewrite lookup_alter_ne].
    rewrite lookup_alter_eq, Hl. cbn. unfold end_lease. by rewrite Hq.
Qed.

(** A quarantined address is never given back.  Only [releaseIpv4Lease] can
    free a quarantined address, and no accepted mutation and no projected event
    calls it: whatever history follows, the completed purge of its instance
    included, the address stays occupied and no create can get it. *)
Theorem quarantined_address_stays (h : list (Call * Transaction)) (s : ControlDb) (i : string) (l : AddressLease)
    (Hl : s.(ipv4_leases) !! i = Some l) (Hq : l.(al_state) = lease_quarantined)
    (Hh : Forall (λ ct, ¬ frees (snd ct)) h) :
  (run h s).(ipv4_leases) !! i = Some l
  ∧ l.(al_address) ∈ occupied_addresses l.(al_network_id) (run h s).
Proof.
  assert (Hkept : (run h s).(ipv4_leases) !! i = Some l).
  { revert s Hl. induction Hh as [|[c t] h Ht _ IH]; intros s Hl; [done|]. cbn. apply IH.
    destruct (step_cases c t s) as [->|Hs]; [done|]. apply lease_step_body in Hs. by eapply quarantine_step. }
  split; [done|]. apply occupied_spec. exists i, l. split_and!; try done. unfold occupies. by rewrite Hq.
Qed.
End addresses.

(** A retained instance whose retention has expired, purged. *)
Definition purge_request : Request := sample_request "p1" "k3".
Definition retained_db : ControlDb :=
  run (H := sample_platform)
    [(sample_call 3, Accept (Retain "1-0") (sample_request "p1" "k2") "hash");
     event_step 4 "e2" "1-0" "3-0" "p1" (completed_data retain_instance "retained")] active_db.
Definition purge_history : list (Call * Transaction) :=
  [(sample_call 90000000, Accept (Purge "1-0" "1-0") purge_request "hash");
   event_step 90000001 "e3" "1-0" "90000000-0" "p1" (completed_data purge_instance "purged")].

Lemma addresses_are_exclusive_witness : exclusive retained_db ∧ leases_move empty_control active_db.
Proof.
  assert (He : exclusive empty_control).
  { intros i j l k Hl. change ((∅ : gmap string AddressLease) !! i = Some l) in Hl. by rewrite lookup_empty in Hl. }
  destruct (addresses_are_exclusive (H := sample_platform) [create_step 1 "p1" "k1";
    event_step 2 "e1" "1-0" "1-1" "p1" (completed_data create_instance "active")] empty_control He) as [Ha Hm].
  split; [|exact Hm].
  exact (proj1 (addresses_are_exclusive (H := sample_platform)
    [(sample_call 3, Accept (Retain "1-0") (sample_request "p1" "k2") "hash");
     event_step 4 "e2" "1-0" "3-0" "p1" (completed_data retain_instance "retained")] active_db Ha)).
Defined.

Lemma quarantined_address_stays_witness :
  let s := run (H := sample_platform) purge_history retained_db in
  i_lifecycle_state <$> s.(instances) !! "1-0" = Some "purged"
  ∧ al_state <$> s.(ipv4_leases) !! "1-0" = Some lease_quarantined
  ∧ ∃ n a, a ∈ occupied_addresses n s.
Proof.
  intros s. split; [vm_compute; reflexivity|].
  destruct (retained_db.(ipv4_leases) !! "1-0") as [l|] eqn:El; [|vm_compute in El; discriminate El].
  assert (Hq : al_state l = lease_quarantined).
  { assert (Hq : al_state <$> retained_db.(ipv4_leases) !! "1-0" = Some lease_quarantined) by (vm_compute; reflexivity).
    rewrite El in Hq. by injection Hq. }
  destruct (quarantined_address_stays (H := sample_platform) purge_history retained_db "1-0" l El Hq) as [Hk Ho].
  { constructor; [exact (λ f, f)|constructor; [exact (λ f, f)|constructor]]. }
  split; [change (al_state <$> s.(ipv4_leases) !! "1-0" = Some lease_quarantined);
    rewrite (Hk : s.(ipv4_leases) !! "1-0" = Some l); exact (f_equal Some Hq)|].
  exists (al_network_id l), (al_address l). exact Ho.
Defined.
