(* ===== verification/Quota.v ===== *)
(** * Quota

    The usage of a project as sums over its rows, how one row's change moves
    them, and what an acceptance may do to it: one that measured and wrote with
    nothing in between leaves every project within its quota, and one that
    measured before others committed exceeds it by what they were charged. *)
From S2P Require Import Prelude JsText Json SshKey Domain Ipv4 WorkflowStage Events EventValidation Platform WorkflowStore ControlDb AcceptStore AcceptCreate Control Projection ControlHistory Acceptance.
From Stdlib Require Import ZArith Lia Bool Ascii String Permutation.
From stdpp Require Import base decidable list strings gmap.
Open Scope string_scope.
Open Scope Z_scope.
Open Scope prog_scope.

(** ** Sums over a table *)

Section tally.
Context {A : Type} (g : A → Z).

Definition tally (m : gmap string A) : Z := map_fold (λ _ x n, g x + n) 0 m.

Lemma tally_insert (m : gmap string A) (i : string) (x : A) :
  m !! i = None → tally (<[i := x]> m) = g x + tally m.
Proof. intros Hi. unfold tally. rewrite map_fold_insert_L; [done| |done]. intros. lia. Qed.

Lemma tally_split (m : gmap string A) (i : string) (x : A) :
  m !! i = Some x → tally m = g x + tally (delete i m).
Proof. intros Hi. rewrite <- (insert_delete_id m i x Hi) at 1. by rewrite tally_insert by apply lookup_delete_eq. Qed.

Lemma tally_alter (f : A → A) (m : gmap string A) (i : string) (x : A) :
  m !! i = Some x → tally (alter f i m) = tally m - g x + g (f x).
Proof.
  intros Hi. rewrite (alter_insert_row _ _ _ _ Hi), <- insert_delete_eq, tally_insert by apply lookup_delete_eq.
  rewrite (tally_split m i x Hi). lia.
Qed.

(** A sum over the rows a filter keeps. *)
Lemma tally_rows (p : A → bool) (v : A → Z) (m : gmap string A) :
  (∀ x, g x = if p x then v x else 0) →
  tally m = List.fold_right (λ x n, v x + n) 0 (List.filter p (map snd (map_to_list m))).
Proof.
  intros Hg. unfold tally. rewrite map_fold_foldr. induction (map_to_list m) as [|[i x] l IH]; [done|]. cbn.
  rewrite Hg, IH. by destruct (p x).
Qed.
End tally.

(** ** Usage *)

Definition row_cpu (project : string) (row : InstanceRow) : Z := if charged project row then row.(i_desired_cpu_count) else 0.
Definition row_memory (project : string) (row : InstanceRow) : Z := if charged project row then row.(i_desired_memory_mib) else 0.
Definition row_disk (project : string) (row : InstanceRow) : Z := if charged project row then row.(i_desired_disk_gib) else 0.
Definition row_count (project : string) (row : InstanceRow) : Z := if charged project row then 1 else 0.
Definition row_snapshot (project : string) (row : SnapshotRow) : Z := if counted project row then 1 else 0.

Lemma length_sum {A : Type} (l : list A) : List.fold_right (λ _ n, 1 + n) 0 l = Z.of_nat (List.length l).
Proof. induction l as [|x l IH]; [done|]. cbn [List.fold_right List.length]. rewrite IH. lia. Qed.

Lemma usage_tally project s :
  usage project s = {| cpuCount := tally (row_cpu project) s.(instances);
                       memoryMiB := tally (row_memory project) s.(instances);
                       diskGiB := tally (row_disk project) s.(instances) |}.
Proof.
  unfold usage, charged_instances.
  rewrite (tally_rows (row_cpu project) (charged project) i_desired_cpu_count) by done.
  rewrite (tally_rows (row_memory project) (charged project) i_desired_memory_mib) by done.
  rewrite (tally_rows (row_disk project) (charged project) i_desired_disk_gib) by done.
  induction (List.filter _ _) as [|row l IH]; [done|]. cbn. by rewrite IH.
Qed.

Lemma count_tally project s : Z.of_nat (List.length (charged_instances project s)) = tally (row_count project) s.(instances).
Proof. unfold charged_instances. rewrite (tally_rows _ (charged project) (λ _, 1)) by done. by rewrite length_sum. Qed.
Lemma snapshots_tally project (m : gmap string SnapshotRow) :
  Z.of_nat (List.length (List.filter (counted project) (map snd (map_to_list m)))) = tally (row_snapshot project) m.
Proof. rewrite (tally_rows _ (counted project) (λ _, 1)) by done. by rewrite length_sum. Qed.

(** ** Within quota *)

(** The limits acceptance enforces for a project. *)
Inductive dimension : Set := instance_count | cpu | memory | disk | snapshot_count.
Definition used (d : dimension) (project : string) (s : ControlDb) : Z :=
  match d with
  | instance_count => Z.of_nat (List.length (charged_instances project s))
  | cpu => (usage project s).(cpuCount)
  | memory => (usage project s).(memoryMiB)
  | disk => (usage project s).(diskGiB)
  | snapshot_count => Z.of_nat (List.length (List.filter (counted project) (map snd (map_to_list s.(snapshots)))))
  end.
Definition allowed (d : dimension) (q : QuotaRow) : Z :=
  match d with
  | instance_count => q.(qt_instances) | cpu => q.(qt_cpu_count) | memory => q.(qt_memory_mib) | disk => q.(qt_disk_gib)
  | snapshot_count => q.(qt_snapshots)
  end.

(** What one row adds to each. *)
Definition row_used (d : dimension) (project : string) : InstanceRow → Z :=
  match d with
  | instance_count => row_count project | cpu => row_cpu project | memory => row_memory project | disk => row_disk project
  | snapshot_count => λ _, 0
  end.
Lemma tally_zero {A : Type} (m : gmap string A) : tally (λ _, 0) m = 0.
Proof. unfold tally. by induction m as [|i x m Hi Hm IH] using map_first_key_ind; [|rewrite map_fold_insert_first_key]. Qed.
Lemma used_tally d project s :
  used d project s
  = match d with snapshot_count => tally (row_snapshot project) s.(snapshots) | _ => tally (row_used d project) s.(instances) end.
Proof. destruct d; cbn [used row_used]; by rewrite ?usage_tally, ?count_tally, ?snapshots_tally. Qed.

(** ** An acceptance between other transactions *)

Section quota.
Context `{Platform} (c : Call).

(** The mutations that are charged, in the two parts of their transaction. *)
Inductive Measured : Type :=
| Measured_create (x : AcceptanceContext)
| Measured_resize (row : InstanceRow) (wanted : Sizing)
| Measured_snapshot (row : InstanceRow).
Definition measure (m : Mutation) (r : Request) : option (ctx Measured) :=
  match m with
  | Create _ k => Some (let! x := measureCreate r k in tret (Measured_create x))
  | Resize i f d => Some (let! x := measureResize r i f d in tret (Measured_resize (fst x) (snd x)))
  | TakeSnapshot i _ => Some (let! row := measureSnapshot r i in tret (Measured_snapshot row))
  | _ => None
  end.
Definition commit (m : Mutation) (r : Request) (h : string) (x : Measured) : ctx AcceptedMutation :=
  match m, x with
  | Create g k, Measured_create x => commitCreate c g r k h x
  | Resize i f _, Measured_resize row wanted => commitResize c r i f h (row, wanted)
  | TakeSnapshot i k, Measured_snapshot row => commitSnapshot c r i k h row
  | _, _ => tthrow (Fault "unreachable")
  end.

(** The statements of a READ COMMITTED transaction see what had been committed
    when each began: the measurement sees [seen], the writes after it [now]. *)
Definition accept_amid (m : Mutation) (r : Request) (h : string) (seen now : ControlDb) :
    result error (AcceptedMutation * ControlDb) :=
  match measure m r with
  | None => accept c m r h now
  | Some measured =>
      let? previous := findReplayedResponse r (action_of m) h seen in
      match fst previous with
      | Some a => Ok (a, now)
      | None => let? x := measured seen in commit m r h (fst x) now
      end
  end.

(** What the locks it holds keep from changing: the row of its instance; and
    the catalog, which no transaction of the stores writes. *)
Definition held (m : Mutation) (seen now : ControlDb) : Prop :=
  now.(catalog) = seen.(catalog)
  ∧ ∀ i, instance_of m = Some i → now.(instances) !! i = seen.(instances) !! i.

(** With nothing in between it is the transaction that runs alone. *)
Lemma accept_amid_alone (m : Mutation) (r : Request) (h : string) (s : ControlDb) : accept_amid m r h s s = accept c m r h s.
Proof.
  destruct m as [g k|i a|i f d|i|i k|u i sn|i confirmation]; try done; unfold accept_amid; cbn [measure accept action_of];
    unfold acceptCreate, acceptResize, acceptSnapshotCreate, or_replayed, tbind;
    destruct (findReplayedResponse r _ h s) as [[[a|] s1]|e] eqn:E; cbn [rbind fst]; try done.
  all: assert (s1 = s) as -> by (unfold findReplayedResponse in E; apply tbind_Ok in E as (? & ? & [= <- <-] & E);
    destruct (idempotency_records s !! _); peel; done); try done.
  - destruct (measureCreate r k s) as [[x s1]|] eqn:Em; [|done]. by apply measureCreate_Ok in Em as [-> _].
  - destruct (measureResize r i f d s) as [[[row wanted] s1]|] eqn:Em; [|done]. by apply measureResize_Ok in Em as [-> _].
  - destruct (measureSnapshot r i s) as [[row s1]|] eqn:Em; [|done]. by apply measureSnapshot_Ok in Em as [-> _].
Qed.

(** ** How the tallies move *)

Lemma used_alter d project (s s' : ControlDb) i row f :
  s.(instances) !! i = Some row → s'.(instances) = alter f i s.(instances) → s'.(snapshots) = s.(snapshots) →
  used d project s' = used d project s - row_used d project row + row_used d project (f row).
Proof.
  intros Hrow Hi Hsn. rewrite !used_tally, Hi, Hsn. destruct d; try apply (tally_alter _ _ _ _ _ Hrow). cbn. lia.
Qed.
Lemma row_used_same d project row row' :
  charged project row' = charged project row → desired_sizing row' = desired_sizing row →
  row_used d project row' = row_used d project row.
Proof. intros Hc [= H1 H2 H3]. destruct d; cbn; unfold row_count, row_cpu, row_memory, row_disk; by rewrite ?Hc, ?H1, ?H2, ?H3. Qed.

(** An accepted mutation keeps what its instance is charged under. *)
Lemma writes_charged s r row m w project :
  admits c m r row → writes c s r row m w → charged project (wr_occupy w row) = charged project row.
Proof.
  intros [_ Ha] Hw. unfold charged. destruct Hw; cbn in *; try done.
  - destruct Ha as [_ Ha]. apply list_elem_of_In in Ha. destruct Ha as [<-|[<-|[]]]; done.
  - by destruct Ha as (_ & -> & _).
Qed.

(** A mutation that is not measured charges nothing. *)
Lemma unmeasured_charges_nothing m r h s s' a d project :
  measure m r = None → accept c m r h s = Ok (a, s') → used d project s' = used d project s.
Proof.
  intros Hm Hs. apply accept_inv in Hs. destruct Hs as
    [m rec _ _ _|m i row w role url audit_action reason event id _ Hi Hrow Ha Hw op o a s' Ho _
    |g k x address b _ Hx Hroom _ Hb Hi Ho Hv Hp Hl Hfree]; [done| |done].
  pose proof (writes_charged _ _ _ _ _ project Ha Hw) as Hc. rewrite !used_tally. cbn [committed occupied instances snapshots].
  assert (Hsame : row_used d project (wr_occupy w row) = row_used d project row).
  { apply row_used_same; [done|]. by destruct Hw. }
  assert (Hsn : tally (row_snapshot project) (wr_snapshots w s.(snapshots)) = tally (row_snapshot project) s.(snapshots)).
  { destruct Hw as [| | | |u j id' sn Hsn _ Hst|]; try done. cbn. rewrite (tally_alter _ _ _ _ _ Hsn).
    unfold row_snapshot, counted. cbn. rewrite Hst. destruct u; subst to; rewrite !bool_decide_eq_false_2 by done; lia. }
  destruct d; try exact Hsn; rewrite <- (Z.add_0_r (tally _ s.(instances))); cbn; rewrite (tally_alter _ _ _ _ _ Hrow);
    cbn in Hsame; lia.
Qed.

Lemma exceeds_false u q :
  exceeds u q = false ↔
  u.(cpuCount) ≤ q.(qt_cpu_count) ∧ u.(memoryMiB) ≤ q.(qt_memory_mib) ∧ u.(diskGiB) ≤ q.(qt_disk_gib).
Proof. unfold exceeds. rewrite !orb_false_iff, !Z.ltb_ge. tauto. Qed.

(** What is written is charged to the project of the request, and fitted when it
    was measured. *)
Definition fitted (project : string) (q : QuotaRow) (seen now s' : ControlDb) : Prop :=
  ∀ d, used d project s' ≤ used d project now
       ∨ used d project s' ≤ allowed d q + (used d project now - used d project seen).

Lemma resize_fitted r i f fl d h (seen now s' : ControlDb) row wanted a q0 project q :
  seen.(instances) !! i = Some row → now.(instances) !! i = Some row →
  row.(i_project_id) = r.(rq_projectId) → row.(i_lifecycle_state) ∈ MUTABLE_LIFECYCLE_STATES →
  wanted = resize_target row fl d → seen.(catalog).(quotas) !! r.(rq_projectId) = Some q0 →
  exceeds (resized r.(rq_projectId) seen (desired_sizing row) wanted) q0 = false →
  commitResize c r i f h (row, wanted) now = Ok (a, s') →
  seen.(catalog).(quotas) !! project = Some q → fitted project q seen now s'.
Proof.
  intros Hseen Hrow Hp Hl -> Hq0 Hex Hs Hq dim. set (wanted := resize_target row fl d) in *. clearbody wanted.
  set (row' := occupy_resize c (c.(uuid) 0%nat) f wanted row).
  assert (Hu : used dim project s' = used dim project now - row_used dim project row + row_used dim project row').
  { apply used_alter with i; [done|..]; unfold commitResize in Hs; accepting Hs; by injection Hextra as <-. }
  apply exceeds_false in Hex. unfold resized in Hex. cbn in Hex.
  assert (Hc : charged project row' = charged project row) by done.
  destruct (charged project row) eqn:E.
  - apply andb_prop in E as E'. destruct E' as [E'%String.eqb_eq _].
    assert (project = r.(rq_projectId)) as -> by congruence. assert (q0 = q) as -> by congruence.
    destruct dim; [left|right|right|right|left]; rewrite Hu; cbn in *; unfold row_count, row_cpu, row_memory, row_disk; rewrite ?Hc, ?E; cbn; lia.
  - left. rewrite Hu. destruct dim; cbn; unfold row_count, row_cpu, row_memory, row_disk; rewrite ?Hc, ?E; lia.
Qed.

Lemma snapshot_fitted r i k h (seen now s' : ControlDb) row a q0 project q :
  now.(instances) !! i = Some row → row.(i_project_id) = r.(rq_projectId) →
  seen.(catalog).(quotas) !! r.(rq_projectId) = Some q0 → used snapshot_count r.(rq_projectId) seen + 1 ≤ q0.(qt_snapshots) →
  commitSnapshot c r i k h row now = Ok (a, s') →
  seen.(catalog).(quotas) !! project = Some q → fitted project q seen now s'.
Proof.
  intros Hrow Hp Hq0 Hroom Hs Hq dim. unfold commitSnapshot, writeSnapshotOperation in Hs. accepting Hs. unbool.
  eapply writeSnapshot_Ok in Hextra; [|apply lookup_insert_eq]. subst.
  rewrite !used_tally. cbn [committed occupied instances snapshots]. destruct dim.
  5: { cbn. rewrite tally_insert by done. 
       set (n := tally (row_snapshot project) now.(snapshots)). clearbody n.
       rewrite used_tally in Hroom. unfold row_snapshot at 1 2, counted. cbn. rewrite andb_true_r.
       destruct (String.eqb_spec r.(rq_projectId) project) as [Hr|]; [right|left; lia].
       rewrite Hr in *. assert (q0 = q) as -> by congruence. lia. }
  all: left; cbn; rewrite (tally_alter _ _ _ _ _ Hrow); cbn;
    unfold row_count, row_cpu, row_memory, row_disk, charged; cbn; lia.
Qed.

Lemma create_fitted g r k h (seen now s' : ControlDb) x a project q :
  loadAcceptanceContext r k seen = Ok (x, seen) → assertQuotaHeadroom r.(rq_projectId) x seen = Ok (tt, seen) →
  commitCreate c g r k h x now = Ok (a, s') →
  seen.(catalog).(quotas) !! project = Some q → fitted project q seen now s'.
Proof.
  intros Hx Hroom Hs Hq dim.
  assert (Hq0 : seen.(catalog).(quotas) !! r.(rq_projectId) = Some x.(ac_quota))
    by (unfold loadAcceptanceContext in Hx; by peel).
  apply commitCreate_Ok in Hs as (address & b & _ & _ & Hi & _ & _ & _ & _ & _ & -> & ->).
  unfold assertQuotaHeadroom in Hroom. apply tbind_Ok in Hroom as (? & ? & [= <- <-] & Hroom).
  apply tbind_Ok in Hroom as (? & ? & [= <- <-] & Hroom). apply tguard_Ok in Hroom as [Hroom _].
  apply andb_prop in Hroom as [Hcount Hex]. apply Z.leb_le in Hcount. apply negb_true_iff, exceeds_false in Hex. cbn in Hex.
  rewrite !used_tally. cbn [created instances snapshots].
  assert (Hn : row_used dim project (new_instance c r k x b.(ar_operationId))
    = if String.eqb r.(rq_projectId) project
      then match dim with instance_count => 1 | cpu => x.(ac_flavor).(fl_cpu_count) | memory => x.(ac_flavor).(fl_memory_mib)
                        | disk => x.(ac_flavor).(fl_minimum_disk_gib) | snapshot_count => 0 end
      else 0).
  { destruct dim; cbn; unfold row_count, row_cpu, row_memory, row_disk, charged; cbn; by destruct (String.eqb _ project). }
  destruct (String.eqb_spec r.(rq_projectId) project) as [Hp|Hp].
  - rewrite Hp in *. assert (x.(ac_quota) = q) as Heq by congruence. rewrite Heq in *. rewrite count_tally in Hcount.
    rewrite usage_tally in Hex. cbn in Hex.
    destruct dim; [right..|left]; cbn in *; rewrite ?tally_insert by done; lia.
  - left. destruct dim; cbn in *; rewrite ?tally_insert by done; lia.
Qed.

Lemma amid_fitted m r h (seen now s' : ControlDb) a project q :
  held m seen now → accept_amid m r h seen now = Ok (a, s') →
  seen.(catalog).(quotas) !! project = Some q → fitted project q seen now s'.
Proof.
  intros [_ Hheld] Hs Hq. unfold accept_amid in Hs. destruct (measure m r) as [measured|] eqn:Em.
  2: { intros d. left. by rewrite (unmeasured_charges_nothing _ _ _ _ _ _ d project Em Hs). }
  apply rbind_Ok in Hs as ([[b|] ?] & _ & Hs); cbn [fst] in Hs; [injection Hs as _ <-; by left|].
  apply rbind_Ok in Hs as ([y s1] & Hm & Hs). cbn [fst] in Hs.
  destruct m as [g k|i p|i f d|i|i k|u i sn|i confirmation]; try done; injection Em as <-; cbn in Hm, Hheld;
    apply tbind_Ok in Hm as (z & s2 & Hm & [= <- <-]).
  - apply measureCreate_Ok in Hm as (_ & Hx & Hroom). by eapply create_fitted.
  - destruct z as [row wanted]. apply measureResize_Ok in Hm as (_ & Hrow & Hp & _ & Hl & fl & q0 & _ & Hsize & Hq0 & Hex).
    eapply resize_fitted; try done. by rewrite Hheld.
  - apply measureSnapshot_Ok in Hm as (_ & Hrow & Hp & _ & _ & q0 & Hq0 & Hroom).
    eapply snapshot_fitted; try done. by rewrite Hheld.
Qed.

End quota.

(** ** Concrete acceptances *)

(** The sample control plane, with room for one instance in "p1". *)
Definition narrow_control : ControlDb :=
  let k := sample_catalog in
  {| catalog :=
       {| projects := k.(projects); images := k.(images); provider_profiles := k.(provider_profiles); flavors := k.(flavors);
          networks := k.(networks); retention_policy := k.(retention_policy);
          quotas := {[ "p1" := {| qt_instances := 1; qt_cpu_count := 8; qt_memory_mib := 8192; qt_disk_gib := 100;
                                  qt_ipv4_addresses := 2; qt_snapshots := 1 |} ]} |};
     instances := ∅; operations := ∅; ipv4_leases := ∅; snapshots := ∅; idempotency_records := ∅; control_outbox := [];
     control_audit := []; control_replays := ∅; p_instances := ∅; p_operations := ∅; p_snapshots := ∅; p_dead_letters := ∅;
     event_receipts := ∅; p_poison := ∅ |}.
(** One create, and another that measured before the first committed. *)
Definition first_create : result error (AcceptedMutation * ControlDb) :=
  accept (H := sample_platform) (sample_call 1) (Create "" sample_create) (sample_request "p1" "k1") "hash" narrow_control.
Definition second_create : result error (AcceptedMutation * ControlDb) :=
  accept_amid (H := sample_platform) (sample_call 2) (Create "" sample_create) (sample_request "p1" "k2") "hash"
    narrow_control (accepted_state first_create).

(** Two concurrent creates both pass a quota of one instance; one after the
    other, the second is refused. *)
Theorem concurrent_creates_exceed_quota :
  is_ok first_create = true ∧ is_ok second_create = true
  ∧ held (Create "" sample_create) narrow_control (accepted_state first_create)
  ∧ used instance_count "p1" (accepted_state second_create) = 2
  ∧ qt_instances <$> narrow_control.(catalog).(quotas) !! "p1" = Some 1
  ∧ accept (H := sample_platform) (sample_call 2) (Create "" sample_create) (sample_request "p1" "k2") "hash"
      (accepted_state first_create) = Err (DomainError QUOTA_EXCEEDED "The create request exceeds project quota.").
Proof.
  split; [vm_compute; reflexivity|]. split; [vm_compute; reflexivity|].
  split; [split; [vm_compute; reflexivity|done]|]. split_and!; vm_compute; reflexivity.
Qed.


(** The address check counts the leases of the whole network against the
    project's limit: a project that holds no address at all is refused. *)
Theorem address_quota_counts_other_projects :
  let s := sample_run [create_step 1 "p1" "k1"] in
  tally (λ l, if String.eqb l.(al_project_id) "p2" then 1 else 0) s.(ipv4_leases) = 0
  ∧ qt_ipv4_addresses <$> s.(catalog).(quotas) !! "p2" = Some 1
  ∧ accept (H := sample_platform) (sample_call 2) (Create "" sample_create) (sample_request "p2" "k2") "hash" s
    = Err (DomainError QUOTA_EXCEEDED "The create request exceeds IPv4 quota.").
Proof. vm_compute. split_and!; reflexivity. Qed.
