(* ===== verification/DocumentHistory.v ===== *)
(** * Histories of one instance document

    A relation that every write of a document keeps is kept by every history;
    the two writes that only some events make (a completion's and a drift
    finding's) may be assumed away for an instance. *)
From S2P Require Import Prelude JsText Json SshKey Domain Ipv4 WorkflowStage Events EventValidation Platform WorkflowStore ControlDb AcceptStore AcceptCreate Reconciliation Control Projection ControlHistory Acceptance ReadModel.
From Stdlib Require Import ZArith Lia Bool Ascii String.
From stdpp Require Import base decidable list strings gmap.
Open Scope string_scope.
Open Scope Z_scope.
Open Scope prog_scope.

(** The event writes the document of [i] anew: it completes a mutation of [i],
    or it is a drift finding about it. *)
Definition rewrites (i : string) (t : Transaction) : Prop :=
  match t with
  | ApplyWorkflow e _ => e.(envelope).(aggregateId) = i ∧ match e.(data) with MutationCompleted _ => True | _ => False end
  | ApplyDrift e _ => e.(envelope).(aggregateId) = i
  | _ => False
  end.

Lemma settled_documents a o at_ s : (settled a o at_ s).(p_instances) = s.(p_instances).
Proof. unfold settled. by repeat case_match. Qed.

Section document.
Context `{Platform} (R : relation InstanceView) `{!PreOrder R} (i : string) (spared : Transaction → Prop).
Hypothesis busy_kept : ∀ c op v, R v (busy_document c op v).
Hypothesis provisioning_kept : ∀ at_ v, R v (provisioning_document at_ v).
Hypothesis failed_kept : ∀ state at_ v, R v (failed_document state at_ v).
Hypothesis completed_kept : ∀ t row at_ v, spared t → rewrites i t → R v (completed_document row at_ v).
Hypothesis drifted_kept : ∀ t k at_ v, spared t → rewrites i t → R v (drifted_document k at_ v).

(** The document of [i] stays, related to what it was. *)
Definition document_kept (s s' : ControlDb) : Prop :=
  ∀ v, s.(p_instances) !! i = Some v → ∃ v', s'.(p_instances) !! i = Some v' ∧ R v v'.
#[export] Instance document_kept_preorder : PreOrder document_kept.
Proof using PreOrder0.
  split.
  - intros s v Hv. by exists v.
  - intros s1 s2 s3 H12 H23 v Hv. destruct (H12 v Hv) as (v2 & Hv2 & Hd). destruct (H23 v2 Hv2) as (v3 & Hv3 & Hd').
    exists v3. split; [done|]. by etrans.
Qed.

Lemma document_alter f j s s' :
  s'.(p_instances) = alter f j s.(p_instances) → (∀ v, j = i → s.(p_instances) !! j = Some v → R v (f v)) →
  document_kept s s'.
Proof using PreOrder0.
  intros Heq Hf v Hv. rewrite Heq. destruct (decide (j = i)) as [->|]; [|rewrite lookup_alter_ne by done; by exists v].
  rewrite lookup_alter_eq, Hv. eexists. split; [done|by apply Hf].
Qed.
Lemma document_same s s' : s'.(p_instances) = s.(p_instances) → document_kept s s'.
Proof using PreOrder0. intros Heq v Hv. exists v. by rewrite Heq. Qed.

Lemma document_applied e fi v v' g next rec s :
  in_step s → s.(p_instances) !! e.(aggregateId) = Some v → v'.(iv_id) = v.(iv_id) → (e.(aggregateId) = i → R v v') →
  document_kept s (applied e fi v' g next rec s).
Proof using PreOrder0.
  intros Hin Hv Hid Hd. destruct (mirrors_row _ _ _ _ _ (is_instances _ Hin) Hv) as (row & _ & [Hkey _ _ _]).
  eapply document_alter; [reflexivity|]. rewrite Hid, Hkey. intros v0 Hi Hv0. rewrite Hv in Hv0. injection Hv0 as <-.
  by apply Hd.
Qed.

Lemma document_event e d s s' :
  spared (ApplyWorkflow e d) → in_step s → applyEvent e s = Ok (tt, s') → document_kept s s'.
Proof using All.
  intros Hspared Hin Hs. unfold applyEvent in Hs. destruct (data e) as [p|p|p|p|p] eqn:Hdata.
  - apply applyProgress_Ok in Hs as (v & o & rc & rec & Hv & Ho & ->). by eapply document_applied.
  - apply applyCompleted_Ok in Hs as (v & o & rc & rec & row & Hv & Ho & Hrow & ->).
    etransitivity; [|apply document_same, settled_documents]. eapply document_applied; [done|done|done|].
    intros Hi. eapply completed_kept; [exact Hspared|]. cbn. by rewrite Hdata.
  - apply applyFailed_Ok in Hs as (v & o & rc & rec & Hv & Ho & ->). by eapply document_applied.
  - unfold applyReplayResolved in Hs. peel. case_match; peel; by apply document_same.
  - done.
Qed.

Lemma document_accept c m r h s a s' : accept c m r h s = Ok (a, s') → document_kept s s'.
Proof using PreOrder0 busy_kept.
  intros Hs. apply accept_inv in Hs. destruct Hs as
    [m rec _ _ _|m j row w role url audit_action reason event id _ Hi Hrow Ha Hw op o a s' Ho _
    |g k x address b _ _ _ _ Hb Hi Ho Hv Hp _ _].
  - reflexivity.
  - eapply document_alter; [reflexivity|]. intros v _ _. apply busy_kept.
  - intros v Hvi. exists v. split; [|reflexivity]. cbn. by rewrite lookup_insert_ne by congruence.
Qed.

Lemma document_models s s' : same_models s s' → document_kept s s'.
Proof using PreOrder0. intros [= _ _ _ Heq _ _]. by apply document_same. Qed.
Lemma document_reports s s' : only_reports s s' → document_kept s s'.
Proof using PreOrder0. intros Hr. apply document_same. by injection (or_documents _ _ Hr). Qed.

Lemma document_body c t s s' : spared t → in_step s → body c t s = Ok (tt, s') → document_kept s s'.
Proof using All.
  intros Hspared HI Hs.
  destruct t as [m r h|j mode|j|r k h|e d|e d delivery|e d|d hash code_ message event|w locked scan limit stale|trace o];
    try (eapply document_reports, reconciler_reports; [|exact Hs]; exact I);
    try (apply document_models; by eapply same_models_body in Hs).
  all: cbv beta iota delta [body] in Hs; apply tbind_Ok in Hs as (x & s1 & Hx & Hs); injection Hs as ->.
  - by eapply document_accept.
  - unfold requestReconciliation in Hx. peel. by apply document_same.
  - apply receipt_then in Hx as [Hsame|(s0 & Hsame & Hx)]; [by apply document_models|].
    apply tbind_Ok in Hx as ([] & s2 & Hx & Hs). injection Hs as _ ->.
    transitivity s0; [by apply document_models|]. eapply document_event; [exact Hspared| |done]. by eapply in_step_same.
  - apply receipt_then in Hx as [Hsame|(s0 & Hsame & Hx)]; [by apply document_models|].
    transitivity s0; [by apply document_models|]. peel. by apply document_same.
  - apply receipt_then in Hx as [Hsame|(s0 & Hsame & Hx)]; [by apply document_models|].
    transitivity s0; [by apply document_models|]. peel. case_match; [|by apply document_same].
    eapply document_alter; [reflexivity|]. intros v Hi _. by eapply drifted_kept.
Qed.

Lemma document_run h s : Forall (λ ct, spared (snd ct)) h → in_step s → document_kept s (run h s).
Proof using All.
  intros Hh. revert s. induction Hh as [|[c t] h Ht _ IH]; intros s Hs; [reflexivity|]. cbn.
  destruct (step_cases c t s) as [->|Hstep]; [by apply IH|].
  etransitivity; [eapply document_body; [exact Ht|exact Hs|exact Hstep]|]. apply IH. by eapply in_step_body.
Qed.
End document.
