(* ===== verification/ProjectionLimits.v ===== *)
(** * What projection leaves behind

    Four limits of the projected state: a document never takes up changed
    intent, a drift that healed is still reported, a snapshot whose operation failed is never settled, and a late
    event of one operation releases an instance that another one holds. *)
From S2P Require Import Prelude JsText Json SshKey Domain Ipv4 WorkflowStage Events EventValidation Platform WorkflowStore ControlDb AcceptStore AcceptCreate Reconciliation Control Projection ControlHistory Acceptance ReadModel DocumentHistory.
From Stdlib Require Import ZArith Lia Bool Ascii String.
From stdpp Require Import base decidable list strings gmap.
Open Scope string_scope.
Open Scope Z_scope.
Open Scope prog_scope.

Section limits.
Context `{Platform}.

(** ** Intent *)

Definition same_intent (v v' : InstanceView) : Prop :=
  v'.(iv_desired) = v.(iv_desired) ∧ v'.(iv_ipv4Lease) = v.(iv_ipv4Lease).
#[local] Instance same_intent_preorder : PreOrder same_intent.
Proof. split; [by intros v|intros v1 v2 v3 [] []; split; congruence]. Qed.

(** Documents keep their first intent.  In every history an instance
    document keeps the flavor, power state, hostname and address lease it was
    created with: a resize, a power action or a retention that is accepted,
    executed and projected changes the rows and never the document. *)
Theorem documents_keep_first_intent (h : list (Call * Transaction)) (s : ControlDb) (i : string) (v : InstanceView)
    (Hs : in_step s) (Hv : s.(p_instances) !! i = Some v) :
  ∃ v', (run h s).(p_instances) !! i = Some v' ∧ v'.(iv_desired) = v.(iv_desired)
    ∧ v'.(iv_ipv4Lease) = v.(iv_ipv4Lease).
Proof.
  destruct (document_run same_intent i (λ _, True) (λ _ _ _, conj eq_refl eq_refl) (λ _ _, conj eq_refl eq_refl)
    (λ _ _ _, conj eq_refl eq_refl) (λ _ _ _ _ _ _, conj eq_refl eq_refl) (λ _ _ _ _ _ _, conj eq_refl eq_refl)
    h s (Forall_true _ _ (λ _, I)) Hs v Hv) as (v' & Hv' & Hd & Hl). by exists v'.
Qed.

(** ** Drift *)

Definition same_finding (v v' : InstanceView) : Prop :=
  v'.(iv_drift) = v.(iv_drift) ∧ v'.(iv_lastReconciledAt) = v.(iv_lastReconciledAt).
#[local] Instance same_finding_preorder : PreOrder same_finding.
Proof. split; [by intros v|intros v1 v2 v3 [] []; split; congruence]. Qed.

(** A healed drift stays in the document.  An observation that finds no
    drift clears the finding in the row and publishes nothing, so the document
    still reports the drift and the time it was found; and every history in
    which no mutation of the instance completes and no new drift is reported
    leaves it so, however many clean observations it holds. *)
Theorem healed_drift_stays_in_the_document (h : list (Call * Transaction)) (s : ControlDb) (i : string)
    (v : InstanceView) (c : Call) (trace : string) (o : ReconciliationOutcome)
    (Hs : in_step s) (Hv : s.(p_instances) !! i = Some v) (Ho : o.(ro_instanceId) = i)
    (Hclean : o.(ro_drift) = drift_none) (Hh : Forall (λ ct, ¬ rewrites i (snd ct)) h) :
  let s' := step c (Observe trace o) s in
  i_drift <$> s'.(instances) !! i = Some "none" ∧ s'.(control_outbox) = s.(control_outbox)
  ∧ ∃ v', (run h s').(p_instances) !! i = Some v' ∧ v'.(iv_drift) = v.(iv_drift)
      ∧ v'.(iv_lastReconciledAt) = v.(iv_lastReconciledAt).
Proof.
  intros s'. destruct (mirrors_row _ _ _ _ _ (is_instances _ Hs) Hv) as (row & Hrow & _).
  assert (Heq : s' = on_instances s (alter (observed_row c o) i)).
  { unfold s', step, withTransaction. cbn [body]. unfold recordObservation. rewrite bool_decide_eq_true_2 by done.
    by rewrite Ho. }
  assert (Hs' : in_step s').
  { destruct (step_cases c (Observe trace o) s) as [E|E]; unfold s'; [by rewrite E|]. by eapply in_step_body. }
  rewrite Heq. cbn. rewrite lookup_alter_eq, Hrow. split; [by cbn; rewrite Hclean|]. split; [done|].
  rewrite <- Heq.
  apply (document_run same_finding i (λ t, ¬ rewrites i t) (λ _ _ _, conj eq_refl eq_refl) (λ _ _, conj eq_refl eq_refl)
    (λ _ _ _, conj eq_refl eq_refl) (λ _ _ _ _ Hn Hy, False_ind _ (Hn Hy)) (λ _ _ _ _ Hn Hy, False_ind _ (Hn Hy))
    h s' Hh Hs' v). by rewrite Heq.
Qed.
(** ** Snapshots *)

(** The operations that would settle the snapshot [id]. *)
Definition targets (id : string) (s : ControlDb) (op : string) : Prop :=
  ∃ o rc, s.(p_operations) !! op = Some (o, rc) ∧ o.(op_targetType) = "snapshot" ∧ o.(op_targetId) = id.

(** The transaction completes none of the operations [T]. *)
Definition completes_none (T : string → Prop) (t : Transaction) : Prop :=
  match t with
  | ApplyWorkflow e _ =>
      match e.(data) with MutationCompleted _ => ¬ T e.(envelope).(operationId) | _ => True end
  | _ => True
  end.

Record stuck (id : string) (row : SnapshotRow) (T : string → Prop) (s : ControlDb) : Prop := {
  st_step : in_step s;
  st_row : s.(snapshots) !! id = Some row;
  st_targets : ∀ op, targets id s op → T op;
}.

Lemma stuck_same id row T s s' :
  stuck id row T s → in_step s' → s'.(snapshots) = s.(snapshots) → s'.(p_operations) = s.(p_operations) →
  stuck id row T s'.
Proof.
  intros [Hin Hrow Ht] Hin' Hs Hp. split; [done|by rewrite Hs|]. intros op (o & rc & Ho & Hty & Hid). apply Ht.
  exists o, rc. by rewrite <- Hp.
Qed.

Lemma stuck_models id row T s s' : stuck id row T s → same_models s s' → stuck id row T s'.
Proof.
  intros Hst Hm. eapply stuck_same; [done|by eapply in_step_same, Hst|..]; injection Hm; done.
Qed.

(** An operation's next document targets what it targeted. *)
Lemma targets_applied id e fi v' g o next rc rec s op :
  in_step s → s.(p_operations) !! e.(operationId) = Some (o, rc) → next.(op_id) = o.(op_id) →
  next.(op_targetType) = o.(op_targetType) → next.(op_targetId) = o.(op_targetId) →
  targets id (applied e fi v' g next rec s) op → targets id s op.
Proof.
  intros Hin Ho Hop Hty Hid (o' & rc' & Ho' & Hty' & Hid').
  destruct (mirrors_row _ _ _ _ _ (is_operations _ Hin) Ho) as (row & _ & <- & Hkey). cbn in Hkey.
  cbn in Ho'. rewrite Hop, Hkey in Ho'.
  apply lookup_alter_Some in Ho' as [(<- & p & Hp & Heq)|[Hne Ho']]; [|by exists o', rc'].
  rewrite Ho in Hp. injection Hp as <-. injection Heq as -> ->. exists o, rc. split_and!; [done|congruence|congruence].
Qed.

Lemma settled_other a o at_ s id :
  o.(op_targetType) ≠ "snapshot" ∨ o.(op_targetId) ≠ id →
  (settled a o at_ s).(snapshots) !! id = s.(snapshots) !! id.
Proof.
  intros Ho. unfold settled. destruct (String.eqb_spec (op_targetType o) "snapshot"); [|done]. cbn.
  destruct Ho as [|Hne]; [done|]. repeat case_match; cbn; [by rewrite lookup_delete_ne|by rewrite lookup_insert_ne|done].
Qed.
Lemma settled_operations a o at_ s : (settled a o at_ s).(p_operations) = s.(p_operations).
Proof. unfold settled. by repeat case_match. Qed.

Lemma stuck_event id row T e d s s' :
  stuck id row T s → in_step s' → completes_none T (ApplyWorkflow e d) → applyEvent e s = Ok (tt, s') →
  stuck id row T s'.
Proof.
  intros [Hin Hrow Ht] Hin' Hc Hs. unfold applyEvent in Hs. cbn in Hc. destruct (data e) as [p|p|p|p|p].
  - apply applyProgress_Ok in Hs as (v & o & rc & rec & Hv & Ho & ->).
    split; [done|done|]. intros op Hop.
    eapply Ht, targets_applied; [exact Hin|exact Ho| | | |exact Hop]; reflexivity.
  - apply applyCompleted_Ok in Hs as (v & o & rc & rec & irow & Hv & Ho & Hi & ->).
    split; [done| |].
    + rewrite settled_other; [done|]. destruct (decide (op_targetType o = "snapshot")); [|by left]. right.
      intros Hid. apply Hc, Ht. by exists o, rc.
    + intros op (o' & rc' & Ho' & Hty & Hid). rewrite settled_operations in Ho'.
      eapply Ht, targets_applied; [exact Hin|exact Ho| | | |by exists o', rc']; reflexivity.
  - apply applyFailed_Ok in Hs as (v & o & rc & rec & Hv & Ho & ->).
    split; [done|done|]. intros op Hop.
    eapply Ht, targets_applied; [exact Hin|exact Ho| | | |exact Hop]; reflexivity.
  - apply same_models_resolved in Hs. apply (stuck_models _ _ _ s); [by split|exact Hs].
  - done.
Qed.

Lemma stuck_accept id row T c m r h s a s' :
  stuck id row T s → row.(sn_state) ≠ snap_available → in_step s' → accept c m r h s = Ok (a, s') → stuck id row T s'.
Proof.
  intros [Hin Hrow Ht] Hstate Hin' Hs. apply accept_inv in Hs. destruct Hs as
    [m rec _ _ _|m i irow w role url audit_action reason event eid _ Hi Hir Ha Hw op o a s' Ho _
    |g k x address b _ _ _ _ Hb Hi Ho Hv Hp _ _].
  - done.
  - assert (Hother : wr_snapshots w s.(snapshots) !! id = Some row ∧ (wr_targetType w = "snapshot" → wr_target w ≠ id)).
    { destruct Hw as [| | |i' k q Hfree Hq Hroom _|m i' id' sn Hsn Hi' Hs'|]; try done; cbn.
      - rewrite lookup_insert_ne by congruence. split; [done|]. congruence.
      - rewrite lookup_alter_ne by congruence. split; [done|]. congruence. }
    destruct Hother as [Hkept Htarget]. split; [done|exact Hkept|].
    intros op' (o' & rc' & Ho' & Hty & Hid). cbn in Ho'.
    apply lookup_insert_Some in Ho' as [[_ [= <- _]]|[_ Ho']]; [|apply Ht; by exists o', rc'].
    by destruct (Htarget Hty).
  - apply build_Ok in Hb as (_ & Hop & _). split; [done|done|].
    intros op' (o' & rc' & Ho' & Hty & Hid). cbn in Ho'.
    apply lookup_insert_Some in Ho' as [[_ [= <- _]]|[_ Ho']]; [|apply Ht; by exists o', rc'].
    by rewrite Hop in Hty.
Qed.

Lemma stuck_reports id row T s s' : stuck id row T s → in_step s' → only_reports s s' → stuck id row T s'.
Proof. intros Hst Hin [_ _ _ _ Hsn _ _ _ [= _ Ho _ _] _ _]. by eapply stuck_same. Qed.

Lemma stuck_body id row T c t s s' :
  row.(sn_state) ≠ snap_available → completes_none T t → stuck id row T s → body c t s = Ok (tt, s') →
  stuck id row T s'.
Proof.
  intros Hstate Hc Hst Hs. pose proof (in_step_body _ _ _ _ (st_step _ _ _ _ Hst) Hs) as Hin'.
  destruct t as [m r h|i mode|i|r k h|e d|e d delivery|e d|d hash code_ message event|w locked scan limit stale|trace o];
    try (eapply stuck_reports; [done..|]; eapply reconciler_reports; [|exact Hs]; exact I);
    try (eapply stuck_models; [done|]; by eapply same_models_body in Hs).
  all: cbv beta iota delta [body] in Hs; apply tbind_Ok in Hs as (x & s1 & Hx & Hs); injection Hs as ->.
  - by eapply stuck_accept.
  - unfold requestReconciliation in Hx. eapply stuck_same; [done..| |]; by peel.
  - apply receipt_then in Hx as [Hsame|(s0 & Hsame & Hx)]; [by eapply stuck_models|].
    apply tbind_Ok in Hx as ([] & s2 & Hx & Hs). injection Hs as _ ->.
    eapply stuck_event; [by eapply stuck_models|done|exact Hc|done].
  - apply receipt_then in Hx as [Hsame|(s0 & Hsame & Hx)]; [by eapply stuck_models|].
    apply (stuck_models _ _ _ _ _ Hst) in Hsame. destruct Hsame as [_ Hrow Ht]. peel. split; [done|done|].
    intros op (o & rc & Ho & Hty & Hid). cbn in Ho.
    apply lookup_alter_Some in Ho as [(<- & [o' rc'] & Hp & Heq)|[_ Ho]]; apply Ht; [|by exists o, rc].
    injection Heq as -> _. by exists o', rc'.
  - apply receipt_then in Hx as [Hsame|(s0 & Hsame & Hx)]; [by eapply stuck_models|].
    apply (stuck_models _ _ _ _ _ Hst) in Hsame. eapply stuck_same; [done..| |]; peel; by case_match.
Qed.

Lemma stuck_run id row T h s :
  row.(sn_state) ≠ snap_available → Forall (λ ct, completes_none T (snd ct)) h → stuck id row T s →
  stuck id row T (run h s).
Proof.
  intros Hstate Hh. revert s. induction Hh as [|[c t] h Ht _ IH]; intros s Hst; [done|]. cbn. apply IH.
  destruct (step_cases c t s) as [->|Hs]; [done|]. by eapply stuck_body.
Qed.

(** A snapshot whose operation failed is stuck.  A snapshot that is being
    created, rolled back or deleted leaves that state only when a completion of
    an operation on it is projected.  So once its operation has failed, then in
    every history without such a completion the row stays as it is, every
    rollback and delete of it is refused, its name cannot be taken again, and
    it still counts against the quota. *)
Theorem failed_snapshot_is_stuck (h : list (Call * Transaction)) (s : ControlDb) (id : string) (row : SnapshotRow)
    (Hs : in_step s) (Hrow : s.(snapshots) !! id = Some row) (Hstate : row.(sn_state) ≠ snap_available)
    (Hh : Forall (λ ct, completes_none (targets id s) (snd ct)) h) :
  let s' := run h s in
  s'.(snapshots) !! id = Some row
  ∧ (∀ c m r i hash, s'.(idempotency_records) !! key_of (UseSnapshot m i id) r = None →
       ∃ e, withTransaction (accept c (UseSnapshot m i id) r hash) s' = (Err e, s'))
  ∧ (∀ c r k hash, k.(cs_name) = row.(sn_name) →
       s'.(idempotency_records) !! key_of (TakeSnapshot row.(sn_instance_id) k) r = None →
       ∃ e, withTransaction (accept c (TakeSnapshot row.(sn_instance_id) k) r hash) s' = (Err e, s')).
Proof.
  intros s'. assert (Hst : stuck id row (targets id s) s') by (apply stuck_run; [done|done|by split]).
  clearbody s'. destruct Hst as [Hin Hrow' _]. split; [done|].
  split; [intros c m r i hash Hk|intros c r k hash Hname Hk]; unfold withTransaction.
  - destruct (accept c (UseSnapshot m i id) r hash s') as [[a s2]|e] eqn:E; [exfalso|by exists e].
    apply accept_inv in E. inversion E; subst; [congruence|].
    match goal with Hw : writes _ _ _ _ _ _ |- _ => inversion Hw; subst end. congruence.
  - destruct (accept c (TakeSnapshot (sn_instance_id row) k) r hash s') as [[a s2]|e] eqn:E; [exfalso|by exists e].
    apply accept_inv in E. inversion E; subst; [congruence|].
    match goal with Hw : writes _ _ _ _ _ _ |- _ => inversion Hw as [| | |? ? ? ? ? ? Hnone| |]; subst end.
    apply not_true_iff_false in Hnone. apply Hnone, existsb_exists. exists row. split.
    + apply in_map_iff. exists (id, row). split; [done|]. by apply list_elem_of_In, elem_of_map_to_list.
    + unfold named. by rewrite Hname, !String.eqb_refl.
Qed.

(** ** Late events *)

Lemma settled_rows a o at_ s :
  (settled a o at_ s).(instances) = s.(instances) ∧ (settled a o at_ s).(operations) = s.(operations).
Proof. unfold settled. by repeat case_match. Qed.

(** A terminal event releases whatever holds the instance.  Projecting the
    completion or failure of one operation makes its instance idle even while
    another operation holds it: that operation stays as it was, unfinished, and
    the instance is open to a third. *)
Theorem terminal_event_releases_any_holder (e : WorkflowEvent) (d : MessageDeliveryIdentity) (s s' : ControlDb)
    (row : InstanceRow) (holder : string)
    (Happlied : applyWorkflowEvent e d s = Ok (true, s'))
    (Hterminal : match e.(data) with MutationCompleted _ | MutationFailed _ => True | _ => False end)
    (Hrow : s.(instances) !! e.(envelope).(aggregateId) = Some row)
    (Hholder : row.(i_active_operation_id) = Some holder) (Hother : holder ≠ e.(envelope).(operationId)) :
  (∃ row', s'.(instances) !! e.(envelope).(aggregateId) = Some row' ∧ row'.(i_active_operation_id) = None)
  ∧ s'.(operations) !! holder = s.(operations) !! holder.
Proof.
  unfold applyWorkflowEvent in Happlied.
  apply tbind_Ok in Happlied as (fresh & s1 & Hreceipt & Hs). pose proof (same_models_receipt _ _ _ _ _ _ Hreceipt) as Hsame.
  destruct fresh; [|done]. apply tbind_Ok in Hs as ([] & s2 & Hs & Heq). injection Heq as ->.
  assert (Hi : instances s1 = instances s ∧ operations s1 = operations s) by (injection Hsame; done).
  destruct Hi as [Hi Ho]. rewrite <- Hi in Hrow. rewrite <- Ho.
  unfold applyEvent in Hs. destruct (data e) as [p|p|p|p|p]; try done.
  - apply applyCompleted_Ok in Hs as (v & o & rc & rec & irow & _ & _ & _ & ->).
    destruct (settled_rows (completed_action p) o (occurredAt (envelope e))
      (applied (envelope e) (insert (aggregateId (envelope e)) (completed_row (completed_lifecycleState p)
        (observedFromEvent (completed_observed p) (occurredAt (envelope e))) (occurredAt (envelope e)) irow))
        (completed_document (completed_row (completed_lifecycleState p)
        (observedFromEvent (completed_observed p) (occurredAt (envelope e))) (occurredAt (envelope e)) irow)
        (occurredAt (envelope e)) v) (succeeded_operation (occurredAt (envelope e)))
        (succeeded_operation (occurredAt (envelope e)) o) rec s1)) as [-> ->].
    cbn. rewrite lookup_insert_eq, lookup_alter_ne by done. split; [by eexists|done].
  - apply applyFailed_Ok in Hs as (v & o & rc & rec & _ & _ & ->).
    cbn. rewrite lookup_alter_eq, lookup_alter_ne, Hrow by done. split; [by eexists|done].
Qed.
End limits.

(** A completed resize: the row has the new flavor, the document the old one. *)
Definition resize_history : list (Call * Transaction) :=
  [(sample_call 3, Accept (Resize "1-0" "large" None) (sample_request "p1" "k2") "hash");
   event_step 4 "e2" "1-0" "3-0" "p1" (completed_data resize_instance "active")].
Lemma documents_keep_first_intent_witness :
  let s := run (H := sample_platform) resize_history active_db in
  i_flavor_id <$> s.(instances) !! "1-0" = Some "large"
  ∧ (dv_flavorId ∘ iv_desired) <$> s.(p_instances) !! "1-0" = Some "small".
Proof.
  intros s. split; [vm_compute; reflexivity|].
  assert (Hin : in_step active_db).
  { exact (run_invariant (H := sample_platform) in_step (λ c t s s' HI Hb, in_step_body (H := sample_platform) c t s s' HI Hb) _ _ empty_in_step). }
  destruct (active_db.(p_instances) !! "1-0") as [v|] eqn:Ev; [|vm_compute in Ev; discriminate Ev].
  destruct (documents_keep_first_intent (H := sample_platform) resize_history active_db "1-0" v Hin Ev) as (v' & Hv' & Hd & _).
  assert (Hsmall : (dv_flavorId ∘ iv_desired) <$> active_db.(p_instances) !! "1-0" = Some "small") by (vm_compute; reflexivity).
  rewrite Ev in Hsmall. injection Hsmall as Hsmall.
  change ((dv_flavorId ∘ iv_desired) <$> s.(p_instances) !! "1-0" = Some "small").
  rewrite (Hv' : s.(p_instances) !! "1-0" = Some v'). refine (f_equal Some _). exact (eq_trans (f_equal dv_flavorId Hd) Hsmall).
Defined.

(** A power drift is reported, and the machine is seen running again. *)
Definition seen (d : DriftClassification) : ReconciliationOutcome :=
  {| ro_instanceId := "1-0"; ro_projectId := "p1"; ro_drift := d; ro_dangerous := false; ro_exists := true;
     ro_powerState := observed_running; ro_markerMatch := true; ro_observedAt := 3 |}.
Definition drifted_history : list (Call * Transaction) :=
  [(sample_call 3, Observe "" (seen power_drift));
   (sample_call 4, ApplyDrift (drift_event (sample_call 3) "" (seen power_drift)) (sample_event_delivery "d1"))].
Definition drifted_db : ControlDb := run (H := sample_platform) drifted_history active_db.
Lemma healed_drift_stays_in_the_document_witness :
  let s := step (H := sample_platform) (sample_call 5) (Observe "" (seen drift_none)) drifted_db in
  i_drift <$> s.(instances) !! "1-0" = Some "none"
  ∧ iv_drift <$> (run (H := sample_platform) [(sample_call 6, Observe "" (seen drift_none))] s).(p_instances) !! "1-0"
    = Some "power_drift".
Proof.
  intros s.
  assert (Hin : in_step drifted_db).
  { unfold drifted_db, active_db, sample_run.
    do 2 (apply (run_invariant (H := sample_platform) in_step (λ c t s s' HI Hb, in_step_body (H := sample_platform) c t s s' HI Hb))).
    exact empty_in_step. }
  destruct (drifted_db.(p_instances) !! "1-0") as [v|] eqn:Ev; [|vm_compute in Ev; discriminate Ev].
  assert (Hd : iv_drift v = "power_drift").
  { assert (Hd : iv_drift <$> drifted_db.(p_instances) !! "1-0" = Some "power_drift") by (vm_compute; reflexivity).
    rewrite Ev in Hd. by injection Hd. }
  destruct (healed_drift_stays_in_the_document (H := sample_platform) [(sample_call 6, Observe "" (seen drift_none))]
    drifted_db "1-0" v (sample_call 5) "" (seen drift_none) Hin Ev eq_refl eq_refl) as (Hrow & _ & v' & Hv' & Hd' & _).
  { constructor; [exact id|constructor]. }
  split; [exact Hrow|]. fold s in Hv'. rewrite Hv'. refine (f_equal Some _). exact (eq_trans Hd' Hd).
Defined.

(** A snapshot whose deletion failed. *)
Definition snapshot_history : list (Call * Transaction) :=
  [(sample_call 3, Accept (TakeSnapshot "1-0" {| cs_name := "snap"; cs_description := None |}) (sample_request "p1" "k2") "hash");
   event_step 4 "e2" "1-0" "3-0" "p1" (completed_data create_snapshot "active");
   (sample_call 5, Accept (UseSnapshot mutate_delete "1-0" "3-1") (sample_request "p1" "k3") "hash")].
Definition deleting_db : ControlDb := run (H := sample_platform) snapshot_history active_db.
Definition failed_data (a : WorkflowAction) : EventData :=
  MutationFailed {| failed_action := a;
    failed_failure := {| category := cat_permanent; code := "PROVIDER_REJECTED"; safeMessage := "no"; retryAfterMilliseconds := None |};
    failed_compensationState := not_required |}.
Lemma failed_snapshot_is_stuck_witness :
  let s := run (H := sample_platform) [event_step 6 "e3" "1-0" "5-0" "p1" (failed_data delete_snapshot)] deleting_db in
  op_state <$> s.(operations) !! "5-0" = Some "failed"
  ∧ ∃ e, withTransaction (sample_accept 7 (UseSnapshot mutate_delete "1-0" "3-1") "k4") s = (Err e, s).
Proof.
  intros s. split; [vm_compute; reflexivity|].
  assert (Hin : in_step deleting_db).
  { unfold deleting_db, active_db, sample_run.
    do 2 (apply (run_invariant (H := sample_platform) in_step (λ c t s s' HI Hb, in_step_body (H := sample_platform) c t s s' HI Hb))).
    exact empty_in_step. }
  destruct (deleting_db.(snapshots) !! "3-1") as [row|] eqn:Er; [|vm_compute in Er; discriminate Er].
  assert (Hstate : sn_state row ≠ snap_available).
  { assert (Hd : sn_state <$> deleting_db.(snapshots) !! "3-1" = Some snap_deleting) by (vm_compute; reflexivity).
    rewrite Er in Hd. injection Hd as ->. discriminate. }
  refine (proj1 (proj2 (failed_snapshot_is_stuck (H := sample_platform)
    [event_step 6 "e3" "1-0" "5-0" "p1" (failed_data delete_snapshot)] deleting_db "3-1" row Hin Er Hstate _))
    (sample_call 7) mutate_delete (sample_request "p1" "k4") "1-0" "hash" _).
  - constructor; [exact I|constructor].
  - vm_compute. reflexivity.
Defined.

(** An operation that failed, a second one accepted, and then the completion
    of the first, which a governed replay had restarted: a third is accepted
    while the second is unfinished. *)
Definition replayed_history : list (Call * Transaction) :=
  [(sample_call 3, Accept (Power "1-0" stop) (sample_request "p1" "k2") "hash");
   event_step 4 "e2" "1-0" "3-0" "p1" (failed_data power_instance);
   (sample_call 5, Accept (Power "1-0" start) (sample_request "p1" "k3") "hash")].
Definition held_db : ControlDb := run (H := sample_platform) replayed_history active_db.
Lemma terminal_event_releases_any_holder_witness :
  let e := sample_event "e3" "1-0" "3-0" "p1" 6 (completed_data power_instance "active") in
  let x := applyWorkflowEvent (H := sample_platform) e (sample_event_delivery "e3") held_db in
  let s' := match x with Ok (_, s) => s | Err _ => empty_control end in
  (∃ row', s'.(instances) !! "1-0" = Some row' ∧ row'.(i_active_operation_id) = None)
  ∧ op_state <$> s'.(operations) !! "5-0" = Some "accepted"
  ∧ is_ok (sample_accept 7 (Power "1-0" stop) "k4" s') = true.
Proof.
  intros e x s'.
  assert (Hx : x = Ok (true, s')).
  { assert (Hok : match x with Ok (b, _) => b | Err _ => false end = true) by (vm_compute; reflexivity).
    unfold s'. destruct x as [[b ?]|]; [|discriminate Hok]. by rewrite Hok. }
  destruct (held_db.(instances) !! "1-0") as [row|] eqn:Er; [|vm_compute in Er; discriminate Er].
  assert (Hholder : i_active_operation_id row = Some "5-0").
  { assert (Hd : i_active_operation_id <$> held_db.(instances) !! "1-0" = Some (Some "5-0")) by (vm_compute; reflexivity).
    rewrite Er in Hd. by injection Hd. }
  assert (Hother : "5-0" ≠ e.(envelope).(operationId)) by discriminate.
  split.
  - exact (proj1 (terminal_event_releases_any_holder (H := sample_platform) e (sample_event_delivery "e3") held_db s' row "5-0"
      Hx I Er Hholder Hother)).
  - split; vm_compute; reflexivity.
Defined.
