(* ===== verification/Published.v ===== *)
(** * Published commands

    The commands acceptance publishes, against the guards the orchestrator
    admits them with ([event-validation.ts]): with a well-formed catalog and
    rows, every accepted mutation publishes a command its action's validator
    accepts and leaves the rows well formed, but for a size or a text beyond the
    contract, which acceptance takes and the validator refuses. *)
From S2P Require Import Prelude JsText Json SshKey Domain Ipv4 WorkflowStage Events EventValidation Platform WorkflowStore ControlDb AcceptStore AcceptCreate Control Projection ControlHistory Acceptance.
From Stdlib Require Import ZArith Lia Bool Ascii String DecimalPos.
From stdpp Require Import base decidable list strings gmap.
Open Scope string_scope.
Open Scope Z_scope.
Open Scope prog_scope.

(** ** What the catalog and the rows hold *)

Definition id_length (s : string) : Prop := 1 ≤ js_length s ≤ 63.

Definition wf_row (row : InstanceRow) : Prop :=
  id_length row.(i_provider_profile_id) ∧ row.(i_desired_disk_gib) ≤ 2048
  ∧ ∃ op, row.(i_create_operation_id) = Some op ∧ uuidPattern op = true.
Definition wf_snapshot (id : string) (sn : SnapshotRow) : Prop :=
  uuidPattern id = true ∧ id_length (default sn.(sn_name) sn.(sn_provider_snapshot_name)).

Record well_formed (s : ControlDb) : Prop := {
  wf_flavors : ∀ id f, s.(catalog).(flavors) !! id = Some f → id_length id ∧ sizing_bounds (flavor_sizing f);
  wf_images : ∀ id im, s.(catalog).(images) !! id = Some im → id_length id ∧ id_length im.(im_provider_profile_id);
  wf_networks : ∀ id n, s.(catalog).(networks) !! id = Some n →
    id_length id ∧ Forall (λ a, is_Some (strictIpv4 a)) n.(nw_dns_servers) ∧ NoDup n.(nw_dns_servers);
  wf_instances : map_Forall (λ _, wf_row) s.(instances);
  wf_snapshots : map_Forall wf_snapshot s.(snapshots);
}.

(** What the application checks of a mutation before it calls the store
    ([control-plane.ts]; [admission_checked] of [ApplicationSafety]). *)
Definition checked (m : Mutation) : Prop :=
  match m with
  | Create _ k => validateCreateInstance {| imageId := k.(cr_imageId); flavorId := k.(cr_flavorId);
      networkId := k.(cr_networkId); hostname := k.(cr_hostname); sshPublicKeys := Some k.(cr_sshPublicKeys) |} = Ok tt
  | TakeSnapshot _ k => validateSnapshotName k.(cs_name) = Ok tt
  | _ => True
  end.
(** Within what the command's contract allows of a disk and of a description.
    Only the bodies of the REST routes are held to it: the application is not,
    and neither is a resize that comes over gRPC. *)
Definition fits (m : Mutation) : bool :=
  match m with
  | Resize _ _ d => default 0 d <=? 2048
  | TakeSnapshot _ k => js_length (default "" k.(cs_description)) <=? 256
  | _ => true
  end.

(** The workflow a mutation starts. *)
Definition workflow_of (m : Mutation) : WorkflowAction :=
  match m with
  | Create _ _ => create_instance | Power _ _ => power_instance | Resize _ _ _ => resize_instance
  | Retain _ => retain_instance | TakeSnapshot _ _ => create_snapshot
  | UseSnapshot mutate_rollback _ _ => rollback_snapshot | UseSnapshot mutate_delete _ _ => delete_snapshot
  | Purge _ _ => purge_instance
  end.

(** ** Values the guards accept *)

(** The conjuncts of a passes. *)
Ltac conjuncts := repeat match goal with |- _ && _ = true => apply andb_true_intro; split end.

Lemma oversized_refused (dates : string → bool) (v : record) (flavor : string) (target : Sizing) (rest : list (string * json)) :
  v.(data) = JObj (("flavorId", JStr flavor) :: ("targetResources", sizing_json target) :: rest) →
  2048 < target.(diskGiB) → COMMAND_VALIDATORS dates resize_instance v = false.
Proof.
  intros Hdata Hbig. apply not_true_is_false. unfold COMMAND_VALIDATORS, isInstanceResizeRequestedV1. rewrite Hdata. cbn [objectValue].
  intros [_ Hv]%andb_true_iff. change (sizing_object [("cpuCount", JNum target.(cpuCount)); ("memoryMiB", JNum target.(memoryMiB));
    ("diskGiB", JNum target.(diskGiB))] = true) in Hv. unfold sizing_object in Hv. unbool.
  match goal with Hd : integerInRange (field "diskGiB" _) _ _ = true |- _ => cbn in Hd; unbool; lia end.
Qed.

Lemma string_valid (s : string) (a b : Z) : a ≤ js_length s ≤ b → stringInRange (JStr s) a b = true.
Proof. intros Hs. unfold stringInRange. apply andb_true_intro. split; apply Z.leb_le; lia. Qed.

Lemma integer_valid (n a b : Z) : 0 ≤ a → b ≤ 2 ^ 53 - 1 → a ≤ n ≤ b → integerInRange (JNum n) a b = true.
Proof.
  intros Ha Hb Hn. unfold integerInRange, isSafeInteger.
  conjuncts; apply Z.leb_le; lia.
Qed.

Lemma sizing_valid (s : Sizing) : sizing_bounds s →
  ∃ o, objectValue (sizing_json s) = Some o ∧ sizing_object o = true.
Proof.
  intros (Hc & Hm & Hd). eexists. split; [reflexivity|]. unfold sizing_object.
  unfold onlyKeys. conjuncts; first [reflexivity|apply integer_valid; lia].
Qed.

Lemma strings_array (l : list string) : isArray (strings_json l) = Some (map JStr l).
Proof. done. Qed.
Lemma strings_valid (l : list string) (p : json → bool) :
  Forall (λ s, p (JStr s) = true) l → forallb p (map JStr l) = true.
Proof. induction 1 as [|s l Hs _ IH]; [done|]. cbn. by rewrite Hs. Qed.
Lemma strings_unique (l : list string) : NoDup l → unique_strings (map JStr l) = true.
Proof.
  intros Hl. unfold unique_strings. rewrite map_map.
  replace (map (λ x, json_text (JStr x)) l) with l by (symmetry; apply map_id). by apply unique_NoDup.
Qed.

Lemma length_chars (s : string) : js_length s = Z.of_nat (List.length (chars s)).
Proof. unfold js_length, chars. f_equal. induction s as [|a s IH]; [done|]. cbn. by rewrite IH. Qed.

Lemma slug_length (s : string) : slugPattern s = true → id_length s.
Proof.
  unfold slugPattern, id_length. rewrite length_chars. destruct (chars s) as [|a l]; [done|]. cbn [List.length].
  intros Hs. unbool. lia.
Qed.
Lemma hostname_length (s : string) : hostnamePattern s = true → id_length s.
Proof.
  unfold hostnamePattern, id_length. rewrite length_chars. destruct (chars s) as [|a l]; [done|]. cbn [List.length].
  intros Hs. rewrite <- (length_rev l). unbool. destruct (rev l) as [|b k]; cbn [List.length]; [lia|]. unbool. lia.
Qed.
Lemma snapshot_name_length (s : string) : validateSnapshotName s = Ok tt → id_length s.
Proof.
  unfold validateSnapshotName. destruct (snapshotNamePattern s) eqn:E; [|done]. intros _.
  unfold snapshotNamePattern, id_length in *. rewrite length_chars. destruct (chars s) as [|a l]; [done|].
  cbn [List.length]. unbool. lia.
Qed.

(** ** The payload of each command *)

Section published.
Context `{Platform}.

(** Printed dates parse. *)
Hypothesis dates : ∀ t, dateParses (toISOString t) = true.

Context (c : Call) (eid i project op : string) (r : Request) (row : InstanceRow).
Hypothesis row_ok : id_length row.(i_provider_profile_id)
  ∧ ∃ create, row.(i_create_operation_id) = Some create ∧ uuidPattern create = true.

Abbreviation valid a schema d := (COMMAND_VALIDATORS dateParses a (command_event c eid schema i project op r d) = true).

(** Closes the guard's conjuncts that compute, and leaves the values. *)
Ltac passes :=
  cbn [data command_event objectValue]; conjuncts; try reflexivity; try (apply string_valid; unfold id_length in *; lia).

Lemma routing_valid : ∃ create, i_create_operation_id row = Some create ∧ uuidPattern create = true
  ∧ ∀ d, field "providerProfileId" d = JStr row.(i_provider_profile_id) → field "createOperationId" d = JStr create →
    snapshotRouting d = true.
Proof.
  destruct row_ok as [Hp (create & Hc & Hu)]. exists create. split_and!; [done|done|]. intros d Hd1 Hd2.
  unfold snapshotRouting. rewrite Hd1, Hd2. passes. exact Hu.
Qed.

Lemma power_valid a :
  valid power_instance "instance.power.requested" (JObj (("action", JStr (power_wire a)) :: routing_json row)).
Proof.
  destruct routing_valid as (create & Hc & Hu & Hr). unfold routing_json. rewrite Hc.
  unfold COMMAND_VALIDATORS, isInstancePowerRequestedV1. passes; [by destruct a|by apply Hr].
Qed.

Lemma resize_valid f target :
  id_length f → sizing_bounds target →
  valid resize_instance "instance.resize.requested"
    (JObj (("flavorId", JStr f) :: ("targetResources", sizing_json target) :: routing_json row)).
Proof.
  intros Hf Hs. destruct routing_valid as (create & Hc & Hu & Hr). unfold routing_json. rewrite Hc.
  destruct (sizing_valid target Hs) as (o & Ho & Hv). destruct row_ok as [Hp _].
  unfold COMMAND_VALIDATORS, isInstanceResizeRequestedV1. cbn [data command_event objectValue].
  passes; [exact Hu|]. change (match objectValue (sizing_json target) with Some x => sizing_object x | None => false end = true).
  by rewrite Ho.
Qed.

Lemma retain_valid t mode :
  valid retain_instance "instance.retention.requested"
    (JObj (("retentionDeadline", JStr (toISOString t))
       :: ("leaseReleaseMode", JStr (match mode with release_on_retain => "release_on_retain"
             | quarantine_until_purge => "quarantine_until_purge" end)) :: routing_json row)).
Proof.
  destruct routing_valid as (create & Hc & Hu & Hr). unfold routing_json. rewrite Hc.
  unfold COMMAND_VALIDATORS, isInstanceRetentionRequestedV1. passes; [apply dates|by destruct mode|by apply Hr].
Qed.

Lemma purge_valid authorization t :
  uuidPattern authorization = true →
  valid purge_instance "instance.purge.requested"
    (JObj (("purgeAuthorizationId", JStr authorization) :: ("retentionDeadline", JStr (toISOString t))
       :: ("reasonReference", JStr authorization) :: routing_json row)).
Proof.
  intros Ha. destruct routing_valid as (create & Hc & Hu & Hr). unfold routing_json. rewrite Hc.
  unfold COMMAND_VALIDATORS, isInstancePurgeRequestedV1. passes; [exact Ha|apply dates|exact Ha|by apply Hr].
Qed.

Lemma take_valid sn name description :
  uuidPattern sn = true → id_length name →
  COMMAND_VALIDATORS dateParses create_snapshot (command_event c eid "snapshot.create.requested" i project op r
    (JObj (("snapshotId", JStr sn) :: ("name", JStr name)
       :: (match present description with Some d => [("description", JStr d)] | None => [] end ++ routing_json row)%list)))
  = (js_length (default "" description) <=? 256).
Proof.
  intros Hsn Hname. destruct routing_valid as (create & Hc & Hu & Hr). unfold routing_json. rewrite Hc.
  assert (Hnone : COMMAND_VALIDATORS dateParses create_snapshot (command_event c eid "snapshot.create.requested" i project op r
    (JObj [("snapshotId", JStr sn); ("name", JStr name); ("providerProfileId", JStr (i_provider_profile_id row));
           ("createOperationId", JStr create)])) = true)
    by (unfold COMMAND_VALIDATORS, isSnapshotCreateRequestedV1; passes; [exact Hsn|by apply Hr]).
  destruct description as [d|]; cbn [present mbind option_bind default]; [|exact Hnone].
  unfold present. cbn [mbind option_bind]. destruct (truthy d) eqn:Ed.
  2: { apply negb_false_iff, String.eqb_eq in Ed. by subst. }
  change (id d) with d. destruct (Z.leb_spec (js_length d) 256) as [Hd|Hd].
  - unfold COMMAND_VALIDATORS, isSnapshotCreateRequestedV1. passes; try exact Hsn; try by apply Hr.
    unfold optional. cbn [is_undefined field]. apply orb_true_intro. right. apply string_valid. unfold js_length in *. lia.
  - apply not_true_is_false. unfold COMMAND_VALIDATORS, isSnapshotCreateRequestedV1. cbn [data command_event objectValue app].
    intros Hv. unbool.
    match goal with Ho : optional _ _ = true |- _ => cbn in Ho; unfold js_length in *; unbool; lia end.
Qed.

Lemma use_valid m sn reference :
  uuidPattern sn = true → id_length reference →
  valid (match m with mutate_rollback => rollback_snapshot | mutate_delete => delete_snapshot end)
    (match m with mutate_rollback => "snapshot.rollback.requested" | mutate_delete => "snapshot.delete.requested" end)
    (JObj (("snapshotId", JStr sn) :: ("providerSnapshotReference", JStr reference) :: routing_json row)).
Proof.
  intros Hsn Href. destruct routing_valid as (create & Hc & Hu & Hr). unfold routing_json. rewrite Hc.
  destruct m; unfold COMMAND_VALIDATORS, isSnapshotActionRequestedV1; passes; try exact Hsn; by apply Hr.
Qed.

Lemma create_valid k x address prefix servers :
  checked (Create "" k) →
  id_length x.(ac_providerProfileId) → sizing_bounds (flavor_sizing x.(ac_flavor)) →
  is_Some (strictIpv4 address) → is_Some (strictIpv4 x.(ac_network).(nw_gateway)) → 1 ≤ prefix ≤ 30 →
  Forall (λ a, is_Some (strictIpv4 a)) servers → NoDup servers → 1 ≤ Z.of_nat (List.length servers) ≤ 4 →
  valid create_instance "instance.create.requested" (create_json k x address prefix servers).
Proof.
  intros Hk Hp Hs Ha Hg Hx Hservers Hnodup Hcount.
  apply validateCreateInstance_characterised in Hk as ((Hi & Hf & Hn) & Hh & Hkeys & Hunique & Hok). cbn in *.
  destruct (sizing_valid _ Hs) as (o & Ho & Hv).
  apply slug_length in Hi, Hf, Hn. apply hostname_length in Hh. apply ipv4Address_strict in Ha, Hg.
  assert (Hdns : forallb ipv4Address (map JStr servers) = true)
    by (apply strings_valid, (Forall_impl _ _ _ Hservers); intros a; apply ipv4Address_strict).
  assert (Hks : forallb (λ v, stringInRange v 32 8192) (map JStr k.(cr_sshPublicKeys)) = true)
    by (apply strings_valid, (Forall_impl _ _ _ Hok); intros a []; by apply string_valid).
  apply strings_unique in Hnodup, Hunique.
  assert (Hr : sizing_object (from_option id [] (objectValue (sizing_json (flavor_sizing x.(ac_flavor))))) = true)
    by (rewrite Ho; exact Hv).
  unfold COMMAND_VALIDATORS, isInstanceCreateRequestedV1, create_json. cbn [data command_event objectValue].
  unfold ipv4Address in Ha, Hg. unbool. unfold id_length in *.
  assert (Hlength := length_map JStr servers). assert (Hkl := length_map JStr k.(cr_sshPublicKeys)).
  destruct k.(cr_sshPublicKeys) as [|key keys]; conjuncts; try reflexivity; try assumption.
  all: try (apply Z.leb_le; lia).
  all: try (unfold isSafeInteger; conjuncts; apply Z.leb_le; lia).
  apply orb_true_intro. right.
  change ((Z.of_nat (List.length (map JStr (key :: keys))) <=? 5)
          && forallb (λ v, stringInRange v 32 8192) (map JStr (key :: keys))
          && unique_strings (map JStr (key :: keys)) = true).
  rewrite Hks, Hunique. conjuncts; try done. apply Z.leb_le. lia.
Qed.
End published.

(** ** What an acceptance reads is well formed *)

Lemma loadAcceptanceContext_Ok (r : Request) (k : CreateInstanceCommand) (s s' : ControlDb) (x : AcceptanceContext) :
  loadAcceptanceContext r k s = Ok (x, s') →
  s.(catalog).(flavors) !! k.(cr_flavorId) = Some x.(ac_flavor)
  ∧ s.(catalog).(networks) !! x.(ac_network_id) = Some x.(ac_network) ∧ x.(ac_network_id) = k.(cr_networkId)
  ∧ ∃ im, s.(catalog).(images) !! k.(cr_imageId) = Some im ∧ im.(im_provider_profile_id) = x.(ac_providerProfileId).
Proof.
  intros Hs. unfold loadAcceptanceContext in Hs. accepting Hs. injection Hs as <- <-. cbn.
  unfold enabled_flavor, enabled_network, enabled_image in *.
  destruct (images (catalog s) !! cr_imageId k) as [im|]; [|done].
  destruct (flavors (catalog s) !! cr_flavorId k) as [f|]; [|done].
  destruct (networks (catalog s) !! cr_networkId k) as [n|]; [|done]. cbn in *.
  destruct (provider_profiles (catalog s) !! im_provider_profile_id im) as [pr|]; [|done]. cbn in *.
  destruct (im_enabled im); [|done]. destruct (fl_enabled f); [|done]. destruct (nw_enabled n); [|done].
  simplify_eq. cbn. eauto 10.
Qed.

(** A reserved address comes from a pool with a gateway and a prefix of 1 to
    30 bits. *)
Lemma reserveIpv4Address_Ok (x : AcceptanceContext) (s s' : ControlDb) (a : string) :
  reserveIpv4Address x s = Ok (a, s') →
  is_Some (strictIpv4 a) ∧ is_Some (strictIpv4 x.(ac_network).(nw_gateway))
  ∧ 1 ≤ prefixLengthOf x.(ac_network).(nw_ipv4_cidr) ≤ 30.
Proof.
  intros Hs. unfold reserveIpv4Address in Hs. accepting Hs. apply tlift_Ok in Hs as (a' & Ha & [= -> ->]).
  apply allocated_wf in Ha as [(n & p & [(b & t & rest & v & Hcidr & Hp & _) Hrange Hg _]) Ha].
  split_and!; [done|done|..]; unfold prefixLengthOf; cbn in Hcidr; rewrite Hcidr;
    cbn -[Number_integer]; rewrite Hp; cbn; lia.
Qed.

(** ** Properties *)

(** The commands the outbox holds, oldest first. *)
Definition commands (s : ControlDb) : list record :=
  omap (λ o, match o.(ob_payload) with P_command e => Some e | _ => None end) s.(control_outbox).

Section publication.
Context `{Platform}.
Hypothesis dates : ∀ t, dateParses (toISOString t) = true.
Context (c : Call).
Hypothesis uuids : ∀ n, uuidPattern (c.(uuid) n) = true.

(** The command of a mutation: its schema selects the workflow, and the guard
    of that workflow accepts it exactly when the mutation fits. *)
Definition command_of (m : Mutation) (e : record) : Prop :=
  workflowActionForSchema e.(envelope).(schemaName) = Some (workflow_of m)
  ∧ is_Some (objectValue e.(data)) ∧ COMMAND_VALIDATORS dateParses (workflow_of m) e = fits m.

Lemma writes_command (r : Request) (s : ControlDb) (m : Mutation) (i eid op : string) (row : InstanceRow) (w : Writes) :
  well_formed s → checked m → s.(instances) !! i = Some row → writes c s r row m w →
  command_of m (command_event c eid w.(wr_schema) i row.(i_project_id) op r w.(wr_data)).
Proof using All.
  intros Hwf Hm Hi Hw. destruct (wf_instances s Hwf i row Hi) as (Hp & Hdisk & Hcreate).
  assert (Hrow := conj Hp Hcreate). destruct Hw as [| ? f d fl q Hf | | ? k | mu i' id sn Hsn | ];
    cbn [wr_schema wr_data only_instance with_snapshot] in *; (split; [by try destruct mu|split; [by eexists|]]).
  - by apply power_valid.
  - unfold enabled_flavor in Hf.
    destruct (flavors (catalog s) !! f) as [fl'|] eqn:E; [|done]. cbn in Hf. destruct (fl_enabled fl'); [|done].
    injection Hf as ->. destruct (wf_flavors s Hwf f fl E) as [Hid (?&?&?)]. cbn [fits workflow_of].
    destruct (Z.leb_spec (default 0 d) 2048) as [Hd|Hd].
    + apply resize_valid; [done..|]. cbn in *. unfold sizing_bounds, flavor_sizing in *. cbn in *. lia.
    + eapply oversized_refused; [reflexivity|]. cbn. lia.
  - by apply retain_valid.
  - cbn [fits]. by apply take_valid; [done..|apply snapshot_name_length].
  - destruct (wf_snapshots s Hwf id sn Hsn) as [Hid Href]. cbn [workflow_of].
    assert (Huse := use_valid c eid i' row.(i_project_id) op r row Hrow mu id _ Hid Href). by destruct mu.
  - by apply purge_valid.
Qed.

(** The rows stay well formed. *)
Lemma writes_wf (r : Request) (s : ControlDb) (m : Mutation) (i : string) (row : InstanceRow) (w : Writes) :
  well_formed s → checked m → fits m = true → s.(instances) !! i = Some row → writes c s r row m w →
  wf_row (w.(wr_occupy) row) ∧ map_Forall wf_snapshot (w.(wr_snapshots) s.(snapshots)).
Proof using All.
  intros Hwf Hm Hfits Hi Hw. assert (Hrow := wf_instances s Hwf i row Hi). cbn in Hrow.
  assert (Hsnapshots := wf_snapshots s Hwf).
  destruct Hw as [| ? f d fl q Hf | | ? k | mu i' id sn Hsn | ]; cbn; (split; [|try done]); try exact Hrow.
  - unfold wf_row in *. cbn. destruct Hrow as (? & ? & ?). split_and!; [done| |done].
    unfold enabled_flavor in Hf.
    destruct (flavors (catalog s) !! f) as [fl'|] eqn:E; [|done]. cbn in Hf. destruct (fl_enabled fl'); [|done].
    injection Hf as ->. destruct (wf_flavors s Hwf f fl E) as [_ (?&?&?)]. apply Z.leb_le in Hfits. cbn in *. lia.
  - apply map_Forall_insert_2; [|done]. split; [apply uuids|by apply snapshot_name_length].
  - intros k sn' Hk. rewrite lookup_alter in Hk. destruct (decide (id = k)) as [<-|Hne].
    + rewrite Hsn in Hk. injection Hk as <-. exact (Hsnapshots id sn Hsn).
    + exact (Hsnapshots k sn' Hk).
Qed.

Lemma create_command (g : string) (r : Request) (k : CreateInstanceCommand) (s : ControlDb) (x : AcceptanceContext)
    (address : string) (a : AcceptanceRecords) :
  well_formed s → checked (Create g k) → loadAcceptanceContext r k s = Ok (x, s) →
  reserveIpv4Address x s = Ok (address, s) → buildAcceptanceRecords c g r k x address = Ok a →
  command_of (Create g k) a.(ar_event) ∧ wf_row (new_instance c r k x a.(ar_operationId)).
Proof using All.
  intros Hwf Hm Hx Haddress Ha.
  apply loadAcceptanceContext_Ok in Hx as (Hf & Hn & _ & im & Him & Hp).
  destruct (wf_flavors s Hwf _ _ Hf) as [_ Hs]. destruct (wf_networks s Hwf _ _ Hn) as (_ & Hdns & Hunique).
  destruct (wf_images s Hwf _ _ Him) as [_ Hprofile]. rewrite Hp in Hprofile.
  apply reserveIpv4Address_Ok in Haddress as (Hquad & Hg & Hprefix).
  unfold buildAcceptanceRecords, dnsTuple, sshTuple in Ha.
  destruct ((Z.of_nat (List.length (nw_dns_servers (ac_network x))) <? 1)
            || (4 <? Z.of_nat (List.length (nw_dns_servers (ac_network x))))) eqn:Hcount; [done|].
  destruct (5 <? Z.of_nat (List.length (cr_sshPublicKeys k))) eqn:Hkeys; [done|].
  cbn [rbind] in Ha. unbool. injection Ha as <-. split.
  - split; [done|]. split; [by eexists|]. by apply create_valid.
  - destruct Hs as (_ & _ & Hd). split_and!; [done|cbn in *; lia|]. cbn. eauto.
Qed.

(** C23: The commands acceptance publishes.  With a well-formed catalog and
    rows, every mutation that passed the checks of the application and is
    accepted either is a replay that changes nothing or appends to the outbox
    exactly one command, whose schema selects the workflow of the mutation.
    The guard the orchestrator admits that workflow's commands with accepts it
    exactly when the mutation fits, that is, unless it is a resize that asks
    for more than 2048 GiB of disk or a snapshot with a description of more
    than 256 units, which nothing in the application refuses ([accept*] of
    [control-plane-store.ts] against [COMMAND_VALIDATORS] of
    [workflow-store.ts]).  A mutation that fits leaves the rows well formed. *)
Theorem published_commands_are_valid (m : Mutation) (r : Request) (h : string) (s s' : ControlDb) (x : AcceptedMutation) :
  well_formed s → checked m → accept c m r h s = Ok (x, s') →
  (fits m = true → well_formed s')
  ∧ (s' = s ∨ ∃ e, commands s' = (commands s ++ [e])%list
       ∧ workflowActionForSchema e.(envelope).(schemaName) = Some (workflow_of m)
       ∧ COMMAND_VALIDATORS dateParses (workflow_of m) e = fits m).
Proof using All.
  intros Hwf Hm Hs. apply accept_inv in Hs.
  destruct Hs as [m rec Hk Hh Hp | m i row w role url action reason event id Hk Hi Hrow Ha Hw op o a s' Ho Hp
    | g k ctx address a Hk Hctx Hq Haddress Ha Hi Ho Hpi Hpo Hl Hu].
  - split; [done|by left].
  - split.
    + intros Hfits. destruct (writes_wf r s m i row w Hwf Hm Hfits Hrow Hw) as [Hocc Hsn].
      split; [apply Hwf..| |exact Hsn]. intros k row' Hrow'. cbn in Hrow'. rewrite lookup_alter in Hrow'.
      destruct (decide (i = k)) as [<-|]; [|exact (wf_instances s Hwf k row' Hrow')].
      rewrite Hrow in Hrow'. injection Hrow' as <-. exact Hocc.
    + right. destruct (writes_command r s m i event op row w Hwf Hm Hrow Hw) as (Ha' & _ & Hv).
      eexists. split; [|by split; [exact Ha'|exact Hv]].
      unfold commands. cbn. rewrite !omap_app. cbn. by rewrite app_nil_r.
  - destruct (create_command g r k s ctx address a Hwf Hm Hctx Haddress Ha) as [(He & _ & Hv) Hnew]. split.
    + intros _. split; [apply Hwf..| |apply Hwf]. by apply map_Forall_insert_2; [|apply Hwf].
    + right. exists a.(ar_event). split; [|done].
      unfold commands. cbn. rewrite !omap_app. cbn. by rewrite app_nil_r.
Qed.
End publication.

(** ** A concrete publication *)

(** A call whose identifiers are UUIDs; a create draws seven. *)
Definition uuid_call (t : Z) : Call :=
  {| dbNow := t; appNow := t;
     uuid n := "3f2504e0-4f89-41d3-9a0c-0305e82c330" ++ (match n with
       | 0 => "0" | 1 => "1" | 2 => "2" | 3 => "3" | 4 => "4" | 5 => "5" | 6 => "6" | _ => "7" end)%nat |}.
Lemma uuid_call_ok t n : uuidPattern ((uuid_call t).(uuid) n) = true.
Proof. do 7 (destruct n as [|n]; [vm_compute; reflexivity|]). vm_compute. reflexivity. Qed.
Lemma sample_dates t : dateParses (Platform := sample_platform) (toISOString (Platform := sample_platform) t) = true.
Proof.
  cbn. unfold string_of_Z, truthy. destruct (Z.to_int t) as [u|u] eqn:E; [|done].
  destruct u; cbn; try done. exfalso. destruct t as [|p|p]; cbn in E; [done| |done].
  injection E as E. by apply DecimalPos.Unsigned.to_uint_nonnil in E.
Qed.

Lemma sample_wf : well_formed empty_control.
Proof.
  split; cbn.
  - intros id f [[<- <-]|[_ [<- <-]%lookup_singleton_Some]]%lookup_insert_Some;
      unfold id_length, sizing_bounds; vm_compute; naive_solver.
  - intros id f [<- <-]%lookup_singleton_Some. unfold id_length; vm_compute; naive_solver.
  - intros id f [<- <-]%lookup_singleton_Some. unfold id_length. split; [vm_compute; naive_solver|]. cbn.
    split; [|apply NoDup_singleton]. constructor; [vm_compute; eauto|constructor].
  - apply map_Forall_empty.
  - apply map_Forall_empty.
Qed.

Lemma published_commands_are_valid_witness :
  let x := accept (H := sample_platform) (uuid_call 1) (Create "" sample_create) (sample_request "p1" "k") "hash" empty_control in
  x = Ok (accepted_answer x, accepted_state x)
  ∧ well_formed (accepted_state x)
  ∧ List.length (commands (accepted_state x)) = 1%nat.
Proof.
  intros x.
  assert (Hx : x = Ok (accepted_answer x, accepted_state x)) by (apply accepted_ok; vm_compute; reflexivity).
  assert (Hm : checked (Create "" sample_create)) by (vm_compute; reflexivity).
  split; [exact Hx|]. split.
  - exact (proj1 (published_commands_are_valid (H := sample_platform) sample_dates (uuid_call 1) (uuid_call_ok 1)
      (Create "" sample_create) (sample_request "p1" "k") "hash" empty_control (accepted_state x) (accepted_answer x)
      sample_wf Hm Hx) eq_refl).
  - vm_compute. reflexivity.
Defined.
