(* ===== verification/Reads.v ===== *)
(** * The reads of the control plane

    The [get*] and [list*] methods of [control-plane-store.ts] over the
    catalog, the read documents and the audit trail.  The listings order
    documents by recency and the catalog by identifier, and the database casts
    a cursor's components to the columns' types. *)
From S2P Require Import Prelude JsText Json SshKey Domain Ipv4 WorkflowStage Events EventValidation Platform JsonParse PageCursor ControlDb AcceptStore AcceptCreate Control Projection ControlHistory Acceptance.
From Stdlib Require Import ZArith Lia Bool Ascii String Sorting.Sorted.
From stdpp Require Import base decidable list strings gmap sorting.
Open Scope string_scope.
Open Scope Z_scope.
Open Scope prog_scope.

(** The casts [$1::timestamptz] and [$1::uuid] of a text parameter, and the
    collation of text columns. *)
Class Casts : Type := {
  timestamptz : string → option Z;
  uuid_cast : string → option string;
  collates : string → string → bool;
}.

Record Page (T : Type) : Type := { page_items : list T; page_limit : Z; page_nextCursor : option string }.
Arguments page_items {T}.
Arguments page_limit {T}.
Arguments page_nextCursor {T}.
Arguments Build_Page {T}.

Definition later (a b : Z * string) : bool := (fst a <? fst b) || (fst a =? fst b) && (snd a <? snd b)%string.

Record AdministrativeOperationView : Set := {
  ao_operation : OperationView;
  ao_correlationId : option string;
  ao_causationId : option string;
  ao_traceId : option string;
  ao_retryCount : Z;
  ao_checkpoint : string;
  ao_deadLetterEventId : option string;
  ao_providerTaskReference : option string;
}.

(** A set of limits and the usage against them. *)
Record QuotaSet : Set := {
  qs_instances : Z; qs_cpuCount : Z; qs_memoryMiB : Z; qs_diskGiB : Z; qs_ipv4Addresses : Z; qs_snapshots : Z }.
Record QuotaView : Set := { qv_projectId : string; qv_limits : QuotaSet; qv_usage : QuotaSet; qv_measuredAt : Z }.

Record AuditEventFilter : Set := { af_projectId : option string; af_operationId : option string }.
Record AuditEventView : Set := {
  ae_id : string;
  ae_actorId : string;
  ae_actorRole : AuditRole;
  ae_projectId : string;
  ae_action : string;
  ae_targetType : string;
  ae_targetId : string;
  ae_operationId : string;
  ae_outcome : AuditOutcome;
  ae_occurredAt : Z;
}.

(** The text of the enumerations, and the narrowing of stored text. *)
Definition role_text (r : AuditRole) : string :=
  match r with
  | role_tenant_developer => "tenant_developer" | role_platform_operator => "platform_operator"
  | role_platform_administrator => "platform_administrator" | role_service => "service"
  end.
Definition auditActorRole (value : string) : AuditRole :=
  default role_service (List.find (λ r, String.eqb (role_text r) value)
    [role_tenant_developer; role_platform_operator; role_platform_administrator; role_service]).
Definition outcome_text (o : AuditOutcome) : string :=
  match o with
  | audit_accepted => "accepted" | audit_succeeded => "succeeded" | audit_rejected => "rejected" | audit_failed => "failed"
  end.
Definition auditOutcome (value : string) : AuditOutcome :=
  default audit_rejected (List.find (λ o, String.eqb (outcome_text o) value)
    [audit_accepted; audit_succeeded; audit_rejected; audit_failed]).

(** ** The catalog *)

Record ProjectView : Set := { pv_id : string; pv_name : string; pv_enabled : bool; pv_createdAt : Z; pv_updatedAt : Z }.
Record ImageView : Set := {
  imv_id : string; imv_name : string; imv_providerProfileId : string; imv_enabled : bool; imv_architecture : string;
  imv_createdAt : Z; imv_updatedAt : Z }.
Record FlavorView : Set := {
  fv_id : string; fv_name : string; fv_cpuCount : Z; fv_memoryMiB : Z; fv_minimumDiskGiB : Z; fv_enabled : bool;
  fv_createdAt : Z; fv_updatedAt : Z }.
Record NetworkView : Set := {
  nv_id : string; nv_name : string; nv_providerProfileId : option string; nv_ipv4Cidr : string; nv_gateway : string;
  nv_dnsServers : list string; nv_exclusions : list string; nv_enabled : bool; nv_createdAt : Z; nv_updatedAt : Z }.

Definition project_view (id : string) (r : ProjectRow) : ProjectView :=
  {| pv_id := id; pv_name := r.(pj_label).(lb_name); pv_enabled := r.(pj_enabled);
     pv_createdAt := r.(pj_label).(lb_created_at); pv_updatedAt := r.(pj_label).(lb_updated_at) |}.
Definition image_view (p : string * ImageRow) : ImageView :=
  let r := snd p in
  {| imv_id := fst p; imv_name := r.(im_label).(lb_name); imv_providerProfileId := r.(im_provider_profile_id);
     imv_enabled := r.(im_enabled); imv_architecture := r.(im_architecture);
     imv_createdAt := r.(im_label).(lb_created_at); imv_updatedAt := r.(im_label).(lb_updated_at) |}.
Definition flavor_view (p : string * FlavorRow) : FlavorView :=
  let r := snd p in
  {| fv_id := fst p; fv_name := r.(fl_label).(lb_name); fv_cpuCount := r.(fl_cpu_count); fv_memoryMiB := r.(fl_memory_mib);
     fv_minimumDiskGiB := r.(fl_minimum_disk_gib); fv_enabled := r.(fl_enabled);
     fv_createdAt := r.(fl_label).(lb_created_at); fv_updatedAt := r.(fl_label).(lb_updated_at) |}.
Definition network_view (p : string * NetworkRow * option string) : NetworkView :=
  let '(id, r, profile) := p in
  {| nv_id := id; nv_name := r.(nw_label).(lb_name); nv_providerProfileId := present profile; nv_ipv4Cidr := r.(nw_ipv4_cidr);
     nv_gateway := r.(nw_gateway); nv_dnsServers := r.(nw_dns_servers); nv_exclusions := r.(nw_exclusions);
     nv_enabled := r.(nw_enabled); nv_createdAt := r.(nw_label).(lb_created_at); nv_updatedAt := r.(nw_label).(lb_updated_at) |}.

(** The enabled networks LEFT JOIN the profiles that name them. *)
Definition paired_networks (k : Catalog) : list (string * NetworkRow * option string) :=
  flat_map (λ n : string * NetworkRow,
      match List.filter (λ p : string * ProfileRow, String.eqb (snd p).(pp_network_id) (fst n)) (map_to_list k.(provider_profiles)) with
      | [] => [(n, None)]
      | profiles => map (λ p : string * ProfileRow, (n, Some (fst p))) profiles
      end)
    (List.filter (λ n : string * NetworkRow, (snd n).(nw_enabled)) (map_to_list k.(networks))).

Section reads.
Context `{Platform, Base64url, Casts}.

(** ORDER BY updated_at DESC, id DESC; [seekDescending] compares the pair. *)
Definition by_recency {R : Type} (at_ : R → Z) (id : R → string) : Seek R (Z * string) :=
  {| position r := {| cu_sortKey := toISOString (at_ r); cu_id := id r |};
     seek_key p :=
       match timestamptz p.(cu_sortKey), uuid_cast p.(cu_id) with
       | Some t, Some i => Ok (t, i)
       | _, _ => Err (Fault "invalid input syntax")
       end;
     row_key r := (at_ r, id r);
     precedes a b := later b a |}.

Definition listing {R T : Type} (at_ : R → Z) (id : R → string) (view : R → T) (page : PageRequest) (rows : list R) :
    result error (Page T) :=
  let? trimmed := list_page (H0 := by_recency at_ id) page rows in
  Ok {| page_items := map view (fst trimmed); page_limit := page.(pg_limit); page_nextCursor := snd trimmed |}.

(** ORDER BY id; [seekAscending] compares the identifier. *)
Definition catalog_listing {R T : Type} (id : R → string) (view : R → T) (page : PageRequest) (rows : list R) :
    result error (Page T) :=
  let? trimmed := list_page (H0 := by_identifier collates id) page rows in
  Ok {| page_items := map view (fst trimmed); page_limit := page.(pg_limit); page_nextCursor := snd trimmed |}.

Context (s : ControlDb).

Definition getProject (project : string) : option ProjectView := project_view project <$> s.(catalog).(projects) !! project.
Definition listImages (project : string) (page : PageRequest) : result error (Page ImageView) :=
  catalog_listing fst image_view page
    (List.filter (λ p : string * ImageRow, (snd p).(im_enabled)) (map_to_list s.(catalog).(images))).
Definition listFlavors (project : string) (page : PageRequest) : result error (Page FlavorView) :=
  catalog_listing fst flavor_view page
    (List.filter (λ p : string * FlavorRow, (snd p).(fl_enabled)) (map_to_list s.(catalog).(flavors))).
Definition listNetworks (project : string) (page : PageRequest) : result error (Page NetworkView) :=
  catalog_listing (fst ∘ fst) network_view page (paired_networks s.(catalog)).

(** The documents of the dead letters, most recently changed first. *)
Definition listDeadLetters (page : PageRequest) : result error (Page DeadLetterView) :=
  listing (λ r, (snd r).(dlv_updated_at)) fst snd page (map_to_list s.(p_dead_letters)).

Definition documents_of {A : Type} (project : string) (owner : A → string) (m : gmap string A) : list (string * A) :=
  List.filter (λ r, String.eqb (owner (snd r)) project) (map_to_list m).

Definition getInstance (project instance : string) : option InstanceView :=
  v ← s.(p_instances) !! instance; if String.eqb v.(iv_projectId) project then Some v else None.
Definition listInstances (project : string) (page : PageRequest) : result error (Page InstanceView) :=
  listing (λ r, (snd r).(iv_updatedAt)) fst snd page (documents_of project iv_projectId s.(p_instances)).

Definition getOperation (project operation : string) : option OperationView :=
  v ← s.(p_operations) !! operation; if String.eqb (fst v).(op_projectId) project then Some (fst v) else None.
Definition listOperations (project : string) (page : PageRequest) : result error (Page OperationView) :=
  listing (λ r, (fst (snd r)).(op_updatedAt)) fst (λ r, fst (snd r)) page
    (documents_of project (λ v, (fst v).(op_projectId)) s.(p_operations)).

(** The snapshot document's project column is that of its row. *)
Definition listSnapshots (project instance : string) (page : PageRequest) : result error (Page SnapshotView) :=
  listing (λ r, (snd r).(sv_updatedAt)) fst snd page
    (List.filter (λ r, match s.(snapshots) !! fst r with
                       | Some row => String.eqb row.(sn_project_id) project
                       | None => false
                       end && String.eqb (snd r).(sv_instanceId) instance)
       (map_to_list s.(p_snapshots))).

(** Across every project; [row.correlation_id] empty or null is omitted. *)
Definition getAdministrativeOperation (operation : string) : option AdministrativeOperationView :=
  '(v, r) ← s.(p_operations) !! operation;
  Some {| ao_operation := v;
          ao_correlationId := if truthy r.(rc_correlation_id) then Some r.(rc_correlation_id) else None;
          ao_causationId := r.(rc_causation_id); ao_traceId := r.(rc_trace_id); ao_retryCount := r.(rc_retry_count);
          ao_checkpoint := r.(rc_checkpoint); ao_deadLetterEventId := r.(rc_dead_letter_event_id);
          ao_providerTaskReference := r.(rc_provider_task_reference) |}.

Definition getQuota (c : Call) (project : string) : option QuotaView :=
  q ← s.(catalog).(quotas) !! project;
  let used := usage project s in
  Some {| qv_projectId := project;
          qv_limits := {| qs_instances := q.(qt_instances); qs_cpuCount := q.(qt_cpu_count);
                          qs_memoryMiB := q.(qt_memory_mib); qs_diskGiB := q.(qt_disk_gib);
                          qs_ipv4Addresses := q.(qt_ipv4_addresses); qs_snapshots := q.(qt_snapshots) |};
          qv_usage := {| qs_instances := Z.of_nat (List.length (charged_instances project s));
                         qs_cpuCount := used.(cpuCount); qs_memoryMiB := used.(memoryMiB); qs_diskGiB := used.(diskGiB);
                         qs_ipv4Addresses := Z.of_nat (List.length (List.filter
                           (λ l, String.eqb l.(al_project_id) project && occupies l) (map snd (map_to_list s.(ipv4_leases)))));
                         qs_snapshots := Z.of_nat (List.length
                           (List.filter (counted project) (map snd (map_to_list s.(snapshots))))) |};
          qv_measuredAt := appNow c |}.

Definition audit_view (e : Command AuditData) : AuditEventView :=
  {| ae_id := e.(envelope).(aggregateId); ae_actorId := e.(data).(audit_actorId);
     ae_actorRole := auditActorRole (role_text e.(data).(audit_actorRole)); ae_projectId := e.(envelope).(projectId);
     ae_action := e.(data).(audit_action); ae_targetType := e.(data).(audit_targetType);
     ae_targetId := e.(data).(audit_targetId); ae_operationId := e.(envelope).(operationId);
     ae_outcome := auditOutcome (outcome_text e.(data).(audit_outcome)); ae_occurredAt := e.(envelope).(occurredAt) |}.
(** An absent or empty filter does not restrict. *)
Definition matches (wanted : option string) (value : string) : bool :=
  match wanted with Some w => negb (truthy w) || String.eqb w value | None => true end.
Definition listAuditEvents (f : AuditEventFilter) (page : PageRequest) : result error (Page AuditEventView) :=
  listing (λ e, e.(envelope).(occurredAt)) (λ e, e.(envelope).(aggregateId)) audit_view page
    (List.filter (λ e, matches f.(af_projectId) e.(envelope).(projectId)
                       && matches f.(af_operationId) e.(envelope).(operationId)) s.(control_audit)).
End reads.

(** ** Reading a listing to its end *)

Section walk.
Context `{Platform, Base64url, Casts}.
Context {R : Type} (at_ : R → Z) (id : R → string).

#[local] Instance recency : Seek R (Z * string) := by_recency at_ id.
#[local] Instance recency_laws : SeekLaws R (Z * string).
Proof.
  split; unfold precedes, recency, by_recency, later.
  - intros [t i]. cbn. by rewrite Z.ltb_irrefl, string_ltb_irrefl, andb_false_r.
  - intros [t i] [t' i'] [t2 i2]. cbn.
    destruct (Z.ltb_spec t' t), (Z.ltb_spec t2 t'), (Z.ltb_spec t2 t), (Z.eqb_spec t' t), (Z.eqb_spec t2 t'), (Z.eqb_spec t2 t);
      cbn; try done; try lia. intros Ha Hb. by eapply string_ltb_trans.
  - intros [t i] [t' i']. cbn. destruct (Z.ltb_spec t' t), (Z.ltb_spec t t'), (Z.eqb_spec t' t), (Z.eqb_spec t t'); cbn; try done; try lia.
    intros Ha Hb. f_equal; [done|]. by apply string_ltb_total.
Qed.

(** A row whose cursor the contract allows, and the database reads back as the
    row's own time and key. *)
Record positioned (r : R) : Prop := {
  po_time : component (toISOString (at_ r)) ∧ timestamptz (toISOString (at_ r)) = Some (at_ r);
  po_id : component (id r) ∧ uuid_cast (id r) = Some (id r);
  po_length : 1 ≤ js_length (encodePageCursor (position r)) ≤ MAXIMUM_CURSOR_LENGTH;
}.
(** A version of a table: a primary key, and positioned rows. *)
Definition keyed (rows : list R) : Prop := NoDup (map id rows) ∧ Forall positioned rows.

Hypothesis base64url_roundtrip : ∀ s, fromBase64url (toBase64url s) = s.

Lemma positioned_addressable (r : R) : positioned r → addressable r.
Proof using base64url_roundtrip.
  intros [[Hc Ht] [Hi Hu] Hl]. split_and!.
  - intros He. rewrite He in Hl. unfold js_length in Hl. cbn in Hl. lia.
  - by apply PageCursor.decode_encode.
  - cbn. by rewrite Ht, Hu.
Qed.
Lemma keyed_proper (rows : list R) : keyed rows → proper rows.
Proof using base64url_roundtrip.
  intros [Hnd Ha]. split; [|eapply Forall_impl; [exact Ha|apply positioned_addressable]].
  clear Ha. induction rows as [|r rows IH]; [constructor|]. cbn in *. apply NoDup_cons in Hnd as [Hin Hnd].
  constructor; [|by apply IH]. intros (x & [= _ Hid] & Hx)%list_elem_of_fmap. apply Hin. rewrite Hid. by apply list_elem_of_fmap_2.
Qed.
Lemma keyed_inj (rows : list R) (x y : R) : keyed rows → x ∈ rows → y ∈ rows → id x = id y → x = y.
Proof.
  intros [Hnd _]. induction rows as [|r rows IH]; [by intros ?%elem_of_nil|]. cbn in Hnd. apply NoDup_cons in Hnd as [Hin Hnd].
  intros [->|Hx]%elem_of_cons [->|Hy]%elem_of_cons Hid; [done| | |by apply IH].
  - destruct Hin. rewrite Hid. by apply list_elem_of_fmap_2.
  - destruct Hin. rewrite <- Hid. by apply list_elem_of_fmap_2.
Qed.

Context {T : Type} (view : R → T).

(** A client follows the cursors, each request against the rows of its moment. *)
Fixpoint follow (limit : Z) (versions : list (list R)) (cursor : option string) : result error (list T * option string) :=
  match versions with
  | [] => Ok ([], cursor)
  | rows :: versions =>
      let? page := listing at_ id view {| pg_limit := limit; pg_cursor := cursor |} rows in
      match page.(page_nextCursor) with
      | None => Ok (page.(page_items), None)
      | Some next =>
          let? rest := follow limit versions (Some next) in Ok ((page.(page_items) ++ fst rest)%list, snd rest)
      end
  end.

Lemma follow_walk (limit : Z) (versions : list (list R)) (cursor : option string) :
  follow limit versions cursor = let? w := walk limit versions cursor in Ok (map view (fst w), snd w).
Proof.
  revert cursor. induction versions as [|rows versions IH]; intros cursor; [done|]. cbn [follow walk]. unfold listing.
  change (by_recency at_ id) with recency. destruct (list_page _ rows) as [[items [next|]]|e]; cbn; [|done|done].
  rewrite IH. destruct (walk limit versions (Some next)) as [[rest left]|e]; cbn; [by rewrite map_app|done].
Qed.

(** The time of a row never goes back from one version to a later one. *)
Definition never_back : list (list R) → Prop :=
  StronglySorted (λ v w, ∀ x y, x ∈ v → y ∈ w → id x = id y → at_ x ≤ at_ y).

(** C33: Reading a listing to its end.  The listings of instances, operations,
    snapshots, dead letters and audit facts order rows by time and key, latest
    first, and a client follows the cursors it is given with any page size.
    Provided that base 64 and the casts of the database read back what was
    written, that keys are unique and that cursors fit the contract: a table
    that does not change is read in as few pages as its size needs, every row
    once and in order.  When the table changes between the pages, every request
    still succeeds; what is returned is in order and was in the table; a row
    that stayed exactly as it was is returned, once the client reached the end;
    and no key is returned twice if times never go back.  (A row that was
    changed in between may be missed: it moves to the front.) *)
Theorem listing_is_exact (limit : Z) (Hlimit : 1 ≤ limit) :
  (∀ rows n, keyed rows → Z.of_nat (List.length rows) ≤ Z.of_nat (S n) * limit →
     follow limit (replicate (S n) rows) None = Ok (map view (sorted_rows rows), None))
  ∧ (∀ versions, Forall keyed versions →
     ∃ items next, follow limit versions None = Ok (map view items, next)
       ∧ StronglySorted (λ a b, later (at_ b, id b) (at_ a, id a) = true) items
       ∧ (∀ r, r ∈ items → ∃ rows, rows ∈ versions ∧ r ∈ rows)
       ∧ (next = None → versions ≠ [] → ∀ r, Forall (λ rows, r ∈ rows) versions → r ∈ items)
       ∧ (never_back versions → NoDup (map id items))).
Proof using base64url_roundtrip.
  split.
  - intros rows n Hrows Hn. rewrite follow_walk, walk_unchanged; [done..|by apply keyed_proper|done].
  - intros versions Hversions.
    assert (Hproper : Forall proper versions) by (eapply Forall_impl; [exact Hversions|apply keyed_proper]).
    destruct (walk_changing limit versions Hlimit Hproper) as (items & next & Hw & Hs & Hsound & Hall).
    exists items, next. rewrite follow_walk, Hw. split_and!; [done|exact Hs|done| |].
    + intros Hnext Hne r Hr.
      assert (Hkey : Forall (λ rows, row_key r ∈ map row_key rows) versions).
      { eapply Forall_impl; [exact Hr|]. intros rows. apply list_elem_of_fmap_2. }
      apply (Hall Hnext Hne) in Hkey as (x & [= _ Hid] & Hx)%list_elem_of_fmap.
      destruct (Hsound x Hx) as (rows & Hrows & Hxr). rewrite Forall_forall in Hversions, Hr.
      by rewrite (keyed_inj rows r x (Hversions _ Hrows) (Hr _ Hrows) Hxr Hid).
    + intros Hforward. refine (walk_names id limit versions Hlimit Hproper _ _ None None items next I Hw).
      * eapply Forall_impl; [exact Hversions|]. by intros rows [? _].
      * eapply StronglySorted_impl; [exact Hforward|]. intros v w Hvw x y Hx Hy Hid Hxy. specialize (Hvw x y Hx Hy Hid).
        unfold strictly in Hxy. cbn in Hxy. unfold later in Hxy. cbn in Hxy.
        rewrite Hid, string_ltb_irrefl, andb_false_r, orb_false_r in Hxy. apply Z.ltb_lt in Hxy. lia.
Qed.
End walk.

(** ** A limit of the network listing

    A row per network and profile, and a cursor that names the network alone: a
    network that several profiles use is listed with some of them only when a
    page ends at it. *)
Section limits.
Context `{Base64url, Casts}.

Lemma paginate_from {T : Type} (rows : list T) (limit : Z) (position : T → PageCursor) (x : T) :
  x ∈ fst (paginate rows limit position) → x ∈ rows.
Proof.
  unfold paginate. destruct (_ <=? _); cbn; [done|]. intros Hx. rewrite <- (take_drop (Z.to_nat limit) rows).
  apply elem_of_app. by left.
Qed.

(** Whatever pairings a network has, none of them is on a page that continues
    from that network: the page that ended with one of them was the last to
    show any, and the others it did not show are on no page. *)
Theorem continued_page_skips_the_network (s : ControlDb) (project cursor : string) (limit : Z) (p : PageCursor)
    (page : Page NetworkView) :
  (∀ a, collates a a = false) → truthy cursor = true → decodePageCursor cursor = Ok p →
  listNetworks s project {| pg_limit := limit; pg_cursor := Some cursor |} = Ok page →
  Forall (λ v, v.(nv_id) ≠ p.(cu_id)) page.(page_items).
Proof.
  intros Hirrefl Ht Hp Hpage. unfold listNetworks, catalog_listing, list_page in Hpage. cbn [pg_cursor pg_limit] in Hpage.
  rewrite Ht, Hp in Hpage. cbn [rbind seek_key by_identifier] in Hpage. injection Hpage as <-. cbn [page_items].
  apply Forall_forall. intros v ([n profile] & -> & Hn)%list_elem_of_fmap. apply paginate_from in Hn.
  apply elem_of_take in Hn as (k & Hk & _). apply list_elem_of_lookup_2 in Hk. unfold sorted_rows in Hk.
  rewrite merge_sort_Permutation in Hk. apply elem_of_after in Hk as [_ Hk]. cbn in Hk. intros Heq.
  destruct n as [i row]. cbn in *. subst. by rewrite Hirrefl in Hk.
Qed.
End limits.

(** ** Two profiles on one network *)

Definition shared_network_db : ControlDb :=
  {| catalog :=
       {| projects := ∅; images := ∅; flavors := ∅; quotas := ∅; retention_policy := sample_catalog.(retention_policy);
          provider_profiles := {[ "prof-a" := {| pp_state := "active"; pp_network_id := "net" |};
                                  "prof-b" := {| pp_state := "active"; pp_network_id := "net" |} ]};
          networks := sample_catalog.(networks) |};
     instances := ∅; operations := ∅; ipv4_leases := ∅; snapshots := ∅; idempotency_records := ∅; control_outbox := [];
     control_audit := []; control_replays := ∅; p_instances := ∅; p_operations := ∅; p_snapshots := ∅; p_dead_letters := ∅;
     event_receipts := ∅; p_poison := ∅ |}.
Definition catalog_casts : Casts := {| timestamptz := Number_integer; uuid_cast := Some; collates := String.ltb |}.

(** The number of items on a page of one, and its cursor. *)
Definition listed (cursor : option string) : option (nat * option string) :=
  match listNetworks (H0 := sample_base64url) (H1 := catalog_casts) shared_network_db "p1" {| pg_limit := 1; pg_cursor := cursor |} with
  | Ok p => Some (List.length p.(page_items), p.(page_nextCursor))
  | Err _ => None
  end.
Definition second_cursor : string := match listed None with Some (_, Some next) => next | _ => "" end.

(** Read in pages of one, the listing of two pairings shows one and ends. *)
Lemma shared_network_listing :
  List.length (paired_networks shared_network_db.(catalog)) = 2%nat
  ∧ listed None = Some (1%nat, Some second_cursor) ∧ listed (Some second_cursor) = Some (0%nat, None).
Proof. split_and!; vm_compute; reflexivity. Qed.

(** ** Two instances, read one by one *)

Definition read_instances (limit : Z) (versions : list (list (string * InstanceView))) :=
  follow (H := sample_platform) (H0 := sample_base64url) (H1 := catalog_casts) (λ r, (snd r).(iv_updatedAt)) fst snd limit versions None.
Definition two_instances : list (string * InstanceView) :=
  Eval vm_compute in documents_of "p1" iv_projectId (sample_run [create_step 1 "p1" "k1"; create_step 2 "p1" "k2"]).(p_instances).

Lemma listing_is_exact_witness :
  two_instances = documents_of "p1" iv_projectId (sample_run [create_step 1 "p1" "k1"; create_step 2 "p1" "k2"]).(p_instances)
  ∧ (map iv_id ∘ fst) <$> (match read_instances 1 [two_instances; two_instances] with Ok x => Some x | Err _ => None end)
    = Some ["2-0"; "1-0"].
Proof.
  split; [vm_compute; reflexivity|].
  assert (Hk : keyed (H := sample_platform) (H0 := sample_base64url) (H1 := catalog_casts) (λ r, (snd r).(iv_updatedAt)) fst two_instances).
  { split; [apply (bool_decide_unpack _); vm_compute; exact I|].
    repeat constructor; cbn; try (vm_compute; reflexivity); vm_compute; discriminate. }
  unfold read_instances.
  rewrite (proj1 (listing_is_exact (H := sample_platform) (H0 := sample_base64url) (H1 := catalog_casts)
    (λ r, (snd r).(iv_updatedAt)) fst sample_base64url_roundtrip snd 1 ltac:(lia)) two_instances 1%nat Hk ltac:(vm_compute; discriminate)
    : follow (H := sample_platform) (H0 := sample_base64url) (H1 := catalog_casts) (λ r, (snd r).(iv_updatedAt)) fst snd 1
        [two_instances; two_instances] None = _).
  vm_compute. reflexivity.
Defined.

(** A row that is changed while a client reads on is missed: it is in the table
    at every moment, and the client reaches the end without it. *)
Theorem changed_row_is_missed :
  let before := [(3, "a"); (2, "b"); (1, "c")] in
  let after := [(3, "a"); (2, "b"); (4, "c")] in
  follow (H := sample_platform) (H0 := sample_base64url) (H1 := catalog_casts) fst snd snd 1 [before; after; after] None
  = Ok (["a"; "b"], None).
Proof. vm_compute. reflexivity. Qed.
