(* ===== verification/ControlPlane.v ===== *)
(** * The application service

    [packages/application/src/control-plane.ts]: authorization, the input rules
    the transports cannot enforce, the identity of a request, and delegation to
    the store; and [request-context.ts], which gives a request its correlation
    and trace identifiers.  Spans and counters are left out; the trace carrier
    that is active when a request is handled is an argument. *)
From S2P Require Import Prelude JsText Json SshKey JsonParse Domain PageCursor Ipv4 WorkflowStage Events EventValidation Platform JsonOrder MessageCodec ControlDb AcceptStore AcceptCreate Control Reads.
From Stdlib Require Import ZArith Lia Bool Ascii String Permutation.
From stdpp Require Import base decidable list strings gmap sorting.
Open Scope string_scope.
Open Scope Z_scope.
Open Scope prog_scope.

(** ** Request context *)

Inductive bad_request : Set := BadRequest (message : string).

(** The stricter pattern of a request's correlation identifier: version 1 to 5
    and the RFC variant. *)
Definition requestUuidPattern (s : string) : bool :=
  uuidPattern s &&
  match split_on "-" s with
  | [_; _; String v _; String n _; _] =>
      in_range 49 53 v && bool_decide (n ∈ ["8"; "9"; "a"; "b"; "A"; "B"]%char)
  | _ => false
  end.
Definition correlationId (fresh : string) (value : option string) : result bad_request string :=
  match present value with
  | None => Ok fresh
  | Some text => if requestUuidPattern text then Ok text else Err (BadRequest "Correlation ID must be a UUID.")
  end.

(** [^00-([0-9a-f]{32})-([0-9a-f]{16})-[0-9a-f]{2}$]. *)
Definition requestTraceparentPattern (s : string) : option (string * string) :=
  match split_on "-" s with
  | "00" :: _ => MessageCodec.traceparentPattern s
  | _ => None
  end.
Definition requestTraceparent (fresh : string) (value : option string) : result bad_request string :=
  match present value with
  | None => Ok fresh
  | Some text =>
      match requestTraceparentPattern text with
      | Some (trace, span_) =>
          if all_zero trace || all_zero span_ then Err (BadRequest "Traceparent is invalid.") else Ok text
      | None => Err (BadRequest "Traceparent is invalid.")
      end
  end.

Definition maximumTracestateLength : Z := 512.
Definition requestTracestate (value suppliedTraceparent : option string) : result bad_request (option string) :=
  match present value with
  | None => Ok None
  | Some text =>
      match present suppliedTraceparent with
      | None => Err (BadRequest "Tracestate requires a traceparent header.")
      | Some _ =>
          if (maximumTracestateLength <? js_length text) || existsb control_character (chars text)
          then Err (BadRequest "Tracestate is invalid.") else Ok (Some text)
      end
  end.

(** ** Inputs *)

Record Actor : Set := { subject : string; roles : list string; projects_ : list string }.

(** The fields every mutation carries. *)
Record Input : Set := {
  in_actor : Actor;
  in_projectId : string;
  in_idempotencyKey : string;
  in_correlationId : string;
  in_traceparent : string;
  in_tracestate : option string;
}.
Record CreateInstanceInput : Set := {
  ci_imageId : string; ci_flavorId : string; ci_networkId : string; ci_hostname : string;
  ci_sshPublicKeys : option (list string) }.

Definition DEFAULT_PAGE_LIMIT : Z := 50.
Definition MAXIMUM_PAGE_LIMIT : Z := 100.
Definition IDEMPOTENCY_KEY_MINIMUM_LENGTH : Z := 8.
Definition IDEMPOTENCY_KEY_MAXIMUM_LENGTH : Z := 128.

(** ** Guards *)

Definition access_denied : error := DomainError PROJECT_ACCESS_DENIED "Project access is denied.".
Definition admin_required : error := DomainError ADMIN_REQUIRED "Platform administrator access is required.".

Definition member (a : Actor) (project : string) : bool :=
  bool_decide ("tenant_developer" ∈ a.(roles)) && bool_decide (project ∈ a.(projects_)).
Definition administrator (a : Actor) : bool := bool_decide ("platform_administrator" ∈ a.(roles)).

Definition authorize (a : Actor) (project : string) : result error unit :=
  if member a project then Ok tt else Err access_denied.
Definition authorizeAdministrator (a : Actor) : result error unit :=
  if administrator a then Ok tt else Err admin_required.
Definition assertIdempotencyKey (key : string) : result error unit :=
  if (js_length key <? IDEMPOTENCY_KEY_MINIMUM_LENGTH) || (IDEMPOTENCY_KEY_MAXIMUM_LENGTH <? js_length key)
  then Err (invalid "Idempotency key must contain 8 to 128 characters.") else Ok tt.

(** [value] is the number the transport parsed; [None] is not an integer. *)
Definition limit (value : option Z) : Z :=
  match value with
  | Some n => if (1 <=? n) && (n <=? MAXIMUM_PAGE_LIMIT) then n else DEFAULT_PAGE_LIMIT
  | None => DEFAULT_PAGE_LIMIT
  end.
Definition page (value : option Z) (cursor : option string) : PageRequest :=
  {| pg_limit := limit value; pg_cursor := present cursor |}.

Definition required {A : Type} (value : option A) (c : DomainErrorCode) : result error A :=
  match value with Some a => Ok a | None => Err (DomainError c "The requested resource was not found.") end.

(** ** The identity of a request *)

(** [values.sort()]: by code units. *)
Definition text_le (a b : string) : Prop := String.leb a b = true.
#[export] Instance text_le_dec : RelDecision text_le.
Proof. intros a b. unfold text_le. apply _. Defined.
Definition sort_texts (l : list string) : list string := merge_sort text_le l.

(** What a caller asks for. *)
Inductive Intent : Set :=
| CreateInstance (i : CreateInstanceInput)
| PowerInstance (instance : string) (action : string)
| ResizeInstance (instance flavor : string) (disk : option Z)
| CreateSnapshot (instance name : string) (description : option string)
| SnapshotAction (m : SnapshotMutation) (instance snapshot : string)
| RetainInstance (instance : string)
| PurgeInstance (instance confirmation reason : string).

(** The operation an intent is recorded under. *)
Definition operation_name (q : Intent) : string :=
  match q with
  | CreateInstance _ => "create_instance" | PowerInstance _ _ => "power_instance"
  | ResizeInstance _ _ _ => "resize_instance" | CreateSnapshot _ _ _ => "create_snapshot"
  | SnapshotAction m _ _ => mutation_action m | RetainInstance _ => "retain_instance"
  | PurgeInstance _ _ _ => "purge_instance"
  end.
Definition nullable {A : Type} (f : A → json) (o : option A) : json := from_option f JNull o.

(** The semantic content that is hashed. *)
Definition request_json (i : Input) (q : Intent) : json :=
  let project := ("projectId", JStr i.(in_projectId)) in
  let operation := ("operation", JStr (operation_name q)) in
  JObj (("actor", JStr i.(in_actor).(subject)) ::
    match q with
    | CreateInstance k =>
        [project; operation; ("imageId", JStr k.(ci_imageId)); ("flavorId", JStr k.(ci_flavorId));
         ("networkId", JStr k.(ci_networkId)); ("hostname", JStr k.(ci_hostname));
         ("sshPublicKeys", strings_json (sort_texts (default [] k.(ci_sshPublicKeys))))]
    | PowerInstance instance action =>
        [project; operation; ("instanceId", JStr instance); ("action", JStr action)]
    | ResizeInstance instance flavor disk =>
        [project; operation; ("instanceId", JStr instance); ("flavorId", JStr flavor); ("diskGiB", nullable JNum disk)]
    | CreateSnapshot instance name description =>
        [project; operation; ("instanceId", JStr instance); ("name", JStr name);
         ("description", nullable JStr description)]
    | SnapshotAction _ instance snapshot =>
        [project; operation; ("instanceId", JStr instance); ("snapshotId", JStr snapshot)]
    | RetainInstance instance => [project; operation; ("instanceId", JStr instance)]
    | PurgeInstance instance _ _ => [operation; ("instanceId", JStr instance)]
    end).

(** ** The service *)

(** [currentTraceContext] of the runtime: the active carrier, or the
    fallback when telemetry is disabled. *)
Definition currentTraceContext (carrier : option TraceContext) (fallback : TraceContext) : TraceContext :=
  match carrier with
  | Some t => if truthy t.(traceparent) then {| traceparent := t.(traceparent); tracestate := present t.(tracestate) |}
              else fallback
  | None => fallback
  end.

Section service.
Context `{Platform, Base64url, Casts} (c : Call) (carrier : option TraceContext) (generated : string).

Definition requestHash (i : Input) (q : Intent) : string := canonicalSha256 localeBefore sha256 (request_json i q).

Definition active_trace (i : Input) : TraceContext :=
  currentTraceContext carrier {| traceparent := i.(in_traceparent); tracestate := present i.(in_tracestate) |}.
(** The identity fields of a command. *)
Definition command_request (i : Input) : Request :=
  let t := active_trace i in
  {| rq_subject := i.(in_actor).(subject); rq_projectId := i.(in_projectId);
     rq_idempotencyKey := i.(in_idempotencyKey); rq_correlationId := i.(in_correlationId);
     rq_traceparent := t.(traceparent); rq_tracestate := present t.(tracestate) |}.
(** Where the command is [{ ...input, ... }], the caller's vendor state stays
    when the active trace has none. *)
Definition spread_request (i : Input) : Request :=
  let t := active_trace i in
  {| rq_subject := i.(in_actor).(subject); rq_projectId := i.(in_projectId);
     rq_idempotencyKey := i.(in_idempotencyKey); rq_correlationId := i.(in_correlationId);
     rq_traceparent := t.(traceparent); rq_tracestate := coalesce (present t.(tracestate)) i.(in_tracestate) |}.

Definition createInstance (i : Input) (k : CreateInstanceInput) : ctx AcceptedMutation :=
  tlift (authorize i.(in_actor) i.(in_projectId)) ;;
  tlift (assertIdempotencyKey i.(in_idempotencyKey)) ;;
  tlift (validateCreateInstance
    {| imageId := k.(ci_imageId); flavorId := k.(ci_flavorId); networkId := k.(ci_networkId);
       hostname := k.(ci_hostname); sshPublicKeys := k.(ci_sshPublicKeys) |}) ;;
  acceptCreate c generated (spread_request i)
    {| cr_imageId := k.(ci_imageId); cr_flavorId := k.(ci_flavorId); cr_networkId := k.(ci_networkId);
       cr_hostname := k.(ci_hostname); cr_sshPublicKeys := default [] k.(ci_sshPublicKeys) |}
    (requestHash i (CreateInstance k)).

Definition mutateInstancePower (i : Input) (instance action : string) : ctx AcceptedMutation :=
  tlift (authorize i.(in_actor) i.(in_projectId)) ;;
  tlift (assertIdempotencyKey i.(in_idempotencyKey)) ;;
  let! a := tlift (validatePowerAction action) in
  acceptPowerAction c (command_request i) instance a (requestHash i (PowerInstance instance (power_wire a))).

Definition resizeInstance (i : Input) (instance flavor : string) (disk : option Z) : ctx AcceptedMutation :=
  tlift (authorize i.(in_actor) i.(in_projectId)) ;;
  tlift (assertIdempotencyKey i.(in_idempotencyKey)) ;;
  acceptResize c (command_request i) instance flavor disk (requestHash i (ResizeInstance instance flavor disk)).

(** [acceptSnapshot]: authorization before the acceptance it is given. *)
Definition acceptSnapshot (i : Input) (accept : ctx AcceptedMutation) : ctx AcceptedMutation :=
  tlift (authorize i.(in_actor) i.(in_projectId)) ;; accept.

Definition createSnapshot (i : Input) (instance name : string) (description : option string) : ctx AcceptedMutation :=
  acceptSnapshot i (
    tlift (assertIdempotencyKey i.(in_idempotencyKey)) ;;
    tlift (validateSnapshotName name) ;;
    acceptSnapshotCreate c (command_request i) instance {| cs_name := name; cs_description := present description |}
      (requestHash i (CreateSnapshot instance name description))).

Definition snapshotAction (m : SnapshotMutation) (i : Input) (instance snapshot : string) : ctx AcceptedMutation :=
  acceptSnapshot i (
    tlift (assertIdempotencyKey i.(in_idempotencyKey)) ;;
    acceptSnapshotAction c m (command_request i) instance snapshot (requestHash i (SnapshotAction m instance snapshot))).
Definition rollbackSnapshot := snapshotAction mutate_rollback.
Definition deleteSnapshot := snapshotAction mutate_delete.

Definition retainInstance (i : Input) (instance : string) : ctx AcceptedMutation :=
  acceptSnapshot i (
    tlift (assertIdempotencyKey i.(in_idempotencyKey)) ;;
    acceptRetention c (command_request i) instance (requestHash i (RetainInstance instance))).

Definition purgeInstance (i : Input) (instance confirmation reason : string) : ctx AcceptedMutation :=
  tlift (authorizeAdministrator i.(in_actor)) ;;
  tlift (assertIdempotencyKey i.(in_idempotencyKey)) ;;
  tguard (10 <=? js_length (trim reason)) (invalid "A purge reason of at least 10 characters is required.") ;;
  acceptPurge c (command_request i) instance confirmation (requestHash i (PurgeInstance instance confirmation reason)).

Definition requestReconciliation (a : Actor) (instance : string) : ctx unit :=
  tlift (authorizeAdministrator a) ;;
  let! marked := AcceptCreate.requestReconciliation instance in
  tguard marked (DomainError INSTANCE_NOT_FOUND "The requested instance does not exist.").

Definition requestDeadLetterReplay (i : Input) (originalEventId reason : string) : ctx AcceptedMutation :=
  tlift (authorizeAdministrator i.(in_actor)) ;;
  tlift (assertIdempotencyKey i.(in_idempotencyKey)) ;;
  let reason := trim reason in
  tguard ((10 <=? js_length reason) && (js_length reason <=? 512))
    (invalid "Replay reason must contain 10 to 512 characters.") ;;
  AcceptCreate.requestDeadLetterReplay c (spread_request i) {| rd_originalEventId := originalEventId; rd_reason := reason |}
    (canonicalSha256 localeBefore sha256
       (JObj [("originalEventId", JStr originalEventId); ("reason", JStr reason)])).

(** ** Reads *)

Definition getQuota (a : Actor) (project : string) (s : ControlDb) : result error QuotaView :=
  let? _ := authorize a project in required (Reads.getQuota s c project) PROJECT_NOT_FOUND.
Definition getInstance (a : Actor) (project instance : string) (s : ControlDb) : result error InstanceView :=
  let? _ := authorize a project in required (Reads.getInstance s project instance) INSTANCE_NOT_FOUND.
Definition listInstances (a : Actor) (project : string) (n : option Z) (cursor : option string) (s : ControlDb) :
    result error (Page InstanceView) :=
  let? _ := authorize a project in Reads.listInstances s project (page n cursor).
Definition getOperation (a : Actor) (project operation : string) (s : ControlDb) : result error OperationView :=
  let? _ := authorize a project in required (Reads.getOperation s project operation) OPERATION_NOT_FOUND.
Definition listOperations (a : Actor) (project : string) (n : option Z) (cursor : option string) (s : ControlDb) :
    result error (Page OperationView) :=
  let? _ := authorize a project in Reads.listOperations s project (page n cursor).
Definition listSnapshots (a : Actor) (project instance : string) (n : option Z) (cursor : option string) (s : ControlDb) :
    result error (Page SnapshotView) :=
  let? _ := authorize a project in Reads.listSnapshots s project instance (page n cursor).
Definition listAuditEvents (a : Actor) (f : AuditEventFilter) (n : option Z) (cursor : option string) (s : ControlDb) :
    result error (Page AuditEventView) :=
  let? _ := authorizeAdministrator a in Reads.listAuditEvents s f (page n cursor).
Definition getAdministrativeOperation (a : Actor) (operation : string) (s : ControlDb) :
    result error AdministrativeOperationView :=
  let? _ := authorizeAdministrator a in required (Reads.getAdministrativeOperation s operation) OPERATION_NOT_FOUND.

Definition getProject (a : Actor) (project : string) (s : ControlDb) : result error ProjectView :=
  let? _ := authorize a project in required (Reads.getProject s project) PROJECT_NOT_FOUND.
Definition listImages (a : Actor) (project : string) (n : option Z) (cursor : option string) (s : ControlDb) :
    result error (Page ImageView) :=
  let? _ := authorize a project in Reads.listImages s project (page n cursor).
Definition listFlavors (a : Actor) (project : string) (n : option Z) (cursor : option string) (s : ControlDb) :
    result error (Page FlavorView) :=
  let? _ := authorize a project in Reads.listFlavors s project (page n cursor).
Definition listNetworks (a : Actor) (project : string) (n : option Z) (cursor : option string) (s : ControlDb) :
    result error (Page NetworkView) :=
  let? _ := authorize a project in Reads.listNetworks s project (page n cursor).
Definition listDeadLetters (a : Actor) (n : option Z) (cursor : option string) (s : ControlDb) :
    result error (Page DeadLetterView) :=
  let? _ := authorizeAdministrator a in Reads.listDeadLetters s (page n cursor).

(** ** Every request as one operation *)

Inductive AppRequest : Set :=
| Mutate (i : Input) (q : Intent)
| Reconcile (a : Actor) (instance : string)
| ReplayDeadLetter (i : Input) (originalEventId reason : string)
| ReadQuota (a : Actor) (project : string)
| ReadInstance (a : Actor) (project instance : string)
| ReadInstances (a : Actor) (project : string) (n : option Z) (cursor : option string)
| ReadOperation (a : Actor) (project operation : string)
| ReadOperations (a : Actor) (project : string) (n : option Z) (cursor : option string)
| ReadSnapshots (a : Actor) (project instance : string) (n : option Z) (cursor : option string)
| ReadAudit (a : Actor) (f : AuditEventFilter) (n : option Z) (cursor : option string)
| ReadAdministrative (a : Actor) (operation : string)
| ReadProject (a : Actor) (project : string)
| ReadImages (a : Actor) (project : string) (n : option Z) (cursor : option string)
| ReadFlavors (a : Actor) (project : string) (n : option Z) (cursor : option string)
| ReadNetworks (a : Actor) (project : string) (n : option Z) (cursor : option string)
| ReadDeadLetters (a : Actor) (n : option Z) (cursor : option string).

Inductive Response : Type :=
| R_accepted (m : AcceptedMutation) | R_done | R_quota (v : QuotaView) | R_instance (v : InstanceView)
| R_instances (p : Page InstanceView) | R_operation (v : OperationView) | R_operations (p : Page OperationView)
| R_snapshots (p : Page SnapshotView) | R_audit (p : Page AuditEventView) | R_administrative (v : AdministrativeOperationView)
| R_project (v : ProjectView) | R_images (p : Page ImageView) | R_flavors (p : Page FlavorView)
| R_networks (p : Page NetworkView) | R_dead_letters (p : Page DeadLetterView).

Definition mutate (i : Input) (q : Intent) : ctx AcceptedMutation :=
  match q with
  | CreateInstance k => createInstance i k
  | PowerInstance instance action => mutateInstancePower i instance action
  | ResizeInstance instance flavor disk => resizeInstance i instance flavor disk
  | CreateSnapshot instance name description => createSnapshot i instance name description
  | SnapshotAction mutate_rollback instance snapshot => rollbackSnapshot i instance snapshot
  | SnapshotAction mutate_delete instance snapshot => deleteSnapshot i instance snapshot
  | RetainInstance instance => retainInstance i instance
  | PurgeInstance instance confirmation reason => purgeInstance i instance confirmation reason
  end.

Definition answer {A : Type} (f : A → Response) (m : ctx A) : ctx Response := let! a := m in tret (f a).
Definition reading {A : Type} (f : A → Response) (read : ControlDb → result error A) : ctx Response :=
  let! s := tget id in let! a := tlift (read s) in tret (f a).

Definition serve (q : AppRequest) : ctx Response :=
  match q with
  | Mutate i q => answer R_accepted (mutate i q)
  | Reconcile a instance => answer (λ _, R_done) (requestReconciliation a instance)
  | ReplayDeadLetter i e reason => answer R_accepted (requestDeadLetterReplay i e reason)
  | ReadQuota a p => reading R_quota (getQuota a p)
  | ReadInstance a p i => reading R_instance (getInstance a p i)
  | ReadInstances a p n k => reading R_instances (listInstances a p n k)
  | ReadOperation a p o => reading R_operation (getOperation a p o)
  | ReadOperations a p n k => reading R_operations (listOperations a p n k)
  | ReadSnapshots a p i n k => reading R_snapshots (listSnapshots a p i n k)
  | ReadAudit a f n k => reading R_audit (listAuditEvents a f n k)
  | ReadAdministrative a o => reading R_administrative (getAdministrativeOperation a o)
  | ReadProject a p => reading R_project (getProject a p)
  | ReadImages a p n k => reading R_images (listImages a p n k)
  | ReadFlavors a p n k => reading R_flavors (listFlavors a p n k)
  | ReadNetworks a p n k => reading R_networks (listNetworks a p n k)
  | ReadDeadLetters a n k => reading R_dead_letters (listDeadLetters a n k)
  end.
End service.

(** ** Authorization *)

(** Who may make a request, and what anyone else is told. *)
Definition permitted (q : AppRequest) : bool :=
  match q with
  | Mutate i (PurgeInstance _ _ _) | ReplayDeadLetter i _ _ => administrator i.(in_actor)
  | Reconcile a _ | ReadAudit a _ _ _ | ReadAdministrative a _ | ReadDeadLetters a _ _ => administrator a
  | Mutate i _ => member i.(in_actor) i.(in_projectId)
  | ReadQuota a p | ReadInstance a p _ | ReadInstances a p _ _ | ReadOperation a p _ | ReadOperations a p _ _
  | ReadSnapshots a p _ _ _ | ReadProject a p | ReadImages a p _ _ | ReadFlavors a p _ _ | ReadNetworks a p _ _ => member a p
  end.
Definition denial (q : AppRequest) : error :=
  match q with
  | Mutate _ (PurgeInstance _ _ _) | ReplayDeadLetter _ _ _ | Reconcile _ _ | ReadAudit _ _ _ _ | ReadAdministrative _ _
  | ReadDeadLetters _ _ _ => admin_required
  | _ => access_denied
  end.

Section authorization.
Context `{Platform, Base64url, Casts} (c : Call) (carrier : option TraceContext) (generated : string).

Lemma authorize_denied (a : Actor) (project : string) : member a project = false → authorize a project = Err access_denied.
Proof. unfold authorize. by intros ->. Qed.
Lemma administrator_denied (a : Actor) : administrator a = false → authorizeAdministrator a = Err admin_required.
Proof. unfold authorizeAdministrator. by intros ->. Qed.
Lemma reading_denied {A : Type} (f : A → Response) (read : ControlDb → result error A) (e : error) s :
  read s = Err e → reading f read s = Err e.
Proof. intros Hr. unfold reading, tbind, tget, tlift. cbn. by rewrite Hr. Qed.

Lemma request_denied (q : AppRequest) (s : ControlDb) :
  permitted q = false → serve c carrier generated q s = Err (denial q).
Proof.
  destruct q as [i []|a i|i e reason|a p|a p i|a p n k|a p o|a p n k|a p i n k|a f n k|a o|a p|a p n k|a p n k|a p n k|a n k]; cbn; intros Hp;
    try (apply reading_denied); unfold answer, createInstance, mutateInstancePower, resizeInstance, createSnapshot,
      rollbackSnapshot, deleteSnapshot, snapshotAction, retainInstance, purgeInstance, acceptSnapshot,
      requestReconciliation, requestDeadLetterReplay, getQuota, getInstance, listInstances, getOperation,
      listOperations, listSnapshots, listAuditEvents, getAdministrativeOperation, getProject, listImages, listFlavors,
      listNetworks, listDeadLetters, tlift, tbind;
    rewrite ?(authorize_denied _ _ Hp), ?(administrator_denied _ Hp); try reflexivity.
  by destruct m.
Qed.
End authorization.

(** ** What a request's identity is *)

Lemma text_le_total : Total text_le.
Proof. intros a b. apply String.leb_total. Qed.
Lemma compare_eq (a b : string) : String.compare a b = Eq → a = b.
Proof. apply String.compare_eq_iff. Qed.
Lemma ascii_compare_trans (x y z : ascii) : Ascii.compare x y = Lt → Ascii.compare y z = Lt → Ascii.compare x z = Lt.
Proof. unfold Ascii.compare. rewrite !N.compare_lt_iff. apply N.lt_trans. Qed.
#[export] Instance text_le_trans : Transitive text_le.
Proof.
  unfold text_le, String.leb. intros a. induction a as [|x a IH]; intros [|y b] [|z d]; try done. cbn.
  destruct (Ascii.compare x y) eqn:E1, (Ascii.compare y z) eqn:E2; try done.
  - apply Ascii.compare_eq_iff in E1, E2. subst. rewrite (N.compare_refl (N_of_ascii z) : Ascii.compare z z = Eq). apply (IH b).
  - apply Ascii.compare_eq_iff in E1. subst. by rewrite E2.
  - apply Ascii.compare_eq_iff in E2. subst. by rewrite E1.
  - by rewrite (ascii_compare_trans _ _ _ E1 E2).
Qed.
#[export] Instance text_le_anti : AntiSymm (=) text_le.
Proof. intros a b. apply String.leb_antisym. Qed.

Lemma sort_texts_perm (l : list string) : sort_texts l ≡ₚ l.
Proof. apply merge_sort_Permutation. Qed.
Lemma sort_texts_eq (l l' : list string) : sort_texts l = sort_texts l' ↔ l ≡ₚ l'.
Proof.
  split; intros Hl.
  - rewrite <- (sort_texts_perm l), Hl. apply sort_texts_perm.
  - apply (Sorted_unique text_le); try (apply Sorted_merge_sort, text_le_total). by rewrite !sort_texts_perm.
Qed.

Section identity.
Context `{Platform}.

Lemma insert_entry_perm (e : string * json) (l : list (string * json)) : insert_entry localeBefore e l ≡ₚ e :: l.
Proof. induction l as [|x l IH]; [done|]. simpl. destruct (localeBefore _ _); [done|]. rewrite IH. apply perm_swap. Qed.
Lemma sort_entries_permutation (l : list (string * json)) : sort_entries localeBefore l ≡ₚ l.
Proof.
  induction l as [|e l IH]; [done|]. change (sort_entries localeBefore (e :: l)) with (insert_entry localeBefore e (sort_entries localeBefore l)).
  by rewrite insert_entry_perm, IH.
Qed.

(** Members whose values the canonical form does not change. *)
Definition literal (p : string * json) : Prop := canonicalValue localeBefore (snd p) = snd p ∧ is_undefined (snd p) = false.

Lemma canonical_literals (l : list (string * json)) : Forall literal l →
  canonicalValue localeBefore (JObj l) = JObj (sort_entries localeBefore l).
Proof.
  intros Hl. cbn. do 2 f_equal. induction Hl as [|[k v] l [Hv Hu] _ IH]; [done|]. cbn in *. by rewrite Hu, Hv, IH.
Qed.

(** Two objects of literal plain members with the same canonical text have the
    same members. *)
Lemma canonical_text_eq (l l' : list (string * json)) :
  Forall literal l → Forall literal l' → plain (JObj l) → plain (JObj l') →
  canonicalJson localeBefore (JObj l) = canonicalJson localeBefore (JObj l') → l ≡ₚ l'.
Proof.
  intros Hl Hl' Hp Hp'. unfold canonicalJson. rewrite !canonical_literals by done.
  assert (Hsort : ∀ l, plain (JObj l) → plain (JObj (sort_entries localeBefore l))).
  { inversion 1 as [| | | | |? Hnd Hall]; subst. constructor; by rewrite sort_entries_permutation. }
  intros [= Heq]%(stringify_inj _ _ (Hsort _ Hp) (Hsort _ Hp')).
  by rewrite <- (sort_entries_permutation l), Heq, sort_entries_permutation.
Qed.

(** The numbers of a request are exact. *)
Definition exact_numbers (q : Intent) : Prop :=
  match q with ResizeInstance _ _ (Some n) => - 2 ^ 53 < n < 2 ^ 53 | _ => True end.

Definition request_members (i : Input) (q : Intent) : list (string * json) :=
  match request_json i q with JObj l => l | _ => [] end.

Lemma strings_literal (l : list string) : canonicalValue localeBefore (strings_json l) = strings_json l.
Proof. unfold strings_json. cbn. f_equal. rewrite map_map. by apply map_ext. Qed.
Lemma request_literal (i : Input) (q : Intent) : Forall literal (request_members i q).
Proof.
  destruct q as [k| |? ? d|? ? d|m ? ?| |]; cbn; repeat first [apply Forall_cons; split; [split; try done|]|apply Forall_nil; done];
    try apply strings_literal; by destruct d.
Qed.
Lemma request_plain (i : Input) (q : Intent) : exact_numbers q → plain (JObj (request_members i q)).
Proof.
  intros Hq. constructor.
  { by destruct q; apply (bool_decide_unpack _); vm_compute. }
  destruct q as [k| |? ? d|? ? d|m ? ?| |]; cbn in *; repeat first [apply Forall_cons; split|apply Forall_nil; done]; cbn;
    try constructor; try (destruct d; by constructor).
  apply list.Forall_forall. intros x (s & -> & _)%list_elem_of_fmap. constructor.
Qed.

(** The same thing asked for: SSH keys count as a set listed in any order, and
    a purge is about its instance whatever justification it gives. *)
Definition same_intent (q q' : Intent) : Prop :=
  match q, q' with
  | CreateInstance k, CreateInstance k' =>
      (k.(ci_imageId), k.(ci_flavorId), k.(ci_networkId), k.(ci_hostname))
      = (k'.(ci_imageId), k'.(ci_flavorId), k'.(ci_networkId), k'.(ci_hostname))
      ∧ default [] k.(ci_sshPublicKeys) ≡ₚ default [] k'.(ci_sshPublicKeys)
  | PurgeInstance instance _ _, PurgeInstance instance' _ _ => instance = instance'
  | _, _ => q = q'
  end.
(** By the same caller, in the same project where the operation has one. *)
Definition same_request (i : Input) (q : Intent) (i' : Input) (q' : Intent) : Prop :=
  i.(in_actor).(subject) = i'.(in_actor).(subject)
  ∧ match q with PurgeInstance _ _ _ => True | _ => i.(in_projectId) = i'.(in_projectId) end
  ∧ same_intent q q'.

Lemma same_request_members (i i' : Input) (q q' : Intent) :
  same_request i q i' q' → request_members i q = request_members i' q'.
Proof.
  intros (Ha & Hp & Hq). unfold request_members, request_json. rewrite Ha.
  destruct q as [k| | | | | |], q' as [k'| | | | | |]; cbn in Hq; try discriminate; try (by simplify_eq; rewrite ?Hp).
  destruct Hq as [[= -> -> -> ->] Hk]. apply sort_texts_eq in Hk. by rewrite Hp, Hk.
Qed.

Lemma strings_json_inj (l l' : list string) : strings_json l = strings_json l' → l = l'.
Proof. intros [= Hl]. revert Hl. apply list_fmap_eq_inj. by intros ? ? [= ->]. Qed.
Lemma nullable_inj {A : Type} (f : A → json) (o o' : option A) :
  (∀ a b, f a = f b → a = b) → (∀ a, f a ≠ JNull) → nullable f o = nullable f o' → o = o'.
Proof. intros Hf Hn. destruct o, o'; cbn; intros Heq; [f_equal; by apply Hf|by destruct (Hn a)|by destruct (Hn a)|done]. Qed.

(** The members of a request determine it. *)
Lemma request_members_inj (i i' : Input) (q q' : Intent) :
  request_members i q ≡ₚ request_members i' q' → NoDup (map fst (request_members i q)) → same_request i q i' q'.
Proof.
  intros Hperm Hnd. assert (Hf : ∀ k, field k (request_members i q) = field k (request_members i' q'))
    by (intros k; by apply field_permutation).
  pose proof (Hf "actor") as Ha. pose proof (Hf "projectId") as Hp. pose proof (Hf "operation") as Ho.
  pose proof (Hf "instanceId") as Hi. pose proof (Hf "snapshotId") as Hs. pose proof (Hf "action") as Hact.
  pose proof (Hf "imageId") as H1. pose proof (Hf "flavorId") as H2. pose proof (Hf "networkId") as H3.
  pose proof (Hf "hostname") as H4. pose proof (Hf "sshPublicKeys") as H5. pose proof (Hf "diskGiB") as H6.
  pose proof (Hf "name") as H7. pose proof (Hf "description") as H8. clear Hf Hperm Hnd.
  destruct q as [k|? ?|? ? ?|? ? ?|m ? ?|?|? ? ?], q' as [k'|? ?|? ? ?|? ? ?|m' ? ?|?|? ? ?];
    try (by vm_compute in Ho); try (by destruct m); try (by destruct m');
    cbn -[strings_json nullable] in *;
    repeat match goal with E : JStr _ = JStr _ |- _ => injection E as E end;
    split_and!; try congruence; try exact I; cbn; subst.
  - split; [congruence|]. by apply sort_texts_eq, strings_json_inj.
  - f_equal. apply (nullable_inj JNum); [by intros ? ? [= ->]|done|done].
  - f_equal. apply (nullable_inj JStr); [by intros ? ? [= ->]|done|done].
  - f_equal; destruct m, m'; done.
Qed.
End identity.
