(* ===== verification/ApplicationSafety.v ===== *)
(** * What the application service guarantees

    Every mutation is a pure admission followed by one accepting transaction;
    access is controlled whatever the request; the identity of a request is
    its meaning; and a request is performed at most once, whoever retries it
    and whenever. *)
From S2P Require Import Prelude JsText Json SshKey JsonParse Domain PageCursor Ipv4 WorkflowStage Events EventValidation Platform JsonOrder MessageCodec ControlDb AcceptStore AcceptCreate Control Projection ControlHistory Acceptance ReadModel Published Reads ControlPlane.
From Stdlib Require Import ZArith Lia Bool Ascii String Permutation.
From stdpp Require Import base decidable list strings gmap.
Open Scope string_scope.
Open Scope Z_scope.
Open Scope prog_scope.

(** ** A mutation is an admission and an acceptance *)

Section admission.
Context `{Platform} (c : Call) (carrier : option TraceContext) (generated : string).

(** The checks made before the store is called, and the mutation it is asked
    for. *)
Definition admission (i : Input) (q : Intent) : result error Mutation :=
  let? _ := match q with
            | PurgeInstance _ _ _ => authorizeAdministrator i.(in_actor)
            | _ => authorize i.(in_actor) i.(in_projectId)
            end in
  let? _ := assertIdempotencyKey i.(in_idempotencyKey) in
  match q with
  | CreateInstance k =>
      let? _ := validateCreateInstance
        {| imageId := k.(ci_imageId); flavorId := k.(ci_flavorId); networkId := k.(ci_networkId);
           hostname := k.(ci_hostname); sshPublicKeys := k.(ci_sshPublicKeys) |} in
      Ok (Create generated
        {| cr_imageId := k.(ci_imageId); cr_flavorId := k.(ci_flavorId); cr_networkId := k.(ci_networkId);
           cr_hostname := k.(ci_hostname); cr_sshPublicKeys := default [] k.(ci_sshPublicKeys) |})
  | PowerInstance instance action => let? a := validatePowerAction action in Ok (Power instance a)
  | ResizeInstance instance flavor disk => Ok (Resize instance flavor disk)
  | CreateSnapshot instance name description =>
      let? _ := validateSnapshotName name in
      Ok (TakeSnapshot instance {| cs_name := name; cs_description := present description |})
  | SnapshotAction m instance snapshot => Ok (UseSnapshot m instance snapshot)
  | RetainInstance instance => Ok (Retain instance)
  | PurgeInstance instance confirmation reason =>
      if 10 <=? js_length (trim reason) then Ok (Purge instance confirmation)
      else Err (invalid "A purge reason of at least 10 characters is required.")
  end.

(** What is admitted passed the checks [Published] asks for. *)
Lemma admission_checked (i : Input) (q : Intent) (m : Mutation) : admission i q = Ok m → checked m.
Proof.
  unfold admission. intros Hm. apply rbind_Ok in Hm as (? & _ & Hm). apply rbind_Ok in Hm as (? & _ & Hm).
  destruct q as [k|i' a|i' f d|i' n t|u i' sn|i'|i' confirmation reason]; try (by injection Hm as <-).
  - apply rbind_Ok in Hm as ([] & Hv & [= <-]). cbn. by destruct (ci_sshPublicKeys k).
  - by apply rbind_Ok in Hm as (a' & _ & [= <-]).
  - by apply rbind_Ok in Hm as ([] & Hv & [= <-]).
  - by destruct (_ <=? _); [injection Hm as <-|].
Qed.

(** The command's identity fields. *)
Definition request_of (i : Input) (q : Intent) : Request :=
  match q with CreateInstance _ => spread_request carrier i | _ => command_request carrier i end.

Lemma validatePowerAction_wire (action : string) (a : PowerAction) :
  validatePowerAction action = Ok a → power_wire a = action.
Proof.
  unfold validatePowerAction, lookup_text, POWER_ACTIONS. cbn.
  repeat match goal with |- context [(action =? ?x)%string] =>
    destruct (String.eqb_spec action x) as [->|_]; [by intros [= <-]|] end.
  by intros [=].
Qed.

Lemma mutate_accept (i : Input) (q : Intent) (s : ControlDb) :
  mutate c carrier generated i q s
  = match admission i q with
    | Ok m => accept c m (request_of i q) (requestHash i q) s
    | Err e => Err e
    end.
Proof.
  unfold admission. destruct q as [k|instance action|instance flavor disk|instance name description|[] instance snapshot|instance
    |instance confirmation reason]; cbn [mutate];
    unfold createInstance, mutateInstancePower, resizeInstance, createSnapshot, rollbackSnapshot, deleteSnapshot,
      snapshotAction, retainInstance, purgeInstance, acceptSnapshot, tlift, tbind, tguard;
    first [destruct (authorize _ _)|destruct (authorizeAdministrator _)]; try reflexivity;
    destruct (assertIdempotencyKey _); try reflexivity; cbn beta iota.
  - by destruct (validateCreateInstance _).
  - destruct (validatePowerAction action) as [x|] eqn:Ha; [|done]. unfold tret, rbind; cbn beta iota.
    by rewrite (validatePowerAction_wire _ _ Ha).
  - by destruct (validateSnapshotName _).
  - by destruct (_ <=? _).
Qed.
End admission.

(** ** Access *)

Section access.
Context `{Platform, Base64url, Casts} (c : Call) (carrier : option TraceContext) (generated : string).

(** The rows a request may change. *)
Definition may_change (q : AppRequest) (j : string) (row : InstanceRow) : bool :=
  match q with
  | Mutate _ (PurgeInstance instance _ _) | Reconcile _ instance => bool_decide (j = instance)
  | Mutate i _ => bool_decide (row.(i_project_id) = i.(in_projectId))
  | _ => false
  end.

Lemma accept_foreign (m : Mutation) (r : Request) (h : string) (s s' : ControlDb) (a : AcceptedMutation)
    (j : string) (row : InstanceRow) :
  accept c m r h s = Ok (a, s') → s.(instances) !! j = Some row →
  match m with Purge instance _ => j ≠ instance | _ => row.(i_project_id) ≠ r.(rq_projectId) end →
  s'.(instances) !! j = Some row.
Proof.
  intros Haccepted Hrow Hforeign. apply accept_inv in Haccepted. destruct Haccepted as
    [m rec _|m i row' w role url audit_action reason event id _ Hi Hrow' Ha Hw op o a s' _ _
    |g k x address b _ _ _ _ _ Hi _ _ _ _]; [done|..].
  - subst s'. cbn. assert (j ≠ i); [|by rewrite lookup_alter_ne].
    intros ->. rewrite Hrow in Hrow'. injection Hrow' as <-. destruct Ha as [_ Ha].
    destruct m; cbn in *; try done; try (by destruct Ha as [Ha _]; destruct Hforeign). by injection Hi as ->.
  - cbn. rewrite lookup_insert_ne; [done|]. intros <-. congruence.
Qed.

Lemma reading_same {A : Type} (f : A → Response) (read : ControlDb → result error A) s x s' :
  reading f read s = Ok (x, s') → s' = s.
Proof. unfold reading, tbind, tget, tlift. cbn. destruct (read s); cbn; [by intros [= _ <-]|done]. Qed.

Lemma admission_request (i : Input) (q : Intent) (m : Mutation) :
  admission generated i q = Ok m →
  match m with
  | Purge instance _ => match q with PurgeInstance instance' _ _ => instance = instance' | _ => False end
  | _ => match q with PurgeInstance _ _ _ => False | _ => True end
  end.
Proof.
  unfold admission. intros Hm. destruct q; repeat (apply rbind_Ok in Hm as (? & _ & Hm)); try (by injection Hm as <-).
  destruct (_ <=? _); [by injection Hm as <-|done].
Qed.
Lemma request_of_project (i : Input) (q : Intent) : (request_of carrier i q).(rq_projectId) = i.(in_projectId).
Proof. by destruct q. Qed.

(** A replay request and a reconciliation, seen from the instances. *)
Definition same_instances (s s' : ControlDb) : Prop := s'.(instances) = s.(instances).
#[local] Instance same_instances_preorder : PreOrder same_instances.
Proof. split; unfold same_instances; congruence. Qed.
Lemma outbox_same_instances (p : OutboxPayload) (t id : string) : keeps same_instances (writeControlOutbox c p t id).
Proof. unfold writeControlOutbox. keeps_steps. by apply keeps_modify. Qed.
Lemma audit_same_instances i p o co ca t d ob : keeps same_instances (writeControlAudit c i p o co ca t d ob).
Proof. unfold writeControlAudit. keeps_steps; [by apply keeps_modify|apply outbox_same_instances]. Qed.
#[local] Hint Resolve outbox_same_instances audit_same_instances : program.
Lemma replay_same_instances (r : Request) (k : ReplayDeadLetterCommand) (h : string) :
  keeps same_instances (AcceptCreate.requestDeadLetterReplay c r k h).
Proof. unfold AcceptCreate.requestDeadLetterReplay. keeps_steps; by apply keeps_modify. Qed.

Lemma request_access (q : AppRequest) (s s' : ControlDb) (x : Response) :
  serve c carrier generated q s = Ok (x, s') →
  permitted q = true
  ∧ ∀ j row, s.(instances) !! j = Some row → may_change q j row = false → s'.(instances) !! j = Some row.
Proof.
  intros Hs. destruct (permitted q) eqn:Hp; [|by rewrite request_denied in Hs]. split; [done|]. intros j row Hrow Hmay.
  destruct q as [i q|a i|i e reason|a p|a p i|a p n k|a p o|a p n k|a p i n k|a f n k|a o|a p|a p n k|a p n k|a p n k|a n k]; cbn in Hs;
    try (apply reading_same in Hs; by subst).
  - apply tbind_Ok in Hs as (y & s1 & Hy & [= _ <-]). rewrite mutate_accept in Hy.
    destruct (admission generated i q) as [m|] eqn:Hm; [|done]. apply admission_request in Hm.
    refine (accept_foreign _ _ _ _ _ _ _ _ Hy Hrow _). rewrite request_of_project.
    destruct m, q; try done; subst; cbn in Hmay; by apply bool_decide_eq_false in Hmay.
  - apply tbind_Ok in Hs as (y & s1 & Hy & [= _ <-]). unfold ControlPlane.requestReconciliation in Hy. accepting Hy.
    apply tbind_Ok in Hy as (b & s2 & [= _ <-] & Hy). apply tguard_Ok in Hy as [_ [= _ ->]]. cbn.
    apply bool_decide_eq_false in Hmay. by rewrite lookup_alter_ne.
  - apply tbind_Ok in Hs as (y & s1 & Hy & [= _ <-]). unfold ControlPlane.requestDeadLetterReplay in Hy. accepting Hy.
    apply replay_same_instances in Hy. by rewrite Hy.
Qed.

(** A row appears only in the caller's project. *)
Lemma request_creates (q : AppRequest) (s s' : ControlDb) (x : Response) (j : string) (row : InstanceRow) :
  serve c carrier generated q s = Ok (x, s') → s.(instances) !! j = None → s'.(instances) !! j = Some row →
  ∃ i k, q = Mutate i (CreateInstance k) ∧ row.(i_project_id) = i.(in_projectId).
Proof.
  intros Hs Hnone Hrow. destruct q as [i q|a i|i e reason|a p|a p i|a p n k|a p o|a p n k|a p i n k|a f n k|a o|a p|a p n k|a p n k|a p n k|a n k]; cbn in Hs;
    try (apply reading_same in Hs; subst; congruence).
  - apply tbind_Ok in Hs as (y & s1 & Hy & [= _ <-]). rewrite mutate_accept in Hy.
    destruct (admission generated i q) as [m|] eqn:Hm; [|done]. apply accept_inv in Hy.
    destruct Hy as [m rec _|m i' row' w role url audit_action reason event id _ _ Hrow' _ _ op o a s' _ _
      |g k x' address b _ _ _ _ _ _ _ _ _ _ _]; [congruence|..].
    + subst s'. cbn in Hrow. destruct (decide (i' = j)) as [->|]; [congruence|].
      rewrite lookup_alter_ne in Hrow by done. congruence.
    + cbn in Hrow. destruct (decide (ar_instanceId b = j)) as [<-|]; [|rewrite lookup_insert_ne in Hrow by done; congruence].
      rewrite lookup_insert_eq in Hrow. injection Hrow as <-. destruct q as [k0|?|?|?|?|?|?].
      1: by exists i, k0.
      all: exfalso; unfold admission in Hm; repeat (apply rbind_Ok in Hm as (? & _ & Hm)); try done; by destruct (_ <=? _).
  - apply tbind_Ok in Hs as (y & s1 & Hy & [= _ <-]). unfold ControlPlane.requestReconciliation in Hy. accepting Hy.
    apply tbind_Ok in Hy as (b & s2 & [= _ <-] & Hy). apply tguard_Ok in Hy as [_ [= _ ->]]. cbn in Hrow.
    eapply lookup_alter_None in Hnone. rewrite Hnone in Hrow. done.
  - apply tbind_Ok in Hs as (y & s1 & Hy & [= _ <-]). unfold ControlPlane.requestDeadLetterReplay in Hy. accepting Hy.
    apply replay_same_instances in Hy. rewrite Hy in Hrow. congruence.
Qed.

(** C2: Access control.  Whatever the request and the state: a caller without
    the role it takes (tenant developer of that very project for a tenant's
    reads and mutations, platform administrator for purge, reconciliation,
    replay and the audit trail) gets exactly one answer, which tells nothing
    about the state, and nothing is written; and a request that succeeds
    was permitted and changes no instance but these: a tenant's mutation those of
    the project it names, an administrator's purge or reconciliation the one
    instance it names, whatever its project, and a read or a replay none. *)
Theorem access_is_controlled (q : AppRequest) (s : ControlDb) :
  match serve c carrier generated q s with
  | Ok (_, s') =>
      permitted q = true
      ∧ ∀ j row, s.(instances) !! j = Some row → may_change q j row = false → s'.(instances) !! j = Some row
  | Err e => permitted q = false → e = denial q
  end.
Proof.
  destruct (serve c carrier generated q s) as [[x s']|e] eqn:Hs; [by eapply request_access|].
  intros Hp. rewrite request_denied in Hs by done. congruence.
Qed.
End access.

(** ** Identity *)

Section once.
Context `{Platform} (c : Call) (carrier : option TraceContext) (generated : string).

(** The text that is hashed. *)
Definition request_text (i : Input) (q : Intent) : option string := canonicalJson localeBefore (request_json i q).

Lemma request_json_members (i : Input) (q : Intent) : request_json i q = JObj (request_members i q).
Proof. by destruct q. Qed.

Lemma request_text_same (i i' : Input) (q q' : Intent) : exact_numbers q → exact_numbers q' →
  request_text i q = request_text i' q' ↔ same_request i q i' q'.
Proof.
  intros Hq Hq'. unfold request_text. rewrite !request_json_members. split.
  - intros Ht. apply request_members_inj.
    + apply canonical_text_eq; [apply request_literal..|by apply request_plain|by apply request_plain|exact Ht].
    + pose proof (request_plain i q Hq) as Hp. by inversion Hp.
  - intros Hs. by rewrite (same_request_members i i' q q' Hs).
Qed.

(** C34: The identity of a request.  Two requests have the same hashed text
    exactly when they are the same request: the same caller asking for the same
    operation on the same resource of the same project with the same
    parameters, where SSH keys may come in any order (and where a purge is
    identified by its instance alone). *)
Theorem request_identity (i i' : Input) (q q' : Intent) (Hq : exact_numbers q) (Hq' : exact_numbers q') :
  request_text i q = request_text i' q' ↔ same_request i q i' q'.
Proof. by apply request_text_same. Qed.

Lemma same_request_hash (i i' : Input) (q q' : Intent) : same_request i q i' q' → requestHash i q = requestHash i' q'.
Proof. intros Hs. unfold requestHash. by rewrite !request_json_members, (same_request_members _ _ _ _ Hs). Qed.
Lemma same_intent_operation (q q' : Intent) : same_intent q q' → operation_name q = operation_name q'.
Proof. destruct q, q'; cbn; intros Hq; try discriminate; try reflexivity. by injection Hq as ->. Qed.

Lemma admitted_action (g : string) (i : Input) (q : Intent) (m : Mutation) :
  admission g i q = Ok m → action_of m = operation_name q ∧ ∀ r, scope_of m r = match q with PurgeInstance _ _ _ => adminScope r | _ => r end.
Proof.
  unfold admission. intros Hm. destruct q; repeat (apply rbind_Ok in Hm as (? & _ & Hm)); try (by injection Hm as <-).
  destruct (_ <=? _); [by injection Hm as <-|done].
Qed.

(** What an idempotency key is scoped to. *)
Definition same_key (i : Input) (q : Intent) (i' : Input) (q' : Intent) : Prop :=
  i.(in_actor).(subject) = i'.(in_actor).(subject) ∧ i.(in_projectId) = i'.(in_projectId)
  ∧ i.(in_idempotencyKey) = i'.(in_idempotencyKey) ∧ operation_name q = operation_name q'.

Lemma same_key_of (g g' : string) (k k' : option TraceContext) (i i' : Input) (q q' : Intent) (m m' : Mutation) :
  admission g i q = Ok m → admission g' i' q' = Ok m' → same_key i q i' q' →
  key_of m (request_of k i q) = key_of m' (request_of k' i' q').
Proof.
  intros [Ha Hs]%admitted_action [Ha' Hs']%admitted_action (Hi & Hp & Hk & Ho).
  unfold key_of. rewrite Hs, Hs', Ha, Ha', Ho.
  destruct q, q'; try (by vm_compute in Ho); try (by destruct m0); try (by destruct m1);
    unfold idempotency_key, adminScope, request_of, spread_request, command_request; cbn; congruence.
Qed.

(** The same request under the same key, after any history. *)
Lemma repeated_request (c2 : Call) (carrier2 : option TraceContext) (generated2 : string)
    (i i2 : Input) (q q2 : Intent) (m2 : Mutation) (s s' : ControlDb) (a : AcceptedMutation)
    (later : list (Call * Transaction)) :
  mutate c carrier generated i q s = Ok (a, s') → same_key i q i2 q2 →
  admission generated2 i2 q2 = Ok m2 → confirmed m2 →
  withTransaction (mutate c2 carrier2 generated2 i2 q2) (run later s')
  = (if String.eqb (requestHash i q) (requestHash i2 q2) then Ok (replay_of a) else Err conflict, run later s').
Proof.
  intros Haccepted Hkey Hadmitted Hconfirmed. rewrite mutate_accept in Haccepted.
  destruct (admission generated i q) as [m|] eqn:Hm; [|done].
  apply accepted_binds in Haccepted as (rec & Hrec & <- & <-).
  rewrite (same_key_of _ _ carrier carrier2 _ _ _ _ _ _ Hm Hadmitted Hkey) in Hrec.
  pose proof (lookup_weaken _ _ _ _ Hrec (gr_keys _ _ (run_grows later s'))) as Hlater.
  unfold withTransaction. rewrite mutate_accept, Hadmitted, (bound_key c2 _ _ _ _ _ Hlater Hconfirmed).
  by destruct (String.eqb _ _).
Qed.

(** C3: A request is performed at most once.  After a request was accepted, and
    after any history of other transactions, its key used again by the same
    caller for the same operation never changes the state: if the request is
    the same one (whatever its headers, its clock, its trace or the order of
    its SSH keys) the answer is the first one, marked as replayed; if it asks
    for anything else the answer is IDEMPOTENCY_CONFLICT, unless the two texts
    happen to have the same SHA-256 digest. *)
Theorem request_is_performed_once (c2 : Call) (carrier2 : option TraceContext) (generated2 : string)
    (i i2 : Input) (q q2 : Intent) (m2 : Mutation) (s s' : ControlDb) (a : AcceptedMutation)
    (later : list (Call * Transaction))
    (Haccepted : mutate c carrier generated i q s = Ok (a, s')) (Hkey : same_key i q i2 q2)
    (Hadmitted : admission generated2 i2 q2 = Ok m2) (Hconfirmed : confirmed m2) :
  let answer := withTransaction (mutate c2 carrier2 generated2 i2 q2) (run later s') in
  (same_request i q i2 q2 → answer = (Ok (replay_of a), run later s'))
  ∧ (exact_numbers q → exact_numbers q2 → (requestHash i q = requestHash i2 q2 → request_text i q = request_text i2 q2) →
     ¬ same_request i q i2 q2 → answer = (Err conflict, run later s')).
Proof.
  cbv zeta. rewrite (repeated_request c2 carrier2 generated2 i i2 q q2 m2 s s' a later Haccepted Hkey Hadmitted Hconfirmed). split.
  - intros Hsame. by rewrite (same_request_hash _ _ _ _ Hsame), String.eqb_refl.
  - intros Hq Hq2 Hnc Hdiff. destruct (String.eqb_spec (requestHash i q) (requestHash i2 q2)) as [Heq|_]; [|done].
    destruct Hdiff. apply request_text_same; auto.
Qed.

(** The justification of a purge is not kept.  Whatever two acceptable
    reasons an administrator gives, accepting the purge commits the same state
    and gives the same answer: no table, no command and no audit fact records
    the reason. *)
Theorem purge_reason_is_lost (i : Input) (instance confirmation reason reason' : string) (s : ControlDb)
    (Hlong : 10 ≤ js_length (trim reason)) (Hlong' : 10 ≤ js_length (trim reason')) :
  mutate c carrier generated i (PurgeInstance instance confirmation reason) s
  = mutate c carrier generated i (PurgeInstance instance confirmation reason') s.
Proof.
  rewrite !mutate_accept. unfold admission. apply Z.leb_le in Hlong, Hlong'. by rewrite Hlong, Hlong'.
Qed.
End once.

(** ** The boundary of a request *)

Lemma present_truthy (o : option string) (s : string) : present o = Some s → o = Some s ∧ truthy s = true.
Proof. unfold present. destruct o as [x|]; [|done]. cbn. destruct (truthy x) eqn:E; [|done]. by intros [= <-]. Qed.
Lemma traceparent_trace (text : string) (trace span_ : string) (ts : option string) :
  MessageCodec.traceparentPattern text = Some (trace, span_) → all_zero trace || all_zero span_ = false →
  match ts with None => True | Some st => boundedString (JStr st) 512 = true ∧ existsb control_character (chars st) = false end →
  validTraceContext (trace_json {| traceparent := text; tracestate := ts |}) = true.
Proof.
  intros Hp [Ht Hs]%orb_false_iff Hts. cbn -[MessageCodec.traceparentPattern boundedString all_zero].
  rewrite Hp, Ht, Hs. destruct ts as [st|]; [|done]. destruct Hts as [Hb Hc].
  cbn -[boundedString]. by rewrite Hb, Hc.
Qed.

(** What [request-context.ts] lets through is what the codec of the command
    topic accepts later. *)
Lemma request_context_ok (freshId freshTrace : string) (id parent state : option string) (corr tp : string)
    (ts : option string) :
  uuidPattern freshId = true → validTraceContext (trace_json {| traceparent := freshTrace; tracestate := None |}) = true →
  ControlPlane.correlationId freshId id = Ok corr → requestTraceparent freshTrace parent = Ok tp →
  requestTracestate state parent = Ok ts →
  uuidPattern corr = true ∧ validTraceContext (trace_json {| traceparent := tp; tracestate := ts |}) = true.
Proof.
  intros Hid Hfresh Hc Hp Hs. split.
  - unfold ControlPlane.correlationId in Hc. destruct (present id) as [text|]; [|congruence].
    destruct (requestUuidPattern text) eqn:E; [|done]. injection Hc as <-. unfold requestUuidPattern in E. by unbool.
  - unfold requestTraceparent in Hp. unfold requestTracestate in Hs. destruct (present parent) as [text|].
    + destruct (requestTraceparentPattern text) as [[trace span_]|] eqn:E; [|done].
      destruct (all_zero trace || all_zero span_) eqn:Ez; [done|]. injection Hp as <-.
      apply (traceparent_trace text trace span_); [|done|].
      { unfold requestTraceparentPattern in E. destruct (split_on "-" text) as [|v l]; [done|]. by repeat case_match. }
      destruct (present state) as [st|] eqn:Est; [|by injection Hs as <-].
      destruct ((maximumTracestateLength <? js_length st) || existsb control_character (chars st)) eqn:Eb; [done|].
      injection Hs as <-. apply orb_false_iff in Eb as [El Ec]. split; [|exact Ec].
      apply present_truthy in Est as [_ Est]. unfold maximumTracestateLength in El. apply Z.ltb_ge in El.
      unfold boundedString. apply andb_true_intro. split; [|by apply Z.leb_le].
      destruct st; [done|]. apply Z.leb_le. unfold js_length. cbn. lia.
    + injection Hp as <-. destruct (present state); [done|]. by injection Hs as <-.
Qed.

(** ** Concrete requests *)

Definition sample_actor : Actor := {| subject := "alice"; roles := ["tenant_developer"]; projects_ := ["p1"] |}.
Definition sample_input (key : string) : Input :=
  {| in_actor := sample_actor; in_projectId := "p1"; in_idempotencyKey := key; in_correlationId := "corr";
     in_traceparent := "00-0af7651916cd43dd8448eb211c80319c-b7ad6b7169203331-01"; in_tracestate := None |}.
Definition sample_creation (host : string) (keys : option (list string)) : Intent :=
  CreateInstance {| ci_imageId := "img"; ci_flavorId := "small"; ci_networkId := "net"; ci_hostname := host;
                    ci_sshPublicKeys := keys |}.

Lemma request_identity_witness :
  let i := sample_input "key-0001" in
  request_text (H := sample_platform) i (sample_creation "web" (Some ["b"; "a"]))
  = request_text (H := sample_platform) i (sample_creation "web" (Some ["a"; "b"])).
Proof.
  intros i. refine (proj2 (request_identity (H := sample_platform) i i (sample_creation "web" (Some ["b"; "a"]))
    (sample_creation "web" (Some ["a"; "b"])) I I) _).
  split; [reflexivity|]. split; [reflexivity|]. split; [reflexivity|]. apply perm_swap.
Defined.

Lemma request_is_performed_once_witness :
  let first := mutate (H := sample_platform) (sample_call 1) None "" (sample_input "key-0001")
                 (sample_creation "web" None) empty_control in
  let s2 := run (H := sample_platform) [create_step 2 "p2" "k"] (accepted_state first) in
  let again q := withTransaction (mutate (H := sample_platform) (sample_call 90000000) None "" (sample_input "key-0001") q) s2 in
  again (sample_creation "web" (Some [])) = (Ok (replay_of (accepted_answer first)), s2)
  ∧ again (sample_creation "db" None) = (Err conflict, s2).
Proof.
  intros first s2 again.
  assert (Hfirst : first = Ok (accepted_answer first, accepted_state first)) by (apply accepted_ok; vm_compute; reflexivity).
  split.
  - refine (proj1 (request_is_performed_once (H := sample_platform) (sample_call 1) None "" (sample_call 90000000) None ""
      (sample_input "key-0001") (sample_input "key-0001") (sample_creation "web" None) (sample_creation "web" (Some []))
      (Create "" {| cr_imageId := "img"; cr_flavorId := "small"; cr_networkId := "net"; cr_hostname := "web";
                    cr_sshPublicKeys := [] |}) empty_control (accepted_state first) (accepted_answer first)
      [create_step 2 "p2" "k"] Hfirst _ _ I) _); [by split_and!|vm_compute; reflexivity|].
    split; [reflexivity|]. split; [reflexivity|]. split; reflexivity.
  - refine (proj2 (request_is_performed_once (H := sample_platform) (sample_call 1) None "" (sample_call 90000000) None ""
      (sample_input "key-0001") (sample_input "key-0001") (sample_creation "web" None) (sample_creation "db" None)
      (Create "" {| cr_imageId := "img"; cr_flavorId := "small"; cr_networkId := "net"; cr_hostname := "db";
                    cr_sshPublicKeys := [] |}) empty_control (accepted_state first) (accepted_answer first)
      [create_step 2 "p2" "k"] Hfirst _ _ I) I I _ _); [by split_and!|vm_compute; reflexivity| |].
    + vm_compute. discriminate.
    + intros (_ & _ & [=] & _).
Defined.
