(* ===== verification/ControlApi.v ===== *)
(** * The control API: authentication and REST

    [apps/control-api/src/app]: the token verification both transports share,
    the REST controllers and the exception filter.  Each call becomes a request
    to the application service ([ControlPlane.serve]). *)
From S2P Require Import Prelude JsText Json SshKey JsonParse Domain PageCursor Ipv4 WorkflowStage Events EventValidation Platform JsonOrder MessageCodec ControlDb AcceptStore AcceptCreate Control Reads ControlPlane.
From Stdlib Require Import ZArith Lia Bool Ascii String.
From stdpp Require Import base decidable list strings gmap.
Open Scope string_scope.
Open Scope Z_scope.
Open Scope prog_scope.

(** ** What the framework does *)

(** The claims of a verified token, at the types the verifier declares. *)
Record Claims : Type := { cl_sub : option string; cl_roles : json; cl_projects : json }.

(** [jwtVerify] with the process's key set, issuer, audience and algorithm;
    [None] is any rejection. *)
Class TokenVerifier : Type := { jwtVerify : string → option Claims }.

(** The bodies of the mutating routes, after validation. *)
Record CreateInstanceDto : Set := {
  dto_imageId : string; dto_flavorId : string; dto_networkId : string; dto_hostname : string;
  dto_sshPublicKeys : option (list string) }.
Record InstanceActionDto : Set := {
  dto_action : string; dto_resizeFlavorId : option string; dto_diskGiB : option Z }.
Record CreateSnapshotDto : Set := { dto_name : string; dto_description : option string }.
Record SnapshotRollbackDto : Set := { dto_snapshotAction : string }.
Record PurgeRequestDto : Set := { dto_purgeReason : string; dto_confirmInstanceId : string }.
Record ReplayRequestDto : Set := { dto_reason : string }.

(** The framework's pipes: [ParseUUIDPipe], [ParseIntPipe], and the validation
    of a body against each request class; [None] is a refusal. *)
Class Pipes : Type := {
  parsesUuid : string → bool;
  parsesInt : string → option Z;
  createBody : json → option CreateInstanceDto;
  actionBody : json → option InstanceActionDto;
  snapshotBody : json → option CreateSnapshotDto;
  rollbackBody : json → option SnapshotRollbackDto;
  purgeBody : json → option PurgeRequestDto;
  replayBody : json → option ReplayRequestDto;
}.

(** What a handler may throw: the framework's exception, or what the
    application threw. *)
Inductive failure : Set :=
| HttpException (status : Z) (message : string)
| Thrown (e : error).

Definition UnauthorizedException (message : string) : failure := HttpException 401 message.
Definition BadRequestException (message : string) : failure := HttpException 400 message.

(** ** Authentication *)

(** [/^Bearer\s+(.+)$/i]: a dot is no line end. *)
Definition line_end (c : ascii) : bool := (unit_of c =? 10) || (unit_of c =? 13).
Definition bearer (header : string) : option string :=
  let '(scheme, rest) := span (negb ∘ is_space) (chars header) in
  let '(gap, token) := span is_space rest in
  if String.eqb (toLowerCase (of_chars scheme)) "bearer" && negb (Nat.eqb (List.length gap) 0)
     && negb (Nat.eqb (List.length token) 0) && negb (existsb line_end token)
  then Some (of_chars token) else None.

Definition stringArray (value : json) (claim : string) : result failure (list string) :=
  match value with
  | JArr l =>
      match mapM (λ v, match v with JStr s => Some s | _ => None end) l with
      | Some texts => Ok texts
      | None => Err (UnauthorizedException ("The " ++ claim ++ " claim is invalid."))
      end
  | _ => Err (UnauthorizedException ("The " ++ claim ++ " claim is invalid."))
  end.

Definition authenticate `{TokenVerifier} (authorization : option string) : result failure Actor :=
  match bearer (trim (default "" authorization)) with
  | None => Err (UnauthorizedException "Bearer authentication is required.")
  | Some token =>
      match jwtVerify token with
      | None => Err (UnauthorizedException "Bearer token validation failed.")
      | Some payload =>
          match present payload.(cl_sub) with
          | None => Err (UnauthorizedException "The subject claim is required.")
          | Some sub =>
              let? roles := stringArray payload.(cl_roles) "roles" in
              let? projects := stringArray payload.(cl_projects) "projects" in
              Ok {| subject := sub; roles := roles; projects_ := projects |}
          end
      end
  end.

(** ** The context of a mutation *)

(** The identifiers [randomUUID] and [randomBytes] draw for one call. *)
Record Drawn : Set := { drawn_correlation : string; drawn_traceparent : string }.

Definition bad {A : Type} (r : result bad_request A) : result failure A :=
  match r with Ok a => Ok a | Err (BadRequest message) => Err (BadRequestException message) end.

(** The headers of an HTTP request the controllers read. *)
Record Headers : Set := {
  h_authorization : option string; h_idempotencyKey : option string; h_correlation : option string;
  h_traceparent : option string; h_tracestate : option string }.

(** [mutationIdentity]. *)
Definition mutationIdentity (d : Drawn) (a : Actor) (projectId : string) (h : Headers) : result failure Input :=
  let? validatedTracestate := bad (requestTracestate h.(h_tracestate) h.(h_traceparent)) in
  let? correlation := bad (ControlPlane.correlationId d.(drawn_correlation) h.(h_correlation)) in
  let? parent := bad (requestTraceparent d.(drawn_traceparent) h.(h_traceparent)) in
  Ok {| in_actor := a; in_projectId := projectId; in_idempotencyKey := default "" h.(h_idempotencyKey);
        in_correlationId := correlation; in_traceparent := parent; in_tracestate := present validatedTracestate |}.

(** ** REST *)

Inductive RestRequest : Type :=
| GET_project (project : string)
| GET_quota (project : string)
| GET_images (project : string) (limit cursor : option string)
| GET_flavors (project : string) (limit cursor : option string)
| GET_networks (project : string) (limit cursor : option string)
| GET_dead_letters (limit cursor : option string)
| POST_instance (project : string) (body : json)
| POST_action (project instance : string) (body : json)
| DELETE_instance (project instance : string)
| GET_snapshots (project instance : string) (limit cursor : option string)
| POST_snapshot (project instance : string) (body : json)
| POST_snapshot_action (project instance snapshot : string) (body : json)
| DELETE_snapshot (project instance snapshot : string)
| GET_instances (project : string) (limit cursor : option string)
| GET_instance (project instance : string)
| GET_operations (project : string) (limit cursor : option string)
| GET_operation (project operation : string)
| GET_admin_operation (operation : string)
| POST_purge (instance : string) (body : json)
| POST_reconciliation (instance : string)
| GET_audit (limit cursor projectId operationId : option string)
| POST_replay (event : string) (body : json).

Section rest.
Context `{TokenVerifier, Pipes} (d : Drawn).

Definition uuidParam (value : string) : result failure unit :=
  if parsesUuid value then Ok tt else Err (BadRequestException "Validation failed (uuid is expected)").
(** [DefaultValuePipe(50), ParseIntPipe]. *)
Definition limitQuery (value : option string) : result failure (option Z) :=
  match value with
  | None => Ok (Some 50)
  | Some text => match parsesInt text with
                 | Some n => Ok (Some n)
                 | None => Err (BadRequestException "Validation failed (numeric string is expected)")
                 end
  end.
Definition validated_body {T : Type} (pipe : json → option T) (body : json) : result failure T :=
  match pipe body with Some t => Ok t | None => Err (BadRequestException "Bad Request Exception") end.

(** The handlers of [InstancesController]. *)
Definition create (a : Actor) (h : Headers) (project : string) (body : CreateInstanceDto) : result failure AppRequest :=
  let? i := mutationIdentity d a project h in
  Ok (Mutate i (CreateInstance {| ci_imageId := body.(dto_imageId); ci_flavorId := body.(dto_flavorId);
    ci_networkId := body.(dto_networkId); ci_hostname := body.(dto_hostname); ci_sshPublicKeys := body.(dto_sshPublicKeys) |})).
Definition act (a : Actor) (h : Headers) (project instance : string) (body : InstanceActionDto) : result failure AppRequest :=
  let? i := mutationIdentity d a project h in
  Ok (Mutate i (if String.eqb body.(dto_action) "resize"
                then ResizeInstance instance (default "" body.(dto_resizeFlavorId)) body.(dto_diskGiB)
                else PowerInstance instance body.(dto_action))).
Definition retain (a : Actor) (h : Headers) (project instance : string) : result failure AppRequest :=
  let? i := mutationIdentity d a project h in Ok (Mutate i (RetainInstance instance)).
Definition create_snapshot (a : Actor) (h : Headers) (project instance : string) (body : CreateSnapshotDto) :
    result failure AppRequest :=
  let? i := mutationIdentity d a project h in
  Ok (Mutate i (CreateSnapshot instance body.(dto_name) (present body.(dto_description)))).
Definition rollback_snapshot (a : Actor) (h : Headers) (project instance snapshot : string) (body : SnapshotRollbackDto) :
    result failure AppRequest :=
  if negb (String.eqb body.(dto_snapshotAction) "rollback")
  then Err (Thrown (invalid "The only supported snapshot action is rollback.")) else
  let? i := mutationIdentity d a project h in Ok (Mutate i (SnapshotAction mutate_rollback instance snapshot)).
Definition delete_snapshot (a : Actor) (h : Headers) (project instance snapshot : string) : result failure AppRequest :=
  let? i := mutationIdentity d a project h in Ok (Mutate i (SnapshotAction mutate_delete instance snapshot)).

(** [AdministrationController] and [DeadLettersController]; these mutations
    name no project. *)
Definition purge (a : Actor) (h : Headers) (instance : string) (body : PurgeRequestDto) : result failure AppRequest :=
  let? i := mutationIdentity d a "" h in
  Ok (Mutate i (PurgeInstance instance body.(dto_confirmInstanceId) body.(dto_purgeReason))).
Definition replay (a : Actor) (h : Headers) (event : string) (body : ReplayRequestDto) : result failure AppRequest :=
  let? i := mutationIdentity d a "" h in Ok (ReplayDeadLetter i event body.(dto_reason)).

(** A guarded route: the parameters and the body pass the pipes, then the
    handler runs. *)
Definition rest_request (a : Actor) (h : Headers) (r : RestRequest) : result failure AppRequest :=
  match r with
  | GET_project project => let? _ := uuidParam project in Ok (ReadProject a project)
  | GET_quota project => let? _ := uuidParam project in Ok (ReadQuota a project)
  | GET_images project limit cursor =>
      let? _ := uuidParam project in let? n := limitQuery limit in Ok (ReadImages a project n cursor)
  | GET_flavors project limit cursor =>
      let? _ := uuidParam project in let? n := limitQuery limit in Ok (ReadFlavors a project n cursor)
  | GET_networks project limit cursor =>
      let? _ := uuidParam project in let? n := limitQuery limit in Ok (ReadNetworks a project n cursor)
  | GET_dead_letters limit cursor => let? n := limitQuery limit in Ok (ReadDeadLetters a n cursor)
  | POST_instance project body =>
      let? _ := uuidParam project in let? b := validated_body createBody body in create a h project b
  | POST_action project instance body =>
      let? _ := uuidParam project in let? _ := uuidParam instance in
      let? b := validated_body actionBody body in act a h project instance b
  | DELETE_instance project instance =>
      let? _ := uuidParam project in let? _ := uuidParam instance in retain a h project instance
  | GET_snapshots project instance limit cursor =>
      let? _ := uuidParam project in let? _ := uuidParam instance in
      let? n := limitQuery limit in Ok (ReadSnapshots a project instance n cursor)
  | POST_snapshot project instance body =>
      let? _ := uuidParam project in let? _ := uuidParam instance in
      let? b := validated_body snapshotBody body in create_snapshot a h project instance b
  | POST_snapshot_action project instance snapshot body =>
      let? _ := uuidParam project in let? _ := uuidParam instance in let? _ := uuidParam snapshot in
      let? b := validated_body rollbackBody body in rollback_snapshot a h project instance snapshot b
  | DELETE_snapshot project instance snapshot =>
      let? _ := uuidParam project in let? _ := uuidParam instance in let? _ := uuidParam snapshot in
      delete_snapshot a h project instance snapshot
  | GET_instances project limit cursor =>
      let? _ := uuidParam project in let? n := limitQuery limit in Ok (ReadInstances a project n cursor)
  | GET_instance project instance =>
      let? _ := uuidParam project in let? _ := uuidParam instance in Ok (ReadInstance a project instance)
  | GET_operations project limit cursor =>
      let? _ := uuidParam project in let? n := limitQuery limit in Ok (ReadOperations a project n cursor)
  | GET_operation project operation =>
      let? _ := uuidParam project in let? _ := uuidParam operation in Ok (ReadOperation a project operation)
  | GET_admin_operation operation => let? _ := uuidParam operation in Ok (ReadAdministrative a operation)
  | POST_purge instance body =>
      let? _ := uuidParam instance in let? b := validated_body purgeBody body in purge a h instance b
  | POST_reconciliation instance => let? _ := uuidParam instance in Ok (Reconcile a instance)
  | GET_audit limit cursor projectId operationId =>
      let? n := limitQuery limit in
      Ok (ReadAudit a {| af_projectId := present projectId; af_operationId := present operationId |} n cursor)
  | POST_replay event body =>
      let? _ := uuidParam event in let? b := validated_body replayBody body in replay a h event b
  end.
End rest.

(** [@HttpCode(202)] on the mutations, 200 on the reads. *)
Definition success_status (r : RestRequest) : Z :=
  match r with
  | GET_project _ | GET_quota _ | GET_images _ _ _ | GET_flavors _ _ _ | GET_networks _ _ _ | GET_dead_letters _ _
  | GET_snapshots _ _ _ _ | GET_instances _ _ _ | GET_instance _ _ | GET_operations _ _ _ | GET_operation _ _
  | GET_admin_operation _ | GET_audit _ _ _ _ => 200
  | _ => 202
  end.

(** *** [ApiExceptionFilter] *)

Definition code_text (c : DomainErrorCode) : string :=
  match c with
  | ADMIN_REQUIRED => "ADMIN_REQUIRED" | DEAD_LETTER_NOT_FOUND => "DEAD_LETTER_NOT_FOUND"
  | DISK_SHRINK_FORBIDDEN => "DISK_SHRINK_FORBIDDEN" | IDEMPOTENCY_CONFLICT => "IDEMPOTENCY_CONFLICT"
  | INSTANCE_BUSY => "INSTANCE_BUSY" | INSTANCE_NOT_FOUND => "INSTANCE_NOT_FOUND"
  | OPERATION_NOT_FOUND => "OPERATION_NOT_FOUND" | PROFILE_DISABLED => "PROFILE_DISABLED"
  | PROJECT_ACCESS_DENIED => "PROJECT_ACCESS_DENIED" | PROJECT_NOT_FOUND => "PROJECT_NOT_FOUND"
  | QUOTA_EXCEEDED => "QUOTA_EXCEEDED" | REPLAY_NOT_ALLOWED => "REPLAY_NOT_ALLOWED"
  | SNAPSHOT_NOT_FOUND => "SNAPSHOT_NOT_FOUND" | SNAPSHOT_OWNERSHIP_MISMATCH => "SNAPSHOT_OWNERSHIP_MISMATCH"
  | VALIDATION_FAILED => "VALIDATION_FAILED"
  end.
Definition statusByCode (c : DomainErrorCode) : Z :=
  match c with
  | ADMIN_REQUIRED | PROJECT_ACCESS_DENIED => 403
  | DEAD_LETTER_NOT_FOUND | INSTANCE_NOT_FOUND | OPERATION_NOT_FOUND | PROJECT_NOT_FOUND | SNAPSHOT_NOT_FOUND => 404
  | DISK_SHRINK_FORBIDDEN | PROFILE_DISABLED | QUOTA_EXCEEDED | VALIDATION_FAILED => 422
  | IDEMPOTENCY_CONFLICT | INSTANCE_BUSY | REPLAY_NOT_ALLOWED | SNAPSHOT_OWNERSHIP_MISMATCH => 409
  end.
Definition codeByStatus (status : Z) : option string :=
  if status =? 400 then Some "VALIDATION_FAILED"
  else if status =? 401 then Some "AUTHENTICATION_REQUIRED"
  else if status =? 403 then Some "AUTHORIZATION_FAILED"
  else if status =? 404 then Some "RESOURCE_NOT_FOUND"
  else if status =? 409 then Some "CONFLICT"
  else if status =? 413 then Some "PAYLOAD_TOO_LARGE"
  else if status =? 422 then Some "VALIDATION_FAILED" else None.

(** [code.replaceAll('_', ' ')]. *)
Definition replace_char (c d : ascii) (s : string) : string :=
  of_chars (map (λ x, if Ascii.eqb x c then d else x) (chars s)).

Record Problem : Set := {
  pr_type : string; pr_title : string; pr_status : Z; pr_detail : string; pr_code : string; pr_instance : string }.

Definition problem (url : string) (f : failure) : Problem :=
  let status := match f with
                | Thrown (DomainError c _) => statusByCode c | Thrown (Fault _) => 500 | HttpException n _ => n end in
  let code := match f with
              | Thrown (DomainError c _) => code_text c | _ => default "INTERNAL_ERROR" (codeByStatus status) end in
  let detail := match f with
                | Thrown (DomainError _ message) => message
                | _ => if status <? 500 then "The request could not be completed." else "An internal error occurred." end in
  {| pr_type := "https://private-cloud.invalid/problems/" ++ toLowerCase code;
     pr_title := replace_char "_" " " code; pr_status := status; pr_detail := detail; pr_code := code;
     pr_instance := url |}.
