(* ===== verification/ControlGrpc.v ===== *)
(** * The public gRPC surface of the control API

    [apps/control-api/src/app/grpc]: the controllers that turn a message and
    its call metadata into a request to the application service, the mappers
    of its answers onto protobuf messages, and the translation of every thrown
    value into a gRPC status. *)
From S2P Require Import Prelude JsText Json SshKey JsonParse Domain PageCursor Ipv4 WorkflowStage Events EventValidation Platform JsonOrder MessageCodec ControlDb AcceptStore AcceptCreate Control Reads ControlPlane ControlApi.
From Stdlib Require Import ZArith Lia Bool Ascii String.
From stdpp Require Import base decidable list strings gmap.
Open Scope string_scope.
Open Scope Z_scope.
Open Scope prog_scope.

(** ** Messages

    A scalar that is unset on the wire is left out by the loader
    ([defaults: false]); 64-bit integers arrive as digits ([longs: String]) and
    enumerations by name ([enums: String]). *)
Record MutationContext : Set := {
  mc_projectId : option string; mc_idempotencyKey : option string; mc_correlationId : option string }.
Record QueryContext : Set := { qc_projectId : option string }.
Record MessagePage : Set := { mp_limit : option Z; mp_cursor : option string }.
Record CreateInstanceRequest : Set := {
  cir_context : option MutationContext; cir_imageId : option string; cir_flavorId : option string;
  cir_networkId : option string; cir_hostname : option string; cir_sshPublicKeys : option (list string) }.
Record ResizeAction : Set := { ra_flavorId : option string; ra_diskGib : option string }.
Record MutateInstanceRequest : Set := {
  mir_context : option MutationContext; mir_instanceId : option string; mir_power : option string;
  mir_resize : option ResizeAction }.
Record ReplayDeadLetterRequest : Set := {
  rdr_context : option MutationContext; rdr_eventId : option string; rdr_reason : option string }.

Inductive GrpcRequest : Set :=
| GetProject (context : option QueryContext)
| GetProjectQuota (context : option QueryContext)
| ListImages (context : option QueryContext) (page : option MessagePage)
| ListFlavors (context : option QueryContext) (page : option MessagePage)
| ListNetworks (context : option QueryContext) (page : option MessagePage)
| ListDeadLetters (page : option MessagePage)
| CreateInstanceCall (m : CreateInstanceRequest)
| MutateInstanceCall (m : MutateInstanceRequest)
| ListInstances (context : option QueryContext) (page : option MessagePage)
| GetInstance (context : option QueryContext) (instanceId : option string)
| ListOperations (context : option QueryContext) (page : option MessagePage)
| GetOperation (context : option QueryContext) (operationId : option string)
| GetAdministrativeOperation (operationId : option string)
| ListAuditEvents (projectId operationId : option string) (page : option MessagePage)
| ReplayDeadLetterCall (m : ReplayDeadLetterRequest).

(** The entries of the call metadata the controllers read. *)
Record Metadata : Set := {
  md_authorization : option string; md_traceparent : option string; md_tracestate : option string }.

(** ** Handlers *)

Definition requireField (value : option string) (field : string) : result failure string :=
  match present value with
  | Some text => Ok text
  | None => Err (Thrown (invalid (field ++ " is required.")))
  end.

Definition powerActionName (value : option string) : string :=
  match value with
  | Some "POWER_ACTION_START" => "start"
  | Some "POWER_ACTION_SHUTDOWN" => "shutdown"
  | Some "POWER_ACTION_STOP" => "stop"
  | Some "POWER_ACTION_REBOOT" => "reboot"
  | Some text => text
  | None => ""
  end.

Section handlers.
Context (d : Drawn).

Definition projectOf (context : option QueryContext) : result failure string :=
  requireField (c ← context; c.(qc_projectId)) "project_id".
Definition pageLimit (page : option MessagePage) : option Z := p ← page; p.(mp_limit).
Definition pageCursor (page : option MessagePage) : option string := p ← page; p.(mp_cursor).

Definition createInstance (a : Actor) (meta : Metadata) (m : CreateInstanceRequest) : result failure AppRequest :=
  let? inboundTracestate := bad (requestTracestate meta.(md_tracestate) meta.(md_traceparent)) in
  let? projectId := requireField (c ← m.(cir_context); c.(mc_projectId)) "project_id" in
  let? idempotencyKey := requireField (c ← m.(cir_context); c.(mc_idempotencyKey)) "idempotency_key" in
  let? correlation := bad (ControlPlane.correlationId d.(drawn_correlation) (c ← m.(cir_context); c.(mc_correlationId))) in
  let? parent := bad (requestTraceparent d.(drawn_traceparent) meta.(md_traceparent)) in
  let? imageId := requireField m.(cir_imageId) "image_id" in
  let? flavorId := requireField m.(cir_flavorId) "flavor_id" in
  let? networkId := requireField m.(cir_networkId) "network_id" in
  let? hostname := requireField m.(cir_hostname) "hostname" in
  Ok (Mutate {| in_actor := a; in_projectId := projectId; in_idempotencyKey := idempotencyKey;
                in_correlationId := correlation; in_traceparent := parent; in_tracestate := present inboundTracestate |}
        (CreateInstance {| ci_imageId := imageId; ci_flavorId := flavorId; ci_networkId := networkId;
           ci_hostname := hostname; ci_sshPublicKeys := Some (default [] m.(cir_sshPublicKeys)) |})).

(** [Number(diskGib)], for text that denotes an integer. *)
Definition diskNumber (text : option string) : option Z := t ← text; Number_integer t.

Definition mutateInstance (a : Actor) (meta : Metadata) (m : MutateInstanceRequest) : result failure AppRequest :=
  let? parent := bad (requestTraceparent d.(drawn_traceparent) meta.(md_traceparent)) in
  let? state := bad (requestTracestate meta.(md_tracestate) (Some parent)) in
  let? projectId := requireField (c ← m.(mir_context); c.(mc_projectId)) "project_id" in
  let? instanceId := requireField m.(mir_instanceId) "instance_id" in
  let? correlation := bad (ControlPlane.correlationId d.(drawn_correlation) (c ← m.(mir_context); c.(mc_correlationId))) in
  let identity := {| in_actor := a; in_projectId := projectId;
                     in_idempotencyKey := default "" (c ← m.(mir_context); c.(mc_idempotencyKey));
                     in_correlationId := correlation; in_traceparent := parent; in_tracestate := present state |} in
  Ok (Mutate identity
        match m.(mir_resize) with
        | Some r => ResizeInstance instanceId (default "" r.(ra_flavorId)) (diskNumber r.(ra_diskGib))
        | None => PowerInstance instanceId (powerActionName m.(mir_power))
        end).

Definition replayDeadLetter (a : Actor) (meta : Metadata) (m : ReplayDeadLetterRequest) : result failure AppRequest :=
  let? parent := bad (requestTraceparent d.(drawn_traceparent) meta.(md_traceparent)) in
  let? state := bad (requestTracestate meta.(md_tracestate) (Some parent)) in
  let? event := requireField m.(rdr_eventId) "event_id" in
  let? correlation := bad (ControlPlane.correlationId d.(drawn_correlation) (c ← m.(rdr_context); c.(mc_correlationId))) in
  let? reason := requireField m.(rdr_reason) "reason" in
  Ok (ReplayDeadLetter
        {| in_actor := a; in_projectId := ""; in_idempotencyKey := default "" (c ← m.(rdr_context); c.(mc_idempotencyKey));
           in_correlationId := correlation; in_traceparent := parent; in_tracestate := present state |} event reason).

Definition grpc_request (a : Actor) (meta : Metadata) (q : GrpcRequest) : result failure AppRequest :=
  match q with
  | GetProject context => let? p := projectOf context in Ok (ReadProject a p)
  | GetProjectQuota context => let? p := projectOf context in Ok (ReadQuota a p)
  | ListImages context page => let? p := projectOf context in Ok (ReadImages a p (pageLimit page) (pageCursor page))
  | ListFlavors context page => let? p := projectOf context in Ok (ReadFlavors a p (pageLimit page) (pageCursor page))
  | ListNetworks context page => let? p := projectOf context in Ok (ReadNetworks a p (pageLimit page) (pageCursor page))
  | ListDeadLetters page => Ok (ReadDeadLetters a (pageLimit page) (pageCursor page))
  | CreateInstanceCall m => createInstance a meta m
  | MutateInstanceCall m => mutateInstance a meta m
  | ListInstances context page =>
      let? p := projectOf context in Ok (ReadInstances a p (pageLimit page) (pageCursor page))
  | GetInstance context instance =>
      let? p := projectOf context in let? i := requireField instance "instance_id" in Ok (ReadInstance a p i)
  | ListOperations context page =>
      let? p := projectOf context in Ok (ReadOperations a p (pageLimit page) (pageCursor page))
  | GetOperation context operation =>
      let? p := projectOf context in let? o := requireField operation "operation_id" in Ok (ReadOperation a p o)
  | GetAdministrativeOperation operation =>
      let? o := requireField operation "operation_id" in Ok (ReadAdministrative a o)
  | ListAuditEvents projectId operationId page =>
      Ok (ReadAudit a {| af_projectId := present projectId; af_operationId := present operationId |}
            (pageLimit page) (pageCursor page))
  | ReplayDeadLetterCall m => replayDeadLetter a meta m
  end.
End handlers.

(** ** Statuses *)

Inductive grpc_status : Set :=
| UNKNOWN | INVALID_ARGUMENT | NOT_FOUND | ALREADY_EXISTS | PERMISSION_DENIED | RESOURCE_EXHAUSTED
| FAILED_PRECONDITION | ABORTED | INTERNAL | UNAUTHENTICATED.

Definition STATUS_BY_HTTP_CODE (status : Z) : option grpc_status :=
  if status =? 400 then Some INVALID_ARGUMENT
  else if status =? 401 then Some UNAUTHENTICATED
  else if status =? 403 then Some PERMISSION_DENIED
  else if status =? 404 then Some NOT_FOUND
  else if status =? 409 then Some ALREADY_EXISTS
  else if status =? 422 then Some FAILED_PRECONDITION else None.
Definition STATUS_BY_DOMAIN_CODE (c : DomainErrorCode) : grpc_status :=
  match c with
  | ADMIN_REQUIRED | PROJECT_ACCESS_DENIED => PERMISSION_DENIED
  | DEAD_LETTER_NOT_FOUND | INSTANCE_NOT_FOUND | OPERATION_NOT_FOUND | PROJECT_NOT_FOUND | SNAPSHOT_NOT_FOUND => NOT_FOUND
  | DISK_SHRINK_FORBIDDEN | PROFILE_DISABLED | REPLAY_NOT_ALLOWED | SNAPSHOT_OWNERSHIP_MISMATCH => FAILED_PRECONDITION
  | IDEMPOTENCY_CONFLICT => ALREADY_EXISTS
  | INSTANCE_BUSY => ABORTED
  | QUOTA_EXCEEDED => RESOURCE_EXHAUSTED
  | VALIDATION_FAILED => INVALID_ARGUMENT
  end.

Record RpcException : Set := { rpc_code : grpc_status; rpc_message : string }.

Definition rpcError (f : failure) : RpcException :=
  match f with
  | HttpException status message =>
      {| rpc_code := default UNKNOWN (STATUS_BY_HTTP_CODE status);
         rpc_message := if status =? 401 then "Bearer authentication failed." else message |}
  | Thrown (DomainError c message) => {| rpc_code := STATUS_BY_DOMAIN_CODE c; rpc_message := message |}
  | Thrown (Fault _) => {| rpc_code := INTERNAL; rpc_message := "Internal service error." |}
  end.

(** ** Message mappers ([grpc-mappers.ts])

    A message is the object handed to the serializer. *)

Definition text_map (table : list (string * string)) (value : string) : json := from_option JStr JUndefined (lookup_text value table).
(** A member that is left out when the view has no value, or an empty one. *)
Definition member_if {A : Type} (name : string) (f : A → json) (o : option A) : list (string * json) :=
  match o with Some x => [(name, f x)] | None => [] end.
Definition text_if (name : string) (o : option string) : list (string * json) := member_if name JStr (present o).

(** The seconds and the nanoseconds of an instant; the remainder has the sign
    of the dividend. *)
Definition grpcTimestamp (milliseconds : Z) : json :=
  JObj [("seconds", JStr (string_of_Z (milliseconds / 1000))); ("nanos", JNum (Z.rem milliseconds 1000 * 1000000))].

Definition lifecycleStates : list (string * string) :=
  map (λ p : string * string, (fst p, "INSTANCE_LIFECYCLE_STATE_" ++ snd p))
    [("pending", "PENDING"); ("provisioning", "PROVISIONING"); ("active", "ACTIVE"); ("updating", "UPDATING");
     ("failed", "FAILED"); ("unknown_outcome", "UNKNOWN_OUTCOME"); ("retained", "RETAINED");
     ("purge_pending", "PURGE_PENDING"); ("purged", "PURGED"); ("manual_review", "MANUAL_REVIEW")].
Definition operationStates : list (string * string) :=
  map (λ p : string * string, (fst p, "OPERATION_STATE_" ++ snd p))
    [("accepted", "ACCEPTED"); ("queued", "QUEUED"); ("running", "RUNNING"); ("retry_wait", "RETRY_WAIT");
     ("compensating", "COMPENSATING"); ("unknown_outcome", "UNKNOWN_OUTCOME"); ("manual_review", "MANUAL_REVIEW");
     ("succeeded", "SUCCEEDED"); ("failed", "FAILED"); ("cancelled", "CANCELLED")].
Definition failureCategories : list (string * string) :=
  map (λ p : string * string, (fst p, "FAILURE_CATEGORY_" ++ snd p))
    [("validation", "VALIDATION"); ("authentication", "AUTHENTICATION"); ("authorization", "AUTHORIZATION");
     ("not_found", "NOT_FOUND"); ("conflict", "CONFLICT"); ("quota", "QUOTA"); ("transient", "TRANSIENT");
     ("permanent", "PERMANENT"); ("unknown_outcome", "UNKNOWN_OUTCOME");
     ("compensation_failure", "COMPENSATION_FAILURE"); ("manual_review", "MANUAL_REVIEW"); ("internal", "INTERNAL")].
Definition desiredPowers : list (string * string) :=
  [("running", "DESIRED_POWER_STATE_RUNNING"); ("stopped", "DESIRED_POWER_STATE_STOPPED");
   ("unchanged", "DESIRED_POWER_STATE_UNCHANGED")].
Definition observedPower (p : ObservedPower) : string :=
  match p with
  | observed_running => "OBSERVED_POWER_STATE_RUNNING" | observed_stopped => "OBSERVED_POWER_STATE_STOPPED"
  | observed_suspended => "OBSERVED_POWER_STATE_SUSPENDED" | observed_unknown => "OBSERVED_POWER_STATE_UNKNOWN"
  end.
Definition drifts : list (string * string) :=
  map (λ p : string * string, (fst p, "DRIFT_CLASSIFICATION_" ++ snd p))
    [("none", "NONE"); ("missing_resource", "MISSING_RESOURCE"); ("identity_mismatch", "IDENTITY_MISMATCH");
     ("stale_task", "STALE_TASK"); ("late_success", "LATE_SUCCESS"); ("power_drift", "POWER");
     ("network_drift", "NETWORK"); ("ambiguous", "AMBIGUOUS")].

Definition grpcQuotaValues (q : QuotaSet) : json :=
  JObj [("instances", JNum q.(qs_instances)); ("cpuCount", JNum q.(qs_cpuCount));
        ("memoryMib", JStr (string_of_Z q.(qs_memoryMiB))); ("diskGib", JStr (string_of_Z q.(qs_diskGiB)));
        ("ipv4Addresses", JNum q.(qs_ipv4Addresses)); ("snapshots", JNum q.(qs_snapshots))].
Definition grpcQuota (view : QuotaView) : json :=
  JObj [("projectId", JStr view.(qv_projectId)); ("limits", grpcQuotaValues view.(qv_limits));
        ("usage", grpcQuotaValues view.(qv_usage)); ("measuredAt", grpcTimestamp view.(qv_measuredAt))].

(** The mappers that spread the view, with its timestamps replaced. *)
Definition grpcProject (view : ProjectView) : json :=
  JObj [("id", JStr view.(pv_id)); ("name", JStr view.(pv_name)); ("enabled", JBool view.(pv_enabled));
        ("createdAt", grpcTimestamp view.(pv_createdAt)); ("updatedAt", grpcTimestamp view.(pv_updatedAt))].
Definition grpcImage (view : ImageView) : json :=
  JObj [("id", JStr view.(imv_id)); ("name", JStr view.(imv_name)); ("providerProfileId", JStr view.(imv_providerProfileId));
        ("enabled", JBool view.(imv_enabled)); ("architecture", JStr view.(imv_architecture));
        ("createdAt", grpcTimestamp view.(imv_createdAt)); ("updatedAt", grpcTimestamp view.(imv_updatedAt))].
Definition grpcFlavor (view : FlavorView) : json :=
  JObj [("id", JStr view.(fv_id)); ("name", JStr view.(fv_name)); ("cpuCount", JNum view.(fv_cpuCount));
        ("memoryMib", JStr (string_of_Z view.(fv_memoryMiB))); ("minimumDiskGib", JStr (string_of_Z view.(fv_minimumDiskGiB)));
        ("enabled", JBool view.(fv_enabled)); ("createdAt", grpcTimestamp view.(fv_createdAt));
        ("updatedAt", grpcTimestamp view.(fv_updatedAt))].
Definition grpcNetwork (view : NetworkView) : json :=
  JObj ([("id", JStr view.(nv_id)); ("name", JStr view.(nv_name))]
        ++ member_if "providerProfileId" JStr view.(nv_providerProfileId)
        ++ [("ipv4Cidr", JStr view.(nv_ipv4Cidr)); ("gateway", JStr view.(nv_gateway));
            ("dnsServers", JArr (map JStr view.(nv_dnsServers))); ("exclusions", JArr (map JStr view.(nv_exclusions)));
            ("enabled", JBool view.(nv_enabled)); ("createdAt", grpcTimestamp view.(nv_createdAt));
            ("updatedAt", grpcTimestamp view.(nv_updatedAt))])%list.

Definition grpcObserved (o : ObservedView) : json :=
  JObj ([("exists", JBool o.(ob_exists)); ("powerState", JStr (observedPower o.(ob_powerState)))]
        ++ member_if "cpuCount" JNum o.(ob_cpuCount)
        ++ member_if "memoryMib" (JStr ∘ string_of_Z) o.(ob_memoryMiB)
        ++ member_if "diskGib" (JStr ∘ string_of_Z) o.(ob_diskGiB)
        ++ [("markerMatch", JBool o.(ob_markerMatch)); ("observedAt", grpcTimestamp o.(ob_observedAt))])%list.
Definition grpcLease (l : LeaseView) : json :=
  JObj [("address", JStr l.(lv_address)); ("prefixLength", JNum l.(lv_prefixLength)); ("gateway", JStr l.(lv_gateway));
        ("state", JStr l.(lv_state))].
Definition grpcInstance (view : InstanceView) : json :=
  let w := view.(iv_desired) in
  JObj ([("id", JStr view.(iv_id)); ("projectId", JStr view.(iv_projectId));
         ("lifecycleState", text_map lifecycleStates view.(iv_lifecycleState));
         ("desired", JObj [("imageId", JStr w.(dv_imageId)); ("flavorId", JStr w.(dv_flavorId));
            ("networkId", JStr w.(dv_networkId)); ("hostname", JStr w.(dv_hostname));
            ("powerState", text_map desiredPowers w.(dv_powerState));
            ("retentionRequested", JBool w.(dv_retentionRequested))])]
        ++ member_if "observed" grpcObserved view.(iv_observed)
        ++ [("ipv4Lease", grpcLease view.(iv_ipv4Lease))]
        ++ text_if "activeOperationId" view.(iv_activeOperationId)
        ++ [("drift", text_map drifts view.(iv_drift))]
        ++ member_if "lastReconciledAt" grpcTimestamp view.(iv_lastReconciledAt)
        ++ member_if "retentionDeadline" grpcTimestamp view.(iv_retentionDeadline)
        ++ [("purgeEligible", JBool view.(iv_purgeEligible)); ("createdAt", grpcTimestamp view.(iv_createdAt));
            ("updatedAt", grpcTimestamp view.(iv_updatedAt))])%list.

Definition grpcOperation (view : OperationView) : json :=
  JObj ([("id", JStr view.(op_id)); ("projectId", JStr view.(op_projectId)); ("action", JStr view.(op_action));
         ("targetType", JStr view.(op_targetType)); ("targetId", JStr view.(op_targetId));
         ("state", text_map operationStates view.(op_state)); ("stage", JStr view.(op_stage));
         ("progressPercent", JNum view.(op_progressPercent)); ("acceptedAt", grpcTimestamp view.(op_acceptedAt))]
        ++ member_if "startedAt" grpcTimestamp view.(op_startedAt)
        ++ [("updatedAt", grpcTimestamp view.(op_updatedAt))]
        ++ member_if "completedAt" grpcTimestamp view.(op_completedAt)
        ++ member_if "errorCategory" (text_map failureCategories) (present (fst ∘ fst <$> view.(op_error)))
        ++ text_if "errorCode" (snd ∘ fst <$> view.(op_error))
        ++ text_if "errorMessage" (snd <$> view.(op_error))
        ++ [("manualReviewRequired", JBool view.(op_manualReviewRequired))])%list.

Definition grpcAdministrativeOperation (view : AdministrativeOperationView) : json :=
  JObj ([("operation", grpcOperation view.(ao_operation)); ("correlationId", JStr (default "" view.(ao_correlationId)))]
        ++ text_if "causationId" view.(ao_causationId)
        ++ text_if "traceId" view.(ao_traceId)
        ++ [("retryCount", JNum view.(ao_retryCount))]
        ++ text_if "checkpoint" (Some view.(ao_checkpoint))
        ++ text_if "deadLetterEventId" view.(ao_deadLetterEventId)
        ++ text_if "providerTaskReference" view.(ao_providerTaskReference))%list.

Definition category_text (c : EventFailureCategory) : string :=
  match c with
  | cat_validation => "validation" | cat_authorization => "authorization" | cat_conflict => "conflict"
  | cat_transient => "transient" | cat_permanent => "permanent" | cat_unknown_outcome => "unknown_outcome"
  | cat_compensation_failure => "compensation_failure" | cat_manual_review => "manual_review"
  end.
Definition grpcDeadLetter (view : DeadLetterView) : json :=
  JObj ([("eventId", JStr view.(dlv_eventId)); ("schemaName", JStr view.(dlv_schemaName));
         ("schemaVersion", JNum view.(dlv_schemaVersion)); ("aggregateId", JStr view.(dlv_aggregateId));
         ("projectId", JStr view.(dlv_projectId)); ("operationId", JStr view.(dlv_operationId));
         ("category", text_map failureCategories (category_text view.(dlv_category)))]
        ++ text_if "safeMessage" (Some view.(dlv_safeMessage))
        ++ [("attempts", JNum view.(dlv_attempts)); ("deadLetteredAt", grpcTimestamp view.(dlv_deadLetteredAt));
            ("replayAllowed", JBool view.(dlv_replayAllowed))]
        ++ member_if "lastReplayAt" grpcTimestamp view.(dlv_lastReplayAt))%list.

(** The view of the audit trail has no reason. *)
Definition grpcAuditEvent (view : AuditEventView) : json :=
  JObj ([("id", JStr view.(ae_id)); ("actorId", JStr view.(ae_actorId)); ("actorRole", JStr (role_text view.(ae_actorRole)))]
        ++ text_if "projectId" (Some view.(ae_projectId))
        ++ [("action", JStr view.(ae_action)); ("targetType", JStr view.(ae_targetType)); ("targetId", JStr view.(ae_targetId))]
        ++ text_if "operationId" (Some view.(ae_operationId))
        ++ [("outcome", JStr (outcome_text view.(ae_outcome))); ("occurredAt", grpcTimestamp view.(ae_occurredAt))])%list.

Definition grpcMutationAccepted (m : AcceptedMutation) : json :=
  JObj [("operationId", JStr m.(am_operationId)); ("targetId", JStr m.(am_targetId));
        ("acceptedAt", grpcTimestamp m.(am_acceptedAt)); ("statusUri", JStr m.(am_statusUrl));
        ("replayed", JBool m.(am_replayed))].

Definition grpcPage {T : Type} (p : Page T) : json :=
  JObj (("limit", JNum p.(page_limit)) :: text_if "nextCursor" p.(page_nextCursor)).
Definition grpcList {T : Type} (f : T → json) (p : Page T) : json :=
  JObj [("items", JArr (map f p.(page_items))); ("page", grpcPage p)].

(** The message that answers a request. *)
Definition grpc_message (x : Response) : option json :=
  match x with
  | R_accepted m => Some (JObj [("accepted", grpcMutationAccepted m)])
  | R_quota v => Some (JObj [("quota", grpcQuota v)])
  | R_instance v => Some (JObj [("instance", grpcInstance v)])
  | R_instances p => Some (grpcList grpcInstance p)
  | R_operation v => Some (JObj [("operation", grpcOperation v)])
  | R_operations p => Some (grpcList grpcOperation p)
  | R_audit p => Some (grpcList grpcAuditEvent p)
  | R_administrative v => Some (JObj [("operation", grpcAdministrativeOperation v)])
  | R_project v => Some (JObj [("project", grpcProject v)])
  | R_images p => Some (grpcList grpcImage p)
  | R_flavors p => Some (grpcList grpcFlavor p)
  | R_networks p => Some (grpcList grpcNetwork p)
  | R_dead_letters p => Some (grpcList grpcDeadLetter p)
  | R_done | R_snapshots _ => None
  end.
