(* ===== verification/ApiSafety.v ===== *)
(** * What the control API guarantees

    A call over either transport as one transaction, and its guarantees:
    nothing changes without a verified token whose claims allow it, both
    transports perform the same request, and what a size beyond the contract
    does when it comes over gRPC. *)
From S2P Require Import Prelude JsText Json SshKey JsonParse Domain PageCursor Ipv4 WorkflowStage Events EventValidation Platform JsonOrder MessageCodec ControlDb AcceptStore AcceptCreate Control Projection ControlHistory Acceptance ReadModel Published Reads ControlPlane ApplicationSafety ControlApi ControlGrpc.
From Stdlib Require Import ZArith Lia Bool Ascii String.
From stdpp Require Import base decidable list strings gmap.
Open Scope string_scope.
Open Scope Z_scope.
Open Scope prog_scope.

(** Takes a sequence of fallible steps apart. *)
Ltac steps H := repeat (apply rbind_Ok in H as (? & ? & H)).

(** ** A call *)

Inductive ApiCall : Type :=
| Rest (h : Headers) (url : string) (r : RestRequest)
| Grpc (m : Metadata) (q : GrpcRequest).

Inductive ApiAnswer : Type :=
| Http_answer (status : Z) (x : Response)
| Http_problem (p : Problem)
| Rpc_answer (message : option json)
| Rpc_error (e : RpcException).

Definition authorization_of (k : ApiCall) : option string :=
  match k with Rest h _ _ => h.(h_authorization) | Grpc m _ => m.(md_authorization) end.

Section api.
Context `{Platform, Base64url, Casts, TokenVerifier, Pipes}.
Context (c : Call) (carrier : option TraceContext) (generated : string) (d : Drawn).

(** The guard of the REST routes, or [handleAuthenticated]; then the
    controller's handler. *)
Definition api_request (k : ApiCall) : result failure AppRequest :=
  let? a := authenticate (authorization_of k) in
  match k with Rest h _ r => rest_request d a h r | Grpc m q => grpc_request d a m q end.

(** The same application instance behind both transports. *)
Definition api_result (k : ApiCall) (s : ControlDb) : result failure Response * ControlDb :=
  match api_request k with
  | Err f => (Err f, s)
  | Ok q =>
      match withTransaction (serve c carrier generated q) s with
      | (Ok x, s') => (Ok x, s')
      | (Err e, s') => (Err (Thrown e), s')
      end
  end.
Definition render (k : ApiCall) (x : result failure Response) : ApiAnswer :=
  match k, x with
  | Rest _ _ r, Ok x => Http_answer (success_status r) x
  | Rest _ url _, Err f => Http_problem (problem url f)
  | Grpc _ _, Ok x => Rpc_answer (grpc_message x)
  | Grpc _ _, Err f => Rpc_error (rpcError f)
  end.
Definition api (k : ApiCall) (s : ControlDb) : ApiAnswer * ControlDb :=
  let '(x, s') := api_result k s in (render k x, s').

(** ** Verified callers *)

(** The call carries a bearer token the verifier accepts, whose claims are
    the subject, roles and projects of [a]. *)
Definition verified (k : ApiCall) (a : Actor) : Prop :=
  ∃ token, bearer (trim (default "" (authorization_of k))) = Some token ∧ truthy a.(subject) = true
    ∧ jwtVerify token = Some {| cl_sub := Some a.(subject); cl_roles := strings_json a.(roles);
                                cl_projects := strings_json a.(projects_) |}.

Lemma stringArray_Ok (v : json) (claim : string) (l : list string) : stringArray v claim = Ok l → v = strings_json l.
Proof.
  destruct v as [| | | | | |v|]; try done. cbn. destruct (mapM _ v) as [texts|] eqn:E; [|done]. intros [= ->].
  unfold strings_json. f_equal. apply mapM_Some in E.
  induction E as [|x y xs ys Hx _ IH]; [done|]. cbn. rewrite <- IH. f_equal. destruct x; by simplify_eq.
Qed.
Lemma stringArray_error (v : json) (claim : string) (f : failure) :
  stringArray v claim = Err f → ∃ message, f = UnauthorizedException message.
Proof. destruct v; cbn; repeat case_match; intros [=]; subst; by eexists. Qed.

Lemma authenticate_Ok (k : ApiCall) (a : Actor) : authenticate (authorization_of k) = Ok a → verified k a.
Proof.
  unfold authenticate, verified. destruct (bearer _) as [token|]; [|done].
  destruct (jwtVerify token) as [p|] eqn:Hp; [|done]. destruct (present (cl_sub p)) as [sub|] eqn:Hs; [|done].
  intros Ha. apply rbind_Ok in Ha as (roles & Hr%stringArray_Ok & Ha). apply rbind_Ok in Ha as (projects & Hj%stringArray_Ok & Ha).
  injection Ha as <-. apply present_truthy in Hs as [Hs Ht]. exists token. split_and!; [done..|]. cbn.
  rewrite <- Hr, <- Hj, <- Hs. by destruct p.
Qed.
Lemma authenticate_error (k : ApiCall) (f : failure) :
  authenticate (authorization_of k) = Err f → ∃ message, f = UnauthorizedException message.
Proof.
  unfold authenticate. destruct (bearer _) as [token|]; [|intros [= <-]; by eexists].
  destruct (jwtVerify token) as [p|]; [|intros [= <-]; by eexists].
  destruct (present (cl_sub p)); [|intros [= <-]; by eexists].
  destruct (stringArray (cl_roles p) "roles") eqn:E; cbn [rbind]; [|intros [= <-]; by eapply stringArray_error].
  destruct (stringArray (cl_projects p) "projects") eqn:E'; cbn [rbind]; [done|intros [= <-]; by eapply stringArray_error].
Qed.

(** The caller of a request. *)
Definition actor_of (q : AppRequest) : Actor :=
  match q with
  | Mutate i _ | ReplayDeadLetter i _ _ => i.(in_actor)
  | Reconcile a _ | ReadQuota a _ | ReadInstance a _ _ | ReadInstances a _ _ _ | ReadOperation a _ _ | ReadOperations a _ _ _
  | ReadSnapshots a _ _ _ _ | ReadAudit a _ _ _ | ReadAdministrative a _ | ReadProject a _ | ReadImages a _ _ _
  | ReadFlavors a _ _ _ | ReadNetworks a _ _ _ | ReadDeadLetters a _ _ => a
  end.

Lemma identity_actor (a : Actor) (project : string) (h : Headers) (i : Input) :
  mutationIdentity d a project h = Ok i → i.(in_actor) = a ∧ i.(in_projectId) = project.
Proof. unfold mutationIdentity. intros Hi. steps Hi. by injection Hi as <-. Qed.

Lemma rest_actor (a : Actor) (h : Headers) (r : RestRequest) (q : AppRequest) : rest_request d a h r = Ok q → actor_of q = a.
Proof.
  destruct r; cbn; unfold create, act, retain, create_snapshot, rollback_snapshot, delete_snapshot, purge, replay; intros Hq;
    try (destruct (negb _); [steps Hq; done|]); steps Hq;
    try (destruct (negb _); [done|]; steps Hq);
    injection Hq as <-; cbn; try done;
    match goal with Hi : mutationIdentity _ _ _ _ = Ok _ |- _ => by apply identity_actor in Hi as [Hi _] end.
Qed.
Lemma grpc_actor (a : Actor) (m : Metadata) (q' : GrpcRequest) (q : AppRequest) : grpc_request d a m q' = Ok q → actor_of q = a.
Proof.
  destruct q'; cbn; unfold createInstance, mutateInstance, replayDeadLetter; intros Hq; steps Hq; by injection Hq as <-.
Qed.

Lemma api_actor (k : ApiCall) (q : AppRequest) : api_request k = Ok q → verified k (actor_of q).
Proof.
  intros Hq. apply rbind_Ok in Hq as (a & Ha%authenticate_Ok & Hq).
  destruct k; [apply rest_actor in Hq|apply grpc_actor in Hq]; by rewrite Hq.
Qed.

(** What a caller without a verified token is told. *)
Definition unauthenticated (k : ApiCall) : ApiAnswer :=
  match k with
  | Rest _ url _ => Http_problem {| pr_type := "https://private-cloud.invalid/problems/authentication_required";
      pr_title := "AUTHENTICATION REQUIRED"; pr_status := 401; pr_detail := "The request could not be completed.";
      pr_code := "AUTHENTICATION_REQUIRED"; pr_instance := url |}
  | Grpc _ _ => Rpc_error {| rpc_code := UNAUTHENTICATED; rpc_message := "Bearer authentication failed." |}
  end.

Lemma api_refused (k : ApiCall) (s : ControlDb) : (∀ a, ¬ verified k a) → api k s = (unauthenticated k, s).
Proof.
  intros Hnone. unfold api, api_result, api_request. destruct (authenticate _) as [a|f] eqn:E.
  { by destruct (Hnone a (authenticate_Ok _ _ E)). }
  cbn [rbind]. apply authenticate_error in E as [message ->]. by destruct k.
Qed.

(** The instance rows a call leaves as they were. *)
Lemma api_rows (k : ApiCall) (s : ControlDb) (j : string) :
  (snd (api k s)).(instances) !! j ≠ s.(instances) !! j →
  ∃ q x, api_request k = Ok q ∧ serve c carrier generated q s = Ok (x, snd (api k s)).
Proof.
  unfold api, api_result. destruct (api_request k) as [q|f]; [|done]. unfold withTransaction.
  destruct (serve c carrier generated q s) as [[x s']|e] eqn:E; cbn; [|done]. by exists q, x.
Qed.

(** C1: Nothing changes without a verified caller.  Whatever the transport, the
    route and the message: a call without a bearer token that the verifier
    accepts, with a subject and well-formed claims, leaves the whole state as
    it was, and is told the same thing whatever is wrong with its token.  And
    where a call changes, adds or removes the row of an instance, its verified
    claims name a platform administrator, or a tenant developer of the project
    of that row. *)
Theorem changes_need_a_verified_caller (k : ApiCall) (s : ControlDb) :
  ((∀ a, ¬ verified k a) → api k s = (unauthenticated k, s))
  ∧ ∀ j, (snd (api k s)).(instances) !! j ≠ s.(instances) !! j →
    ∃ a, verified k a
      ∧ (administrator a = true
         ∨ ∃ row, (s.(instances) !! j = Some row ∨ (snd (api k s)).(instances) !! j = Some row)
             ∧ member a row.(i_project_id) = true).
Proof.
  split; [apply api_refused|]. intros j Hj. destruct (api_rows k s j Hj) as (q & x & Hq & Hs).
  exists (actor_of q). split; [by apply api_actor|]. revert Hs Hj. generalize (snd (api k s)). intros s' Hs Hj.
  destruct (request_access _ _ _ _ _ _ _ Hs) as [Hp Hkept].
  destruct (s.(instances) !! j) as [row|] eqn:Hrow.
  - destruct (may_change q j row) eqn:Hmay; [|by rewrite (Hkept j row Hrow Hmay) in Hj].
    destruct q as [i []|a i|i e reason|a p|a p i|a p n k'|a p o|a p n k'|a p i n k'|a f n k'|a o|a p|a p n k'|a p n k'|a p n k'|a n k']; try done; try (by left);
      right; exists row; (split; [by left|]); cbn in Hmay, Hp |- *; apply bool_decide_eq_true in Hmay; by rewrite Hmay.
  - destruct (s'.(instances) !! j) as [row|] eqn:Hrow'; [|done].
    destruct (request_creates _ _ _ _ _ _ _ _ _ Hs Hrow Hrow') as (i & k' & -> & Hproject).
    right. exists row. split; [by right|]. cbn in Hp |- *. by rewrite Hproject.
Qed.

(** ** The two transports *)

(** An identifier both transports take: a UUID, and not empty. *)
Definition identifier (v : string) : Prop := parsesUuid v = true ∧ truthy v = true.
(** The headers say what the metadata and the context of a message say. *)
Definition same_context (m : Metadata) (c : MutationContext) (h : Headers) : Prop :=
  h = {| h_authorization := m.(md_authorization); h_idempotencyKey := c.(mc_idempotencyKey);
         h_correlation := c.(mc_correlationId); h_traceparent := m.(md_traceparent); h_tracestate := m.(md_tracestate) |}.
Definition same_page (p : option MessagePage) (limit cursor : option string) : Prop :=
  cursor = pageCursor p
  ∧ ∃ n, limitQuery limit = Ok n ∧ ControlPlane.limit n = ControlPlane.limit (pageLimit p).
(** Vendor trace state comes with the trace it belongs to. *)
Definition trace_complete (m : Metadata) : Prop := present m.(md_traceparent) = None → present m.(md_tracestate) = None.

(** The same thing asked for over gRPC and over REST. *)
Inductive counterpart (m : Metadata) (h : Headers) : GrpcRequest → RestRequest → Prop :=
| both_project p : identifier p → counterpart m h (GetProject (Some {| qc_projectId := Some p |})) (GET_project p)
| both_quota p : identifier p → counterpart m h (GetProjectQuota (Some {| qc_projectId := Some p |})) (GET_quota p)
| both_images p page limit cursor :
    identifier p → same_page page limit cursor →
    counterpart m h (ListImages (Some {| qc_projectId := Some p |}) page) (GET_images p limit cursor)
| both_flavors p page limit cursor :
    identifier p → same_page page limit cursor →
    counterpart m h (ListFlavors (Some {| qc_projectId := Some p |}) page) (GET_flavors p limit cursor)
| both_networks p page limit cursor :
    identifier p → same_page page limit cursor →
    counterpart m h (ListNetworks (Some {| qc_projectId := Some p |}) page) (GET_networks p limit cursor)
| both_dead_letters page limit cursor :
    same_page page limit cursor → counterpart m h (ListDeadLetters page) (GET_dead_letters limit cursor)
| both_create msg c p image flavor network host body dto :
    msg.(cir_context) = Some c → c.(mc_projectId) = Some p → identifier p → same_context m c h →
    present c.(mc_idempotencyKey) = c.(mc_idempotencyKey) → c.(mc_idempotencyKey) ≠ None →
    msg.(cir_imageId) = Some image → msg.(cir_flavorId) = Some flavor → msg.(cir_networkId) = Some network →
    msg.(cir_hostname) = Some host → truthy image && truthy flavor && truthy network && truthy host = true →
    createBody body = Some dto →
    dto = {| dto_imageId := image; dto_flavorId := flavor; dto_networkId := network; dto_hostname := host;
             dto_sshPublicKeys := dto.(dto_sshPublicKeys) |} →
    default [] dto.(dto_sshPublicKeys) = default [] msg.(cir_sshPublicKeys) →
    counterpart m h (CreateInstanceCall msg) (POST_instance p body)
| both_power msg c p i body dto :
    msg.(mir_context) = Some c → c.(mc_projectId) = Some p → identifier p → msg.(mir_instanceId) = Some i → identifier i →
    same_context m c h → msg.(mir_resize) = None → actionBody body = Some dto →
    dto.(dto_action) = powerActionName msg.(mir_power) → dto.(dto_action) ≠ "resize" →
    counterpart m h (MutateInstanceCall msg) (POST_action p i body)
| both_resize msg c p i r body dto :
    msg.(mir_context) = Some c → c.(mc_projectId) = Some p → identifier p → msg.(mir_instanceId) = Some i → identifier i →
    same_context m c h → msg.(mir_resize) = Some r → actionBody body = Some dto → dto.(dto_action) = "resize" →
    default "" dto.(dto_resizeFlavorId) = default "" r.(ra_flavorId) → dto.(dto_diskGiB) = diskNumber r.(ra_diskGib) →
    counterpart m h (MutateInstanceCall msg) (POST_action p i body)
| both_instances p page limit cursor :
    identifier p → same_page page limit cursor →
    counterpart m h (ListInstances (Some {| qc_projectId := Some p |}) page) (GET_instances p limit cursor)
| both_instance p i : identifier p → identifier i →
    counterpart m h (GetInstance (Some {| qc_projectId := Some p |}) (Some i)) (GET_instance p i)
| both_operations p page limit cursor :
    identifier p → same_page page limit cursor →
    counterpart m h (ListOperations (Some {| qc_projectId := Some p |}) page) (GET_operations p limit cursor)
| both_operation p o : identifier p → identifier o →
    counterpart m h (GetOperation (Some {| qc_projectId := Some p |}) (Some o)) (GET_operation p o)
| both_recovery o : identifier o → counterpart m h (GetAdministrativeOperation (Some o)) (GET_admin_operation o)
| both_audit p o page limit cursor :
    same_page page limit cursor → counterpart m h (ListAuditEvents p o page) (GET_audit limit cursor p o)
| both_replay msg c e body dto :
    msg.(rdr_context) = Some c → same_context m c h → msg.(rdr_eventId) = Some e → identifier e →
    replayBody body = Some dto → msg.(rdr_reason) = Some dto.(dto_reason) → truthy dto.(dto_reason) = true →
    counterpart m h (ReplayDeadLetterCall msg) (POST_replay e body).

(** The same request, or a refusal of the same kind. *)
Definition requests_agree (x y : result failure AppRequest) : Prop :=
  match x, y with
  | Ok q, Ok q' => ∀ s, serve c carrier generated q s = serve c carrier generated q' s
  | Err (HttpException n _), Err (HttpException n' _) => n = n'
  | Err (Thrown e), Err (Thrown e') => e = e'
  | _, _ => False
  end.
Lemma requests_same (x y : result failure AppRequest) : x = y → requests_agree x y.
Proof. intros ->. by destruct y as [q|[]]. Qed.

Lemma requireField_ok (v name : string) : truthy v = true → requireField (Some v) name = Ok v.
Proof. unfold requireField, present. cbn. by intros ->. Qed.

(** Where the trace is complete, it does not matter whether the vendor state
    is checked against the caller's trace or the generated one. *)
Lemma context_agrees (m : Metadata) :
  trace_complete m →
  match requestTraceparent d.(drawn_traceparent) m.(md_traceparent) with
  | Ok parent => requestTracestate m.(md_tracestate) (Some parent) = requestTracestate m.(md_tracestate) m.(md_traceparent)
  | Err _ => True
  end.
Proof.
  intros Ht. unfold requestTraceparent. destruct (present (md_traceparent m)) as [text|] eqn:E.
  - destruct (requestTraceparentPattern text) as [[]|]; [|done]. destruct (_ || _); [done|].
    unfold requestTracestate. rewrite E. apply present_truthy in E as [_ E].
    assert (present (Some text) = Some text) as -> by (unfold present; cbn; by rewrite E). done.
  - unfold requestTracestate. by rewrite (Ht E).
Qed.

Lemma requests_agree_refl (x : result failure AppRequest) : requests_agree x x.
Proof. destruct x as [|[]]; cbn; done. Qed.

Lemma uuidParam_ok (v : string) : identifier v → uuidParam v = Ok tt.
Proof. unfold identifier, uuidParam. by intros [-> _]. Qed.
Lemma identifier_field (v name : string) : identifier v → requireField (Some v) name = Ok v.
Proof. intros [_ Hv]. by apply requireField_ok. Qed.

(** Evaluates the parameters that are known to pass. *)
Ltac params :=
  repeat match goal with
  | Hv : identifier ?v |- context [uuidParam ?v] => rewrite (uuidParam_ok v Hv)
  | Hv : identifier ?v |- context [requireField (Some ?v) ?n] => rewrite (identifier_field v n Hv)
  | |- context [rbind (Ok _) _] => progress cbn [rbind]
  end.

Lemma create_agrees (m : Metadata) (a : Actor) (msg : CreateInstanceRequest) (c' : MutationContext) (h : Headers)
    (p image flavor network host : string) (dto : CreateInstanceDto) :
  msg.(cir_context) = Some c' → c'.(mc_projectId) = Some p → identifier p → same_context m c' h →
  present c'.(mc_idempotencyKey) = c'.(mc_idempotencyKey) → c'.(mc_idempotencyKey) ≠ None →
  msg.(cir_imageId) = Some image → msg.(cir_flavorId) = Some flavor → msg.(cir_networkId) = Some network →
  msg.(cir_hostname) = Some host → truthy image && truthy flavor && truthy network && truthy host = true →
  dto = {| dto_imageId := image; dto_flavorId := flavor; dto_networkId := network; dto_hostname := host;
           dto_sshPublicKeys := dto.(dto_sshPublicKeys) |} →
  default [] dto.(dto_sshPublicKeys) = default [] msg.(cir_sshPublicKeys) →
  requests_agree (createInstance d a m msg) (create d a h p dto).
Proof.
  intros Hc Hp Hid -> Hkey Hsome Hi Hf Hn Hh Ht Hdto Hkeys. unfold createInstance, create, mutationIdentity.
  cbn [h_tracestate h_traceparent h_correlation h_idempotencyKey].
  rewrite Hc, Hi, Hf, Hn, Hh. apply andb_true_iff in Ht as [[[Ht1 Ht2]%andb_true_iff Ht3]%andb_true_iff Ht4]. cbn [mbind option_bind]. rewrite Hp.
  destruct (mc_idempotencyKey c') as [key|]; [|done]. apply present_truthy in Hkey as [_ Hkey].
  destruct Hid as [_ Hid]. rewrite !requireField_ok by done. cbn [rbind from_option id].
  destruct (requestTracestate _ _) as [state|[]]; cbn [bad rbind]; [|by cbn].
  destruct (ControlPlane.correlationId _ _) as [corr|[]]; cbn [bad rbind]; [|by cbn].
  destruct (requestTraceparent _ _) as [parent|[]]; cbn [bad rbind]; [|by cbn].
  rewrite Hdto. intros s. cbn [serve mutate dto_imageId dto_flavorId dto_networkId dto_hostname dto_sshPublicKeys].
  unfold ControlPlane.createInstance, requestHash, request_json, validateCreateInstance. cbn [ci_imageId ci_flavorId ci_networkId ci_hostname ci_sshPublicKeys imageId flavorId networkId hostname sshPublicKeys from_option id].
  by rewrite Hkeys.
Qed.

Lemma act_agrees (m : Metadata) (a : Actor) (msg : MutateInstanceRequest) (c' : MutationContext) (h : Headers) (p i : string)
    (dto : InstanceActionDto) :
  trace_complete m → msg.(mir_context) = Some c' → c'.(mc_projectId) = Some p → identifier p →
  msg.(mir_instanceId) = Some i → identifier i → same_context m c' h →
  match msg.(mir_resize) with
  | Some r => ResizeInstance i (default "" r.(ra_flavorId)) (diskNumber r.(ra_diskGib))
  | None => PowerInstance i (powerActionName msg.(mir_power))
  end
  = (if String.eqb dto.(dto_action) "resize"
     then ResizeInstance i (default "" dto.(dto_resizeFlavorId)) dto.(dto_diskGiB)
     else PowerInstance i dto.(dto_action)) →
  requests_agree (mutateInstance d a m msg) (act d a h p i dto).
Proof.
  intros Ht Hc Hp Hid Hi Hid' -> Hintent. unfold mutateInstance, act, mutationIdentity.
  cbn [h_tracestate h_traceparent h_correlation h_idempotencyKey]. rewrite Hc, Hi. cbn [mbind option_bind]. rewrite Hp. params.
  pose proof (context_agrees m Ht) as Hs. destruct (requestTraceparent _ _) as [parent|[]]; cbn [bad rbind].
  - rewrite Hs. clear Hs. destruct (requestTracestate _ _) as [state|[]]; cbn [bad rbind]; [|by cbn].
    destruct (ControlPlane.correlationId _ _) as [?|[]]; cbn [bad rbind]; [|by cbn].
    rewrite Hintent. apply requests_same. reflexivity.
  - destruct (requestTracestate _ _) as [state|[]]; cbn [bad rbind]; [|by cbn].
    destruct (ControlPlane.correlationId _ _) as [?|[]]; by cbn.
Qed.

Lemma replay_agrees (m : Metadata) (a : Actor) (msg : ReplayDeadLetterRequest) (c' : MutationContext) (h : Headers) (e : string)
    (dto : ReplayRequestDto) :
  trace_complete m → msg.(rdr_context) = Some c' → same_context m c' h → msg.(rdr_eventId) = Some e → identifier e →
  msg.(rdr_reason) = Some dto.(dto_reason) → truthy dto.(dto_reason) = true →
  requests_agree (replayDeadLetter d a m msg) (replay d a h e dto).
Proof.
  intros Ht Hc -> He Hid Hr Hreason. unfold replayDeadLetter, replay, mutationIdentity.
  cbn [h_tracestate h_traceparent h_correlation h_idempotencyKey]. rewrite Hc, He, Hr. cbn [mbind option_bind].
  rewrite (requireField_ok _ "reason") by done. params.
  pose proof (context_agrees m Ht) as Hs. destruct (requestTraceparent _ _) as [parent|[]]; cbn [bad rbind].
  - rewrite Hs. clear Hs. destruct (requestTracestate _ _) as [state|[]]; cbn [bad rbind]; [|by cbn].
    destruct (ControlPlane.correlationId _ _) as [?|[]]; by cbn.
  - destruct (requestTracestate _ _) as [state|[]]; cbn [bad rbind]; [|by cbn].
    destruct (ControlPlane.correlationId _ _) as [?|[]]; by cbn.
Qed.

(** A listing asked for with the same limit and cursor. *)
Lemma page_agrees (page : option MessagePage) (limit cursor : option string) (f : option Z → option string → AppRequest) :
  same_page page limit cursor →
  (∀ n n' k s, ControlPlane.limit n = ControlPlane.limit n' →
     serve c carrier generated (f n k) s = serve c carrier generated (f n' k) s) →
  requests_agree (Ok (f (pageLimit page) (pageCursor page))) (let? n := limitQuery limit in Ok (f n cursor)).
Proof. intros (-> & n & -> & Hn) Hf. cbn. intros s. by apply Hf. Qed.

Lemma counterpart_agrees (m : Metadata) (h : Headers) (q : GrpcRequest) (r : RestRequest) (a : Actor) :
  counterpart m h q r → trace_complete m → requests_agree (grpc_request d a m q) (rest_request d a h r).
Proof.
  intros Hq Ht. destruct Hq; cbn [grpc_request rest_request]; unfold projectOf, validated_body; cbn [mbind option_bind qc_projectId];
    params; 
    try match goal with
    | Hb : createBody _ = Some _ |- _ => rewrite Hb
    | Hb : actionBody _ = Some _ |- _ => rewrite Hb
    | Hb : replayBody _ = Some _ |- _ => rewrite Hb
    end; cbn [rbind]; try apply requests_agree_refl.
  - apply (page_agrees _ _ _ (ReadImages a p)); [done|]. intros n n' k s Hn. cbn. unfold listImages, ControlPlane.page. by rewrite Hn.
  - apply (page_agrees _ _ _ (ReadFlavors a p)); [done|]. intros n n' k s Hn. cbn. unfold listFlavors, ControlPlane.page. by rewrite Hn.
  - apply (page_agrees _ _ _ (ReadNetworks a p)); [done|]. intros n n' k s Hn. cbn. unfold listNetworks, ControlPlane.page. by rewrite Hn.
  - apply (page_agrees _ _ _ (ReadDeadLetters a)); [done|]. intros n n' k s Hn. cbn. unfold listDeadLetters, ControlPlane.page. by rewrite Hn.
  - by eapply create_agrees.
  - eapply act_agrees; try done.
    match goal with Hr : mir_resize _ = None, Ha : dto_action _ = _, Hn : dto_action _ ≠ _ |- _ =>
      rewrite Hr; apply String.eqb_neq in Hn; by rewrite Hn, Ha end.
  - eapply act_agrees; try done.
    match goal with Hr : mir_resize _ = Some _, Ha : dto_action _ = _ |- _ => rewrite Hr, Ha, String.eqb_refl end.
    by f_equal.
  - apply (page_agrees _ _ _ (ReadInstances a p)); [done|]. intros n n' k s Hn. cbn. unfold listInstances, ControlPlane.page. by rewrite Hn.
  - apply (page_agrees _ _ _ (ReadOperations a p)); [done|]. intros n n' k s Hn. cbn. unfold listOperations, ControlPlane.page. by rewrite Hn.
  - apply (page_agrees _ _ _ (ReadAudit a _)); [done|]. intros n n' k s Hn. cbn. unfold listAuditEvents, ControlPlane.page. by rewrite Hn.
  - by eapply replay_agrees.
Qed.

(** Answers that tell a caller the same thing. *)
Definition same_refusal (e : RpcException) (p : Problem) : Prop :=
  (e.(rpc_code) = UNAUTHENTICATED ↔ p.(pr_status) = 401)
  ∧ (e.(rpc_code) = PERMISSION_DENIED ↔ p.(pr_status) = 403)
  ∧ (e.(rpc_code) = NOT_FOUND ↔ p.(pr_status) = 404)
  ∧ (e.(rpc_code) = RESOURCE_EXHAUSTED ↔ p.(pr_code) = "QUOTA_EXCEEDED")
  ∧ (e.(rpc_code) = ABORTED ↔ p.(pr_code) = "INSTANCE_BUSY")
  ∧ (e.(rpc_code) = ALREADY_EXISTS → p.(pr_status) = 409)
  ∧ (e.(rpc_code) = INTERNAL →
       e.(rpc_message) = "Internal service error." ∧ p.(pr_status) = 500 ∧ p.(pr_detail) = "An internal error occurred.").
Definition same_answer (x y : ApiAnswer) : Prop :=
  match x, y with
  | Rpc_answer message, Http_answer _ r => message = grpc_message r
  | Rpc_error e, Http_problem p => same_refusal e p
  | _, _ => False
  end.

Lemma http_refusal (url : string) (n : Z) (message message' : string) :
  same_refusal (rpcError (HttpException n message)) (problem url (HttpException n message')).
Proof.
  unfold same_refusal. cbn -[STATUS_BY_HTTP_CODE codeByStatus]. unfold STATUS_BY_HTTP_CODE, codeByStatus.
  repeat match goal with |- context [?a =? ?b] => destruct (Z.eqb_spec a b); [subst; cbn; by split_and!; intros|] end.
  destruct (Z.eqb_spec n 413); cbn; split_and!; try split; intros; congruence.
Qed.
Lemma thrown_refusal (url : string) (e : error) : same_refusal (rpcError (Thrown e)) (problem url (Thrown e)).
Proof. unfold same_refusal. destruct e as [[]|]; cbn; by split_and!; intros. Qed.

(** C6: REST and gRPC do the same with what REST takes.  Let a gRPC call and a
    REST call ask for the same thing with the same token, in identifiers that
    are UUIDs, with a page size both understand, with a body the validation of
    the REST route accepts and the fields of which the message holds, and with
    vendor trace state only beside a trace.  Then both commit the same state:
    the same operation under the same identity, or nothing.  Both answer with
    the same view or acceptance, or refuse for the same reason: not
    authenticated, not permitted, not found, over quota, busy, conflicting, or
    failed inside, which neither explains.  Outside these conditions they
    differ: REST refuses a body its validation rejects where gRPC may go on (a
    disk of more than 2048 GiB, say), and two gRPC mutations take trace state
    without a trace ([trace_state_without_a_trace]). *)
Theorem transports_agree (m : Metadata) (h : Headers) (url : string) (q : GrpcRequest) (r : RestRequest) (s : ControlDb)
    (Hq : counterpart m h q r) (Ha : h.(h_authorization) = m.(md_authorization)) (Ht : trace_complete m) :
  snd (api (Grpc m q) s) = snd (api (Rest h url r) s)
  ∧ same_answer (fst (api (Grpc m q) s)) (fst (api (Rest h url r) s)).
Proof.
  unfold api, api_result, api_request. cbn [authorization_of]. rewrite Ha.
  destruct (authenticate _) as [a|[n message|e]] eqn:E; cbn [rbind];
    [|split; [done|apply http_refusal]|split; [done|apply thrown_refusal]].
  pose proof (counterpart_agrees m h q r a Hq Ht) as Hr.
  destruct (grpc_request d a m q) as [x|[n message|e]], (rest_request d a h r) as [y|[n' message'|e']]; try done; cbn in Hr.
  - unfold withTransaction. rewrite Hr. destruct (serve _ _ _ y s) as [[z s']|e]; cbn; [done|]. split; [done|apply thrown_refusal].
  - subst. split; [done|]. apply http_refusal.
  - subst. split; [done|]. apply thrown_refusal.
Qed.

(** ** A size beyond the contract *)

Lemma resize_request (a : Actor) (m : Metadata) (msg : MutateInstanceRequest) (r : ResizeAction) (q : AppRequest) :
  msg.(mir_resize) = Some r → mutateInstance d a m msg = Ok q →
  ∃ i instance, msg.(mir_instanceId) = Some instance
    ∧ q = Mutate i (ResizeInstance instance (default "" r.(ra_flavorId)) (diskNumber r.(ra_diskGib))).
Proof.
  intros Hr Hq. unfold mutateInstance in Hq. rewrite Hr in Hq.
  apply rbind_Ok in Hq as (parent & _ & Hq). apply rbind_Ok in Hq as (state & _ & Hq). apply rbind_Ok in Hq as (p & _ & Hq).
  apply rbind_Ok in Hq as (i & Hi & Hq). apply rbind_Ok in Hq as (corr & _ & Hq). injection Hq as <-.
  unfold requireField in Hi. destruct (present (mir_instanceId msg)) as [x|] eqn:E; [|done]. injection Hi as ->.
  apply present_truthy in E as [E _]. by do 2 eexists.
Qed.

(** C7: A size beyond the contract is taken over gRPC and never carried out.
    The REST body is held to 2048 GiB; a gRPC resize is not.  Where such a
    resize is accepted, either it is the replay of an earlier one, or its
    command is published and the guard of the orchestrator refuses it, so no
    workflow of it exists; and through every later history in which no
    completion or failure of that instance is projected, which only a workflow
    publishes, the instance stays busy with that operation and can be neither
    changed nor deleted. *)
Theorem oversized_resize_strands_the_instance (m : Metadata) (msg : MutateInstanceRequest) (r : ResizeAction) (n : Z)
    (s : ControlDb) (message : option json)
    (Hresize : msg.(mir_resize) = Some r) (Hn : diskNumber r.(ra_diskGib) = Some n) (Hbig : 2048 < n)
    (Haccepted : fst (api (Grpc m (MutateInstanceCall msg)) s) = Rpc_answer message) :
  let s' := snd (api (Grpc m (MutateInstanceCall msg)) s) in
  s' = s
  ∨ ∃ i e, msg.(mir_instanceId) = Some i ∧ commands s' = (commands s ++ [e])%list
      ∧ workflowActionForSchema e.(envelope).(schemaName) = Some resize_instance
      ∧ COMMAND_VALIDATORS dateParses resize_instance e = false
      ∧ ∀ later, Forall (λ ct, ¬ settles i (snd ct)) later →
          ∃ row, (run later s').(instances) !! i = Some row ∧ row.(i_active_operation_id) = Some e.(envelope).(operationId).
Proof.
  revert Haccepted. unfold api, api_result, api_request. cbn [authorization_of].
  destruct (authenticate _) as [a|]; cbn [rbind grpc_request]; [|done].
  destruct (mutateInstance d a m msg) as [q|] eqn:Hq; [|done].
  destruct (resize_request a m msg r q Hresize Hq) as (i & instance & Hi & ->). rewrite Hn. cbn [serve]. unfold answer, withTransaction.
  destruct (tbind _ _ s) as [[x s1]|] eqn:Hs; [|done]. intros _. cbn [snd].
  apply tbind_Ok in Hs as (y & s2 & Hy & [= _ <-]). rewrite mutate_accept in Hy.
  destruct (admission generated i _) as [mu|] eqn:Hm; [|done]. apply accept_inv in Hy.
  unfold admission in Hm. apply rbind_Ok in Hm as (? & _ & Hm). apply rbind_Ok in Hm as (? & _ & Hm). injection Hm as <-.
  inversion Hy as [? rec Hk Hh Hp|? j row w role url action reason event id Hk Hj Hrow Had Hw op o acc s3 Ho Hpo|]; subst; [by left|right].
  cbn in Hj. injection Hj as <-. inversion Hw as [|? ? ? fl quota Hfl Hquota Hfits| | | |]; subst.
  do 2 eexists. split; [exact Hi|]. split.
  { unfold commands. cbn. rewrite !omap_app. cbn. by rewrite app_nil_r. }
  split; [reflexivity|]. split; [by eapply oversized_refused; [reflexivity|cbn; lia]|]. intros later Hlater.
  eapply busy_through; [exact Hlater|cbn; by rewrite lookup_alter_eq, Hrow|reflexivity].
Qed.
End api.

(** ** The trace of a gRPC mutation *)

Section trace.
Context (d : Drawn).

(** The guard that vendor state needs a trace is evaded by the two gRPC
    mutations that pass it the generated trace: a call with [tracestate] and no
    [traceparent] is refused by CreateInstance, and taken by MutateInstance with
    the caller's vendor state attached to a trace the caller never saw. *)
Theorem trace_state_without_a_trace (a : Actor) (m : Metadata) (state : string) (i : Input) (q : Intent)
    (creation : CreateInstanceRequest) (mutation : MutateInstanceRequest)
    (Hparent : m.(md_traceparent) = None) (Hstate : m.(md_tracestate) = Some state) (Ht : truthy state = true)
    (Hq : mutateInstance d a m mutation = Ok (Mutate i q)) :
  createInstance d a m creation = Err (BadRequestException "Tracestate requires a traceparent header.")
  ∧ i.(in_traceparent) = d.(drawn_traceparent) ∧ i.(in_tracestate) = Some state.
Proof.
  assert (Hs : present (Some state) = Some state) by (unfold present; cbn; by rewrite Ht). split.
  - unfold createInstance. rewrite Hparent, Hstate. unfold requestTracestate. by rewrite Hs.
  - unfold mutateInstance in Hq. rewrite Hparent, Hstate in Hq. unfold requestTraceparent in Hq. cbn [present mbind option_bind bad rbind] in Hq.
    apply rbind_Ok in Hq as (st & Hst & Hq). steps Hq. injection Hq as <- _. cbn. split; [done|].
    unfold requestTracestate in Hst. rewrite Hs in Hst. destruct (present (Some (drawn_traceparent d))); [|done].
    destruct (_ || _); [done|]. injection Hst as <-. exact Hs.
Qed.
End trace.

(** ** Concrete calls *)

Definition sample_verifier : TokenVerifier :=
  {| jwtVerify token :=
       if String.eqb token "good"
       then Some {| cl_sub := Some "alice"; cl_roles := strings_json ["tenant_developer"]; cl_projects := strings_json ["p1"] |}
       else None |}.
Definition text_of (v : json) : option string := match v with JStr s => Some s | _ => None end.
Definition sample_pipes : Pipes :=
  {| parsesUuid := truthy; parsesInt := Number_integer;
     createBody v := match v with
       | JObj o => i ← text_of (field "imageId" o); f ← text_of (field "flavorId" o); n ← text_of (field "networkId" o);
           h ← text_of (field "hostname" o);
           Some {| dto_imageId := i; dto_flavorId := f; dto_networkId := n; dto_hostname := h; dto_sshPublicKeys := None |}
       | _ => None end;
     actionBody v := match v with
       | JObj o => a ← text_of (field "action" o);
           Some {| dto_action := a; dto_resizeFlavorId := text_of (field "flavorId" o); dto_diskGiB := None |}
       | _ => None end;
     snapshotBody _ := None; rollbackBody _ := None; purgeBody _ := None; replayBody _ := None |}.
Definition sample_drawn : Drawn :=
  {| drawn_correlation := "3f2504e0-4f89-41d3-9a0c-0305e82c3301";
     drawn_traceparent := "00-0af7651916cd43dd8448eb211c80319c-b7ad6b7169203331-01" |}.
Definition sample_metadata : Metadata :=
  {| md_authorization := Some "Bearer good"; md_traceparent := None; md_tracestate := None |}.
Definition sample_context (key : string) : MutationContext :=
  {| mc_projectId := Some "p1"; mc_idempotencyKey := Some key; mc_correlationId := None |}.
Definition sample_headers (key : string) : Headers :=
  {| h_authorization := Some "Bearer good"; h_idempotencyKey := Some key; h_correlation := None; h_traceparent := None;
     h_tracestate := None |}.

Definition sample_creation_call (key : string) : GrpcRequest :=
  CreateInstanceCall {| cir_context := Some (sample_context key); cir_imageId := Some "img"; cir_flavorId := Some "small";
    cir_networkId := Some "net"; cir_hostname := Some "web"; cir_sshPublicKeys := None |}.
Definition sample_creation_post : RestRequest :=
  POST_instance "p1" (JObj [("imageId", JStr "img"); ("flavorId", JStr "small"); ("networkId", JStr "net"); ("hostname", JStr "web")]).

Definition sample_casts : Casts := {| timestamptz := Number_integer; uuid_cast := Some; collates := String.ltb |}.
(** The sample services behind the API, at an instant. *)
Definition sample_api (t : Z) (k : ApiCall) (s : ControlDb) : ApiAnswer * ControlDb :=
  api (H := sample_platform) (H2 := sample_verifier) (H3 := sample_pipes) (H0 := sample_base64url) (H1 := sample_casts)
    (sample_call t) None "" sample_drawn k s.

Lemma transports_agree_witness :
  let over_grpc := sample_api 1 (Grpc sample_metadata (sample_creation_call "key-0001")) empty_control in
  let over_rest := sample_api 1 (Rest (sample_headers "key-0001") "/v1/projects/p1/instances" sample_creation_post) empty_control in
  snd over_grpc = snd over_rest ∧ same_answer (fst over_grpc) (fst over_rest)
  ∧ size (snd over_rest).(instances) = 1%nat.
Proof.
  intros over_grpc over_rest.
  assert (Hq : counterpart (H3 := sample_pipes) sample_metadata (sample_headers "key-0001") (sample_creation_call "key-0001") sample_creation_post).
  { eapply (both_create (H3 := sample_pipes)); cbn; try reflexivity; try done. }
  destruct (transports_agree (H := sample_platform) (H2 := sample_verifier) (H3 := sample_pipes) (H0 := sample_base64url) (H1 := sample_casts)
    (sample_call 1) None "" sample_drawn sample_metadata (sample_headers "key-0001") "/v1/projects/p1/instances"
    (sample_creation_call "key-0001") sample_creation_post empty_control Hq eq_refl) as [H1 H2]; [done|].
  split; [exact H1|]. split; [exact H2|]. vm_compute. reflexivity.
Defined.

(** An active instance of a project with room for a large disk. *)
Definition roomy_catalog : Catalog :=
  let k := sample_catalog in
  {| projects := k.(projects); images := k.(images); provider_profiles := k.(provider_profiles); flavors := k.(flavors);
     networks := k.(networks); retention_policy := k.(retention_policy);
     quotas := {[ "p1" := {| qt_instances := 2; qt_cpu_count := 8; qt_memory_mib := 8192; qt_disk_gib := 100000;
                             qt_ipv4_addresses := 2; qt_snapshots := 1 |} ]} |}.
Definition roomy_db : ControlDb :=
  run (H := sample_platform)
    [create_step 1 "p1" "k1"; event_step 2 "e1" "1-0" "1-1" "p1" (completed_data create_instance "active")]
    {| catalog := roomy_catalog; instances := ∅; operations := ∅; ipv4_leases := ∅; snapshots := ∅;
       idempotency_records := ∅; control_outbox := []; control_audit := []; control_replays := ∅; p_instances := ∅;
       p_operations := ∅; p_snapshots := ∅; p_dead_letters := ∅; event_receipts := ∅; p_poison := ∅ |}.
Definition oversized_call : MutateInstanceRequest :=
  {| mir_context := Some (sample_context "key-0002"); mir_instanceId := Some "1-0"; mir_power := None;
     mir_resize := Some {| ra_flavorId := Some "small"; ra_diskGib := Some "4096" |} |}.

Lemma oversized_resize_strands_the_instance_witness :
  let x := sample_api 3 (Grpc sample_metadata (MutateInstanceCall oversized_call)) roomy_db in
  (∃ message, fst x = Rpc_answer message)
  ∧ ∃ e, commands (snd x) = (commands roomy_db ++ [e])%list
      ∧ COMMAND_VALIDATORS (dateParses (Platform := sample_platform)) resize_instance e = false
      ∧ ∃ row, (snd x).(instances) !! "1-0" = Some row ∧ row.(i_active_operation_id) = Some e.(envelope).(operationId).
Proof.
  intros x. assert (Hx : ∃ message, fst x = Rpc_answer message) by (eexists; vm_compute; reflexivity).
  split; [exact Hx|]. destruct Hx as [message Hx].
  destruct (oversized_resize_strands_the_instance (H := sample_platform) (H2 := sample_verifier) (H3 := sample_pipes)
    (H0 := sample_base64url) (H1 := sample_casts) (sample_call 3) None "" sample_drawn sample_metadata oversized_call
    {| ra_flavorId := Some "small"; ra_diskGib := Some "4096" |} 4096 roomy_db message eq_refl eq_refl eq_refl Hx)
    as [Hsame|(i & e & Hi & Hc & _ & Hv & Hbusy)].
  - exfalso. apply (f_equal (λ s, List.length s.(control_outbox))) in Hsame. by vm_compute in Hsame.
  - injection Hi as <-. exists e. split_and!; [exact Hc|exact Hv|]. destruct (Hbusy [] (Forall_nil_2 _)) as (row & Hrow & Ho).
    exists row. split; [exact Hrow|exact Ho].
Defined.
