(* ===== verification/ConsoleClient.v ===== *)
(** * The console's client of the control plane

    [apps/console-web/src/app/data]: the derived idempotency keys
    ([idempotency.ts]), the mutations of [api.ts], and the reading of problem
    documents ([problem.ts]).  The pages, the query cache and the polling of
    the browser are left out. *)
From S2P Require Import Prelude JsText Json JsonOrder SshKey Domain Platform.
From Stdlib Require Import ZArith Lia Bool Ascii String.
From stdpp Require Import base decidable list strings.
Open Scope string_scope.
Open Scope Z_scope.
Open Scope prog_scope.

(** ** Idempotency keys *)

(** Entries sorted by key, by code units; the sort is stable. *)
Fixpoint insert_text (e : string * string) (l : list (string * string)) : list (string * string) :=
  match l with
  | [] => [e]
  | x :: r => if String.leb (fst e) (fst x) then e :: l else x :: insert_text e r
  end.
Definition sort_texts_by_key (l : list (string * string)) : list (string * string) := List.fold_right insert_text [] l.

(** The members' texts are computed before the sort, which looks at the keys
    alone. *)
Fixpoint canonicalJson (v : json) : string :=
  match v with
  | JArr l => "[" ++ join_with "," (map canonicalJson l) ++ "]"
  | JObj fields =>
      "{" ++ join_with "," (map (λ e, quote (fst e) ++ ":" ++ snd e)
        (sort_texts_by_key
          (omap (λ p, if is_undefined (snd p) then None else Some (fst p, canonicalJson (snd p))) fields))) ++ "}"
  | _ => default "null" (stringify v)
  end.

Definition MINIMUM_LENGTH : Z := 8.
Definition MAXIMUM_LENGTH : Z := 128.
(** [/^[A-Za-z0-9._:-]+$/]. *)
Definition KEY_PATTERN (s : string) : bool :=
  truthy s && all_chars (λ c, is_alnum c || is_char "." c || is_char "_" c || is_char ":" c || is_char "-" c) s.

Inductive client_error : Set := ClientError (message : string).

Record KeyInput : Type := {
  ki_action : string; ki_projectId : string; ki_targetId : option string; ki_body : option json }.

Definition key_material (k : KeyInput) : string :=
  canonicalJson (JObj [("action", JStr k.(ki_action)); ("projectId", JStr k.(ki_projectId));
    ("targetId", from_option JStr JNull k.(ki_targetId)); ("body", default JNull k.(ki_body))]).

Definition idempotencyKey `{Platform} (k : KeyInput) : result client_error string :=
  let key := "console." ++ k.(ki_action) ++ "." ++ String.substring 0 32 (sha256 (key_material k)) in
  if (js_length key <? MINIMUM_LENGTH) || (MAXIMUM_LENGTH <? js_length key) || negb (KEY_PATTERN key)
  then Err (ClientError ("Derived an unusable idempotency key: " ++ key)) else Ok key.

(** ** Mutations *)

Inductive InstanceActionBody : Set :=
| PowerBody (action : PowerAction)
| ResizeBody (flavorId : string) (diskGiB : option Z).
Definition action_of_body (b : InstanceActionBody) : string :=
  match b with PowerBody a => power_action_text a | ResizeBody _ _ => "resize" end.
Definition action_json (b : InstanceActionBody) : json :=
  match b with
  | PowerBody a => JObj [("action", JStr (power_action_text a))]
  | ResizeBody flavor disk =>
      JObj (("action", JStr "resize") :: ("flavorId", JStr flavor) ::
            match disk with Some n => [("diskGiB", JNum n)] | None => [] end)
  end.

(** The mutations of the client. *)
Inductive ClientMutation : Type :=
| createInstance (body : json)
| actOnInstance (instanceId : string) (body : InstanceActionBody)
| retainInstance (instanceId : string)
| createSnapshot (instanceId : string) (body : json)
| rollbackSnapshot (instanceId snapshotId : string)
| deleteSnapshot (instanceId snapshotId : string).

(** The input of [mutate]. *)
Record MutateInput : Type := {
  mi_action : string; mi_path : string; mi_method : string; mi_targetId : option string; mi_body : option json }.

Definition mutation_input (u : ClientMutation) : MutateInput :=
  match u with
  | createInstance body =>
      {| mi_action := "create-instance"; mi_path := "/instances"; mi_method := "POST"; mi_targetId := None;
         mi_body := Some body |}
  | actOnInstance i b =>
      {| mi_action := "instance-" ++ action_of_body b; mi_path := "/instances/" ++ i ++ "/actions"; mi_method := "POST";
         mi_targetId := Some i; mi_body := Some (action_json b) |}
  | retainInstance i =>
      {| mi_action := "retain-instance"; mi_path := "/instances/" ++ i; mi_method := "DELETE"; mi_targetId := Some i;
         mi_body := None |}
  | createSnapshot i body =>
      {| mi_action := "create-snapshot"; mi_path := "/instances/" ++ i ++ "/snapshots"; mi_method := "POST";
         mi_targetId := Some i; mi_body := Some body |}
  | rollbackSnapshot i s =>
      {| mi_action := "rollback-snapshot"; mi_path := "/instances/" ++ i ++ "/snapshots/" ++ s ++ "/actions";
         mi_method := "POST"; mi_targetId := Some s; mi_body := Some (JObj [("action", JStr "rollback")]) |}
  | deleteSnapshot i s =>
      {| mi_action := "delete-snapshot"; mi_path := "/instances/" ++ i ++ "/snapshots/" ++ s; mi_method := "DELETE";
         mi_targetId := Some s; mi_body := None |}
  end.

(** What is sent. *)
Record ClientRequest : Type := {
  sent_url : string; sent_method : string; sent_key : string; sent_body : option string }.

(** [projectId] is the project the session configured. *)
Definition mutate `{Platform} (projectId : string) (input : MutateInput) : result client_error ClientRequest :=
  let? key := idempotencyKey {| ki_action := input.(mi_action); ki_projectId := projectId;
                                ki_targetId := input.(mi_targetId); ki_body := input.(mi_body) |} in
  Ok {| sent_url := "/v1/projects/" ++ projectId ++ input.(mi_path); sent_method := input.(mi_method);
        sent_key := key; sent_body := b ← input.(mi_body); stringify b |}.

(** ** Problems *)

Definition transportProblem (status : Z) (title detail : string) : json :=
  JObj [("type", JStr "about:blank"); ("title", JStr title);
        ("status", JNum (if (400 <=? status) && (status <=? 599) then status else 500));
        ("code", JStr "INTERNAL_ERROR"); ("detail", JStr detail); ("traceId", JStr (of_chars (repeat "0"%char 32)))].

(** [body] is what [response.json()] gives, [None] where it throws. *)
Definition readProblem (status : Z) (statusText : string) (body : option json) : json :=
  let title := if truthy statusText then statusText else "Request failed" in
  match body with
  | None => transportProblem status title "The response carried no problem document."
  | Some (JObj fields) =>
      if forallb (λ k, bool_decide (k ∈ map fst fields)) ["code"; "title"; "status"] then JObj fields
      else transportProblem status title (js_String (JObj fields))
  | Some v => transportProblem status title (js_String v)
  end.

Definition member_of (v : json) (name : string) : json := match v with JObj o => field name o | _ => JUndefined end.
Definition isAuthenticationProblem (problem : json) : bool :=
  match member_of problem "code" with JStr c => String.eqb c "AUTHENTICATION_REQUIRED" | _ => false end
  || match member_of problem "status" with JNum n => n =? 401 | _ => false end.
Definition isRetryable (problem : json) : bool :=
  match member_of problem "code" with
  | JStr c => bool_decide (c ∈ ["INSTANCE_BUSY"; "RATE_LIMITED"; "DEPENDENCY_UNAVAILABLE"])
  | _ => false
  end.

(** ** The canonical form *)

Lemma insert_text_map (g : json → string) (e : string * json) (l : list (string * json)) :
  map (λ p, (fst p, g (snd p))) (insert_entry String.leb e l)
  = insert_text (fst e, g (snd e)) (map (λ p, (fst p, g (snd p))) l).
Proof. induction l as [|x l IH]; [done|]. cbn. destruct (String.leb _ _); cbn; [done|]. by rewrite IH. Qed.
Lemma sort_texts_map (g : json → string) (l : list (string * json)) :
  map (λ p, (fst p, g (snd p))) (sort_entries String.leb l) = sort_texts_by_key (map (λ p, (fst p, g (snd p))) l).
Proof.
  induction l as [|x l IH]; [done|]. change (sort_entries String.leb (x :: l)) with (insert_entry String.leb x (sort_entries String.leb l)).
  by rewrite insert_text_map, IH.
Qed.

(** The text of a value that is not [undefined]. *)
Definition text_value (v : json) : string := default "null" (stringify v).

Lemma canonical_defined (before : string → string → bool) (v : json) : is_undefined (canonicalValue before v) = is_undefined v.
Proof. by destruct v. Qed.
Lemma stringify_defined (v : json) : is_undefined v = false → stringify v = Some (text_value v).
Proof. by destruct v. Qed.

Lemma sorted_defined (l : list (string * json)) :
  Forall (λ p, is_undefined (snd p) = false) l → Forall (λ p, is_undefined (snd p) = false) (sort_entries String.leb l).
Proof.
  induction 1 as [|x l Hx _ IH]; [constructor|].
  change (sort_entries String.leb (x :: l)) with (insert_entry String.leb x (sort_entries String.leb l)).
  induction IH as [|y r Hy Hr IHr]; cbn; [by repeat constructor|]. destruct (String.leb _ _); by repeat constructor.
Qed.

(** The console's canonical text of a value is the server's canonical text of
    it ([canonicalJson] of the domain package), under a collation by code
    units. *)
Theorem console_canonical_form : ∀ v, canonicalJson v = default "null" (Json.canonicalJson String.leb v).
Proof.
  fix IH 1. intros v. destruct v as [| | | | | |l|fields]; try reflexivity.
  - cbn. do 2 f_equal. f_equal. rewrite map_map. induction l as [|x l IHl]; [done|]. cbn. by rewrite IH, IHl.
  - unfold Json.canonicalJson. cbn [canonicalValue stringify from_option id]. cbn [canonicalJson]. do 4 f_equal.
    set (kept := omap (λ p, if is_undefined (snd p) then None else Some (fst p, canonicalValue String.leb (snd p))) fields).
    assert (Hkept : Forall (λ p, is_undefined (snd p) = false) kept).
    { unfold kept. clear kept. induction fields as [|[k x] fields IHf]; [constructor|]. cbn.
      destruct (is_undefined x) eqn:E; cbn; [done|]. constructor; [cbn; by rewrite canonical_defined|done]. }
    assert (Htexts : omap (λ p, if is_undefined (snd p) then None else Some (fst p, canonicalJson (snd p))) fields
                     = map (λ p, (fst p, text_value (snd p))) kept).
    { unfold kept. clear kept Hkept. induction fields as [|[k x] fields IHf]; [done|]. cbn.
      destruct (is_undefined x); cbn; [done|]. rewrite IHf. do 2 f_equal. apply IH. }
    rewrite Htexts, <- sort_texts_map, map_map. apply sorted_defined in Hkept. revert Hkept. generalize (sort_entries String.leb kept).
    induction 1 as [|[k x] r Hx _ IHr]; [done|]. cbn in *. by rewrite (stringify_defined _ Hx), IHr.
Qed.

(** ** Keys *)

Section keys.
Context `{Platform}.
(** A digest is written in 64 hexadecimal digits. *)
Hypothesis hex : ∀ s, String.length (sha256 s) = 64%nat ∧ all_chars is_hex_digit (sha256 s) = true.

(** The actions of the client. *)
Lemma action_text (u : ClientMutation) :
  KEY_PATTERN (mutation_input u).(mi_action) = true ∧ js_length (mutation_input u).(mi_action) ≤ 64.
Proof. destruct u as [|? [[]|]| | | |]; by vm_compute. Qed.

Lemma prefix_chars (P : ascii → bool) (n : nat) (s : string) :
  all_chars P s = true → all_chars P (String.substring 0 n s) = true.
Proof.
  revert n. induction s as [|c s IH]; intros [|n]; try done. cbn. intros [Hc Hs]%andb_true_iff. rewrite Hc. by apply IH.
Qed.
Lemma prefix_length (n : nat) (s : string) : (n ≤ String.length s)%nat → String.length (String.substring 0 n s) = n.
Proof. revert n. induction s as [|c s IH]; intros [|n] Hn; cbn in *; try lia. by rewrite IH by lia. Qed.
Lemma append_length (a b : string) : String.length (a ++ b) = (String.length a + String.length b)%nat.
Proof. induction a as [|x a IH]; [done|]. change (String x a ++ b) with (String x (a ++ b)). cbn. by rewrite IH. Qed.
Lemma append_chars (P : ascii → bool) (a b : string) : all_chars P (a ++ b) = all_chars P a && all_chars P b.
Proof.
  induction a as [|x a IH]; [done|]. change (String x a ++ b) with (String x (a ++ b)).
  change (P x && all_chars P (a ++ b) = P x && all_chars P a && all_chars P b). by rewrite IH, andb_assoc.
Qed.
Lemma hex_alnum (c : ascii) : is_hex_digit c = true → is_alnum c = true.
Proof.
  unfold is_hex_digit, is_alnum, is_upper, is_lower, in_range. intros [[->|Hu]%orb_true_iff|Hl]%orb_true_iff; [done|..].
  - apply andb_true_iff in Hu as [H1%Z.leb_le H2%Z.leb_le]. rewrite (proj2 (Z.leb_le 65 _)), (proj2 (Z.leb_le _ 90)) by lia.
    by rewrite orb_true_r.
  - apply andb_true_iff in Hl as [H1%Z.leb_le H2%Z.leb_le]. rewrite (proj2 (Z.leb_le 97 _)), (proj2 (Z.leb_le _ 122)) by lia.
    by rewrite orb_true_r.
Qed.
Lemma chars_weaken (P Q : ascii → bool) (s : string) : (∀ c, P c = true → Q c = true) → all_chars P s = true → all_chars Q s = true.
Proof. intros HPQ. unfold all_chars. rewrite !forallb_forall. auto. Qed.

(** Every mutation of the client gets a key, of a length the API takes: the
    check at the end of [idempotencyKey] never throws. *)
Theorem keys_are_usable (projectId : string) (u : ClientMutation) :
  ∃ x, mutate projectId (mutation_input u) = Ok x ∧ 8 ≤ js_length x.(sent_key) ≤ 128.
Proof using All.
  unfold mutate, idempotencyKey. cbn [ki_action]. set (digest := sha256 _).
  destruct (hex (key_material {| ki_action := mi_action (mutation_input u); ki_projectId := projectId;
    ki_targetId := mi_targetId (mutation_input u); ki_body := mi_body (mutation_input u) |})) as [Hlength Hhex].
  fold digest in Hlength, Hhex. destruct (action_text u) as [Hpattern Hshort].
  set (action := mi_action (mutation_input u)) in *. clearbody digest action.
  set (key := "console." ++ action ++ "." ++ String.substring 0 32 digest).
  assert (Hkey : js_length key = 41 + js_length action).
  { unfold key, js_length in *. rewrite !append_length, prefix_length by lia. cbn. lia. }
  assert (0 ≤ js_length action) by (unfold js_length; lia).
  assert (Hall : KEY_PATTERN key = true).
  { unfold KEY_PATTERN in *. apply andb_true_iff in Hpattern as [_ Hpattern]. apply andb_true_iff. split; [done|].
    unfold key. rewrite !append_chars, Hpattern. cbn -[String.substring]. apply prefix_chars. revert Hhex. apply chars_weaken.
    intros x ->%hex_alnum. done. }
  assert (js_length key <? MINIMUM_LENGTH = false) as -> by (apply Z.ltb_ge; unfold MINIMUM_LENGTH; lia).
  assert (MAXIMUM_LENGTH <? js_length key = false) as -> by (apply Z.ltb_ge; unfold MAXIMUM_LENGTH; lia).
  rewrite Hall. cbn [orb negb rbind]. eexists. split; [reflexivity|]. cbn [sent_key]. lia.
Qed.
End keys.
