(* ===== verification/ConsoleRetry.v ===== *)
(** * The console's keys against the server's

    The console derives an idempotency key from what is asked for and nothing
    else, and the server binds a key for ever: the mutations of the client,
    sent to the control API, and what becomes of one that is asked for twice. *)
From S2P Require Import Prelude JsText Json SshKey JsonParse Domain PageCursor Ipv4 WorkflowStage Events EventValidation Platform JsonOrder MessageCodec ControlDb AcceptStore AcceptCreate Control Projection ControlHistory Acceptance ReadModel Published Reads ControlPlane ApplicationSafety ControlApi ControlGrpc ApiSafety ConsoleClient.
From Stdlib Require Import ZArith Lia Bool Ascii String.
From stdpp Require Import base decidable list strings gmap.
Open Scope string_scope.
Open Scope Z_scope.
Open Scope prog_scope.

(** The route a mutation's path and method select. *)
Definition routed (project : string) (u : ClientMutation) : RestRequest :=
  match u with
  | createInstance body => POST_instance project body
  | actOnInstance i b => POST_action project i (action_json b)
  | retainInstance i => DELETE_instance project i
  | createSnapshot i body => POST_snapshot project i body
  | rollbackSnapshot i s => POST_snapshot_action project i s (JObj [("action", JStr "rollback")])
  | deleteSnapshot i s => DELETE_snapshot project i s
  end.
(** The request as the API gets it, with the token of the session. *)
Definition delivered (token project : string) (u : ClientMutation) (x : ClientRequest) : ApiCall :=
  Rest {| h_authorization := Some ("Bearer " ++ token); h_idempotencyKey := Some x.(sent_key); h_correlation := None;
          h_traceparent := None; h_tracestate := None |} x.(sent_url) (routed project u).

Section retry.
Context `{Platform, Base64url, Casts, TokenVerifier, Pipes}.

(** Inputs that name the same caller, project and key. *)
Definition same_identity (i i2 : Input) : Prop :=
  i.(in_actor) = i2.(in_actor) ∧ i.(in_projectId) = i2.(in_projectId) ∧ i.(in_idempotencyKey) = i2.(in_idempotencyKey).

Lemma identity_again (d d2 : Drawn) (a : Actor) (project : string) (key auth : option string) :
  let h := {| h_authorization := auth; h_idempotencyKey := key; h_correlation := None; h_traceparent := None;
              h_tracestate := None |} in
  ∃ i, mutationIdentity d a project h = Ok i ∧ ∃ i2, mutationIdentity d2 a project h = Ok i2 ∧ same_identity i i2.
Proof. eexists. split; [reflexivity|]. eexists. by split. Qed.

Lemma request_again (d d2 : Drawn) (a : Actor) (token project : string) (u : ClientMutation) (x : ClientRequest) (h : Headers) (q : AppRequest) :
  h = {| h_authorization := Some ("Bearer " ++ token); h_idempotencyKey := Some x.(sent_key); h_correlation := None;
         h_traceparent := None; h_tracestate := None |} →
  rest_request d a h (routed project u) = Ok q →
  ∃ i i2 n, q = Mutate i n ∧ rest_request d2 a h (routed project u) = Ok (Mutate i2 n) ∧ same_identity i i2
    ∧ match n with PurgeInstance _ _ _ => False | _ => True end.
Proof.
  intros -> Hq.
  destruct (identity_again d d2 a project (Some (sent_key x)) (Some ("Bearer " ++ token))) as (i & Hi & i2 & Hi2 & Hsame).
  destruct u as [body|? b|?|? body|? ?|? ?]; cbn [routed rest_request] in *; steps Hq;
    repeat match goal with Ha : uuidParam _ = Ok _ |- _ => rewrite Ha; cbn [rbind]; clear Ha
      | Ha : validated_body _ _ = Ok _ |- _ => rewrite Ha; cbn [rbind]; clear Ha end;
    unfold create, act, retain, create_snapshot, rollback_snapshot, delete_snapshot in *;
    try (destruct (negb _); [done|]);
    try match goal with Hm : mutationIdentity d _ _ _ = Ok _, Hq' : Ok _ = Ok q |- _ =>
      rewrite Hi in Hm; injection Hm as <- end;
    try (rewrite Hi in Hq); rewrite Hi2; cbn [rbind] in *; injection Hq as <-; do 3 eexists;
    (split_and!; [reflexivity|reflexivity|exact Hsame|repeat case_match; done]).
Qed.

Lemma admission_again (g g2 : string) (i i2 : Input) (n : Intent) (m : Mutation) :
  same_identity i i2 → match n with PurgeInstance _ _ _ => False | _ => True end → admission g i n = Ok m →
  ∃ m2, admission g2 i2 n = Ok m2 ∧ confirmed m2.
Proof.
  intros (Ha & Hp & Hk) Hn. unfold admission. rewrite Ha, Hp, Hk. intros Hm. destruct n; try done; steps Hm; injection Hm as <-;
    repeat match goal with He : _ = Ok _ |- context [?e] => rewrite He; cbn [rbind]; clear He end;
    eexists; (split; [reflexivity|]); exact I.
Qed.

(** C4: Repeating an action through the console never performs it again.  Once
    a mutation of the console's client has been accepted, the same action on
    the same target, asked for at any later time by the same user and after any
    history of other transactions, carries the key of the first; it is answered
    as accepted, with the first operation marked as replayed, and changes
    nothing.  So a server that was started and then stopped is never started
    again through the console, and an action that failed is never retried. *)
Theorem repeated_action_is_never_performed (c c2 : Call) (carrier carrier2 : option TraceContext) (generated generated2 : string)
    (d d2 : Drawn) (token token2 project : string) (u : ClientMutation) (x x2 : ClientRequest) (s s' : ControlDb) (status : Z)
    (m : AcceptedMutation) (later : list (Call * Transaction))
    (Hsent : mutate project (mutation_input u) = Ok x) (Hagain : mutate project (mutation_input u) = Ok x2)
    (Hfirst : api c carrier generated d (delivered token project u x) s = (Http_answer status (R_accepted m), s'))
    (Huser : authenticate (Some ("Bearer " ++ token2)) = authenticate (Some ("Bearer " ++ token))) :
  api c2 carrier2 generated2 d2 (delivered token2 project u x2) (run later s')
  = (Http_answer status (R_accepted (replay_of m)), run later s').
Proof.
  rewrite Hsent in Hagain. injection Hagain as <-. revert Hfirst.
  unfold api, api_result, api_request, delivered. cbn [authorization_of h_authorization]. rewrite Huser. clear Huser.
  destruct (authenticate _) as [a|] eqn:Ea; cbn [rbind]; [|by cbn].
  destruct (rest_request d a _ _) as [q|] eqn:Hq; [|by cbn].
  destruct (request_again d d2 a token project u x _ q eq_refl Hq) as (i & i2 & n & -> & Hq2 & Hsame & Hn).
  assert (Hheaders : rest_request d2 a {| h_authorization := Some ("Bearer " ++ token2); h_idempotencyKey := Some x.(sent_key);
      h_correlation := None; h_traceparent := None; h_tracestate := None |} (routed project u) = Ok (Mutate i2 n)).
  { rewrite <- Hq2. by destruct u. }
  rewrite Hheaders. unfold withTransaction at 1. cbn [serve]. unfold answer at 1.
  destruct (tbind _ _ s) as [[y s1]|] eqn:Hs; [|done]. intros [= <- -> ->].
  apply tbind_Ok in Hs as (b & s2 & Hb & [= -> ->]).
  pose proof Hb as Hadmit. rewrite mutate_accept in Hadmit. destruct (admission generated i n) as [mu|] eqn:Hm; [|done].
  destruct (admission_again _ generated2 i i2 n mu Hsame Hn Hm) as (m2 & Hm2 & Hconfirmed).
  destruct Hsame as (Hactor & Hproject & Hkey).
  assert (Hr : same_request i n i2 n).
  { split; [by rewrite Hactor|]. split; [by destruct n|]. by destruct n. }
  assert (Hk : same_key i n i2 n) by (split_and!; congruence).
  pose proof (repeated_request c carrier generated c2 carrier2 generated2 i i2 n n m2 s s' m later Hb Hk Hm2 Hconfirmed) as Hrep.
  rewrite (same_request_hash _ _ _ _ Hr), String.eqb_refl in Hrep. unfold withTransaction in Hrep |- *. cbn [serve]. unfold answer, tbind.
  destruct (ControlPlane.mutate c2 carrier2 generated2 i2 n (run later s')) as [[b2 s2]|]; [|done]. injection Hrep as -> ->. done.
Qed.
End retry.

(** ** Start, stop, start *)

(** Text in hexadecimal: enough of a digest to evaluate. *)
Definition hex_digit (n : Z) : ascii := of_unit (if n <? 10 then n + 48 else n + 87).
Definition hex_text (s : string) : string :=
  List.fold_right (λ c acc, String (hex_digit (unit_of c / 16)) (String (hex_digit (unit_of c mod 16)) acc)) "" (chars s).
Definition hex_platform : Platform :=
  {| localeBefore := String.ltb; sha256 := hex_text; toISOString := string_of_Z; dateParses s := truthy s;
     zeroRowUpdateThrows := false |}.
Definition console_api (t : Z) (k : ApiCall) (s : ControlDb) : ApiAnswer * ControlDb :=
  api (H := hex_platform) (H2 := sample_verifier) (H3 := sample_pipes) (H0 := sample_base64url) (H1 := sample_casts)
    (sample_call t) None "" sample_drawn k s.

Definition start_it : ClientMutation := actOnInstance "1-0" (PowerBody start).
Definition start_sent : ClientRequest :=
  match mutate (H := hex_platform) "p1" (mutation_input start_it) with
  | Ok x => x
  | Err _ => {| sent_url := ""; sent_method := ""; sent_key := ""; sent_body := None |}
  end.
(** An active instance; its first start through the console; the completion of
    that start, a stop asked for elsewhere, and the completion of the stop. *)
Definition idle_db : ControlDb :=
  run (H := hex_platform)
    [create_step 1 "p1" "k1"; event_step 2 "e1" "1-0" "1-1" "p1" (completed_data create_instance "active")] empty_control.
Definition started : ApiAnswer * ControlDb := console_api 3 (delivered "good" "p1" start_it start_sent) idle_db.
Definition then_stopped : list (Call * Transaction) :=
  [event_step 4 "e2" "1-0" "3-0" "p1" (completed_data power_instance "active");
   (sample_call 5, Accept (Power "1-0" stop) (sample_request "p1" "k-stop") "hash");
   event_step 6 "e3" "1-0" "5-0" "p1" (completed_data power_instance "active")].
Definition accepted_of (x : ApiAnswer) : AcceptedMutation :=
  match x with
  | Http_answer _ (R_accepted m) => m
  | _ => {| am_operationId := ""; am_targetId := ""; am_acceptedAt := 0; am_statusUrl := ""; am_replayed := false |}
  end.

Lemma repeated_action_is_never_performed_witness :
  let stopped := run (H := hex_platform) then_stopped (snd started) in
  console_api 7 (delivered "good" "p1" start_it start_sent) stopped
  = (Http_answer 202 (R_accepted (replay_of (accepted_of (fst started)))), stopped)
  ∧ (i_desired_power_state <$> (snd started).(instances) !! "1-0") = Some "running"
  ∧ (i_desired_power_state <$> stopped.(instances) !! "1-0") = Some "stopped"
  ∧ (i_active_operation_id <$> stopped.(instances) !! "1-0") = Some None.
Proof.
  intros stopped. split; [|vm_compute; by split_and!].
  assert (Hsent : mutate (H := hex_platform) "p1" (mutation_input start_it) = Ok start_sent) by (vm_compute; reflexivity).
  assert (Hfirst : started = (Http_answer 202 (R_accepted (accepted_of (fst started))), snd started)).
  { assert (Hanswer : fst started = Http_answer 202 (R_accepted (accepted_of (fst started)))) by (vm_compute; reflexivity).
    rewrite <- Hanswer. apply surjective_pairing. }
  exact (repeated_action_is_never_performed (H := hex_platform) (H2 := sample_verifier) (H3 := sample_pipes)
    (H0 := sample_base64url) (H1 := sample_casts) (sample_call 3) (sample_call 7) None None "" "" sample_drawn sample_drawn
    "good" "good" "p1" start_it start_sent start_sent idle_db (snd started) 202 (accepted_of (fst started)) then_stopped
    Hsent Hsent Hfirst eq_refl).
Defined.
