(* ===== verification/EventCodec.v ===== *)
(** * The wire form of workflow events

    An event is one JSON document between the two services: the orchestrator
    serializes its typed event into the outbox, and the control API casts the
    parsed document back after the guards of [event-validation.ts] accepted it.
    The guards are proved to be exactly the contract's bounds on the typed
    event, and reading to be the inverse of writing. *)
From S2P Require Import Prelude JsText Json SshKey Domain Ipv4 WorkflowStage Events EventValidation Platform JsonParse JsonOrder MessageCodec ProviderPort WorkflowStore ControlDb Projection.
From Stdlib Require Import ZArith Lia Bool Btauto Ascii String.
From stdpp Require Import base decidable list strings gmap.
Open Scope string_scope.
Open Scope Z_scope.
Open Scope prog_scope.

(** ** Enumerated texts *)

Definition OPERATION_STATES : list (string * OperationState) :=
  [("running", running); ("retry_wait", retry_wait); ("compensating", compensating);
   ("unknown_outcome", unknown_outcome)].
Definition FAILURE_CATEGORIES : list (string * EventFailureCategory) :=
  [("validation", cat_validation); ("authorization", cat_authorization); ("conflict", cat_conflict);
   ("transient", cat_transient); ("permanent", cat_permanent); ("unknown_outcome", cat_unknown_outcome);
   ("compensation_failure", cat_compensation_failure); ("manual_review", cat_manual_review)].
Definition COMPENSATION_STATES : list (string * CompensationState) :=
  [("not_required", not_required); ("pending", pending); ("succeeded", comp_succeeded); ("failed", comp_failed);
   ("unsafe", unsafe)].
Definition OBSERVED_POWERS : list (string * ObservedPower) :=
  [("running", observed_running); ("stopped", observed_stopped); ("suspended", observed_suspended);
   ("unknown", observed_unknown)].
Definition REPLAY_OUTCOMES : list (string * ReplayOutcome) :=
  [("completed", replay_completed); ("rejected", replay_rejected)].
Definition compensation_text (c : CompensationState) : string :=
  match c with
  | not_required => "not_required" | pending => "pending" | comp_succeeded => "succeeded" | comp_failed => "failed"
  | unsafe => "unsafe"
  end.
Definition power_text (p : ObservedPower) : string :=
  match p with
  | observed_running => "running" | observed_stopped => "stopped" | observed_suspended => "suspended"
  | observed_unknown => "unknown"
  end.
Definition replay_outcome_text (o : ReplayOutcome) : string :=
  match o with replay_completed => "completed" | replay_rejected => "rejected" end.

(** The schema an event's payload is sent under. *)
Definition schema_of (d : EventData) : string :=
  match d with
  | WorkflowProgressed _ => "workflow.progressed"
  | MutationCompleted _ => "instance.mutation.completed"
  | MutationFailed _ => "instance.mutation.failed"
  | ReplayResolved _ => "provisioning.replay.resolved"
  | DeadLettered _ => "provisioning.dead_lettered"
  end.

Section codec.
Context `{Platform, Runtime}.

(** ** Writing: [JSON.stringify] *)

(** Members that are [undefined] are not written. *)
Definition written (l : list (string * json)) : json := JObj (List.filter (λ p, negb (is_undefined (snd p))) l).
Definition text_or_absent (o : option string) : json := match o with Some s => JStr s | None => JUndefined end.
Definition date_json (t : Z) : json := JStr (toISOString t).
(** [NaN] is written [null]. *)
Definition number_json (n : option Z) : json := match n with Some n => JNum n | None => JNull end.

Definition failure_json (f : Failure) : json :=
  written [("category", JStr (category_text f.(category))); ("code", JStr f.(code));
           ("safeMessage", JStr f.(safeMessage));
           ("retryAfterMilliseconds", match f.(retryAfterMilliseconds) with Some n => JNum n | None => JUndefined end)].
Definition resources_json (r : ObservedResources) : json :=
  written [("cpuCount", JNum r.(observed_cpu)); ("memoryMiB", number_json r.(observed_memory));
           ("diskGiB", number_json r.(observed_disk))].
Definition observed_json (o : ObservedState) : json :=
  written [("exists", JBool o.(state_exists)); ("powerState", JStr (power_text o.(state_powerState)));
           ("resources", match o.(state_resources) with Some r => resources_json r | None => JUndefined end);
           ("markerMatch", JBool o.(state_markerMatch)); ("observedAt", date_json o.(state_observedAt))].
Definition event_data_json (d : EventData) : json :=
  match d with
  | WorkflowProgressed d =>
      written [("stage", JStr d.(progressed_stage)); ("attempt", JNum d.(progressed_attempt));
               ("operationState", JStr (operation_state_text d.(progressed_operationState)));
               ("providerTaskReference", text_or_absent d.(progressed_providerTaskReference));
               ("nextActionAt", match d.(progressed_nextActionAt) with Some t => date_json t | None => JUndefined end)]
  | MutationCompleted d =>
      written [("action", JStr (action_text d.(completed_action)));
               ("lifecycleState", JStr d.(completed_lifecycleState));
               ("providerResourceId", text_or_absent d.(completed_providerResourceId));
               ("evidenceId", JStr d.(completed_evidenceId));
               ("observed", match d.(completed_observed) with Some o => observed_json o | None => JUndefined end)]
  | MutationFailed d =>
      written [("action", JStr (action_text d.(failed_action))); ("failure", failure_json d.(failed_failure));
               ("compensationState", JStr (compensation_text d.(failed_compensationState)))]
  | ReplayResolved d =>
      written [("replayRequestId", JStr d.(resolved_replayRequestId));
               ("originalEventId", JStr d.(resolved_originalEventId));
               ("outcome", JStr (replay_outcome_text d.(resolved_outcome)));
               ("replayGeneration", JNum d.(resolved_replayGeneration));
               ("resolvedAt", date_json d.(resolved_resolvedAt))]
  | DeadLettered d =>
      written [("originalEventId", JStr d.(dead_originalEventId));
               ("originalSchemaName", JStr d.(dead_originalSchemaName));
               ("originalSchemaVersion", JNum d.(dead_originalSchemaVersion));
               ("failure", failure_json d.(dead_failure)); ("attempts", JNum d.(dead_attempts));
               ("replayAllowed", JBool d.(dead_replayAllowed)); ("deadLetteredAt", date_json d.(dead_deadLetteredAt))]
  end.
(** The document of a typed event. *)
Definition event_record (e : WorkflowEvent) : record :=
  {| envelope := e.(envelope); data := event_data_json e.(data) |}.

(** ** Reading: the cast

    [None] where a member is not of the contract's type.  The guards exclude
    that but for one case: their [String(value)] also accepts an array of one
    admissible text. *)

Definition enum {A : Type} (l : list (string * A)) (v : json) : option A :=
  match v with JStr s => lookup_text s l | _ => None end.
Definition date_of (v : json) : option Z := match v with JStr s => Date_parse s | _ => None end.
Definition read_optional {A : Type} (f : json → option A) (v : json) : option (option A) :=
  if is_undefined v then Some None else Some <$> f v.
Definition truth_of (v : json) : bool := match v with JBool b => b | _ => false end.

Definition read_failure (v : json) : option Failure :=
  o ← objectValue v;
  c ← enum FAILURE_CATEGORIES (field "category" o);
  Some {| category := c; code := text_field "code" o; safeMessage := text_field "safeMessage" o;
          retryAfterMilliseconds := as_number (field "retryAfterMilliseconds" o) |}.
Definition read_resources (v : json) : option ObservedResources :=
  o ← objectValue v;
  cpu ← as_number (field "cpuCount" o);
  Some {| observed_cpu := cpu; observed_memory := as_number (field "memoryMiB" o);
          observed_disk := as_number (field "diskGiB" o) |}.
Definition read_observed (v : json) : option ObservedState :=
  o ← objectValue v;
  p ← enum OBSERVED_POWERS (field "powerState" o);
  r ← read_optional read_resources (field "resources" o);
  t ← date_of (field "observedAt" o);
  Some {| state_exists := truth_of (field "exists" o); state_powerState := p; state_resources := r;
          state_markerMatch := truth_of (field "markerMatch" o); state_observedAt := t |}.
Definition read_dead_lettered (v : json) : option DeadLetteredData :=
  o ← objectValue v;
  f ← read_failure (field "failure" o);
  version ← as_number (field "originalSchemaVersion" o);
  tries ← as_number (field "attempts" o);
  t ← date_of (field "deadLetteredAt" o);
  Some {| dead_originalEventId := text_field "originalEventId" o;
          dead_originalSchemaName := text_field "originalSchemaName" o; dead_originalSchemaVersion := version;
          dead_failure := f; dead_attempts := tries; dead_replayAllowed := truth_of (field "replayAllowed" o);
          dead_deadLetteredAt := t |}.
Definition read_progressed (v : json) : option ProgressedData :=
  o ← objectValue v;
  attempt ← as_number (field "attempt" o);
  state ← enum OPERATION_STATES (field "operationState" o);
  next ← read_optional date_of (field "nextActionAt" o);
  Some {| progressed_stage := text_field "stage" o; progressed_attempt := attempt;
          progressed_operationState := state;
          progressed_providerTaskReference := as_string (field "providerTaskReference" o);
          progressed_nextActionAt := next |}.
Definition read_completed (v : json) : option CompletedData :=
  o ← objectValue v;
  action ← enum WORKFLOW_ACTIONS (field "action" o);
  observed ← read_optional read_observed (field "observed" o);
  Some {| completed_action := action; completed_lifecycleState := text_field "lifecycleState" o;
          completed_providerResourceId := as_string (field "providerResourceId" o);
          completed_evidenceId := text_field "evidenceId" o; completed_observed := observed |}.
Definition read_failed (v : json) : option FailedData :=
  o ← objectValue v;
  action ← enum WORKFLOW_ACTIONS (field "action" o);
  f ← read_failure (field "failure" o);
  c ← enum COMPENSATION_STATES (field "compensationState" o);
  Some {| failed_action := action; failed_failure := f; failed_compensationState := c |}.
Definition read_resolved (v : json) : option ReplayResolvedData :=
  o ← objectValue v;
  outcome ← enum REPLAY_OUTCOMES (field "outcome" o);
  generation ← as_number (field "replayGeneration" o);
  t ← date_of (field "resolvedAt" o);
  Some {| resolved_replayRequestId := text_field "replayRequestId" o;
          resolved_originalEventId := text_field "originalEventId" o; resolved_outcome := outcome;
          resolved_replayGeneration := generation; resolved_resolvedAt := t |}.
Definition read_data (schema : string) (v : json) : option EventData :=
  if String.eqb schema "workflow.progressed" then WorkflowProgressed <$> read_progressed v
  else if String.eqb schema "instance.mutation.completed" then MutationCompleted <$> read_completed v
  else if String.eqb schema "instance.mutation.failed" then MutationFailed <$> read_failed v
  else if String.eqb schema "provisioning.replay.resolved" then ReplayResolved <$> read_resolved v
  else if String.eqb schema "provisioning.dead_lettered" then DeadLettered <$> read_dead_lettered v
  else None.
(** [event as WorkflowEvent]. *)
Definition typed_event (r : record) : option WorkflowEvent :=
  d ← read_data r.(envelope).(schemaName) r.(data);
  Some {| envelope := r.(envelope); data := d |}.
End codec.

(** A member reads as it was written. *)
Lemma field_written (k : string) (l : list (string * json)) :
  NoDup (map fst l) → field k (List.filter (λ p, negb (is_undefined (snd p))) l) = field k l.
Proof.
  induction l as [|[k' v] l IH]; cbn [map fst]; [done|]. intros [Hk Hl]%NoDup_cons. cbn [List.filter snd].
  destruct (is_undefined v) eqn:Hv; cbn [negb].
  - rewrite IH by done. unfold field at 2. cbn. destruct (String.eqb_spec k' k) as [<-|]; [|done]. cbn.
    destruct v; try done. by apply field_absent.
  - unfold field. cbn. destruct (String.eqb k' k); [done|]. by apply IH.
Qed.
Lemma onlyKeys_written (allowed : list string) (l : list (string * json)) :
  onlyKeys l allowed = true → onlyKeys (List.filter (λ p, negb (is_undefined (snd p))) l) allowed = true.
Proof.
  unfold onlyKeys. induction l as [|[k v] l IH]; cbn; [done|]. intros [Hk Hl]%andb_true_iff.
  destruct (is_undefined v); cbn; [by apply IH|]. by rewrite Hk, IH.
Qed.
Lemma field_head (k : string) (v : json) (l : list (string * json)) : field k ((k, v) :: l) = v.
Proof. unfold field. cbn. by rewrite String.eqb_refl. Qed.
Lemma field_next (k k' : string) (v : json) (l : list (string * json)) :
  String.eqb k' k = false → field k ((k', v) :: l) = field k l.
Proof. unfold field. cbn. by intros ->. Qed.
(** The members of a document as they were written. *)
Ltac as_written :=
  unfold text_field; cbn [objectValue mbind option_bind written];
  repeat match goal with |- context [field ?k (List.filter ?p ?l)] =>
    rewrite (field_written k l) by (cbn [map fst]; apply (bool_decide_unpack _); reflexivity) end;
  repeat match goal with |- context [onlyKeys (List.filter ?p ?l) ?a] =>
    rewrite (onlyKeys_written a l) by reflexivity end;
  repeat first [rewrite field_head | rewrite field_next by reflexivity].

(** ** Members in any order *)

#[export] Instance enum_same {A : Type} (l : list (string * A)) : Proper (same_content ==> eq) (enum l).
Proof. intros v v' []; reflexivity. Qed.
#[export] Instance as_number_same : Proper (same_content ==> eq) as_number.
Proof. intros v v' []; reflexivity. Qed.
#[export] Instance as_string_same : Proper (same_content ==> eq) as_string.
Proof. intros v v' []; reflexivity. Qed.
#[export] Instance truth_of_same : Proper (same_content ==> eq) truth_of.
Proof. intros v v' []; reflexivity. Qed.
#[export] Instance positiveInteger_same : Proper (same_content ==> eq) positiveInteger.
Proof. intros v v' []; reflexivity. Qed.
#[export] Instance isBoolean_same : Proper (same_content ==> eq) isBoolean.
Proof. intros v v' []; reflexivity. Qed.
#[export] Instance isWorkflowAction_same : Proper (same_content ==> eq) isWorkflowAction.
Proof. intros v v' []; reflexivity. Qed.
#[export] Instance isInstanceLifecycleState_same : Proper (same_content ==> eq) isInstanceLifecycleState.
Proof. intros v v' []; reflexivity. Qed.

(** Every access to a member of [o], turned into one to its reordering. *)
Ltac reaccess Hm :=
  let access p k := (rewrite (p _ _ (same_field _ _ Hm k))) in
  repeat match goal with
  | |- context [enum ?l (field ?k ?o)] => match type of Hm with same_members o _ => access (enum_same l) k end
  | |- context [as_number (field ?k ?o)] => match type of Hm with same_members o _ => access as_number_same k end
  | |- context [as_string (field ?k ?o)] => match type of Hm with same_members o _ => access as_string_same k end
  | |- context [truth_of (field ?k ?o)] => match type of Hm with same_members o _ => access truth_of_same k end
  | |- context [json_text (field ?k ?o)] => match type of Hm with same_members o _ => access json_text_same k end
  | |- context [positiveInteger (field ?k ?o)] => match type of Hm with same_members o _ => access positiveInteger_same k end
  | |- context [isBoolean (field ?k ?o)] => match type of Hm with same_members o _ => access isBoolean_same k end
  | |- context [isWorkflowAction (field ?k ?o)] =>
      match type of Hm with same_members o _ => access isWorkflowAction_same k end
  | |- context [isInstanceLifecycleState (field ?k ?o)] =>
      match type of Hm with same_members o _ => access isInstanceLifecycleState_same k end
  end.
Ltac same_reader :=
  let Hv := fresh in let o := fresh "o" in let o' := fresh "o'" in let Hm := fresh "Hm" in
  intros v v' Hv; destruct (same_objectValue _ _ Hv) as [[? ?]|(o & o' & -> & -> & Hm)];
  [repeat match goal with E : objectValue ?w = None |- context [objectValue ?w] => rewrite E end; reflexivity|];
  cbn [objectValue mbind option_bind]; unfold text_field; reaccess Hm.

Section reading.
Context `{Platform, Runtime}.

#[export] Instance date_of_same : Proper (same_content ==> eq) date_of.
Proof. intros v v' []; reflexivity. Qed.
Lemma read_optional_same {A : Type} (f : json → option A) :
  Proper (same_content ==> eq) f → Proper (same_content ==> eq) (read_optional f).
Proof. intros Hf v v' Hv. unfold read_optional. by rewrite (is_undefined_same _ _ Hv), (Hf _ _ Hv). Qed.

#[export] Instance read_failure_same : Proper (same_content ==> eq) read_failure.
Proof. unfold read_failure. same_reader. reflexivity. Qed.
#[export] Instance read_resources_same : Proper (same_content ==> eq) read_resources.
Proof. unfold read_resources. same_reader. reflexivity. Qed.
#[export] Instance read_observed_same : Proper (same_content ==> eq) read_observed.
Proof.
  unfold read_observed. same_reader.
  by rewrite (date_of_same _ _ (same_field _ _ Hm "observedAt")),
    (read_optional_same _ read_resources_same _ _ (same_field _ _ Hm "resources")).
Qed.
#[export] Instance read_dead_lettered_same : Proper (same_content ==> eq) read_dead_lettered.
Proof.
  unfold read_dead_lettered. same_reader.
  by rewrite (date_of_same _ _ (same_field _ _ Hm "deadLetteredAt")),
    (read_failure_same _ _ (same_field _ _ Hm "failure")).
Qed.
#[export] Instance read_progressed_same : Proper (same_content ==> eq) read_progressed.
Proof.
  unfold read_progressed. same_reader.
  by rewrite (read_optional_same _ date_of_same _ _ (same_field _ _ Hm "nextActionAt")).
Qed.
#[export] Instance read_completed_same : Proper (same_content ==> eq) read_completed.
Proof.
  unfold read_completed. same_reader.
  by rewrite (read_optional_same _ read_observed_same _ _ (same_field _ _ Hm "observed")).
Qed.
#[export] Instance read_failed_same : Proper (same_content ==> eq) read_failed.
Proof. unfold read_failed. same_reader. by rewrite (read_failure_same _ _ (same_field _ _ Hm "failure")). Qed.
#[export] Instance read_resolved_same : Proper (same_content ==> eq) read_resolved.
Proof. unfold read_resolved. same_reader. by rewrite (date_of_same _ _ (same_field _ _ Hm "resolvedAt")). Qed.

Lemma typed_event_same (r r' : record) : same_record r r' → typed_event r = typed_event r'.
Proof.
  intros [He Hd]. unfold typed_event, read_data. rewrite He. repeat case_match; try done.
  - by rewrite (read_progressed_same _ _ Hd).
  - by rewrite (read_completed_same _ _ Hd).
  - by rewrite (read_failed_same _ _ Hd).
  - by rewrite (read_resolved_same _ _ Hd).
  - by rewrite (read_dead_lettered_same _ _ Hd).
Qed.

(** ** Reading what was written *)

(** The dates of a payload survive being written and parsed. *)
Definition dated (t : Z) : Prop := Date_parse (toISOString t) = Some t.
Definition event_dates (d : EventData) : list Z :=
  match d with
  | WorkflowProgressed d => option_list d.(progressed_nextActionAt)
  | MutationCompleted d => option_list (state_observedAt <$> d.(completed_observed))
  | MutationFailed _ => []
  | ReplayResolved d => [d.(resolved_resolvedAt)]
  | DeadLettered d => [d.(dead_deadLetteredAt)]
  end.

Lemma enum_action (a : WorkflowAction) : enum WORKFLOW_ACTIONS (JStr (action_text a)) = Some a.
Proof. by destruct a. Qed.
Lemma failure_back (f : Failure) : read_failure (failure_json f) = Some f.
Proof. unfold read_failure, failure_json. as_written. by destruct f as [[] k m [n|]]. Qed.
Lemma resources_back (r : ObservedResources) : read_resources (resources_json r) = Some r.
Proof. unfold read_resources, resources_json. as_written. by destruct r as [c [m|] [d|]]. Qed.
Lemma observed_back (o : ObservedState) : dated o.(state_observedAt) → read_observed (observed_json o) = Some o.
Proof.
  intros Ht. unfold read_observed, observed_json. as_written. unfold date_json, date_of. rewrite Ht.
  destruct o as [e p [r|] k t]; cbn -[read_optional resources_json read_resources];
    unfold read_optional; cbn -[resources_json read_resources]; rewrite ?resources_back; by destruct p.
Qed.

Lemma event_back (d : EventData) :
  Forall dated (event_dates d) → read_data (schema_of d) (event_data_json d) = Some d.
Proof.
  intros Ht. destruct d as [d|d|d|d|d]; cbn in Ht;
    unfold read_data, read_progressed, read_completed, read_failed, read_resolved, read_dead_lettered, schema_of;
    cbn [String.eqb Ascii.eqb Bool.eqb];
    unfold event_data_json; as_written; rewrite ?enum_action, ?failure_back; unfold read_optional, date_of, date_json.
  - destruct d as [st at_ [] [tr|] [t|]]; cbn in Ht |- *; try done; apply Forall_cons in Ht as [Ht _]; by rewrite Ht.
  - destruct d as [a l p ev [o|]]; [|by destruct p]. cbn in Ht. apply Forall_cons in Ht as [Ht _].
    cbn -[read_observed observed_json]. rewrite (observed_back o Ht). by destruct p.
  - by destruct d as [a f []].
  - apply Forall_cons in Ht as [Ht _]. rewrite Ht. by destruct d as [q e [] g t].
  - apply Forall_cons in Ht as [Ht _]. rewrite Ht. by destruct d.
Qed.
End reading.

(** ** The contract's bounds *)

Section bounds.
Context `{Platform, Runtime}.

Definition in_bounds (n minimum maximum : Z) : bool := isSafeInteger n && (minimum <=? n) && (n <=? maximum).
Definition lengthy (s : string) (minimum maximum : Z) : bool := (minimum <=? js_length s) && (js_length s <=? maximum).
Definition optionally {A : Type} (p : A → bool) (o : option A) : bool := match o with Some a => p a | None => true end.
Definition resources_ok (r : ObservedResources) : bool :=
  in_bounds r.(observed_cpu) 1 64 && optionally (λ n, in_bounds n 512 262144) r.(observed_memory)
  && optionally (λ n, in_bounds n 8 2048) r.(observed_disk)
  && bool_decide (is_Some r.(observed_memory)) && bool_decide (is_Some r.(observed_disk)).
Definition failure_ok (f : Failure) : bool :=
  lengthy f.(code) 1 80 && lengthy f.(safeMessage) 0 512
  && optionally (λ n, in_bounds n 1 86400000) f.(retryAfterMilliseconds).
Definition iso_ok (t : Z) : bool := dateParses (toISOString t).
Definition event_ok (d : EventData) : bool :=
  match d with
  | WorkflowProgressed d =>
      lengthy d.(progressed_stage) 1 80 && positiveInteger (JNum d.(progressed_attempt))
      && optionally (λ s, lengthy s 0 256) d.(progressed_providerTaskReference)
      && optionally iso_ok d.(progressed_nextActionAt)
  | MutationCompleted d =>
      bool_decide (d.(completed_lifecycleState) ∈ INSTANCE_LIFECYCLE_STATES)
      && optionally (λ s, lengthy s 1 128) d.(completed_providerResourceId) && uuidPattern d.(completed_evidenceId)
      && optionally (λ o, iso_ok o.(state_observedAt) && optionally resources_ok o.(state_resources)) d.(completed_observed)
  | MutationFailed d => failure_ok d.(failed_failure)
  | ReplayResolved d =>
      uuidPattern d.(resolved_replayRequestId) && uuidPattern d.(resolved_originalEventId)
      && (isSafeInteger d.(resolved_replayGeneration) && (0 <=? d.(resolved_replayGeneration)))
      && iso_ok d.(resolved_resolvedAt)
  | DeadLettered d =>
      uuidPattern d.(dead_originalEventId) && lengthy d.(dead_originalSchemaName) 1 120
      && positiveInteger (JNum d.(dead_originalSchemaVersion))
      && failure_ok d.(dead_failure) && positiveInteger (JNum d.(dead_attempts)) && iso_ok d.(dead_deadLetteredAt)
  end.

(** The guard of the payload's schema. *)
Definition guard_of (d : EventData) : record → bool :=
  match d with
  | WorkflowProgressed _ => isWorkflowProgressedV1 dateParses
  | MutationCompleted _ => isInstanceMutationCompletedV1 dateParses
  | MutationFailed _ => isInstanceMutationFailedV1
  | ReplayResolved _ => isProvisioningReplayResolvedV1 dateParses
  | DeadLettered _ => isProvisioningDeadLetteredV1 dateParses
  end.
(** The envelope a guard wants. *)
Definition headed_event (e : WorkflowEvent) : Prop :=
  e.(envelope).(schemaName) = schema_of e.(data) ∧ e.(envelope).(schemaVersion) = 1
  ∧ e.(envelope).(aggregateType) = "instance".

Lemma state_guard (o : OperationState) :
  includes_text (JStr (operation_state_text o)) ["running"; "retry_wait"; "compensating"; "unknown_outcome"] = true.
Proof. by destruct o. Qed.
Lemma action_guard (a : WorkflowAction) : isWorkflowAction (JStr (action_text a)) = true.
Proof. by destruct a. Qed.
Lemma outcome_guard (o : ReplayOutcome) :
  (String.eqb (replay_outcome_text o) "completed" || String.eqb (replay_outcome_text o) "rejected") = true.
Proof. by destruct o. Qed.
Lemma compensation_guard (k : CompensationState) :
  includes_text (JStr (compensation_text k)) ["not_required"; "pending"; "succeeded"; "failed"; "unsafe"] = true.
Proof. by destruct k. Qed.
Lemma failure_guard (f : Failure) : failureObject (failure_json f) = failure_ok f.
Proof. unfold failureObject, failure_json. as_written. by destruct f as [[] k m [n|]]. Qed.
Lemma resources_guard (r : ObservedResources) :
  match objectValue (resources_json r) with Some o => sizing_object o | None => false end = resources_ok r.
Proof.
  unfold sizing_object, resources_json. as_written. unfold resources_ok.
  destruct r as [c [m|] [d|]]; cbn; unfold in_bounds; btauto.
Qed.
Lemma observed_guard (o : ObservedState) :
  isObservedState dateParses (observed_json o)
  = iso_ok o.(state_observedAt) && optionally resources_ok o.(state_resources).
Proof.
  unfold isObservedState, observed_json. as_written.
  destruct o as [e p [r|] k t]; cbn [state_resources optionally state_observedAt state_powerState state_exists state_markerMatch].
  - rewrite <- resources_guard. by destruct p.
  - by destruct p.
Qed.

(** The guard of an event's schema accepts exactly the events within the
    contract's bounds. *)
Lemma guard_is_contract (e : WorkflowEvent) :
  headed_event e → guard_of e.(data) (event_record e) = event_ok e.(data).
Proof.
  intros (Hs & Hv & Ha).
  destruct e as [en [d|d|d|d|d]]; cbn in Hs, Hv, Ha; unfold guard_of, isWorkflowProgressedV1, isInstanceMutationCompletedV1,
    isInstanceMutationFailedV1, isProvisioningReplayResolvedV1, isProvisioningDeadLetteredV1, headed; cbn [data event_record envelope];
    rewrite Hs, Hv, Ha; cbn [String.eqb Ascii.eqb Bool.eqb Z.eqb Pos.eqb andb]; unfold event_data_json; as_written;
    unfold event_ok; rewrite ?failure_guard.
  - rewrite state_guard, andb_true_r. by destruct d as [st at_ ? [tr|] [t|]].
  - rewrite action_guard. destruct d as [a l p ev o]; cbn [completed_action completed_lifecycleState completed_providerResourceId completed_evidenceId completed_observed].
    destruct o as [o|]; [change (optional (observed_json o) (isObservedState dateParses)) with (isObservedState dateParses (observed_json o)); rewrite observed_guard|]; by destruct p.
  - by rewrite action_guard, compensation_guard, andb_true_r.
  - by rewrite outcome_guard, andb_true_r.
  - cbn [isBoolean]; by rewrite andb_true_r.
Qed.

(** Guards do not look at the order of members. *)
Lemma failureObject_same : Proper (same_content ==> eq) failureObject.
Proof. unfold failureObject. same_reader. unfold optional. by reorder Hm. Qed.
Lemma observed_same : Proper (same_content ==> eq) (isObservedState dateParses).
Proof.
  unfold isObservedState. same_reader. unfold optional. reorder Hm.
  destruct (same_field_object _ _ "resources" Hm) as [[-> ->]|(x & x' & -> & -> & Hx)]; [done|].
  by rewrite (sizing_object_same _ _ Hx).
Qed.
Lemma guard_same (d : EventData) (r r' : record) : same_record r r' → guard_of d r = guard_of d r'.
Proof.
  destruct d; unfold guard_of, isWorkflowProgressedV1, isInstanceMutationCompletedV1,
    isInstanceMutationFailedV1, isProvisioningReplayResolvedV1, isProvisioningDeadLetteredV1; same_guard; reaccess Hm.
  - done.
  - by rewrite (observed_same _ _ (same_field _ _ Hm "observed")).
  - by rewrite (failureObject_same _ _ (same_field _ _ Hm "failure")).
  - by destruct (same_field _ _ Hm "outcome"), (same_field _ _ Hm "replayGeneration").
  - by rewrite (failureObject_same _ _ (same_field _ _ Hm "failure")).
Qed.
End bounds.

Section wire.
Context `{Platform, Runtime}.

(** An event document, in whatever order its members arrive, reads as the event
    it was written from. *)
Lemma typed_back (e : WorkflowEvent) (r : record) :
  same_record (event_record e) r → e.(envelope).(schemaName) = schema_of e.(data) → Forall dated (event_dates e.(data)) →
  typed_event r = Some e.
Proof.
  intros Hr Hs Hd. rewrite <- (typed_event_same _ _ Hr). unfold typed_event. cbn [event_record envelope data].
  rewrite Hs, event_back by done. by destruct e.
Qed.

(** C36: Events survive the wire.  What the control API reads from a document the
    orchestrator wrote, in whatever order its members arrive, is the event that
    was written; and the guard of its schema accepts it exactly when the event
    is within the contract's bounds, so an event outside them (an unmeasured or
    oversized machine in a completion, for one) is refused though it was
    committed. *)
Theorem events_survive_the_wire (e : WorkflowEvent) (r : record)
    (Hr : same_record (event_record e) r) (He : headed_event e) (Hd : Forall dated (event_dates e.(data))) :
  guard_of e.(data) r = event_ok e.(data) ∧ typed_event r = Some e.
Proof.
  split; [|by apply typed_back; [|apply He|]].
  by rewrite <- (guard_same _ _ _ Hr), guard_is_contract.
Qed.
End wire.

(** ** A completion *)

Definition sample_completed (memory : option Z) : WorkflowEvent :=
  {| envelope :=
       {| eventId := sample_uuid; schemaName := "instance.mutation.completed"; schemaVersion := 1;
          aggregateType := "instance"; aggregateId := sample_uuid; projectId := sample_uuid; operationId := sample_uuid;
          correlationId := sample_uuid; causationId := sample_uuid; occurredAt := 5;
          traceContext := {| traceparent := "00-0af7651916cd43dd8448eb211c80319c-b7ad6b7169203331-01";
                             tracestate := None |};
          partitionKey := sample_uuid |};
     data := MutationCompleted
       {| completed_action := resize_instance; completed_lifecycleState := "active"; completed_providerResourceId := Some "vm";
          completed_evidenceId := sample_uuid;
          completed_observed := Some
            {| state_exists := true; state_powerState := observed_running;
               state_resources := Some {| observed_cpu := 2; observed_memory := memory; observed_disk := Some 20 |};
               state_markerMatch := true; state_observedAt := 4 |} |} |}.
Lemma events_survive_the_wire_witness :
  let e := sample_completed None in
  typed_event (H0 := sample_runtime) (event_record (H := sample_platform) e) = Some e
  ∧ guard_of (H := sample_platform) e.(data) (event_record (H := sample_platform) e) = false.
Proof.
  intros e.
  destruct (events_survive_the_wire (H := sample_platform) (H0 := sample_runtime) e (event_record (H := sample_platform) e)
    (conj eq_refl (same_refl _))) as [Hg Ht].
  - split_and!; reflexivity.
  - constructor; [vm_compute; reflexivity|constructor].
  - split; [exact Ht|]. etransitivity; [exact Hg|]. vm_compute. reflexivity.
Defined.
