(* ===== verification/Wire.v ===== *)
(** * Documents between the services

    What the outbox connector carries: an envelope that keeps the transport
    contract is decoded by [message-codec.ts] as it was written, in whatever
    order its members arrive.  The connector itself is configuration
    ([deploy/local/debezium/outbox-connector.json]); what it does with a row is
    the hypothesis [carries]. *)
From S2P Require Import Prelude JsText Json SshKey JsonParse Domain WorkflowStage Events EventValidation Platform JsonOrder MessageCodec KafkaConsumer EventCodec.
From Stdlib Require Import ZArith Lia Bool Ascii String.
From stdpp Require Import base decidable list strings gmap.
Open Scope string_scope.
Open Scope Z_scope.
Open Scope prog_scope.

(** ** Envelopes the codec accepts *)

#[export] Instance validTraceContext_same : Proper (same_content ==> eq) validTraceContext.
Proof.
  intros v v' [[Hv Hv']|(o & o' & -> & -> & Hm)]%same_objectValue.
  - by destruct v, v'.
  - cbn. destruct (same_field _ _ Hm "traceparent"); [|done..]. destruct v; try done.
    destruct (traceparentPattern s) as [[t p]|]; [|done]. f_equal. by destruct (same_field _ _ Hm "tracestate").
Qed.
#[export] Instance boundedString_same : Proper (same_content ==> eq ==> eq) boundedString.
Proof. intros v v' [] n ? <-; reflexivity. Qed.

Definition short (s : string) (n : Z) : Prop := 1 ≤ js_length s ≤ n.

(** A record whose envelope keeps the transport contract, and whose date
    [toISOString] writes and [Date.parse] reads back. *)
Record wire_ok `{Platform, Runtime} (e : record) : Prop := {
  wo_occurredAt : Date_parse (toISOString e.(envelope).(occurredAt)) = Some e.(envelope).(occurredAt);
  wo_eventId : uuidPattern e.(envelope).(eventId) = true;
  wo_aggregateId : uuidPattern e.(envelope).(aggregateId) = true;
  wo_projectId : uuidPattern e.(envelope).(projectId) = true;
  wo_operationId : uuidPattern e.(envelope).(operationId) = true;
  wo_correlationId : uuidPattern e.(envelope).(correlationId) = true;
  wo_causationId : uuidPattern e.(envelope).(causationId) = true;
  wo_schemaName : short e.(envelope).(schemaName) 120;
  wo_schemaVersion : e.(envelope).(schemaVersion) = 1;
  wo_aggregateType : short e.(envelope).(aggregateType) 64;
  wo_partitionKey : short e.(envelope).(partitionKey) 128;
  wo_trace : validTraceContext (trace_json e.(envelope).(traceContext)) = true;
  wo_data : is_Some (objectValue e.(data));
}.

Lemma bounded_valid (s : string) (n : Z) : short s n → boundedString (JStr s) n = true.
Proof. intros [? ?]. cbn. apply andb_true_intro. split; apply Z.leb_le; lia. Qed.

Section wire.
Context `{Platform, Runtime}.
Lemma trace_back (t : TraceContext) (v : json) : same_content (trace_json t) v → decoded_trace v = t.
Proof.
  intros (o & -> & Hm)%same_object_inv. unfold decoded_trace, text_field.
  rewrite <- (json_text_same _ _ (same_field _ _ Hm "traceparent")).
  assert (Hs : as_string (field "tracestate" o) = t.(tracestate)); [|by rewrite Hs; destruct t].
  pose proof (same_field _ _ Hm "tracestate") as Hs. destruct t as [p [x|]]; cbn in Hs; by inversion Hs; subst.
Qed.

(** What is written for a well-formed record, read back in whatever order its
    members arrive. *)
Lemma wire_decodes (e : record) (v : json) (b : Buffer) :
  wire_ok e → same_content (record_json e) v → b ≠ [] → JSON_parse (utf8_text b) = Some v →
  ∃ e', decodeEventEnvelope (Some b) = Ok e' ∧ same_record e e'.
Proof.
  intros He (o & -> & Hm)%same_object_inv Hb Hp. exists (decoded_record o).
  assert (Hf := same_field _ _ Hm). unfold record_json in Hf. split.
  - unfold decodeEventEnvelope. destruct b as [|b0 b]; [done|]. rewrite Hp.
    assert (isEventEnvelope (JObj o) = true) as ->; [|done]. unfold isEventEnvelope.
    rewrite <- !(isUuid_same _ _ (Hf _)), <- !(boundedString_same _ _ (Hf _) _ _ eq_refl),
      <- !(positiveInteger_same _ _ (Hf _)), <- !(validTraceContext_same _ _ (Hf _)).
    pose proof (Hf "occurredAt") as Ht. pose proof (Hf "data") as Hd. cbn in Ht, Hd.
    destruct (wo_data e He) as [d Ed]. destruct (e.(data)) eqn:Edata; try done.
    apply same_object_inv in Hd as (d' & -> & _).
    assert (field "occurredAt" o = JStr (toISOString e.(envelope).(occurredAt))) as -> by (by inversion Ht).
    destruct He as [Hiso ? ? ? ? ? ? ? Hv ? ? ? _]. rewrite Hiso.
    rewrite !andb_true_iff. split_and!; try reflexivity; try assumption; try (by apply bounded_valid).
    cbn. by rewrite Hv.
  - split.
    + pose proof (wo_occurredAt e He) as Hiso. destruct e as [[ev sn sv at_ ag pr op co ca oc tr pk] d]. unfold decoded_record, text_field. cbn in *.
      rewrite <- !(json_text_same _ _ (Hf _)). cbn.
      pose proof (Hf "schemaVersion") as Hv. pose proof (Hf "traceContext") as Htr. cbn in Hv, Htr.
      rewrite (trace_back _ _ Htr), Hiso. by inversion Hv.
    + exact (Hf "data").
Qed.

(** ** The connector *)

(** The document in a row's payload column. *)
Definition payload_record (p : OutboxPayload) : option record :=
  match p with P_command r => Some r | P_event e => Some (event_record e) | P_audit _ => None end.
(** A message that carries an outbox row holding the document [e]: its key and
    headers are the columns the connector's configuration names, and its value
    is the JSON document of the payload column. *)
Record carries (o : OutboxRow) (e : record) (msg : KafkaMessage) : Prop := {
  ca_payload : payload_record o.(ob_payload) = Some e;
  ca_key : utf8_text <$> msg.(km_key) = Some e.(envelope).(partitionKey);
  ca_value : ∃ b v, msg.(km_value) = Some b ∧ b ≠ [] ∧ JSON_parse (utf8_text b) = Some v ∧ same_content (record_json e) v;
  ca_outbox_id : record_headers msg.(km_headers) !! "outbox-id" = Some o.(ob_outbox_id);
  ca_event_id : record_headers msg.(km_headers) !! "event-id" = Some e.(envelope).(eventId);
  ca_schema_name : record_headers msg.(km_headers) !! "schema-name" = Some e.(envelope).(schemaName);
  ca_schema_version : record_headers msg.(km_headers) !! "schema-version" = Some (string_of_Z e.(envelope).(schemaVersion));
  ca_generation : record_headers msg.(km_headers) !! "replay-generation" = Some (string_of_Z o.(ob_replay_generation));
}.

(** A carried first delivery is decoded without an error. *)
Lemma carried_is_decoded (o : OutboxRow) (e : record) (msg : KafkaMessage) (topic_name : string) (part now_ : Z) :
  carries o e msg → wire_ok e → uuidPattern o.(ob_outbox_id) = true → o.(ob_replay_generation) = 0 →
  let r := incoming topic_name part now_ msg in
  r.(ir_decodeError) = None ∧ r.(ir_delivery).(replayGeneration) = 0
  ∧ ∃ e', decodeEventEnvelope r.(ir_value) = Ok e' ∧ r.(ir_envelope) = Some e' ∧ same_record e e'.
Proof.
  intros [_ Hkey (b & v & Hb & Hne & Hp & Hv) H1 H2 H3 H4 H5] He Ho Hg r.
  destruct (wire_decodes e v b He Hv Hne Hp) as (e' & Hd & Hs). rewrite Hg in H5.
  assert (Hout : decodeOutboxId (Some (ob_outbox_id o)) = Ok (ob_outbox_id o)).
  { unfold decodeOutboxId, present. destruct (ob_outbox_id o) eqn:E; [by vm_compute in Ho|]. cbn [mbind option_bind truthy String.eqb negb].
    by rewrite Ho. }
  subst r. unfold incoming. cbn [ir_decodeError ir_delivery replayGeneration ir_value ir_envelope].
  rewrite Hb, Hd, H1, H5, Hout. cbn [value_of kept_error coalesce].
  change (decodeReplayGeneration (Some (string_of_Z 0))) with (@Ok thrown Z 0). cbn [value_of kept_error coalesce default].
  destruct Hs as [Henv Hdata]. split_and!; [|done|by exists e'].
  unfold validateEventTransport. rewrite Hkey, H2, H3, H4, H1, <- Henv, !bool_decide_eq_true_2 by done.
  unfold present. destruct (ob_outbox_id o) eqn:E; [by vm_compute in Ho|]. cbn [mbind option_bind truthy String.eqb negb andb].
  by rewrite Ho.
Qed.

End wire.
