(* ===== verification/Delivery.v ===== *)
(** * From an accepted request to its workflow

    The composition of the two services: what [control-plane-store.ts] writes to
    its outbox, carried to the command topic, is decoded
    ([message-codec.ts], [kafka-consumer.ts]), routed ([command-routing.ts]) and
    admitted ([workflow-store.ts]) as the workflow of the mutation that was
    accepted. *)
From S2P Require Import Prelude JsText Json SshKey JsonParse Domain Ipv4 WorkflowStage Events EventValidation Platform JsonOrder MessageCodec KafkaConsumer ProviderPort WorkflowStore Fencing Inbox CommandConsumer EventCodec Wire ControlDb AcceptStore AcceptCreate Control Projection ControlHistory Acceptance Published.
From Stdlib Require Import ZArith Lia Bool Ascii String.
From stdpp Require Import base decidable list strings gmap.
Open Scope string_scope.
Open Scope Z_scope.
Open Scope prog_scope.

Section delivery.
Context `{Platform, Runtime}.

(** ** Admission of a new command *)

(** Nothing in the inbox speaks of the command or of its Kafka record. *)
Record unheard (e : record) (d : MessageDeliveryIdentity) (db : WorkflowDb) : Prop := {
  un_receipt : db.(command_receipts) !! (e.(envelope).(eventId), d.(replayGeneration)) = None;
  un_record : map_Forall (λ _ x, x.(r_coordinates) ≠ coordinates d) db.(command_receipts);
  un_workflow : db.(workflows) !! e.(envelope).(operationId) = None;
  un_event : map_Forall (λ _ w, w.(w_event_id) ≠ e.(envelope).(eventId)) db.(workflows);
}.

Lemma forallb_entries {K A : Type} `{Countable K} (p : K * A → bool) (m : gmap K A) :
  map_Forall (λ k x, p (k, x) = true) m → forallb p (map_to_list m) = true.
Proof.
  intros Hm. apply forallb_forall. intros [k x] Hin. apply (Hm k). apply elem_of_map_to_list. by apply list_elem_of_In.
Qed.
Ltac no_entry := match goal with |- context [forallb ?p (map_to_list ?m)] =>
  rewrite (forallb_entries p m); [|intros ? ? ?; cbn [snd]; apply negb_true_iff] end.

Lemma admit_unheard (c : Call) (e : record) (d : MessageDeliveryIdentity) (db : WorkflowDb) (a : WorkflowAction) :
  unheard e d db → workflowActionForSchema e.(envelope).(schemaName) = Some a → d.(replayGeneration) = 0 →
  ∃ db', admitCommand c e d db = Ok (Admission_accepted, db')
    ∧ db'.(workflows) = <[e.(envelope).(operationId) := new_workflow c e a 0 (seeded a e db)]> db.(workflows).
Proof.
  intros [Hr Hc Hw Hev] Ha Hd. eexists. unfold admitCommand. rewrite Hd. cbn [Z.eqb].
  unfold admitOriginalDelivery, tbind, tget. rewrite Hw.
  unfold insertCommandReceipt at 1, tbind, tget. rewrite Hr. unfold tguard at 1.
  no_entry; [|by apply bool_decide_eq_false_2, (Hc _ _ H1)].
  cbn -[insertWorkflow]. unfold workflowActionOf. rewrite Ha. cbn -[insertWorkflow].
  unfold insertWorkflow, tbind, tget. cbn -[forallb]. rewrite bool_decide_eq_true_2 by done. unfold tguard, tret. cbn -[forallb].
  no_entry; [|by apply String.eqb_neq, (Hev _ _ H1)].
  split; [reflexivity|]. cbn. by rewrite Hd.
Qed.

(** ** What acceptance writes keeps the transport contract *)

(** The keys of the rows are UUIDs (their columns have that type). *)
Definition uuid_rows (s : ControlDb) : Prop :=
  map_Forall (λ i row, uuidPattern i = true ∧ uuidPattern row.(i_project_id) = true) s.(instances).
(** What the request boundary guarantees of a request. *)
Definition request_ok (r : Request) : Prop :=
  uuidPattern r.(rq_projectId) = true ∧ uuidPattern r.(rq_correlationId) = true
  ∧ validTraceContext (trace_json (request_trace r)) = true.

Hypothesis dates : ∀ t, dateParses (toISOString t) = true.
Context (c : Call).
Hypothesis uuids : ∀ n, uuidPattern (c.(uuid) n) = true.
(** The instant of the call, written by [toISOString] and read by [Date.parse]. *)
Hypothesis iso : Date_parse (toISOString c.(appNow)) = Some c.(appNow).

Lemma js_length_app (a b : string) : js_length (a ++ b) = js_length a + js_length b.
Proof. unfold js_length. induction a as [|x a IH]; [done|]. 
  change (String x a ++ b) with (String x (a ++ b)). cbn [String.length]. lia.
Qed.
Lemma js_length_cons (x : ascii) (a : string) : js_length (String x a) = 1 + js_length a.
Proof. unfold js_length. cbn [String.length]. lia. Qed.
Lemma uuid_short (s : string) : uuidPattern s = true → short s 128.
Proof.
  unfold uuidPattern. rewrite <- (join_split "-" s) at 2. generalize (split_on "-" s). intros l Hl.
  destruct l as [|g1 [|g2 [|g3 [|g4 [|g5 [|? ?]]]]]]; cbn [hex_groups] in Hl; unbool; try done.
  cbn [join_with]. unfold short. rewrite !js_length_app, !js_length_cons, !js_length_app, !js_length_cons, !js_length_app,
    !js_length_cons, !js_length_app, !js_length_cons.
  repeat match goal with E : Nat.eqb _ _ = true |- _ => apply Nat.eqb_eq in E end. unfold js_length. lia.
Qed.

Lemma command_wire_ok (id schema i project op : string) (r : Request) (d : json) (a : WorkflowAction) :
  uuidPattern id = true → uuidPattern i = true → uuidPattern project = true → uuidPattern op = true →
  uuidPattern r.(rq_correlationId) = true → validTraceContext (trace_json (request_trace r)) = true →
  workflowActionForSchema schema = Some a → is_Some (objectValue d) → wire_ok (command_event c id schema i project op r d).
Proof.
  intros Hid Hi Hp Hop Hcorr Htrace Ha Hv. split; try assumption.
  - destruct (schema_cases schema) as [Hin|[_ Hn]]; [|congruence].
    cbn [command_event envelope schemaName]. clear Ha. unfold SUPPORTED_COMMAND_SCHEMAS in Hin. rename Hin into Ha.
    repeat (apply elem_of_cons in Ha as [->|Ha]; [split; vm_compute; discriminate|]). by apply elem_of_nil in Ha.
  - reflexivity.
  - split; vm_compute; discriminate.
  - by apply uuid_short.
Qed.

(** The command row of an accepted mutation. *)
Record published (m : Mutation) (x : AcceptedMutation) (o : OutboxRow) (e : record) : Prop := {
  pb_payload : o.(ob_payload) = P_command e;
  pb_topic : o.(ob_topic) = COMMAND_TOPIC;
  pb_id : uuidPattern o.(ob_outbox_id) = true;
  pb_generation : o.(ob_replay_generation) = 0;
  pb_wire : wire_ok e;
  pb_command : command_of m e;
  pb_operation : e.(envelope).(operationId) = x.(am_operationId);
  pb_instance : e.(envelope).(aggregateId) = touched m x;
}.

Lemma accepted_command (m : Mutation) (r : Request) (h : string) (s s' : ControlDb) (x : AcceptedMutation) :
  well_formed s → uuid_rows s → checked m → request_ok r →
  accept c m r h s = Ok (x, s') → s.(idempotency_records) !! key_of m r = None →
  ∃ o e fact, s'.(control_outbox) = (s.(control_outbox) ++ [o; fact])%list ∧ published m x o e.
Proof using iso dates uuids.
  intros Hwf Hids Hm (Hproject & Hcorr & Htrace) Hs Hfresh. apply accept_inv in Hs.
  destruct Hs as [m rec Hk Hh Hp | m i row w role url action reason event id Hk Hi Hrow Ha Hw op o a s' Ho Hp [n ->] [n' Hid]
    | g k ctx address a Hk Hctx Hq Haddress Ha Hi Ho Hpi Hpo Hl Hu]; [congruence|..].
  - destruct (Hids i row Hrow) as [Hiu Hpu].
    pose proof (writes_command dates c uuids r s m i (c.(uuid) n) op row w Hwf Hm Hrow Hw) as Hadm.
    pose proof Hadm as (Ha1 & Ha2 & _). cbn [command_event envelope schemaName data] in Ha1, Ha2.
    do 3 eexists. split; [subst s'; cbn; by rewrite <- app_assoc|].
    split; cbn; try reflexivity; [rewrite Hid; apply uuids| |exact Hadm|].
    + apply (command_wire_ok _ _ _ _ _ _ _ (workflow_of m)); try done; apply uuids.
    + unfold touched. by rewrite Hi.
  - destruct (create_command dates c uuids g r k s ctx address a Hwf Hm Hctx Haddress Ha) as [Hadm _].
    unfold buildAcceptanceRecords in Ha.
    apply rbind_Ok in Ha as (servers & _ & Ha). apply rbind_Ok in Ha as (? & _ & Ha). injection Ha as <-.
    assert (Hcreate : create_trace g r = r).
    { unfold create_trace. destruct r as [? ? ? ? tp ?]. cbn in *. destruct (truthy tp) eqn:E; [done|].
      apply negb_false_iff, String.eqb_eq in E. subst tp. by vm_compute in Htrace. }
    cbn [ar_event] in Hadm. rewrite Hcreate in Hadm.
    pose proof Hadm as (Ha1 & Ha2 & _). cbn [command_event envelope schemaName data] in Ha1, Ha2.
    do 3 eexists. split; [cbn; by rewrite <- app_assoc|]. cbn [ar_event]. rewrite Hcreate.
    split; cbn; try reflexivity; [by apply uuids| |exact Hadm].
    apply (command_wire_ok _ _ _ _ _ _ _ create_instance); try done; apply uuids.
Qed.

(** ** The workflow of an accepted mutation *)

(** C5: An accepted mutation becomes its workflow.  With well-formed rows, a
    request whose project, correlation and trace the boundary let through, and
    a mutation that passed the checks of the application: accepted under a fresh
    key, it appends one command row to the outbox (and one audit row after it);
    and any Kafka message that carries that row, in whatever order the members
    of its document arrive, is decoded without an error.  If the mutation fits
    the contract, any orchestrator that has not heard of the command routes and
    admits it: the operation the caller was told gets one workflow, at its first
    stage, of the capability the caller asked for and on the instance the
    mutation was accepted for, and the record is reported as handled.  If it
    does not fit (a resize to more than 2048 GiB, a description of more than 256
    units), every orchestrator refuses the record as an invalid payload and
    creates nothing. *)
Theorem accepted_mutation_becomes_its_workflow (m : Mutation) (r : Request) (h : string) (s s' : ControlDb)
    (x : AcceptedMutation)
    (Hwf : well_formed s) (Hids : uuid_rows s) (Hm : checked m) (Hr : request_ok r)
    (Haccepted : accept c m r h s = Ok (x, s')) (Hfresh : s.(idempotency_records) !! key_of m r = None) :
  ∃ o e fact, s'.(control_outbox) = (s.(control_outbox) ++ [o; fact])%list ∧ o.(ob_payload) = P_command e
  ∧ ∀ msg part now_ call outage n db,
      carries o e msg → outage n = None →
      let rec := incoming COMMAND_TOPIC part now_ msg in
      unheard e rec.(ir_delivery) db →
      rec.(ir_decodeError) = None
      ∧ if fits m then
          ∃ db' w,
          command_handle call outage n rec db
          = (Ok {| mh_outcome := handled; mh_schemaName := e.(envelope).(schemaName);
                   mh_occurredAtMs := e.(envelope).(occurredAt) |}, db')
          ∧ db'.(workflows) = <[x.(am_operationId) := w]> db.(workflows)
          ∧ w.(w_action) = action_text (workflow_of m) ∧ w.(w_instance_id) = touched m x
          ∧ w.(w_stage) = "accepted" ∧ w.(w_status) = "running" ∧ same_record e w.(w_command)
        else command_handle call outage n rec db = (Err invalid_payload, db).
Proof using iso dates uuids.
  destruct (accepted_command m r h s s' x Hwf Hids Hm Hr Haccepted Hfresh) as (o & e & fact & Hout & Hp).
  exists o, e, fact. destruct Hp as [Hpay _ Hoid Hgen Hwire (Ha & _ & Hv) Hop Hinst].
  split; [exact Hout|]. split; [exact Hpay|]. intros msg part now_ call outage n db Hc Hup rec Hun.
  destruct (carried_is_decoded o e msg COMMAND_TOPIC part now_ Hc Hwire Hoid Hgen) as (Herr & Hg & e' & Hd & _ & Hsame).
  fold rec in Herr, Hg, Hd. split; [exact Herr|]. pose proof Hsame as [Henv Hdata].
  destruct (narrowing rec e' Hd) as [Hsup Hnarrow]. rewrite <- Henv, Ha in Hsup, Hnarrow.
  rewrite (wo_schemaVersion e Hwire), <- (COMMAND_VALIDATORS_same dateParses _ e e' Hsame), Hv in Hnarrow. cbn in Hnarrow.
  unfold command_handle. rewrite Hd, <- Henv, Hsup, bool_decide_eq_true_2 by by eexists.
  rewrite Hnarrow. destruct (fits m); [|done].
  assert (Hun' : unheard e' rec.(ir_delivery) db) by (destruct Hun; split; rewrite <- ?Henv; done).
  destruct (admit_unheard (call n) e' _ db (workflow_of m) Hun') as (db' & Hadmit & Hws); [by rewrite <- Henv|exact Hg|].
  exists db'. eexists. split.
  - unfold answering, transact, withTransaction. rewrite Hup, Hadmit. cbn. by rewrite <- Henv.
  - rewrite Hws, <- Henv, Hop. split; [reflexivity|]. cbn. rewrite <- Henv, Hinst. split_and!; try reflexivity; by try exact Hsame.
Qed.
End delivery.

(** ** A concrete delivery *)

Definition project_uuid : string := "3f2504e0-4f89-41d3-9a0c-0305e82c3399".
(** A project with a UUID and room for one instance. *)
Definition delivery_control : ControlDb :=
  {| catalog :=
       {| ControlDb.projects := {[ project_uuid := {| pj_enabled := true; pj_label := sample_label |} ]}; provider_profiles := provider_profiles sample_catalog; images := images sample_catalog;
          flavors := flavors sample_catalog; networks := networks sample_catalog;
          quotas := {[ project_uuid := {| qt_instances := 2; qt_cpu_count := 8; qt_memory_mib := 8192; qt_disk_gib := 100;
                                          qt_ipv4_addresses := 2; qt_snapshots := 1 |} ]};
          retention_policy := retention_policy sample_catalog |};
     instances := ∅; operations := ∅; ipv4_leases := ∅; snapshots := ∅;
     idempotency_records := ∅; control_outbox := []; control_audit := []; control_replays := ∅; p_instances := ∅;
     p_operations := ∅; p_snapshots := ∅; p_dead_letters := ∅; event_receipts := ∅; p_poison := ∅ |}.
Definition delivery_request : Request :=
  {| rq_subject := "alice"; rq_projectId := project_uuid; rq_idempotencyKey := "key-0001"; rq_correlationId := project_uuid;
     rq_traceparent := "00-0af7651916cd43dd8448eb211c80319c-b7ad6b7169203331-01"; rq_tracestate := None |}.
Definition delivery_answer : result error (AcceptedMutation * ControlDb) :=
  accept (H := sample_platform) (uuid_call 1) (Create "" sample_create) delivery_request "hash" delivery_control.

Definition first_command (s : ControlDb) : record :=
  match s.(control_outbox) with
  | {| ob_payload := P_command e |} :: _ => e
  | _ => wire_command
  end.
Definition carried_message (o : OutboxRow) (e : record) : KafkaMessage :=
  {| km_key := Some (text_buffer e.(envelope).(partitionKey));
     km_value := Some (text_buffer (default "" (stringify (record_json (H := sample_platform) e))));
     km_headers := (routed_headers e.(envelope) o.(ob_outbox_id)
       ++ [("replay-generation", HOne (HBuffer (text_buffer (string_of_Z o.(ob_replay_generation)))))])%list;
     km_offset := 0; km_timestamp := "5" |}.

Lemma delivery_wf : well_formed delivery_control.
Proof. destruct sample_wf. split; assumption. Qed.
Definition first_outbox_row (s : ControlDb) : OutboxRow :=
  List.hd (control_row (uuid_call 0) (P_command wire_command) "" "") s.(control_outbox).
Lemma first_command_of (s : ControlDb) (o : OutboxRow) (e : record) (l : list OutboxRow) :
  s.(control_outbox) = o :: l → o.(ob_payload) = P_command e → first_outbox_row s = o ∧ first_command s = e.
Proof. unfold first_outbox_row, first_command. intros ->. destruct o. cbn. by intros ->. Qed.

Definition delivery_message : KafkaMessage :=
  carried_message (first_outbox_row (accepted_state delivery_answer)) (first_command (accepted_state delivery_answer)).

Lemma accepted_mutation_becomes_its_workflow_witness :
  delivery_answer = Ok (accepted_answer delivery_answer, accepted_state delivery_answer)
  ∧ ∃ db' w, snd (command_handle (H := sample_platform) (H0 := sample_runtime) sample_call (λ _, None) 1
                    (incoming (H := sample_runtime) COMMAND_TOPIC 0 7 delivery_message) empty_db) = db'
    ∧ db'.(workflows) = <[am_operationId (accepted_answer delivery_answer) := w]> ∅ ∧ w.(w_action) = "create_instance".
Proof.
  assert (Hx : delivery_answer = Ok (accepted_answer delivery_answer, accepted_state delivery_answer))
    by (apply accepted_ok; vm_compute; reflexivity).
  split; [exact Hx|].
  assert (Hm : checked (Create "" sample_create)) by (vm_compute; reflexivity).
  assert (Hr : request_ok delivery_request) by (split_and!; vm_compute; reflexivity).
  destruct (accepted_mutation_becomes_its_workflow (H := sample_platform) (H0 := sample_runtime) sample_dates (uuid_call 1)
    (uuid_call_ok 1) ltac:(vm_compute; reflexivity) (Create "" sample_create) delivery_request "hash" delivery_control
    (accepted_state delivery_answer) (accepted_answer delivery_answer) delivery_wf (map_Forall_empty _) Hm Hr Hx
    (lookup_empty _)) as (o & e & fact & Hout & Hpay & Hall).
  destruct (first_command_of (accepted_state delivery_answer) o e [fact] Hout Hpay) as [<- <-].
  destruct (Hall delivery_message 0 7 sample_call (λ _, None) 1 empty_db) as (_ & db' & w & Hh & Hw & Ha & _).
  - split; [exact (f_equal payload_record Hpay)|vm_compute; reflexivity| |vm_compute; reflexivity..].
    do 2 eexists. split; [reflexivity|]. split; [vm_compute; discriminate|]. split; [|reflexivity].
    vm_compute. reflexivity.
  - reflexivity.
  - split; try apply map_Forall_empty; reflexivity.
  - exists db', w. rewrite Hh. split_and!; [reflexivity|exact Hw|exact Ha].
Defined.
