(* ===== verification/ProjectionConsumer.v ===== *)
(** * The projection consumer

    [projection-consumer.ts] of the control API: the records of the event, dead
    letter and reconciliation topics are decoded, guarded and applied to the
    read model, each in one transaction with its receipt; what is permanently
    unreadable is quarantined.  It is an ingress of the Kafka runner over the
    control plane's database. *)
From S2P Require Import Prelude JsText Json SshKey Domain Ipv4 WorkflowStage Events EventValidation Platform JsonParse JsonOrder MessageCodec KafkaConsumer ProviderPort WorkflowStore Inbox ControlDb AcceptStore AcceptCreate Reconciliation Control Projection ControlHistory Acceptance ReadModel EventCodec.
From Stdlib Require Import ZArith Lia Bool Ascii String.
From stdpp Require Import base decidable list strings gmap.
Open Scope string_scope.
Open Scope Z_scope.
Open Scope prog_scope.

Definition EVENT_TOPIC : string := "provisioning.events.v1".
Definition DLQ_TOPIC : string := "provisioning.dlq.v1".

Section consumer.
Context `{Platform, Runtime} (outage : Z → option error).

Definition projection_unsupported : thrown := PermanentMessageError "PROJECTION_SCHEMA_UNSUPPORTED".
(** Where the cast is wrong: a text the guard accepted inside an array. *)
Definition not_of_its_type : thrown := Other (Fault "a member is not of the contract's type").

(** The guards are asked in this order. *)
Definition is_workflow_event (event : record) : bool :=
  isWorkflowProgressedV1 dateParses event || isInstanceMutationCompletedV1 dateParses event
  || isInstanceMutationFailedV1 event || isProvisioningReplayResolvedV1 dateParses event.
Definition workflowEvent (r : IncomingKafkaRecord) : result thrown record :=
  let? event := decodeEventEnvelope r.(ir_value) in
  ensure? is_workflow_event event else projection_unsupported;
  Ok event.
Definition deadLetterEvent (r : IncomingKafkaRecord) : result thrown record :=
  let? event := decodeEventEnvelope r.(ir_value) in
  ensure? isProvisioningDeadLetteredV1 dateParses event else PermanentMessageError "DLQ_SCHEMA_UNSUPPORTED";
  Ok event.

(** The transaction a record asks for. *)
Definition projection (r : IncomingKafkaRecord) : result thrown (EventEnvelope * ctx bool) :=
  let d := r.(ir_delivery) in
  if String.eqb d.(topic) RECONCILIATION_TOPIC then
    let? event := decodeEventEnvelope r.(ir_value) in
    Ok (event.(envelope), applyDriftEvent event d)
  else if String.eqb d.(topic) EVENT_TOPIC then
    let? event := workflowEvent r in
    match typed_event event with
    | Some e => Ok (e.(envelope), applyWorkflowEvent e d)
    | None => Err not_of_its_type
    end
  else
    let? event := deadLetterEvent r in
    match typed_event event with
    | Some {| envelope := e; data := DeadLettered x |} => Ok (e, applyDeadLetterEvent e x d)
    | _ => Err not_of_its_type
    end.
Definition applied_outcome (b : bool) : HandlingOutcome := if b then handled else duplicate_.
Definition projection_handle (n : Z) (r : IncomingKafkaRecord) (s : ControlDb) :
    result thrown MessageHandlingResult * ControlDb :=
  match projection r with
  | Err t => (Err t, s)
  | Ok (e, m) => answering e applied_outcome (transact outage n m s)
  end.

Definition projection_quarantine (r : IncomingKafkaRecord) (failureCode : string) (s : ControlDb) :
    result thrown MessageHandlingResult * ControlDb :=
  let e := envelope <$> r.(ir_envelope) in
  let x := transact outage 0 (quarantineProjection r.(ir_delivery) (sha256_bytes (default [] r.(ir_value))) failureCode
             "The projection record could not be handled by this contract version." (eventId <$> e)) s in
  (match fst x with
   | Ok b => Ok {| mh_outcome := if (b : bool) then quarantined else duplicate_;
                   mh_schemaName := default "unknown" (schemaName <$> e);
                   mh_occurredAtMs := default r.(ir_brokerTimestampMs) (occurredAt <$> e) |}
   | Err t => Err t
   end, snd x).
Definition projection_exhausted (r : IncomingKafkaRecord) (e : thrown) (tries : Z) (s : ControlDb) :
    result thrown MessageHandlingResult * ControlDb :=
  match e with
  | MessageDecodeError c => projection_quarantine r (decode_code_text c) s
  | PermanentMessageError c => projection_quarantine r c s
  | Other _ => (Err e, s)
  end.

Definition projection_ingress : Ingress ControlDb :=
  {| handle := projection_handle; exhausted := projection_exhausted |}.
End consumer.

(** ** Durable evidence *)

Definition consumer_of (topic_name : string) : string :=
  if String.eqb topic_name RECONCILIATION_TOPIC then DRIFT_CONSUMER_NAME
  else if String.eqb topic_name EVENT_TOPIC then EVENT_CONSUMER_NAME else DLQ_CONSUMER_NAME.
Definition poison_consumer (topic_name : string) : string :=
  if String.eqb topic_name DLQ_TOPIC then DLQ_CONSUMER_NAME else EVENT_CONSUMER_NAME.
Definition projected_record (r : IncomingKafkaRecord) (s : ControlDb) : Prop :=
  ∃ e, r.(ir_envelope) = Some e
    ∧ received (consumer_of r.(ir_delivery).(topic)) e.(envelope).(eventId) r.(ir_delivery).(replayGeneration) s.
Definition projection_poisoned (r : IncomingKafkaRecord) (s : ControlDb) : Prop :=
  is_Some (s.(p_poison) !! (poison_consumer r.(ir_delivery).(topic), coordinates r.(ir_delivery))).
(** The inbox holds the record's event and generation, or the poison table its
    coordinates. *)
Definition projection_accounted (r : IncomingKafkaRecord) (s : ControlDb) : Prop :=
  projected_record r s ∨ projection_poisoned r s.

(** What the transactions of the control plane do to that evidence. *)
Record remembers (s s' : ControlDb) : Prop := {
  rm_receipts : s.(event_receipts) ⊆ s'.(event_receipts);
  rm_poison : s.(p_poison) ⊆ s'.(p_poison);
}.
#[export] Instance remembers_preorder : PreOrder remembers.
Proof. split; [by intros s|]. intros s1 s2 s3 [] []. split; by etrans. Qed.

Section evidence.
Context `{Platform, Runtime}.

Definition same_poison (s s' : ControlDb) : Prop := s'.(p_poison) = s.(p_poison).
#[local] Instance same_poison_preorder : PreOrder same_poison.
Proof. split; [by intros s|]. intros s1 s2 s3 H12 H23. unfold same_poison in *. congruence. Qed.
#[local] Hint Extern 1 (keeps same_poison (tmodify _)) =>
  apply keeps_modify; intros ?; cbv beta; repeat case_match; reflexivity : program.

Lemma accept_poison c m r h : keeps same_poison (accept c m r h).
Proof. intros s a s' Hs. apply accept_inv in Hs. by destruct Hs; subst. Qed.
#[local] Hint Resolve accept_poison : program.

Lemma body_poison c t : match t with Quarantine _ _ _ _ _ => False | _ => True end → keeps same_poison (body c t).
Proof.
  destruct t; intros []; try (intros s u s' Hs; eapply reconciler_reports in Hs; [|exact I]; by injection (or_receipts _ _ Hs));
    simpl; unfold releaseIpv4Lease, requestReconciliation, requestDeadLetterReplay, applyWorkflowEvent,
    applyDeadLetterEvent, applyDriftEvent, applyEvent, applyProgress, applyCompleted, applyFailed,
    applyReplayResolved, lockDocuments, writeDocuments, updateOperation, updateInstanceRow, settleSnapshot,
    insertReceipt, writeControlAudit, writeControlOutbox; keeps_steps.
Qed.

Lemma receipt_remembers consumer event d s b s' :
  insertReceipt consumer event d s = Ok (b, s') → remembers s s' ∧ s'.(p_poison) = s.(p_poison).
Proof.
  intros Hs. split; [split|].
  - apply (gr_receipts _ _ (grows_receipt consumer event d s b s' Hs)).
  - unfold insertReceipt in Hs. peel. case_match; by peel.
  - unfold insertReceipt in Hs. peel. case_match; by peel.
Qed.
Lemma quarantine_remembers d hash k message event s b s' :
  quarantineProjection d hash k message event s = Ok (b, s') →
  remembers s s' ∧ is_Some (s'.(p_poison) !! (poison_consumer d.(topic), coordinates d)).
Proof.
  unfold quarantineProjection. change (if String.eqb d.(topic) "provisioning.dlq.v1" then DLQ_CONSUMER_NAME
    else EVENT_CONSUMER_NAME) with (poison_consumer d.(topic)). cbv zeta.
  intros (rows & ? & [= <- <-] & Hs)%tbind_Ok. apply tbind_Ok in Hs as ([] & s1 & Hs1 & Hs).
  injection Hs1 as Hs1.
  assert (H1 : remembers s s1 ∧ is_Some (s1.(p_poison) !! (poison_consumer d.(topic), coordinates d))).
  { subst s1. case_bool_decide as Hn; [|split; [reflexivity|by destruct (p_poison s !! _)]]. cbn. split.
    - split; cbn; [done|]. by apply insert_subseteq.
    - rewrite lookup_insert_eq. by eexists. }
  destruct H1 as [Hr Hp]. apply tbind_Ok in Hs as ([] & s2 & Hs2 & [= _ <-]).
  destruct (present event) as [e|]; [|injection Hs2 as <-; by split].
  apply tbind_Ok in Hs2 as (b' & s3 & Hs3 & [= <-]). apply receipt_remembers in Hs3 as [Hr3 Heq]. rewrite Heq.
  split; [by etrans|done].
Qed.

Lemma body_remembers c t : keeps remembers (body c t).
Proof.
  intros s [] s' Hs. split; [apply (gr_receipts _ _ (grows_body c t s tt s' Hs))|].
  destruct t as [m r h|i mode|i|r k h|e d|e d delivery|e d|d hash code_ message event|w locked scan limit stale|trace o];
    try (apply body_poison in Hs; [by rewrite Hs|exact I]).
  cbn [body] in Hs. apply tbind_Ok in Hs as (b & s1 & Hs & [= <-]). by apply quarantine_remembers in Hs as [[] _].
Qed.
(** Nothing the control plane commits makes it forget a record. *)
Lemma run_remembers h s : remembers s (run h s).
Proof. apply run_keeps; [apply _|apply body_remembers]. Qed.

(** The transaction of a record leaves the record's receipt, whatever else it
    does, and repeated it is a duplicate. *)
Lemma projection_once r e m :
  genuine r → projection r = Ok (e, m) →
  ∃ event, r.(ir_envelope) = Some event ∧ event.(envelope) = e
    ∧ keeps remembers m
    ∧ (∀ s b s', m s = Ok (b, s') → received (consumer_of r.(ir_delivery).(topic)) e.(eventId) r.(ir_delivery).(replayGeneration) s')
    ∧ ∀ s, received (consumer_of r.(ir_delivery).(topic)) e.(eventId) r.(ir_delivery).(replayGeneration) s → m s = Ok (false, s).
Proof.
  unfold genuine, projection, workflowEvent, deadLetterEvent, consumer_of. intros ->.
  destruct (decodeEventEnvelope (ir_value r)) as [event|]; [|by repeat case_match]. cbn [rbind value_of].
  assert (Htyped : ∀ e0, typed_event event = Some e0 → e0.(envelope) = event.(envelope)).
  { intros e0. unfold typed_event. destruct (read_data _ _); [|done]. cbn. by intros [= <-]. }
  destruct (String.eqb (topic (ir_delivery r)) RECONCILIATION_TOPIC).
  - intros [= <- <-]. exists event. split_and!; try done.
    + intros s b s' Hs. apply (body_remembers (sample_call 0) (ApplyDrift event (ir_delivery r)) s tt s'). cbn [body].
      unfold tbind. by rewrite Hs.
    + intros s b s'. apply drift_received.
    + intros s Hs. by apply received_twice.
  - destruct (String.eqb (topic (ir_delivery r)) EVENT_TOPIC).
    + destruct (is_workflow_event event); [|done]. cbn [rbind]. destruct (typed_event event) as [e0|] eqn:He; [|done].
      intros [= <- <-]. exists event. split_and!; [done|symmetry; by apply Htyped| | |].
      * intros s b s' Hs. apply (body_remembers (sample_call 0) (ApplyWorkflow e0 (ir_delivery r)) s tt s'). cbn [body].
        unfold tbind. by rewrite Hs.
      * intros s b s'. apply workflow_received.
      * intros s Hs. by apply received_twice.
    + destruct (isProvisioningDeadLetteredV1 dateParses event); [|done]. cbn [rbind].
      destruct (typed_event event) as [[e0 [x|x|x|x|x]]|] eqn:He; try done.
      intros [= <- <-]. exists event. split_and!; [done|symmetry; by apply (Htyped _ eq_refl)| | |].
      * intros s b s' Hs. apply (body_remembers (sample_call 0) (ApplyDeadLetter e0 x (ir_delivery r)) s tt s'). cbn [body].
        unfold tbind. by rewrite Hs.
      * intros s b s'. apply dead_letter_received.
      * intros s Hs. by apply received_twice.
Qed.
End evidence.

(** ** The consumer keeps the laws of an ingress *)

Section laws.
Context `{Platform, Runtime} (outage : Z → option error).

Lemma projection_handle_Ok (n : Z) (r : IncomingKafkaRecord) (s s' : ControlDb) (v : MessageHandlingResult) :
  projection_handle outage n r s = (Ok v, s') → ∃ e m b, projection r = Ok (e, m) ∧ m s = Ok (b, s').
Proof.
  unfold projection_handle. destruct (projection r) as [[e m]|]; [|done]. intros (b & Hs)%answering_Ok.
  apply transact_cases in Hs as [(b' & _ & Hs)|(? & [=] & _)]. by exists e, m, b'.
Qed.
Lemma projection_quarantine_poisoned (r : IncomingKafkaRecord) (k : string) (s s' : ControlDb) (v : MessageHandlingResult) :
  projection_quarantine outage r k s = (Ok v, s') → projection_accounted r s'.
Proof.
  unfold projection_quarantine. destruct (transact _ _ _ _) as [x s1] eqn:E. cbn.
  apply transact_cases in E as [(b & -> & Hs)|(e & -> & ->)]; [|done].
  intros [= _ <-]. right. by eapply quarantine_remembers.
Qed.
Lemma projection_keeps (r : IncomingKafkaRecord) (e : EventEnvelope) (m : ctx bool) :
  projection r = Ok (e, m) → keeps remembers m.
Proof.
  intros Hp.
  set (r' := {| ir_delivery := r.(ir_delivery); ir_brokerTimestampMs := r.(ir_brokerTimestampMs); ir_key := r.(ir_key);
                ir_value := r.(ir_value); ir_headers := r.(ir_headers);
                ir_envelope := value_of (decodeEventEnvelope r.(ir_value)); ir_decodeError := r.(ir_decodeError) |}).
  by destruct (projection_once r' e m eq_refl Hp) as (_ & _ & _ & Hm & _).
Qed.
Lemma projection_handle_keeps (n : Z) (r : IncomingKafkaRecord) (s : ControlDb) :
  remembers s (snd (projection_handle outage n r s)).
Proof.
  unfold projection_handle. destruct (projection r) as [[e m]|] eqn:Hp; [|reflexivity]. cbn [answering snd].
  apply (transact_keeps _ remembers). by eapply projection_keeps.
Qed.
Lemma projection_exhausted_keeps (r : IncomingKafkaRecord) (e : thrown) (n : Z) (s : ControlDb) :
  remembers s (snd (projection_exhausted outage r e n s)).
Proof.
  unfold projection_exhausted, projection_quarantine. destruct e; try reflexivity; cbn [snd];
    apply (transact_keeps _ remembers); intros s0 b s1 Hs; by apply quarantine_remembers in Hs as [? _].
Qed.
Lemma projection_kept (r : IncomingKafkaRecord) (s s' : ControlDb) :
  remembers s s' → projection_accounted r s → projection_accounted r s'.
Proof.
  intros [Hr Hp] [(e & He & [x Hx])|[x Hx]]; [left; exists e; split; [done|]; exists x|right; exists x];
    by eapply lookup_weaken.
Qed.

#[export] Instance projection_ingress_laws :
  IngressLaws (H0 := projection_ingress outage) ControlDb (λ _, True) remembers projection_accounted.
Proof.
  split; cbn.
  - apply _.
  - done.
  - intros r s s' _. apply projection_kept.
  - apply projection_handle_keeps.
  - apply projection_exhausted_keeps.
  - intros n r s v s' _ Hr (e & m & b & Hp & Hs)%projection_handle_Ok.
    destruct (projection_once r e m Hr Hp) as (event & He & <- & _ & Hrec & _). left. exists event. split; [done|].
    by eapply Hrec.
  - intros r e n s v s' _ _. unfold projection_exhausted. destruct e; [apply projection_quarantine_poisoned..|done].
Qed.

(** A record handled once is a duplicate ever after. *)
Lemma handled_once (n n' : Z) (r : IncomingKafkaRecord) (s s1 s2 : ControlDb) (v : MessageHandlingResult) :
  genuine r → projection_handle outage n r s = (Ok v, s1) → remembers s1 s2 → outage n' = None →
  ∃ v', projection_handle outage n' r s2 = (Ok v', s2) ∧ v'.(mh_outcome) = duplicate_.
Proof.
  intros Hr (e & m & b & Hp & Hs)%projection_handle_Ok [Hre _] Ho.
  destruct (projection_once r e m Hr Hp) as (event & _ & _ & _ & Hrec & Hdup).
  destruct (Hrec s b s1 Hs) as [x Hx]. unfold projection_handle. rewrite Hp. unfold answering, transact, withTransaction.
  rewrite Ho, Hdup; [by eexists|]. exists x. by eapply lookup_weaken.
Qed.
End laws.

(** ** Delivery to the read model *)

Section guarantee.
Context `{Platform, Runtime} (outage : Z → option error).
#[local] Instance projecting : Ingress ControlDb := projection_ingress outage.

(** C25: No projection record is lost and none is applied twice.  Whichever of
    the three topics a consumer reads, and however it fails, crashes between
    its transaction and its offset commit, and is restarted, while the API and
    the other consumers commit what they will: every record below the committed
    offset is accounted for (its event is in the inbox or its coordinates are
    in the poison table), the offset never goes back, and a record that was
    once handled is a duplicate that changes nothing at every later state. *)
Theorem no_projection_record_is_lost (log : Z → option KafkaMessage) (topic_name : string) (part max : Z)
    (s s' : ControlDb) (committed : Z)
    (Hrun : rtc (consumes (world := remembers) log topic_name part max) (s, 0) (s', committed)) :
  (∀ o m, 0 ≤ o < committed → log o = Some m → ∃ now_, projection_accounted (incoming topic_name part now_ m) s')
  ∧ (∀ s2 committed2, consumes (world := remembers) log topic_name part max (s', committed) (s2, committed2) →
       committed ≤ committed2)
  ∧ (∀ c t, remembers s' (step c t s'))
  ∧ ∀ m now_ n n' v s1 s2, let r := incoming topic_name part now_ m in
      handle n r s' = (Ok v, s1) → remembers s1 s2 → outage n' = None →
      ∃ v', handle n' r s2 = (Ok v', s2) ∧ v'.(mh_outcome) = duplicate_.
Proof.
  pose proof (no_record_is_lost log topic_name part max s (s', committed) I Hrun) as [Hsound Hall].
  split_and!; [exact Hall| | |].
  - intros s2 committed2 Hstep. exact (consumes_forward log topic_name part max _ _ I Hstep).
  - intros c t. destruct (step_cases c t s') as [->|Hs]; [done|]. by eapply body_remembers.
  - intros m now_ n n' v s1 s2 r Hh Hw Ho. by eapply (handled_once outage n n' r s' s1 s2 v).
Qed.
End guarantee.
