(* ===== verification/EventDelivery.v ===== *)
(** * From a committed event to the read model

    The way back: an event the orchestrator committed to its outbox
    ([workflow-store.ts]), carried to the event topic, is decoded, guarded and
    applied by the control API as the very transaction of its projection store;
    or, when it is outside the contract, quarantined for good. *)
From S2P Require Import Prelude JsText Json SshKey JsonParse Domain Ipv4 WorkflowStage Events EventValidation Platform JsonOrder MessageCodec KafkaConsumer ProviderPort WorkflowStore Inbox CommandConsumer ControlDb AcceptStore AcceptCreate Reconciliation Control Projection ControlHistory Acceptance ReadModel EventCodec Wire Delivery ProjectionConsumer.
From Stdlib Require Import ZArith Lia Bool Ascii String.
From stdpp Require Import base decidable list strings gmap.
Open Scope string_scope.
Open Scope Z_scope.
Open Scope prog_scope.

(** A row of the orchestrator's outbox that carries the event [e]: a first
    delivery, with an envelope the transport accepts. *)
Record event_row `{Platform, Runtime} (o : OutboxRow) (e : WorkflowEvent) : Prop := {
  er_payload : o.(ob_payload) = P_event e;
  er_id : uuidPattern o.(ob_outbox_id) = true;
  er_generation : o.(ob_replay_generation) = 0;
  er_wire : wire_ok (event_record e);
  er_headed : headed_event e;
  er_dated : Forall dated (event_dates e.(data));
}.
(** The four events the event topic is for. *)
Definition workflow_event (e : WorkflowEvent) : Prop := match e.(data) with DeadLettered _ => False | _ => True end.

Section delivery.
Context `{Platform, Runtime} (outage : Z → option error).

Lemma carried_event (o : OutboxRow) (e : WorkflowEvent) (msg : KafkaMessage) (topic_name : string) (part now_ : Z) :
  event_row o e → carries o (event_record e) msg →
  let r := incoming topic_name part now_ msg in
  r.(ir_decodeError) = None ∧ r.(ir_delivery).(replayGeneration) = 0
  ∧ ∃ e', decodeEventEnvelope r.(ir_value) = Ok e' ∧ r.(ir_envelope) = Some e' ∧ same_record (event_record e) e'
    ∧ guard_of e.(data) e' = event_ok e.(data) ∧ typed_event e' = Some e.
Proof.
  intros [Hp Ho Hg Hw Hh Hd] Hc r.
  destruct (carried_is_decoded o (event_record e) msg topic_name part now_ Hc Hw Ho Hg) as (H1 & H2 & e' & H3 & H4 & H5).
  fold r in H1, H2, H3, H4. split_and!; [done|done|]. exists e'. split_and!; [done|done|done| |].
  - by rewrite <- (guard_same _ _ _ H5), guard_is_contract.
  - apply typed_back; [done|apply Hh|done].
Qed.

(** Only the guard of its own schema can accept a record. *)
Lemma workflow_guard (e : WorkflowEvent) (r : record) :
  workflow_event e → r.(envelope).(schemaName) = schema_of e.(data) → is_workflow_event r = guard_of e.(data) r.
Proof.
  intros He Hs. unfold is_workflow_event, isWorkflowProgressedV1, isInstanceMutationCompletedV1,
    isInstanceMutationFailedV1, isProvisioningReplayResolvedV1, headed. rewrite Hs.
  unfold workflow_event in He. destruct (data e); try done; cbn [schema_of String.eqb Ascii.eqb Bool.eqb andb];
    unfold guard_of, isWorkflowProgressedV1, isInstanceMutationCompletedV1, isInstanceMutationFailedV1,
    isProvisioningReplayResolvedV1, headed; rewrite Hs; cbn [schema_of String.eqb Ascii.eqb Bool.eqb andb];
    by rewrite ?orb_false_r.
Qed.

(** What the consumer does with a carried event. *)
Lemma carried_projection (o : OutboxRow) (e : WorkflowEvent) (msg : KafkaMessage) (part now_ : Z) :
  event_row o e → workflow_event e → carries o (event_record e) msg →
  let r := incoming EVENT_TOPIC part now_ msg in
  projection r = if event_ok e.(data) then Ok (e.(envelope), applyWorkflowEvent e r.(ir_delivery))
                 else Err projection_unsupported.
Proof.
  intros Ho He Hc r. destruct (carried_event o e msg EVENT_TOPIC part now_ Ho Hc) as (_ & _ & e' & Hd & _ & [Henv _] & Hg & Ht).
  fold r in Hd. unfold projection, workflowEvent. change (topic (ir_delivery r)) with EVENT_TOPIC.
  cbn [EVENT_TOPIC RECONCILIATION_TOPIC String.eqb Ascii.eqb Bool.eqb]. rewrite Hd. cbn [rbind].
  rewrite (workflow_guard e) by (done || rewrite <- Henv; apply Ho). rewrite Hg.
  destruct (event_ok (data e)); [|done]. cbn [rbind]. by rewrite Ht.
Qed.

(** C8: A committed event reaches the read model.  A Kafka message that carries
    an event of the orchestrator's outbox, within the contract's bounds, is
    decoded without an error, and the control API's handler does exactly what
    its projection store does with the event that was committed: the same
    transaction on the same identity, reported as handled or as a duplicate. *)
Theorem committed_event_is_projected (o : OutboxRow) (e : WorkflowEvent) (msg : KafkaMessage) (part now_ n : Z)
    (s : ControlDb)
    (Ho : event_row o e) (He : workflow_event e) (Hc : carries o (event_record e) msg) (Hok : event_ok e.(data) = true)
    (Hup : outage n = None) :
  let r := incoming EVENT_TOPIC part now_ msg in
  r.(ir_decodeError) = None
  ∧ projection_handle outage n r s
    = match withTransaction (applyWorkflowEvent e r.(ir_delivery)) s with
      | (Ok b, s') => (Ok {| mh_outcome := applied_outcome b; mh_schemaName := e.(envelope).(schemaName);
                             mh_occurredAtMs := e.(envelope).(occurredAt) |}, s')
      | (Err x, s') => (Err (Other x), s')
      end.
Proof.
  intros r. destruct (carried_event o e msg EVENT_TOPIC part now_ Ho Hc) as (Herr & _). split; [exact Herr|].
  unfold projection_handle. unfold r. rewrite (carried_projection o e msg part now_ Ho He Hc), Hok.
  unfold answering, transact. rewrite Hup. by destruct (withTransaction _ s) as [[b|x] s'].
Qed.

(** ** Outside the contract *)

Lemma attempts_refused (max : Z) (more : nat) (n : Z) (r : IncomingKafkaRecord) (t : thrown) (s : ControlDb) :
  r.(ir_decodeError) = None → projection r = Err t →
  attempts (H := projection_ingress outage) max more n (λ _, None) r s = projection_exhausted outage r t max s.
Proof.
  intros Hd Hp. revert n. induction more as [|more IH]; intros n; cbn [attempts]; rewrite Hd; cbn [handle projection_ingress exhausted];
    unfold projection_handle; rewrite Hp; [done|]. apply IH.
Qed.

(** No receipt of the consumer came from the record's place in the log. *)
Definition unread (consumer : string) (d : MessageDeliveryIdentity) (s : ControlDb) : Prop :=
  map_Forall (λ k x, k.1.1 = consumer → x ≠ coordinates d) s.(event_receipts).

Lemma receipt_unread (consumer event : string) (d : MessageDeliveryIdentity) (s : ControlDb) :
  unread consumer d s → ∃ b s', insertReceipt consumer event d s = Ok (b, s') ∧ same_models s s'
    ∧ received consumer event d.(replayGeneration) s'.
Proof.
  intros Hu. unfold insertReceipt, tbind, tget. destruct (event_receipts s !! _) as [x|] eqn:E.
  - exists false, s. split_and!; [done|reflexivity|by exists x].
  - assert (Hall : forallb (λ p, negb (String.eqb (fst (fst (fst p))) consumer && bool_decide (snd p = coordinates d)))
                     (map_to_list (event_receipts s)) = true).
    { apply forallb_forall. intros [k x] Hin. apply list_elem_of_In, elem_of_map_to_list in Hin.
      specialize (Hu k x Hin). cbn in *. destruct (String.eqb_spec k.1.1 consumer); [|done].
      rewrite bool_decide_eq_false_2; [done|by apply Hu]. }
    unfold tguard. rewrite Hall. do 2 eexists. split; [reflexivity|]. split; [reflexivity|].
    eexists. cbn. apply lookup_insert_eq.
Qed.

(** An event outside the contract is lost.  A committed event that the
    contract's bounds exclude (a completion whose observation measured nothing,
    or a machine larger than the contract knows) is quarantined: the offset
    passes it, neither model changes, so the operation it ends stays unfinished
    and its instance busy; and because its receipt is written too, the event is
    a duplicate at every later state, however it is delivered again. *)
Theorem event_outside_the_contract_is_lost (o : OutboxRow) (e : WorkflowEvent) (msg : KafkaMessage)
    (part now_ max : Z) (s : ControlDb)
    (Ho : event_row o e) (He : workflow_event e) (Hc : carries o (event_record e) msg) (Hbad : event_ok e.(data) = false)
    (Hup : outage 0 = None) (Hnew : unread EVENT_CONSUMER_NAME (incoming EVENT_TOPIC part now_ msg).(ir_delivery) s) :
  ∃ s', eachMessage (H := projection_ingress outage) max EVENT_TOPIC part now_ (λ _, None) msg s
        = (Some (msg.(km_offset) + 1), s')
    ∧ same_models s s'
    ∧ ∀ d s2, remembers s' s2 → d.(replayGeneration) = 0 → applyWorkflowEvent e d s2 = Ok (false, s2).
Proof.
  set (r := incoming EVENT_TOPIC part now_ msg) in *.
  destruct (carried_event o e msg EVENT_TOPIC part now_ Ho Hc) as (Herr & Hgen & e' & _ & Henv & [Heq _] & _).
  fold r in Herr, Hgen, Henv. pose proof (carried_projection o e msg part now_ Ho He Hc) as Hp. fold r in Hp. rewrite Hbad in Hp.
  unfold eachMessage, handleWithRetry. fold r. rewrite (attempts_refused _ _ _ _ _ _ Herr Hp).
  cbn [projection_exhausted projection_unsupported]. unfold projection_quarantine, transact, withTransaction. rewrite Hup.
  assert (Hid : present (eventId <$> (envelope <$> ir_envelope r)) = Some e.(envelope).(eventId)).
  { rewrite Henv. cbn. rewrite <- Heq. cbn. unfold present. cbn.
    pose proof (wo_eventId _ (er_wire _ _ Ho)) as Hu. cbn in Hu. by destruct (eventId (envelope e)). }
  unfold quarantineProjection, tbind, tget, tmodify, tret. rewrite Hid.
  change (if String.eqb r.(ir_delivery).(topic) "provisioning.dlq.v1" then DLQ_CONSUMER_NAME else EVENT_CONSUMER_NAME)
    with EVENT_CONSUMER_NAME. cbv zeta. case_bool_decide as Hfresh.
  all: match goal with |- context [insertReceipt _ _ _ ?s1] =>
    destruct (receipt_unread EVENT_CONSUMER_NAME e.(envelope).(eventId) r.(ir_delivery) s1 Hnew) as (b & s' & -> & Hsame & Hrec) end.
  all: cbn [fst snd]; exists s'; split; [done|]; split; [first [exact Hsame|etrans; [|exact Hsame]; reflexivity]|].
  all: intros d s2 [Hkeep _] Hd; apply received_twice; destruct Hrec as [x Hx]; exists x.
  all: eapply lookup_weaken; [|exact Hkeep]; by rewrite Hd, <- Hgen.
Qed.
End delivery.

(** ** Concrete deliveries *)

(** The row of an event, as the orchestrator's outbox holds it. *)
Definition sample_event_row (e : WorkflowEvent) : OutboxRow :=
  {| ob_outbox_id := sample_uuid; ob_topic := EVENT_TOPIC; ob_payload := P_event e; ob_tracingspancontext := "";
     ob_replay_generation := 0; ob_occurred_at := e.(envelope).(occurredAt) |}.
Definition event_message (e : WorkflowEvent) : KafkaMessage :=
  carried_message (sample_event_row e) (event_record (H := sample_platform) e).
Lemma sample_event_row_ok (m : option Z) :
  event_row (H := sample_platform) (H0 := sample_runtime) (sample_event_row (sample_completed m)) (sample_completed m).
Proof.
  split; try reflexivity.
  - split; try reflexivity; try (split; vm_compute; discriminate). eexists. reflexivity.
  - split_and!; reflexivity.
  - constructor; [reflexivity|constructor].
Qed.
Lemma sample_carries (m : option Z) :
  m = None ∨ m = Some 2048 →
  carries (H := sample_platform) (H0 := sample_runtime) (sample_event_row (sample_completed m))
    (event_record (H := sample_platform) (sample_completed m)) (event_message (sample_completed m)).
Proof.
  intros [->| ->]; (split; [reflexivity|vm_compute; reflexivity| |vm_compute; reflexivity..]);
    (do 2 eexists; split; [reflexivity|]; split; [vm_compute; discriminate|]; split; [|reflexivity]; vm_compute; reflexivity).
Qed.

(** A completion for an operation the read model does not have. *)
Lemma committed_event_is_projected_witness :
  ∃ x, projection_handle (H := sample_platform) (H0 := sample_runtime) (λ _, None) 1
         (incoming (H := sample_runtime) EVENT_TOPIC 0 7 (event_message (sample_completed (Some 2048)))) empty_control
       = (Err (Other x), empty_control).
Proof.
  pose proof (committed_event_is_projected (H := sample_platform) (H0 := sample_runtime) (λ _, None) _ _ _ 0 7 1 empty_control
    (sample_event_row_ok (Some 2048)) I (sample_carries (Some 2048) (or_intror eq_refl)) ltac:(vm_compute; reflexivity) eq_refl)
    as [_ Hh].
  eexists. etransitivity; [exact Hh|]. vm_compute. reflexivity.
Defined.

Lemma event_outside_the_contract_is_lost_witness :
  ∃ s', eachMessage (H := projection_ingress (H := sample_platform) (H0 := sample_runtime) (λ _, None)) (H0 := sample_runtime)
          3 EVENT_TOPIC 0 7 (λ _, None) (event_message (sample_completed None)) empty_control = (Some 1, s')
    ∧ same_models empty_control s'.
Proof.
  destruct (event_outside_the_contract_is_lost (H := sample_platform) (H0 := sample_runtime) (λ _, None) _ _ _ 0 7 3 empty_control
    (sample_event_row_ok None) I (sample_carries None (or_introl eq_refl)) ltac:(vm_compute; reflexivity) eq_refl
    (map_Forall_empty _)) as (s' & Hm & Hs & _).
  exists s'. split; [exact Hm|exact Hs].
Defined.

(** A record outside the contract and then one that is not JSON. *)
Definition projection_log (o : Z) : option KafkaMessage :=
  if o =? 0 then Some (event_message (sample_completed None)) else if o =? 1 then Some (garbage_message 1) else None.
#[local] Existing Instance sample_runtime.
#[local] Instance sample_projecting : Ingress ControlDb := projection_ingress (H := sample_platform) (λ _, None).
Definition read_event (m : KafkaMessage) (s : ControlDb) : option Z * ControlDb :=
  eachMessage 3 EVENT_TOPIC 0 7 (λ _, None) m s.
Definition read_once : ControlDb := snd (read_event (event_message (sample_completed None)) empty_control).
Definition read_twice : ControlDb := snd (read_event (garbage_message 1) read_once).
Lemma read_step (o : Z) (m : KafkaMessage) (s : ControlDb) (next : Z) :
  next_record projection_log o m → fst (read_event m s) = Some next →
  consumes (world := remembers) projection_log EVENT_TOPIC 0 3 (s, o) (snd (read_event m s), next).
Proof.
  intros Hm Hn. apply (consume_commit projection_log EVENT_TOPIC 0 3 s o m 7 (λ _, None)); [done|].
  unfold read_event in *. destruct (eachMessage _ _ _ _ _ _ _). cbn in *. by rewrite Hn.
Qed.
Lemma no_projection_record_is_lost_witness :
  ∃ now_, projection_accounted (incoming EVENT_TOPIC 0 now_ (garbage_message 1)) read_twice.
Proof.
  assert (Hrun : rtc (consumes (world := remembers) projection_log EVENT_TOPIC 0 3) (empty_control, 0) (read_twice, 2)).
  { eapply rtc_l; [apply (read_step 0 (event_message (sample_completed None)) empty_control 1)|];
      [split_and!; [done|vm_compute; reflexivity|intros; cbn in *; lia]|vm_compute; reflexivity|].
    eapply rtc_l; [apply (read_step 1 (garbage_message 1) read_once 2)|apply rtc_refl];
      [split_and!; [done|vm_compute; reflexivity|intros; cbn in *; lia]|vm_compute; reflexivity]. }
  apply (proj1 (no_projection_record_is_lost (H := sample_platform) (λ _, None) projection_log EVENT_TOPIC 0 3
    empty_control read_twice 2 Hrun) 1); [lia|reflexivity].
Defined.
