(* ===== verification/SagaLogic.v ===== *)
(** * A logic for effectful steps

    [wp allowed h m Q]: after the exchanges [h], the program [m] performs only
    effects that are [allowed] given everything exchanged before them, and it
    ends with exchanges and an outcome that satisfy [Q].  Proofs follow the
    program; [wp_sound] carries the verdict over to every trace. *)
From S2P Require Import Prelude Saga.
From stdpp Require Import base list.

Section logic.
Context {E : Type} {reply : E → Type} {X : Type}.
Abbreviation history := (list (exchange reply)).

Fixpoint wp {A : Type} (allowed : history → E → Prop) (h : history) (m : saga reply (X := X) A)
    (Q : history → result X A → Prop) : Prop :=
  match m with
  | Ret a => Q h (Ok a)
  | Throw x => Q h (Err x)
  | Vis e k => allowed h e ∧ ∀ r, wp allowed (h ++ [Exchange e r]) (k r) Q
  end.

Section rules.
Context {A B : Type} (allowed : history → E → Prop).

Lemma wp_mono (h : history) (m : saga reply (X := X) A) (P Q : history → result X A → Prop) :
  (∀ h' o, P h' o → Q h' o) → wp allowed h m P → wp allowed h m Q.
Proof.
  intros HPQ. revert h. induction m as [a|x|e k IH]; intros h; simpl; [apply HPQ..|].
  intros [He Hk]. split; [done|]. intros r. apply IH, Hk.
Qed.

(** More may be allowed. *)
Lemma wp_allow (allowed' : history → E → Prop) (h : history) (m : saga reply (X := X) A) (Q : history → result X A → Prop) :
  (∀ h' e, allowed h' e → allowed' h' e) → wp allowed h m Q → wp allowed' h m Q.
Proof.
  intros Ha. revert h. induction m as [a|x|e k IH]; intros h; simpl; [done..|].
  intros [He Hk]. split; [by apply Ha|]. intros r. apply IH, Hk.
Qed.

Lemma wp_bind (h : history) (m : saga reply (X := X) A) (f : A → saga reply B) (Q : history → result X B → Prop) :
  wp allowed h m (λ h' o, match o with Ok a => wp allowed h' (f a) Q | Err x => Q h' (Err x) end) →
  wp allowed h (sbind m f) Q.
Proof.
  revert h. induction m as [a|x|e k IH]; intros h; simpl; [done..|].
  intros [He Hk]. split; [done|]. intros r. apply IH, Hk.
Qed.

Lemma wp_catch (h : history) (m : saga reply (X := X) A) (f : X → saga reply A) (Q : history → result X A → Prop) :
  wp allowed h m (λ h' o, match o with Ok a => Q h' (Ok a) | Err x => wp allowed h' (f x) Q end) →
  wp allowed h (try_catch m f) Q.
Proof.
  revert h. induction m as [a|x|e k IH]; intros h; simpl; [done..|].
  intros [He Hk]. split; [done|]. intros r. apply IH, Hk.
Qed.

Lemma wp_and (h : history) (m : saga reply (X := X) A) (P Q : history → result X A → Prop) :
  wp allowed h m P → wp allowed h m Q → wp allowed h m (λ h' o, P h' o ∧ Q h' o).
Proof.
  revert h. induction m as [a|x|e k IH]; intros h; simpl; [done..|].
  intros [He HP] [_ HQ]. split; [done|]. intros r. apply IH; [apply HP|apply HQ].
Qed.
End rules.

(** What was exchanged before stays exchanged. *)
Lemma wp_extends {A : Type} (h : history) (m : saga reply (X := X) A) :
  wp (λ _ _, True) h m (λ h' _, ∃ t, h' = h ++ t).
Proof.
  revert h. induction m as [a|x|e k IH]; intros h; simpl; [by exists []; rewrite app_nil_r..|].
  split; [done|]. intros r. eapply wp_mono; [|apply IH]. intros h' o [t ->]. exists (Exchange e r :: t). by rewrite <- app_assoc.
Qed.

Lemma wp_sound {A : Type} (allowed : history → E → Prop) (m : saga reply (X := X) A) (Q : history → result X A → Prop)
    (h t : history) (o : result X A) :
  wp allowed h m Q → traces m t o →
  Q (h ++ t) o ∧ ∀ t1 e r t2, t = t1 ++ Exchange e r :: t2 → allowed (h ++ t1) e.
Proof.
  revert h t. induction m as [a|x|e k IH]; intros h t; simpl.
  - intros HQ [-> ->]. rewrite app_nil_r. split; [done|]. by intros [] ?.
  - intros HQ [-> ->]. rewrite app_nil_r. split; [done|]. by intros [] ?.
  - intros [He Hk] (r & t' & -> & Ht). destruct (IH r (h ++ [Exchange e r]) t' (Hk r) Ht) as [HQ Hall].
    rewrite <- app_assoc in HQ. split; [exact HQ|]. intros [|x t1] e0 r0 t2; simpl.
    + intros [= <- _ _]. by rewrite app_nil_r.
    + intros [= <- ->]. specialize (Hall t1 e0 r0 t2 eq_refl). by rewrite <- app_assoc in Hall.
Qed.

(** A program whose every effect satisfies [P], whatever happened before. *)
Definition does {A : Type} (P : E → Prop) (m : saga reply (X := X) A) : Prop :=
  ∀ h, wp (λ _ e, P e) h m (λ _ _, True).

Section does.
Context {A B : Type} (P : E → Prop).

Lemma does_ret (a : A) : does P (Ret a).
Proof. by intros h. Qed.
Lemma does_throw (x : X) : does P (A := A) (Throw x).
Proof. by intros h. Qed.
Lemma does_vis (e : E) (k : reply e → saga reply A) : P e → (∀ r, does P (k r)) → does P (Vis e k).
Proof. intros He Hk h. split; [done|]. intros r. apply Hk. Qed.
Lemma does_bind (m : saga reply A) (f : A → saga reply B) : does P m → (∀ a, does P (f a)) → does P (sbind m f).
Proof. intros Hm Hf h. apply wp_bind. eapply wp_mono; [|apply Hm]. intros h' [a|x] _; [apply Hf|done]. Qed.
Lemma does_catch (m : saga reply A) (f : X → saga reply A) : does P m → (∀ x, does P (f x)) → does P (try_catch m f).
Proof. intros Hm Hf h. apply wp_catch. eapply wp_mono; [|apply Hm]. intros h' [a|x] _; [done|apply Hf]. Qed.
Lemma does_mono (P' : E → Prop) (m : saga reply A) : (∀ e, P e → P' e) → does P m → does P' m.
Proof. intros HP Hm h. apply (wp_allow (λ _ e, P e)); [|apply Hm]. intros h' e. apply HP. Qed.

Lemma does_traces (m : saga reply A) (t : history) (o : result X A) :
  does P m → traces m t o → Forall (λ x, P (effect_of x)) t.
Proof.
  intros Hm Ht. apply Forall_forall. intros [e r] Hin. apply list_elem_of_split in Hin as (t1 & t2 & ->).
  destruct (wp_sound _ m _ [] _ o (Hm []) Ht) as [_ Hall]. by eapply Hall.
Qed.

(** Such a program fits wherever its effects are allowed. *)
Lemma wp_does (allowed : history → E → Prop) (h : history) (m : saga reply (X := X) A) (Q : history → result X A → Prop) :
  does P m →
  (∀ t e, Forall (λ x, P (effect_of x)) t → P e → allowed (h ++ t) e) →
  (∀ t o, Forall (λ x, P (effect_of x)) t → traces m t o → Q (h ++ t) o) →
  wp allowed h m Q.
Proof.
  intros Hm Ha. revert Q.
  enough (Hgen : ∀ t Q, Forall (λ x, P (effect_of x)) t → wp (λ _ e, P e) (h ++ t) m (λ _ _, True) →
    (∀ t' o, Forall (λ x, P (effect_of x)) t' → traces m t' o → Q (h ++ t ++ t') o) → wp allowed (h ++ t) m Q).
  { intros Q HQ. specialize (Hgen [] Q). rewrite app_nil_r in Hgen. by apply Hgen; [|apply Hm|]. }
  clear Hm. induction m as [a|x|e k IH]; intros t Q Ht; simpl.
  1,2: intros _ HQ; rewrite <- (app_nil_r t); by apply HQ.
  intros [He Hk] HQ. split; [by apply Ha|]. intros r. rewrite <- app_assoc. apply IH.
  - apply Forall_app. split; [done|]. by constructor.
  - rewrite app_assoc. apply Hk.
  - intros t' o Ht' Htr. rewrite <- app_assoc. apply HQ; [by constructor|]. by exists r, t'.
Qed.
End does.
End logic.

(** ** Runs *)

Section replies.
Context {E : Type} {reply : E → Type} {X A : Type}.
(** A run answers every effect as its outside does. *)
Definition as_outside (outside : ∀ e, reply e) (x : exchange reply) : Prop :=
  match x with Exchange e r => r = outside e end.
Lemma run_replies (outside : ∀ e, reply e) (m : saga reply (X := X) A) : Forall (as_outside outside) (fst (run outside m)).
Proof.
  induction m as [a|x|e k IH]; cbn; [constructor..|]. specialize (IH (outside e)).
  destruct (run outside (k (outside e))) as [t o]. by constructor.
Qed.
End replies.

#[export] Hint Resolve does_ret does_throw does_bind does_catch : program.
