(* ===== verification/Ownership.v ===== *)
(** * Ownership markers and the bounds of the adapters

    The vocabulary both Proxmox adapters share ([proxmox-provider.ts]): the
    marker written to the first line of a machine's description, its parser and
    its comparison, the resource bounds, and the sanitised failure. *)
From S2P Require Import Prelude JsText Json SshKey Domain WorkflowStage Events Saga ProviderPort JsonParse.
From Stdlib Require Import ZArith Lia Bool Ascii String.
From stdpp Require Import base decidable list strings.
Open Scope string_scope.
Open Scope Z_scope.
Open Scope prog_scope.

Definition markerPrefix : string := "private-cloud-control:".
Definition MAXIMUM_CPU_COUNT : Z := 8.
Definition MINIMUM_MEMORY_MIB : Z := 512.
Definition MAXIMUM_MEMORY_MIB : Z := 16384.
Definition MINIMUM_DISK_GIB : Z := 1.
Definition MAXIMUM_DISK_GIB : Z := 128.
Definition MAXIMUM_SNAPSHOTS : Z := 8.
Definition RETENTION_TRAILER_KEY : string := "retained-until".

(** [new ProviderTransportError('protocol_error', ..., { retryable: false })]. *)
Definition refused : ProviderTransportError := transportError protocol_error (Some false).

Definition required (value : option string) : result ProviderTransportError string :=
  match present value with Some v => Ok v | None => Err refused end.

Definition failure (category : FailureCategory) (code safeMessage : string) : ProviderMutationResult :=
  {| pm_state := Some RESULT_REJECTED; pm_providerTaskReference := None; pm_providerResourceId := None;
     pm_failure := Some {| pf_category := Some category; pf_code := Some code; pf_safeMessage := Some safeMessage;
                           pf_retryAfterMilliseconds := None |} |}.

(** ** Writing *)

Definition newline : ascii := "010"%char.
Definition markers_json (m : OwnershipMarkers) : json :=
  JObj [("managedBy", JStr m.(managedBy)); ("environment", JStr m.(environment));
        ("projectId", JStr m.(marker_projectId)); ("instanceId", JStr m.(marker_instanceId));
        ("createOperationId", JStr m.(marker_createOperationId))].
Definition ownershipDescription (m : OwnershipMarkers) : string :=
  markerPrefix ++ default "undefined" (stringify (markers_json m)).
Definition describedWithTrailer (m : OwnershipMarkers) (key value : string) : string :=
  ownershipDescription m ++ String newline (key ++ "=" ++ value).

(** ** Reading *)

(** What a description carries; the five members may be any truthy value. *)
Record ParsedMarkers : Type := {
  read_managedBy : json; read_environment : json; read_projectId : json; read_instanceId : json;
  read_createOperationId : json;
}.

(** [description.startsWith(prefix)] and the rest after it. *)
Fixpoint after_prefix (prefix s : string) : option string :=
  match prefix, s with
  | EmptyString, _ => Some s
  | String a prefix, String b s => if Ascii.eqb a b then after_prefix prefix s else None
  | String _ _, EmptyString => None
  end.

(** The members of a parsed value; reading one of [null] throws, and every
    value that is not an object has none. *)
Definition members_of (v : json) : option (list (string * json)) :=
  match v with JObj fields => Some fields | _ => None end.
(** [const [marker] = text.split('\n')]. *)
Definition first_line (s : string) : string := match split_on newline s with line :: _ => line | [] => "" end.
Definition parseOwnership (description : option string) : option ParsedMarkers :=
  description ← description;
  marked ← after_prefix markerPrefix description;
  value ← JSON_parse (first_line marked);
  fields ← members_of value;
  let read name := field name fields in
  if js_truthy (read "managedBy") && js_truthy (read "environment") && js_truthy (read "projectId")
     && js_truthy (read "instanceId") && js_truthy (read "createOperationId")
  then Some {| read_managedBy := read "managedBy"; read_environment := read "environment";
               read_projectId := read "projectId"; read_instanceId := read "instanceId";
               read_createOperationId := read "createOperationId" |}
  else None.

(** [value === text]. *)
Definition is_text (v : json) (s : string) : bool := match v with JStr x => String.eqb x s | _ => false end.
Definition markersMatch (actual : option ParsedMarkers) (expected : OwnershipMarkers) : bool :=
  match actual with
  | None => false
  | Some a =>
      is_text a.(read_managedBy) expected.(managedBy) && is_text a.(read_environment) expected.(environment)
      && is_text a.(read_projectId) expected.(marker_projectId) && is_text a.(read_instanceId) expected.(marker_instanceId)
      && is_text a.(read_createOperationId) expected.(marker_createOperationId)
  end.

(** ** The marker survives *)

Definition all_present (m : OwnershipMarkers) : bool :=
  truthy m.(managedBy) && truthy m.(environment) && truthy m.(marker_projectId) && truthy m.(marker_instanceId)
  && truthy m.(marker_createOperationId).

Lemma append_nil_r (s : string) : s ++ "" = s.
Proof. induction s as [|c s IH]; [done|]. change (String c s ++ "") with (String c (s ++ "")). by rewrite IH. Qed.
Lemma append_assoc (a b c : string) : (a ++ b) ++ c = a ++ b ++ c.
Proof.
  induction a as [|x a IH]; [done|].
  change ((String x a ++ b) ++ c) with (String x ((a ++ b) ++ c)). change (String x a ++ b ++ c) with (String x (a ++ b ++ c)).
  by rewrite IH.
Qed.
Lemma after_prefix_app (p s : string) : after_prefix p (p ++ s) = Some s.
Proof.
  induction p as [|c p IH]; [done|]. change (String c p ++ s) with (String c (p ++ s)). cbn [after_prefix].
  by rewrite Ascii.eqb_refl.
Qed.

(** No escape of a character is a line break. *)
Definition one_line (s : string) : Prop := Forall (λ c, c ≠ newline) (chars s).
Lemma one_line_app (a b : string) : one_line a → one_line b → one_line (a ++ b).
Proof. unfold one_line. rewrite chars_app. apply Forall_app_2. Qed.
Lemma one_line_cons (c : ascii) (s : string) : c ≠ newline → one_line s → one_line (String c s).
Proof. by constructor. Qed.
Lemma one_line_decide (s : string) : forallb (λ c, negb (Ascii.eqb c newline)) (chars s) = true → one_line s.
Proof.
  intros H%forallb_Forall. apply (Forall_impl _ _ _ H). intros c Hc. destruct (Ascii.eqb_spec c newline); [done|done].
Qed.
Lemma quote_char_one_line (c : ascii) : one_line (quote_char c).
Proof. apply one_line_decide. by destruct c as [[] [] [] [] [] [] [] []]. Qed.
Lemma quoted_body_one_line (s : string) : one_line (quoted_body s).
Proof.
  induction s as [|c s IH]; [by apply one_line_decide|]. rewrite quoted_body_cons.
  apply one_line_app; [apply quote_char_one_line|exact IH].
Qed.
Lemma quote_one_line (s : string) : one_line (quote s).
Proof. apply (Forall_cons_2 (λ c, c ≠ newline) double_quote); [done|apply quoted_body_one_line]. Qed.

Lemma markers_plain (m : OwnershipMarkers) : plain (markers_json m).
Proof.
  constructor.
  - apply (bool_decide_eq_true_1 _). reflexivity.
  - repeat constructor.
Qed.
Lemma marker_one_line (m : OwnershipMarkers) : one_line (json_text_of (markers_json m)).
Proof.
  unfold json_text_of, markers_json. cbn [map fst snd stringify default].
  unfold id.
  cbn [join_with]. repeat first [apply quote_one_line | by apply one_line_decide | apply one_line_app | by apply one_line_cons | apply one_line_cons; [done|]].
Qed.

Lemma chars_newline (s : string) : chars (String newline s) = newline :: chars s.
Proof. reflexivity. Qed.

(** Whatever follows the marker on later lines, reading it is reading the
    marker. *)
Lemma parse_marked (m : OwnershipMarkers) (trailer : string) :
  trailer = "" ∨ (∃ rest, trailer = String newline rest) →
  parseOwnership (Some (ownershipDescription m ++ trailer))
  = if all_present m
    then Some {| read_managedBy := JStr m.(managedBy); read_environment := JStr m.(environment);
                 read_projectId := JStr m.(marker_projectId); read_instanceId := JStr m.(marker_instanceId);
                 read_createOperationId := JStr m.(marker_createOperationId) |}
    else None.
Proof.
  intros Ht. unfold parseOwnership, ownershipDescription. cbn [option_bind mbind option.option_bind].
  destruct (JSON_roundtrip (markers_json m) (markers_plain m)) as [-> Hparse]. cbn [default].
  rewrite append_assoc, after_prefix_app. cbn [option.option_bind mbind].
  assert (Hhead : first_line (json_text_of (markers_json m) ++ trailer) = json_text_of (markers_json m)).
  { unfold first_line. destruct Ht as [->|[rest ->]].
    - rewrite append_nil_r, split_no_sep; [done|apply marker_one_line].
    - rewrite split_app; [done|apply marker_one_line]. }
  unfold id. rewrite Hhead, Hparse. reflexivity.
Qed.

(** C27: A machine stays provably owned.  The marker written at creation, and
    the description a retention rewrites it to, prove exactly the ownership
    they were written for: they match the expected markers when these are the
    written ones and no field of them is empty, and never otherwise; no
    trailer can forge or break the proof. *)
Theorem ownership_survives_retention (m expected : OwnershipMarkers) (key value : string) :
  (markersMatch (parseOwnership (Some (ownershipDescription m))) expected = true ↔ all_present m = true ∧ expected = m)
  ∧ parseOwnership (Some (describedWithTrailer m key value)) = parseOwnership (Some (ownershipDescription m)).
Proof.
  assert (H0 : parseOwnership (Some (ownershipDescription m)) = parseOwnership (Some (ownershipDescription m ++ ""))).
  { by rewrite append_nil_r. }
  unfold describedWithTrailer. rewrite H0, !parse_marked by eauto. split; [|done].
  destruct (all_present m); cbn; [|naive_solver].
  rewrite !andb_true_iff, !String.eqb_eq. destruct m, expected; cbn. naive_solver.
Qed.
