(* ===== verification/Redaction.v ===== *)
(** * Diagnostics and their redaction

    [terraform/diagnostics.ts]: the diagnostics of a Terraform invocation, with
    every known secret replaced before they are kept.  A pattern of the source
    is an escaped literal with the flag [g], so replacing is literal, leftmost
    and not overlapping. *)
From S2P Require Import Prelude JsText Json SshKey Domain WorkflowStage Events JsonParse Ownership.
From Stdlib Require Import ZArith Lia Bool Ascii String.
From stdpp Require Import base decidable list sets strings.
Open Scope string_scope.
Open Scope Z_scope.
Open Scope prog_scope.

(** ** Redaction *)

Definition REDACTION : string := "<redacted>".
Definition MINIMUM_SECRET_PREFIX : nat := 8.

Fixpoint starts (p l : list ascii) : bool :=
  match p, l with
  | [], _ => true
  | a :: p, b :: l => Ascii.eqb a b && starts p l
  | _ :: _, [] => false
  end.
(** Scans [l], of which [skip] more units belong to a match already replaced. *)
Fixpoint replaced (p r : list ascii) (skip : nat) (l : list ascii) : list ascii :=
  match l with
  | [] => []
  | c :: rest =>
      match skip with
      | S skip => replaced p r skip rest
      | O => if starts p l then (r ++ replaced p r (List.length p - 1) rest)%list else c :: replaced p r 0 rest
      end
  end.
Definition replace_all (pattern replacement text : string) : string :=
  of_chars (replaced (chars pattern) (chars replacement) 0 (chars text)).

(** [text.slice(0, n)]. *)
Definition slice_head (n : nat) (s : string) : string := of_chars (take n (chars s)).

Definition patternsFor (secret : string) : list string :=
  secret :: (if Nat.ltb MINIMUM_SECRET_PREFIX (String.length secret) then [slice_head MINIMUM_SECRET_PREFIX secret] else []).

(** [sort((left, right) => right.length - left.length)]: stable. *)
Fixpoint insert_by_length (s : string) (l : list string) : list string :=
  match l with
  | [] => [s]
  | x :: rest => if Nat.ltb (String.length x) (String.length s) then s :: l else x :: insert_by_length s rest
  end.
Definition longest_first (l : list string) : list string := List.fold_left (λ acc s, insert_by_length s acc) l [].
Definition usable (secrets : list string) : list string :=
  longest_first (List.filter (λ s, truthy s && Nat.leb MINIMUM_SECRET_PREFIX (String.length s)) secrets).
Definition redact_one (text secret : string) : string :=
  List.fold_left (λ result pattern, replace_all pattern REDACTION result) (patternsFor secret) text.
Definition redactSecrets (text : string) (secrets : list string) : string :=
  List.fold_left redact_one (usable secrets) text.

(** ** Diagnostics *)

Record TerraformDiagnostic : Set := {
  td_severity : string;
  td_summary : string;
  td_detail : option string;
  td_address : option string;
}.

(** A member of a log line, read at the type the parser casts it to. *)
Definition text_member (name : string) (v : json) : option string :=
  match v with JObj fields => match field name fields with JStr s => Some s | _ => None end | _ => None end.
(** [parsed.diagnostic] when it is truthy. *)
Definition diagnostic_member (v : json) : option json :=
  match v with
  | JObj fields => if js_truthy (field "diagnostic" fields) then Some (field "diagnostic" fields) else None
  | _ => None
  end.

Definition or_else (a b : option string) : option string := match a with Some _ => a | None => b end.
Definition diagnostic_of (secrets : list string) (parsed d : json) : TerraformDiagnostic :=
  {| td_severity := default "error" (or_else (text_member "severity" d) (text_member "@level" parsed));
     td_summary := redactSecrets (default "" (or_else (text_member "summary" d) (text_member "@message" parsed))) secrets;
     td_detail := (λ s, redactSecrets s secrets) <$> present (text_member "detail" d);
     td_address := present (text_member "address" d) |}.

(** The lines that parse as JSON. *)
Definition json_lines (output : string) : list json :=
  omap (λ line, if starts (chars "{") (chars (trim line)) then JSON_parse (trim line) else None) (split_on newline output).
Definition machine_readable (secrets : list string) (parsed : list json) : list TerraformDiagnostic :=
  omap (λ p, diagnostic_of secrets p <$> diagnostic_member p) parsed.
Definition no_machine_readable : string := "Terraform produced no machine-readable diagnostics.".
Definition parseDiagnostics (output : string) (secrets : list string) : list TerraformDiagnostic :=
  let parsed := json_lines output in
  let diagnostics := machine_readable secrets parsed in
  match diagnostics, parsed with
  | [], [] =>
      if truthy (trim output) then
        [{| td_severity := "error"; td_summary := no_machine_readable;
            td_detail := Some (redactSecrets (slice_head 2000 (trim output)) secrets); td_address := None |}]
      else []
  | _, _ => diagnostics
  end.

Definition hasError (diagnostics : list TerraformDiagnostic) : bool :=
  existsb (λ d, String.eqb d.(td_severity) "error") diagnostics.

(** ** Occurrences *)

Fixpoint occurs (p l : list ascii) : bool :=
  starts p l || match l with [] => false | _ :: l => occurs p l end.
(** [text.includes(s)]. *)
Definition contains (text s : string) : bool := occurs (chars s) (chars text).

Lemma starts_app (p q : list ascii) : starts p (p ++ q)%list = true.
Proof. induction p as [|c p IH]; cbn; [done|]. rewrite IH, andb_true_r. apply Ascii.eqb_refl. Qed.
Lemma starts_nil (p : list ascii) : p ≠ [] → starts p [] = false.
Proof. by destruct p. Qed.
Lemma starts_longer (p q l : list ascii) : starts (p ++ q)%list l = true → starts p l = true.
Proof.
  revert l. induction p as [|a p IH]; intros [|b l]; cbn; try done. rewrite !andb_true_iff. intros [? ?]. split; [done|by eapply IH].
Qed.

(** A text free of a mark occurs on one side of it. *)
Lemma starts_before (mark : ascii) (p a b : list ascii) :
  mark ∉ p → starts p (a ++ mark :: b)%list = true → starts p a = true.
Proof.
  revert p. induction a as [|c a IH]; intros [|x p] Hm; cbn; try done.
  - intros [H _]%andb_true_iff. apply Ascii.eqb_eq in H as ->. destruct Hm. by left.
  - rewrite !andb_true_iff. intros [? ?]. split; [done|]. apply IH; [|done]. intros ?. apply Hm. by right.
Qed.
Lemma occurs_beside (mark : ascii) (p a b : list ascii) :
  mark ∉ p → p ≠ [] → occurs p (a ++ mark :: b)%list = true → occurs p a = true ∨ occurs p b = true.
Proof.
  intros Hm Hne. induction a as [|c a IH]; cbn [app occurs]; rewrite orb_true_iff; intros [H|H].
  - apply (starts_before mark p [] b Hm) in H. by rewrite starts_nil in H.
  - by right.
  - left. apply (starts_before mark p (c :: a) b Hm) in H. cbn [occurs]. by rewrite H.
  - destruct (IH H) as [Ha|Hb]; [|by right]. left. rewrite Ha. apply orb_true_r.
Qed.

(** A text that can only occur in what is kept: it has no bracket of the
    replacement and does not occur between them. *)
Definition foreign (h : list ascii) : Prop :=
  h ≠ [] ∧ "<"%char ∉ h ∧ ">"%char ∉ h ∧ occurs h (chars "redacted") = false.

Lemma occurs_after_mark (h rest : list ascii) :
  foreign h → occurs h (chars REDACTION ++ rest)%list = true → occurs h rest = true.
Proof.
  intros (Hne & Hl & Hr & Hin) H.
  destruct (occurs_beside "<" h [] (chars "redacted>" ++ rest)%list Hl Hne H) as [Hn|H1]; [by destruct h|].
  destruct (occurs_beside ">" h (chars "redacted") rest Hr Hne H1) as [Hn|H2]; [congruence|done].
Qed.

(** Scanning only ever shortens the reach of a foreign text: what it starts
    with afterwards it started with before. *)
Lemma starts_replaced (q h l : list ascii) :
  "<"%char ∉ h → starts h (replaced q (chars REDACTION) 0 l) = true → starts h l = true.
Proof.
  revert l. induction h as [|x h IH]; intros l Hl; [done|]. destruct l as [|c l]; [done|].
  cbn [replaced]. destruct (starts q (c :: l)).
  - cbn. intros [H _]%andb_true_iff. apply Ascii.eqb_eq in H as ->. destruct Hl. by left.
  - cbn. rewrite !andb_true_iff. intros [? ?]. split; [done|]. apply IH; [|done]. intros ?. apply Hl. by right.
Qed.
(** Replacing [q] removes [q], and brings in nothing. *)
Lemma replaced_free (q h l : list ascii) (skip : nat) :
  foreign h → h = q ∨ occurs h l = false → occurs h (replaced q (chars REDACTION) skip l) = false.
Proof.
  intros Hh. revert skip. induction l as [|c l IH]; intros skip Hq.
  { cbn. rewrite starts_nil; [done|apply Hh]. }
  assert (Htail : h = q ∨ occurs h l = false).
  { destruct Hq as [?|Ho]; [by left|right]. cbn in Ho. by apply orb_false_iff in Ho as [_ ?]. }
  cbn [replaced]. destruct skip as [|skip]; [|by apply IH].
  destruct (starts q (c :: l)) eqn:Em.
  - apply not_true_is_false. intros H%occurs_after_mark; [|done]. by rewrite IH in H.
  - cbn [occurs]. rewrite IH by done. rewrite orb_false_r. apply not_true_is_false. intros H.
    assert (Hs : starts h (c :: l) = true).
    { apply (starts_replaced q); [apply Hh|]. cbn [replaced]. by rewrite Em. }
    destruct Hq as [->|Ho]; [congruence|]. cbn [occurs] in Ho. by rewrite Hs in Ho.
Qed.
Lemma replace_all_free (q : string) (h : list ascii) (text : string) :
  foreign h → h = chars q ∨ occurs h (chars text) = false → occurs h (chars (replace_all q REDACTION text)) = false.
Proof. intros Hh Hq. unfold replace_all. rewrite chars_of_chars. by apply replaced_free. Qed.

Lemma redact_one_keeps (h : list ascii) (text secret : string) :
  foreign h → occurs h (chars text) = false → occurs h (chars (redact_one text secret)) = false.
Proof.
  intros Hh. unfold redact_one. revert text. induction (patternsFor secret) as [|q l IH]; intros text Ht; [done|].
  cbn. apply IH, replace_all_free; [done|by right].
Qed.
(** The first characters of a secret, which every pass over it removes. *)
Definition head_of (secret : string) : list ascii := take MINIMUM_SECRET_PREFIX (chars secret).
Lemma redact_one_free (text secret : string) :
  foreign (head_of secret) → (MINIMUM_SECRET_PREFIX ≤ String.length secret)%nat →
  occurs (head_of secret) (chars (redact_one text secret)) = false.
Proof.
  intros Hh Hlen. unfold redact_one, patternsFor. destruct (Nat.ltb_spec MINIMUM_SECRET_PREFIX (String.length secret)) as [Hlt|Hge]; cbn.
  - apply replace_all_free; [done|]. left. unfold slice_head. by rewrite chars_of_chars.
  - apply replace_all_free; [done|]. left. unfold head_of. apply take_ge. by rewrite chars_length.
Qed.
Lemma fold_keeps (h : list ascii) (l : list string) (text : string) :
  foreign h → occurs h (chars text) = false → occurs h (chars (List.fold_left redact_one l text)) = false.
Proof.
  intros Hh. revert text. induction l as [|s l IH]; intros text Ht; [done|]. cbn. apply IH. by apply redact_one_keeps.
Qed.
Lemma fold_free (secret : string) (l : list string) (text : string) :
  foreign (head_of secret) → (MINIMUM_SECRET_PREFIX ≤ String.length secret)%nat → secret ∈ l →
  occurs (head_of secret) (chars (List.fold_left redact_one l text)) = false.
Proof.
  intros Hh Hlen. revert text. induction l as [|x l IH]; intros text Hin; [by apply elem_of_nil in Hin|].
  cbn [List.fold_left]. apply elem_of_cons in Hin as [<-|Hin]; [|by apply IH].
  apply fold_keeps; [done|]. by apply redact_one_free.
Qed.

Lemma insert_by_length_elem (s x : string) (l : list string) : x ∈ insert_by_length s l ↔ x = s ∨ x ∈ l.
Proof.
  induction l as [|y l IH]; cbn; [rewrite list_elem_of_singleton; set_solver|].
  case_match; rewrite !elem_of_cons, ?IH; set_solver.
Qed.
Lemma longest_first_elem (x : string) (l : list string) : x ∈ longest_first l ↔ x ∈ l.
Proof.
  unfold longest_first. rewrite <- (app_nil_l l) at 2. generalize (@nil string) as acc.
  induction l as [|s l IH]; intros acc; cbn; [by rewrite app_nil_r|].
  rewrite IH, elem_of_app, insert_by_length_elem. rewrite elem_of_app, elem_of_cons. set_solver.
Qed.
Lemma usable_elem (s : string) (l : list string) :
  s ∈ usable l ↔ s ∈ l ∧ (MINIMUM_SECRET_PREFIX ≤ String.length s)%nat.
Proof.
  unfold usable. rewrite longest_first_elem, list_elem_of_In, filter_In, <- list_elem_of_In, andb_true_iff, Nat.leb_le.
  split; [by intros (? & _ & ?)|]. intros [? Hlen]. split_and!; try done. destruct s; [|done]. unfold MINIMUM_SECRET_PREFIX in Hlen. cbn in Hlen. lia.
Qed.

(** A secret the redactor promises to remove: long enough, and not made of the
    replacement itself. *)
Definition removable (secret : string) : Prop :=
  (MINIMUM_SECRET_PREFIX ≤ String.length secret)%nat ∧ foreign (head_of secret).
Definition free_of (secret text : string) : Prop := occurs (head_of secret) (chars text) = false.

Lemma redacted_free (text secret : string) (secrets : list string) :
  secret ∈ secrets → removable secret → free_of secret (redactSecrets text secrets).
Proof. intros Hin [Hlen Hh]. apply fold_free; [done|done|]. by apply usable_elem. Qed.

(** What is free of the head of a secret is free of the secret. *)
Lemma free_of_whole (secret text : string) : free_of secret text → contains text secret = false.
Proof.
  unfold free_of, contains, head_of. rewrite <- (take_drop MINIMUM_SECRET_PREFIX (chars secret)) at 2.
  generalize (take MINIMUM_SECRET_PREFIX (chars secret)), (drop MINIMUM_SECRET_PREFIX (chars secret)). intros p q.
  induction (chars text) as [|c l IH]; cbn [occurs]; rewrite !orb_false_iff; intros [H1 H2]; split.
  - apply not_true_is_false. intros H%starts_longer. congruence.
  - done.
  - apply not_true_is_false. intros H%starts_longer. congruence.
  - by apply IH.
Qed.

(** C28: Secrets do not survive in the texts of a diagnostic.  Whatever Terraform
    and its provider printed, the summary and the detail of every diagnostic
    kept contain no known secret of eight characters or more, not even its first
    eight, provided those hold no angle bracket and are no part of the word the
    replacement is made of; the one summary the parser writes itself is
    constant.  The severity and the address are kept as they were printed. *)
Theorem diagnostic_texts_hold_no_secret (output secret : string) (secrets : list string) (d : TerraformDiagnostic)
    (Hin : secret ∈ secrets) (Hsecret : removable secret) (Hd : d ∈ parseDiagnostics output secrets) :
  (d.(td_summary) = no_machine_readable
   ∨ free_of secret d.(td_summary) ∧ contains d.(td_summary) secret = false)
  ∧ ∀ detail, d.(td_detail) = Some detail → free_of secret detail ∧ contains detail secret = false.
Proof.
  assert (Hboth : ∀ text, free_of secret (redactSecrets text secrets) ∧ contains (redactSecrets text secrets) secret = false).
  { intros text. pose proof (redacted_free text secret secrets Hin Hsecret). split; [done|by apply free_of_whole]. }
  assert (Hof : ∀ l, d ∈ machine_readable secrets l →
    (free_of secret d.(td_summary) ∧ contains d.(td_summary) secret = false)
    ∧ ∀ detail, d.(td_detail) = Some detail → free_of secret detail ∧ contains detail secret = false).
  { intros l (p & _ & Hp)%list_elem_of_omap. destruct (diagnostic_member p) as [m|]; [|done]. injection Hp as <-. cbn.
    split; [apply Hboth|]. intros detail. destruct (present _); [|done]. intros [= <-]. apply Hboth. }
  revert Hd. unfold parseDiagnostics. destruct (machine_readable secrets (json_lines output)) as [|x l] eqn:E.
  - destruct (json_lines output); [|by intros ?%elem_of_nil]. destruct (truthy _); [|by intros ?%elem_of_nil].
    intros ->%list_elem_of_singleton. cbn. split; [by left|]. intros detail [= <-]. apply Hboth.
  - rewrite <- E. intros Hd. destruct (Hof _ Hd) as [? ?]. by split; [right|].
Qed.

(** The address is not redacted: a resource whose key is a secret shows it. *)
Definition printed_address : string :=
  default "" (stringify (JObj [("@level", JStr "error");
    ("diagnostic", JObj [("summary", JStr "rejected correct-horse-battery"); ("address", JStr "vm.this[correct-horse-battery]")])])).
Theorem address_is_not_redacted :
  parseDiagnostics printed_address ["correct-horse-battery"]
  = [{| td_severity := "error"; td_summary := "rejected <redacted>"; td_detail := None;
        td_address := Some "vm.this[correct-horse-battery]" |}].
Proof. vm_compute. reflexivity. Qed.

(** A provider that prints the password in a message, and once more cut off
    after ten characters. *)
Definition printed : string := "Error: correct-horse-battery rejected, sent correct-ho...".
Definition kept : string := "Error: <redacted> rejected, sent <redacted>ho...".
Definition kept_diagnostic : TerraformDiagnostic :=
  {| td_severity := "error"; td_summary := no_machine_readable; td_detail := Some kept; td_address := None |}.
Lemma printed_is_kept : parseDiagnostics printed ["correct-horse-battery"] = [kept_diagnostic].
Proof. vm_compute. reflexivity. Qed.

Lemma diagnostic_texts_hold_no_secret_witness :
  kept_diagnostic ∈ parseDiagnostics printed ["correct-horse-battery"] ∧ free_of "correct-horse-battery" kept.
Proof.
  assert (Hin : kept_diagnostic ∈ parseDiagnostics printed ["correct-horse-battery"]).
  { rewrite printed_is_kept. by left. }
  split; [exact Hin|].
  refine (proj1 (proj2 (diagnostic_texts_hold_no_secret printed "correct-horse-battery" ["correct-horse-battery"]
    kept_diagnostic _ _ Hin) kept eq_refl)).
  - by left.
  - split; [vm_compute; lia|]. split_and!; [done|..]; try (by apply (bool_decide_eq_false_1 _); vm_compute). by vm_compute.
Defined.
