(* ===== verification/TerraformRunner.v ===== *)
(** * The Terraform runner

    [terraform/tfvars.ts] and [terraform/runner.ts]: the variable file of an
    instance, and the invocations of the Terraform binary in a working
    directory.  A method is a program over the effects the adapter has on the
    outside: the file system, the child process, the run inventory and the
    direct client's requests.  The environment and the timeout of a child are
    left out; what it prints and how it exits is the reply of [Spawn].  Paths
    are already normal, so [join] puts a separator between two. *)
From S2P Require Import Prelude JsText Json SshKey Domain Ipv4 WorkflowStage Events EventValidation Platform Saga ProviderPort JsonParse PlanGate Ownership Redaction.
From Stdlib Require Import ZArith Lia Bool Ascii String.
From stdpp Require Import base decidable list strings.
Open Scope string_scope.
Open Scope Z_scope.
Open Scope prog_scope.

(** ** The variables of an instance *)

Inductive DiskFormat : Set := qcow2 | raw.
Definition disk_format_text (f : DiskFormat) : string := match f with qcow2 => "qcow2" | raw => "raw" end.

(** A number computed from text or from a state document; [None] is one that
    is not an integer, among them [NaN]. *)
Definition number : Set := option Z.

Record InstanceTfvars : Set := {
  node_name : string;
  template_vm_id : Z;
  vm_id : number;
  tf_hostname : string;
  ownership_marker : string;
  tags : list string;
  datastore_id : string;
  disk_interface : string;
  disk_format : DiskFormat;
  pool_id : string;
  disk_gib : number;
  cpu_cores : number;
  memory_mib : number;
  bridge : string;
  network_mtu : Z;
  tf_ipv4_address : string;
  ipv4_prefix_length : number;
  ipv4_gateway : string;
  dns_servers : list string;
  dns_domain : string;
  cloud_init_username : string;
  cloud_init_password : string;
  ssh_public_keys : list string;
  started : bool;
  on_boot : bool;
}.

Definition CREDENTIAL_VARIABLES : list string := ["cloud_init_password"; "ssh_public_keys"].
Definition number_json (n : number) : json := match n with Some z => JNum z | None => JNull end.
Definition texts_json (l : list string) : json := JArr (map JStr l).
(** [Object.entries(tfvars)]. *)
Definition tfvars_entries (t : InstanceTfvars) : list (string * json) :=
  [("node_name", JStr t.(node_name)); ("template_vm_id", JNum t.(template_vm_id)); ("vm_id", number_json t.(vm_id));
   ("hostname", JStr t.(tf_hostname)); ("ownership_marker", JStr t.(ownership_marker)); ("tags", texts_json t.(tags));
   ("datastore_id", JStr t.(datastore_id)); ("disk_interface", JStr t.(disk_interface));
   ("disk_format", JStr (disk_format_text t.(disk_format))); ("pool_id", JStr t.(pool_id));
   ("disk_gib", number_json t.(disk_gib)); ("cpu_cores", number_json t.(cpu_cores));
   ("memory_mib", number_json t.(memory_mib)); ("bridge", JStr t.(bridge)); ("network_mtu", JNum t.(network_mtu));
   ("ipv4_address", JStr t.(tf_ipv4_address)); ("ipv4_prefix_length", number_json t.(ipv4_prefix_length));
   ("ipv4_gateway", JStr t.(ipv4_gateway)); ("dns_servers", texts_json t.(dns_servers));
   ("dns_domain", JStr t.(dns_domain)); ("cloud_init_username", JStr t.(cloud_init_username));
   ("cloud_init_password", JStr t.(cloud_init_password)); ("ssh_public_keys", texts_json t.(ssh_public_keys));
   ("started", JBool t.(started)); ("on_boot", JBool t.(on_boot))].

(** [JSON.stringify(value, undefined, 2)] on a value without [undefined];
    [margin] is the indentation of the line the value starts on. *)
Definition new_line (margin : string) : string := String newline margin.
Definition enclosed (opening closing margin : string) (items : list string) : string :=
  match items with
  | [] => opening ++ closing
  | _ => opening ++ new_line (margin ++ "  ") ++ String.concat ("," ++ new_line (margin ++ "  ")) items
         ++ new_line margin ++ closing
  end.
Fixpoint indented (margin : string) (v : json) : string :=
  match v with
  | JArr l => enclosed "[" "]" margin (map (indented (margin ++ "  ")) l)
  | JObj fields => enclosed "{" "}" margin (map (λ p, quote (fst p) ++ ": " ++ indented (margin ++ "  ") (snd p)) fields)
  | _ => default "null" (stringify v)
  end.

Definition workspaceNameFor (instanceId : string) : string := "instance-" ++ instanceId.

Section render.
Context `{Platform}.
Definition renderTfvars (t : InstanceTfvars) : string :=
  indented "" (JObj (sort_entries localeBefore (tfvars_entries t))) ++ String newline "".
End render.

Definition described_value (p : string * json) : string * json :=
  if includes CREDENTIAL_VARIABLES (fst p)
  then (fst p, JStr (match snd p with
                     | JArr l => "<" ++ string_of_Z (Z.of_nat (List.length l)) ++ " redacted>"
                     | _ => "<redacted>"
                     end))
  else p.
Definition describeTfvars (t : InstanceTfvars) : list (string * json) := map described_value (tfvars_entries t).

(** ** Effects *)

Inductive RunCommand : Set := command_init | command_plan | command_apply | command_refresh | command_destroy.
Inductive RunStatus : Set := run_running | run_succeeded | run_failed | run_unknown.
Inductive DriftState : Set := drift_unknown | drift_in_sync | drift_drifted | drift_absent.
#[export] Instance RunCommand_eq_dec : EqDecision RunCommand.
Proof. solve_decision. Defined.
#[export] Instance RunStatus_eq_dec : EqDecision RunStatus.
Proof. solve_decision. Defined.
#[export] Instance DriftState_eq_dec : EqDecision DriftState.
Proof. solve_decision. Defined.

Record BeginRunInput : Set := {
  br_runId : string; br_instanceId : string; br_operationId : string; br_workspaceName : string;
  br_command : RunCommand; br_fencingToken : string; br_executorReference : option string }.
Record CompleteRunInput : Set := {
  cr_runId : string; cr_fencingToken : string; cr_status : RunStatus; cr_exitCode : option Z;
  cr_gateDecision : option GateDecision; cr_gateRule : option string;
  cr_planActions : option (list (string * Z)); cr_diagnostics : option (list TerraformDiagnostic) }.
Record RecordWorkspaceInput : Set := {
  ws_instanceId : string; ws_workspaceName : string; ws_lastRunId : option string; ws_applied : bool;
  ws_refreshed : bool; ws_driftState : option DriftState; ws_stateSerial : option Z; ws_stateLineage : option string;
  ws_moduleVersion : option string; ws_providerVersion : option string; ws_driftSummary : option json }.
Record RunRecord : Set := {
  rr_status : RunStatus; rr_gateDecision : option GateDecision; rr_diagnostics : option (list TerraformDiagnostic) }.

Inductive HttpMethod : Set := GET | POST | PUT | DELETE.
#[export] Instance HttpMethod_eq_dec : EqDecision HttpMethod.
Proof. solve_decision. Defined.
Record HttpRequest : Set := { hq_method : HttpMethod; hq_path : string; hq_body : option (list (string * string)) }.

Inductive io (A : Type) : Type := Done (a : A) | Failed (message : string).
Arguments Done {A}.
Arguments Failed {A}.
Record ProcessResult : Set := { exitCode : Z; stdout : string; stderr : string }.
(** A response with its status and parsed body, if it is JSON; or no response. *)
Inductive http_reply : Type :=
| Answered (status : Z) (body : option json)
| NotAnswered (code : ProviderTransportErrorCode).

Inductive tf_effect : Set :=
| RandomUUID
| MakeDirectory (path : string)
| ReadDirectory (path : string)
| CopyFile (from to : string)
| WriteFile (path content : string)
| SetMode (path : string) (mode : Z)
| RemoveDirectory (path : string)
| Spawn (directory : string) (arguments : list string)
| BeginRun (i : BeginRunInput)
| CompleteRun (i : CompleteRunInput)
| RecordWorkspace (i : RecordWorkspaceInput)
| ReadRun (runId : string)
| Http (q : HttpRequest).

Definition tf_reply (e : tf_effect) : Type :=
  match e with
  | RandomUUID => string
  | ReadDirectory _ => io (list string)
  | Spawn _ _ => ProcessResult
  | ReadRun _ => io (option RunRecord)
  | Http _ => http_reply
  | _ => io unit
  end.

(** What is thrown: a transport error, with the HTTP status when it is a
    [ProxmoxHttpError], or an ordinary error with its message. *)
Inductive tf_error : Set :=
| TransportError (e : ProviderTransportError) (status : option Z)
| OrdinaryError (message : string).
Definition tf_step (A : Type) : Type := saga tf_reply (X := tf_error) A.

Definition done {A : Type} (r : io A) : tf_step A :=
  match r with Done a => Ret a | Failed m => Throw (OrdinaryError m) end.
Definition randomUUID : tf_step string := Vis RandomUUID Ret.
Definition mkdir (path : string) : tf_step unit := Vis (MakeDirectory path) done.
Definition readdir (path : string) : tf_step (list string) := Vis (ReadDirectory path) done.
Definition copyFile (a b : string) : tf_step unit := Vis (CopyFile a b) done.
Definition writeFile (path content : string) : tf_step unit := Vis (WriteFile path content) done.
Definition chmod (path : string) (mode : Z) : tf_step unit := Vis (SetMode path mode) done.
Definition rm (path : string) : tf_step unit := Vis (RemoveDirectory path) done.
Definition beginRun (i : BeginRunInput) : tf_step unit := Vis (BeginRun i) done.
Definition completeRun (i : CompleteRunInput) : tf_step unit := Vis (CompleteRun i) done.
Definition recordWorkspace (i : RecordWorkspaceInput) : tf_step unit := Vis (RecordWorkspace i) done.
Definition readRun (runId : string) : tf_step (option RunRecord) := Vis (ReadRun runId) done.

(** [m.catch(() => undefined)]. *)
Definition quietly (m : tf_step unit) : tf_step unit := try_catch m (λ _, Ret tt).
Notation "m ';^' k" := (sbind m (λ _, k)) (at level 100, right associativity) : prog_scope.
(** [try { m } finally { f }] where [f] does not throw. *)
Definition finally {A : Type} (m : tf_step A) (f : tf_step unit) : tf_step A :=
  let^ a := try_catch m (λ x, f ;^ Throw x) in f ;^ Ret a.

(** ** The runner *)

Record TerraformRunnerConfiguration : Set := {
  modulePath : string;
  purgeModulePath : string;
  workingRoot : string;
  pluginDirectory : option string;
  backendConnectionString : string;
  PROXMOX_VE_ENDPOINT : option string;
  PROXMOX_VE_API_TOKEN : option string;
  PROXMOX_VE_PASSWORD : option string;
}.
Record InvocationResult : Set := {
  inv_command : string; inv_exitCode : Z; inv_diagnostics : list TerraformDiagnostic; inv_stdout : string }.

Definition PLAN_FILE : string := "plan.tfplan".
Definition TFVARS_FILE : string := "terraform.tfvars.json".
Definition TFVARS_MODE : Z := 384.  (* 0o600 *)
Definition LOCK_TIMEOUT : string := "180s".
Definition lock_timeout : string := "-lock-timeout=" ++ LOCK_TIMEOUT.
Definition path_join (a b : string) : string := a ++ "/" ++ b.
Definition startsWith (s prefix : string) : bool := starts (chars prefix) (chars s).
Definition endsWith (s suffix : string) : bool := starts (rev (chars suffix)) (rev (chars s)).

Definition blank (o : option string) : bool := negb (truthy (trim (default "" o))).
(** The constructor's refusals. *)
Definition new_TerraformRunner (c : TerraformRunnerConfiguration) : result string TerraformRunnerConfiguration :=
  ensure? negb (blank c.(PROXMOX_VE_ENDPOINT))
    else "The Terraform provider environment must set PROXMOX_VE_ENDPOINT.";
  ensure? negb (blank c.(PROXMOX_VE_API_TOKEN) && blank c.(PROXMOX_VE_PASSWORD))
    else "The Terraform provider environment must set PROXMOX_VE_API_TOKEN or PROXMOX_VE_PASSWORD.";
  ensure? contains c.(backendConnectionString) "?sslmode=" || contains c.(backendConnectionString) "&sslmode="
    else "The Terraform state connection string must set sslmode explicitly.";
  Ok c.

(** *** Reading the plan document *)

Definition json_member (name : string) (v : json) : json := match v with JObj fields => field name fields | _ => JUndefined end.
(** A member read at its type: absent, of the type, or neither. *)
Definition read_optional {A : Type} (f : json → option A) (v : json) : option (option A) :=
  match v with JUndefined | JNull => Some None | _ => Some <$> f v end.
Definition read_text (v : json) : option string := match v with JStr s => Some s | _ => None end.
Definition read_array {A : Type} (f : json → option A) (v : json) : option (list A) :=
  match v with JArr l => mapM f l | _ => None end.
Definition read_segment (v : json) : option PathSegment :=
  match v with JStr s => Some (PathName s) | JNum n => Some (PathIndex n) | _ => None end.
Definition read_change (v : json) : option PlanChange :=
  match v with
  | JObj _ =>
      actions ← read_optional (read_array read_text) (json_member "actions" v);
      paths ← read_optional (read_array (read_array read_segment)) (json_member "replace_paths" v);
      Some {| pg_actions := actions; pg_replace_paths := paths |}
  | _ => None
  end.
Definition read_resource_change (v : json) : option PlanResourceChange :=
  match v with
  | JObj _ =>
      address ← read_optional read_text (json_member "address" v);
      reason ← read_optional read_text (json_member "action_reason" v);
      change ← read_optional read_change (json_member "change" v);
      Some {| pg_address := address; pg_action_reason := reason; pg_change := change |}
  | _ => None
  end.
(** The document at the type [TerraformPlan] it is cast to: [Some None] is a
    value that is no object, [None] one with a member of another type. *)
Definition read_plan (v : json) : option (option TerraformPlan) :=
  match v with
  | JObj _ =>
      changes ← read_optional (read_array read_resource_change) (json_member "resource_changes" v);
      Some (Some {| pg_errored := match json_member "errored" v with JBool b => Some b | _ => None end;
                    pg_resource_changes := changes |})
  | JArr _ => Some (Some {| pg_errored := None; pg_resource_changes := None |})
  | _ => Some None
  end.

(** [Number(value)] where it is an integer. *)
Definition js_Number (v : json) : number :=
  match v with
  | JNull => Some 0
  | JBool b => Some (if b then 1 else 0)
  | JNum n => Some n
  | JStr s => Number_integer s
  | JArr _ => Number_integer (js_String v)
  | JUndefined | JFraction _ _ | JObj _ => None
  end.
Definition isSafeInteger (n : Z) : bool := Z.abs n <=? 2 ^ 53 - 1.

Record StateMetadata : Set := { sm_serial : option Z; sm_lineage : option string }.
Definition no_metadata : StateMetadata := {| sm_serial := None; sm_lineage := None |}.
Definition metadata_of (document : json) : StateMetadata :=
  match document with
  | JNull => no_metadata  (* the member access throws *)
  | _ =>
      {| sm_serial := (n ← js_Number (json_member "serial" document); if isSafeInteger n && (0 <=? n) then Some n else None);
         sm_lineage := present (read_text (json_member "lineage" document)) |}
  end.

(** *** Invocations *)

Definition init_arguments (c : TerraformRunnerConfiguration) : list string :=
  (["init"; "-input=false"; "-no-color"; lock_timeout; ("-backend-config=conn_str=" ++ c.(backendConnectionString))%string]
   ++ match present c.(pluginDirectory) with Some d => [("-plugin-dir=" ++ d)%string] | None => [] end)%list.
Definition plan_arguments (destroy : bool) : list string :=
  (["plan"; "-input=false"; "-no-color"; lock_timeout; ("-out=" ++ PLAN_FILE)%string; ("-var-file=" ++ TFVARS_FILE)%string]
   ++ if destroy then ["-destroy"] else [])%list.
Definition show_plan_arguments : list string := ["show"; "-json"; PLAN_FILE].
Definition apply_arguments : list string := ["apply"; "-input=false"; "-no-color"; lock_timeout; PLAN_FILE].
Definition refresh_arguments : list string :=
  ["apply"; "-refresh-only"; "-auto-approve"; "-input=false"; "-no-color"; lock_timeout; "-var-file=" ++ TFVARS_FILE].

Section runner.
Context `{Platform}.
(** The password of a connection string, by the platform's URL parser. *)
Variable passwordOf : string → option string.
(** What the gate makes of a plan document that is not of its type: a verdict
    or a [TypeError]. *)
Variable untyped_verdict : json → option string → result string GateResult.
Variable configuration : TerraformRunnerConfiguration.

Fixpoint after_last (sep : ascii) (l : list ascii) : option (list ascii) :=
  match l with
  | [] => None
  | c :: l => match after_last sep l with Some r => Some r | None => if Ascii.eqb c sep then Some l else None end
  end.
Definition secrets : list string :=
  List.filter truthy
    (omap id [passwordOf configuration.(backendConnectionString);
              (λ token, match after_last "=" (chars token) with Some r => of_chars r | None => token end)
                <$> configuration.(PROXMOX_VE_API_TOKEN);
              configuration.(PROXMOX_VE_PASSWORD)]).

Definition invoke (label : string) (arguments : list string) (directory : string) : tf_step InvocationResult :=
  Vis (Spawn directory arguments) (λ r : ProcessResult,
    Ret {| inv_command := label; inv_exitCode := r.(exitCode);
           inv_diagnostics := parseDiagnostics (r.(stdout) ++ String newline r.(stderr)) secrets;
           inv_stdout := r.(stdout) |}).

Fixpoint copy_entries (source destination : string) (entries : list string) : tf_step unit :=
  match entries with
  | [] => Ret tt
  | entry :: entries =>
      if negb (endsWith entry ".tf") && negb (String.eqb entry ".terraform.lock.hcl")
      then copy_entries source destination entries
      else copyFile (path_join source entry) (path_join destination entry) ;^ copy_entries source destination entries
  end.
Definition copyModule (source destination : string) : tf_step unit :=
  let^ entries := readdir source in copy_entries source destination entries.

Definition writeVariables (directory : string) (t : InstanceTfvars) : tf_step unit :=
  let variablePath := path_join directory TFVARS_FILE in
  writeFile variablePath (renderTfvars t) ;^ chmod variablePath TFVARS_MODE.
Definition prepare (workspaceName : string) (t : InstanceTfvars) (purge : bool) : tf_step string :=
  let^ fresh := randomUUID in
  let directory := path_join configuration.(workingRoot) (workspaceName ++ "." ++ fresh) in
  mkdir directory ;^
  copyModule (if purge then configuration.(purgeModulePath) else configuration.(modulePath)) directory ;^
  writeVariables directory t ;^
  Ret directory.
Definition discard (directory : string) : tf_step unit :=
  if negb (startsWith directory configuration.(workingRoot)) then Ret tt else rm directory.

Definition initWithoutBackend (directory : string) : tf_step InvocationResult :=
  invoke "init" ["init"; "-input=false"; "-no-color"; "-backend=false"] directory.
Definition validate (directory : string) : tf_step InvocationResult :=
  invoke "validate" ["validate"; "-no-color"] directory.
Definition deleteWorkspace (directory workspaceName : string) : tf_step InvocationResult :=
  invoke "workspace" ["workspace"; "select"; "default"] directory ;^
  invoke "workspace-delete" ["workspace"; "delete"; "-no-color"; lock_timeout; workspaceName] directory.
Definition init (directory workspaceName : string) : tf_step InvocationResult :=
  let^ result := invoke "init" (init_arguments configuration) directory in
  if result.(inv_exitCode) =? 0 then
    invoke "workspace" ["workspace"; "new"; workspaceName] directory ;^
    invoke "workspace" ["workspace"; "select"; workspaceName] directory ;^
    Ret result
  else Ret result.
Definition stateMetadata (directory : string) : tf_step StateMetadata :=
  let^ pulled := invoke "state-pull" ["state"; "pull"] directory in
  Ret (if negb (pulled.(inv_exitCode) =? 0) then no_metadata
       else match JSON_parse pulled.(inv_stdout) with Some document => metadata_of document | None => no_metadata end).

(** The verdict on what [show -json] printed. *)
Definition gate_of (shown : string) (allowDestroyOf : option string) : result string GateResult :=
  match JSON_parse shown with
  | None => Ok (evaluatePlan None (present allowDestroyOf))
  | Some document =>
      match read_plan document with
      | Some parsed => Ok (evaluatePlan parsed (present allowDestroyOf))
      | None => untyped_verdict document (present allowDestroyOf)
      end
  end.
Definition plan (directory : string) (destroy : bool) (allowDestroyOf : option string) :
    tf_step (GateResult * InvocationResult) :=
  let^ invocation := invoke "plan" (plan_arguments destroy) directory in
  if negb (invocation.(inv_exitCode) =? 0) then Ret (evaluatePlan None None, invocation)
  else
    let^ shown := invoke "show" show_plan_arguments directory in
    match gate_of shown.(inv_stdout) allowDestroyOf with
    | Ok gate => Ret (gate, invocation)
    | Err m => Throw (OrdinaryError m)
    end.
Definition apply_plan (directory : string) (gate : GateResult) : tf_step InvocationResult :=
  if negb (bool_decide (gate.(gate_decision) = gate_allowed)) then
    Throw (OrdinaryError ("Refusing to apply a plan the gate rejected: " ++ default "unknown" gate.(gate_rule)))
  else invoke "apply" apply_arguments directory.
Definition refresh (directory : string) : tf_step InvocationResult := invoke "refresh" refresh_arguments directory.
Definition showState (directory : string) : tf_step InvocationResult :=
  invoke "show-state" ["show"; "-json"; "-no-color"] directory.
Definition untaint (directory address : string) : tf_step InvocationResult :=
  invoke "untaint" ["untaint"; "-no-color"; address] directory.
End runner.
