(* ===== verification/DirectClient.v ===== *)
(** * The direct Proxmox client

    [terraform/direct-client.ts]: the snapshot, reboot and hard-stop calls that
    Terraform cannot express, and the one configuration read a live ownership
    proof needs.  A request is an effect; cancellation by a caller is one of
    its replies. *)
From S2P Require Import Prelude JsText Json SshKey Domain Ipv4 WorkflowStage Events EventValidation Platform Saga ProviderPort JsonParse PlanGate Ownership Redaction TerraformRunner.
From Stdlib Require Import ZArith Lia Bool Ascii String.
From stdpp Require Import base decidable list strings.
Open Scope string_scope.
Open Scope Z_scope.
Open Scope prog_scope.

Record DirectClientConfiguration : Set := {
  dc_node : string; dc_resourceIdMinimum : Z; dc_resourceIdMaximum : Z }.
Record ProxmoxSnapshot : Set := { ps_name : string; ps_description : option string; ps_snaptime : option Z }.

Definition SYNTHETIC_SNAPSHOT : string := "current".

(** [SNAPSHOT_NAME_PATTERN.test(name)]. *)
Definition snapshot_name_pattern (name : string) : bool :=
  match chars name with
  | [] => false
  | c :: rest =>
      is_alnum c && Nat.leb (List.length rest) 62
      && forallb (λ c, is_alnum c || is_char "_" c || is_char "." c || is_char "-" c) rest
  end.

(** [encodeURIComponent], where a unit above 127 is two octets of UTF-8. *)
Definition hex_upper (n : Z) : ascii := of_unit (if n <? 10 then n + 48 else n + 55).
Definition percent (octet : Z) : list ascii := ["%"%char; hex_upper (octet / 16); hex_upper (octet mod 16)].
Definition unreserved (c : ascii) : bool := is_alnum c || existsb (Ascii.eqb c) (chars "-_.!~*'()").
Definition encode_unit (c : ascii) : list ascii :=
  if unreserved c then [c]
  else if unit_of c <? 128 then percent (unit_of c)
  else (percent (192 + unit_of c / 64) ++ percent (128 + unit_of c mod 64))%list.
Definition encodeURIComponent (s : string) : string := of_chars (concat (map encode_unit (chars s))).

Definition throw_refused {A : Type} : tf_step A := Throw (TransportError refused None).
(** [new ProxmoxHttpError(status)]. *)
Definition http_error (status : Z) : tf_error :=
  let retryable := (status =? 408) || (status =? 429) || (500 <=? status) in
  TransportError (transportError (if retryable then unavailable else protocol_error) (Some retryable)) (Some status).
(** [response.ok]. *)
Definition response_ok (status : Z) : bool := (200 <=? status) && (status <=? 299).

(** [request]: the [data] of a successful answer. *)
Definition request (method : HttpMethod) (path : string) (body : option (list (string * string))) : tf_step json :=
  Vis (Http {| hq_method := method; hq_path := path; hq_body := body |}) (λ r : http_reply,
    match r with
    | NotAnswered code => Throw (TransportError (transportError code None) None)
    | Answered status body =>
        if negb (response_ok status) then Throw (http_error status)
        else
          match body with
          | None => Throw (TransportError (transportError protocol_error None) None)
          | Some (JObj fields) =>
              if existsb (λ p, String.eqb (fst p) "data") fields then Ret (field "data" fields) else throw_refused
          | Some (JArr _) => throw_refused
          | Some _ => Throw (OrdinaryError "Cannot use 'in' operator to search for 'data'.")
          end
    end).

Section client.
Variable configuration : DirectClientConfiguration.

Definition assertVmid (vmid : Z) : tf_step Z :=
  if negb (isSafeInteger vmid) || (vmid <? configuration.(dc_resourceIdMinimum)) || (configuration.(dc_resourceIdMaximum) <? vmid)
  then throw_refused else Ret vmid.
Definition assertSnapshotName (name : string) : tf_step string :=
  if negb (snapshot_name_pattern name) || String.eqb name SYNTHETIC_SNAPSHOT then throw_refused else Ret name.
Definition node_path : string := "/nodes/" ++ encodeURIComponent configuration.(dc_node).
Definition machine_path (vmid : Z) : string := node_path ++ "/qemu/" ++ string_of_Z vmid.

(** An entry; reading a member of [null] throws. *)
Definition read_snapshot (v : json) : option ProxmoxSnapshot :=
  match v with
  | JNull => None
  | _ =>
      Some {| ps_name := js_String (json_member "name" v); ps_description := read_text (json_member "description" v);
              ps_snaptime := match json_member "snaptime" v with JUndefined | JNull => None | t => js_Number t end |}
  end.
Definition listSnapshots (vmid : Z) : tf_step (list ProxmoxSnapshot) :=
  let^ vmid := assertVmid vmid in
  let^ entries := request GET (machine_path vmid ++ "/snapshot") None in
  match read_optional (read_array read_snapshot) entries with
  | Some entries => Ret (List.filter (λ s, negb (String.eqb s.(ps_name) SYNTHETIC_SNAPSHOT)) (default [] entries))
  | None => Throw (OrdinaryError "entries.filter is not a function")
  end.
(** The identifier a mutation answers with. *)
Definition task_of (data : json) : string := js_String data.
Definition createSnapshot (vmid : Z) (name : string) (description : option string) : tf_step string :=
  let^ vmid := assertVmid vmid in
  let^ name := assertSnapshotName name in
  let^ data := request POST (machine_path vmid ++ "/snapshot")
    (Some ([("snapname", name); ("vmstate", "0")]
           ++ match present description with Some d => [("description", d)] | None => [] end)%list) in
  Ret (task_of data).
Definition rollbackSnapshot (vmid : Z) (name : string) : tf_step string :=
  let^ vmid := assertVmid vmid in
  let^ name := assertSnapshotName name in
  let^ data := request POST (machine_path vmid ++ "/snapshot/" ++ encodeURIComponent name ++ "/rollback")
    (Some [("start", "1")]) in
  Ret (task_of data).
Definition deleteSnapshot (vmid : Z) (name : string) : tf_step string :=
  let^ vmid := assertVmid vmid in
  let^ name := assertSnapshotName name in
  let^ data := request DELETE (machine_path vmid ++ "/snapshot/" ++ encodeURIComponent name) None in
  Ret (task_of data).
Definition reboot (vmid : Z) : tf_step string :=
  let^ vmid := assertVmid vmid in
  let^ data := request POST (machine_path vmid ++ "/status/reboot") (Some []) in
  Ret (task_of data).
Definition stopHard (vmid : Z) : tf_step string :=
  let^ vmid := assertVmid vmid in
  let^ data := request POST (machine_path vmid ++ "/status/stop") (Some [("overrule-shutdown", "1")]) in
  Ret (task_of data).

Inductive DirectTaskState : Set := direct_running | direct_succeeded | direct_failed.
Definition taskState (upid : string) : tf_step DirectTaskState :=
  let^ task := request GET (node_path ++ "/tasks/" ++ encodeURIComponent upid ++ "/status") None in
  Ret (if bool_decide (read_text (json_member "status" task) = Some "stopped")
       then (if bool_decide (read_text (json_member "exitstatus" task) = Some "OK") then direct_succeeded else direct_failed)
       else direct_running).
(** [None] when the machine does not exist or is not ours to see. *)
Definition config (vmid : Z) : tf_step (option json) :=
  try_catch
    (let^ vmid := assertVmid vmid in
     let^ data := request GET (machine_path vmid ++ "/config") None in
     Ret (Some data))
    (λ e, match e with
          | TransportError _ (Some status) => if (status =? 404) || (status =? 403) then Ret None else Throw e
          | _ => Throw e
          end).
End client.
