(* ===== verification/TerraformProvider.v ===== *)
(** * The Terraform-backed provider

    [terraform-proxmox-provider.ts]: the provider port over the runner, the
    run inventory and the direct client.  A mutation answers before its work is
    done; what it leaves running is the second component of its result, a
    program of its own.  Identifiers of evidence and the wording of thrown
    errors are left out. *)
From S2P Require Import Prelude JsText Json SshKey Domain Ipv4 WorkflowStage Events EventValidation Platform Saga ProviderPort JsonParse PlanGate Ownership Redaction TerraformRunner DirectClient.
From Stdlib Require Import ZArith Lia Bool Ascii String.
From stdpp Require Import base decidable list strings.
Open Scope string_scope.
Open Scope Z_scope.
Open Scope prog_scope.

Record TerraformProxmoxConfiguration : Set := {
  tc_providerProfileId : string;
  tc_node : string;
  tc_templateVmid : Z;
  tc_templateDiskFormat : DiskFormat;
  tc_poolId : string;
  tc_imageId : string;
  tc_storage : string;
  tc_diskInterface : string;
  tc_bridge : string;
  tc_networkMtu : Z;
  tc_ipv4Cidr : string;
  tc_ipv4Gateway : string;
  tc_dnsDomain : string;
  tc_cloudInitUsername : string;
  tc_cloudInitPassword : string;
  tc_resourceIdMinimum : Z;
  tc_resourceIdMaximum : Z;
  tc_environment : string;
  tc_managedBy : string;
}.

Definition RESERVED_VMID_MINIMUM : Z := 910000.
Definition RESERVED_VMID_MAXIMUM : Z := 910099.
Definition DIRECT_TASK_PREFIX : string := "upid:".
Definition INSTANCE_ADDRESS : string := "proxmox_virtual_environment_vm.instance".

(** The constructor's refusals. *)
Definition new_TerraformProxmoxProvider (c : TerraformProxmoxConfiguration) : result string TerraformProxmoxConfiguration :=
  ensure? isSafeInteger c.(tc_resourceIdMinimum) && isSafeInteger c.(tc_resourceIdMaximum)
          && (RESERVED_VMID_MINIMUM <=? c.(tc_resourceIdMinimum)) && (c.(tc_resourceIdMaximum) <=? RESERVED_VMID_MAXIMUM)
          && (c.(tc_resourceIdMinimum) <=? c.(tc_resourceIdMaximum))
    else "Proxmox resource IDs must stay inside the reserved 910000-910099 range.";
  ensure? truthy c.(tc_cloudInitPassword) else "A cloud-init password is required.";
  Ok c.

(** ** Requests *)

Record MutationRequest : Set := {
  mr_context : option ProviderCallContext;
  mr_providerResourceId : option string;
  mr_expectedOwnershipMarkers : option OwnershipMarkers;
}.
Definition no_request : MutationRequest :=
  {| mr_context := None; mr_providerResourceId := None; mr_expectedOwnershipMarkers := None |}.
Record RequestResources : Set := { rs_cpuCount : option Z; rs_memoryMib : option string; rs_diskGib : option string }.
Record RequestNetwork : Set := {
  rn_ipv4Address : option string; rn_ipv4PrefixLength : option Z; rn_ipv4Gateway : option string;
  rn_dnsServers : option (list string) }.
Record SubmitCreateRequest : Set := {
  sc_context : option ProviderCallContext;
  sc_imageId : option string;
  sc_hostname : option string;
  sc_resources : option RequestResources;
  sc_network : option RequestNetwork;
  sc_sshPublicKeys : option (list string);
  sc_ownershipMarkers : option OwnershipMarkers;
}.
Record Capabilities : Set := {
  ca_snapshots : bool; ca_maximumCpuCount : Z; ca_maximumMemoryMib : string; ca_maximumDiskGib : string;
  ca_maximumSnapshots : Z }.
Record ValidationCheck : Set := { vc_name : string; vc_passed : bool; vc_safeSummary : string }.

Definition fencingTokenFrom (context : option ProviderCallContext) : string :=
  default "0" (present ((λ c, trim c.(ctx_fencingToken)) <$> context)).

(** ** Classifying a failed run *)

Definition diagnostic_json (d : TerraformDiagnostic) : json :=
  JObj ([("severity", JStr d.(td_severity)); ("summary", JStr d.(td_summary))]
        ++ match d.(td_detail) with Some t => [("detail", JStr t)] | None => [] end
        ++ match d.(td_address) with Some t => [("address", JStr t)] | None => [] end)%list.
Definition is_word (c : ascii) : bool := is_alnum c || is_char "_" c.
(** [/\bword\b/]: [before] is whether the unit before [l] is a word unit. *)
Fixpoint word_occurs (word : list ascii) (before : bool) (l : list ascii) : bool :=
  (negb before && starts word l
   && match drop (List.length word) l with c :: _ => negb (is_word c) | [] => true end)
  || match l with [] => false | c :: l => word_occurs word (is_word c) l end.

Definition PERMANENT_DIAGNOSTIC_PATTERNS : list string :=
  ["http 403 response"; "permission check failed"; "http 401 response"; "authentication failure";
   "invalid ticket"; "invalid csrf"; "invalid token"; "http 404 response"; "does not exist";
   "no such vm"; "no such volume"; "no such storage"; "no such file"; "already exists";
   "parameter verification failed"].
Definition TRANSIENT_DIAGNOSTIC_PATTERNS : list string :=
  ["is locked"; "all attempts fail"; "connection refused"; "timeout"; "temporarily unavailable"].
Definition isTransient (diagnostics : option (list TerraformDiagnostic)) : bool :=
  match diagnostics with
  | None | Some [] => false
  | Some l =>
      let text := default "" (stringify (JArr (map diagnostic_json l))) in
      let lowered := toLowerCase text in
      negb (existsb (contains lowered) PERMANENT_DIAGNOSTIC_PATTERNS)
      && (word_occurs (chars "lock") false (chars lowered)
          || existsb (contains lowered) TRANSIENT_DIAGNOSTIC_PATTERNS
          || contains text "TransactionIsDestructive")
  end.

(** ** Reading the state document *)

(** [a ?? b]. *)
Definition nullish (a b : json) : json := match a with JUndefined | JNull => b | _ => a end.
(** [block]: the first element of an array. *)
Definition block (v : json) : json := match v with JArr (x :: _) => x | _ => JUndefined end.
Definition first_resource (l : list json) : result string (option json) :=
  (fix find (l : list json) : result string (option json) :=
     match l with
     | [] => Ok None
     | JNull :: _ => Err "Cannot read properties of null (reading 'address')"
     | entry :: l =>
         if bool_decide (read_text (json_member "address" entry) = Some INSTANCE_ADDRESS) then Ok (Some entry) else find l
     end) l.
(** [state?.values?.root_module?.resources?.find(...)]. *)
Definition find_resource (state : option json) : result string (option json) :=
  match json_member "resources" (json_member "root_module" (json_member "values" (default JUndefined state))) with
  | JUndefined | JNull => Ok None
  | JArr l => first_resource l
  | _ => Err "resources.find is not a function"
  end.
Definition observedResources (values : json) : option ProviderResources :=
  let cpu := block (json_member "cpu" values) in
  let memory := block (json_member "memory" values) in
  let disk := block (json_member "disk" values) in
  if negb (js_truthy cpu) && negb (js_truthy memory) && negb (js_truthy disk) then None
  else Some {| pr_cpuCount := js_Number (nullish (json_member "cores" cpu) (JNum 0));
               pr_memoryMib := Number_integer (js_String (nullish (json_member "dedicated" memory) (JNum 0)));
               pr_diskGib := Number_integer (js_String (nullish (json_member "size" disk) (JNum 0))) |}.
Definition dnsServers (initialization : json) : option (list string) :=
  match json_member "dns" initialization with
  | JArr (dns :: _) => match json_member "servers" dns with JArr l => Some (map js_String l) | _ => None end
  | _ => None
  end.
Definition strings_of (v : json) : list string := match v with JArr l => map js_String l | _ => [] end.
(** [const [a, b] = text.split('/')]. *)
Definition split_address (s : string) : string * option string :=
  match split_on "/" s with a :: b :: _ => (a, Some b) | [a] => (a, None) | [] => ("", None) end.
Definition number_text (n : number) : string := match n with Some z => string_of_Z z | None => "NaN" end.

(** [now] is the process clock's reading. *)
Definition absent (now : Z) : InstanceObservation :=
  {| io_exists := Some false; io_powerState := Some OBSERVED_UNKNOWN; io_resources := None;
     io_ownership := Some {| ownership_complete := Some false; ownership_match := Some false |};
     io_observedAt := Some now |}.

(** ** The provider *)

Record StartApply : Set := {
  sa_instanceId : string; sa_operationId : string; sa_workspace : string; sa_vmId : number;
  sa_tfvars : InstanceTfvars; sa_fencingToken : string; sa_purge : bool }.

Definition accepted (resource reference : string) : ProviderMutationResult :=
  {| pm_state := Some RESULT_ACCEPTED; pm_providerTaskReference := Some reference; pm_providerResourceId := Some resource;
     pm_failure := None |}.
Definition succeeded (resource : string) : ProviderMutationResult :=
  {| pm_state := Some RESULT_SUCCEEDED; pm_providerTaskReference := None; pm_providerResourceId := Some resource;
     pm_failure := None |}.
Definition task (state : ProviderTaskState) : GetTaskResponse := {| task_state := Some state; task_failure := None |}.
Definition task_failed (state : ProviderTaskState) (category : FailureCategory) (code message : string) : GetTaskResponse :=
  {| task_state := Some state;
     task_failure := Some {| pf_category := Some category; pf_code := Some code; pf_safeMessage := Some message;
                             pf_retryAfterMilliseconds := None |} |}.
Definition state_unreachable {A : Type} : tf_step A :=
  Throw (TransportError (transportError unavailable (Some true)) None).
Definition plan_refused : ProviderMutationResult :=
  failure FAILURE_CATEGORY_PERMANENT "TERRAFORM_PLAN_REFUSED"
    "The change was refused because it would destroy a provider resource.".
Definition state_absent (message : string) : ProviderMutationResult :=
  failure FAILURE_CATEGORY_UNKNOWN_OUTCOME "TERRAFORM_STATE_ABSENT" message.
Definition error_message (x : tf_error) : string := match x with OrdinaryError m => m | TransportError _ _ => "" end.
Definition unreported (message : string) : TerraformDiagnostic :=
  {| td_severity := "error"; td_summary := "The Terraform run did not report an outcome."; td_detail := Some message;
     td_address := None |}.

(** A value of a call that may throw a transport error. *)
Definition lift {A : Type} (m : result ProviderTransportError A) : tf_step A :=
  match m with Ok a => Ret a | Err e => Throw (TransportError e None) end.
Definition some_or_refuse {A : Type} (o : option A) : tf_step A := match o with Some a => Ret a | None => throw_refused end.

(** A mutation's answer and what it leaves running. *)
Definition answer : Type := ProviderMutationResult * tf_step unit.
Definition only (r : ProviderMutationResult) : tf_step answer := Ret (r, Ret tt).

Section provider.
Context `{Platform}.
Variable passwordOf : string → option string.
Variable untyped_verdict : json → option string → result string GateResult.
Variable configuration : TerraformProxmoxConfiguration.
Variable runner : TerraformRunnerConfiguration.
Variable directClient : option DirectClientConfiguration.
(** The reading of the process clock during a call. *)
Variable now : Z.

Abbreviation runner_init := (init passwordOf runner).
Abbreviation runner_prepare := (prepare runner).
Abbreviation runner_discard := (discard runner).
Abbreviation runner_plan := (plan passwordOf untyped_verdict runner).

Definition assertProfile (profileId : option string) : tf_step unit :=
  if bool_decide (profileId = Some configuration.(tc_providerProfileId)) then Ret tt else throw_refused.
Definition profile_of (context : option ProviderCallContext) : option string := ctx_providerProfileId <$> context.
Definition instance_of (context : option ProviderCallContext) : option string := present (ctx_instanceId <$> context).
Definition operation_of (context : option ProviderCallContext) : option string := present (ctx_operationId <$> context).

Definition getCapabilities (providerProfileId : option string) : tf_step Capabilities :=
  assertProfile providerProfileId ;^
  Ret {| ca_snapshots := match configuration.(tc_templateDiskFormat) with qcow2 => true | raw => false end;
         ca_maximumCpuCount := MAXIMUM_CPU_COUNT; ca_maximumMemoryMib := string_of_Z MAXIMUM_MEMORY_MIB;
         ca_maximumDiskGib := string_of_Z MAXIMUM_DISK_GIB; ca_maximumSnapshots := MAXIMUM_SNAPSHOTS |}.

Definition probeTfvars : InstanceTfvars :=
  {| node_name := configuration.(tc_node); template_vm_id := configuration.(tc_templateVmid);
     vm_id := Some configuration.(tc_resourceIdMinimum); tf_hostname := "probe";
     ownership_marker := "private-cloud-control:{}"; tags := [configuration.(tc_managedBy)];
     datastore_id := configuration.(tc_storage); disk_interface := configuration.(tc_diskInterface);
     disk_format := configuration.(tc_templateDiskFormat); pool_id := configuration.(tc_poolId);
     disk_gib := Some 32; cpu_cores := Some 1; memory_mib := Some 512; bridge := configuration.(tc_bridge);
     network_mtu := configuration.(tc_networkMtu); tf_ipv4_address := configuration.(tc_ipv4Gateway);
     ipv4_prefix_length := match snd (split_address configuration.(tc_ipv4Cidr)) with
                           | Some prefix => Number_integer prefix
                           | None => Some 24
                           end;
     ipv4_gateway := configuration.(tc_ipv4Gateway); dns_servers := ["1.1.1.1"];
     dns_domain := configuration.(tc_dnsDomain); cloud_init_username := configuration.(tc_cloudInitUsername);
     cloud_init_password := configuration.(tc_cloudInitPassword); ssh_public_keys := []; started := false;
     on_boot := false |}.

(** [Number.parseInt(digest.slice(0, 8), 16)] of a hexadecimal digest. *)
Definition digest_number (digest : string) : number :=
  match span is_hex_digit (take 8 (chars digest)) with
  | ([], _) => None
  | (digits, _) => Some (digits_value 16 digits)
  end.
Definition vmIdFor (instanceId : string) : number :=
  let size := configuration.(tc_resourceIdMaximum) - configuration.(tc_resourceIdMinimum) + 1 in
  (λ n, configuration.(tc_resourceIdMinimum) + n mod size) <$> digest_number (sha256 instanceId).

(** *** Applying *)

Definition destroys (input : StartApply) : option string :=
  if input.(sa_purge) then Some INSTANCE_ADDRESS else None.

(** Applies the change and records what became of it. *)
Definition apply_and_record (runId directory : string) (input : StartApply) : tf_step unit :=
  let^ planned := runner_plan directory input.(sa_purge) (destroys input) in
  let gate := fst planned in
  let^ applied := apply_plan passwordOf runner directory gate in
  completeRun {| cr_runId := runId; cr_fencingToken := input.(sa_fencingToken);
                 cr_status := if applied.(inv_exitCode) =? 0 then run_succeeded else run_failed;
                 cr_exitCode := Some applied.(inv_exitCode); cr_gateDecision := Some gate_allowed; cr_gateRule := None;
                 cr_planActions := Some gate.(gate_actionCounts); cr_diagnostics := Some applied.(inv_diagnostics) |} ;^
  if applied.(inv_exitCode) =? 0 then
    let^ state := if input.(sa_purge) then Ret no_metadata else stateMetadata passwordOf runner directory in
    recordWorkspace {| ws_instanceId := input.(sa_instanceId); ws_workspaceName := input.(sa_workspace);
                       ws_lastRunId := Some runId; ws_applied := true; ws_refreshed := false;
                       ws_driftState := Some (if input.(sa_purge) then drift_absent else drift_in_sync);
                       ws_stateSerial := state.(sm_serial); ws_stateLineage := state.(sm_lineage);
                       ws_moduleVersion := None; ws_providerVersion := None; ws_driftSummary := None |} ;^
    if input.(sa_purge)
    then quietly (deleteWorkspace passwordOf runner directory input.(sa_workspace) ;^ Ret tt)
    else Ret tt
  else
    recordWorkspace {| ws_instanceId := input.(sa_instanceId); ws_workspaceName := input.(sa_workspace);
                       ws_lastRunId := Some runId; ws_applied := false; ws_refreshed := false;
                       ws_driftState := Some drift_unknown; ws_stateSerial := None; ws_stateLineage := None;
                       ws_moduleVersion := None; ws_providerVersion := None; ws_driftSummary := None |}.
Definition record_unknown (runId : string) (input : StartApply) (x : tf_error) : tf_step unit :=
  quietly (completeRun {| cr_runId := runId; cr_fencingToken := input.(sa_fencingToken); cr_status := run_unknown;
                          cr_exitCode := None; cr_gateDecision := None; cr_gateRule := None; cr_planActions := None;
                          cr_diagnostics := Some [unreported (error_message x)] |}).
Definition completeInBackground (runId directory : string) (input : StartApply) : tf_step unit :=
  finally (try_catch (apply_and_record runId directory input) (record_unknown runId input))
          (quietly (runner_discard input.(sa_workspace))).

Definition startApply (input : StartApply) : tf_step answer :=
  let^ runId := randomUUID in
  let^ directory := runner_prepare input.(sa_workspace) input.(sa_tfvars) input.(sa_purge) in
  let^ initialised := runner_init directory input.(sa_workspace) in
  if negb (initialised.(inv_exitCode) =? 0) then
    quietly (runner_discard input.(sa_workspace)) ;^ state_unreachable
  else
    let^ planned := runner_plan directory input.(sa_purge) (destroys input) in
    let gate := fst planned in
    beginRun {| br_runId := runId; br_instanceId := input.(sa_instanceId); br_operationId := input.(sa_operationId);
                br_workspaceName := input.(sa_workspace);
                br_command := if bool_decide (gate.(gate_decision) = gate_allowed) then command_apply else command_plan;
                br_fencingToken := input.(sa_fencingToken); br_executorReference := None |} ;^
    if bool_decide (gate.(gate_decision) = gate_allowed) then
      Ret (accepted (number_text input.(sa_vmId)) runId, completeInBackground runId directory input)
    else
      completeRun {| cr_runId := runId; cr_fencingToken := input.(sa_fencingToken); cr_status := run_failed;
                     cr_exitCode := Some (snd planned).(inv_exitCode); cr_gateDecision := Some gate.(gate_decision);
                     cr_gateRule := present gate.(gate_rule); cr_planActions := Some gate.(gate_actionCounts);
                     cr_diagnostics := Some (snd planned).(inv_diagnostics) |} ;^
      quietly (runner_discard input.(sa_workspace)) ;^
      only plan_refused.

(** *** Reading *)

Definition readState (directory : string) : tf_step (option json) :=
  let^ shown := showState passwordOf runner directory in
  Ret (if negb (shown.(inv_exitCode) =? 0) then None else JSON_parse shown.(inv_stdout)).
(** The resource the module declares, if state holds it. *)
Definition resource_in (state : option json) : tf_step (option json) :=
  match find_resource state with Ok r => Ret r | Err m => Throw (OrdinaryError m) end.

Definition declared_tfvars (values : json) : InstanceTfvars :=
  let initialization := block (json_member "initialization" values) in
  let ipv4 := block (json_member "ipv4" (block (json_member "ip_config" initialization))) in
  let account := block (json_member "user_account" initialization) in
  let cpu := block (json_member "cpu" values) in
  let memory := block (json_member "memory" values) in
  let disk := block (json_member "disk" values) in
  let address := split_address (js_String (nullish (json_member "address" ipv4) (JStr ""))) in
  {| node_name := configuration.(tc_node); template_vm_id := configuration.(tc_templateVmid);
     vm_id := js_Number (nullish (json_member "vm_id" values) (JNum configuration.(tc_resourceIdMinimum)));
     tf_hostname := js_String (nullish (json_member "name" values) (JStr "instance"));
     ownership_marker := js_String (nullish (json_member "description" values) (JStr ""));
     tags := strings_of (json_member "tags" values);
     datastore_id := configuration.(tc_storage); disk_interface := configuration.(tc_diskInterface);
     disk_format := configuration.(tc_templateDiskFormat); pool_id := configuration.(tc_poolId);
     disk_gib := js_Number (nullish (json_member "size" disk) (JNum 0));
     cpu_cores := js_Number (nullish (json_member "cores" cpu) (JNum 1));
     memory_mib := js_Number (nullish (json_member "dedicated" memory) (JNum 512));
     bridge := configuration.(tc_bridge); network_mtu := configuration.(tc_networkMtu);
     tf_ipv4_address := fst address;
     ipv4_prefix_length := match snd address with Some prefix => Number_integer prefix | None => Some 0 end;
     ipv4_gateway := js_String (nullish (json_member "gateway" ipv4) (JStr configuration.(tc_ipv4Gateway)));
     dns_servers := default ["1.1.1.1"] (dnsServers initialization);
     dns_domain := configuration.(tc_dnsDomain); cloud_init_username := configuration.(tc_cloudInitUsername);
     cloud_init_password := configuration.(tc_cloudInitPassword);
     ssh_public_keys := strings_of (json_member "keys" account);
     started := match json_member "started" values with JBool b => b | _ => false end;
     on_boot := match json_member "on_boot" values with JBool b => b | _ => false end |}.
Definition tfvarsFromState (directory : string) : tf_step (option InstanceTfvars) :=
  let^ state := readState directory in
  let^ resource := resource_in state in
  let values := json_member "values" (default JUndefined resource) in
  Ret (if js_truthy values then Some (declared_tfvars values) else None).

Definition observation_of (expected : option OwnershipMarkers) (resource : json) : InstanceObservation :=
  let values := nullish (json_member "values" resource) (JObj []) in
  let actual := parseOwnership (read_text (json_member "description" values)) in
  {| io_exists := Some true;
     io_powerState := Some (match json_member "started" values with
                            | JBool true => OBSERVED_RUNNING
                            | JBool false => OBSERVED_STOPPED
                            | _ => OBSERVED_UNKNOWN
                            end);
     io_resources := observedResources values;
     io_ownership := Some {| ownership_complete := Some (bool_decide (is_Some actual));
                             ownership_match := Some (match expected with
                                                      | Some m => markersMatch actual m
                                                      | None => false
                                                      end) |};
     io_observedAt := Some now |}.
Definition observeInstance (request : MutationRequest) : tf_step InstanceObservation :=
  assertProfile (profile_of request.(mr_context)) ;^
  let^ instanceId := some_or_refuse (instance_of request.(mr_context)) in
  let workspace := workspaceNameFor instanceId in
  let^ directory := runner_prepare workspace probeTfvars false in
  finally
    (let^ initialised := runner_init directory workspace in
     if negb (initialised.(inv_exitCode) =? 0) then state_unreachable
     else
       refresh passwordOf runner directory ;^
       let^ state := readState directory in
       let^ resource := resource_in state in
       Ret (match resource with
            | Some r => observation_of request.(mr_expectedOwnershipMarkers) r
            | None => absent now
            end))
    (quietly (runner_discard directory)).

(** *** Mutations *)

Definition submitCreateInstance (request : SubmitCreateRequest) : tf_step answer :=
  let context := request.(sc_context) in
  assertProfile (profile_of context) ;^
  let^ instanceId := some_or_refuse (instance_of context) in
  let^ operationId := some_or_refuse (operation_of context) in
  (if bool_decide (request.(sc_imageId) = Some configuration.(tc_imageId)) then Ret tt else throw_refused) ;^
  let^ markers := some_or_refuse request.(sc_ownershipMarkers) in
  match request.(sc_resources), request.(sc_network) with
  | Some resources, Some network =>
      let vmId := vmIdFor instanceId in
      let^ hostname := lift (required request.(sc_hostname)) in
      let^ address := lift (required network.(rn_ipv4Address)) in
      let^ gateway := lift (required network.(rn_ipv4Gateway)) in
      startApply
        {| sa_instanceId := instanceId; sa_operationId := operationId; sa_workspace := workspaceNameFor instanceId;
           sa_vmId := vmId;
           sa_tfvars :=
             {| node_name := configuration.(tc_node); template_vm_id := configuration.(tc_templateVmid); vm_id := vmId;
                tf_hostname := hostname; ownership_marker := ownershipDescription markers;
                tags := [configuration.(tc_managedBy); configuration.(tc_environment)];
                datastore_id := configuration.(tc_storage); disk_interface := configuration.(tc_diskInterface);
                disk_format := configuration.(tc_templateDiskFormat); pool_id := configuration.(tc_poolId);
                disk_gib := match resources.(rs_diskGib) with Some t => Number_integer t | None => Some 0 end;
                cpu_cores := Some (default 1 resources.(rs_cpuCount));
                memory_mib := match resources.(rs_memoryMib) with Some t => Number_integer t | None => Some 512 end;
                bridge := configuration.(tc_bridge); network_mtu := configuration.(tc_networkMtu);
                tf_ipv4_address := address; ipv4_prefix_length := Some (default 0 network.(rn_ipv4PrefixLength));
                ipv4_gateway := gateway; dns_servers := default [] network.(rn_dnsServers);
                dns_domain := configuration.(tc_dnsDomain); cloud_init_username := configuration.(tc_cloudInitUsername);
                cloud_init_password := configuration.(tc_cloudInitPassword);
                ssh_public_keys := default [] request.(sc_sshPublicKeys); started := true; on_boot := false |};
           sa_fencingToken := fencingTokenFrom context; sa_purge := false |}
  | _, _ =>
      only (failure FAILURE_CATEGORY_VALIDATION "CONFIGURATION_REQUIRED" "Resources and network configuration are required.")
  end.

Definition converged (gate : GateResult) : bool :=
  bool_decide (gate.(gate_decision) = gate_allowed) && (tally "create" gate.(gate_actionCounts) =? 0)
  && (tally "update" gate.(gate_actionCounts) =? 0) && (tally "delete" gate.(gate_actionCounts) =? 0).
Definition applyInstanceConfiguration (context : option ProviderCallContext) : tf_step answer :=
  assertProfile (profile_of context) ;^
  let^ instanceId := some_or_refuse (instance_of context) in
  let workspace := workspaceNameFor instanceId in
  let^ directory := runner_prepare workspace probeTfvars false in
  finally
    (let^ initialised := runner_init directory workspace in
     if negb (initialised.(inv_exitCode) =? 0) then state_unreachable
     else
       let^ declared := tfvarsFromState directory in
       match declared with
       | None => only (state_absent "The instance has no Terraform state to verify against.")
       | Some declared =>
           writeVariables directory declared ;^
           let^ planned := runner_plan directory false None in
           if converged (fst planned) then only (succeeded (number_text declared.(vm_id)))
           else only (failure FAILURE_CATEGORY_PERMANENT "TERRAFORM_NOT_CONVERGED"
                        "The instance does not match its declared configuration.")
       end)
    (quietly (runner_discard directory)).

(** The start of a mutation of an existing instance: its declared variables,
    read in a working directory of its own. *)
Definition with_declared (instanceId : string) (purge : bool) (message : string)
    (k : string → InstanceTfvars → tf_step answer) : tf_step answer :=
  let workspace := workspaceNameFor instanceId in
  let^ directory := runner_prepare workspace probeTfvars purge in
  let^ initialised := runner_init directory workspace in
  if negb (initialised.(inv_exitCode) =? 0) then quietly (runner_discard directory) ;^ state_unreachable
  else
    let^ declared := tfvarsFromState directory in
    match declared with
    | None => quietly (runner_discard directory) ;^ only (state_absent message)
    | Some declared => k directory declared
    end.
(** The apply every such mutation ends in. *)
Definition change (context : option ProviderCallContext) (instanceId operationId : string) (declared t : InstanceTfvars)
    (purge : bool) : tf_step answer :=
  startApply {| sa_instanceId := instanceId; sa_operationId := operationId; sa_workspace := workspaceNameFor instanceId;
                sa_vmId := declared.(vm_id); sa_tfvars := t; sa_fencingToken := fencingTokenFrom context;
                sa_purge := purge |}.

Definition with_started (t : InstanceTfvars) (b : bool) : InstanceTfvars :=
  {| node_name := t.(node_name); template_vm_id := t.(template_vm_id); vm_id := t.(vm_id); tf_hostname := t.(tf_hostname);
     ownership_marker := t.(ownership_marker); tags := t.(tags); datastore_id := t.(datastore_id);
     disk_interface := t.(disk_interface); disk_format := t.(disk_format); pool_id := t.(pool_id);
     disk_gib := t.(disk_gib); cpu_cores := t.(cpu_cores); memory_mib := t.(memory_mib); bridge := t.(bridge);
     network_mtu := t.(network_mtu); tf_ipv4_address := t.(tf_ipv4_address); ipv4_prefix_length := t.(ipv4_prefix_length);
     ipv4_gateway := t.(ipv4_gateway); dns_servers := t.(dns_servers); dns_domain := t.(dns_domain);
     cloud_init_username := t.(cloud_init_username); cloud_init_password := t.(cloud_init_password);
     ssh_public_keys := t.(ssh_public_keys); started := b; on_boot := t.(on_boot) |}.
Definition with_sizing (t : InstanceTfvars) (cpu memory disk : number) : InstanceTfvars :=
  {| node_name := t.(node_name); template_vm_id := t.(template_vm_id); vm_id := t.(vm_id); tf_hostname := t.(tf_hostname);
     ownership_marker := t.(ownership_marker); tags := t.(tags); datastore_id := t.(datastore_id);
     disk_interface := t.(disk_interface); disk_format := t.(disk_format); pool_id := t.(pool_id);
     disk_gib := disk; cpu_cores := cpu; memory_mib := memory; bridge := t.(bridge);
     network_mtu := t.(network_mtu); tf_ipv4_address := t.(tf_ipv4_address); ipv4_prefix_length := t.(ipv4_prefix_length);
     ipv4_gateway := t.(ipv4_gateway); dns_servers := t.(dns_servers); dns_domain := t.(dns_domain);
     cloud_init_username := t.(cloud_init_username); cloud_init_password := t.(cloud_init_password);
     ssh_public_keys := t.(ssh_public_keys); started := t.(started); on_boot := t.(on_boot) |}.
Definition as_retained (t : InstanceTfvars) (marker : string) : InstanceTfvars :=
  {| node_name := t.(node_name); template_vm_id := t.(template_vm_id); vm_id := t.(vm_id); tf_hostname := t.(tf_hostname);
     ownership_marker := marker; tags := t.(tags); datastore_id := t.(datastore_id);
     disk_interface := t.(disk_interface); disk_format := t.(disk_format); pool_id := t.(pool_id);
     disk_gib := t.(disk_gib); cpu_cores := t.(cpu_cores); memory_mib := t.(memory_mib); bridge := t.(bridge);
     network_mtu := t.(network_mtu); tf_ipv4_address := t.(tf_ipv4_address); ipv4_prefix_length := t.(ipv4_prefix_length);
     ipv4_gateway := t.(ipv4_gateway); dns_servers := t.(dns_servers); dns_domain := t.(dns_domain);
     cloud_init_username := t.(cloud_init_username); cloud_init_password := t.(cloud_init_password);
     ssh_public_keys := t.(ssh_public_keys); started := false; on_boot := false |}.

Definition setPowerState (request : MutationRequest) (on : bool) : tf_step answer :=
  let context := request.(mr_context) in
  assertProfile (profile_of context) ;^
  let^ instanceId := some_or_refuse (instance_of context) in
  let^ operationId := some_or_refuse (operation_of context) in
  with_declared instanceId false "The instance has no Terraform state to change." (λ directory declared,
    if Bool.eqb declared.(started) on then
      quietly (runner_discard directory) ;^ only (succeeded (number_text declared.(vm_id)))
    else change context instanceId operationId declared (with_started declared on) false).
Definition startInstance (request : option MutationRequest) : tf_step answer :=
  setPowerState (default no_request request) true.
Definition shutdownInstance (request : option MutationRequest) : tf_step answer :=
  setPowerState (default no_request request) false.

(** [requestedDisk < declared.disk_gib], where [NaN] is below nothing. *)
Definition below_number (a b : number) : bool := match a, b with Some x, Some y => x <? y | _, _ => false end.
Definition resizeInstance (request : option MutationRequest) (target : option RequestResources) : tf_step answer :=
  let context := request ≫= mr_context in
  assertProfile (profile_of context) ;^
  let^ instanceId := some_or_refuse (instance_of context) in
  let^ operationId := some_or_refuse (operation_of context) in
  with_declared instanceId false "The instance has no Terraform state to resize." (λ directory declared,
    let requestedDisk := Number_integer <$> (target ≫= rs_diskGib) in
    if match requestedDisk with Some disk => below_number disk declared.(disk_gib) | None => false end then
      quietly (runner_discard directory) ;^
      only (failure FAILURE_CATEGORY_VALIDATION "DISK_SHRINK_FORBIDDEN" "Disk size can grow but never shrink.")
    else
      change context instanceId operationId declared
        (with_sizing declared
           (match target ≫= rs_cpuCount with Some n => Some n | None => declared.(cpu_cores) end)
           (match target ≫= rs_memoryMib with Some t => Number_integer t | None => declared.(memory_mib) end)
           (default declared.(disk_gib) requestedDisk)) false).

Definition markInstanceRetained (request : option MutationRequest) (retentionDeadline : option string) : tf_step answer :=
  let context := request ≫= mr_context in
  assertProfile (profile_of context) ;^
  let^ instanceId := some_or_refuse (instance_of context) in
  let^ operationId := some_or_refuse (operation_of context) in
  let^ markers := some_or_refuse (request ≫= mr_expectedOwnershipMarkers) in
  with_declared instanceId false "The instance has no Terraform state to retain." (λ directory declared,
    change context instanceId operationId declared
      (as_retained declared (describedWithTrailer markers RETENTION_TRAILER_KEY (default "" retentionDeadline))) false).

(** *** The direct client *)

Definition direct : tf_step DirectClientConfiguration := some_or_refuse directClient.
Definition assertVmid (value : option string) : tf_step Z :=
  some_or_refuse
    (vmid ← value ≫= Number_integer;
     if isSafeInteger vmid && (configuration.(tc_resourceIdMinimum) <=? vmid) && (vmid <=? configuration.(tc_resourceIdMaximum))
     then Some vmid else None).
Definition assertLiveOwnership (vmid : Z) (expected : option OwnershipMarkers) : tf_step unit :=
  let^ expected := some_or_refuse expected in
  let^ client := direct in
  let^ live := config client vmid in
  if markersMatch (parseOwnership (read_text (json_member "description" (default JNull live)))) expected
  then Ret tt else throw_refused.

Definition refreshAfterDirectMutation (instanceId : string) (drift : DriftState) : tf_step unit :=
  let workspace := workspaceNameFor instanceId in
  let untrusted := quietly (recordWorkspace
    {| ws_instanceId := instanceId; ws_workspaceName := workspace; ws_lastRunId := None; ws_applied := false;
       ws_refreshed := false; ws_driftState := Some drift_unknown; ws_stateSerial := None; ws_stateLineage := None;
       ws_moduleVersion := None; ws_providerVersion := None; ws_driftSummary := None |}) in
  let^ directory := try_catch (let^ d := runner_prepare workspace probeTfvars false in Ret (Some d))
                      (λ _, untrusted ;^ Ret None) in
  match directory with
  | None => Ret tt
  | Some directory =>
      finally
        (try_catch
           (let^ initialised := runner_init directory workspace in
            if negb (initialised.(inv_exitCode) =? 0) then Ret tt
            else
              refresh passwordOf runner directory ;^
              let^ state := stateMetadata passwordOf runner directory in
              recordWorkspace {| ws_instanceId := instanceId; ws_workspaceName := workspace; ws_lastRunId := None;
                                 ws_applied := false; ws_refreshed := true; ws_driftState := Some drift;
                                 ws_stateSerial := state.(sm_serial); ws_stateLineage := state.(sm_lineage);
                                 ws_moduleVersion := None; ws_providerVersion := None; ws_driftSummary := None |})
           (λ _, untrusted))
        (quietly (runner_discard directory))
  end.
Definition directMutation (request : MutationRequest) (act : DirectClientConfiguration → Z → tf_step string)
    (drift : DriftState) : tf_step answer :=
  assertProfile (profile_of request.(mr_context)) ;^
  let^ instanceId := some_or_refuse (instance_of request.(mr_context)) in
  let^ vmid := assertVmid request.(mr_providerResourceId) in
  assertLiveOwnership vmid request.(mr_expectedOwnershipMarkers) ;^
  let^ client := direct in
  let^ upid := act client vmid in
  Ret (accepted (string_of_Z vmid) (DIRECT_TASK_PREFIX ++ upid), refreshAfterDirectMutation instanceId drift).
Definition snapshotMutation (mutation : option MutationRequest) (act : DirectClientConfiguration → Z → tf_step string)
    (drift : DriftState) : tf_step answer :=
  let^ mutation := some_or_refuse mutation in directMutation mutation act drift.

Definition stopInstance (request : option MutationRequest) : tf_step answer :=
  directMutation (default no_request request) stopHard drift_in_sync.
Definition rebootInstance (request : option MutationRequest) : tf_step answer :=
  directMutation (default no_request request) reboot drift_in_sync.
Definition createSnapshot (request : option MutationRequest) (name description : option string) : tf_step answer :=
  snapshotMutation request (λ client vmid, let^ name := lift (required name) in
                              DirectClient.createSnapshot client vmid name description) drift_in_sync.
Definition rollbackSnapshot (request : option MutationRequest) (reference : option string) : tf_step answer :=
  snapshotMutation request (λ client vmid, let^ reference := lift (required reference) in
                              DirectClient.rollbackSnapshot client vmid reference) drift_drifted.
Definition deleteSnapshot (request : option MutationRequest) (reference : option string) : tf_step answer :=
  snapshotMutation request (λ client vmid, let^ reference := lift (required reference) in
                              DirectClient.deleteSnapshot client vmid reference) drift_in_sync.
Definition listSnapshots (request : MutationRequest) : tf_step (list ProxmoxSnapshot) :=
  assertProfile (profile_of request.(mr_context)) ;^
  let^ vmid := assertVmid request.(mr_providerResourceId) in
  assertLiveOwnership vmid request.(mr_expectedOwnershipMarkers) ;^
  let^ client := direct in
  DirectClient.listSnapshots client vmid.

Definition purgeInstance (request : option MutationRequest) (purgeAuthorizationId : option string) : tf_step answer :=
  let context := request ≫= mr_context in
  assertProfile (profile_of context) ;^
  let^ instanceId := some_or_refuse (instance_of context) in
  let^ operationId := some_or_refuse (operation_of context) in
  let^ markers := some_or_refuse (request ≫= mr_expectedOwnershipMarkers) in
  some_or_refuse (present purgeAuthorizationId) ;^
  let^ vmid := assertVmid (request ≫= mr_providerResourceId) in
  assertLiveOwnership vmid (Some markers) ;^
  with_declared instanceId true "The instance has no Terraform state to purge." (λ directory declared,
    change context instanceId operationId declared declared true).

(** *** Tasks *)

Definition directTaskState (upid : string) : tf_step GetTaskResponse :=
  let^ client := direct in
  let^ state := taskState client upid in
  Ret (match state with
       | direct_running => task TASK_RUNNING
       | direct_succeeded => task TASK_SUCCEEDED
       | direct_failed =>
           task_failed TASK_FAILED FAILURE_CATEGORY_PERMANENT "PROXMOX_TASK_FAILED" "The provider task failed."
       end).
(** The report on a run record. *)
Definition run_report (run : option RunRecord) : GetTaskResponse :=
  match run with
  | None => task TASK_UNKNOWN
  | Some run =>
      match run.(rr_status) with
      | run_running => task TASK_RUNNING
      | run_succeeded => task TASK_SUCCEEDED
      | status =>
          if bool_decide (run.(rr_gateDecision) = Some refused_destructive) then
            task_failed TASK_FAILED FAILURE_CATEGORY_PERMANENT "TERRAFORM_PLAN_REFUSED"
              "The change was refused because it would destroy a provider resource."
          else if bool_decide (status = run_unknown) then
            task_failed TASK_UNKNOWN FAILURE_CATEGORY_UNKNOWN_OUTCOME "TERRAFORM_RUN_UNKNOWN"
              "The Terraform run outcome could not be determined."
          else if isTransient run.(rr_diagnostics) then
            task_failed TASK_FAILED FAILURE_CATEGORY_TRANSIENT "TERRAFORM_RUN_RETRYABLE"
              "The provider was busy; the change can be retried."
          else
            task_failed TASK_FAILED FAILURE_CATEGORY_PERMANENT "TERRAFORM_RUN_FAILED" "The Terraform run failed."
      end
  end.
Definition getTask (providerTaskReference : option string) : tf_step GetTaskResponse :=
  let^ reference := some_or_refuse (present providerTaskReference) in
  match after_prefix DIRECT_TASK_PREFIX reference with
  | Some upid => directTaskState upid
  | None => let^ run := readRun reference in Ret (run_report run)
  end.

(** *** Validation of a profile *)

Definition first_summary (l : list TerraformDiagnostic) (otherwise : string) : string :=
  match l with d :: _ => d.(td_summary) | [] => otherwise end.
Definition check (name : string) (r : InvocationResult) (good bad : string) : ValidationCheck :=
  {| vc_name := name; vc_passed := r.(inv_exitCode) =? 0;
     vc_safeSummary := if r.(inv_exitCode) =? 0 then good
                       else first_summary r.(inv_diagnostics) (bad ++ string_of_Z r.(inv_exitCode) ++ ".") |}.
Definition validateProfile (providerProfileId : option string) : tf_step (bool * list ValidationCheck) :=
  assertProfile providerProfileId ;^
  let^ fresh := randomUUID in
  let^ checks :=
    try_catch
      (let^ directory := runner_prepare ("probe-" ++ fresh) probeTfvars false in
       finally
         (let^ initialised := initWithoutBackend passwordOf runner directory in
          let module_check := check "terraform_module" initialised "The module and the pinned provider initialised."
                                "Terraform init exited " in
          if initialised.(inv_exitCode) =? 0 then
            let^ validated := validate passwordOf runner directory in
            Ret [module_check; check "module_variables" validated "The module and the configured variables are valid."
                                 "Terraform validate exited "]
          else Ret [module_check])
         (quietly (runner_discard directory)))
      (λ x, Ret [{| vc_name := "terraform_available"; vc_passed := false; vc_safeSummary := error_message x |}]) in
  Ret (forallb vc_passed checks, checks).
End provider.
