(* ===== verification/ProviderLogic.v ===== *)
(** * Following the programs of the adapters

    The tactic that follows a program with the rules of [SagaLogic], and what
    the small combinators of both adapters do. *)
From S2P Require Import Prelude JsText Json WorkflowStage Saga SagaLogic ProviderPort JsonParse TerraformRunner DirectClient TerraformProvider.
From Stdlib Require Import Bool String.
From stdpp Require Import base list strings.
Open Scope string_scope.
Open Scope prog_scope.

Abbreviation history := (list (exchange tf_reply)).

Ltac doing := repeat first
  [ progress cbv zeta
  | match goal with
    | |- does _ (sbind _ _) => apply does_bind; [|intros ?]
    | |- does _ (try_catch _ _) => apply does_catch; [|intros ?]
    | |- does _ (Ret _) => apply does_ret
    | |- does _ (Throw _) => apply does_throw
    | |- does _ (Vis _ _) => apply does_vis; [by eauto with program|intros ?]
    | |- does _ (match ?x with _ => _ end) => destruct x
    end
  | eauto with program; fail ].

Lemma done_does {A : Type} (P : tf_effect → Prop) (r : io A) : does P (done r).
Proof. destruct r; unfold done; doing. Qed.
Lemma some_does {A : Type} (P : tf_effect → Prop) (o : option A) : does P (some_or_refuse o).
Proof. destruct o; unfold some_or_refuse, throw_refused; doing. Qed.
Lemma lift_does {A : Type} (P : tf_effect → Prop) (r : result ProviderTransportError A) : does P (lift r).
Proof. destruct r; unfold lift; doing. Qed.

(** ** Histories of what succeeded *)

(** One effect whose reply says whether it worked. *)
Lemma done_traces {A : Type} (r : io A) (t : history) (o : result tf_error A) :
  traces (done r) t o → t = [] ∧ ((∃ a, r = Done a ∧ o = Ok a) ∨ ∃ m, o = Err (OrdinaryError m)).
Proof. destruct r; intros [-> ->]; split; eauto. Qed.
Lemma bind_Ok_traces {A B : Type} (m : tf_step A) (k : A → tf_step B) (t : history) (b : B) :
  traces (sbind m k) t (Ok b) → ∃ t1 t2 a, t = (t1 ++ t2)%list ∧ traces m t1 (Ok a) ∧ traces (k a) t2 (Ok b).
Proof. intros [(t1 & t2 & a & -> & H1 & H2)|(x & [=] & _)]%traces_bind. by exists t1, t2, a. Qed.

Lemma some_traces {A : Type} (x : option A) (t : history) (a : A) :
  traces (some_or_refuse x) t (Ok a) → t = [] ∧ x = Some a.
Proof. destruct x; cbn; [by intros [-> [= ->]]|by intros [_ [=]]]. Qed.
Lemma lift_traces {A : Type} (x : result ProviderTransportError A) (t : history) (a : A) :
  traces (lift x) t (Ok a) → t = [] ∧ x = Ok a.
Proof. destruct x; cbn; [by intros [-> [= ->]]|by intros [_ [=]]]. Qed.

#[export] Hint Resolve done_does some_does lift_does : program.
