(* ===== verification/TerraformSafety.v ===== *)
(** * What the Terraform provider may do

    Every request of the port with the work it leaves running is one program,
    [serve].  Its effects are followed with the logic of [SagaLogic]. *)
From S2P Require Import Prelude JsText Json SshKey Domain Ipv4 WorkflowStage Events EventValidation Platform Saga SagaLogic ProviderPort JsonParse PlanGate Ownership Redaction TerraformRunner DirectClient TerraformProvider ProviderLogic.
From Stdlib Require Import ZArith Lia Bool Ascii String.
From stdpp Require Import base decidable list sets strings.
Open Scope string_scope.
Open Scope Z_scope.
Open Scope prog_scope.

(** ** Requests *)

Inductive tf_call : Set :=
| Create (r : SubmitCreateRequest)
| Configure (c : option ProviderCallContext)
| Start (r : option MutationRequest)
| Shutdown (r : option MutationRequest)
| Stop (r : option MutationRequest)
| Reboot (r : option MutationRequest)
| Resize (r : option MutationRequest) (target : option RequestResources)
| SnapshotCreate (r : option MutationRequest) (name description : option string)
| SnapshotRollback (r : option MutationRequest) (reference : option string)
| SnapshotDelete (r : option MutationRequest) (reference : option string)
| Retain (r : option MutationRequest) (retentionDeadline : option string)
| Purge (r : option MutationRequest) (purgeAuthorizationId : option string)
| Observe (r : MutationRequest)
| Snapshots (r : MutationRequest)
| Task (reference : option string)
| ValidateProfile (providerProfileId : option string).

(** Runs a mutation and the work it leaves behind. *)
Definition whole (m : tf_step answer) : tf_step unit := let^ a := m in snd a.

Section serve.
Context `{Platform}.
Variable passwordOf : string → option string.
Variable untyped_verdict : json → option string → result string GateResult.
Variable configuration : TerraformProxmoxConfiguration.
Variable runner : TerraformRunnerConfiguration.
Variable directClient : option DirectClientConfiguration.
Variable now : Z.

Definition serve (c : tf_call) : tf_step unit :=
  match c with
  | Create r => whole (submitCreateInstance passwordOf untyped_verdict configuration runner r)
  | Configure c => whole (applyInstanceConfiguration passwordOf untyped_verdict configuration runner c)
  | Start r => whole (startInstance passwordOf untyped_verdict configuration runner r)
  | Shutdown r => whole (shutdownInstance passwordOf untyped_verdict configuration runner r)
  | Stop r => whole (stopInstance passwordOf configuration runner directClient r)
  | Reboot r => whole (rebootInstance passwordOf configuration runner directClient r)
  | Resize r target => whole (resizeInstance passwordOf untyped_verdict configuration runner r target)
  | SnapshotCreate r name description =>
      whole (createSnapshot passwordOf configuration runner directClient r name description)
  | SnapshotRollback r reference => whole (rollbackSnapshot passwordOf configuration runner directClient r reference)
  | SnapshotDelete r reference => whole (deleteSnapshot passwordOf configuration runner directClient r reference)
  | Retain r deadline => whole (markInstanceRetained passwordOf untyped_verdict configuration runner r deadline)
  | Purge r authorization =>
      whole (purgeInstance passwordOf untyped_verdict configuration runner directClient r authorization)
  | Observe r => observeInstance passwordOf configuration runner now r ;^ Ret tt
  | Snapshots r => listSnapshots configuration directClient r ;^ Ret tt
  | Task reference => getTask directClient reference ;^ Ret tt
  | ValidateProfile p => validateProfile passwordOf configuration runner p ;^ Ret tt
  end.
End serve.

(** The context a request comes with, where it may begin a run. *)
Definition tf_context (c : tf_call) : option ProviderCallContext :=
  match c with
  | Create r => r.(sc_context)
  | Configure c => c
  | Start r | Shutdown r | Stop r | Reboot r | Resize r _ | SnapshotCreate r _ _ | SnapshotRollback r _
  | SnapshotDelete r _ | Retain r _ | Purge r _ => r ≫= mr_context
  | Observe r | Snapshots r => r.(mr_context)
  | Task _ | ValidateProfile _ => None
  end.
(** A run of that context: of its instance, under its token. *)
Definition begins_as (c : tf_call) (i : BeginRunInput) : Prop :=
  instance_of (tf_context c) = Some i.(br_instanceId) ∧ i.(br_fencingToken) = fencingTokenFrom (tf_context c).
(** The one address a request may destroy. *)
Definition destruction_allowed (c : tf_call) : option string :=
  match c with Purge _ _ => Some INSTANCE_ADDRESS | _ => None end.

(** ** Effects *)

(** An effect that applies nothing, and begins and completes no run. *)
Definition calm (e : tf_effect) : Prop :=
  match e with Spawn _ arguments => arguments ≠ apply_arguments | BeginRun _ | CompleteRun _ => False | _ => True end.
(** Nor removes a directory. *)
Definition plain (e : tf_effect) : Prop := match e with RemoveDirectory _ => False | _ => calm e end.
Definition all (P : tf_effect → Prop) (h : history) : Prop := Forall (λ x, P (effect_of x)) h.

Lemma plain_calm (e : tf_effect) : plain e → calm e.
Proof. by destruct e. Qed.

#[export] Hint Extern 1 (plain _) => first [exact I | intros Heq; discriminate Heq] : program.
#[export] Hint Extern 1 (calm _) => first [exact I | intros Heq; discriminate Heq] : program.

Section fragments.
Context `{Platform}.
Variable passwordOf : string → option string.
Variable untyped_verdict : json → option string → result string GateResult.
Variable configuration : TerraformProxmoxConfiguration.
Variable runner : TerraformRunnerConfiguration.
Variable directClient : option DirectClientConfiguration.
Variable now : Z.

Lemma profile_does (P : tf_effect → Prop) (p : option string) : does P (assertProfile configuration p).
Proof. unfold assertProfile, throw_refused. doing. Qed.
Hint Resolve profile_does : program.

Lemma invoke_does (P : tf_effect → Prop) (label : string) (arguments : list string) (d : string) :
  P (Spawn d arguments) → does P (invoke passwordOf runner label arguments d).
Proof. intros. unfold invoke. doing. Qed.
Hint Resolve invoke_does : program.

Lemma copy_entries_does (source destination : string) (entries : list string) :
  does plain (copy_entries source destination entries).
Proof.
  induction entries as [|entry entries IH]; cbn [copy_entries]; [doing|]. unfold copyFile. doing.
Qed.
Hint Resolve copy_entries_does : program.
Lemma writeVariables_does (d : string) (t : InstanceTfvars) : does plain (writeVariables d t).
Proof. unfold writeVariables, writeFile, chmod. doing. Qed.
Hint Resolve writeVariables_does : program.
Lemma prepare_does (w : string) (t : InstanceTfvars) (purge : bool) : does plain (prepare runner w t purge).
Proof. unfold prepare, randomUUID, mkdir, copyModule, readdir. doing. Qed.
Lemma init_does (d w : string) : does plain (init passwordOf runner d w).
Proof. unfold init. doing. Qed.
Lemma stateMetadata_does (d : string) : does plain (stateMetadata passwordOf runner d).
Proof. unfold stateMetadata. doing. Qed.
Lemma deleteWorkspace_does (d w : string) : does plain (deleteWorkspace passwordOf runner d w).
Proof. unfold deleteWorkspace. doing. Qed.
Lemma plan_does (d : string) (destroy : bool) (allow : option string) :
  does plain (plan passwordOf untyped_verdict runner d destroy allow).
Proof. unfold plan. doing. Qed.
Lemma refresh_does (d : string) : does plain (refresh passwordOf runner d).
Proof. unfold refresh. doing. Qed.
Lemma tfvarsFromState_does (d : string) : does plain (tfvarsFromState passwordOf configuration runner d).
Proof. unfold tfvarsFromState, readState, showState, resource_in. doing. Qed.
Lemma readState_does (d : string) : does plain (readState passwordOf runner d).
Proof. unfold readState, showState. doing. Qed.
Lemma recordWorkspace_does (i : RecordWorkspaceInput) : does plain (recordWorkspace i).
Proof. unfold recordWorkspace. doing. Qed.
Lemma discard_does (d : string) : does calm (discard runner d).
Proof. unfold discard, rm. doing. Qed.
End fragments.

(** ** Programs followed exactly *)

(** The plan in [d] was computed, shown and allowed, and nothing was exchanged
    since. *)
Definition gated (untyped_verdict : json → option string → result string GateResult) (h : history) (d : string)
    (allow : option string) : Prop :=
  ∃ before destroy planned shown gate,
    h = (before ++ [@Exchange _ tf_reply (Spawn d (plan_arguments destroy)) planned;
                    @Exchange _ tf_reply (Spawn d show_plan_arguments) shown])%list
    ∧ planned.(exitCode) = 0 ∧ gate_of untyped_verdict shown.(stdout) allow = Ok gate
    ∧ gate.(gate_decision) = gate_allowed.
(** The run an exchange put into the inventory. *)
Definition begins (x : exchange tf_reply) : option BeginRunInput :=
  match x with
  | Exchange e r =>
      match e as e0 return tf_reply e0 → option BeginRunInput with
      | BeginRun i => λ r, match r with Done _ => Some i | Failed _ => None end
      | _ => λ _, None
      end r
  end.
(** A run that will apply is in the inventory. *)
Definition begun (h : history) : Prop := ∃ x i, x ∈ h ∧ begins x = Some i ∧ i.(br_command) = command_apply.
(** A report of how a run ended, under the token it was begun with. *)
Definition reports (i : BeginRunInput) (j : CompleteRunInput) : Prop :=
  j.(cr_runId) = i.(br_runId) ∧ j.(cr_fencingToken) = i.(br_fencingToken) ∧ j.(cr_status) ≠ run_running.
(** Every run put into the inventory has had an outcome reported after. *)
Definition reported (h : history) : Prop :=
  ∀ h1 x h2 i, h = (h1 ++ x :: h2)%list → begins x = Some i →
    ∃ y j, y ∈ h2 ∧ effect_of y = CompleteRun j ∧ reports i j.
(** The variables were written to the directory. *)
Definition variables_in `{Platform} (h : history) (d : string) (t : InstanceTfvars) : Prop :=
  @Exchange _ tf_reply (WriteFile (path_join d TFVARS_FILE) (renderTfvars t)) (Done tt) ∈ h.

Section exact.
Context `{Platform}.
Variable passwordOf : string → option string.
Variable untyped_verdict : json → option string → result string GateResult.
Variable configuration : TerraformProxmoxConfiguration.
Variable runner : TerraformRunnerConfiguration.
(** The runs that may be put into the inventory. *)
Variable who : BeginRunInput → Prop.

Lemma gated_app (h t : history) (d : string) (allow : option string) :
  gated untyped_verdict t d allow → gated untyped_verdict (h ++ t) d allow.
Proof.
  intros (before & destroy & planned & shown & gate & -> & Hrest).
  exists (h ++ before)%list, destroy, planned, shown, gate. by rewrite <- app_assoc.
Qed.

Lemma prepare_writes (w : string) (t : InstanceTfvars) (purge : bool) (tr : history) (d : string) :
  traces (prepare runner w t purge) tr (Ok d) → variables_in tr d t.
Proof.
  unfold prepare. intros (t1 & t2 & fresh & -> & _ & Ht)%bind_Ok_traces.
  apply bind_Ok_traces in Ht as (t3 & t4 & [] & -> & _ & Ht). apply bind_Ok_traces in Ht as (t5 & t6 & [] & -> & _ & Ht).
  apply bind_Ok_traces in Ht as (t7 & t8 & [] & -> & Hw & [-> [= ->]]).
  unfold writeVariables in Hw. apply bind_Ok_traces in Hw as (t9 & t10 & [] & -> & (r & t' & -> & Hd) & _).
  apply done_traces in Hd as [-> [([] & -> & _)|(m & [=])]].
  unfold variables_in. set_solver.
Qed.

Lemma plan_gates (d : string) (destroy : bool) (allow : option string) (t : history) (gate : GateResult)
    (invocation : InvocationResult) :
  traces (plan passwordOf untyped_verdict runner d destroy allow) t (Ok (gate, invocation)) →
  gate.(gate_decision) = gate_allowed → gated untyped_verdict t d allow.
Proof.
  unfold plan, invoke. cbn. intros (planned & t1 & -> & Ht) Hallowed. cbn in Ht.
  destruct (negb (exitCode planned =? 0)) eqn:E; unbool.
  { destruct Ht as [_ [= -> _]]. discriminate Hallowed. }
  destruct Ht as (shown & t2 & -> & Ht). destruct (gate_of _ _ _) as [g|m] eqn:Eg; destruct Ht as [-> Ho]; [|done].
  injection Ho as -> _. exists [], destroy, planned, shown, g. done.
Qed.

(** ** An apply in full *)

Definition keeps_directories (e : tf_effect) : Prop := match e with RemoveDirectory _ => False | _ => True end.
Definition applies_nothing (e : tf_effect) : Prop :=
  match e with Spawn _ arguments => arguments ≠ apply_arguments | _ => True end.
(** What an effect presupposes: an apply, a gated plan, a begun run, and a
    directory that holds the variables and has not been removed; a reported
    success, an apply that exited with 0; a removal, that nothing was applied;
    a run, that it may be begun. *)
Definition permitted (allow : option string) (h : history) (e : tf_effect) : Prop :=
  match e with
  | Spawn d arguments =>
      arguments = apply_arguments →
      gated untyped_verdict h d allow ∧ begun h ∧ all keeps_directories h
      ∧ ∃ t, variables_in h d t ∧ t.(cloud_init_password) = configuration.(tc_cloudInitPassword)
  | CompleteRun j =>
      j.(cr_status) = run_succeeded →
      ∃ h' d r, h = (h' ++ [@Exchange _ tf_reply (Spawn d apply_arguments) r])%list ∧ r.(exitCode) = 0
  | RemoveDirectory _ => all applies_nothing h
  | BeginRun i => who i
  | _ => True
  end.

Lemma permitted_plain (allow : option string) (h : history) (e : tf_effect) : plain e → permitted allow h e.
Proof. destruct e; cbn; try done. Qed.
Lemma calm_begins (h : history) (x : exchange tf_reply) : all calm h → x ∈ h → begins x = None.
Proof.
  intros Hh Hin. unfold all in Hh. rewrite Forall_forall in Hh. specialize (Hh x Hin). by destruct x as [[] r].
Qed.
Lemma reported_calm (h : history) : all calm h → reported h.
Proof. intros Hh h1 x h2 i -> Hb. rewrite (calm_begins _ x Hh) in Hb; [done|]. apply elem_of_app. right. by left. Qed.
Lemma all_app (P : tf_effect → Prop) (h t : history) : all P h → all P t → all P (h ++ t).
Proof. intros ? ?. by apply Forall_app. Qed.
Lemma all_impl (P P' : tf_effect → Prop) (h : history) : (∀ e, P e → P' e) → all P h → all P' h.
Proof. intros Hi Hh. apply (Forall_impl _ _ _ Hh). intros x. apply Hi. Qed.
Lemma plain_keeps (e : tf_effect) : plain e → keeps_directories e.
Proof. by destruct e. Qed.
Lemma all_plain_calm (h : history) : all plain h → all calm h.
Proof. apply all_impl, plain_calm. Qed.

(** The runs of a history are [runId], begun with [token]. *)
Definition runs_of (runId token : string) (h : history) : Prop :=
  ∀ x i, x ∈ h → begins x = Some i → i.(br_runId) = runId ∧ i.(br_fencingToken) = token.
(** An outcome of [runId] is reported, and no run is begun after. *)
Definition outcome_in (runId token : string) (h : history) : Prop :=
  ∃ h1 y j h2, h = (h1 ++ y :: h2)%list ∧ effect_of y = CompleteRun j
    ∧ (j.(cr_runId) = runId ∧ j.(cr_fencingToken) = token ∧ j.(cr_status) ≠ run_running)
    ∧ ∀ z, z ∈ h2 → begins z = None.
Lemma runs_app (runId token : string) (h t : history) :
  runs_of runId token h → runs_of runId token t → runs_of runId token (h ++ t).
Proof. intros H1 H2 x i [?|?]%elem_of_app ?; [by eapply H1|by eapply H2]. Qed.
Lemma runs_calm (runId token : string) (h : history) : all calm h → runs_of runId token h.
Proof. intros Hh x i Hin Hb. by rewrite (calm_begins h) in Hb. Qed.
Lemma runs_one (runId token : string) (x : exchange tf_reply) :
  match effect_of x with BeginRun i => i.(br_runId) = runId ∧ i.(br_fencingToken) = token | _ => True end →
  runs_of runId token [x].
Proof.
  intros Hx y i ->%list_elem_of_singleton Hb. destruct x as [e r]. destruct e; try done. cbn in *.
  destruct r; [|done]. by injection Hb as <-.
Qed.
Lemma outcome_app_l (runId token : string) (h t : history) :
  outcome_in runId token h → all calm t → outcome_in runId token (h ++ t).
Proof.
  intros (h1 & y & j & h2 & -> & Hy & (? & ? & ?) & Hz) Ht. exists h1, y, j, (h2 ++ t)%list. rewrite <- app_assoc.
  split_and!; [done..|]. intros z [?|?]%elem_of_app; [by apply Hz|by apply (calm_begins t)].
Qed.
Lemma outcome_last (runId token : string) (h : history) (j : CompleteRunInput) (r : tf_reply (CompleteRun j)) :
  j.(cr_runId) = runId → j.(cr_fencingToken) = token → j.(cr_status) ≠ run_running →
  outcome_in runId token (h ++ [Exchange (CompleteRun j) r]).
Proof. intros ???. exists h, (Exchange (CompleteRun j) r), j, []. split_and!; [done..|]. intros z Hz. by apply not_elem_of_nil in Hz. Qed.
Lemma reported_of (runId token : string) (h : history) :
  runs_of runId token h → outcome_in runId token h → reported h.
Proof.
  intros Hr (h1 & y & j & h2 & Hh & Hy & Hj & Hz) g1 x g2 i Hg Hb.
  assert (Hi : i.(br_runId) = runId ∧ i.(br_fencingToken) = token).
  { apply (Hr x); [|done]. rewrite Hg. apply elem_of_app. right. by left. }
  exists y, j. destruct Hi as [<- <-]. split; [|done].
  rewrite Hh in Hg. apply app_eq_app in Hg as (l & [[-> Hx]|[-> Hx]]).
  - destruct l as [|z l]; injection Hx as -> Hx; [by destruct y as [e r]; cbn in Hy; subst e|]. rewrite Hx. set_solver.
  - exfalso. assert (Hin : x ∈ y :: h2) by (rewrite Hx; set_solver).
    apply elem_of_cons in Hin as [->|Hin]; [by destruct y as [e r]; cbn in Hy; subst e|]. by rewrite (Hz x Hin) in Hb.
Qed.
End exact.

Section applying.
Context `{Platform}.
Variable passwordOf : string → option string.
Variable untyped_verdict : json → option string → result string GateResult.
Variable configuration : TerraformProxmoxConfiguration.
Variable runner : TerraformRunnerConfiguration.
Variable who : BeginRunInput → Prop.

Lemma quiet_discard (w : string) : startsWith w runner.(workingRoot) = false → quietly (discard runner w) = Ret tt.
Proof. intros Hw. unfold quietly, discard. by rewrite Hw. Qed.
Lemma begun_app (h t : history) : begun h → begun (h ++ t).
Proof. intros (x & i & Hin & ?). exists x, i. split; [|done]. apply elem_of_app. by left. Qed.

(** What holds once a run has begun and its apply is due. *)
Definition due (runId directory : string) (input : StartApply) (h : history) : Prop :=
  begun h ∧ all keeps_directories h ∧ variables_in h directory input.(sa_tfvars)
  ∧ input.(sa_tfvars).(cloud_init_password) = configuration.(tc_cloudInitPassword) ∧ runs_of runId input.(sa_fencingToken) h.
Lemma due_app (runId directory : string) (input : StartApply) (h t : history) :
  due runId directory input h → all plain t → due runId directory input (h ++ t).
Proof.
  intros (Hb & Hk & Hv & Hp & Hr) Ht. split_and!; [by apply begun_app| |apply elem_of_app; by left|done|].
  - apply all_app; [done|]. by eapply all_impl, Ht; apply plain_keeps.
  - apply runs_app; [done|]. by apply runs_calm, all_plain_calm.
Qed.

Definition after_apply (runId token : string) (h : history) (o : result tf_error unit) : Prop :=
  runs_of runId token h ∧ match o with Ok _ => outcome_in runId token h | Err _ => True end.

Lemma apply_wp (h : history) (runId directory : string) (input : StartApply) :
  due runId directory input h →
  wp (permitted untyped_verdict configuration who (destroys input)) h
     (apply_and_record passwordOf untyped_verdict runner runId directory input) (after_apply runId input.(sa_fencingToken)).
Proof.
  intros Hdue. unfold apply_and_record. apply wp_bind, (wp_does plain).
  { apply plan_does. }
  { intros t e _. apply permitted_plain. }
  intros t o Ht Htr. pose proof (due_app _ _ _ _ _ Hdue Ht) as (Hb & Hk & Hv & Hp & Hr).
  destruct o as [[gate inv]|x]; [|by split].
  apply wp_bind. unfold apply_plan. case_bool_decide as Hg; cbn [negb fst snd]; [|by split].
  split.
  { intros _. split_and!; [apply gated_app; by eapply plan_gates|done|done|by exists input.(sa_tfvars)]. }
  intros r. cbn [sbind wp inv_exitCode]. apply wp_bind.
  assert (Hr' : runs_of runId input.(sa_fencingToken) ((h ++ t) ++ [@Exchange _ tf_reply (Spawn directory apply_arguments) r])).
  { apply runs_app; [done|]. by apply runs_one. }
  split.
  { cbn. destruct (Z.eqb_spec (exitCode r) 0); [|done]. intros _. by exists (h ++ t)%list, directory, r. }
  intros done_. set (h' := (_ ++ [_])%list).
  assert (Hr2 : runs_of runId input.(sa_fencingToken) h'). { apply runs_app; [done|]. by apply runs_one. }
  assert (Ho : outcome_in runId input.(sa_fencingToken) h').
  { apply outcome_last; [done..|]. cbn. by destruct (_ =? _). }
  destruct done_ as [[]|m]; [|by split]. cbn [done wp sbind]. apply (wp_does plain).
  - repeat first [ apply recordWorkspace_does | apply stateMetadata_does | progress doing ].
    unfold quietly. apply does_catch; [|intros ?; doing]. apply does_bind; [apply deleteWorkspace_does|intros ?; doing].
  - intros t' e _. apply permitted_plain.
  - intros t' o' Ht' _. split; [apply runs_app; [done|by apply runs_calm, all_plain_calm]|].
    destruct o'; [by apply outcome_app_l, all_plain_calm|done].
Qed.

Lemma unknown_wp (h : history) (allow : option string) (runId : string) (input : StartApply) (x : tf_error) :
  runs_of runId input.(sa_fencingToken) h →
  wp (permitted untyped_verdict configuration who allow) h (record_unknown runId input x)
     (λ h' _, runs_of runId input.(sa_fencingToken) h' ∧ outcome_in runId input.(sa_fencingToken) h').
Proof.
  intros Hr. unfold record_unknown, quietly, completeRun. split; [by intros [=]|]. intros r.
  set (h' := (_ ++ [_])%list).
  assert (runs_of runId input.(sa_fencingToken) h' ∧ outcome_in runId input.(sa_fencingToken) h').
  { split; [apply runs_app; [done|by apply runs_one]|by apply outcome_last]. }
  by destruct r.
Qed.

Lemma background_wp (h : history) (runId directory : string) (input : StartApply) :
  startsWith input.(sa_workspace) runner.(workingRoot) = false →
  due runId directory input h →
  wp (permitted untyped_verdict configuration who (destroys input)) h
     (completeInBackground passwordOf untyped_verdict runner runId directory input) (λ h' _, reported h').
Proof.
  intros Hw Hdue. unfold completeInBackground, finally. rewrite quiet_discard by done.
  apply wp_bind, wp_catch, wp_catch. eapply wp_mono; [|by apply apply_wp].
  intros h' [[]|x] [Hr Ho]; cbv beta iota.
  - cbn. by eapply reported_of.
  - eapply wp_mono; [|by apply unknown_wp]. intros h'' [[]|x'] [? ?]; cbn; by eapply reported_of.
Qed.

(** The runs of a request: of its instance, under its token. *)
Definition runs_as (instanceId token : string) : Prop :=
  ∀ i, i.(br_instanceId) = instanceId → i.(br_fencingToken) = token → who i.
(** The variables of an apply hold the configured password. *)
Definition configured (t : InstanceTfvars) : Prop := t.(cloud_init_password) = configuration.(tc_cloudInitPassword).

(** A mutation that is answered, and whose remaining work is then followed to
    its end. *)
Definition answered (allow : option string) (h : history) (o : result tf_error answer) : Prop :=
  match o with
  | Ok a => wp (permitted untyped_verdict configuration who allow) h (snd a) (λ h' _, reported h')
  | Err _ => reported h
  end.
Definition follows (allow : option string) (h : history) (m : tf_step answer) : Prop :=
  wp (permitted untyped_verdict configuration who allow) h m (answered allow).

Lemma start_follows (h : history) (input : StartApply) :
  startsWith input.(sa_workspace) runner.(workingRoot) = false →
  configured input.(sa_tfvars) → runs_as input.(sa_instanceId) input.(sa_fencingToken) → all plain h →
  follows (destroys input) h (startApply passwordOf untyped_verdict runner input).
Proof.
  intros Hw Hp Hwho Hh. unfold follows, startApply. apply wp_bind. split; [done|]. intros runId.
  set (h1 := (h ++ _)%list). assert (H1 : all plain h1) by (apply all_app; [done|by constructor]).
  cbn [wp]. apply wp_bind, (wp_does plain); [apply prepare_does|intros ???; by apply permitted_plain|].
  intros t2 o H2 Htr. assert (Hp2 : all plain (h1 ++ t2)) by by apply all_app.
  destruct o as [directory|x]; [|by apply reported_calm, all_plain_calm].
  assert (Hv : variables_in (h1 ++ t2) directory input.(sa_tfvars)).
  { apply elem_of_app. right. by eapply prepare_writes. }
  apply wp_bind, (wp_does plain); [apply init_does|intros ???; by apply permitted_plain|].
  intros t3 o H3 _. assert (Hp3 : all plain ((h1 ++ t2) ++ t3)) by by apply all_app.
  destruct o as [initialised|x]; [|by apply reported_calm, all_plain_calm].
  destruct (negb _).
  { rewrite quiet_discard by done. cbn. by apply reported_calm, all_plain_calm. }
  apply wp_bind, (wp_does plain); [apply plan_does|intros ???; by apply permitted_plain|].
  intros t4 o H4 _. set (h4 := (((h1 ++ t2) ++ t3) ++ t4)%list). assert (Hp4 : all plain h4) by by apply all_app.
  destruct o as [[gate invocation]|x]; [|by apply reported_calm, all_plain_calm]. cbn [fst snd].
  apply wp_bind. split; [by apply Hwho|]. intros r. set (h5 := (h4 ++ [_])%list).
  destruct r as [[]|m]; cbn [done wp].
  2: { intros g1 x g2 i Hg Hb. assert (Hin : x ∈ h5) by (rewrite Hg; apply elem_of_app; right; by left).
     apply elem_of_app in Hin as [Hin| ->%list_elem_of_singleton]; [|done].
     by rewrite (calm_begins h4) in Hb; [|apply all_plain_calm|]. }
  assert (Hr5 : runs_of runId input.(sa_fencingToken) h5). { apply runs_app; [by apply runs_calm, all_plain_calm|by apply runs_one]. }
  case_bool_decide as Hg; cbn [wp snd].
  - apply background_wp; [done|]. split_and!; [|apply all_app|apply elem_of_app; left|done|done].
    + eexists _, _. split; [apply elem_of_app; right; by left|]. split; [reflexivity|]. done.
    + by eapply all_impl, Hp4; apply plain_keeps.
    + by constructor.
    + apply elem_of_app. left. apply elem_of_app. by left.
  - apply wp_bind. rewrite quiet_discard by done. split; [by intros [=]|]. intros r. set (h6 := (h5 ++ [_])%list).
    assert (Hr6 : runs_of runId input.(sa_fencingToken) h6). { apply runs_app; [done|by apply runs_one]. }
    assert (Ho : outcome_in runId input.(sa_fencingToken) h6) by by apply outcome_last.
    destruct r as [[]|m]; cbn; by eapply reported_of.
Qed.

(** *** Steps before an apply *)

Lemma follows_plain {A : Type} (allow : option string) (h : history) (m : tf_step A) (k : A → tf_step answer) :
  does plain m → all plain h → (∀ h' a, (∃ t, traces m t (Ok a)) → all plain h' → follows allow h' (k a)) →
  follows allow h (sbind m k).
Proof.
  intros Hm Hh Hk. apply wp_bind, (wp_does plain); [done|intros ???; by apply permitted_plain|].
  intros t [a|x] Ht Htr; [apply Hk; [by exists t|by apply all_app]|]. by apply reported_calm, all_plain_calm, all_app.
Qed.
Lemma permitted_calm (allow : option string) (h : history) (e : tf_effect) : all calm h → calm e → permitted untyped_verdict configuration who allow h e.
Proof. intros Hh. destruct e; cbn; try done. intros _. by eapply all_impl, Hh; intros []. Qed.
Lemma follows_calm (allow : option string) (h : history) (m : tf_step answer) :
  does calm m → all calm h → (∀ a, (∃ t, traces m t (Ok a)) → snd a = Ret tt) → follows allow h m.
Proof.
  intros Hm Hh Hret. apply (wp_does calm); [done|intros ???; apply permitted_calm; by apply all_app|].
  intros t [a|x] Ht Htr; cbn; [rewrite Hret by by exists t; cbn|]; by apply reported_calm, all_app.
Qed.
Lemma calm_wp (allow : option string) (h : history) (m : tf_step unit) :
  does calm m → all calm h → wp (permitted untyped_verdict configuration who allow) h m (λ h' _, reported h').
Proof.
  intros Hm Hh. apply (wp_does calm); [done|intros ???; apply permitted_calm; by apply all_app|].
  intros t o Ht _. by apply reported_calm, all_app.
Qed.
Lemma follows_only (allow : option string) (h : history) (r : ProviderMutationResult) : all calm h → follows allow h (only r).
Proof. intros Hh. cbn. by apply reported_calm. Qed.
Lemma follows_discard (allow : option string) (h : history) (d : string) (m : tf_step answer) :
  all calm h → (∀ h', all calm h' → follows allow h' m) → follows allow h (quietly (discard runner d) ;^ m).
Proof.
  intros Hh Hm. apply wp_bind, (wp_does calm); [|intros ???; apply permitted_calm; by apply all_app|].
  { unfold quietly. apply does_catch; [apply discard_does|intros ?; apply does_ret]. }
  intros t [a|x] Ht Htr; [by apply Hm, all_app|]. by apply reported_calm, all_app.
Qed.
Lemma follows_declared (allow : option string) (h : history) (i : string) (purge : bool) (message : string)
    (k : string → InstanceTfvars → tf_step answer) :
  all plain h → (∀ h' d declared, all plain h' → configured declared → follows allow h' (k d declared)) →
  follows allow h (with_declared passwordOf configuration runner i purge message k).
Proof.
  intros Hh Hk. unfold with_declared. cbv zeta. apply follows_plain; [apply prepare_does|done|]. intros h1 d _ H1.
  apply follows_plain; [apply init_does|done|]. intros h2 initialised _ H2. destruct (negb _).
  { apply follows_discard; [by apply all_plain_calm|]. intros h3 H3. cbn. by apply reported_calm. }
  apply wp_bind, (wp_does plain); [apply tfvarsFromState_does|intros ???; by apply permitted_plain|].
  intros t [[declared|]|x] Ht Htr; [|apply follows_discard|by apply reported_calm, all_plain_calm, all_app].
  - apply Hk; [by apply all_app|]. unfold tfvarsFromState in Htr.
    apply bind_Ok_traces in Htr as (? & ? & ? & _ & _ & Htr). apply bind_Ok_traces in Htr as (? & ? & ? & _ & _ & [_ Ho]).
    case_match; [|done]. by injection Ho as ->.
  - by apply all_plain_calm, all_app.
  - intros h3 H3. by apply follows_only.
Qed.
End applying.

Section requests.
Context `{Platform}.
Variable passwordOf : string → option string.
Variable untyped_verdict : json → option string → result string GateResult.
Variable configuration : TerraformProxmoxConfiguration.
Variable runner : TerraformRunnerConfiguration.
Variable directClient : option DirectClientConfiguration.
Variable now : Z.
Variable who : BeginRunInput → Prop.
(** No workspace name begins with the working root, as none begins with an
    absolute path. *)
Hypothesis Hroot : ∀ i, startsWith (workspaceNameFor i) runner.(workingRoot) = false.

Abbreviation follows := (follows untyped_verdict configuration who).
(** The runs a request may begin with its context. *)
Definition runs_with (context : option ProviderCallContext) : Prop :=
  ∀ i, instance_of context = Some i → runs_as who i (fencingTokenFrom context).

Hint Resolve profile_does : program.

Lemma request_does (method : HttpMethod) (path : string) (body : option (list (string * string))) :
  does plain (request method path body).
Proof. unfold request, throw_refused. doing. Qed.
Hint Resolve request_does : program.
Lemma client_vmid_does (c : DirectClientConfiguration) (vmid : Z) : does plain (DirectClient.assertVmid c vmid).
Proof. unfold DirectClient.assertVmid, throw_refused. doing. Qed.
Lemma client_name_does (name : string) : does plain (assertSnapshotName name).
Proof. unfold assertSnapshotName, throw_refused. doing. Qed.
Hint Resolve client_vmid_does client_name_does : program.
Lemma config_does (c : DirectClientConfiguration) (vmid : Z) : does plain (config c vmid).
Proof. unfold config. doing. Qed.
Hint Resolve config_does : program.
Lemma ownership_does (vmid : Z) (expected : option OwnershipMarkers) : does plain (assertLiveOwnership directClient vmid expected).
Proof. unfold assertLiveOwnership, direct, throw_refused. doing. Qed.
Lemma vmid_does (value : option string) : does plain (assertVmid configuration value).
Proof. unfold assertVmid. doing. Qed.
Hint Resolve ownership_does vmid_does : program.

Lemma start_follows_as (allow : option string) (h : history) (input : StartApply) :
  destroys input = allow → startsWith input.(sa_workspace) runner.(workingRoot) = false →
  configured configuration input.(sa_tfvars) → runs_as who input.(sa_instanceId) input.(sa_fencingToken) → all plain h →
  follows allow h (startApply passwordOf untyped_verdict runner input).
Proof. intros <-. apply start_follows. Qed.
Lemma change_follows (h : history) (context : option ProviderCallContext) (i o : string) (declared t : InstanceTfvars) (purge : bool) :
  configured configuration t → runs_as who i (fencingTokenFrom context) → all plain h →
  follows (if purge then Some INSTANCE_ADDRESS else None) h
    (change passwordOf untyped_verdict runner context i o declared t purge).
Proof. intros Ht Hi Hh. unfold change. by apply start_follows_as; [done|apply Hroot|..]. Qed.

(** The guards a mutation opens with. *)
Ltac one_guard := apply follows_plain; [by eauto with program|done|intros ? ? _ ?].
(** The guard that reads the instance of the context. *)
Lemma follows_instance (allow : option string) (h : history) (context : option ProviderCallContext) (k : string → tf_step answer) :
  runs_with context → all plain h →
  (∀ h' i, runs_as who i (fencingTokenFrom context) → all plain h' → follows allow h' (k i)) →
  follows allow h (sbind (some_or_refuse (instance_of context)) k).
Proof.
  intros Hw Hh Hk. apply follows_plain; [apply some_does|done|]. intros h' i (t & [_ Hi]%some_traces). by apply Hk, Hw.
Qed.
Ltac instance_guard := apply follows_instance; [done|done|intros ? ? ? ?].

Lemma create_follows (r : SubmitCreateRequest) :
  runs_with r.(sc_context) →
  follows None [] (submitCreateInstance passwordOf untyped_verdict configuration runner r).
Proof.
  intros Hw. unfold submitCreateInstance. cbv zeta. assert (all plain (@nil (exchange tf_reply))) by constructor.
  one_guard. instance_guard. one_guard.
  apply follows_plain; [unfold throw_refused; doing|done|intros ? ? _ ?]. one_guard.
  destruct (sc_resources r), (sc_network r); try (cbn; by apply reported_calm, all_plain_calm).
  do 3 one_guard. by apply start_follows_as; [done|apply Hroot|..].
Qed.
Lemma power_follows (r : MutationRequest) (on : bool) :
  runs_with r.(mr_context) →
  follows None [] (setPowerState passwordOf untyped_verdict configuration runner r on).
Proof.
  intros Hw. unfold setPowerState. cbv zeta. assert (all plain (@nil (exchange tf_reply))) by constructor.
  one_guard. instance_guard. one_guard.
  apply follows_declared; [done|]. intros h2 d declared Hh Hd. destruct (Bool.eqb _ _).
  - apply follows_discard; [by apply all_plain_calm|]. intros h3 Hcalm. by apply follows_only.
  - by apply change_follows.
Qed.
Lemma resize_follows (r : option MutationRequest) (target : option RequestResources) :
  runs_with (r ≫= mr_context) →
  follows None [] (resizeInstance passwordOf untyped_verdict configuration runner r target).
Proof.
  intros Hw. unfold resizeInstance. cbv zeta. assert (all plain (@nil (exchange tf_reply))) by constructor.
  one_guard. instance_guard. one_guard.
  apply follows_declared; [done|]. intros h2 d declared Hh Hd. case_match.
  - apply follows_discard; [by apply all_plain_calm|]. intros h3 Hcalm. by apply follows_only.
  - by apply change_follows.
Qed.
Lemma retain_follows (r : option MutationRequest) (deadline : option string) :
  runs_with (r ≫= mr_context) →
  follows None [] (markInstanceRetained passwordOf untyped_verdict configuration runner r deadline).
Proof.
  intros Hw. unfold markInstanceRetained. cbv zeta. assert (all plain (@nil (exchange tf_reply))) by constructor.
  one_guard. instance_guard. do 2 one_guard.
  apply follows_declared; [done|]. intros h2 d declared Hh Hd. by apply change_follows.
Qed.
Lemma purge_follows (r : option MutationRequest) (authorization : option string) :
  runs_with (r ≫= mr_context) →
  follows (Some INSTANCE_ADDRESS) [] (purgeInstance passwordOf untyped_verdict configuration runner directClient r authorization).
Proof.
  intros Hw. unfold purgeInstance. cbv zeta. assert (all plain (@nil (exchange tf_reply))) by constructor.
  one_guard. instance_guard. do 5 one_guard.
  apply follows_declared; [done|]. intros h2 d declared Hh Hd. by apply (change_follows _ _ _ _ _ _ true).
Qed.
Lemma finally_calm {A : Type} (m : tf_step A) (d : string) : does calm m → does calm (finally m (quietly (discard runner d))).
Proof.
  intros Hm. assert (does calm (quietly (discard runner d))).
  { unfold quietly. apply does_catch; [apply discard_does|intros ?; apply does_ret]. }
  unfold finally. doing.
Qed.

(** *** Requests that apply nothing *)

Lemma plain_does_calm {A : Type} (m : tf_step A) : does plain m → does calm m.
Proof. apply does_mono, plain_calm. Qed.
Lemma refresh_after_calm (i : string) (drift : DriftState) :
  does calm (refreshAfterDirectMutation passwordOf configuration runner i drift).
Proof.
  unfold refreshAfterDirectMutation. cbv zeta.
  assert (Hq : ∀ r, does calm (quietly (recordWorkspace r))).
  { intros r. unfold quietly. apply does_catch; [apply plain_does_calm, recordWorkspace_does|intros ?; apply does_ret]. }
  apply does_bind.
  - apply does_catch; [|intros x; apply does_bind; [apply Hq|intros ?; apply does_ret]].
    apply does_bind; [apply plain_does_calm, prepare_does|intros ?; apply does_ret].
  - intros [d|]; [|apply does_ret]. apply finally_calm, does_catch; [|intros x; apply Hq].
    apply does_bind; [apply plain_does_calm, init_does|intros initialised]. destruct (negb _); [apply does_ret|].
    apply does_bind; [apply plain_does_calm, refresh_does|intros ?].
    apply does_bind; [apply plain_does_calm, stateMetadata_does|intros ?]. apply plain_does_calm, recordWorkspace_does.
Qed.
Lemma direct_follows (h : history) (allow : option string) (r : MutationRequest)
    (act : DirectClientConfiguration → Z → tf_step string) (drift : DriftState) :
  all plain h → (∀ c vmid, does plain (act c vmid)) →
  follows allow h (directMutation passwordOf configuration runner directClient r act drift).
Proof.
  intros Hh Hact. unfold directMutation. do 4 one_guard.
  apply follows_plain; [unfold direct; by eauto with program|done|intros h5 c _ H5].
  apply follows_plain; [apply Hact|done|intros h6 upid _ H6].
  refine (calm_wp _ _ _ _ _ _ (refresh_after_calm _ _) _). by apply all_plain_calm.
Qed.
Lemma snapshot_follows (allow : option string) (r : option MutationRequest)
    (act : DirectClientConfiguration → Z → tf_step string) (drift : DriftState) :
  (∀ c vmid, does plain (act c vmid)) →
  follows allow [] (snapshotMutation passwordOf configuration runner directClient r act drift).
Proof.
  intros Hact. unfold snapshotMutation. assert (all plain (@nil (exchange tf_reply))) by constructor.
  one_guard. by apply direct_follows.
Qed.
Lemma act_does (c : DirectClientConfiguration) (vmid : Z) (name : string) (description : option string) :
  does plain (DirectClient.createSnapshot c vmid name description) ∧ does plain (DirectClient.rollbackSnapshot c vmid name)
  ∧ does plain (DirectClient.deleteSnapshot c vmid name) ∧ does plain (reboot c vmid) ∧ does plain (stopHard c vmid).
Proof.
  unfold DirectClient.createSnapshot, DirectClient.rollbackSnapshot, DirectClient.deleteSnapshot, reboot, stopHard.
  split_and!; doing.
Qed.
Lemma configure_follows (c : option ProviderCallContext) :
  follows None [] (applyInstanceConfiguration passwordOf untyped_verdict configuration runner c).
Proof.
  apply follows_calm; [|constructor|].
  - unfold applyInstanceConfiguration. cbv zeta.
    apply does_bind; [apply plain_does_calm; by eauto with program|intros ?].
    apply does_bind; [apply plain_does_calm; by eauto with program|intros i].
    apply does_bind; [apply plain_does_calm, prepare_does|intros d]. apply finally_calm.
    apply does_bind; [apply plain_does_calm, init_does|intros initialised]. unfold state_unreachable, only. destruct (negb _); [apply does_throw|].
    apply does_bind; [apply plain_does_calm, tfvarsFromState_does|intros [declared|]]; [|apply does_ret].
    apply does_bind; [apply plain_does_calm, writeVariables_does|intros ?].
    apply does_bind; [apply plain_does_calm, plan_does|intros planned]. destruct (converged _); apply does_ret.
  - intros a (t & Ht). unfold applyInstanceConfiguration in Ht. cbv zeta in Ht.
    do 3 apply bind_Ok_traces in Ht as (? & ? & ? & _ & _ & Ht). unfold finally in Ht.
    apply bind_Ok_traces in Ht as (? & ? & a' & _ & Hin & Ht). apply bind_Ok_traces in Ht as (? & ? & ? & _ & _ & [_ [= ->]]).
    apply traces_catch in Hin as [(b & [= <-] & Hin)|(? & ? & ? & _ & _ & Hf)].
    2: { apply bind_Ok_traces in Hf as (? & ? & ? & _ & _ & [_ [=]]). }
    apply bind_Ok_traces in Hin as (? & ? & ? & _ & _ & Hin). destruct (negb _); [by destruct Hin|].
    apply bind_Ok_traces in Hin as (? & ? & [declared|] & _ & _ & Hin); [|by destruct Hin as [_ [= ->]]].
    do 2 apply bind_Ok_traces in Hin as (? & ? & ? & _ & _ & Hin).
    destruct (converged _); by destruct Hin as [_ [= ->]].
Qed.
Lemma observe_calm (r : MutationRequest) : does calm (observeInstance passwordOf configuration runner now r).
Proof.
  unfold observeInstance. cbv zeta.
  apply does_bind; [apply plain_does_calm; by eauto with program|intros ?].
  apply does_bind; [apply plain_does_calm; by eauto with program|intros i].
  apply does_bind; [apply plain_does_calm, prepare_does|intros d]. apply finally_calm.
  apply does_bind; [apply plain_does_calm, init_does|intros initialised]. unfold state_unreachable. destruct (negb _); [apply does_throw|].
  apply does_bind; [apply plain_does_calm, refresh_does|intros ?].
  apply does_bind; [apply plain_does_calm, readState_does|intros state].
  apply does_bind; [unfold resource_in; destruct (find_resource _); [apply does_ret|apply does_throw]|intros ?; apply does_ret].
Qed.
Lemma snapshots_calm (r : MutationRequest) : does calm (listSnapshots configuration directClient r).
Proof.
  apply plain_does_calm. unfold listSnapshots, direct, DirectClient.listSnapshots. doing.
Qed.
Lemma task_calm (reference : option string) : does calm (getTask directClient reference).
Proof.
  apply plain_does_calm. unfold getTask, directTaskState, taskState, readRun, direct. doing.
Qed.
Lemma validate_calm (p : option string) : does calm (validateProfile passwordOf configuration runner p).
Proof.
  unfold validateProfile. apply does_bind; [apply plain_does_calm; by eauto with program|intros ?].
  apply does_bind; [unfold randomUUID; doing|intros fresh]. apply does_bind; [|intros ?; apply does_ret].
  apply does_catch; [|intros ?; apply does_ret]. apply does_bind; [apply plain_does_calm, prepare_does|intros d].
  apply finally_calm. unfold initWithoutBackend, validate, invoke. doing.
Qed.

Lemma follows_whole (allow : option string) (m : tf_step answer) :
  follows allow [] m → wp (permitted untyped_verdict configuration who allow) [] (whole m) (λ h _, reported h).
Proof. intros Hm. unfold whole. apply wp_bind. eapply wp_mono; [|exact Hm]. by intros h [a|x]. Qed.
Lemma calm_whole {A : Type} (allow : option string) (m : tf_step A) :
  does calm m → wp (permitted untyped_verdict configuration who allow) [] (m ;^ Ret tt) (λ h _, reported h).
Proof. intros Hm. apply calm_wp; [|by constructor]. apply does_bind; [done|intros ?; apply does_ret]. Qed.

(** Every request, from its first effect to the end of the work it leaves
    running. *)
Lemma serve_wp (c : tf_call) :
  runs_with (tf_context c) →
  wp (permitted untyped_verdict configuration who (destruction_allowed c)) []
     (serve passwordOf untyped_verdict configuration runner directClient now c) (λ h _, reported h).
Proof.
  intros Hw. assert (all plain (@nil (exchange tf_reply))) by constructor.
  assert (Hact : ∀ c vmid name, does plain (let^ n := lift (required name) in DirectClient.rollbackSnapshot c vmid n)).
  { intros ???. apply does_bind; [by eauto with program|intros ?; apply (act_does _ _ _ None)]. }
  destruct c; cbn [serve destruction_allowed]; try (apply calm_whole); try (apply follows_whole).
  - by apply create_follows.
  - apply configure_follows.
  - apply power_follows. by destruct r.
  - apply power_follows. by destruct r.
  - by apply direct_follows; [|intros; apply (act_does _ _ "" None)].
  - by apply direct_follows; [|intros; apply (act_does _ _ "" None)].
  - by apply resize_follows.
  - apply snapshot_follows. intros ??. apply does_bind; [by eauto with program|intros ?; apply act_does].
  - by apply snapshot_follows.
  - apply snapshot_follows. intros ??. apply does_bind; [by eauto with program|intros ?; apply (act_does _ _ _ None)].
  - by apply retain_follows.
  - by apply purge_follows.
  - apply observe_calm.
  - apply snapshots_calm.
  - apply task_calm.
  - apply validate_calm.
Qed.
End requests.

(** ** What was shown *)

(** A document the gate lets pass: of its type, it proposes nothing but
    harmless changes; of another, the verdict on it was favourable. *)
Definition passes (untyped_verdict : json → option string → result string GateResult) (allow : option string)
    (shown : string) : Prop :=
  ∃ document, JSON_parse shown = Some document
    ∧ match read_plan document with
      | Some parsed =>
          ∃ p, parsed = Some p ∧ p.(pg_errored) ≠ Some true
            ∧ Forall (harmless allow) (default [] p.(pg_resource_changes))
      | None => ∃ gate, untyped_verdict document allow = Ok gate ∧ gate.(gate_decision) = gate_allowed
      end.
Lemma gate_of_passes (untyped_verdict : json → option string → result string GateResult) (c : tf_call) (shown : string)
    (gate : GateResult) :
  gate_of untyped_verdict shown (destruction_allowed c) = Ok gate → gate.(gate_decision) = gate_allowed →
  passes untyped_verdict (destruction_allowed c) shown.
Proof.
  assert (Hp : present (destruction_allowed c) = destruction_allowed c) by by destruct c.
  unfold gate_of, passes. rewrite Hp. destruct (JSON_parse shown) as [document|]; [|by intros [= <-]].
  destruct (read_plan document) as [parsed|] eqn:E; intros Hg Ha; exists document; (split; [done|]); rewrite E.
  - injection Hg as <-. by apply gate_allows in Ha.
  - by exists gate.
Qed.

Section theorems.
Context `{Platform}.
Variable passwordOf : string → option string.
Variable untyped_verdict : json → option string → result string GateResult.
Variable configuration : TerraformProxmoxConfiguration.
Variable runner : TerraformRunnerConfiguration.
Variable directClient : option DirectClientConfiguration.
Variable now : Z.

Notation served c := (serve passwordOf untyped_verdict configuration runner directClient now c).
Abbreviation foreign_root := (∀ i, startsWith (workspaceNameFor i) runner.(workingRoot) = false).

Lemma served_sound (c : tf_call) (t : history) (o : result tf_error unit) :
  foreign_root → traces (served c) t o →
  reported t ∧ ∀ t1 e r t2, t = (t1 ++ Exchange e r :: t2)%list →
    permitted untyped_verdict configuration (begins_as c) (destruction_allowed c) t1 e.
Proof.
  intros Hroot Ht.
  refine (wp_sound _ _ _ [] t o (serve_wp passwordOf untyped_verdict configuration runner directClient now (begins_as c) Hroot c _) Ht).
  intros i Hi b <- Hb. by split.
Qed.

(** C9: Nothing is applied but a plan that was gated.  In every history of
    every request, each apply runs in a directory where, immediately before, a
    plan was computed and shown, and every change the shown document proposes
    is a no-op, a create, a read or an update, or the purge's delete of the
    instance itself; a run that says so was already in the inventory. *)
Theorem apply_is_gated (c : tf_call) (t t1 t2 : history) (o : result tf_error unit) (d : string) (r : ProcessResult)
    (Hroot : foreign_root) (Ht : traces (served c) t o)
    (Hsplit : t = (t1 ++ @Exchange _ tf_reply (Spawn d apply_arguments) r :: t2)%list) :
  (∃ before destroy planned shown,
     t1 = (before ++ [@Exchange _ tf_reply (Spawn d (plan_arguments destroy)) planned;
                      @Exchange _ tf_reply (Spawn d show_plan_arguments) shown])%list
     ∧ planned.(exitCode) = 0 ∧ passes untyped_verdict (destruction_allowed c) shown.(stdout))
  ∧ ∃ x i, x ∈ t1 ∧ begins x = Some i ∧ i.(br_command) = command_apply.
Proof.
  destruct (served_sound c t o Hroot Ht) as [_ Hall].
  destruct (Hall _ _ _ _ Hsplit eq_refl) as ((before & destroy & planned & shown & gate & -> & Hp & Hg & Ha) & Hb & _).
  split; [|done]. exists before, destroy, planned, shown. split_and!; [done|done|by eapply gate_of_passes].
Qed.

(** Every run is reported, and truthfully.  Whatever fails, every run a
    request put into the inventory is followed by a report of its outcome under
    the same token, and success is reported only directly after an apply that exited with 0. *)
Theorem every_run_is_reported (c : tf_call) (t : history) (o : result tf_error unit)
    (Hroot : foreign_root) (Ht : traces (served c) t o) :
  (∀ t1 x t2 i, t = (t1 ++ x :: t2)%list → begins x = Some i →
     ∃ y j, y ∈ t2 ∧ effect_of y = CompleteRun j ∧ reports i j)
  ∧ ∀ t1 j r t2, t = (t1 ++ Exchange (CompleteRun j) r :: t2)%list → j.(cr_status) = run_succeeded →
      ∃ before d p, t1 = (before ++ [@Exchange _ tf_reply (Spawn d apply_arguments) p])%list ∧ p.(exitCode) = 0.
Proof.
  destruct (served_sound c t o Hroot Ht) as [Hr Hall]. split; [exact Hr|].
  intros t1 j r t2 Hsplit Hs. exact (Hall _ _ _ _ Hsplit Hs).
Qed.

(** The password stays on disk.  In every history of every request, the
    directory an apply ran in holds a variable file with the cloud-init
    password, and the request removes no directory at all, before or after. *)
Theorem applied_directories_are_kept (c : tf_call) (t : history) (o : result tf_error unit) (d : string)
    (r : ProcessResult) (Hroot : foreign_root) (Ht : traces (served c) t o)
    (Hin : @Exchange _ tf_reply (Spawn d apply_arguments) r ∈ t) :
  (∃ vars, @Exchange _ tf_reply (WriteFile (path_join d TFVARS_FILE) (renderTfvars vars)) (Done tt) ∈ t
     ∧ vars.(cloud_init_password) = configuration.(tc_cloudInitPassword))
  ∧ ∀ d' r', @Exchange _ tf_reply (RemoveDirectory d') r' ∉ t.
Proof.
  destruct (served_sound c t o Hroot Ht) as [_ Hall]. apply list_elem_of_split in Hin as (t1 & t2 & ->).
  destruct (Hall _ _ _ _ eq_refl eq_refl) as (_ & _ & Hk & vars & Hv & Hp).
  split; [exists vars; split; [|done]; apply elem_of_app; by left|].
  intros d' r' [Hin|[Heq|Hin]%elem_of_cons]%elem_of_app.
  - unfold all in Hk. rewrite Forall_forall in Hk. exact (Hk _ Hin).
  - discriminate (f_equal effect_of Heq).
  - apply list_elem_of_split in Hin as (t3 & t4 & ->).
    assert (Hn : all applies_nothing (t1 ++ @Exchange _ tf_reply (Spawn d apply_arguments) r :: t3)).
    { apply (Hall _ (RemoveDirectory d') r' t4). by rewrite <- app_assoc. }
    unfold all in Hn. rewrite Forall_forall in Hn.
    apply (Hn (@Exchange _ tf_reply (Spawn d apply_arguments) r)); [apply elem_of_app; right; by left|done].
Qed.
End theorems.

(** ** A concrete deployment *)

Definition sample_configuration : TerraformProxmoxConfiguration :=
  {| tc_providerProfileId := "lab"; tc_node := "pve1"; tc_templateVmid := 9000; tc_templateDiskFormat := qcow2;
     tc_poolId := "cloud"; tc_imageId := "ubuntu"; tc_storage := "local"; tc_diskInterface := "scsi0";
     tc_bridge := "vmbr1"; tc_networkMtu := 1500; tc_ipv4Cidr := "10.0.0.0/24"; tc_ipv4Gateway := "10.0.0.1";
     tc_dnsDomain := "lab"; tc_cloudInitUsername := "ops"; tc_cloudInitPassword := "correct-horse";
     tc_resourceIdMinimum := 910000; tc_resourceIdMaximum := 910099; tc_environment := "lab";
     tc_managedBy := "private-cloud-control-plane" |}.
Definition sample_runner : TerraformRunnerConfiguration :=
  {| modulePath := "/module"; purgeModulePath := "/purge"; workingRoot := "/work"; pluginDirectory := None;
     backendConnectionString := "postgres://db/tf?sslmode=disable"; PROXMOX_VE_ENDPOINT := Some "https://pve";
     PROXMOX_VE_API_TOKEN := Some "t=secretsecret"; PROXMOX_VE_PASSWORD := None |}.
Definition sample_client : DirectClientConfiguration :=
  {| dc_node := "pve1"; dc_resourceIdMinimum := 910000; dc_resourceIdMaximum := 910099 |}.
Definition sample_markers : OwnershipMarkers :=
  {| managedBy := "private-cloud-control-plane"; environment := "lab"; marker_projectId := "p1";
     marker_instanceId := "i1"; marker_createOperationId := "o1" |}.
Definition sample_context : ProviderCallContext :=
  {| requestId := "q1"; ctx_operationId := "o2"; ctx_correlationId := "c1"; ctx_projectId := "p1";
     ctx_instanceId := "i1"; ctx_providerProfileId := "lab"; ctx_attempt := 1; ctx_fencingToken := "7" |}.
Definition sample_mutation (resource : string) : MutationRequest :=
  {| mr_context := Some sample_context; mr_providerResourceId := Some resource;
     mr_expectedOwnershipMarkers := Some sample_markers |}.
Definition sample_purge (resource : string) : tf_call := Purge (Some (sample_mutation resource)) (Some "a1").

Definition text_of (v : json) : string := default "" (stringify v).
(** A plan that destroys the instance, and a state whose machine is [vmid]. *)
Definition purge_plan : string :=
  text_of (JObj [("resource_changes",
    JArr [JObj [("address", JStr INSTANCE_ADDRESS); ("change", JObj [("actions", JArr [JStr "delete"])])]])]).
Definition sample_state (vmid : Z) : string :=
  text_of (JObj [("values", JObj [("root_module", JObj [("resources",
    JArr [JObj [("address", JStr INSTANCE_ADDRESS);
                ("values", JObj [("vm_id", JNum vmid); ("name", JStr "web-1"); ("started", JBool true);
                                 ("disk", JArr [JObj [("size", JNum 32)]])])]])])])]).
(** An outside where everything works: Terraform's state names the machine
    [vmid], and every machine Proxmox is asked about carries the markers. *)
Definition healthy_outside (vmid : Z) (e : tf_effect) : tf_reply e :=
  match e return tf_reply e with
  | RandomUUID => "u1"
  | ReadDirectory _ => Done ["main.tf"; "README.md"]
  | Spawn _ arguments =>
      {| exitCode := 0;
         stdout := if bool_decide (arguments = show_plan_arguments) then purge_plan
                   else if bool_decide (arguments = ["show"; "-json"; "-no-color"]) then sample_state vmid else "";
         stderr := "" |}
  | ReadRun _ => Done None
  | Http _ => Answered 200 (Some (JObj [("data", JObj [("description", JStr (ownershipDescription sample_markers))])]))
  | _ => Done tt
  end.
Definition no_password (_ : string) : option string := None.
Definition no_verdict (_ : json) (_ : option string) : result string GateResult := Err "TypeError".
Definition sample_serve (c : tf_call) : tf_step unit :=
  serve (H := sample_platform) no_password no_verdict sample_configuration sample_runner (Some sample_client) 0 c.
Definition sample_history (vmid : Z) (c : tf_call) : history := fst (run (healthy_outside vmid) (sample_serve c)).

Lemma sample_root (i : string) : startsWith (workspaceNameFor i) sample_runner.(workingRoot) = false.
Proof. reflexivity. Qed.
Lemma sample_traces (vmid : Z) (c : tf_call) :
  traces (sample_serve c) (sample_history vmid c) (snd (run (healthy_outside vmid) (sample_serve c))).
Proof.
  pose proof (run_traces tf_reply (healthy_outside vmid) (sample_serve c)) as Ht. unfold sample_history.
  by destruct (run _ _) as [t o].
Qed.
Definition sample_directory : string := "/work/instance-i1.u1".
(** The history of a purge around its apply. *)
Definition purged : history := sample_history 910007 (sample_purge "910007").
Definition before_apply : history := take (List.length purged - 5) purged.
Definition past_apply : history := drop (List.length purged - 4) purged.
Definition quiet_success : ProcessResult := {| exitCode := 0; stdout := ""; stderr := "" |}.
Lemma sample_split :
  purged = (before_apply ++ @Exchange _ tf_reply (Spawn sample_directory apply_arguments) quiet_success :: past_apply)%list.
Proof. vm_compute. reflexivity. Qed.
Lemma sample_applied : @Exchange _ tf_reply (Spawn sample_directory apply_arguments) quiet_success ∈ purged.
Proof. rewrite sample_split. apply elem_of_app. right. by left. Qed.

Lemma apply_is_gated_witness :
  purged = (before_apply ++ @Exchange _ tf_reply (Spawn sample_directory apply_arguments) quiet_success :: past_apply)%list
  ∧ ∃ x i, x ∈ before_apply ∧ begins x = Some i ∧ i.(br_command) = command_apply.
Proof.
  split; [exact sample_split|].
  exact (proj2 (apply_is_gated (H := sample_platform) no_password no_verdict sample_configuration sample_runner
    (Some sample_client) 0 (sample_purge "910007") purged before_apply past_apply _ sample_directory quiet_success
    sample_root (sample_traces 910007 (sample_purge "910007")) sample_split)).
Defined.

Lemma every_run_is_reported_witness :
  @Exchange _ tf_reply (Spawn sample_directory apply_arguments) quiet_success ∈ purged
  ∧ ∀ t1 x t2 i, purged = (t1 ++ x :: t2)%list → begins x = Some i →
      ∃ y j, y ∈ t2 ∧ effect_of y = CompleteRun j ∧ reports i j.
Proof.
  split; [exact sample_applied|].
  exact (proj1 (every_run_is_reported (H := sample_platform) no_password no_verdict sample_configuration sample_runner
    (Some sample_client) 0 (sample_purge "910007") purged _ sample_root (sample_traces 910007 (sample_purge "910007")))).
Defined.

Lemma applied_directories_are_kept_witness :
  (∃ vars, @Exchange _ tf_reply (WriteFile (path_join sample_directory TFVARS_FILE) (renderTfvars (H := sample_platform) vars)) (Done tt) ∈ purged
     ∧ vars.(cloud_init_password) = "correct-horse")
  ∧ ∀ d' r', @Exchange _ tf_reply (RemoveDirectory d') r' ∉ purged.
Proof.
  exact (applied_directories_are_kept (H := sample_platform) no_password no_verdict sample_configuration sample_runner
    (Some sample_client) 0 (sample_purge "910007") purged _ sample_directory quiet_success sample_root
    (sample_traces 910007 (sample_purge "910007")) sample_applied).
Defined.
