(* ===== verification/TerraformLimits.v ===== *)
(** * What the Terraform provider's answers are worth

    A purge is preceded by a live proof of ownership, though not of the machine
    it destroys; and what the provider concludes from a plan that failed and
    from a state it cannot read, followed into the purge workflow. *)
From S2P Require Import Prelude JsText Json SshKey Domain Ipv4 WorkflowStage Events EventValidation Platform Saga SagaLogic ProviderPort JsonParse PlanGate Ownership Redaction TerraformRunner DirectClient TerraformProvider ProviderLogic TerraformSafety.
From Stdlib Require Import ZArith Lia Bool Ascii String.
From stdpp Require Import base decidable list sets strings.
Open Scope string_scope.
Open Scope Z_scope.
Open Scope prog_scope.

Section limits.
Context `{Platform}.
Variable passwordOf : string → option string.
Variable untyped_verdict : json → option string → result string GateResult.
Variable configuration : TerraformProxmoxConfiguration.
Variable runner : TerraformRunnerConfiguration.
Variable directClient : option DirectClientConfiguration.
Variable now : Z.

(** ** Ownership before destruction *)

(** The configuration of the machine [vmid] was read, and its description
    carries the markers. *)
Definition proved_owned (h : history) (vmid : Z) (markers : OwnershipMarkers) : Prop :=
  ∃ client status fields,
    directClient = Some client
    ∧ @Exchange _ tf_reply (Http {| hq_method := GET; hq_path := machine_path client vmid ++ "/config"; hq_body := None |})
        (Answered status (Some (JObj fields))) ∈ h
    ∧ markersMatch (parseOwnership (read_text (json_member "description" (field "data" fields)))) markers = true.

Lemma request_traces (method : HttpMethod) (path : string) (t : history) (v : json) :
  traces (request method path None) t (Ok v) →
  ∃ status fields,
    t = [@Exchange _ tf_reply (Http {| hq_method := method; hq_path := path; hq_body := None |})
           (Answered status (Some (JObj fields)))]
    ∧ v = field "data" fields.
Proof.
  unfold request. cbn [traces]. intros (r & t' & -> & Ht). destruct r as [status body|code]; [|by destruct Ht].
  destruct (negb _); [by destruct Ht|]. destruct body as [[]|]; try by destruct Ht.
  destruct (existsb _ _); [|by destruct Ht]. destruct Ht as [-> [= ->]]. by eexists _, _.
Qed.
Lemma ownership_traces (vmid : Z) (markers : OwnershipMarkers) (t : history) :
  traces (assertLiveOwnership directClient vmid (Some markers)) t (Ok tt) → proved_owned t vmid markers.
Proof.
  unfold assertLiveOwnership. intros (t1 & t2 & m & -> & H1 & Ht)%bind_Ok_traces. apply some_traces in H1 as [-> [= <-]].
  apply bind_Ok_traces in Ht as (t3 & t4 & client & -> & H3 & Ht). apply some_traces in H3 as [-> Hc].
  apply bind_Ok_traces in Ht as (t5 & t6 & live & -> & H5 & Ht). destruct (markersMatch _ _) eqn:Em; [|by destruct Ht].
  destruct live as [data|]; [|done]. destruct Ht as [-> _].
  unfold config in H5. apply traces_catch in H5 as [(a & [= <-] & H5)|(? & ? & x & _ & _ & Hx)].
  2: { destruct x as [e [status|]|m]; cbn in Hx; [destruct (_ || _)|..]; by destruct Hx. }
  apply bind_Ok_traces in H5 as (t7 & t8 & v & -> & Hv & H5). apply bind_Ok_traces in H5 as (t9 & t10 & d & -> & Hr & [-> [= ->]]).
  unfold DirectClient.assertVmid in Hv. destruct (_ || _) in Hv; [by destruct Hv|]. destruct Hv as [-> [= ->]].
  apply request_traces in Hr as (status & fields & -> & ->). exists client, status, fields. split_and!; [done|by left|done].
Qed.

Lemma proved_app (h t : history) (vmid : Z) (markers : OwnershipMarkers) :
  proved_owned h vmid markers → proved_owned (h ++ t) vmid markers.
Proof. intros (c & s & f & ? & Hin & ?). exists c, s, f. split_and!; [done|apply elem_of_app; by left|done]. Qed.

(** The request of a purge that has been authorized and proved. *)
Definition purge_proved (r : option MutationRequest) (authorization : option string) (h : history) : Prop :=
  ∃ request markers vmid,
    r = Some request ∧ request.(mr_expectedOwnershipMarkers) = Some markers
    ∧ is_Some (present authorization)
    ∧ request.(mr_providerResourceId) ≫= Number_integer = Some vmid
    ∧ configuration.(tc_resourceIdMinimum) ≤ vmid ≤ configuration.(tc_resourceIdMaximum)
    ∧ proved_owned h vmid markers.
Lemma purge_proved_app (r : option MutationRequest) (authorization : option string) (h t : history) :
  purge_proved r authorization h → purge_proved r authorization (h ++ t).
Proof.
  intros (request & markers & vmid & ? & ? & ? & ? & ? & Hp). exists request, markers, vmid. split_and!; try done; try lia.
  by apply proved_app.
Qed.
Definition needs_proof (r : option MutationRequest) (authorization : option string) (h : history) (e : tf_effect) : Prop :=
  applies_nothing e ∨ purge_proved r authorization h.

Lemma plain_applies_nothing (e : tf_effect) : plain e → applies_nothing e.
Proof. by destruct e. Qed.
Lemma needs_plain {A : Type} (r : option MutationRequest) (authorization : option string) (h : history) (m : tf_step A)
    (Q : history → result tf_error A → Prop) :
  does plain m → (∀ t o, traces m t o → Q (h ++ t)%list o) → wp (needs_proof r authorization) h m Q.
Proof.
  intros Hm HQ. apply (wp_does plain); [done|intros t e _ He; left; by apply plain_applies_nothing|].
  intros t o _. apply HQ.
Qed.
Lemma does_anything {A : Type} (m : tf_step A) : does (λ _, True) m.
Proof. induction m as [a|x|e k IH]; [apply does_ret|apply does_throw|by apply does_vis]. Qed.
Hint Resolve some_does profile_does vmid_does ownership_does : program.

Lemma purge_wp (r : option MutationRequest) (authorization : option string) :
  wp (needs_proof r authorization) []
     (purgeInstance passwordOf untyped_verdict configuration runner directClient r authorization)
     (λ h o, match o with Ok _ => purge_proved r authorization h | Err _ => True end).
Proof.
  unfold purgeInstance. cbv zeta.
  apply wp_bind, needs_plain; [by eauto with program|]. intros t1 [[]|x] _; [|done].
  apply wp_bind, needs_plain; [by eauto with program|]. intros t2 [i|x] _; [|done].
  apply wp_bind, needs_plain; [by eauto with program|]. intros t3 [operation|x] _; [|done].
  apply wp_bind, needs_plain; [by eauto with program|]. intros t4 [markers|x] H4; [|done].
  apply wp_bind, needs_plain; [by eauto with program|]. intros t5 [a|x] H5; [|done].
  apply wp_bind, needs_plain; [by eauto with program|]. intros t6 [vmid|x] H6; [|done].
  apply wp_bind, needs_plain; [by eauto with program|]. intros t7 [[]|x] H7; [|done].
  set (h := (_ ++ t7)%list).
  assert (Hproved : purge_proved r authorization h).
  { apply some_traces in H4 as [_ H4]. apply some_traces in H5 as [_ H5]. apply some_traces in H6 as [_ H6].
    destruct r as [request|]; [|done]. cbn in H4, H6. exists request, markers, vmid.
    destruct (mr_providerResourceId request ≫= Number_integer) as [n|] eqn:En; cbn in H6; [|done].
    destruct (_ && _) eqn:Eb in H6; [|done]. injection H6 as ->. unbool.
    split_and!; [done|done|by eexists|done|lia|lia|].
    apply ownership_traces in H7 as (c & s & f & ? & Hin & ?).
    exists c, s, f. split_and!; [done|apply elem_of_app; by right|done]. }
  apply (wp_does (λ _, True)); [apply does_anything|..].
  - intros t e _ _. right. by apply purge_proved_app.
  - intros t [a'|x] _ _; [|done]. by apply purge_proved_app.
Qed.

(** C10: Destruction needs an authorization and a live proof.  Before a purge
    applies anything it was given an authorization, and the machine the request
    names, inside the reserved interval, was read from Proxmox and carried
    exactly the markers expected of it. *)
Theorem purge_proves_ownership (r : option MutationRequest) (authorization : option string) (t t1 t2 : history)
    (o : result tf_error unit) (d : string) (p : ProcessResult)
    (Ht : traces (serve passwordOf untyped_verdict configuration runner directClient now (Purge r authorization)) t o)
    (Hsplit : t = (t1 ++ @Exchange _ tf_reply (Spawn d apply_arguments) p :: t2)%list) :
  purge_proved r authorization t1.
Proof.
  assert (Hwp : wp (needs_proof r authorization) []
    (serve passwordOf untyped_verdict configuration runner directClient now (Purge r authorization)) (λ _ _, True)).
  { cbn [serve]. unfold whole. apply wp_bind. eapply wp_mono; [|apply purge_wp]. intros h [a|x] Hp'; [|done].
    apply (wp_does (λ _, True)); [apply does_anything| |done]. intros t' e _ _. right. by apply purge_proved_app. }
  destruct (wp_sound _ _ _ [] t o Hwp Ht) as [_ Hall]. destruct (Hall _ _ _ _ Hsplit) as [Hn|?]; [by destruct Hn|done].
Qed.

(** ** A plan that fails *)

(** Every plan invocation of a history failed. *)
Definition planning_fails (t : history) : Prop :=
  ∀ d destroy p, @Exchange _ tf_reply (Spawn d (plan_arguments destroy)) p ∈ t → p.(exitCode) ≠ 0.

(** A plan that fails is called destructive.  When Terraform cannot compute
    the plan, for a held lock, an unreachable server or any other reason, the
    change is refused as one that would destroy a resource, the run is recorded
    as refused by the gate, and a poll of it answers a permanent failure even
    where the diagnostics recorded with it are of a transient condition. *)
Theorem failed_plan_is_called_destructive (input : StartApply) (t : history) (a : answer)
    (Ht : traces (startApply passwordOf untyped_verdict runner input) t (Ok a)) (Hplan : planning_fails t) :
  fst a = plan_refused
  ∧ ∃ i r, @Exchange _ tf_reply (CompleteRun i) r ∈ t ∧ i.(cr_status) = run_failed
      ∧ i.(cr_gateRule) = Some "unparseable_plan"
      ∧ run_report (Some {| rr_status := i.(cr_status); rr_gateDecision := i.(cr_gateDecision);
                            rr_diagnostics := i.(cr_diagnostics) |})
        = task_failed TASK_FAILED FAILURE_CATEGORY_PERMANENT "TERRAFORM_PLAN_REFUSED"
            "The change was refused because it would destroy a provider resource.".
Proof.
  unfold startApply in Ht. do 3 apply bind_Ok_traces in Ht as (? & ? & ? & -> & _ & Ht). destruct (negb _).
  { apply bind_Ok_traces in Ht as (? & ? & ? & _ & _ & Ht). by destruct Ht. }
  apply bind_Ok_traces in Ht as (tp & tr & [gate invocation] & -> & Hp & Ht). cbn [fst snd] in Ht.
  assert (gate = evaluatePlan None None) as ->.
  { unfold plan, invoke in Hp. cbn [sbind traces] in Hp. destruct Hp as (p & t' & -> & Hp). cbn [inv_exitCode] in Hp.
    destruct (Z.eqb_spec p.(exitCode) 0) as [He|_]; cbn [negb] in Hp; [|by destruct Hp as [_ [= -> _]]].
    exfalso. eapply Hplan, He. do 3 (apply elem_of_app; right). apply elem_of_app. left. by left. }
  apply bind_Ok_traces in Ht as (? & ? & ? & -> & _ & Ht). cbn [gate_decision evaluatePlan refusal] in Ht.
  rewrite bool_decide_eq_false_2 in Ht by done.
  apply bind_Ok_traces in Ht as (tc & ? & [] & -> & Hc & Ht). apply bind_Ok_traces in Ht as (? & ? & ? & -> & _ & [_ [= ->]]).
  split; [done|]. destruct Hc as (r & t' & -> & _). eexists _, r. split.
  { do 5 (apply elem_of_app; right). apply elem_of_app. left. by left. }
  split_and!; reflexivity.
Qed.

(** ** A state that cannot be read *)

Definition show_state_arguments : list string := ["show"; "-json"; "-no-color"].
(** Every reading of the state failed. *)
Definition state_unreadable (t : history) : Prop :=
  ∀ d p, @Exchange _ tf_reply (Spawn d show_state_arguments) p ∈ t → p.(exitCode) ≠ 0.

Lemma finally_Ok {A : Type} (m : tf_step A) (d : string) (t : history) (a : A) :
  traces (finally m (quietly (discard runner d))) t (Ok a) → ∃ t1 t2, t = (t1 ++ t2)%list ∧ traces m t1 (Ok a).
Proof.
  unfold finally. intros (t1 & t2 & a' & -> & Hin & Ht)%bind_Ok_traces.
  apply bind_Ok_traces in Ht as (? & ? & ? & -> & _ & [_ [= ->]]). eexists _, _. split; [done|].
  apply traces_catch in Hin as [(b & [= <-] & Hin)|(? & ? & ? & _ & _ & Hf)]; [done|].
  by apply bind_Ok_traces in Hf as (? & ? & ? & _ & _ & [_ [=]]).
Qed.

Lemma unreadable_observation (r : MutationRequest) (t : history) (ob : InstanceObservation) :
  traces (observeInstance passwordOf configuration runner now r) t (Ok ob) → state_unreadable t → ob = absent now.
Proof.
  intros Ht Hs. unfold observeInstance in Ht. cbv zeta in Ht.
  do 3 apply bind_Ok_traces in Ht as (? & ? & ? & -> & _ & Ht). apply finally_Ok in Ht as (tb & tf & -> & Ht).
  apply bind_Ok_traces in Ht as (? & ? & ? & -> & _ & Ht). destruct (negb _); [by destruct Ht|].
  apply bind_Ok_traces in Ht as (? & ? & ? & -> & _ & Ht). apply bind_Ok_traces in Ht as (tr & ? & state & -> & Hr & Ht).
  assert (state = None) as ->.
  { unfold readState, showState, invoke in Hr. cbn [sbind traces] in Hr. destruct Hr as (p & t' & -> & _ & Hr).
    cbn [inv_exitCode] in Hr. destruct (Z.eqb_spec p.(exitCode) 0) as [He|_]; [|by injection Hr].
    exfalso. eapply Hs, He. do 3 (apply elem_of_app; right). apply elem_of_app; left. do 2 (apply elem_of_app; right).
    apply elem_of_app. left. by left. }
  apply bind_Ok_traces in Ht as (? & ? & resource & -> & Hres & [_ [= ->]]). cbn in Hres. by destruct Hres as [_ [= ->]].
Qed.

End limits.

(** ** Machine numbers *)

Section machines.
Context `{Platform}.
Variable configuration : TerraformProxmoxConfiguration.

Lemma vmid_in_range (configuration' : TerraformProxmoxConfiguration) (i : string) (v : Z) :
  new_TerraformProxmoxProvider configuration = Ok configuration' → vmIdFor configuration i = Some v →
  RESERVED_VMID_MINIMUM ≤ v ≤ RESERVED_VMID_MAXIMUM.
Proof.
  unfold new_TerraformProxmoxProvider, vmIdFor. destruct (_ && _) eqn:E; [|done]. intros _ Hv. unbool.
  destruct (digest_number _) as [n|]; [|done]. injection Hv as <-.
  pose proof (Z.mod_pos_bound n (tc_resourceIdMaximum configuration - tc_resourceIdMinimum configuration + 1)). lia.
Qed.

(** A list without repetition whose image has one. *)
Lemma repeated_image {A B : Type} `{EqDecision B} (f : A → B) (l : list A) :
  NoDup l → ¬ NoDup (map f l) → ∃ x y, x ∈ l ∧ y ∈ l ∧ x ≠ y ∧ f x = f y.
Proof.
  induction l as [|x l IH]; cbn; intros Hl Hn; [by destruct Hn; constructor|]. apply NoDup_cons in Hl as [Hx Hl].
  destruct (decide (f x ∈ map f l)) as [Hin|Hin].
  - apply list_elem_of_fmap in Hin as (y & Heq & Hy). exists x, y. split_and!; [by left|by right|by intros ->|done].
  - destruct IH as (y & z & ? & ? & ? & ?); [done| |by exists y, z; split_and!; [right|right|..]].
    intros Hnd. apply Hn. by apply NoDup_cons.
Qed.

(** Machine numbers run out.  The number an instance's machine gets stays
    inside the reserved interval whatever the hash of its identifier; so of any
    hundred and one instances two get the same number, although each has a
    workspace of its own. *)
Theorem machine_numbers_collide (configuration' : TerraformProxmoxConfiguration)
    (Hnew : new_TerraformProxmoxProvider configuration = Ok configuration') :
  (∀ i v, vmIdFor configuration i = Some v → RESERVED_VMID_MINIMUM ≤ v ≤ RESERVED_VMID_MAXIMUM)
  ∧ ∀ ids, NoDup ids → Forall (λ i, is_Some (vmIdFor configuration i)) ids → (100 < List.length ids)%nat →
      ∃ i j, i ∈ ids ∧ j ∈ ids ∧ i ≠ j ∧ vmIdFor configuration i = vmIdFor configuration j
        ∧ workspaceNameFor i ≠ workspaceNameFor j.
Proof.
  split; [intros i v; by apply (vmid_in_range configuration')|]. intros ids Hids Hsome Hlen.
  destruct (repeated_image (vmIdFor configuration) ids Hids) as (i & j & ? & ? & Hne & ?).
  - intros Hnd. assert (Hsub : map (vmIdFor configuration) ids ⊆+ map Some (seqZ RESERVED_VMID_MINIMUM 100)).
    { apply NoDup_submseteq; [done|]. intros x (i & -> & Hi)%list_elem_of_fmap. rewrite Forall_forall in Hsome.
      destruct (Hsome i Hi) as [v Hv]. rewrite Hv. apply list_elem_of_fmap. exists v. split; [done|].
      apply elem_of_seqZ. pose proof (vmid_in_range configuration' i v Hnew Hv) as Hr.
      unfold RESERVED_VMID_MINIMUM, RESERVED_VMID_MAXIMUM in *. lia. }
    apply submseteq_length in Hsub. rewrite !length_map, length_seqZ in Hsub. lia.
  - exists i, j. split_and!; try done. unfold workspaceNameFor. intros Heq. apply Hne. by simplify_eq.
Qed.
End machines.

(** ** Concrete histories *)

Lemma purge_proves_ownership_witness :
  purge_proved sample_configuration (Some sample_client) (Some (sample_mutation "910007")) (Some "a1") before_apply.
Proof.
  exact (purge_proves_ownership (H := sample_platform) no_password no_verdict sample_configuration sample_runner
    (Some sample_client) 0 (Some (sample_mutation "910007")) (Some "a1") purged before_apply past_apply _ sample_directory
    quiet_success (sample_traces 910007 (sample_purge "910007")) sample_split).
Defined.

(** Every request sent to Proxmox in a history reads the configuration of one
    machine. *)
Definition asks_only (path : string) (h : history) : Prop :=
  all (λ e, match e with Http q => q.(hq_method) = GET ∧ q.(hq_path) = path | _ => True end) h.

(** The proof may be of another machine.  Terraform's state names machine
    910008 for the instance, the purge request names 910007, whose description
    carries the markers: the only machine asked about is 910007, and the plan
    applied is computed from the variables of 910008, which no step compares
    with it. *)
Theorem purge_may_destroy_another_machine :
  ∃ t o vars r,
    traces (sample_serve (sample_purge "910007")) t o
    ∧ asks_only "/nodes/pve1/qemu/910007/config" t
    ∧ @Exchange _ tf_reply (WriteFile (path_join sample_directory TFVARS_FILE) (renderTfvars (H := sample_platform) vars)) (Done tt) ∈ t
    ∧ vars.(vm_id) = Some 910008
    ∧ @Exchange _ tf_reply (Spawn sample_directory apply_arguments) r ∈ t.
Proof.
  exists (sample_history 910008 (sample_purge "910007")).
  eexists _, (declared_tfvars sample_configuration (JObj [("vm_id", JNum 910008); ("name", JStr "web-1"); ("started", JBool true);
                                 ("disk", JArr [JObj [("size", JNum 32)]])])), quiet_success.
  split; [exact (sample_traces 910008 (sample_purge "910007"))|]. split; [|split; [|split]].
  - unfold asks_only, all. apply Forall_forall. vm_compute. intros x Hin.
    repeat (apply elem_of_cons in Hin as [->|Hin]; [done|]). by apply elem_of_nil in Hin.
  - vm_compute. repeat first [by left | right].
  - reflexivity.
  - vm_compute. repeat first [by left | right].
Qed.

(** An outside whose state is locked, so that no plan succeeds. *)
Definition locked_outside (e : tf_effect) : tf_reply e :=
  match e as e0 return tf_reply e0 → tf_reply e0 with
  | Spawn _ arguments => λ r,
      if bool_decide (head arguments = Some "plan")
      then {| exitCode := 1; stdout := ""; stderr := "Error: Error acquiring the state lock" |} else r
  | _ => λ r, r
  end (healthy_outside 910007 e).
Definition sample_input : StartApply :=
  {| sa_instanceId := "i1"; sa_operationId := "o2"; sa_workspace := "instance-i1"; sa_vmId := Some 910007;
     sa_tfvars := declared_tfvars sample_configuration (JObj [("vm_id", JNum 910007)]); sa_fencingToken := "7";
     sa_purge := false |}.
Definition locked_start : tf_step answer := startApply (H := sample_platform) no_password no_verdict sample_runner sample_input.
Definition locked_history : history := fst (run locked_outside locked_start).

Lemma locked_fails : planning_fails locked_history.
Proof.
  intros d destroy p Hin. pose proof (run_replies locked_outside locked_start) as Hr. rewrite Forall_forall in Hr.
  rewrite (Hr _ Hin). by destruct destroy.
Qed.
(** The lock is a transient condition, by the adapter's own classification. *)
Lemma lock_is_transient :
  isTransient (Some (parseDiagnostics (String newline "Error: Error acquiring the state lock") [])) = true.
Proof. vm_compute. reflexivity. Qed.

Lemma failed_plan_is_called_destructive_witness :
  ∃ a, traces locked_start locked_history (Ok a) ∧ fst a = plan_refused.
Proof.
  assert (Ht : ∃ a, traces locked_start locked_history (Ok a)).
  { exists (plan_refused, Ret tt). pose proof (run_traces tf_reply locked_outside locked_start) as Hr.
    unfold locked_history. assert (Ho : snd (run locked_outside locked_start) = Ok (plan_refused, Ret tt)) by reflexivity.
    destruct (run locked_outside locked_start) as [t o]. cbn in Ho. subst o. exact Hr. }
  destruct Ht as [a Ht]. exists a. split; [exact Ht|].
  exact (proj1 (failed_plan_is_called_destructive (H := sample_platform) no_password no_verdict sample_runner sample_input
    locked_history a Ht locked_fails)).
Defined.

Lemma machine_numbers_collide_witness :
  new_TerraformProxmoxProvider sample_configuration = Ok sample_configuration
  ∧ ∀ i v, vmIdFor (H := sample_platform) sample_configuration i = Some v → RESERVED_VMID_MINIMUM ≤ v ≤ RESERVED_VMID_MAXIMUM.
Proof.
  assert (Hnew : new_TerraformProxmoxProvider sample_configuration = Ok sample_configuration) by reflexivity.
  split; [exact Hnew|].
  exact (proj1 (machine_numbers_collide (H := sample_platform) sample_configuration sample_configuration Hnew)).
Defined.
