(* ===== verification/PurgeOverTerraform.v ===== *)
(** * The purge workflow over the Terraform provider

    The observation a purge relies on, served by the Terraform adapter. *)
From S2P Require Import Prelude JsText Json SshKey Domain Ipv4 WorkflowStage Events EventValidation Platform Saga SagaLogic ProviderPort Lifecycle Capabilities Executors JsonParse PlanGate Ownership Redaction TerraformRunner DirectClient TerraformProvider ProviderLogic TerraformSafety TerraformLimits.
From Stdlib Require Import ZArith Lia Bool Ascii String.
From stdpp Require Import base decidable list sets strings.
Open Scope string_scope.
Open Scope Z_scope.
Open Scope prog_scope.

(** The request of the port as the adapter receives it. *)
Definition port_request (q : InstanceRequest) : MutationRequest :=
  {| mr_context := Some q.(context); mr_providerResourceId := Some q.(request_providerResourceId);
     mr_expectedOwnershipMarkers := Some q.(expectedOwnershipMarkers) |}.

(** Observations are answered by the adapter, out of a state it cannot read. *)
Definition observes_unreadable `{Platform} (passwordOf : string → option string)
    (configuration : TerraformProxmoxConfiguration) (runner : TerraformRunnerConfiguration)
    (w : ClaimedWorkflow PurgeData) (outside : ∀ e, ProviderPort.reply e) : Prop :=
  ∀ q s, q.(context) = call_context w s → ∃ ob now (t : history),
    outside (Rpc (ProviderPort.observeInstance q)) = Reply (Some ob)
    ∧ traces (observeInstance passwordOf configuration runner now (port_request q)) t (Ok ob)
    ∧ state_unreadable t.

(** An unreadable state completes a purge.  When the adapter cannot read
    Terraform's state it reports that the machine does not exist; at its
    verifying stage and at its final stage alike the purge workflow takes the
    report as proof of absence, completes as succeeded with the machine
    'purged', and calls nothing that would destroy it. *)
Theorem unreadable_state_completes_a_purge `{Platform} (passwordOf : string → option string)
    (configuration : TerraformProxmoxConfiguration) (runner : TerraformRunnerConfiguration)
    (env : Environment) (w : ClaimedWorkflow PurgeData) (r : string) (outside : ∀ e, ProviderPort.reply e)
    (Hrouted : w.(claimed_action) = purge_instance)
    (Hstage : w.(claimed_stage) = verifying_purge ∨ w.(claimed_stage) = observing_purge)
    (Hres : present w.(claimed_providerResourceId) = Some r)
    (Hstate : observes_unreadable passwordOf configuration runner w outside) :
  ∃ q c d, effects (run outside (runAny env (W_purge w))).1 = [Rpc (ProviderPort.observeInstance q); Complete c]
    ∧ c.(co_status) = status_succeeded ∧ c.(co_event).(data) = MutationCompleted d
    ∧ d.(completed_lifecycleState) = "purged".
Proof.
  assert (Hob : ∀ q s, q.(context) = call_context w s →
    ∃ ob, outside (Rpc (ProviderPort.observeInstance q)) = Reply (Some ob) ∧ truth ob.(io_exists) = false).
  { intros q s Hq. destruct (Hstate q s Hq) as (ob & now & t & Ho & Ht & Hun). exists ob. split; [done|].
    by rewrite (unreadable_observation _ _ _ _ _ _ _ Ht Hun). }
  unfold runAny, runClaimed. rewrite bool_decide_eq_false_2 by (simpl; intros Hn; by apply Hn).
  unfold PurgeInstance.execute.
  destruct Hstage as [-> | ->]; unfold PurgeInstance.verifyOwnership, PurgeInstance.observeAbsence,
    PurgeInstance.completePurge, instance_request, requiredResource; rewrite Hres; simpl.
  all: edestruct Hob as (ob & -> & Hexists); [reflexivity|]; simpl; rewrite Hexists; simpl; destruct (outside _); simpl;
    eexists _, _, _; split_and!; reflexivity.
Qed.

(** The state backend answers, but the state cannot be shown. *)
Definition mute_outside (e : tf_effect) : tf_reply e :=
  match e as e0 return tf_reply e0 → tf_reply e0 with
  | Spawn _ arguments => λ r,
      if bool_decide (arguments = show_state_arguments)
      then {| exitCode := 1; stdout := ""; stderr := "Error: Failed to load state" |} else r
  | _ => λ r, r
  end (healthy_outside 910007 e).
(** The deployment that serves the profile of the sample purge. *)
Definition pp_configuration : TerraformProxmoxConfiguration :=
  {| tc_providerProfileId := "pp"; tc_node := "pve1"; tc_templateVmid := 9000; tc_templateDiskFormat := qcow2;
     tc_poolId := "cloud"; tc_imageId := "ubuntu"; tc_storage := "local"; tc_diskInterface := "scsi0";
     tc_bridge := "vmbr1"; tc_networkMtu := 1500; tc_ipv4Cidr := "10.0.0.0/24"; tc_ipv4Gateway := "10.0.0.1";
     tc_dnsDomain := "lab"; tc_cloudInitUsername := "ops"; tc_cloudInitPassword := "correct-horse";
     tc_resourceIdMinimum := 910000; tc_resourceIdMaximum := 910099; tc_environment := "lab";
     tc_managedBy := "private-cloud-control-plane" |}.
Definition pp_observe (r : MutationRequest) : tf_step InstanceObservation :=
  observeInstance (H := sample_platform) no_password pp_configuration sample_runner 0 r.
Definition blind (e : ProviderPort.effect) : ProviderPort.reply e :=
  match e return ProviderPort.reply e with
  | Rpc (ProviderPort.observeInstance q) => Reply (Some (absent 0))
  | e => healthy e
  end.
Definition purge_to_verify : ClaimedWorkflow PurgeData := sample_claim sample_purge_data purge_instance verifying_purge.

Lemma blind_is_served : observes_unreadable (H := sample_platform) no_password pp_configuration sample_runner purge_to_verify blind.
Proof.
  intros q s Hq. exists (absent 0), 0, (fst (run mute_outside (pp_observe (port_request q)))). split; [done|].
  assert (Ho : snd (run mute_outside (pp_observe (port_request q))) = Ok (absent 0)).
  { destruct q as [c r m]. cbn in Hq. subst c. vm_compute. reflexivity. }
  split.
  - pose proof (run_traces tf_reply mute_outside (pp_observe (port_request q))) as Hr.
    destruct (run mute_outside (pp_observe (port_request q))) as [t o]. cbn in Ho. subst o. exact Hr.
  - intros d p Hin. pose proof (run_replies mute_outside (pp_observe (port_request q))) as Hr. rewrite Forall_forall in Hr.
    by rewrite (Hr _ Hin).
Qed.

Lemma unreadable_state_completes_a_purge_witness :
  ∃ q c d, effects (run blind (runAny sample_env (W_purge purge_to_verify))).1 = [Rpc (ProviderPort.observeInstance q); Complete c]
    ∧ c.(co_status) = status_succeeded ∧ c.(co_event).(data) = MutationCompleted d
    ∧ d.(completed_lifecycleState) = "purged".
Proof.
  exact (unreadable_state_completes_a_purge (H := sample_platform) no_password pp_configuration sample_runner sample_env
    purge_to_verify "vm-100" blind eq_refl (or_introl eq_refl) eq_refl blind_is_served).
Defined.
