(* ===== verification/TerraformStore.v ===== *)
(** * The run record and the state inventory

    [packages/postgres-adapter/src/terraform-inventory-store.ts]: the tables of
    the terraform schema beside those of the workflow schema, and the methods of
    [PostgresTerraformInventoryStore] as transactions over them.  A violated
    constraint of the migration is an error, as is a fencing token that is no
    text of a [bigint]; what PostgreSQL reads as one is a parameter. *)
From S2P Require Import Prelude JsText Json Domain WorkflowStage Events Platform WorkflowStore Fencing PlanGate Redaction TerraformRunner.
From Stdlib Require Import ZArith Lia Bool Ascii String.
From stdpp Require Import base decidable list strings gmap.
Open Scope string_scope.
Open Scope Z_scope.
Open Scope prog_scope.

(** PostgreSQL's reading of a [bigint]. *)
Class BigintText : Type := { bigint : string → option Z }.
(** It reads back what it prints. *)
Definition reads_tokens `{BigintText} : Prop := ∀ n, 0 ≤ n < 2 ^ 63 → bigint (string_of_Z n) = Some n.

(** ** Tables *)

(** A row of [terraform.runs]. *)
Record RunRow : Type := {
  ru_instance_id : string;
  ru_operation_id : string;
  ru_workspace_name : string;
  ru_command : RunCommand;
  ru_fencing_token : Z;
  ru_executor_reference : option string;
  ru_status : RunStatus;
  ru_gate_decision : option GateDecision;
  ru_gate_rule : option string;
  ru_plan_actions : option (list (string * Z));
  ru_exit_code : option Z;
  ru_diagnostics : option (list TerraformDiagnostic);
  ru_started_at : Z;
  ru_finished_at : option Z;
}.

(** A row of [terraform.workspaces], keyed by its instance. *)
Record WorkspaceRow : Type := {
  wk_workspace_name : string;
  wk_module_version : option string;
  wk_provider_version : option string;
  wk_state_serial : option Z;
  wk_state_lineage : option string;
  wk_last_run_id : option string;
  wk_last_applied_at : option Z;
  wk_last_refreshed_at : option Z;
  wk_drift_state : DriftState;
  wk_drift_summary : option json;
  wk_created_at : Z;
  wk_updated_at : Z;
}.

(** The two tables, the workflow schema whose leases the store reads, and the
    identifiers of [control.instances]. *)
Record InventoryDb : Type := {
  runs : gmap string RunRow;
  workspaces : gmap string WorkspaceRow;
  workflow_schema : WorkflowDb;
  control_instances : list string;
}.
Definition set_runs (f : gmap string RunRow → gmap string RunRow) (s : InventoryDb) : InventoryDb :=
  {| runs := f s.(runs); workspaces := s.(workspaces); workflow_schema := s.(workflow_schema);
     control_instances := s.(control_instances) |}.
Definition set_workspaces (f : gmap string WorkspaceRow → gmap string WorkspaceRow) (s : InventoryDb) : InventoryDb :=
  {| runs := s.(runs); workspaces := f s.(workspaces); workflow_schema := s.(workflow_schema);
     control_instances := s.(control_instances) |}.
Definition set_workflow_schema (f : WorkflowDb → WorkflowDb) (s : InventoryDb) : InventoryDb :=
  {| runs := s.(runs); workspaces := s.(workspaces); workflow_schema := f s.(workflow_schema);
     control_instances := s.(control_instances) |}.

Abbreviation itx := (tx InventoryDb error).

(** [{ ...(value ? { column: value } : {}) }]. *)
Definition updated {A : Type} (value column : option A) : option A :=
  match value with Some _ => value | None => column end.

(** What [readRun] answers. *)
Record TerraformRun : Type := {
  tr_runId : string;
  tr_instanceId : string;
  tr_operationId : string;
  tr_workspaceName : string;
  tr_command : RunCommand;
  tr_status : RunStatus;
  tr_gateDecision : option GateDecision;
  tr_gateRule : option string;
  tr_planActions : option (list (string * Z));
  tr_exitCode : option Z;
  tr_diagnostics : option (list TerraformDiagnostic);
  tr_startedAt : Z;
  tr_finishedAt : option Z;
}.

Section store.
Context `{BigintText} (c : Call).

Definition busy (message : string) : error := DomainError INSTANCE_BUSY message.
Definition bigint_column (text : string) : itx Z := tsome (bigint text) (Fault "invalid input syntax for type bigint").

(** A lease that exists has to be the caller's; one that does not is no
    obstacle. *)
Definition assertFencingToken (instanceId fencingToken : string) : itx unit :=
  let! schema := tget workflow_schema in
  match schema.(instance_leases) !! instanceId with
  | None => tret tt
  | Some lease =>
      tguard (String.eqb (string_of_Z lease.(l_fencing_token)) fencingToken)
        (busy "The instance lease has moved to another worker; this run may not be recorded.")
  end.

Definition new_run (i : BeginRunInput) (token : Z) : RunRow :=
  {| ru_instance_id := i.(br_instanceId); ru_operation_id := i.(br_operationId);
     ru_workspace_name := i.(br_workspaceName); ru_command := i.(br_command); ru_fencing_token := token;
     ru_executor_reference := present i.(br_executorReference); ru_status := run_running;
     ru_gate_decision := None; ru_gate_rule := None; ru_plan_actions := None; ru_exit_code := None;
     ru_diagnostics := None; ru_started_at := dbNow c; ru_finished_at := None |}.

Definition beginRun (i : BeginRunInput) : itx unit :=
  assertFencingToken i.(br_instanceId) i.(br_fencingToken) ;;
  let! token := bigint_column i.(br_fencingToken) in
  let! rows := tget runs in
  tguard (bool_decide (rows !! i.(br_runId) = None)) (Fault "runs_pkey") ;;
  tmodify (set_runs (insert i.(br_runId) (new_run i token))).

Definition completed_run (i : CompleteRunInput) (row : RunRow) : RunRow :=
  {| ru_instance_id := row.(ru_instance_id); ru_operation_id := row.(ru_operation_id);
     ru_workspace_name := row.(ru_workspace_name); ru_command := row.(ru_command);
     ru_fencing_token := row.(ru_fencing_token); ru_executor_reference := row.(ru_executor_reference);
     ru_status := i.(cr_status);
     ru_gate_decision := updated i.(cr_gateDecision) row.(ru_gate_decision);
     ru_gate_rule := updated (present i.(cr_gateRule)) row.(ru_gate_rule);
     ru_plan_actions := updated i.(cr_planActions) row.(ru_plan_actions);
     ru_exit_code := updated i.(cr_exitCode) row.(ru_exit_code);
     ru_diagnostics := updated i.(cr_diagnostics) row.(ru_diagnostics);
     ru_started_at := row.(ru_started_at); ru_finished_at := Some (dbNow c) |}.

(** The row [completeRun] updates: of this run and token, and still running. *)
Definition completable (token : Z) (row : RunRow) : bool :=
  (row.(ru_fencing_token) =? token) && bool_decide (row.(ru_status) = run_running).
Definition completeRun (i : CompleteRunInput) : itx unit :=
  let! token := bigint_column i.(cr_fencingToken) in
  let! rows := tget runs in
  let! row := tsome (match rows !! i.(cr_runId) with
                     | Some row => if completable token row then Some row else None
                     | None => None
                     end)
                (busy "The run could not be completed: it is already terminal, or the lease has moved.") in
  tguard (negb (bool_decide (i.(cr_status) = run_running))) (Fault "runs_terminal_has_finished") ;;
  tguard (row.(ru_started_at) <=? dbNow c) (Fault "runs_finished_after_started") ;;
  tmodify (set_runs (insert i.(cr_runId) (completed_run i row))).

Definition run_of (runId : string) (row : RunRow) : TerraformRun :=
  {| tr_runId := runId; tr_instanceId := row.(ru_instance_id); tr_operationId := row.(ru_operation_id);
     tr_workspaceName := row.(ru_workspace_name); tr_command := row.(ru_command); tr_status := row.(ru_status);
     tr_gateDecision := row.(ru_gate_decision); tr_gateRule := row.(ru_gate_rule);
     tr_planActions := row.(ru_plan_actions); tr_exitCode := row.(ru_exit_code);
     tr_diagnostics := row.(ru_diagnostics); tr_startedAt := row.(ru_started_at);
     tr_finishedAt := row.(ru_finished_at) |}.
Definition readRun (runId : string) : itx (option TerraformRun) :=
  let! rows := tget runs in tret (run_of runId <$> rows !! runId).

(** *** Workspaces *)

Definition new_workspace (i : RecordWorkspaceInput) : WorkspaceRow :=
  {| wk_workspace_name := i.(ws_workspaceName); wk_module_version := present i.(ws_moduleVersion);
     wk_provider_version := present i.(ws_providerVersion); wk_state_serial := i.(ws_stateSerial);
     wk_state_lineage := present i.(ws_stateLineage); wk_last_run_id := present i.(ws_lastRunId);
     wk_last_applied_at := if i.(ws_applied) then Some (appNow c) else None;
     wk_last_refreshed_at := if i.(ws_refreshed) then Some (appNow c) else None;
     wk_drift_state := default drift_unknown i.(ws_driftState); wk_drift_summary := i.(ws_driftSummary);
     wk_created_at := dbNow c; wk_updated_at := dbNow c |}.
Definition updated_workspace (i : RecordWorkspaceInput) (row : WorkspaceRow) : WorkspaceRow :=
  {| wk_workspace_name := row.(wk_workspace_name);
     wk_module_version := updated (present i.(ws_moduleVersion)) row.(wk_module_version);
     wk_provider_version := updated (present i.(ws_providerVersion)) row.(wk_provider_version);
     wk_state_serial := updated i.(ws_stateSerial) row.(wk_state_serial);
     wk_state_lineage := updated (present i.(ws_stateLineage)) row.(wk_state_lineage);
     wk_last_run_id := updated (present i.(ws_lastRunId)) row.(wk_last_run_id);
     wk_last_applied_at := if i.(ws_applied) then Some (appNow c) else row.(wk_last_applied_at);
     wk_last_refreshed_at := if i.(ws_refreshed) then Some (appNow c) else row.(wk_last_refreshed_at);
     wk_drift_state := default row.(wk_drift_state) i.(ws_driftState);
     wk_drift_summary := updated i.(ws_driftSummary) row.(wk_drift_summary);
     wk_created_at := row.(wk_created_at); wk_updated_at := appNow c |}.
(** The columns that have to name existing rows, or fit their type. *)
Definition references (rows : gmap string RunRow) (i : RecordWorkspaceInput) : bool :=
  match present i.(ws_lastRunId) with Some run => bool_decide (is_Some (rows !! run)) | None => true end.
Definition serial_fits (i : RecordWorkspaceInput) : bool :=
  match i.(ws_stateSerial) with Some n => (- 2 ^ 63 <=? n) && (n <? 2 ^ 63) | None => true end.

(** The upsert: [workspace_name] is written once. *)
Definition recordWorkspace (i : RecordWorkspaceInput) : itx unit :=
  tguard (serial_fits i) (Fault "bigint out of range") ;;
  let! rows := tget runs in
  tguard (references rows i) (Fault "workspaces_last_run_id_fkey") ;;
  let! table := tget workspaces in
  match table !! i.(ws_instanceId) with
  | Some row => tmodify (set_workspaces (insert i.(ws_instanceId) (updated_workspace i row)))
  | None =>
      tguard (forallb (λ p, negb (String.eqb (snd p).(wk_workspace_name) i.(ws_workspaceName))) (map_to_list table))
        (Fault "workspaces_workspace_name_key") ;;
      let! instances := tget control_instances in
      tguard (bool_decide (i.(ws_instanceId) ∈ instances)) (Fault "workspaces_instance_id_fkey") ;;
      tmodify (set_workspaces (insert i.(ws_instanceId) (new_workspace i)))
  end.
End store.
