(* ===== verification/InventorySafety.v ===== *)
(** * What the run record promises

    The operations of the inventory store, interleaved with those of the
    workflow store whose leases it reads: runs keep their identity, end once
    and are never rewritten; a token that is not the lease's begins nothing. *)
From S2P Require Import Prelude JsText Json Domain WorkflowStage Events EventValidation Platform WorkflowStore Fencing PlanGate Redaction TerraformRunner TerraformStore.
From Stdlib Require Import ZArith Lia Bool Ascii String DecimalString DecimalZ.
From stdpp Require Import base decidable list strings gmap.
Open Scope string_scope.
Open Scope Z_scope.
Open Scope prog_scope.

(** A numeral is the text of one number. *)
Lemma string_of_Z_inj (m n : Z) : string_of_Z m = string_of_Z n → m = n.
Proof.
  unfold string_of_Z. intros Heq. apply DecimalZ.to_int_inj.
  assert (Some (Z.to_int m) = Some (Z.to_int n)) as [=]; [|done]. by rewrite <- !NilEmpty.isi, Heq.
Qed.

(** ** Histories *)

(** One committed call: of the inventory store, of the workflow store, or the
    creation of an instance by the control plane. *)
Inductive inventory_call : Type :=
| Inv_beginRun (i : BeginRunInput)
| Inv_completeRun (i : CompleteRunInput)
| Inv_recordWorkspace (i : RecordWorkspaceInput)
| Inv_workflow (o : operation)
| Inv_instance (id : string).

Definition inventory_step `{Platform} `{BigintText} (x : Call * inventory_call) (s : InventoryDb) : InventoryDb :=
  let c := fst x in
  match snd x with
  | Inv_beginRun i => snd (withTransaction (beginRun c i) s)
  | Inv_completeRun i => snd (withTransaction (completeRun c i) s)
  | Inv_recordWorkspace i => snd (withTransaction (recordWorkspace c i) s)
  | Inv_workflow o => set_workflow_schema (perform (c, o)) s
  | Inv_instance id =>
      {| runs := s.(runs); workspaces := s.(workspaces); workflow_schema := s.(workflow_schema);
         control_instances := id :: s.(control_instances) |}
  end.
Definition inventory_after `{Platform} `{BigintText} (h : list (Call * inventory_call)) (s : InventoryDb) : InventoryDb :=
  List.fold_left (λ s x, inventory_step x s) h s.

(** What is fixed when a run is begun. *)
Definition same_run (a b : RunRow) : Prop :=
  b.(ru_instance_id) = a.(ru_instance_id) ∧ b.(ru_operation_id) = a.(ru_operation_id)
  ∧ b.(ru_workspace_name) = a.(ru_workspace_name) ∧ b.(ru_command) = a.(ru_command)
  ∧ b.(ru_fencing_token) = a.(ru_fencing_token) ∧ b.(ru_executor_reference) = a.(ru_executor_reference)
  ∧ b.(ru_started_at) = a.(ru_started_at).
Definition ended (row : RunRow) : Prop := row.(ru_status) ≠ run_running.
(** A row after a while: the same run, and the same row once it had ended. *)
Definition later_run (a b : RunRow) : Prop := same_run a b ∧ (ended a → b = a).
(** The status and the finish of a row agree. *)
Definition consistent_run (row : RunRow) : Prop :=
  match row.(ru_finished_at) with
  | None => row.(ru_status) = run_running
  | Some f => ended row ∧ row.(ru_started_at) ≤ f
  end.
Definition consistent (s : InventoryDb) : Prop := map_Forall (λ _, consistent_run) s.(runs).

#[export] Instance later_run_preorder : PreOrder later_run.
Proof.
  split; [intros a; split; [unfold same_run; split_and!; done|done]|].
  intros a b d [Hs He] [Hs' He']. split; [unfold same_run in *; intuition congruence|].
  intros Ha. rewrite <- (He Ha). apply He'. by rewrite (He Ha).
Qed.

Record progresses (s s' : InventoryDb) : Prop := {
  pr_runs : ∀ id row, s.(runs) !! id = Some row → ∃ row', s'.(runs) !! id = Some row' ∧ later_run row row';
  pr_consistent : consistent s → consistent s';
  pr_names : ∀ i w, s.(workspaces) !! i = Some w →
    ∃ w', s'.(workspaces) !! i = Some w' ∧ w'.(wk_workspace_name) = w.(wk_workspace_name);
  pr_workflow : evolves s.(workflow_schema) s'.(workflow_schema);
}.
#[export] Instance progresses_preorder : PreOrder progresses.
Proof.
  split.
  - intros s. split; [|done| |reflexivity].
    + intros id row Hr. exists row. by split.
    + intros i w Hw. by exists w.
  - intros a b d [] []. split; [|auto| |by etrans].
    + intros id row Hr. destruct (pr_runs0 id row Hr) as (r1 & H1 & ?). destruct (pr_runs1 id r1 H1) as (r2 & ? & ?).
      exists r2. split; [done|by etrans].
    + intros i w Hw. destruct (pr_names0 i w Hw) as (w1 & H1 & E1). destruct (pr_names1 i w1 H1) as (w2 & ? & E2).
      exists w2. split; [done|congruence].
Qed.

(** A run written under its identifier. *)
Lemma progresses_run (id : string) (row : RunRow) (s : InventoryDb) :
  (∀ old, s.(runs) !! id = Some old → later_run old row) → (consistent s → consistent_run row) →
  progresses s (set_runs (insert id row) s).
Proof.
  intros Hold Hc. split; [| |by intros i w ?; exists w|reflexivity].
  - intros id' r Hr. cbn. destruct (decide (id = id')) as [<-|Hne].
    + exists row. rewrite lookup_insert_eq. split; [done|by apply Hold].
    + exists r. rewrite lookup_insert_ne by done. by split.
  - intros Hs. apply map_Forall_insert_2; [by apply Hc|exact Hs].
Qed.
Lemma progresses_workspace (i : string) (w : WorkspaceRow) (s : InventoryDb) :
  (∀ old, s.(workspaces) !! i = Some old → w.(wk_workspace_name) = old.(wk_workspace_name)) →
  progresses s (set_workspaces (insert i w) s).
Proof.
  intros Hold. split; [by intros id r ?; exists r|done| |reflexivity].
  intros i' w' Hw. cbn. destruct (decide (i = i')) as [<-|Hne].
  - exists w. rewrite lookup_insert_eq. split; [done|by apply Hold].
  - exists w'. by rewrite lookup_insert_ne.
Qed.

Section keeps_progress.
Context `{Platform} `{BigintText}.

(** What a begun run went through, and what it wrote. *)
Lemma beginRun_Ok (c : Call) (i : BeginRunInput) (s s' : InventoryDb) :
  beginRun c i s = Ok (tt, s') ↔
  (∀ lease, s.(workflow_schema).(instance_leases) !! i.(br_instanceId) = Some lease →
     string_of_Z lease.(l_fencing_token) = i.(br_fencingToken))
  ∧ ∃ token, bigint i.(br_fencingToken) = Some token ∧ s.(runs) !! i.(br_runId) = None
      ∧ s' = set_runs (insert i.(br_runId) (new_run c i token)) s.
Proof.
  unfold beginRun, assertFencingToken, bigint_column. split.
  - intros ([] & s1 & Hf & Hs)%tbind_Ok. apply tbind_Ok in Hf as (schema & s0 & [= <- <-] & Hf).
    assert (Hl : s1 = s ∧ ∀ lease, instance_leases (workflow_schema s) !! br_instanceId i = Some lease →
                   string_of_Z (l_fencing_token lease) = br_fencingToken i).
    { destruct (instance_leases _ !! _) as [lease|] eqn:E; peel; [|by split]. unbool. by split; [|intros ? [= <-]]. }
    destruct Hl as [-> Hl]. peel. unbool. split; [done|]. by eexists.
  - intros (Hl & token & Ht & Hr & ->). unfold tbind, tget.
    destruct (instance_leases _ !! _) as [lease|].
    + rewrite (proj2 (String.eqb_eq _ _) (Hl lease eq_refl)). cbn. rewrite Ht. cbn. by rewrite bool_decide_eq_true_2.
    + cbn. rewrite Ht. cbn. by rewrite bool_decide_eq_true_2.
Qed.
(** What a completion went through, and what it wrote. *)
Lemma completeRun_Ok (c : Call) (i : CompleteRunInput) (s s' : InventoryDb) :
  completeRun c i s = Ok (tt, s') ↔
  ∃ row, s.(runs) !! i.(cr_runId) = Some row ∧ bigint i.(cr_fencingToken) = Some row.(ru_fencing_token)
    ∧ row.(ru_status) = run_running ∧ i.(cr_status) ≠ run_running ∧ row.(ru_started_at) ≤ dbNow c
    ∧ s' = set_runs (insert i.(cr_runId) (completed_run c i row)) s.
Proof.
  unfold completeRun, bigint_column, completable. split.
  - intros Hs. peel. case_match eqn:Er; [|done]. case_match eqn:Eb; [|done]. simplify_eq. unbool. eexists. split_and!; eauto.
    all: intuition congruence.
  - intros (row & Hr & Ht & Hrun & Hst & Hle & ->). unfold tbind, tget. rewrite Ht. cbn. rewrite Hr.
    rewrite Z.eqb_refl, (bool_decide_eq_true_2 _ Hrun). cbn. rewrite bool_decide_eq_false_2 by done. cbn.
    by rewrite (proj2 (Z.leb_le _ _) Hle).
Qed.

Lemma progress_begin (c : Call) (i : BeginRunInput) : keeps progresses (beginRun c i).
Proof.
  intros s [] s' (_ & token & _ & Hr & ->)%beginRun_Ok. apply progresses_run; [by rewrite Hr|]. done.
Qed.
Lemma progress_complete (c : Call) (i : CompleteRunInput) : keeps progresses (completeRun c i).
Proof.
  intros s [] s' (row & Hr & _ & Hrun & Hst & Hle & ->)%completeRun_Ok. apply progresses_run; [|by cbn].
  rewrite Hr. intros ? [= <-]. split; [unfold same_run; by split_and!|]. by intros [].
Qed.
Lemma progress_record (c : Call) (i : RecordWorkspaceInput) : keeps progresses (recordWorkspace c i).
Proof.
  intros s [] s' Hs. unfold recordWorkspace in Hs.
  apply tbind_Ok in Hs as ([] & ? & [_ [= ->]]%tguard_Ok & Hs). apply tbind_Ok in Hs as (rows & ? & [= <- <-] & Hs).
  apply tbind_Ok in Hs as ([] & ? & [_ [= ->]]%tguard_Ok & Hs). apply tbind_Ok in Hs as (table & ? & [= <- <-] & Hs).
  destruct (workspaces s !! _) as [w|] eqn:E; peel; apply progresses_workspace; rewrite E; [|done].
  by intros ? [= <-].
Qed.

Lemma step_progresses (x : Call * inventory_call) (s : InventoryDb) : progresses s (inventory_step x s).
Proof.
  destruct x as [c []]; unfold inventory_step; cbn [fst snd].
  - apply keeps_transaction; [typeclasses eauto|apply progress_begin].
  - apply keeps_transaction; [typeclasses eauto|apply progress_complete].
  - apply keeps_transaction; [typeclasses eauto|apply progress_record].
  - split; cbn; [by intros id r ?; exists r|done|by intros i w ?; exists w|]. apply perform_evolves.
  - split; cbn; [by intros ? r ?; exists r|done|by intros i w ?; exists w|reflexivity].
Qed.
Lemma after_progresses (h : list (Call * inventory_call)) (s : InventoryDb) : progresses s (inventory_after h s).
Proof.
  revert s. induction h as [|x h IH]; intros s; [reflexivity|].
  change (inventory_after (x :: h) s) with (inventory_after h (inventory_step x s)). etrans; [apply step_progresses|apply IH].
Qed.
End keeps_progress.

(** ** How runs end *)

Section ends.
Context `{Platform} `{BigintText}.

Lemma completeRun_ended (c : Call) (i : CompleteRunInput) (row : RunRow) (s : InventoryDb) :
  s.(runs) !! i.(cr_runId) = Some row → ended row → ∃ e, withTransaction (completeRun c i) s = (Err e, s).
Proof.
  intros Hr He. unfold withTransaction. destruct (completeRun c i s) as [[[] s']|e] eqn:E; [|by exists e].
  apply completeRun_Ok in E as (row' & Hr' & _ & Hrun & _). rewrite Hr in Hr'. injection Hr' as <-. done.
Qed.

(** C31: A run ends once, and for ever.  Whatever the inventory, the workflow
    store and the control plane go on to do, a run that has ended keeps the row
    it ended with: a poll reads that row, and no completion of it is accepted
    again, under any token; and throughout, a run has a finish, not before its
    start, exactly when it is no longer running. *)
Theorem run_outcome_is_final (h : list (Call * inventory_call)) (s : InventoryDb) (id : string) (row : RunRow)
    (Hs : consistent s) (Hr : s.(runs) !! id = Some row) (He : ended row) :
  let s' := inventory_after h s in
  consistent s' ∧ readRun id s' = Ok (Some (run_of id row), s')
  ∧ ∀ c i, i.(cr_runId) = id → ∃ e, withTransaction (completeRun c i) s' = (Err e, s').
Proof.
  intros s'. destruct (after_progresses h s) as [Hruns Hc _ _].
  destruct (Hruns id row Hr) as (row' & Hr' & _ & Hfinal). rewrite (Hfinal He) in Hr'. split_and!; [by apply Hc| |].
  - unfold readRun, tbind, tget, tret, s'. by rewrite Hr'.
  - intros c i <-. by eapply completeRun_ended.
Qed.

(** A completion looks at the token the run was begun with, and at no lease:
    it goes the same way whoever holds the instance by then. *)
Theorem completion_ignores_the_lease (c : Call) (i : CompleteRunInput) (s : InventoryDb) (schema : WorkflowDb) :
  let s' := set_workflow_schema (λ _, schema) s in
  withTransaction (completeRun c i) s'
  = (fst (withTransaction (completeRun c i) s),
     set_workflow_schema (λ _, schema) (snd (withTransaction (completeRun c i) s))).
Proof.
  intros s'. unfold withTransaction, completeRun, bigint_column, tbind, tget.
  destruct (bigint _) as [token|]; cbn [tsome]; [|done]. cbn. destruct (runs s !! _) as [row|]; cbn; [|done].
  destruct (completable token row); cbn; [|done]. destruct (negb _); cbn; [|done]. by destruct (_ <=? _).
Qed.

(** A token that is not the lease's begins nothing. *)
Lemma stale_token_begins_nothing (c : Call) (i : BeginRunInput) (n : Z) (s : InventoryDb) :
  i.(br_fencingToken) = string_of_Z n → 0 ≤ n < lease_token s.(workflow_schema) i.(br_instanceId) →
  ∀ s', beginRun c i s ≠ Ok (tt, s').
Proof.
  intros Ht [Hn Hlt] s' [Hl _]%beginRun_Ok. unfold lease_token in Hlt.
  destruct (instance_leases _ !! _) as [lease|]; cbn in Hlt; [|lia].
  specialize (Hl lease eq_refl). rewrite Ht in Hl. apply string_of_Z_inj in Hl. lia.
Qed.
End ends.

(** A run begun and completed, and the calls of others after it. *)
Definition inventory_bigint : BigintText := {| bigint := λ s, if String.eqb s "7" then Some 7 else None |}.
Definition begun_run : BeginRunInput :=
  {| br_runId := "u1"; br_instanceId := "i1"; br_operationId := "o1"; br_workspaceName := "ws-i1";
     br_command := command_apply; br_fencingToken := "7"; br_executorReference := None |}.
Definition failed_run : CompleteRunInput :=
  {| cr_runId := "u1"; cr_fencingToken := "7"; cr_status := run_failed; cr_exitCode := Some 1; cr_gateDecision := None;
     cr_gateRule := None; cr_planActions := None; cr_diagnostics := None |}.
Definition succeeded_run : CompleteRunInput :=
  {| cr_runId := "u1"; cr_fencingToken := "7"; cr_status := run_succeeded; cr_exitCode := Some 0; cr_gateDecision := None;
     cr_gateRule := None; cr_planActions := None; cr_diagnostics := None |}.
Definition no_runs : InventoryDb :=
  {| runs := ∅; workspaces := ∅; workflow_schema := empty_db; control_instances := ["i1"] |}.
Definition one_run : InventoryDb :=
  inventory_after (H := sample_platform) (H0 := inventory_bigint)
    [(sample_call 1, Inv_beginRun begun_run); (sample_call 2, Inv_completeRun failed_run)] no_runs.

Lemma run_outcome_is_final_witness :
  ru_status <$> one_run.(runs) !! "u1" = Some run_failed
  ∧ ∃ e, withTransaction (completeRun (H := inventory_bigint) (sample_call 3) succeeded_run) one_run = (Err e, one_run).
Proof.
  split; [vm_compute; reflexivity|].
  destruct (one_run.(runs) !! "u1") as [row|] eqn:E; [|vm_compute in E; discriminate E].
  refine (proj2 (proj2 (run_outcome_is_final (H := sample_platform) (H0 := inventory_bigint) [] one_run "u1" row _ E _))
    (sample_call 3) succeeded_run eq_refl).
  - exact (pr_consistent _ _ (after_progresses (H := sample_platform) (H0 := inventory_bigint)
      [(sample_call 1, Inv_beginRun begun_run); (sample_call 2, Inv_completeRun failed_run)] no_runs) (map_Forall_empty _)).
  - vm_compute in E. injection E as <-. discriminate.
Defined.
