(* ===== verification/TerraformOverStore.v ===== *)
(** * The Terraform provider over its run record

    The histories of [TerraformSafety] with their inventory calls answered by
    the store of [TerraformStore], while other workers go on: what becomes of
    the runs a request begins, and what a request under a stale fencing token
    can do. *)
From S2P Require Import Prelude JsText Json SshKey Domain Ipv4 WorkflowStage Events EventValidation Platform WorkflowStore Fencing Saga SagaLogic ProviderPort JsonParse PlanGate Ownership Redaction TerraformRunner DirectClient TerraformProvider ProviderLogic TerraformSafety TerraformStore InventorySafety.
From Stdlib Require Import ZArith Lia Bool Ascii String.
From stdpp Require Import base decidable list sets strings gmap.
Open Scope string_scope.
Open Scope Z_scope.
Open Scope prog_scope.

(** ** The store behind the port *)

Definition error_text (e : error) : string := match e with DomainError _ m | Fault m => m end.
Definition io_of {A : Type} (r : result error A) : io A :=
  match r with Ok a => Done a | Err e => Failed (error_text e) end.
(** What the adapter reads of a run. *)
Definition record_of (r : TerraformRun) : RunRecord :=
  {| rr_status := r.(tr_status); rr_gateDecision := r.(tr_gateDecision); rr_diagnostics := r.(tr_diagnostics) |}.

Section served.
Context `{Platform} `{BigintText}.

(** How the store answers a call of the inventory, and the state it leaves;
    other effects are none of its business. *)
Definition answer (c : Call) (e : tf_effect) (s : InventoryDb) : option (tf_reply e * InventoryDb) :=
  match e as e0 return option (tf_reply e0 * InventoryDb) with
  | BeginRun i => Some (io_of (fst (withTransaction (TerraformStore.beginRun c i) s)), inventory_step (c, Inv_beginRun i) s)
  | CompleteRun i =>
      Some (io_of (fst (withTransaction (TerraformStore.completeRun c i) s)), inventory_step (c, Inv_completeRun i) s)
  | RecordWorkspace i =>
      Some (io_of (fst (withTransaction (TerraformStore.recordWorkspace c i) s)), inventory_step (c, Inv_recordWorkspace i) s)
  | ReadRun runId =>
      Some (io_of (fst (withTransaction (let! run := TerraformStore.readRun runId in tret (record_of <$> run)) s)), s)
  | _ => None
  end.
Definition answered_by (c : Call) (x : exchange tf_reply) (s s' : InventoryDb) : Prop :=
  match x with
  | Exchange e r => match answer c e s with Some a => (r, s') = a | None => s' = s end
  end.

(** A history whose inventory calls the store answers, from a time and a state
    to a time and a state.  Anyone else's calls come between, and the clock of
    the database does not go back. *)
Inductive serves : Z → InventoryDb → history → Z → InventoryDb → Prop :=
| serves_end (t : Z) (s : InventoryDb) : serves t s [] t s
| serves_other (t : Z) (x : Call * inventory_call) (s : InventoryDb) (h : history) (t' : Z) (s' : InventoryDb) :
    t ≤ dbNow (fst x) → serves (dbNow (fst x)) (inventory_step x s) h t' s' → serves t s h t' s'
| serves_answer (t : Z) (c : Call) (x : exchange tf_reply) (s s1 : InventoryDb) (h : history) (t' : Z) (s' : InventoryDb) :
    t ≤ dbNow c → answered_by c x s s1 → serves (dbNow c) s1 h t' s' → serves t s (x :: h) t' s'.

(** No run was started later than [t]. *)
Definition dated (t : Z) (s : InventoryDb) : Prop := map_Forall (λ _ row, row.(ru_started_at) ≤ t) s.(runs).

Lemma dated_insert (t : Z) (id : string) (row : RunRow) (s : InventoryDb) :
  dated t s → row.(ru_started_at) ≤ t → dated t (set_runs (insert id row) s).
Proof. intros Hs Hr. by apply map_Forall_insert_2. Qed.
Lemma dated_later (t t' : Z) (s : InventoryDb) : dated t s → t ≤ t' → dated t' s.
Proof. intros Hs Ht id row Hr. specialize (Hs id row Hr). cbn in *. lia. Qed.
Lemma dated_step (t : Z) (x : Call * inventory_call) (s : InventoryDb) :
  dated t s → t ≤ dbNow (fst x) → dated (dbNow (fst x)) (inventory_step x s).
Proof.
  intros Hs Ht%(dated_later _ _ _ Hs). destruct x as [c []]; unfold inventory_step, withTransaction; cbn [fst snd] in *; try done.
  - destruct (TerraformStore.beginRun c i s) as [[[] s']|] eqn:E; cbn; [|done].
    apply beginRun_Ok in E as (_ & token & _ & _ & ->). by apply dated_insert.
  - destruct (TerraformStore.completeRun c i s) as [[[] s']|] eqn:E; cbn; [|done].
    apply completeRun_Ok in E as (row & Hr & _ & _ & _ & Hle & ->). by apply dated_insert.
  - destruct (TerraformStore.recordWorkspace c i s) as [[[] s']|] eqn:E; cbn; [|done].
    unfold TerraformStore.recordWorkspace in E.
    apply tbind_Ok in E as ([] & ? & [_ [= ->]]%tguard_Ok & E). apply tbind_Ok in E as (rows & ? & [= <- <-] & E).
    apply tbind_Ok in E as ([] & ? & [_ [= ->]]%tguard_Ok & E). apply tbind_Ok in E as (table & ? & [= <- <-] & E).
    destruct (workspaces s !! _); peel; done.
Qed.
Lemma answered_step (c : Call) (x : exchange tf_reply) (s s' : InventoryDb) :
  answered_by c x s s' → s' = s ∨ ∃ y, s' = inventory_step (c, y) s.
Proof.
  destruct x as [[] r]; unfold answered_by, answer; intros Ha; try (by left); injection Ha as _ ->; [right; by eexists..|by left].
Qed.

Lemma serves_progress (t : Z) (s : InventoryDb) (h : history) (t' : Z) (s' : InventoryDb) :
  serves t s h t' s' → progresses s s' ∧ (dated t s → dated t' s').
Proof.
  induction 1 as [t s|t x s h t' s' Ht _ [Hp Hd]|t c x s s1 h t' s' Ht Ha _ [Hp Hd]]; [done|..].
  - split; [etrans; [apply step_progresses|done]|]. intros Hs. by apply Hd, (dated_step t).
  - apply answered_step in Ha as [->|[y ->]].
    + split; [done|]. intros Hs. by apply Hd, (dated_later t).
    + split; [etrans; [apply step_progresses|done]|]. intros Hs. by apply Hd, (dated_step t (c, y)).
Qed.
Lemma serves_app (t : Z) (s : InventoryDb) (h1 h2 : history) (t' : Z) (s' : InventoryDb) :
  serves t s (h1 ++ h2) t' s' → ∃ tm sm, serves t s h1 tm sm ∧ serves tm sm h2 t' s'.
Proof.
  remember (h1 ++ h2)%list as h eqn:Hh. intros Hs. revert h1 Hh.
  induction Hs as [t s|t x s h t' s' Ht _ IH|t c x s s1 h t' s' Ht Ha Hs IH]; intros h1 Hh.
  - destruct h1; [|done]. simpl in Hh. subst h2. exists t, s. split; constructor.
  - destruct (IH h1 Hh) as (tm & sm & ? & ?). exists tm, sm. split; [by econstructor|done].
  - destruct h1 as [|y h1].
    + simpl in Hh. subst h2. exists t, s. split; [constructor|by econstructor].
    + injection Hh as <- Hh. destruct (IH h1 Hh) as (tm & sm & ? & ?). exists tm, sm. split; [by econstructor|done].
Qed.
Lemma serves_cons (t : Z) (s : InventoryDb) (x : exchange tf_reply) (h : history) (t' : Z) (s' : InventoryDb) :
  serves t s (x :: h) t' s' →
  ∃ ta sa c sb, serves t s [] ta sa ∧ ta ≤ dbNow c ∧ answered_by c x sa sb ∧ serves (dbNow c) sb h t' s'.
Proof.
  remember (x :: h)%list as g eqn:Hg. intros Hs. revert x h Hg.
  induction Hs as [t s|t y s g t' s' Ht _ IH|t c y s s1 g t' s' Ht Ha Hs _]; intros x h Hg; [done|..].
  - destruct (IH x h Hg) as (ta & sa & c & sb & ? & Hrest). exists ta, sa, c, sb. split; [by econstructor|done].
  - injection Hg as -> ->. exists t, s, c, s1. split; [constructor|done].
Qed.
(** A history around one of its exchanges. *)
Lemma serves_at (t : Z) (s : InventoryDb) (h1 : history) (x : exchange tf_reply) (h2 : history) (t' : Z) (s' : InventoryDb) :
  serves t s (h1 ++ x :: h2) t' s' → dated t s →
  ∃ ta sa c sb, progresses s sa ∧ dated ta sa ∧ ta ≤ dbNow c ∧ answered_by c x sa sb ∧ dated (dbNow c) sb
    ∧ serves (dbNow c) sb h2 t' s'.
Proof.
  intros (tm & sm & [H1 Hd1]%serves_progress & (ta & sa & c & sb & [H2 Hd2]%serves_progress & Ht & Ha & H3)%serves_cons)%serves_app Hs.
  exists ta, sa, c, sb. split_and!; [by etrans|by apply Hd2, Hd1|done|done| |done].
  specialize (Hd2 (Hd1 Hs)). apply answered_step in Ha as [->|[y ->]]; [by apply (dated_later ta)|].
  by apply (dated_step ta (c, y)).
Qed.

(** A run that was begun, or has been completed, is no longer running after
    its completion was asked for. *)
Lemma completion_ends (c : Call) (i : CompleteRunInput) (row : RunRow) (s : InventoryDb) :
  s.(runs) !! i.(cr_runId) = Some row → bigint i.(cr_fencingToken) = Some row.(ru_fencing_token) →
  i.(cr_status) ≠ run_running → row.(ru_started_at) ≤ dbNow c →
  ∃ row', (inventory_step (c, Inv_completeRun i) s).(runs) !! i.(cr_runId) = Some row' ∧ same_run row row' ∧ ended row'.
Proof.
  intros Hr Ht Hst Hle. unfold inventory_step, withTransaction. cbn [fst snd].
  destruct (decide (row.(ru_status) = run_running)) as [Hrun|He].
  - rewrite (proj2 (completeRun_Ok c i s (set_runs (insert (cr_runId i) (completed_run c i row)) s))); [|by exists row]. cbn. exists (completed_run c i row).
    rewrite lookup_insert_eq. split; [done|]. split; [unfold same_run; by split_and!|done].
  - destruct (completeRun_ended c i row s Hr He) as [e Hx]. unfold withTransaction in Hx.
    destruct (TerraformStore.completeRun c i s) as [[[] s2]|]; [done|]. cbn. exists row.
    split; [done|]. split; [unfold same_run; by split_and!|done].
Qed.
End served.

(** ** What became of a request *)

Section theorems.
Context `{Platform} `{BigintText}.
Variable passwordOf : string → option string.
Variable untyped_verdict : json → option string → result string GateResult.
Variable configuration : TerraformProxmoxConfiguration.
Variable runner : TerraformRunnerConfiguration.
Variable directClient : option DirectClientConfiguration.
Variable now : Z.

Abbreviation foreign_root := (∀ i, startsWith (workspaceNameFor i) runner.(workingRoot) = false).
Notation served c := (serve passwordOf untyped_verdict configuration runner directClient now c).

(** C14: Every run a request begins comes to an end.  Whatever Terraform,
    Proxmox and the file system answer, and whatever other workers, workflows
    and leases do between its calls, when a request's work is over every run it
    put into the inventory is there, of the instance it was begun for, and is
    no longer running: a poll of it never waits for ever. *)
Theorem every_begun_run_ends (c : tf_call) (h : history) (o : result tf_error unit) (t t' : Z) (s s' : InventoryDb)
    (x : exchange tf_reply) (i : BeginRunInput)
    (Hroot : foreign_root) (Hh : traces (served c) h o) (Hd : dated t s) (Hs : serves t s h t' s')
    (Hin : x ∈ h) (Hb : begins x = Some i) :
  ∃ row, s'.(runs) !! i.(br_runId) = Some row ∧ row.(ru_instance_id) = i.(br_instanceId) ∧ ended row.
Proof.
  destruct (every_run_is_reported _ _ _ _ _ _ c h o Hroot Hh) as [Hrep _].
  apply list_elem_of_split in Hin as (h1 & h2 & ->).
  destruct (Hrep h1 x h2 i eq_refl Hb) as (y & j & Hy & Hj & Hid & Htok & Hst).
  apply list_elem_of_split in Hy as (h3 & h4 & ->).
  apply serves_at in Hs as (ta & sa & ca & sb & _ & _ & _ & Ha & Hdb & Hs); [|done].
  assert (Hrow : ∃ token, bigint i.(br_fencingToken) = Some token
                 ∧ sb.(runs) !! i.(br_runId) = Some (new_run ca i token)).
  { destruct x as [e r]. destruct e; try done. cbn in Hb. destruct r as [[]|]; [|done]. injection Hb as ->.
    unfold answered_by, answer in Ha. injection Ha as Hr ->. unfold inventory_step, withTransaction in *. cbn [fst snd] in *.
    destruct (TerraformStore.beginRun ca i sa) as [[[] s1]|e] eqn:E; [|done].
    apply beginRun_Ok in E as (_ & token & Ht & _ & ->). exists token. split; [done|]. cbn. by rewrite lookup_insert_eq. }
  destruct Hrow as (token & Ht & Hrow).
  apply serves_at in Hs as (tc & sc & cc & sd & Hp & Hdc & Hle & Ha' & _ & Hs); [|done].
  destruct (pr_runs _ _ Hp _ _ Hrow) as (row & Hrow' & Hsame & _).
  assert (Hend : ∃ row', sd.(runs) !! i.(br_runId) = Some row' ∧ same_run row row' ∧ ended row').
  { destruct y as [e r]. cbn in Hj. subst e. unfold answered_by, answer in Ha'. injection Ha' as _ ->.
    rewrite <- Hid in *. apply completion_ends; [done| |done|].
    - rewrite Htok, Ht. f_equal. by destruct Hsame as (_ & _ & _ & _ & -> & _).
    - specialize (Hdc _ _ Hrow'). cbn in Hdc. lia. }
  destruct Hend as (row' & Hr' & Hsame' & He).
  apply serves_progress in Hs as [Hp' _]. destruct (pr_runs _ _ Hp' _ _ Hr') as (row2 & Hr2 & _ & Hfinal).
  exists row2. rewrite (Hfinal He) in *. split_and!; [done| |done].
  destruct Hsame as (E1 & _), Hsame' as (E2 & _). rewrite E2, E1. done.
Qed.

(** C13: A request under a stale token applies nothing.  Once the lease of an
    instance has a greater token than the one a request carries, then whatever
    the request is, whatever it is answered and whoever interleaves, it puts no
    run into the inventory and applies no plan. *)
Theorem stale_request_applies_nothing (c : tf_call) (h : history) (o : result tf_error unit) (t t' : Z)
    (s s' : InventoryDb) (instance : string) (n : Z)
    (Hroot : foreign_root) (Hh : traces (served c) h o)
    (Hinstance : instance_of (tf_context c) = Some instance) (Htoken : fencingTokenFrom (tf_context c) = string_of_Z n)
    (Hs : serves t s h t' s') (Hc : coherent s.(workflow_schema))
    (Hstale : 0 ≤ n < lease_token s.(workflow_schema) instance) :
  (∀ x, x ∈ h → begins x = None) ∧ ∀ d r, @Exchange _ tf_reply (Spawn d apply_arguments) r ∉ h.
Proof.
  assert (Hnone : ∀ x, x ∈ h → begins x = None).
  { intros x Hin. destruct (begins x) as [i|] eqn:Hb; [|done]. exfalso.
    apply list_elem_of_split in Hin as (h1 & h2 & ->).
    destruct x as [e r]. destruct e; try done. cbn in Hb. destruct r as [[]|]; [|done]. injection Hb as ->.
    destruct (served_sound _ _ _ _ _ _ c _ o Hroot Hh) as [_ Hall]. destruct (Hall _ _ _ _ eq_refl) as [Hi Ht].
    rewrite Hinstance in Hi. injection Hi as ->. rewrite Htoken in Ht.
    apply serves_app in Hs as (tm & sm & [H1 _]%serves_progress & (ta & sa & ca & sb & [H2 _]%serves_progress & _ & Ha & _)%serves_cons).
    assert (Hp : progresses s sa) by by etrans.
    destruct (pr_workflow _ _ Hp Hc) as [Hadv _]. pose proof (adv_tokens _ _ Hadv i.(br_instanceId)) as Hle.
    unfold answered_by, answer in Ha. injection Ha as Hr _. unfold withTransaction in Hr.
    destruct (TerraformStore.beginRun ca i sa) as [[[] s1]|e] eqn:E; [|done].
    by apply (stale_token_begins_nothing ca i n sa Ht ltac:(lia) s1) in E. }
  split; [done|]. intros d r Hin. apply list_elem_of_split in Hin as (h1 & h2 & ->).
  destruct (served_sound _ _ _ _ _ _ c _ o Hroot Hh) as [_ Hall].
  destruct (Hall _ _ _ _ eq_refl eq_refl) as (_ & (x & i & Hin & Hb & _) & _).
  rewrite Hnone in Hb; [done|]. apply elem_of_app. by left.
Qed.
End theorems.

(** ** A concrete deployment *)

(** Runs a request against the store, the rest of the outside answering as
    [world] does. *)
Fixpoint run_store `{Platform} `{BigintText} {A : Type} (c : Call) (world : ∀ e, tf_reply e) (m : tf_step A) (s : InventoryDb) :
    history * InventoryDb * result tf_error A :=
  match m with
  | Ret a => ([], s, Ok a)
  | Throw x => ([], s, Err x)
  | Vis e k =>
      match answer c e s with
      | Some (r, s1) => let '(h, s2, o) := run_store c world (k r) s1 in (Exchange e r :: h, s2, o)
      | None => let '(h, s2, o) := run_store c world (k (world e)) s in (Exchange e (world e) :: h, s2, o)
      end
  end.
Lemma run_store_served `{Platform} `{BigintText} {A : Type} (c : Call) (world : ∀ e, tf_reply e) (m : tf_step A) (s : InventoryDb) :
  let '(h, s', o) := run_store c world m s in
  traces m h o ∧ ∀ t, t ≤ dbNow c → ∃ t', serves t s h t' s'.
Proof.
  revert s. induction m as [a|x|e k IH]; intros s; cbn [run_store].
  - split; [done|]. intros t _. exists t. constructor.
  - split; [done|]. intros t _. exists t. constructor.
  - destruct (answer c e s) as [[r s1]|] eqn:E.
    + specialize (IH r s1). destruct (run_store c world (k r) s1) as [[h s2] o]. destruct IH as [Ht Hs].
      split; [by exists r, h|]. intros t Hle. destruct (Hs (dbNow c) ltac:(lia)) as [t' ?]. exists t'.
      eapply serves_answer; [done| |done]. unfold answered_by. by rewrite E.
    + specialize (IH (world e) s). destruct (run_store c world (k (world e)) s) as [[h s2] o]. destruct IH as [Ht Hs].
      split; [by exists (world e), h|]. intros t Hle. destruct (Hs (dbNow c) ltac:(lia)) as [t' ?]. exists t'.
      eapply serves_answer; [done| |done]. unfold answered_by. by rewrite E.
Qed.

Definition plain_bigint : BigintText := {| bigint := Number_integer |}.
(** A store in which the lease of "i1" has the given token. *)
Definition leased (token : Z) : InventoryDb :=
  {| runs := ∅; workspaces := ∅;
     workflow_schema :=
       {| workflows := ∅;
          instance_leases := {["i1" := {| l_owner_id := "w2"; l_fencing_token := token; l_leased_until := 60000 |}]};
          command_receipts := ∅; outbox := []; audit_entries := []; dead_letters := ∅; replay_requests := ∅;
          poison_records := ∅ |};
     control_instances := ["i1"] |}.
(** The sample purge, under token 7, against such a store. *)
Definition purged_over (token : Z) : history * InventoryDb * result tf_error unit :=
  run_store (H := sample_platform) (H0 := plain_bigint) (sample_call 2) (healthy_outside 910007)
    (sample_serve (sample_purge "910007")) (leased token).
Lemma purged_over_served (token : Z) :
  ∃ t', traces (sample_serve (sample_purge "910007")) (fst (fst (purged_over token))) (snd (purged_over token))
  ∧ serves (H := sample_platform) (H0 := plain_bigint) 0 (leased token) (fst (fst (purged_over token))) t' (snd (fst (purged_over token))).
Proof.
  pose proof (run_store_served (H := sample_platform) (H0 := plain_bigint) (sample_call 2) (healthy_outside 910007)
    (sample_serve (sample_purge "910007")) (leased token)) as Hs.
  fold (purged_over token) in Hs. destruct (purged_over token) as [[h s] o]. destruct Hs as [Ht Hs].
  destruct (Hs 0 ltac:(cbn; lia)) as [t' Hs']. exists t'. split; [exact Ht|exact Hs'].
Qed.
(** The run of that purge. *)
Definition purge_run : BeginRunInput :=
  {| br_runId := "u1"; br_instanceId := "i1"; br_operationId := "o2"; br_workspaceName := workspaceNameFor "i1";
     br_command := command_apply; br_fencingToken := "7"; br_executorReference := None |}.

Lemma every_begun_run_ends_witness :
  @Exchange _ tf_reply (BeginRun purge_run) (Done tt) ∈ fst (fst (purged_over 7))
  ∧ ∃ row, (snd (fst (purged_over 7))).(runs) !! "u1" = Some row ∧ row.(ru_instance_id) = "i1" ∧ ended row.
Proof.
  assert (Hin : @Exchange _ tf_reply (BeginRun purge_run) (Done tt) ∈ fst (fst (purged_over 7))).
  { apply (list_elem_of_lookup_2 _ 23). vm_compute. reflexivity. }
  split; [exact Hin|]. destruct (purged_over_served 7) as (t' & Ht & Hs).
  exact (every_begun_run_ends (H := sample_platform) (H0 := plain_bigint) no_password no_verdict sample_configuration
    sample_runner (Some sample_client) 0 (sample_purge "910007") _ _ 0 t' (leased 7) _ _ purge_run sample_root Ht
    (map_Forall_empty _) Hs Hin eq_refl).
Defined.

Lemma stale_request_applies_nothing_witness :
  lease_token (leased 9).(workflow_schema) "i1" = 9
  ∧ ∀ d r, @Exchange _ tf_reply (Spawn d apply_arguments) r ∉ fst (fst (purged_over 9)).
Proof.
  split; [reflexivity|]. destruct (purged_over_served 9) as (t' & Ht & Hs).
  refine (proj2 (stale_request_applies_nothing (H := sample_platform) (H0 := plain_bigint) no_password no_verdict
    sample_configuration sample_runner (Some sample_client) 0 (sample_purge "910007") _ _ 0 t' (leased 9) _ "i1" 7
    sample_root Ht eq_refl eq_refl Hs _ _)).
  - intros op row Hrow. discriminate Hrow.
  - change (0 ≤ 7 < 9). lia.
Defined.
