(* ===== verification/ProxmoxProvider.v ===== *)
(** * The direct Proxmox provider

    [proxmox-provider.ts]: the provider port over the Proxmox API itself.  A
    method is a program over HTTP requests; there is no background work.  What
    Proxmox answers is read where the source reads it: a member that the code
    calls a string method on throws when it is of another type, a task
    identifier or a machine number that is not of its declared type counts as
    wrong or missing.  Identifiers of evidence, the wording of thrown errors
    and the time of an observation that is no part of a decision are left
    out. *)
From S2P Require Import Prelude JsText Json SshKey Domain PageCursor Ipv4 WorkflowStage Events EventValidation Platform Saga ProviderPort JsonParse PlanGate Ownership Redaction TerraformRunner DirectClient TerraformProvider.
From Stdlib Require Import ZArith Lia Bool Ascii String.
From stdpp Require Import base decidable list strings.
Open Scope string_scope.
Open Scope Z_scope.
Open Scope prog_scope.

(** [ipaddr.js]: parsed addresses, their kind, and [match]. *)
Class IpAddresses : Type := {
  ip_address : Type;
  ip_parse : string → option ip_address;
  ip_parseCIDR : string → option (ip_address * Z);
  ip_is_v4 : ip_address → bool;
  ip_match : ip_address → ip_address → Z → bool;
}.

Record ProxmoxProviderConfiguration : Set := {
  px_endpoint : string;
  px_providerProfileId : string;
  px_node : string;
  px_templateVmid : Z;
  px_imageId : string;
  px_storage : string;
  px_bridge : string;
  px_networkId : string;
  px_ipv4Cidr : string;
  px_ipv4Gateway : string;
  px_resourceIdMinimum : Z;
  px_resourceIdMaximum : Z;
  px_projectId : string;
  px_environment : string;
  px_managedBy : string;
}.

Section constructor.
Context `{IpAddresses}.
(** [new URL(text).protocol]; [None] when the text is not a URL. *)
Variable protocolOf : string → option string.

Definition network_contains_gateway (c : ProxmoxProviderConfiguration) : bool :=
  match ip_parseCIDR c.(px_ipv4Cidr), ip_parse c.(px_ipv4Gateway) with
  | Some (range, prefixLength), Some gateway =>
      ip_is_v4 range && ip_is_v4 gateway && ip_match gateway range prefixLength
  | _, _ => false
  end.
(** The constructor's refusals. *)
Definition new_ProxmoxProvider (c : ProxmoxProviderConfiguration) : result string ProxmoxProviderConfiguration :=
  match protocolOf c.(px_endpoint) with
  | None => Err "Invalid URL"
  | Some protocol =>
      ensure? String.eqb protocol "https:" else "Proxmox endpoint must use HTTPS.";
      ensure? isSafeInteger c.(px_resourceIdMinimum) && isSafeInteger c.(px_resourceIdMaximum)
              && (910000 <=? c.(px_resourceIdMinimum)) && (c.(px_resourceIdMaximum) <=? 910099)
              && (c.(px_resourceIdMinimum) <=? c.(px_resourceIdMaximum))
        else "Proxmox resource IDs must stay inside the reserved 910000-910099 range.";
      ensure? network_contains_gateway c else "Proxmox IPv4 allowlist configuration is invalid.";
      Ok c
  end.
End constructor.

(** ** Reading what Proxmox answers *)

Definition type_error {A : Type} : tf_step A := Throw (OrdinaryError "TypeError").
(** [value.name]; a member of [null] throws. *)
Definition member_of (name : string) (v : json) : tf_step json :=
  match v with JNull | JUndefined => type_error | _ => Ret (json_member name v) end.
(** A value a string method is called on with [?.]. *)
Definition optional_text (v : json) : tf_step (option string) :=
  match v with JUndefined | JNull => Ret None | JStr s => Ret (Some s) | _ => type_error end.
(** A value a string method is called on after a test of its truth. *)
Definition truthy_text (v : json) : tf_step (option string) :=
  if negb (js_truthy v) then Ret None else match v with JStr s => Ret (Some s) | _ => type_error end.
(** [for (const entry of value)]: the characters of a text have no members. *)
Definition iterated (v : json) : tf_step (list json) :=
  match v with JArr l => Ret l | JStr s => Ret (map (λ c, JStr (String c "")) (chars s)) | _ => type_error end.

(** The machine number of a listed entry. *)
Definition summary_vmid (entry : json) : tf_step (option Z) :=
  let^ v := member_of "vmid" entry in
  Ret (match v with JNum n => if n =? 0 then None else Some n | _ => None end).
Fixpoint summary_vmids (entries : list json) : tf_step (list Z) :=
  match entries with
  | [] => Ret []
  | entry :: entries =>
      let^ v := summary_vmid entry in
      let^ rest := summary_vmids entries in
      Ret (match v with Some n => n :: rest | None => rest end)
  end.

(** *** The size of a disk *)

(** GiB per unit, as numerator and denominator. *)
Definition unit_gib (c : ascii) : option (Z * Z) :=
  let c := lower_char c in
  if is_char "k" c then Some (1, 1048576) else if is_char "m" c then Some (1, 1024)
  else if is_char "g" c then Some (1, 1) else if is_char "t" c then Some (1024, 1) else None.
(** A part [size=<decimal><unit>] between two commas, rounded up; the
    product of a size of at most fifteen digits is exact. *)
Definition size_of (part : string) : option Z :=
  let l := chars part in
  if negb (starts (chars "size=") (map lower_char l)) then None
  else
    let '(int, rest) := span is_digit (drop 5 l) in
    let fraction :=
      match rest with
      | d :: r => if is_char "." d then match span is_digit r with ([], _) => None | p => Some p end else Some ([], rest)
      | [] => Some ([], rest)
      end in
    match int, fraction with
    | _ :: _, Some (frac, [u]) =>
        '(n, d) ← unit_gib u;
        let below := d * 10 ^ Z.of_nat (List.length frac) in
        Some ((digits_value 10 (int ++ frac)%list * n + below - 1) / below)
    | _, _ => None
    end.
Definition disk_text (config : json) : string :=
  js_String (nullish (nullish (nullish (json_member "scsi0" config) (json_member "virtio0" config))
                              (json_member "sata0" config)) (JStr "")).
Definition first_size (spec : string) : option Z := List.hd_error (omap size_of (split_on "," spec)).
Definition diskGiB (config : json) : option Z := first_size (disk_text config).

(** ** Requests and answers *)

Record ConfigurationNetwork : Set := {
  cn_networkId : option string;
  cn_ipv4Address : option string;
  cn_ipv4PrefixLength : option Z;
  cn_ipv4Gateway : option string;
  cn_dnsServers : option (list string);
}.
Record ConfigurationRequest : Set := {
  cf_context : option ProviderCallContext;
  cf_providerResourceId : option string;
  cf_ownershipMarkers : option OwnershipMarkers;
  cf_hostname : option string;
  cf_resources : option RequestResources;
  cf_network : option ConfigurationNetwork;
  cf_sshPublicKeys : option (list string);
}.
Record SnapshotRow : Set := { sn_name : string; sn_description : option string; sn_createdAt : Z }.

Definition locked : ProviderMutationResult :=
  failure FAILURE_CATEGORY_TRANSIENT "PROVIDER_RESOURCE_LOCKED"
    "Another provider operation currently holds this instance.".

(** [`form`]: [String(value)] of every entry. *)
Abbreviation form := (list (string * string)) (only parsing).

(** [request]: the [data] of a successful answer. *)
Definition request (method : HttpMethod) (path : string) (body : option form) : tf_step json :=
  Vis (Http {| hq_method := method; hq_path := path; hq_body := body |}) (λ r : http_reply,
    match r with
    | NotAnswered code => Throw (TransportError (transportError code None) None)
    | Answered status body =>
        if negb (response_ok status) then Throw (http_error status)
        else
          match body with
          | None => throw_refused
          | Some (JObj fields) =>
              if existsb (λ p, String.eqb (fst p) "data") fields then Ret (field "data" fields) else throw_refused
          | Some JNull | Some JUndefined => Throw (OrdinaryError "Cannot convert undefined or null to object")
          | Some _ => throw_refused
          end
    end).

Section provider.
Context `{Platform, Base64url, IpAddresses}.
Variable configuration : ProxmoxProviderConfiguration.
(** The reading of the process clock during a call. *)
Variable now : Z.

(** *** The allowlist *)

Definition assertDirectProfile (profileId : option string) : tf_step unit :=
  if bool_decide (profileId = Some configuration.(px_providerProfileId)) then Ret tt else throw_refused.
Definition assertContext (context : option ProviderCallContext) : tf_step ProviderCallContext :=
  let^ c := some_or_refuse context in
  assertDirectProfile (Some c.(ctx_providerProfileId)) ;^
  (if String.eqb c.(ctx_projectId) configuration.(px_projectId) then Ret tt else throw_refused) ;^
  lift (required (Some c.(requestId))) ;^
  lift (required (Some c.(ctx_operationId))) ;^
  lift (required (Some c.(ctx_correlationId))) ;^
  lift (required (Some c.(ctx_instanceId))) ;^
  Ret c.
Definition assertOwnership (markers : option OwnershipMarkers) (context : ProviderCallContext) : tf_step OwnershipMarkers :=
  let^ m := some_or_refuse markers in
  if String.eqb m.(managedBy) configuration.(px_managedBy) && String.eqb m.(environment) configuration.(px_environment)
     && String.eqb m.(marker_projectId) context.(ctx_projectId)
     && String.eqb m.(marker_instanceId) context.(ctx_instanceId)
     && String.eqb m.(marker_createOperationId) context.(ctx_operationId)
  then Ret m else throw_refused.
(** [Number(undefined)] is not an integer. *)
Definition assertVmid (value : option string) : tf_step Z :=
  some_or_refuse
    (vmid ← value ≫= Number_integer;
     if isSafeInteger vmid && (configuration.(px_resourceIdMinimum) <=? vmid) && (vmid <=? configuration.(px_resourceIdMaximum))
     then Some vmid else None).
Definition assertSnapshotName (value : option string) : tf_step string :=
  let^ name := lift (required value) in
  if negb (snapshot_name_pattern name) || String.eqb name "current" then throw_refused else Ret name.

Definition integer_or_zero (t : option string) : number := match t with Some t => Number_integer t | None => Some 0 end.
Definition integer_within (minimum maximum : Z) (n : number) : bool :=
  match n with Some n => (minimum <=? n) && (n <=? maximum) | None => false end.
(** The bounds [assertResources] and [resizeInstance] share. *)
Definition resources_within (r : option RequestResources) : bool :=
  integer_within 1 MAXIMUM_CPU_COUNT (Some (default 0 (r ≫= rs_cpuCount)))
  && integer_within MINIMUM_MEMORY_MIB MAXIMUM_MEMORY_MIB (integer_or_zero (r ≫= rs_memoryMib))
  && integer_within MINIMUM_DISK_GIB MAXIMUM_DISK_GIB (integer_or_zero (r ≫= rs_diskGib)).
Definition assertResources (r : RequestResources) (current : json) : tf_step unit :=
  if resources_within (Some r) && bool_decide (diskGiB current = integer_or_zero r.(rs_diskGib))
  then Ret tt else throw_refused.
Definition assertNetwork (n : ConfigurationNetwork) : tf_step unit :=
  let^ address := lift (required n.(cn_ipv4Address)) in
  match ip_parseCIDR configuration.(px_ipv4Cidr), ip_parse address with
  | Some (range, prefixLength), Some parsed =>
      if bool_decide (n.(cn_networkId) = Some configuration.(px_networkId))
         && bool_decide (n.(cn_ipv4Gateway) = Some configuration.(px_ipv4Gateway))
         && bool_decide (n.(cn_ipv4PrefixLength) = Some prefixLength)
         && ip_is_v4 parsed && ip_is_v4 range && ip_match parsed range prefixLength
         && (1 <=? Z.of_nat (List.length (default [] n.(cn_dnsServers))))
      then Ret tt else throw_refused
  | _, _ => throw_refused
  end.

(** *** Paths and tasks *)

Definition node_path : string := "/nodes/" ++ encodeURIComponent configuration.(px_node).
(** [vmid] is [NaN] when no number could be read from a hash. *)
Definition machine_path (vmid : number) : string := node_path ++ "/qemu/" ++ number_text vmid.
Definition vm (vmid : Z) : string := machine_path (Some vmid).

Definition encodeTask (upid : string) : string := configuration.(px_node) ++ ":" ++ toBase64url upid.
Definition decodeTask (reference : string) : option (string * string) :=
  match span (λ c, negb (is_char ":" c)) (chars reference) with
  | (c :: node, _ :: encoded) =>
      let upid := fromBase64url (of_chars encoded) in
      if startsWith upid "UPID:" then Some (of_chars (c :: node), upid) else None
  | _ => None
  end.
Definition accepted (vmid : number) (upid : string) : ProviderMutationResult :=
  TerraformProvider.accepted (number_text vmid) (encodeTask upid).
Definition succeeded (vmid : number) : ProviderMutationResult := TerraformProvider.succeeded (number_text vmid).
(** [required(upid)]. *)
Definition accepted_task (vmid : number) (data : json) : tf_step ProviderMutationResult :=
  let^ upid := truthy_text data in
  let^ upid := lift (required upid) in
  Ret (accepted vmid upid).
(** An empty answer is synchronous success. *)
Definition accepted_or_applied (vmid : number) (data : json) : tf_step ProviderMutationResult :=
  let^ upid := truthy_text data in
  Ret (match upid with Some upid => accepted vmid upid | None => succeeded vmid end).

(** *** Reads *)

Definition listVms : tf_step json := request GET (node_path ++ "/qemu") None.
Definition currentStatus (vmid : Z) : tf_step json := request GET (vm vmid ++ "/status/current") None.
(** A missing machine is [null] where that is allowed. *)
Definition vmConfig (vmid : number) (allowMissing : bool) : tf_step json :=
  try_catch (request GET (machine_path vmid ++ "/config") None)
    (λ e, match e with
          | TransportError _ (Some status) => if allowMissing && (status =? 404) then Ret JNull else Throw e
          | _ => Throw e
          end).
(** [markersMatch(parseOwnership(config?.description), markers)]. *)
Definition carries_markers (config : json) (markers : OwnershipMarkers) : tf_step bool :=
  let^ description := optional_text (json_member "description" config) in
  Ret (markersMatch (parseOwnership description) markers).
Definition requireOwnedConfig (vmid : Z) (expected : OwnershipMarkers) : tf_step json :=
  let^ config := vmConfig (Some vmid) true in
  if negb (js_truthy config) then throw_refused
  else
    let^ owned := carries_markers config expected in
    if owned then Ret config else throw_refused.
(** The machine of a mutation: inside the allowlist, and proven ours. *)
Definition owned_machine (request : MutationRequest) : tf_step (Z * OwnershipMarkers * json) :=
  let^ context := assertContext request.(mr_context) in
  let^ ownership := assertOwnership request.(mr_expectedOwnershipMarkers) context in
  let^ vmid := assertVmid request.(mr_providerResourceId) in
  let^ config := requireOwnedConfig vmid ownership in
  Ret (vmid, ownership, config).

Fixpoint address_unused (address : string) (currentVmid : Z) (entries : list json) : tf_step unit :=
  match entries with
  | [] => Ret tt
  | entry :: entries =>
      let^ v := summary_vmid entry in
      match v with
      | None => address_unused address currentVmid entries
      | Some vmid =>
          if vmid =? currentVmid then address_unused address currentVmid entries
          else
            let^ config := vmConfig (Some vmid) false in
            let needle := "ip=" ++ address ++ "/" in
            let^ used := match json_member "ipconfig0" config with
                         | JUndefined | JNull => Ret false
                         | JStr s => Ret (contains s needle)
                         | JArr l => Ret (existsb (λ x, is_text x needle) l)
                         | _ => type_error
                         end in
            if used : bool then throw_refused else address_unused address currentVmid entries
      end
  end.
Definition assertIpv4Available (address : string) (currentVmid : Z) : tf_step unit :=
  lift (required (Some address)) ;^
  let^ listed := listVms in
  let^ entries := iterated listed in
  address_unused address currentVmid entries.

(** *** The number of a machine *)

Definition interval_size : Z := configuration.(px_resourceIdMaximum) - configuration.(px_resourceIdMinimum) + 1.
Definition probed (seed : Z) (offset : nat) : Z :=
  configuration.(px_resourceIdMinimum) + (seed + Z.of_nat offset) mod interval_size.
Fixpoint probe (occupied : list Z) (markers : OwnershipMarkers) (seed : Z) (offsets : list nat) : tf_step number :=
  match offsets with
  | [] => throw_refused
  | offset :: offsets =>
      let vmid := probed seed offset in
      if negb (existsb (Z.eqb vmid) occupied) then Ret (Some vmid)
      else
        let^ config := vmConfig (Some vmid) false in
        let^ owned := carries_markers config markers in
        if owned : bool then Ret (Some vmid) else probe occupied markers seed offsets
  end.
Definition findOwnedOrFreeVmid (markers : OwnershipMarkers) : tf_step number :=
  let^ listed := listVms in
  let^ entries := (match listed with JArr l => Ret l | _ => type_error end) in
  let^ occupied := summary_vmids entries in
  let^ instanceId := lift (required (Some markers.(marker_instanceId))) in
  match digest_number (sha256 instanceId) with
  | None => Ret None  (* no number is occupied under [NaN] *)
  | Some seed => probe occupied markers seed (seq 0 (Z.to_nat interval_size))
  end.
Fixpoint owned_among (markers : OwnershipMarkers) (entries : list json) : tf_step (option Z) :=
  match entries with
  | [] => Ret None
  | entry :: entries =>
      let^ v := summary_vmid entry in
      match v with
      | None => owned_among markers entries
      | Some vmid =>
          if (vmid <? configuration.(px_resourceIdMinimum)) || (configuration.(px_resourceIdMaximum) <? vmid)
          then owned_among markers entries
          else
            let^ config := vmConfig (Some vmid) false in
            let^ owned := carries_markers config markers in
            if owned : bool then Ret (Some vmid) else owned_among markers entries
      end
  end.
Definition findOwnedVmid (markers : OwnershipMarkers) : tf_step (option Z) :=
  let^ listed := listVms in
  let^ entries := iterated listed in
  owned_among markers entries.

(** *** Creating and configuring *)

Definition clone_path : string := node_path ++ "/qemu/" ++ string_of_Z configuration.(px_templateVmid) ++ "/clone".
Definition submitCreateInstance (r : SubmitCreateRequest) : tf_step ProviderMutationResult :=
  let^ context := assertContext r.(sc_context) in
  let^ ownership := assertOwnership r.(sc_ownershipMarkers) context in
  (if bool_decide (r.(sc_imageId) = Some configuration.(px_imageId)) then Ret tt else throw_refused) ;^
  (if hostnamePattern (default "" r.(sc_hostname)) then Ret tt else throw_refused) ;^
  let^ vmid := findOwnedOrFreeVmid ownership in
  let^ existing := vmConfig vmid true in
  if js_truthy existing then Ret (succeeded vmid)
  else
    let^ hostname := lift (required r.(sc_hostname)) in
    let^ upid := request POST clone_path
      (Some [("newid", number_text vmid); ("name", hostname); ("full", "1"); ("storage", configuration.(px_storage));
             ("description", ownershipDescription ownership)]) in
    accepted_task vmid upid.

(** [net0] with its bridge replaced. *)
Definition rebridged (net0 : string) : string :=
  join_with "," (List.filter (λ part, negb (startsWith part "bridge=")) (split_on "," net0)
                 ++ [("bridge=" ++ configuration.(px_bridge))%string])%list.
Definition applyInstanceConfiguration (r : ConfigurationRequest) : tf_step ProviderMutationResult :=
  let^ owned := owned_machine
    {| mr_context := r.(cf_context); mr_providerResourceId := r.(cf_providerResourceId);
       mr_expectedOwnershipMarkers := r.(cf_ownershipMarkers) |} in
  let '(vmid, ownership, current) := owned in
  match r.(cf_network), r.(cf_resources) with
  | Some network, Some resources =>
      assertResources resources current ;^
      assertNetwork network ;^
      assertIpv4Available (default "" network.(cn_ipv4Address)) vmid ;^
      let^ net0 := truthy_text (json_member "net0" current) in
      match net0 with
      | None => Ret (failure FAILURE_CATEGORY_PERMANENT "NET0_MISSING" "The allowlisted template did not provide net0.")
      | Some net0 =>
          let^ hostname := lift (required r.(cf_hostname)) in
          let^ address := lift (required network.(cn_ipv4Address)) in
          let^ gateway := lift (required network.(cn_ipv4Gateway)) in
          let cores := string_of_Z (default 1 resources.(rs_cpuCount)) in
          let values :=
            [("name", hostname); ("cores", cores); ("sockets", "1"); ("vcpus", cores);
             ("memory", default "512" resources.(rs_memoryMib)); ("net0", rebridged net0);
             ("ipconfig0", "ip=" ++ address ++ "/" ++ string_of_Z (default 0 network.(cn_ipv4PrefixLength)) ++ ",gw=" ++ gateway);
             ("nameserver", String.concat " " (default [] network.(cn_dnsServers)));
             ("description", ownershipDescription ownership)] in
          let keys := match default [] r.(cf_sshPublicKeys) with
                      | [] => []
                      | keys => [("sshkeys", String.concat (String newline "") keys)]
                      end in
          let^ upid := request POST (vm vmid ++ "/config") (Some (values ++ keys)%list) in
          accepted_or_applied (Some vmid) upid
      end
  | _, _ =>
      Ret (failure FAILURE_CATEGORY_VALIDATION "CONFIGURATION_REQUIRED" "Resources and network configuration are required.")
  end.

(** *** Tasks *)

Definition getTask (context : option ProviderCallContext) (providerTaskReference : option string) :
    tf_step GetTaskResponse :=
  assertContext context ;^
  let^ reference := lift (required providerTaskReference) in
  let^ found := some_or_refuse (decodeTask reference) in
  let '(node, upid) := found in
  (if String.eqb node configuration.(px_node) then Ret tt else throw_refused) ;^
  let^ t := request GET ("/nodes/" ++ encodeURIComponent node ++ "/tasks/" ++ encodeURIComponent upid ++ "/status") None in
  let^ status := member_of "status" t in
  if negb (is_text status "stopped") then Ret (task TASK_RUNNING)
  else if is_text (json_member "exitstatus" t) "OK" then Ret (task TASK_SUCCEEDED)
  else Ret (task_failed TASK_FAILED FAILURE_CATEGORY_PERMANENT "PROXMOX_TASK_FAILED" "The provider task failed.").

(** *** Power *)

Definition power (vmid : Z) (action : string) (extraFields : form) : tf_step ProviderMutationResult :=
  let^ upid := request POST (vm vmid ++ "/status/" ++ action) (Some extraFields) in
  accepted_task (Some vmid) upid.
Definition startInstance (mutation : option MutationRequest) : tf_step ProviderMutationResult :=
  let^ found := owned_machine (default no_request mutation) in
  let '(vmid, _, _) := found in
  let^ current := currentStatus vmid in
  let^ status := member_of "status" current in
  if is_text status "running" then Ret (succeeded (Some vmid)) else power vmid "start" [].
Definition powerTransition (mutation : option MutationRequest) (action : string) (alreadyInState : option string)
    (extraFields : form) : tf_step ProviderMutationResult :=
  let^ found := owned_machine (default no_request mutation) in
  let '(vmid, _, _) := found in
  let^ current := currentStatus vmid in
  let^ lock := member_of "lock" current in
  if js_truthy lock then Ret locked
  else if match alreadyInState with Some s => is_text (json_member "status" current) s | None => false end
       then Ret (succeeded (Some vmid))
  else power vmid action extraFields.
Definition shutdownInstance (mutation : option MutationRequest) : tf_step ProviderMutationResult :=
  powerTransition mutation "shutdown" (Some "stopped") [].
Definition stopInstance (mutation : option MutationRequest) : tf_step ProviderMutationResult :=
  powerTransition mutation "stop" (Some "stopped") [("overrule-shutdown", "1")].
Definition rebootInstance (mutation : option MutationRequest) : tf_step ProviderMutationResult :=
  powerTransition mutation "reboot" None [].

(** *** Resizing *)

(** [value && !value.includes('media=cdrom')], the first of the three buses. *)
Fixpoint first_disk (config : json) (names : list string) : tf_step string :=
  match names with
  | [] => throw_refused
  | key :: names =>
      let^ value := truthy_text (json_member key config) in
      match value with
      | Some value => if contains value "media=cdrom" then first_disk config names else Ret key
      | None => first_disk config names
      end
  end.
Definition primaryDiskKey (config : json) : tf_step string := first_disk config ["scsi0"; "virtio0"; "sata0"].
Definition resizeInstance (mutation : option MutationRequest) (target : option RequestResources) :
    tf_step ProviderMutationResult :=
  let^ found := owned_machine (default no_request mutation) in
  let '(vmid, _, config) := found in
  let cpu := default 0 (target ≫= rs_cpuCount) in
  let memory := default 0 (integer_or_zero (target ≫= rs_memoryMib)) in
  let disk := default 0 (integer_or_zero (target ≫= rs_diskGib)) in
  (if resources_within target then Ret tt else throw_refused) ;^
  let currentDisk := default 0 (diskGiB config) in
  (if disk <? currentDisk then throw_refused else Ret tt) ;^
  let^ current := currentStatus vmid in
  let^ lock := member_of "lock" current in
  if js_truthy lock then Ret locked
  else
    let^ configTask := request POST (vm vmid ++ "/config")
      (Some [("cores", string_of_Z cpu); ("sockets", "1"); ("vcpus", string_of_Z cpu); ("memory", string_of_Z memory)]) in
    if currentDisk <? disk then
      let^ key := primaryDiskKey config in
      let^ growTask := request PUT (vm vmid ++ "/resize") (Some [("disk", key); ("size", string_of_Z disk ++ "G")]) in
      let^ upid := truthy_text growTask in
      match upid with
      | Some upid => Ret (accepted (Some vmid) upid)
      | None => accepted_or_applied (Some vmid) configTask
      end
    else accepted_or_applied (Some vmid) configTask.

(** *** Snapshots *)

Definition snapshots_path (vmid : Z) : string := vm vmid ++ "/snapshot".
(** [new Date(seconds * 1000).toISOString()], which throws outside its range. *)
Definition date_of_seconds (v : json) : tf_step Z :=
  match js_Number (nullish v (JNum 0)) with
  | Some s => if Z.abs (s * 1000) <=? 8640000000000000 then Ret (s * 1000) else Throw (OrdinaryError "Invalid time value")
  | None => Throw (OrdinaryError "Invalid time value")
  end.
Fixpoint snapshot_rows (entries : list json) : tf_step (list SnapshotRow) :=
  match entries with
  | [] => Ret []
  | entry :: entries =>
      let^ name := member_of "name" entry in
      let^ name := truthy_text name in
      match name with
      | Some name =>
          if String.eqb name "current" then snapshot_rows entries
          else
            let^ description := truthy_text (json_member "description" entry) in
            let^ created := date_of_seconds (json_member "snaptime" entry) in
            let^ rest := snapshot_rows entries in
            Ret ({| sn_name := name; sn_description := description; sn_createdAt := created |} :: rest)
      | None => snapshot_rows entries
      end
  end.
Definition listSnapshots (r : MutationRequest) : tf_step (list SnapshotRow) :=
  let^ found := owned_machine r in
  let '(vmid, _, _) := found in
  let^ entries := request GET (snapshots_path vmid) None in
  match entries with
  | JNull | JUndefined => Ret []
  | JArr l => snapshot_rows l
  | _ => type_error
  end.
Definition prepareSnapshotMutation (mutation : option MutationRequest) : tf_step Z :=
  let^ found := owned_machine (default no_request mutation) in
  let '(vmid, _, _) := found in
  let^ current := currentStatus vmid in
  let^ lock := member_of "lock" current in
  if js_truthy lock then Throw (TransportError (transportError unavailable (Some true)) None) else Ret vmid.
Definition createSnapshot (mutation : option MutationRequest) (name description : option string) :
    tf_step ProviderMutationResult :=
  let^ vmid := prepareSnapshotMutation mutation in
  let^ name := lift (required name) in
  let^ upid := request POST (snapshots_path vmid)
    (Some ([("snapname", name); ("vmstate", "0")]
           ++ match present description with Some d => [("description", d)] | None => [] end)%list) in
  accepted_task (Some vmid) upid.
Definition rollbackSnapshot (mutation : option MutationRequest) (reference : option string) :
    tf_step ProviderMutationResult :=
  let^ vmid := prepareSnapshotMutation mutation in
  let^ name := assertSnapshotName reference in
  let^ upid := request POST (snapshots_path vmid ++ "/" ++ encodeURIComponent name ++ "/rollback") (Some [("start", "1")]) in
  accepted_task (Some vmid) upid.
Definition deleteSnapshot (mutation : option MutationRequest) (reference : option string) :
    tf_step ProviderMutationResult :=
  let^ vmid := prepareSnapshotMutation mutation in
  let^ name := assertSnapshotName reference in
  let^ upid := request DELETE (snapshots_path vmid ++ "/" ++ encodeURIComponent name) None in
  accepted_task (Some vmid) upid.

(** *** Retention and purge *)

Definition markInstanceRetained (mutation : option MutationRequest) (retentionDeadline : option string) :
    tf_step ProviderMutationResult :=
  let^ found := owned_machine (default no_request mutation) in
  let '(vmid, ownership, _) := found in
  let^ current := currentStatus vmid in
  let^ lock := member_of "lock" current in
  if js_truthy lock then Ret locked
  else
    let^ upid := request POST (vm vmid ++ "/config")
      (Some [("description", describedWithTrailer ownership RETENTION_TRAILER_KEY (default "" retentionDeadline));
             ("onboot", "0"); ("delete", "ipconfig0")]) in
    accepted_or_applied (Some vmid) upid.
Definition destroy_path (vmid : Z) : string := vm vmid ++ "?purge=1&destroy-unreferenced-disks=1".
Definition purgeInstance (mutation : option MutationRequest) : tf_step ProviderMutationResult :=
  let^ found := owned_machine (default no_request mutation) in
  let '(vmid, _, _) := found in
  let^ current := currentStatus vmid in
  let^ lock := member_of "lock" current in
  if js_truthy lock then Ret locked
  else
    (if is_text (json_member "status" current) "running"
     then request POST (vm vmid ++ "/status/stop") (Some [("overrule-shutdown", "1")]) else Ret JNull) ;^
    let^ upid := request DELETE (destroy_path vmid) None in
    accepted_or_applied (Some vmid) upid.

(** *** Observing *)

Definition absentObservation : InstanceObservation := absent now.
Definition observation_of (vmid : Z) (config status : json) (actual : option ParsedMarkers) (expected : OwnershipMarkers) :
    InstanceObservation :=
  {| io_exists := Some true;
     io_powerState := Some (if is_text status "running" then OBSERVED_RUNNING
                            else if is_text status "stopped" then OBSERVED_STOPPED else OBSERVED_UNKNOWN);
     io_resources := Some {| pr_cpuCount := js_Number (nullish (json_member "cores" config) (JNum 0));
                             pr_memoryMib := Number_integer (js_String (nullish (json_member "memory" config) (JNum 0)));
                             pr_diskGib := diskGiB config |};
     io_ownership := Some {| ownership_complete := Some (bool_decide (is_Some actual));
                             ownership_match := Some (markersMatch actual expected) |};
     io_observedAt := Some now |}.
Definition observeInstance (r : MutationRequest) : tf_step InstanceObservation :=
  let^ context := assertContext r.(mr_context) in
  let^ expected := assertOwnership r.(mr_expectedOwnershipMarkers) context in
  let^ found := (match present r.(mr_providerResourceId) with
                 | Some id => let^ vmid := assertVmid (Some id) in Ret (Some vmid)
                 | None => findOwnedVmid expected
                 end) in
  match found with
  | None => Ret absentObservation
  | Some vmid =>
      let^ config := vmConfig (Some vmid) true in
      if negb (js_truthy config) then Ret absentObservation
      else
        let^ current := currentStatus vmid in
        let^ description := optional_text (json_member "description" config) in
        let^ status := member_of "status" current in
        Ret (observation_of vmid config status (parseOwnership description) expected)
  end.

(** *** Capabilities and validation *)

Definition getCapabilities (providerProfileId : option string) : tf_step Capabilities :=
  assertDirectProfile providerProfileId ;^
  Ret {| ca_snapshots := true; ca_maximumCpuCount := MAXIMUM_CPU_COUNT;
         ca_maximumMemoryMib := string_of_Z MAXIMUM_MEMORY_MIB; ca_maximumDiskGib := string_of_Z MAXIMUM_DISK_GIB;
         ca_maximumSnapshots := MAXIMUM_SNAPSHOTS |}.
(** [typeof data === 'object' && data !== null]. *)
Definition is_object (v : json) : bool := match v with JObj _ | JArr _ => true | _ => false end.
Definition has_bridge (v : json) : bool :=
  match v with JArr l => existsb (λ e, is_text (json_member "iface" e) configuration.(px_bridge)) l | _ => false end.
Definition check (name path : string) (predicate : json → bool) : tf_step ValidationCheck :=
  try_catch
    (let^ data := request GET path None in
     Ret {| vc_name := name; vc_passed := predicate data;
            vc_safeSummary := if predicate data then name ++ " is allowlisted and available." else name ++ " did not match." |})
    (λ _, Ret {| vc_name := name; vc_passed := false; vc_safeSummary := name ++ " could not be verified." |}).
Definition validateProfile (providerProfileId : option string) : tf_step (bool * list ValidationCheck) :=
  assertDirectProfile providerProfileId ;^
  let^ endpoint := check "endpoint" "/version" is_object in
  let^ node := check "node" (node_path ++ "/status") is_object in
  let^ template := check "template" (node_path ++ "/qemu/" ++ string_of_Z configuration.(px_templateVmid) ++ "/config") is_object in
  let^ storage := check "storage" (node_path ++ "/storage/" ++ encodeURIComponent configuration.(px_storage) ++ "/status") is_object in
  let^ bridge := check "bridge" (node_path ++ "/network") has_bridge in
  let checks := [endpoint; node; template; storage; bridge] in
  Ret (forallb vc_passed checks, checks).
End provider.
