(* ===== verification/ProxmoxSafety.v ===== *)
(** * What the direct provider may do

    Every request of the port over the Proxmox API is one program, [px_serve].
    A request of Proxmox that is not a read touches a machine; the theorems
    say which machines, and what was read before. *)
From S2P Require Import Prelude JsText Json SshKey Domain PageCursor Ipv4 WorkflowStage Events EventValidation Platform Saga SagaLogic ProviderPort JsonParse PlanGate Ownership Redaction TerraformRunner DirectClient TerraformProvider ProviderLogic ProxmoxProvider.
From Stdlib Require Import ZArith Lia Bool Ascii String.
From stdpp Require Import base decidable list sets strings.
Open Scope string_scope.
Open Scope Z_scope.
Open Scope prog_scope.

(** ** Requests *)

Inductive px_call : Set :=
| PxCreate (r : SubmitCreateRequest)
| PxConfigure (r : ConfigurationRequest)
| PxTask (c : option ProviderCallContext) (reference : option string)
| PxStart (r : option MutationRequest)
| PxShutdown (r : option MutationRequest)
| PxStop (r : option MutationRequest)
| PxReboot (r : option MutationRequest)
| PxResize (r : option MutationRequest) (target : option RequestResources)
| PxSnapshots (r : MutationRequest)
| PxSnapshotCreate (r : option MutationRequest) (name description : option string)
| PxSnapshotRollback (r : option MutationRequest) (reference : option string)
| PxSnapshotDelete (r : option MutationRequest) (reference : option string)
| PxRetain (r : option MutationRequest) (deadline : option string)
| PxPurge (r : option MutationRequest)
| PxObserve (r : MutationRequest)
| PxCapabilities (p : option string)
| PxValidate (p : option string).

(** The markers a request says its machine carries, and its context. *)
Definition request_markers (r : option MutationRequest) : option OwnershipMarkers := r ≫= mr_expectedOwnershipMarkers.
Definition px_markers (c : px_call) : option OwnershipMarkers :=
  match c with
  | PxCreate r => r.(sc_ownershipMarkers)
  | PxConfigure r => r.(cf_ownershipMarkers)
  | PxStart r | PxShutdown r | PxStop r | PxReboot r | PxResize r _ | PxSnapshotCreate r _ _
  | PxSnapshotRollback r _ | PxSnapshotDelete r _ | PxRetain r _ | PxPurge r => request_markers r
  | PxSnapshots r | PxObserve r => r.(mr_expectedOwnershipMarkers)
  | PxTask _ _ | PxCapabilities _ | PxValidate _ => None
  end.

Section serve.
Context `{Platform, Base64url, IpAddresses}.
Variable configuration : ProxmoxProviderConfiguration.
Variable now : Z.

Definition px_serve (c : px_call) : tf_step unit :=
  let only {A} (m : tf_step A) : tf_step unit := m ;^ Ret tt in
  match c with
  | PxCreate r => only (submitCreateInstance configuration r)
  | PxConfigure r => only (applyInstanceConfiguration configuration r)
  | PxTask context reference => only (getTask configuration context reference)
  | PxStart r => only (startInstance configuration r)
  | PxShutdown r => only (shutdownInstance configuration r)
  | PxStop r => only (stopInstance configuration r)
  | PxReboot r => only (rebootInstance configuration r)
  | PxResize r target => only (resizeInstance configuration r target)
  | PxSnapshots r => only (listSnapshots configuration r)
  | PxSnapshotCreate r name description => only (createSnapshot configuration r name description)
  | PxSnapshotRollback r reference => only (rollbackSnapshot configuration r reference)
  | PxSnapshotDelete r reference => only (deleteSnapshot configuration r reference)
  | PxRetain r deadline => only (markInstanceRetained configuration r deadline)
  | PxPurge r => only (purgeInstance configuration r)
  | PxObserve r => only (observeInstance configuration now r)
  | PxCapabilities p => only (getCapabilities configuration p)
  | PxValidate p => only (validateProfile configuration p)
  end.
End serve.

(** ** Effects *)

Definition reads (e : tf_effect) : Prop := match e with Http q => q.(hq_method) = GET | _ => False end.
Lemma reads_get (path : string) (body : option form) :
  reads (Http {| hq_method := GET; hq_path := path; hq_body := body |}).
Proof. done. Qed.
#[export] Hint Resolve reads_get : program.

Section fragments.
Context `{Platform, Base64url, IpAddresses}.
Variable configuration : ProxmoxProviderConfiguration.
Variable now : Z.

Lemma px_request_does (P : tf_effect → Prop) (method : HttpMethod) (path : string) (body : option form) :
  P (Http {| hq_method := method; hq_path := path; hq_body := body |}) → does P (request method path body).
Proof. intros. unfold request, throw_refused. doing. Qed.
Hint Resolve px_request_does : program.
Lemma member_does (P : tf_effect → Prop) (name : string) (v : json) : does P (member_of name v).
Proof. unfold member_of, type_error. doing. Qed.
Lemma optional_does (P : tf_effect → Prop) (v : json) : does P (optional_text v).
Proof. unfold optional_text, type_error. doing. Qed.
Lemma truthy_does (P : tf_effect → Prop) (v : json) : does P (truthy_text v).
Proof. unfold truthy_text, type_error. doing. Qed.
Lemma iterated_does (P : tf_effect → Prop) (v : json) : does P (iterated v).
Proof. unfold iterated, type_error. doing. Qed.
Hint Resolve member_does optional_does truthy_does iterated_does : program.
Lemma summary_does (P : tf_effect → Prop) (entry : json) : does P (summary_vmid entry).
Proof. unfold summary_vmid. doing. Qed.
Hint Resolve summary_does : program.
Lemma summaries_does (P : tf_effect → Prop) (entries : list json) : does P (summary_vmids entries).
Proof. induction entries; cbn [summary_vmids]; doing. Qed.
Hint Resolve summaries_does : program.
Lemma context_does (P : tf_effect → Prop) (c : option ProviderCallContext) : does P (assertContext configuration c).
Proof. unfold assertContext, assertDirectProfile, throw_refused. doing. Qed.
Lemma px_ownership_does (P : tf_effect → Prop) (m : option OwnershipMarkers) (c : ProviderCallContext) :
  does P (assertOwnership configuration m c).
Proof. unfold assertOwnership, throw_refused. doing. Qed.
Lemma px_vmid_does (P : tf_effect → Prop) (v : option string) : does P (assertVmid configuration v).
Proof. unfold assertVmid. doing. Qed.
Lemma name_does (P : tf_effect → Prop) (v : option string) : does P (assertSnapshotName v).
Proof. unfold assertSnapshotName, throw_refused. doing. Qed.
Lemma accepted_task_does (P : tf_effect → Prop) (vmid : number) (data : json) : does P (accepted_task configuration vmid data).
Proof. unfold accepted_task. doing. Qed.
Lemma accepted_or_does (P : tf_effect → Prop) (vmid : number) (data : json) :
  does P (accepted_or_applied configuration vmid data).
Proof. unfold accepted_or_applied. doing. Qed.
Lemma markers_does (P : tf_effect → Prop) (config : json) (m : OwnershipMarkers) : does P (carries_markers config m).
Proof. unfold carries_markers. doing. Qed.
Hint Resolve context_does px_ownership_does px_vmid_does name_does accepted_task_does accepted_or_does markers_does : program.
Lemma listVms_does : does reads (listVms configuration).
Proof. unfold listVms. doing. Qed.
Lemma vmConfig_does (vmid : number) (b : bool) : does reads (vmConfig configuration vmid b).
Proof. unfold vmConfig. doing. Qed.
Lemma status_does (vmid : Z) : does reads (currentStatus configuration vmid).
Proof. unfold currentStatus. doing. Qed.
Hint Resolve listVms_does vmConfig_does status_does : program.
Lemma required_does (vmid : Z) (m : OwnershipMarkers) : does reads (requireOwnedConfig configuration vmid m).
Proof. unfold requireOwnedConfig, throw_refused. doing. Qed.
Hint Resolve required_does : program.
Lemma owned_machine_does (r : MutationRequest) : does reads (owned_machine configuration r).
Proof. unfold owned_machine. doing. Qed.
Lemma unused_does (address : string) (vmid : Z) (entries : list json) :
  does reads (address_unused configuration address vmid entries).
Proof. induction entries; cbn [address_unused]; unfold throw_refused, type_error; doing. Qed.
Hint Resolve owned_machine_does unused_does : program.
Lemma available_does (address : string) (vmid : Z) : does reads (assertIpv4Available configuration address vmid).
Proof. unfold assertIpv4Available. doing. Qed.
Lemma probe_does (occupied : list Z) (m : OwnershipMarkers) (seed : Z) (offsets : list nat) :
  does reads (probe configuration occupied m seed offsets).
Proof. induction offsets; cbn [probe]; unfold throw_refused; doing. Qed.
Lemma among_does (m : OwnershipMarkers) (entries : list json) : does reads (owned_among configuration m entries).
Proof. induction entries; cbn [owned_among]; doing. Qed.
Hint Resolve available_does probe_does among_does : program.
Lemma find_free_does (m : OwnershipMarkers) : does reads (findOwnedOrFreeVmid configuration m).
Proof. unfold findOwnedOrFreeVmid, type_error. doing. Qed.
Lemma find_owned_does (m : OwnershipMarkers) : does reads (findOwnedVmid configuration m).
Proof. unfold findOwnedVmid. doing. Qed.
Hint Resolve find_free_does find_owned_does : program.
Lemma rows_does (P : tf_effect → Prop) (entries : list json) : does P (snapshot_rows entries).
Proof.
  induction entries; cbn [snapshot_rows]; unfold date_of_seconds; doing.
Qed.
Lemma check_does (name path : string) (p : json → bool) : does reads (check name path p).
Proof. unfold check. doing. Qed.
Hint Resolve rows_does check_does : program.

(** The methods that only read. *)
Lemma getTask_does (c : option ProviderCallContext) (r : option string) : does reads (getTask configuration c r).
Proof. unfold getTask, throw_refused. doing. Qed.
Lemma listSnapshots_does (r : MutationRequest) : does reads (listSnapshots configuration r).
Proof. unfold listSnapshots, type_error. doing. Qed.
Lemma observe_does (r : MutationRequest) : does reads (observeInstance configuration now r).
Proof. unfold observeInstance. doing. Qed.
Lemma capabilities_does (p : option string) : does reads (getCapabilities configuration p).
Proof. unfold getCapabilities, assertDirectProfile, throw_refused. doing. Qed.
Lemma validate_does (p : option string) : does reads (validateProfile configuration p).
Proof. unfold validateProfile, assertDirectProfile, throw_refused. doing. Qed.
End fragments.

(** ** What was proven *)

Section ownership.
Context `{Platform, Base64url, IpAddresses}.
Variable configuration : ProxmoxProviderConfiguration.

Definition reserved (v : Z) : Prop := configuration.(px_resourceIdMinimum) ≤ v ≤ configuration.(px_resourceIdMaximum).
(** The markers are of this deployment's project and environment. *)
Definition ours (m : OwnershipMarkers) : Prop :=
  m.(managedBy) = configuration.(px_managedBy) ∧ m.(environment) = configuration.(px_environment)
  ∧ m.(marker_projectId) = configuration.(px_projectId).
(** The configuration of machine [v] was read, and its description carries
    exactly the markers [m]. *)
Definition proven (h : history) (v : Z) (m : OwnershipMarkers) : Prop :=
  ∃ status fields description,
    @Exchange _ tf_reply (Http {| hq_method := GET; hq_path := vm configuration v ++ "/config"; hq_body := None |})
      (Answered status (Some (JObj fields))) ∈ h
    ∧ response_ok status = true
    ∧ json_member "description" (field "data" fields) = JStr description
    ∧ markersMatch (parseOwnership (Some description)) m = true.
(** The last exchange said that machine [v] does not exist: not found, or
    nothing in place of its configuration. *)
Definition missing (h : history) (v : Z) : Prop :=
  ∃ before r,
    h = (before ++ [@Exchange _ tf_reply
          (Http {| hq_method := GET; hq_path := vm configuration v ++ "/config"; hq_body := None |}) r])%list
    ∧ ((∃ body, r = Answered 404 body)
       ∨ ∃ status fields, r = Answered status (Some (JObj fields)) ∧ js_truthy (field "data" fields) = false).

Lemma proven_app (h t : history) (v : Z) (m : OwnershipMarkers) : proven h v m → proven (h ++ t) v m.
Proof. intros (s & f & d & Hin & ?). exists s, f, d. split; [apply elem_of_app; by left|done]. Qed.
Lemma proven_after (h t : history) (v : Z) (m : OwnershipMarkers) : proven t v m → proven (h ++ t) v m.
Proof. intros (s & f & d & Hin & ?). exists s, f, d. split; [apply elem_of_app; by right|done]. Qed.

(** A request that changes machine [v]: its path is below the machine's. *)
Definition below (path : string) (v : Z) : Prop :=
  ∃ suffix, path = vm configuration v ++ suffix ∧ (startsWith suffix "/" ∨ startsWith suffix "?").
Definition touches (v : Z) (e : tf_effect) : Prop := reads e ∨ ∃ q, e = Http q ∧ below q.(hq_path) v.

Lemma reads_touches (v : Z) (e : tf_effect) : reads e → touches v e.
Proof. by left. Qed.
Lemma touches_path (v : Z) (method : HttpMethod) (suffix : string) (body : option form) :
  startsWith suffix "/" ∨ startsWith suffix "?" →
  touches v (Http {| hq_method := method; hq_path := vm configuration v ++ suffix; hq_body := body |}).
Proof. intros Hs. right. eexists. split; [done|]. by exists suffix. Qed.

(** *** The reads that prove *)

Lemma request_answered (method : HttpMethod) (path : string) (t : history) (v : json) :
  traces (request method path None) t (Ok v) →
  ∃ status fields, t = [@Exchange _ tf_reply (Http {| hq_method := method; hq_path := path; hq_body := None |})
                          (Answered status (Some (JObj fields)))]
    ∧ response_ok status = true ∧ v = field "data" fields.
Proof.
  unfold request. cbn [traces]. intros (r & t' & -> & Ht). destruct r as [status body|code]; [|by destruct Ht].
  destruct (response_ok status) eqn:Es; [|by destruct Ht]. destruct body as [[]|]; try by destruct Ht.
  cbn [negb] in Ht. destruct (existsb _ _); [|by destruct Ht]. destruct Ht as [-> [= ->]]. by eexists _, _.
Qed.
Lemma vmConfig_answered (v : number) (allowMissing : bool) (t : history) (config : json) :
  traces (vmConfig configuration v allowMissing) t (Ok config) →
  ∃ r, t = [@Exchange _ tf_reply
              (Http {| hq_method := GET; hq_path := machine_path configuration v ++ "/config"; hq_body := None |}) r]
    ∧ ((config = JNull ∧ ∃ body, r = Answered 404 body)
       ∨ ∃ status fields, r = Answered status (Some (JObj fields)) ∧ response_ok status = true ∧ config = field "data" fields).
Proof.
  unfold vmConfig. intros [(a & [= <-] & Ht)|(t1 & t2 & x & -> & Hx & Ht)]%traces_catch.
  - apply request_answered in Ht as (s & f & -> & Hok & ->). eexists. split; [done|]. right. eauto.
  - destruct x as [e [status|]|m]; [|by destruct Ht..].
    destruct (allowMissing && (status =? 404)) eqn:E; [|by destruct Ht]. apply andb_true_iff in E as [_ ->%Z.eqb_eq].
    destruct Ht as [-> [= ->]]. unfold request in Hx. cbn [traces] in Hx. destruct Hx as (r & t' & -> & Hx).
    destruct r as [s body|code]; [|by destruct Hx as [_ [=]]]. destruct (response_ok s) eqn:Es.
    { cbn [negb] in Hx. destruct body as [[]|]; try (destruct (existsb _ _)); by destruct Hx as [_ [=]]. }
    cbn [negb] in Hx. destruct Hx as [-> [= _ <-]]. eexists. split; [done|]. left. eauto.
Qed.
Lemma optional_text_traces (v : json) (t : history) (o : option string) :
  traces (optional_text v) t (Ok o) → t = [] ∧ (∀ s, o = Some s → v = JStr s).
Proof. destruct v; cbn; intros [-> Ho]; try done; injection Ho as ->; split; congruence. Qed.
Lemma carries_markers_traces (config : json) (m : OwnershipMarkers) (t : history) (b : bool) :
  traces (carries_markers config m) t (Ok b) →
  t = [] ∧ (b = true → ∃ s, json_member "description" config = JStr s ∧ markersMatch (parseOwnership (Some s)) m = true).
Proof.
  unfold carries_markers. intros (t1 & t2 & o & -> & [-> Ho]%optional_text_traces & [-> [= ->]])%bind_Ok_traces.
  split; [done|]. destruct o as [s|]; [|done]. intros Hm. exists s. eauto.
Qed.
Lemma requireOwned_traces (v : Z) (m : OwnershipMarkers) (t : history) (config : json) :
  traces (requireOwnedConfig configuration v m) t (Ok config) → proven t v m.
Proof.
  unfold requireOwnedConfig. intros (t1 & t2 & c & -> & Hc & Ht)%bind_Ok_traces. apply vmConfig_answered in Hc as (r & -> & Hr).
  destruct (js_truthy c) eqn:Ec; [|by destruct Ht]. cbn [negb] in Ht.
  apply bind_Ok_traces in Ht as (t3 & t4 & b & -> & [-> Hb]%carries_markers_traces & Ht).
  destruct b; [|by destruct Ht]. destruct Ht as [-> _]. destruct (Hb eq_refl) as (s & Hs & Hm).
  destruct Hr as [[-> _]|(status & fields & -> & Hok & ->)]; [done|]. exists status, fields, s.
  split_and!; [by left|done..].
Qed.
Lemma vmid_traces (value : option string) (t : history) (v : Z) :
  traces (assertVmid configuration value) t (Ok v) → t = [] ∧ value ≫= Number_integer = Some v ∧ reserved v.
Proof.
  unfold assertVmid. intros [-> Hv]%some_traces. split; [done|]. apply bind_Some in Hv as (n & -> & Hn).
  destruct (_ && _) eqn:E; [|done]. injection Hn as ->. rewrite !andb_true_iff, !Z.leb_le in E. unfold reserved. split; [done|lia].
Qed.
Lemma context_traces (o : option ProviderCallContext) (t : history) (c : ProviderCallContext) :
  traces (assertContext configuration o) t (Ok c) → t = [] ∧ o = Some c ∧ c.(ctx_projectId) = configuration.(px_projectId).
Proof.
  unfold assertContext. intros (t1 & t2 & x & -> & [-> ->]%some_traces & Ht)%bind_Ok_traces.
  apply bind_Ok_traces in Ht as (t3 & t4 & [] & -> & H3 & Ht). unfold assertDirectProfile in H3.
  destruct (bool_decide _); [|by destruct H3]. destruct H3 as [-> _].
  apply bind_Ok_traces in Ht as (t5 & t6 & [] & -> & H5 & Ht). destruct (String.eqb_spec x.(ctx_projectId) configuration.(px_projectId)); [|by destruct H5].
  destruct H5 as [-> _].
  do 4 apply bind_Ok_traces in Ht as (? & ? & ? & -> & [-> _]%lift_traces & Ht). by destruct Ht as [-> [= ->]].
Qed.
Lemma px_ownership_traces (o : option OwnershipMarkers) (c : ProviderCallContext) (t : history) (m : OwnershipMarkers) :
  traces (assertOwnership configuration o c) t (Ok m) →
  t = [] ∧ o = Some m ∧ m.(managedBy) = configuration.(px_managedBy) ∧ m.(environment) = configuration.(px_environment)
  ∧ m.(marker_projectId) = c.(ctx_projectId) ∧ m.(marker_createOperationId) = c.(ctx_operationId).
Proof.
  unfold assertOwnership. intros (t1 & t2 & x & -> & [-> ->]%some_traces & Ht)%bind_Ok_traces.
  destruct (_ && _) eqn:E; [|by destruct Ht]. destruct Ht as [-> [= ->]]. rewrite !andb_true_iff, !String.eqb_eq in E.
  naive_solver.
Qed.
Lemma owned_traces (r : MutationRequest) (t : history) (v : Z) (m : OwnershipMarkers) (config : json) :
  traces (owned_machine configuration r) t (Ok (v, m, config)) →
  r.(mr_expectedOwnershipMarkers) = Some m ∧ ours m ∧ reserved v ∧ proven t v m.
Proof.
  unfold owned_machine. intros (t1 & t2 & c & -> & (-> & _ & Hp)%context_traces & Ht)%bind_Ok_traces.
  apply bind_Ok_traces in Ht as (t3 & t4 & m' & -> & (-> & Hm & ? & ? & ? & _)%px_ownership_traces & Ht).
  apply bind_Ok_traces in Ht as (t5 & t6 & v' & -> & (-> & _ & Hv)%vmid_traces & Ht).
  apply bind_Ok_traces in Ht as (t7 & t8 & c' & -> & Hr%requireOwned_traces & [-> [= -> -> ->]]).
  split_and!; [done| |done|]. { unfold ours. split_and!; [done..|congruence]. }
  rewrite app_nil_r. exact Hr.
Qed.
End ownership.

(** ** Every request *)

Section requests.
Context `{Platform, Base64url, IpAddresses}.
(** A SHA-256 digest is printed in hexadecimal. *)
Hypothesis Hhex : ∀ s, is_Some (digest_number (sha256 s)).
Variable configuration : ProxmoxProviderConfiguration.
Variable now : Z.

Hint Resolve reads_touches touches_path : program.
Hint Resolve px_request_does member_does optional_does truthy_does iterated_does context_does px_ownership_does px_vmid_does
  name_does accepted_task_does accepted_or_does markers_does : program.

(** The clone of the template into machine [v], marked as [m]'s. *)
Definition clones (v : Z) (m : OwnershipMarkers) (q : HttpRequest) : Prop :=
  q.(hq_method) = POST ∧ q.(hq_path) = clone_path configuration
  ∧ ∃ name, q.(hq_body) = Some [("newid", string_of_Z v); ("name", name); ("full", "1");
                                ("storage", configuration.(px_storage)); ("description", ownershipDescription m)].
(** What a request with the markers [m] may do: read; change a reserved
    machine proven to be its own; or clone the template into a reserved
    number under which no machine exists. *)
Definition permitted (markers : option OwnershipMarkers) (h : history) (e : tf_effect) : Prop :=
  reads e
  ∨ ∃ m v q, markers = Some m ∧ ours configuration m ∧ reserved configuration v ∧ e = Http q
      ∧ (proven configuration h v m ∧ below configuration q.(hq_path) v ∨ missing configuration h v ∧ clones v m q).

Lemma reads_wp {A : Type} (markers : option OwnershipMarkers) (h : history) (m : tf_step A)
    (Q : history → result tf_error A → Prop) :
  does reads m → (∀ t o, traces m t o → Q (h ++ t)%list o) → wp (permitted markers) h m Q.
Proof.
  intros Hm HQ. apply (wp_does reads); [done|intros t e _ He; by left|]. intros t o _. apply HQ.
Qed.
(** Once the machine is proven, whatever follows may change it. *)
Lemma proven_wp {A : Type} (h : history) (m : OwnershipMarkers) (v : Z) (k : tf_step A) :
  ours configuration m → reserved configuration v → proven configuration h v m → does (touches configuration v) k →
  wp (permitted (Some m)) h k (λ _ _, True).
Proof.
  intros Hm Hv Hp Hk. apply (wp_does (touches configuration v)); [done| |done].
  intros t e _ [He|(q & -> & Hq)]; [by left|]. right. exists m, v, q. split_and!; try done. left. split; [by apply proven_app|done].
Qed.
Lemma owned_wp {A : Type} (r : MutationRequest) (k : Z * OwnershipMarkers * json → tf_step A) :
  (∀ v m config, does (touches configuration v) (k (v, m, config))) →
  wp (permitted r.(mr_expectedOwnershipMarkers)) [] (sbind (owned_machine configuration r) k) (λ _ _, True).
Proof.
  intros Hk. apply wp_bind, reads_wp; [apply owned_machine_does|]. intros t [[[v m] config]|x] Ht; [|done].
  apply owned_traces in Ht as (-> & Hm & Hv & Hp). by apply (proven_wp _ m v).
Qed.
Lemma reads_only_wp {A : Type} (markers : option OwnershipMarkers) (m : tf_step A) :
  does reads m → wp (permitted markers) [] m (λ _ _, True).
Proof. intros Hm. by apply reads_wp. Qed.

Lemma reading_touches {A : Type} (v : Z) (m : tf_step A) : does reads m → does (touches configuration v) m.
Proof. apply does_mono. by left. Qed.
Lemma status_touches (v w : Z) : does (touches configuration v) (currentStatus configuration w).
Proof. apply reading_touches, status_does. Qed.
Lemma vm_touches (v : Z) (method : HttpMethod) (suffix : string) (body : option form) :
  startsWith suffix "/" ∨ startsWith suffix "?" →
  does (touches configuration v) (request method (vm configuration v ++ suffix) body).
Proof. intros Hs. apply px_request_does. by apply touches_path. Qed.
Lemma snapshots_touches (v : Z) (method : HttpMethod) (suffix : string) (body : option form) :
  does (touches configuration v) (request method (snapshots_path configuration v ++ suffix) body).
Proof. unfold snapshots_path. rewrite Ownership.append_assoc. apply vm_touches. by left. Qed.
Lemma disk_touches (v : Z) (config : json) (names : list string) : does (touches configuration v) (first_disk config names).
Proof. induction names; cbn [first_disk]; unfold throw_refused; doing. Qed.
Lemma power_touches (v : Z) (action : string) (extra : form) : does (touches configuration v) (power configuration v action extra).
Proof. unfold power. doing. Qed.
Hint Resolve status_touches vm_touches snapshots_touches disk_touches power_touches : program.

(** *** The methods that change a machine *)

Lemma only_wp {A : Type} (markers : option OwnershipMarkers) (m : tf_step A) :
  wp (permitted markers) [] m (λ _ _, True) → wp (permitted markers) [] (m ;^ Ret tt) (λ _ _, True).
Proof. intros Hm. apply wp_bind. eapply wp_mono; [|exact Hm]. by intros h [a|x] _. Qed.
(** A method that opens with the proof and then stays with the machine. *)
Lemma opened_wp {A : Type} (r : option MutationRequest) (f : Z * OwnershipMarkers * json → tf_step A) :
  (∀ v m c, does (touches configuration v) (f (v, m, c))) →
  wp (permitted (request_markers r)) [] (sbind (owned_machine configuration (default no_request r)) f) (λ _ _, True).
Proof. intros Hf. destruct r as [r|]; [exact (owned_wp r f Hf)|exact (owned_wp no_request f Hf)]. Qed.

Ltac opened := apply opened_wp; intros v m c; unfold throw_refused; doing.

Lemma start_wp (r : option MutationRequest) :
  wp (permitted (request_markers r)) [] (startInstance configuration r) (λ _ _, True).
Proof. opened. Qed.
Lemma transition_wp (r : option MutationRequest) (action : string) (already : option string) (extra : form) :
  wp (permitted (request_markers r)) [] (powerTransition configuration r action already extra) (λ _ _, True).
Proof. opened. Qed.
Lemma resize_wp (r : option MutationRequest) (target : option RequestResources) :
  wp (permitted (request_markers r)) [] (resizeInstance configuration r target) (λ _ _, True).
Proof. unfold resizeInstance, primaryDiskKey. opened. Qed.
Lemma retain_wp (r : option MutationRequest) (deadline : option string) :
  wp (permitted (request_markers r)) [] (markInstanceRetained configuration r deadline) (λ _ _, True).
Proof. opened. Qed.
Lemma px_purge_wp (r : option MutationRequest) :
  wp (permitted (request_markers r)) [] (purgeInstance configuration r) (λ _ _, True).
Proof. unfold purgeInstance, destroy_path. opened. Qed.
Lemma configure_wp (r : ConfigurationRequest) :
  wp (permitted r.(cf_ownershipMarkers)) [] (applyInstanceConfiguration configuration r) (λ _ _, True).
Proof.
  unfold applyInstanceConfiguration. set (q := {| mr_context := _ |}). apply (owned_wp q). intros v m c.
  unfold assertResources, assertNetwork, throw_refused. doing. apply reading_touches, available_does.
Qed.

(** *** Snapshots *)

Lemma px_prepare_does (r : option MutationRequest) : does reads (prepareSnapshotMutation configuration r).
Proof.
  unfold prepareSnapshotMutation. apply does_bind; [apply owned_machine_does|]. intros [[v m] c].
  apply does_bind; [apply status_does|]. intros current. doing.
Qed.
Lemma prepared_wp {A : Type} (r : option MutationRequest) (k : Z → tf_step A) :
  (∀ v, does (touches configuration v) (k v)) →
  wp (permitted (request_markers r)) [] (sbind (prepareSnapshotMutation configuration r) k) (λ _ _, True).
Proof.
  intros Hk. apply wp_bind, reads_wp; [apply px_prepare_does|]. intros t [v|x] Ht; [|done].
  unfold prepareSnapshotMutation in Ht. apply bind_Ok_traces in Ht as (t1 & t2 & [[v' m] c] & -> & Ho & Ht).
  apply owned_traces in Ho as (Hm & Hours & Hv & Hp).
  do 2 apply bind_Ok_traces in Ht as (? & ? & ? & -> & _ & Ht). destruct (js_truthy _); [by destruct Ht|].
  destruct Ht as [_ [= ->]]. replace (request_markers r) with (Some m) by (rewrite <- Hm; by destruct r).
  apply (proven_wp _ m v'); [done|done| |apply Hk]. cbn [app]. by apply proven_app.
Qed.
Lemma snapshot_wp (r : option MutationRequest) (name description : option string) :
  wp (permitted (request_markers r)) [] (createSnapshot configuration r name description) (λ _ _, True).
Proof. apply prepared_wp. intros v. unfold snapshots_path. doing. Qed.
Lemma rollback_wp (r : option MutationRequest) (reference : option string) :
  wp (permitted (request_markers r)) [] (rollbackSnapshot configuration r reference) (λ _ _, True).
Proof. apply prepared_wp. intros v. doing. Qed.
Lemma delete_wp (r : option MutationRequest) (reference : option string) :
  wp (permitted (request_markers r)) [] (deleteSnapshot configuration r reference) (λ _ _, True).
Proof. apply prepared_wp. intros v. doing. Qed.

(** *** Creating *)

Lemma probe_traces (occupied : list Z) (m : OwnershipMarkers) (seed : Z) (offsets : list nat) (t : history) (n : number) :
  traces (probe configuration occupied m seed offsets) t (Ok n) → ∃ o, o ∈ offsets ∧ n = Some (probed configuration seed o).
Proof.
  revert t. induction offsets as [|o offsets IH]; intros t; cbn [probe]; [by intros [_ [=]]|].
  destruct (negb _); [intros [_ [= ->]]; exists o; split; [by left|done]|].
  intros (? & ? & ? & -> & _ & Ht)%bind_Ok_traces. apply bind_Ok_traces in Ht as (? & ? & [|] & -> & _ & Ht).
  - destruct Ht as [_ [= ->]]. exists o. split; [by left|done].
  - apply IH in Ht as (o' & ? & ->). exists o'. split; [by right|done].
Qed.
Lemma probed_reserved (seed : Z) (o : nat) :
  o ∈ seq 0 (Z.to_nat (interval_size configuration)) → reserved configuration (probed configuration seed o).
Proof.
  intros Ho%elem_of_seq. unfold reserved, probed.
  assert (Hsize : 0 < interval_size configuration) by lia.
  pose proof (Z.mod_pos_bound (seed + Z.of_nat o) (interval_size configuration) Hsize). unfold interval_size in *. lia.
Qed.
Lemma find_traces (m : OwnershipMarkers) (t : history) (n : number) :
  traces (findOwnedOrFreeVmid configuration m) t (Ok n) → ∃ v, n = Some v ∧ reserved configuration v.
Proof.
  unfold findOwnedOrFreeVmid. intros (? & ? & listed & -> & _ & Ht)%bind_Ok_traces.
  do 3 apply bind_Ok_traces in Ht as (? & ? & ? & -> & _ & Ht).
  destruct (digest_number _) as [seed|] eqn:E; [|apply eq_None_not_Some in E; destruct E; apply Hhex].
  apply probe_traces in Ht as (o & Ho & ->). eexists. split; [done|]. by apply probed_reserved.
Qed.
Lemma missing_after (h t : history) (v : Z) (config : json) :
  traces (vmConfig configuration (Some v) true) t (Ok config) → js_truthy config = false → missing configuration (h ++ t) v.
Proof.
  intros (r & -> & Hr)%vmConfig_answered Hc. exists h, r. split; [done|].
  destruct Hr as [[-> Hb]|(s & f & -> & _ & ->)]; [by left|right; eauto].
Qed.
Lemma request_wp (allowed : history → tf_effect → Prop) (h : history) (method : HttpMethod) (path : string)
    (body : option form) (Q : history → result tf_error json → Prop) :
  allowed h (Http {| hq_method := method; hq_path := path; hq_body := body |}) → (∀ h' o, Q h' o) →
  wp allowed h (request method path body) Q.
Proof.
  intros Ha HQ. split; [exact Ha|]. intros [status answer|code]; [|apply HQ].
  destruct (negb _); [apply HQ|]. destruct answer as [[]|]; try apply HQ. destruct (existsb _ _); apply HQ.
Qed.
Lemma create_wp (r : SubmitCreateRequest) :
  wp (permitted r.(sc_ownershipMarkers)) [] (submitCreateInstance configuration r) (λ _ _, True).
Proof.
  unfold submitCreateInstance. apply wp_bind, reads_wp; [apply context_does|]. intros t1 [c|] Hc; [|done].
  apply context_traces in Hc as (-> & _ & Hp). apply wp_bind, reads_wp; [apply px_ownership_does|]. intros t2 [m|] Hm; [|done].
  apply px_ownership_traces in Hm as (-> & -> & ? & ? & Hproject & _).
  assert (Hours : ours configuration m) by (unfold ours; split_and!; [done..|congruence]).
  apply wp_bind, reads_wp; [unfold throw_refused; doing|]. intros t3 [[]|] _; [|done].
  apply wp_bind, reads_wp; [unfold throw_refused; doing|]. intros t4 [[]|] _; [|done].
  apply wp_bind, reads_wp; [apply find_free_does|]. intros t5 [n|] Hn; [|done]. apply find_traces in Hn as (v & -> & Hv).
  apply wp_bind, reads_wp; [apply vmConfig_does|]. intros t6 [existing|] He; [|done].
  destruct (js_truthy existing) eqn:Ee; [done|].
  apply wp_bind, (wp_does reads); [apply lift_does|intros ? ? _ ?; by left|]. intros t7 [hostname|x] _ Hl; [|done].
  apply lift_traces in Hl as [-> _]. rewrite app_nil_r.
  apply wp_bind, request_wp.
  - right. exists m, v. eexists. split_and!; [done..|]. right. split; [by eapply missing_after|].
    split_and!; [done..|by exists hostname].
  - intros h' [data|x]; [|done]. apply reads_wp; [apply accepted_task_does|done].
Qed.

Lemma px_serve_wp (c : px_call) : wp (permitted (px_markers c)) [] (px_serve configuration now c) (λ _ _, True).
Proof.
  destruct c; apply only_wp.
  - apply create_wp.
  - apply configure_wp.
  - apply reads_only_wp, getTask_does.
  - apply start_wp.
  - apply transition_wp.
  - apply transition_wp.
  - apply transition_wp.
  - apply resize_wp.
  - apply reads_only_wp, listSnapshots_does.
  - apply snapshot_wp.
  - apply rollback_wp.
  - apply delete_wp.
  - apply retain_wp.
  - apply px_purge_wp.
  - apply reads_only_wp, observe_does.
  - apply reads_only_wp, capabilities_does.
  - apply reads_only_wp, validate_does.
Qed.
End requests.

Section theorem.
Context `{Platform, Base64url, IpAddresses}.

Lemma constructed (protocolOf : string → option string) (c c' : ProxmoxProviderConfiguration) (v : Z) :
  new_ProxmoxProvider protocolOf c = Ok c' → reserved c v → 910000 ≤ v ≤ 910099.
Proof.
  unfold new_ProxmoxProvider, reserved. destruct (protocolOf _); [|done]. destruct (String.eqb _ _); [|done].
  destruct (_ && _) eqn:E; [|done]. rewrite !andb_true_iff, !Z.leb_le in E. lia.
Qed.

(** C11: Only proven machines change.  In every history of every request to the
    direct adapter, each call of Proxmox that is not a read changes a machine
    inside the reserved interval, whatever was configured: either its
    configuration was read before and carries exactly the markers the request
    expects, which are of this deployment's project and environment; or the
    call clones the template into a number under which Proxmox has just
    answered that no machine exists, and marks the clone with the request's
    markers. *)
Theorem only_proven_machines_change (protocolOf : string → option string)
    (configuration configuration' : ProxmoxProviderConfiguration) (now : Z) (c : px_call) (t t1 t2 : history)
    (o : result tf_error unit) (q : HttpRequest) (r : http_reply)
    (Hhex : ∀ s, is_Some (digest_number (sha256 s)))
    (Hnew : new_ProxmoxProvider protocolOf configuration = Ok configuration')
    (Ht : traces (px_serve configuration now c) t o)
    (Hsplit : t = (t1 ++ @Exchange _ tf_reply (Http q) r :: t2)%list) (Hchange : q.(hq_method) ≠ GET) :
  ∃ m v, px_markers c = Some m ∧ ours configuration m ∧ 910000 ≤ v ≤ 910099
    ∧ (proven configuration t1 v m ∧ below configuration q.(hq_path) v
       ∨ missing configuration t1 v ∧ clones configuration v m q).
Proof.
  destruct (wp_sound _ _ _ [] t o (px_serve_wp Hhex configuration now c) Ht) as [_ Hall].
  destruct (Hall _ _ _ _ Hsplit) as [Hr|(m & v & q' & Hm & Hours & Hv & [= <-] & Hq)]; [done|].
  exists m, v. split_and!; [done|done|by eapply constructed, Hv..|exact Hq].
Qed.
End theorem.

(** ** A concrete deployment *)

Definition px_configuration : ProxmoxProviderConfiguration :=
  {| px_endpoint := "https://pve:8006"; px_providerProfileId := "pp"; px_node := "pve1"; px_templateVmid := 9000;
     px_imageId := "ubuntu"; px_storage := "local"; px_bridge := "vmbr1"; px_networkId := "net-1";
     px_ipv4Cidr := "10.0.0.0/24"; px_ipv4Gateway := "10.0.0.1"; px_resourceIdMinimum := 910000;
     px_resourceIdMaximum := 910099; px_projectId := "p1"; px_environment := "lab";
     px_managedBy := "private-cloud-control-plane" |}.
(** A platform whose digests are hexadecimal. *)
Definition hex_platform : Platform :=
  {| localeBefore := String.ltb; sha256 _ := "00000007"; toISOString := string_of_Z; dateParses s := truthy s;
     zeroRowUpdateThrows := false |}.
Definition plain_base64url : Base64url := {| toBase64url s := s; fromBase64url s := s |}.
Definition flat_addresses : IpAddresses :=
  {| ip_address := string; ip_parse s := Some s; ip_parseCIDR s := Some (s, 24); ip_is_v4 _ := true;
     ip_match _ _ _ := true |}.
Definition secure (_ : string) : option string := Some "https:".

Definition px_sample_markers : OwnershipMarkers :=
  {| managedBy := "private-cloud-control-plane"; environment := "lab"; marker_projectId := "p1";
     marker_instanceId := "i1"; marker_createOperationId := "o1" |}.
Definition px_sample_context (operation : string) : ProviderCallContext :=
  {| requestId := "q1"; ctx_operationId := operation; ctx_correlationId := "c1"; ctx_projectId := "p1";
     ctx_instanceId := "i1"; ctx_providerProfileId := "pp"; ctx_attempt := 1; ctx_fencingToken := "7" |}.
Definition px_sample_request : MutationRequest :=
  {| mr_context := Some (px_sample_context "o1"); mr_providerResourceId := Some "910007";
     mr_expectedOwnershipMarkers := Some px_sample_markers |}.

(** A Proxmox where machine 910007 carries the markers and runs, and every
    change is accepted as a task. *)
Definition answer_with (data : json) : http_reply := Answered 200 (Some (JObj [("data", data)])).
Definition marked : json := JObj [("description", JStr (ownershipDescription px_sample_markers))].
Definition running : json := JObj [("status", JStr "running")].
Definition px_outside (e : tf_effect) : tf_reply e :=
  match e return tf_reply e with
  | RandomUUID => "u1"
  | ReadDirectory _ => Done []
  | Spawn _ _ => {| exitCode := 1; stdout := ""; stderr := "" |}
  | ReadRun _ => Done None
  | Http q =>
      if negb (bool_decide (q.(hq_method) = GET)) then answer_with (JStr "UPID:pve1:1")
      else if endsWith q.(hq_path) "/config" then answer_with marked
      else if endsWith q.(hq_path) "/status/current" then answer_with running
      else answer_with (JArr [])
  | _ => Done tt
  end.
Definition px_run (c : px_call) : tf_step unit :=
  px_serve (H := hex_platform) (H0 := plain_base64url) (H1 := flat_addresses) px_configuration 0 c.
Definition px_purged : history := fst (run px_outside (px_run (PxPurge (Some px_sample_request)))).
Definition px_destroy : HttpRequest :=
  {| hq_method := DELETE; hq_path := "/nodes/pve1/qemu/910007?purge=1&destroy-unreferenced-disks=1"; hq_body := None |}.
Lemma px_purged_split :
  px_purged = (take 3 px_purged ++ @Exchange _ tf_reply (Http px_destroy) (answer_with (JStr "UPID:pve1:1")) :: [])%list.
Proof. vm_compute. reflexivity. Qed.
Lemma px_purged_traces :
  traces (px_run (PxPurge (Some px_sample_request))) px_purged (snd (run px_outside (px_run (PxPurge (Some px_sample_request))))).
Proof.
  pose proof (run_traces tf_reply px_outside (px_run (PxPurge (Some px_sample_request)))) as Ht. unfold px_purged.
  by destruct (run _ _) as [t o].
Qed.

Lemma only_proven_machines_change_witness :
  new_ProxmoxProvider (H := flat_addresses) secure px_configuration = Ok px_configuration
  ∧ ∃ m v, px_markers (PxPurge (Some px_sample_request)) = Some m ∧ 910000 ≤ v ≤ 910099
      ∧ (proven px_configuration (take 3 px_purged) v m ∧ below px_configuration px_destroy.(hq_path) v
         ∨ missing px_configuration (take 3 px_purged) v ∧ clones px_configuration v m px_destroy).
Proof.
  assert (Hnew : new_ProxmoxProvider (H := flat_addresses) secure px_configuration = Ok px_configuration) by reflexivity.
  split; [exact Hnew|].
  destruct (only_proven_machines_change (H := hex_platform) (H0 := plain_base64url) (H1 := flat_addresses) secure
    px_configuration px_configuration 0 (PxPurge (Some px_sample_request)) px_purged (take 3 px_purged) [] _ px_destroy
    (answer_with (JStr "UPID:pve1:1")) ltac:(intros s; exists 7; reflexivity) Hnew px_purged_traces px_purged_split
    ltac:(discriminate)) as (m & v & Hm & _ & Hv & Hq).
  exists m, v. split_and!; [exact Hm|apply Hv|apply Hv|exact Hq].
Defined.
