(* ===== verification/ProxmoxLimits.v ===== *)
(** * What the direct provider does not do

    Task references, and three runs that end otherwise than the comments say:
    a replayed create, a resize that measures another disk than it grows, and
    a purge that does not wait for the stop it asked for. *)
From S2P Require Import Prelude JsText Json SshKey Domain PageCursor Ipv4 WorkflowStage Events EventValidation Platform Saga SagaLogic ProviderPort JsonParse PlanGate Ownership Redaction TerraformRunner DirectClient TerraformProvider ProviderLogic ProxmoxProvider ProxmoxSafety.
From Stdlib Require Import ZArith Lia Bool Ascii String.
From stdpp Require Import base decidable list sets strings.
Open Scope string_scope.
Open Scope Z_scope.
Open Scope prog_scope.

(** ** Task references *)

Section tasks.
Context `{Platform, Base64url, IpAddresses}.
Variable configuration : ProxmoxProviderConfiguration.
Hypothesis base64url_roundtrip : ∀ s, fromBase64url (toBase64url s) = s.

Lemma span_app (p : ascii → bool) (l : list ascii) (c : ascii) (rest : list ascii) :
  Forall (λ x, p x = true) l → p c = false → span p (l ++ c :: rest)%list = (l, c :: rest).
Proof. intros Hl Hc. induction Hl as [|x l Hx _ IH]; cbn; [by rewrite Hc|]. by rewrite Hx, IH. Qed.

(** A node's name that is no part of the separator. *)
Definition node_name_plain : Prop :=
  configuration.(px_node) ≠ "" ∧ Forall (λ c, is_char ":" c = false) (chars configuration.(px_node)).

Lemma task_decodes (upid : string) :
  node_name_plain → decodeTask (encodeTask configuration upid)
  = if startsWith upid "UPID:" then Some (configuration.(px_node), upid) else None.
Proof.
  intros [Hne Hplain]. unfold decodeTask, encodeTask. rewrite !chars_app.
  change (chars ":") with [":"%char]. cbn [app]. rewrite span_app; [|by apply (Forall_impl _ _ _ Hplain); intros c ->|done].
  destruct (chars configuration.(px_node)) as [|c node] eqn:E.
  { destruct configuration.(px_node); [done|discriminate E]. }
  rewrite of_chars_chars, base64url_roundtrip, <- E, of_chars_chars. reflexivity.
Qed.

Definition status_path (upid : string) : string :=
  "/nodes/" ++ encodeURIComponent configuration.(px_node) ++ "/tasks/" ++ encodeURIComponent upid ++ "/status".
(** What a task's status document means: finished is not succeeded. *)
Definition task_report (d : json) : GetTaskResponse :=
  if negb (is_text (json_member "status" d) "stopped") then task TASK_RUNNING
  else if is_text (json_member "exitstatus" d) "OK" then task TASK_SUCCEEDED
  else task_failed TASK_FAILED FAILURE_CATEGORY_PERMANENT "PROXMOX_TASK_FAILED" "The provider task failed.".

Lemma required_given (s r : string) : required (Some s) = Ok r → s = r.
Proof. unfold required. cbn. destruct (truthy s); by intros [= ->]. Qed.
Lemma member_traces (name : string) (v : json) (t : history) (x : json) :
  traces (member_of name v) t (Ok x) → t = [] ∧ x = json_member name v.
Proof. destruct v; cbn; intros [-> Ho]; try done; by injection Ho as ->. Qed.

(** The reference of a task polls that task.  The reference an accepted
    change answers with names the node and Proxmox's own task identifier: a
    poll with it asks for the status of exactly that task and nothing else,
    and reports success only of a task that has stopped with OK. *)
Theorem accepted_task_is_polled (c : option ProviderCallContext) (vmid : number) (upid : string) (t : history)
    (response : GetTaskResponse) (Hnode : node_name_plain) (Hupid : startsWith upid "UPID:" = true)
    (Ht : traces (getTask configuration c (accepted configuration vmid upid).(pm_providerTaskReference)) t (Ok response)) :
  ∃ status fields,
    t = [@Exchange _ tf_reply (Http {| hq_method := GET; hq_path := status_path upid; hq_body := None |})
           (Answered status (Some (JObj fields)))]
    ∧ response = task_report (field "data" fields).
Proof.
  unfold getTask in Ht. apply bind_Ok_traces in Ht as (? & ? & ? & -> & [-> _]%context_traces & Ht).
  apply bind_Ok_traces in Ht as (? & ? & reference & -> & [-> Hr]%lift_traces & Ht).
  assert (reference = encodeTask configuration upid) as ->.
  { symmetry. by apply required_given in Hr. }
  apply bind_Ok_traces in Ht as (? & ? & found & -> & [-> Hd]%some_traces & Ht).
  rewrite task_decodes, Hupid in Hd by done. injection Hd as <-.
  apply bind_Ok_traces in Ht as (? & ? & [] & -> & Hn & Ht). rewrite String.eqb_refl in Hn. destruct Hn as [-> _].
  apply bind_Ok_traces in Ht as (? & ? & d & -> & (status & fields & -> & _ & ->)%request_answered & Ht).
  apply bind_Ok_traces in Ht as (? & ? & s & -> & [-> ->]%member_traces & Ht).
  exists status, fields. unfold task_report. destruct (negb _); [by destruct Ht as [-> [= ->]]|].
  destruct (is_text _ "OK"); by destruct Ht as [-> [= ->]].
Qed.
End tasks.

(** ** Worlds *)

(** A Proxmox that answers reads from a table, and accepts every change. *)
Definition table_world (table : list (string * json)) (e : tf_effect) : tf_reply e :=
  match e as e0 return tf_reply e0 → tf_reply e0 with
  | Http q => λ _,
      if negb (bool_decide (q.(hq_method) = GET)) then answer_with (JStr "UPID:pve1:1")
      else match lookup_text q.(hq_path) table with Some data => answer_with data | None => Answered 404 None end
  | _ => λ r, r
  end (px_outside e).
Definition vm_listing (vmids : list Z) : string * json :=
  ("/nodes/pve1/qemu", JArr (map (λ v, JObj [("vmid", JNum v)]) vmids)).
Definition config_of (vmid : Z) (config : json) : string * json :=
  ("/nodes/pve1/qemu/" ++ string_of_Z vmid ++ "/config", config).
Definition status_of (vmid : Z) (status : json) : string * json :=
  ("/nodes/pve1/qemu/" ++ string_of_Z vmid ++ "/status/current", status).
(** The changes of a run. *)
Definition changes (world : ∀ e, tf_reply e) (c : px_call) : list HttpRequest :=
  omap (λ x, match effect_of x with
             | Http q => if bool_decide (q.(hq_method) = GET) then None else Some q
             | _ => None
             end) (fst (run world (px_run c))).

Lemma accepted_task_is_polled_witness :
  ∃ status fields,
    fst (run (table_world [("/nodes/pve1/tasks/UPID%3Apve1%3A1/status",
                            JObj [("status", JStr "stopped"); ("exitstatus", JStr "OK")])])
           (getTask (H0 := plain_base64url) px_configuration (Some (px_sample_context "o1"))
              (Some "pve1:UPID:pve1:1")))
    = [@Exchange _ tf_reply (Http {| hq_method := GET; hq_path := status_path px_configuration "UPID:pve1:1"; hq_body := None |})
         (Answered status (Some (JObj fields)))]
    ∧ task TASK_SUCCEEDED = task_report (field "data" fields).
Proof.
  set (world := table_world _). set (m := getTask _ _ _).
  refine (accepted_task_is_polled (H0 := plain_base64url) px_configuration (λ s, eq_refl) (Some (px_sample_context "o1"))
    (Some 910007) "UPID:pve1:1" (fst (run world m)) (task TASK_SUCCEEDED) _ eq_refl _).
  - split; [discriminate|]. apply Forall_forall. intros c Hc. apply list_elem_of_In in Hc.
    repeat (destruct Hc as [<-|Hc]; [reflexivity|]). destruct Hc.
  - assert (Ho : snd (run world m) = Ok (task TASK_SUCCEEDED)) by (vm_compute; reflexivity).
    pose proof (run_traces tf_reply world m) as Hr. destruct (run world m) as [t o]. cbn in Ho. subst o. exact Hr.
Defined.

(** ** A replayed create clones again *)

Definition create_again : px_call :=
  PxCreate {| sc_context := Some (px_sample_context "o1"); sc_imageId := Some "ubuntu"; sc_hostname := Some "web-1";
              sc_resources := None; sc_network := None; sc_sshPublicKeys := None;
              sc_ownershipMarkers := Some px_sample_markers |}.
Definition other_markers : OwnershipMarkers :=
  {| managedBy := "private-cloud-control-plane"; environment := "lab"; marker_projectId := "p1";
     marker_instanceId := "i2"; marker_createOperationId := "o9" |}.
Definition carrying (m : OwnershipMarkers) : json := JObj [("description", JStr (ownershipDescription m))].
(** Another instance's machine holds the first number probed. *)
Definition crowded : ∀ e, tf_reply e := table_world [vm_listing [910007]; config_of 910007 (carrying other_markers)].
(** That machine is gone, and the clone of the first submission is there. *)
Definition vacated : ∀ e, tf_reply e := table_world [vm_listing [910008]; config_of 910008 (carrying px_sample_markers)].
(** Nothing has changed since the first submission. *)
Definition unchanged : ∀ e, tf_reply e :=
  table_world [vm_listing [910007; 910008]; config_of 910007 (carrying other_markers);
               config_of 910008 (carrying px_sample_markers)].
Definition clone_into (v : Z) : HttpRequest :=
  {| hq_method := POST; hq_path := "/nodes/pve1/qemu/9000/clone";
     hq_body := Some [("newid", string_of_Z v); ("name", "web-1"); ("full", "1"); ("storage", "local");
                      ("description", ownershipDescription px_sample_markers)] |}.

(** The search for an instance's machine stops at the first free number.  A
    create is cloned into the second number, as the first is taken; repeated
    while nothing changed it finds its own machine; repeated after the machine
    before it was purged it clones a second machine with the same markers. *)
Theorem replayed_create_clones_again :
  changes crowded create_again = [clone_into 910008]
  ∧ changes unchanged create_again = []
  ∧ changes vacated create_again = [clone_into 910007].
Proof. split_and!; vm_compute; reflexivity. Qed.

(** ** A resize measures another disk than it grows *)

Definition with_cdrom : json :=
  JObj [("description", JStr (ownershipDescription px_sample_markers));
        ("scsi0", JStr "local:iso/cloud.iso,media=cdrom,size=4M"); ("virtio0", JStr "local:vm-910007-disk-0,size=64G")].
Definition stopped : json := JObj [("status", JStr "stopped")].
Definition cdrom_world : ∀ e, tf_reply e := table_world [config_of 910007 with_cdrom; status_of 910007 stopped].
Definition to_32_gib : px_call :=
  PxResize (Some px_sample_request) (Some {| rs_cpuCount := Some 2; rs_memoryMib := Some "2048"; rs_diskGib := Some "32" |}).

(** The size compared is that of the CD-ROM on the first bus; the disk asked
    to change is the next one, which is larger than the size asked for. *)
Theorem shrink_guard_measures_the_cdrom :
  diskGiB with_cdrom = Some 1
  ∧ changes cdrom_world to_32_gib
    = [{| hq_method := POST; hq_path := "/nodes/pve1/qemu/910007/config";
          hq_body := Some [("cores", "2"); ("sockets", "1"); ("vcpus", "2"); ("memory", "2048")] |};
       {| hq_method := PUT; hq_path := "/nodes/pve1/qemu/910007/resize";
          hq_body := Some [("disk", "virtio0"); ("size", "32G")] |}].
Proof. split; vm_compute; reflexivity. Qed.

(** ** A purge does not wait *)

(** The destruction follows the stop at once: the task of the stop is never
    polled, and no authorization is looked at. *)
Theorem purge_does_not_wait_for_the_stop :
  fst (run px_outside (px_run (PxPurge (Some px_sample_request))))
  = [@Exchange _ tf_reply (Http {| hq_method := GET; hq_path := "/nodes/pve1/qemu/910007/config"; hq_body := None |}) (answer_with marked);
     @Exchange _ tf_reply (Http {| hq_method := GET; hq_path := "/nodes/pve1/qemu/910007/status/current"; hq_body := None |}) (answer_with running);
     @Exchange _ tf_reply (Http {| hq_method := POST; hq_path := "/nodes/pve1/qemu/910007/status/stop";
                                   hq_body := Some [("overrule-shutdown", "1")] |}) (answer_with (JStr "UPID:pve1:1"));
     @Exchange _ tf_reply (Http px_destroy) (answer_with (JStr "UPID:pve1:1"))].
Proof. vm_compute. reflexivity. Qed.
