(* ===== verification/ProviderWire.v ===== *)
(** * The provider boundary

    [provider-grpc.controller.ts] of the provider service and
    [grpc-provider.client.ts] of the orchestrator: a call of the port crosses
    gRPC, the controller hands it to the adapter (here the direct one), and
    what the adapter throws comes back as a status that the client classifies.
    The gRPC library is the identity on messages, and answers with a status
    of its own when a call does not get through. *)
From S2P Require Import Prelude JsText Json SshKey Domain PageCursor Ipv4 WorkflowStage Events EventValidation Platform Saga SagaLogic ProviderPort JsonParse PlanGate Ownership Redaction TerraformRunner DirectClient TerraformProvider ProviderLogic ProxmoxProvider ProxmoxSafety.
From Stdlib Require Import ZArith Lia Bool Ascii String.
From stdpp Require Import base decidable list sets strings.
Open Scope string_scope.
Open Scope Z_scope.
Open Scope prog_scope.

(** ** Failures *)

Inductive Status : Set :=
| CANCELLED | DEADLINE_EXCEEDED | FAILED_PRECONDITION | UNAVAILABLE | INTERNAL | OTHER_STATUS (n : Z).

(** The controller's [rpcError]: the retryable flag does not cross. *)
Definition rpcError (e : tf_error) : Status :=
  match e with
  | TransportError e _ =>
      match e.(error_transport_code) with
      | aborted => CANCELLED
      | deadline_exceeded => DEADLINE_EXCEEDED
      | protocol_error => FAILED_PRECONDITION
      | unavailable => UNAVAILABLE
      end
  | OrdinaryError _ => INTERNAL
  end.
(** The client's [transportError]. *)
Definition classify (s : Status) : ProviderTransportError :=
  let code := match s with
              | DEADLINE_EXCEEDED => deadline_exceeded
              | CANCELLED => aborted
              | UNAVAILABLE => unavailable
              | _ => protocol_error
              end in
  transportError code (Some (negb (bool_decide (code = protocol_error)))).
Definition over_grpc {A : Set} (o : result tf_error A) : rpc_result A :=
  match o with Ok a => Reply a | Err e => TransportFailure (classify (rpcError e)) end.

(** ** Timestamps *)

Record WireTimestamp : Set := { wt_seconds : Z; wt_nanos : Z }.
(** A date of the port, in milliseconds, and back; [new Date] truncates. *)
Definition wireTimestamp (milliseconds : Z) : WireTimestamp :=
  {| wt_seconds := milliseconds / 1000; wt_nanos := Z.rem milliseconds 1000 * 1000000 |}.
Definition isoTimestamp (w : WireTimestamp) : Z := Z.quot (w.(wt_seconds) * 1000000000 + w.(wt_nanos)) 1000000.

(** A date from 1970 on crosses the wire unchanged; an earlier one that is not
    a whole second comes back a second early. *)
Lemma timestamp_roundtrip (ms : Z) :
  isoTimestamp (wireTimestamp ms) = if (0 <=? ms) || (ms mod 1000 =? 0) then ms else ms - 1000.
Proof.
  unfold isoTimestamp, wireTimestamp. cbn.
  replace (ms / 1000 * 1000000000 + Z.rem ms 1000 * 1000000) with ((ms / 1000 * 1000 + Z.rem ms 1000) * 1000000) by lia.
  rewrite Z.quot_mul by lia. destruct (Z.leb_spec 0 ms); cbn [orb].
  - rewrite Z.rem_mod_nonneg by lia. pose proof (Z.div_mod ms 1000). lia.
  - pose proof (Z.quot_rem' ms 1000). pose proof (Z.div_mod ms 1000). pose proof (Z.mod_pos_bound ms 1000).
    pose proof (Z.rem_bound_pos (- ms) 1000). rewrite Z.rem_opp_l in * by lia.
    destruct (Z.eqb_spec (ms mod 1000) 0); lia.
Qed.

(** ** Calls *)

Section calls.
Context `{Platform, Base64url, IpAddresses}.
Variable configuration : ProxmoxProviderConfiguration.
(** The adapter's clock during a call. *)
Variable now : Z.

Definition port_request (q : InstanceRequest) : MutationRequest :=
  {| mr_context := Some q.(context); mr_providerResourceId := Some q.(request_providerResourceId);
     mr_expectedOwnershipMarkers := Some q.(expectedOwnershipMarkers) |}.
Definition port_resources (r : WireResources) : RequestResources :=
  {| rs_cpuCount := Some r.(wire_cpuCount); rs_memoryMib := Some r.(wire_memoryMib); rs_diskGib := Some r.(wire_diskGib) |}.
Definition port_network (n : WireNetwork) : ConfigurationNetwork :=
  {| cn_networkId := Some n.(wire_networkId); cn_ipv4Address := Some n.(wire_ipv4Address);
     cn_ipv4PrefixLength := Some n.(wire_ipv4PrefixLength); cn_ipv4Gateway := Some n.(wire_ipv4Gateway);
     cn_dnsServers := Some n.(wire_dnsServers) |}.
(** The create message; the network's identifier is not a member the adapters
    read on create. *)
Definition create_request (c : ProviderCallContext) (image : string) (g : GuestConfiguration) (m : OwnershipMarkers) :
    SubmitCreateRequest :=
  {| sc_context := Some c; sc_imageId := Some image; sc_hostname := Some g.(guest_hostname);
     sc_resources := Some (port_resources g.(guest_resources)); sc_network := Some {| rn_ipv4Address := Some g.(guest_network).(wire_ipv4Address);
                           rn_ipv4PrefixLength := Some g.(guest_network).(wire_ipv4PrefixLength);
                           rn_ipv4Gateway := Some g.(guest_network).(wire_ipv4Gateway);
                           rn_dnsServers := Some g.(guest_network).(wire_dnsServers) |};
     sc_sshPublicKeys := Some g.(guest_sshPublicKeys); sc_ownershipMarkers := Some m |}.
Definition configuration_request (q : InstanceRequest) (g : GuestConfiguration) : ConfigurationRequest :=
  {| cf_context := Some q.(context); cf_providerResourceId := Some q.(request_providerResourceId);
     cf_ownershipMarkers := Some q.(expectedOwnershipMarkers); cf_hostname := Some g.(guest_hostname);
     cf_resources := Some (port_resources g.(guest_resources)); cf_network := Some (port_network g.(guest_network));
     cf_sshPublicKeys := Some g.(guest_sshPublicKeys) |}.
(** The deadline an adapter is handed. *)
Definition deadline_text (deadline : Z) : string := toISOString (isoTimestamp (wireTimestamp deadline)).

Definition answered {A : Set} (m : tf_step A) : tf_step (option A) := let^ a := m in Ret (Some a).
(** The controller's handler of a call, over the direct adapter. *)
Definition handle_rpc (c : rpc) : tf_step (rpc_reply c) :=
  match c return tf_step (rpc_reply c) with
  | ProviderPort.getTask c reference => getTask configuration (Some c) (Some reference)
  | ProviderPort.submitCreateInstance c image _ g m =>
      answered (submitCreateInstance configuration (create_request c image g m))
  | ProviderPort.applyInstanceConfiguration q g =>
      answered (applyInstanceConfiguration configuration (configuration_request q g))
  | ProviderPort.startInstance q => answered (startInstance configuration (Some (port_request q)))
  | ProviderPort.shutdownInstance q => answered (shutdownInstance configuration (Some (port_request q)))
  | ProviderPort.stopInstance q => answered (stopInstance configuration (Some (port_request q)))
  | ProviderPort.rebootInstance q => answered (rebootInstance configuration (Some (port_request q)))
  | ProviderPort.resizeInstance q target =>
      answered (resizeInstance configuration (Some (port_request q)) (Some (port_resources target)))
  | ProviderPort.createSnapshot q _ name description =>
      answered (createSnapshot configuration (Some (port_request q)) (Some name) description)
  | ProviderPort.rollbackSnapshot q _ reference =>
      answered (rollbackSnapshot configuration (Some (port_request q)) (Some reference))
  | ProviderPort.deleteSnapshot q _ reference =>
      answered (deleteSnapshot configuration (Some (port_request q)) (Some reference))
  | ProviderPort.markInstanceRetained q deadline =>
      answered (markInstanceRetained configuration (Some (port_request q)) (Some (deadline_text deadline)))
  | ProviderPort.purgeInstance q _ _ => answered (purgeInstance configuration (Some (port_request q)))
  | ProviderPort.observeInstance q => answered (observeInstance configuration now (port_request q))
  | ProviderPort.listSnapshots q =>
      let^ rows := listSnapshots configuration (port_request q) in Ret (Some (map (λ r, Some r.(sn_name)) rows))
  end.
End calls.
