(* ===== verification/ProviderOverProxmox.v ===== *)
(** * The workflows over the direct provider

    The saga's steps served across the provider boundary by the direct
    adapter: what becomes of an operation whose calls the adapter turns away,
    and of one whose change was accepted with an answer that cannot be read. *)
From S2P Require Import Prelude JsText Json SshKey Domain PageCursor Ipv4 WorkflowStage Events EventValidation Platform Saga SagaLogic ProviderPort Lifecycle Capabilities Executors ExecutorProgress ExecutorFindings JsonParse PlanGate Ownership Redaction TerraformRunner DirectClient TerraformProvider ProviderLogic ProxmoxProvider ProxmoxSafety ProviderWire.
From Stdlib Require Import ZArith Lia Bool Ascii String.
From stdpp Require Import base decidable list sets strings.
Open Scope string_scope.
Open Scope Z_scope.
Open Scope prog_scope.

(** ** Turned away *)

(** The markers a call says its machine carries. *)
Definition rpc_markers (c : rpc) : option OwnershipMarkers :=
  match c with
  | ProviderPort.getTask _ _ => None
  | ProviderPort.submitCreateInstance _ _ _ _ m => Some m
  | ProviderPort.applyInstanceConfiguration q _ | ProviderPort.startInstance q | ProviderPort.shutdownInstance q
  | ProviderPort.stopInstance q | ProviderPort.rebootInstance q | ProviderPort.resizeInstance q _
  | ProviderPort.createSnapshot q _ _ _ | ProviderPort.rollbackSnapshot q _ _ | ProviderPort.deleteSnapshot q _ _
  | ProviderPort.markInstanceRetained q _ | ProviderPort.purgeInstance q _ _ | ProviderPort.observeInstance q
  | ProviderPort.listSnapshots q => Some q.(expectedOwnershipMarkers)
  end.
Definition any_createOperation : AnyWorkflow → string := on_claimed (λ _ _ w, createOperationId w).

Lemma execute_markers (env : Environment) (aw : AnyWorkflow) (t : trace) (o : outcome) (c : rpc) (m : OwnershipMarkers) :
  traces (execute_any env aw) t o → Rpc c ∈ effects t → rpc_markers c = Some m →
  m.(marker_createOperationId) = any_createOperation aw
  ∧ (rpc_context c).(ctx_operationId) = (any_envelope aw).(operationId).
Proof.
  destruct aw as [w|w|w|[] w|w|w]; simpl; intros H Hin Hm; exec H; split_effects Hin; subst c; try discriminate Hm;
    injection Hm as <-; split; reflexivity.
Qed.

(** Ends without any exchange, in a refusal. *)
Definition turned_away {A : Type} (m : tf_step A) : Prop :=
  ∀ t o, traces m t o → t = [] ∧ o = Err (TransportError refused None).

Lemma away_bind {A B : Type} (m : tf_step A) (k : A → tf_step B) : turned_away m → turned_away (sbind m k).
Proof.
  intros Hm t o [(t1 & t2 & a & _ & H1 & _)|(x & -> & H1)]%traces_bind.
  - by apply Hm in H1 as [_ [=]].
  - apply Hm in H1 as [-> [= ->]]. done.
Qed.

Section adapter.
Context `{Platform, Base64url, IpAddresses}.
Variable configuration : ProxmoxProviderConfiguration.

(** A step that only checks: it has no effect, and fails by refusing. *)
Definition checks {A : Type} (m : tf_step A) : Prop :=
  (∃ a, m = Ret a) ∨ m = Throw (TransportError refused None).
Lemma checks_bind {A B : Type} (m : tf_step A) (k : A → tf_step B) : checks m → (∀ a, checks (k a)) → checks (sbind m k).
Proof. intros [[a ->]| ->] Hk; [apply Hk|by right]. Qed.
Lemma checks_required (v : option string) : checks (lift (required v)).
Proof. unfold required. destruct (present v); [left; by eexists|by right]. Qed.
Lemma checks_some {A : Type} (v : option A) : checks (some_or_refuse v).
Proof. destruct v; [left; by eexists|by right]. Qed.
Lemma checks_if {A : Type} (b : bool) (a : A) : checks (if b then Ret a else throw_refused).
Proof. destruct b; [left; by eexists|by right]. Qed.
Lemma context_checks (c : option ProviderCallContext) : checks (assertContext configuration c).
Proof.
  unfold assertContext, assertDirectProfile.
  repeat first [apply checks_bind; [|intros ?] | apply checks_required | apply checks_some | apply checks_if].
  left. by eexists.
Qed.

(** Markers of another operation than the context's never pass. *)
Lemma foreign_ownership (m : OwnershipMarkers) (c : ProviderCallContext) :
  m.(marker_createOperationId) ≠ c.(ctx_operationId) → turned_away (assertOwnership configuration (Some m) c).
Proof.
  intros Hne t o. unfold assertOwnership. cbn [some_or_refuse sbind].
  destruct (String.eqb_spec m.(marker_createOperationId) c.(ctx_operationId)); [done|]. rewrite andb_false_r.
  by intros [-> ->].
Qed.
Lemma foreign_opening {A : Type} (c : ProviderCallContext) (m : OwnershipMarkers) (k : ProviderCallContext → OwnershipMarkers → tf_step A) :
  m.(marker_createOperationId) ≠ c.(ctx_operationId) →
  turned_away (let^ context := assertContext configuration (Some c) in
               let^ ownership := assertOwnership configuration (Some m) context in k context ownership).
Proof.
  intros Hne t o Ht. destruct (context_checks (Some c)) as [[c' Hc]|Hc]; rewrite Hc in Ht.
  - cbn [sbind] in Ht. assert (Hsome : traces (assertContext configuration (Some c)) [] (Ok c')) by by rewrite Hc.
    apply context_traces in Hsome as (_ & [= <-] & _). revert Ht. by apply away_bind, foreign_ownership.
  - destruct Ht as [-> ->]. done.
Qed.
Lemma foreign_machine (q : InstanceRequest) :
  q.(expectedOwnershipMarkers).(marker_createOperationId) ≠ q.(context).(ctx_operationId) →
  turned_away (owned_machine configuration (port_request q)).
Proof. intros Hne. by apply foreign_opening. Qed.

Lemma foreign_call (now : Z) (c : rpc) (m : OwnershipMarkers) :
  rpc_markers c = Some m → m.(marker_createOperationId) ≠ (rpc_context c).(ctx_operationId) →
  turned_away (handle_rpc configuration now c).
Proof.
  intros Hm Hne. destruct c; cbn in Hm, Hne; try discriminate Hm; injection Hm as <-; apply away_bind.
  all: try by apply away_bind, foreign_machine.
  all: try by apply away_bind, away_bind, foreign_machine.
  all: by apply foreign_opening.
Qed.
End adapter.

(** A call's outcome as the workflow gets it, when the call got through to the
    adapter. *)
Definition served_by_adapter `{Platform, Base64url, IpAddresses} (configuration : ProxmoxProviderConfiguration) (t : trace) : Prop :=
  ∀ c r, @Exchange _ ProviderPort.reply (Rpc c) r ∈ t →
    ∃ now (h : history) out, traces (handle_rpc configuration now c) h out ∧ r = over_grpc out.

Lemma call_exchanged (t : trace) (c : rpc) : Rpc c ∈ effects t → ∃ r, @Exchange _ ProviderPort.reply (Rpc c) r ∈ t.
Proof.
  unfold effects. intros ([e r] & Heq & Hin)%list_elem_of_fmap. cbn in Heq. subst e. by exists r.
Qed.

(** A step whose one call is rejected fails its operation. *)
Lemma rejected_call_fails (env : Environment) (aw : AnyWorkflow) (t : trace) (o : outcome) (c : rpc) :
  traces (runAny env aw) t o → Rpc c ∈ effects t →
  (∀ r, @Exchange _ ProviderPort.reply (Rpc c) r ∈ t → r = TransportFailure (transportError protocol_error (Some false))) →
  ∃ i, effects t = [Rpc c; i] ∧ ends_failed "PROVIDER_PROTOCOL_ERROR" i.
Proof.
  intros Ht Hin Hr. apply runAny_traces in Ht as [[_ ->]|[_ [[Ht Hno]|(t1 & t2 & e & -> & H1 & H2)]]].
  - by apply effects_nil in Hin.
  - apply execute_cases in Ht as [(i & Hw)|[(c' & r & t' & -> & i & Hw)|(e & -> & _)]]; [| |by destruct (Hno e)].
    + apply (effects_written _ _ _ _ Hw) in Hin as <-. by destruct Hw.
    + apply effects_cons in Hin as [[= <-]|Hin].
      * specialize (Hr (Reply r) ltac:(by left)). discriminate Hr.
      * apply (effects_written _ _ _ _ Hw) in Hin as <-. by destruct Hw.
  - apply execute_cases in H1 as [(i & _ & _ & Ho)|[(c' & r & t' & _ & i & _ & _ & Ho)|(e' & [= <-] & Hcase)]].
    1,2: by destruct Ho as [[=]|(m & [=])].
    destruct Hcase as [->|(c' & ->)]; [by apply (handle_only_writes _ _ _ _ _ _ H2) in Hin|].
    apply effects_cons in Hin as [[= <-]|Hin]; [|by apply (handle_only_writes _ _ _ _ _ _ H2) in Hin].
    specialize (Hr (TransportFailure e) ltac:(by left)). injection Hr as ->.
    apply rejected_fails in H2 as (i & Hi & Hf). exists i. split; [|done]. unfold effects in *. cbn. by rewrite Hi.
Qed.

(** C12: Over the direct adapter every later operation fails unperformed.  The
    adapter accepts ownership markers only when the operation that created the
    machine is the operation of the call.  So for a workflow of any capability
    whose operation is not the one that created its instance, every call but a
    poll is turned away before the adapter asks Proxmox anything, the client
    takes the refusal for a protocol error, and the step ends the operation as
    failed: no power action, resize, snapshot, retention or purge is ever
    performed. *)
Theorem later_operations_fail_unperformed `{Platform, Base64url, IpAddresses} (configuration : ProxmoxProviderConfiguration)
    (env : Environment) (aw : AnyWorkflow) (t : trace) (o : outcome) (c : rpc)
    (Hlater : any_createOperation aw ≠ (any_envelope aw).(operationId))
    (Ht : traces (runAny env aw) t o) (Hserved : served_by_adapter configuration t)
    (Hcall : Rpc c ∈ effects t) (Hpoll : rpc_markers c ≠ None) :
  (∀ now h out, traces (handle_rpc configuration now c) h out → h = [])
  ∧ ∃ i, effects t = [Rpc c; i] ∧ ends_failed "PROVIDER_PROTOCOL_ERROR" i.
Proof.
  assert (Haway : ∀ now, turned_away (handle_rpc configuration now c)).
  { intros now. destruct (rpc_markers c) as [m|] eqn:Em; [|done]. apply (foreign_call _ _ _ m); [done|].
    assert (Hm : m.(marker_createOperationId) = any_createOperation aw
                 ∧ (rpc_context c).(ctx_operationId) = (any_envelope aw).(operationId)).
    { apply runAny_traces in Ht as [[_ ->]|[_ [[Ht _]|(t1 & t2 & e & -> & Hx & Hy)]]].
      - by apply effects_nil in Hcall.
      - by eapply execute_markers.
      - apply effects_app in Hcall as [Hin|Hin]; [by eapply execute_markers|].
        by apply (handle_only_writes _ _ _ _ _ _ Hy) in Hin. }
    destruct Hm as [-> ->]. exact Hlater. }
  split; [intros now h out Hh; by apply Haway in Hh as [-> _]|].
  apply (rejected_call_fails env aw t o c Ht Hcall). intros r Hin.
  destruct (Hserved c r Hin) as (now & h & out & Hh & ->). by apply Haway in Hh as [_ ->].
Qed.

(** ** Answers that cannot be read *)

(** A change was answered as successful, with a body that is no JSON. *)
Definition unreadable (x : exchange tf_reply) : bool :=
  match x with
  | Exchange e r =>
      match e as e0 return tf_reply e0 → bool with
      | Http q => λ r, match r with
                       | Answered status None => negb (bool_decide (q.(hq_method) = GET)) && response_ok status
                       | _ => false
                       end
      | _ => λ _, false
      end r
  end.
Definition unread (h : history) : Prop := Exists (λ x, unreadable x = true) h.
(** After such an answer nothing more is exchanged, and the call is refused. *)
Definition stops {A : Type} (m : tf_step A) : Prop :=
  ∀ h, ¬ unread h → wp (λ h _, ¬ unread h) h m (λ h o, unread h → o = Err (TransportError refused None)).

Lemma reads_unread (t : history) : Forall (λ x, reads (effect_of x)) t → ¬ unread t.
Proof.
  unfold unread. rewrite Forall_forall, Exists_exists. intros Ht ([e r] & Hin & Hx). specialize (Ht _ Hin).
  destruct e; try done. cbn in Ht, Hx. destruct r as [s [b|]|]; try done. by rewrite bool_decide_eq_true_2 in Hx.
Qed.

Lemma stops_ret {A : Type} (a : A) : stops (Ret a).
Proof. intros h Hh. cbn. done. Qed.
Lemma stops_throw {A : Type} (x : tf_error) : stops (A := A) (Throw x).
Proof. intros h Hh. cbn. done. Qed.
Lemma stops_bind {A B : Type} (m : tf_step A) (k : A → tf_step B) : stops m → (∀ a, stops (k a)) → stops (sbind m k).
Proof.
  intros Hm Hk h Hh. apply wp_bind. eapply wp_mono; [|by apply Hm]. intros h' [a|x] Ho.
  - apply Hk. intros Hu. by specialize (Ho Hu).
  - intros Hu. by injection (Ho Hu) as ->.
Qed.
Lemma stops_reads {A : Type} (m : tf_step A) : does reads m → stops m.
Proof.
  intros Hm h Hh. apply (wp_does reads); [done|..].
  - intros t e Ht _ [?|Hu]%Exists_app; [done|by apply (reads_unread t)].
  - intros t o Ht _ [?|Hu]%Exists_app; [done|by destruct (reads_unread t)].
Qed.
Lemma stops_request (method : HttpMethod) (path : string) (body : option form) : stops (request method path body).
Proof.
  intros h Hh. split; [done|]. intros r.
  assert (Hq : unread (h ++ [@Exchange _ tf_reply (Http {| hq_method := method; hq_path := path; hq_body := body |}) r]) →
               ∃ s, r = Answered s None ∧ response_ok s = true).
  { intros [?|Hx%Exists_cons]%Exists_app; [done|]. destruct Hx as [Hx|Hx%Exists_nil]; [|done].
    cbn in Hx. destruct r as [s [b|]|]; try done. exists s. split; [done|]. by apply andb_true_iff in Hx as [_ ?]. }
  destruct r as [s b|code]; [|by intros (? & [=] & _)%Hq].
  destruct (response_ok s) eqn:Es; cbn [negb]; [|by intros (? & [= <- ->] & ?)%Hq; congruence].
  destruct b as [b|]; [|done]. destruct b; try (destruct (existsb _ _)); by intros (? & [=] & _)%Hq.
Qed.

Section unread.
Context `{Platform, Base64url, IpAddresses}.
Variable configuration : ProxmoxProviderConfiguration.

Hint Resolve context_does px_ownership_does px_vmid_does name_does member_does optional_does truthy_does accepted_task_does
  accepted_or_does owned_machine_does status_does available_does find_free_does vmConfig_does px_prepare_does
  getTask_does listSnapshots_does observe_does : program.

Ltac stopping := repeat first
  [ progress cbv zeta
  | match goal with
    | |- stops (sbind _ _) => apply stops_bind; [|intros ?]
    | |- stops (Ret _) => apply stops_ret
    | |- stops (Throw _) => apply stops_throw
    | |- stops throw_refused => apply stops_throw
    | |- stops (request _ _ _) => apply stops_request
    | |- stops (match ?x with _ => _ end) => destruct x
    end
  | apply stops_reads; eauto with program; fail ].

Lemma disk_reads (config : json) (names : list string) : does reads (first_disk config names).
Proof. induction names; cbn [first_disk]; unfold throw_refused; doing. Qed.
Hint Resolve disk_reads : program.

Lemma handle_stops (now : Z) (c : rpc) : stops (handle_rpc configuration now c).
Proof.
  destruct c; unfold handle_rpc, answered.
  - apply stops_reads. doing.
  - unfold submitCreateInstance. stopping.
  - unfold applyInstanceConfiguration, assertResources, assertNetwork. stopping.
  - unfold startInstance, power. stopping.
  - unfold shutdownInstance, powerTransition, power. stopping.
  - unfold stopInstance, powerTransition, power. stopping.
  - unfold rebootInstance, powerTransition, power. stopping.
  - unfold resizeInstance, primaryDiskKey. stopping.
  - unfold createSnapshot. stopping.
  - unfold rollbackSnapshot. stopping.
  - unfold deleteSnapshot. stopping.
  - unfold markInstanceRetained. stopping.
  - unfold purgeInstance. stopping.
  - apply stops_reads. doing.
  - apply stops_reads. doing.
Qed.
End unread.

(** An unreadable answer is called a failure.  When Proxmox accepts a
    change and its answer cannot be read, the change is the last thing the
    adapter does; what it throws crosses the boundary as a protocol error, which
    stands for a request rejected before anything happened, and the step ends
    the operation as failed, where an outcome that is not known belongs under
    manual review. *)
Theorem unreadable_answer_is_called_failure `{Platform, Base64url, IpAddresses} (configuration : ProxmoxProviderConfiguration)
    (now : Z) (env : Environment) (aw : AnyWorkflow) (t : trace) (o : outcome) (c : rpc) (h : history)
    (out : result tf_error (rpc_reply c))
    (Ht : traces (runAny env aw) t o) (Hcall : Rpc c ∈ effects t)
    (Hserved : ∀ r, @Exchange _ ProviderPort.reply (Rpc c) r ∈ t → r = over_grpc out)
    (Hh : traces (handle_rpc configuration now c) h out) (Hunread : unread h) :
  (∃ before x, h = (before ++ [x])%list ∧ unreadable x = true)
  ∧ ∃ i, effects t = [Rpc c; i] ∧ ends_failed "PROVIDER_PROTOCOL_ERROR" i.
Proof.
  assert (Hnil : ¬ unread []) by by intros ?%Exists_nil.
  destruct (wp_sound _ _ _ [] h out (handle_stops configuration now c [] Hnil) Hh) as [Hout Hall].
  specialize (Hout Hunread). subst out. split.
  - unfold unread in Hunread. rewrite Exists_exists in Hunread. destruct Hunread as (x & Hin & Hx).
    apply list_elem_of_split in Hin as (before & after & ->). exists before, x. split; [|done].
    destruct after as [|[e r] after]; [done|]. destruct (Hall (before ++ [x])%list e r after); [by rewrite <- app_assoc|].
    apply Exists_exists. exists x. split; [|done]. cbn [app]. apply elem_of_app. right. by left.
  - exact (rejected_call_fails env aw t o c Ht Hcall Hserved).
Qed.

(** ** The theorems on concrete runs *)

(** A workflow outside whose calls the direct adapter serves in the world
    [world]. *)
Definition px_handle (c : rpc) : tf_step (rpc_reply c) :=
  handle_rpc (H := hex_platform) (H0 := plain_base64url) (H1 := flat_addresses) px_configuration 0 c.
Definition over_adapter (world : ∀ e, tf_reply e) (e : ProviderPort.effect) : ProviderPort.reply e :=
  match e return ProviderPort.reply e with
  | Rpc c => over_grpc (snd (run world (px_handle c)))
  | Checkpoint _ | Complete _ | DeadLetterWorkflow _ => Stored
  end.
Definition adapter_trace (world : ∀ e, tf_reply e) (aw : AnyWorkflow) : trace := fst (run (over_adapter world) (runAny sample_env aw)).

Lemma handled_traces (world : ∀ e, tf_reply e) (c : rpc) :
  traces (px_handle c) (fst (run world (px_handle c))) (snd (run world (px_handle c))).
Proof. pose proof (run_traces tf_reply world (px_handle c)) as Hr. by destruct (run world (px_handle c)). Qed.
Lemma over_adapter_replies (world : ∀ e, tf_reply e) (aw : AnyWorkflow) (c : rpc) (r : ProviderPort.reply (Rpc c)) :
  @Exchange _ ProviderPort.reply (Rpc c) r ∈ adapter_trace world aw → r = over_grpc (snd (run world (px_handle c))).
Proof.
  intros Hin. pose proof (run_replies (over_adapter world) (runAny sample_env aw)) as Hr. rewrite Forall_forall in Hr.
  exact (Hr _ Hin).
Qed.

Definition sample_sizing : Sizing := {| cpuCount := 2; memoryMiB := 2048; Domain.diskGiB := 32 |}.
Definition sample_create_data : CreateData :=
  {| create_imageId := "ubuntu"; create_flavorId := "f1"; create_networkId := "net-1"; create_providerProfileId := "pp";
     create_hostname := "web-1"; create_resources := sample_sizing;
     create_ipv4 := {| address := "10.0.0.7"; prefixLength := 24; Events.ipv4_gateway := "10.0.0.1"; Events.dnsServers := ["1.1.1.1"] |};
     create_sshPublicKeys := None |}.
(** A create about to be submitted, and a purge about to be verified. *)
Definition create_to_submit : AnyWorkflow := W_create (sample_claim sample_create_data create_instance submitting_create).
Definition purge_to_check : AnyWorkflow := W_purge (sample_claim sample_purge_data purge_instance verifying_purge).

Definition verify_call : rpc :=
  ProviderPort.observeInstance
    {| context := call_context (sample_claim sample_purge_data purge_instance verifying_purge) "verify-purge";
       request_providerResourceId := "vm-100";
       expectedOwnershipMarkers := ownership (sample_claim sample_purge_data purge_instance verifying_purge) |}.

Lemma later_operations_fail_unperformed_witness :
  any_createOperation purge_to_check = "o0"
  ∧ ∃ i, effects (adapter_trace px_outside purge_to_check) = [Rpc verify_call; i] ∧ ends_failed "PROVIDER_PROTOCOL_ERROR" i.
Proof.
  split; [reflexivity|].
  refine (proj2 (later_operations_fail_unperformed (H := hex_platform) (H0 := plain_base64url) (H1 := flat_addresses)
    px_configuration sample_env purge_to_check (adapter_trace px_outside purge_to_check) _ verify_call _
    (run_is_trace (over_adapter px_outside) (runAny sample_env purge_to_check)) _ _ _)).
  - discriminate.
  - intros c r Hin. exists 0, (fst (run px_outside (px_handle c))), (snd (run px_outside (px_handle c))).
    split; [apply handled_traces|exact (over_adapter_replies px_outside purge_to_check c r Hin)].
  - by left.
  - discriminate.
Defined.

(** A Proxmox with no machines, whose answer to the clone is cut off. *)
Definition cut_off (e : tf_effect) : tf_reply e :=
  match e as e0 return tf_reply e0 → tf_reply e0 with
  | Http q => λ r, if bool_decide (q.(hq_method) = POST) then Answered 200 None
                   else if endsWith q.(hq_path) "/config" then Answered 404 None else r
  | _ => λ r, r
  end (px_outside e).
Definition create_call : rpc :=
  let w := sample_claim sample_create_data create_instance submitting_create in
  ProviderPort.submitCreateInstance (call_context w "create") "ubuntu" "f1" (CreateInstance.guest w) (ownership w).
Definition cloned : history := fst (run cut_off (px_handle create_call)).

Lemma unreadable_answer_is_called_failure_witness :
  existsb unreadable cloned = true
  ∧ ∃ i, effects (adapter_trace cut_off create_to_submit) = [Rpc create_call; i]
      ∧ ends_failed "PROVIDER_PROTOCOL_ERROR" i.
Proof.
  assert (Hu : existsb unreadable cloned = true) by (vm_compute; reflexivity).
  split; [exact Hu|].
  refine (proj2 (unreadable_answer_is_called_failure (H := hex_platform) (H0 := plain_base64url) (H1 := flat_addresses)
    px_configuration 0 sample_env create_to_submit (adapter_trace cut_off create_to_submit) _ create_call cloned
    (snd (run cut_off (px_handle create_call)))
    (run_is_trace (over_adapter cut_off) (runAny sample_env create_to_submit)) _
    (over_adapter_replies cut_off create_to_submit create_call) (handled_traces cut_off create_call) _)).
  - by left.
  - apply Exists_exists. apply existsb_exists in Hu as (x & Hin & Hx). exists x. split; [by apply list_elem_of_In|exact Hx].
Defined.
