(* ===== verification/ConsoleBff.v ===== *)
(** * The console's server

    [apps/console-bff]: the session store ([session.ts]), the exchange of
    credentials ([identity.ts]), problem documents and the handlers of
    [bootstrap.ts] as programs over the issuer, the API and the sessions.
    Static files, the health of the process and logging are left out; so is
    what Fastify does with an exception that leaves a handler. *)
From S2P Require Import Prelude JsText Json JsonParse Domain Events Platform MessageCodec PageCursor TerraformRunner ControlPlane Saga.
From Stdlib Require Import ZArith Lia Bool Ascii String.
From stdpp Require Import base decidable list strings gmap.
Open Scope string_scope.
Open Scope Z_scope.
Open Scope prog_scope.

(** ** Sessions *)

Definition MAXIMUM_SESSION_MS : Z := 12 * 60 * 60 * 1000.

(** [expiresAt] is [None] when it is [NaN]. *)
Record NewSession : Set := {
  ns_subject : string; ns_displayName : string; ns_projectId : string; ns_accessToken : string; ns_expiresAt : number }.
Record SessionRecord : Set := { sr_session : NewSession; sr_createdAt : Z }.
Abbreviation Sessions := (gmap string SessionRecord).

Definition create (now : Z) (id : string) (r : NewSession) (s : Sessions) : Sessions :=
  <[id := {| sr_session := r; sr_createdAt := now |}]> s.
Definition expired (now : Z) (r : SessionRecord) : bool :=
  match r.(sr_session).(ns_expiresAt) with Some e => e <=? now | None => false end
  || (MAXIMUM_SESSION_MS <=? now - r.(sr_createdAt)).
Definition read (now : Z) (id : option string) (s : Sessions) : option SessionRecord * Sessions :=
  match present id with
  | None => (None, s)
  | Some id =>
      match s !! id with
      | None => (None, s)
      | Some r => if expired now r then (None, delete id s) else (Some r, s)
      end
  end.
Definition destroy (id : option string) (s : Sessions) : Sessions :=
  match present id with Some id => delete id s | None => s end.

(** ** Effects *)

(** A request to the control API. *)
Record ApiRequest : Set := {
  aq_url : string; aq_method : string; aq_headers : list (string * string); aq_body : option string }.

Inductive bff_effect : Set :=
| ExchangeToken (username password : string)
| CreateSession (r : NewSession)
| ReadSession (id : option string)
| DestroySession (id : option string)
| CountSessions
| ProbeApi
| CallApi (q : ApiRequest)
| DateNow.

(** [fetch]: it failed, with the message of the error if it was one, or it was
    answered with a status and a body. *)
Inductive fetched (B : Type) : Type :=
| FetchFailed (message : option string)
| Fetched (status : Z) (body : B).
Arguments FetchFailed {B}.
Arguments Fetched {B}.

Definition bff_reply (e : bff_effect) : Type :=
  match e with
  | ExchangeToken _ _ => fetched (option json)
  | CreateSession _ => string
  | ReadSession _ => option SessionRecord
  | DestroySession _ => unit
  | CountSessions | DateNow => Z
  | ProbeApi => fetched unit
  | CallApi _ => fetched (option string * string)
  end.
(** An exception that leaves the handler. *)
Inductive bff_error : Set := SyntaxError | TypeError | RangeError.
Definition bff_step (A : Type) : Type := saga bff_reply (X := bff_error) A.
Definition perform_effect (e : bff_effect) : bff_step (bff_reply e) := Vis e Ret.

(** ** Responses *)

Inductive payload : Type :=
| Document (contentType : string) (document : json)
| Text (contentType text : string)
| Empty.
Inductive cookie_action : Set := SetCookie (value : string) (secure : bool) | ClearCookie.
Record HttpResponse : Type := { hr_code : Z; hr_payload : payload; hr_cookie : option cookie_action }.

Definition respond (code : Z) (p : payload) : HttpResponse := {| hr_code := code; hr_payload := p; hr_cookie := None |}.

Definition traceReference (traceparent : option string) : option string :=
  t ← present traceparent; fst <$> requestTraceparentPattern t.
Definition zero_trace : string := "00000000000000000000000000000000".
Definition problem (status : Z) (title code detail : string) (instance traceId : option string) : payload :=
  Document "application/problem+json"
    (JObj ([("type", JStr ("https://private-cloud.invalid/problems/" ++ toLowerCase code)); ("title", JStr title);
            ("status", JNum status); ("code", JStr code); ("detail", JStr detail)]
           ++ (match present instance with Some i => [("instance", JStr i)] | None => [] end)
           ++ [("traceId", JStr (default zero_trace traceId))])%list).
Definition refuse (status : Z) (title code detail : string) (instance traceparent : option string) : HttpResponse :=
  respond status (problem status title code detail instance (traceReference traceparent)).

(** [new Date(ms).toISOString()]. *)
Definition iso `{Platform} (ms : number) : bff_step string :=
  match ms with
  | Some ms => if Z.abs ms <=? 8640000000000000 then Ret (toISOString ms) else Throw RangeError
  | None => Throw RangeError
  end.
(** [publicView]. *)
Definition publicView `{Platform} (r : NewSession) : bff_step json :=
  let^ expires := iso r.(ns_expiresAt) in
  Ret (JObj [("subject", JStr r.(ns_subject)); ("displayName", JStr r.(ns_displayName));
             ("projectId", JStr r.(ns_projectId)); ("expiresAt", JStr expires)]).

(** ** Identity *)

Record Claims : Set := { cl_subject : option string; cl_projectId : option string }.
Definition is_string (v : json) : option string := match v with JStr s => Some s | _ => None end.
Definition no_claims : Claims := {| cl_subject := None; cl_projectId := None |}.
(** [claims]: the subject and the first project a token names. *)
Definition claims `{Base64url} (token : string) : Claims :=
  match present (split_on "." token !! 1%nat) with
  | None => no_claims
  | Some part =>
      match JSON_parse (fromBase64url part) with
      | Some (JObj fields) =>
          {| cl_subject := is_string (field "sub" fields);
             cl_projectId := match field "projects" fields with
                             | JArr projects => List.hd_error (omap is_string projects)
                             | _ => None
                             end |}
      | _ => no_claims
      end
  end.

(** [(expires_in ?? 900) * 1000], in whole milliseconds, rounded up; a text
    that is no integer, a list and an object are read as [NaN]. *)
Definition lifetime (expires_in : json) : number :=
  match expires_in with
  | JUndefined | JNull => Some 900000
  | JNum n => Some (n * 1000)
  | JFraction n d => Some (- (- (n * 1000) / Zpos d))
  | JBool b => Some (if b then 1000 else 0)
  | JStr s => Z.mul 1000 <$> Number_integer s
  | JArr _ | JObj _ => None
  end.

Inductive authentication : Type :=
| Identity (r : NewSession)
| Rejected
| Unavailable (detail : string).

(** [body.access_token], if it is truthy; then [claims] takes it for a text. *)
Definition access_token (body : json) : result bff_error (option string) :=
  match body with
  | JNull => Err TypeError
  | _ =>
      match json_member "access_token" body with
      | JStr token => Ok (present (Some token))
      | token => if js_truthy token then Err TypeError else Ok None
      end
  end.
Definition authenticate `{Base64url} (username password : string) : bff_step authentication :=
  let^ response := perform_effect (ExchangeToken username password) in
  match response with
  | FetchFailed message => Ret (Unavailable (default "The identity provider did not answer." message))
  | Fetched status body =>
      if (status =? 401) || (status =? 400) then Ret Rejected
      else if negb (status =? 200) then Ret (Unavailable ("The identity provider answered " ++ string_of_Z status ++ "."))
      else
        match body with
        | None => Throw SyntaxError
        | Some body =>
            match access_token body with
            | Err x => Throw x
            | Ok None => Ret (Unavailable "The identity provider returned no token.")
            | Ok (Some token) =>
                match present (claims token).(cl_projectId) with
                | None => Ret Rejected
                | Some projectId =>
                    let^ now := perform_effect DateNow in
                    Ret (Identity {| ns_subject := default username (claims token).(cl_subject);
                                     ns_displayName := username; ns_projectId := projectId;
                                     ns_accessToken := token;
                                     ns_expiresAt := Z.add now <$> lifetime (json_member "expires_in" body) |})
                end
            end
        end
  end.

(** ** Handlers *)

(** A request, routed.  [headers] finds a header that was sent once. *)
Inductive bff_request : Type :=
| HealthReady
| Login (body : json) (traceparent : option string)
| Logout (cookie : option string)
| GetSession (cookie traceparent : option string)
| Proxy (method url : string) (cookie : option string) (headers : string → option string) (body : json)
| Other (method url : string).

Definition FORWARDED_REQUEST_HEADERS : list string :=
  ["accept"; "content-type"; "idempotency-key"; "x-correlation-id"; "traceparent"; "tracestate"].

Section server.
Context `{Platform, Base64url}.
Variable apiBase : string.
Variable secureCookies : bool.
Variable indexHtml : option string.

Definition ready : bff_step HttpResponse :=
  let^ response := perform_effect ProbeApi in
  match response with
  | Fetched status _ =>
      if (200 <=? status) && (status <=? 299) then
        let^ n := perform_effect CountSessions in
        Ret (respond 200 (Document "application/json" (JObj [("status", JStr "ok"); ("sessions", JNum n)])))
      else Ret (respond 503 (Document "application/json"
                               (JObj [("status", JStr "degraded"); ("detail", JStr "control-api is not ready")])))
  | FetchFailed _ =>
      Ret (respond 503 (Document "application/json"
                          (JObj [("status", JStr "degraded"); ("detail", JStr "control-api is unreachable")])))
  end.

Definition text_member (name : string) (body : json) : string := default "" (is_string (json_member name body)).
Definition login (body : json) (traceparent : option string) : bff_step HttpResponse :=
  let username := trim (text_member "username" body) in
  let password := text_member "password" body in
  if negb (truthy username) || negb (truthy password) then
    Ret (refuse 422 "Sign-in details are incomplete" "VALIDATION_FAILED" "Enter both a username and a password." None
           traceparent)
  else
    let^ identity := authenticate username password in
    match identity with
    | Rejected =>
        Ret (refuse 401 "Sign-in failed" "AUTHENTICATION_REQUIRED"
               "That username and password combination was not accepted." None traceparent)
    | Unavailable detail =>
        Ret (refuse 503 "Sign-in is unavailable" "DEPENDENCY_UNAVAILABLE" detail None traceparent)
    | Identity r =>
        let^ id := perform_effect (CreateSession r) in
        let^ view := publicView r in
        Ret {| hr_code := 200; hr_payload := Document "application/json" view;
               hr_cookie := Some (SetCookie id secureCookies) |}
    end.

Definition logout (cookie : option string) : bff_step HttpResponse :=
  let^ _ := perform_effect (DestroySession cookie) in
  Ret {| hr_code := 204; hr_payload := Empty; hr_cookie := Some ClearCookie |}.

Definition getSession (cookie traceparent : option string) : bff_step HttpResponse :=
  let^ session := perform_effect (ReadSession cookie) in
  match session with
  | None => Ret (refuse 401 "Not signed in" "AUTHENTICATION_REQUIRED" "There is no active session." None traceparent)
  | Some r => let^ view := publicView r.(sr_session) in Ret (respond 200 (Document "application/json" view))
  end.

(** The headers the API gets: the token, and those of the browser that are
    listed. *)
Definition forwarded (headers : string → option string) : list (string * string) :=
  omap (λ name, (λ value, (name, value)) <$> headers name) FORWARDED_REQUEST_HEADERS.
Definition api_request (method url : string) (headers : string → option string) (body : json) (token : string) : ApiRequest :=
  {| aq_url := apiBase ++ url; aq_method := method;
     aq_headers := ("authorization", "Bearer " ++ token) :: forwarded headers;
     aq_body := if bool_decide (method ∈ ["GET"; "HEAD"]) then None
                else stringify (match body with JUndefined | JNull => JObj [] | _ => body end) |}.
Definition proxy (method url : string) (cookie : option string) (headers : string → option string) (body : json) :
    bff_step HttpResponse :=
  let^ session := perform_effect (ReadSession cookie) in
  match session with
  | None =>
      Ret (refuse 401 "Not signed in" "AUTHENTICATION_REQUIRED" "Sign in again to continue." (Some url)
             (headers "traceparent"))
  | Some r =>
      let^ upstream := perform_effect (CallApi (api_request method url headers body r.(sr_session).(ns_accessToken))) in
      match upstream with
      | Fetched status (contentType, text) => Ret (respond status (Text (default "application/json" contentType) text))
      | FetchFailed message =>
          Ret (refuse 502 "The control plane could not be reached" "DEPENDENCY_UNAVAILABLE"
                 (default "The request did not complete." message) (Some url) (headers "traceparent"))
      end
  end.

Definition not_found (method url : string) : HttpResponse :=
  match method, present indexHtml with
  | "GET", Some html => respond 200 (Text "text/html; charset=utf-8" html)
  | _, _ => respond 404 (problem 404 "Not found" "VALIDATION_FAILED" "No such route." (Some url) None)
  end.

Definition serve_browser (q : bff_request) : bff_step HttpResponse :=
  match q with
  | HealthReady => ready
  | Login body traceparent => login body traceparent
  | Logout cookie => logout cookie
  | GetSession cookie traceparent => getSession cookie traceparent
  | Proxy method url cookie headers body => proxy method url cookie headers body
  | Other method url => Ret (not_found method url)
  end.
End server.
