(* ===== verification/ConsoleSafety.v ===== *)
(** * What the console's server does with a token

    Nothing the browser sees depends on it, but for the text of a failed call of
    the API, which is passed on as it is; and the API gets only tokens that the
    issuer handed out for a sign-in of that session. *)
From S2P Require Import Prelude JsText Json JsonParse Domain Events Platform MessageCodec PageCursor TerraformRunner ControlPlane Saga ConsoleBff.
From Stdlib Require Import ZArith Lia Bool Ascii String.
From stdpp Require Import base decidable list sets strings gmap.
Open Scope string_scope.
Open Scope Z_scope.
Open Scope prog_scope.

Abbreviation log := (list (exchange bff_reply)).

(** ** What is seen without the token *)

(** Of an issuer's answer: whether there is a token, what it claims, and how
    long it lasts. *)
Definition view_body `{Base64url} (body : json) : result bff_error (option Claims) * number :=
  (match access_token body with Ok token => Ok (claims <$> token) | Err x => Err x end,
   lifetime (json_member "expires_in" body)).
Definition view_session (r : NewSession) : string * string * string * number :=
  (r.(ns_subject), r.(ns_displayName), r.(ns_projectId), r.(ns_expiresAt)).

(** An effect as it looks to someone who sees no token. *)
Definition public_effect (e : bff_effect) : bff_effect :=
  match e with
  | CreateSession r =>
      CreateSession {| ns_subject := r.(ns_subject); ns_displayName := r.(ns_displayName);
                       ns_projectId := r.(ns_projectId); ns_accessToken := ""; ns_expiresAt := r.(ns_expiresAt) |}
  | CallApi q =>
      CallApi {| aq_url := q.(aq_url); aq_method := q.(aq_method);
                 aq_headers := List.filter (λ p, negb (String.eqb (fst p) "authorization")) q.(aq_headers);
                 aq_body := q.(aq_body) |}
  | e => e
  end.
Inductive public_answer : Type :=
| PA_issuer (a : fetched (option (result bff_error (option Claims) * number)))
| PA_text (s : string)
| PA_session (r : option (string * string * string * number))
| PA_unit
| PA_number (n : Z)
| PA_probe (a : fetched unit)
| PA_api (a : fetched (option string * string)).
Definition public_reply `{Base64url} (x : exchange bff_reply) : public_answer :=
  match x with
  | Exchange e r =>
      match e as e0 return bff_reply e0 → public_answer with
      | ExchangeToken _ _ => λ r, PA_issuer match r with
                                            | FetchFailed m => FetchFailed m
                                            | Fetched status body => Fetched status (view_body <$> body)
                                            end
      | CreateSession _ => PA_text
      | ReadSession _ => λ r, PA_session (view_session ∘ sr_session <$> r)
      | DestroySession _ => λ _, PA_unit
      | CountSessions => PA_number
      | DateNow => PA_number
      | ProbeApi => PA_probe
      | CallApi _ => λ r, PA_api match r with FetchFailed _ => FetchFailed None | answer => answer end
      end r
  end.

(** A response without the detail of a 502 problem. *)
Definition hide_detail (r : HttpResponse) : HttpResponse :=
  match r.(hr_payload) with
  | Document t (JObj fields) =>
      if r.(hr_code) =? 502 then
        {| hr_code := r.(hr_code); hr_cookie := r.(hr_cookie);
           hr_payload := Document t (JObj (map (λ p, if String.eqb (fst p) "detail" then ("detail", JUndefined) else p) fields)) |}
      else r
  | _ => r
  end.
Definition hidden (o : result bff_error HttpResponse) : result bff_error HttpResponse :=
  match o with Ok r => Ok (hide_detail r) | Err x => Err x end.

(** Two histories whose answers differ in tokens at most, and in what a failed
    call of the API says (its text may quote a header), for as long as the
    effects do. *)
Definition agreeing `{Base64url} (t1 t2 : log) : Prop :=
  ∀ n x y, t1 !! n = Some x → t2 !! n = Some y →
    public_effect (effect_of x) = public_effect (effect_of y) → public_reply x = public_reply y.

Lemma agreeing_head `{Base64url} (x y : exchange bff_reply) (t1 t2 : log) :
  agreeing (x :: t1) (y :: t2) →
  (public_effect (effect_of x) = public_effect (effect_of y) → public_reply x = public_reply y) ∧ agreeing t1 t2.
Proof. intros Ha. split; [exact (Ha 0%nat x y eq_refl eq_refl)|]. intros n. exact (Ha (S n)). Qed.

Section interference.
Context `{Platform, Base64url}.

(** Two programs that look the same to someone who sees no token. *)
Definition alike (m1 m2 : bff_step HttpResponse) : Prop :=
  ∀ t1 o1 t2 o2, traces m1 t1 o1 → traces m2 t2 o2 → agreeing t1 t2 →
    map (public_effect ∘ effect_of) t1 = map (public_effect ∘ effect_of) t2 ∧ hidden o1 = hidden o2.

Lemma alike_ret (a b : HttpResponse) : hide_detail a = hide_detail b → alike (Ret a) (Ret b).
Proof. intros Hab t1 o1 t2 o2 [-> ->] [-> ->] _. cbn. by rewrite Hab. Qed.
Lemma alike_refl_ret (a : HttpResponse) : alike (Ret a) (Ret a).
Proof. intros t1 o1 t2 o2 [-> ->] [-> ->] _. done. Qed.
Lemma alike_refl_throw (x : bff_error) : alike (Throw x) (Throw x).
Proof. intros t1 o1 t2 o2 [-> ->] [-> ->] _. done. Qed.
Lemma alike_vis (e1 e2 : bff_effect) (k1 : bff_reply e1 → bff_step HttpResponse) (k2 : bff_reply e2 → bff_step HttpResponse) :
  public_effect e1 = public_effect e2 →
  (∀ r1 r2, public_reply (Exchange e1 r1) = public_reply (Exchange e2 r2) → alike (k1 r1) (k2 r2)) →
  alike (Vis e1 k1) (Vis e2 k2).
Proof.
  intros He Hk t1 o1 t2 o2 (r1 & t1' & -> & H1) (r2 & t2' & -> & H2) [Hr Ha]%agreeing_head.
  destruct (Hk r1 r2 (Hr He) _ _ _ _ H1 H2 Ha) as [Hm Ho]. split; [|done]. cbn. by rewrite He, Hm.
Qed.
Lemma alike_view (r1 r2 : NewSession) (k : json → bff_step HttpResponse) :
  view_session r1 = view_session r2 → (∀ v, alike (k v) (k v)) →
  alike (let^ v := publicView r1 in k v) (let^ v := publicView r2 in k v).
Proof.
  intros [= H1 H2 H3 H4] Hk. unfold publicView, iso. rewrite H1, H2, H3, H4.
  destruct (ns_expiresAt r2); [|apply alike_refl_throw]. destruct (_ <=? _); [apply Hk|apply alike_refl_throw].
Qed.

Variable apiBase : string.
Variable secureCookies : bool.
Variable indexHtml : option string.

(** The session a sign-in opens, seen without its token. *)
Lemma authenticate_alike (username password : string) (k1 k2 : authentication → bff_step HttpResponse) :
  (∀ r1 r2, view_session r1 = view_session r2 → alike (k1 (Identity r1)) (k2 (Identity r2))) →
  alike (k1 Rejected) (k2 Rejected) → (∀ d, alike (k1 (Unavailable d)) (k2 (Unavailable d))) →
  alike (let^ i := authenticate username password in k1 i) (let^ i := authenticate username password in k2 i).
Proof.
  intros Hi Hr Hu. unfold authenticate. cbn. apply alike_vis; [done|]. intros [m1|s1 b1] [m2|s2 b2] Hp; try discriminate Hp.
  { injection Hp as ->. apply Hu. }
  injection Hp as -> Hb. destruct ((_ =? 401) || _); [exact Hr|]. destruct (negb _); [apply Hu|].
  destruct b1 as [b1|], b2 as [b2|]; try discriminate Hb; [|apply alike_refl_throw].
  injection Hb as Hview Hlife. destruct (access_token b1) as [[tok1|]|x1], (access_token b2) as [[tok2|]|x2]; try discriminate Hview;
    [|apply Hu|injection Hview as ->; apply alike_refl_throw].
  injection Hview as Hclaims. rewrite Hclaims, Hlife. destruct (present _) as [p|]; [|exact Hr].
  apply alike_vis; [done|]. intros n1 n2 [= ->]. by apply Hi.
Qed.

Lemma login_alike (body : json) (traceparent : option string) :
  alike (login secureCookies body traceparent) (login secureCookies body traceparent).
Proof.
  unfold login. destruct (negb _ || _); [apply alike_refl_ret|].
  apply authenticate_alike; [|apply alike_refl_ret|intros d; apply alike_refl_ret].
  intros r1 r2 Hr. apply alike_vis; [injection Hr as H3 H4 H5 H6; cbn; by rewrite H3, H4, H5, H6|]. intros id1 id2 [= ->].
  apply alike_view; [done|]. intros v. apply alike_refl_ret.
Qed.
Lemma api_alike (method url : string) (headers : string → option string) (body : json) (tok1 tok2 : string) :
  public_effect (CallApi (api_request apiBase method url headers body tok1))
  = public_effect (CallApi (api_request apiBase method url headers body tok2)).
Proof. done. Qed.

Lemma serve_alike (q : bff_request) :
  alike (serve_browser apiBase secureCookies indexHtml q) (serve_browser apiBase secureCookies indexHtml q).
Proof.
  destruct q as [|body tp|cookie|cookie tp|method url cookie headers body|method url]; cbn [serve_browser].
  - apply alike_vis; [done|]. intros [m1|s1 []] [m2|s2 []] Hp; try discriminate Hp; [apply alike_refl_ret|].
    injection Hp as ->. destruct (_ && _); [|apply alike_refl_ret].
    apply alike_vis; [done|]. intros n1 n2 [= ->]. apply alike_refl_ret.
  - apply login_alike.
  - apply alike_vis; [done|]. intros _ _ _. apply alike_refl_ret.
  - apply alike_vis; [done|]. intros [r1|] [r2|] Hp; try discriminate Hp; [|apply alike_refl_ret].
    injection Hp as Hr. apply alike_view; [by unfold view_session; congruence|]. intros v. apply alike_refl_ret.
  - apply alike_vis; [done|]. intros [r1|] [r2|] Hp; try discriminate Hp; [|apply alike_refl_ret].
    apply alike_vis; [apply api_alike|]. intros [m1|s1 [c1 x1]] [m2|s2 [c2 x2]] Ha; try discriminate Ha.
    + apply alike_ret. unfold refuse, respond, problem, hide_detail. cbn. by destruct (present (Some url)).
    + injection Ha as -> -> ->. apply alike_refl_ret.
  - apply alike_refl_ret.
Qed.

(** C29: What the browser gets does not depend on the access token.  Let a
    request be served twice, with answers of the issuer, the sessions and the
    API that differ in access tokens at most (tokens that claim the same subject
    and project and last as long, sessions that are the same but for the token),
    and in the text a failed call of the API throws, which may quote the header
    that holds the token.  Then what the browser gets is the same to the last
    octet, cookie included, but for the detail of a 502, which is that text; and
    so is everything the server does but for the token itself, which goes into
    the session and into the authorization header of the API call. *)
Theorem browser_view_is_independent_of_the_token (q : bff_request) (t1 t2 : log) (o1 o2 : result bff_error HttpResponse)
    (H1 : traces (serve_browser apiBase secureCookies indexHtml q) t1 o1)
    (H2 : traces (serve_browser apiBase secureCookies indexHtml q) t2 o2)
    (Hagree : agreeing t1 t2) :
  hidden o1 = hidden o2 ∧ map (public_effect ∘ effect_of) t1 = map (public_effect ∘ effect_of) t2.
Proof. destruct (serve_alike q t1 o1 t2 o2 H1 H2 Hagree). by split. Qed.

(** The text of a failed call reaches the browser as it is, token and all if it
    quotes the header. *)
Theorem failure_text_is_shown (method url : string) (cookie : option string) (headers : string → option string) (body : json)
    (r : SessionRecord) (message : string) :
  traces (proxy apiBase method url cookie headers body)
    [Exchange (reply := bff_reply) (ReadSession cookie) (Some r);
     Exchange (reply := bff_reply) (CallApi (api_request apiBase method url headers body r.(sr_session).(ns_accessToken)))
       (FetchFailed (Some message))]
    (Ok (refuse 502 "The control plane could not be reached" "DEPENDENCY_UNAVAILABLE" message (Some url) (headers "traceparent"))).
Proof. cbn. eexists _, _. split; [reflexivity|]. by eexists _, []. Qed.
End interference.

(** ** The server as a whole *)

(** The tokens the issuer hands out in an exchange. *)
Definition issues (x : exchange bff_reply) : list string :=
  match x with
  | Exchange e r =>
      match e as e0 return bff_reply e0 → list string with
      | ExchangeToken _ _ => λ r, match r with
                                  | Fetched 200 (Some body) => match access_token body with Ok (Some t) => [t] | _ => [] end
                                  | _ => []
                                  end
      | _ => λ _, []
      end r
  end.
(** How the sessions answer, and what becomes of them; the rest of the outside
    answers as it likes. *)
Definition session_step (now : Z) (x : exchange bff_reply) (s s' : Sessions) : Prop :=
  match x with
  | Exchange e r =>
      match e as e0 return bff_reply e0 → Prop with
      | CreateSession n => λ id, s' = create now id n s
      | ReadSession c => λ found, (found, s') = read now c s
      | DestroySession c => λ _, s' = destroy c s
      | CountSessions => λ n, n = Z.of_nat (size s) ∧ s' = s
      | _ => λ _, s' = s
      end r
  end.
(** The sessions, the handlers that are under way, and the tokens handed out so
    far. *)
Record server : Type := {
  sv_sessions : Sessions;
  sv_running : list (bff_step HttpResponse);
  sv_issued : list string;
}.

(** A request to the API that carries one of the tokens. *)
Definition authorised (apiBase : string) (issued : list string) (q : ApiRequest) : Prop :=
  ∃ token url rest, q.(aq_url) = apiBase ++ url
    ∧ q.(aq_headers) = ("authorization", "Bearer " ++ token) :: rest
    ∧ Forall (λ p, fst p ∈ FORWARDED_REQUEST_HEADERS) rest ∧ token ∈ issued.
Definition sends (apiBase : string) (issued : list string) (e : bff_effect) : Prop :=
  match e with
  | CreateSession n => n.(ns_accessToken) ∈ issued
  | CallApi q => authorised apiBase issued q
  | _ => True
  end.
Definition known_session (issued : list string) (r : SessionRecord) : Prop := r.(sr_session).(ns_accessToken) ∈ issued.
Definition sound_reply (issued : list string) (x : exchange bff_reply) : Prop :=
  match x with
  | Exchange e r =>
      match e as e0 return bff_reply e0 → Prop with
      | ReadSession _ => λ found, ∀ session, found = Some session → known_session issued session
      | _ => λ _, True
      end r
  end.
(** A program that sends no token but those handed out by then. *)
Fixpoint honest {A : Type} (apiBase : string) (issued : list string) (m : bff_step A) : Prop :=
  match m with
  | Vis e k => ∀ now, issued ⊆ now → sends apiBase now e
                ∧ ∀ r, sound_reply now (Exchange e r) → honest apiBase (issues (Exchange e r) ++ now) (k r)
  | _ => True
  end.
Lemma honest_mono {A : Type} (apiBase : string) (issued issued' : list string) (m : bff_step A) :
  honest apiBase issued m → issued ⊆ issued' → honest apiBase issued' m.
Proof. destruct m; cbn; try done. intros Hm Hs now Hn. apply Hm. by etrans. Qed.

Section provenance.
Context `{Platform, Base64url}.
Variable apiBase : string.
Variable secureCookies : bool.
Variable indexHtml : option string.

Inductive server_step : server → option (exchange bff_reply) → server → Prop :=
| request_arrives (sv : server) (q : bff_request) :
    server_step sv None
      {| sv_sessions := sv.(sv_sessions);
         sv_running := serve_browser apiBase secureCookies indexHtml q :: sv.(sv_running);
         sv_issued := sv.(sv_issued) |}
| effect_performed (now : Z) (before after : list (bff_step HttpResponse)) (e : bff_effect)
    (k : bff_reply e → bff_step HttpResponse) (r : bff_reply e) (s s' : Sessions) (issued : list string) :
    session_step now (Exchange e r) s s' →
    server_step
      {| sv_sessions := s; sv_running := before ++ Vis e k :: after; sv_issued := issued |} (Some (Exchange e r))
      {| sv_sessions := s'; sv_running := before ++ k r :: after; sv_issued := issues (Exchange e r) ++ issued |}.
Inductive reachable : server → Prop :=
| reach_start : reachable {| sv_sessions := ∅; sv_running := []; sv_issued := [] |}
| reach_step (sv : server) (x : option (exchange bff_reply)) (sv' : server) :
    reachable sv → server_step sv x sv' → reachable sv'.

Lemma forwarded_listed (headers : string → option string) :
  Forall (λ p, fst p ∈ FORWARDED_REQUEST_HEADERS) (forwarded headers).
Proof.
  apply Forall_forall. intros [n v] (name & Hin & Hv)%list_elem_of_omap. destruct (headers name); [|done].
  by injection Hv as <- _.
Qed.

Lemma ret_honest {A : Type} (issued : list string) (a : A) : honest apiBase issued (Ret a).
Proof. done. Qed.
Lemma view_honest {A : Type} (issued : list string) (r : NewSession) (k : json → bff_step A) :
  (∀ v, honest apiBase issued (k v)) → honest apiBase issued (let^ v := publicView r in k v).
Proof. intros Hk. unfold publicView, iso. destruct (ns_expiresAt r); [|done]. destruct (_ <=? _); [apply Hk|done]. Qed.

Lemma login_honest (body : json) (traceparent : option string) :
  honest apiBase [] (login secureCookies body traceparent).
Proof.
  unfold login. destruct (negb _ || _); [done|]. unfold authenticate. cbn. intros now _. split; [done|].
  intros [m|status reply] _; [done|]. destruct ((status =? 401) || _); [done|].
  destruct (Z.eqb_spec status 200) as [->|]; [|done]. destruct reply as [reply|]; [|done].
  cbn [negb issues]. destruct (access_token reply) as [[token|]|x]; [|done|done]. cbn. destruct (present _); [|done].
  cbn. intros now2 H2. split; [done|]. intros r2 _ now3 H3. split; [apply H3, H2; by left|].
  intros id _. by apply view_honest.
Qed.
Lemma serve_honest (q : bff_request) : honest apiBase [] (serve_browser apiBase secureCookies indexHtml q).
Proof.
  destruct q as [|body tp|cookie|cookie tp|method url cookie headers body|method url]; cbn [serve_browser].
  - cbn. intros now _. split; [done|]. intros [m|status u] _; [done|]. by destruct (_ && _).
  - apply login_honest.
  - done.
  - cbn. intros now _. split; [done|]. intros [r|] _; [|done]. by apply view_honest.
  - cbn. intros now _. split; [done|]. intros [r|] Hr; [|done]. cbn. intros now2 H2. split.
    + exists (ns_accessToken (sr_session r)), url, (forwarded headers). split_and!; [done|done|apply forwarded_listed|].
      apply H2. by apply (Hr r).
    + by intros [m|status [c x]] _.
  - done.
Qed.

(** Sessions hold tokens that were handed out, and so do the programs. *)
Definition accounted (sv : server) : Prop :=
  map_Forall (λ _, known_session sv.(sv_issued)) sv.(sv_sessions) ∧ Forall (honest apiBase sv.(sv_issued)) sv.(sv_running).
Lemma known_mono (issued issued' : list string) (s : Sessions) :
  issued ⊆ issued' → map_Forall (λ _, known_session issued) s → map_Forall (λ _, known_session issued') s.
Proof. intros Hs Hall id r Hr. exact (Hs _ (Hall id r Hr)). Qed.
Lemma read_inv (now : Z) (id : option string) (s : Sessions) (found : option SessionRecord) (s' : Sessions) :
  (found, s') = read now id s →
  s' ⊆ s ∧ ∀ r, found = Some r → ∃ i, id = Some i ∧ s !! i = Some r ∧ expired now r = false.
Proof.
  unfold read. destruct id as [i|]; cbn; [|by intros [= -> ->]]. destruct (truthy i); cbn; [|by intros [= -> ->]].
  destruct (s !! i) as [r|] eqn:E; [|by intros [= -> ->]]. destruct (expired now r) eqn:Ex.
  - intros [= -> ->]. split; [apply delete_subseteq|done].
  - intros [= -> ->]. split; [done|]. intros ? [= <-]. by exists i.
Qed.
Lemma accounted_step (sv : server) (x : option (exchange bff_reply)) (sv' : server) :
  accounted sv → server_step sv x sv' → accounted sv'.
Proof.
  intros [Hs Hr] Hstep. destruct Hstep as [sv q|now before after e k r s s' issued Hss]; cbn in *.
  - split; [done|]. constructor; [|done]. apply (honest_mono _ []); [apply serve_honest|set_solver].
  - apply Forall_app in Hr as [Hb Hr]. apply Forall_cons in Hr as [Hm Ha].
    assert (Hsub : issued ⊆ (issues (Exchange e r) ++ issued)%list) by set_solver.
    destruct (Hm issued ltac:(done)) as [Hsend Hk].
    assert (Hsound : sound_reply issued (Exchange e r)).
    { destruct e; try done. cbn in *. intros session ->. apply read_inv in Hss as [_ Hf].
      destruct (Hf session eq_refl) as (i & _ & Hi & _). exact (Hs i session Hi). }
    split.
    + apply (known_mono issued); [done|]. destruct e; cbn in Hss; try by subst s'.
      * subst s'. by apply map_Forall_insert_2.
      * apply read_inv in Hss as [Hs' _]. intros i session Hi. exact (Hs i session (lookup_weaken _ _ _ _ Hi Hs')).
      * subst s'. unfold destroy. destruct (present id); [|done]. by apply map_Forall_delete.
      * by destruct Hss as [_ ->].
    + apply Forall_app. split; [|constructor; [by apply Hk|]]; (eapply Forall_impl; [eassumption|]); intros m Hmm;
        by eapply honest_mono.
Qed.

(** C30: The API is called only with tokens the issuer handed out.  Whatever
    requests arrive and however their handlers interleave, every call of the
    control API goes below the configured address, carries as authorization a
    token that the issuer returned for credentials it accepted, and no header
    of the browser but those listed; and a session is answered only to the
    caller who names it, before it expires. *)
Theorem api_calls_carry_issued_tokens (sv sv' : server) (e : bff_effect) (r : bff_reply e)
    (Hreach : reachable sv) (Hstep : server_step sv (Some (Exchange e r)) sv') :
  sends apiBase sv.(sv_issued) e
  ∧ ∀ now cookie s found s', sv.(sv_sessions) = s → (found, s') = read now cookie s →
      ∀ session, found = Some session →
        known_session sv.(sv_issued) session ∧ ∃ id, cookie = Some id ∧ s !! id = Some session ∧ expired now session = false.
Proof.
  assert (Hacc : accounted sv).
  { clear Hstep. induction Hreach as [|sv x sv2 _ IH Hs]; [by split; [apply map_Forall_empty|]|]. by eapply accounted_step. }
  destruct Hacc as [Hs Hr]. split.
  - inversion Hstep as [|now before after e' k r' s s' issued Hss]; subst. cbn in *.
    apply Forall_app in Hr as [_ [Hm _]%Forall_cons]. by apply (Hm issued).
  - intros now cookie s found s' <- Hread session ->. apply read_inv in Hread as [_ Hf].
    destruct (Hf session eq_refl) as (i & -> & Hi & Hx). split; [exact (Hs i session Hi)|by exists i].
Qed.
End provenance.

(** ** A sign-in and a call *)

Definition bff_base64url : Base64url := {| toBase64url s := s; fromBase64url s := s |}.
Definition token_signed (signature : string) : string :=
  "h." ++ default "" (stringify (JObj [("projects", JArr [JStr "p1"]); ("sub", JStr "ann")])) ++ "." ++ signature.
Definition issuer_answer (token : string) : fetched (option json) :=
  Fetched 200 (Some (JObj [("access_token", JStr token); ("expires_in", JNum 900)])).
Definition signing_in (token : string) (e : bff_effect) : bff_reply e :=
  match e as e0 return bff_reply e0 with
  | ExchangeToken _ _ => issuer_answer token
  | CreateSession _ => "c1"
  | ReadSession _ => None
  | DestroySession _ => tt
  | CountSessions => 0
  | DateNow => 1000
  | ProbeApi => Fetched 200 tt
  | CallApi _ => Fetched 200 (None, "ok")
  end.
Definition credentials : bff_request := Login (JObj [("username", JStr "ann"); ("password", JStr "pw")]) None.
Definition bff_serve (q : bff_request) : bff_step HttpResponse :=
  serve_browser (H := sample_platform) (H0 := bff_base64url) "http://api" false None q.
Definition signed_in (token : string) : log * result bff_error HttpResponse := run (signing_in token) (bff_serve credentials).

Definition the_session (token : string) : NewSession :=
  {| ns_subject := "ann"; ns_displayName := "ann"; ns_projectId := "p1"; ns_accessToken := token;
     ns_expiresAt := Some 901000 |}.
Definition signed_log (token : string) : log :=
  [@Exchange _ bff_reply (ExchangeToken "ann" "pw") (issuer_answer token); @Exchange _ bff_reply DateNow 1000;
   @Exchange _ bff_reply (CreateSession (the_session token)) "c1"].

Lemma agreeing_nil `{Base64url} : agreeing [] [].
Proof. by intros n x y Hx. Qed.
Lemma agreeing_cons `{Base64url} (x y : exchange bff_reply) (t1 t2 : log) :
  public_reply x = public_reply y → agreeing t1 t2 → agreeing (x :: t1) (y :: t2).
Proof. intros Hxy Ht [|n] x' y' Hx Hy; [by injection Hx as <-; injection Hy as <-|]. exact (Ht n x' y' Hx Hy). Qed.

Lemma browser_view_is_independent_of_the_token_witness :
  fst (signed_in (token_signed "a")) ≠ fst (signed_in (token_signed "b"))
  ∧ hidden (snd (signed_in (token_signed "a"))) = hidden (snd (signed_in (token_signed "b")))
  ∧ map (public_effect ∘ effect_of) (fst (signed_in (token_signed "a")))
    = map (public_effect ∘ effect_of) (fst (signed_in (token_signed "b"))).
Proof.
  split; [intros Heq; apply (f_equal (λ t, map (λ x, issues x) t)) in Heq; vm_compute in Heq; discriminate Heq|].
  pose proof (run_traces bff_reply (signing_in (token_signed "a")) (bff_serve credentials)) as H1.
  pose proof (run_traces bff_reply (signing_in (token_signed "b")) (bff_serve credentials)) as H2.
  fold (signed_in (token_signed "a")) in H1. fold (signed_in (token_signed "b")) in H2.
  assert (Ha : agreeing (H := bff_base64url) (fst (signed_in (token_signed "a"))) (fst (signed_in (token_signed "b")))).
  { assert (Ea : fst (signed_in (token_signed "a")) = signed_log (token_signed "a")) by (vm_compute; reflexivity).
    assert (Eb : fst (signed_in (token_signed "b")) = signed_log (token_signed "b")) by (vm_compute; reflexivity).
    rewrite Ea, Eb. unfold signed_log. repeat (apply agreeing_cons; [vm_compute; reflexivity|]). apply agreeing_nil. }
  destruct (signed_in (token_signed "a")) as [t1 o1], (signed_in (token_signed "b")) as [t2 o2].
  exact (browser_view_is_independent_of_the_token (H := sample_platform) (H0 := bff_base64url) "http://api" false None credentials
    t1 t2 o1 o2 H1 H2 Ha).
Defined.

(** The server once that sign-in is over and its cookie came back with a
    request for the API. *)
Definition cookie_back : bff_request := Proxy "GET" "/v1/instances" (Some "c1") (λ _, None) JUndefined.
Definition the_record : SessionRecord := {| sr_session := the_session (token_signed "a"); sr_createdAt := 1000 |}.
Definition the_call : ApiRequest := api_request "http://api" "GET" "/v1/instances" (λ _, None) JUndefined (token_signed "a").

(** One exchange of a program with a given outside. *)
Definition pending {A : Type} (world : ∀ e, bff_reply e) (m : bff_step A) : option (exchange bff_reply) :=
  match m with Vis e _ => Some (Exchange e (world e)) | _ => None end.
Definition next {A : Type} (world : ∀ e, bff_reply e) (m : bff_step A) : bff_step A :=
  match m with Vis e k => k (world e) | _ => m end.
Lemma step_next `{Platform, Base64url} (apiBase : string) (secure : bool) (html : option string) (world : ∀ e, bff_reply e)
    (now : Z) (before after : list (bff_step HttpResponse)) (m : bff_step HttpResponse) (x : exchange bff_reply)
    (s s' : Sessions) (issued : list string) :
  pending world m = Some x → session_step now x s s' →
  server_step apiBase secure html {| sv_sessions := s; sv_running := before ++ m :: after; sv_issued := issued |} (Some x)
    {| sv_sessions := s'; sv_running := before ++ next world m :: after; sv_issued := issues x ++ issued |}.
Proof. destruct m as [a|y|e k]; cbn; try done. intros [= <-] Hs. by apply (effect_performed _ _ _ now before after e k). Qed.

(** The outside once the session is open. *)
Definition with_session (e : bff_effect) : bff_reply e :=
  match e as e0 return bff_reply e0 → bff_reply e0 with
  | ReadSession _ => λ _, Some the_record
  | _ => λ r, r
  end (signing_in (token_signed "a") e).
Definition bff_login (n : nat) : bff_step HttpResponse := Nat.iter n (next with_session) (bff_serve credentials).
Definition bff_call (n : nat) : bff_step HttpResponse := Nat.iter n (next with_session) (bff_serve cookie_back).
Definition calling : server :=
  {| sv_sessions := {["c1" := the_record]}; sv_running := [bff_call 1; bff_login 3]; sv_issued := [token_signed "a"] |}.

Abbreviation bff_reachable := (reachable (H := sample_platform) (H0 := bff_base64url) "http://api" false None).
Lemma reach_next (now : Z) (before after : list (bff_step HttpResponse)) (m : bff_step HttpResponse)
    (x : exchange bff_reply) (s s' : Sessions) (issued : list string) :
  bff_reachable {| sv_sessions := s; sv_running := before ++ m :: after; sv_issued := issued |} →
  pending with_session m = Some x → session_step now x s s' →
  bff_reachable {| sv_sessions := s'; sv_running := before ++ next with_session m :: after; sv_issued := issues x ++ issued |}.
Proof. intros Hr Hx Hs. eapply reach_step; [exact Hr|]. by eapply step_next. Qed.

Lemma calling_reachable : bff_reachable calling.
Proof.
  assert (H0 : bff_reachable {| sv_sessions := ∅; sv_running := [] ++ bff_login 0 :: []; sv_issued := [] |}).
  { eapply reach_step; [apply reach_start|]. exact (request_arrives _ _ _ {| sv_sessions := ∅; sv_running := []; sv_issued := [] |} credentials). }
  eapply (reach_next 1000 _ _ _ _ _ ∅) in H0; [|vm_compute; reflexivity|reflexivity].
  eapply (reach_next 1000 [] [] (bff_login 1) _ _ ∅) in H0; [|vm_compute; reflexivity|reflexivity].
  eapply (reach_next 1000 [] [] (bff_login 2) _ _ {["c1" := the_record]}) in H0; [|vm_compute; reflexivity|vm_compute; reflexivity].
  eapply reach_step in H0; [|apply (request_arrives _ _ _ _ cookie_back)].
  eapply (reach_next 1000 [] [bff_login 3] (bff_call 0) _ _ {["c1" := the_record]}) in H0; [|vm_compute; reflexivity|vm_compute; reflexivity].
  exact H0.
Qed.

Lemma api_calls_carry_issued_tokens_witness :
  authorised "http://api" [token_signed "a"] the_call
  ∧ fst (read 2000 (Some "c1") calling.(sv_sessions)) = Some the_record ∧ known_session [token_signed "a"] the_record.
Proof.
  assert (Hstep : server_step (H := sample_platform) (H0 := bff_base64url) "http://api" false None calling
    (Some (@Exchange _ bff_reply (CallApi the_call) (Fetched 200 (None, "ok"))))
    {| sv_sessions := {["c1" := the_record]}; sv_running := [bff_call 2; bff_login 3]; sv_issued := [token_signed "a"] |}).
  { apply (step_next _ _ _ with_session 2000 [] [bff_login 3] (bff_call 1)); [vm_compute; reflexivity|reflexivity]. }
  destruct (api_calls_carry_issued_tokens (H := sample_platform) (H0 := bff_base64url) "http://api" false None calling _
    (CallApi the_call) _ calling_reachable Hstep) as [Hcall Hread].
  split_and!; [exact Hcall|vm_compute; reflexivity|].
  destruct (Hread 2000 (Some "c1") _ (Some the_record) calling.(sv_sessions) eq_refl ltac:(vm_compute; reflexivity) the_record eq_refl)
    as [Hknown _]. exact Hknown.
Defined.
