(* ===== verification/FakeProvider.v ===== *)
(** * The deterministic provider

    [provider-adapters/src/fake-provider.ts]: the in-memory provider of local
    runs and tests.  A call is accepted in one turn of the event loop, waits
    for its latency, and is answered in another; between the two, other calls
    are accepted and answered.  What a call changed stays changed when it
    throws.  Evidence identifiers are drawn but not kept, and neither are the
    times of answers. *)
From S2P Require Import Prelude JsText Json SshKey Domain Events Platform Saga ProviderPort Ownership TerraformRunner TerraformProvider ProxmoxProvider ProviderWire.
From Stdlib Require Import ZArith Lia Bool Ascii String.
From stdpp Require Import base decidable list strings gmap.
Open Scope string_scope.
Open Scope Z_scope.
Open Scope prog_scope.

(** ** The script *)

Inductive FakeProviderMode : Set := fake_failure | fake_success | fake_timeout | fake_unknown_outcome.
#[export] Instance FakeProviderMode_eq_dec : EqDecision FakeProviderMode.
Proof. solve_decision. Defined.

Inductive ProviderMethod : Set :=
| M_validateProfile | M_getCapabilities | M_submitCreateInstance | M_applyInstanceConfiguration | M_getTask
| M_observeInstance | M_startInstance | M_shutdownInstance | M_stopInstance | M_rebootInstance | M_resizeInstance
| M_listSnapshots | M_createSnapshot | M_rollbackSnapshot | M_deleteSnapshot | M_markInstanceRetained
| M_purgeInstance.
Definition method_name (m : ProviderMethod) : string :=
  match m with
  | M_validateProfile => "validateProfile" | M_getCapabilities => "getCapabilities"
  | M_submitCreateInstance => "submitCreateInstance" | M_applyInstanceConfiguration => "applyInstanceConfiguration"
  | M_getTask => "getTask" | M_observeInstance => "observeInstance" | M_startInstance => "startInstance"
  | M_shutdownInstance => "shutdownInstance" | M_stopInstance => "stopInstance" | M_rebootInstance => "rebootInstance"
  | M_resizeInstance => "resizeInstance" | M_listSnapshots => "listSnapshots" | M_createSnapshot => "createSnapshot"
  | M_rollbackSnapshot => "rollbackSnapshot" | M_deleteSnapshot => "deleteSnapshot"
  | M_markInstanceRetained => "markInstanceRetained" | M_purgeInstance => "purgeInstance"
  end.

Record FakeProviderStep : Set := {
  st_mode : FakeProviderMode;
  st_latencyMs : option Z;
  st_applyBeforeResponse : bool;
  st_failureCode : option string;
  st_failureCategory : option FailureCategory;
  st_taskPollsBeforeSuccess : option Z;
}.
Definition DEFAULT_STEP : FakeProviderStep :=
  {| st_mode := fake_success; st_latencyMs := None; st_applyBeforeResponse := false; st_failureCode := None;
     st_failureCategory := None; st_taskPollsBeforeSuccess := None |}.
Record FakeProviderConfiguration : Set := {
  fc_defaultLatencyMs : option Z;
  fc_defaultTaskPollsBeforeSuccess : option Z;
  fc_script : ProviderMethod → option (list FakeProviderStep);
}.

(** ** The state *)

Record FakeProviderCall : Set := {
  ca_sequence : Z; ca_method : ProviderMethod; ca_requestId : string; ca_mode : FakeProviderMode; ca_duplicate : bool }.
Record FakeResource : Set := {
  fr_id : string;
  fr_instanceId : string;
  fr_ownership : OwnershipMarkers;
  fr_resources : RequestResources;
  fr_network : option ConfigurationNetwork;
  fr_powerState : ObservedPowerState;
  fr_retained : bool;
}.
Record FakeTask : Set := { ft_remainingPolls : Z; ft_terminalState : ProviderTaskState }.
Record CachedMutation : Set := { cm_canonicalRequest : option string; cm_result : ProviderMutationResult }.
Record ProviderSnapshot : Set := {
  ps_reference : string; ps_name : string; ps_description : option string; ps_createdAt : Z }.

(** Keyed by the name of a method, by method and request, by resource, by
    instance, by task; the snapshots of a resource in the order of a [Map]. *)
Record FakeState : Type := {
  fs_stepIndexes : gmap string nat;
  fs_mutationCache : gmap string CachedMutation;
  fs_resources : gmap string FakeResource;
  fs_resourceByInstance : gmap string string;
  fs_tasks : gmap string FakeTask;
  fs_snapshots : gmap string (list (string * ProviderSnapshot));
  fs_calls : list FakeProviderCall;
  fs_logicalMutationCounts : gmap string Z;
  fs_sequence : Z;
}.
Definition new_FakeProvider : FakeState :=
  {| fs_stepIndexes := ∅; fs_mutationCache := ∅; fs_resources := ∅; fs_resourceByInstance := ∅; fs_tasks := ∅;
     fs_snapshots := ∅; fs_calls := []; fs_logicalMutationCounts := ∅; fs_sequence := 0 |}.
Definition on_stepIndexes (f : gmap string nat → gmap string nat) (s : FakeState) : FakeState :=
  {| fs_stepIndexes := f s.(fs_stepIndexes); fs_mutationCache := s.(fs_mutationCache); fs_resources := s.(fs_resources);
     fs_resourceByInstance := s.(fs_resourceByInstance); fs_tasks := s.(fs_tasks); fs_snapshots := s.(fs_snapshots);
     fs_calls := s.(fs_calls); fs_logicalMutationCounts := s.(fs_logicalMutationCounts); fs_sequence := s.(fs_sequence) |}.
Definition on_mutationCache (f : gmap string CachedMutation → gmap string CachedMutation) (s : FakeState) : FakeState :=
  {| fs_stepIndexes := s.(fs_stepIndexes); fs_mutationCache := f s.(fs_mutationCache); fs_resources := s.(fs_resources);
     fs_resourceByInstance := s.(fs_resourceByInstance); fs_tasks := s.(fs_tasks); fs_snapshots := s.(fs_snapshots);
     fs_calls := s.(fs_calls); fs_logicalMutationCounts := s.(fs_logicalMutationCounts); fs_sequence := s.(fs_sequence) |}.
Definition on_machines (f : gmap string FakeResource → gmap string FakeResource) (g : gmap string string → gmap string string)
    (h : gmap string (list (string * ProviderSnapshot)) → gmap string (list (string * ProviderSnapshot))) (s : FakeState) : FakeState :=
  {| fs_stepIndexes := s.(fs_stepIndexes); fs_mutationCache := s.(fs_mutationCache); fs_resources := f s.(fs_resources);
     fs_resourceByInstance := g s.(fs_resourceByInstance); fs_tasks := s.(fs_tasks); fs_snapshots := h s.(fs_snapshots);
     fs_calls := s.(fs_calls); fs_logicalMutationCounts := s.(fs_logicalMutationCounts); fs_sequence := s.(fs_sequence) |}.
Definition on_fake_tasks (f : gmap string FakeTask → gmap string FakeTask) (s : FakeState) : FakeState :=
  {| fs_stepIndexes := s.(fs_stepIndexes); fs_mutationCache := s.(fs_mutationCache); fs_resources := s.(fs_resources);
     fs_resourceByInstance := s.(fs_resourceByInstance); fs_tasks := f s.(fs_tasks); fs_snapshots := s.(fs_snapshots);
     fs_calls := s.(fs_calls); fs_logicalMutationCounts := s.(fs_logicalMutationCounts); fs_sequence := s.(fs_sequence) |}.
Definition on_log (calls : list FakeProviderCall → list FakeProviderCall) (counts : gmap string Z → gmap string Z) (n : Z)
    (s : FakeState) : FakeState :=
  {| fs_stepIndexes := s.(fs_stepIndexes); fs_mutationCache := s.(fs_mutationCache); fs_resources := s.(fs_resources);
     fs_resourceByInstance := s.(fs_resourceByInstance); fs_tasks := s.(fs_tasks); fs_snapshots := s.(fs_snapshots);
     fs_calls := calls s.(fs_calls); fs_logicalMutationCounts := counts s.(fs_logicalMutationCounts); fs_sequence := n |}.

(** ** Turns

    What runs without giving up the event loop. *)
Definition fake (A : Type) : Type := FakeState → result tf_error A * FakeState.
Definition fret {A : Type} (a : A) : fake A := λ s, (Ok a, s).
Definition fthrow {A : Type} (x : tf_error) : fake A := λ s, (Err x, s).
Definition fbind {A B : Type} (m : fake A) (k : A → fake B) : fake B :=
  λ s, match m s with (Ok a, s') => k a s' | (Err x, s') => (Err x, s') end.
Definition fget {A : Type} (f : FakeState → A) : fake A := λ s, (Ok (f s), s).
Definition fmodify (f : FakeState → FakeState) : fake unit := λ s, (Ok tt, f s).
Notation "'let&' p := e 'in' k" := (fbind e (λ p, k))
  (at level 10, p pattern, e at level 200, k at level 200) : prog_scope.

(** A call that was accepted: it has ended, or it waits, and goes on when its
    wait is over or aborted. *)
Inductive begun (A : Type) : Type :=
| Ended (r : result tf_error A)
| Waiting (latencyMs : Z) (resume : bool → fake A).
Arguments Ended {A}.
Arguments Waiting {A}.
Definition begun_map {A B : Type} (f : A → B) (b : begun A) : begun B :=
  match b with
  | Ended (Ok a) => Ended (Ok (f a))
  | Ended (Err x) => Ended (Err x)
  | Waiting n resume => Waiting n (λ aborted, let& a := resume aborted in fret (f a))
  end.
Definition starts (A : Type) : Type := FakeState → begun A * FakeState.
Definition failing {A : Type} (x : tf_error) : starts A := λ s, (Ended (Err x), s).

Definition thrown_as (code : ProviderTransportErrorCode) : tf_error := TransportError (transportError code None) None.
Definition refusal : tf_error := TransportError (transportError protocol_error (Some false)) None.

(** ** Comparing requests *)

Definition entries_of (v : json) : list (string * json) :=
  match v with
  | JObj fields => fields
  | JArr l => imap (λ i x, (string_of_Z (Z.of_nat i), x)) l
  | JStr s => imap (λ i c, (string_of_Z (Z.of_nat i), JStr (String c ""))) (chars s)
  | _ => []
  end.
Definition without (k : string) (fields : list (string * json)) : list (string * json) :=
  List.filter (λ p, negb (String.eqb (fst p) k)) fields.
Definition requestJson (value : json) : option string :=
  match value with
  | JObj fields =>
      let context := field "context" fields in
      if negb (js_truthy context) then stringify value
      else stringify (JObj (without "context" fields ++ [("context", JObj (without "fencingToken" (entries_of context)))])%list)
  | _ => stringify value
  end.

Section fake.
Variable configuration : FakeProviderConfiguration.
(** [now()], in milliseconds. *)
Variable now : Z.

(** ** Helpers *)

Definition padded (n : Z) : string :=
  let digits := string_of_Z n in of_chars (replicate (6 - String.length digits) "0"%char) ++ digits.
Definition nextId (kind : string) : fake string := λ s,
  (Ok ("fake-" ++ kind ++ "-" ++ padded (s.(fs_sequence) + 1)), on_log id id (s.(fs_sequence) + 1) s).
Definition record_call (method : ProviderMethod) (requestId : string) (mode : FakeProviderMode) (duplicate : bool)
    (s : FakeState) : FakeState :=
  on_log (λ calls, (calls ++ [{| ca_sequence := s.(fs_sequence) + 1; ca_method := method; ca_requestId := requestId;
                                 ca_mode := mode; ca_duplicate := duplicate |}])%list) id (s.(fs_sequence) + 1) s.
Definition countMutation (method : ProviderMethod) : fake unit :=
  fmodify (λ s, on_log id (λ m, <[method_name method := default 0 (m !! method_name method) + 1]> m) s.(fs_sequence) s).
Definition nextStep (method : ProviderMethod) (s : FakeState) : FakeProviderStep * FakeState :=
  let index := default 0%nat (s.(fs_stepIndexes) !! method_name method) in
  let script := default [] (configuration.(fc_script) method) in
  (default (default DEFAULT_STEP (last script)) (script !! index),
   on_stepIndexes (<[method_name method := S index]>) s).
Definition latency (step : FakeProviderStep) : Z :=
  default (default 0 configuration.(fc_defaultLatencyMs)) step.(st_latencyMs).

Definition required (value : option string) : result tf_error string :=
  match present value with Some v => Ok v | None => Err refusal end.
Definition demanded (value : option string) : fake string := λ s, (required value, s).
Definition checked_context (c : option ProviderCallContext) : result tf_error ProviderCallContext :=
  let? _ := required (requestId <$> c) in
  let? _ := required (ctx_operationId <$> c) in
  let? _ := required (ctx_correlationId <$> c) in
  let? _ := required (ctx_projectId <$> c) in
  let? _ := required (ctx_instanceId <$> c) in
  let? _ := required (ctx_providerProfileId <$> c) in
  match c with Some c => Ok c | None => Err refusal end.
Definition checked_ownership (m : option OwnershipMarkers) : result tf_error OwnershipMarkers :=
  let? _ := required (managedBy <$> m) in
  let? _ := required (environment <$> m) in
  let? _ := required (marker_projectId <$> m) in
  let? _ := required (marker_instanceId <$> m) in
  let? _ := required (marker_createOperationId <$> m) in
  match m with Some m => Ok m | None => Err refusal end.
Definition checked_request (q : option MutationRequest) : result tf_error InstanceRequest :=
  let? c := checked_context (q ≫= mr_context) in
  let? resource := required (q ≫= mr_providerResourceId) in
  let? markers := checked_ownership (q ≫= mr_expectedOwnershipMarkers) in
  Ok {| context := c; request_providerResourceId := resource; expectedOwnershipMarkers := markers |}.
Definition resourcesValue (r : option RequestResources) : RequestResources :=
  {| rs_cpuCount := Some (default 1 (r ≫= rs_cpuCount)); rs_memoryMib := Some (default "512" (r ≫= rs_memoryMib));
     rs_diskGib := Some (default "8" (r ≫= rs_diskGib)) |}.
Definition markers_match (actual : OwnershipMarkers) (expected : option OwnershipMarkers) : bool :=
  match expected with
  | None => false
  | Some e =>
      String.eqb actual.(managedBy) e.(managedBy) && String.eqb actual.(environment) e.(environment)
      && String.eqb actual.(marker_projectId) e.(marker_projectId)
      && String.eqb actual.(marker_instanceId) e.(marker_instanceId)
      && String.eqb actual.(marker_createOperationId) e.(marker_createOperationId)
  end.

Definition accepted_as (resourceId : string) : fake ProviderMutationResult :=
  let& task := nextId "task" in
  let& _ := fmodify (on_fake_tasks (<[task := {| ft_remainingPolls := default 0 configuration.(fc_defaultTaskPollsBeforeSuccess);
                                             ft_terminalState := TASK_SUCCEEDED |}]>)) in
  let& _ := nextId "evidence" in
  fret {| pm_state := Some RESULT_ACCEPTED; pm_providerTaskReference := Some task; pm_providerResourceId := Some resourceId;
          pm_failure := None |}.
Definition rejected_as (code : string) (category : FailureCategory) : fake ProviderMutationResult :=
  let& _ := nextId "evidence" in
  fret (Ownership.failure category code ("Fake provider rejected the request: " ++ code ++ ".")).
(** The resource, if it is there and the markers match; otherwise the
    rejection. *)
Definition ownedResource (resourceId : option string) (expected : option OwnershipMarkers) :
    fake (result ProviderMutationResult FakeResource) :=
  let& key := demanded resourceId in
  let& resource := fget (λ s, s.(fs_resources) !! key) in
  match resource with
  | None => let& r := rejected_as "RESOURCE_NOT_FOUND" FAILURE_CATEGORY_NOT_FOUND in fret (Err r)
  | Some resource =>
      if markers_match resource.(fr_ownership) expected then fret (Ok resource)
      else let& r := rejected_as "OWNERSHIP_MISMATCH" FAILURE_CATEGORY_AUTHORIZATION in fret (Err r)
  end.
Definition applyTaskPolling (step : FakeProviderStep) (r : ProviderMutationResult) : fake unit :=
  match step.(st_taskPollsBeforeSuccess), present r.(pm_providerTaskReference) with
  | Some polls, Some task =>
      fmodify (on_fake_tasks (λ m, match m !! task with
                              | Some t => <[task := {| ft_remainingPolls := polls; ft_terminalState := t.(ft_terminalState) |}]> m
                              | None => m
                              end))
  | _, _ => fret tt
  end.

(** ** Queries and mutations *)

Definition query {A : Type} (method : ProviderMethod) (requestId : string) (execute : fake A) : starts A := λ s,
  let '(step, s1) := nextStep method s in
  (Waiting (latency step) (λ aborted,
     if aborted then fthrow (thrown_as ProviderPort.aborted)
     else match step.(st_mode) with
          | fake_failure | fake_unknown_outcome => fthrow (thrown_as unavailable)
          | fake_timeout => fthrow (thrown_as deadline_exceeded)
          | fake_success => execute
          end),
   record_call method requestId step.(st_mode) false s1).

Definition cached_mode (r : ProviderMutationResult) : FakeProviderMode :=
  match r.(pm_state) with
  | Some RESULT_REJECTED => fake_failure
  | Some RESULT_UNKNOWN => fake_unknown_outcome
  | _ => fake_success
  end.
Definition cache_key (method : ProviderMethod) (requestId : string) : string := method_name method ++ ":" ++ requestId.
Definition remember (key : string) (canonicalRequest : option string) (r : ProviderMutationResult) : fake unit :=
  fmodify (on_mutationCache (<[key := {| cm_canonicalRequest := canonicalRequest; cm_result := r |}]>)).
(** The mutation is carried out, and its result kept. *)
Definition perform (method : ProviderMethod) (key : string) (canonicalRequest : option string) (step : FakeProviderStep)
    (execute : fake ProviderMutationResult) : fake ProviderMutationResult :=
  let& r := execute in
  let& _ := applyTaskPolling step r in
  let& _ := countMutation method in
  let& _ := remember key canonicalRequest r in
  fret r.
(** What follows the wait. *)
Definition answer (method : ProviderMethod) (key : string) (canonicalRequest : option string) (step : FakeProviderStep)
    (execute : fake ProviderMutationResult) : fake ProviderMutationResult :=
  match step.(st_mode) with
  | fake_timeout => fthrow (thrown_as deadline_exceeded)
  | fake_failure =>
      let& r := rejected_as (default "FAKE_PROVIDER_REJECTED" step.(st_failureCode))
                  (default FAILURE_CATEGORY_TRANSIENT step.(st_failureCategory)) in
      let& _ := remember key canonicalRequest r in
      fret r
  | fake_unknown_outcome =>
      let& _ := (if step.(st_applyBeforeResponse) then
                   let& _ := execute in countMutation method
                 else fret tt) in
      let& _ := nextId "evidence" in
      let r := {| pm_state := Some RESULT_UNKNOWN; pm_providerTaskReference := None; pm_providerResourceId := None;
                  pm_failure := Some {| pf_category := Some FAILURE_CATEGORY_UNKNOWN_OUTCOME;
                                        pf_code := Some (default "FAKE_UNKNOWN_OUTCOME" step.(st_failureCode));
                                        pf_safeMessage := Some "The provider outcome requires observation before retry.";
                                        pf_retryAfterMilliseconds := None |} |} in
      let& _ := remember key canonicalRequest r in
      fret r
  | fake_success => perform method key canonicalRequest step execute
  end.
Definition mutation (method : ProviderMethod) (requestId : string) (request : json)
    (execute : fake ProviderMutationResult) : starts ProviderMutationResult := λ s,
  let key := cache_key method requestId in
  let canonicalRequest := requestJson request in
  match s.(fs_mutationCache) !! key with
  | Some cached =>
      if bool_decide (cached.(cm_canonicalRequest) = canonicalRequest) then
        (Ended (Ok cached.(cm_result)), record_call method requestId (cached_mode cached.(cm_result)) true s)
      else (Ended (Err refusal), s)
  | None =>
      let '(step, s1) := nextStep method s in
      let s2 := record_call method requestId step.(st_mode) false s1 in
      if bool_decide (step.(st_mode) = fake_timeout) && step.(st_applyBeforeResponse) then
        match perform method key canonicalRequest step execute s2 with
        | (Ok _, s3) =>
            (Waiting (latency step) (λ aborted, fthrow (thrown_as (if aborted then ProviderPort.aborted else deadline_exceeded))), s3)
        | (Err x, s3) => (Ended (Err x), s3)
        end
      else
        (Waiting (latency step) (λ aborted,
           if aborted then fthrow (thrown_as ProviderPort.aborted) else answer method key canonicalRequest step execute), s2)
  end.

(** A mutation of a resource whose markers match. *)
Definition change (q : InstanceRequest) (k : FakeResource → fake ProviderMutationResult) : fake ProviderMutationResult :=
  let& found := ownedResource (Some q.(request_providerResourceId)) (Some q.(expectedOwnershipMarkers)) in
  match found with Err rejection => fret rejection | Ok resource => k resource end.
Definition checked {A B : Type} (m : result tf_error A) (k : A → starts B) : starts B :=
  match m with Ok a => k a | Err x => failing x end.

(** ** Operations *)

Definition created (id instanceId : string) (markers : OwnershipMarkers) (resources : option RequestResources)
    (network : option ConfigurationNetwork) : FakeResource :=
  {| fr_id := id; fr_instanceId := instanceId; fr_ownership := markers; fr_resources := resourcesValue resources;
     fr_network := network; fr_powerState := OBSERVED_STOPPED; fr_retained := false |}.
Definition submitCreateInstance (request : json) (c : option ProviderCallContext) (resources : option RequestResources)
    (network : option ConfigurationNetwork) (markers : option OwnershipMarkers) : starts ProviderMutationResult :=
  checked (checked_context c) (λ c,
    mutation M_submitCreateInstance c.(requestId) request (
      let& existing := fget (λ s, present (s.(fs_resourceByInstance) !! c.(ctx_instanceId))) in
      match existing with
      | Some existing => accepted_as existing
      | None =>
          let& id := nextId "resource" in
          let& markers := (λ s, (checked_ownership markers, s)) in
          let& _ := fmodify (on_machines (<[id := created id c.(ctx_instanceId) markers resources network]>)
                               (<[c.(ctx_instanceId) := id]>) (λ m, m)) in
          accepted_as id
      end)).
Definition set_resource (r : FakeResource) : fake unit :=
  fmodify (on_machines (<[r.(fr_id) := r]>) (λ m, m) (λ m, m)).
Definition applyInstanceConfiguration (request : json) (c : option ProviderCallContext) (resourceId : option string)
    (resources : option RequestResources) (network : option ConfigurationNetwork) (markers : option OwnershipMarkers) :
    starts ProviderMutationResult :=
  checked (checked_context c) (λ c,
    mutation M_applyInstanceConfiguration c.(requestId) request (
      let& found := ownedResource resourceId markers in
      match found with
      | Err rejection => fret rejection
      | Ok r =>
          let& _ := set_resource {| fr_id := r.(fr_id); fr_instanceId := r.(fr_instanceId); fr_ownership := r.(fr_ownership);
                                    fr_resources := resourcesValue resources; fr_network := network;
                                    fr_powerState := r.(fr_powerState); fr_retained := r.(fr_retained) |} in
          accepted_as r.(fr_id)
      end)).

Definition getTask (c : option ProviderCallContext) (reference : option string) : starts GetTaskResponse :=
  checked (checked_context c) (λ c,
    query M_getTask c.(requestId) (
      let& key := demanded reference in
      let& task := fget (λ s, s.(fs_tasks) !! key) in
      match task with
      | None => fret {| task_state := Some TASK_UNKNOWN; task_failure := None |}
      | Some t =>
          if 0 <? t.(ft_remainingPolls) then
            let& _ := fmodify (on_fake_tasks (<[key := {| ft_remainingPolls := t.(ft_remainingPolls) - 1;
                                                     ft_terminalState := t.(ft_terminalState) |}]>)) in
            fret {| task_state := Some TASK_RUNNING; task_failure := None |}
          else fret {| task_state := Some t.(ft_terminalState); task_failure := None |}
      end)).

(** [BigInt(text)]; [None] when it throws. *)
Definition BigInt_text (s : string) : option Z :=
  let decimal l := match l with [] => None | _ => if forallb is_digit l then Some (digits_value 10 l) else None end in
  let radix b p l := fst <$> radix_literal b p l in
  match chars (trim s) with
  | [] => Some 0
  | c :: r =>
      if is_char "-" c then Z.opp <$> decimal r
      else if is_char "+" c then decimal r
      else
        match is_char "0" c, r with
        | true, x :: digits =>
            if is_char "x" x || is_char "X" x then radix 16 is_hex_digit digits
            else if is_char "o" x || is_char "O" x then radix 8 (in_range 48 55) digits
            else if is_char "b" x || is_char "B" x then radix 2 (in_range 48 49) digits
            else decimal (c :: r)
        | _, _ => decimal (c :: r)
        end
  end.
(** The port reads the sizes of an observation as integers. *)
Definition observed_resources (r : RequestResources) : ProviderResources :=
  {| pr_cpuCount := r.(rs_cpuCount); pr_memoryMib := r.(rs_memoryMib) ≫= BigInt_text;
     pr_diskGib := r.(rs_diskGib) ≫= BigInt_text |}.
Definition observe (found : option FakeResource) (expected : option OwnershipMarkers) : InstanceObservation :=
  match found with
  | Some r =>
      {| io_exists := Some true; io_powerState := Some r.(fr_powerState);
         io_resources := Some (observed_resources r.(fr_resources));
         io_ownership := Some {| ownership_complete := Some true;
                                 ownership_match := Some (markers_match r.(fr_ownership) expected) |};
         io_observedAt := Some now |}
  | None =>
      {| io_exists := Some false; io_powerState := Some OBSERVED_UNKNOWN; io_resources := None;
         io_ownership := Some {| ownership_complete := Some false; ownership_match := Some false |};
         io_observedAt := Some now |}
  end.
(** [request.providerResourceId ?? resourceByInstance.get(instanceId)]: an
    empty identifier is kept, and finds nothing. *)
Definition observeInstance (c : option ProviderCallContext) (resourceId : option string)
    (expected : option OwnershipMarkers) : starts InstanceObservation :=
  checked (checked_context c) (λ checked_c,
    query M_observeInstance checked_c.(requestId) (
      let& found := fget (λ s,
        id ← present (match resourceId with
                      | Some id => Some id
                      | None => s.(fs_resourceByInstance) !! default "" (ctx_instanceId <$> c)
                      end);
        s.(fs_resources) !! id) in
      fret (observe found expected))).

Definition power (method : ProviderMethod) (request : json) (q : option MutationRequest) (state : ObservedPowerState) :
    starts ProviderMutationResult :=
  checked (checked_request q) (λ q,
    mutation method q.(context).(requestId) request (change q (λ r,
      let& _ := set_resource {| fr_id := r.(fr_id); fr_instanceId := r.(fr_instanceId); fr_ownership := r.(fr_ownership);
                                fr_resources := r.(fr_resources); fr_network := r.(fr_network);
                                fr_powerState := state; fr_retained := r.(fr_retained) |} in
      accepted_as r.(fr_id)))).

Definition resizeInstance (request : json) (q : option MutationRequest) (target : option RequestResources) :
    starts ProviderMutationResult :=
  checked (checked_request q) (λ q,
    mutation M_resizeInstance q.(context).(requestId) request (change q (λ r,
      let target := resourcesValue target in
      match BigInt_text (default "0" target.(rs_diskGib)), BigInt_text (default "0" r.(fr_resources).(rs_diskGib)) with
      | Some wanted, Some had =>
          if wanted <? had then rejected_as "DISK_SHRINK_FORBIDDEN" FAILURE_CATEGORY_VALIDATION
          else
            let& _ := set_resource {| fr_id := r.(fr_id); fr_instanceId := r.(fr_instanceId); fr_ownership := r.(fr_ownership);
                                      fr_resources := target; fr_network := r.(fr_network);
                                      fr_powerState := r.(fr_powerState); fr_retained := r.(fr_retained) |} in
            accepted_as r.(fr_id)
      | _, _ => fthrow (OrdinaryError "Cannot convert to a BigInt")
      end))).

(** [Map.set]: a key keeps its place. *)
Fixpoint map_put {A : Type} (k : string) (v : A) (l : list (string * A)) : list (string * A) :=
  match l with
  | [] => [(k, v)]
  | (k', v') :: r => if String.eqb k k' then (k, v) :: r else (k', v') :: map_put k v r
  end.
Definition without_key {A : Type} (k : string) (l : list (string * A)) : list (string * A) :=
  List.filter (λ p, negb (String.eqb (fst p) k)) l.
Definition map_has {A : Type} (k : string) (l : list (string * A)) : bool := existsb (λ p, String.eqb k (fst p)) l.
Definition snapshots_of (id : string) (s : FakeState) : list (string * ProviderSnapshot) := default [] (s.(fs_snapshots) !! id).

Definition listSnapshots (c : option ProviderCallContext) (resourceId : option string)
    (expected : option OwnershipMarkers) : starts (list ProviderSnapshot) :=
  checked (checked_context c) (λ c,
    query M_listSnapshots c.(requestId) (
      let& found := ownedResource resourceId expected in
      match found with
      | Err _ => fthrow (thrown_as protocol_error)
      | Ok r => let& l := fget (snapshots_of r.(fr_id)) in fret (map snd l)
      end)).
Definition createSnapshot (request : json) (q : option MutationRequest) (snapshotId name description : option string) :
    starts ProviderMutationResult :=
  checked (checked_request q) (λ q,
    mutation M_createSnapshot q.(context).(requestId) request (change q (λ r,
      let& key := demanded snapshotId in
      let& label := demanded name in
      let& l := fget (snapshots_of r.(fr_id)) in
      let& _ := fmodify (on_machines (λ m, m) (λ m, m)
                  (<[r.(fr_id) := map_put key {| ps_reference := "fake-snapshot-" ++ key; ps_name := label;
                                                 ps_description := present description; ps_createdAt := now |} l]>)) in
      accepted_as r.(fr_id)))).
Definition snapshotMutation (method : ProviderMethod) (request : json) (q : option MutationRequest)
    (snapshotId : option string) (remove : bool) : starts ProviderMutationResult :=
  checked (checked_request q) (λ q,
    mutation method q.(context).(requestId) request (change q (λ r,
      let& key := demanded snapshotId in
      let& l := fget (snapshots_of r.(fr_id)) in
      if negb (map_has key l) then rejected_as "SNAPSHOT_NOT_FOUND" FAILURE_CATEGORY_NOT_FOUND
      else
        let& _ := (if remove then fmodify (on_machines (λ m, m) (λ m, m) (<[r.(fr_id) := without_key key l]>)) else fret tt) in
        accepted_as r.(fr_id)))).

Definition markInstanceRetained (request : json) (q : option MutationRequest) : starts ProviderMutationResult :=
  checked (checked_request q) (λ q,
    mutation M_markInstanceRetained q.(context).(requestId) request (change q (λ r,
      let& _ := set_resource {| fr_id := r.(fr_id); fr_instanceId := r.(fr_instanceId); fr_ownership := r.(fr_ownership);
                                fr_resources := r.(fr_resources); fr_network := r.(fr_network);
                                fr_powerState := r.(fr_powerState); fr_retained := true |} in
      accepted_as r.(fr_id)))).
Definition purgeInstance (request : json) (q : option MutationRequest) (purgeAuthorizationId retentionDeadline : option string) :
    starts ProviderMutationResult :=
  checked (checked_request q) (λ q,
    mutation M_purgeInstance q.(context).(requestId) request (
      if bool_decide (present purgeAuthorizationId = None) || bool_decide (present retentionDeadline = None) then
        rejected_as "PURGE_GUARD_FAILED" FAILURE_CATEGORY_VALIDATION
      else change q (λ r,
        let& _ := fmodify (on_machines (delete r.(fr_id)) (delete r.(fr_instanceId)) (delete r.(fr_id))) in
        accepted_as r.(fr_id)))).

Record ProviderProfile : Set := {
  pp_endpoint : option string; pp_computeTarget : option string; pp_storageTarget : option string;
  pp_networkAttachment : option string; pp_credentialReference : option string }.
Record ProfileCheck : Set := { pc_name : string; pc_passed : bool; pc_safeSummary : string }.
Record ProfileReport : Set := { pv_valid : bool; pv_checks : list ProfileCheck; pv_evidenceId : string }.
Definition profile_checks (p : option ProviderProfile) : list ProfileCheck :=
  map (λ '(name, value),
    let configured := bool_decide (present value ≠ None) in
    {| pc_name := name; pc_passed := configured;
       pc_safeSummary := name ++ (if configured then " is configured." else " is required.") |})
    [("endpoint", p ≫= pp_endpoint); ("computeTarget", p ≫= pp_computeTarget); ("storageTarget", p ≫= pp_storageTarget);
     ("networkAttachment", p ≫= pp_networkAttachment); ("credentialReference", p ≫= pp_credentialReference)].
Definition validateProfile (request : option string) (p : option ProviderProfile) : starts ProfileReport :=
  checked (required request) (λ id,
    query M_validateProfile id (
      let& evidence := nextId "evidence" in
      fret {| pv_valid := forallb pc_passed (profile_checks p); pv_checks := profile_checks p; pv_evidenceId := evidence |})).
Record ProviderCapabilities : Set := {
  cb_maximumCpuCount : Z; cb_maximumMemoryMib : string; cb_maximumDiskGib : string; cb_maximumSnapshots : Z }.
(** Every operation is offered. *)
Definition all_capabilities : ProviderCapabilities :=
  {| cb_maximumCpuCount := 64; cb_maximumMemoryMib := "262144"; cb_maximumDiskGib := "2048"; cb_maximumSnapshots := 32 |}.
Definition getCapabilities (request : option string) : starts ProviderCapabilities :=
  checked (required request) (λ id, query M_getCapabilities id (fret all_capabilities)).
End fake.

(** ** As a port *)

Definition context_json (c : ProviderCallContext) : json :=
  JObj [("requestId", JStr c.(requestId)); ("operationId", JStr c.(ctx_operationId));
        ("correlationId", JStr c.(ctx_correlationId)); ("projectId", JStr c.(ctx_projectId));
        ("instanceId", JStr c.(ctx_instanceId)); ("providerProfileId", JStr c.(ctx_providerProfileId));
        ("attempt", JNum c.(ctx_attempt)); ("fencingToken", JStr c.(ctx_fencingToken))].
Definition resources_json (r : WireResources) : json :=
  JObj [("cpuCount", JNum r.(wire_cpuCount)); ("memoryMib", JStr r.(wire_memoryMib)); ("diskGib", JStr r.(wire_diskGib))].
Definition network_json (n : WireNetwork) : json :=
  JObj [("networkId", JStr n.(wire_networkId)); ("ipv4Address", JStr n.(wire_ipv4Address));
        ("ipv4PrefixLength", JNum n.(wire_ipv4PrefixLength)); ("ipv4Gateway", JStr n.(wire_ipv4Gateway));
        ("dnsServers", JArr (map JStr n.(wire_dnsServers)))].
Definition mutation_json (q : InstanceRequest) : json :=
  JObj [("context", context_json q.(context)); ("providerResourceId", JStr q.(request_providerResourceId));
        ("expectedOwnershipMarkers", markers_json q.(expectedOwnershipMarkers))].
Definition snapshot_json (q : InstanceRequest) (snapshotId reference : string) : json :=
  JObj [("request", JObj [("request", mutation_json q); ("snapshotId", JStr snapshotId);
                          ("providerSnapshotReference", JStr reference)])].
(** The request that [mutation] is handed: the inner one for power. *)
Definition request_json `{Platform} (c : rpc) : json :=
  match c with
  | ProviderPort.submitCreateInstance c image flavor g m =>
      JObj [("context", context_json c); ("imageId", JStr image); ("flavorId", JStr flavor);
            ("hostname", JStr g.(guest_hostname)); ("resources", resources_json g.(guest_resources));
            ("network", network_json g.(guest_network)); ("sshPublicKeys", JArr (map JStr g.(guest_sshPublicKeys)));
            ("ownershipMarkers", markers_json m)]
  | ProviderPort.applyInstanceConfiguration q g =>
      JObj [("context", context_json q.(context)); ("providerResourceId", JStr q.(request_providerResourceId));
            ("hostname", JStr g.(guest_hostname)); ("resources", resources_json g.(guest_resources));
            ("network", network_json g.(guest_network)); ("sshPublicKeys", JArr (map JStr g.(guest_sshPublicKeys)));
            ("ownershipMarkers", markers_json q.(expectedOwnershipMarkers))]
  | ProviderPort.startInstance q | ProviderPort.shutdownInstance q | ProviderPort.stopInstance q
  | ProviderPort.rebootInstance q => mutation_json q
  | ProviderPort.resizeInstance q target => JObj [("request", mutation_json q); ("targetResources", resources_json target)]
  | ProviderPort.createSnapshot q id name description =>
      JObj ([("request", mutation_json q); ("snapshotId", JStr id); ("name", JStr name)]
            ++ (match description with Some d => [("description", JStr d)] | None => [] end))%list
  | ProviderPort.rollbackSnapshot q id reference | ProviderPort.deleteSnapshot q id reference => snapshot_json q id reference
  | ProviderPort.markInstanceRetained q deadline =>
      JObj [("request", mutation_json q); ("retentionDeadline", JStr (toISOString deadline))]
  | ProviderPort.purgeInstance q authorization deadline =>
      JObj [("request", mutation_json q); ("purgeAuthorizationId", JStr authorization);
            ("retentionDeadline", JStr (toISOString deadline))]
  | ProviderPort.getTask _ _ | ProviderPort.observeInstance _ | ProviderPort.listSnapshots _ => JUndefined
  end.

Inductive port_call : Set :=
| PortRpc (c : rpc)
| ValidateProfile (request : option string) (p : option ProviderProfile)
| GetCapabilities (request : option string).
Definition port_reply (c : port_call) : Set :=
  match c with PortRpc c => rpc_reply c | ValidateProfile _ _ => ProfileReport | GetCapabilities _ => ProviderCapabilities end.
Definition mapped {A B : Type} (f : A → B) (m : starts A) : starts B := λ s, let '(b, s') := m s in (begun_map f b, s').

Section port.
Context `{Platform}.
Variable configuration : FakeProviderConfiguration.
Variable now : Z.

(** The mutations; a query is none. *)
Definition start_mutation (c : rpc) : starts ProviderMutationResult :=
  match c with
  | ProviderPort.submitCreateInstance context _ _ g m =>
      submitCreateInstance configuration (request_json c) (Some context) (Some (port_resources g.(guest_resources)))
        (Some (port_network g.(guest_network))) (Some m)
  | ProviderPort.applyInstanceConfiguration q g =>
      applyInstanceConfiguration configuration (request_json c) (Some q.(context)) (Some q.(request_providerResourceId))
        (Some (port_resources g.(guest_resources))) (Some (port_network g.(guest_network)))
        (Some q.(expectedOwnershipMarkers))
  | ProviderPort.startInstance q =>
      power configuration M_startInstance (request_json c) (Some (port_request q)) OBSERVED_RUNNING
  | ProviderPort.shutdownInstance q =>
      power configuration M_shutdownInstance (request_json c) (Some (port_request q)) OBSERVED_STOPPED
  | ProviderPort.stopInstance q =>
      power configuration M_stopInstance (request_json c) (Some (port_request q)) OBSERVED_STOPPED
  | ProviderPort.rebootInstance q =>
      power configuration M_rebootInstance (request_json c) (Some (port_request q)) OBSERVED_RUNNING
  | ProviderPort.resizeInstance q target =>
      resizeInstance configuration (request_json c) (Some (port_request q)) (Some (port_resources target))
  | ProviderPort.createSnapshot q id name description =>
      createSnapshot configuration now (request_json c) (Some (port_request q)) (Some id) (Some name) description
  | ProviderPort.rollbackSnapshot q id _ =>
      snapshotMutation configuration M_rollbackSnapshot (request_json c) (Some (port_request q)) (Some id) false
  | ProviderPort.deleteSnapshot q id _ =>
      snapshotMutation configuration M_deleteSnapshot (request_json c) (Some (port_request q)) (Some id) true
  | ProviderPort.markInstanceRetained q _ =>
      markInstanceRetained configuration (request_json c) (Some (port_request q))
  | ProviderPort.purgeInstance q authorization deadline =>
      purgeInstance configuration (request_json c) (Some (port_request q)) (Some authorization) (Some (toISOString deadline))
  | ProviderPort.getTask _ _ | ProviderPort.observeInstance _ | ProviderPort.listSnapshots _ => failing refusal
  end.
Definition start_rpc (c : rpc) : starts (rpc_reply c) :=
  match c as c0 return starts (rpc_reply c0) with
  | ProviderPort.getTask c reference => getTask configuration (Some c) (Some reference)
  | ProviderPort.observeInstance q =>
      mapped Some (observeInstance configuration now (Some q.(context)) (Some q.(request_providerResourceId))
        (Some q.(expectedOwnershipMarkers)))
  | ProviderPort.listSnapshots q =>
      mapped (λ l, Some (map (λ p, Some p.(ps_name)) l))
        (listSnapshots configuration (Some q.(context)) (Some q.(request_providerResourceId))
           (Some q.(expectedOwnershipMarkers)))
  | _ => mapped Some (start_mutation c)
  end.
Definition start (c : port_call) : starts (port_reply c) :=
  match c as c0 return starts (port_reply c0) with
  | PortRpc c => start_rpc c
  | ValidateProfile request p => validateProfile configuration request p
  | GetCapabilities request => getCapabilities configuration request
  end.
End port.
