(* ===== verification/FakeSafety.v ===== *)
(** * What the deterministic provider guarantees

    However calls interleave, whatever is scripted and whichever waits are
    aborted: an instance has one machine at most, a machine changes only for a
    call that names it and carries its markers, and a mutation that was
    answered is answered the same way for ever, at no cost but a line of the
    log.  What counts as the same request is stated with its limit: the
    fencing token is left out of the comparison only where it stands at the
    top of the request. *)
From S2P Require Import Prelude JsText Json JsonParse SshKey Domain Events Platform Saga ProviderPort Ownership TerraformRunner TerraformProvider ProxmoxProvider ProviderWire FakeProvider.
From Stdlib Require Import ZArith Lia Bool Ascii String.
From stdpp Require Import base decidable list sets strings gmap relations.
Open Scope string_scope.
Open Scope Z_scope.
Open Scope prog_scope.

(** ** Turns that keep a relation *)

Definition fkeeps {A : Type} (R : relation FakeState) (m : fake A) : Prop := ∀ s, R s (snd (m s)).

Section fkeeps.
Context (R : relation FakeState) `{!PreOrder R}.
Lemma fkeeps_ret {A : Type} (a : A) : fkeeps R (fret a).
Proof. intros s. reflexivity. Qed.
Lemma fkeeps_throw {A : Type} (x : tf_error) : fkeeps R (A := A) (fthrow x).
Proof. intros s. reflexivity. Qed.
Lemma fkeeps_get {A : Type} (f : FakeState → A) : fkeeps R (fget f).
Proof. intros s. reflexivity. Qed.
Lemma fkeeps_lift {A : Type} (r : result tf_error A) : fkeeps R (λ s, (r, s)).
Proof. intros s. reflexivity. Qed.
Lemma fkeeps_bind {A B : Type} (m : fake A) (k : A → fake B) :
  fkeeps R m → (∀ a, fkeeps R (k a)) → fkeeps R (fbind m k).
Proof.
  intros Hm Hk s. unfold fbind. specialize (Hm s). destruct (m s) as [[a|x] s']; cbn in *; [|done].
  transitivity s'; [done|apply Hk].
Qed.
Lemma fkeeps_bind_get {A B : Type} (f : FakeState → A) (k : A → fake B) :
  (∀ s, R s (snd (k (f s) s))) → fkeeps R (fbind (fget f) k).
Proof. intros Hk s. apply Hk. Qed.
Lemma fkeeps_modify (f : FakeState → FakeState) : (∀ s, R s (f s)) → fkeeps R (fmodify f).
Proof. intros Hf s. apply Hf. Qed.
End fkeeps.
#[export] Hint Resolve fkeeps_ret fkeeps_throw fkeeps_get fkeeps_lift : program.

(** ** The machines *)

Definition resource_id (n : Z) : string := "fake-resource-" ++ padded n.
Record well_indexed (s : FakeState) : Prop := {
  wi_indexed i r : s.(fs_resourceByInstance) !! i = Some r →
    ∃ m, s.(fs_resources) !! r = Some m ∧ m.(fr_instanceId) = i;
  wi_named r m : s.(fs_resources) !! r = Some m →
    m.(fr_id) = r ∧ s.(fs_resourceByInstance) !! m.(fr_instanceId) = Some r;
  wi_drawn r m : s.(fs_resources) !! r = Some m → ∃ n, 0 < n ≤ s.(fs_sequence) ∧ r = resource_id n;
  wi_snapshots r l : s.(fs_snapshots) !! r = Some l → is_Some (s.(fs_resources) !! r);
  wi_sequence : 0 ≤ s.(fs_sequence);
}.
Lemma well_indexed_new : well_indexed new_FakeProvider.
Proof. split; cbn; intros; try done. all: by rewrite lookup_empty in *. Qed.

(** A machine keeps its name, its instance and its markers.  A call may change
    the machine that it names and whose markers it carries,
    and removes it only if it is a purge. *)
Definition machine_change (before after : FakeResource) : Prop :=
  after.(fr_id) = before.(fr_id) ∧ after.(fr_instanceId) = before.(fr_instanceId)
  ∧ after.(fr_ownership) = before.(fr_ownership).
Definition proves (c : rpc) (r : string) (m : FakeResource) : Prop :=
  match c with
  | ProviderPort.submitCreateInstance _ _ _ _ _ | ProviderPort.getTask _ _ | ProviderPort.observeInstance _
  | ProviderPort.listSnapshots _ => False
  | ProviderPort.applyInstanceConfiguration q _ | ProviderPort.startInstance q | ProviderPort.shutdownInstance q
  | ProviderPort.stopInstance q | ProviderPort.rebootInstance q | ProviderPort.resizeInstance q _
  | ProviderPort.createSnapshot q _ _ _ | ProviderPort.rollbackSnapshot q _ _ | ProviderPort.deleteSnapshot q _ _
  | ProviderPort.markInstanceRetained q _ | ProviderPort.purgeInstance q _ _ =>
      q.(request_providerResourceId) = r ∧ markers_match m.(fr_ownership) (Some q.(expectedOwnershipMarkers)) = true
  end.

(** ** Identifiers *)

Lemma padded_value (n : Z) : 0 ≤ n → digits_value 10 (chars (padded n)) = n.
Proof.
  intros Hn. destruct (numeral n) as (ds & Hds & _ & Hv & _). rewrite (proj2 (Z.ltb_ge n 0) Hn) in Hds. cbn in Hds.
  unfold padded. set (k := (6 - _)%nat).
  assert (Happ : chars (of_chars (replicate k "0"%char) ++ string_of_Z n) = (replicate k "0"%char ++ ds)%list).
  { rewrite <- Hds. clear. induction k as [|k IH]; [done|]. exact (f_equal (cons "0"%char) IH). }
  rewrite Happ. unfold digits_value in *. rewrite fold_left_app.
  replace (fold_left _ (replicate k "0"%char) 0) with 0; [lia|]. clear. induction k as [|k IH]; [done|exact IH].
Qed.
Lemma resource_id_inj (m n : Z) : 0 ≤ m → 0 ≤ n → resource_id m = resource_id n → m = n.
Proof.
  intros Hm Hn Heq. assert (Hp : padded m = padded n) by (unfold resource_id in Heq; by injection Heq).
  by rewrite <- (padded_value m), <- (padded_value n), Hp.
Qed.
Lemma resource_id_truthy (n : Z) : present (Some (resource_id n)) = Some (resource_id n).
Proof. done. Qed.

(** ** Moves

    What one turn does on behalf of a call: only the answer under [key] may be
    new, and only machines that [proven] speaks of may change. *)
Record moves (key : option string) (proven : string → FakeResource → Prop) (purging : Prop) (s s' : FakeState) : Prop := {
  mv_sequence : s.(fs_sequence) ≤ s'.(fs_sequence);
  mv_cache k : key ≠ Some k → s'.(fs_mutationCache) !! k = s.(fs_mutationCache) !! k;
  mv_indexed : well_indexed s → well_indexed s';
  mv_machines : well_indexed s → ∀ r m, s.(fs_resources) !! r = Some m →
    s'.(fs_resources) !! r = Some m
    ∨ proven r m ∧ match s'.(fs_resources) !! r with Some m' => machine_change m m' | None => purging end;
  mv_new : well_indexed s → ∀ r m, s.(fs_resources) !! r = None → s'.(fs_resources) !! r = Some m →
    ∃ n, s.(fs_sequence) < n ≤ s'.(fs_sequence) ∧ r = resource_id n;
}.

Lemma machine_change_trans (m1 m2 m3 : FakeResource) : machine_change m1 m2 → machine_change m2 m3 → machine_change m1 m3.
Proof. intros (H1 & H2 & H3) (H4 & H5 & H6). unfold machine_change. by rewrite H4, H5, H6. Qed.

#[export] Instance moves_preorder (key : option string) (proven : string → FakeResource → Prop) (purging : Prop) :
  PreOrder (moves key proven purging).
Proof.
  split.
  - intros s. split; intros; auto; try lia; congruence.
  - intros s1 s2 s3 H1 H2. split.
    + pose proof (mv_sequence _ _ _ _ _ H1). pose proof (mv_sequence _ _ _ _ _ H2). lia.
    + intros k Hk. by rewrite (mv_cache _ _ _ _ _ H2), (mv_cache _ _ _ _ _ H1).
    + intros Hw. apply (mv_indexed _ _ _ _ _ H2), (mv_indexed _ _ _ _ _ H1), Hw.
    + intros Hw r m Hr. pose proof (mv_indexed _ _ _ _ _ H1 Hw) as Hw2.
      destruct (mv_machines _ _ _ _ _ H1 Hw r m Hr) as [Hr2|[Hp Hr2]]; [by apply (mv_machines _ _ _ _ _ H2)|].
      right. split; [done|]. destruct (fs_resources s2 !! r) as [m2|] eqn:E2.
      * destruct (mv_machines _ _ _ _ _ H2 Hw2 r m2 E2) as [->|[_ Hr3]]; [done|].
        destruct (fs_resources s3 !! r); [by eapply machine_change_trans|done].
      * destruct (fs_resources s3 !! r) as [m3|] eqn:E3; [|done].
        destruct (mv_new _ _ _ _ _ H2 Hw2 r m3 E2 E3) as (n & Hn & ->).
        destruct (wi_drawn s1 Hw _ _ Hr) as (n' & Hn' & Heq). pose proof (mv_sequence _ _ _ _ _ H1).
        pose proof (wi_sequence s1 Hw). apply resource_id_inj in Heq; lia.
    + intros Hw r m Hr Hr3. pose proof (mv_indexed _ _ _ _ _ H1 Hw) as Hw2.
      pose proof (mv_sequence _ _ _ _ _ H1). pose proof (mv_sequence _ _ _ _ _ H2).
      destruct (fs_resources s2 !! r) as [m2|] eqn:E2.
      * destruct (mv_new _ _ _ _ _ H1 Hw r m2 Hr E2) as (n & Hn & ->). exists n. split; [lia|done].
      * destruct (mv_new _ _ _ _ _ H2 Hw2 r m E2 Hr3) as (n & Hn & ->). exists n. split; [lia|done].
Qed.

Section moves.
Variable configuration : FakeProviderConfiguration.
Variable now : Z.
Context (key : option string) (proven : string → FakeResource → Prop) (purging : Prop).
Local Notation R := (moves key proven purging).

(** A turn that leaves the machines alone. *)
Lemma moves_quiet (s s' : FakeState) :
  s'.(fs_resources) = s.(fs_resources) → s'.(fs_resourceByInstance) = s.(fs_resourceByInstance) →
  s'.(fs_snapshots) = s.(fs_snapshots) → s.(fs_sequence) ≤ s'.(fs_sequence) →
  (∀ k, key ≠ Some k → s'.(fs_mutationCache) !! k = s.(fs_mutationCache) !! k) → R s s'.
Proof.
  intros Hr Hi Hs Hn Hc. split; [done|done|..].
  - intros [H1 H2 H3 H4 H5]. split; rewrite ?Hr, ?Hi, ?Hs; [done|done| |done|lia].
    intros r m Hm. destruct (H3 r m Hm) as (n & Hn' & ->). exists n. split; [lia|done].
  - intros _ r m. rewrite Hr. by left.
  - intros _ r m. rewrite Hr. congruence.
Qed.
Ltac quiet := intros; apply moves_quiet; cbn; try done; try lia.

Lemma keeps_nextId (kind : string) : fkeeps R (nextId kind).
Proof. intros s. quiet. Qed.
Lemma keeps_countMutation (m : ProviderMethod) : fkeeps R (countMutation m).
Proof. apply fkeeps_modify. quiet. Qed.
Lemma keeps_tasks (f : gmap string FakeTask → gmap string FakeTask) : fkeeps R (fmodify (on_fake_tasks f)).
Proof. apply fkeeps_modify. quiet. Qed.
Lemma keeps_remember (k : string) (content : option string) (r : ProviderMutationResult) :
  key = Some k → fkeeps R (remember k content r).
Proof. intros Hk. apply fkeeps_modify. quiet. intros k' Hk'. rewrite lookup_insert_ne; [done|congruence]. Qed.
Lemma keeps_required (v : option string) : fkeeps R (demanded v).
Proof. apply fkeeps_lift, _. Qed.
Hint Resolve keeps_nextId keeps_countMutation keeps_tasks keeps_remember keeps_required : program.
Lemma keeps_rejected (code : string) (category : FailureCategory) : fkeeps R (rejected_as code category).
Proof. apply fkeeps_bind; [typeclasses eauto|auto with program|intros; apply fkeeps_ret, _]. Qed.
Ltac turns :=
  repeat match goal with
  | |- fkeeps _ (fbind _ _) => apply fkeeps_bind; [typeclasses eauto| |intros ?]
  | |- fkeeps _ (match ?x with _ => _ end) => destruct x
  end; eauto with program.
Hint Extern 1 (PreOrder _) => typeclasses eauto : program.
Lemma keeps_accepted (id : string) : fkeeps R (accepted_as configuration id).
Proof. unfold accepted_as. turns. Qed.
Lemma keeps_polling (step : FakeProviderStep) (r : ProviderMutationResult) : fkeeps R (applyTaskPolling step r).
Proof. unfold applyTaskPolling. turns. Qed.
Hint Resolve keeps_rejected keeps_accepted keeps_polling : program.

Lemma keeps_perform (m : ProviderMethod) (k : string) (content : option string) (step : FakeProviderStep)
    (execute : fake ProviderMutationResult) :
  key = Some k → fkeeps R execute → fkeeps R (perform m k content step execute).
Proof. intros Hk He. unfold perform. turns. Qed.
Lemma keeps_answer (m : ProviderMethod) (k : string) (content : option string) (step : FakeProviderStep)
    (execute : fake ProviderMutationResult) :
  key = Some k → fkeeps R execute → fkeeps R (answer m k content step execute).
Proof. intros Hk He. unfold answer. pose proof (keeps_perform m k content step execute Hk He). turns. Qed.

(** A call keeps a relation in both its turns. *)
Definition both_turns {A : Type} (m : starts A) : Prop :=
  ∀ s, R s (snd (m s)) ∧ match fst (m s) with Waiting _ k => ∀ aborted, fkeeps R (k aborted) | Ended _ => True end.
Lemma turns_failing {A : Type} (x : tf_error) : both_turns (A := A) (failing x).
Proof. intros s. split; [reflexivity|done]. Qed.
Lemma turns_checked {A B : Type} (m : result tf_error A) (k : A → starts B) :
  (∀ a, m = Ok a → both_turns (k a)) → both_turns (checked m k).
Proof. intros Hk. destruct m as [a|x]; [by apply Hk|apply turns_failing]. Qed.
Lemma turns_mapped {A B : Type} (f : A → B) (m : starts A) : both_turns m → both_turns (mapped f m).
Proof.
  intros Hm s. specialize (Hm s). unfold mapped. destruct (m s) as [[[a|x]|n k] s']; cbn in *; [done|done|].
  destruct Hm as [H1 H2]. split; [done|]. intros aborted. apply fkeeps_bind; [typeclasses eauto|apply H2|].
  intros a. apply fkeeps_ret, _.
Qed.
Lemma turns_query {A : Type} (m : ProviderMethod) (id : string) (execute : fake A) :
  fkeeps R execute → both_turns (query configuration m id execute).
Proof.
  intros He s. unfold query. destruct (nextStep configuration m s) as [step s1] eqn:En.
  injection En as <- <-. cbn [fst snd]. split; [quiet|]. intros aborted. turns.
Qed.
Lemma turns_mutation (m : ProviderMethod) (id : string) (request : json) (execute : fake ProviderMutationResult) :
  key = Some (cache_key m id) → fkeeps R execute → both_turns (mutation configuration m id request execute).
Proof.
  intros Hk He s. unfold mutation. destruct (fs_mutationCache s !! cache_key m id) as [cached|].
  { destruct (bool_decide _); (split; [quiet|done]). }
  destruct (nextStep configuration m s) as [step s1] eqn:En. injection En as <- <-.
  set (s2 := record_call _ _ _ _ _). assert (Hs2 : R s s2) by quiet.
  destruct (_ && _).
  - match goal with |- context [perform ?a ?b ?c ?d ?e s2] => pose proof (keeps_perform a b c d e Hk He s2) as Hp;
      destruct (perform a b c d e s2) as [[r|x] s3] end; cbn in *.
    + split; [by transitivity s2|]. intros aborted. apply fkeeps_throw, _.
    + split; [by transitivity s2|done].
  - cbn. split; [done|]. intros aborted. destruct aborted; [apply fkeeps_throw, _|by apply keeps_answer].
Qed.

(** A turn that changes a machine whose markers were compared. *)
Lemma keeps_owned (id : option string) (expected : option OwnershipMarkers) : fkeeps R (ownedResource id expected).
Proof. unfold ownedResource. turns. Qed.
Lemma keeps_bind_at {A B : Type} (m : fake A) (k : A → fake B) (s : FakeState) :
  R s (snd (m s)) → (∀ a, fkeeps R (k a)) → R s (snd (fbind m k s)).
Proof. intros Hm Hk. unfold fbind. destruct (m s) as [[a|x] s']; [|done]. transitivity s'; [done|apply Hk]. Qed.
Lemma keeps_owner (id : string) (expected : OwnershipMarkers) (k : FakeResource → fake ProviderMutationResult) :
  (∀ s m, s.(fs_resources) !! id = Some m → markers_match m.(fr_ownership) (Some expected) = true → R s (snd (k m s))) →
  fkeeps R (let& found := ownedResource (Some id) (Some expected) in
            match found with Err rejection => fret rejection | Ok resource => k resource end).
Proof.
  intros Hk s. unfold ownedResource, fbind at 1, fbind at 1, demanded, required. cbn [present].
  destruct (present (Some id)) as [id'|] eqn:Ep; [|reflexivity].
  assert (id' = id) as -> by (cbn in Ep; destruct (truthy id); congruence).
  unfold fbind at 1, fget. destruct (fs_resources s !! id) as [m|] eqn:Em.
  - destruct (markers_match _ _) eqn:Ek; [by apply Hk|]. unfold fbind.
    pose proof (keeps_rejected "OWNERSHIP_MISMATCH" FAILURE_CATEGORY_AUTHORIZATION s) as Hr.
    by destruct (rejected_as _ _ s) as [[r|x] s'].
  - unfold fbind. pose proof (keeps_rejected "RESOURCE_NOT_FOUND" FAILURE_CATEGORY_NOT_FOUND s) as Hr.
    by destruct (rejected_as _ _ s) as [[r|x] s'].
Qed.
Lemma moves_set (s : FakeState) (r : string) (m m' : FakeResource) :
  s.(fs_resources) !! r = Some m → proven r m → machine_change m m' → R s (snd (set_resource m' s)).
Proof.
  intros Hr Hp (H1 & H2 & H3). cbn. split; cbn; [lia|done|..].
  - intros [Hi Hn Hd Hs Hq]. destruct (Hn r m Hr) as [Hid Hx]. rewrite H1, Hid. split; cbn.
    + intros i r' Hir. destruct (decide (r' = r)) as [->|Hne]; [|rewrite lookup_insert_ne by done; by apply Hi].
      rewrite lookup_insert_eq. exists m'. split; [done|]. destruct (Hi i r Hir) as (m2 & Hm2 & <-). congruence.
    + intros r' m2. destruct (decide (r' = r)) as [->|Hne]; [|rewrite lookup_insert_ne by done; by apply Hn].
      rewrite lookup_insert_eq. intros [= <-]. rewrite H1, H2. by split.
    + intros r' m2. destruct (decide (r' = r)) as [->|Hne]; [|rewrite lookup_insert_ne by done; by apply Hd].
      intros _. by apply (Hd r m).
    + intros r' l Hl. apply Hs in Hl. rewrite lookup_insert_is_Some. destruct (decide (r = r')); [by left|by right].
    + done.
  - intros Hw r' m2 Hr'. destruct (wi_named s Hw r m Hr) as [Hid _]. rewrite H1, Hid.
    destruct (decide (r' = r)) as [->|Hne]; [|left; by rewrite lookup_insert_ne].
    right. rewrite lookup_insert_eq. replace m2 with m by congruence. done.
  - intros Hw r' m2 Hn Hr'. destruct (wi_named s Hw r m Hr) as [Hid _]. rewrite H1, Hid in Hr'.
    destruct (decide (r' = r)) as [->|Hne]; [congruence|]. rewrite lookup_insert_ne in Hr' by done. congruence.
Qed.
(** New snapshots of a machine that is there. *)
Lemma moves_snapshots (s : FakeState) (r : string) (m : FakeResource) (l : list (string * ProviderSnapshot)) :
  s.(fs_resources) !! r = Some m →
  R s (on_machines (λ x, x) (λ x, x) (λ x, <[m.(fr_id) := l]> x) s).
Proof.
  intros Hr. split; cbn; [lia|done|..].
  - intros [Hi Hn Hd Hs Hq]. split; cbn; [done|done|done| |done].
    intros r' l'. destruct (Hn r m Hr) as [-> _]. destruct (decide (r' = r)) as [->|Hne]; [by intros _|].
    rewrite lookup_insert_ne by done. apply Hs.
  - intros _ r' m2. by left.
  - intros _ r' m2. congruence.
Qed.
Lemma moves_removed (s : FakeState) (r : string) (m : FakeResource) :
  s.(fs_resources) !! r = Some m → proven r m → purging →
  R s (on_machines (delete m.(fr_id)) (delete m.(fr_instanceId)) (delete m.(fr_id)) s).
Proof.
  intros Hr Hp Hpurge. split; cbn; [lia|done|..].
  - intros [Hi Hn Hd Hs Hq]. destruct (Hn r m Hr) as [-> Hx]. split; cbn.
    + intros i r' [Hne Hir]%lookup_delete_Some. destruct (Hi i r' Hir) as (m2 & Hm2 & <-). exists m2. split; [|done].
      rewrite lookup_delete_ne; [done|]. intros <-. congruence.
    + intros r' m2 [Hne Hm2]%lookup_delete_Some. destruct (Hn r' m2 Hm2) as [H1 H2]. split; [done|].
      rewrite lookup_delete_ne; [done|]. intros Heq. rewrite <- Heq in H2. congruence.
    + intros r' m2 [_ Hm2]%lookup_delete_Some. by apply (Hd r' m2).
    + intros r' l [Hne Hl]%lookup_delete_Some. rewrite lookup_delete_ne by done. by apply (Hs r' l).
    + done.
  - intros Hw r' m2 Hr'. destruct (wi_named s Hw r m Hr) as [-> _]. destruct (decide (r' = r)) as [->|Hne].
    + right. rewrite lookup_delete_eq. replace m2 with m by congruence. done.
    + left. by rewrite lookup_delete_ne.
  - intros _ r' m2 Hn [_ Hr']%lookup_delete_Some. congruence.
Qed.
Lemma keeps_create (c : ProviderCallContext) (markers : option OwnershipMarkers) (resources : option RequestResources)
    (network : option ConfigurationNetwork) :
  fkeeps R (let& existing := fget (λ s, present (s.(fs_resourceByInstance) !! c.(ctx_instanceId))) in
            match existing with
            | Some existing => accepted_as configuration existing
            | None =>
                let& id := nextId "resource" in
                let& markers := (λ s, (checked_ownership markers, s)) in
                let& _ := fmodify (on_machines (<[id := created id c.(ctx_instanceId) markers resources network]>)
                                     (<[c.(ctx_instanceId) := id]>) (λ m, m)) in
                accepted_as configuration id
            end).
Proof.
  apply fkeeps_bind_get. intros s. destruct (present _) as [id|] eqn:E; [apply keeps_accepted|].
  unfold fbind at 1, nextId. change ("fake-" ++ "resource" ++ "-" ++ padded (fs_sequence s + 1)) with (resource_id (fs_sequence s + 1)).
  set (id := resource_id _). unfold fbind at 1. destruct (checked_ownership markers) as [mk|x]; [|quiet].
  unfold fbind at 1, fmodify.
  match goal with |- R s (snd (accepted_as configuration id ?x)) => transitivity x; [|apply keeps_accepted] end.
  assert (Hfree : well_indexed s → s.(fs_resourceByInstance) !! c.(ctx_instanceId) = None ∧ s.(fs_resources) !! id = None).
  { intros Hw. split.
    - destruct (_ !! ctx_instanceId c) as [r|] eqn:Er; [|done]. destruct (wi_indexed s Hw _ _ Er) as (m & Hm & _).
      destruct (wi_drawn s Hw _ _ Hm) as (n & _ & ->). by rewrite resource_id_truthy in E.
    - destruct (_ !! id) as [m|] eqn:Em; [|done]. destruct (wi_drawn s Hw _ _ Em) as (n & Hn & Heq).
      pose proof (wi_sequence s Hw). apply resource_id_inj in Heq; lia. }
  split; cbn; [lia|done|..].
  - intros Hw. destruct (Hfree Hw) as [Hi0 Hr0]. destruct Hw as [Hi Hn Hd Hs Hq]. split; cbn.
    + intros i r [[<- <-]|[Hne Hir]]%lookup_insert_Some.
      * eexists. by rewrite lookup_insert_eq.
      * destruct (Hi i r Hir) as (m & Hm & <-). exists m. split; [|done]. rewrite lookup_insert_ne; [done|congruence].
    + intros r m [[<- <-]|[Hne Hm]]%lookup_insert_Some; [by rewrite lookup_insert_eq|].
      destruct (Hn r m Hm) as [H1 H2]. split; [done|]. rewrite lookup_insert_ne; [done|congruence].
    + intros r m [[<- _]|[_ Hm]]%lookup_insert_Some; [exists (fs_sequence s + 1); split; [lia|done]|].
      destruct (Hd r m Hm) as (n & Hn' & ->). exists n. split; [lia|done].
    + intros r l Hl. rewrite lookup_insert_is_Some'. right. by apply (Hs r l).
    + lia.
  - intros Hw r m Hr. left. rewrite lookup_insert_ne; [done|]. destruct (Hfree Hw). congruence.
  - intros _ r m Hr [[<- _]|[_ Hm]]%lookup_insert_Some; [|congruence]. exists (fs_sequence s + 1). split; [lia|done].
Qed.
End moves.

(** ** Calls *)

Definition is_purge (c : rpc) : Prop := match c with ProviderPort.purgeInstance _ _ _ => True | _ => False end.
Definition method_of (c : rpc) : ProviderMethod :=
  match c with
  | ProviderPort.getTask _ _ => M_getTask
  | ProviderPort.submitCreateInstance _ _ _ _ _ => M_submitCreateInstance
  | ProviderPort.applyInstanceConfiguration _ _ => M_applyInstanceConfiguration
  | ProviderPort.startInstance _ => M_startInstance
  | ProviderPort.shutdownInstance _ => M_shutdownInstance
  | ProviderPort.stopInstance _ => M_stopInstance
  | ProviderPort.rebootInstance _ => M_rebootInstance
  | ProviderPort.resizeInstance _ _ => M_resizeInstance
  | ProviderPort.createSnapshot _ _ _ _ => M_createSnapshot
  | ProviderPort.rollbackSnapshot _ _ _ => M_rollbackSnapshot
  | ProviderPort.deleteSnapshot _ _ _ => M_deleteSnapshot
  | ProviderPort.markInstanceRetained _ _ => M_markInstanceRetained
  | ProviderPort.purgeInstance _ _ _ => M_purgeInstance
  | ProviderPort.observeInstance _ => M_observeInstance
  | ProviderPort.listSnapshots _ => M_listSnapshots
  end.
Definition key_of (c : rpc) : string := cache_key (method_of c) (rpc_context c).(requestId).
Definition mutation_key (c : port_call) : option string :=
  match c with PortRpc c => if mutates c then Some (key_of c) else None | _ => None end.
Definition may_change (c : port_call) : string → FakeResource → Prop :=
  match c with PortRpc c => proves c | _ => λ _ _, False end.
Definition may_remove (c : port_call) : Prop := match c with PortRpc c => is_purge c | _ => False end.

Lemma checked_context_ok (c c' : ProviderCallContext) : checked_context (Some c) = Ok c' → c' = c.
Proof. unfold checked_context, rbind. intros H. repeat (split_match; [|done]). by injection H. Qed.
Lemma checked_request_ok (q q' : InstanceRequest) : checked_request (Some (port_request q)) = Ok q' → q' = q.
Proof.
  unfold checked_request. intros (c & Hc & H)%rbind_Ok. cbn in Hc. apply checked_context_ok in Hc as ->.
  apply rbind_Ok in H as (r & Hr & H). apply rbind_Ok in H as (m & Hm & H). injection H as <-.
  assert (r = request_providerResourceId q) as ->.
  { unfold required in Hr. cbn in Hr. destruct (truthy _); [by injection Hr|done]. }
  assert (m = expectedOwnershipMarkers q) as ->.
  { revert Hm. unfold checked_ownership, rbind. cbn [mr_expectedOwnershipMarkers port_request mbind option_bind].
    intros H. repeat (split_match; [|done]). by injection H. }
  by destruct q.
Qed.

Section calls.
Context `{Platform}.
Variable configuration : FakeProviderConfiguration.
Variable now : Z.

Lemma change_turns (c : rpc) (q : InstanceRequest) (k : FakeResource → fake ProviderMutationResult) :
  (∀ m, markers_match m.(fr_ownership) (Some q.(expectedOwnershipMarkers)) = true → proves c q.(request_providerResourceId) m) →
  (∀ s m, s.(fs_resources) !! q.(request_providerResourceId) = Some m → proves c q.(request_providerResourceId) m →
     moves (Some (key_of c)) (proves c) (is_purge c) s (snd (k m s))) →
  fkeeps (moves (Some (key_of c)) (proves c) (is_purge c)) (change q k).
Proof. intros Hp Hk. apply keeps_owner. intros s m Hm Hmm. apply Hk; [done|by apply Hp]. Qed.
Lemma set_turns (c : rpc) (s : FakeState) (r : string) (m m' : FakeResource) (id : string) :
  s.(fs_resources) !! r = Some m → proves c r m → machine_change m m' →
  moves (Some (key_of c)) (proves c) (is_purge c) s
    (snd ((let& _ := set_resource m' in accepted_as configuration id) s)).
Proof. intros Hm Hp Hc. apply keeps_bind_at; [by eapply moves_set|]. intros _. apply keeps_accepted. Qed.

Lemma demanded_turns (c : rpc) (s : FakeState) (v : option string) (k : string → fake ProviderMutationResult) :
  (∀ a, moves (Some (key_of c)) (proves c) (is_purge c) s (snd (k a s))) →
  moves (Some (key_of c)) (proves c) (is_purge c) s (snd (fbind (demanded v) k s)).
Proof. intros Hk. unfold fbind, demanded. destruct (required v); [apply Hk|reflexivity]. Qed.

Lemma start_mutation_turns (c : rpc) :
  both_turns (Some (key_of c)) (proves c) (is_purge c) (start_mutation configuration now c).
Proof.
  destruct c; cbn [start_mutation]; try (apply turns_failing);
    apply turns_checked; intros a Ha; first [apply checked_context_ok in Ha as ->|apply checked_request_ok in Ha as ->];
    apply turns_mutation; try done;
    try (apply change_turns; [by intros|]; intros s m Hm Hp;
         try (eapply set_turns; [exact Hm|exact Hp|done])).
  - apply keeps_create.
  - cbv zeta. destruct (BigInt_text _); [|reflexivity]. destruct (BigInt_text _); [|reflexivity].
    destruct (_ <? _); [apply keeps_rejected|].
    eapply set_turns; [exact Hm|exact Hp|done].
  - apply demanded_turns. intros key. apply demanded_turns. intros label. unfold fbind at 1, fget.
    apply keeps_bind_at; [|intros _; apply keeps_accepted]. by eapply moves_snapshots.
  - apply demanded_turns. intros key. unfold fbind at 1, fget. destruct (map_has _ _); [|apply keeps_rejected].
    apply keeps_bind_at; [reflexivity|intros _; apply keeps_accepted].
  - apply demanded_turns. intros key. unfold fbind at 1, fget. destruct (map_has _ _); [|apply keeps_rejected].
    apply keeps_bind_at; [by eapply moves_snapshots|intros _; apply keeps_accepted].
  - destruct (_ || _); [apply keeps_rejected|]. apply change_turns; [by intros|]. intros s m Hm Hp.
    apply keeps_bind_at; [by eapply moves_removed|intros _; apply keeps_accepted].
Qed.
Lemma start_turns (c : port_call) :
  both_turns (mutation_key c) (may_change c) (may_remove c) (start configuration now c).
Proof.
  destruct c as [c|id p|id]; [|apply turns_checked; intros a _; apply turns_query..].
  - destruct c; cbn [start start_rpc];
      try exact (turns_mapped _ _ _ Some _ (start_mutation_turns _)); try apply turns_mapped;
      apply turns_checked; intros a _; apply turns_query.
    + apply fkeeps_bind; [typeclasses eauto|apply keeps_required|]. intros key.
      apply fkeeps_bind; [typeclasses eauto|apply fkeeps_get, _|]. intros [t|]; [|apply fkeeps_ret, _].
      destruct (_ <? _); [|apply fkeeps_ret, _]. apply fkeeps_bind; [typeclasses eauto|apply keeps_tasks|].
      intros _. apply fkeeps_ret, _.
    + apply fkeeps_bind; [typeclasses eauto|apply fkeeps_get, _|]. intros r. apply fkeeps_ret, _.
    + apply fkeeps_bind; [typeclasses eauto|apply keeps_owned|]. intros [r|r]; [|apply fkeeps_throw, _].
      apply fkeeps_bind; [typeclasses eauto|apply fkeeps_get, _|]. intros l. apply fkeeps_ret, _.
  - apply fkeeps_bind; [typeclasses eauto|apply keeps_nextId|]. intros e. apply fkeeps_ret, _.
  - apply fkeeps_ret, _.
Qed.
End calls.

(** ** What is remembered *)

(** A context or a request is complete when no identifier of it is empty. *)
Definition complete (c : rpc) : bool :=
  match c with
  | ProviderPort.getTask _ _ | ProviderPort.observeInstance _ | ProviderPort.listSnapshots _ => false
  | ProviderPort.submitCreateInstance c _ _ _ _ => is_ok (checked_context (Some c))
  | ProviderPort.applyInstanceConfiguration q _ => is_ok (checked_context (Some q.(context)))
  | ProviderPort.startInstance q | ProviderPort.shutdownInstance q | ProviderPort.stopInstance q
  | ProviderPort.rebootInstance q | ProviderPort.resizeInstance q _ | ProviderPort.createSnapshot q _ _ _
  | ProviderPort.rollbackSnapshot q _ _ | ProviderPort.deleteSnapshot q _ _ | ProviderPort.markInstanceRetained q _
  | ProviderPort.purgeInstance q _ _ => is_ok (checked_request (Some (port_request q)))
  end.
Definition content_of `{Platform} (c : rpc) : option string := requestJson (request_json c).
Definition replayed (c : rpc) (r : ProviderMutationResult) (s : FakeState) : begun ProviderMutationResult * FakeState :=
  (Ended (Ok r), record_call (method_of c) (rpc_context c).(requestId) (cached_mode r) true s).

Lemma required_refuses (v : option string) (x : tf_error) : required v = Err x → x = refusal.
Proof. unfold required. destruct (present v); congruence. Qed.
Lemma rbind_refuses {A B : Type} (m : result tf_error A) (k : A → result tf_error B) (x : tf_error) :
  (∀ y, m = Err y → y = refusal) → (∀ a y, k a = Err y → y = refusal) → rbind m k = Err x → x = refusal.
Proof. intros Hm Hk. destruct m; cbn; [apply Hk|]. intros [= <-]. by apply Hm. Qed.
Lemma context_refuses (c : option ProviderCallContext) (x : tf_error) : checked_context c = Err x → x = refusal.
Proof. unfold checked_context. repeat (apply rbind_refuses; [apply required_refuses|intros _ ?]). destruct c; congruence. Qed.
Lemma ownership_refuses (m : option OwnershipMarkers) (x : tf_error) : checked_ownership m = Err x → x = refusal.
Proof. unfold checked_ownership. repeat (apply rbind_refuses; [apply required_refuses|intros _ ?]). destruct m; congruence. Qed.
Lemma request_refuses (q : option MutationRequest) (x : tf_error) : checked_request q = Err x → x = refusal.
Proof.
  unfold checked_request. apply rbind_refuses; [apply context_refuses|intros c ?].
  apply rbind_refuses; [apply required_refuses|intros r ?]. by apply rbind_refuses; [apply ownership_refuses|].
Qed.

Section remembered.
Context `{Platform}.
Variable configuration : FakeProviderConfiguration.
Variable now : Z.

(** A mutation is the shared routine around its own work, once its request is
    complete; otherwise it is refused. *)
Lemma start_mutation_shape (c : rpc) :
  (complete c = true ∧ mutates c = true ∧ ∃ execute, start_mutation configuration now c
     = mutation configuration (method_of c) (rpc_context c).(requestId) (request_json c) execute)
  ∨ complete c = false ∧ start_mutation configuration now c = failing refusal.
Proof.
  destruct c; cbn [complete start_mutation]; try (by right);
    unfold submitCreateInstance, applyInstanceConfiguration, power, resizeInstance, createSnapshot, snapshotMutation,
      markInstanceRetained, purgeInstance, checked;
    (match goal with |- context [is_ok ?m] => destruct m as [a|x] eqn:E end);
    first [apply checked_context_ok in E as ->|apply checked_request_ok in E as ->
          |apply context_refuses in E as ->|apply request_refuses in E as ->];
    first [by right|left; split_and!; [done|done|eexists; reflexivity]].
Qed.
Lemma start_remembered (c : rpc) (s : FakeState) (a : CachedMutation) :
  s.(fs_mutationCache) !! key_of c = Some a →
  start_mutation configuration now c s
  = if complete c && bool_decide (a.(cm_canonicalRequest) = content_of c) then replayed c a.(cm_result) s
    else (Ended (Err refusal), s).
Proof.
  intros Ha. destruct (start_mutation_shape c) as [(-> & _ & execute & ->)|[-> ->]]; [|done].
  unfold mutation. fold (key_of c). rewrite Ha. fold (content_of c). cbn [andb]. by destruct (bool_decide _).
Qed.

(** What is answered is remembered with the content it answers. *)
Definition remembers (c : rpc) (r : ProviderMutationResult) (s : FakeState) : Prop :=
  s.(fs_mutationCache) !! key_of c = Some {| cm_canonicalRequest := content_of c; cm_result := r |}.
Definition answers_remembered (c : rpc) (m : fake ProviderMutationResult) : Prop :=
  ∀ s r s', m s = (Ok r, s') → remembers c r s'.
Lemma remember_last {A : Type} (c : rpc) (m : fake A) (k : A → fake ProviderMutationResult) :
  (∀ a, answers_remembered c (k a)) → answers_remembered c (fbind m k).
Proof. intros Hk s r s'. unfold fbind. destruct (m s) as [[a|x] s1]; [apply Hk|done]. Qed.
Lemma remember_now (c : rpc) (r : ProviderMutationResult) :
  answers_remembered c (let& _ := remember (key_of c) (content_of c) r in fret r).
Proof. intros s r' s' [= <- <-]. unfold remembers. cbn. by rewrite lookup_insert_eq. Qed.
Lemma perform_remembers (c : rpc) (step : FakeProviderStep) (execute : fake ProviderMutationResult) :
  answers_remembered c (perform (method_of c) (key_of c) (content_of c) step execute).
Proof. do 3 (apply remember_last; intros ?). apply remember_now. Qed.
Lemma answer_remembers (c : rpc) (step : FakeProviderStep) (execute : fake ProviderMutationResult) :
  answers_remembered c (answer (method_of c) (key_of c) (content_of c) step execute).
Proof.
  unfold answer. destruct (st_mode step).
  - apply remember_last. intros r. apply remember_now.
  - apply perform_remembers.
  - intros s r s' [=].
  - do 2 (apply remember_last; intros ?). apply remember_now.
Qed.
Lemma start_remembers (c : rpc) (s : FakeState) :
  match start_mutation configuration now c s with
  | (Ended (Ok r), s') => remembers c r s' ∧ complete c = true ∧ mutates c = true
  | (Waiting _ k, _) => (∀ aborted, answers_remembered c (k aborted)) ∧ complete c = true ∧ mutates c = true
  | (Ended (Err _), _) => True
  end.
Proof.
  destruct (start_mutation_shape c) as [(-> & -> & execute & ->)|[_ ->]]; [|done].
  unfold mutation. fold (key_of c) (content_of c). destruct (_ !! key_of c) as [a|] eqn:Ea.
  { destruct (bool_decide_reflect (cm_canonicalRequest a = content_of c)) as [Hc|]; [|done]. cbn. split; [|done].
    unfold remembers. cbn. rewrite Ea, <- Hc. by destruct a. }
  destruct (nextStep configuration (method_of c) s) as [step s1]. destruct (_ && _).
  - destruct (perform _ _ _ _ _ _) as [[r|x] s3]; [|done]. split; [|done]. intros aborted s4 r4 s5 [=].
  - split; [|done]. intros [|]; [intros s4 r4 s5 [=]|apply answer_remembers].
Qed.
End remembered.

(** ** Runs *)

Record waiting_call : Type := { wc_call : port_call; wc_resume : bool → fake (port_reply wc_call) }.
Record fake_server : Type := { fk_state : FakeState; fk_waiting : list waiting_call }.
Definition new_server : fake_server := {| fk_state := new_FakeProvider; fk_waiting := [] |}.
Definition queued (c : port_call) (b : begun (port_reply c)) : list waiting_call :=
  match b with Waiting _ k => [{| wc_call := c; wc_resume := k |}] | Ended _ => [] end.
(** A call is accepted; or it is answered, at once or when its wait is over. *)
Inductive turn_event : Type :=
| Accepted (c : port_call)
| Answered (c : port_call) (o : result tf_error (port_reply c)).
Definition event_call (e : turn_event) : port_call := match e with Accepted c | Answered c _ => c end.

(** The result an answer carries. *)
Definition mutation_result (c : rpc) : rpc_reply c → option ProviderMutationResult :=
  match c as c0 return rpc_reply c0 → option ProviderMutationResult with
  | ProviderPort.getTask _ _ => λ _, None
  | ProviderPort.observeInstance _ => λ _, None
  | ProviderPort.listSnapshots _ => λ _, None
  | _ => λ r, r
  end.
Definition answered_with (c : rpc) (o : result tf_error (rpc_reply c)) (r : ProviderMutationResult) : Prop :=
  ∃ reply, o = Ok reply ∧ mutation_result c reply = Some r.

(** The call under another lease. *)
Definition context_under (token : string) (c : ProviderCallContext) : ProviderCallContext :=
  {| requestId := c.(requestId); ctx_operationId := c.(ctx_operationId); ctx_correlationId := c.(ctx_correlationId);
     ctx_projectId := c.(ctx_projectId); ctx_instanceId := c.(ctx_instanceId);
     ctx_providerProfileId := c.(ctx_providerProfileId); ctx_attempt := c.(ctx_attempt); ctx_fencingToken := token |}.
Definition request_under (token : string) (q : InstanceRequest) : InstanceRequest :=
  {| context := context_under token q.(context); request_providerResourceId := q.(request_providerResourceId);
     expectedOwnershipMarkers := q.(expectedOwnershipMarkers) |}.
Definition under (token : string) (c : rpc) : rpc :=
  match c with
  | ProviderPort.getTask c r => ProviderPort.getTask (context_under token c) r
  | ProviderPort.submitCreateInstance c i f g m => ProviderPort.submitCreateInstance (context_under token c) i f g m
  | ProviderPort.applyInstanceConfiguration q g => ProviderPort.applyInstanceConfiguration (request_under token q) g
  | ProviderPort.startInstance q => ProviderPort.startInstance (request_under token q)
  | ProviderPort.shutdownInstance q => ProviderPort.shutdownInstance (request_under token q)
  | ProviderPort.stopInstance q => ProviderPort.stopInstance (request_under token q)
  | ProviderPort.rebootInstance q => ProviderPort.rebootInstance (request_under token q)
  | ProviderPort.resizeInstance q r => ProviderPort.resizeInstance (request_under token q) r
  | ProviderPort.createSnapshot q i n d => ProviderPort.createSnapshot (request_under token q) i n d
  | ProviderPort.rollbackSnapshot q i r => ProviderPort.rollbackSnapshot (request_under token q) i r
  | ProviderPort.deleteSnapshot q i r => ProviderPort.deleteSnapshot (request_under token q) i r
  | ProviderPort.markInstanceRetained q d => ProviderPort.markInstanceRetained (request_under token q) d
  | ProviderPort.purgeInstance q a d => ProviderPort.purgeInstance (request_under token q) a d
  | ProviderPort.observeInstance q => ProviderPort.observeInstance (request_under token q)
  | ProviderPort.listSnapshots q => ProviderPort.listSnapshots (request_under token q)
  end.
(** The mutations whose request has its context at the top. *)
Definition context_on_top (c : rpc) : bool :=
  match c with
  | ProviderPort.submitCreateInstance _ _ _ _ _ | ProviderPort.applyInstanceConfiguration _ _
  | ProviderPort.startInstance _ | ProviderPort.shutdownInstance _ | ProviderPort.stopInstance _
  | ProviderPort.rebootInstance _ => true
  | _ => false
  end.

Section runs.
Context `{Platform}.
Variable configuration : FakeProviderConfiguration.

Inductive server_turn : fake_server → turn_event → fake_server → Prop :=
| call_starts (now : Z) (c : port_call) (s s' : FakeState) (w : list waiting_call) (b : begun (port_reply c)) :
    start configuration now c s = (b, s') →
    server_turn {| fk_state := s; fk_waiting := w |}
      (match b with Ended o => Answered c o | Waiting _ _ => Accepted c end)
      {| fk_state := s'; fk_waiting := (w ++ queued c b)%list |}
| wait_over (w1 w2 : list waiting_call) (wc : waiting_call) (aborted : bool) (s s' : FakeState)
    (o : result tf_error (port_reply wc.(wc_call))) :
    wc.(wc_resume) aborted s = (o, s') →
    server_turn {| fk_state := s; fk_waiting := (w1 ++ wc :: w2)%list |} (Answered wc.(wc_call) o)
      {| fk_state := s'; fk_waiting := (w1 ++ w2)%list |}.
Definition server_steps : relation fake_server := rtc (λ sv sv', ∃ e, server_turn sv e sv').

(** The rest of a waiting call is sound. *)
Definition waiting_sound (wc : waiting_call) : Prop :=
  (∀ aborted, fkeeps (moves (mutation_key wc.(wc_call)) (may_change wc.(wc_call)) (may_remove wc.(wc_call)))
                (wc.(wc_resume) aborted))
  ∧ match wc.(wc_call) as c return (bool → fake (port_reply c)) → Prop with
    | PortRpc c => λ k, mutates c = true → complete c = true ∧
        ∀ aborted s o s' r, k aborted s = (o, s') → answered_with c o r → remembers c r s'
    | _ => λ _, True
    end wc.(wc_resume).

Lemma mapped_remembers (c : rpc) (s : FakeState) (now : Z) :
  mutates c = true →
  match start_rpc configuration now c s with
  | (Ended o, s') => ∀ r, answered_with c o r → remembers c r s' ∧ complete c = true
  | (Waiting _ k, _) => complete c = true ∧ ∀ aborted s1 o s' r, k aborted s1 = (o, s') → answered_with c o r → remembers c r s'
  end.
Proof.
  intros Hm. pose proof (start_remembers configuration now c s) as Hr.
  destruct c; try discriminate Hm; cbn [start_rpc]; unfold mapped;
    (match goal with Hr : match ?m with _ => _ end |- _ => destruct m as [[[r|x]|n k] s'] end; cbn [begun_map];
     [intros r' (reply & [= <-] & [= <-]); destruct Hr as (? & ? & _); by split
     |intros r' (reply & [=] & _)
     |destruct Hr as (Hk & Hc & _); split; [exact Hc|]; intros aborted s1 o s2 r'; unfold fbind, fret;
      destruct (k aborted s1) as [[a|x] s3] eqn:Ek; intros [= <- <-] (reply & [= <-] & [= <-]); exact (Hk _ _ _ _ Ek)]).
Qed.

(** What an event says of the state after it. *)
Definition event_sound (e : turn_event) (s : FakeState) : Prop :=
  match e with
  | Accepted _ => True
  | Answered c o =>
      match c as c0 return result tf_error (port_reply c0) → Prop with
      | PortRpc c => λ o, mutates c = true → ∀ r, answered_with c o r → remembers c r s ∧ complete c = true
      | _ => λ _, True
      end o
  end.
Lemma turn_sound (sv : fake_server) (e : turn_event) (sv' : fake_server) :
  Forall waiting_sound sv.(fk_waiting) → server_turn sv e sv' →
  Forall waiting_sound sv'.(fk_waiting)
  ∧ moves (mutation_key (event_call e)) (may_change (event_call e)) (may_remove (event_call e)) sv.(fk_state) sv'.(fk_state)
  ∧ event_sound e sv'.(fk_state).
Proof.
  intros Hw Hturn. destruct Hturn as [now c s s' w b Hstart|w1 w2 wc aborted s s' o Hresume]; cbn in *.
  - pose proof (start_turns configuration now c s) as [Hmoves Hrest]. rewrite Hstart in *. cbn in *. split_and!.
    + apply Forall_app. split; [done|]. destruct b as [o|n k]; [constructor|]. constructor; [|constructor]. split; [exact Hrest|].
      cbn. destruct c as [c|id p|id]; [|done..]. intros Hm. pose proof (mapped_remembers c s now Hm) as Hr. cbn in Hstart.
      rewrite Hstart in Hr. exact Hr.
    + by destruct b.
    + destruct b as [o|n k]; [|done]. cbn. destruct c as [c|id p|id]; [|done..]. intros Hm.
      pose proof (mapped_remembers c s now Hm) as Hr. cbn in Hstart. rewrite Hstart in Hr. exact Hr.
  - apply Forall_app in Hw as [Hw1 [[Hkeep Hans] Hw2]%Forall_cons]. split_and!.
    + apply Forall_app. by split.
    + specialize (Hkeep aborted s). by rewrite Hresume in Hkeep.
    + destruct wc as [[c|id p|id] k]; cbn in *; [|done..]. intros Hm r Hr. destruct (Hans Hm) as [Hc Hk].
      split; [by eapply Hk|done].
Qed.

(** ** One machine per instance *)

Inductive reachable : fake_server → Prop :=
| reach_new : reachable new_server
| reach_turn (sv : fake_server) (e : turn_event) (sv' : fake_server) :
    reachable sv → server_turn sv e sv' → reachable sv'.
Lemma reachable_sound (sv : fake_server) : reachable sv → well_indexed sv.(fk_state) ∧ Forall waiting_sound sv.(fk_waiting).
Proof.
  induction 1 as [|sv e sv' _ [Hi Hw] Hturn]; [split; [apply well_indexed_new|constructor]|].
  destruct (turn_sound sv e sv' Hw Hturn) as (Hw' & Hm & _). split; [by eapply mv_indexed|done].
Qed.

(** Machines of the deterministic provider answer to their owners.
    However calls interleave, whatever the script says and whichever waits are
    aborted, no instance ever has two machines and the two indexes agree; and
    in one turn a machine stays as it is unless the call of that turn names it
    and carries its very markers, keeps its name, instance and markers if it
    is changed, and vanishes only for a purge. *)
Theorem machines_answer_to_their_owners (sv sv' : fake_server) (e : turn_event)
    (Hreach : reachable sv) (Hturn : server_turn sv e sv') :
  (∀ r1 r2 m1 m2, sv.(fk_state).(fs_resources) !! r1 = Some m1 → sv.(fk_state).(fs_resources) !! r2 = Some m2 →
     m1.(fr_instanceId) = m2.(fr_instanceId) → r1 = r2)
  ∧ (∀ i r, sv.(fk_state).(fs_resourceByInstance) !! i = Some r ↔
       ∃ m, sv.(fk_state).(fs_resources) !! r = Some m ∧ m.(fr_instanceId) = i)
  ∧ ∀ r m, sv.(fk_state).(fs_resources) !! r = Some m →
      sv'.(fk_state).(fs_resources) !! r = Some m
      ∨ may_change (event_call e) r m
        ∧ match sv'.(fk_state).(fs_resources) !! r with
          | Some m' => machine_change m m'
          | None => may_remove (event_call e)
          end.
Proof.
  destruct (reachable_sound sv Hreach) as [Hi Hw]. destruct (turn_sound sv e sv' Hw Hturn) as (_ & Hm & _). split_and!.
  - intros r1 r2 m1 m2 H1 H2 Heq. destruct (wi_named _ Hi r1 m1 H1) as [_ I1]. destruct (wi_named _ Hi r2 m2 H2) as [_ I2].
    congruence.
  - intros i r. split; [apply (wi_indexed _ Hi)|]. intros (m & Hr & <-). by destruct (wi_named _ Hi r m Hr).
  - intros r m Hr. by apply (mv_machines _ _ _ _ _ Hm Hi).
Qed.

(** ** The same request, the same answer *)

Definition settled (c : rpc) (r : ProviderMutationResult) (sv : fake_server) : Prop :=
  remembers c r sv.(fk_state) ∧ Forall waiting_sound sv.(fk_waiting)
  ∧ Forall (λ wc, mutation_key wc.(wc_call) ≠ Some (key_of c)) sv.(fk_waiting).
Lemma start_settled (now : Z) (c c' : rpc) (r : ProviderMutationResult) (s s' : FakeState) (b : begun (rpc_reply c')) :
  remembers c r s → mutates c' = true → key_of c' = key_of c → start_rpc configuration now c' s = (b, s') →
  (∃ o, b = Ended o) ∧ remembers c r s'.
Proof.
  intros Hr Hm Hk Hs. pose proof Hr as Hr'. unfold remembers in Hr'. rewrite <- Hk in Hr'.
  pose proof (start_remembered configuration now c' s _ Hr') as Hstart.
  assert (mapped (B := option ProviderMutationResult) Some (start_mutation configuration now c') s
          = (Ended (Ok (Some r)), snd (replayed c' r s))
          ∨ mapped (B := option ProviderMutationResult) Some (start_mutation configuration now c') s = (Ended (Err refusal), s))
    as Hmapped by (unfold mapped; rewrite Hstart; destruct (_ && _); [by left|by right]).
  destruct c'; try discriminate Hm; cbn [start_rpc] in Hs; rewrite Hs in Hmapped;
    destruct Hmapped as [[= -> ->]|[= -> ->]]; (split; [by eexists|exact Hr]).
Qed.
Lemma settled_turn (c : rpc) (r : ProviderMutationResult) (sv : fake_server) (e : turn_event) (sv' : fake_server) :
  settled c r sv → server_turn sv e sv' → settled c r sv'.
Proof.
  intros (Hr & Hw & Hidle) Hturn. destruct (turn_sound sv e sv' Hw Hturn) as (Hw' & Hm & _). split; [|split; [done|]].
  - destruct Hturn as [now c' s s' w b Hstart|w1 w2 wc aborted s s' o Hresume]; cbn in *.
    + replace (event_call _) with c' in Hm by (by destruct b).
      destruct (decide (mutation_key c' = Some (key_of c))) as [Hk|Hne].
      * destruct c' as [c'|id p|id]; try discriminate Hk. cbn in Hk. destruct (mutates c') eqn:Emut; [|done].
        injection Hk as Hk. exact (proj2 (start_settled now c c' r s s' b Hr Emut Hk Hstart)).
      * unfold remembers. by rewrite (mv_cache _ _ _ _ _ Hm).
    + apply Forall_app in Hidle as [_ [Hk _]%Forall_cons]. unfold remembers. by rewrite (mv_cache _ _ _ _ _ Hm).
  - destruct Hturn as [now c' s s' w b Hstart|w1 w2 wc aborted s s' o Hresume]; cbn in *.
    + apply Forall_app. split; [done|]. destruct b as [o|n k]; [constructor|]. constructor; [|constructor]. cbn. intros Hk.
      destruct c' as [c'|id p|id]; try discriminate Hk. cbn in Hk. destruct (mutates c') eqn:Emut; [|done].
      injection Hk as Hk. by destruct (start_settled now c c' r s s' _ Hr Emut Hk Hstart) as [[o [=]] _].
    + apply Forall_app in Hidle as [? [_ ?]%Forall_cons]. apply Forall_app. by split.
Qed.

(** The fencing token is left out of the comparison at the top of a request,
    and nowhere else. *)
Lemma content_on_top (token : string) (c : rpc) : context_on_top c = true → content_of (under token c) = content_of c.
Proof. destruct c; intros [=]; reflexivity. Qed.
Lemma plain_head (k : string) (v v' : json) (rest : list (string * json)) :
  (plain v → plain v') → plain (JObj ((k, v) :: rest)) → plain (JObj ((k, v') :: rest)).
Proof.
  intros Hv Hp. inversion Hp as [| | | | |l Hnd Hall]; subst. apply Forall_cons in Hall as [Hh Ht].
  constructor; [exact Hnd|]. constructor; [by apply Hv|done].
Qed.
Lemma plain_context (token : string) (c : ProviderCallContext) :
  plain (context_json c) → plain (context_json (context_under token c)).
Proof.
  intros Hp. inversion Hp as [| | | | |l Hnd Hall]; subst. constructor; [exact Hnd|].
  repeat (apply Forall_cons in Hall as [? Hall]).
  repeat (apply Forall_cons; split; [cbn; assumption || apply plain_str|]). constructor.
Qed.
Lemma plain_mutation (token : string) (q : InstanceRequest) : plain (mutation_json q) → plain (mutation_json (request_under token q)).
Proof. apply plain_head, plain_context. Qed.
Lemma plain_under (token : string) (c : rpc) :
  mutates c = true → context_on_top c = false → plain (request_json c) → plain (request_json (under token c)).
Proof.
  destruct c; intros [=] [=]; cbn [under request_json]; try apply (plain_head "request"), plain_mutation;
    apply (plain_head "request"), (plain_head "request"), plain_mutation.
Qed.
Lemma content_nested (c : rpc) : mutates c = true → context_on_top c = false → content_of c = stringify (request_json c).
Proof. destruct c as [| | | | | | | |q i n [d|]| | | | | |]; intros [=] [=]; reflexivity. Qed.
Lemma under_facts (token : string) (c : rpc) :
  mutates (under token c) = mutates c ∧ context_on_top (under token c) = context_on_top c
  ∧ key_of (under token c) = key_of c ∧ (rpc_context (under token c)).(requestId) = (rpc_context c).(requestId)
  ∧ method_of (under token c) = method_of c.
Proof. by destruct c. Qed.
Lemma content_under_differs (token : string) (c : rpc) :
  mutates c = true → context_on_top c = false → plain (request_json c) → token ≠ (rpc_context c).(ctx_fencingToken) →
  content_of (under token c) ≠ content_of c.
Proof.
  intros Hm Ht Hp Hne Heq. destruct (under_facts token c) as (Hm' & Ht' & _).
  rewrite !content_nested in Heq by congruence. apply stringify_inj in Heq; [|by apply plain_under|done].
  apply Hne. destruct c as [| | | | | | | |q i n [d|]| | | | | |]; try discriminate Hm; try discriminate Ht;
    cbn in Heq |- *; by injection Heq.
Qed.
Lemma complete_under (token : string) (c : rpc) : complete (under token c) = complete c.
Proof.
  assert (Hc : ∀ x, is_ok (checked_context (Some (context_under token x))) = is_ok (checked_context (Some x))).
  { intros x. unfold checked_context, rbind, required. cbn. by repeat case_match. }
  assert (Hq : ∀ q, is_ok (checked_request (Some (port_request (request_under token q))))
                    = is_ok (checked_request (Some (port_request q)))).
  { intros q. unfold checked_request. cbn [port_request mr_context mr_providerResourceId mr_expectedOwnershipMarkers mbind option_bind].
    specialize (Hc (context q)). cbn [context request_under] in *.
    destruct (checked_context (Some (context_under token (context q)))), (checked_context (Some (context q))); try done.
    cbn [rbind request_providerResourceId expectedOwnershipMarkers request_under].
    destruct (required _); [|done]. cbn [rbind]. by destruct (checked_ownership _). }
  destruct c; first [apply Hc|apply Hq|reflexivity].
Qed.

(** A mutation that the deterministic provider answered is settled.  From
    a turn that answers a call with a result, while no other call of the same
    method and request identifier is waiting, and after whatever happens then:
    the same call is given the same result, and changes nothing but the log of
    calls; so is the call under another lease, if its request has the context
    at the top (create, configure, power).  For the other mutations the
    comparison does not leave out the fencing token: under another lease the
    same call is refused as a protocol error, which is not retried.  Any call
    with the identifier and other content is refused so too, and changes
    nothing. *)
Theorem answered_mutation_is_settled (sv0 sv sv' : fake_server) (c : rpc) (o : result tf_error (rpc_reply c))
    (r : ProviderMutationResult) (now : Z)
    (Hreach : reachable sv0) (Hturn : server_turn sv0 (Answered (PortRpc c) o) sv) (Hmutates : mutates c = true)
    (Hanswer : answered_with c o r)
    (Hidle : Forall (λ wc, mutation_key wc.(wc_call) ≠ Some (key_of c)) sv.(fk_waiting))
    (Hlater : server_steps sv sv') (Hplain : plain (request_json c)) :
  let s := sv'.(fk_state) in
  start_mutation configuration now c s = replayed c r s
  ∧ (∀ token, token ≠ (rpc_context c).(ctx_fencingToken) →
       start_mutation configuration now (under token c) s
       = if context_on_top c then replayed c r s else (Ended (Err refusal), s))
  ∧ ∀ c', key_of c' = key_of c → content_of c' ≠ content_of c →
       start_mutation configuration now c' s = (Ended (Err refusal), s).
Proof.
  destruct (reachable_sound sv0 Hreach) as [_ Hw0]. destruct (turn_sound _ _ _ Hw0 Hturn) as (Hw & _ & Hsound).
  destruct (Hsound Hmutates r Hanswer) as [Hr Hc].
  assert (Hset : settled c r sv').
  { assert (Hs : settled c r sv) by done. clear -Hlater Hs. induction Hlater as [|a b d [e Hturn] _ IH]; [done|].
    by eapply IH, settled_turn. }
  destruct Hset as (Hr' & _ & _). cbn.
  assert (Hall : ∀ c', key_of c' = key_of c → start_mutation configuration now c' (fk_state sv')
     = if complete c' && bool_decide (content_of c = content_of c') then replayed c' r (fk_state sv')
       else (Ended (Err refusal), fk_state sv')).
  { intros c' Hk. by rewrite (start_remembered configuration now c' _ {| cm_canonicalRequest := content_of c; cm_result := r |})
      by (by rewrite Hk). }
  split_and!.
  - rewrite Hall, Hc, bool_decide_true by done. done.
  - intros token Hne. destruct (under_facts token c) as (_ & _ & Hk & Hid & Hmeth).
    rewrite Hall, complete_under, Hc by done. cbn [andb]. destruct (context_on_top c) eqn:Et.
    + rewrite content_on_top, bool_decide_true by done. unfold replayed. by rewrite Hid, Hmeth.
    + by rewrite bool_decide_false by (intros Heq; by apply (content_under_differs token c)).
  - intros c' Hk Hne. rewrite Hall by done. rewrite (bool_decide_false (content_of c = _)) by congruence. by rewrite andb_false_r.
Qed.
End runs.

(** ** Witnesses *)

Definition plain_configuration : FakeProviderConfiguration :=
  {| fc_defaultLatencyMs := None; fc_defaultTaskPollsBeforeSuccess := None; fc_script := λ _, None |}.
Definition fake_markers : OwnershipMarkers :=
  {| managedBy := "m"; environment := "lab"; marker_projectId := "p"; marker_instanceId := "i"; marker_createOperationId := "o" |}.
Definition fake_context (id token : string) : ProviderCallContext :=
  {| requestId := id; ctx_operationId := "o"; ctx_correlationId := "c"; ctx_projectId := "p"; ctx_instanceId := "i";
     ctx_providerProfileId := "f"; ctx_attempt := 1; ctx_fencingToken := token |}.
Definition fake_resize : rpc :=
  ProviderPort.resizeInstance
    {| context := fake_context "r1" "7"; request_providerResourceId := "vm-9"; expectedOwnershipMarkers := fake_markers |}
    {| wire_cpuCount := 2; wire_memoryMib := "2048"; wire_diskGib := "32" |}.
Definition fake_create : rpc :=
  ProviderPort.submitCreateInstance (fake_context "c1" "7") "ubuntu" "small"
    {| guest_hostname := "web"; guest_resources := {| wire_cpuCount := 1; wire_memoryMib := "512"; wire_diskGib := "8" |};
       guest_network := {| wire_networkId := "n"; wire_ipv4Address := "10.0.0.2"; wire_ipv4PrefixLength := 24;
                           wire_ipv4Gateway := "10.0.0.1"; wire_dnsServers := [] |};
       guest_sshPublicKeys := [] |} fake_markers.

Section executed.
Context `{Platform}.
Variable configuration : FakeProviderConfiguration.
Definition accept_call (now : Z) (c : port_call) (sv : fake_server) : fake_server :=
  let '(b, s') := start configuration now c sv.(fk_state) in
  {| fk_state := s'; fk_waiting := (sv.(fk_waiting) ++ queued c b)%list |}.
Definition resume_first (sv : fake_server) : fake_server :=
  match sv.(fk_waiting) with
  | wc :: w => {| fk_state := snd (wc.(wc_resume) false sv.(fk_state)); fk_waiting := w |}
  | [] => sv
  end.
Lemma reach_accept (now : Z) (c : port_call) (sv : fake_server) :
  reachable configuration sv → reachable configuration (accept_call now c sv).
Proof.
  intros Hr. destruct sv as [s w]. unfold accept_call. cbn. destruct (start configuration now c s) as [b s'] eqn:E.
  eapply reach_turn; [exact Hr|by apply (call_starts _ now)].
Qed.
Lemma reach_resume (sv : fake_server) : reachable configuration sv → reachable configuration (resume_first sv).
Proof.
  intros Hr. destruct sv as [s [|wc w]]; [done|]. unfold resume_first. cbn.
  destruct (wc_resume wc false s) as [o s'] eqn:E. eapply reach_turn; [exact Hr|]. by apply (wait_over _ [] w wc false s s' o).
Qed.
End executed.

Ltac solve_plain :=
  (match goal with |- plain ?v => let w := eval hnf in v in change (plain w) end);
  lazymatch goal with
  | |- plain (JObj _) =>
      apply plain_obj; [apply (bool_decide_unpack _); vm_compute; exact I|];
      repeat (apply Forall_cons; split; [solve_plain|]); constructor
  | |- plain (JStr _) => apply plain_str
  | |- plain (JNum _) => apply plain_num; cbn; lia
  end.

(** A resize that was refused for want of its machine. *)
Definition fake_before : fake_server := accept_call (H := sample_platform) plain_configuration 0 (PortRpc fake_resize) new_server.
Definition fake_after : fake_server := resume_first fake_before.
Definition fake_rejection : ProviderMutationResult :=
  Ownership.failure FAILURE_CATEGORY_NOT_FOUND "RESOURCE_NOT_FOUND" "Fake provider rejected the request: RESOURCE_NOT_FOUND.".

Lemma answered_mutation_is_settled_witness :
  plain (request_json (H := sample_platform) fake_resize)
  ∧ start_mutation (H := sample_platform) plain_configuration 5 (under "8" fake_resize) fake_after.(fk_state)
    = (Ended (Err refusal), fake_after.(fk_state))
  ∧ start_mutation (H := sample_platform) plain_configuration 5 fake_resize fake_after.(fk_state)
    = replayed fake_resize fake_rejection fake_after.(fk_state).
Proof.
  assert (Hp : plain (request_json (H := sample_platform) fake_resize)).
  { solve_plain. }
  split; [exact Hp|].
  destruct (answered_mutation_is_settled (H := sample_platform) plain_configuration fake_before fake_after fake_after
    fake_resize (Ok (Some fake_rejection)) fake_rejection 5) as (H1 & H2 & _).
  - apply reach_accept, reach_new.
  - apply (wait_over (H := sample_platform) plain_configuration [] [] (List.hd {| wc_call := PortRpc fake_resize; wc_resume := λ _, fthrow refusal |} fake_before.(fk_waiting)) false
      fake_before.(fk_state) fake_after.(fk_state) (Ok (Some fake_rejection))).
    vm_compute. reflexivity.
  - reflexivity.
  - by exists (Some fake_rejection).
  - constructor.
  - reflexivity.
  - exact Hp.
  - split; [apply (H2 "8"); discriminate|exact H1].
Defined.

(** A machine was made; then a resize of another is accepted. *)
Definition fake_made : fake_server :=
  resume_first (accept_call (H := sample_platform) plain_configuration 0 (PortRpc fake_create) new_server).
Lemma machines_answer_to_their_owners_witness :
  fake_made.(fk_state).(fs_resourceByInstance) !! "i" = Some "fake-resource-000002"
  ∧ ∃ m, fake_made.(fk_state).(fs_resources) !! "fake-resource-000002" = Some m ∧ m.(fr_instanceId) = "i".
Proof.
  split; [vm_compute; reflexivity|].
  destruct (start (H := sample_platform) plain_configuration 1 (PortRpc fake_resize) fake_made.(fk_state)) as [b s'] eqn:E.
  refine (proj1 (proj1 (proj2 (machines_answer_to_their_owners (H := sample_platform) plain_configuration fake_made _ _ _
    (call_starts plain_configuration 1 (PortRpc fake_resize) fake_made.(fk_state) s' fake_made.(fk_waiting) b E))) _ _) _).
  - apply reach_resume, reach_accept, reach_new.
  - vm_compute. reflexivity.
Defined.

(** Only what was answered is settled: the same request sent again before its
    answer is performed twice, here on one machine, and counted twice. *)
Theorem requests_in_flight_are_not_deduplicated :
  ∃ sv, reachable (H := sample_platform) plain_configuration sv
    ∧ sv.(fk_state).(fs_logicalMutationCounts) !! "submitCreateInstance" = Some 2
    ∧ size sv.(fk_state).(fs_resources) = 1%nat.
Proof.
  exists (resume_first (resume_first (accept_call (H := sample_platform) plain_configuration 0 (PortRpc fake_create)
    (accept_call (H := sample_platform) plain_configuration 0 (PortRpc fake_create) new_server)))).
  split; [|split; vm_compute; reflexivity].
  apply reach_resume, reach_resume, reach_accept, reach_accept, reach_new.
Qed.
