(* ===== verification/ProviderFactory.v ===== *)
(** * Which provider a process runs

    [apps/proxmox-provider/src/app/provider.factory.ts]: the adapter chosen
    from the environment, and why a live one is never chosen by accident.
    [requiredEnvironment] reads a setting; what the adapters' configurations of
    this development leave out is read and dropped. *)
From S2P Require Import Prelude JsText Json SshKey Domain Events Platform PageCursor Ipv4 Saga ProviderPort Redaction TerraformRunner DirectClient TerraformProvider ProxmoxProvider FakeProvider.
From Stdlib Require Import ZArith Lia Bool Ascii String.
From stdpp Require Import base decidable list strings gmap.
Open Scope string_scope.
Open Scope Z_scope.
Open Scope prog_scope.

(** [process.env]. *)
Abbreviation environ := (string → option string) (only parsing).

(** ** Settings *)

Definition setting (env : environ) (name : string) : option string := v ← env name; present (Some (trim v)).
Definition requiredEnvironment (env : environ) (name : string) : result string string :=
  match setting env name with
  | Some value => Ok value
  | None => Err (name ++ " is required when PROVIDER_ADAPTER=proxmox.")
  end.
Definition requiredInteger (env : environ) (name : string) : result string Z :=
  let? text := requiredEnvironment env name in
  match Number_integer text with
  | Some n => if isSafeInteger n then Ok n else Err (name ++ " must be an integer.")
  | None => Err (name ++ " must be an integer.")
  end.
Definition templateDiskFormat (env : environ) : result string DiskFormat :=
  let value := default "raw" (setting env "PROXMOX_TEMPLATE_DISK_FORMAT") in
  if String.eqb value "qcow2" then Ok qcow2
  else if String.eqb value "raw" then Ok raw
  else Err "PROXMOX_TEMPLATE_DISK_FORMAT must be qcow2 or raw.".

(** ** The fake *)

Definition localFakeProviderScenarios : list string := ["ambiguous"; "permanent"; "retry"; "retry-exhaustion"; "success"].
(** [Number(value ?? fallback)], when it is an integer and not negative. *)
Definition natural_setting (env : environ) (name : string) (fallback : Z) : option Z :=
  n ← match env name with None => Some fallback | Some text => Number_integer text end;
  if n <? 0 then None else Some n.
Definition plain_step (mode : FakeProviderMode) : FakeProviderStep :=
  {| st_mode := mode; st_latencyMs := None; st_applyBeforeResponse := false; st_failureCode := None;
     st_failureCategory := None; st_taskPollsBeforeSuccess := None |}.
Definition scenario_script (scenario : string) (m : ProviderMethod) : option (list FakeProviderStep) :=
  match m with
  | M_getTask =>
      if String.eqb scenario "retry" then Some [plain_step fake_failure; plain_step fake_success]
      else if String.eqb scenario "retry-exhaustion" then Some [plain_step fake_failure]
      else None
  | M_submitCreateInstance =>
      if String.eqb scenario "permanent" then
        Some [{| st_mode := fake_failure; st_latencyMs := None; st_applyBeforeResponse := false;
                 st_failureCode := Some "FAKE_IMAGE_REJECTED"; st_failureCategory := Some FAILURE_CATEGORY_VALIDATION;
                 st_taskPollsBeforeSuccess := None |}]
      else if String.eqb scenario "ambiguous" then
        Some [{| st_mode := fake_timeout; st_latencyMs := None; st_applyBeforeResponse := true; st_failureCode := None;
                 st_failureCategory := None; st_taskPollsBeforeSuccess := None |}]
      else None
  | _ => None
  end.
Definition fakeProviderConfiguration (env : environ) : result string FakeProviderConfiguration :=
  let scenario := default "success" (setting env "FAKE_PROVIDER_SCENARIO") in
  match natural_setting env "FAKE_PROVIDER_LATENCY_MS" 0, natural_setting env "FAKE_PROVIDER_TASK_POLLS" 1 with
  | Some latencyMs, Some taskPolls =>
      if negb (bool_decide (scenario ∈ localFakeProviderScenarios)) then
        Err ("FAKE_PROVIDER_SCENARIO must be one of: " ++ String.concat ", " localFakeProviderScenarios ++ ".")
      else Ok {| fc_defaultLatencyMs := Some latencyMs; fc_defaultTaskPollsBeforeSuccess := Some taskPolls;
                 fc_script := scenario_script scenario |}
  | _, _ => Err "Fake-provider latency and task polls must be non-negative integers."
  end.

(** ** The choice *)

Definition selected (env : environ) : string := default "fake" (setting env "PROVIDER_ADAPTER").
Definition providerProfileId (env : environ) : result string (option string) :=
  if String.eqb (selected env) "proxmox" || String.eqb (selected env) "terraform" then
    let? id := requiredEnvironment env "PROXMOX_PROVIDER_PROFILE_ID" in Ok (Some id)
  else Ok None.

Inductive adapter : Type :=
| RunsFake (c : FakeProviderConfiguration)
| RunsProxmox (c : ProxmoxProviderConfiguration)
| RunsTerraform (c : TerraformProxmoxConfiguration) (runner : TerraformRunnerConfiguration)
    (directClient : option DirectClientConfiguration).

Section factory.
Context `{IpAddresses}.
(** [new URL(text).protocol]; [None] when the text is not a URL. *)
Variable protocolOf : string → option string.

Definition new_ProxmoxDirectClient (endpoint : string) (c : DirectClientConfiguration) : result string DirectClientConfiguration :=
  match protocolOf endpoint with
  | None => Err "Invalid URL"
  | Some protocol => if String.eqb protocol "https:" then Ok c else Err "Proxmox endpoint must use HTTPS."
  end.

Definition terraform_runner (env : environ) : result string TerraformRunnerConfiguration :=
  let? _ := requiredEnvironment env "TERRAFORM_BINARY" in
  let? modules := requiredEnvironment env "TERRAFORM_MODULE_PATH" in
  let? purgeModules := requiredEnvironment env "TERRAFORM_PURGE_MODULE_PATH" in
  let? root := requiredEnvironment env "TERRAFORM_WORKING_ROOT" in
  let? connection := requiredEnvironment env "TERRAFORM_STATE_CONN_STR" in
  let? endpoint := requiredEnvironment env "PROXMOX_ENDPOINT" in
  let? id := requiredEnvironment env "PROXMOX_API_TOKEN_ID" in
  let? secret := requiredEnvironment env "PROXMOX_API_TOKEN_SECRET" in
  new_TerraformRunner
    {| modulePath := modules; purgeModulePath := purgeModules; workingRoot := root;
       pluginDirectory := setting env "TERRAFORM_PLUGIN_DIR"; backendConnectionString := connection;
       PROXMOX_VE_ENDPOINT := Some endpoint; PROXMOX_VE_API_TOKEN := Some (id ++ "=" ++ secret);
       PROXMOX_VE_PASSWORD := None |}.
Definition directSettings : list string := ["PROXMOX_ENDPOINT"; "PROXMOX_API_TOKEN_ID"; "PROXMOX_API_TOKEN_SECRET"].
Definition direct_client (env : environ) : result string (option DirectClientConfiguration) :=
  let configuredDirect := List.filter (λ name, bool_decide (setting env name ≠ None)) directSettings in
  if Nat.ltb 0 (List.length configuredDirect)
     && negb (Nat.eqb (List.length configuredDirect) (List.length directSettings)) then
    Err ("The direct Proxmox client needs all of " ++ String.concat ", " directSettings ++ " or none of them.")
  else if Nat.eqb (List.length configuredDirect) (List.length directSettings) then
    let? endpoint := requiredEnvironment env "PROXMOX_ENDPOINT" in
    let? _ := requiredEnvironment env "PROXMOX_API_TOKEN_ID" in
    let? _ := requiredEnvironment env "PROXMOX_API_TOKEN_SECRET" in
    let? node := requiredEnvironment env "PROXMOX_NODE" in
    let? minimum := requiredInteger env "PROXMOX_VMID_MINIMUM" in
    let? maximum := requiredInteger env "PROXMOX_VMID_MAXIMUM" in
    let? c := new_ProxmoxDirectClient endpoint
                {| dc_node := node; dc_resourceIdMinimum := minimum; dc_resourceIdMaximum := maximum |} in
    Ok (Some c)
  else Ok None.
Definition createTerraformProvider (env : environ) : result string adapter :=
  let? runner := terraform_runner env in
  let? _ := requiredEnvironment env "DATABASE_URL" in
  let? directClient := direct_client env in
  let? profile := requiredEnvironment env "PROXMOX_PROVIDER_PROFILE_ID" in
  let? _ := requiredEnvironment env "PROXMOX_PROJECT_ID" in
  let? node := requiredEnvironment env "PROXMOX_NODE" in
  let? template := requiredInteger env "PROXMOX_TEMPLATE_VMID" in
  let? format := templateDiskFormat env in
  let? pool := requiredEnvironment env "PROXMOX_POOL_ID" in
  let? image := requiredEnvironment env "PROXMOX_IMAGE_ID" in
  let? storage := requiredEnvironment env "PROXMOX_STORAGE" in
  let? disk := requiredEnvironment env "PROXMOX_DISK_INTERFACE" in
  let? bridge := requiredEnvironment env "PROXMOX_BRIDGE" in
  let? mtu := requiredInteger env "PROXMOX_NETWORK_MTU" in
  let? _ := requiredEnvironment env "PROXMOX_NETWORK_ID" in
  let? cidr := requiredEnvironment env "PROXMOX_IPV4_CIDR" in
  let? gateway := requiredEnvironment env "PROXMOX_IPV4_GATEWAY" in
  let? dns := requiredEnvironment env "PROXMOX_DNS_DOMAIN" in
  let? user := requiredEnvironment env "PROXMOX_CLOUD_INIT_USER" in
  let? password := requiredEnvironment env "PROXMOX_CLOUD_INIT_PASSWORD" in
  let? minimum := requiredInteger env "PROXMOX_VMID_MINIMUM" in
  let? maximum := requiredInteger env "PROXMOX_VMID_MAXIMUM" in
  let? c := new_TerraformProxmoxProvider
    {| tc_providerProfileId := profile; tc_node := node; tc_templateVmid := template; tc_templateDiskFormat := format;
       tc_poolId := pool; tc_imageId := image; tc_storage := storage; tc_diskInterface := disk; tc_bridge := bridge;
       tc_networkMtu := mtu; tc_ipv4Cidr := cidr; tc_ipv4Gateway := gateway; tc_dnsDomain := dns;
       tc_cloudInitUsername := user; tc_cloudInitPassword := password; tc_resourceIdMinimum := minimum;
       tc_resourceIdMaximum := maximum; tc_environment := "lab"; tc_managedBy := "private-cloud-control-plane" |} in
  Ok (RunsTerraform c runner directClient).
Definition create_proxmox (env : environ) : result string adapter :=
  let? endpoint := requiredEnvironment env "PROXMOX_ENDPOINT" in
  let? _ := requiredEnvironment env "PROXMOX_API_TOKEN_ID" in
  let? _ := requiredEnvironment env "PROXMOX_API_TOKEN_SECRET" in
  let? profile := requiredEnvironment env "PROXMOX_PROVIDER_PROFILE_ID" in
  let? _ := requiredEnvironment env "PROXMOX_CLUSTER_ALIAS" in
  let? node := requiredEnvironment env "PROXMOX_NODE" in
  let? template := requiredInteger env "PROXMOX_TEMPLATE_VMID" in
  let? image := requiredEnvironment env "PROXMOX_IMAGE_ID" in
  let? storage := requiredEnvironment env "PROXMOX_STORAGE" in
  let? bridge := requiredEnvironment env "PROXMOX_BRIDGE" in
  let? network := requiredEnvironment env "PROXMOX_NETWORK_ID" in
  let? cidr := requiredEnvironment env "PROXMOX_IPV4_CIDR" in
  let? gateway := requiredEnvironment env "PROXMOX_IPV4_GATEWAY" in
  let? minimum := requiredInteger env "PROXMOX_VMID_MINIMUM" in
  let? maximum := requiredInteger env "PROXMOX_VMID_MAXIMUM" in
  let? project := requiredEnvironment env "PROXMOX_PROJECT_ID" in
  let? c := new_ProxmoxProvider protocolOf
    {| px_endpoint := endpoint; px_providerProfileId := profile; px_node := node; px_templateVmid := template;
       px_imageId := image; px_storage := storage; px_bridge := bridge; px_networkId := network; px_ipv4Cidr := cidr;
       px_ipv4Gateway := gateway; px_resourceIdMinimum := minimum; px_resourceIdMaximum := maximum;
       px_projectId := project; px_environment := "lab"; px_managedBy := "private-cloud-control-plane" |} in
  Ok (RunsProxmox c).
Definition createProvider (env : environ) : result string adapter :=
  let adapter := selected env in
  if String.eqb adapter "fake" then let? c := fakeProviderConfiguration env in Ok (RunsFake c)
  else if String.eqb adapter "terraform" then createTerraformProvider env
  else if negb (String.eqb adapter "proxmox") then Err "PROVIDER_ADAPTER must be fake, proxmox, or terraform."
  else create_proxmox env.
End factory.

(** ** A live adapter is a deliberate choice *)

(** The settings without which no adapter of that kind is made. *)
Definition PROXMOX_SETTINGS : list string :=
  ["PROXMOX_ENDPOINT"; "PROXMOX_API_TOKEN_ID"; "PROXMOX_API_TOKEN_SECRET"; "PROXMOX_PROVIDER_PROFILE_ID";
   "PROXMOX_CLUSTER_ALIAS"; "PROXMOX_NODE"; "PROXMOX_TEMPLATE_VMID"; "PROXMOX_IMAGE_ID"; "PROXMOX_STORAGE";
   "PROXMOX_BRIDGE"; "PROXMOX_NETWORK_ID"; "PROXMOX_IPV4_CIDR"; "PROXMOX_IPV4_GATEWAY"; "PROXMOX_VMID_MINIMUM";
   "PROXMOX_VMID_MAXIMUM"; "PROXMOX_PROJECT_ID"].
Definition TERRAFORM_SETTINGS : list string :=
  ["TERRAFORM_BINARY"; "TERRAFORM_MODULE_PATH"; "TERRAFORM_PURGE_MODULE_PATH"; "TERRAFORM_WORKING_ROOT";
   "TERRAFORM_STATE_CONN_STR"; "DATABASE_URL"; "PROXMOX_ENDPOINT"; "PROXMOX_API_TOKEN_ID"; "PROXMOX_API_TOKEN_SECRET";
   "PROXMOX_PROVIDER_PROFILE_ID"; "PROXMOX_PROJECT_ID"; "PROXMOX_NODE"; "PROXMOX_TEMPLATE_VMID"; "PROXMOX_POOL_ID";
   "PROXMOX_IMAGE_ID"; "PROXMOX_STORAGE"; "PROXMOX_DISK_INTERFACE"; "PROXMOX_BRIDGE"; "PROXMOX_NETWORK_MTU";
   "PROXMOX_NETWORK_ID"; "PROXMOX_IPV4_CIDR"; "PROXMOX_IPV4_GATEWAY"; "PROXMOX_DNS_DOMAIN"; "PROXMOX_CLOUD_INIT_USER";
   "PROXMOX_CLOUD_INIT_PASSWORD"; "PROXMOX_VMID_MINIMUM"; "PROXMOX_VMID_MAXIMUM"].
Definition provided (env : environ) (name : string) : Prop := is_Some (setting env name).
Definition reserved (minimum maximum : Z) : Prop := 910000 ≤ minimum ≤ maximum ∧ maximum ≤ 910099.

Lemma required_setting (env : environ) (name value : string) :
  requiredEnvironment env name = Ok value → setting env name = Some value.
Proof. unfold requiredEnvironment. destruct (setting env name); congruence. Qed.
Lemma required_provided (env : environ) (name value : string) : requiredEnvironment env name = Ok value → provided env name.
Proof. intros H%required_setting. by exists value. Qed.
Lemma integer_provided (env : environ) (name : string) (n : Z) : requiredInteger env name = Ok n → provided env name.
Proof. unfold requiredInteger. intros (text & H & _)%rbind_Ok. by eapply required_provided. Qed.
Lemma integer_functional (env : environ) (name : string) (m n : Z) :
  requiredInteger env name = Ok m → requiredInteger env name = Ok n → m = n.
Proof. congruence. Qed.
#[local] Hint Resolve required_provided integer_provided required_setting : program.

Section deliberate.
Context `{IpAddresses}.
Variable protocolOf : string → option string.

Ltac settled_settings := repeat (apply Forall_cons; split; [by eauto with program|]); constructor.

Lemma proxmox_made (env : environ) (a : adapter) :
  create_proxmox protocolOf env = Ok a →
  Forall (provided env) PROXMOX_SETTINGS
  ∧ ∃ c, a = RunsProxmox c ∧ protocolOf c.(px_endpoint) = Some "https:"
    ∧ reserved c.(px_resourceIdMinimum) c.(px_resourceIdMaximum) ∧ network_contains_gateway c = true
    ∧ setting env "PROXMOX_PROJECT_ID" = Some c.(px_projectId)
    ∧ setting env "PROXMOX_PROVIDER_PROFILE_ID" = Some c.(px_providerProfileId).
Proof.
  unfold create_proxmox. intros Hok. repeat (apply rbind_Ok in Hok as (? & ? & Hok)). injection Hok as <-.
  split; [settled_settings|]. eexists. split; [done|].
  match goal with Hc : new_ProxmoxProvider _ _ = Ok _ |- _ => rename Hc into Hnew end.
  unfold new_ProxmoxProvider in Hnew. cbn [px_endpoint] in Hnew. destruct (protocolOf _) as [protocol|] eqn:Ep; [|done].
  destruct (String.eqb_spec protocol "https:") as [->|]; [|done]. destruct (_ && _) eqn:Er in Hnew; [|done].
  destruct (network_contains_gateway _) eqn:En in Hnew; [|done]. injection Hnew as <-. cbn in *. unbool. unfold reserved.
  split_and!; eauto with program.
Qed.
Lemma direct_client_made (env : environ) (endpoint id secret : string) (d : option DirectClientConfiguration) :
  setting env "PROXMOX_ENDPOINT" = Some endpoint → setting env "PROXMOX_API_TOKEN_ID" = Some id →
  setting env "PROXMOX_API_TOKEN_SECRET" = Some secret → direct_client protocolOf env = Ok d →
  ∃ c, d = Some c ∧ protocolOf endpoint = Some "https:"
    ∧ requiredInteger env "PROXMOX_VMID_MINIMUM" = Ok c.(dc_resourceIdMinimum)
    ∧ requiredInteger env "PROXMOX_VMID_MAXIMUM" = Ok c.(dc_resourceIdMaximum).
Proof.
  intros H1 H2 H3. unfold direct_client, directSettings. cbn [List.filter]. rewrite H1, H2, H3. cbn [bool_decide]. intros Hok.
  rewrite !bool_decide_true in Hok by done. cbn in Hok. unfold requiredEnvironment at 1 in Hok. rewrite H1 in Hok. cbn in Hok.
  repeat (apply rbind_Ok in Hok as (? & ? & Hok)). injection Hok as <-. eexists. split; [done|].
  match goal with Hc : new_ProxmoxDirectClient _ _ _ = Ok _ |- _ => unfold new_ProxmoxDirectClient in Hc; rename Hc into Hnew end.
  destruct (protocolOf endpoint) as [p|]; [|done]. destruct (String.eqb p "https:") eqn:Ep; [|done].
  apply String.eqb_eq in Ep. injection Hnew as <-. by split_and!; [congruence|..].
Qed.
Lemma terraform_made (env : environ) (a : adapter) :
  createTerraformProvider protocolOf env = Ok a →
  Forall (provided env) TERRAFORM_SETTINGS
  ∧ ∃ c runner d, a = RunsTerraform c runner (Some d) ∧ reserved c.(tc_resourceIdMinimum) c.(tc_resourceIdMaximum)
    ∧ d.(dc_resourceIdMinimum) = c.(tc_resourceIdMinimum) ∧ d.(dc_resourceIdMaximum) = c.(tc_resourceIdMaximum)
    ∧ (∃ endpoint, setting env "PROXMOX_ENDPOINT" = Some endpoint ∧ protocolOf endpoint = Some "https:"
         ∧ runner.(PROXMOX_VE_ENDPOINT) = Some endpoint)
    ∧ (contains runner.(backendConnectionString) "?sslmode=" || contains runner.(backendConnectionString) "&sslmode=") = true
    ∧ setting env "PROXMOX_PROVIDER_PROFILE_ID" = Some c.(tc_providerProfileId).
Proof.
  unfold createTerraformProvider. intros Hok. repeat (apply rbind_Ok in Hok as (? & ? & Hok)). injection Hok as <-.
  match goal with Hr : terraform_runner _ = Ok _ |- _ => rename Hr into Hrun end.
  unfold terraform_runner in Hrun. repeat (apply rbind_Ok in Hrun as (? & ? & Hrun)).
  split; [settled_settings|].
  match goal with Hd : direct_client _ _ = Ok _ |- _ => eapply direct_client_made in Hd as (d & -> & Hp & Hmin & Hmax);
    [|eapply required_setting; eassumption..] end.
  match goal with Hc : new_TerraformProxmoxProvider _ = Ok _ |- _ => rename Hc into Hnew end.
  unfold new_TerraformProxmoxProvider in Hnew. destruct (_ && _) eqn:Er in Hnew; [|done].
  destruct (truthy _) in Hnew; [|done]. injection Hnew as <-. unfold new_TerraformRunner in Hrun.
  destruct (negb _) in Hrun; [|done]. destruct (negb _) in Hrun; [|done]. destruct (_ || _) eqn:Es in Hrun; [|done].
  injection Hrun as <-. cbn in *. revert Es. unbool. intros Es. unfold reserved, RESERVED_VMID_MINIMUM, RESERVED_VMID_MAXIMUM in *.
  eexists _, _, d. split_and!; eauto using integer_functional with program.
Qed.

(** A live provider is never run by accident.  Whatever the environment
    is: the fake is run exactly when PROVIDER_ADAPTER is absent, blank or
    "fake"; a live adapter only when it is named, every one of its settings is
    given and not blank, its endpoint is reached over HTTPS, and the machine
    identifiers it may touch, for Terraform and for its direct client alike,
    lie inside the reserved interval; and the profile it serves is the one the
    readiness probe asks about.  A live adapter that is named but not fully
    configured is an error, never the fake. *)
Theorem live_adapter_is_deliberate (env : environ) (a : adapter) (Hmade : createProvider protocolOf env = Ok a) :
  match a with
  | RunsFake c =>
      (setting env "PROVIDER_ADAPTER" = None ∨ setting env "PROVIDER_ADAPTER" = Some "fake")
      ∧ providerProfileId env = Ok None
  | RunsProxmox c =>
      setting env "PROVIDER_ADAPTER" = Some "proxmox" ∧ Forall (provided env) PROXMOX_SETTINGS
      ∧ protocolOf c.(px_endpoint) = Some "https:" ∧ reserved c.(px_resourceIdMinimum) c.(px_resourceIdMaximum)
      ∧ network_contains_gateway c = true ∧ setting env "PROXMOX_PROJECT_ID" = Some c.(px_projectId)
      ∧ providerProfileId env = Ok (Some c.(px_providerProfileId))
  | RunsTerraform c runner d =>
      setting env "PROVIDER_ADAPTER" = Some "terraform" ∧ Forall (provided env) TERRAFORM_SETTINGS
      ∧ reserved c.(tc_resourceIdMinimum) c.(tc_resourceIdMaximum)
      ∧ (∃ direct, d = Some direct ∧ reserved direct.(dc_resourceIdMinimum) direct.(dc_resourceIdMaximum))
      ∧ (∃ endpoint, runner.(PROXMOX_VE_ENDPOINT) = Some endpoint ∧ protocolOf endpoint = Some "https:")
      ∧ (contains runner.(backendConnectionString) "?sslmode=" || contains runner.(backendConnectionString) "&sslmode=") = true
      ∧ providerProfileId env = Ok (Some c.(tc_providerProfileId))
  end.
Proof.
  revert Hmade. unfold createProvider, providerProfileId, selected.
  destruct (setting env "PROVIDER_ADAPTER") as [name|] eqn:Es; cbn [from_option id].
  2: { cbn. intros (c & _ & [= <-])%rbind_Ok. by split; [left|]. }
  destruct (String.eqb_spec name "fake") as [->|].
  { intros (c & _ & [= <-])%rbind_Ok. by split; [right|]. }
  destruct (String.eqb_spec name "terraform") as [->|].
  { intros (Hall & c & runner & d & -> & Hres & H1 & H2 & (e & _ & He & Hre) & Hssl & Hprofile)%terraform_made.
    cbn. unfold requiredEnvironment. rewrite Hprofile. split_and!; try done.
    - exists d. by rewrite H1, H2.
    - by exists e. }
  destruct (String.eqb_spec name "proxmox") as [->|]; [|intros [=]]. cbn [negb].
  intros (Hall & c & -> & Hp & Hres & Hnet & Hproject & Hprofile)%proxmox_made.
  cbn. unfold requiredEnvironment. rewrite Hprofile. by split_and!.
Qed.
End deliberate.

(** ** Witness *)

Definition lab_addresses : IpAddresses :=
  {| ip_address := string; ip_parse := Some; ip_parseCIDR s := Some (s, 24); ip_is_v4 _ := true; ip_match _ _ _ := true |}.
Definition lab_env (name : string) : option string :=
  if String.eqb name "PROVIDER_ADAPTER" then Some " proxmox "
  else if String.eqb name "PROXMOX_VMID_MINIMUM" then Some "910000"
  else if String.eqb name "PROXMOX_VMID_MAXIMUM" then Some "910099"
  else if String.eqb name "PROXMOX_TEMPLATE_VMID" then Some "9000"
  else if bool_decide (name ∈ PROXMOX_SETTINGS) then Some "value" else None.
Definition lab_configuration : ProxmoxProviderConfiguration :=
  {| px_endpoint := "value"; px_providerProfileId := "value"; px_node := "value"; px_templateVmid := 9000;
     px_imageId := "value"; px_storage := "value"; px_bridge := "value"; px_networkId := "value"; px_ipv4Cidr := "value";
     px_ipv4Gateway := "value"; px_resourceIdMinimum := 910000; px_resourceIdMaximum := 910099; px_projectId := "value";
     px_environment := "lab"; px_managedBy := "private-cloud-control-plane" |}.
Lemma live_adapter_is_deliberate_witness :
  setting lab_env "PROVIDER_ADAPTER" = Some "proxmox" ∧ Forall (provided lab_env) PROXMOX_SETTINGS.
Proof.
  destruct (live_adapter_is_deliberate (H := lab_addresses) (λ _, Some "https:") lab_env (RunsProxmox lab_configuration)
    ltac:(vm_compute; reflexivity)) as (H1 & H2 & _). by split.
Defined.
